(* ===== verification/_CoqProject ===== *)
-Q . S2P
Prelude.v
PhysMem.v
Paging.v
Heap.v
Kmalloc.v
KBytes.v
MemInv.v
Boot.v
Scheduler.v
Device.v
PartMgr.v
Fat32.v
KString.v
FatWrite.v
FatDir.v
FatPath.v
FatCreate.v
RamFS.v
Elf.v
Exec.v
Ustar.v
Ports.v
Serial.v
Pci.v
Vector.v
Interrupts.v
Modules.v
Api.v
FatMount.v
Partitions.v
Initrc.v
Threads.v
Kmain.v
Panic.v
Disk.v
Ata.v
DiskWrite.v
DiskImage.v
