(* ===== verification/Prelude.v ===== *)
(** * Kimi's OS: a verification library

    Kimi's OS is a 32-bit x86 kernel with loadable driver modules.  The library
    models its C code as executable functions and proves what the parts promise
    to each other.  This file holds the shared vocabulary; the other files each
    model one component, in the order of [_CoqProject].

    ** The program and the files that model it

    Paths are relative to src/src of the repository.

    - Kernel memory, kernel/arch_i386/memory.c.  [PhysMem] models the bitmap of
      physical frames ([pm_alloc], [pm_alloc_64kaligned], [pm_free],
      [pm_reserve]); [Paging] models the recursive page tables, with an explicit
      MMU walk so that [map] writes through the very tables it changes; [Heap]
      models the nibble map of the permanent heap; [Kmalloc] joins the three
      states and models [kmalloc], [kfree], [kmalloc_page_paddr], start-up from
      the BIOS memory map and the functions that work on another address space.
      [KBytes] is about bytes and words of kernel pages; [MemInv] runs any sequence of
      calls of the parts and keeps one invariant of all of memory; [Boot] is about
      [pm_init] on the memory map of the firmware; its argument is the word at the symbol
      [_start], which the source takes for an address.
    - Processes, kernel/system/scheduler.c.  [Scheduler] models the process table,
      the run queue, the choice made on each timer interrupt and the calls that
      spawn, fork, kill, block and join; [Threads] shows what a new thread is resumed
      from.
    - Files, kernel/system/vfs.c and ramfs.c.  [Device] states what the driver
      behind a file promises ([BlockDev]); [RamFS] models files as structures
      at addresses, path resolution, creation, deletion, reading and writing.  Its invariant
      [fs_ok] is about the files in memory; files that drivers have taken over stand in
      the same tree (section [driver_file]).
    - Driver modules.  [PartMgr] models kmodules/partition_mgr.c and is proved to be
      a [BlockDev] over any other, [Partitions] the files it makes in /dev/disk; [Fat32], [FatDir] and [FatWrite] model
      kmodules/fs_driver.c against [BlockDev] ([Fat32] the cached allocation table
      and reading, [FatWrite] the growing of cluster chains and writing,
      [FatDir] the names in directories, [FatPath] paths and the list of open files,
      [FatCreate] the creation of files, [FatMount] mounting over [RamFS]).
    - Libraries, kernel/shared.  [KString] models string.h, kernel/system/string.c
      and [atoi] over byte memory; [Vector] models [vector_t]; [Serial] models
      kernel/drivers/serial.c and the log of kstdlib.c, down to the bytes sent.
    - Modules, kernel/system/modules.c.  [Modules] models interrupt ownership and the
      dispatch of messages over the table of modules; [Api] models [module_api] with every
      case over the class [KernelApi], registration in the memory of the driver, and the
      wrappers of kmodules/modlib.h.
    - Hardware.  [Ports] models port input and output (kernel/drivers/cpuio.h) as
      a log of accesses, and kernel/drivers/pic.c against the protocol of the
      8259A; [Interrupts] models kernel/arch_i386/interrupts.c on top of [Ports]
      and [Scheduler]: the descriptor table, the timer, the task state segment and
      the way of an interrupt from the frame it pushes to the frame it resumes.
      [Panic] models the exception handler and [kernel_panic], down to the text sent (not
      all fields of a frame are).
    - Driver modules are loaded by kernel/system/elf.c: [Elf] models the loading of
      shared objects into pages from [Kmalloc].  [Exec] models the loading of programs and
      [exec]: pages are mapped and filled through the page tables.
    - Start-up.  [Ustar] models kernel/drivers/ustar.c, which makes files of [/boot]
      out of a tar archive, over [RamFS]; [Initrc] models the interpreter of the
      start-up script, kernel/system/intirc.c, over the class [InitrcEnv] of what it
      asks of the kernel, and the settings of kernel/shared/config.c.  [Kmain] joins the
      states of all parts of the kernel and models kernel/kmain.c up to its endless loop.
    - PCI, kernel/drivers/pci.c.  [Pci] models configuration space, the search for
      devices and the files made for them in the RAM file system.
    - The disk, kmodules/disk_driver.c.  [Disk] models reading and writing of any
      range of bytes over the class [AtaChannel]; [Ata] models one channel
      (regions for the bus master, commands, interrupt, detection of drives), is run
      against the data sheets of drive and bus master, and is the instance of
      [AtaChannel].
    - The tool, tools/diskwrite.c.  [DiskWrite] models how it puts files into an image;
      [DiskImage] mounts that image with the driver of the kernel.

    The parts meet as in the code: [map] takes frames from [pm_alloc]; [kmalloc]
    takes frames, table entries and heap blocks; the scheduler takes stacks and
    page directories from [kmalloc]; a file system reads and writes a file whose
    driver is a partition, whose driver is a disk.

    ** Conventions

    A C function is a function of the state monad [M S A]: it returns [Ok (a, s)]
    or stops with a [fault] (an access the MMU refuses, an index outside of an
    array, a lock that is never released, a divide error, a call through a null
    pointer, a kernel panic).  Integers are [Z]; every operation that can leave
    its C type is wrapped with [u8], [u16], [u32], [u64], [s8] or [s32].  Arrays
    are functions or finite maps from their index, with the bounds the C object
    has.  A spin lock taken while it is held is [Deadlock]: the
    code runs with one processor, and nobody else can release it.

    [wp m Q s] says that [m] started in [s] returns and that [Q] holds of the
    result: it is total correctness, so a theorem stated with it excludes faults
    and non-termination.  Its rules are in the hint database [wp], used by the
    tactic [wp].

    A C loop is [loop fuel body init], which stops with [OutOfFuel] after [fuel]
    rounds.  [fuel32] is 2^32: every counter of the loops modelled with it is
    a [uint32_t] that grows in each round.  The rules [loop_wp] and its relatives
    ask for a measure below the fuel, so the theorems show that the loops end.
    Loops that wait for hardware have the same bound: the theorems ask for an
    answer within it.
    Loops that never end are proved to run out of any fuel ([loop_diverges]).
    The recursion of [vfcreate] has the length of the path plus one as fuel:
    each call consumes at least one character.

    ** What the theorems show

    - Refinement: call sequences of the frame allocator are runs of a set of free
      frames; the heap map is a set of disjoint blocks; accesses through the
      FAT window are accesses of a plain table.
    - Hardware: what is sent to a chip is decoded by a model of its data sheet (the
      interrupt controllers, the timer, the drive, the bus master), so the
      theorems speak of what the chip does and not of the bytes sent.
    - Function of each operation on its branches: first fit of the allocators,
      the translation installed by [map] for the software readers and for the
      hardware walk, frames and pages behind [kmalloc], the process chosen by
      [schedule] and its fairness, process creation and thread exit, the
      acceptance of partition tables, delivery of the bytes of a file.
    - Composition: a path is resolved through the directories of a volume, the file is
      put on the list of open files and its bytes are read ([fat32_open_reads]); a program
      is loaded from its file into pages of its own and entered with its stacks
      ([enter_program_ready]); files that the tool has written into an image are found and
      read by the kernel's driver ([image_file_reads]); from the machine as the boot loader
      hands it over [kmain] gets to two threads that are ready to run ([kmain_boots]).
    - Round trips: allocate and free, map and unmap, write and read of RAM
      files, partitions and FAT32 files, creation and opening of a path, long
      names over directory entries, [itoa] and [atoi].
    - Formats: what the interpreter of scripts and the reader of tar archives do is
      compared with a grammar of scripts and a description of the archive format; segments
      of driver modules are found where their program headers ask for.
    - Invariants of the whole: live blocks of memory never share a byte, whatever the
      calls ([kernel_memory_invariant]); the tree of files stays in order when drivers
      mount volumes and make files of partitions.
    - Safety: no double allocation, isolation of partitions, the user bit.
    - What the code does at its edges, where it is not what one would expect:
      exhaustion of memory, reservation, removal of absent processes, bounds of
      a partition, attributes that look like name parts, growth of a vector (the table of
      modules has room for 102, and the push of another never returns), directory
      entries behind 4 GiB ([dirent_page_offset_wraps]), ends of partitions that wrap
      ([detect_partitions_wrapped]), mounts at an offset ([mount_offset_ignored]), and the
      start word of [pm_init].  The theorems next to these keep to the other side of the edge:
      mounting is about volumes at the start of their device, writing and creating files
      about directory entries below 4 GiB, registration about the first 102 modules.

    ** Seams

    Where a component only relies on another's promise it is modelled against
    that promise.  [Fat32] and [PartMgr] are written over the class [BlockDev],
    [Disk] over [AtaChannel], which [Ata] implements: [kidm_write_read] goes
    through both.
    [RamFS] and [Vector] see [kmalloc] as their client sees it: it
    returns a fresh block, whose bytes are not known, or fails.  Message handlers and interrupt handlers
    are functions of the model's arguments.

    ** Not modelled

    Assembly (the boot loader, interrupt entry, context restore), and the body of the
    first thread, [sysinit] of kmain.c, which calls parts that are modelled one after the
    other ([pci_init], [read_initrd], [modules_init], [initrc_read]).  Of text output,
    what [kmain], [ramfs_init] and the exception handler print is modelled; progress
    messages elsewhere are left out, among them those of [pm_init] and of the drivers,
    and the listing that diskwrite prints with its option -l.  [fini] of the drivers only
    frees memory or does nothing.  Compiler and hardware reordering is not modelled: the
    code runs on one processor. *)
From Stdlib Require Export ZArith Lia.
From stdpp Require Export base numbers gmap strings option.
From stdpp Require Export list.

#[export] Set Default Proof Using "Type".
Open Scope Z_scope.

#[global] Arguments Z.testbit : simpl never.
#[global] Arguments Z.land : simpl never.
#[global] Arguments Z.lor : simpl never.
#[global] Arguments Z.shiftl : simpl never.
#[global] Arguments Z.shiftr : simpl never.
#[global] Arguments Z.mul : simpl never.
#[global] Arguments Z.add : simpl never.
#[global] Arguments Z.sub : simpl never.
#[global] Arguments Z.div : simpl never.
#[global] Arguments Z.modulo : simpl never.
#[global] Arguments Z.to_nat : simpl never.

(** ** Machine integers *)

(** An unsigned [w]-bit C integer is a [Z]; every operation that can leave
    the range is wrapped explicitly, as the C conversion does. *)
Definition u8 (x : Z) : Z := x mod 2 ^ 8.
Definition u16 (x : Z) : Z := x mod 2 ^ 16.
Definition u32 (x : Z) : Z := x mod 2 ^ 32.
Definition u64 (x : Z) : Z := x mod 2 ^ 64.
(** Conversion to [int32_t]. *)
Definition s32 (x : Z) : Z := (x + 2 ^ 31) mod 2 ^ 32 - 2 ^ 31.
(** Conversion to [char], which is signed on i386. *)
Definition s8 (x : Z) : Z := (x + 2 ^ 7) mod 2 ^ 8 - 2 ^ 7.

(** A C truth value used as an integer, as in [FLAG * (i > 0)]. *)
Definition b2z (b : bool) : Z := if b then 1 else 0.

(** The bytes of a literal, without the terminator. *)
Fixpoint bytes_of_string (s : string) : list Z :=
  match s with
  | EmptyString => []
  | String c s => Z.of_nat (Ascii.nat_of_ascii c) :: bytes_of_string s
  end.

Definition is_u8 (x : Z) : Prop := 0 <= x < 2 ^ 8.
Definition is_u32 (x : Z) : Prop := 0 <= x < 2 ^ 32.

#[export] Instance is_u8_dec x : Decision (is_u8 x).
Proof. unfold is_u8. apply _. Defined.
#[export] Instance is_u32_dec x : Decision (is_u32 x).
Proof. unfold is_u32. apply _. Defined.

Definition PAGE_SIZE_BYTES : Z := 4096.

(** ** Faults, results and the state monad of the kernel's C code *)

(** What stops a C function from returning: an access the MMU refuses, an
    index outside of an array, a spin on a lock nobody can release, a kernel
    panic, the processor's divide error, a call through a null function pointer,
    and a loop that exceeds the bound the model gives it. *)
Inductive fault :=
  | PageFault (addr : Z)
  | OutOfBounds (index : Z)
  | Deadlock
  | Panic
  | DivideError
  | NullCall
  | OutOfFuel.

#[export] Instance fault_eq_dec : EqDecision fault.
Proof. solve_decision. Defined.

Inductive res (A : Type) :=
  | Ok (a : A)
  | Err (e : fault).
Arguments Ok {A} a.
Arguments Err {A} e.

Definition M (S A : Type) : Type := S → res (A * S).

#[export] Instance M_ret S : MRet (M S) := λ A a s, Ok (a, s).
Definition bind {S A B} (m : M S A) (f : A → M S B) : M S B := λ s,
  match m s with
  | Ok (a, s') => f a s'
  | Err e => Err e
  end.

Declare Scope kos_scope.
Delimit Scope kos_scope with kos.
Notation "x ← y ; z" := (bind y (λ x, z))
  (at level 20, y at level 100, z at level 200, only parsing) : kos_scope.
Notation "' x ← y ; z" := (bind y (λ x, z))
  (at level 20, x pattern, y at level 100, z at level 200, only parsing) : kos_scope.
Notation "x ;; z" := (bind x (λ _, z))
  (at level 100, z at level 200, right associativity, only parsing) : kos_scope.
Open Scope kos_scope.

Definition fail {S A} (e : fault) : M S A := λ _, Err e.
Definition gets {S A} (f : S → A) : M S A := λ s, Ok (f s, s).
Definition modify {S} (f : S → S) : M S unit := λ s, Ok (tt, f s).
Definition skip {S} : M S unit := mret tt.
(** [when c m] is the C statement [if(c) m]. *)
Definition when {S} (c : bool) (m : M S unit) : M S unit := if c then m else skip.

(** Running a component inside a larger state. *)
Class Lens (S T : Type) := {
  view : S → T;
  put : T → S → S;
  view_put t s : view (put t s) = t;
  put_put t t' s : put t (put t' s) = put t s;
  put_view s : put (view s) s = s;
}.

Definition zoom {S T A} `{Lens S T} (m : M T A) : M S A := λ s,
  match m (view s) with
  | Ok (a, t) => Ok (a, put t s)
  | Err e => Err e
  end.

(** ** Loops *)

(** [for(i = lo; i < hi; i++) body], the body ending an iteration with
    [None] (fall through or [continue]) or the loop with [Some r]. *)
Fixpoint for_nat {S R} (n : nat) (i : Z) (body : Z → M S (option R)) : M S (option R) :=
  match n with
  | O => mret None
  | S n =>
      r ← body i;
      match r with
      | Some v => mret (Some v)
      | None => for_nat n (i + 1) body
      end
  end.
Definition for_loop {S R} (lo hi : Z) (body : Z → M S (option R)) : M S (option R) :=
  for_nat (Z.to_nat (hi - lo)) lo body.

(** The same with local variables [a] that the body changes: [inl] goes on,
    [inr] leaves the loop. *)
Fixpoint fora_nat {S A R} (n : nat) (i : Z) (body : Z → A → M S (A + R)) (a : A)
    : M S (A + R) :=
  match n with
  | O => mret (inl a)
  | S n =>
      r ← body i a;
      match r with
      | inr v => mret (inr v)
      | inl a => fora_nat n (i + 1) body a
      end
  end.
Definition fora_loop {S A R} (lo hi : Z) (body : Z → A → M S (A + R)) (a : A)
    : M S (A + R) :=
  fora_nat (Z.to_nat (hi - lo)) lo body a.

(** A counted loop that always runs to its bound. *)
Definition for_all {S} (lo hi : Z) (body : Z → M S unit) : M S unit :=
  _ ← for_loop (R := unit) lo hi (λ i, _ ← body i; mret None); skip.

(** A [while] loop, run for at most [p] iterations.  The bound is binary, so
    a bound of [2 ^ 32] costs nothing unless the loop really iterates. *)
Fixpoint loop_pos {S A R} (p : positive) (body : A → M S (A + R)) (a : A) : M S (A + R) :=
  let again q x :=
    match x with
    | inl a => loop_pos q body a
    | inr r => mret (inr r)
    end in
  match p with
  | xH => body a
  | xO q => x ← loop_pos q body a; again q x
  | xI q => x ← body a; y ← again q x; again q y
  end.
Definition loop {S A R} (p : positive) (body : A → M S (A + R)) (a : A) : M S R :=
  x ← loop_pos p body a;
  match x with
  | inr r => mret r
  | inl _ => fail OutOfFuel
  end.

(** No loop over 32-bit indices that makes progress runs longer. *)
Definition fuel32 : positive := Pos.pow 2 32.

(** ** Total correctness *)

(** [wp m Q s]: run from [s], [m] returns (no fault, no exhausted loop bound)
    and its result and final state satisfy [Q]. *)
Definition wp {S A} (m : M S A) (Q : A → S → Prop) (s : S) : Prop :=
  match m s with
  | Ok (a, s') => Q a s'
  | Err _ => False
  end.
Arguments wp : simpl never.

Section wp_rules.
Context {S : Type}.
Implicit Types s : S.

Lemma wp_ok {A} (m : M S A) Q s : wp m Q s ↔ ∃ a s', m s = Ok (a, s') ∧ Q a s'.
Proof.
  unfold wp. destruct (m s) as [[a s']|e]; split; [by exists a, s'| |done|by intros (?&?&?&?)].
  by intros (?&?&[= -> ->]&?).
Qed.

Lemma wp_unit (m : M S unit) (Q : S → Prop) s :
  wp m (λ _, Q) s → ∃ s', m s = Ok (tt, s') ∧ Q s'.
Proof. intros ([] & s' & ? & ?)%wp_ok. eauto. Qed.

(** A call that only reads the state. *)
Lemma wp_pure {A} (m : M S A) a s : wp m (λ a' s', a' = a ∧ s' = s) s → m s = Ok (a, s).
Proof. by intros (? & ? & ? & -> & ->)%wp_ok. Qed.

Lemma wp_mono {A} (m : M S A) (P Q : A → S → Prop) s :
  wp m P s → (∀ a s', P a s' → Q a s') → wp m Q s.
Proof. unfold wp. destruct (m s) as [[]|]; auto. Qed.

Lemma wp_and {A} (m : M S A) (P Q : A → S → Prop) s :
  wp m P s → wp m Q s → wp m (λ a s', P a s' ∧ Q a s') s.
Proof. unfold wp. destruct (m s) as [[]|]; auto. Qed.

Lemma wp_run {A} (m : M S A) Q s a s' : m s = Ok (a, s') → wp m Q s = Q a s'.
Proof. unfold wp. by intros ->. Qed.

Lemma wp_ret {A} (a : A) Q s : wp (mret a) Q s = Q a s.
Proof. done. Qed.

Lemma wp_bind {A B} (m : M S A) (f : A → M S B) Q s :
  wp (bind m f) Q s = wp m (λ a s', wp (f a) Q s') s.
Proof. unfold wp, bind. by destruct (m s) as [[]|]. Qed.

Lemma wp_gets {A} (f : S → A) Q s : wp (gets f) Q s = Q (f s) s.
Proof. done. Qed.

Lemma wp_modify (f : S → S) Q s : wp (modify f) Q s = Q tt (f s).
Proof. done. Qed.

Lemma wp_skip Q s : wp (@skip S) Q s = Q tt s.
Proof. done. Qed.

Lemma wp_fail {A} e (Q : A → S → Prop) s : wp (fail e) Q s = False.
Proof. done. Qed.

Lemma wp_when c (m : M S unit) Q s : wp (when c m) Q s = if c then wp m Q s else Q tt s.
Proof. by destruct c. Qed.

Lemma wp_zoom {T A} `{!Lens S T} (m : M T A) Q s :
  wp (zoom m) Q s = wp m (λ a t, Q a (put t s)) (view s).
Proof. unfold wp, zoom. by destruct (m (view s)) as [[]|]. Qed.
End wp_rules.

(** Executing the first half of a sequence. *)
Lemma bind_ok {S A B} (m : M S A) (f : A → M S B) s a s' :
  m s = Ok (a, s') → bind m f s = f a s'.
Proof. unfold bind. by intros ->. Qed.
Lemma bind_err {S A B} (m : M S A) (f : A → M S B) s e : m s = Err e → bind m f s = Err e.
Proof. unfold bind. by intros ->. Qed.

Create Rewrite HintDb wp.
#[export] Hint Rewrite @wp_bind @wp_ret @wp_gets @wp_modify @wp_skip @wp_fail
  @wp_when @wp_zoom : wp.
Ltac wp := autorewrite with wp; cbn beta iota.

Section loop_rules.
Context {S : Type}.
Implicit Types s : S.

Lemma wp_for_nat {R} (I : Z → S → Prop) (Q : option R → S → Prop) body n i s :
  I i s →
  (∀ k s, i <= k < i + Z.of_nat n → I k s →
     wp (body k) (λ r s', match r with Some v => Q (Some v) s' | None => I (k + 1) s' end) s) →
  (∀ s, I (i + Z.of_nat n) s → Q None s) →
  wp (for_nat n i body) Q s.
Proof.
  revert i s. induction n as [|n IH]; intros i s HI Hbody Hend; simpl; wp.
  - apply Hend. by replace (i + Z.of_nat 0) with i by lia.
  - eapply wp_mono; [apply Hbody; [lia|done]|]. intros [v|] s' Hs; wp; [done|].
    apply IH; [done| |].
    + intros. apply Hbody; [lia|done].
    + intros s'' ?. apply Hend. by replace (i + Z.of_nat (Datatypes.S n))
        with (i + 1 + Z.of_nat n) by lia.
Qed.

(** The rule of a counted loop: an invariant indexed by the counter. *)
Lemma wp_for {R} (I : Z → S → Prop) (Q : option R → S → Prop) lo hi body s :
  lo <= hi →
  I lo s →
  (∀ k s, lo <= k < hi → I k s →
     wp (body k) (λ r s', match r with Some v => Q (Some v) s' | None => I (k + 1) s' end) s) →
  (∀ s, I hi s → Q None s) →
  wp (for_loop lo hi body) Q s.
Proof.
  intros Hle HI Hbody Hend. unfold for_loop.
  apply (wp_for_nat I); [done| |].
  - intros. apply Hbody; [lia|done].
  - intros s' Hs. apply Hend. by replace hi with (lo + Z.of_nat (Z.to_nat (hi - lo))) by lia.
Qed.

Lemma wp_fora_nat {A R} (I : Z → A → S → Prop) (Q : A + R → S → Prop) body n i a s :
  I i a s →
  (∀ k a s, i <= k < i + Z.of_nat n → I k a s →
     wp (body k a) (λ r s', match r with inr v => Q (inr v) s' | inl a' => I (k + 1) a' s' end) s) →
  (∀ a s, I (i + Z.of_nat n) a s → Q (inl a) s) →
  wp (fora_nat n i body a) Q s.
Proof.
  revert i a s. induction n as [|n IH]; intros i a s HI Hbody Hend; simpl; wp.
  - apply Hend. by replace (i + Z.of_nat 0) with i by lia.
  - eapply wp_mono; [apply Hbody; [lia|done]|]. intros [v|] s' Hs; wp; [|done].
    apply IH; [done| |].
    + intros. apply Hbody; [lia|done].
    + intros a' s'' ?. apply Hend. by replace (i + Z.of_nat (Datatypes.S n))
        with (i + 1 + Z.of_nat n) by lia.
Qed.

Lemma wp_fora {A R} (I : Z → A → S → Prop) (Q : A + R → S → Prop) lo hi body a s :
  lo <= hi →
  I lo a s →
  (∀ k a s, lo <= k < hi → I k a s →
     wp (body k a) (λ r s', match r with inr v => Q (inr v) s' | inl a' => I (k + 1) a' s' end) s) →
  (∀ a s, I hi a s → Q (inl a) s) →
  wp (fora_loop lo hi body a) Q s.
Proof.
  intros Hle HI Hbody Hend. unfold fora_loop.
  apply (wp_fora_nat I); [done| |].
  - intros. apply Hbody; [lia|done].
  - intros a' s' Hs. apply Hend. by replace hi with (lo + Z.of_nat (Z.to_nat (hi - lo))) by lia.
Qed.

Lemma wp_for_all (I : Z → S → Prop) (Q : unit → S → Prop) lo hi body s :
  lo <= hi →
  I lo s →
  (∀ k s, lo <= k < hi → I k s → wp (body k) (λ _ s', I (k + 1) s') s) →
  (∀ s, I hi s → Q tt s) →
  wp (for_all lo hi body) Q s.
Proof.
  intros Hle HI Hbody Hend. unfold for_all. wp.
  apply (wp_for I); [done..| |].
  - intros k s' Hk Hs. wp. eapply wp_mono; [by apply Hbody|]. intros; by wp.
  - intros s' Hs. wp. auto.
Qed.

Lemma wp_loop_pos {A R} (I : A → S → Prop) (μ : A → S → Z) (Q : R → S → Prop) body p a s :
  (∀ a s, I a s →
     wp (body a) (λ x s', match x with
                          | inl a' => I a' s' ∧ μ a' s' < μ a s
                          | inr r => Q r s' end) s) →
  I a s →
  wp (loop_pos p body a)
     (λ x s', match x with
              | inl a' => I a' s' ∧ μ a' s' + Zpos p <= μ a s
              | inr r => Q r s' end) s.
Proof.
  intros Hbody. revert a s. induction p as [p IH|p IH|]; intros a s HI; simpl; wp.
  - eapply wp_mono; [by apply Hbody|]. intros [a1|r] s1 H1; wp; [|done].
    destruct H1 as [H1 Hm1].
    eapply wp_mono; [by apply IH|]. intros [a2|r] s2 H2; wp; [|done].
    destruct H2 as [H2 Hm2].
    eapply wp_mono; [by apply IH|]. intros [a3|r] s3 H3; [|done]. destruct H3. split; [done|lia].
  - eapply wp_mono; [by apply IH|]. intros [a1|r] s1 H1; wp; [|done].
    destruct H1 as [H1 Hm1].
    eapply wp_mono; [by apply IH|]. intros [a2|r] s2 H2; [|done]. destruct H2. split; [done|lia].
  - eapply wp_mono; [by apply Hbody|]. intros [a1|r] s1 H1; [|done]. destruct H1. split; [done|lia].
Qed.

(** The rule of a [while] loop: an invariant and a measure that bounds the
    number of iterations left. *)
Lemma wp_loop {A R} (I : A → S → Prop) (μ : A → S → Z) (Q : R → S → Prop) body p a s :
  I a s →
  μ a s < Zpos p →
  (∀ a s, I a s → 0 <= μ a s) →
  (∀ a s, I a s →
     wp (body a) (λ x s', match x with
                          | inl a' => I a' s' ∧ μ a' s' < μ a s
                          | inr r => Q r s' end) s) →
  wp (loop p body a) Q s.
Proof.
  intros HI Hp Hpos Hbody. unfold loop. wp.
  eapply wp_mono; [by apply (wp_loop_pos I μ Q)|].
  intros [a'|r] s' H; wp; [|done].
  destruct H as [H ?]. apply Hpos in H. lia.
Qed.

(** A loop whose body always goes on exceeds every bound. *)
Lemma loop_diverges {A R} (I : A → S → Prop) (body : A → M S (A + R)) p a s :
  I a s →
  (∀ a s, I a s → ∃ a' s', body a s = Ok (inl a', s') ∧ I a' s') →
  loop p body a s = Err OutOfFuel.
Proof.
  intros HI Hb.
  assert (∀ p a s, I a s → ∃ a' s', loop_pos p body a s = Ok (inl a', s') ∧ I a' s') as Hp.
  { clear p a s HI. intros p. induction p as [p IH|p IH|]; intros a s HI; simpl; unfold bind; [| |by apply Hb].
    - destruct (Hb a s HI) as (a1 & s1 & -> & H1). destruct (IH a1 s1 H1) as (a2 & s2 & -> & H2). by apply IH.
    - destruct (IH a s HI) as (a1 & s1 & -> & H1). by apply IH. }
  destruct (Hp p a s HI) as (a' & s' & Hrun & _). unfold loop, bind. by rewrite Hrun.
Qed.

(** A fault in the first iteration is the fault of the loop. *)
Lemma loop_fault {A R} (body : A → M S (A + R)) p a s e :
  body a s = Err e → loop p body a s = Err e.
Proof.
  intros Hb. assert (loop_pos p body a s = Err e) as Hp.
  { revert a s Hb. induction p as [p IH|p IH|]; intros a s Hb; simpl; unfold bind; [by rewrite Hb| |done].
    by rewrite IH. }
  unfold loop, bind. by rewrite Hp.
Qed.
Lemma for_loop_fault {R} (body : Z → M S (option R)) lo hi s e :
  lo < hi → body lo s = Err e → for_loop lo hi body s = Err e.
Proof.
  intros Hlt Hb. unfold for_loop. destruct (Z.to_nat (hi - lo)) as [|n] eqn:En; [lia|].
  simpl. unfold bind. by rewrite Hb.
Qed.
End loop_rules.

(** ** Frames *)

(** Whatever a call computes, when it returns its final state is related to the first
    one by [R]: the parts of the state it leaves alone. *)
Definition preserves {S A} (R : S → S → Prop) (m : M S A) : Prop := ∀ s a s', m s = Ok (a, s') → R s s'.

Create HintDb preserves.

Section preserves.
Context {S : Type} (R : S → S → Prop) `{!PreOrder R}.

Lemma preserves_bind {A B} (m : M S A) (f : A → M S B) :
  preserves R m → (∀ a, preserves R (f a)) → preserves R (bind m f).
Proof using PreOrder0.
  intros Hm Hf s b s2. unfold bind. destruct (m s) as [[a s1]|] eqn:E; [|done]. intros E2.
  transitivity s1; [by eapply Hm|by eapply Hf].
Qed.
Lemma preserves_ret {A} (a : A) : preserves R (mret a).
Proof using PreOrder0. by intros s a' s' [= _ <-]. Qed.
Lemma preserves_gets {A} (f : S → A) : preserves R (gets f).
Proof using PreOrder0. by intros s a' s' [= _ <-]. Qed.
Lemma preserves_fail {A} e : preserves R (@fail S A e).
Proof. by intros s a' s' ?. Qed.
Lemma preserves_modify f : (∀ s, R s (f s)) → preserves R (modify f).
Proof. by intros Hf s a' s' [= _ <-]. Qed.
Lemma preserves_when c (m : M S unit) : preserves R m → preserves R (when c m).
Proof using PreOrder0. intros Hm. destruct c; [done|apply preserves_ret]. Qed.

Lemma preserves_fora {A X} lo hi (body : Z → A → M S (A + X)) a :
  (∀ i a, preserves R (body i a)) → preserves R (fora_loop lo hi body a).
Proof using PreOrder0.
  intros Hb. unfold fora_loop. generalize (Z.to_nat (hi - lo)). intros n. revert lo a.
  induction n as [|n IH]; intros lo a; [apply preserves_ret|]. cbn [fora_nat].
  apply preserves_bind; [done|]. intros [a'|r]; [apply IH|apply preserves_ret].
Qed.
Lemma preserves_loop {A X} p (body : A → M S (A + X)) a :
  (∀ a, preserves R (body a)) → preserves R (loop p body a).
Proof using PreOrder0.
  intros Hb. unfold loop. apply preserves_bind; [|intros [?|?]; [apply preserves_fail|apply preserves_ret]].
  revert a. induction p as [p IH|p IH|]; intros a; cbn [loop_pos]; [| |done].
  - apply preserves_bind; [done|]. intros x. apply preserves_bind.
    + destruct x; [apply IH|apply preserves_ret].
    + intros [?|?]; [apply IH|apply preserves_ret].
  - apply preserves_bind; [apply IH|]. intros [?|?]; [apply IH|apply preserves_ret].
Qed.

Lemma wp_preserves {A} (m : M S A) (Q : A → S → Prop) s :
  preserves R m → wp m Q s → wp m (λ a s', Q a s' ∧ R s s') s.
Proof.
  intros Hm. unfold wp. destruct (m s) as [[a s']|] eqn:E; [|done]. intros HQ. split; [done|by eapply Hm].
Qed.
End preserves.
#[export] Hint Constants Opaque : preserves.
(** Follow the structure of a call. *)
Ltac preserves :=
  repeat (intros; cbn beta iota; lazymatch goal with
    | |- preserves _ (bind _ _) => apply preserves_bind
    | |- preserves _ (mret _) => apply preserves_ret
    | |- preserves _ (gets _) => apply preserves_gets
    | |- preserves _ (fail _) => apply preserves_fail
    | |- preserves _ (when _ _) => apply preserves_when
    | |- preserves _ (fora_loop _ _ _ _) => apply preserves_fora
    | |- preserves _ (loop _ _ _) => apply preserves_loop
    | |- preserves _ (modify _) => apply preserves_modify; first [done | intros; case_match; done]
    | |- preserves _ (match _ with _ => _ end) => case_match
    | |- preserves _ _ => solve [eauto 1 with preserves nocore]
    | |- PreOrder _ => typeclasses eauto
    end).

(** ** Bits *)

Create Rewrite HintDb bits.

Section bits.

Lemma testbit_u8 x k : 0 <= k → Z.testbit (u8 x) k = bool_decide (k < 8) && Z.testbit x k.
Proof.
  intros Hk. unfold u8. case_bool_decide; simpl.
  - apply Z.mod_pow2_bits_low. lia.
  - apply Z.mod_pow2_bits_high. lia.
Qed.

Lemma testbit_u32 x k : 0 <= k → Z.testbit (u32 x) k = bool_decide (k < 32) && Z.testbit x k.
Proof.
  intros Hk. unfold u32. case_bool_decide; simpl.
  - apply Z.mod_pow2_bits_low. lia.
  - apply Z.mod_pow2_bits_high. lia.
Qed.

Lemma testbit_shift1 j k : 0 <= j → Z.testbit (Z.shiftl 1 j) k = bool_decide (j = k).
Proof.
  intros Hj. rewrite Z.shiftl_1_l. case_bool_decide; subst.
  - by apply Z.pow2_bits_true.
  - by apply Z.pow2_bits_false.
Qed.

(** The C test [x & (1 << j)]. *)
Lemma land_bit_eqb x j : 0 <= j → (Z.land x (Z.shiftl 1 j) =? 0) = negb (Z.testbit x j).
Proof.
  intros Hj. apply Bool.eq_iff_eq_true. rewrite Z.eqb_eq, negb_true_iff. split.
  - intros H. pose proof (Z.land_spec x (Z.shiftl 1 j) j) as Hs. rewrite H, Z.bits_0 in Hs.
    rewrite testbit_shift1, bool_decide_eq_true_2, andb_true_r in Hs by done. done.
  - intros H. apply Z.bits_inj'. intros k Hk. rewrite Z.land_spec, testbit_shift1, Z.bits_0 by done.
    case_bool_decide; subst; [by rewrite H|]. by rewrite andb_false_r.
Qed.

Lemma is_u8_u8 x : is_u8 (u8 x).
Proof. apply Z.mod_pos_bound. lia. Qed.
Lemma is_u32_u32 x : is_u32 (u32 x).
Proof. apply Z.mod_pos_bound. lia. Qed.
Lemma u8_id x : is_u8 x → u8 x = x.
Proof. apply Z.mod_small. Qed.
Lemma u32_id x : is_u32 x → u32 x = x.
Proof. apply Z.mod_small. Qed.

Lemma land_lor_self a e : Z.land a (Z.lor e a) = a.
Proof.
  apply Z.bits_inj'. intros k _. rewrite Z.land_spec, Z.lor_spec.
  by destruct (Z.testbit a k), (Z.testbit e k).
Qed.

Lemma lor_shiftl_add i j k : 0 <= k → 0 <= j < 2 ^ k → Z.lor (Z.shiftl i k) j = i * 2 ^ k + j.
Proof.
  intros Hk Hj. rewrite <- Z.shiftl_mul_pow2 by done.
  assert (Z.land (Z.shiftl i k) j = 0) as Hl.
  { apply Z.bits_inj'. intros n Hn. rewrite Z.land_spec, Z.bits_0, Z.shiftl_spec by done.
    destruct (decide (n < k)).
    - by rewrite Z.testbit_neg_r by lia.
    - rewrite <- (Z.mod_small j (2 ^ k)), Z.mod_pow2_bits_high by lia. apply andb_false_r. }
  rewrite Z.add_nocarry_lxor by done. symmetry. by apply Z.lxor_lor.
Qed.

Lemma land_low x n : 0 <= n → Z.land x (Z.ones n) = x mod 2 ^ n.
Proof. apply Z.land_ones. Qed.

(** Clearing the low [n] bits of a 32-bit word. *)
Lemma land_high x n :
  is_u32 x → 0 <= n <= 32 → Z.land x (Z.shiftl (Z.ones (32 - n)) n) = x / 2 ^ n * 2 ^ n.
Proof.
  intros Hx Hn. rewrite <- Z.shiftr_div_pow2, <- Z.shiftl_mul_pow2 by lia.
  apply Z.bits_inj'. intros k Hk. rewrite Z.land_spec, !Z.shiftl_spec by lia.
  destruct (decide (k < n)).
  - rewrite !(Z.testbit_neg_r _ (k - n)) by lia. apply andb_false_r.
  - rewrite Z.shiftr_spec by lia. replace (k - n + n) with k by lia.
    destruct (decide (k < 32)).
    + rewrite Z.ones_spec_low by lia. apply andb_true_r.
    + rewrite Z.ones_spec_high by lia. rewrite andb_false_r.
      rewrite <- (Z.mod_small x (2 ^ 32)), Z.mod_pow2_bits_high by (done || lia). done.
Qed.

(** Masking away the offset in a page. *)
Lemma land_page x : is_u32 x → Z.land x 0xfffff000 = x / 4096 * 4096.
Proof. intros Hx. exact (land_high x 12 Hx ltac:(lia)). Qed.

Lemma lor_page_flags p fl :
  0 <= p → p mod 4096 = 0 → 0 <= fl < 4096 → Z.lor p fl = p + fl.
Proof.
  intros Hp Hm Hf. pose proof (Z.div_mod p 4096 ltac:(lia)) as Hd.
  rewrite Hm, Z.add_0_r, Z.mul_comm in Hd. rewrite Hd.
  change (p / 4096 * 4096) with (p / 4096 * 2 ^ 12). rewrite <- Z.shiftl_mul_pow2 by lia.
  rewrite lor_shiftl_add, Z.shiftl_mul_pow2 by lia. done.
Qed.

Lemma testbit_page_low p k : p mod 4096 = 0 → 0 <= k < 12 → Z.testbit p k = false.
Proof.
  intros Hm Hk. rewrite (Z.div_mod p 4096), Hm, Z.add_0_r, Z.mul_comm by lia.
  change 4096 with (2 ^ 12). apply Z.mul_pow2_bits_low. lia.
Qed.

Lemma land_page_flags p fl :
  is_u32 p → p mod 4096 = 0 → 0 <= fl < 4096 → Z.land (Z.lor p fl) 0xfffff000 = p.
Proof.
  intros Hp Hm Hf. rewrite lor_page_flags by (done || apply Hp).
  assert (Hd : p = 4096 * (p / 4096)) by (pose proof (Z.div_mod p 4096 ltac:(lia)); lia).
  unfold is_u32 in *. rewrite land_page by (unfold is_u32; lia).
  replace ((p + fl) / 4096) with (p / 4096); [lia|].
  apply (Z.div_unique _ _ _ fl); lia.
Qed.

Lemma land_flags_page p fl :
  0 <= p → p mod 4096 = 0 → 0 <= fl < 4096 → Z.land (Z.lor p fl) 0xfff = fl.
Proof.
  intros Hp Hm Hf. rewrite lor_page_flags by done. change 0xfff with (Z.ones 12).
  rewrite land_low by lia. change (2 ^ 12) with 4096.
  rewrite <- Z.add_mod_idemp_l, Hm by lia. by apply Z.mod_small.
Qed.

(** Clearing or setting a bit the byte already has that way changes nothing. *)
Lemma u8_lor_lnot x j :
  is_u8 x → 0 <= j < 8 → Z.testbit x j = false →
  u8 (Z.land (u8 (Z.lor x (Z.shiftl 1 j))) (Z.lnot (Z.shiftl 1 j))) = x.
Proof.
  intros Hx Hj Hb. apply Z.bits_inj'. intros k Hk.
  rewrite testbit_u8, Z.land_spec, testbit_u8, Z.lor_spec, Z.lnot_spec by lia.
  rewrite testbit_shift1 by lia. rewrite <- (u8_id x) at 2 by done. rewrite testbit_u8 by lia.
  repeat case_bool_decide; subst; simpl; rewrite ?Hb, ?orb_false_r, ?andb_true_r; auto.
Qed.
End bits.
#[export] Hint Rewrite testbit_u8 testbit_u32 testbit_shift1 Z.land_spec Z.lor_spec
  Z.lxor_spec Z.lnot_spec Z.shiftl_spec Z.shiftr_spec Z.bits_0 using lia : bits.
#[export] Hint Resolve is_u8_u8 is_u32_u32 : core.

(** ** Zero-initialised C arrays *)

(** An array (or memory) element that was never written reads as zero. *)
Definition zget (m : gmap Z Z) (i : Z) : Z := default 0 (m !! i).
Infix "!0" := zget (at level 20) : kos_scope.

Lemma zget_insert (m : gmap Z Z) i j x :
  <[i := x]> m !0 j = if decide (i = j) then x else m !0 j.
Proof. unfold zget. rewrite lookup_insert. by case_decide. Qed.
Lemma zget_insert_eq (m : gmap Z Z) i x : <[i := x]> m !0 i = x.
Proof. rewrite zget_insert. by rewrite decide_True. Qed.
Lemma zget_insert_ne (m : gmap Z Z) i j x : i ≠ j → <[i := x]> m !0 j = m !0 j.
Proof. intros. rewrite zget_insert. by rewrite decide_False. Qed.

Lemma zget_Forall (P : Z → Prop) (m : gmap Z Z) :
  P 0 → map_Forall (λ _, P) m → ∀ i, P (m !0 i).
Proof. intros H0 Hm i. unfold zget. destruct (m !! i) eqn:E; simpl; [by eapply Hm|done]. Qed.

(** Discharges a decidable hypothesis about closed data by evaluation. *)
Ltac by_computation := refine (bool_decide_unpack _ _); vm_compute; exact I.

(** ** Lists *)

Lemma filter_ne_id (x : Z) (l : list Z) : x ∉ l → filter (λ y, y ≠ x) l = l.
Proof.
  induction l as [|y l IH]; [done|]. intros [Hne Hl]%not_elem_of_cons.
  rewrite filter_cons, decide_True by congruence. by rewrite IH.
Qed.

Lemma length_filter_ne (x : Z) (l : list Z) :
  NoDup l → (length l <= S (length (filter (λ y, y ≠ x) l)))%nat.
Proof.
  induction 1 as [|y l Hy Hl IH]; [simpl; lia|]. rewrite filter_cons. case_decide as Hd.
  - simpl. lia.
  - assert (y = x) as -> by (destruct (decide (y = x)); tauto).
    rewrite filter_ne_id by done. simpl. lia.
Qed.

Lemma length_filter_notin (xs l : list Z) :
  NoDup l → (length l <= length (filter (λ y, y ∉ xs) l) + length xs)%nat.
Proof.
  intros Hl. induction xs as [|x xs IH].
  - assert (filter (λ y, y ∉ []) l = l) as ->; [|cbn; lia]. clear Hl. induction l as [|y l IHl]; [done|].
    rewrite filter_cons_True by apply not_elem_of_nil. by rewrite IHl.
  - pose proof (length_filter_ne x (filter (λ y, y ∉ xs) l) (NoDup_filter _ _ Hl)) as H.
    rewrite list_filter_filter in H. cbn [length].
    rewrite (list_filter_iff (λ y, y ∉ x :: xs) (λ y, y ≠ x ∧ y ∉ xs)); [lia|].
    intros y. rewrite not_elem_of_cons. done.
Qed.

Lemma nth_zeros n i : nth i (replicate n 0) 0 = 0.
Proof. rewrite nth_lookup. destruct (replicate n 0 !! i) eqn:Hx; [|done]. by apply lookup_replicate_1 in Hx as [-> _]. Qed.

(** [data] over the elements of [l] from [off] on. *)
Definition splice {A} (l data : list A) (off : Z) : list A :=
  take (Z.to_nat off) l ++ data ++ drop (Z.to_nat off + length data) l.

Lemma length_splice {A} (l data : list A) off :
  0 <= off → off + Z.of_nat (length data) <= Z.of_nat (length l) → length (splice l data off) = length l.
Proof. intros. unfold splice. rewrite !length_app, length_take, length_drop. lia. Qed.

Lemma splice_read {A} (l data : list A) off :
  0 <= off → off + Z.of_nat (length data) <= Z.of_nat (length l) →
  take (length data) (drop (Z.to_nat off) (splice l data off)) = data.
Proof.
  intros. unfold splice. rewrite drop_app_length' by (rewrite length_take; lia). by rewrite take_app_length.
Qed.

Lemma splice_lookup {A} (l data : list A) off k :
  0 <= off → off + Z.of_nat (length data) <= Z.of_nat (length l) →
  ¬ (off <= Z.of_nat k < off + Z.of_nat (length data)) → splice l data off !! k = l !! k.
Proof.
  intros Ho Hl Hk. unfold splice. destruct (decide (Z.of_nat k < off)).
  - rewrite lookup_app_l by (rewrite length_take; lia). rewrite lookup_take, decide_True by lia. done.
  - rewrite lookup_app_r by (rewrite length_take; lia). rewrite lookup_app_r by (rewrite length_take; lia).
    rewrite lookup_drop. f_equal. rewrite length_take. lia.
Qed.

Lemma splice_app_l {A} (l l' data : list A) off :
  0 <= off → off + Z.of_nat (length data) <= Z.of_nat (length l) → splice (l ++ l') data off = splice l data off ++ l'.
Proof. intros. unfold splice. rewrite take_app_le, drop_app_le by lia. by rewrite <- !app_assoc. Qed.

Lemma splice_app_r {A} (l l' data : list A) off :
  0 <= off → splice (l ++ l') data (Z.of_nat (length l) + off) = l ++ splice l' data off.
Proof.
  intros. unfold splice. replace (Z.to_nat (Z.of_nat (length l) + off)) with (length l + Z.to_nat off)%nat by lia.
  rewrite take_app_add, <- Nat.add_assoc, drop_app_add. by rewrite <- app_assoc.
Qed.

Lemma splice_replicate {A} (x : A) n data :
  (length data <= n)%nat → splice (replicate n x) data 0 = data ++ replicate (n - length data) x.
Proof. intros. unfold splice. cbn [Z.to_nat take app Nat.add]. by rewrite drop_replicate. Qed.

Lemma length_splice' (n : nat) (l data : list Z) off :
  length l = n → 0 <= off → off + Z.of_nat (length data) <= Z.of_nat n → length (splice l data off) = n.
Proof. intros <-. apply length_splice. Qed.
Lemma Forall_splice (P : Z → Prop) l data off : Forall P l → Forall P data → Forall P (splice l data off).
Proof. intros. unfold splice. rewrite !Forall_app. split_and!; [by apply Forall_take|done|by apply Forall_drop]. Qed.
Lemma splice_nth (l data : list Z) off k :
  0 <= off → off + Z.of_nat (length data) <= Z.of_nat (length l) →
  nth k (splice l data off) 0 = if decide (off <= Z.of_nat k < off + Z.of_nat (length data)) then nth (k - Z.to_nat off) data 0 else nth k l 0.
Proof.
  intros Ho Hl. case_decide as Hk.
  - unfold splice. rewrite app_nth2 by (rewrite length_take; lia). rewrite length_take, Nat.min_l by lia. rewrite app_nth1 by lia. done.
  - rewrite !nth_lookup. by rewrite splice_lookup.
Qed.

Lemma elem_of_concat {A} (ls : list (list A)) x : x ∈ concat ls ↔ ∃ l, x ∈ l ∧ l ∈ ls.
Proof.
  rewrite list_elem_of_In, in_concat. split; intros (l & H1 & H2); exists l; by rewrite ?list_elem_of_In in *.
Qed.

(** ** Bytes in a row *)

(** The bytes [l] stand from [i] on in [f]. *)
Definition text_at (f : Z → Z) (i : Z) (l : list Z) : Prop := ∀ k x, l !! k = Some x → f (i + Z.of_nat k) = x.

Lemma text_at_cons {f} i x l : text_at f i (x :: l) → f i = x ∧ text_at f (i + 1) l.
Proof.
  intros Ht. split; [rewrite <- (Ht 0%nat x) by done; f_equal; lia|].
  intros k y Hk. rewrite <- (Ht (S k) y) by done. f_equal. lia.
Qed.
Lemma text_at_app {f} i l1 l2 : text_at f i (l1 ++ l2) → text_at f i l1 ∧ text_at f (i + Z.of_nat (length l1)) l2.
Proof.
  intros Ht. split; intros k x Hk.
  - apply Ht. by apply lookup_app_l_Some.
  - rewrite <- (Ht (length l1 + k)%nat x); [f_equal; lia|]. rewrite lookup_app_r by lia. by replace (_ + k - _)%nat with k by lia.
Qed.
Lemma text_at_nth l i : text_at (λ k, nth (Z.to_nat (k - i)) l 0) i l.
Proof. intros k y Hk. apply nth_lookup_Some with (d := 0) in Hk. rewrite <- Hk. f_equal. lia. Qed.
Lemma text_at_seqZ (f : Z → Z) i l : (λ k, f (i + k)) <$> seqZ 0 (Z.of_nat (length l)) = l → text_at f i l.
Proof.
  intros Hl k x Hk. rewrite <- Hl, list_lookup_fmap in Hk. pose proof (lookup_lt_Some l k x) as Hlt. rewrite <- Hl in Hlt.
  destruct (seqZ 0 (Z.of_nat (length l)) !! k) as [z|] eqn:Hz; [|done]. apply lookup_seqZ in Hz as [-> _]. by injection Hk as <-.
Qed.
