(* ===== verification/PhysMem.v ===== *)
(** * The physical frame allocator (src/src/kernel/arch_i386/memory.c, the [pm_] functions) *)
From S2P Require Import Prelude.

Definition mmap_count : Z := 0x20000.

(** The bitmap [pm_map] (bit [j] of byte [i] is set when frame [8 i + j] is in
    use), the search hint [pm_first_free], the lock and the statistics. *)
Record pmem := PMem {
  pm_map : gmap Z Z;
  pm_first_free : Z;
  pm_lock : bool;
  total_memory_unusable : Z;
}.

Definition set_pm_map (m : gmap Z Z) (s : pmem) : pmem :=
  PMem m (pm_first_free s) (pm_lock s) (total_memory_unusable s).
Definition set_first_free (i : Z) (s : pmem) : pmem :=
  PMem (pm_map s) i (pm_lock s) (total_memory_unusable s).
Definition set_pm_lock (b : bool) (s : pmem) : pmem :=
  PMem (pm_map s) (pm_first_free s) b (total_memory_unusable s).

(** [spinlock_acquire] spins while the flag is set: with nobody else to clear
    it the call never returns. *)
Definition spinlock_acquire : M pmem unit :=
  held ← gets pm_lock; if held then fail Deadlock else modify (set_pm_lock true).
Definition spinlock_release : M pmem unit := modify (set_pm_lock false).

(** Accesses to the array [pm_map]. *)
Definition pm_read (i : Z) : M pmem Z :=
  if bool_decide (0 <= i < mmap_count) then gets (λ s, pm_map s !0 i) else fail (OutOfBounds i).
Definition pm_write (i b : Z) : M pmem unit :=
  if bool_decide (0 <= i < mmap_count) then modify (λ s, set_pm_map (<[i := b]> (pm_map s)) s)
  else fail (OutOfBounds i).

Definition pm_alloc : M pmem Z :=
  spinlock_acquire;;
  first ← gets pm_first_free;
  r ← for_loop first mmap_count (λ i,
        for_loop 0 8 (λ j,
          b ← pm_read i;
          if Z.land b (Z.shiftl 1 j) =? 0 then
            pm_write i (u8 (Z.lor b (Z.shiftl 1 j)));;
            ff ← gets pm_first_free;
            when (i >? ff) (modify (set_first_free i));;
            spinlock_release;;
            mret (Some (u32 (Z.shiftl (Z.lor (Z.shiftl i 3) j) 12)))
          else mret None));
  match r with
  | Some a => mret a
  | None => spinlock_release;; mret 0
  end.

Definition pm_alloc_index (index : Z) : M pmem Z :=
  spinlock_acquire;;
  for_all 0 2 (λ i,
    for_all 0 8 (λ j,
      b ← pm_read (u32 (i + index));
      pm_write (u32 (i + index)) (u8 (Z.lor b (Z.shiftl 1 j)))));;
  spinlock_release;;
  mret (u32 (Z.shiftl (u32 (Z.shiftl index 3)) 12)).

(** [cont] counts the whole free bytes found in a row, [current] is the byte
    looked at last; both are [uint32_t], so [cont = -1] wraps back to zero. *)
Definition pm_alloc_64kaligned : M pmem Z :=
  spinlock_acquire;;
  r ← fora_loop 0 mmap_count (λ i '(cont, current),
        if negb (Z.land i 1 =? 0) && (cont <? 1) then mret (inl (cont, current))
        else
          hit ← for_loop 0 8 (λ j,
                  b ← pm_read i;
                  if Z.land b (Z.shiftl 1 j) =? 0 then mret None else mret (Some tt));
          let cont := match hit with Some _ => u32 (-1) | None => cont end in
          if cont =? 1 then
            spinlock_release;;
            a ← pm_alloc_index current;
            mret (inr a)
          else mret (inl (u32 (cont + 1), i)))
        (0, 0);
  match r with
  | inr a => mret a
  | inl _ => spinlock_release;; mret 0
  end.

Definition pm_free (address : Z) : M pmem unit :=
  spinlock_acquire;;
  b ← pm_read (Z.shiftr address 15);
  pm_write (Z.shiftr address 15)
    (u8 (Z.land b (Z.lnot (Z.shiftl 1 (Z.land (Z.shiftr address 12) 7)))));;
  ff ← gets pm_first_free;
  when (Z.shiftr address 15 <? ff) (modify (set_first_free (Z.shiftr address 15)));;
  spinlock_release.

Definition pm_reserve (address : Z) : M pmem unit :=
  spinlock_acquire;;
  b ← pm_read (Z.shiftr address 15);
  pm_write (Z.shiftr address 15)
    (u8 (Z.lor b (Z.shiftl 1 (Z.land (Z.shiftr address 12) 7))));;
  modify (set_first_free (Z.shiftr address 15));;
  spinlock_release.

(** [memory_limit] is the global the function reads. *)
Definition get_used_memory (memory_limit : Z) : M pmem Z :=
  r ← fora_loop (R := False) 0 (memory_limit / PAGE_SIZE_BYTES / 8) (λ i count,
        fora_loop 0 8 (λ j count,
          b ← pm_read i;
          mret (inl (if Z.land b (Z.shiftl 1 j) =? 0 then count else u32 (count + 1)))) count)
        0;
  match r with inl count => mret count | inr r => match r with end end.

Definition checksum_pm_map : M pmem Z :=
  r ← fora_loop (R := False) 0 mmap_count (λ i sum,
        b ← pm_read i; mret (inl (Z.lxor (u32 (sum * 33)) b))) 0;
  match r with inl sum => mret sum | inr r => match r with end end.

(** Frame [f] is marked in use. *)
Definition used (s : pmem) (f : Z) : bool := Z.testbit (pm_map s !0 (f / 8)) (f mod 8).
Definition frames : Z := 8 * mmap_count.

Record pm_wf (s : pmem) : Prop := {
  wf_bytes : ∀ i, is_u8 (pm_map s !0 i);
  wf_first : 0 <= pm_first_free s < mmap_count;
  wf_lock : pm_lock s = false;
}.

Create HintDb pm.

(** [s] with frame [f] marked in use, and marked free. *)
Definition mark (f : Z) (s : pmem) : pmem :=
  set_pm_map (<[f / 8 := u8 (Z.lor (pm_map s !0 (f / 8)) (Z.shiftl 1 (f mod 8)))]> (pm_map s)) s.
Definition unmark (f : Z) (s : pmem) : pmem :=
  set_pm_map (<[f / 8 := u8 (Z.land (pm_map s !0 (f / 8)) (Z.lnot (Z.shiftl 1 (f mod 8))))]>
    (pm_map s)) s.

(** The hint is exact: no free frame lies below it. *)
Definition hint_ok (s : pmem) : Prop := ∀ f, 0 <= f < 8 * pm_first_free s → used s f = true.

Lemma used_byte s i j : 0 <= j < 8 → used s (8 * i + j) = Z.testbit (pm_map s !0 i) j.
Proof.
  intros. unfold used. f_equal; [f_equal|].
  - symmetry. apply (Z.div_unique _ 8 _ j); lia.
  - symmetry. apply (Z.mod_unique _ 8 i); lia.
Qed.

Lemma used_set_pm_map s (m : gmap Z Z) g :
  used (set_pm_map m s) g = Z.testbit (m !0 (g / 8)) (g mod 8).
Proof. done. Qed.

Lemma mod8 f : 0 <= f mod 8 < 8.
Proof. apply Z.mod_pos_bound. lia. Qed.

Lemma used_mark s f g : used (mark f s) g = bool_decide (f = g) || used s g.
Proof.
  unfold mark. rewrite used_set_pm_map, zget_insert. unfold used. pose proof (mod8 f); pose proof (mod8 g).
  case_decide as He.
  - rewrite <- He. autorewrite with bits. rewrite (bool_decide_eq_true_2 (g mod 8 < 8)) by lia. simpl.
    rewrite orb_comm. f_equal. apply bool_decide_ext. split; [|by intros ->].
    intros Hm. rewrite (Z.div_mod f 8), (Z.div_mod g 8) by lia. congruence.
  - rewrite bool_decide_eq_false_2 by congruence. done.
Qed.

Lemma used_unmark s f g : used (unmark f s) g = negb (bool_decide (f = g)) && used s g.
Proof.
  unfold unmark. rewrite used_set_pm_map, zget_insert. unfold used. pose proof (mod8 f); pose proof (mod8 g).
  case_decide as He.
  - rewrite <- He. autorewrite with bits. rewrite (bool_decide_eq_true_2 (g mod 8 < 8)) by lia. simpl.
    rewrite andb_comm. f_equal. f_equal. apply bool_decide_ext. split; [|by intros ->].
    intros Hm. rewrite (Z.div_mod f 8), (Z.div_mod g 8) by lia. congruence.
  - rewrite bool_decide_eq_false_2 by congruence. done.
Qed.

(** Closes equations between states that differ in one field. *)
Ltac pm_ext s :=
  destruct s; unfold set_pm_lock, set_first_free, set_pm_map in *; simpl in *; subst;
  f_equal; try done; try lia.

Lemma pm_read_wp i Q s :
  0 <= i < mmap_count → Q (pm_map s !0 i) s → wp (pm_read i) Q s.
Proof. intros. unfold pm_read. by rewrite bool_decide_eq_true_2. Qed.

Lemma pm_write_wp i b (Q : unit → pmem → Prop) s :
  0 <= i < mmap_count → Q tt (set_pm_map (<[i := b]> (pm_map s)) s) → wp (pm_write i b) Q s.
Proof. intros. unfold pm_write. by rewrite bool_decide_eq_true_2. Qed.

Lemma acquire_wp (Q : unit → pmem → Prop) s :
  pm_lock s = false → Q tt (set_pm_lock true s) → wp spinlock_acquire Q s.
Proof. intros Hl HQ. unfold spinlock_acquire. wp. by rewrite Hl. Qed.

Lemma release_wp (Q : unit → pmem → Prop) s :
  wp spinlock_release Q s = Q tt (set_pm_lock false s).
Proof. done. Qed.
#[export] Hint Rewrite release_wp : wp.

Lemma relock s : pm_lock s = false → set_pm_lock false (set_pm_lock true s) = s.
Proof. destruct s; simpl. by intros ->. Qed.

Lemma frame_address i j :
  0 <= i < mmap_count → 0 <= j < 8 →
  u32 (Z.shiftl (Z.lor (Z.shiftl i 3) j) 12) = (8 * i + j) * PAGE_SIZE_BYTES.
Proof.
  intros Hi Hj. rewrite lor_shiftl_add by lia. rewrite Z.shiftl_mul_pow2 by lia.
  rewrite u32_id; unfold is_u32, mmap_count, PAGE_SIZE_BYTES in *; lia.
Qed.

(** What [pm_alloc] does from any well-formed state: it finds the first free
    frame at or above the hint. *)
Definition alloc_post (s : pmem) (a : Z) (s' : pmem) : Prop :=
  (a = 0 ∧ s' = s ∧ ∀ f, 8 * pm_first_free s <= f < frames → used s f = true) ∨
  (∃ f, 8 * pm_first_free s <= f < frames ∧ used s f = false ∧
     (∀ g, 8 * pm_first_free s <= g < f → used s g = true) ∧
     a = f * PAGE_SIZE_BYTES ∧
     s' = set_first_free (Z.max (pm_first_free s) (f / 8)) (mark f s)).

Lemma pm_alloc_wp s : pm_wf s → wp pm_alloc (alloc_post s) s.
Proof.
  intros [Hb Hf Hl]. unfold pm_alloc. wp. apply acquire_wp; [done|]. wp.
  set (s1 := set_pm_lock true s).
  eapply wp_mono with (P := λ r s', match r with
    | Some a => alloc_post s a s'
    | None => s' = s1 ∧ ∀ f, 8 * pm_first_free s <= f < frames → used s f = true end).
  2: { intros [a|] s'; wp; [done|]. intros [-> Hall]. left. split_and!; [done|by apply relock|done]. }
  apply (wp_for (λ i s', s' = s1 ∧ ∀ f, 8 * pm_first_free s <= f < 8 * i → used s f = true)).
  { simpl; lia. } { split; [done|simpl; lia]. }
  2: { intros s' [-> Hall]. split; [done|]. intros f Hr. apply Hall. unfold frames in Hr. lia. }
  intros i s' Hi [-> Hall]. simpl in Hi.
  apply (wp_for (λ j s', s' = s1 ∧ ∀ f, 8 * pm_first_free s <= f < 8 * i + j → used s f = true)).
  { lia. } { split; [done|]. intros; apply Hall; lia. }
  2: { intros s' [-> Hj]. split; [done|]. intros; apply Hj; lia. }
  intros j s' Hj [-> Hall']. wp. apply pm_read_wp; [lia|]. simpl.
  rewrite land_bit_eqb by lia. rewrite <- used_byte by lia.
  destruct (used s (8 * i + j)) eqn:Hu; simpl; wp.
  - split; [done|]. intros f Hr. destruct (decide (f = 8 * i + j)) as [->|]; [done|].
    apply Hall'. lia.
  - apply pm_write_wp; [lia|]. wp.
    assert ((8 * i + j) / 8 = i) as Hd by (symmetry; apply (Z.div_unique _ 8 _ j); lia).
    assert ((8 * i + j) mod 8 = j) as Hm by (symmetry; apply (Z.mod_unique _ 8 i); lia).
    destruct (Z.gtb_spec i (pm_first_free (set_pm_map (<[i:=u8 (Z.lor (pm_map s !0 i) (Z.shiftl 1 j))]> (pm_map s1)) s1)));
      simpl in *; wp; rewrite frame_address by lia; right; exists (8 * i + j);
      unfold frames, mark; rewrite Hd, Hm;
      split_and!; try done; try lia; unfold s1; pm_ext s.
Qed.

Lemma mark_wf s f : pm_wf s → pm_wf (mark f s).
Proof.
  intros [Hb Hf Hl]. split; [|done..]. intros i. simpl. rewrite zget_insert.
  by case_decide.
Qed.
Lemma unmark_wf s f : pm_wf s → pm_wf (unmark f s).
Proof.
  intros [Hb Hf Hl]. split; [|done..]. intros i. simpl. rewrite zget_insert.
  by case_decide.
Qed.
Lemma set_first_free_wf s i : 0 <= i < mmap_count → pm_wf s → pm_wf (set_first_free i s).
Proof. by intros ? [Hb Hf Hl]. Qed.
#[export] Hint Resolve mark_wf unmark_wf set_first_free_wf : pm.

Lemma alloc_taken s f s' :
  pm_wf s → 0 <= f < frames →
  s' = set_first_free (Z.max (pm_first_free s) (f / 8)) (mark f s) →
  pm_wf s' ∧ ∀ g, used s' g = bool_decide (f = g) || used s g.
Proof.
  intros Hwf Hf ->. split; [|apply used_mark]. apply set_first_free_wf; [|auto with pm].
  pose proof (wf_first _ Hwf). unfold frames in Hf.
  assert (0 <= f / 8 < mmap_count) by (split; [apply Z.div_pos|apply Z.div_lt_upper_bound]; lia). lia.
Qed.

(** At least [n] frames are free where [pm_alloc] looks for them. *)
Definition avail (s : pmem) (n : nat) : Prop :=
  ∃ l : list Z, NoDup l ∧ length l = n ∧
    Forall (λ f, 8 * pm_first_free s <= f < frames ∧ used s f = false) l.

Lemma avail_le s n m : (m <= n)%nat → avail s n → avail s m.
Proof.
  intros Hle (l & Hnd & Hl & Hf). exists (take m l). split_and!.
  - rewrite <- (take_drop m l) in Hnd. by apply NoDup_app in Hnd as [? _].
  - rewrite length_take. lia.
  - by apply Forall_take.
Qed.

(** With a frame available, [pm_alloc] takes one and leaves the others. *)
Lemma pm_alloc_avail_wp s n (Q : Z → pmem → Prop) :
  pm_wf s → avail s (S n) →
  (∀ f s', 0 <= f < frames → used s f = false → pm_wf s' → avail s' n →
     (∀ g, used s' g = bool_decide (f = g) || used s g) → Q (f * PAGE_SIZE_BYTES) s') →
  wp pm_alloc Q s.
Proof.
  intros Hwf (l & Hnd & Hl & Hfs) HQ. pose proof (wf_first _ Hwf).
  eapply wp_mono; [by apply pm_alloc_wp|]. intros a s' [(_ & _ & Hall)|(f & Hf & Hu & Hlt & -> & Hs')].
  - destruct l as [|g l]; [done|]. apply Forall_cons_iff in Hfs as [[Hr Hg] _]. by rewrite Hall in Hg.
  - destruct (alloc_taken s f s' Hwf ltac:(lia) Hs') as [Hwf' Hus]. apply HQ; [lia|done..| |done].
    apply avail_le with (length (filter (λ g, g ≠ f) l)).
    { pose proof (length_filter_ne f l Hnd). lia. }
    exists (filter (λ g, g ≠ f) l). split_and!; [by apply NoDup_filter|done|].
    apply Forall_forall. intros g [Hne Hg]%list_elem_of_filter.
    rewrite Forall_forall in Hfs. destruct (Hfs g Hg) as [Hr Hug].
    rewrite Hus, bool_decide_eq_false_2 by done. split; [|done]. subst s'. simpl.
    assert (f < g). { destruct (decide (g < f)); [|lia]. rewrite Hlt in Hug; [done|lia]. }
    pose proof (Z.mul_div_le f 8 ltac:(lia)). lia.
Qed.

Lemma alloc_post_inv s a s' :
  pm_wf s → hint_ok s → alloc_post s a s' →
  pm_wf s' ∧ hint_ok s' ∧
  ((a = 0 ∧ s' = s ∧ ∀ f, 0 <= f < frames → used s f = true) ∨
   ∃ f, 0 <= f < frames ∧ a = f * PAGE_SIZE_BYTES ∧ used s f = false ∧
     (∀ g, 0 <= g < f → used s g = true) ∧
     ∀ g, used s' g = bool_decide (f = g) || used s g).
Proof.
  intros Hwf Hh [(-> & -> & Hall)|(f & Hf & Hu & Hlt & -> & ->)].
  - split_and!; [done..|]. left. split_and!; [done..|]. intros f Hf.
    destruct (decide (f < 8 * pm_first_free s)); [apply Hh; lia|apply Hall; lia].
  - assert (0 <= f / 8 < mmap_count) as Hd.
    { unfold frames in Hf. pose proof (wf_first _ Hwf).
      split; [apply Z.div_pos|apply Z.div_lt_upper_bound]; lia. }
    assert (∀ g, 0 <= g < f → used s g = true) as Hbelow.
    { intros g Hg. destruct (decide (g < 8 * pm_first_free s)); [apply Hh; lia|apply Hlt; lia]. }
    split_and!.
    + pose proof (wf_first _ Hwf). apply set_first_free_wf; [lia|]. auto with pm.
    + intros g. cbn [set_first_free pm_first_free]. intros Hg.
      change (used (mark f s) g = true). rewrite used_mark. apply orb_true_intro. right.
      pose proof (Z.mul_div_le f 8 ltac:(lia)).
      destruct (decide (g < 8 * pm_first_free s)); [apply Hh; lia|]. apply Hbelow; lia.
    + right. exists f. split_and!; try done; [pose proof (wf_first _ Hwf); lia|lia|].
      intros g. apply used_mark.
Qed.

Lemma addr_byte a : Z.shiftr a 15 = a / PAGE_SIZE_BYTES / 8.
Proof.
  unfold PAGE_SIZE_BYTES. rewrite Z.shiftr_div_pow2, Z.div_div by lia. f_equal.
Qed.
Lemma addr_bit a : Z.land (Z.shiftr a 12) 7 = (a / PAGE_SIZE_BYTES) mod 8.
Proof.
  change 7 with (Z.ones 3). by rewrite Z.land_ones, Z.shiftr_div_pow2 by lia.
Qed.
Lemma addr_byte_bound a : is_u32 a → 0 <= a / PAGE_SIZE_BYTES / 8 < mmap_count.
Proof.
  unfold is_u32, PAGE_SIZE_BYTES, mmap_count. intros Ha. rewrite Z.div_div by lia.
  split; [apply Z.div_pos|apply Z.div_lt_upper_bound]; lia.
Qed.

Lemma pm_free_wp s a (Q : unit → pmem → Prop) :
  pm_wf s → is_u32 a →
  Q tt (set_first_free (Z.min (pm_first_free s) (a / PAGE_SIZE_BYTES / 8))
          (unmark (a / PAGE_SIZE_BYTES) s)) →
  wp (pm_free a) Q s.
Proof.
  intros [Hb Hf Hl] Ha HQ. pose proof (addr_byte_bound a Ha). unfold pm_free.
  rewrite addr_byte, addr_bit. wp. apply acquire_wp; [done|]. wp. apply pm_read_wp; [done|].
  wp. apply pm_write_wp; [done|]. wp. simpl.
  destruct (Z.ltb_spec (a / PAGE_SIZE_BYTES / 8) (pm_first_free s)); wp;
    [rewrite Z.min_r in HQ by lia|rewrite Z.min_l in HQ by lia]; destruct s; simpl in *; by subst.
Qed.

Lemma pm_reserve_wp s a (Q : unit → pmem → Prop) :
  pm_wf s → is_u32 a →
  Q tt (set_first_free (a / PAGE_SIZE_BYTES / 8) (mark (a / PAGE_SIZE_BYTES) s)) →
  wp (pm_reserve a) Q s.
Proof.
  intros [Hb Hf Hl] Ha HQ. pose proof (addr_byte_bound a Ha). unfold pm_reserve.
  rewrite addr_byte, addr_bit. wp. apply acquire_wp; [done|]. wp. apply pm_read_wp; [done|].
  wp. apply pm_write_wp; [done|]. wp. destruct s; simpl in *; by subst.
Qed.

Lemma free_post_inv s a s' :
  pm_wf s → hint_ok s → is_u32 a →
  s' = set_first_free (Z.min (pm_first_free s) (a / PAGE_SIZE_BYTES / 8))
          (unmark (a / PAGE_SIZE_BYTES) s) →
  pm_wf s' ∧ hint_ok s' ∧
  ∀ g, used s' g = negb (bool_decide (a / PAGE_SIZE_BYTES = g)) && used s g.
Proof.
  intros Hwf Hh Ha ->. pose proof (addr_byte_bound a Ha). pose proof (wf_first _ Hwf).
  split_and!.
  - apply set_first_free_wf; [lia|]. auto with pm.
  - intros g. cbn [set_first_free pm_first_free]. intros Hg.
    change (used (unmark (a / PAGE_SIZE_BYTES) s) g = true). rewrite used_unmark.
    rewrite Hh, andb_true_r by lia. apply negb_true_iff, bool_decide_eq_false_2.
    intros <-. pose proof (Z.mul_div_le (a / PAGE_SIZE_BYTES) 8 ltac:(lia)). lia.
  - intros g. apply used_unmark.
Qed.

(** *** Whole bytes of the bitmap *)

(** All eight frames of byte [i] are free. *)
Definition byte_free (s : pmem) (i : Z) : Prop := ∀ j, 0 <= j < 8 → used s (8 * i + j) = false.

(** Frames [lo .. hi - 1] marked on top of [s]. *)
Definition marked (s : pmem) (lo hi : Z) (s' : pmem) : Prop :=
  (∀ g, used s' g = bool_decide (lo <= g < hi) || used s g) ∧
  (∀ i, is_u8 (pm_map s' !0 i)) ∧ pm_first_free s' = pm_first_free s.

Lemma marked_step s lo hi s' : lo <= hi → marked s lo hi s' → marked s lo (hi + 1) (mark hi s').
Proof.
  intros Hle (Hu & Hb & Hf). split_and!; [| |done].
  - intros g. rewrite used_mark, Hu. repeat case_bool_decide; simpl; try done; lia.
  - intros i. simpl. rewrite zget_insert. by case_decide.
Qed.

Lemma pm_alloc_index_wp s index (Q : Z → pmem → Prop) :
  pm_wf s → 0 <= index → index + 1 < mmap_count →
  (∀ s', pm_wf s' → marked s (8 * index) (8 * index + 16) s' → Q (index * 0x8000) s') →
  wp (pm_alloc_index index) Q s.
Proof.
  intros Hwf H0 H1 HQ. unfold pm_alloc_index. wp. apply acquire_wp; [apply Hwf|]. wp.
  set (I := λ n s', pm_lock s' = true ∧ marked s (8 * index) (8 * index + n) s').
  apply (wp_for_all (λ i, I (8 * i))); [lia| | |].
  - split; [done|]. split_and!; [|apply Hwf|done]. intros g.
    by rewrite bool_decide_eq_false_2 by lia.
  - intros i s1 Hi HI. apply (wp_for_all (λ j, I (8 * i + j))); [lia| | |].
    + by rewrite Z.add_0_r.
    + intros j s2 Hj [Hl Hm]. wp.
      assert (u32 (i + index) = i + index) as -> by (apply u32_id; unfold is_u32, mmap_count in *; lia).
      apply pm_read_wp; [lia|]. wp. apply pm_write_wp; [lia|]. split; [done|].
      replace (8 * index + (8 * i + (j + 1))) with (8 * index + (8 * i + j) + 1) by lia.
      replace (set_pm_map _ s2) with (mark (8 * index + (8 * i + j)) s2).
      * apply marked_step; [lia|done].
      * unfold mark. replace (8 * index + (8 * i + j)) with (8 * (i + index) + j) by lia.
        f_equal. f_equal; [|f_equal; f_equal; f_equal].
        all: try (symmetry; apply (Z.mod_unique _ 8 (i + index)); lia).
        all: try f_equal; symmetry; apply (Z.div_unique _ 8 _ j); lia.
    + intros s2 HI2. by replace (8 * (i + 1)) with (8 * i + 8) by lia.
  - intros s1 [Hl (Hu & Hb & Hf)]. wp.
    replace (u32 (Z.shiftl (u32 (Z.shiftl index 3)) 12)) with (index * 0x8000).
    + apply HQ; [|done]. split; [done| |done]. simpl. rewrite Hf. apply Hwf.
    + rewrite !Z.shiftl_mul_pow2 by lia. unfold mmap_count in *.
      rewrite (u32_id (index * 2 ^ 3)), u32_id; unfold is_u32; lia.
Qed.

Lemma byte_free_dec s i : byte_free s i ∨ ∃ j, 0 <= j < 8 ∧ used s (8 * i + j) = true.
Proof.
  destruct (decide (Exists (λ j, used s (8 * i + j) = true) (seqZ 0 8))) as [H|H].
  - right. apply Exists_exists in H as (j & Hj & Hu). exists j.
    apply elem_of_seqZ in Hj. split; [lia|done].
  - left. intros j Hj. destruct (used s (8 * i + j)) eqn:Hu; [|done].
    exfalso. apply H, Exists_exists. exists j. split; [|done]. apply elem_of_seqZ. lia.
Qed.

(** The scan of one byte in [pm_alloc_64kaligned]. *)
Lemma scan_byte_wp s i (Q : option unit → pmem → Prop) :
  0 <= i < mmap_count →
  (byte_free s i → Q None s) → (¬ byte_free s i → Q (Some tt) s) →
  wp (for_loop 0 8 (λ j, b ← pm_read i;
        if Z.land b (Z.shiftl 1 j) =? 0 then mret None else mret (Some tt))) Q s.
Proof.
  intros Hi Hn Hs.
  apply (wp_for (λ j s', s' = s ∧ ∀ k, 0 <= k < j → used s (8 * i + k) = false)); [lia| | |].
  - split; [done|lia].
  - intros j s' Hj [-> Hk]. wp. apply pm_read_wp; [done|]. rewrite land_bit_eqb by lia.
    rewrite <- used_byte by lia. destruct (used s (8 * i + j)) eqn:Hu; simpl; wp.
    + apply Hs. intros Hf. by rewrite Hf in Hu.
    + split; [done|]. intros k ?. destruct (decide (k = j)) as [->|]; [done|]. apply Hk. lia.
  - intros s' [-> Hk]. apply Hn. intros j ?. by apply Hk.
Qed.

Definition pair_free (s : pmem) (i : Z) : Prop :=
  0 <= i < mmap_count ∧ Z.even i = true ∧ byte_free s i ∧ byte_free s (i + 1).

Lemma land1_odd i : negb (Z.land i 1 =? 0) = Z.odd i.
Proof.
  change 1 with (Z.ones 1). rewrite Z.land_ones by lia. rewrite Zmod_odd. by destruct (Z.odd i).
Qed.

Lemma pm_alloc_64k_wp s (Q : Z → pmem → Prop) :
  pm_wf s →
  ((∀ i, ¬ pair_free s i) → Q 0 s) →
  (∀ i s', pair_free s i → (∀ k, k < i → ¬ pair_free s k) → pm_wf s' →
     marked s (8 * i) (8 * i + 16) s' → Q (i * 0x8000) s') →
  wp pm_alloc_64kaligned Q s.
Proof.
  intros Hwf Hnone Hsome. unfold pm_alloc_64kaligned. wp. apply acquire_wp; [apply Hwf|]. wp.
  set (s1 := set_pm_lock true s).
  assert (set_pm_lock false s1 = s) as Hrel by (apply relock, Hwf).
  apply (wp_fora (λ i '(cont, current) s', s' = s1 ∧
    (∀ k, k + 1 < i → ¬ pair_free s k) ∧
    ((cont = 0 ∧ (Z.odd i = true → ¬ byte_free s (i - 1))) ∨
     (cont = 1 ∧ Z.odd i = true ∧ current = i - 1 ∧ byte_free s (i - 1))))).
  { unfold mmap_count; lia. }
  { split_and!; [done| |]. { intros k Hk [? ?]. lia. } left. by split. }
  2: { intros [cont current] s' (-> & Hk & _). wp. rewrite Hrel. apply Hnone. intros i Hp.
       apply (Hk i); [|done]. destruct Hp as (Hr & He & _). unfold mmap_count in *.
       apply Z.even_spec in He as [q ->]. lia. }
  intros i [cont current] s' Hi (-> & Hk & Hc). rewrite land1_odd.
  assert (Z.odd (i + 1) = negb (Z.odd i)) as Hodd by (rewrite Z.odd_add; by destruct (Z.odd i)).
  assert (∀ k, k + 1 < i + 1 → pair_free s k → k = i - 1) as Hlast.
  { intros k ? Hp. destruct (decide (k + 1 < i)) as [?|?]; [by destruct (Hk k)|lia]. }
  destruct (Z.odd i && (cont <? 1)) eqn:Hskip; simpl; wp.
  { apply andb_true_iff in Hskip as [Ho Hlt]. apply Z.ltb_lt in Hlt.
    destruct Hc as [[-> Hc]|[-> _]]; [|lia]. split_and!; [done| |].
    - intros k Hlk Hp. apply (Hc Ho). rewrite <- (Hlast k) by done. apply Hp.
    - left. split; [done|]. rewrite Hodd, Ho. done. }
  apply scan_byte_wp; [done| |]; intros Hfree; simpl; wp.
  - change (byte_free s i) in Hfree. destruct Hc as [[-> Hc]|(-> & Ho & -> & Hc)]; simpl; wp.
    + assert (Z.odd i = false) as He by (destruct (Z.odd i); done).
      split_and!; [done| |].
      * intros k Hlk Hp. specialize (Hlast k Hlk Hp). destruct Hp as (_ & Hev & _).
        rewrite Hlast, Z.even_sub in Hev. rewrite <- Z.negb_odd, He in Hev. done.
      * right. rewrite Hodd, He. split_and!; [done|done|lia|]. by replace (i + 1 - 1) with i by lia.
    + rewrite Hrel. apply pm_alloc_index_wp; [done| |lia|].
      { destruct (decide (i = 0)) as [->|]; [done|lia]. }
      intros s' Hwf' Hm. wp. apply (Hsome (i - 1)); [|intros; apply Hk; lia|done..].
      destruct (decide (i = 0)) as [->|]; [done|]. split_and!; [lia|lia| |done|].
      * rewrite Z.even_sub, <- (Z.negb_odd i), Ho. done.
      * by replace (i - 1 + 1) with i by lia.
  - change (¬ byte_free s i) in Hfree. split_and!; [done| |].
    + intros k Hlk Hp. apply Hfree. rewrite (Hlast k Hlk Hp) in Hp.
      replace i with (i - 1 + 1) by lia. apply Hp.
    + left. split; [done|]. intros _. by replace (i + 1 - 1) with i by lia.
Qed.

(** ** The abstract allocator: a set of free frames *)

Inductive pm_op :=
  | OpAlloc
  | OpFree (address : Z).

Definition pm_exec (op : pm_op) : M pmem Z :=
  match op with
  | OpAlloc => pm_alloc
  | OpFree a => pm_free a;; mret 0
  end.

(** A sequence of calls, with what each returned. *)
Fixpoint pm_run (ops : list pm_op) : M pmem (list (pm_op * Z)) :=
  match ops with
  | [] => mret []
  | op :: ops => r ← pm_exec op; tr ← pm_run ops; mret ((op, r) :: tr)
  end.

Definition free_set (s : pmem) (f : Z) : Prop := 0 <= f < frames ∧ used s f = false.

Inductive fa_step (F : Z → Prop) : pm_op * Z → (Z → Prop) → Prop :=
  | fa_alloc f F' : F f → (∀ g, F g → f <= g) → (∀ g, F' g ↔ F g ∧ g ≠ f) →
      fa_step F (OpAlloc, f * PAGE_SIZE_BYTES) F'
  | fa_full F' : (∀ g, ¬ F g) → (∀ g, F' g ↔ F g) → fa_step F (OpAlloc, 0) F'
  | fa_free a F' : (∀ g, F' g ↔ F g ∨ g = a / PAGE_SIZE_BYTES) → fa_step F (OpFree a, 0) F'.

Inductive fa_run : (Z → Prop) → list (pm_op * Z) → (Z → Prop) → Prop :=
  | fa_nil F F' : (∀ g, F g ↔ F' g) → fa_run F [] F'
  | fa_cons F e F1 tr F2 : fa_step F e F1 → fa_run F1 tr F2 → fa_run F (e :: tr) F2.
#[export] Hint Constructors fa_step fa_run : pm.

Definition op_ok (op : pm_op) : Prop :=
  match op with OpAlloc => True | OpFree a => is_u32 a end.

Lemma pm_exec_refines op s :
  pm_wf s → hint_ok s → op_ok op →
  wp (pm_exec op) (λ r s', pm_wf s' ∧ hint_ok s' ∧ fa_step (free_set s) (op, r) (free_set s')) s.
Proof.
  intros Hwf Hh Hop. destruct op as [|a]; simpl in *.
  - eapply wp_mono; [by apply pm_alloc_wp|]. intros r s' Hp.
    destruct (alloc_post_inv _ _ _ Hwf Hh Hp) as (Hwf' & Hh' & [(-> & -> & Hall)|(f & Hf & -> & Hu & Hlt & Hg)]);
      split_and!; try done.
    + apply fa_full; [|done]. intros g [Hr Hg]. by rewrite Hall in Hg.
    + apply fa_alloc; unfold free_set.
      * done.
      * intros g [Hr Hug]. destruct (decide (f <= g)); [done|]. by rewrite Hlt in Hug by lia.
      * intros g. rewrite Hg. case_bool_decide; subst; simpl; naive_solver.
  - wp. apply pm_free_wp; [done..|]. wp.
    destruct (free_post_inv s a _ Hwf Hh Hop eq_refl) as (Hwf' & Hh' & Hg).
    split_and!; [done..|]. apply fa_free. intros g. unfold free_set. rewrite Hg.
    assert (0 <= a / PAGE_SIZE_BYTES < frames).
    { unfold is_u32, frames, mmap_count, PAGE_SIZE_BYTES in *.
      split; [apply Z.div_pos|apply Z.div_lt_upper_bound]; lia. }
    case_bool_decide; subst; simpl; naive_solver.
Qed.

Lemma pm_run_refines ops s :
  pm_wf s → hint_ok s → Forall op_ok ops →
  wp (pm_run ops) (λ tr s', pm_wf s' ∧ hint_ok s' ∧ tr.*1 = ops ∧
                            fa_run (free_set s) tr (free_set s')) s.
Proof.
  intros Hwf Hh Hops. revert s Hwf Hh. induction Hops as [|op ops Hop _ IH]; intros s Hwf Hh; simpl; wp.
  - split_and!; eauto with pm.
  - eapply wp_mono; [by apply pm_exec_refines|]. intros r s1 (? & ? & ?). wp.
    eapply wp_mono; [by apply IH|]. intros tr s2 (? & ? & <- & ?). wp.
    split_and!; eauto with pm.
Qed.

(** A frame handed out is not handed out again before it is freed. *)
Lemma fa_run_in_use F tr F' f :
  fa_run F tr F' → ¬ F f → 0 < f →
  Forall (λ e, ∀ a, e.1 = OpFree a → a / PAGE_SIZE_BYTES ≠ f) tr →
  ¬ F' f ∧ Forall (λ e, e.1 = OpAlloc → e.2 ≠ f * PAGE_SIZE_BYTES) tr.
Proof.
  intros Hrun. revert f. induction Hrun as [F F' Heq|F e F1 tr F2 Hstep Hrun IH]; intros f Hf Hpos Hfree.
  - split; [by rewrite <- Heq|done].
  - apply Forall_cons_iff in Hfree as [He Hfree].
    assert (¬ F1 f) as Hf1.
    { destruct Hstep as [f' F' H1 H2 H3|F' H1 H2|a F' H1].
      - rewrite H3. tauto.
      - by rewrite H2.
      - rewrite H1. intros [?| ->]; [done|]. by apply (He a). }
    destruct (IH f Hf1 Hpos Hfree) as [? ?]. split; [done|]. apply Forall_cons_iff. split; [|done].
    destruct Hstep as [f' F' H1 H2 H3|F' H1 H2|a F' H1]; simpl; [| |done].
    + intros _ Heq. unfold PAGE_SIZE_BYTES in Heq. assert (f' = f) by lia. by subst.
    + intros _. unfold PAGE_SIZE_BYTES. lia.
Qed.

(** ** Properties *)

(** [pm_alloc] is first fit over the whole of physical memory.  From a
    well-formed state whose hint is exact it always returns; either it hands
    out the lowest free frame, marks exactly that frame and keeps the
    invariant, or there is no free frame, the result is 0 and nothing changes. *)
Theorem pm_alloc_first_fit s :
  pm_wf s → hint_ok s →
  ∃ a s', pm_alloc s = Ok (a, s') ∧ pm_wf s' ∧ hint_ok s' ∧
    ((a = 0 ∧ s' = s ∧ ∀ f, 0 <= f < frames → used s f = true) ∨
     ∃ f, 0 <= f < frames ∧ a = f * PAGE_SIZE_BYTES ∧ used s f = false ∧
       (∀ g, 0 <= g < f → used s g = true) ∧
       ∀ g, used s' g = bool_decide (f = g) || used s g).
Proof.
  intros Hwf Hh. destruct (proj1 (wp_ok _ _ _) (pm_alloc_wp s Hwf)) as (a & s' & Hr & Hp).
  exists a, s'. split; [done|]. by apply alloc_post_inv.
Qed.

Definition pm_example : pmem := PMem {[0 := 255; 1 := 7]} 1 false 0.

Lemma pm_example_wf : pm_wf pm_example.
Proof. split; [|unfold mmap_count; simpl; lia|done]. apply zget_Forall; by_computation. Defined.
Lemma pm_example_hint : hint_ok pm_example.
Proof.
  intros f Hf. cbn in Hf. assert (f ∈ seqZ 0 8) as H by (apply elem_of_seqZ; lia).
  clear Hf. revert f H. apply Forall_forall. by_computation.
Defined.

Lemma pm_alloc_first_fit_witness :
  ∃ a s', pm_alloc pm_example = Ok (a, s') ∧ a = 11 * PAGE_SIZE_BYTES.
Proof.
  destruct (pm_alloc_first_fit pm_example pm_example_wf pm_example_hint) as (a & s' & Hr & _).
  exists a, s'. split; [done|]. vm_compute in Hr. injection Hr as <- <-. done.
Defined.

(** C1: the allocator refines the abstract one.  Any sequence of [pm_alloc]
    and [pm_free] calls runs to completion, and what the calls returned is a
    run of the abstract allocator, whose state is the set of free frames, which
    always hands out the least free frame and fails only on the empty set. *)
Theorem pm_calls_refine_free_set ops s :
  pm_wf s → hint_ok s → Forall op_ok ops →
  ∃ tr s', pm_run ops s = Ok (tr, s') ∧ pm_wf s' ∧ hint_ok s' ∧ tr.*1 = ops ∧
    fa_run (free_set s) tr (free_set s').
Proof. intros Hwf Hh Hops. by apply wp_ok, pm_run_refines. Qed.

Definition pm_example_ops : list pm_op := [OpAlloc; OpFree 0x3000; OpAlloc; OpAlloc].

Lemma pm_calls_refine_free_set_witness :
  ∃ tr s', pm_run pm_example_ops pm_example = Ok (tr, s') ∧
    tr.*2 = [0xb000; 0; 0x3000; 0xc000] ∧ fa_run (free_set pm_example) tr (free_set s').
Proof.
  destruct (pm_calls_refine_free_set pm_example_ops pm_example pm_example_wf pm_example_hint)
    as (tr & s' & Hr & _ & _ & _ & Hrun).
  { repeat constructor; unfold is_u32; lia. }
  exists tr, s'. split; [done|]. split; [|done]. vm_compute in Hr. by injection Hr as <- <-.
Defined.

(** No frame is handed out twice.  A frame in use stays in use, and no
    [pm_alloc] returns it, as long as the calls do not free it. *)
Theorem pm_no_double_alloc ops s f :
  pm_wf s → hint_ok s → Forall op_ok ops →
  0 < f < frames → used s f = true →
  Forall (λ op, ∀ a, op = OpFree a → a / PAGE_SIZE_BYTES ≠ f) ops →
  ∃ tr s', pm_run ops s = Ok (tr, s') ∧ used s' f = true ∧
    Forall (λ e, e.1 = OpAlloc → e.2 ≠ f * PAGE_SIZE_BYTES) tr.
Proof.
  intros Hwf Hh Hops Hf Hu Hfree.
  destruct (proj1 (wp_ok _ _ _) (pm_run_refines ops s Hwf Hh Hops))
    as (tr & s' & Hr & _ & _ & <- & Hrun).
  exists tr, s'. split; [done|].
  destruct (fa_run_in_use _ _ _ f Hrun) as [Hn Htr]; [|lia| |].
  - intros [_ ?]. congruence.
  - by apply Forall_fmap in Hfree.
  - split; [|done]. destruct (used s' f) eqn:?; [done|]. destruct Hn. split; [lia|done].
Qed.

Lemma pm_no_double_alloc_witness :
  ∃ tr s', pm_run [OpAlloc; OpAlloc; OpFree 0x3000] pm_example = Ok (tr, s') ∧ used s' 9 = true.
Proof.
  destruct (pm_no_double_alloc [OpAlloc; OpAlloc; OpFree 0x3000] pm_example 9
    pm_example_wf pm_example_hint) as (tr & s' & Hr & Hu & _).
  - repeat constructor; unfold is_u32; lia.
  - by vm_compute.
  - by vm_compute.
  - repeat constructor; [done..|]. by intros a [= <-].
  - by exists tr, s'.
Defined.

(** Freeing what was just allocated restores the bitmap, byte for byte,
    and keeps the invariant. *)
Theorem pm_alloc_free_roundtrip s a s1 :
  pm_wf s → hint_ok s → pm_alloc s = Ok (a, s1) → a ≠ 0 →
  ∃ s2, pm_free a s1 = Ok (tt, s2) ∧ pm_wf s2 ∧ hint_ok s2 ∧
    ∀ i, pm_map s2 !0 i = pm_map s !0 i.
Proof.
  intros Hwf Hh Hr Ha. pose proof (pm_alloc_wp s Hwf) as Hp. rewrite (wp_run _ _ _ _ _ Hr) in Hp.
  destruct (alloc_post_inv _ _ _ Hwf Hh Hp) as (Hwf1 & Hh1 & _).
  destruct Hp as [(-> & _)|(f & Hf & Hu & _ & -> & Hs1)]; [done|].
  assert (is_u32 (f * PAGE_SIZE_BYTES)) as Hu32.
  { pose proof (wf_first _ Hwf). unfold is_u32, frames, mmap_count, PAGE_SIZE_BYTES in *. lia. }
  assert (f * PAGE_SIZE_BYTES / PAGE_SIZE_BYTES = f) as Hd by (by apply Z.div_mul).
  set (s2 := set_first_free (Z.min (pm_first_free s1) (f * PAGE_SIZE_BYTES / PAGE_SIZE_BYTES / 8))
          (unmark (f * PAGE_SIZE_BYTES / PAGE_SIZE_BYTES) s1)).
  destruct (proj1 (wp_ok _ (λ r s', r = tt ∧ s' = s2) _)
    (pm_free_wp s1 (f * PAGE_SIZE_BYTES) _ Hwf1 Hu32 (conj eq_refl eq_refl))) as ([] & ? & Hfr & _ & ->).
  destruct (free_post_inv s1 _ s2 Hwf1 Hh1 Hu32 eq_refl) as (Hwf2 & Hh2 & _).
  exists s2. split_and!; [done..|]. intros i. subst s2 s1. simpl. rewrite Hd, zget_insert.
  case_decide as Hi; [|by rewrite zget_insert, decide_False].
  rewrite zget_insert_eq, <- Hi. apply u8_lor_lnot; [apply Hwf|apply mod8|done].
Qed.

Lemma pm_alloc_free_roundtrip_witness :
  ∃ s1 s2, pm_alloc pm_example = Ok (0xb000, s1) ∧ pm_free 0xb000 s1 = Ok (tt, s2).
Proof.
  destruct (pm_alloc pm_example) as [[a s1]|] eqn:Hr; [|by vm_compute in Hr].
  pose proof Hr as Hr'. vm_compute in Hr'. injection Hr' as <- Hs1.
  destruct (pm_alloc_free_roundtrip pm_example 0xb000 s1 pm_example_wf pm_example_hint Hr)
    as (s2 & Hf & _); [done|].
  by exists s1, s2.
Defined.

(** [pm_alloc_64kaligned] finds the first 64 KiB-aligned run of sixteen
    free frames.  The address it returns is a multiple of 64 KiB, all sixteen
    frames were free and are marked, no other frame changes; when no aligned
    run is free it returns 0 and changes nothing. *)
Theorem pm_alloc_64kaligned_spec s :
  pm_wf s →
  ∃ a s', pm_alloc_64kaligned s = Ok (a, s') ∧ pm_wf s' ∧
    ((a = 0 ∧ s' = s ∧ ∀ i, ¬ pair_free s i) ∨
     ∃ f, 0 <= f ∧ f + 16 <= frames ∧ a = f * PAGE_SIZE_BYTES ∧ a mod 0x10000 = 0 ∧
       (∀ g, f <= g < f + 16 → used s g = false) ∧
       (∀ k, k < f / 8 → ¬ pair_free s k) ∧
       ∀ g, used s' g = bool_decide (f <= g < f + 16) || used s g).
Proof.
  intros Hwf. apply wp_ok, pm_alloc_64k_wp; [done| |].
  - intros Hn. split; [done|]. by left.
  - intros i s' Hp Hmin Hwf' (Hu & _ & _). split; [done|]. right. exists (8 * i).
    destruct Hp as (Hr & He & H1 & H2). apply Z.even_spec in He as [q ->].
    assert (8 * (2 * q) / 8 = 2 * q) as -> by (rewrite Z.mul_comm; by apply Z.div_mul).
    split_and!; [lia|unfold frames, mmap_count in *; lia|unfold PAGE_SIZE_BYTES; lia| | |done|done].
    + replace (2 * q * 0x8000) with (q * 0x10000) by lia. by apply Z.mod_mul.
    + intros g Hg. destruct (decide (g < 8 * (2 * q) + 8)).
      * replace g with (8 * (2 * q) + (g - 8 * (2 * q))) by lia. apply H1. lia.
      * replace g with (8 * (2 * q + 1) + (g - 8 * (2 * q + 1))) by lia. apply H2. lia.
Qed.

Lemma pm_alloc_64kaligned_spec_witness :
  ∃ s', pm_alloc_64kaligned pm_example = Ok (0x10000, s').
Proof.
  destruct (pm_alloc_64kaligned_spec pm_example pm_example_wf) as (a & s' & Hr & _).
  exists s'. rewrite Hr. f_equal. f_equal. vm_compute in Hr. by injection Hr as <- _.
Defined.

(** [pm_reserve] moves the hint to the frame it reserves, whatever lies
    below.  After it, [pm_alloc] never returns a frame of a lower bitmap byte,
    even when such a frame is free. *)
Theorem pm_reserve_skips_lower_frames s r s1 a s2 :
  pm_wf s → is_u32 r → pm_reserve r s = Ok (tt, s1) → pm_alloc s1 = Ok (a, s2) → a ≠ 0 →
  r / 0x8000 <= a / 0x8000.
Proof.
  intros Hwf Hr Hres Hal Ha.
  assert (s1 = set_first_free (r / PAGE_SIZE_BYTES / 8) (mark (r / PAGE_SIZE_BYTES) s)) as ->.
  { pose proof (pm_reserve_wp s r (λ _ s', s' = set_first_free (r / PAGE_SIZE_BYTES / 8)
      (mark (r / PAGE_SIZE_BYTES) s)) Hwf Hr eq_refl) as H. by rewrite (wp_run _ _ _ _ _ Hres) in H. }
  assert (pm_wf (set_first_free (r / PAGE_SIZE_BYTES / 8) (mark (r / PAGE_SIZE_BYTES) s))) as Hwf1.
  { pose proof (addr_byte_bound r Hr). auto with pm. }
  pose proof (pm_alloc_wp _ Hwf1) as Hp. rewrite (wp_run _ _ _ _ _ Hal) in Hp.
  destruct Hp as [(-> & _)|(f & Hf & _ & _ & -> & _)]; [done|]. simpl in Hf.
  replace (r / 0x8000) with (r / PAGE_SIZE_BYTES / 8) by (unfold PAGE_SIZE_BYTES; by rewrite Z.div_div).
  apply Z.div_le_lower_bound; [lia|]. unfold PAGE_SIZE_BYTES in *. lia.
Qed.

Lemma pm_reserve_skips_lower_frames_witness :
  used pm_example 11 = false ∧ ∃ s1 a s2, pm_reserve 0x100000 pm_example = Ok (tt, s1) ∧
    pm_alloc s1 = Ok (a, s2) ∧ 0x100000 / 0x8000 <= a / 0x8000.
Proof.
  split; [done|].
  destruct (pm_reserve 0x100000 pm_example) as [[[] s1]|] eqn:Hr; [|by vm_compute in Hr].
  pose proof Hr as Hs1. vm_compute in Hs1. injection Hs1 as Hs1.
  destruct (pm_alloc s1) as [[a s2]|] eqn:Hal; [|subst s1; by vm_compute in Hal].
  exists s1, a, s2. split_and!; [done..|].
  apply (pm_reserve_skips_lower_frames pm_example 0x100000 s1 a s2 pm_example_wf); [|done..|].
  - unfold is_u32; lia.
  - subst s1. vm_compute in Hal. by injection Hal as <- _.
Defined.
