(* ===== verification/Paging.v ===== *)
(** * Page tables (src/src/kernel/arch_i386/memory.c: map, unmap, get_paddr,
    get_pflags, get_new_page, and the MMU they drive) *)
From S2P Require Import Prelude PhysMem.

Definition PD_PRESENT : Z := 0x1.
Definition PT_PRESENT : Z := 0x1.
Definition PT_USER_RW : Z := 0x2.
Definition PT_USER : Z := 0x4.
Definition PT_PCD : Z := 0x10.
Definition PT_LINK_N : Z := 0x200.
Definition PT_LINK_L : Z := 0x400.

(** Physical memory as 32-bit words, by the physical address of the word, the
    page-directory base register, and the frame allocator. *)
Record paging := Paging {
  pg_pm : pmem;
  phys : gmap Z Z;
  cr3 : Z;
}.

#[export, refine] Instance paging_pmem : Lens paging pmem := {|
  view := pg_pm;
  put p s := Paging p (phys s) (cr3 s);
|}.
Proof. all: done || by intros []. Defined.

Definition set_phys (m : gmap Z Z) (s : paging) : paging := Paging (pg_pm s) m (cr3 s).

(** The two-level i386 walk, with 4 MiB pages (the boot loader sets CR4.PSE).
    The translation look-aside buffer is taken to be coherent. *)
Definition walk (s : paging) (v : Z) : option Z :=
  let pde := phys s !0 (cr3 s + 4 * Z.shiftr v 22) in
  if negb (Z.testbit pde 0) then None
  else if Z.testbit pde 7 then Some (Z.land pde 0xffc00000 + Z.land v 0x3fffff)
  else
    let pte := phys s !0 (Z.land pde 0xfffff000 + 4 * Z.land (Z.shiftr v 12) 0x3ff) in
    if negb (Z.testbit pte 0) then None
    else Some (Z.land pte 0xfffff000 + Z.land v 0xfff).

(** Aligned 32-bit accesses to a virtual address.  CR0.WP is clear, so the
    kernel may write to any page that is present. *)
Definition vread32 (v : Z) : M paging Z := λ s,
  match walk s v with
  | Some p => Ok (phys s !0 p, s)
  | None => Err (PageFault v)
  end.
Definition vwrite32 (v x : Z) : M paging unit := λ s,
  match walk s v with
  | Some p => Ok (tt, set_phys (<[p := x]> (phys s)) s)
  | None => Err (PageFault v)
  end.

(** The directory and the tables are mapped onto themselves at the top of the
    address space. *)
Definition pd_ptr (i : Z) : Z := u32 (0xfffff000 + 4 * i).
Definition pt_ptr (pd_index i : Z) : Z := u32 (u32 (0xffc00000 + pd_index * 0x1000) + 4 * i).

Definition pd_index_of (vaddr : Z) : Z := Z.shiftr vaddr 22.
Definition pt_index_of (vaddr : Z) : Z := Z.land (Z.shiftr vaddr 12) 0x3ff.

Definition user_flags (flags : Z) : Z :=
  Z.lor (Z.land flags PT_USER) (Z.land flags PT_USER_RW).

Definition map (vaddr paddr flags : Z) : M paging unit :=
  let pd_index := pd_index_of vaddr in
  let pt_index := pt_index_of vaddr in
  let uflags := user_flags flags in
  e ← vread32 (pd_ptr pd_index);
  when (e =? 0) (
    f ← zoom pm_alloc;
    vwrite32 (pd_ptr pd_index) (Z.lor f 1);;
    for_all 0 0x400 (λ i, vwrite32 (pt_ptr pd_index i) 0));;
  e ← vread32 (pd_ptr pd_index);
  when (negb (Z.land uflags e =? uflags) && (vaddr <? 0xc0000000))
    (vwrite32 (pd_ptr pd_index) (Z.lor e uflags));;
  vwrite32 (pt_ptr pd_index pt_index) (Z.lor paddr flags).

Definition unmap (vaddr : Z) : M paging unit :=
  e ← vread32 (pd_ptr (pd_index_of vaddr));
  if e =? 0 then skip
  else vwrite32 (pt_ptr (pd_index_of vaddr) (pt_index_of vaddr)) 0.

Definition get_paddr (vaddr : Z) : M paging Z :=
  e ← vread32 (pd_ptr (pd_index_of vaddr));
  if e =? 0 then mret 0
  else
    x ← vread32 (pt_ptr (pd_index_of vaddr) (pt_index_of vaddr));
    mret (Z.land x 0xfffff000).

Definition get_pflags (vaddr : Z) : M paging Z :=
  e ← vread32 (pd_ptr (pd_index_of vaddr));
  if e =? 0 then mret 0
  else
    x ← vread32 (pt_ptr (pd_index_of vaddr) (pt_index_of vaddr));
    mret (Z.land x 0xfff).

Definition get_new_page (flags : Z) : M paging Z :=
  paddr ← zoom pm_alloc;
  i ← loop fuel32 (λ i,
        p ← get_paddr (u32 (paddr + i * 4096));
        if p =? 0 then mret (inr i) else mret (inl (u32 (i + 1)))) 0;
  map (u32 (paddr + i * 4096)) paddr flags;;
  mret (u32 (paddr + i * 4096)).

(** ** The address space the tables denote *)

Definition pde (s : paging) (i : Z) : Z := phys s !0 (cr3 s + 4 * i).
Definition table_of (e : Z) : Z := Z.land e 0xfffff000.
Definition is_table (e : Z) : Prop := Z.testbit e 0 = true ∧ Z.testbit e 7 = false.
Definition pte_addr (s : paging) (i k : Z) : Z := table_of (pde s i) + 4 * k.

(** The page-table entry of virtual page [n], 0 when it has no table. *)
Definition entry (s : paging) (n : Z) : Z :=
  if pde s (n / 1024) =? 0 then 0 else phys s !0 (pte_addr s (n / 1024) (n mod 1024)).

(** The recursive mapping is in place. *)
Record rec_ok (s : paging) : Prop := {
  rec_cr3 : is_u32 (cr3 s) ∧ cr3 s mod 4096 = 0;
  rec_self : is_table (pde s 1023) ∧ table_of (pde s 1023) = cr3 s;
}.

Record pg_wf (s : paging) : Prop := {
  pgw_pm : pm_wf (pg_pm s);
  pgw_rec : rec_ok s;
  pgw_u32 : ∀ i, 0 <= i < 1024 → is_u32 (pde s i);
  (** every directory entry above the boot-time 4 MiB page is empty or a table *)
  pgw_pde : ∀ i, 0 < i < 1023 → pde s i = 0 ∨ is_table (pde s i);
  (** frame 0, the directory and the tables are in use, all distinct *)
  pgw_page0 : used (pg_pm s) 0 = true;
  pgw_cr3_used : used (pg_pm s) (cr3 s / PAGE_SIZE_BYTES) = true;
  pgw_used : ∀ i, 0 < i < 1023 → pde s i ≠ 0 →
    used (pg_pm s) (table_of (pde s i) / PAGE_SIZE_BYTES) = true;
  pgw_not_pd : ∀ i, 0 < i < 1023 → pde s i ≠ 0 → table_of (pde s i) ≠ cr3 s;
  pgw_inj : ∀ i j, 0 < i < 1023 → 0 < j < 1023 → pde s i ≠ 0 → pde s j ≠ 0 →
    table_of (pde s i) = table_of (pde s j) → i = j;
}.

(** Frame [g] holds data: it is neither frame 0 nor the directory nor a page
    table. *)
Definition data_frame (s : paging) (g : Z) : Prop :=
  g ≠ 0 ∧ g * PAGE_SIZE_BYTES ≠ cr3 s ∧
  ∀ i, 0 < i < 1023 → pde s i ≠ 0 → table_of (pde s i) ≠ g * PAGE_SIZE_BYTES.

Lemma data_frame_ext s s' g :
  cr3 s' = cr3 s → (∀ i, 0 <= i < 1024 → table_of (pde s' i) = table_of (pde s i) ∧ (pde s' i = 0 ↔ pde s i = 0)) →
  data_frame s g → data_frame s' g.
Proof.
  intros Hc Hp (H0 & Hcr & Ht). split_and!; [done|by rewrite Hc|].
  intros i Hi Hnz. destruct (Hp i ltac:(lia)) as [-> Hz]. apply Ht; [done|]. by rewrite <- Hz.
Qed.

(** A frame that is not in use holds data as soon as somebody takes it. *)
Lemma unused_data_frame s g : pg_wf s → used (pg_pm s) g = false → data_frame s g.
Proof.
  intros Hwf Hu. assert (g * PAGE_SIZE_BYTES / PAGE_SIZE_BYTES = g) as Hd by (by apply Z.div_mul).
  split_and!.
  - intros ->. rewrite (pgw_page0 s Hwf) in Hu. done.
  - intros He. pose proof (pgw_cr3_used s Hwf) as H. rewrite <- He, Hd in H. congruence.
  - intros i Hi Hnz He. pose proof (pgw_used s Hwf i Hi Hnz) as H. rewrite He, Hd in H. congruence.
Qed.

(** The words of a frame. *)
Definition same_words (s s' : paging) (g : Z) : Prop :=
  ∀ k, 0 <= k < 1024 → phys s' !0 (g * PAGE_SIZE_BYTES + 4 * k) = phys s !0 (g * PAGE_SIZE_BYTES + 4 * k).

(** Data frames, in use or not, keep what they hold. *)
Definition data_kept (s s' : paging) : Prop := ∀ g, data_frame s g → data_frame s' g ∧ same_words s s' g.
#[export] Instance data_kept_preorder : PreOrder data_kept.
Proof.
  split; [by intros s g Hg|]. intros s1 s2 s3 H12 H23 g Hg. destruct (H12 g Hg) as [Hg2 Hw2].
  destruct (H23 g Hg2) as [Hg3 Hw3]. split; [done|]. intros k Hk. by rewrite Hw3, Hw2.
Qed.

(** Frames that are in use stay in use, and those that hold data keep it. *)
Definition frames_kept (s s' : paging) : Prop :=
  ∀ g, used (pg_pm s) g = true →
    used (pg_pm s') g = true ∧ (data_frame s g → data_frame s' g ∧ same_words s s' g).
#[export] Instance frames_kept_preorder : PreOrder frames_kept.
Proof.
  split; [by intros s g Hg|]. intros s1 s2 s3 H12 H23 g Hg. destruct (H12 g Hg) as [Hg2 Hd2]. destruct (H23 g Hg2) as [Hg3 Hd3].
  split; [done|]. intros Hd. destruct (Hd2 Hd) as [Hd2' Hw2]. destruct (Hd3 Hd2') as [Hd3' Hw3]. split; [done|].
  intros k Hk. by rewrite Hw3, Hw2.
Qed.

(** Directory entries only gain bits. *)
Record mem_kept (s s' : paging) : Prop := {
  mk_frames : frames_kept s s';
  mk_pde i b : 0 <= i < 1024 → Z.testbit (pde s i) b = true → Z.testbit (pde s' i) b = true;
}.
#[export] Instance mem_kept_preorder : PreOrder mem_kept.
Proof. split; [by split|]. intros s1 s2 s3 [H12 P12] [H23 P23]. split; [by etransitivity|auto]. Qed.

(** ** Walking the recursive mapping *)

Create HintDb pg.

Lemma pd_index_page v : pd_index_of v = v / 4096 / 1024.
Proof. unfold pd_index_of. rewrite Z.shiftr_div_pow2, Z.div_div by lia. done. Qed.
Lemma pt_index_page v : pt_index_of v = (v / 4096) mod 1024.
Proof.
  unfold pt_index_of. change 0x3ff with (Z.ones 10). by rewrite land_low, Z.shiftr_div_pow2 by lia.
Qed.

(** The three fields of a virtual address. *)
Lemma vaddr_fields i k o :
  0 <= i < 1024 → 0 <= k < 1024 → 0 <= o < 4096 →
  let v := i * 0x400000 + k * 0x1000 + o in
  is_u32 v ∧ Z.shiftr v 22 = i ∧ Z.land (Z.shiftr v 12) 0x3ff = k ∧ Z.land v 0xfff = o.
Proof.
  intros Hi Hk Ho v. subst v. change 0x3ff with (Z.ones 10). change 0xfff with (Z.ones 12).
  rewrite !land_low, !Z.shiftr_div_pow2 by lia. unfold is_u32.
  assert ((i * 0x400000 + k * 0x1000 + o) / 2 ^ 12 = i * 1024 + k) as ->
    by (symmetry; apply (Z.div_unique _ _ _ o); lia).
  split_and!; [lia|lia|..].
  - symmetry. apply (Z.div_unique _ _ _ (k * 0x1000 + o)); lia.
  - symmetry. apply (Z.mod_unique _ _ i); lia.
  - symmetry. apply (Z.mod_unique _ _ (i * 1024 + k)); lia.
Qed.

Lemma pd_ptr_eq i : 0 <= i < 1024 → pd_ptr i = 1023 * 0x400000 + 1023 * 0x1000 + 4 * i.
Proof. intros. unfold pd_ptr. rewrite u32_id; unfold is_u32; lia. Qed.
Lemma pt_ptr_eq i k :
  0 <= i < 1024 → 0 <= k < 1024 → pt_ptr i k = 1023 * 0x400000 + i * 0x1000 + 4 * k.
Proof. intros. unfold pt_ptr. rewrite (u32_id (_ + i * _)), u32_id; unfold is_u32; lia. Qed.

Lemma walk_pd s i : rec_ok s → 0 <= i < 1024 → walk s (pd_ptr i) = Some (cr3 s + 4 * i).
Proof.
  intros [_ [[H0 H7] Ht]] Hi. rewrite pd_ptr_eq by done.
  destruct (vaddr_fields 1023 1023 (4 * i)) as (_ & E1 & E2 & E3); [lia..|].
  unfold walk. rewrite E1, E2, E3. unfold pde, table_of in *. by rewrite H0, H7, Ht, H0, Ht.
Qed.

Lemma walk_pt s i k :
  rec_ok s → 0 <= i < 1024 → 0 <= k < 1024 → Z.testbit (pde s i) 0 = true →
  walk s (pt_ptr i k) = Some (pte_addr s i k).
Proof.
  intros [_ [[H0 H7] Ht]] Hi Hk Hp. rewrite pt_ptr_eq by done.
  destruct (vaddr_fields 1023 i (4 * k)) as (_ & E1 & E2 & E3); [lia..|].
  unfold walk, pte_addr. rewrite E1, E2, E3. unfold pde, table_of in *. by rewrite H0, H7, Ht, Hp.
Qed.

Lemma vread32_wp v p (Q : Z → paging → Prop) s :
  walk s v = Some p → Q (phys s !0 p) s → wp (vread32 v) Q s.
Proof. intros Hw HQ. unfold wp, vread32. by rewrite Hw. Qed.
Lemma vwrite32_wp v p x (Q : unit → paging → Prop) s :
  walk s v = Some p → Q tt (set_phys (<[p := x]> (phys s)) s) → wp (vwrite32 v x) Q s.
Proof. intros Hw HQ. unfold wp, vwrite32. by rewrite Hw. Qed.

Lemma pd_read_wp s i (Q : Z → paging → Prop) :
  rec_ok s → 0 <= i < 1024 → Q (pde s i) s → wp (vread32 (pd_ptr i)) Q s.
Proof. intros Hr Hi. by apply vread32_wp, walk_pd. Qed.

(** The hardware walk agrees with [entry] wherever the directory entry is a
    table. *)
Lemma walk_entry s n o :
  0 < n / 1024 < 1023 → 0 <= o < 4096 → (pde s (n / 1024) = 0 ∨ is_table (pde s (n / 1024))) →
  walk s (n * 4096 + o) =
    if Z.testbit (entry s n) 0 then Some (Z.land (entry s n) 0xfffff000 + o) else None.
Proof.
  intros Hn Ho Hd. pose proof (Z.mod_pos_bound n 1024 ltac:(lia)).
  destruct (vaddr_fields (n / 1024) (n mod 1024) o) as (_ & E1 & E2 & E3); [lia..|].
  replace (n / 1024 * 0x400000 + n mod 1024 * 0x1000 + o) with (n * 4096 + o) in * by
    (pose proof (Z.div_mod n 1024 ltac:(lia)); lia).
  unfold walk, entry, pte_addr, table_of. rewrite E1, E2, E3. fold (pde s (n / 1024)).
  destruct Hd as [Hd|[Hp H7]].
  - by rewrite Hd.
  - rewrite Hp, H7. simpl. destruct (Z.eqb_spec (pde s (n / 1024)) 0) as [He|].
    { rewrite He in Hp. done. }
    by destruct (Z.testbit (phys s !0 _) 0).
Qed.

(** ** Writing directory and table entries *)

Definition wr (p x : Z) (s : paging) : paging := set_phys (<[p := x]> (phys s)) s.

Lemma table_of_aligned e : is_u32 e → is_u32 (table_of e) ∧ table_of e mod 4096 = 0.
Proof.
  intros He. unfold table_of. rewrite land_page by done. unfold is_u32 in *. split; [|by apply Z.mod_mul].
  pose proof (Z.mul_div_le e 4096 ltac:(lia)). pose proof (Z.div_pos e 4096). lia.
Qed.

Lemma page_words p q i k :
  p mod 4096 = 0 → q mod 4096 = 0 → 0 <= i < 1024 → 0 <= k < 1024 →
  p + 4 * i = q + 4 * k → p = q ∧ i = k.
Proof.
  intros Hp Hq Hi Hk He. pose proof (Z.div_mod p 4096 ltac:(lia)). pose proof (Z.div_mod q 4096 ltac:(lia)).
  assert (p / 4096 = q / 4096) by lia. lia.
Qed.

Lemma pde_wr_pd s i j x :
  pde (wr (cr3 s + 4 * i) x s) j = if decide (i = j) then x else pde s j.
Proof.
  unfold pde, wr. simpl. rewrite zget_insert. do 2 case_decide; try done; lia.
Qed.

(** A word of a page other than the directory. *)
Lemma pde_wr_page s p k x j :
  rec_ok s → p mod 4096 = 0 → p ≠ cr3 s → 0 <= k < 1024 → 0 <= j < 1024 →
  pde (wr (p + 4 * k) x s) j = pde s j.
Proof.
  intros [[_ Hc] _] Hp Hne Hk Hj. unfold pde, wr. simpl. rewrite zget_insert_ne; [done|].
  intros He. apply page_words in He as [? _]; done.
Qed.

Lemma rec_ok_ext s s' : cr3 s' = cr3 s → pde s' 1023 = pde s 1023 → rec_ok s → rec_ok s'.
Proof. intros Hc Hd [H1 H2]. split; rewrite Hc; [done|]. by rewrite Hd. Qed.

(** A word that lies in no data frame. *)
Lemma wr_kept s p k x :
  p mod 4096 = 0 → 0 <= k < 1024 → (∀ g, data_frame s g → g * PAGE_SIZE_BYTES ≠ p) →
  (∀ g, data_frame s g → data_frame (wr (p + 4 * k) x s) g) →
  (∀ i b, 0 <= i < 1024 → Z.testbit (pde s i) b = true → Z.testbit (pde (wr (p + 4 * k) x s) i) b = true) →
  mem_kept s (wr (p + 4 * k) x s).
Proof.
  intros Hp Hk Hne Hd Hb. split; [|done]. intros g Hg. split; [done|]. intros Hg'. split; [auto|]. intros j Hj. unfold wr. cbn [phys set_phys].
  apply zget_insert_ne. intros He. apply page_words in He as [He _]; [by apply (Hne g)|done|by apply Z.mod_mul|done|done].
Qed.

(** Replacing a directory entry by one for the same table. *)
Lemma set_pde_flags s i e :
  pg_wf s → 0 < i < 1023 → pde s i ≠ 0 → is_u32 e → is_table e → table_of e = table_of (pde s i) →
  let s' := wr (cr3 s + 4 * i) e s in
  pg_wf s' ∧ pde s' i = e ∧ (∀ g, data_frame s g → data_frame s' g) ∧
  ∀ n, 0 < n / 1024 < 1023 → entry s' n = entry s n.
Proof.
  intros Hwf Hi Hnz Heu Het Htb s'.
  assert (e ≠ 0) as Henz by (intros ->; destruct Het; done).
  assert (∀ j, pde s' j = if decide (i = j) then e else pde s j) as Hpde by (intros j; unfold s'; apply pde_wr_pd).
  assert (∀ j, table_of (pde s' j) = table_of (pde s j)) as Htab.
  { intros j. rewrite Hpde. case_decide; subst; done. }
  assert (∀ j, pde s' j = 0 ↔ pde s j = 0) as Hz.
  { intros j. rewrite Hpde. case_decide; subst; done. }
  split_and!.
  - destruct Hwf. split; try done.
    + eapply rec_ok_ext; [| |done]; [done|]. rewrite Hpde, decide_False by lia. done.
    + intros j Hj. rewrite Hpde. case_decide; auto.
    + intros j Hj. rewrite Hpde. case_decide; auto.
    + intros j Hj. rewrite Hz, Htab. auto.
    + intros j Hj. rewrite Hz, Htab. auto.
    + intros j k Hj Hk. rewrite !Hz, !Htab. auto.
  - rewrite Hpde. by rewrite decide_True.
  - intros g. by apply data_frame_ext.
  - intros n Hn. unfold entry, pte_addr. rewrite Htab.
    destruct (Z.eqb_spec (pde s' (n / 1024)) 0) as [H|H]; rewrite Hz in H.
    + by rewrite (proj2 (Z.eqb_eq _ _) H).
    + rewrite (proj2 (Z.eqb_neq _ _) H). unfold s', wr. simpl. apply zget_insert_ne.
      intros He. apply page_words in He as [He _].
      * by apply (pgw_not_pd s Hwf (n / 1024)).
      * apply Hwf.
      * apply table_of_aligned, (pgw_u32 s Hwf). lia.
      * lia.
      * apply Z.mod_pos_bound. lia.
Qed.

(** Writing a page-table entry. *)
Lemma set_pte s i k x :
  pg_wf s → 0 < i < 1023 → 0 <= k < 1024 → pde s i ≠ 0 →
  let s' := wr (pte_addr s i k) x s in
  pg_wf s' ∧ (∀ j, 0 <= j < 1024 → pde s' j = pde s j) ∧
  ∀ n, 0 < n / 1024 < 1023 → entry s' n = if decide (n = i * 1024 + k) then x else entry s n.
Proof.
  intros Hwf Hi Hk Hnz s'.
  assert (∀ j, 0 <= j < 1024 → pde s' j = pde s j) as Hpde.
  { intros j Hj. apply pde_wr_page; try done; [apply Hwf|apply table_of_aligned, Hwf; lia|by apply Hwf]. }
  split_and!; [|done|].
  - destruct Hwf. split; try done.
    + eapply rec_ok_ext; [| |done]; [done|]. apply Hpde. lia.
    + intros j Hj. rewrite Hpde by lia. auto.
    + intros j Hj. rewrite Hpde by lia. auto.
    + intros j Hj. rewrite Hpde by lia. auto.
    + intros j Hj. rewrite Hpde by lia. auto.
    + intros j j' Hj Hj'. rewrite !Hpde by lia. auto.
  - intros n Hn. unfold entry, pte_addr. rewrite Hpde by lia.
    pose proof (Z.div_mod n 1024 ltac:(lia)). pose proof (Z.mod_pos_bound n 1024 ltac:(lia)).
    destruct (Z.eqb_spec (pde s (n / 1024)) 0) as [Hz|Hz].
    + rewrite decide_False; [done|]. intros Hn'.
      assert (n / 1024 = i) as Hd by lia. congruence.
    + unfold s', wr, pte_addr. simpl. rewrite zget_insert.
      destruct (decide (n = i * 1024 + k)) as [->|Hne].
      * rewrite decide_True; [done|]. 
        assert ((i * 1024 + k) / 1024 = i) as -> by lia. assert ((i * 1024 + k) mod 1024 = k) as -> by lia. done.
      * rewrite decide_False; [done|]. intros He. apply page_words in He as [He Hkk].
        -- apply (pgw_inj s Hwf) in He; [lia|done..].
        -- apply table_of_aligned, Hwf. lia.
        -- apply table_of_aligned, Hwf. lia.
        -- lia.
        -- lia.
Qed.

(** A fresh, cleared table for directory slot [i]: [s'] is [s] with frame [f]
    taken, zeroed and entered in the directory. *)
Record table_added (s : paging) (i f : Z) (s' : paging) : Prop := {
  ta_pm_wf : pm_wf (pg_pm s');
  ta_used : ∀ g, used (pg_pm s') g = bool_decide (f = g) || used (pg_pm s) g;
  ta_cr3 : cr3 s' = cr3 s;
  ta_pde : ∀ j, 0 <= j < 1024 →
    pde s' j = if decide (i = j) then Z.lor (f * PAGE_SIZE_BYTES) 1 else pde s j;
  ta_zero : ∀ k, 0 <= k < 1024 → phys s' !0 (f * PAGE_SIZE_BYTES + 4 * k) = 0;
  ta_other : ∀ p k, p mod 4096 = 0 → p ≠ cr3 s → p ≠ f * PAGE_SIZE_BYTES → 0 <= k < 1024 →
    phys s' !0 (p + 4 * k) = phys s !0 (p + 4 * k);
}.

Lemma frame_pde f :
  0 <= f < frames →
  let e := Z.lor (f * PAGE_SIZE_BYTES) 1 in
  is_u32 e ∧ is_table e ∧ table_of e = f * PAGE_SIZE_BYTES ∧ e ≠ 0 ∧
  is_u32 (f * PAGE_SIZE_BYTES) ∧ (f * PAGE_SIZE_BYTES) mod 4096 = 0.
Proof.
  intros Hf e. unfold frames, mmap_count, PAGE_SIZE_BYTES in *.
  assert ((f * 4096) mod 4096 = 0) as Hm by (by apply Z.mod_mul).
  assert (e = f * 4096 + 1) as He by (apply lor_page_flags; lia).
  unfold is_u32, is_table, table_of. split_and!; try lia.
  - unfold e. rewrite Z.lor_spec. by rewrite orb_true_r.
  - unfold e. rewrite Z.lor_spec, testbit_page_low by lia. done.
  - apply land_page_flags; unfold is_u32; lia.
Qed.

Lemma table_added_wf s i f s' :
  pg_wf s → 0 < i < 1023 → pde s i = 0 → 0 <= f < frames → used (pg_pm s) f = false →
  table_added s i f s' →
  pg_wf s' ∧ is_table (pde s' i) ∧ pde s' i ≠ 0 ∧
  mem_kept s s' ∧
  ∀ n, 0 < n / 1024 < 1023 → entry s' n = entry s n.
Proof.
  intros Hwf Hi Hz Hf Hu [Hpm Hus Hc Hpde Hzero Hother].
  destruct (frame_pde f Hf) as (Heu & Het & Htb & Henz & Hfu & Hfm).
  assert (f * PAGE_SIZE_BYTES / PAGE_SIZE_BYTES = f) as Hfd by (by apply Z.div_mul).
  assert (∀ j, 0 <= j < 1024 → i ≠ j → pde s' j = pde s j) as Hne.
  { intros j Hj ?. rewrite Hpde, decide_False; done. }
  assert (pde s' i = Z.lor (f * PAGE_SIZE_BYTES) 1) as Hpi by (rewrite Hpde, decide_True; [done..|lia]).
  assert (∀ g, used (pg_pm s) g = true → used (pg_pm s') g = true) as Hmono.
  { intros g Hg. by rewrite Hus, Hg, orb_true_r. }
  assert (f * PAGE_SIZE_BYTES ≠ cr3 s) as Hfc.
  { intros He. pose proof (pgw_cr3_used s Hwf) as Hcu. rewrite <- He, Hfd in Hcu. congruence. }
  assert (∀ j, 0 < j < 1023 → pde s j ≠ 0 → table_of (pde s j) ≠ f * PAGE_SIZE_BYTES) as Hft.
  { intros j Hj Hnz He. pose proof (pgw_used s Hwf j Hj Hnz) as Hju. rewrite He, Hfd in Hju. congruence. }
  split_and!; [|by rewrite Hpi|by rewrite Hpi| |].
  - split; rewrite ?Hc; try done.
    + apply (rec_ok_ext s); [done| |apply Hwf]. apply Hne; lia.
    + intros j Hj. destruct (decide (i = j)) as [<-|]; [by rewrite Hpi|]. rewrite Hne by done. by apply Hwf.
    + intros j Hj. destruct (decide (i = j)) as [<-|]; [rewrite Hpi; by right|].
      rewrite Hne by (done || lia). by apply Hwf.
    + apply Hmono, Hwf.
    + apply Hmono, Hwf.
    + intros j Hj. destruct (decide (i = j)) as [<-|].
      { rewrite Hpi, Htb, Hfd, Hus. by rewrite bool_decide_eq_true_2. }
      rewrite Hne by (done || lia). intros. apply Hmono. by apply Hwf.
    + intros j Hj. destruct (decide (i = j)) as [<-|]; [by rewrite Hpi, Htb|].
      rewrite Hne by (done || lia). by apply Hwf.
    + intros j k Hj Hk. destruct (decide (i = j)) as [<-|], (decide (i = k)) as [<-|]; try done.
      * rewrite Hpi, Htb, Hne by (done || lia). intros _ Hkz He. by destruct (Hft k Hk Hkz).
      * rewrite Hpi, Htb, Hne by (done || lia). intros Hjz _ He. by destruct (Hft j Hj Hjz).
      * rewrite !Hne by (done || lia). by apply Hwf.
  - split; [|intros j b Hj Hb; destruct (decide (i = j)) as [<-|]; [by rewrite Hz, Z.bits_0 in Hb|by rewrite Hne]].
    intros g Hgu. split; [by apply Hmono|]. intros (H0 & Hgc & Hgt). split; [split_and!; [done|by rewrite Hc|]|].
    + intros j Hj. destruct (decide (i = j)) as [<-|]; [|rewrite Hne by (done || lia); by apply Hgt].
      rewrite Hpi, Htb. intros _ He. unfold PAGE_SIZE_BYTES in He. assert (f = g) by lia. congruence.
    + intros k Hk. apply Hother; [by apply Z.mod_mul|done| |done].
      intros He. unfold PAGE_SIZE_BYTES in He. assert (f = g) by lia. congruence.
  - intros n Hn. pose proof (Z.mod_pos_bound n 1024 ltac:(lia)). unfold entry, pte_addr.
    destruct (decide (i = n / 1024)) as [<-|].
    + rewrite Hpi, Hz. rewrite (proj2 (Z.eqb_neq _ _) Henz), Htb. by apply Hzero.
    + rewrite Hne by (done || lia). destruct (Z.eqb_spec (pde s (n / 1024)) 0) as [|Hnz]; [done|].
      apply Hother; [apply table_of_aligned, Hwf; lia|by apply Hwf|by apply Hft|done].
Qed.

(** The first half of [map]: make sure the slot has a table. *)
Lemma ensure_table_wp s i n (Q : unit → paging → Prop) :
  pg_wf s → 0 < i < 1023 → avail (pg_pm s) (S n) →
  (∀ s', pg_wf s' → is_table (pde s' i) → pde s' i ≠ 0 → cr3 s' = cr3 s →
     (∀ k, 0 < k / 1024 < 1023 → entry s' k = entry s k) → mem_kept s s' →
     avail (pg_pm s') n → Q tt s') →
  wp (when (pde s i =? 0) (
    f ← zoom pm_alloc;
    vwrite32 (pd_ptr i) (Z.lor f 1);;
    for_all 0 0x400 (λ k, vwrite32 (pt_ptr i k) 0))) Q s.
Proof.
  intros Hwf Hi Hav HQ. wp. destruct (Z.eqb_spec (pde s i) 0) as [Hz|Hnz].
  2: { destruct (pgw_pde s Hwf i Hi) as [|]; [done|]. apply HQ; try done. eapply avail_le; [|done]. lia. }
  wp. apply (pm_alloc_avail_wp _ n); [apply Hwf|done|]. intros f pm' Hfr Huf Hwfpm Hav' Hus. wp.
  destruct (frame_pde f Hfr) as (Heu & Het & Htb & Henz & Hfu & Hfm).
  set (s1 := put pm' s).
  assert (rec_ok s1) as Hrec1 by (apply (rec_ok_ext s); [done|done|apply Hwf]).
  apply (vwrite32_wp _ (cr3 s1 + 4 * i)); [apply walk_pd; [done|lia]|].
  set (s2 := wr (cr3 s1 + 4 * i) (Z.lor (f * PAGE_SIZE_BYTES) 1) s1).
  assert (∀ j, pde s2 j = if decide (i = j) then Z.lor (f * PAGE_SIZE_BYTES) 1 else pde s j) as Hpde2
    by (intros j; unfold s2; rewrite pde_wr_pd; done).
  assert (f * PAGE_SIZE_BYTES ≠ cr3 s) as Hfc.
  { intros He. pose proof (pgw_cr3_used s Hwf) as Hcu. rewrite <- He in Hcu.
    unfold PAGE_SIZE_BYTES in Hcu. rewrite Z.div_mul in Hcu by done. simpl in *. congruence. }
  apply (wp_for_all (λ k s', pg_pm s' = pm' ∧ cr3 s' = cr3 s ∧
    (∀ j, 0 <= j < 1024 → pde s' j = pde s2 j) ∧
    (∀ j, 0 <= j < k → phys s' !0 (f * PAGE_SIZE_BYTES + 4 * j) = 0) ∧
    (∀ p j, p mod 4096 = 0 → p ≠ f * PAGE_SIZE_BYTES → 0 <= j < 1024 →
       phys s' !0 (p + 4 * j) = phys s2 !0 (p + 4 * j)))); [lia| | |].
  - split_and!; [done..|lia|done].
  - intros k s' Hk (Hpm & Hc & Hpde & Hzero & Hoth).
    assert (pde s' i = Z.lor (f * PAGE_SIZE_BYTES) 1) as Hpi by (rewrite Hpde, Hpde2, decide_True; [done..|lia]).
    assert (rec_ok s') as Hrec'.
    { apply (rec_ok_ext s); [done| |apply Hwf]. rewrite Hpde, Hpde2, decide_False; [done|lia..]. }
    assert (pte_addr s' i k = f * PAGE_SIZE_BYTES + 4 * k) as Hpa by (unfold pte_addr; by rewrite Hpi, Htb).
    apply (vwrite32_wp _ (f * PAGE_SIZE_BYTES + 4 * k)).
    { rewrite <- Hpa. apply walk_pt; [done|lia|lia|]. rewrite Hpi. apply Het. }
    fold (wr (f * PAGE_SIZE_BYTES + 4 * k) 0 s'). split_and!; [done..| | |].
    + intros j Hj. rewrite pde_wr_page by (done || lia || by rewrite Hc). by apply Hpde.
    + intros j Hj. simpl. rewrite zget_insert. case_decide; [done|]. apply Hzero. lia.
    + intros p j Hp1 Hp2 Hj. simpl. rewrite zget_insert_ne; [by apply Hoth|].
      intros He. apply page_words in He as [? _]; (done || lia).
  - intros s' (Hpm & Hc & Hpde & Hzero & Hoth).
    edestruct (table_added_wf s i f s') as (? & ? & ? & Hdf & ?); [done..| |].
    + split; [by rewrite Hpm|rewrite Hpm; apply Hus|done| |done|].
      * intros j Hj. by rewrite Hpde, Hpde2.
      * intros p k Hp1 Hp2 Hp3 Hk. rewrite Hoth by done. simpl. rewrite zget_insert_ne; [done|].
        intros He. apply page_words in He as [He _]; [by destruct Hp2|apply Hwf|done|lia|done].
    + apply HQ; try done. by rewrite Hpm.
Qed.

(** The user bits [map] may add to a directory entry do not disturb it. *)
Lemma pde_add_uflags e fl :
  is_u32 e → is_table e →
  let e' := Z.lor e (user_flags fl) in
  is_u32 e' ∧ is_table e' ∧ table_of e' = table_of e.
Proof.
  intros He [H0 H7] e'. unfold user_flags, PT_USER, PT_USER_RW in *.
  assert (e' = u32 e') as Hu.
  { apply Z.bits_inj'. intros k Hk. rewrite testbit_u32 by done. case_bool_decide as Hlt; [done|].
    unfold e'. autorewrite with bits. rewrite <- (u32_id e), testbit_u32, bool_decide_eq_false_2 by done.
    change 4 with (Z.shiftl 1 2). change 2 with (Z.shiftl 1 1) at 2.
    rewrite !testbit_shift1, !bool_decide_eq_false_2 by lia. by rewrite !andb_false_r. }
  split_and!.
  - rewrite Hu. apply is_u32_u32.
  - split; unfold e'; autorewrite with bits.
    + by rewrite H0.
    + rewrite H7. by rewrite !andb_false_r.
  - unfold table_of, e'. rewrite !Z.land_lor_distr_l, <- !Z.land_assoc.
    change (Z.land 4 0xfffff000) with 0. change (Z.land 2 0xfffff000) with 0.
    by rewrite !Z.land_0_r, !Z.lor_0_r.
Qed.

Lemma map_wp s v p fl n (Q : unit → paging → Prop) :
  pg_wf s → 0 < v / 4096 / 1024 < 1023 → avail (pg_pm s) (S n) →
  (∀ s', pg_wf s' → cr3 s' = cr3 s →
     (∀ k, 0 < k / 1024 < 1023 →
        entry s' k = if decide (k = v / 4096) then Z.lor p fl else entry s k) →
     (v < 0xc0000000 → Z.land (user_flags fl) (pde s' (v / 4096 / 1024)) = user_flags fl) → mem_kept s s' →
     avail (pg_pm s') n → Q tt s') →
  wp (map v p fl) Q s.
Proof.
  intros Hwf Hi Hav HQ. unfold map. rewrite pd_index_page, pt_index_page.
  set (i := v / 4096 / 1024) in *. set (k := (v / 4096) mod 1024).
  assert (0 <= k < 1024) as Hk by (apply Z.mod_pos_bound; lia).
  assert (v / 4096 = i * 1024 + k) as Hpage by (pose proof (Z.div_mod (v / 4096) 1024 ltac:(lia)); lia).
  rewrite wp_bind. apply pd_read_wp; [apply Hwf|lia|]. rewrite wp_bind.
  apply (ensure_table_wp s i n); [done..|]. intros s1 Hwf1 Ht1 Hnz1 Hc1 He1 Hm1 Hav1. wp.
  apply pd_read_wp; [apply Hwf1|lia|].
  set (e' := Z.lor (pde s1 i) _).
  destruct (pde_add_uflags (pde s1 i) fl) as (Heu & Het & Htb); [apply Hwf1; lia|done|].
  assert (∀ s2, pg_wf s2 → is_table (pde s2 i) → pde s2 i ≠ 0 → cr3 s2 = cr3 s1 → pg_pm s2 = pg_pm s1 →
    (∀ k, 0 < k / 1024 < 1023 → entry s2 k = entry s1 k) →
    (v < 0xc0000000 → Z.land (user_flags fl) (pde s2 i) = user_flags fl) →
    mem_kept s1 s2 →
    wp (vwrite32 (pt_ptr i k) (Z.lor p fl)) Q s2) as Hlast.
  { intros s2 Hwf2 Ht2 Hnz2 Hc2 Hpm2 He2 Huf2 Hdf2.
    apply (vwrite32_wp _ (pte_addr s2 i k)); [apply walk_pt; [apply Hwf2|lia|done|apply Ht2]|].
    destruct (set_pte s2 i k (Z.lor p fl)) as (Hwf3 & Hpde3 & He3); [done..|].
    unfold wr in Hpde3.
    apply HQ; [done|simpl; congruence| |rewrite Hpde3 by lia; done| |simpl; rewrite Hpm2; done].
    2: { etransitivity; [exact Hm1|]. etransitivity; [exact Hdf2|]. apply (wr_kept s2).
         - apply table_of_aligned, Hwf2. lia.
         - done.
         - intros g (_ & _ & Hg). apply not_eq_sym, Hg; [lia|done].
         - intros g. apply (data_frame_ext s2); [done|]. intros j Hj. unfold wr. by rewrite Hpde3.
         - intros j b Hj. unfold wr. by rewrite Hpde3. }
    intros m Hm. rewrite Hpage. unfold wr in He3. rewrite He3 by done.
    case_decide; [done|]. rewrite He2, He1 by done. done. }
  destruct (Z.eqb_spec (Z.land (user_flags fl) (pde s1 i)) (user_flags fl)) as [Hu|Hu]; simpl; wp.
  { by apply Hlast. }
  destruct (Z.ltb_spec v 0xc0000000); wp; [|apply Hlast; try done; lia].
  apply (vwrite32_wp _ (cr3 s1 + 4 * i)); [apply walk_pd; [apply Hwf1|lia]|].
  destruct (set_pde_flags s1 i e') as (Hwf2 & Hp2 & Hdf2 & He2); [done..|].
  assert (mem_kept s1 (wr (cr3 s1 + 4 * i) e' s1)) as Hk2.
  { apply wr_kept; [apply Hwf1|lia|by intros g (_ & Hg & _)|done|]. intros j b Hj Hb. rewrite pde_wr_pd.
    destruct (decide (i = j)) as [<-|]; [|done]. unfold e'. by rewrite Z.lor_spec, Hb. }
  unfold wr in *. apply Hlast; rewrite ?Hp2; try done.
  2: { intros _. unfold e'. apply land_lor_self. }
  intros H0. change (is_table e') in Het. rewrite H0 in Het. by destruct Het.
Qed.

Lemma unmap_wp s v (Q : unit → paging → Prop) :
  pg_wf s → 0 < v / 4096 / 1024 < 1023 →
  (∀ s', pg_wf s' → cr3 s' = cr3 s → pg_pm s' = pg_pm s →
     (∀ k, 0 < k / 1024 < 1023 → entry s' k = if decide (k = v / 4096) then 0 else entry s k) →
     data_kept s s' →
     Q tt s') →
  wp (unmap v) Q s.
Proof.
  intros Hwf Hi HQ. unfold unmap. rewrite pd_index_page, pt_index_page.
  set (i := v / 4096 / 1024) in *. set (k := (v / 4096) mod 1024).
  assert (0 <= k < 1024) as Hk by (apply Z.mod_pos_bound; lia).
  assert (v / 4096 = i * 1024 + k) as Hpage by (pose proof (Z.div_mod (v / 4096) 1024 ltac:(lia)); lia).
  wp. apply pd_read_wp; [apply Hwf|lia|]. destruct (Z.eqb_spec (pde s i) 0) as [Hz|Hnz]; wp.
  - apply HQ; [done..| |done]. intros m Hm. case_decide as Hd; [|done]. unfold entry. subst m.
    fold i. by rewrite Hz.
  - destruct (pgw_pde s Hwf i Hi) as [|Ht]; [done|].
    apply (vwrite32_wp _ (pte_addr s i k)); [apply walk_pt; [apply Hwf|lia|done|apply Ht]|].
    destruct (set_pte s i k 0) as (Hwf3 & Hpde3 & He3); [done..|]. unfold wr in *.
    apply HQ; [done..| |].
    + intros m Hm. rewrite Hpage. by apply He3.
    + intros g Hg. split; [apply (data_frame_ext s); [done| |done]; intros j Hj; by rewrite Hpde3|].
      intros j Hj. cbn [phys set_phys]. apply zget_insert_ne. intros He.
      apply page_words in He as [He _]; [|apply table_of_aligned, Hwf; lia|by apply Z.mod_mul|done|done].
      destruct Hg as (_ & _ & Hg). by destruct (Hg i).
Qed.

(** Both readers see [entry]. *)
Lemma get_paddr_wp s v (Q : Z → paging → Prop) :
  pg_wf s → 0 < v / 4096 / 1024 < 1023 →
  Q (Z.land (entry s (v / 4096)) 0xfffff000) s → wp (get_paddr v) Q s.
Proof.
  intros Hwf Hi HQ. unfold get_paddr. rewrite pd_index_page, pt_index_page. wp.
  apply pd_read_wp; [apply Hwf|lia|]. unfold entry in HQ.
  destruct (Z.eqb_spec (pde s (v / 4096 / 1024)) 0) as [Hz|Hnz]; wp; [done|].
  destruct (pgw_pde s Hwf _ Hi) as [|Ht]; [done|].
  apply (vread32_wp _ (pte_addr s (v / 4096 / 1024) ((v / 4096) mod 1024))); [|done].
  apply walk_pt; [apply Hwf|lia|apply Z.mod_pos_bound; lia|apply Ht].
Qed.
Lemma get_pflags_wp s v (Q : Z → paging → Prop) :
  pg_wf s → 0 < v / 4096 / 1024 < 1023 →
  Q (Z.land (entry s (v / 4096)) 0xfff) s → wp (get_pflags v) Q s.
Proof.
  intros Hwf Hi HQ. unfold get_pflags. rewrite pd_index_page, pt_index_page. wp.
  apply pd_read_wp; [apply Hwf|lia|]. unfold entry in HQ.
  destruct (Z.eqb_spec (pde s (v / 4096 / 1024)) 0) as [Hz|Hnz]; wp; [done|].
  destruct (pgw_pde s Hwf _ Hi) as [|Ht]; [done|].
  apply (vread32_wp _ (pte_addr s (v / 4096 / 1024) ((v / 4096) mod 1024))); [|done].
  apply walk_pt; [apply Hwf|lia|apply Z.mod_pos_bound; lia|apply Ht].
Qed.

(** ** Properties *)

(** A page number and an offset, put together by address arithmetic. *)
Lemma page_offset v o : v mod 4096 = 0 → 0 <= o < 4096 → v + o = v / 4096 * 4096 + o.
Proof. intros Hv Ho. pose proof (Z.div_mod v 4096 ltac:(lia)). lia. Qed.

(** What user-mode code may reach: the walk must find the page, with PT_PRESENT at both
    levels, and both levels must have PT_USER; to write to it, PT_USER_RW as well. *)
Definition page_present (s : paging) (v : Z) : bool := bool_decide (is_Some (walk s v)).
Definition user_access (s : paging) (v : Z) : bool :=
  page_present s v && (Z.testbit (pde s (v / 4096 / 1024)) 2 && Z.testbit (entry s (v / 4096)) 2).
Definition user_write (s : paging) (v : Z) : bool :=
  user_access s v && (Z.testbit (pde s (v / 4096 / 1024)) 1 && Z.testbit (entry s (v / 4096)) 1).

Lemma page_present_entry s v :
  pg_wf s → 0 < v / 4096 / 1024 < 1023 → page_present s v = Z.testbit (entry s (v / 4096)) 0.
Proof.
  intros Hwf Hi. unfold page_present. pose proof (walk_entry s (v / 4096) (v mod 4096) Hi) as Hw.
  replace (v / 4096 * 4096 + v mod 4096) with v in Hw by (Z.to_euclidean_division_equations; lia).
  specialize (Hw ltac:(Z.to_euclidean_division_equations; lia) (pgw_pde _ Hwf _ Hi)).
  apply Bool.eq_iff_eq_true. rewrite bool_decide_eq_true, Hw. destruct (Z.testbit _ 0); (split; [intros [? ?]|]); done || by eexists.
Qed.

(** The kernel's view of one page: what [get_paddr] and [get_pflags] return,
    and where the hardware takes each byte of it. *)
Definition maps_to (s : paging) (v p fl : Z) : Prop :=
  get_paddr v s = Ok (p, s) ∧ get_pflags v s = Ok (fl, s) ∧
  ∀ o, 0 <= o < 4096 → walk s (v + o) = if Z.testbit fl 0 then Some (p + o) else None.

Lemma entry_maps_to s v p fl :
  pg_wf s → 0 < v / 4096 / 1024 < 1023 → v mod 4096 = 0 →
  is_u32 p → p mod 4096 = 0 → 0 <= fl < 4096 →
  entry s (v / 4096) = Z.lor p fl → maps_to s v p fl.
Proof.
  intros Hwf Hi Hv Hp Hpm Hfl He.
  assert (Z.land (Z.lor p fl) 0xfffff000 = p) as Hla by (by apply land_page_flags).
  assert (Z.land (Z.lor p fl) 0xfff = fl) as Hlf by (apply land_flags_page; [apply Hp|done..]).
  split_and!.
  - apply wp_pure, get_paddr_wp; [done..|]. by rewrite He.
  - apply wp_pure, get_pflags_wp; [done..|]. by rewrite He.
  - intros o Ho. rewrite page_offset, walk_entry, He, Hla by (done || by apply Hwf).
    rewrite Z.lor_spec, testbit_page_low by (done || lia). done.
Qed.

(** Pages whose entries agree are translated alike. *)
Lemma walk_ext s s' w :
  pg_wf s → pg_wf s' → 0 < w / 4096 / 1024 < 1023 →
  entry s' (w / 4096) = entry s (w / 4096) → walk s' w = walk s w.
Proof.
  intros Hwf Hwf' Hi He. pose proof (Z.mod_pos_bound w 4096 ltac:(lia)).
  pose proof (Z.div_mod w 4096 ltac:(lia)) as Hw. rewrite Z.mul_comm in Hw.
  pose proof (walk_entry s (w / 4096) (w mod 4096) Hi ltac:(lia) (pgw_pde s Hwf _ Hi)) as H1.
  pose proof (walk_entry s' (w / 4096) (w mod 4096) Hi ltac:(lia) (pgw_pde s' Hwf' _ Hi)) as H2.
  rewrite <- Hw in H1, H2. by rewrite H1, H2, He.
Qed.

(** C23: [map] installs exactly one translation.  Whenever a frame is left for
    a missing page table it returns; the page then has the physical address and
    flags given, for the kernel's readers and for the hardware walk; no other
    page above the boot-time 4 MiB is translated differently, and the paging
    invariant (live, disjoint tables; recursive slot) is kept. *)
Theorem map_installs_translation s v p fl :
  pg_wf s → avail (pg_pm s) 1 → 0 < v / 4096 / 1024 < 1023 → v mod 4096 = 0 →
  is_u32 p → p mod 4096 = 0 → 0 <= fl < 4096 →
  ∃ s', map v p fl s = Ok (tt, s') ∧ pg_wf s' ∧ maps_to s' v p fl ∧
    ∀ w, 0 < w / 4096 / 1024 < 1023 → w / 4096 ≠ v / 4096 → walk s' w = walk s w.
Proof.
  intros Hwf Hav Hi Hv Hp Hpm Hfl. apply wp_unit.
  apply (map_wp s v p fl 0); [done..|]. intros s' Hwf' _ He _ _ _. split_and!; [done| |].
  - apply entry_maps_to; try done. rewrite He, decide_True by done. done.
  - intros w Hw Hne. apply walk_ext; try done. rewrite He, decide_False by done. done.
Qed.

(** The state the boot loader leaves: the directory at 0x10000 with its
    recursive slot and a 4 MiB identity page, the first 16 frames and the
    directory in use. *)
Definition pg_example : paging :=
  Paging (PMem {[0 := 255; 1 := 255; 2 := 1]} 0 false 0)
         {[0x10000 := 0x83; 0x10000 + 4 * 1023 := 0x10003]} 0x10000.

Lemma pg_example_pde i : 0 < i < 1023 → pde pg_example i = 0.
Proof.
  intros Hi. unfold pde, pg_example. cbn [phys cr3].
  unfold zget.
  rewrite lookup_insert_ne by lia. by rewrite lookup_singleton_ne by lia.
Qed.

Lemma pg_example_wf : pg_wf pg_example.
Proof.
  split; try (intros i; intros; exfalso; match goal with H : _ ≠ _ |- _ => by rewrite pg_example_pde in H end).
  - split; [|unfold mmap_count; simpl; lia|done]. apply zget_Forall; by_computation.
  - by split; [by_computation|split; [split|]; vm_compute].
  - intros i Hi. unfold pde. apply (zget_Forall is_u32); by_computation.
  - intros i Hi. left. by apply pg_example_pde.
  - by vm_compute.
  - by vm_compute.
Defined.

Lemma pg_example_avail : avail (pg_pm pg_example) 1.
Proof. exists [17]. split_and!; [apply NoDup_singleton|done|by_computation]. Defined.

Lemma map_installs_translation_witness :
  ∃ s', map 0xc0000000 0x200000 0x11 pg_example = Ok (tt, s') ∧ maps_to s' 0xc0000000 0x200000 0x11.
Proof.
  destruct (map_installs_translation pg_example 0xc0000000 0x200000 0x11 pg_example_wf)
    as (s' & Hr & _ & Hm & _); [apply pg_example_avail|by_computation..|exists s'; exact (conj Hr Hm)].
Defined.

(** [unmap] removes exactly one translation and touches no frame: after
    mapping a page that had no entry and unmapping it again, every page above
    the boot-time 4 MiB is translated as before, and the page faults. *)
Theorem map_unmap_roundtrip s v p fl :
  pg_wf s → avail (pg_pm s) 1 → 0 < v / 4096 / 1024 < 1023 → v mod 4096 = 0 →
  is_u32 p → p mod 4096 = 0 → 0 <= fl < 4096 → get_pflags v s = Ok (0, s) →
  ∃ s1 s2, map v p fl s = Ok (tt, s1) ∧ unmap v s1 = Ok (tt, s2) ∧ pg_wf s2 ∧
    pg_pm s2 = pg_pm s1 ∧ maps_to s2 v 0 0 ∧
    ∀ w, 0 < w / 4096 / 1024 < 1023 → w / 4096 ≠ v / 4096 → walk s2 w = walk s w.
Proof.
  intros Hwf Hav Hi Hv Hp Hpm Hfl Hold.
  destruct (wp_unit (map v p fl) (λ s1, ∃ s2, unmap v s1 = Ok (tt, s2) ∧ pg_wf s2 ∧
    pg_pm s2 = pg_pm s1 ∧ maps_to s2 v 0 0 ∧
    ∀ w, 0 < w / 4096 / 1024 < 1023 → w / 4096 ≠ v / 4096 → walk s2 w = walk s w) s)
    as (s1 & Hr & s2 & H); [|by exists s1, s2].
  apply (map_wp s v p fl 0); [done..|]. intros s1 Hwf1 _ He1 _ _ _. apply wp_unit.
  apply unmap_wp; [done..|]. intros s2 Hwf2 _ Hpm2 He2 _. split_and!; [done..| |].
  - apply entry_maps_to; try done. rewrite He2, decide_True by done. done.
  - intros w Hw Hne. apply walk_ext; try done. by rewrite He2, decide_False, He1, decide_False.
Qed.

Lemma map_unmap_roundtrip_witness :
  ∃ s1 s2, map 0x400000 0x200000 7 pg_example = Ok (tt, s1) ∧ unmap 0x400000 s1 = Ok (tt, s2) ∧
    maps_to s2 0x400000 0 0.
Proof.
  destruct (map_unmap_roundtrip pg_example 0x400000 0x200000 7 pg_example_wf)
    as (s1 & s2 & H1 & H2 & _ & _ & Hm & _); [apply pg_example_avail|by_computation..| |].
  { by vm_compute. }
  exists s1, s2. exact (conj H1 (conj H2 Hm)).
Defined.

(** User access is what the caller asked for.  After mapping a page of the
    user half, user-mode code can reach it exactly when PT_PRESENT and PT_USER were among the
    flags: [map] raises the bit in the directory entry when it is needed, and a
    page mapped without it stays closed even under an open directory entry. *)
Theorem map_user_access s v p fl :
  pg_wf s → avail (pg_pm s) 1 → 0 < v / 4096 / 1024 < 1023 → v < 0xc0000000 →
  p mod 4096 = 0 →
  ∃ s', map v p fl s = Ok (tt, s') ∧ user_access s' v = Z.testbit fl 0 && Z.testbit fl 2.
Proof.
  intros Hwf Hav Hi Hv Hpm. apply wp_unit. apply (map_wp s v p fl 0); [done..|].
  intros s' Hwf' _ He Hu _ _. specialize (Hu Hv). unfold user_access. rewrite page_present_entry by done.
  rewrite He, decide_True, !Z.lor_spec, !(testbit_page_low p) by (done || lia). simpl. f_equal.
  apply (f_equal (λ x, Z.testbit x 2)) in Hu. revert Hu. unfold user_flags, PT_USER, PT_USER_RW.
  rewrite Z.land_spec, Z.lor_spec, !Z.land_spec.
  change (Z.testbit 4 2) with true. change (Z.testbit 2 2) with false.
  rewrite andb_true_r, andb_false_r, orb_false_r.
  by destruct (Z.testbit fl 2), (Z.testbit (pde s' _) 2).
Qed.

Lemma map_user_access_witness :
  ∃ s', map 0x400000 0x200000 7 pg_example = Ok (tt, s') ∧ user_access s' 0x400000 = true.
Proof.
  destruct (map_user_access pg_example 0x400000 0x200000 7 pg_example_wf)
    as (s' & Hr & Hu); [apply pg_example_avail|by_computation..|exists s'; exact (conj Hr Hu)].
Defined.

(** Nobody checks the frame of a new page table.  When memory has run out
    and a page needs a table, [map] takes the 0 of [pm_alloc] for an address:
    the directory entry becomes 1, so frame 0 (the real-mode vectors and the
    BIOS data) is cleared and used as the page table. *)
Theorem map_without_memory_clobbers_frame_0 s v p fl :
  pg_wf s → (∀ f, 0 <= f < frames → used (pg_pm s) f = true) → cr3 s ≠ 0 →
  0xc0000000 <= v → 0 < v / 4096 / 1024 < 1023 → pde s (v / 4096 / 1024) = 0 →
  ∃ s', map v p fl s = Ok (tt, s') ∧ pde s' (v / 4096 / 1024) = 1 ∧
    ∀ k, 0 <= k < 1024 →
      phys s' !0 (4 * k) = if decide (k = (v / 4096) mod 1024) then Z.lor p fl else 0.
Proof.
  intros Hwf Hall Hc Hv Hi Hz. apply wp_unit. unfold map. rewrite pd_index_page, pt_index_page.
  set (i := v / 4096 / 1024) in *. set (k := (v / 4096) mod 1024).
  assert (0 <= k < 1024) as Hk by (apply Z.mod_pos_bound; lia).
  wp. apply pd_read_wp; [apply Hwf|lia|]. rewrite Hz. simpl. wp.
  eapply wp_mono; [apply pm_alloc_wp, Hwf|].
  intros a pm' [(-> & -> & _)|(f & Hf & Hu & _)].
  2: { change (view s) with (pg_pm s) in *. rewrite Hall in Hu; [done|]. pose proof (wf_first _ (pgw_pm s Hwf)). lia. }
  rewrite put_view. wp. apply (vwrite32_wp _ (cr3 s + 4 * i)); [apply walk_pd; [apply Hwf|lia]|].
  change (Z.lor 0 1) with 1. set (s1 := wr (cr3 s + 4 * i) 1 s).
  assert (∀ j, pde s1 j = if decide (i = j) then 1 else pde s j) as Hp1 by (intros; apply pde_wr_pd).
  assert (∀ s', rec_ok s' → pde s' i = 1 → ∀ j, 0 <= j < 1024 → walk s' (pt_ptr i j) = Some (0 + 4 * j)) as Hw.
  { intros s' Hr Hi1 j Hj. rewrite walk_pt; [|done|lia|done|by rewrite Hi1]. unfold pte_addr. by rewrite Hi1. }
  apply (wp_for_all (λ j s', rec_ok s' ∧ cr3 s' = cr3 s ∧ pde s' i = 1 ∧
    ∀ m, 0 <= m < j → phys s' !0 (4 * m) = 0)); [lia| | |].
  - split_and!; [|done| |lia].
    + apply (rec_ok_ext s); [done| |apply Hwf]. by rewrite Hp1, decide_False by lia.
    + by rewrite Hp1, decide_True.
  - intros j s' Hj (Hr & Hc' & Hi1 & Hzero). apply (vwrite32_wp _ (0 + 4 * j)); [by apply Hw|].
    fold (wr (0 + 4 * j) 0 s').
    assert (∀ m, 0 <= m < 1024 → pde (wr (0 + 4 * j) 0 s') m = pde s' m) as Hpw
      by (intros; apply pde_wr_page; [done|done|congruence|lia|done]).
    split_and!; [|done|by rewrite Hpw by lia|].
    + apply (rec_ok_ext s'); [done| |done]. apply Hpw. lia.
    + intros m Hm. simpl. rewrite zget_insert. case_decide; [done|]. apply Hzero. lia.
  - intros s' (Hr & Hc' & Hi1 & Hzero). wp. apply pd_read_wp; [done|lia|].
    rewrite (proj2 (Z.ltb_ge v 0xc0000000)), andb_false_r by done.
    apply (vwrite32_wp _ (0 + 4 * k)); [by apply Hw|]. fold (wr (0 + 4 * k) (Z.lor p fl) s').
    split.
    + rewrite pde_wr_page; [done|done|done|congruence|done|lia].
    + intros m Hm. simpl. rewrite zget_insert. do 2 case_decide; try done; [lia..|]. by apply Hzero.
Qed.

(** The same machine with every frame taken. *)
Definition pm_full : pmem :=
  PMem (gset_to_gmap 255 (list_to_set (seqZ 0 mmap_count))) 0 false 0.
Definition pg_full : paging := Paging pm_full (phys pg_example) (cr3 pg_example).

Lemma pm_full_byte i : pm_map pm_full !0 i = if decide (0 <= i < mmap_count) then 255 else 0.
Proof.
  unfold zget, pm_full. cbn [pm_map]. rewrite lookup_gset_to_gmap.
  destruct (decide (0 <= i < mmap_count)) as [H|H].
  - by rewrite option_guard_True by (apply elem_of_list_to_set, elem_of_seqZ; lia).
  - rewrite option_guard_False; [done|]. intros Hi%elem_of_list_to_set%elem_of_seqZ. lia.
Qed.

Lemma pm_full_used f : 0 <= f < frames → used pm_full f = true.
Proof.
  intros Hf. unfold used. rewrite pm_full_byte, decide_True.
  - change 255 with (Z.ones 8). apply Z.ones_spec_low, mod8.
  - unfold frames in Hf. split; [apply Z.div_pos|apply Z.div_lt_upper_bound]; lia.
Qed.

Lemma pde_other_pm s p i : pde (Paging p (phys s) (cr3 s)) i = pde s i.
Proof. reflexivity. Qed.

(** The tables stay well formed under an allocator that has every frame taken. *)
Lemma pg_wf_full s p :
  pg_wf s → pm_wf p → (∀ f, 0 <= f < frames → used p f = true) →
  pg_wf (Paging p (phys s) (cr3 s)).
Proof.
  intros [_ Hrec Hu Hp _ _ Htu Hnp Hinj] Hpm Hall.
  assert (∀ x, is_u32 x → used p (x / PAGE_SIZE_BYTES) = true) as Hused.
  { intros x [Hx0 Hx]. apply Hall. unfold frames, mmap_count, PAGE_SIZE_BYTES.
    split; [apply Z.div_pos|apply Z.div_lt_upper_bound]; lia. }
  split; try done.
  - by destruct Hrec.
  - apply Hall. unfold frames, mmap_count. lia.
  - apply Hused. apply Hrec.
  - intros i Hi _. apply Hused, table_of_aligned, Hu. lia.
Qed.

Lemma pm_full_wf : pm_wf pm_full.
Proof.
  split; [|simpl; unfold mmap_count; lia|reflexivity].
  intros i. rewrite pm_full_byte. case_decide; by_computation.
Qed.

Lemma map_without_memory_clobbers_frame_0_witness :
  ∃ s', map 0xc0000000 0x200000 0x11 pg_full = Ok (tt, s') ∧ pde s' 768 = 1.
Proof.
  destruct (map_without_memory_clobbers_frame_0 pg_full 0xc0000000 0x200000 0x11
    (pg_wf_full _ _ pg_example_wf pm_full_wf pm_full_used) pm_full_used)
    as (s' & Hr & Hp & _); [|lia|by_computation| |exists s'; exact (conj Hr Hp)].
  - unfold pg_full, pg_example. cbn [cr3]. lia.
  - change (0xc0000000 / 4096 / 1024) with 768.
    exact (eq_trans (pde_other_pm pg_example pm_full 768) (pg_example_pde 768 ltac:(lia))).
Defined.
