(* ===== verification/Heap.v ===== *)
(** * The permanent kernel heap (src/src/kernel/arch_i386/memory.c, heap functions)

    Every page of the heap has a four-bit entry in [heap_map]: in use, linked
    to the page before, linked to the page after.  The file models the nibble
    accessors, [heap_alloc] and [heap_free], states the abstraction (a finite
    map of disjoint blocks) and proves that both calls implement it. *)
From S2P Require Import Prelude.

Definition KMALLOC_USED : Z := 1.
Definition KMALLOC_LINK_NEXT : Z := 2.
Definition KMALLOC_LINK_LAST : Z := 4.
Definition HEAP_ENTRY_SIZE_BITS : Z := 4.
Definition HEAP_ENTRIES_PER_INDEX : Z := 2.

Record heap := Heap {
  heap_map : gmap Z Z;
  heap_map_size : Z;
  heap_base : Z;
  heap_first_free : Z;
  heap_lock : bool;
}.

Definition set_heap_map (m : gmap Z Z) (s : heap) : heap :=
  Heap m (heap_map_size s) (heap_base s) (heap_first_free s) (heap_lock s).
Definition set_heap_lock (b : bool) (s : heap) : heap :=
  Heap (heap_map s) (heap_map_size s) (heap_base s) (heap_first_free s) b.

Definition max_index (s : heap) : Z := u32 (heap_map_size s * HEAP_ENTRIES_PER_INDEX).

Definition get_heap_index (index : Z) (s : heap) : Z :=
  if index >=? max_index s then 0
  else Z.land (Z.shiftr (heap_map s !0 (index / HEAP_ENTRIES_PER_INDEX))
                 ((index mod HEAP_ENTRIES_PER_INDEX) * HEAP_ENTRY_SIZE_BITS))
         (Z.shiftl 1 HEAP_ENTRY_SIZE_BITS - 1).

Definition set_heap_index (index flags : Z) (s : heap) : heap :=
  if index >=? max_index s then s
  else
    let byte := index / HEAP_ENTRIES_PER_INDEX in
    let shift := (index mod HEAP_ENTRIES_PER_INDEX) * HEAP_ENTRY_SIZE_BITS in
    let mask := u8 (Z.shiftl (Z.shiftl 1 HEAP_ENTRY_SIZE_BITS - 1) shift) in
    let b := heap_map s !0 byte in
    set_heap_map
      (<[byte := u8 (Z.lor (Z.land b (Z.lnot mask)) (Z.land (Z.shiftl flags shift) mask))]> (heap_map s)) s.

Definition heap_index_to_address (index : Z) (s : heap) : Z :=
  u32 (heap_base s + index * PAGE_SIZE_BYTES).

Definition heap_address_to_index (address : Z) (s : heap) : Z :=
  if (address >=? u32 (heap_base s + heap_map_size s * HEAP_ENTRIES_PER_INDEX * PAGE_SIZE_BYTES))
     || (address <? heap_base s)
  then u32 (-1)
  else u32 (address - heap_base s) / PAGE_SIZE_BYTES.

Definition heap_acquire : M heap unit :=
  held ← gets heap_lock; if held then fail Deadlock else modify (set_heap_lock true).
Definition heap_release : M heap unit := modify (set_heap_lock false).

(** The search of [heap_alloc]: a used page inside a candidate run moves the
    search behind that page. *)
Definition heap_scan (size_pgs : Z) : M heap Z :=
  first ← gets heap_first_free;
  loop fuel32 (λ i,
    mx ← gets max_index;
    if i <? mx then
      hit ← for_loop 0 size_pgs (λ j,
              x ← gets (get_heap_index (u32 (i + j)));
              if x =? 0 then mret None else mret (Some j));
      match hit with
      | None => mret (inr i)
      | Some j => mret (inl (u32 (u32 (i + j) + 1)))
      end
    else mret (inr 0)) first.

Definition page_flags (i size_pgs : Z) : Z :=
  Z.lor (Z.lor KMALLOC_USED (KMALLOC_LINK_LAST * b2z (0 <? i)))
        (KMALLOC_LINK_NEXT * b2z (i <? u32 (size_pgs - 1))).

Definition heap_alloc (size_pgs : Z) : M heap Z :=
  heap_acquire;;
  start ← heap_scan size_pgs;
  x ← gets (get_heap_index start);
  if (start =? 0) && negb (x =? 0) then heap_release;; mret 0
  else
    for_all 0 size_pgs (λ i, modify (set_heap_index (u32 (start + i)) (page_flags i size_pgs)));;
    heap_release;;
    base ← gets heap_base;
    mret (u32 (base + start * PAGE_SIZE_BYTES)).

Definition heap_free (addr : Z) : M heap Z :=
  base ← gets heap_base;
  mx ← gets max_index;
  let heap_index := u32 (Z.shiftr (s32 (addr - base)) 12) in
  if heap_index >? mx then mret 0
  else
    heap_acquire;;
    heap_index ← loop fuel32 (λ i,
                   x ← gets (get_heap_index i);
                   if Z.land x KMALLOC_LINK_LAST =? 0 then mret (inr i)
                   else mret (inl (u32 (i - 1)))) heap_index;
    loop fuel32 (λ i,
      flags ← gets (get_heap_index i);
      modify (set_heap_index i 0);;
      if Z.land flags KMALLOC_LINK_NEXT =? 0 then mret (inr tt)
      else mret (inl (u32 (i + 1)))) heap_index;;
    heap_release;;
    mret 0.

(** ** The nibble array *)

(** The map is in range of the address space; [heap_first_free] is only ever
    set to zero. *)
Record heap_wf (s : heap) : Prop := {
  hw_size : 0 <= heap_map_size s ∧ heap_map_size s * 2 <= 0x80000;
  hw_base : 0 <= heap_base s ∧ heap_base s + heap_map_size s * 2 * PAGE_SIZE_BYTES <= 2 ^ 32;
  hw_first : heap_first_free s = 0;
  hw_lock : heap_lock s = false;
}.

Lemma max_index_eq s : heap_wf s → max_index s = heap_map_size s * 2.
Proof. intros []. unfold max_index, HEAP_ENTRIES_PER_INDEX. apply u32_id. unfold is_u32. lia. Qed.

Lemma get_set_heap_index s i j flags :
  0 <= i → 0 <= j → 0 <= flags < 16 →
  get_heap_index j (set_heap_index i flags s) =
    if decide (i = j ∧ j < max_index s) then flags else get_heap_index j s.
Proof.
  intros Hi Hj Hf. unfold set_heap_index. rewrite Z.geb_leb. destruct (Z.leb_spec (max_index s) i) as [Hm|Hm].
  { destruct (decide (i = j ∧ j < max_index s)); [lia|done]. }
  unfold get_heap_index. cbn -[Z.shiftl Z.mul Z.modulo Z.div].
  change (max_index (set_heap_map _ s)) with (max_index s).
  rewrite Z.geb_leb. destruct (Z.leb_spec (max_index s) j) as [Hmj|Hmj].
  { destruct (decide (i = j ∧ j < max_index s)); [lia|done]. }
  unfold HEAP_ENTRIES_PER_INDEX, HEAP_ENTRY_SIZE_BITS in *. rewrite zget_insert.
  change (Z.shiftl 1 4 - 1) with (Z.ones 4).
  destruct (decide (i / 2 = j / 2)) as [He|Hne].
  2: { rewrite decide_False; [done|]. intros [-> _]. done. }
  rewrite <- He. set (b := heap_map s !0 (i / 2)).
  pose proof (Z.mod_pos_bound i 2 ltac:(lia)). pose proof (Z.mod_pos_bound j 2 ltac:(lia)).
  pose proof (Z.div_mod i 2 ltac:(lia)). pose proof (Z.div_mod j 2 ltac:(lia)).
  assert (Hfl : ∀ k, 4 <= k → Z.testbit flags k = false).
  { intros k Hk. rewrite <- (Z.mod_small flags (2 ^ 4)) by lia. apply Z.mod_pow2_bits_high. lia. }
  apply Z.bits_inj'. intros k Hk.
  assert (Hb : ∀ a x, 0 <= x → Z.testbit (Z.land (Z.shiftr a x) (Z.ones 4)) k =
     bool_decide (k < 4) && Z.testbit a (k + x)).
  { intros a x Hx. rewrite Z.land_spec, Z.shiftr_spec by done. case_bool_decide.
    - rewrite Z.ones_spec_low by lia. by rewrite andb_true_r.
    - rewrite Z.ones_spec_high by lia. by rewrite andb_false_r. }
  destruct (decide (i = j ∧ j < max_index s)) as [[<- _]|Hij].
  - rewrite Hb, testbit_u8, Z.lor_spec, !Z.land_spec, Z.lnot_spec, testbit_u8, !Z.shiftl_spec by lia.
    case_bool_decide; simpl; [|symmetry; apply Hfl; lia].
    rewrite (bool_decide_eq_true_2 (k + i mod 2 * 4 < 8)) by lia. simpl.
    replace (k + i mod 2 * 4 - i mod 2 * 4) with k by lia. rewrite Z.ones_spec_low by lia. simpl.
    rewrite andb_false_r, andb_true_r. done.
  - assert (i mod 2 ≠ j mod 2) by (intros ?; apply Hij; lia).
    rewrite !Hb, testbit_u8, Z.lor_spec, !Z.land_spec, Z.lnot_spec, testbit_u8, !Z.shiftl_spec by lia.
    case_bool_decide; simpl; [|done].
    rewrite (bool_decide_eq_true_2 (k + j mod 2 * 4 < 8)) by lia. simpl.
    assert (Z.testbit (Z.ones 4) (k + j mod 2 * 4 - i mod 2 * 4) = false) as ->.
    { destruct (decide (k + j mod 2 * 4 < i mod 2 * 4)).
      - apply Z.testbit_neg_r. lia.
      - apply Z.ones_spec_high. lia. }
    by rewrite andb_true_r, andb_false_r, orb_false_r.
Qed.

Lemma page_flags_bits j n :
  0 <= j < n → n < 2 ^ 32 →
  0 <= page_flags j n < 16 ∧ page_flags j n ≠ 0 ∧
  (Z.land (page_flags j n) KMALLOC_LINK_LAST =? 0) = (j =? 0) ∧
  (Z.land (page_flags j n) KMALLOC_LINK_NEXT =? 0) = (j =? n - 1).
Proof.
  intros Hj Hn. unfold page_flags. rewrite u32_id by (unfold is_u32; lia).
  replace (j =? 0) with (negb (0 <? j)) by (destruct (Z.ltb_spec 0 j), (Z.eqb_spec j 0); done || lia).
  replace (j =? n - 1) with (negb (j <? n - 1))
    by (destruct (Z.ltb_spec j (n - 1)), (Z.eqb_spec j (n - 1)); done || lia).
  by destruct (0 <? j), (j <? n - 1).
Qed.

(** [s'] is [s] with the entries of the pages from [lo] to [hi] set by [f];
    entries outside of the map stay unset. *)
Record updated (lo hi : Z) (f : Z → Z) (s s' : heap) : Prop := {
  upd_size : heap_map_size s' = heap_map_size s;
  upd_base : heap_base s' = heap_base s;
  upd_first : heap_first_free s' = heap_first_free s;
  upd_lock : heap_lock s' = heap_lock s;
  upd_get j : 0 <= j →
    get_heap_index j s' =
      if decide (lo <= j < hi ∧ j < max_index s) then f j else get_heap_index j s;
}.

Lemma updated_refl lo f s : updated lo lo f s s.
Proof. split; try done. intros j Hj. by rewrite decide_False by lia. Qed.

Lemma updated_step lo hi f s s' :
  0 <= lo <= hi → 0 <= f hi < 16 → updated lo hi f s s' →
  updated lo (hi + 1) f s (set_heap_index hi (f hi) s').
Proof.
  intros Hlo Hf [Hs Hb Hfi Hl Hg].
  assert (max_index s' = max_index s) as Hm by (unfold max_index; by rewrite Hs).
  split.
  1-4: unfold set_heap_index; destruct (_ >=? _); done.
  intros j Hj. rewrite get_set_heap_index, Hm, Hg by lia.
  repeat case_decide; try lia; try done. by destruct_and!; subst.
Qed.

Lemma heap_acquire_wp (Q : unit → heap → Prop) s :
  heap_wf s → Q tt (set_heap_lock true s) → wp heap_acquire Q s.
Proof. intros [] HQ. unfold heap_acquire. wp. by rewrite hw_lock0. Qed.

Definition run (s : heap) (i n : Z) : Prop := ∀ j, 0 <= j < n → get_heap_index (i + j) s = 0.

Lemma get_heap_index_out i s : max_index s <= i → get_heap_index i s = 0.
Proof.
  intros. unfold get_heap_index. rewrite Z.geb_leb. destruct (Z.leb_spec (max_index s) i); [done|lia].
Qed.

Lemma heap_scan_wp s n (Q : Z → heap → Prop) :
  heap_first_free s = 0 → 0 <= max_index s → 0 <= n → max_index s + n < 2 ^ 32 →
  (∀ i, 0 <= i < max_index s → run s i n → (∀ k, 0 <= k < i → ¬ run s k n) → Q i s) →
  ((∀ k, 0 <= k < max_index s → ¬ run s k n) → Q 0 s) →
  wp (heap_scan n) Q s.
Proof.
  intros Hff Hmx Hn Hov Hfound Hnone. unfold heap_scan. wp. rewrite Hff.
  apply (wp_loop (λ i s', s' = s ∧ 0 <= i <= max_index s ∧ ∀ k, 0 <= k < i → ¬ run s k n)
           (λ i _, max_index s - i)).
  - split_and!; [done|lia..].
  - unfold fuel32. change (Z.pos (2 ^ 32)) with (2 ^ 32). lia.
  - intros i ? (_ & ? & _). lia.
  - intros i ? (-> & Hi & Hno). wp. destruct (Z.ltb_spec i (max_index s)) as [Hlt|Hge]; wp.
    2: { apply Hnone. intros k Hk. apply Hno. lia. }
    apply (wp_for (λ k s', s' = s ∧ ∀ j, 0 <= j < k → get_heap_index (i + j) s = 0)); [done| | |].
    + split; [done|lia].
    + intros k ? Hk [-> Hfree]. wp. rewrite u32_id by (unfold is_u32; lia).
      destruct (Z.eqb_spec (get_heap_index (i + k) s) 0) as [Hz|Hnz]; wp.
      * split; [done|]. intros j Hj. destruct (decide (j = k)) as [->|]; [done|]. apply Hfree. lia.
      * assert (i + k < max_index s).
        { destruct (decide (i + k < max_index s)); [done|]. rewrite get_heap_index_out in Hnz by lia. done. }
        rewrite (u32_id (i + k)), u32_id by (unfold is_u32; lia). split; [|lia]. split; [done|]. split; [lia|].
        intros m Hm Hrun. destruct (decide (m < i)); [by apply (Hno m); [lia|]|].
        apply Hnz. replace (i + k) with (m + (i + k - m)) by lia. apply Hrun. lia.
    + intros ? [-> Hfree]. wp. apply Hfound; [lia|done..].
Qed.

Definition flags_in (start n j : Z) : Z := page_flags (j - start) n.

(** What [heap_alloc] does once the search has settled on [start]. *)
Lemma heap_mark_wp s start n (Q : unit → heap → Prop) :
  0 <= start → start + n < 2 ^ 32 → 0 <= n →
  (∀ s', updated start (start + n) (flags_in start n) s s' → Q tt s') →
  wp (for_all 0 n (λ i, modify (set_heap_index (u32 (start + i)) (page_flags i n)))) Q s.
Proof.
  intros Hst Hov Hn HQ.
  apply (wp_for_all (λ k s', updated start (start + k) (flags_in start n) s s')); [done| | |done].
  - rewrite Z.add_0_r. apply updated_refl.
  - intros k s' Hk Hu. wp. rewrite u32_id by (unfold is_u32; lia).
    replace (page_flags k n) with (flags_in start n (start + k)) by (unfold flags_in; f_equal; lia).
    rewrite Z.add_assoc. apply updated_step; [lia| |done].
    unfold flags_in. apply page_flags_bits; lia.
Qed.

(** ** The abstraction: disjoint blocks *)

Definition free_at (B : gmap Z Z) (i : Z) : Prop :=
  ∀ st n, B !! st = Some n → ¬ (st <= i < st + n).

Record heap_repr (B : gmap Z Z) (s : heap) : Prop := {
  hr_wf : heap_wf s;
  hr_range st n : B !! st = Some n → 0 <= st ∧ 1 <= n ∧ st + n <= max_index s;
  hr_disj st n st' n' : B !! st = Some n → B !! st' = Some n' → st < st' → st + n <= st';
  hr_used st n j : B !! st = Some n → st <= j < st + n → get_heap_index j s = flags_in st n j;
  hr_free i : 0 <= i → free_at B i → get_heap_index i s = 0;
}.

Lemma hr_bound B s : heap_repr B s → 0 <= max_index s <= 0x80000.
Proof. intros [Hwf _ _ _ _]. rewrite max_index_eq by done. destruct Hwf. lia. Qed.

Lemma hr_free_iff B s i : heap_repr B s → 0 <= i → get_heap_index i s = 0 ↔ free_at B i.
Proof.
  intros Hr Hi. split; [|by apply Hr]. intros Hz st n Hb Hin.
  pose proof (hr_range _ _ Hr _ _ Hb). pose proof (hr_bound _ _ Hr).
  rewrite (hr_used _ _ Hr _ _ _ Hb Hin) in Hz. revert Hz.
  apply page_flags_bits; lia.
Qed.

Lemma updated_wf lo hi f s s' : updated lo hi f s s' → heap_wf s → heap_wf s'.
Proof. intros [Hs Hb Hfi Hl _] [? ? ? ?]. split; rewrite ?Hs, ?Hb, ?Hfi, ?Hl; done. Qed.

(** Locking and unlocking around an update leaves the update. *)
Lemma updated_unlock lo hi f s s' :
  heap_wf s → updated lo hi f (set_heap_lock true s) s' → updated lo hi f s (set_heap_lock false s').
Proof. intros Hwf [? ? ? ? ?]. split; try done. by rewrite (hw_lock s Hwf). Qed.

Lemma updated_max lo hi f s s' : updated lo hi f s s' → max_index s' = max_index s.
Proof. intros [Hs _ _ _ _]. unfold max_index. by rewrite Hs. Qed.

Lemma repr_add B s s' i n :
  heap_repr B s → 0 <= i → 1 <= n → i + n <= max_index s →
  (∀ k, i <= k < i + n → free_at B k) →
  updated i (i + n) (flags_in i n) s s' → heap_repr (<[i := n]> B) s'.
Proof.
  intros Hr Hi Hn Hmax Hfree Hu. pose proof (updated_max _ _ _ _ _ Hu) as Hm.
  assert (∀ st m, B !! st = Some m → st + m <= i ∨ i + n <= st) as Hapart.
  { intros st m Hb. pose proof (hr_range _ _ Hr _ _ Hb).
    destruct (decide (st + m <= i)); [by left|right]. destruct (decide (st <= i)).
    - destruct (Hfree i ltac:(lia) st m Hb). lia.
    - destruct (decide (i + n <= st)); [done|]. destruct (Hfree st ltac:(lia) st m Hb). lia. }
  split.
  - eapply updated_wf; [done|apply Hr].
  - intros st m. rewrite Hm. rewrite lookup_insert_Some. intros [[<- <-]|[_ Hb]]; [lia|by apply Hr].
  - intros st m st' m'. rewrite !lookup_insert_Some.
    intros [[<- <-]|[_ Hb]] [[<- <-]|[_ Hb']] Hlt; [lia|..].
    + pose proof (hr_range _ _ Hr _ _ Hb'). destruct (Hapart _ _ Hb'); lia.
    + pose proof (hr_range _ _ Hr _ _ Hb). destruct (Hapart _ _ Hb); lia.
    + by eapply (hr_disj _ _ Hr).
  - intros st m j. rewrite lookup_insert_Some. intros [[<- <-]|[_ Hb]] Hj.
    + rewrite (upd_get _ _ _ _ _ Hu), decide_True by lia. done.
    + pose proof (hr_range _ _ Hr _ _ Hb). pose proof (Hapart _ _ Hb).
      rewrite (upd_get _ _ _ _ _ Hu), decide_False by lia. by apply Hr.
  - intros k Hk Hf. assert (¬ (i <= k < i + n)) by (eapply Hf, lookup_insert_eq).
    rewrite (upd_get _ _ _ _ _ Hu), decide_False by lia. apply Hr; [done|].
    intros st m Hb. destruct (decide (st = i)) as [->|]; [destruct (Hapart _ _ Hb); pose proof (hr_range _ _ Hr _ _ Hb); lia|].
    apply Hf. by rewrite lookup_insert_ne.
Qed.

Lemma repr_delete B s s' st n :
  heap_repr B s → B !! st = Some n →
  updated st (st + n) (λ _, 0) s s' → heap_repr (delete st B) s'.
Proof.
  intros Hr Hb Hu. pose proof (updated_max _ _ _ _ _ Hu) as Hm. pose proof (hr_range _ _ Hr _ _ Hb).
  split.
  - eapply updated_wf; [done|apply Hr].
  - intros st' m [_ ?]%lookup_delete_Some. rewrite Hm. by apply Hr.
  - intros a m a' m' [_ ?]%lookup_delete_Some [_ ?]%lookup_delete_Some. by eapply (hr_disj _ _ Hr).
  - intros st' m j [Hne Hb']%lookup_delete_Some Hj. pose proof (hr_range _ _ Hr _ _ Hb').
    assert (st' + m <= st ∨ st + n <= st').
    { destruct (decide (st' < st)).
      - left. by apply (hr_disj _ _ Hr _ _ _ _ Hb' Hb).
      - right. apply (hr_disj _ _ Hr _ _ _ _ Hb Hb'). lia. }
    rewrite (upd_get _ _ _ _ _ Hu), decide_False by lia. by apply Hr.
  - intros k Hk Hf. rewrite (upd_get _ _ _ _ _ Hu) by done. case_decide; [done|].
    destruct (decide (k < max_index s)); [|apply get_heap_index_out; lia].
    apply Hr; [done|]. intros st' m Hb'. destruct (decide (st' = st)) as [->|Hne].
    + replace m with n by congruence. lia.
    + apply Hf. by rewrite lookup_delete_ne.
Qed.

(** ** Operations against the abstraction *)

(** Locking the heap does not change any entry. *)
Lemma run_lock s b i n : run (set_heap_lock b s) i n ↔ run s i n.
Proof. done. Qed.

Lemma run_free B s i n :
  heap_repr B s → 0 <= i → (run s i n ↔ ∀ k, i <= k < i + n → free_at B k).
Proof.
  intros Hr Hi. split.
  - intros Hrun k Hk. apply (hr_free_iff B s k Hr); [lia|].
    replace k with (i + (k - i)) by lia. apply Hrun. lia.
  - intros Hf j Hj. apply (hr_free_iff B s _ Hr); [lia|]. apply Hf. lia.
Qed.

(** The part of [heap_alloc] after the search, for a start page that is free. *)
Lemma heap_finish_wp s start n (Q : Z → heap → Prop) :
  heap_wf s → 0 <= start → start + n < 2 ^ 32 → 0 <= n →
  (∀ s', updated start (start + n) (flags_in start n) s s' →
     Q (u32 (heap_base s + start * PAGE_SIZE_BYTES)) s') →
  wp (for_all 0 n (λ i, modify (set_heap_index (u32 (start + i)) (page_flags i n)));;
      heap_release;;
      base ← gets heap_base;
      mret (u32 (base + start * PAGE_SIZE_BYTES))) Q (set_heap_lock true s).
Proof.
  intros Hwf Hst Hov Hn HQ. wp. apply heap_mark_wp; [done..|]. intros s' Hu. unfold heap_release. wp.
  pose proof (upd_base _ _ _ _ _ Hu) as Hb. simpl in *. rewrite Hb.
  by apply HQ, updated_unlock.
Qed.

Lemma heap_alloc_wp B s n (Q : Z → heap → Prop) :
  heap_repr B s → 1 <= n < 2 ^ 31 →
  (∀ i s', 0 <= i < max_index s → run s i n → (∀ k, 0 <= k < i → ¬ run s k n) →
     updated i (i + n) (flags_in i n) s s' → Q (u32 (heap_base s + i * PAGE_SIZE_BYTES)) s') →
  ((∀ k, 0 <= k < max_index s → ¬ run s k n) → get_heap_index 0 s ≠ 0 → Q 0 s) →
  ((∀ k, 0 <= k < max_index s → ¬ run s k n) → get_heap_index 0 s = 0 →
     ∀ s', updated 0 n (flags_in 0 n) s s' → Q (u32 (heap_base s)) s') →
  wp (heap_alloc n) Q s.
Proof.
  intros Hr Hn Hfit Hfull Hover. pose proof (hr_wf _ _ Hr) as Hwf. pose proof (hr_bound _ _ Hr).
  unfold heap_alloc. rewrite wp_bind. apply heap_acquire_wp; [done|]. rewrite wp_bind.
  apply heap_scan_wp; [apply Hwf|change (max_index (set_heap_lock true s)) with (max_index s); lia..| |].
  - intros i Hi Hrun Hmin. rewrite wp_bind, wp_gets.
    assert (get_heap_index i (set_heap_lock true s) = 0) as ->.
    { replace i with (i + 0) by lia. apply Hrun. lia. }
    rewrite andb_false_r. change (max_index (set_heap_lock true s)) with (max_index s) in Hi.
    apply heap_finish_wp; [done|lia..|]. intros s' Hu. by apply Hfit.
  - intros Hno. rewrite wp_bind, wp_gets. change (get_heap_index 0 (set_heap_lock true s)) with (get_heap_index 0 s).
    destruct (Z.eqb_spec (get_heap_index 0 s) 0) as [Hz|Hnz]; simpl.
    + apply heap_finish_wp; [done|lia..|]. intros s' Hu. rewrite Z.add_0_r. by apply Hover.
    + unfold heap_release. wp. replace (set_heap_lock false (set_heap_lock true s)) with s; [auto|].
      pose proof (hw_lock _ Hwf). by destruct s; simpl in *; subst.
Qed.

Lemma heap_free_wp B s st n a (Q : Z → heap → Prop) :
  heap_repr B s → B !! st = Some n →
  heap_base s + st * PAGE_SIZE_BYTES <= a < heap_base s + (st + n) * PAGE_SIZE_BYTES →
  (∀ s', updated st (st + n) (λ _, 0) s s' → Q 0 s') →
  wp (heap_free a) Q s.
Proof.
  intros Hr Hb Ha HQ. pose proof (hr_wf _ _ Hr) as Hwf. pose proof (hr_bound _ _ Hr) as Hbd.
  pose proof (hr_range _ _ Hr _ _ Hb) as Hrng. unfold PAGE_SIZE_BYTES in Ha.
  set (k := (a - heap_base s) / 4096).
  assert (st <= k < st + n) as Hk.
  { unfold k. split; [apply Z.div_le_lower_bound|apply Z.div_lt_upper_bound]; lia. }
  assert (u32 (Z.shiftr (s32 (a - heap_base s)) 12) = k) as Hidx.
  { assert (s32 (a - heap_base s) = a - heap_base s) as ->.
    { unfold s32. rewrite Z.mod_small; lia. }
    rewrite Z.shiftr_div_pow2 by lia. change (2 ^ 12) with 4096. fold k. apply u32_id. unfold is_u32. lia. }
  unfold heap_free. wp. rewrite Hidx. rewrite Z.gtb_ltb, (proj2 (Z.ltb_ge _ _)) by lia. wp.
  apply heap_acquire_wp; [done|]. set (s1 := set_heap_lock true s).
  assert (∀ i, st <= i < st + n → get_heap_index i s1 = flags_in st n i) as Hget
    by (intros i Hi; by apply (hr_used _ _ Hr)).
  wp. apply (wp_loop (λ i s', s' = s1 ∧ st <= i < st + n) (λ i _, i - st)).
  - done.
  - unfold fuel32. change (Z.pos (2 ^ 32)) with (2 ^ 32). lia.
  - intros i ? [_ ?]. lia.
  - intros i ? [-> Hi]. wp. rewrite Hget by done.
    destruct (page_flags_bits (i - st) n) as (_ & _ & Hlast & _); [lia..|].
    unfold flags_in. rewrite Hlast. destruct (Z.eqb_spec (i - st) 0) as [Hz|Hz]; wp.
    2: { rewrite u32_id by (unfold is_u32; lia). split; [split; [done|lia]|lia]. }
    assert (i = st) as -> by lia.
    wp. apply (wp_loop (λ j s', updated st j (λ _, 0) s1 s' ∧ st <= j < st + n) (λ j _, st + n - j)).
    + split; [apply updated_refl|lia].
    + unfold fuel32. change (Z.pos (2 ^ 32)) with (2 ^ 32). lia.
    + intros j ? [_ ?]. lia.
    + intros j s' [Hu Hj]. wp. rewrite (upd_get _ _ _ _ _ Hu), decide_False, Hget by lia.
      destruct (page_flags_bits (j - st) n) as (_ & _ & _ & Hnext); [lia..|].
      unfold flags_in. rewrite Hnext.
      assert (updated st (j + 1) (λ _, 0) s1 (set_heap_index j 0 s')) as Hu'
        by (apply (updated_step st j (λ _, 0)); [lia|lia|done]).
      destruct (Z.eqb_spec (j - st) (n - 1)) as [He|He]; wp.
      * unfold heap_release. wp. apply HQ. replace (st + n) with (j + 1) by lia. by apply updated_unlock.
      * rewrite u32_id by (unfold is_u32; lia). split; [split; [done|lia]|lia].
Qed.

(** ** Properties *)

Definition fits (B : gmap Z Z) (s : heap) (n i : Z) : Prop :=
  0 <= i ∧ i + n <= max_index s ∧ ∀ k, i <= k < i + n → free_at B k.

Lemma heap_address B s i n :
  heap_repr B s → 0 <= i → 1 <= n → i + n <= max_index s →
  u32 (heap_base s + i * PAGE_SIZE_BYTES) = heap_base s + i * PAGE_SIZE_BYTES.
Proof.
  intros [Hwf _ _ _ _] Hi Hn. rewrite max_index_eq by done. intros. destruct Hwf.
  apply u32_id. unfold is_u32, PAGE_SIZE_BYTES in *. lia.
Qed.

Lemma heap_alloc_fits_wp B s n :
  heap_repr B s → 1 <= n < 2 ^ 31 → (∃ i, fits B s n i) →
  ∃ i s', heap_alloc n s = Ok (heap_base s + i * PAGE_SIZE_BYTES, s') ∧
    fits B s n i ∧ (∀ k, fits B s n k → i <= k) ∧ updated i (i + n) (flags_in i n) s s'.
Proof.
  intros Hr Hn (i0 & Hi0 & Hm0 & Hf0).
  assert (run s i0 n) as Hrun0 by (by apply (run_free B)).
  assert (wp (heap_alloc n) (λ a s', ∃ i, a = heap_base s + i * PAGE_SIZE_BYTES ∧
    fits B s n i ∧ (∀ k, fits B s n k → i <= k) ∧ updated i (i + n) (flags_in i n) s s') s)
    as (? & s' & Hrn & i & -> & H)%wp_ok; [|by exists i, s'].
  apply (heap_alloc_wp B); [done..| | |].
  - intros i s' Hi Hrun Hmin Hu.
    assert (∀ k, 0 <= k → run s k n → i <= k) as Hle.
    { intros k Hk Hrk. destruct (decide (i <= k)); [done|]. destruct (Hmin k); [lia|done]. }
    pose proof (Hle i0 Hi0 Hrun0).
    assert (∀ k, i <= k < i + n → free_at B k) as Hfree
      by exact (proj1 (run_free B s i n Hr ltac:(lia)) Hrun).
    exists i. split_and!; [|split_and!; [lia|lia|done]| |done].
    + apply (heap_address B s i n); [done|lia..].
    + intros k (Hk & _ & Hfk). apply Hle; [done|]. by apply (run_free B).
  - intros Hno. destruct (Hno i0); [lia|done].
  - intros Hno. destruct (Hno i0); [lia|done].
Qed.

(** C24: [heap_alloc] is first fit over the abstract heap.  When some run of
    [n] pages is free, the call returns the address of the lowest such run,
    which lies inside of the heap and overlaps no live block, and the entries
    of the map then describe the old blocks and the new one. *)
Theorem heap_alloc_first_fit B s n :
  heap_repr B s → 1 <= n < 2 ^ 31 → (∃ i, fits B s n i) →
  ∃ i s', heap_alloc n s = Ok (heap_base s + i * PAGE_SIZE_BYTES, s') ∧
    fits B s n i ∧ (∀ k, fits B s n k → i <= k) ∧ heap_repr (<[i := n]> B) s'.
Proof.
  intros Hr Hn Hfit. destruct (heap_alloc_fits_wp B s n Hr Hn Hfit) as (i & s' & Hrn & Hf & Hmin & Hu).
  exists i, s'. split_and!; [done..|]. destruct Hf as (? & ? & ?). apply (repr_add B s); [done|lia..|done|done].
Qed.

Definition heap_example : heap := Heap {[0 := 0x53]} 4 0xd0000000 0 false.

Lemma heap_example_repr : heap_repr {[0 := 2]} heap_example.
Proof.
  split.
  - split; by_computation.
  - intros st n [<- <-]%lookup_singleton_Some. by_computation.
  - intros st n st' n' [<- <-]%lookup_singleton_Some [<- <-]%lookup_singleton_Some. lia.
  - intros st n j [<- <-]%lookup_singleton_Some Hj.
    assert (j = 0 ∨ j = 1) as [-> | ->] by lia; reflexivity.
  - intros i Hi Hf. specialize (Hf 0 2 eq_refl).
    destruct (decide (i < 8)) as [Hlt|]; [|apply get_heap_index_out; change (max_index heap_example) with 8; lia].
    assert (i ∈ seqZ 2 6) as Hin by (apply elem_of_seqZ; lia). clear Hf Hi Hlt.
    revert i Hin. apply Forall_forall. by_computation.
Defined.

Lemma heap_example_fits : fits {[0 := 2]} heap_example 3 2.
Proof.
  split_and!; [lia|by_computation|]. intros k Hk st n [<- <-]%lookup_singleton_Some. lia.
Defined.

Lemma heap_alloc_first_fit_witness :
  ∃ s', heap_alloc 3 heap_example = Ok (0xd0002000, s') ∧ heap_repr {[2 := 3; 0 := 2]} s'.
Proof.
  destruct (heap_alloc_first_fit {[0 := 2]} heap_example 3 heap_example_repr)
    as (i & s' & Hrn & Hfit & Hmin & Hr); [lia|by exists 2; apply heap_example_fits|].
  assert (∃ s0, heap_alloc 3 heap_example = Ok (0xd0002000, s0)) as [s0 Hc] by (eexists; vm_compute; reflexivity).
  rewrite Hc in Hrn. injection Hrn as Ha ->.
  assert (i = 2) as -> by (unfold heap_example, PAGE_SIZE_BYTES in Ha; cbn [heap_base] in Ha; lia).
  exists s'. exact (conj Hc Hr).
Defined.

(** [heap_free] releases exactly the block its argument lies in, from any
    address of the block: the links lead back to the first page and forward to
    the last one, every page of the block becomes free, and all other blocks
    stay. *)
Theorem heap_free_releases_block B s st n a :
  heap_repr B s → B !! st = Some n →
  heap_base s + st * PAGE_SIZE_BYTES <= a < heap_base s + (st + n) * PAGE_SIZE_BYTES →
  ∃ s', heap_free a s = Ok (0, s') ∧ heap_repr (delete st B) s'.
Proof.
  intros Hr Hb Ha.
  assert (wp (heap_free a) (λ r s', r = 0 ∧ heap_repr (delete st B) s') s)
    as (? & s' & Hrn & -> & H)%wp_ok; [|by exists s'].
  apply (heap_free_wp B s st n); [done..|]. intros s' Hu. split; [done|]. by apply (repr_delete B s s' st n).
Qed.

Lemma heap_free_releases_block_witness :
  ∃ s', heap_free 0xd0001234 heap_example = Ok (0, s') ∧ heap_repr ∅ s'.
Proof.
  destruct (heap_free_releases_block {[0 := 2]} heap_example 0 2 0xd0001234 heap_example_repr)
    as (s' & Hrn & Hr); [done|by_computation|].
  exists s'. split; [exact Hrn|]. by rewrite delete_singleton_eq in Hr.
Defined.

(** Freeing from any address of the block just allocated gives every
    entry of the map back its old value. *)
Theorem heap_alloc_free_roundtrip B s n a s1 b :
  heap_repr B s → 1 <= n < 2 ^ 31 → (∃ i, fits B s n i) → heap_alloc n s = Ok (a, s1) →
  a <= b < a + n * PAGE_SIZE_BYTES →
  ∃ s2, heap_free b s1 = Ok (0, s2) ∧ ∀ k, 0 <= k → get_heap_index k s2 = get_heap_index k s.
Proof.
  intros Hr Hn Hfit Hal Hb.
  destruct (heap_alloc_fits_wp B s n Hr Hn Hfit) as (i & s1' & Hal' & Hf & _ & Hu).
  rewrite Hal in Hal'. injection Hal' as -> ->. destruct Hf as (Hi & Hm & Hfree).
  pose proof (repr_add B s s1' i n Hr Hi ltac:(lia) Hm Hfree Hu) as Hr1.
  assert (wp (heap_free b) (λ r s2, r = 0 ∧ ∀ k, 0 <= k → get_heap_index k s2 = get_heap_index k s) s1')
    as (? & s2 & Hrn & -> & H)%wp_ok; [|by exists s2].
  apply (heap_free_wp (<[i := n]> B) s1' i n); [done|apply lookup_insert_eq| |].
  - rewrite (upd_base _ _ _ _ _ Hu). lia.
  - intros s2 Hu2. split; [done|]. intros k Hk.
    rewrite (upd_get _ _ _ _ _ Hu2), (updated_max _ _ _ _ _ Hu), (upd_get _ _ _ _ _ Hu) by done.
    case_decide; [|done]. symmetry. apply (hr_free_iff B s k Hr Hk), Hfree. lia.
Qed.

Lemma heap_alloc_free_roundtrip_witness :
  ∃ s1 s2, heap_alloc 3 heap_example = Ok (0xd0002000, s1) ∧ heap_free 0xd0003ff0 s1 = Ok (0, s2) ∧
    heap_map s2 !0 1 = 0.
Proof.
  destruct (heap_alloc 3 heap_example) as [[a s1]|] eqn:Hal; [|by vm_compute in Hal].
  pose proof Hal as Hal'. vm_compute in Hal'. injection Hal' as <- Hs1.
  destruct (heap_alloc_free_roundtrip {[0 := 2]} heap_example 3 0xd0002000 s1 0xd0003ff0 heap_example_repr)
    as (s2 & Hf & Hk); [lia|by exists 2; apply heap_example_fits|done|by_computation|].
  exists s1, s2. split_and!; [done..|]. subst s1. vm_compute in Hf. by injection Hf as <-.
Defined.

Lemma not_run_used s i n : ¬ run s i n → ∃ j, i <= j < i + n ∧ get_heap_index j s ≠ 0.
Proof.
  intros Hno. destruct (decide (Forall (λ j, get_heap_index j s = 0) (seqZ i n))) as [Hall|Hex].
  - destruct Hno. intros j Hj. rewrite Forall_forall in Hall. apply Hall, elem_of_seqZ. lia.
  - apply not_Forall_Exists in Hex; [|apply _]. apply Exists_exists in Hex as (j & Hj & Hne).
    apply elem_of_seqZ in Hj. exists j. split; [lia|done].
Qed.

(** What [heap_alloc] does when no run fits depends on two pages.  With
    the last page of the heap free it returns a block that runs past the end
    of the heap; with the last page in use and the first one free it returns
    the heap's base over pages that are in use, and overwrites their entries;
    only with both in use does it report failure, leaving the heap alone. *)
Theorem heap_alloc_without_fit B s n :
  heap_repr B s → 1 <= n < 2 ^ 31 → 0 < max_index s → (∀ i, ¬ fits B s n i) →
  ∃ a s', heap_alloc n s = Ok (a, s') ∧
    if decide (get_heap_index (max_index s - 1) s = 0) then
      ∃ i, a = u32 (heap_base s + i * PAGE_SIZE_BYTES) ∧ i < max_index s < i + n
    else if decide (get_heap_index 0 s = 0) then
      a = heap_base s ∧ ∃ j, 0 <= j < n ∧ get_heap_index j s ≠ 0 ∧
        get_heap_index j s' = page_flags j n
    else a = 0 ∧ s' = s.
Proof.
  intros Hr Hn Hmax Hno. apply wp_ok.
  assert (∀ i, 0 <= i → run s i n → max_index s < i + n) as Hout.
  { intros i Hi Hrun. destruct (decide (max_index s < i + n)); [done|]. destruct (Hno i).
    split_and!; [done|lia|]. exact (proj1 (run_free B s i n Hr Hi) Hrun). }
  assert (get_heap_index (max_index s - 1) s = 0 → run s (max_index s - 1) n) as Htail.
  { intros Hz j Hj. destruct (decide (j = 0)) as [->|]; [by rewrite Z.add_0_r|].
    apply get_heap_index_out. lia. }
  apply (heap_alloc_wp B); [done..| | |].
  - intros i s' Hi Hrun Hmin Hu. pose proof (Hout i ltac:(lia) Hrun).
    rewrite decide_True by (replace (max_index s - 1) with (i + (max_index s - 1 - i)) by lia; apply Hrun; lia).
    exists i. split; [done|lia].
  - intros Hnone Hz. rewrite !decide_False; [done|done|].
    intros Hl. apply (Hnone (max_index s - 1)); [lia|auto].
  - intros Hnone Hz s' Hu. rewrite decide_False, decide_True; [|done|].
    2: { intros Hl. apply (Hnone (max_index s - 1)); [lia|auto]. }
    split.
    + pose proof (heap_address B s 0 1 Hr). rewrite Z.add_0_r in *. apply H; lia.
    + destruct (not_run_used s 0 n) as (j & Hj & Hne); [apply Hnone; lia|].
      exists j. split_and!; [lia..|done|].
      assert (j < max_index s).
      { destruct (decide (j < max_index s)); [done|]. rewrite get_heap_index_out in Hne by lia. done. }
      rewrite (upd_get _ _ _ _ _ Hu), decide_True by lia. unfold flags_in. f_equal. lia.
Qed.

Lemma heap_alloc_without_fit_witness :
  ∃ s', heap_alloc 7 heap_example = Ok (0xd0002000, s') ∧ max_index heap_example < 2 + 7.
Proof.
  destruct (heap_alloc_without_fit {[0 := 2]} heap_example 7 heap_example_repr)
    as (a & s' & Hrn & _); [lia|by_computation| |].
  { intros i (Hi & Hm & Hf). change (max_index heap_example) with 8 in Hm.
    apply (Hf (Z.max i 1) ltac:(lia) 0 2 eq_refl). lia. }
  assert (∃ s0, heap_alloc 7 heap_example = Ok (0xd0002000, s0)) as [s0 Hc] by (eexists; vm_compute; reflexivity).
  exists s0. split; [exact Hc|by_computation].
Defined.
