(* ===== verification/Kmalloc.v ===== *)
(** * Kernel memory (src/src/kernel/arch_i386/memory.c: kmalloc, kfree,
    kmalloc_page_paddr, pm_init, heap_init, and the functions that work on
    another address space)

    [kmalloc] and [kfree] sit on top of the frame allocator, the page tables
    and, once [heap_init] has run, the heap.  The state joins the three. *)
From S2P Require Import Prelude PhysMem Paging Heap.

Record kmem := KMem {
  km_pg : paging;
  km_heap : heap;
  page_lock : bool;
}.

#[export, refine] Instance kmem_paging : Lens kmem paging := {|
  view := km_pg;
  put p s := KMem p (km_heap s) (page_lock s);
|}.
Proof. all: done || by intros []. Defined.
#[export, refine] Instance kmem_heap : Lens kmem heap := {|
  view := km_heap;
  put h s := KMem (km_pg s) h (page_lock s);
|}.
Proof. all: done || by intros []. Defined.

Definition set_page_lock (b : bool) (s : kmem) : kmem := KMem (km_pg s) (km_heap s) b.

(** Calls into the page tables and into the frame allocator below them. *)
Definition kpg {A} (m : M paging A) : M kmem A := zoom m.
Definition kpm {A} (m : M pmem A) : M kmem A := zoom (zoom (S := paging) m).

Definition page_acquire : M kmem unit :=
  held ← gets page_lock; if held then fail Deadlock else modify (set_page_lock true).
Definition page_release : M kmem unit := modify (set_page_lock false).

(** The address of page [i], a 32-bit shift. *)
Definition page_addr (i : Z) : Z := u32 (Z.shiftl i 12).

(** The flags of page [j] of a run of [size_pgs]. *)
Definition link_flags (j size_pgs : Z) : Z :=
  Z.lor (Z.lor PT_PRESENT (PT_LINK_L * b2z (negb (j =? 0))))
        (Z.lor (PT_LINK_N * b2z (j <? u32 (size_pgs - 1))) PT_PCD).

(** The test both allocators make of a candidate: [Some tt] when a page of the
    run is taken. *)
Definition run_taken (i size_pgs : Z) : M kmem (option unit) :=
  for_loop 0 size_pgs (λ j,
    fl ← kpg (get_pflags (page_addr (i + j)));
    if fl =? 0 then mret None else mret (Some tt)).

(** The two loops of [kfree]: back to the first page of the run, and forward
    over its pages. *)
Definition kfree_head (addr : Z) : M kmem Z :=
  loop fuel32 (λ addr,
    fl ← kpg (get_pflags addr);
    if Z.land fl PT_LINK_L =? 0 then mret (inr addr)
    else mret (inl (u32 (addr - 0x1000)))) addr.
Definition kfree_pages (addr : Z) : M kmem unit :=
  loop fuel32 (λ addr,
    flags ← kpg (get_pflags addr);
    paddr ← kpg (get_paddr addr);
    kpg (unmap addr);;
    kpm (pm_free paddr);;
    if Z.land flags PT_LINK_N =? 0 then mret (inr tt)
    else mret (inl (u32 (addr + 0x1000)))) addr.

Definition kfree (vaddr : Z) : M kmem Z :=
  base ← gets (λ s, heap_base (km_heap s));
  if negb (base =? 0) then zoom (heap_free vaddr);; mret 0
  else
    fl ← kpg (get_pflags vaddr);
    if fl =? 0 then mret 0
    else
      page_acquire;;
      addr ← kfree_head (Z.land vaddr 0xfffff000);
      kfree_pages addr;;
      page_release;;
      mret 0.

Definition kmalloc (size_pgs : Z) : M kmem Z :=
  base ← gets (λ s, heap_base (km_heap s));
  if negb (base =? 0) then zoom (heap_alloc size_pgs)
  else
    page_acquire;;
    loop fuel32 (λ i,
      if i <? Z.shiftl 1 22 then
        taken ← run_taken i size_pgs;
        match taken with
        | Some _ => mret (inl (u32 (i + 1)))
        | None =>
            r ← for_loop 0 size_pgs (λ j,
                  physaddr ← kpm pm_alloc;
                  if physaddr =? 0 then
                    kfree (u32 (Z.shiftl i 22));;
                    page_release;;
                    mret (Some 0)
                  else
                    kpg (map (page_addr (i + j)) physaddr (link_flags j size_pgs));;
                    mret None);
            match r with
            | Some v => mret (inr v)
            | None => page_release;; mret (inr (page_addr i))
            end
        end
      else page_release;; mret (inr 0)) (Z.shiftr 0xc0000000 12).

Definition kmalloc_page_paddr (paddr size_pgs : Z) : M kmem Z :=
  page_acquire;;
  loop fuel32 (λ i,
    if i <? Z.shiftl 1 22 then
      taken ← run_taken i size_pgs;
      match taken with
      | Some _ => mret (inl (u32 (i + 1)))
      | None =>
          for_all 0 size_pgs (λ j,
            kpg (map (page_addr (i + j)) (u32 (paddr + j * 4096)) (link_flags j size_pgs)));;
          page_release;;
          mret (inr (page_addr i))
      end
    else page_release;; mret (inr 0)) (Z.shiftr 0xc0000000 12).

(** ** Byte and word accesses through kernel pointers *)

Definition kread32 (v : Z) : M kmem Z := kpg (vread32 v).
Definition kwrite32 (v x : Z) : M kmem unit := kpg (vwrite32 v x).

(** One byte of the word it lies in. *)
Definition kread8 (v : Z) : M kmem Z :=
  w ← kread32 (v - v mod 4); mret (u8 (Z.shiftr w (8 * (v mod 4)))).
Definition kwrite8 (v x : Z) : M kmem unit :=
  w ← kread32 (v - v mod 4);
  let sh := 8 * (v mod 4) in
  kwrite32 (v - v mod 4)
    (Z.lor (Z.land w (Z.lnot (Z.shiftl 0xff sh))) (Z.shiftl (u8 x) sh)).

(** [memclr] of a multiple of four bytes, and [memcpy]. *)
Definition memclr32 (ptr count : Z) : M kmem unit :=
  for_all 0 (count / 4) (λ i, kwrite32 (u32 (ptr + 4 * i)) 0).
Definition kmemcpy (src dest c : Z) : M kmem unit :=
  for_all 0 c (λ i, b ← kread8 (u32 (src + i)); kwrite8 (u32 (dest + i)) b).

(** ** Other address spaces *)

(** [pd] is the virtual address at which the other directory is mapped.  The
    entry index is masked with 0xfffff000, as in the source. *)
Definition get_paddr_in_pd (vaddr pd : Z) : M kmem Z :=
  _ ← kpg (get_paddr pd);
  e ← kread32 (u32 (pd + 4 * pd_index_of vaddr));
  if e =? 0 then mret 0
  else
    pt ← kmalloc_page_paddr (Z.land e 0xfffff000) 1;
    ret ← kread32 (u32 (pt + 4 * Z.land (pt_index_of vaddr) 0xfffff000));
    kpg (unmap pt);;
    mret ret.

Definition mapdup_full (pd : Z) : M kmem unit :=
  memclr32 pd PAGE_SIZE_BYTES;;
  for_all 1 (Z.shiftr 0xc0000000 22) (λ i,
    old ← kread32 (pd_ptr i);
    let old_pd_flags := Z.land old 0xfff in
    if Z.land old_pd_flags PD_PRESENT =? 0 then skip
    else
      f ← kpm pm_alloc;
      kwrite32 (u32 (pd + 4 * i)) (Z.lor f old_pd_flags);;
      new_pd ← kread32 (u32 (pd + 4 * i));
      when (new_pd <? PAGE_SIZE_BYTES) (fail Panic);;
      new_pt_ptr ← kmalloc_page_paddr new_pd 1;
      for_all 0 1024 (λ j,
        old_pt ← kread32 (pt_ptr i j);
        let old_pt_flags := Z.land old_pt 0xfff in
        kwrite32 (u32 (new_pt_ptr + 4 * j)) 0;;
        old_pt ← kread32 (pt_ptr i j);
        when (negb (Z.land old_pt PT_PRESENT =? 0)) (
          g ← kpm pm_alloc;
          kwrite32 (u32 (new_pt_ptr + 4 * j)) (Z.lor g old_pt_flags);;
          new_pt ← kread32 (u32 (new_pt_ptr + 4 * j));
          when (new_pt <? PAGE_SIZE_BYTES) (fail Panic);;
          cpy ← kmalloc_page_paddr (Z.land new_pt 0xfffff000) 1;
          kmemcpy (Z.lor (Z.shiftl i 22) (Z.shiftl j 12)) cpy PAGE_SIZE_BYTES;;
          kpg (unmap cpy)));;
      kpg (unmap new_pt_ptr));;
  for_all (Z.shiftr 0xc0000000 22) 1024 (λ i,
    old ← kread32 (pd_ptr i); kwrite32 (u32 (pd + 4 * i)) old);;
  old ← kread32 (pd_ptr 0);
  kwrite32 pd old;;
  p ← kpg (get_paddr pd);
  kwrite32 (u32 (pd + 4 * 1023)) (Z.lor p PT_PRESENT).

Definition map_in_pd (vaddr paddr flags pd : Z) : M kmem unit :=
  let pd_index := pd_index_of vaddr in
  let pt_index := pt_index_of vaddr in
  e ← kread32 (u32 (pd + 4 * pd_index));
  pt_ptr ← (if Z.land e PD_PRESENT =? 0 then
              f ← kpm pm_alloc;
              kwrite32 (u32 (pd + 4 * pd_index)) (Z.lor f (Z.land flags 0x7f));;
              e ← kread32 (u32 (pd + 4 * pd_index));
              pt_ptr ← kmalloc_page_paddr e 1;
              for_all 0 0x400 (λ i, kwrite32 (u32 (pt_ptr + 4 * i)) 0);;
              mret pt_ptr
            else kmalloc_page_paddr e 1);
  kwrite32 (u32 (pt_ptr + 4 * pt_index)) (Z.lor paddr flags);;
  kpg (unmap pt_ptr).

(** ** Start-up *)

Definition BIOS_MMAP_USABLE : Z := 1.

Record mmap_entry := MmapEntry { entry_base : Z; entry_length : Z; entry_type : Z }.

(** One page of one entry of the firmware's memory map.  The base and the
    length are 64-bit, the page counter and [j << 12] are 32-bit; the shift of
    the [int] 1 is truncated to the byte it is combined with. *)
Definition pm_init_page (prev : option mmap_entry) (e : mmap_entry) (j : Z) : M pmem unit :=
  let overlap :=
    match prev with
    | Some p => u64 (entry_base e + u32 (Z.shiftl j 12)) <? u64 (entry_base p + entry_length p)
    | None => false
    end in
  if overlap then skip
  else
    let byte := Z.shiftr (entry_base e) 15 + Z.shiftr j 3 in
    let bit := Z.shiftl 1 (Z.land j 7 + Z.land (Z.shiftr (entry_base e) 12) 7) in
    if negb (entry_type e =? BIOS_MMAP_USABLE) then
      modify (λ s, PMem (pm_map s) (pm_first_free s) (pm_lock s) (u32 (total_memory_unusable s + 1)));;
      b ← pm_read byte; pm_write byte (u8 (Z.lor b bit))
    else b ← pm_read byte; pm_write byte (u8 (Z.land b (Z.lnot bit))).

Fixpoint pm_init_entries (prev : option mmap_entry) (es : list mmap_entry) : M pmem unit :=
  match es with
  | [] => skip
  | e :: es =>
      for_all 0 (Z.shiftr (entry_length e) 12) (pm_init_page prev e);;
      pm_init_entries (Some e) es
  end.

(** [start] is the word at the symbol [_start], which the source takes for its
    address. *)
Definition pm_init (mmap : list mmap_entry) (start : Z) : M kmem Z :=
  kpm (modify (λ s, PMem (gset_to_gmap 0xff (list_to_set (seqZ 0 mmap_count))) 0 false 0));;
  modify (set_page_lock false);;
  modify (λ s, KMem (km_pg s) (Heap (heap_map (km_heap s)) (heap_map_size (km_heap s)) 0
                                 (heap_first_free (km_heap s)) (heap_lock (km_heap s))) (page_lock s));;
  kpm (pm_init_entries None mmap);;
  for_all 0 512 (λ i,
    kpm (modify (λ s, PMem (pm_map s) (pm_first_free s) (pm_lock s) (u32 (total_memory_unusable s + 1)));;
         pm_reserve (i * 4096)));;
  loop fuel32 (λ kernel_addr,
    p ← kpg (get_paddr kernel_addr);
    if p =? 0 then mret (inr tt)
    else
      p ← kpg (get_paddr kernel_addr);
      kpm (pm_reserve p);;
      mret (inl (u32 (kernel_addr + 0x1000)))) start;;
  mret 0.

(** The map of a fresh heap is modelled as the array it is used as from here
    on, so clearing it gives the empty map.  The function runs once, while
    [heap_base] is still zero. *)
Definition heap_init (size_bytes : Z) : M kmem Z :=
  let heap_pages := u32 (size_bytes + PAGE_SIZE_BYTES - 1) / PAGE_SIZE_BYTES in
  let map_size := heap_pages / HEAP_ENTRIES_PER_INDEX in
  let map_pages := u32 (map_size + PAGE_SIZE_BYTES - 1) / PAGE_SIZE_BYTES in
  modify (λ s, KMem (km_pg s) (Heap (heap_map (km_heap s)) map_size (heap_base (km_heap s))
                                 (heap_first_free (km_heap s)) false) (page_lock s));;
  hm ← kmalloc map_pages;
  base ← kmalloc heap_pages;
  for_all 0 map_size (λ i, kwrite8 (u32 (hm + i)) 0);;
  modify (λ s, KMem (km_pg s) (Heap ∅ map_size base 0 (heap_lock (km_heap s))) (page_lock s));;
  if base =? 0 then fail Panic else mret 0.

(** ** Reasoning about calls into the components *)

Lemma wp_kpg {A} (m : M paging A) Q (s : kmem) :
  wp (kpg m) Q s = wp m (λ a p, Q a (put p s)) (km_pg s).
Proof. unfold kpg. by rewrite wp_zoom. Qed.
Lemma wp_kpm {A} (m : M pmem A) Q (s : kmem) :
  wp (kpm m) Q s = wp m (λ a p, Q a (put (put p (km_pg s)) s)) (pg_pm (km_pg s)).
Proof. unfold kpm. by rewrite !wp_zoom. Qed.
#[export] Hint Rewrite @wp_kpg @wp_kpm : wp.

Lemma page_addr_eq i : 0 <= i < 0x100000 → page_addr i = i * 4096.
Proof.
  intros. unfold page_addr. rewrite Z.shiftl_mul_pow2 by lia. apply u32_id. unfold is_u32. lia.
Qed.
Lemma page_of i o : 0 <= o < 4096 → (i * 4096 + o) / 4096 = i.
Proof. intros. symmetry. apply (Z.div_unique _ _ _ o); lia. Qed.

(** The pages [kmalloc] looks at: the kernel half, below the recursive slot. *)
Definition kpage (i : Z) : Prop := 0xc0000 <= i < 1023 * 1024.
Lemma kpage_slot i : kpage i → 0 < i / 1024 < 1023.
Proof.
  unfold kpage. intros. split; [|apply Z.div_lt_upper_bound; lia].
  assert (768 <= i / 1024) by (apply Z.div_le_lower_bound; lia). lia.
Qed.
Lemma kpage_addr i : kpage i → page_addr i = i * 4096 ∧ page_addr i / 4096 = i.
Proof.
  intros Hi. rewrite page_addr_eq by (unfold kpage in Hi; lia). split; [done|]. by apply Z.div_mul.
Qed.

Lemma link_flags_bits j n :
  0 <= j < n → n < 2 ^ 32 →
  0 <= link_flags j n < 4096 ∧ Z.testbit (link_flags j n) 0 = true ∧
  (Z.land (link_flags j n) PT_LINK_L =? 0) = (j =? 0) ∧
  (Z.land (link_flags j n) PT_LINK_N =? 0) = (j =? n - 1) ∧ link_flags j n ≠ 0.
Proof.
  intros Hj Hn. unfold link_flags. rewrite u32_id by (unfold is_u32; lia).
  replace (j =? n - 1) with (negb (j <? n - 1))
    by (destruct (Z.ltb_spec j (n - 1)), (Z.eqb_spec j (n - 1)); done || lia).
  by destruct (j =? 0), (j <? n - 1).
Qed.

Definition free_page (s : paging) (i : Z) : Prop := Z.land (entry s i) 0xfff = 0.

Lemma kget_pflags_wp (s : kmem) i o (Q : Z → kmem → Prop) :
  pg_wf (km_pg s) → kpage i → 0 <= o < 4096 →
  Q (Z.land (entry (km_pg s) i) 0xfff) s → wp (kpg (get_pflags (i * 4096 + o))) Q s.
Proof.
  intros Hwf Hi Ho HQ. wp. pose proof (kpage_slot i Hi). pose proof (page_of i o Ho) as Hp.
  apply get_pflags_wp; rewrite ?Hp; [done..|]. by destruct s.
Qed.

Lemma run_taken_wp (s : kmem) i n (Q : option unit → kmem → Prop) :
  pg_wf (km_pg s) → 0xc0000 <= i → 0 <= n → i + n <= 1023 * 1024 →
  ((∀ j, 0 <= j < n → free_page (km_pg s) (i + j)) → Q None s) →
  (∀ j, 0 <= j < n → ¬ free_page (km_pg s) (i + j) → Q (Some tt) s) →
  wp (run_taken i n) Q s.
Proof.
  intros Hwf Hi Hn Hin Hnone Hsome. unfold run_taken.
  apply (wp_for (λ k s', s' = s ∧ ∀ j, 0 <= j < k → free_page (km_pg s) (i + j))); [done|split; [done|lia]| |].
  - intros k ? Hk [-> Hfree]. rewrite wp_bind.
    destruct (kpage_addr (i + k)) as [-> _]; [unfold kpage; lia|].
    rewrite <- (Z.add_0_r (_ * 4096)). apply kget_pflags_wp; [done|unfold kpage; lia|lia|].
    destruct (Z.eqb_spec (Z.land (entry (km_pg s) (i + k)) 0xfff) 0) as [Hz|Hnz]; wp.
    + split; [done|]. intros j Hj. destruct (decide (j = k)) as [->|]; [done|]. apply Hfree. lia.
    + by apply (Hsome k).
  - intros ? [-> Hfree]. auto.
Qed.

(** ** Runs of linked pages *)

(** Pages [i .. i+n) are a run that holds the frames [fs]: linked in order,
    each on a frame of its own that is in use and holds no page table. *)
Record kblock (s : paging) (i n : Z) (fs : list Z) : Prop := {
  kb_len : Z.of_nat (length fs) = n;
  kb_nodup : NoDup fs;
  kb_frame f : f ∈ fs → 0 <= f < frames ∧ used (pg_pm s) f = true ∧ data_frame s f;
  kb_entry j f : fs !! j = Some f →
    entry s (i + Z.of_nat j) = Z.lor (f * PAGE_SIZE_BYTES) (link_flags (Z.of_nat j) n);
}.

(** [kmalloc] after [k] of [n] pages. *)
Record kmapped (s0 : paging) (i n k : Z) (fs : list Z) (s : paging) : Prop := {
  kp_wf : pg_wf s;
  kp_len : Z.of_nat (length fs) = k;
  kp_nodup : NoDup fs;
  kp_frame f : f ∈ fs →
    0 <= f < frames ∧ used (pg_pm s0) f = false ∧ used (pg_pm s) f = true ∧ data_frame s f;
  kp_entry j f : fs !! j = Some f →
    entry s (i + Z.of_nat j) = Z.lor (f * PAGE_SIZE_BYTES) (link_flags (Z.of_nat j) n);
  kp_other m : 0 < m / 1024 < 1023 → ¬ (i <= m < i + k) → entry s m = entry s0 m;
  kp_kept : mem_kept s0 s;
}.

Lemma kmapped_block s0 i n fs s : kmapped s0 i n n fs s → kblock s i n fs.
Proof.
  intros [Hwf Hl Hnd Hf He _ _]. split; try done. intros f Hin. destruct (Hf f Hin) as (? & _ & ? & ?). done.
Qed.

(** Taking a frame keeps the tables as they are. *)
Lemma pg_wf_take s pm' f :
  pg_wf s → pm_wf pm' → (∀ g, used pm' g = bool_decide (f = g) || used (pg_pm s) g) →
  pg_wf (put pm' s).
Proof.
  intros [? [? ?] ? ? Hp0 Hc0 Hu0 ? ?] Hpm Hus. split; try done.
  - change (used pm' 0 = true). by rewrite Hus, Hp0, orb_true_r.
  - change (used pm' (cr3 s / PAGE_SIZE_BYTES) = true). rewrite Hus. by rewrite Hc0, orb_true_r.
  - intros i Hi Hnz. change (used pm' (table_of (pde s i) / PAGE_SIZE_BYTES) = true). rewrite Hus. by rewrite (Hu0 i Hi Hnz), orb_true_r.
Qed.

Lemma take_kept s pm' : (∀ g, used (pg_pm s) g = true → used pm' g = true) → mem_kept s (put pm' s).
Proof. intros Hm. split; [|done]. intros g Hg. split; [by apply Hm|]. done. Qed.

(** Giving a data frame back does too. *)
Lemma pg_wf_release s pm' f :
  pg_wf s → pm_wf pm' → data_frame s f →
  (∀ g, used pm' g = negb (bool_decide (f = g)) && used (pg_pm s) g) → pg_wf (put pm' s).
Proof.
  intros Hwf Hpm (H0 & Hc & Ht) Hus.
  assert (∀ x, x mod 4096 = 0 → x ≠ f * PAGE_SIZE_BYTES → f ≠ x / PAGE_SIZE_BYTES) as Hne.
  { intros x Hx Hn ->. apply Hn. unfold PAGE_SIZE_BYTES. pose proof (Z.div_mod x 4096 ltac:(lia)). lia. }
  destruct Hwf as [? [[? ?] ?] Hu ? Hp0 Hc0 Hu0 ? ?]. split; try done.
  - change (used pm' 0 = true). by rewrite Hus, Hp0, bool_decide_eq_false_2.
  - change (used pm' (cr3 s / PAGE_SIZE_BYTES) = true). rewrite Hus. rewrite Hc0, bool_decide_eq_false_2; [done|].
    apply Hne; [done|]. by apply not_eq_sym.
  - intros i Hi Hnz. change (used pm' (table_of (pde s i) / PAGE_SIZE_BYTES) = true). rewrite Hus.
    rewrite (Hu0 i Hi Hnz), bool_decide_eq_false_2; [done|].
    apply Hne; [apply table_of_aligned, Hu; lia|by apply Ht].
Qed.

Lemma entry_put pm' s m : entry (put pm' s) m = entry s m.
Proof. done. Qed.
Lemma data_frame_put pm' s g : data_frame (put pm' s) g ↔ data_frame s g.
Proof. done. Qed.

(** One page of the run. *)
Lemma kmap_page_wp s0 (s : paging) ks i n k fs m E (Q : option Z → kmem → Prop) :
  km_pg ks = s →
  kmapped s0 i n k fs s → 0xc0000 <= i → 0 <= k < n → i + n <= 1023 * 1024 →
  avail (pg_pm s) (S (S m)) →
  (∀ f s', kmapped s0 i n (k + 1) (fs ++ [f]) s' → avail (pg_pm s') m → Q None (put s' ks)) →
  wp (physaddr ← kpm pm_alloc;
      if physaddr =? 0 then E
      else kpg (map (page_addr (i + k)) physaddr (link_flags k n));; mret None) Q ks.
Proof.
  intros Hks [Hwf Hl Hnd Hf He Ho Hm] Hi Hk Hin Hav HQ. wp. rewrite Hks.
  apply (pm_alloc_avail_wp _ (S m)); [apply Hwf|done|]. intros f pm' Hfr Hfu Hpm Hav' Hus.
  assert (pg_wf (put pm' s)) as Hwf1 by (by apply (pg_wf_take s pm' f)).
  assert (data_frame s f) as Hdf by (by apply unused_data_frame).
  rewrite (proj2 (Z.eqb_neq _ _)).
  2: { destruct Hdf as [? _]. unfold PAGE_SIZE_BYTES. lia. }
  destruct (kpage_addr (i + k)) as [_ Hp]; [unfold kpage; lia|]. wp.
  apply (map_wp _ _ _ _ m); rewrite ?Hp; [done|apply kpage_slot; unfold kpage; lia|done|].
  intros s' Hwf' Hc' He' _ Hus' Hav''. wp. apply (HQ f); [|done].
  assert (used (pg_pm s0) f = false) as Hf0.
  { destruct (used (pg_pm s0) f) eqn:Hx; [|done]. destruct (mk_frames _ _ Hm f Hx) as [Hm' _]. congruence. }
  assert (∀ g, used (pg_pm s) g = true → used pm' g = true) as Hmono.
  { intros g Hg. rewrite Hus, Hg. apply orb_true_r. }
  split.
  - done.
  - rewrite length_app. simpl. lia.
  - apply NoDup_app. split_and!; [done| |apply NoDup_singleton].
    intros g Hg ->%list_elem_of_singleton. destruct (Hf f Hg) as (_ & _ & Hu & _). congruence.
  - intros g [Hg| ->%list_elem_of_singleton]%elem_of_app.
    + destruct (Hf g Hg) as (Hr & Hu0 & Hu & Hd). destruct (mk_frames _ _ Hus' g (Hmono g Hu)) as [Hu' Hd'].
      split_and!; [lia..|done|done|apply (Hd' Hd)].
    + destruct (mk_frames _ _ Hus' f) as [Hu' Hd']; [simpl; rewrite Hus; by rewrite bool_decide_eq_true_2|].
      split_and!; [lia..|done|done|apply (Hd' Hdf)].
  - intros j g Hj. assert (kpage (i + Z.of_nat j)) as Hkp.
    { apply lookup_lt_Some in Hj. rewrite length_app in Hj. simpl in Hj. unfold kpage. lia. }
    rewrite He' by (by apply kpage_slot). apply lookup_app_Some in Hj as [Hj|[Hge Hj]].
    + apply lookup_lt_Some in Hj as Hlt. rewrite decide_False by lia. by apply He.
    + apply list_lookup_singleton_Some in Hj as [Hz <-]. rewrite decide_True by lia. do 2 f_equal; lia.
  - intros x Hx Hnx. rewrite He', decide_False by (done || lia). apply Ho; [done|lia].
  - etransitivity; [exact Hm|]. etransitivity; [by apply (take_kept s pm')|done].
Qed.

(** ** [kmalloc] and [kfree] *)

Definition kfits (s : paging) (n i : Z) : Prop :=
  0xc0000 <= i ∧ i + n <= 1023 * 1024 ∧ ∀ j, 0 <= j < n → free_page s (i + j).

(** The allocator of the boot phase: no heap yet, nobody inside of it. *)
Record kready (s : kmem) : Prop := {
  kr_wf : pg_wf (km_pg s);
  kr_heap : heap_base (km_heap s) = 0;
  kr_lock : page_lock s = false;
}.

Lemma relock_put s (p : paging) : page_lock s = false → set_page_lock false (put p (set_page_lock true s)) = put p s.
Proof. destruct s; simpl; intros ->; done. Qed.

Lemma page_acquire_wp (Q : unit → kmem → Prop) s :
  page_lock s = false → Q tt (set_page_lock true s) → wp page_acquire Q s.
Proof. intros Hl HQ. unfold page_acquire. wp. by rewrite Hl. Qed.

Lemma kmap_run_wp ks s0 i n r E (Q : option Z → kmem → Prop) :
  km_pg ks = s0 → pg_wf s0 → 0xc0000 <= i → 0 <= n → i + n <= 1023 * 1024 →
  avail (pg_pm s0) (2 * Z.to_nat n + r) →
  (∀ fs s', kmapped s0 i n n fs s' → avail (pg_pm s') r → Q None (put s' ks)) →
  wp (for_loop 0 n (λ j,
        physaddr ← kpm pm_alloc;
        if physaddr =? 0 then E
        else kpg (map (page_addr (i + j)) physaddr (link_flags j n));; mret None)) Q ks.
Proof.
  intros Hks Hwf Hi Hn Hin Hav HQ.
  apply (wp_for (λ k ks', ∃ fs s', ks' = put s' ks ∧ kmapped s0 i n k fs s' ∧
    avail (pg_pm s') (2 * Z.to_nat (n - k) + r))); [done| | |].
  - exists [], s0. split_and!; [subst; by destruct ks| |by rewrite Z.sub_0_r].
    split; try done; [by apply NoDup_nil|intros f Hf; by apply elem_of_nil in Hf].
  - intros k ? Hk (fs & s' & -> & Hmp & Hav').
    apply (kmap_page_wp s0 s' _ i n k fs (2 * Z.to_nat (n - (k + 1)) + r)); try done.
    + eapply avail_le; [|done]. lia.
    + intros f s'' Hmp' Hav''. exists (fs ++ [f]), s''. split_and!; [by destruct ks|done|done].
  - intros ? (fs & s' & -> & Hmp & Hav'). apply (HQ fs); [done|]. by rewrite Z.sub_diag in Hav'.
Qed.

(** With frames for [r] more pages and tables, they are still there afterwards. *)
Lemma kmalloc_avail_wp s n r (Q : Z → kmem → Prop) :
  kready s → 1 <= n → (∃ i, kfits (km_pg s) n i) →
  avail (pg_pm (km_pg s)) (2 * Z.to_nat n + r) →
  (∀ i fs p, kfits (km_pg s) n i → (∀ k, kfits (km_pg s) n k → i <= k) →
     kmapped (km_pg s) i n n fs p → avail (pg_pm p) r → Q (i * 4096) (put p s)) →
  wp (kmalloc n) Q s.
Proof.
  intros [Hwf Hh Hl] Hn (i0 & Hi0 & Hm0 & Hf0) Hav HQ. unfold kmalloc. wp. rewrite Hh. simpl. wp.
  apply page_acquire_wp; [done|].
  change (Z.shiftr 0xc0000000 12) with 0xc0000. change (Z.shiftl 1 22) with 0x400000.
  apply (wp_loop (λ i s', s' = set_page_lock true s ∧ 0xc0000 <= i <= i0 ∧ ∀ k, kfits (km_pg s) n k → i <= k)
           (λ i _, i0 - i)).
  - split_and!; [done|lia|lia|]. by intros k [? _].
  - unfold fuel32. change (Z.pos (2 ^ 32)) with (2 ^ 32). lia.
  - intros i ? (_ & ? & _). lia.
  - intros i ? (-> & Hi & Hmin). rewrite (proj2 (Z.ltb_lt i 0x400000)) by lia. wp.
    apply run_taken_wp; [done|lia..| |].
    + intros Hfree. wp. apply (kmap_run_wp _ (km_pg s) _ _ r); [done|done|lia..|done|].
      intros fs p Hmp Hav'. cbn beta iota. unfold page_release. wp. rewrite relock_put by done.
      rewrite page_addr_eq by lia. apply (HQ i fs p); [split_and!; [lia..|done]|done|done|done].
    + intros j Hj Hnf. wp. rewrite u32_id by (unfold is_u32; lia).
      assert (i ≠ i0). { intros ->. apply Hnf, Hf0. lia. }
      split; [|lia]. split_and!; [done|lia..|]. intros k Hk. pose proof (Hmin k Hk).
      destruct (decide (k = i)) as [->|]; [|lia]. destruct Hk as (_ & _ & Hk). by destruct Hnf; apply Hk.
Qed.

Lemma kmalloc_wp s n (Q : Z → kmem → Prop) :
  kready s → 1 <= n → (∃ i, kfits (km_pg s) n i) →
  avail (pg_pm (km_pg s)) (2 * Z.to_nat n) →
  (∀ i fs p, kfits (km_pg s) n i → (∀ k, kfits (km_pg s) n k → i <= k) →
     kmapped (km_pg s) i n n fs p → Q (i * 4096) (put p s)) →
  wp (kmalloc n) Q s.
Proof.
  intros Hr Hn Hfit Hav HQ. apply (kmalloc_avail_wp s n 0); [done|done|done|by rewrite Nat.add_0_r|].
  intros i fs p Hi Hmin Hm _. by apply (HQ i fs p).
Qed.

(** Behind the lowest run the pages of a longer one are still free. *)
Lemma kfits_after s0 n m i0 i fs s :
  kfits s0 (n + m) i0 → 1 <= n → 0 <= m → kfits s0 n i → (∀ k, kfits s0 n k → i <= k) → kmapped s0 i n n fs s →
  kfits s m (i0 + n).
Proof.
  intros (H0 & Hend & Hfree) Hn Hm _ Hmin Hk.
  assert (i <= i0) as Hle by (apply Hmin; split_and!; [lia|lia|]; intros j Hj; apply Hfree; lia).
  split_and!; [lia|lia|]. intros j Hj. unfold free_page.
  rewrite (kp_other _ _ _ _ _ _ Hk); [|apply kpage_slot; unfold kpage; lia|lia].
  specialize (Hfree (n + j) ltac:(lia)). unfold free_page in Hfree. by rewrite Z.add_assoc in Hfree.
Qed.

Lemma kblock_entry s i n fs m :
  kblock s i n fs → i <= m < i + n →
  ∃ f, fs !! Z.to_nat (m - i) = Some f ∧ f ∈ fs ∧
    entry s m = Z.lor (f * PAGE_SIZE_BYTES) (link_flags (m - i) n).
Proof.
  intros [Hl _ _ He] Hm. destruct (fs !! Z.to_nat (m - i)) as [f|] eqn:Hf.
  - exists f. split_and!; [done|by eapply list_elem_of_lookup_2|].
    pose proof (He _ _ Hf) as H. rewrite Z2Nat.id in H by lia. by replace (i + (m - i)) with m in H by lia.
  - apply lookup_ge_None in Hf. lia.
Qed.

(** What the two readers return for a page of a run. *)
Lemma frame_flags f j n :
  0 <= f < frames → 0 <= j < n → n < 2 ^ 32 →
  let e := Z.lor (f * PAGE_SIZE_BYTES) (link_flags j n) in
  Z.land e 0xfff = link_flags j n ∧ Z.land e 0xfffff000 = f * PAGE_SIZE_BYTES ∧
  is_u32 (f * PAGE_SIZE_BYTES).
Proof.
  intros Hf Hj Hn e. destruct (frame_pde f Hf) as (_ & _ & _ & _ & Hu & Hm).
  destruct (link_flags_bits j n Hj Hn) as (Hr & _).
  split_and!; [|by apply land_page_flags|done]. apply land_flags_page; [apply Hu|done..].
Qed.

(** One round of the loop of [kfree]: the page is unmapped and its frame free. *)
Lemma kfree_page_wp {A} ks m f j n (K : Z → M kmem A) (Q : A → kmem → Prop) :
  pg_wf (km_pg ks) → kpage m → 0 <= j < n → n < 2 ^ 32 → 0 <= f < frames → data_frame (km_pg ks) f →
  entry (km_pg ks) m = Z.lor (f * PAGE_SIZE_BYTES) (link_flags j n) →
  (∀ p, pg_wf p → data_kept (km_pg ks) p →
     (∀ k, 0 < k / 1024 < 1023 → entry p k = if decide (k = m) then 0 else entry (km_pg ks) k) →
     (∀ g, used (pg_pm p) g = negb (bool_decide (f = g)) && used (pg_pm (km_pg ks)) g) →
     wp (K (link_flags j n)) Q (put p ks)) →
  wp (flags ← kpg (get_pflags (m * 4096));
      paddr ← kpg (get_paddr (m * 4096));
      kpg (unmap (m * 4096));;
      kpm (pm_free paddr);;
      K flags) Q ks.
Proof.
  intros Hwf Hm Hj Hn Hf Hd He HQ. pose proof (kpage_slot m Hm) as Hs.
  destruct (frame_flags f j n Hf Hj Hn) as (Hfl & Hpa & Hu32).
  assert (m * 4096 / 4096 = m) as Hdiv by (by apply Z.div_mul).
  wp. apply get_pflags_wp; rewrite ?Hdiv; [done..|]. rewrite He, Hfl. wp. simpl.
  apply get_paddr_wp; rewrite ?Hdiv; [done..|]. rewrite He, Hpa. wp. simpl.
  apply unmap_wp; rewrite ?Hdiv; [done..|]. intros p Hwfp _ Hpm Hep Hdp. wp. simpl.
  apply pm_free_wp; [apply Hwfp|done|]. wp. rewrite Hpm.
  assert (f * PAGE_SIZE_BYTES / PAGE_SIZE_BYTES = f) as -> by (by apply Z.div_mul).
  set (pm' := set_first_free _ _).
  assert (∀ g, used pm' g = negb (bool_decide (f = g)) && used (pg_pm p) g) as Hus
    by (intros g; rewrite Hpm; apply used_unmark).
  refine (HQ (put pm' p) _ _ _ _).
  - apply (pg_wf_release p pm' f); [done| |by apply Hdp|done].
    pose proof (wf_first _ (pgw_pm _ Hwf)). unfold frames in Hf.
    assert (0 <= f / 8 < mmap_count) by (split; [apply Z.div_pos|apply Z.div_lt_upper_bound]; lia).
    apply set_first_free_wf; [lia|]. apply unmark_wf, Hwf.
  - exact Hdp.
  - exact Hep.
  - intros g. rewrite <- Hpm. apply Hus.
Qed.

(** The state of [kfree] when the pages before [m] are done. *)
Record kfreed (s0 : paging) (i : Z) (fs : list Z) (m : Z) (s : paging) : Prop := {
  kd_wf : pg_wf s;
  kd_data : data_kept s0 s;
  kd_entry k : 0 < k / 1024 < 1023 → entry s k = if decide (i <= k < m) then 0 else entry s0 k;
  kd_used g : used (pg_pm s) g = negb (bool_decide (g ∈ take (Z.to_nat (m - i)) fs)) && used (pg_pm s0) g;
}.

Lemma kfreed_start s0 i fs : pg_wf s0 → kfreed s0 i fs i s0.
Proof.
  intros Hwf. split; try done.
  - intros k Hk. rewrite decide_False by lia. done.
  - intros g. rewrite Z.sub_diag. by rewrite bool_decide_eq_false_2 by apply not_elem_of_nil.
Qed.

Lemma kfreed_step s0 i n fs m f s p :
  kblock s0 i n fs → i <= m < i + n → fs !! Z.to_nat (m - i) = Some f → kfreed s0 i fs m s →
  pg_wf p → data_kept s p →
  (∀ k, 0 < k / 1024 < 1023 → entry p k = if decide (k = m) then 0 else entry s k) →
  (∀ g, used (pg_pm p) g = negb (bool_decide (f = g)) && used (pg_pm s) g) →
  kfreed s0 i fs (m + 1) p.
Proof.
  intros Hb Hm Hf [_ Hd He Hu] Hwf Hdp Hep Hup. split; [done|by etransitivity| |].
  - intros k Hk. rewrite Hep, He by done. repeat case_decide; done || lia.
  - intros g. rewrite Hup, Hu. replace (Z.to_nat (m + 1 - i)) with (S (Z.to_nat (m - i))) by lia.
    rewrite (take_S_r _ _ f) by done. rewrite andb_assoc. f_equal.
    rewrite <- negb_orb. f_equal. rewrite <- bool_decide_or. apply bool_decide_ext.
    rewrite elem_of_app, list_elem_of_singleton. naive_solver.
Qed.

(** A run at a place where [kmalloc] puts them. *)
Record kplaced (s : paging) (i n : Z) (fs : list Z) : Prop := {
  kl_wf : pg_wf s;
  kl_block : kblock s i n fs;
  kl_n : 1 <= n;
  kl_i : 0xc0000 <= i;
  kl_end : i + n <= 1023 * 1024;
}.

Lemma kplaced_flags s i n fs m :
  kplaced s i n fs → i <= m < i + n → Z.land (entry s m) 0xfff = link_flags (m - i) n.
Proof.
  intros [_ Hb ? ? ?] Hm. destruct (kblock_entry _ _ _ _ m Hb Hm) as (f & _ & Hin & ->).
  destruct (kb_frame _ _ _ _ Hb f Hin) as (Hf & _). apply frame_flags; [done|lia..].
Qed.

Lemma kfree_head_wp ks i n fs m0 (Q : Z → kmem → Prop) :
  kplaced (km_pg ks) i n fs → i <= m0 < i + n → Q (i * 4096) ks → wp (kfree_head (m0 * 4096)) Q ks.
Proof.
  intros Hp Hm0 HQ. destruct Hp as [Hwf ? ? ? ?] eqn:He. clear He.
  apply (wp_loop (λ addr s', s' = ks ∧ ∃ m, addr = m * 4096 ∧ i <= m < i + n)
           (λ addr _, addr / 4096 - i)).
  - split; [done|]. by exists m0.
  - rewrite Z.div_mul by done. unfold fuel32. change (Z.pos (2 ^ 32)) with (2 ^ 32). lia.
  - intros addr ? (_ & m & -> & Hm). rewrite Z.div_mul by done. lia.
  - intros addr ? (-> & m & -> & Hm). rewrite wp_bind. rewrite <- (Z.add_0_r (m * 4096)) at 1.
    apply kget_pflags_wp; [done|unfold kpage; lia|lia|].
    rewrite (kplaced_flags _ i n fs) by done.
    destruct (link_flags_bits (m - i) n) as (_ & _ & Hlast & _); [lia..|]. rewrite Hlast.
    destruct (Z.eqb_spec (m - i) 0) as [Hz|Hz]; wp; [by replace m with i by lia|].
    rewrite u32_id by (unfold is_u32; lia). replace (m * 4096 - 0x1000) with ((m - 1) * 4096) by lia.
    rewrite !Z.div_mul by done. split; [split; [done|]; exists (m - 1); split; [done|lia]|lia].
Qed.

Lemma kfree_pages_wp ks i n fs (Q : unit → kmem → Prop) :
  kplaced (km_pg ks) i n fs →
  (∀ p, kfreed (km_pg ks) i fs (i + n) p → Q tt (put p ks)) →
  wp (kfree_pages (i * 4096)) Q ks.
Proof.
  intros [Hwf Hb Hn Hi Hin] HQ.
  apply (wp_loop (λ addr s', ∃ m p, addr = m * 4096 ∧ i <= m < i + n ∧
    s' = put p ks ∧ kfreed (km_pg ks) i fs m p) (λ addr _, i + n - addr / 4096)).
  - exists i, (km_pg ks). split_and!; [done|lia..|by destruct ks|by apply kfreed_start].
  - rewrite Z.div_mul by done. unfold fuel32. change (Z.pos (2 ^ 32)) with (2 ^ 32). lia.
  - intros addr ? (m & p & -> & Hm & _). rewrite Z.div_mul by done. lia.
  - intros addr ? (m & p & -> & Hm & -> & Hfd).
    destruct (kblock_entry _ _ _ _ m Hb Hm) as (f & Hlk & Hf & He).
    destruct (kb_frame _ _ _ _ Hb f Hf) as (Hfr & _ & Hd).
    apply (kfree_page_wp _ m f (m - i) n); [apply Hfd|unfold kpage; lia|lia|lia|done|by apply Hfd| |].
    { cbn [km_pg put kmem_paging]. rewrite (kd_entry _ _ _ _ _ Hfd) by (apply kpage_slot; unfold kpage; lia).
      rewrite decide_False by lia. done. }
    intros p' Hwf' Hd' He' Hu'.
    assert (kfreed (km_pg ks) i fs (m + 1) p') as Hfd' by (by apply (kfreed_step _ _ n _ m f p)).
    destruct (link_flags_bits (m - i) n) as (_ & _ & _ & Hnext & _); [lia..|]. rewrite Hnext.
    destruct (Z.eqb_spec (m - i) (n - 1)) as [Hz|Hz]; wp.
    + replace (i + n) with (m + 1) in HQ by lia. by apply HQ.
    + rewrite u32_id by (unfold is_u32; lia). replace (m * 4096 + 0x1000) with ((m + 1) * 4096) by lia.
      rewrite !Z.div_mul by done. split; [|lia]. exists (m + 1), p'. split_and!; [done|lia..|by destruct ks|done].
Qed.

Lemma kfree_wp ks i n fs a (Q : Z → kmem → Prop) :
  kready ks → kplaced (km_pg ks) i n fs → i * 4096 <= a < (i + n) * 4096 →
  (∀ p, kfreed (km_pg ks) i fs (i + n) p → Q 0 (put p ks)) →
  wp (kfree a) Q ks.
Proof.
  intros [Hwf Hh Hl] Hp Ha HQ. pose proof Hp as [_ _ Hn Hi Hin]. set (m0 := a / 4096).
  assert (i <= m0 < i + n) as Hm0
    by (unfold m0; split; [apply Z.div_le_lower_bound|apply Z.div_lt_upper_bound]; lia).
  pose proof (Z.mod_pos_bound a 4096 ltac:(lia)) as Ho.
  assert (a = m0 * 4096 + a mod 4096) as Hsplit by (unfold m0; pose proof (Z.div_mod a 4096 ltac:(lia)); lia).
  unfold kfree. wp. rewrite Hh. simpl. rewrite wp_bind.
  rewrite land_page by (unfold is_u32; lia). fold m0.
  rewrite Hsplit at 1. apply kget_pflags_wp; [done|unfold kpage; lia|done|].
  rewrite (kplaced_flags _ i n fs) by done.
  destruct (link_flags_bits (m0 - i) n) as (_ & _ & _ & _ & Hne); [lia..|].
  rewrite (proj2 (Z.eqb_neq _ _) Hne). wp. apply page_acquire_wp; [done|]. wp.
  apply (kfree_head_wp _ i n fs); [done..|]. wp. apply (kfree_pages_wp _ i n fs); [done|].
  intros p Hfd. unfold page_release. wp. rewrite relock_put by done. by apply HQ.
Qed.

(** ** Properties *)

Lemma kmapped_placed s0 i n fs s :
  kmapped s0 i n n fs s → 1 <= n → 0xc0000 <= i → i + n <= 1023 * 1024 → kplaced s i n fs.
Proof. intros Hm. split; [apply Hm|by eapply kmapped_block|done..]. Qed.

(** The hardware reaches the frames of a run. *)
Lemma kblock_walk s i n fs j f o :
  kplaced s i n fs → fs !! j = Some f → 0 <= o < 4096 →
  walk s ((i + Z.of_nat j) * 4096 + o) = Some (f * PAGE_SIZE_BYTES + o).
Proof.
  intros [Hwf Hb Hn Hi Hin] Hj Ho. pose proof (kb_len _ _ _ _ Hb). apply lookup_lt_Some in Hj as Hlt.
  destruct (kb_frame _ _ _ _ Hb f) as (Hf & _ & _); [by eapply list_elem_of_lookup_2|].
  destruct (link_flags_bits (Z.of_nat j) n) as (_ & Hp & _); [lia..|].
  assert (0 < (i + Z.of_nat j) / 1024 < 1023) as Hs by (apply kpage_slot; unfold kpage; lia).
  rewrite walk_entry by (done || by apply Hwf). rewrite (kb_entry _ _ _ _ Hb j f Hj).
  destruct (frame_flags f (Z.of_nat j) n) as (_ & -> & _); [done|lia..|].
  rewrite Z.lor_spec, Hp. by rewrite orb_true_r.
Qed.

(** C2: [kmalloc] before the heap exists.  With a free run of [n] pages in the
    kernel half and frames for it and its tables, the call returns the lowest
    such run; each of its pages is backed by a frame of its own that was free
    and is now in use, every byte of the run reaches that frame, no other page
    is translated differently, and the allocator is ready for the next call. *)
Theorem kmalloc_maps_fresh_run s n :
  kready s → 1 <= n → (∃ i, kfits (km_pg s) n i) →
  avail (pg_pm (km_pg s)) (2 * Z.to_nat n) →
  ∃ i fs s', kmalloc n s = Ok (i * 4096, s') ∧ kready s' ∧ km_heap s' = km_heap s ∧
    kfits (km_pg s) n i ∧ (∀ k, kfits (km_pg s) n k → i <= k) ∧
    Z.of_nat (length fs) = n ∧ NoDup fs ∧
    (∀ f, f ∈ fs → used (pg_pm (km_pg s)) f = false ∧ used (pg_pm (km_pg s')) f = true) ∧
    (∀ j f o, fs !! j = Some f → 0 <= o < 4096 →
       walk (km_pg s') ((i + Z.of_nat j) * 4096 + o) = Some (f * PAGE_SIZE_BYTES + o)) ∧
    ∀ w, 0 < w / 4096 / 1024 < 1023 → ¬ (i <= w / 4096 < i + n) →
      walk (km_pg s') w = walk (km_pg s) w.
Proof.
  intros Hr Hn Hfit Hav.
  destruct (proj1 (wp_ok (kmalloc n) (λ a s', ∃ i fs p, a = i * 4096 ∧ s' = put p s ∧
    kfits (km_pg s) n i ∧ (∀ k, kfits (km_pg s) n k → i <= k) ∧ kmapped (km_pg s) i n n fs p) s))
    as (? & ? & Hrun & i & fs & p & -> & -> & Hi & Hmin & Hm).
  { apply kmalloc_wp; [done..|]. intros i fs p Hi Hmin Hm. by exists i, fs, p. }
  exists i, fs, (put p s). destruct Hr as [Hwf Hh Hl]. pose proof Hi as (Hi1 & Hi2 & Hi3).
  split; [done|]. split; [by split; [apply Hm| |]|]. do 3 (split; [done|]). split; [apply (kp_len _ _ _ _ _ _ Hm)|].
  split; [apply (kp_nodup _ _ _ _ _ _ Hm)|]. split_and!.
  - intros f Hf. by destruct (kp_frame _ _ _ _ _ _ Hm f Hf) as (_ & ? & ? & _).
  - intros j f o. apply (kblock_walk p i n fs). by eapply kmapped_placed.
  - intros w Hw Hne. apply walk_ext; [done|apply Hm|done|]. by apply (kp_other _ _ _ _ _ _ Hm).
Qed.

Definition km_example : kmem := KMem pg_example (Heap ∅ 0 0 0 false) false.

Lemma km_example_ready : kready km_example.
Proof. split; [apply pg_example_wf|done|done]. Defined.
Lemma km_example_fits : kfits (km_pg km_example) 2 0xc0000.
Proof.
  split_and!; [lia|lia|]. intros j Hj. unfold free_page, entry. change (km_pg km_example) with pg_example.
  rewrite pg_example_pde; [done|]. apply kpage_slot. unfold kpage. lia.
Defined.
Lemma km_example_avail : avail (pg_pm (km_pg km_example)) (2 * Z.to_nat 2).
Proof.
  exists [17; 18; 19; 20]. split_and!; [|done|by_computation].
  apply (bool_decide_unpack (NoDup [17; 18; 19; 20])). by vm_compute.
Defined.

Lemma km_example_run : ∃ s1, kmalloc 2 km_example = Ok (0xc0000000, s1).
Proof.
  destruct (proj1 (wp_ok (kmalloc 2) (λ a _, a = 0xc0000000) km_example)) as (a & s1 & Hrun & ->);
    [|by exists s1].
  apply kmalloc_wp; [exact km_example_ready|lia|exact (ex_intro _ 0xc0000 km_example_fits)|exact km_example_avail|].
  intros i fs p [Hi _] Hmin _. pose proof (Hmin 0xc0000 km_example_fits). lia.
Qed.

Lemma kmalloc_maps_fresh_run_witness :
  ∃ i s', kmalloc 2 km_example = Ok (i * 4096, s') ∧ i = 0xc0000 ∧ kready s'.
Proof.
  destruct (kmalloc_maps_fresh_run km_example 2 km_example_ready)
    as (i & fs & s' & Hrun & Hr & _ & (Hi & _) & Hmin & _);
    [lia|exact (ex_intro _ 0xc0000 km_example_fits)|exact km_example_avail|].
  exists i, s'. pose proof (Hmin 0xc0000 km_example_fits).
  split; [exact Hrun|]. split; [lia|exact Hr].
Defined.

(** After a run is gone the hardware sees what it saw before the run was made. *)
Lemma kfreed_walk s p p2 i n fs w :
  pg_wf s → (∀ j, 0 <= j < n → free_page s (i + j)) → kmapped s i n n fs p →
  kfreed p i fs (i + n) p2 → 0 < w / 4096 / 1024 < 1023 → walk p2 w = walk s w.
Proof.
  intros Hwf Hfree Hm Hfd Hw. destruct (decide (i <= w / 4096 < i + n)) as [Hin|Hout].
  - pose proof (Z.mod_pos_bound w 4096 ltac:(lia)). rewrite (Z.div_mod w 4096), Z.mul_comm by lia.
    rewrite (walk_entry _ _ _ Hw) by (lia || by apply (kd_wf _ _ _ _ _ Hfd)).
    rewrite (walk_entry s _ _ Hw) by (lia || by apply Hwf).
    rewrite (kd_entry _ _ _ _ _ Hfd), decide_True by done.
    pose proof (Hfree (w / 4096 - i) ltac:(lia)) as Hfp. unfold free_page in Hfp.
    replace (i + (w / 4096 - i)) with (w / 4096) in Hfp by lia.
    apply (f_equal (λ x, Z.testbit x 0)) in Hfp. rewrite Z.land_spec in Hfp.
    change (Z.testbit 0xfff 0) with true in Hfp. rewrite andb_true_r, Z.bits_0 in Hfp. by rewrite Hfp.
  - apply walk_ext; [done|apply Hfd|done|]. rewrite (kd_entry _ _ _ _ _ Hfd), decide_False by done.
    by apply (kp_other _ _ _ _ _ _ Hm).
Qed.

Lemma kfreed_frame p p2 i n fs w pa :
  kplaced p i n fs → kfreed p i fs (i + n) p2 → i * 4096 <= w < i * 4096 + n * 4096 →
  walk p w = Some pa → used (pg_pm p2) (pa / PAGE_SIZE_BYTES) = false.
Proof.
  intros Hp Hfd Hw Hwalk.
  assert (i <= w / 4096 < i + n) as Hin
    by (split; [apply Z.div_le_lower_bound|apply Z.div_lt_upper_bound]; lia).
  destruct (kblock_entry _ _ _ _ _ (kl_block _ _ _ _ Hp) Hin) as (f & Hlk & Hf & _).
  pose proof (Z.mod_pos_bound w 4096 ltac:(lia)) as Ho.
  pose proof (kblock_walk _ _ _ _ _ _ _ Hp Hlk Ho) as Hwk. rewrite Z2Nat.id in Hwk by lia.
  replace ((i + (w / 4096 - i)) * 4096 + w mod 4096) with w in Hwk
    by (pose proof (Z.div_mod w 4096 ltac:(lia)); lia).
  rewrite Hwk in Hwalk. injection Hwalk as <-. unfold PAGE_SIZE_BYTES. rewrite page_of by done.
  rewrite (kd_used _ _ _ _ _ Hfd), bool_decide_eq_true_2; [done|]. rewrite take_ge; [done|].
  pose proof (kb_len _ _ _ _ (kl_block _ _ _ _ Hp)). lia.
Qed.

(** C25: [kfree] undoes [kmalloc].  Called with any address inside of the run,
    it returns, every page above the boot-time 4 MiB is translated as it was
    before the allocation, and every frame the run used is free again (only the
    page tables stay). *)
Theorem kmalloc_kfree_roundtrip s n a s1 b :
  kready s → 1 <= n → (∃ i, kfits (km_pg s) n i) → avail (pg_pm (km_pg s)) (2 * Z.to_nat n) →
  kmalloc n s = Ok (a, s1) → a <= b < a + n * 4096 →
  ∃ s2, kfree b s1 = Ok (0, s2) ∧ kready s2 ∧
    (∀ w, 0 < w / 4096 / 1024 < 1023 → walk (km_pg s2) w = walk (km_pg s) w) ∧
    ∀ w p, a <= w < a + n * 4096 → walk (km_pg s1) w = Some p →
      used (pg_pm (km_pg s2)) (p / PAGE_SIZE_BYTES) = false.
Proof.
  intros Hr Hn Hfit Hav Hrun Hb.
  pose proof (kmalloc_wp s n (λ a s', ∃ i fs p, a = i * 4096 ∧ s' = put p s ∧
    kfits (km_pg s) n i ∧ kmapped (km_pg s) i n n fs p) Hr Hn Hfit Hav) as Hwp.
  rewrite (wp_run _ _ _ _ _ Hrun) in Hwp.
  destruct Hwp as (i & fs & p & -> & -> & (Hi1 & Hi2 & Hfree) & Hm).
  { intros i fs p Hi _ Hm. by exists i, fs, p. }
  assert (kplaced p i n fs) as Hp by (by eapply kmapped_placed).
  assert (kready (put p s)) as Hr1 by (destruct Hr; split; [apply Hm|done|done]).
  destruct (proj1 (wp_ok (kfree b) (λ r s', r = 0 ∧ ∃ p2, s' = put p2 (put p s) ∧ kfreed p i fs (i + n) p2) _)
    (kfree_wp (put p s) i n fs b _ Hr1 Hp ltac:(lia)
      (λ p2 H, conj eq_refl (ex_intro _ p2 (conj eq_refl H)))))
    as (? & ? & Hrun2 & -> & p2 & -> & Hfd).
  exists (put p2 (put p s)). split_and!; [done|destruct Hr; split; [apply Hfd|done|done]| |].
  - intros w Hw. by apply (kfreed_walk (km_pg s) p p2 i n fs); [apply Hr|..].
  - intros w pa Hw Hwalk. by apply (kfreed_frame p p2 i n fs w).
Qed.

Lemma kmalloc_kfree_roundtrip_witness :
  ∃ s1 s2, kmalloc 2 km_example = Ok (0xc0000000, s1) ∧ kfree 0xc0001234 s1 = Ok (0, s2) ∧ kready s2.
Proof.
  destruct km_example_run as (s1 & Hrun).
  destruct (kmalloc_kfree_roundtrip km_example 2 0xc0000000 s1 0xc0001234 km_example_ready)
    as (s2 & Hf & Hr & _);
    [lia|exact (ex_intro _ 0xc0000 km_example_fits)|exact km_example_avail|exact Hrun|by_computation|].
  exists s1, s2. exact (conj Hrun (conj Hf Hr)).
Defined.

Lemma get_pflags_page0 s :
  pg_wf s → pde s 0 = 0x83 → get_pflags 0 s = Ok (Z.land (phys s !0 0) 0xfff, s).
Proof.
  intros Hwf H0. apply wp_pure. unfold get_pflags. rewrite wp_bind.
  change (pd_index_of 0) with 0. change (pt_index_of 0) with 0.
  apply pd_read_wp; [apply Hwf|lia|]. rewrite H0. simpl. wp.
  apply (vread32_wp _ (pte_addr s 0 0)).
  - apply walk_pt; [apply Hwf|lia|lia|]. by rewrite H0.
  - unfold pte_addr. by rewrite H0.
Qed.

(** The error path of [kmalloc] releases the wrong address.  With no frame
    left it calls [kfree] on the page number shifted by 22 instead of 12, which
    for the first kernel page is address 0; that address has nonzero flags as
    soon as the first word of memory (the divide-error vector) has, and then
    [kfree] waits for [page_lock], which [kmalloc] holds. *)
Theorem kmalloc_exhausted_deadlocks s n :
  kready s → 1 <= n → kfits (km_pg s) n 0xc0000 →
  (∀ f, 0 <= f < frames → used (pg_pm (km_pg s)) f = true) →
  pde (km_pg s) 0 = 0x83 → Z.land (phys (km_pg s) !0 0) 0xfff ≠ 0 →
  kmalloc n s = Err Deadlock.
Proof.
  intros [Hwf Hh Hl] Hn (Hi & Hin & Hfree) Hall H0 Hivt. set (s1 := set_page_lock true s).
  assert (run_taken 0xc0000 n s1 = Ok (None, s1)) as Hrun.
  { apply wp_pure. apply run_taken_wp; [done|lia|lia|lia|done|].
    intros j Hj Hnf. by destruct Hnf; apply Hfree. }
  assert (kpm pm_alloc s1 = Ok (0, s1)) as Halloc.
  { apply wp_pure. wp. eapply wp_mono; [apply pm_alloc_wp, Hwf|].
    intros a pm' [(-> & -> & _)|(f & Hf & Hu & _)]; [by destruct s as [[] ? ?]|].
    pose proof (wf_first _ (pgw_pm _ Hwf)). change (km_pg s1) with (km_pg s) in *. rewrite Hall in Hu; [done|lia]. }
  assert (kfree 0 s1 = Err Deadlock) as Hkf.
  { unfold kfree. rewrite (bind_ok _ _ s1 0 s1) by (unfold gets; by simpl; rewrite Hh). simpl.
    rewrite (bind_ok _ _ s1 (Z.land (phys (km_pg s) !0 0) 0xfff) s1).
    - by rewrite (proj2 (Z.eqb_neq _ _) Hivt).
    - apply wp_pure. wp. rewrite (wp_run _ _ _ _ _ (get_pflags_page0 _ Hwf H0)). by destruct s. }
  unfold kmalloc. rewrite (bind_ok _ _ s 0 s) by (unfold gets; by rewrite Hh). simpl.
  rewrite (bind_ok _ _ s tt s1) by (unfold page_acquire, bind, gets; by rewrite Hl).
  apply loop_fault. change (Z.shiftr 0xc0000000 12) with 0xc0000. simpl.
  rewrite (bind_ok _ _ s1 _ s1 Hrun). apply bind_err. apply for_loop_fault; [lia|].
  rewrite (bind_ok _ _ s1 _ s1 Halloc). simpl. by apply bind_err.
Qed.

(** The boot state with an interrupt vector in word 0 and every frame taken. *)
Definition pg_vector : paging :=
  Paging (pg_pm pg_example) (<[0 := 0xf000ff53]> (phys pg_example)) 0x10000.
Definition km_full : kmem :=
  KMem (Paging pm_full (phys pg_vector) (cr3 pg_vector)) (Heap ∅ 0 0 0 false) false.

Lemma pg_vector_pde i : 0 <= i < 1024 → pde pg_vector i = pde pg_example i.
Proof. intros Hi. unfold pde, pg_vector. cbn [phys cr3]. by rewrite zget_insert_ne by lia. Qed.
Lemma pg_vector_wf : pg_wf pg_vector.
Proof.
  destruct pg_example_wf as [Hpm Hrec Hu Hp H0 Hc Ht Hn Hinj].
  assert (∀ i, 0 < i < 1023 → pde pg_vector i = 0) as Hz
    by (intros i Hi; rewrite pg_vector_pde by lia; by apply pg_example_pde).
  split; [done| | | |done|done|..]; try (intros i; intros; exfalso;
    match goal with H : _ ≠ _ |- _ => by rewrite Hz in H end).
  - apply (rec_ok_ext pg_example); [done|by apply pg_vector_pde|done].
  - intros i Hi. rewrite pg_vector_pde by done. by apply Hu.
  - intros i Hi. left. by apply Hz.
Qed.

Lemma pg_vector_word0 p : Z.land (phys (Paging p (phys pg_vector) (cr3 pg_vector)) !0 0) 0xfff ≠ 0.
Proof. cbn [phys]. by_computation. Qed.

Lemma km_full_fits : kfits (km_pg km_full) 2 0xc0000.
Proof.
  split_and!; [lia|lia|]. intros j Hj. unfold free_page, entry.
  assert (0 < (0xc0000 + j) / 1024 < 1023) by (apply kpage_slot; unfold kpage; lia).
  unfold km_full. cbn [km_pg]. rewrite pde_other_pm, pg_vector_pde, pg_example_pde by lia. done.
Qed.

Lemma kmalloc_exhausted_deadlocks_witness : kmalloc 2 km_full = Err Deadlock.
Proof.
  apply (kmalloc_exhausted_deadlocks km_full 2).
  - split; [exact (pg_wf_full _ _ pg_vector_wf pm_full_wf pm_full_used)|reflexivity|reflexivity].
  - lia.
  - exact km_full_fits.
  - exact pm_full_used.
  - exact (pde_other_pm pg_vector pm_full 0).
  - exact (pg_vector_word0 pm_full).
Defined.
