(* ===== verification/KBytes.v ===== *)
(** * Bytes of kernel memory (src/src/kernel/arch_i386/memory.c, system/string.c)

    What a byte read or written through the page tables does to the frames: the layer
    between the tables and everything that copies data through virtual addresses. *)
From S2P Require Import Prelude PhysMem Paging Heap Kmalloc.

Definition kread_bytes (p n : Z) : M kmem (list Z) :=
  r ← fora_loop (R := unit) 0 n (λ i bs, b ← kread8 (u32 (p + i)); mret (inl (bs ++ [b]))) [];
  mret (match r with inl bs => bs | inr _ => [] end).
Definition kwrite_bytes (p : Z) (bs : list Z) : M kmem unit :=
  for_all 0 (Z.of_nat (length bs)) (λ i, kwrite8 (u32 (p + i)) (nth (Z.to_nat i) bs 0)).
(** [memclr] on a virtual address. *)
Definition kclear (p n : Z) : M kmem unit := for_all 0 n (λ i, kwrite8 (u32 (p + i)) 0).

(** ** Bytes behind frames *)

(** Byte [o] of frame [f]. *)
Definition fbyte (s : paging) (f o : Z) : Z :=
  u8 (Z.shiftr (phys s !0 (f * PAGE_SIZE_BYTES + (o - o mod 4))) (8 * (o mod 4))).

(** Only the contents of the frames in [P] have changed. *)
Record data_step (s s' : paging) (P : Z → Prop) : Prop := {
  ds_wf : pg_wf s';
  ds_pm : pg_pm s' = pg_pm s;
  ds_cr3 : cr3 s' = cr3 s;
  ds_pde i : 0 <= i < 1024 → pde s' i = pde s i;
  ds_entry n : 0 < n / 1024 < 1023 → entry s' n = entry s n;
  ds_frame g : data_frame s g → data_frame s' g;
  ds_words g : ¬ P g → same_words s s' g;
}.
Lemma data_step_refl s P : pg_wf s → data_step s s P.
Proof. intros Hwf. by split. Qed.
Lemma data_step_trans s1 s2 s3 P : data_step s1 s2 P → data_step s2 s3 P → data_step s1 s3 P.
Proof.
  intros [Hw1 Hp1 Hc1 Hd1 He1 Hf1 Hs1] [Hw2 Hp2 Hc2 Hd2 He2 Hf2 Hs2]. split; try done; try congruence.
  - intros i Hi. by rewrite Hd2, Hd1.
  - intros n Hn. by rewrite He2, He1.
  - auto.
  - intros g Hg k Hk. by rewrite Hs2, Hs1 by done.
Qed.

Lemma data_step_mono s s' (P P' : Z → Prop) : (∀ g, P g → P' g) → data_step s s' P → data_step s s' P'.
Proof. intros HP [? ? ? ? ? ? Hs]. split; try done. intros g Hg. apply Hs. auto. Qed.

Lemma word_offset o : 0 <= o < 4096 → ∃ k, 0 <= k < 1024 ∧ o - o mod 4 = 4 * k ∧ o / 4 = k.
Proof. intros Ho. exists (o / 4). split_and!; try done; Z.to_euclidean_division_equations; lia. Qed.

Lemma same_words_byte s s' g o : same_words s s' g → 0 <= o < 4096 → fbyte s' g o = fbyte s g o.
Proof. intros Hs Ho. unfold fbyte. destruct (word_offset o Ho) as (k & Hk & -> & _). by rewrite Hs. Qed.

Lemma wr_data s f k x : pg_wf s → data_frame s f → 0 <= k < 1024 → data_step s (wr (f * PAGE_SIZE_BYTES + 4 * k) x s) (eq f).
Proof.
  intros Hwf Hf Hk. set (s' := wr _ x s). pose proof Hf as (_ & Hc & Ht).
  assert ((f * PAGE_SIZE_BYTES) mod 4096 = 0) as Hm by (by apply Z.mod_mul).
  assert (∀ j, 0 <= j < 1024 → pde s' j = pde s j) as Hpde by (intros j Hj; apply pde_wr_page; [apply Hwf|done|done|done|done]).
  split; try done.
  - destruct Hwf. split; try done.
    + eapply rec_ok_ext; [| |done]; [done|]. apply Hpde. lia.
    + intros j Hj. rewrite Hpde by lia. auto.
    + intros j Hj. rewrite Hpde by lia. auto.
    + intros j Hj. rewrite Hpde by lia. auto.
    + intros j Hj. rewrite Hpde by lia. auto.
    + intros i j Hi Hj. rewrite !Hpde by lia. auto.
  - intros n Hn. unfold entry, pte_addr. rewrite Hpde by lia. destruct (Z.eqb_spec (pde s (n / 1024)) 0) as [|Hnz]; [done|].
    unfold s', wr. cbn [phys set_phys]. apply zget_insert_ne. intros He. pose proof (Z.mod_pos_bound n 1024 ltac:(lia)).
    apply page_words in He as [He _]; [by apply (Ht (n / 1024))|done|apply table_of_aligned, Hwf; lia|done|done].
  - intros g. apply data_frame_ext; [done|]. intros j Hj. by rewrite Hpde.
  - intros g Hg j Hj. unfold s', wr. cbn [phys set_phys]. apply zget_insert_ne. intros He.
    apply page_words in He as [He _]; [apply Hg; unfold PAGE_SIZE_BYTES in He; lia|done|by apply Z.mod_mul|done|done].
Qed.

(** Page [n] lies on frame [f]. *)
Record on_frame (s : paging) (n f fl : Z) : Prop := {
  of_slot : 0 < n / 1024 < 1023;
  of_entry : entry s n = Z.lor (f * PAGE_SIZE_BYTES) fl;
  of_present : Z.testbit fl 0 = true;
  of_flags : 0 <= fl < 4096;
  of_frame : 0 <= f < frames ∧ used (pg_pm s) f = true ∧ data_frame s f;
}.
Lemma on_frame_walk s n f fl o : pg_wf s → on_frame s n f fl → 0 <= o < 4096 → walk s (n * 4096 + o) = Some (f * PAGE_SIZE_BYTES + o).
Proof.
  intros Hwf [Hs He Hp Hfl (Hf & _)] Ho. rewrite walk_entry, He by (done || by apply Hwf).
  rewrite Z.lor_spec, Hp, orb_true_r. f_equal. f_equal. unfold frames, mmap_count, PAGE_SIZE_BYTES in *.
  apply land_page_flags; [unfold is_u32; lia|by apply Z.mod_mul|done].
Qed.
Lemma data_step_on_frame s s' P n g fl : data_step s s' P → on_frame s n g fl → on_frame s' n g fl.
Proof.
  intros Hst [Hs He Hp Hfl (Hf & Hu & Hd)]. split; try done; [by rewrite (ds_entry _ _ _ Hst)|].
  split_and!; [lia..| |by apply (ds_frame _ _ _ Hst)]. by rewrite (ds_pm _ _ _ Hst).
Qed.

Lemma page_byte v : ∃ n o, v = n * 4096 + o ∧ 0 <= o < 4096 ∧ n = v / 4096 ∧ o = v mod 4096.
Proof. exists (v / 4096), (v mod 4096). split_and!; try done; Z.to_euclidean_division_equations; lia. Qed.

Lemma align_in_page n o : 0 <= o < 4096 → n * 4096 + o - (n * 4096 + o) mod 4 = n * 4096 + (o - o mod 4) ∧ (n * 4096 + o) mod 4 = o mod 4.
Proof. intros Ho. split; Z.to_euclidean_division_equations; lia. Qed.

Lemma kread8_wp s n f fl o (Q : Z → kmem → Prop) :
  pg_wf (km_pg s) → on_frame (km_pg s) n f fl → 0 <= o < 4096 → Q (fbyte (km_pg s) f o) s → wp (kread8 (n * 4096 + o)) Q s.
Proof.
  intros Hwf Hn Ho HQ. unfold kread8, kread32. destruct (align_in_page n o Ho) as [-> ->]. wp.
  apply (vread32_wp _ (f * PAGE_SIZE_BYTES + (o - o mod 4))).
  - apply (on_frame_walk _ _ _ fl); [done..|]. Z.to_euclidean_division_equations; lia.
  - wp. by destruct s.
Qed.

(** Replacing byte [j] of a word. *)
Lemma word_with_byte w x j i :
  0 <= j < 4 → 0 <= i < 4 → is_u8 x →
  u8 (Z.shiftr (Z.lor (Z.land w (Z.lnot (Z.shiftl 0xff (8 * j)))) (Z.shiftl (u8 x) (8 * j))) (8 * i)) =
    if decide (i = j) then x else u8 (Z.shiftr w (8 * i)).
Proof.
  intros Hj Hi Hx. rewrite (u8_id x) by done. change 0xff with (Z.ones 8). apply Z.bits_inj'. intros k Hk.
  rewrite testbit_u8 by done. autorewrite with bits.
  assert (Z.testbit x k = bool_decide (k < 8) && Z.testbit x k) as Hxk by (rewrite <- (u8_id x Hx) at 1; by rewrite testbit_u8).
  destruct (decide (i = j)) as [->|Hne].
  - replace (k + 8 * j - 8 * j) with k by lia. rewrite Hxk. case_bool_decide; [|done]. cbn [andb].
    rewrite Z.ones_spec_low by lia. cbn [negb]. by rewrite andb_false_r.
  - rewrite testbit_u8 by done. autorewrite with bits. case_bool_decide; [|done]. cbn [andb].
    assert (k + 8 * i - 8 * j < 0 ∨ 8 <= k + 8 * i - 8 * j) as [Hlo|Hhi] by lia.
    + rewrite (Z.testbit_neg_r (Z.ones 8)), (Z.testbit_neg_r x) by done. cbn [negb]. by rewrite andb_true_r, orb_false_r.
    + rewrite Z.ones_spec_high by lia. assert (Z.testbit x (k + 8 * i - 8 * j) = false) as ->.
      { rewrite <- (u8_id x Hx), testbit_u8 by lia. rewrite bool_decide_eq_false_2 by lia. done. }
      cbn [negb]. by rewrite andb_true_r, orb_false_r.
Qed.

Lemma kwrite8_wp s n f fl o x (Q : unit → kmem → Prop) :
  pg_wf (km_pg s) → on_frame (km_pg s) n f fl → 0 <= o < 4096 → is_u8 x →
  (∀ p, data_step (km_pg s) p (eq f) → (∀ i, 0 <= i < 4096 → fbyte p f i = if decide (i = o) then x else fbyte (km_pg s) f i) → Q tt (put p s)) →
  wp (kwrite8 (n * 4096 + o) x) Q s.
Proof.
  intros Hwf Hn Ho Hx HQ. unfold kwrite8, kread32, kwrite32. destruct (align_in_page n o Ho) as [-> ->].
  destruct (word_offset o Ho) as (k & Hk & E & Ek). rewrite E.
  assert (walk (km_pg s) (n * 4096 + 4 * k) = Some (f * PAGE_SIZE_BYTES + 4 * k)) as Hw by (apply (on_frame_walk _ _ _ fl); [done..|lia]).
  wp. apply (vread32_wp _ _ _ _ Hw). wp. cbn [view put kmem_paging km_pg].
  apply (vwrite32_wp _ _ _ _ _ Hw). set (w := phys (km_pg s) !0 _). set (w' := Z.lor _ _).
  change (Q tt (put (wr (f * PAGE_SIZE_BYTES + 4 * k) w' (km_pg s)) s)).
  apply HQ; [by apply wr_data; [|apply Hn|]|]. intros i Hi. unfold fbyte, wr. cbn [phys set_phys]. rewrite zget_insert.
  destruct (word_offset i Hi) as (k' & Hk' & E' & Ek'). rewrite E'. destruct (decide (k = k')) as [<-|Hne].
  - rewrite decide_True by done. unfold w'. rewrite word_with_byte; [|apply Z.mod_pos_bound; lia..|done].
    destruct (decide (i = o)) as [->|Hio]; [by rewrite decide_True|]. rewrite decide_False by lia. done.
  - rewrite decide_False by lia. rewrite decide_False; [done|]. intros ->. lia.
Qed.

(** ** Words *)

(** A word of a page that lies on frame [f]. *)
Definition kword (p : paging) (f o : Z) : Z := phys p !0 (f * PAGE_SIZE_BYTES + o).
Lemma kread32_wp s f a o (Q : Z → kmem → Prop) :
  walk (km_pg s) a = Some (f * PAGE_SIZE_BYTES + o) → Q (kword (km_pg s) f o) s → wp (kread32 a) Q s.
Proof. intros Hw HQ. unfold kread32. wp. apply (vread32_wp _ _ _ _ Hw). wp. by destruct s. Qed.
Lemma kwrite32_wp s f a o x (Q : unit → kmem → Prop) :
  walk (km_pg s) a = Some (f * PAGE_SIZE_BYTES + o) → Q tt (put (wr (f * PAGE_SIZE_BYTES + o) x (km_pg s)) s) → wp (kwrite32 a x) Q s.
Proof. intros Hw HQ. unfold kwrite32. wp. by apply (vwrite32_wp _ _ _ _ _ Hw). Qed.

(** A bitmap with the same frames in use. *)
Lemma pg_wf_same_used s pm' : pg_wf s → pm_wf pm' → (∀ g, used pm' g = used (pg_pm s) g) → pg_wf (put pm' s).
Proof.
  intros [Hpm Hrec Hu Hp H0 Hc Ht Hn Hinj] Hpm' He. split; try done.
  - by apply (rec_ok_ext s).
  - cbn. by rewrite He.
  - cbn. by rewrite He.
  - intros i Hi Hnz. cbn. rewrite He. by apply Ht.
Qed.

(** ** Ranges of bytes over several pages *)

(** Pages with their frames and flags; no two pages share a frame. *)
Notation page_map := (gmap Z (Z * Z)).
Record placed (s : paging) (A : page_map) : Prop := {
  pl_on n f fl : A !! n = Some (f, fl) → on_frame s n f fl;
  pl_inj n n' f fl fl' : A !! n = Some (f, fl) → A !! n' = Some (f, fl') → n = n';
}.
Definition frame_in (A : page_map) (f : Z) : Prop := ∃ n fl, A !! n = Some (f, fl).
Definition covered (A : page_map) (lo hi : Z) : Prop := ∀ v, lo <= v < hi → is_Some (A !! (v / 4096)).

(** The bytes of all pages of [A], as a function of the virtual address. *)
Definition bytes_are (s : paging) (A : page_map) (c : Z → Z) : Prop :=
  ∀ n f fl o, A !! n = Some (f, fl) → 0 <= o < 4096 → fbyte s f o = c (n * 4096 + o).

Lemma placed_step s s' P A : placed s A → data_step s s' P → placed s' A.
Proof. intros [Hon Hinj] Hst. split; [|done]. intros n f fl Hn. by eapply data_step_on_frame, Hon. Qed.

Lemma covered_page A lo hi v :
  covered A lo hi → lo <= v < hi → ∃ n o f fl, v = n * 4096 + o ∧ 0 <= o < 4096 ∧ A !! n = Some (f, fl).
Proof.
  intros Hc Hv. destruct (Hc v Hv) as [[f fl] Hn]. destruct (page_byte v) as (n & o & -> & Ho & Hn' & _).
  exists n, o, f, fl. rewrite Hn'. split_and!; try done; lia.
Qed.

Lemma kfill_wp s A lo len (b c : Z → Z) (Q : unit → kmem → Prop) :
  pg_wf (km_pg s) → placed (km_pg s) A → covered A lo (lo + len) → 0 <= lo → 0 <= len → lo + len <= 2 ^ 32 →
  (∀ i, 0 <= i < len → is_u8 (b i)) → bytes_are (km_pg s) A c →
  (∀ p, data_step (km_pg s) p (frame_in A) → placed p A →
     bytes_are p A (λ v, if decide (lo <= v < lo + len) then b (v - lo) else c v) → Q tt (put p s)) →
  wp (for_all 0 len (λ i, kwrite8 (u32 (lo + i)) (b i))) Q s.
Proof.
  intros Hwf HA Hcov Hlo Hlen Hmax Hb Hc HQ.
  apply (wp_for_all (λ i s', ∃ p, s' = put p s ∧ data_step (km_pg s) p (frame_in A) ∧
    bytes_are p A (λ v, if decide (lo <= v < lo + i) then b (v - lo) else c v))); [done| | |].
  - exists (km_pg s). split_and!; [by destruct s|by apply data_step_refl|]. intros n f fl o Hn Ho. rewrite decide_False by lia. by apply (Hc n f fl).
  - intros i ? Hi (p & -> & Hst & Hbytes). rewrite u32_id by (unfold is_u32; lia).
    destruct (covered_page A lo (lo + len) (lo + i)) as (n & o & f & fl & Hv & Ho & Hn); [done|lia|]. rewrite Hv.
    pose proof (placed_step _ _ _ _ HA Hst) as Hp. pose proof (pl_on _ _ Hp n f fl Hn) as Hon.
    apply (kwrite8_wp _ n f fl); [apply Hst|done|done|by apply Hb|]. intros p' Hst' Hb'. exists p'. split_and!; [by destruct s| |].
    + apply (data_step_trans _ p); [done|]. apply (data_step_mono _ _ (eq f)); [|done]. intros g <-. by exists n, fl.
    + intros n' f' fl' o' Hn' Ho'. destruct (decide (f' = f)) as [->|Hne].
      * assert (n' = n) as -> by (by apply (pl_inj _ _ HA n' n f fl' fl)). rewrite Hb' by done.
        destruct (decide (o' = o)) as [->|Hoo].
        -- rewrite decide_True by lia. f_equal. lia.
        -- rewrite (Hbytes n f fl') by done. repeat case_decide; done || lia.
      * rewrite (same_words_byte p) by (try done; apply (ds_words _ _ _ Hst'); congruence). rewrite (Hbytes n' f' fl') by done.
        assert (n' ≠ n) by (intros ->; congruence). repeat case_decide; done || lia.
  - intros ? (p & -> & Hst & Hbytes). apply HQ; [done|by eapply placed_step|done].
Qed.

Lemma kread_bytes_wp s A lo len c (Q : list Z → kmem → Prop) :
  pg_wf (km_pg s) → placed (km_pg s) A → covered A lo (lo + len) → 0 <= lo → 0 <= len → lo + len <= 2 ^ 32 →
  bytes_are (km_pg s) A c → Q ((λ i, c (lo + i)) <$> seqZ 0 len) s → wp (kread_bytes lo len) Q s.
Proof.
  intros Hwf HA Hcov Hlo Hlen Hmax Hc HQ. unfold kread_bytes. rewrite wp_bind.
  apply (wp_fora (λ i bs s', s' = s ∧ bs = (λ i, c (lo + i)) <$> seqZ 0 i)); [done|done| |].
  - intros i bs ? Hi [-> ->]. rewrite wp_bind, u32_id by (unfold is_u32; lia).
    destruct (covered_page A lo (lo + len) (lo + i)) as (n & o & f & fl & Hv & Ho & Hn); [done|lia|]. rewrite Hv.
    apply (kread8_wp _ n f fl); [done|by apply HA|done|]. wp. split; [done|].
    rewrite (Hc n f fl o), <- Hv by done. rewrite (seqZ_app 0 i 1), fmap_app by lia. by rewrite Z.add_0_l.
  - intros bs ? [-> ->]. by wp.
Qed.

(** Bytes that are in pages of one map and not written keep their frames' words. *)
Lemma bytes_are_kept s s' A c : (∀ f, frame_in A f → same_words s s' f) → bytes_are s A c → bytes_are s' A c.
Proof.
  intros Hw Hc n f fl o Hn Ho. rewrite (same_words_byte s) by (try done; apply Hw; by exists n, fl). by apply (Hc n f fl).
Qed.
Lemma placed_kept s s' A :
  placed s A → frames_kept s s' → (∀ n, is_Some (A !! n) → entry s' n = entry s n) →
  placed s' A ∧ ∀ f, frame_in A f → same_words s s' f.
Proof.
  intros [Hon Hinj] Hk He. split.
  - split; [|done]. intros n f fl Hn. destruct (Hon n f fl Hn) as [Hs Hen Hp Hfl (Hf & Hu & Hd)].
    destruct (Hk f Hu) as [Hu' Hd']. split; try done; [by rewrite He|]. split_and!; [lia..|done|by apply Hd'].
  - intros f (n & fl & Hn). destruct (Hon n f fl Hn) as [_ _ _ _ (_ & Hu & Hd)]. by apply Hk.
Qed.
