(* ===== verification/MemInv.v ===== *)
(** * Clients of the kernel's memory (src/src/kernel/arch_i386/memory.c)

    What the users of [kmalloc] and [kfree] rely on, as an invariant of every
    interleaving of their calls: blocks do not overlap, no two bytes of live blocks lie
    on one byte of memory, and a byte read is the byte last written. *)
From stdpp Require Import relations.
From S2P Require Import Prelude PhysMem Paging Heap Kmalloc KBytes.

(** The kernel's memory, with what its users know of it: the blocks they hold (first
    page and number of pages) and the bytes they have written to them. *)
Record client := Client {
  cl_mem : kmem;
  cl_live : gmap Z Z;
  cl_data : gmap Z Z;
}.
Definition boot (s : kmem) : client := Client s ∅ ∅.

Definition in_block (i n v : Z) : Prop := i * 4096 <= v < (i + n) * 4096.
#[export] Instance in_block_dec i n v : Decision (in_block i n v) := _.

(** One call of one user.  Allocations happen while memory lasts: there is a run of free
    pages, and there are frames for its pages and for the tables they may need. *)
Inductive kstep : client → client → Prop :=
  | step_alloc s l d n i s' :
      1 <= n → (∃ i, kfits (km_pg s) n i) → avail (pg_pm (km_pg s)) (2 * Z.to_nat n) →
      kmalloc n s = Ok (i * 4096, s') →
      kstep (Client s l d) (Client s' (<[i := n]> l) d)
  | step_write s l d i n v x s' :
      l !! i = Some n → in_block i n v → is_u8 x →
      kwrite8 v x s = Ok (tt, s') →
      kstep (Client s l d) (Client s' l (<[v := x]> d))
  | step_free s l d i n v r s' :
      l !! i = Some n → in_block i n v →
      kfree v s = Ok (r, s') →
      kstep (Client s l d) (Client s' (delete i l) (filter (λ '(w, _), ¬ in_block i n w) d)).

(** What the users may rely on. *)
Record memory_ok (c : client) : Prop := {
  mo_ready : kready (cl_mem c);
  mo_backed i n v : cl_live c !! i = Some n → in_block i n v →
    ∃ p, walk (km_pg (cl_mem c)) v = Some p ∧ used (pg_pm (km_pg (cl_mem c))) (p / PAGE_SIZE_BYTES) = true;
  mo_apart i n j m v : cl_live c !! i = Some n → cl_live c !! j = Some m → in_block i n v → in_block j m v → i = j;
  mo_unaliased i n j m v w : cl_live c !! i = Some n → cl_live c !! j = Some m → in_block i n v → in_block j m w →
    walk (km_pg (cl_mem c)) v = walk (km_pg (cl_mem c)) w → v = w;
  mo_data v x : cl_data c !! v = Some x → kread8 v (cl_mem c) = Ok (x, cl_mem c);
  mo_write i n v x : cl_live c !! i = Some n → in_block i n v → is_u8 x → ∃ s', kwrite8 v x (cl_mem c) = Ok (tt, s');
  mo_free i n v : cl_live c !! i = Some n → in_block i n v → ∃ s', kfree v (cl_mem c) = Ok (0, s');
}.

(** ** Blocks under changes of memory *)

Lemma kblock_kept s s' i n fs :
  kblock s i n fs → 0xc0000 <= i → i + n <= 1023 * 1024 →
  (∀ f, f ∈ fs → used (pg_pm s') f = true ∧ data_frame s' f) →
  (∀ m, i <= m < i + n → 0 < m / 1024 < 1023 → entry s' m = entry s m) → kblock s' i n fs.
Proof.
  intros [Hl Hnd Hf He] Hi Hn Hk Hent. split; [done|done| |].
  - intros f Hin. destruct (Hf f Hin) as (? & _). destruct (Hk f Hin). done.
  - intros j f Hj. apply lookup_lt_Some in Hj as Hlt. rewrite Hent; [by apply He|lia|].
    apply kpage_slot. unfold kpage. lia.
Qed.

Lemma kplaced_kept s s' i n fs :
  kplaced s i n fs → pg_wf s' → (∀ f, f ∈ fs → used (pg_pm s') f = true ∧ data_frame s' f) →
  (∀ m, i <= m < i + n → 0 < m / 1024 < 1023 → entry s' m = entry s m) → kplaced s' i n fs.
Proof. intros [Hwf Hb Hn Hi He] Hwf' Hk Hent. split; try done. by apply (kblock_kept s). Qed.

Lemma kplaced_on s i n fs j f :
  kplaced s i n fs → fs !! j = Some f → on_frame s (i + Z.of_nat j) f (link_flags (Z.of_nat j) n).
Proof.
  intros [Hwf Hb Hn Hi He] Hj. pose proof (kb_len _ _ _ _ Hb). apply lookup_lt_Some in Hj as Hlt.
  destruct (link_flags_bits (Z.of_nat j) n) as (Hfl & Hp & _); [lia..|].
  split; try done; [apply kpage_slot; unfold kpage; lia|by apply Hb|]. apply Hb. by eapply list_elem_of_lookup_2.
Qed.

(** The page and the frame of an address inside of a block. *)
Lemma block_byte s i n fs v :
  kplaced s i n fs → in_block i n v →
  ∃ j f o, fs !! j = Some f ∧ v = (i + Z.of_nat j) * 4096 + o ∧ 0 <= o < 4096.
Proof.
  intros [_ Hb _ _ _] Hv. unfold in_block in Hv. pose proof (kb_len _ _ _ _ Hb) as Hl.
  assert (i <= v / 4096 < i + n) as Hpg by (clear - Hv; Z.to_euclidean_division_equations; lia).
  destruct (lookup_lt_is_Some_2 fs (Z.to_nat (v / 4096 - i))) as [f Hf]; [lia|].
  exists (Z.to_nat (v / 4096 - i)), f, (v mod 4096). split_and!; [done|..]; clear - Hpg; Z.to_euclidean_division_equations; lia.
Qed.

(** ** The invariant behind the promises *)

(** [B] holds the frames of each block. *)
Record blocks_ok (s : kmem) (B : gmap Z (list Z)) (d : gmap Z Z) : Prop := {
  bo_ready : kready s;
  bo_placed i fs : B !! i = Some fs → kplaced (km_pg s) i (Z.of_nat (length fs)) fs;
  bo_apart i fs j gs v : B !! i = Some fs → B !! j = Some gs →
    in_block i (Z.of_nat (length fs)) v → in_block j (Z.of_nat (length gs)) v → i = j;
  bo_frames i fs j gs f : B !! i = Some fs → B !! j = Some gs → f ∈ fs → f ∈ gs → i = j;
  bo_data v x : d !! v = Some x → ∃ i fs k f o, B !! i = Some fs ∧ fs !! k = Some f ∧
    v = (i + Z.of_nat k) * 4096 + o ∧ 0 <= o < 4096 ∧ fbyte (km_pg s) f o = x;
}.
Definition sizes (B : gmap Z (list Z)) : gmap Z Z := (λ fs, Z.of_nat (length fs)) <$> B.

Lemma sizes_lookup B i n : sizes B !! i = Some n → ∃ fs, B !! i = Some fs ∧ n = Z.of_nat (length fs).
Proof. unfold sizes. rewrite lookup_fmap. destruct (B !! i) as [fs|]; [|done]. intros [= <-]. by exists fs. Qed.

Lemma blocks_memory_ok s B d : blocks_ok s B d → memory_ok (Client s (sizes B) d).
Proof.
  intros [Hr Hp Ha Hf Hd]. split; cbn [cl_mem cl_live cl_data]; try done.
  - intros i n v (fs & Hi & ->)%sizes_lookup Hv. destruct (block_byte _ _ _ _ _ (Hp i fs Hi) Hv) as (j & f & o & Hj & -> & Ho).
    pose proof (kplaced_on _ _ _ _ _ _ (Hp i fs Hi) Hj) as Hon. exists (f * PAGE_SIZE_BYTES + o).
    rewrite (on_frame_walk _ _ f (link_flags (Z.of_nat j) (Z.of_nat (length fs)))) by (done || apply Hr).
    split; [done|]. unfold PAGE_SIZE_BYTES. rewrite page_of by done. apply Hon.
  - intros i n j m v (fs & Hi & ->)%sizes_lookup (gs & Hj & ->)%sizes_lookup. by apply Ha.
  - intros i n j m v w (fs & Hi & ->)%sizes_lookup (gs & Hj & ->)%sizes_lookup Hv Hw.
    destruct (block_byte _ _ _ _ _ (Hp i fs Hi) Hv) as (k & f & o & Hk & -> & Ho).
    destruct (block_byte _ _ _ _ _ (Hp j gs Hj) Hw) as (k' & f' & o' & Hk' & -> & Ho').
    rewrite (kblock_walk _ _ _ _ _ _ _ (Hp i fs Hi) Hk Ho), (kblock_walk _ _ _ _ _ _ _ (Hp j gs Hj) Hk' Ho').
    intros [= He]. unfold PAGE_SIZE_BYTES in He. assert (f = f' ∧ o = o') as [-> ->] by lia.
    assert (i = j) as -> by (eapply Hf; [exact Hi|exact Hj|by eapply list_elem_of_lookup_2..]).
    rewrite Hi in Hj. injection Hj as ->. do 3 f_equal. f_equal.
    eapply NoDup_lookup; [apply (kb_nodup _ _ _ _ (kl_block _ _ _ _ (Hp j gs Hi)))|done|done].
  - intros v x (i & fs & k & f & o & Hi & Hk & -> & Ho & <-)%Hd. apply wp_pure.
    eapply kread8_wp; [apply Hr|by eapply kplaced_on, Hk; apply Hp|done|done].
  - intros i n v x (fs & Hi & ->)%sizes_lookup Hv Hx. destruct (block_byte _ _ _ _ _ (Hp i fs Hi) Hv) as (k & f & o & Hk & -> & Ho).
    destruct (wp_unit (kwrite8 ((i + Z.of_nat k) * 4096 + o) x) (λ _, True) s) as (s' & Hrun & _); [|by exists s'].
    eapply kwrite8_wp; [apply Hr|by eapply kplaced_on, Hk; apply Hp|done|done|done].
  - intros i n v (fs & Hi & ->)%sizes_lookup Hv.
    destruct (proj1 (wp_ok (kfree v) (λ r _, r = 0) s)) as (r & s' & Hrun & ->); [|by exists s'].
    by apply (kfree_wp s i (Z.of_nat (length fs)) fs); [|apply Hp|..].
Qed.

(** ** The three calls keep it *)

(** A block and the bytes in it survive what keeps its frames and its entries. *)
Lemma blocks_kept s s' B d :
  blocks_ok s B d → kready s' →
  (∀ i fs f, B !! i = Some fs → f ∈ fs →
     used (pg_pm (km_pg s')) f = true ∧ data_frame (km_pg s') f ∧ same_words (km_pg s) (km_pg s') f) →
  (∀ i fs m, B !! i = Some fs → i <= m < i + Z.of_nat (length fs) → 0 < m / 1024 < 1023 →
     entry (km_pg s') m = entry (km_pg s) m) → blocks_ok s' B d.
Proof.
  intros [Hr Hp Ha Hf Hd] Hr' Hk He. split; try done.
  - intros i fs Hi. apply (kplaced_kept (km_pg s)); [by apply Hp|apply Hr'|intros f Hin|intros m; by apply (He i fs)].
    by destruct (Hk i fs f Hi Hin) as (? & ? & _).
  - intros v x (i & fs & k & f & o & Hi & Hj & Hv & Ho & Hx)%Hd. exists i, fs, k, f, o. split_and!; try done; try lia.
    rewrite <- Hx. apply same_words_byte; [|done]. apply (Hk i fs); [done|]. by eapply list_elem_of_lookup_2.
Qed.

Lemma blocks_entry_used s B d i fs m :
  blocks_ok s B d → B !! i = Some fs → i <= m < i + Z.of_nat (length fs) → ¬ free_page (km_pg s) m.
Proof.
  intros Hb Hi Hm. pose proof (bo_placed _ _ _ Hb i fs Hi) as Hp. pose proof Hp as [_ _ ? ? ?].
  unfold free_page. rewrite (kplaced_flags _ _ _ _ _ Hp Hm). apply link_flags_bits; lia.
Qed.
Lemma blocks_frame s B d i fs f :
  blocks_ok s B d → B !! i = Some fs → f ∈ fs → used (pg_pm (km_pg s)) f = true ∧ data_frame (km_pg s) f.
Proof. intros Hb Hi Hin. by destruct (kb_frame _ _ _ _ (kl_block _ _ _ _ (bo_placed _ _ _ Hb i fs Hi)) f Hin) as (_ & ?). Qed.

Lemma blocks_alloc s B d i fs p :
  blocks_ok s B d → 1 <= Z.of_nat (length fs) → kfits (km_pg s) (Z.of_nat (length fs)) i →
  kmapped (km_pg s) i (Z.of_nat (length fs)) (Z.of_nat (length fs)) fs p →
  B !! i = None ∧ blocks_ok (put p s) (<[i := fs]> B) d.
Proof.
  intros Hb Hn (Hi & Hin & Hfree) Hm. set (n := Z.of_nat (length fs)) in *.
  assert (∀ j gs v, B !! j = Some gs → in_block j (Z.of_nat (length gs)) v → ¬ in_block i n v) as Hapart.
  { intros j gs v Hj Hv Hv'. apply (blocks_entry_used s B d j gs (v / 4096) Hb Hj).
    - unfold in_block in Hv. clear - Hv. Z.to_euclidean_division_equations; lia.
    - replace (v / 4096) with (i + (v / 4096 - i)) by lia. apply Hfree. unfold in_block in Hv'. clear - Hv'.
      Z.to_euclidean_division_equations; lia. }
  assert (B !! i = None) as HNone.
  { destruct (B !! i) as [gs|] eqn:Hx; [|done]. pose proof (kl_n _ _ _ _ (bo_placed _ _ _ Hb i gs Hx)).
    destruct (Hapart i gs (i * 4096) Hx); unfold in_block; lia. }
  assert (blocks_ok (put p s) B d) as Hold.
  { apply (blocks_kept s); [done|destruct (bo_ready _ _ _ Hb); by split; [apply Hm|..]|..].
    - intros j gs f Hj Hf. destruct (blocks_frame _ _ _ _ _ _ Hb Hj Hf) as [Hu Hd].
      destruct (mk_frames _ _ (kp_kept _ _ _ _ _ _ Hm) f Hu) as [Hu' Hd']. split; [done|by apply Hd'].
    - intros j gs m Hj Hmj Hs. apply (kp_other _ _ _ _ _ _ Hm); [done|]. intros Hmi.
      apply (Hapart j gs (m * 4096) Hj); unfold in_block; lia. }
  assert (∀ j gs f, B !! j = Some gs → f ∈ gs → f ∉ fs) as Hfresh.
  { intros j gs f Hj Hg Hf. destruct (kp_frame _ _ _ _ _ _ Hm f Hf) as (_ & Hu & _).
    destruct (blocks_frame _ _ _ _ _ _ Hb Hj Hg) as [Hu' _]. congruence. }
  split; [done|]. destruct Hold as [Hr Hp Ha Hfr Hd]. split; [done| | | |].
  - intros j gs. destruct (decide (i = j)) as [<-|Hne].
    + rewrite lookup_insert_eq. intros [= <-]. by apply (kmapped_placed (km_pg s)).
    + rewrite lookup_insert_ne by done. apply Hp.
  - intros j gs k hs v. rewrite !lookup_insert. destruct (decide (i = j)) as [<-|Hj], (decide (i = k)) as [<-|Hk]; try done.
    + intros [= <-] H1 Hv Hv'. by destruct (Hapart k hs v H1 Hv').
    + intros H1 [= <-] Hv Hv'. by destruct (Hapart j gs v H1 Hv).
    + apply Ha.
  - intros j gs k hs f. rewrite !lookup_insert. destruct (decide (i = j)) as [<-|Hj], (decide (i = k)) as [<-|Hk]; try done.
    + intros [= <-] H1 Hv Hv'. by destruct (Hfresh k hs f H1 Hv').
    + intros H1 [= <-] Hv Hv'. by destruct (Hfresh j gs f H1 Hv).
    + apply Hfr.
  - intros v x (j & gs & k & f & o & Hj & H)%Hd. exists j, gs, k, f, o. split; [|done].
    rewrite lookup_insert_ne; [done|]. congruence.
Qed.

Lemma blocks_write s B d i fs k f o x p :
  blocks_ok s B d → B !! i = Some fs → fs !! k = Some f → 0 <= o < 4096 → data_step (km_pg s) p (eq f) →
  (∀ j, 0 <= j < 4096 → fbyte p f j = if decide (j = o) then x else fbyte (km_pg s) f j) →
  blocks_ok (put p s) B (<[(i + Z.of_nat k) * 4096 + o := x]> d).
Proof.
  intros Hb Hi Hk Ho Hst Hx. destruct Hb as [Hr Hp Ha Hf Hd]. split; try done.
  - destruct Hr. by split; [apply Hst|..].
  - intros j gs Hj. apply (kplaced_kept (km_pg s)); [by apply Hp|apply Hst| |intros; by apply (ds_entry _ _ _ Hst)].
    intros g Hg. cbn [km_pg put kmem_paging]. rewrite (ds_pm _ _ _ Hst).
    destruct (kb_frame _ _ _ _ (kl_block _ _ _ _ (Hp j gs Hj)) g Hg) as (_ & Hu & Hdf). split; [done|by apply (ds_frame _ _ _ Hst)].
  - intros v y. destruct (decide (v = (i + Z.of_nat k) * 4096 + o)) as [->|Hne].
    + rewrite lookup_insert_eq. intros [= <-]. exists i, fs, k, f, o. split_and!; try done; try lia.
      cbn [km_pg put kmem_paging]. by rewrite Hx, decide_True.
    + rewrite lookup_insert_ne by done. intros (j & gs & k' & f' & o' & Hj & Hk' & Hv & Ho' & <-)%Hd.
      exists j, gs, k', f', o'. split_and!; try done; try lia. cbn [km_pg put kmem_paging].
      destruct (decide (f = f')) as [<-|Hff].
      * rewrite Hx by done. rewrite decide_False; [done|]. intros ->. apply Hne.
        assert (i = j) as -> by (eapply Hf; [exact Hi|exact Hj|by eapply list_elem_of_lookup_2..]).
        rewrite Hi in Hj. injection Hj as ->. rewrite Hv. do 4 f_equal.
        eapply NoDup_lookup; [apply (kb_nodup _ _ _ _ (kl_block _ _ _ _ (Hp j gs Hi)))|done|done].
      * apply same_words_byte; [|done]. by apply (ds_words _ _ _ Hst).
Qed.

Lemma blocks_free s B d i fs p :
  blocks_ok s B d → B !! i = Some fs → kfreed (km_pg s) i fs (i + Z.of_nat (length fs)) p →
  blocks_ok (put p s) (delete i B) (filter (λ '(w, _), ¬ in_block i (Z.of_nat (length fs)) w) d).
Proof.
  intros Hb Hi Hfd. set (n := Z.of_nat (length fs)) in *. destruct Hb as [Hr Hp Ha Hf Hd].
  assert (blocks_ok s (delete i B) (filter (λ '(w, _), ¬ in_block i n w) d)) as Hb'.
  { split; [done|..].
    - intros j gs [_ Hj]%lookup_delete_Some. by apply Hp.
    - intros j gs k hs v [_ Hj]%lookup_delete_Some [_ Hk]%lookup_delete_Some. by apply Ha.
    - intros j gs k hs f [_ Hj]%lookup_delete_Some [_ Hk]%lookup_delete_Some. by apply Hf.
    - intros v x [(j & gs & k & f & o & Hj & Hk & Hv & Ho & Hx)%Hd Hn]%map_lookup_filter_Some.
      exists j, gs, k, f, o. split_and!; try done; try lia. rewrite lookup_delete_ne; [done|]. intros <-. apply Hn.
      rewrite Hi in Hj. injection Hj as ->. apply lookup_lt_Some in Hk. unfold in_block, n. lia. }
  apply (blocks_kept s); [done|destruct Hr; by split; [apply Hfd|..]|..].
  - intros j gs f [Hne Hj]%lookup_delete_Some Hg.
    destruct (kb_frame _ _ _ _ (kl_block _ _ _ _ (Hp j gs Hj)) f Hg) as (_ & Hu & Hdf).
    split; [|by apply (kd_data _ _ _ _ _ Hfd)]. cbn [km_pg put kmem_paging].
    rewrite (kd_used _ _ _ _ _ Hfd), bool_decide_eq_false_2; [done|]. intros (k & Hin & _)%elem_of_take.
    apply list_elem_of_lookup_2 in Hin.
    by destruct (Hne (Hf i fs j gs f Hi Hj Hin Hg)).
  - intros j gs m [Hne Hj]%lookup_delete_Some Hm Hs. cbn [km_pg put kmem_paging].
    rewrite (kd_entry _ _ _ _ _ Hfd) by done. rewrite decide_False; [done|]. intros Hmi. apply Hne.
    apply (Ha i fs j gs (m * 4096)); [done|done|unfold in_block; lia..].
Qed.

(** ** Every sequence of calls *)

Lemma kstep_blocks c c' B :
  kstep c c' → cl_live c = sizes B → blocks_ok (cl_mem c) B (cl_data c) →
  ∃ B', cl_live c' = sizes B' ∧ blocks_ok (cl_mem c') B' (cl_data c').
Proof.
  intros [s l d n i s' Hn Hfit Hav Hrun|s l d i n v x s' Hl Hv Hx Hrun|s l d i n v r s' Hl Hv Hrun] Hsz Hb;
    cbn [cl_mem cl_live cl_data] in *; subst l; pose proof (bo_ready _ _ _ Hb) as Hr.
  - pose proof (kmalloc_wp s n (λ a s', ∃ i fs p, a = i * 4096 ∧ s' = put p s ∧ kfits (km_pg s) n i ∧
      kmapped (km_pg s) i n n fs p) Hr Hn Hfit Hav) as Hwp. rewrite (wp_run _ _ _ _ _ Hrun) in Hwp.
    destruct Hwp as (j & fs & p & Hij & -> & Hf & Hm); [intros j fs p Hj _ Hm; by exists j, fs, p|].
    assert (j = i) as -> by lia. pose proof (kp_len _ _ _ _ _ _ Hm). subst n.
    destruct (blocks_alloc s B d i fs p) as [_ Hb']; [done..|]. exists (<[i := fs]> B). split; [|done].
    unfold sizes. by rewrite fmap_insert.
  - apply sizes_lookup in Hl as (fs & Hi & ->). pose proof (bo_placed _ _ _ Hb i fs Hi) as Hp.
    destruct (block_byte _ _ _ _ _ Hp Hv) as (k & f & o & Hk & -> & Ho). exists B. split; [done|].
    pose proof (kwrite8_wp s _ f _ o x (λ _ s', blocks_ok s' B (<[(i + Z.of_nat k) * 4096 + o := x]> d))
      (kr_wf _ Hr) (kplaced_on _ _ _ _ _ _ Hp Hk) Ho Hx) as Hwp.
    rewrite (wp_run _ _ _ _ _ Hrun) in Hwp. apply Hwp. intros p Hst Hby. by apply (blocks_write s B d i fs k f o x p).
  - apply sizes_lookup in Hl as (fs & Hi & ->). pose proof (bo_placed _ _ _ Hb i fs Hi) as Hp.
    exists (delete i B). split; [unfold sizes; by rewrite fmap_delete|].
    pose proof (kfree_wp s i (Z.of_nat (length fs)) fs v (λ _ s', blocks_ok s' (delete i B)
      (filter (λ '(w, _), ¬ in_block i (Z.of_nat (length fs)) w) d)) Hr Hp Hv) as Hwp.
    rewrite (wp_run _ _ _ _ _ Hrun) in Hwp. apply Hwp. intros p. by apply blocks_free.
Qed.

Lemma reachable_blocks c c' B :
  rtc kstep c c' → cl_live c = sizes B → blocks_ok (cl_mem c) B (cl_data c) →
  ∃ B', cl_live c' = sizes B' ∧ blocks_ok (cl_mem c') B' (cl_data c').
Proof.
  intros Hrtc. revert B. induction Hrtc as [c|c1 c2 c3 Hst _ IH]; intros B Hl Hb; [by exists B|].
  destruct (kstep_blocks c1 c2 B Hst Hl Hb) as (B2 & Hl2 & Hb2). by apply (IH B2).
Qed.

Lemma boot_blocks s : kready s → blocks_ok s ∅ ∅.
Proof. intros Hr. by split. Qed.

(** C3: The invariant of kernel memory before the heap exists.  Whatever sequence of
    [kmalloc], [kfree] and writes of bytes the parts of the kernel make, while memory
    lasts: live blocks do not overlap; each of their bytes is backed by memory in use,
    no two of them by the same byte; reading a byte gives what was last written to it,
    by whomever other bytes have been written since and whatever has been allocated and
    freed; writes to live blocks and [kfree] at any address inside of one succeed. *)
Theorem kernel_memory_invariant s c :
  kready s → rtc kstep (boot s) c → memory_ok c.
Proof.
  intros Hr Hrtc. destruct (reachable_blocks (boot s) c ∅ Hrtc) as (B & Hl & Hb); [done|by apply boot_blocks|].
  destruct c as [s' l d]. cbn [cl_mem cl_live cl_data] in *. subst l. by apply blocks_memory_ok.
Qed.

Lemma kernel_memory_invariant_witness :
  ∃ c, rtc kstep (boot km_example) c ∧ cl_data c !! 0xc0000123 = Some 7 ∧
    kread8 0xc0000123 (cl_mem c) = Ok (7, cl_mem c) ∧ ∃ s', kfree 0xc0001000 (cl_mem c) = Ok (0, s').
Proof.
  destruct km_example_run as (s1 & Hrun).
  assert (rtc kstep (boot km_example) (Client s1 {[0xc0000 := 2]} ∅)) as H1.
  { apply rtc_once. apply (step_alloc km_example ∅ ∅ 2 0xc0000 s1);
      [lia|exact (ex_intro _ 0xc0000 km_example_fits)|exact km_example_avail|exact Hrun]. }
  destruct (mo_write _ (kernel_memory_invariant km_example _ km_example_ready H1) 0xc0000 2 0xc0000123 7)
    as (s2 & Hw); [reflexivity|unfold in_block; lia|by_computation|].
  assert (rtc kstep (boot km_example) (Client s2 {[0xc0000 := 2]} (<[0xc0000123 := 7]> ∅))) as H2.
  { eapply rtc_r; [exact H1|]. apply (step_write s1 _ _ 0xc0000 2); [reflexivity|unfold in_block; lia|by_computation|exact Hw]. }
  pose proof (kernel_memory_invariant km_example _ km_example_ready H2) as Hok.
  eexists. split; [exact H2|]. split; [reflexivity|]. split; [apply (mo_data _ Hok); reflexivity|].
  apply (mo_free _ Hok 0xc0000 2); [reflexivity|unfold in_block; cbn; lia].
Defined.
