(* ===== verification/Boot.v ===== *)
(** * Start-up (src/src/kernel/kmain.c, src/src/kernel/arch_i386/memory.c: pm_init)

    What [pm_init] leaves in the bitmap of frames, and that it leaves the memory of the
    kernel as the allocators expect it. *)
From S2P Require Import Prelude PhysMem Paging Heap Kmalloc.

(** ** The firmware's memory map *)

Definition first_frame (e : mmap_entry) : Z := entry_base e / 4096.
Definition entry_pages (e : mmap_entry) : Z := Z.shiftr (entry_length e) 12.
Definition usable (e : mmap_entry) : bool := entry_type e =? BIOS_MMAP_USABLE.

(** The entries are sorted, do not overlap, and end below 4 GiB. *)
Fixpoint mmap_ok (lo : Z) (l : list mmap_entry) : Prop :=
  match l with
  | [] => lo <= 2 ^ 32
  | e :: l => lo <= entry_base e ∧ 0 <= entry_length e ∧ mmap_ok (entry_base e + entry_length e) l
  end.

(** The frames that an entry changes: the bit of a page is looked for in the byte of the
    first one of its group of eight, so an entry that starts inside of a group misses the
    pages that lie in the next byte. *)
Definition touches (e : mmap_entry) (n f : Z) : Prop :=
  first_frame e <= f < first_frame e + n ∧ (f - first_frame e) mod 8 + first_frame e mod 8 < 8.
#[export] Instance touches_dec e n f : Decision (touches e n f).
Proof. unfold touches. apply _. Defined.
Definition frees (e : mmap_entry) (f : Z) : Prop := usable e = true ∧ touches e (entry_pages e) f.
#[export] Instance frees_dec e f : Decision (frees e f).
Proof. unfold frees. apply _. Defined.

Lemma mmap_end lo l : mmap_ok lo l → lo <= 2 ^ 32.
Proof. revert lo. induction l as [|e l IH]; intros lo; [done|]. intros (H1 & H2 & H3%IH). lia. Qed.

(** An aligned entry frees all of its pages. *)
Lemma frees_aligned e f :
  first_frame e mod 8 = 0 → frees e f ↔ usable e = true ∧ first_frame e <= f < first_frame e + entry_pages e.
Proof.
  intros Ha. unfold frees, touches. rewrite Ha. pose proof (Z.mod_pos_bound (f - first_frame e) 8 ltac:(lia)). split; [tauto|].
  intros [? ?]. split_and!; try tauto; lia.
Qed.

(** ** One page, one entry, all entries *)

(** What the start-up keeps of the allocator. *)
Definition bitmap_ok (s : pmem) : Prop := (∀ i, is_u8 (pm_map s !0 i)) ∧ pm_lock s = false ∧ pm_first_free s = 0.

Lemma frame_bit e j g :
  0 <= j → 0 <= entry_base e →
  (g / 8 = Z.shiftr (entry_base e) 15 + Z.shiftr j 3 ∧ g mod 8 = Z.land j 7 + Z.land (Z.shiftr (entry_base e) 12) 7) ↔
  (g = first_frame e + j ∧ (g - first_frame e) mod 8 + first_frame e mod 8 < 8).
Proof.
  intros Hj Hb. change 7 with (Z.ones 3). rewrite !Z.land_ones, !Z.shiftr_div_pow2 by lia. unfold first_frame.
  change (2 ^ 15) with (4096 * 8). change (2 ^ 12) with 4096. change (2 ^ 3) with 8. rewrite <- Z.div_div by lia. set (a := entry_base e / 4096).
  pose proof (Z.div_mod a 8 ltac:(lia)). pose proof (Z.div_mod j 8 ltac:(lia)). pose proof (Z.div_mod g 8 ltac:(lia)).
  pose proof (Z.mod_pos_bound a 8 ltac:(lia)). pose proof (Z.mod_pos_bound j 8 ltac:(lia)). pose proof (Z.mod_pos_bound g 8 ltac:(lia)).
  split.
  - intros [Hq Hr]. assert (g = a + j) as -> by lia. replace (a + j - a) with j by lia. lia.
  - intros [-> Hr]. replace (a + j - a) with j in Hr by lia.
    assert ((a + j) / 8 = a / 8 + j / 8) as Hd by (symmetry; apply (Z.div_unique _ 8 _ (a mod 8 + j mod 8)); lia). split; [done|]. lia.
Qed.

Lemma pm_init_page_wp prev e j s (Q : unit → pmem → Prop) :
  bitmap_ok s → 0 <= entry_base e → 0 <= j < entry_pages e → entry_base e + entry_length e <= 2 ^ 32 →
  (∀ p, prev = Some p → 0 <= entry_base p + entry_length p <= entry_base e) →
  (∀ s', bitmap_ok s' →
     (∀ g, used s' g = if decide (g = first_frame e + j ∧ (g - first_frame e) mod 8 + first_frame e mod 8 < 8) then negb (usable e) else used s g) →
     Q tt s') →
  wp (pm_init_page prev e j) Q s.
Proof.
  intros (Hu8 & Hl & Hff) Hb Hj Hend Hprev HQ. unfold entry_pages in Hj. rewrite Z.shiftr_div_pow2 in Hj by lia. change (2 ^ 12) with 4096 in Hj.
  assert (j * 4096 + 4096 <= entry_length e) as Hlen by (pose proof (Z.mul_div_le (entry_length e) 4096 ltac:(lia)); nia).
  unfold pm_init_page.
  assert (u32 (Z.shiftl j 12) = j * 4096) as -> by (rewrite Z.shiftl_mul_pow2 by lia; apply u32_id; unfold is_u32; lia).
  assert (match prev with Some p => u64 (entry_base e + j * 4096) <? u64 (entry_base p + entry_length p) | None => false end = false) as ->.
  { destruct prev as [p|]; [|done]. specialize (Hprev p eq_refl). apply Z.ltb_ge. unfold u64. rewrite !Z.mod_small by lia. lia. }
  set (byte := Z.shiftr (entry_base e) 15 + Z.shiftr j 3). set (bit := Z.land j 7 + Z.land (Z.shiftr (entry_base e) 12) 7).
  assert (0 <= byte < mmap_count) as Hbyte.
  { unfold byte, mmap_count. rewrite !Z.shiftr_div_pow2 by lia. change (2 ^ 15) with (4096 * 8). change (2 ^ 3) with 8.
    pose proof (Z.mul_div_le (entry_base e) (4096 * 8) ltac:(lia)). pose proof (Z.mul_div_le j 8 ltac:(lia)).
    pose proof (Z.div_pos (entry_base e) (4096 * 8) ltac:(lia) ltac:(lia)). pose proof (Z.div_pos j 8 ltac:(lia) ltac:(lia)). lia. }
  assert (0 <= bit) as Hbit.
  { unfold bit. change 7 with (Z.ones 3). rewrite !Z.land_ones by lia. pose proof (Z.mod_pos_bound j (2 ^ 3) ltac:(lia)).
    pose proof (Z.mod_pos_bound (Z.shiftr (entry_base e) 12) (2 ^ 3) ltac:(lia)). lia. }
  pose proof (λ g, frame_bit e j g (proj1 Hj) Hb) as Hfb. fold byte bit in Hfb.
  assert (∀ x s1, is_u8 x → pm_map s1 = pm_map s → pm_lock s1 = false → pm_first_free s1 = 0 →
    (∀ k, 0 <= k < 8 → Z.testbit x k = if decide (k = bit) then negb (usable e) else Z.testbit (pm_map s !0 byte) k) →
    Q tt (set_pm_map (<[byte := x]> (pm_map s1)) s1)) as Hput.
  { intros x s1 Hx Hm Hl1 Hf1 Hbits. apply HQ.
    - split_and!; [|done|done]. intros i. cbn [pm_map set_pm_map]. rewrite Hm, zget_insert. case_decide; [done|apply Hu8].
    - intros g. rewrite used_set_pm_map, Hm, zget_insert. unfold used. destruct (decide (byte = g / 8)) as [He|He].
      + rewrite Hbits by apply mod8. rewrite He. apply decide_ext. rewrite <- Hfb. split; [by intros ->|tauto].
      + rewrite decide_False; [done|]. rewrite <- Hfb. intros [? _]. congruence. }
  change (entry_type e =? BIOS_MMAP_USABLE) with (usable e). destruct (usable e) eqn:Hus; cbn [negb]; wp.
  - apply pm_read_wp; [done|]. wp. apply pm_write_wp; [done|]. apply Hput; [done|done|done|done|].
    intros k Hk. autorewrite with bits. rewrite (bool_decide_eq_true_2 (k < 8)) by lia. cbn [andb].
    case_bool_decide; case_decide; try congruence; by rewrite ?andb_false_r, ?andb_true_r.
  - apply pm_read_wp; [done|]. wp. apply pm_write_wp; [done|]. apply Hput; [done|done|done|done|].
    intros k Hk. autorewrite with bits. rewrite (bool_decide_eq_true_2 (k < 8)) by lia. cbn [andb pm_map].
    case_bool_decide; case_decide; try congruence; by rewrite ?orb_true_r, ?orb_false_r.
Qed.

Lemma entry_wp prev e s (Q : unit → pmem → Prop) :
  bitmap_ok s → 0 <= entry_base e → 0 <= entry_length e → entry_base e + entry_length e <= 2 ^ 32 →
  (∀ p, prev = Some p → 0 <= entry_base p + entry_length p <= entry_base e) →
  (∀ s', bitmap_ok s' → (∀ g, used s' g = if decide (touches e (entry_pages e) g) then negb (usable e) else used s g) → Q tt s') →
  wp (for_all 0 (Z.shiftr (entry_length e) 12) (pm_init_page prev e)) Q s.
Proof.
  intros Hs Hb Hl Hend Hprev HQ. fold (entry_pages e).
  assert (0 <= entry_pages e) as Hp by (apply Z.shiftr_nonneg; lia).
  apply (wp_for_all (λ k s', bitmap_ok s' ∧ ∀ g, used s' g = if decide (touches e k g) then negb (usable e) else used s g)); [done| | |].
  - split; [done|]. intros g. rewrite decide_False; [done|]. unfold touches. lia.
  - intros j s' Hj [Hs' Hu]. apply pm_init_page_wp; [done|done|lia|done|done|]. intros s'' Hs'' Hu''. split; [done|].
    intros g. rewrite Hu'', Hu. destruct (decide (g = _ ∧ _)) as [Ht|Ht]; [rewrite decide_True by (unfold touches; lia); done|].
    apply decide_ext. unfold touches. split; [lia|]. intros [? ?]. split; [|done]. destruct (decide (g = first_frame e + j)); [by destruct Ht|lia].
  - intros s' [Hs' Hu]. by apply HQ.
Qed.

Definition freed (l : list mmap_entry) (f : Z) : Prop := Exists (λ e, frees e f) l.

Lemma frees_range lo e f : 0 <= lo <= entry_base e → 0 <= entry_length e → frees e f → lo <= f * 4096 ∨ lo / 4096 <= f.
Proof. intros Hlo Hl (_ & [Hf _] & _). right. transitivity (first_frame e); [|done]. apply Z.div_le_mono; lia. Qed.

(** The entries behind the ones that are done. *)
Lemma entries_wp l : ∀ done_ prev lo s (Q : unit → pmem → Prop),
  bitmap_ok s → 0 <= lo → mmap_ok lo l → (∀ p, prev = Some p → entry_base p + entry_length p = lo) →
  (∀ f, freed done_ f → f < lo / 4096) → (∀ f, 0 <= f < frames → used s f = false ↔ freed done_ f) →
  (∀ s', bitmap_ok s' → (∀ f, 0 <= f < frames → used s' f = false ↔ freed (done_ ++ l) f) → Q tt s') →
  wp (pm_init_entries prev l) Q s.
Proof.
  induction l as [|e l IH]; intros done_ prev lo s Q Hs Hlo Hok Hprev Hdone Hu HQ; cbn [pm_init_entries].
  - wp. apply HQ; [done|]. by rewrite app_nil_r.
  - destruct Hok as (Hb & Hl & Hok). pose proof (mmap_end _ _ Hok) as Hend. rewrite wp_bind.
    apply entry_wp; [done|lia|done|done|intros p Hp; rewrite (Hprev p Hp); lia|]. intros s' Hs' Hu'.
    assert (first_frame e + entry_pages e <= (entry_base e + entry_length e) / 4096) as Hlast.
    { unfold first_frame, entry_pages. rewrite Z.shiftr_div_pow2 by lia. change (2 ^ 12) with 4096. apply Z.div_le_lower_bound; [lia|].
      pose proof (Z.mul_div_le (entry_base e) 4096 ltac:(lia)). pose proof (Z.mul_div_le (entry_length e) 4096 ltac:(lia)). lia. }
    assert (0 <= entry_pages e) as Hp0 by (apply Z.shiftr_nonneg; lia).
    assert (lo / 4096 <= first_frame e) as Hfirst by (apply Z.div_le_mono; lia).
    assert (0 <= lo / 4096) as Hlo0 by (apply Z.div_pos; lia).
    assert (∀ f, freed (done_ ++ [e]) f ↔ freed done_ f ∨ frees e f) as Hsnoc by (intros f; unfold freed; by rewrite Exists_app, Exists_cons, Exists_nil; tauto).
    apply (IH (done_ ++ [e]) (Some e) (entry_base e + entry_length e)); [done|lia|done|by intros p [= ->]| | |].
    + intros f [Hf|(_ & [Hf _])]%Hsnoc; [specialize (Hdone f Hf)|]; lia.
    + intros f Hf. rewrite Hsnoc, Hu'. unfold frees. destruct (decide (touches e (entry_pages e) f)) as [Ht|Ht].
      * destruct (usable e) eqn:Hus; cbn [negb]; [tauto|]. split; [done|]. intros [Hd|[? _]]; [|done]. specialize (Hdone f Hd). destruct Ht. lia.
      * rewrite Hu by done. tauto.
    + intros s'' Hs'' Hu''. apply HQ; [done|]. intros f Hf. rewrite Hu'' by done. by rewrite <- app_assoc.
Qed.

(** The bitmap before the first entry: every frame is in use. *)
Definition full_bitmap : gmap Z Z := gset_to_gmap 0xff (list_to_set (seqZ 0 mmap_count)).
Lemma full_bitmap_get i : full_bitmap !0 i = if decide (0 <= i < mmap_count) then 0xff else 0.
Proof.
  unfold zget, full_bitmap. rewrite lookup_gset_to_gmap. case_decide as Hi.
  - rewrite option_guard_True; [done|]. apply elem_of_list_to_set, elem_of_seqZ. lia.
  - rewrite option_guard_False; [done|]. rewrite elem_of_list_to_set, elem_of_seqZ. lia.
Qed.
Lemma full_used p f : pm_map p = full_bitmap → 0 <= f < frames → used p f = true.
Proof.
  intros Hp Hf. unfold used. rewrite Hp, full_bitmap_get. unfold frames in Hf.
  assert (0 <= f / 8 < mmap_count) by (split; [apply Z.div_pos; lia|apply Z.div_lt_upper_bound; lia]). rewrite decide_True by done.
  change 0xff with (Z.ones 8). rewrite Z.ones_spec_low; [done|apply mod8].
Qed.

(** ** The whole start-up of the memory *)

(** The page directory that the boot loader has set up: the recursive slot, and tables
    below 2 MiB, where no frame is given away. *)
Record boot_tables (s : paging) : Prop := {
  bt_rec : rec_ok s;
  bt_u32 i : 0 <= i < 1024 → is_u32 (pde s i);
  bt_pde i : 0 < i < 1023 → pde s i = 0 ∨ is_table (pde s i);
  bt_cr3 : cr3 s / PAGE_SIZE_BYTES < 512;
  bt_low i : 0 < i < 1023 → pde s i ≠ 0 → table_of (pde s i) / PAGE_SIZE_BYTES < 512;
  bt_not_pd i : 0 < i < 1023 → pde s i ≠ 0 → table_of (pde s i) ≠ cr3 s;
  bt_inj i j : 0 < i < 1023 → 0 < j < 1023 → pde s i ≠ 0 → pde s j ≠ 0 → table_of (pde s i) = table_of (pde s j) → i = j;
}.

(** What [pm_init] goes over at the end.  It means the pages of the kernel, but takes the
    word stored at [_start] (the first instructions of the kernel) for an address: [k] is the
    page with that word as its address, [n] the number of pages mapped in one run from there on,
    none when the page [k] is not mapped itself. *)
Record start_run (s : paging) (k n : Z) : Prop := {
  kp_count : 0 <= n;
  kp_range : 1024 <= k ∧ k + n < 1023 * 1024;
  kp_u32 i : 0 <= i < n → is_u32 (entry s (k + i));
  kp_frame i : 0 <= i < n → entry s (k + i) / 4096 ≠ 0;
  kp_end : Z.land (entry s (k + n)) 0xfffff000 = 0;
}.
Definition run_frame (s : paging) (k n f : Z) : Prop := ∃ i, 0 <= i < n ∧ entry s (k + i) / 4096 = f.

Lemma boot_tables_wf s p :
  boot_tables s → pm_wf p → (∀ f, 0 <= f < 512 → used p f = true) → pg_wf (put p s).
Proof.
  intros [Hrec Hu Hp Hc Hl Hn Hi] Hpm Hlow. pose proof (rec_cr3 _ Hrec) as [[Hcr _] _]. split; try done.
  - by apply (rec_ok_ext s).
  - by apply Hlow.
  - apply Hlow. split; [by apply Z.div_pos|done].
  - intros i Hir Hnz. apply Hlow. split; [|by apply Hl]. apply Z.div_pos; [|done]. unfold table_of. apply Z.land_nonneg. right. lia.
Qed.

(** The kernel's memory with the bitmap [p], and nothing else in use. *)
Definition booted (s : kmem) (p : pmem) : kmem :=
  KMem (put p (km_pg s)) (Heap (heap_map (km_heap s)) (heap_map_size (km_heap s)) 0 (heap_first_free (km_heap s)) (heap_lock (km_heap s))) false.

Lemma reserve_low_wp s p (Q : unit → kmem → Prop) :
  pm_wf p →
  (∀ p', pm_wf p' → (∀ f, used p' f = bool_decide (0 <= f < 512) || used p f) → 8 * pm_first_free p' <= 511 → Q tt (booted s p')) →
  wp (for_all 0 512 (λ i,
    kpm (modify (λ s, PMem (pm_map s) (pm_first_free s) (pm_lock s) (u32 (total_memory_unusable s + 1)));;
         pm_reserve (i * 4096)))) Q (booted s p).
Proof.
  intros Hp HQ.
  apply (wp_for_all (λ k s', ∃ p', s' = booted s p' ∧ pm_wf p' ∧ (0 < k → 8 * pm_first_free p' < k) ∧
    ∀ f, used p' f = bool_decide (0 <= f < k) || used p f)); [done| | |].
  - exists p. split_and!; [done|done|lia|]. intros f. by rewrite bool_decide_eq_false_2 by lia.
  - intros k s' Hk (p' & -> & Hp' & _ & Hu). wp. cbn [booted km_pg view put]. wp.
    set (p2 := PMem _ _ _ _). assert (pm_wf p2) as Hp2 by (destruct Hp' as [H1 H2 H3]; by split).
    apply pm_reserve_wp; [done|unfold is_u32; lia|]. eexists. split; [reflexivity|]. assert (k * 4096 / PAGE_SIZE_BYTES = k) as -> by (by apply Z.div_mul). split.
    + apply set_first_free_wf; [|by apply mark_wf]. unfold mmap_count. split; [apply Z.div_pos; lia|apply Z.div_lt_upper_bound; lia].
    + split; [cbn [pm_first_free set_first_free]; pose proof (Z.mul_div_le k 8 ltac:(lia)); lia|].
      intros f. change (used (set_first_free (k / 8) (mark k p2)) f) with (used (mark k p2) f). rewrite used_mark. change (used p2 f) with (used p' f).
      rewrite Hu. repeat case_bool_decide; cbn [orb]; try done; lia.
  - intros s' (p' & -> & Hp' & Hff & Hu). apply HQ; [done|done|lia].
Qed.

(** Where the search for free frames begins: not behind the frames of the run. *)
Definition hint_low (s : paging) (k n : Z) (p : pmem) : Prop :=
  8 * pm_first_free p <= 511 ∨ ∃ f, run_frame s k n f ∧ 8 * pm_first_free p <= f.

Lemma reserve_run_wp s p start n (Q : unit → kmem → Prop) :
  boot_tables (km_pg s) → pm_wf p → (∀ f, 0 <= f < 512 → used p f = true) → 8 * pm_first_free p <= 511 → 0 <= start → start_run (km_pg s) (start / 4096) n →
  (∀ p', pm_wf p' → (∀ f, used p' f = true ↔ used p f = true ∨ run_frame (km_pg s) (start / 4096) n f) →
     hint_low (km_pg s) (start / 4096) n p' → Q tt (booted s p')) →
  wp (loop fuel32 (λ kernel_addr,
    p ← kpg (get_paddr kernel_addr);
    if p =? 0 then mret (inr tt)
    else
      p ← kpg (get_paddr kernel_addr);
      kpm (pm_reserve p);;
      mret (inl (u32 (kernel_addr + 0x1000)))) start) Q (booted s p).
Proof.
  intros Hbt Hp Hlow Hff Hst [Hn [Hk1 Hk2] H32 Hf Hend] HQ. set (k := start / 4096) in *.
  pose proof (Z.div_mod start 4096 ltac:(lia)) as Hdm. pose proof (Z.mod_pos_bound start 4096 ltac:(lia)) as Hmb. fold k in Hdm.
  assert (∀ i, (start + i * 4096) / 4096 = k + i) as Hdiv by (intros i; by rewrite Z.div_add by lia).
  apply (wp_loop (λ a s', ∃ i p', a = start + i * 4096 ∧ 0 <= i <= n ∧ s' = booted s p' ∧ pm_wf p' ∧ hint_low (km_pg s) k n p' ∧
      ∀ f, used p' f = true ↔ used p f = true ∨ run_frame (km_pg s) k i f) (λ a _, start + n * 4096 - a)).
  - exists 0, p. split_and!; try done; try lia; [by left|]. intros f. split; [tauto|]. intros [?|(i & Hi & _)]; [done|lia].
  - unfold fuel32. lia.
  - intros a s' (i & p' & -> & Hi & _). lia.
  - intros a s' (i & p' & -> & Hi & -> & Hp' & Hhint & Hu).
    assert (pg_wf (put p' (km_pg s))) as Hwf by (apply boot_tables_wf; [done|done|]; intros f Hfr; apply Hu; left; by apply Hlow).
    assert (0 < (start + i * 4096) / 4096 / 1024 < 1023) as Hpd.
    { rewrite Hdiv. split; [apply Z.div_str_pos; lia|apply Z.div_lt_upper_bound; lia]. }
    wp. cbn [booted km_pg]. apply get_paddr_wp; [done|done|]. rewrite Hdiv, entry_put. destruct (decide (i = n)) as [->|Hne].
    + rewrite Hend. cbn [Z.eqb]. wp. by apply HQ.
    + assert (0 <= i < n) as Hi' by lia. pose proof (H32 i Hi') as Hu32. rewrite land_page by done. specialize (Hf i Hi').
      assert (0 <= entry (km_pg s) (k + i) / 4096) as Hpos by (apply Z.div_pos; unfold is_u32 in Hu32; lia).
      rewrite (proj2 (Z.eqb_neq _ 0)) by nia. wp. cbn [put kmem_paging km_pg].
      apply get_paddr_wp; [done|done|]. rewrite Hdiv, entry_put, land_page by done. wp.
      pose proof (Z.mul_div_le (entry (km_pg s) (k + i)) 4096 ltac:(lia)) as Hle. unfold is_u32 in Hu32.
      cbn [put kmem_paging km_pg view paging_pmem pg_pm]. apply pm_reserve_wp; [done|unfold is_u32; lia|]. wp.
      assert (entry (km_pg s) (k + i) / 4096 * 4096 / PAGE_SIZE_BYTES = entry (km_pg s) (k + i) / 4096) as -> by (by apply Z.div_mul).
      set (g := entry (km_pg s) (k + i) / 4096) in *. split; [|].
      * exists (i + 1), (set_first_free (g / 8) (mark g p')). rewrite u32_id by (unfold is_u32; lia). split_and!; [lia|lia|lia|done| | |].
        -- apply set_first_free_wf; [|by apply mark_wf]. unfold mmap_count. split; [apply Z.div_pos; lia|apply Z.div_lt_upper_bound; lia].
        -- right. exists g. split; [by exists i|]. cbn [pm_first_free set_first_free]. apply Z.mul_div_le. lia.
        -- intros f. change (used (set_first_free (g / 8) (mark g p')) f) with (used (mark g p') f). rewrite used_mark, orb_true_iff, bool_decide_eq_true, Hu.
           split.
           ++ intros [<-|[?|(j & Hj & Hjf)]]; [right; exists i; split; [lia|done]|by left|right; exists j; split; [lia|done]].
           ++ intros [?|(j & Hj & Hjf)]; [tauto|]. destruct (decide (j = i)) as [->|]; [by left|]. right. right. exists j. split; [lia|done].
      * rewrite u32_id by (unfold is_u32; lia). lia.
Qed.

(** ** The start-up of the memory *)

Lemma full_bitmap_ok : bitmap_ok (PMem full_bitmap 0 false 0).
Proof. split_and!; [|done|done]. intros i. cbn [pm_map]. rewrite full_bitmap_get. by case_decide. Qed.

Lemma pm_init_wp mmap start n s (Q : Z → kmem → Prop) :
  mmap_ok 0 mmap → boot_tables (km_pg s) → 0 <= start → start_run (km_pg s) (start / 4096) n →
  (∀ p, kready (booted s p) → hint_low (km_pg s) (start / 4096) n p →
     (∀ f, 0 <= f < frames → used p f = false ↔ 512 <= f ∧ freed mmap f ∧ ¬ run_frame (km_pg s) (start / 4096) n f) →
     Q 0 (booted s p)) →
  wp (pm_init mmap start) Q s.
Proof.
  intros Hmm Hbt Hst Hk HQ. unfold pm_init.
  assert (gset_to_gmap 0xff (list_to_set (seqZ 0 mmap_count)) = full_bitmap) as -> by (unfold full_bitmap; reflexivity).
  rewrite wp_bind, wp_kpm, wp_modify. rewrite wp_bind, wp_modify. rewrite wp_bind, wp_modify. rewrite wp_bind, wp_kpm.
  cbn [set_page_lock put kmem_paging km_pg km_heap page_lock paging_pmem pg_pm].
  apply (entries_wp mmap [] None 0); [apply full_bitmap_ok|done|done|done|by intros f ?%Exists_nil| |].
  { intros f Hf. rewrite full_used by done. unfold freed. rewrite Exists_nil. done. }
  intros p (Hu8 & Hl & Hff) Hu. cbn [app] in Hu. change (KMem _ _ _) with (booted s p).
  rewrite wp_bind. apply reserve_low_wp.
  { split; [done| |done]. rewrite Hff. done. }
  intros p1 Hp1 Hu1 Hff1. cbv beta. rewrite wp_bind. apply (reserve_run_wp s p1 start n); [done|done| |done|done|done|].
  { intros f Hf. rewrite Hu1, bool_decide_eq_true_2 by lia. done. }
  intros p2 Hp2 Hu2 Hhint. cbv beta. wp. apply HQ; [|exact Hhint|].
  - split; [|done|done]. apply boot_tables_wf; [done|done|]. intros f Hf. apply Hu2. left. rewrite Hu1, bool_decide_eq_true_2 by lia. done.
  - intros f Hf. rewrite <- (Hu f Hf). destruct (used p2 f) eqn:E2.
    + split; [done|]. intros (H1 & H2 & H3). apply Hu2 in E2 as [E|E]; [|done]. rewrite Hu1, H2, bool_decide_eq_false_2 in E by lia. done.
    + split; [intros _|done]. assert (¬ (used p1 f = true ∨ run_frame (km_pg s) (start / 4096) n f)) as Hn.
      { intros Hc. apply Hu2 in Hc. congruence. }
      rewrite Hu1 in Hn. case_bool_decide; [by destruct Hn; left|]. destruct (used p f); [by destruct Hn; left|]. split_and!; [lia|done|tauto].
Qed.

(** C4: [pm_init] (memory.c) run on a firmware map whose entries are sorted, do not overlap
    and end below 4 GiB, with the tables of the boot loader below 2 MiB, returns 0 and leaves
    memory ready for [kmalloc]: the page tables and the bitmap are well formed and no lock is
    held.  The frames that are free afterwards are exactly those from 2 MiB on which a usable
    entry of the map gives, but for the frames of the run of mapped pages, [n] of them and
    perhaps none, that begins at the page of [start].  That is the word stored at the symbol
    [_start], not the address of the symbol: when the page it names is not mapped (as in the
    witness, with the code bytes of entry.s) nothing else is kept, and the frames of the kernel
    above 2 MiB are free as well.  The page tables are not changed. *)
Theorem pm_init_ready mmap start n s :
  mmap_ok 0 mmap → boot_tables (km_pg s) → 0 <= start → start_run (km_pg s) (start / 4096) n →
  ∃ p, pm_init mmap start s = Ok (0, booted s p) ∧ kready (booted s p) ∧
    ∀ f, 0 <= f < frames →
      used p f = false ↔ 512 <= f ∧ freed mmap f ∧ ¬ run_frame (km_pg s) (start / 4096) n f.
Proof.
  intros Hmm Hbt Hst Hk.
  assert (wp (pm_init mmap start) (λ a s', ∃ p, a = 0 ∧ s' = booted s p ∧ kready (booted s p) ∧
    ∀ f, 0 <= f < frames → used p f = false ↔ 512 <= f ∧ freed mmap f ∧ ¬ run_frame (km_pg s) (start / 4096) n f) s) as Hw.
  { apply (pm_init_wp mmap start n); [done..|]. intros p Hr _ Hu. exists p. split_and!; [done|done|exact Hr|exact Hu]. }
  apply wp_ok in Hw as (a & s' & Hr & p & -> & -> & Hrest). exists p. exact (conj Hr Hrest).
Qed.

(** A machine with 64 MiB: the directory and one table of the kernel, whose two pages are
    mapped at 3 GiB. *)
Definition boot_example : kmem :=
  KMem (Paging (PMem ∅ 0 false 0)
          {[0x10000 := 0x83; 0x10000 + 4 * 768 := 0x11003; 0x10000 + 4 * 1023 := 0x10003; 0x11000 := 0x300003; 0x11004 := 0x301003]}
          0x10000)
       (Heap ∅ 0 0 0 false) true.
Definition mmap_example : list mmap_entry :=
  [MmapEntry 0 0x9fc00 1; MmapEntry 0x9fc00 0x400 2; MmapEntry 0x100000 0x3f00000 1].

Lemma boot_example_pde i : 0 < i < 1023 → pde (km_pg boot_example) i = if decide (i = 768) then 0x11003 else 0.
Proof.
  intros Hi. unfold pde, zget, boot_example. cbn [km_pg phys cr3]. rewrite lookup_insert_ne by lia.
  destruct (decide (i = 768)) as [->|Hne]; [done|]. rewrite !lookup_insert_ne by lia. by rewrite lookup_singleton_ne by lia.
Qed.

Lemma boot_example_tables : boot_tables (km_pg boot_example).
Proof.
  assert (∀ i, 0 < i < 1023 → pde (km_pg boot_example) i ≠ 0 → i = 768) as H768 by (intros i Hi; rewrite boot_example_pde by done; by case_decide).
  split.
  - by split; [by_computation|split; [split|]; vm_compute].
  - intros i Hi. unfold pde. apply (zget_Forall is_u32); by_computation.
  - intros i Hi. rewrite boot_example_pde by done. case_decide; [right; by split; vm_compute|by left].
  - done.
  - intros i Hi Hnz. rewrite (H768 i Hi Hnz). by vm_compute.
  - intros i Hi Hnz. rewrite (H768 i Hi Hnz). by vm_compute.
  - intros i j Hi Hj Hnz Hnz' _. by rewrite (H768 i Hi Hnz), (H768 j Hj Hnz').
Defined.

(** The kernel begins with [cld] and [mov esp, stack_top]: the bytes 0xfc, 0xbc and the
    low half of [stack_top], here 0x3000. *)
Definition start_word : Z := 0x3000bcfc.

Lemma boot_example_run : start_run (km_pg boot_example) (start_word / 4096) 0.
Proof. change (start_word / 4096) with 0x3000b. split; [lia|lia|lia|lia|by vm_compute]. Defined.

Lemma mmap_example_frees f : f = 0x2ff ∨ f = 0x300 ∨ f = 0x302 → freed mmap_example f.
Proof. intros Hf. apply Exists_cons_tl, Exists_cons_tl, Exists_cons_hd. by destruct Hf as [->|[->| ->]]; by_computation. Qed.

(** Of the kernel's two pages, the frame 0x300 of the first is free afterwards. *)
Lemma pm_init_ready_witness :
  ∃ p, pm_init mmap_example start_word boot_example = Ok (0, booted boot_example p) ∧ kready (booted boot_example p) ∧
    walk (km_pg boot_example) 0xc0000000 = Some (0x300 * PAGE_SIZE_BYTES) ∧ used p 0x300 = false.
Proof.
  destruct (pm_init_ready mmap_example start_word 0 boot_example) as (p & Hrun & Hready & Hfree).
  - repeat (split; [cbn; lia|]); cbn; lia.
  - apply boot_example_tables.
  - by_computation.
  - apply boot_example_run.
  - exists p. split; [exact Hrun|]. split; [exact Hready|]. split; [vm_compute; reflexivity|].
    apply Hfree; [by_computation|]. split; [lia|]. split; [apply mmap_example_frees; tauto|]. intros (i & Hi & _). lia.
Defined.

(** An entry that begins inside of a group of eight frames loses those of its pages that lie
    in the next group: the frame 0x2a8 of an entry that begins at frame 0x2a3 stays in use. *)
Example unaligned_entry_loses :
  let e := MmapEntry 0x2a3000 0x10000 1 in
  ¬ freed [e] 0x2a8 ∧ first_frame e <= 0x2a8 < first_frame e + entry_pages e.
Proof. split; [|by split; vm_compute]. unfold freed. rewrite Exists_cons, Exists_nil. intros [H|[]]. revert H. by_computation. Qed.
