(* ===== verification/Scheduler.v ===== *)
(** * The process scheduler (src/src/kernel/system/scheduler.c)

    The process table, the run queue and the round-robin choice made on every
    timer interrupt; spawning, killing, blocking and the thread calls.  The
    kernel memory below it is the [kmem] of [Kmalloc]. *)
From S2P Require Import Prelude PhysMem Paging Heap Kmalloc.

Definition PROCESS_COUNT : Z := 0x10000.
Definition DEFAULT_FD_MAX : Z := 1024.

(** The frame an interrupt leaves on the stack, in memory order. *)
Record cpu_registers := Regs {
  gs : Z; fs : Z; es : Z; ds : Z;
  edi : Z; esi : Z; ebp : Z; esp : Z; ebx : Z; edx : Z; ecx : Z; eax : Z;
  int_no : Z; pfa : Z;
  eip : Z; cs : Z; eflags : Z; useresp : Z; ss : Z;
}.

Definition regs_words (r : cpu_registers) : list Z :=
  [gs r; fs r; es r; ds r; edi r; esi r; ebp r; esp r; ebx r; edx r; ecx r; eax r;
   int_no r; pfa r; eip r; cs r; eflags r; useresp r; ss r].
Definition sizeof_regs : Z := 76.
Definition zero_regs : cpu_registers := Regs 0 0 0 0 0 0 0 0 0 0 0 0 0 0 0 0 0 0 0.
Definition set_eax (x : Z) (r : cpu_registers) : cpu_registers :=
  Regs (gs r) (fs r) (es r) (ds r) (edi r) (esi r) (ebp r) (esp r) (ebx r) (edx r) (ecx r) x
    (int_no r) (pfa r) (eip r) (cs r) (eflags r) (useresp r) (ss r).

Record pflags := PFlags {
  blocked : Z; system : Z; cpu_lvl : Z; priority : Z; present : Z; ran : Z;
}.

Record process := Process {
  argv : Z; argc : Z;
  cpuregs : cpu_registers;
  page_dir : Z;
  flags : pflags;
  file_descriptors : Z; max_descriptors : Z;
  exit_value : Z; thread_id : Z; parent : Z;
  uid : Z; gid : Z; brk : Z; stack_start : Z; esp0 : Z;
}.

Definition sizeof_process : Z := 132.

Definition zero_flags : pflags := PFlags 0 0 0 0 0 0.
Definition zero_process : process := Process 0 0 zero_regs 0 zero_flags 0 0 0 0 0 0 0 0 0 0.

Definition set_cpuregs (r : cpu_registers) (p : process) : process :=
  Process (argv p) (argc p) r (page_dir p) (flags p) (file_descriptors p) (max_descriptors p)
    (exit_value p) (thread_id p) (parent p) (uid p) (gid p) (brk p) (stack_start p) (esp0 p).
Definition set_page_dir (d : Z) (p : process) : process :=
  Process (argv p) (argc p) (cpuregs p) d (flags p) (file_descriptors p) (max_descriptors p)
    (exit_value p) (thread_id p) (parent p) (uid p) (gid p) (brk p) (stack_start p) (esp0 p).
Definition set_flags (f : pflags) (p : process) : process :=
  Process (argv p) (argc p) (cpuregs p) (page_dir p) f (file_descriptors p) (max_descriptors p)
    (exit_value p) (thread_id p) (parent p) (uid p) (gid p) (brk p) (stack_start p) (esp0 p).
Definition set_exit_value (x : Z) (p : process) : process :=
  Process (argv p) (argc p) (cpuregs p) (page_dir p) (flags p) (file_descriptors p) (max_descriptors p)
    x (thread_id p) (parent p) (uid p) (gid p) (brk p) (stack_start p) (esp0 p).
Definition set_parent (x : Z) (p : process) : process :=
  Process (argv p) (argc p) (cpuregs p) (page_dir p) (flags p) (file_descriptors p) (max_descriptors p)
    (exit_value p) (thread_id p) x (uid p) (gid p) (brk p) (stack_start p) (esp0 p).
Definition set_esp0 (x : Z) (p : process) : process :=
  Process (argv p) (argc p) (cpuregs p) (page_dir p) (flags p) (file_descriptors p) (max_descriptors p)
    (exit_value p) (thread_id p) (parent p) (uid p) (gid p) (brk p) (stack_start p) x.
Definition set_present (b : Z) (f : pflags) : pflags :=
  PFlags (blocked f) (system f) (cpu_lvl f) (priority f) b (ran f).
Definition set_blocked (b : Z) (f : pflags) : pflags :=
  PFlags b (system f) (cpu_lvl f) (priority f) (present f) (ran f).

Record sched := Sched {
  sc_km : kmem;
  processes : gmap Z process;
  process_queue : gmap Z Z;
  active_processes : Z;
  current_pid : Z;
  queue_length : Z;
  current_queue_index : Z;
  proc_lock : bool;
}.

#[export, refine] Instance sched_kmem : Lens sched kmem := {|
  view := sc_km;
  put k s := Sched k (processes s) (process_queue s) (active_processes s) (current_pid s)
               (queue_length s) (current_queue_index s) (proc_lock s);
|}.
Proof. all: done || by intros []. Defined.

Definition set_processes (m : gmap Z process) (s : sched) : sched :=
  Sched (sc_km s) m (process_queue s) (active_processes s) (current_pid s)
    (queue_length s) (current_queue_index s) (proc_lock s).
Definition set_queue (m : gmap Z Z) (s : sched) : sched :=
  Sched (sc_km s) (processes s) m (active_processes s) (current_pid s)
    (queue_length s) (current_queue_index s) (proc_lock s).
Definition set_active (n : Z) (s : sched) : sched :=
  Sched (sc_km s) (processes s) (process_queue s) n (current_pid s)
    (queue_length s) (current_queue_index s) (proc_lock s).
Definition set_current (n : Z) (s : sched) : sched :=
  Sched (sc_km s) (processes s) (process_queue s) (active_processes s) n
    (queue_length s) (current_queue_index s) (proc_lock s).
Definition set_length (n : Z) (s : sched) : sched :=
  Sched (sc_km s) (processes s) (process_queue s) (active_processes s) (current_pid s)
    n (current_queue_index s) (proc_lock s).
Definition set_index (n : Z) (s : sched) : sched :=
  Sched (sc_km s) (processes s) (process_queue s) (active_processes s) (current_pid s)
    (queue_length s) n (proc_lock s).
Definition set_proc_lock (b : bool) (s : sched) : sched :=
  Sched (sc_km s) (processes s) (process_queue s) (active_processes s) (current_pid s)
    (queue_length s) (current_queue_index s) b.

(** An unused slot of the table is all zero. *)
Definition proc (s : sched) (pid : Z) : process := default zero_process (processes s !! pid).

Definition in_table (i : Z) : bool := bool_decide (0 <= i < PROCESS_COUNT).
Definition get_proc (pid : Z) : M sched process :=
  if in_table pid then gets (λ s, proc s pid) else fail (OutOfBounds pid).
Definition update_proc (pid : Z) (f : process → process) : M sched unit :=
  if in_table pid then modify (λ s, set_processes (<[pid := f (proc s pid)]> (processes s)) s)
  else fail (OutOfBounds pid).
Definition queue_read (i : Z) : M sched Z :=
  if in_table i then gets (λ s, process_queue s !0 i) else fail (OutOfBounds i).
Definition queue_write (i x : Z) : M sched unit :=
  if in_table i then modify (λ s, set_queue (<[i := x]> (process_queue s)) s) else fail (OutOfBounds i).

Definition proc_acquire : M sched unit :=
  held ← gets proc_lock; if held then fail Deadlock else modify (set_proc_lock true).
Definition proc_release : M sched unit := modify (set_proc_lock false).

(** The table lives in pages of its own, which only the scheduler uses. *)
Definition scheduler_init : M sched unit :=
  _ ← zoom (kmalloc ((PROCESS_COUNT * sizeof_process + 4095) / 4096));
  for_all 0 PROCESS_COUNT (λ i,
    update_proc i (λ p, set_flags (set_present 0 (flags p)) p);;
    queue_write i 0);;
  modify (set_current 0);;
  modify (set_length 0);;
  modify (set_index 0);;
  modify (set_active 0);;
  modify (set_proc_lock false).

Definition add_process_queue_nolock (pid : Z) : M sched unit :=
  n ← gets queue_length;
  queue_write n pid;;
  modify (set_length (u32 (n + 1))).

Definition add_process_queue (pid : Z) : M sched unit :=
  proc_acquire;;
  add_process_queue_nolock pid;;
  proc_release.

(** The loop that looks for [pid] and clears the entries that hold it. *)
Definition remove_scan (pid last_queue_index : Z) : M sched Z :=
  loop fuel32 (λ '(i, old_index),
    if i <=? last_queue_index then
      x ← queue_read i;
      if x =? pid then
        queue_write i 0;;
        mret (inl (u32 (i + 1), i))
      else mret (inl (u32 (i + 1), old_index))
    else mret (inr old_index)) (0, u32 (-1)).

Definition remove_process_queue (pid : Z) : M sched unit :=
  proc_acquire;;
  n ← gets queue_length;
  let last_queue_index := u32 (n - 1) in
  old_index ← remove_scan pid last_queue_index;
  modify (set_length (u32 (n - 1)));;
  n ← gets queue_length;
  if (old_index =? last_queue_index) || (old_index >? n) || (old_index >? PROCESS_COUNT) then proc_release
  else
    x ← queue_read last_queue_index;
    queue_write old_index x;;
    queue_write last_queue_index 0;;
    ci ← gets current_queue_index;
    when (0 <? ci) (modify (set_index (ci - 1)));;
    proc_release.

(** The page directory register, loaded on a switch. *)
Definition set_cr3 (d : Z) (s : sched) : sched :=
  put (S := sched) (put (S := kmem) (Paging (pg_pm (km_pg (sc_km s))) (phys (km_pg (sc_km s))) d) (sc_km s)) s.

(** The three steps of [schedule]: move the index, choose the process there,
    load its address space. *)
Definition advance_index : M sched unit :=
  ci ← gets current_queue_index;
  modify (set_index (u32 (ci + 1)));;
  ci ← gets current_queue_index;
  n ← gets queue_length;
  when (n <=? ci) (modify (set_index 0)).

Definition choose_process : M sched unit :=
  ci ← gets current_queue_index;
  n ← gets queue_length;
  (if n =? 0 then fail DivideError else skip);;
  pid ← queue_read (ci mod n);
  modify (set_current pid);;
  when ((1 <? n) && (pid =? 0)) (
    modify (set_index (u32 (ci + 1)));;
    pid ← queue_read (u32 (ci + 1) mod n);
    modify (set_current pid)).

Definition switch_process : M sched Z :=
  pid ← gets current_pid;
  p ← get_proc pid;
  modify (set_cr3 (page_dir p));;
  mret (esp (cpuregs p)).

(** The result is the address of the frame to resume from. *)
Definition schedule (regs : cpu_registers) : M sched Z :=
  n ← gets queue_length;
  when (n =? 0) (add_process_queue 0);;
  cur ← gets current_pid;
  update_proc cur (set_cpuregs regs);;
  advance_index;;
  choose_process;;
  switch_process.

(** The search for a free slot, from the current process once around the table. *)
Definition spawn_slot (cur : Z) : M sched (option Z) :=
  loop fuel32 (λ i,
    p ← get_proc i;
    if present (flags p) =? 0 then mret (inr (Some i))
    else
      let i := u32 (i + 1) in
      let i := if i >=? PROCESS_COUNT then 0 else i in
      if i =? cur then mret (inr None) else mret (inl i)) cur.

(** [-1] when every slot is taken. *)
Definition spawn_new_process (defaultregs : cpu_registers) (argv' argc' cr3' : Z) : M sched Z :=
  cur ← gets current_pid;
  proc_acquire;;
  slot ← spawn_slot cur;
  match slot with
  | None => proc_release;; mret (u32 (-1))
  | Some i =>
      modify (λ s, set_active (u32 (active_processes s + 1)) s);;
      curp ← get_proc cur;
      fds ← zoom (kmalloc ((DEFAULT_FD_MAX * 4 + 4095) / 4096));
      update_proc i (λ _,
        Process argv' argc' defaultregs cr3' (PFlags 0 (system (flags curp)) 1 0 1 0)
          fds DEFAULT_FD_MAX 0 0 cur 0 0 0 0 0);;
      add_process_queue_nolock i;;
      proc_release;;
      mret i
  end.

Definition get_pid_pd (pid : Z) : M sched Z := p ← get_proc pid; mret (page_dir p).
Definition get_pid_esp0 (pid : Z) : M sched Z := p ← get_proc pid; mret (esp0 p).
Definition get_current_pid : M sched Z := gets current_pid.

Definition set_pid_blocked (pid : Z) : M sched unit :=
  update_proc pid (λ p, set_flags (set_blocked 1 (flags p)) p);;
  remove_process_queue pid.
Definition set_pid_unblocked (pid : Z) : M sched unit :=
  update_proc pid (λ p, set_flags (set_blocked 0 (flags p)) p);;
  add_process_queue pid.

(** A register frame written to memory. *)
Definition store_regs (addr : Z) (r : cpu_registers) : M kmem unit :=
  for_all 0 19 (λ i, kwrite32 (u32 (addr + 4 * i)) (default 0 (regs_words r !! Z.to_nat i))).

(** The interrupted frame is [oldregs]; the result is the value put in its
    [eax]. *)
Definition fork (oldregs : cpu_registers) : M sched Z :=
  let regs := set_eax 0 oldregs in
  new_pd ← zoom (kpm pm_alloc);
  new_pd_ptr ← zoom (kmalloc_page_paddr new_pd 1);
  zoom (mapdup_full new_pd_ptr);;
  sp ← zoom (kpg (get_paddr (esp oldregs)));
  stack ← zoom (kmalloc_page_paddr (u32 (sp - 4096)) 2);
  zoom (store_regs stack regs);;
  zoom (kpg (unmap new_pd_ptr));;
  zoom (kpg (unmap stack));;
  zoom (kpg (unmap (u32 (stack - PAGE_SIZE_BYTES))));;
  retpid ← spawn_new_process regs 0 0 new_pd;
  cur ← gets current_pid;
  p ← get_proc cur;
  update_proc retpid (λ _, p);;
  update_proc retpid (set_cpuregs regs);;
  update_proc retpid (set_parent cur);;
  update_proc retpid (set_page_dir new_pd);;
  mret retpid.

Definition kill (pid : Z) : M sched unit :=
  p ← get_proc pid;
  let pd := page_dir p in
  pd_ptr ← zoom (kmalloc_page_paddr pd 1);
  for_all (Z.shiftr 0x400000 22) (Z.shiftr 0xc0000000 22) (λ i,
    e ← zoom (kread32 (u32 (pd_ptr + 4 * i)));
    pt_ptr ← zoom (kmalloc_page_paddr e 1);
    for_all 0 1024 (λ j,
      x ← zoom (kread32 (u32 (pt_ptr + 4 * j)));
      zoom (kpm (pm_free (Z.land x 0xfffff000))));;
    _ ← zoom (kfree pt_ptr);
    e ← zoom (kread32 (u32 (pd_ptr + 4 * i)));
    zoom (kpm (pm_free (Z.land e 0xfffff000)));;
    zoom (kwrite32 (u32 (pd_ptr + 4 * i)) 0));;
  _ ← zoom (kfree pd_ptr);
  zoom (kpm (pm_free pd));;
  update_proc pid (λ p, set_flags (set_present 0 (flags p)) p);;
  update_proc pid (set_page_dir 0);;
  remove_process_queue pid.

Definition thread_start (function : Z) : M sched Z :=
  stk ← zoom (kmalloc 8);
  let sp := u32 (stk + PAGE_SIZE_BYTES * 8 - 4 - sizeof_regs) in
  let regs := Regs 0 0 0x18 0x18 0 0 sp sp 0 0 0 0 0 0 function 0x10 0x202 0 0x18 in
  zoom (store_regs sp regs);;
  retpid ← spawn_new_process regs 0 0 0x10000;
  cur ← gets current_pid;
  update_proc retpid (set_parent cur);;
  update_proc retpid (set_esp0 sp);;
  mret retpid.

(** [thread_join] up to the interrupt that gives the processor away; [regs] is
    the frame that interrupt saves.  The rest runs when the thread is scheduled
    again. *)
Definition thread_join_wait (regs : cpu_registers) : M sched Z :=
  cur ← gets current_pid;
  set_pid_blocked cur;;
  schedule regs.
Definition thread_join_result (tid : Z) : M sched Z :=
  p ← get_proc tid; mret (exit_value p).

Definition thread_exit (exit_code : Z) (regs : cpu_registers) : M sched Z :=
  cur ← gets current_pid;
  update_proc cur (λ p, set_flags (set_present 0 (flags p)) p);;
  update_proc cur (set_exit_value exit_code);;
  remove_process_queue cur;;
  p ← get_proc cur;
  set_pid_unblocked (parent p);;
  schedule regs.

(** ** The run queue as a list *)

Record runq (q : list Z) (s : sched) : Prop := {
  rq_len : queue_length s = Z.of_nat (length q);
  rq_max : Z.of_nat (length q) <= PROCESS_COUNT;
  rq_get i x : q !! i = Some x → process_queue s !0 (Z.of_nat i) = x;
  rq_pid x : x ∈ q → 0 <= x < PROCESS_COUNT;
  rq_lock : proc_lock s = false;
}.

(** Everything but the queue, its length and its index is as in [s]. *)
Definition same_rest (s s' : sched) : Prop :=
  sc_km s' = sc_km s ∧ processes s' = processes s ∧ active_processes s' = active_processes s ∧
  current_pid s' = current_pid s.

Lemma queue_read_wp i (Q : Z → sched → Prop) s :
  0 <= i < PROCESS_COUNT → Q (process_queue s !0 i) s → wp (queue_read i) Q s.
Proof. intros Hi HQ. unfold queue_read, in_table. by rewrite bool_decide_eq_true_2. Qed.
Lemma queue_write_wp i x (Q : unit → sched → Prop) s :
  0 <= i < PROCESS_COUNT → Q tt (set_queue (<[i := x]> (process_queue s)) s) → wp (queue_write i x) Q s.
Proof. intros Hi HQ. unfold queue_write, in_table. by rewrite bool_decide_eq_true_2. Qed.
Lemma get_proc_wp pid (Q : process → sched → Prop) s :
  0 <= pid < PROCESS_COUNT → Q (proc s pid) s → wp (get_proc pid) Q s.
Proof. intros Hi HQ. unfold get_proc, in_table. by rewrite bool_decide_eq_true_2. Qed.
Lemma update_proc_wp pid f (Q : unit → sched → Prop) s :
  0 <= pid < PROCESS_COUNT →
  Q tt (set_processes (<[pid := f (proc s pid)]> (processes s)) s) → wp (update_proc pid f) Q s.
Proof. intros Hi HQ. unfold update_proc, in_table. by rewrite bool_decide_eq_true_2. Qed.
Lemma proc_acquire_wp (Q : unit → sched → Prop) s :
  proc_lock s = false → Q tt (set_proc_lock true s) → wp proc_acquire Q s.
Proof. intros Hl HQ. unfold proc_acquire. wp. by rewrite Hl. Qed.

Lemma proc_insert s pid p x :
  proc (set_processes (<[pid := p]> (processes s)) s) x = if decide (pid = x) then p else proc s x.
Proof. unfold proc. simpl. rewrite lookup_insert. by case_decide. Qed.

Lemma add_nolock_wp (q : list Z) pid (Q : unit → sched → Prop) s :
  queue_length s = Z.of_nat (length q) → Z.of_nat (length q) < PROCESS_COUNT →
  Q tt (set_length (Z.of_nat (S (length q)))
          (set_queue (<[Z.of_nat (length q) := pid]> (process_queue s)) s)) →
  wp (add_process_queue_nolock pid) Q s.
Proof.
  intros Hl Hm HQ. unfold add_process_queue_nolock. wp. rewrite Hl.
  apply queue_write_wp; [lia|]. wp. rewrite u32_id by (unfold is_u32, PROCESS_COUNT in *; lia).
  by replace (Z.of_nat (length q) + 1) with (Z.of_nat (S (length q))) by lia.
Qed.

Lemma runq_app q s s' pid :
  runq q s → 0 <= pid < PROCESS_COUNT → Z.of_nat (length q) < PROCESS_COUNT →
  queue_length s' = Z.of_nat (S (length q)) → proc_lock s' = false →
  process_queue s' = <[Z.of_nat (length q) := pid]> (process_queue s) →
  runq (q ++ [pid]) s'.
Proof.
  intros [Hl Hm Hg Hp _] Hpid Hmax Hl' Hk Hq. split.
  - rewrite Hl', length_app. simpl. lia.
  - rewrite length_app. simpl. lia.
  - intros i x Hx. rewrite Hq. apply lookup_app_Some in Hx as [Hx|[Hge Hx]].
    + apply lookup_lt_Some in Hx as Hlt. rewrite zget_insert_ne by lia. by apply Hg.
    + apply list_lookup_singleton_Some in Hx as [Hz <-]. replace i with (length q) by lia. apply zget_insert_eq.
  - intros x [Hx|Hx%list_elem_of_singleton]%elem_of_app; [by apply Hp|by subst].
  - done.
Qed.

Lemma add_process_queue_wp q pid (Q : unit → sched → Prop) s :
  runq q s → 0 <= pid < PROCESS_COUNT → Z.of_nat (length q) < PROCESS_COUNT →
  (∀ s', runq (q ++ [pid]) s' → same_rest s s' → current_queue_index s' = current_queue_index s → Q tt s') →
  wp (add_process_queue pid) Q s.
Proof.
  intros Hr Hpid Hmax HQ. unfold add_process_queue. wp. apply proc_acquire_wp; [apply Hr|]. wp.
  apply (add_nolock_wp q); [apply Hr|done|]. unfold proc_release. wp. apply HQ; [|done|done].
  by apply (runq_app q s).
Qed.

(** ** Taking a process out of the queue *)

(** The last entry takes the place of the one removed. *)
Definition swap_remove (q : list Z) (k : nat) : list Z :=
  match last q with
  | Some x => take (length q - 1) (<[k := x]> q)
  | None => []
  end.

Lemma swap_remove_perm q k x : q !! k = Some x → q ≡ₚ x :: swap_remove q k.
Proof.
  intros Hk. destruct (last q) as [y|] eqn:Hl.
  2: { apply last_None in Hl. by subst. }
  unfold swap_remove. rewrite Hl. apply last_Some in Hl as [q' ->]. rewrite length_app. simpl.
  replace (length q' + 1 - 1)%nat with (length q') by lia.
  apply lookup_app_Some in Hk as [Hk|[Hge Hk]].
  - apply lookup_lt_Some in Hk as Hlt. rewrite insert_app_l by done.
    rewrite take_app_length' by (by rewrite length_insert).
    rewrite (insert_take_drop q' k y) by done. rewrite <- (take_drop_middle q' k x Hk) at 1.
    solve_Permutation.
  - apply list_lookup_singleton_Some in Hk as [Hz ->]. rewrite insert_app_r_alt by lia.
    rewrite take_app_length. solve_Permutation.
Qed.

(** [k] is the only place of [pid] in [q]; a [k] past the end says there is none. *)
Definition place (q : list Z) (pid k : Z) : Prop :=
  0 <= k ∧ ∀ i x, q !! i = Some x → (x = pid ↔ Z.of_nat i = k).

Lemma remove_scan_wp q pid k (Q : Z → sched → Prop) s :
  queue_length s = Z.of_nat (length q) → Z.of_nat (length q) <= PROCESS_COUNT → (0 < length q)%nat →
  (∀ i x, q !! i = Some x → process_queue s !0 (Z.of_nat i) = x) →
  place q pid k →
  (k < Z.of_nat (length q) → Q k (set_queue (<[k := 0]> (process_queue s)) s)) →
  (Z.of_nat (length q) <= k → Q (u32 (-1)) s) →
  wp (remove_scan pid (Z.of_nat (length q) - 1)) Q s.
Proof.
  intros Hl Hm Hpos Hg [Hk Hpl] Hin Hout. unfold PROCESS_COUNT in Hm.
  apply (wp_loop (λ '(i, old) s', 0 <= i <= Z.of_nat (length q) ∧
    old = (if decide (k < i) then k else u32 (-1)) ∧
    s' = if decide (k < i) then set_queue (<[k := 0]> (process_queue s)) s else s)
    (λ '(i, _) _, Z.of_nat (length q) - i)).
  - split_and!; [lia..| |]; by rewrite decide_False by lia.
  - unfold fuel32. change (Z.pos (2 ^ 32)) with (2 ^ 32). lia.
  - intros [i old] ? (? & _). lia.
  - intros [i old] s' (Hi & -> & ->). destruct (Z.leb_spec i (Z.of_nat (length q) - 1)); wp.
    2: { assert (i = Z.of_nat (length q)) as -> by lia. case_decide; [by apply Hin|apply Hout; lia]. }
    apply queue_read_wp; [unfold PROCESS_COUNT; lia|].
    destruct (lookup_lt_is_Some_2 q (Z.to_nat i)) as [x Hx]; [lia|].
    pose proof (Hpl _ _ Hx) as Hxp. pose proof (Hg _ _ Hx) as Hgx. rewrite Z2Nat.id in Hxp, Hgx by lia.
    assert (process_queue (if decide (k < i) then set_queue (<[k := 0]> (process_queue s)) s else s) !0 i = x) as ->.
    { case_decide; [|done]. simpl. by rewrite zget_insert_ne by lia. }
    destruct (Z.eqb_spec x pid) as [->|Hne]; wp.
    + assert (i = k) as -> by tauto. rewrite decide_False by lia.
      apply queue_write_wp; [unfold PROCESS_COUNT; lia|]. wp. rewrite u32_id by (unfold is_u32; lia).
      split; [|lia]. split_and!; [lia..| |]; by rewrite decide_True by lia.
    + rewrite u32_id by (unfold is_u32; lia). assert (i ≠ k) by tauto.
      split; [|lia]. split_and!; [lia..| |]; repeat case_decide; done || lia.
Qed.

(** The queue after the entry at [k] is gone. *)
Lemma runq_swap_remove q s s' k :
  runq q s → (k < length q)%nat →
  queue_length s' = Z.of_nat (length q) - 1 → proc_lock s' = false →
  (∀ i x, (i < length q - 1)%nat → <[k := default 0 (last q)]> q !! i = Some x →
     process_queue s' !0 (Z.of_nat i) = x) →
  runq (swap_remove q k) s'.
Proof.
  intros [Hl Hm Hg Hp _] Hk Hl' Hk' Hq. unfold swap_remove.
  destruct (last q) as [y|] eqn:Hy; [|apply last_None in Hy; subst; simpl in Hk; lia].
  split; rewrite ?length_take, ?length_insert; [lia..| | |done].
  - intros i x [Hx Hi]%lookup_take_Some. apply Hq; [lia|done].
  - intros x [i Hi]%list_elem_of_lookup. apply lookup_take_Some in Hi as [Hi _].
    apply list_lookup_insert_Some in Hi as [(_ & <- & _)|[_ Hi]].
    + apply Hp. rewrite last_lookup in Hy. by eapply list_elem_of_lookup_2.
    + apply Hp. by eapply list_elem_of_lookup_2.
Qed.

Lemma remove_wp q pid k (Q : unit → sched → Prop) s :
  runq q s → NoDup q → q !! k = Some pid →
  (∀ s', runq (swap_remove q k) s' → same_rest s s' →
     current_queue_index s' = (if decide (k = length q - 1)%nat then current_queue_index s
                               else Z.max 0 (current_queue_index s - 1)) → Q tt s') →
  0 <= current_queue_index s →
  wp (remove_process_queue pid) Q s.
Proof.
  intros Hr Hnd Hk HQ Hci. pose proof Hr as [Hl Hm Hg Hp Hlk]. apply lookup_lt_Some in Hk as Hlt.
  unfold PROCESS_COUNT in Hm.
  unfold remove_process_queue. wp. apply proc_acquire_wp; [done|]. wp. simpl. rewrite Hl.
  rewrite u32_id by (unfold is_u32; lia).
  apply (remove_scan_wp q pid (Z.of_nat k)); [done..|lia|done| | |lia].
  { split; [lia|]. intros i x Hx. split; [|intros ->%Nat2Z.inj; congruence].
    intros ->. f_equal. by apply (NoDup_lookup q i k pid). }
  intros _. wp. simpl.
  destruct (lookup_lt_is_Some_2 q (length q - 1)) as [y Hy]; [lia|].
  assert (last q = Some y) as Hlast by (rewrite last_lookup; by replace (pred (length q)) with (length q - 1)%nat by lia).
  destruct (Z.eqb_spec (Z.of_nat k) (Z.of_nat (length q) - 1)) as [He|Hne]; simpl.
  { unfold proc_release. wp. apply HQ; [|done|by rewrite decide_True by lia].
    apply (runq_swap_remove q s); [done|lia|done|done|]. intros i x Hi Hx. simpl.
    rewrite list_lookup_insert_ne in Hx by lia. rewrite zget_insert_ne by lia. by apply Hg. }
  rewrite !Z.gtb_ltb, !(proj2 (Z.ltb_ge _ _)) by (unfold PROCESS_COUNT; lia). simpl. wp.
  apply queue_read_wp; [unfold PROCESS_COUNT; lia|]. simpl. rewrite zget_insert_ne by lia.
  replace (Z.of_nat (length q) - 1) with (Z.of_nat (length q - 1)) by lia. rewrite (Hg _ _ Hy). wp.
  apply queue_write_wp; [unfold PROCESS_COUNT; lia|]. wp.
  apply queue_write_wp; [unfold PROCESS_COUNT; lia|]. wp. simpl.
  set (s1 := set_queue _ _).
  assert (∀ s', process_queue s' = process_queue s1 → queue_length s' = Z.of_nat (length q) - 1 →
    proc_lock s' = false → runq (swap_remove q k) s') as Hfin.
  { intros s' Hq' Hl' Hk'. apply (runq_swap_remove q s); [done|lia|done..|]. intros i x Hi Hx.
    rewrite Hq'. unfold s1. simpl. rewrite zget_insert_ne by lia. rewrite Hlast in Hx. simpl in Hx.
    apply list_lookup_insert_Some in Hx as [(<- & <- & _)|[Hik Hx]]; [apply zget_insert_eq|].
    rewrite !zget_insert_ne by lia. by apply Hg. }
  unfold proc_release. destruct (Z.ltb_spec 0 (current_queue_index s)); wp; apply HQ;
    [apply Hfin; simpl; done || lia|done|rewrite decide_False by lia; simpl; lia..
    |apply Hfin; simpl; done || lia|done|rewrite decide_False by lia; simpl; lia].
Qed.

(** A process that is not queued: the last entry is lost. *)
Lemma remove_absent_wp q pid (Q : unit → sched → Prop) s :
  runq q s → q ≠ [] → pid ∉ q →
  (∀ s', runq (take (length q - 1) q) s' → same_rest s s' → Q tt s') →
  wp (remove_process_queue pid) Q s.
Proof.
  intros Hr Hne Hnin HQ. pose proof Hr as [Hl Hm Hg Hp Hlk].
  assert (0 < length q)%nat by (destruct q; [done|simpl; lia]). unfold PROCESS_COUNT in Hm.
  unfold remove_process_queue. wp. apply proc_acquire_wp; [done|]. wp. simpl. rewrite Hl.
  rewrite u32_id by (unfold is_u32; lia).
  apply (remove_scan_wp q pid (Z.of_nat (length q))); [done..| |lia|].
  { split; [lia|]. intros i x Hx. apply lookup_lt_Some in Hx as Hlt. split; [|lia].
    intros ->. destruct Hnin. by eapply list_elem_of_lookup_2. }
  intros _. wp. cbn [queue_length set_length].
  assert (u32 (-1) = 2 ^ 32 - 1) as -> by done.
  rewrite (proj2 (Z.eqb_neq _ _)) by lia. rewrite Z.gtb_ltb, (proj2 (Z.ltb_lt _ _)) by lia. cbn [orb].
  unfold proc_release. wp. apply HQ; [|done]. split; simpl; rewrite ?length_take; [lia|unfold PROCESS_COUNT; lia| | |done].
  - intros i x [Hx _]%lookup_take_Some. by apply Hg.
  - intros x Hx. apply Hp. rewrite <- (take_drop (length q - 1) q). apply elem_of_app. by left.
Qed.

(** ** The choice of the next process *)

(** An empty queue gets the idle process. *)
Definition ready (q : list Z) : list Z := match q with [] => [0] | _ => q end.

Definition rq_at (q : list Z) (c : Z) : Z := default 0 (q !! Z.to_nat (c mod Z.of_nat (length q))).

(** Where the round robin goes from index [c]: to the next entry, or to the one
    after it when that is the idle process and there is other work. *)
Definition rq_next (q : list Z) (c : Z) : Z :=
  let c1 := if Z.of_nat (length q) <=? c + 1 then 0 else c + 1 in
  if (1 <? Z.of_nat (length q)) && (rq_at q c1 =? 0) then c1 + 1 else c1.

Record sched_wf (q : list Z) (s : sched) : Prop := {
  sw_runq : runq q s;
  sw_current : 0 <= current_pid s < PROCESS_COUNT;
  sw_index : 0 <= current_queue_index s <= Z.of_nat (length (ready q));
}.

Definition dispatched (q : list Z) (regs : cpu_registers) (s s' : sched) : Prop :=
  let c := rq_next q (current_queue_index s) in
  current_queue_index s' = c ∧ current_pid s' = rq_at q c ∧
  processes s' = <[current_pid s := set_cpuregs regs (proc s (current_pid s))]> (processes s) ∧
  cr3 (km_pg (sc_km s')) = page_dir (proc s' (current_pid s')) ∧
  km_heap (sc_km s') = km_heap (sc_km s) ∧ phys (km_pg (sc_km s')) = phys (km_pg (sc_km s)) ∧
  pg_pm (km_pg (sc_km s')) = pg_pm (km_pg (sc_km s)) ∧ active_processes s' = active_processes s.

Lemma rq_at_elem q c : q ≠ [] → 0 <= c → rq_at q c ∈ q.
Proof.
  intros Hq Hc. assert (0 < length q)%nat by (destruct q; [done|simpl; lia]).
  pose proof (Z.mod_pos_bound c (Z.of_nat (length q)) ltac:(lia)). unfold rq_at.
  destruct (lookup_lt_is_Some_2 q (Z.to_nat (c mod Z.of_nat (length q)))) as [x Hx]; [lia|].
  rewrite Hx. by eapply list_elem_of_lookup_2.
Qed.

Lemma rq_at_queue q s c :
  runq q s → q ≠ [] → 0 <= c → process_queue s !0 (c mod Z.of_nat (length q)) = rq_at q c.
Proof.
  intros Hr Hq Hc. assert (0 < length q)%nat by (destruct q; [done|simpl; lia]).
  pose proof (Z.mod_pos_bound c (Z.of_nat (length q)) ltac:(lia)). unfold rq_at.
  destruct (lookup_lt_is_Some_2 q (Z.to_nat (c mod Z.of_nat (length q)))) as [x Hx]; [lia|].
  rewrite Hx. simpl. rewrite <- (rq_get _ _ Hr _ _ Hx). by rewrite Z2Nat.id by lia.
Qed.

Lemma rq_next_range q c :
  q ≠ [] → 0 <= c → 0 <= rq_next q c <= Z.of_nat (length q).
Proof.
  intros Hq Hc. assert (0 < length q)%nat by (destruct q; [done|simpl; lia]). unfold rq_next.
  destruct (Z.leb_spec (Z.of_nat (length q)) (c + 1)), (_ && _); lia.
Qed.

Lemma runq_same q s s' :
  runq q s → process_queue s' = process_queue s → queue_length s' = queue_length s →
  proc_lock s' = proc_lock s → runq q s'.
Proof. intros [? ? ? ? ?] Hq Hl Hk. split; rewrite ?Hq, ?Hl, ?Hk; done. Qed.

Lemma advance_index_wp q (Q : unit → sched → Prop) s :
  runq q s → 0 <= current_queue_index s <= Z.of_nat (length q) →
  Q tt (set_index (if Z.of_nat (length q) <=? current_queue_index s + 1 then 0
                   else current_queue_index s + 1) s) →
  wp advance_index Q s.
Proof.
  intros [Hl Hm _ _ _] Hci HQ. unfold PROCESS_COUNT in Hm. unfold advance_index. wp. simpl.
  rewrite Hl, u32_id by (unfold is_u32; lia). by destruct (_ <=? _); wp.
Qed.

Lemma choose_process_wp q (Q : unit → sched → Prop) s :
  runq q s → q ≠ [] → 0 <= current_queue_index s < Z.of_nat (length q) →
  (let c1 := current_queue_index s in
   let c := if (1 <? Z.of_nat (length q)) && (rq_at q c1 =? 0) then c1 + 1 else c1 in
   Q tt (set_current (rq_at q c) (set_index c s))) →
  wp choose_process Q s.
Proof.
  intros Hr Hq Hci HQ. pose proof Hr as [Hl Hm _ _ _]. unfold PROCESS_COUNT in Hm.
  assert (∀ x, 0 <= x → 0 <= x mod Z.of_nat (length q) < PROCESS_COUNT) as Hmod.
  { intros x Hx. pose proof (Z.mod_pos_bound x (Z.of_nat (length q)) ltac:(lia)). unfold PROCESS_COUNT. lia. }
  unfold choose_process. wp. rewrite Hl, (proj2 (Z.eqb_neq _ _)) by lia. wp.
  apply queue_read_wp; [apply Hmod; lia|]. rewrite (rq_at_queue q) by (done || lia). wp.
  cbn zeta in HQ. destruct (_ && _); wp; [|by destruct s].
  apply queue_read_wp; rewrite u32_id by (unfold is_u32; lia); [apply Hmod; lia|].
  cbn [process_queue set_index set_current]. rewrite (rq_at_queue q) by (done || lia). wp. by destruct s.
Qed.

(** [schedule] after its first test. *)
Lemma schedule_tail_wp q regs (Q : Z → sched → Prop) s :
  runq q s → q ≠ [] → 0 <= current_pid s < PROCESS_COUNT →
  0 <= current_queue_index s <= Z.of_nat (length q) →
  (∀ s', runq q s' → dispatched q regs s s' → Q (esp (cpuregs (proc s' (current_pid s')))) s') →
  wp (cur ← gets current_pid;
      update_proc cur (set_cpuregs regs);;
      advance_index;;
      choose_process;;
      switch_process) Q s.
Proof.
  intros Hr Hq Hcur Hci HQ. pose proof Hr as [Hl _ _ Hpid _].
  assert (0 < length q)%nat by (destruct q; [done|simpl; lia]).
  wp. apply update_proc_wp; [done|]. wp. apply (advance_index_wp q); [by apply (runq_same q s)|done|].
  wp. apply (choose_process_wp q); [by apply (runq_same q s)|done| |].
  { cbn [current_queue_index set_index set_processes].
    destruct (Z.leb_spec (Z.of_nat (length q)) (current_queue_index s + 1)); lia. }
  cbn [current_queue_index set_index set_processes]. cbn zeta. fold (rq_next q (current_queue_index s)).
  unfold switch_process. wp. apply get_proc_wp.
  { cbn [current_pid set_current]. apply Hpid, rq_at_elem; [done|]. apply rq_next_range; [done|lia]. }
  wp. match goal with |- Q _ ?s' => apply (HQ s') end; [by apply (runq_same q s)|]. by split_and!.
Qed.

Lemma schedule_wp q regs (Q : Z → sched → Prop) s :
  sched_wf q s →
  (∀ s', runq (ready q) s' → dispatched (ready q) regs s s' →
     Q (esp (cpuregs (proc s' (current_pid s')))) s') →
  wp (schedule regs) Q s.
Proof.
  intros [Hr Hcur Hci] HQ. unfold schedule. rewrite wp_bind, wp_gets, (rq_len _ _ Hr). rewrite wp_bind, wp_when.
  destruct q as [|x q]; simpl.
  - apply (add_process_queue_wp []); [done|unfold PROCESS_COUNT; lia|unfold PROCESS_COUNT; simpl; lia|].
    intros s1 Hr1 (Hk & Hp & Ha & Hc) Hi. simpl in *.
    apply (schedule_tail_wp [0]); [done|done|by rewrite Hc|by rewrite Hi|].
    intros s' Hr' Hd. apply HQ; [done|]. unfold dispatched, proc in *. by rewrite <- Hk, <- Hp, <- Ha, <- Hc, <- Hi.
  - apply (schedule_tail_wp (x :: q)); done.
Qed.

Lemma dispatched_wf q regs s s' :
  sched_wf q s → runq (ready q) s' → dispatched (ready q) regs s s' → sched_wf (ready q) s'.
Proof.
  intros [Hr Hcur Hci] Hr' (Hi & Hp & _). assert (ready q ≠ []) as Hne by (by destruct q).
  assert (ready (ready q) = ready q) as Hrr by (by destruct q).
  pose proof (rq_next_range (ready q) (current_queue_index s) Hne ltac:(lia)).
  split; [done| |].
  - rewrite Hp. apply (rq_pid _ _ Hr'), rq_at_elem; [done|lia].
  - by rewrite Hrr, Hi.
Qed.

(** Nothing but work is chosen while there is work. *)
Lemma rq_next_busy q c :
  NoDup q → (1 < length q)%nat → 0 <= c → rq_at q (rq_next q c) ≠ 0.
Proof.
  intros Hnd Hn Hc. unfold rq_next. set (c1 := if Z.of_nat (length q) <=? c + 1 then 0 else c + 1).
  assert (0 <= c1 < Z.of_nat (length q)) as Hc1
    by (unfold c1; destruct (Z.leb_spec (Z.of_nat (length q)) (c + 1)); lia).
  rewrite (proj2 (Z.ltb_lt 1 _)) by lia. simpl.
  destruct (Z.eqb_spec (rq_at q c1) 0) as [Hz|]; [|done]. intros Hz'. unfold rq_at in *.
  pose proof (Z.mod_pos_bound (c1 + 1) (Z.of_nat (length q)) ltac:(lia)).
  rewrite (Z.mod_small c1) in Hz by lia.
  destruct (lookup_lt_is_Some_2 q (Z.to_nat c1)) as [x Hx]; [lia|].
  destruct (lookup_lt_is_Some_2 q (Z.to_nat ((c1 + 1) mod Z.of_nat (length q)))) as [y Hy]; [lia|].
  rewrite Hx in Hz. rewrite Hy in Hz'. simpl in *. subst x y.
  pose proof (NoDup_lookup q _ _ _ Hnd Hx Hy) as He.
  assert (c1 = (c1 + 1) mod Z.of_nat (length q)) as Hm by lia.
  destruct (decide (c1 + 1 = Z.of_nat (length q))) as [He'|].
  - rewrite He', Z.mod_same in Hm by lia. lia.
  - rewrite Z.mod_small in Hm by lia. lia.
Qed.

(** ** A run of timer interrupts *)

(** One [schedule] per saved frame; the result lists the processes chosen. *)
Fixpoint ticks (frames : list cpu_registers) : M sched (list Z) :=
  match frames with
  | [] => mret []
  | regs :: frames =>
      _ ← schedule regs;
      pid ← gets current_pid;
      rest ← ticks frames;
      mret (pid :: rest)
  end.

Fixpoint visits (m : nat) (q : list Z) (c : Z) : list Z :=
  match m with
  | O => []
  | S m => rq_at q (rq_next q c) :: visits m q (rq_next q c)
  end.

Lemma ticks_wp q frames s :
  sched_wf q s → q ≠ [] →
  wp (ticks frames) (λ tr s', tr = visits (length frames) q (current_queue_index s) ∧ sched_wf q s') s.
Proof.
  revert s. induction frames as [|regs frames IH]; intros s Hwf Hq; simpl; wp; [done|].
  assert (ready q = q) as Hrd by (by destruct q).
  apply (schedule_wp q); [done|]. rewrite Hrd. intros s1 Hr1 Hd.
  pose proof (dispatched_wf q regs s s1 Hwf) as Hwf1. rewrite Hrd in Hwf1. specialize (Hwf1 Hr1 Hd).
  destruct Hd as (Hi & Hp & _). wp. eapply wp_mono; [by apply IH|]. intros tr s' [-> Hwf']. wp.
  by rewrite Hp, Hi.
Qed.

(** What a run of [schedule] leaves: the interrupted process has been saved with
    [f], and a queued process is current with its address space loaded. *)
Record switched (q : list Z) (f : cpu_registers) (s s' : sched) : Prop := {
  st_wf : sched_wf (ready q) s';
  st_ready : current_pid s' ∈ ready q;
  st_busy : (1 < length q)%nat → current_pid s' ≠ 0;
  st_saved : processes s' = <[current_pid s := set_cpuregs f (proc s (current_pid s))]> (processes s);
  st_space : cr3 (km_pg (sc_km s')) = page_dir (proc s' (current_pid s'));
}.
Definition resume_frame (s : sched) : Z := esp (cpuregs (proc s (current_pid s))).

Lemma schedule_switched_wp q f (Q : Z → sched → Prop) s :
  sched_wf q s → NoDup q → (∀ s', switched q f s s' → Q (resume_frame s') s') → wp (schedule f) Q s.
Proof.
  intros Hwf Hnd HQ. apply (schedule_wp q); [done|]. intros s' Hr Hd. apply HQ.
  pose proof (dispatched_wf _ _ _ _ Hwf Hr Hd) as Hwf'. destruct Hwf as [_ _ Hci]. destruct Hd as (Hi & Hp & Hpr & Hc & _).
  assert (ready q ≠ []) as Hne by (by destruct q).
  pose proof (rq_next_range (ready q) (current_queue_index s) Hne ltac:(lia)).
  split; [done| | |done|done].
  - rewrite Hp. apply rq_at_elem; [done|lia].
  - intros Hl. rewrite Hp. assert (ready q = q) as -> by (destruct q; [simpl in Hl; lia|done]). apply rq_next_busy; [done..|lia].
Qed.

Section fairness.
Context (q : list Z) (k : nat) (pid : Z).
Hypothesis Hk : q !! k = Some pid.
Hypothesis Hpid : pid ≠ 0.

Lemma rq_at_k c : c = Z.of_nat k → rq_at q c = pid.
Proof using Hk.
  intros ->. pose proof (lookup_lt_Some _ _ _ Hk) as Hlt. unfold rq_at.
  rewrite Z.mod_small, Nat2Z.id, Hk by lia. done.
Qed.

Lemma visits_up m c : 0 <= c < Z.of_nat k → Z.of_nat k - c <= Z.of_nat m → pid ∈ visits m q c.
Proof using Hk Hpid.
  pose proof (lookup_lt_Some _ _ _ Hk) as Hlt.
  revert c. induction m as [|m IH]; intros c Hc Hm; [lia|]. simpl.
  assert (c < rq_next q c <= Z.of_nat k) as Hn.
  { unfold rq_next. rewrite (proj2 (Z.leb_gt _ _)) by lia.
    destruct (_ && (rq_at q (c + 1) =? 0)) eqn:Hz; [|lia].
    apply andb_true_iff in Hz as [_ Hz%Z.eqb_eq].
    assert (c + 1 ≠ Z.of_nat k); [|lia]. intros He. rewrite (rq_at_k _ He) in Hz. done. }
  destruct (decide (rq_next q c = Z.of_nat k)) as [He|].
  - rewrite (rq_at_k _ He). apply elem_of_cons. by left.
  - apply elem_of_cons. right. apply IH; lia.
Qed.

Lemma visits_wrap m c :
  0 <= c <= Z.of_nat (length q) → Z.of_nat (length q) + 1 <= Z.of_nat m → pid ∈ visits m q c.
Proof using Hk Hpid.
  intros Hc Hm. pose proof (lookup_lt_Some _ _ _ Hk) as Hlt.
  cut (∀ m c, Z.of_nat k <= c <= Z.of_nat (length q) →
         Z.of_nat (length q) - c + 1 + Z.of_nat k <= Z.of_nat m → pid ∈ visits m q c).
  { intros Hcut. destruct (decide (c < Z.of_nat k)); [apply visits_up; lia|apply Hcut; lia]. }
  clear m c Hc Hm. induction m as [|m IH]; intros c Hc Hm; [lia|]. simpl. apply elem_of_cons.
  destruct (decide (Z.of_nat (length q) <= c + 1)) as [Hw|Hw].
  - assert (rq_next q c = 0 ∨ (rq_next q c = 1 ∧ rq_at q 0 = 0)) as Hn.
    { unfold rq_next. rewrite (proj2 (Z.leb_le _ _) Hw).
      destruct (_ && (rq_at q 0 =? 0)) eqn:Hz; [right|by left].
      apply andb_true_iff in Hz as [_ Hz%Z.eqb_eq]. done. }
    assert (rq_next q c <= Z.of_nat k).
    { destruct Hn as [->|[-> Hz]]; [lia|]. destruct (decide (k = O)) as [Hk0|]; [|lia].
      rewrite (rq_at_k 0) in Hz by lia. done. }
    destruct (decide (rq_next q c = Z.of_nat k)) as [He|]; [left; by rewrite (rq_at_k _ He)|].
    right. apply visits_up; lia.
  - right. apply IH.
    + unfold rq_next. rewrite (proj2 (Z.leb_gt _ _)) by lia. destruct (_ && _); lia.
    + unfold rq_next. rewrite (proj2 (Z.leb_gt _ _)) by lia. destruct (_ && _); lia.
Qed.
End fairness.

(** ** Spawning *)

Definition slot_free (s : sched) (i : Z) : Prop := present (flags (proc s i)) = 0.

(** The first free slot from [cur] on, around the table. *)
Definition first_free (s : sched) (cur i : Z) : Prop :=
  slot_free s i ∧ ∃ d, 0 <= d ∧ i = (cur + d) mod PROCESS_COUNT ∧
    ∀ e, 0 <= e < d → ¬ slot_free s ((cur + e) mod PROCESS_COUNT).

Lemma spawn_slot_wp cur (Q : option Z → sched → Prop) s :
  0 <= cur < PROCESS_COUNT →
  (∀ i, 0 <= i < PROCESS_COUNT → first_free s cur i → Q (Some i) s) →
  ((∀ i, 0 <= i < PROCESS_COUNT → ¬ slot_free s i) → Q None s) →
  wp (spawn_slot cur) Q s.
Proof.
  unfold first_free, PROCESS_COUNT. intros Hcur Hsome Hnone.
  apply (wp_loop (λ i s', s' = s ∧ ∃ d, 0 <= d < 0x10000 ∧ i = (cur + d) mod 0x10000 ∧
    ∀ e, 0 <= e < d → ¬ slot_free s ((cur + e) mod 0x10000))
    (λ i _, if decide (i < cur) then cur - i - 1 else cur - i - 1 + 0x10000)).
  - split; [done|]. exists 0. split_and!; [lia..| |lia]. rewrite Z.add_0_r, Z.mod_small; lia.
  - rewrite decide_False by lia. unfold fuel32. change (Z.pos (2 ^ 32)) with (2 ^ 32). lia.
  - intros i ? (_ & d & _ & -> & _). pose proof (Z.mod_pos_bound (cur + d) 0x10000 ltac:(lia)). case_decide; lia.
  - intros i ? (-> & d & Hd & -> & Hall). set (i := (cur + d) mod 0x10000) in *.
    pose proof (Z.mod_pos_bound (cur + d) 0x10000 ltac:(lia)) as Hi. fold i in Hi.
    wp. apply get_proc_wp; [done|]. destruct (Z.eqb_spec (present (flags (proc s i))) 0) as [Hz|Hnz]; wp.
    { apply Hsome; [done|]. split; [done|]. exists d. split; [lia|]. by split. }
    rewrite u32_id by (unfold is_u32; lia).
    set (j := if i + 1 >=? PROCESS_COUNT then 0 else i + 1).
    assert (j = (cur + (d + 1)) mod 0x10000) as Hj.
    { replace (cur + (d + 1)) with (cur + d + 1) by lia. rewrite <- Z.add_mod_idemp_l by lia. fold i.
      unfold j, PROCESS_COUNT. rewrite Z.geb_leb. destruct (Z.leb_spec 0x10000 (i + 1)).
      - by replace (i + 1) with 0x10000 by lia.
      - symmetry. apply Z.mod_small. lia. }
    assert (∀ e, 0 <= e < d + 1 → ¬ slot_free s ((cur + e) mod 0x10000)) as Hall'.
    { intros e He. destruct (decide (e = d)) as [->|]; [done|]. apply Hall. lia. }
    assert (0 <= j < 0x10000) as Hjr by (rewrite Hj; apply Z.mod_pos_bound; lia).
    cbn zeta. fold j. destruct (Z.eqb_spec j cur) as [He|Hne]; wp.
    + apply Hnone. intros x Hx Hf. assert (d = 0x10000 - 1) as ->.
      { rewrite Hj in He. destruct (decide (cur + (d + 1) < 0x10000)).
        - rewrite Z.mod_small in He; lia.
        - replace (cur + (d + 1)) with (cur + (d + 1) - 0x10000 + 1 * 0x10000) in He by lia.
          rewrite Z.mod_add, Z.mod_small in He; lia. }
      apply (Hall' ((x - cur) mod 0x10000)).
      * pose proof (Z.mod_pos_bound (x - cur) 0x10000 ltac:(lia)). lia.
      * rewrite Z.add_mod_idemp_r by lia. replace (cur + (x - cur)) with x by lia. by rewrite Z.mod_small by lia.
    + split.
      * split; [done|]. exists (d + 1). split_and!; [lia| |done|done].
        destruct (decide (d + 1 = 0x10000)) as [He|]; [|lia]. destruct Hne. rewrite Hj, He.
        replace (cur + 0x10000) with (cur + 1 * 0x10000) by lia. rewrite Z.mod_add, Z.mod_small; lia.
      * revert Hne. unfold j, PROCESS_COUNT. rewrite Z.geb_leb.
        destruct (Z.leb_spec 0x10000 (i + 1)); intros; repeat case_decide; lia.
Qed.

Lemma spawn_wp q regs av ac cr fds km (Q : Z → sched → Prop) s :
  runq q s → Z.of_nat (length q) < PROCESS_COUNT → 0 <= current_pid s < PROCESS_COUNT →
  kmalloc 1 (sc_km s) = Ok (fds, km) →
  (∀ i s', 0 <= i < PROCESS_COUNT → first_free s (current_pid s) i → runq (q ++ [i]) s' →
     sc_km s' = km → current_pid s' = current_pid s → current_queue_index s' = current_queue_index s →
     (∀ x, proc s' x = if decide (i = x) then
        Process av ac regs cr (PFlags 0 (system (flags (proc s (current_pid s)))) 1 0 1 0)
          fds DEFAULT_FD_MAX 0 0 (current_pid s) 0 0 0 0 0
      else proc s x) → Q i s') →
  ((∀ i, 0 <= i < PROCESS_COUNT → ¬ slot_free s i) → Q (u32 (-1)) s) →
  wp (spawn_new_process regs av ac cr) Q s.
Proof.
  intros Hr Hmax Hcur Hkm Hok Hfull. unfold spawn_new_process. wp.
  apply proc_acquire_wp; [apply Hr|]. wp. apply spawn_slot_wp; [done| |].
  - intros i Hi Hf. wp. apply get_proc_wp; [done|]. wp.
    change ((DEFAULT_FD_MAX * 4 + 4095) / 4096) with 1. rewrite (wp_run _ _ _ _ _ Hkm).
    wp. apply update_proc_wp; [done|]. wp. apply (add_nolock_wp q); [apply Hr|done|].
    unfold proc_release. wp. apply Hok; try done.
    + by apply (runq_app q s).
    + intros x. unfold proc. simpl. rewrite lookup_insert. by case_decide.
  - intros Hno. unfold proc_release. wp.
    replace (set_proc_lock false (set_proc_lock true s)) with s; [by apply Hfull|].
    pose proof (rq_lock _ _ Hr). by destruct s; simpl in *; subst.
Qed.

(** ** Properties *)

(** C6: what [schedule] runs.  On a well-formed scheduler it returns; the
    interrupted process keeps its registers; the process chosen is in the run
    queue (the idle process if the queue was empty), it is never the idle
    process while another one is queued, its page directory is loaded and the
    frame resumed is the one it saved; the queue itself does not change. *)
Theorem schedule_picks_ready q regs s :
  sched_wf q s → NoDup q →
  ∃ r s', schedule regs s = Ok (r, s') ∧ sched_wf (ready q) s' ∧
    current_pid s' ∈ ready q ∧ ((1 < length q)%nat → current_pid s' ≠ 0) ∧
    processes s' = <[current_pid s := set_cpuregs regs (proc s (current_pid s))]> (processes s) ∧
    cr3 (km_pg (sc_km s')) = page_dir (proc s' (current_pid s')) ∧
    r = esp (cpuregs (proc s' (current_pid s'))).
Proof.
  intros Hwf Hnd. apply wp_ok, (schedule_switched_wp q); [done..|]. by intros s' [].
Qed.

Definition sched_example : sched :=
  Sched km_example ∅ {[0 := 5; 1 := 0; 2 := 7]} 3 5 3 0 false.

Lemma sched_example_wf : sched_wf [5; 0; 7] sched_example.
Proof.
  split; [split|unfold PROCESS_COUNT; simpl; lia|simpl; lia].
  - done.
  - unfold PROCESS_COUNT. simpl. lia.
  - intros i x Hx. do 3 (destruct i as [|i]; [by injection Hx as <-|]). done.
  - intros x Hx. rewrite !elem_of_cons in Hx. destruct Hx as [->|[->|[->|Hx]]];
      [unfold PROCESS_COUNT; lia..|]. by apply not_elem_of_nil in Hx.
  - done.
Defined.

Lemma sched_example_nodup : NoDup [5; 0; 7].
Proof. apply (bool_decide_unpack (NoDup [5; 0; 7])). by vm_compute. Defined.

Lemma schedule_picks_ready_witness :
  ∃ r s', schedule zero_regs sched_example = Ok (r, s') ∧ current_pid s' ≠ 0.
Proof.
  destruct (schedule_picks_ready [5; 0; 7] zero_regs sched_example sched_example_wf sched_example_nodup)
    as (r & s' & Hr & _ & _ & Hne & _).
  exists r, s'. split; [exact Hr|]. apply Hne. simpl. lia.
Defined.

(** C26: the round robin is fair.  From any index, every queued process other
    than the idle one is chosen within one more interrupt than the queue is
    long. *)
Theorem schedule_fair q s pid frames :
  sched_wf q s → pid ∈ q → pid ≠ 0 → (length q < length frames)%nat →
  ∃ tr s', ticks frames s = Ok (tr, s') ∧ pid ∈ tr.
Proof.
  intros Hwf [k Hk]%list_elem_of_lookup Hne Hlen.
  assert (q ≠ []) as Hq by (by intros ->). assert (ready q = q) as Hrd by (by destruct q).
  destruct (proj1 (wp_ok _ _ _) (ticks_wp q frames s Hwf Hq)) as (tr & s' & Hr & -> & _).
  eexists _, s'. split; [done|]. destruct Hwf as [_ _ Hci]. rewrite Hrd in Hci.
  apply (visits_wrap q k pid Hk Hne); lia.
Qed.

Lemma schedule_fair_witness :
  ∃ tr s', ticks (repeat zero_regs 4) sched_example = Ok (tr, s') ∧ 5 ∈ tr.
Proof.
  apply (schedule_fair [5; 0; 7] sched_example 5 (repeat zero_regs 4) sched_example_wf).
  - apply elem_of_cons. by left.
  - done.
  - simpl. lia.
Defined.

(** [remove_process_queue] takes exactly the process it is given out of
    the queue, keeping every other one, when the process is queued once. *)
Theorem remove_process_queue_spec q s pid :
  runq q s → NoDup q → pid ∈ q → 0 <= current_queue_index s →
  ∃ q' s', remove_process_queue pid s = Ok (tt, s') ∧ runq q' s' ∧ pid :: q' ≡ₚ q ∧ NoDup q' ∧
    same_rest s s' ∧ 0 <= current_queue_index s' <= current_queue_index s.
Proof.
  intros Hr Hnd [k Hk]%list_elem_of_lookup Hci.
  pose proof (swap_remove_perm q k pid Hk) as Hperm.
  exists (swap_remove q k). apply wp_unit, (remove_wp q pid k); [done..| |done].
  intros s' Hr' Hs Hi. split_and!; [done|by symmetry| |apply Hs..| |].
  - rewrite Hperm in Hnd. by apply NoDup_cons in Hnd as [_ ?].
  - case_decide; lia.
  - case_decide; lia.
Qed.

Lemma remove_process_queue_spec_witness :
  ∃ q' s', remove_process_queue 5 sched_example = Ok (tt, s') ∧ runq q' s' ∧ 5 :: q' ≡ₚ [5; 0; 7].
Proof.
  destruct (remove_process_queue_spec [5; 0; 7] sched_example 5 (sw_runq _ _ sched_example_wf)
    sched_example_nodup) as (q' & s' & Hr & Hq & Hp & _).
  - apply elem_of_cons. by left.
  - done.
  - exists q', s'. exact (conj Hr (conj Hq Hp)).
Defined.

(** Asked to remove a process that is not queued, [remove_process_queue]
    shortens the queue all the same: the last process of the queue is no longer
    scheduled although nobody removed it. *)
Theorem remove_absent_drops_last q x s pid :
  runq (q ++ [x]) s → pid ∉ q ++ [x] →
  ∃ s', remove_process_queue pid s = Ok (tt, s') ∧ runq q s'.
Proof.
  intros Hr Hn. apply wp_unit, (remove_absent_wp (q ++ [x])); [done|by destruct q|done|].
  intros s' Hr' _. rewrite length_app in Hr'. simpl in Hr'.
  replace (length q + 1 - 1)%nat with (length q) in Hr' by lia. by rewrite take_app_length in Hr'.
Qed.

Lemma remove_absent_drops_last_witness :
  ∃ s', remove_process_queue 9 sched_example = Ok (tt, s') ∧ runq [5; 0] s'.
Proof.
  apply (remove_absent_drops_last [5; 0] 7 sched_example 9 (sw_runq _ _ sched_example_wf)).
  simpl. intros Hin. rewrite !elem_of_cons in Hin.
  destruct Hin as [?|[?|[?|Hin]]]; [lia..|by apply not_elem_of_nil in Hin].
Defined.

(** Every queued process occupies its slot. *)
Definition live (q : list Z) (s : sched) : Prop := ∀ x, x ∈ q → ¬ slot_free s x.

(** [spawn_new_process] takes a free slot of the table, if there is one.
    The new process is present, a child of the current one, queued exactly once
    and last; no other entry of the table changes.  With every slot taken the
    result is -1 and nothing changes at all. *)
Theorem spawn_takes_free_slot q s regs av ac cr fds km :
  sched_wf q s → NoDup q → live q s → Z.of_nat (length q) < PROCESS_COUNT →
  kmalloc 1 (sc_km s) = Ok (fds, km) →
  ∃ i s', spawn_new_process regs av ac cr s = Ok (i, s') ∧
    ((i = u32 (-1) ∧ s' = s ∧ ∀ x, 0 <= x < PROCESS_COUNT → ¬ slot_free s x) ∨
     (0 <= i < PROCESS_COUNT ∧ slot_free s i ∧
      sched_wf (q ++ [i]) s' ∧ NoDup (q ++ [i]) ∧ live (q ++ [i]) s' ∧
      parent (proc s' i) = current_pid s ∧ cpuregs (proc s' i) = regs ∧ page_dir (proc s' i) = cr ∧
      file_descriptors (proc s' i) = fds ∧ ∀ x, x ≠ i → proc s' x = proc s x)).
Proof.
  intros [Hr Hcur Hci] Hnd Hlive Hmax Hkm. apply wp_ok.
  apply (spawn_wp q regs av ac cr fds km); [done..| |].
  2: { intros Hno. by left. }
  intros i s' Hi [Hf _] Hr' _ Hc' Hi' Hproc. right.
  assert (i ∉ q) as Hnin by (intros Hin; by apply (Hlive i)).
  assert (∀ x, x ≠ i → proc s' x = proc s x) as Hother.
  { intros x Hx. by rewrite Hproc, decide_False. }
  assert (¬ slot_free s' i) as Hpres by (unfold slot_free; by rewrite Hproc, decide_True).
  pose proof (Hproc i) as Hpi. rewrite decide_True in Hpi by done.
  split; [done|]. split; [done|]. split.
  { split; [done|by rewrite Hc'|]. rewrite Hi'.
    destruct q; simpl in *; rewrite ?length_app; simpl; lia. }
  split.
  { apply NoDup_app. split_and!; [done| |apply NoDup_singleton].
    by intros x Hx ->%list_elem_of_singleton. }
  split.
  { intros x [Hx|Hx%list_elem_of_singleton]%elem_of_app; [|by subst].
    unfold slot_free. rewrite Hother by (intros ->; done). by apply Hlive. }
  rewrite Hpi. by split_and!.
Qed.

(** The queue after [c], at [k], has left it and [p] has joined it. *)
Lemma exit_queue q k c p :
  NoDup q → q !! k = Some c → p ∉ q →
  let q' := swap_remove q k ++ [p] in
  c :: q' ≡ₚ p :: q ∧ NoDup q' ∧ length q' = length q ∧ ready q' = q' ∧ q' ≠ [].
Proof.
  intros Hnd Hk Hpq q'. pose proof (swap_remove_perm q k c Hk) as Hperm.
  assert (c :: q' ≡ₚ p :: q) as Hp'.
  { unfold q'. trans (p :: c :: swap_remove q k); [solve_Permutation|].
    apply Permutation_skip. by symmetry. }
  split_and!; [done| | | |].
  - assert (NoDup (c :: q')) as H%NoDup_cons; [|apply H]. rewrite Hp'. by apply NoDup_cons.
  - apply Permutation_length in Hp'. simpl in Hp'. lia.
  - unfold q'. by destruct (swap_remove q k).
  - unfold q'. by destruct (swap_remove q k).
Qed.

(** The bookkeeping of [thread_exit], before it gives the processor away. *)
Lemma thread_exit_books_wp {A} q s code (K : M sched A) (Q : A → sched → Prop) k :
  let c := current_pid s in let p := parent (proc s c) in
  runq q s → NoDup q → q !! k = Some c → 0 <= current_queue_index s →
  0 <= p < PROCESS_COUNT → p ∉ q → p ≠ c →
  (∀ s', runq (swap_remove q k ++ [p]) s' → current_pid s' = c →
     0 <= current_queue_index s' <= current_queue_index s →
     proc s' c = set_exit_value code (set_flags (set_present 0 (flags (proc s c))) (proc s c)) →
     blocked (flags (proc s' p)) = 0 → wp K Q s') →
  wp (update_proc c (λ p, set_flags (set_present 0 (flags p)) p);;
      update_proc c (set_exit_value code);;
      remove_process_queue c;;
      p ← get_proc c;
      set_pid_unblocked (parent p);; K) Q s.
Proof.
  intros c p Hr Hnd Hk Hci Hp Hpq Hpc HQ.
  assert (0 <= c < PROCESS_COUNT) as Hcur by (apply (rq_pid _ _ Hr); by eapply list_elem_of_lookup_2).
  destruct (exit_queue q k c p Hnd Hk Hpq) as (_ & _ & Hlen & _). rewrite length_app in Hlen. simpl in Hlen.
  wp. apply update_proc_wp; [done|]. wp. apply update_proc_wp; [done|]. wp.
  set (s1 := set_processes _ (set_processes _ s)).
  assert (∀ x, proc s1 x = if decide (c = x) then
    set_exit_value code (set_flags (set_present 0 (flags (proc s c))) (proc s c)) else proc s x) as Hs1.
  { intros x. unfold s1. rewrite proc_insert. case_decide as Hd; rewrite proc_insert.
    - subst. by rewrite decide_True.
    - by rewrite decide_False. }
  apply (remove_wp q c k); [by apply (runq_same q s)|done|done| |simpl; lia].
  intros s2 Hr2 (_ & Hpr2 & _ & Hc2) Hi2.
  assert (∀ x, proc s2 x = proc s1 x) as Hs2 by (intros x; unfold proc; by rewrite Hpr2).
  wp. apply get_proc_wp; [done|]. rewrite Hs2, Hs1, decide_True by done. cbn [parent set_exit_value set_flags].
  unfold set_pid_unblocked. wp. apply update_proc_wp; [done|]. wp.
  apply (add_process_queue_wp (swap_remove q k)); [by apply (runq_same _ s2)|done| |].
  { pose proof (rq_max _ _ Hr). lia. }
  intros s3 Hr3 (_ & Hpr3 & _ & Hc3) Hi3. cbn [current_pid set_processes] in *. apply HQ; [done|by rewrite Hc3, Hc2| | |].
  - rewrite Hi3. simpl. rewrite Hi2. simpl. case_decide; lia.
  - unfold proc at 1. rewrite Hpr3. simpl. rewrite lookup_insert_ne by done. fold (proc s2 c).
    by rewrite Hs2, Hs1, decide_True.
  - unfold proc. rewrite Hpr3. simpl. by rewrite lookup_insert_eq.
Qed.

(** C27: a thread that ends wakes the parent that joined it.  [thread_exit] from
    a queued thread whose parent is blocked leaves a queue in which the thread
    is gone, the parent is back exactly once and everybody else is as before;
    the slot is free, the parent is no longer blocked, the next process is one of the queue, and the
    exit code is what the parent's [thread_join] then reads. *)
Theorem thread_exit_wakes_parent q s code regs :
  sched_wf q s → NoDup q → current_pid s ∈ q →
  let c := current_pid s in let p := parent (proc s c) in
  0 <= p < PROCESS_COUNT → p ∉ q → p ≠ c →
  ∃ r s' q', thread_exit code regs s = Ok (r, s') ∧ sched_wf q' s' ∧ NoDup q' ∧
    c :: q' ≡ₚ p :: q ∧ current_pid s' ∈ q' ∧ slot_free s' c ∧ blocked (flags (proc s' p)) = 0 ∧
    thread_join_result c s' = Ok (code, s').
Proof.
  intros [Hr Hcur Hci] Hnd [k Hk]%list_elem_of_lookup c p Hp Hpq Hpc. fold c in Hcur, Hk.
  destruct (exit_queue q k c p Hnd Hk Hpq) as (Hp' & Hnd' & Hlen & Hrd' & Hne'). set (q' := swap_remove q k ++ [p]) in *.
  assert (ready q = q) as Hrd by (destruct q; [done|done]). rewrite Hrd in Hci.
  cut (wp (thread_exit code regs) (λ r s', sched_wf q' s' ∧ current_pid s' ∈ q' ∧ slot_free s' c ∧
    blocked (flags (proc s' p)) = 0 ∧ exit_value (proc s' c) = code) s).
  { intros (r & s' & Hrun & Hwf' & Hcur' & Hsl & Hbl & Hev)%wp_ok. exists r, s', q'.
    split_and!; try done. unfold thread_join_result. apply wp_pure. wp. by apply get_proc_wp. }
  unfold thread_exit. rewrite wp_bind, wp_gets. apply (thread_exit_books_wp q s code _ _ k); [done..|lia|done|done|done|].
  intros s3 Hr3 Hc3 Hi3 H3c H3p. fold c in H3c, H3p, Hr3. fold p in H3p, Hr3. fold q' in Hr3.
  assert (sched_wf q' s3) as Hwf3 by (split; [done|by rewrite Hc3|rewrite Hrd'; lia]).
  apply (schedule_wp q'); [done|]. intros s4 Hr4 Hd. pose proof (dispatched_wf _ _ _ _ Hwf3 Hr4 Hd) as Hwf4.
  destruct Hd as (Hi4 & Hc4 & Hpr4 & _). rewrite Hrd' in *.
  assert (∀ x, flags (proc s4 x) = flags (proc s3 x) ∧ exit_value (proc s4 x) = exit_value (proc s3 x)) as Hs4.
  { intros x. unfold proc at 1 3. rewrite Hpr4, lookup_insert. case_decide; by subst. }
  destruct (Hs4 c) as [Hfc Hec]. destruct (Hs4 p) as [Hfp _].
  split_and!; [done| | |by rewrite Hfp|by rewrite Hec, H3c].
  - rewrite Hc4. apply rq_at_elem; [done|]. apply rq_next_range; [done|lia].
  - unfold slot_free. by rewrite Hfc, H3c.
Qed.

(** A thread 7 of process 5, which waits for it. *)
Definition sched_joined : sched :=
  Sched km_example {[7 := set_parent 5 zero_process]} {[0 := 7; 1 := 0]} 3 7 2 0 false.

Lemma sched_joined_wf : sched_wf [7; 0] sched_joined.
Proof.
  split; [split|unfold PROCESS_COUNT; simpl; lia|simpl; lia].
  - done.
  - unfold PROCESS_COUNT. simpl. lia.
  - intros i x Hx. do 2 (destruct i as [|i]; [by injection Hx as <-|]). done.
  - intros x Hx. rewrite !elem_of_cons in Hx. destruct Hx as [->|[->|Hx]];
      [unfold PROCESS_COUNT; lia..|]. by apply not_elem_of_nil in Hx.
  - done.
Defined.

Lemma thread_exit_wakes_parent_witness :
  ∃ r s' q', thread_exit 42 zero_regs sched_joined = Ok (r, s') ∧ 7 :: q' ≡ₚ [5; 7; 0] ∧
    thread_join_result 7 s' = Ok (42, s').
Proof.
  destruct (thread_exit_wakes_parent [7; 0] sched_joined 42 zero_regs sched_joined_wf)
    as (r & s' & q' & Hr & _ & _ & Hp & _ & _ & _ & Hj).
  - apply (bool_decide_unpack (NoDup [7; 0])). by vm_compute.
  - apply elem_of_cons. by left.
  - by_computation.
  - by_computation.
  - by_computation.
  - exists r, s', q'. exact (conj Hr (conj Hp Hj)).
Defined.

Definition sched_fresh : sched := Sched km_example {[5 := set_flags (PFlags 0 1 1 0 1 0) zero_process]} {[0 := 5]} 1 5 1 0 false.

Lemma sched_fresh_wf : sched_wf [5] sched_fresh.
Proof.
  split; [split|unfold PROCESS_COUNT; simpl; lia|simpl; lia].
  - done.
  - unfold PROCESS_COUNT. simpl. lia.
  - intros [|i] x Hx; by inversion Hx.
  - intros x ->%list_elem_of_singleton. unfold PROCESS_COUNT. lia.
  - done.
Defined.

Lemma km_example_run1 : ∃ fds km, kmalloc 1 km_example = Ok (fds, km).
Proof.
  destruct (proj1 (wp_ok (kmalloc 1) (λ _ _, True) km_example)) as (a & s1 & Hrun & _); [|by exists a, s1].
  destruct km_example_fits as (? & ? & Hf). destruct km_example_avail as (l & Hnd & Hl & Hall).
  apply kmalloc_wp; [exact km_example_ready|lia| | |done].
  - exists 0xc0000. split_and!; [lia|lia|]. intros j Hj. apply Hf. lia.
  - apply (avail_le _ 4); [simpl; lia|]. by exists l.
Qed.

Lemma spawn_takes_free_slot_witness :
  ∃ i s', spawn_new_process zero_regs 0 0 0x20000 sched_fresh = Ok (i, s').
Proof.
  destruct km_example_run1 as (fds & km & Hkm).
  destruct (spawn_takes_free_slot [5] sched_fresh zero_regs 0 0 0x20000 fds km sched_fresh_wf)
    as (i & s' & Hr & _).
  - apply NoDup_singleton.
  - intros x ->%list_elem_of_singleton. by vm_compute.
  - unfold PROCESS_COUNT. simpl. lia.
  - exact Hkm.
  - exists i, s'. exact Hr.
Defined.
