(* ===== verification/Device.v ===== *)
(** * Block devices behind a file (src/src/kernel/system/vfs.c: fread, fwrite)

    File-system code never sees a disk: it calls [fread] and [fwrite] on a
    file, which hand over to the [read] and [write] of the file's driver
    ([fileops_t]).  This file states what such a driver promises, as a class;
    the FAT32 driver is verified against the class, and the partition driver
    is proved to be an instance of it over any other instance. *)
From S2P Require Import Prelude.

(** [dev_read] is [None] when the driver refuses and leaves the buffer alone.
    Inside of the device a read delivers the bytes, and a write changes exactly
    the bytes it covers. *)
Class BlockDev (D : Type) := {
  dev_ok : D → Prop;
  dev_size : D → Z;
  dev_byte : D → Z → Z;
  dev_read : Z → Z → D → option (list Z);
  dev_write : Z → list Z → D → D;
  dev_byte_u8 d k : dev_ok d → is_u8 (dev_byte d k);
  dev_read_spec d off n : dev_ok d → 0 <= off → 0 < n → off + n <= dev_size d →
    dev_read off n d = Some ((λ k, dev_byte d (off + k)) <$> seqZ 0 n);
  dev_write_ok d off bs : dev_ok d → Forall is_u8 bs → dev_ok (dev_write off bs d);
  dev_write_size d off bs : dev_size (dev_write off bs d) = dev_size d;
  dev_write_spec d off bs k : dev_ok d → Forall is_u8 bs →
    0 <= off → 0 < Z.of_nat (length bs) → off + Z.of_nat (length bs) <= dev_size d →
    dev_byte (dev_write off bs d) k =
      if decide (off <= k < off + Z.of_nat (length bs)) then default 0 (bs !! Z.to_nat (k - off))
      else dev_byte d k;
}.

(** [fread] and [fwrite] with valid pointers: a count of zero does nothing. *)
Definition fread {D} `{BlockDev D} (d : D) (offset count : Z) : option (list Z) :=
  if count =? 0 then None else dev_read offset count d.
Definition fwrite {D} `{BlockDev D} (d : D) (bytes : list Z) (offset : Z) : D :=
  match bytes with
  | [] => d
  | _ => dev_write offset bytes d
  end.

(** ** Bytes and words *)

Definition le16 (b0 b1 : Z) : Z := b0 + Z.shiftl b1 8.
Definition le32 (b0 b1 b2 b3 : Z) : Z := b0 + Z.shiftl b1 8 + Z.shiftl b2 16 + Z.shiftl b3 24.
(** Byte [k] of a 32-bit word. *)
Definition word_byte (w k : Z) : Z := u8 (Z.shiftr w (8 * k)).

Lemma le32_word_byte w :
  is_u32 w → le32 (word_byte w 0) (word_byte w 1) (word_byte w 2) (word_byte w 3) = w.
Proof.
  intros [H0 H1]. unfold le32, word_byte, u8.
  rewrite !Z.shiftl_mul_pow2, !Z.shiftr_div_pow2 by lia.
  change (2 ^ (8 * 0)) with 1. change (2 ^ (8 * 1)) with 256. change (2 ^ (8 * 2)) with 65536.
  change (2 ^ (8 * 3)) with 16777216. change (2 ^ 8) with 256. change (2 ^ 16) with 65536.
  change (2 ^ 24) with 16777216. rewrite Z.div_1_r.
  pose proof (Z.div_mod w 256 ltac:(lia)) as E0.
  pose proof (Z.div_mod (w / 256) 256 ltac:(lia)) as E1. rewrite Z.div_div in E1 by lia.
  pose proof (Z.div_mod (w / (256 * 256)) 256 ltac:(lia)) as E2. rewrite Z.div_div in E2 by lia.
  change (256 * 256) with 65536 in *. change (65536 * 256) with 16777216 in *.
  assert (w / 16777216 < 256) by (apply Z.div_lt_upper_bound; lia).
  pose proof (Z.div_pos w 16777216 ltac:(lia) ltac:(lia)).
  rewrite (Z.mod_small (w / 16777216)) by lia. lia.
Qed.

Lemma is_u8_word_byte w k : is_u8 (word_byte w k).
Proof. apply is_u8_u8. Qed.

Lemma le32_u32 b0 b1 b2 b3 : is_u8 b0 → is_u8 b1 → is_u8 b2 → is_u8 b3 → is_u32 (le32 b0 b1 b2 b3).
Proof. unfold is_u8, is_u32, le32. rewrite !Z.shiftl_mul_pow2 by lia. lia. Qed.

Section device.
Context {D : Type} `{BlockDev D}.

(** The little-endian word at byte [off]. *)
Definition dev_word (d : D) (off : Z) : Z :=
  le32 (dev_byte d off) (dev_byte d (off + 1)) (dev_byte d (off + 2)) (dev_byte d (off + 3)).

Lemma dev_word_u32 d off : dev_ok d → is_u32 (dev_word d off).
Proof. intros Hd. apply le32_u32; by apply dev_byte_u8. Qed.

Lemma fread_spec d off n :
  dev_ok d → 0 <= off → 0 < n → off + n <= dev_size d →
  fread d off n = Some ((λ k, dev_byte d (off + k)) <$> seqZ 0 n).
Proof.
  intros. unfold fread. rewrite (proj2 (Z.eqb_neq _ _)) by lia. by apply dev_read_spec.
Qed.

Lemma fwrite_ok d bs off : dev_ok d → Forall is_u8 bs → dev_ok (fwrite d bs off).
Proof. intros. unfold fwrite. destruct bs; [done|]. by apply dev_write_ok. Qed.
Lemma fwrite_size d bs off : dev_size (fwrite d bs off) = dev_size d.
Proof. unfold fwrite. destruct bs; [done|]. apply dev_write_size. Qed.
Lemma fwrite_spec d bs off k :
  dev_ok d → Forall is_u8 bs → 0 <= off → off + Z.of_nat (length bs) <= dev_size d →
  dev_byte (fwrite d bs off) k =
    if decide (off <= k < off + Z.of_nat (length bs)) then default 0 (bs !! Z.to_nat (k - off))
    else dev_byte d k.
Proof.
  intros Hd Hb Ho Hs. unfold fwrite. destruct bs as [|b bs]; [by rewrite decide_False by (simpl; lia)|].
  by apply dev_write_spec.
Qed.
End device.

(** Element [k] of a list given by a function. *)
Lemma lookup_fmap_seqZ (f : Z → Z) n k :
  0 <= k < n → (f <$> seqZ 0 n) !! Z.to_nat k = Some (f k).
Proof.
  intros Hk. rewrite list_lookup_fmap, lookup_seqZ_lt by lia. simpl. f_equal. f_equal. lia.
Qed.
Lemma length_fmap_seqZ (f : Z → Z) n : 0 <= n → Z.of_nat (length (f <$> seqZ 0 n)) = n.
Proof. intros. rewrite length_fmap, length_seqZ. lia. Qed.

(** ** A plain disk *)

Record disk := Disk { disk_size : Z; disk_bytes : gmap Z Z }.

Fixpoint store_bytes (off : Z) (bs : list Z) (m : gmap Z Z) : gmap Z Z :=
  match bs with
  | [] => m
  | b :: bs => store_bytes (off + 1) bs (<[off := b]> m)
  end.

Lemma store_bytes_get off bs m k :
  store_bytes off bs m !0 k =
    if decide (off <= k < off + Z.of_nat (length bs)) then default 0 (bs !! Z.to_nat (k - off)) else m !0 k.
Proof.
  revert off m. induction bs as [|b bs IH]; intros off m; simpl; [by rewrite decide_False by lia|].
  rewrite IH. destruct (decide (off + 1 <= k < off + 1 + Z.of_nat (length bs))).
  - rewrite decide_True by lia. replace (Z.to_nat (k - off)) with (S (Z.to_nat (k - (off + 1)))) by lia. done.
  - destruct (decide (k = off)) as [->|].
    + rewrite decide_True by lia. by rewrite Z.sub_diag, zget_insert_eq.
    + rewrite decide_False by lia. by rewrite zget_insert_ne by lia.
Qed.

Definition bytes_ok (m : gmap Z Z) : Prop := ∀ k, is_u8 (m !0 k).

Lemma store_bytes_ok off bs m : bytes_ok m → Forall is_u8 bs → bytes_ok (store_bytes off bs m).
Proof.
  intros Hm Hb k. rewrite store_bytes_get. case_decide; [|apply Hm].
  destruct (bs !! _) eqn:E; simpl; [|by_computation].
  rewrite Forall_forall in Hb. apply Hb. by eapply list_elem_of_lookup_2.
Qed.

(** A disk that refuses what does not fit on it. *)
#[export, refine] Instance disk_dev : BlockDev disk := {|
  dev_ok d := bytes_ok (disk_bytes d);
  dev_size := disk_size;
  dev_byte d k := disk_bytes d !0 k;
  dev_read off n d :=
    if bool_decide (0 <= off ∧ off + n <= disk_size d)
    then Some ((λ k, disk_bytes d !0 (off + k)) <$> seqZ 0 n) else None;
  dev_write off bs d :=
    if bool_decide (0 <= off ∧ off + Z.of_nat (length bs) <= disk_size d)
    then Disk (disk_size d) (store_bytes off bs (disk_bytes d)) else d;
|}.
Proof.
  - auto.
  - intros d off n _ Ho Hn Hs. by rewrite bool_decide_eq_true_2.
  - intros d off bs Hd Hb. case_bool_decide; [|done]. by apply store_bytes_ok.
  - intros d off bs. by case_bool_decide.
  - intros d off bs k Hd Hb Ho Hn Hs. rewrite bool_decide_eq_true_2 by done. apply store_bytes_get.
Defined.
