(* ===== verification/PartMgr.v ===== *)
(** * The partition manager (src/src/kmodules/partition_mgr.c)

    Reads the partition table of a new disk, keeps the partitions it finds and
    serves reads and writes of a partition by translating them to the disk. *)
From S2P Require Import Prelude Device.

(** ** Partitions as devices *)

(** An open partition: its disk, the disk's block size, and the entry of the
    partition table. *)
Record part (D : Type) := Part {
  p_parent : D;
  p_block_size : Z;
  start_lba : Z;
  sector_count : Z;
}.
Arguments Part {D}.
Arguments p_parent {D}.
Arguments p_block_size {D}.
Arguments start_lba {D}.
Arguments sector_count {D}.

Section partition.
Context {D : Type} `{BlockDev D}.
Implicit Types p : part D.

(** The bound both functions test, a 32-bit sum of a sector number and a number
    of bytes. *)
Definition part_limit p : Z := u32 (start_lba p + u32 (sector_count p * 512)).
Definition part_offset p (offset : Z) : Z := u64 (offset + u32 (start_lba p * p_block_size p)).

Definition read_part (offset count : Z) p : option (list Z) :=
  if count =? 0 then None
  else if u64 (count + offset) >? part_limit p then None
  else dev_read (part_offset p offset) count (p_parent p).

Definition write_part (offset : Z) (bytes : list Z) p : part D :=
  let count := Z.of_nat (length bytes) in
  if count =? 0 then p
  else if u64 (count + offset) >? part_limit p then p
  else Part (dev_write (part_offset p offset) bytes (p_parent p)) (p_block_size p)
         (start_lba p) (sector_count p).

(** The table entry describes sectors the disk has, and the 32-bit sums the
    driver computes do not wrap. *)
Record part_ok p : Prop := {
  po_dev : dev_ok (p_parent p);
  po_block : p_block_size p = 512;
  po_start : 0 <= start_lba p;
  po_count : 0 <= sector_count p;
  po_limit : start_lba p + sector_count p * 512 < 2 ^ 32;
  po_addr : start_lba p * 512 < 2 ^ 32;
  po_fits : (start_lba p + sector_count p) * 512 <= dev_size (p_parent p);
}.

Lemma part_limit_eq p : part_ok p → part_limit p = start_lba p + sector_count p * 512.
Proof.
  intros []. unfold part_limit. rewrite (u32_id (sector_count p * 512)) by (unfold is_u32; lia).
  apply u32_id. unfold is_u32. lia.
Qed.
Lemma part_offset_eq p off : part_ok p → 0 <= off < 2 ^ 40 → part_offset p off = start_lba p * 512 + off.
Proof.
  intros [] Ho. unfold part_offset. rewrite po_block0, u32_id by (unfold is_u32; lia).
  unfold u64. rewrite Z.mod_small; lia.
Qed.

Lemma in_part_limit p off n :
  part_ok p → 0 <= off → 0 < n → off + n <= start_lba p + sector_count p * 512 →
  (u64 (n + off) >? part_limit p) = false.
Proof.
  intros Hp Ho Hn Hs. rewrite part_limit_eq by done. destruct Hp.
  unfold u64. rewrite Z.mod_small, Z.gtb_ltb by lia. apply Z.ltb_ge. lia.
Qed.

Lemma write_part_in p off bs :
  part_ok p → 0 <= off → 0 < Z.of_nat (length bs) →
  off + Z.of_nat (length bs) <= start_lba p + sector_count p * 512 →
  write_part off bs p =
    Part (dev_write (start_lba p * 512 + off) bs (p_parent p)) (p_block_size p) (start_lba p) (sector_count p).
Proof.
  intros Hp Ho Hn Hs. unfold write_part. rewrite (proj2 (Z.eqb_neq _ _)) by lia.
  rewrite in_part_limit by done. destruct Hp eqn:E. by rewrite part_offset_eq by (done || lia).
Qed.
Lemma read_part_in p off n :
  part_ok p → 0 <= off → 0 < n → off + n <= start_lba p + sector_count p * 512 →
  read_part off n p = dev_read (start_lba p * 512 + off) n (p_parent p).
Proof.
  intros Hp Ho Hn Hs. unfold read_part. rewrite (proj2 (Z.eqb_neq _ _)) by lia.
  rewrite in_part_limit by done. destruct Hp eqn:E. by rewrite part_offset_eq by (done || lia).
Qed.
End partition.

(** A partition of a device is a device: what the FAT32 driver needs of the
    file it is mounted on. *)
#[export, refine] Instance part_dev {D} `{BlockDev D} : BlockDev (part D) := {|
  dev_ok := part_ok;
  dev_size p := sector_count p * 512;
  dev_byte p k := dev_byte (p_parent p) (start_lba p * 512 + k);
  dev_read := read_part;
  dev_write := write_part;
|}.
Proof.
  - intros p k []. by apply dev_byte_u8.
  - intros p off n Hp Ho Hn Hs. rewrite read_part_in by (done || destruct Hp; lia).
    destruct Hp. rewrite dev_read_spec by (done || lia). f_equal. apply list_fmap_ext.
    intros _ k _. f_equal. lia.
  - intros p off bs Hp Hb. unfold write_part. repeat case_match; try done.
    destruct Hp. split; try done; simpl; [by apply dev_write_ok|by rewrite dev_write_size].
  - intros p off bs. unfold write_part. by repeat case_match.
  - intros p off bs k Hp Hb Ho Hn Hs. rewrite write_part_in by (done || destruct Hp; lia).
    destruct Hp. simpl. rewrite dev_write_spec by (done || lia).
    repeat case_decide; try lia; try done. do 3 f_equal. lia.
Defined.

(** ** The partition table *)

Record ptentry := PTEntry { pt_flags : Z; pt_type : Z; pt_lba : Z; pt_count : Z }.

Definition byte_at (bs : list Z) (i : Z) : Z := default 0 (bs !! Z.to_nat i).

Definition mbr_entry (mbr : list Z) (i : Z) : ptentry :=
  let o := 446 + 16 * i in
  PTEntry (byte_at mbr o) (byte_at mbr (o + 4))
    (le32 (byte_at mbr (o + 8)) (byte_at mbr (o + 9)) (byte_at mbr (o + 10)) (byte_at mbr (o + 11)))
    (le32 (byte_at mbr (o + 12)) (byte_at mbr (o + 13)) (byte_at mbr (o + 14)) (byte_at mbr (o + 15))).
Definition mbr_sig (mbr : list Z) : Z := le16 (byte_at mbr 510) (byte_at mbr 511).

Definition pt_end (e : ptentry) : Z := u32 (pt_lba e + pt_count e).
Definition pt_overlap (a b : ptentry) : bool := (pt_lba a <? pt_end b) && (pt_lba b <? pt_end a).

(** The validation loop from entry [i] on, [n] entries left; the result is
    (use_gpt, mbr_is_valid, found_valid_partition). *)
Fixpoint mbr_scan (t : Z → ptentry) (n : nat) (i : Z) (found : bool) : bool * bool * bool :=
  match n with
  | O => (false, true, found)
  | S n =>
      if pt_type (t i) =? 0xee then (true, true, found)
      else if negb (pt_flags (t i) =? 0) && negb (pt_flags (t i) =? 0x80) then (false, false, found)
      else
        let found := found || (negb (pt_count (t i) =? 0) && negb (pt_lba (t i) =? 0)) in
        if existsb (λ j, pt_overlap (t i) (t j) && negb (i =? j)) [0; 1; 2; 3]
        then (false, false, found)
        else mbr_scan t n (i + 1) found
  end.

(** Status and the partitions found, in table order.  [stale] is what the page
    for the boot sector held before. *)
Definition detect_partitions {D} `{BlockDev D} (file : D) (stale : list Z) : Z * list (Z * Z) :=
  let mbr := default stale (fread file 0 512) in
  if negb (mbr_sig mbr =? 0xaa55) then (-1, [])
  else
    let t := mbr_entry mbr in
    let '(use_gpt, valid, found) := mbr_scan t 4 0 false in
    if negb valid || negb found then (-1, [])
    else if use_gpt then (-2, [])
    else (0, omap (λ i, if pt_count (t i) =? 0 then None else Some (pt_lba (t i), pt_count (t i)))
               [0; 1; 2; 3]).

(** ** Disks that come and go *)

Definition MAX_REFERENCES : Z := 32.

(** A slot holds the file of a disk (a pointer, 0 when the slot is free) and the
    partitions found on it. *)
Record pref := PRef { pr_parent : Z; pr_parts : list (Z * Z) }.
Definition no_ref : pref := PRef 0 [].

Record partmgr := PartMgr {
  disk_references : gmap Z pref;
  partition_lock : bool;
}.
Definition ref_at (s : partmgr) (i : Z) : pref := default no_ref (disk_references s !! i).
Definition set_ref (i : Z) (r : pref) (s : partmgr) : partmgr :=
  PartMgr (<[i := r]> (disk_references s)) (partition_lock s).
Definition set_plock (b : bool) (s : partmgr) : partmgr := PartMgr (disk_references s) b.
Definition plock_acquire : M partmgr unit :=
  held ← gets partition_lock; if held then fail Deadlock else modify (set_plock true).
Definition plock_release : M partmgr unit := modify (set_plock false).

Section manager.
Context {D : Type} `{BlockDev D}.
(** The device behind a file pointer, and the fresh page. *)
Variable device_of : Z → D.
Variable stale : list Z.

Definition device_add (file : Z) : M partmgr unit :=
  plock_acquire;;
  for_loop 0 MAX_REFERENCES (λ i,
    r ← gets (λ s, ref_at s i);
    if negb (pr_parent r =? 0) then mret None
    else
      modify (set_ref i (PRef file []));;
      let '(result, parts) := detect_partitions (device_of file) stale in
      (if negb (result =? 0) then modify (set_ref i no_ref)
       else modify (set_ref i (PRef file parts)));;
      mret (Some tt));;
  plock_release.

(** The files of the partitions are deleted through the module interface. *)
Definition device_remove (file : Z) : M partmgr unit :=
  plock_acquire;;
  for_loop 0 MAX_REFERENCES (λ i,
    r ← gets (λ s, ref_at s i);
    if pr_parent r =? file then modify (set_ref i no_ref);; mret (Some tt)
    else mret None);;
  plock_release.

(** The table is a fresh array, of which [init] clears the files. *)
Definition init : M partmgr unit :=
  plock_release;;
  for_all 0 MAX_REFERENCES (λ i,
    r ← gets (λ s, ref_at s i);
    modify (set_ref i (PRef 0 (pr_parts r)))).

Definition MESSAGE_DEVICE_ADD : Z := 4.
Definition MESSAGE_DEVICE_REMOVE : Z := 5.
Definition message_handler (message file : Z) : M partmgr Z :=
  when ((message =? MESSAGE_DEVICE_ADD) || (message =? MESSAGE_DEVICE_REMOVE))
    (if message =? MESSAGE_DEVICE_ADD then device_add file else device_remove file);;
  mret (-1).
End manager.

Lemma init_frees s :
  ∃ s', init s = Ok (tt, s') ∧ partition_lock s' = false ∧ ∀ i, 0 <= i < MAX_REFERENCES → pr_parent (ref_at s' i) = 0.
Proof.
  apply wp_unit. unfold init, plock_release. rewrite wp_bind, wp_modify.
  apply (wp_for_all (λ k s', partition_lock s' = false ∧ ∀ i, 0 <= i < k → pr_parent (ref_at s' i) = 0)); [done| | |].
  - split; [done|lia].
  - intros k s' Hk [Hl Hf]. rewrite wp_bind, wp_gets, wp_modify. split; [done|]. intros i Hi. unfold ref_at. cbn [disk_references set_ref].
    destruct (decide (i = k)) as [->|]; [by rewrite lookup_insert_eq|]. rewrite lookup_insert_ne by done. apply Hf. lia.
  - intros s' [Hl Hf]. by split.
Qed.

(** ** Properties *)

(** C28: a partition keeps to itself.  A write inside of a partition is read
    back unchanged through it, keeps the partition well formed, and changes no
    byte of the disk outside of the partition's sectors. *)
Theorem partition_write_isolated (p : part disk) off bs :
  part_ok p → Forall is_u8 bs → 0 <= off → (0 < length bs)%nat →
  off + Z.of_nat (length bs) <= sector_count p * 512 →
  part_ok (write_part off bs p) ∧
  read_part off (Z.of_nat (length bs)) (write_part off bs p) = Some bs ∧
  ∀ k, ¬ (start_lba p * 512 <= k < (start_lba p + sector_count p) * 512) →
    dev_byte (p_parent (write_part off bs p)) k = dev_byte (p_parent p) k.
Proof.
  intros Hp Hb Ho Hn Hs.
  assert (part_ok (write_part off bs p)) as Hp' by exact (dev_write_ok (D := part disk) p off bs Hp Hb).
  split_and!; [done| |].
  - pose proof (dev_read_spec (D := part disk) (write_part off bs p) off (Z.of_nat (length bs)) Hp' Ho
      ltac:(lia)) as Hr. change (dev_read off) with (read_part (D := disk) off) in Hr.
    rewrite Hr by exact (eq_ind_r (λ x, off + Z.of_nat (length bs) <= x) Hs
      (dev_write_size (D := part disk) p off bs)). f_equal.
    apply list_eq. intros i. destruct (decide (i < length bs)%nat) as [Hi|Hi].
    + pose proof (lookup_fmap_seqZ (λ k, dev_byte (write_part off bs p) (off + k)) (Z.of_nat (length bs))
        (Z.of_nat i) ltac:(lia)) as Hl. rewrite Nat2Z.id in Hl. rewrite Hl.
      pose proof (dev_write_spec (D := part disk) p off bs (off + Z.of_nat i) Hp Hb Ho ltac:(lia) Hs) as Hw.
      rewrite decide_True in Hw by lia. change (dev_write off bs p) with (write_part off bs p) in Hw.
      rewrite Hw. replace (Z.to_nat (off + Z.of_nat i - off)) with i by lia.
      by destruct (lookup_lt_is_Some_2 bs i Hi) as [x ->].
    + rewrite !lookup_ge_None_2; [done|lia|rewrite length_fmap, length_seqZ; lia].
  - intros k Hk. destruct Hp eqn:E. rewrite write_part_in by (done || lia). cbn [p_parent].
    rewrite dev_write_spec by (done || lia). by rewrite decide_False by lia.
Qed.

Definition part_example : part disk := Part (Disk 8192 ∅) 512 2 4.

Lemma part_example_ok : part_ok part_example.
Proof. split; [|by_computation..]. intros k. by_computation. Defined.

Lemma partition_write_isolated_witness :
  read_part 2046 2 (write_part 2046 [1; 2] part_example) = Some [1; 2].
Proof.
  apply (partition_write_isolated part_example 2046 [1; 2] part_example_ok).
  - repeat constructor; by_computation.
  - lia.
  - simpl. lia.
  - by_computation.
Defined.

(** The bound of [write_part] is in the wrong unit.  It adds the first
    sector's number to the size in bytes, so a write just behind the partition
    is accepted and lands on the disk. *)
Theorem write_part_past_end (p : part disk) b :
  part_ok p → is_u8 b → 0 < start_lba p →
  (start_lba p + sector_count p) * 512 < dev_size (p_parent p) →
  dev_byte (p_parent (write_part (sector_count p * 512) [b] p))
    ((start_lba p + sector_count p) * 512) = b.
Proof.
  intros Hp Hb Hs Hd. destruct Hp eqn:E. rewrite write_part_in by (done || simpl; lia). cbn [p_parent].
  rewrite dev_write_spec; [|done|by apply Forall_singleton|lia|simpl; lia|simpl length; lia].
  rewrite decide_True by (simpl length; lia).
  by replace (Z.to_nat _) with O by lia.
Qed.

Lemma write_part_past_end_witness :
  dev_byte (p_parent (write_part 2048 [0xaa] part_example)) 3072 = 0xaa.
Proof. apply (write_part_past_end part_example 0xaa part_example_ok); by_computation. Defined.

(** ** What the table must look like *)

(** The sums of an entry fit into 32 bits. *)
Definition entry_fits (e : ptentry) : Prop := 0 <= pt_lba e ∧ 0 <= pt_count e ∧ pt_lba e + pt_count e < 2 ^ 32.
(** One entry ends before the other begins. *)
Definition entries_apart (a b : ptentry) : Prop := pt_lba a + pt_count a <= pt_lba b ∨ pt_lba b + pt_count b <= pt_lba a.
(** A sector belongs to an entry. *)
Definition in_entry (e : ptentry) (x : Z) : Prop := pt_lba e <= x < pt_lba e + pt_count e.

(** A usable table of four entries. *)
Record table_ok (t : Z → ptentry) : Prop := {
  to_kind i : 0 <= i < 4 → pt_type (t i) ≠ 0xee;
  to_flags i : 0 <= i < 4 → pt_flags (t i) = 0 ∨ pt_flags (t i) = 0x80;
  to_some : ∃ i, 0 <= i < 4 ∧ pt_count (t i) ≠ 0 ∧ pt_lba (t i) ≠ 0;
  to_apart i j : 0 <= i < 4 → 0 <= j < 4 → i ≠ j → entries_apart (t i) (t j);
}.

Lemma apart_no_sector a b x : entries_apart a b → in_entry a x → ¬ in_entry b x.
Proof. unfold entries_apart, in_entry. lia. Qed.

(** When nothing wraps, the test of the source is the one on true intervals. *)
Lemma pt_overlap_apart a b : entry_fits a → entry_fits b → pt_overlap a b = false ↔ entries_apart a b.
Proof.
  intros (? & ? & ?) (? & ? & ?). unfold pt_overlap, pt_end, entries_apart.
  rewrite !u32_id, andb_false_iff, !Z.ltb_ge by (unfold is_u32; lia). lia.
Qed.

(** The scan goes on over an entry, and an entry that counts as a partition. *)
Definition entry_good (t : Z → ptentry) (i : Z) : Prop :=
  pt_type (t i) ≠ 0xee ∧ (pt_flags (t i) = 0 ∨ pt_flags (t i) = 0x80) ∧ ∀ j, 0 <= j < 4 → i ≠ j → pt_overlap (t i) (t j) = false.
Definition entry_counts (e : ptentry) : bool := negb (pt_count e =? 0) && negb (pt_lba e =? 0).

Lemma existsb_four (f : Z → bool) : existsb f [0; 1; 2; 3] = true ↔ ∃ j, 0 <= j < 4 ∧ f j = true.
Proof.
  rewrite existsb_exists. split.
  - intros (j & Hj & Hf). exists j. split; [|done]. simpl in Hj. lia.
  - intros (j & Hj & Hf). exists j. split; [|done]. simpl. lia.
Qed.

Lemma mbr_scan_good t n i found :
  (∀ k, i <= k < i + Z.of_nat n → entry_good t k) →
  mbr_scan t n i found = (false, true, found || existsb (λ k, entry_counts (t k)) (seqZ i (Z.of_nat n))).
Proof.
  revert i found. induction n as [|n IH]; intros i found Hgood; cbn [mbr_scan]; [by rewrite seqZ_nil, orb_false_r by lia|].
  destruct (Hgood i ltac:(lia)) as (Hty & Hfl & Hov). rewrite (proj2 (Z.eqb_neq _ _) Hty).
  assert (negb (pt_flags (t i) =? 0) && negb (pt_flags (t i) =? 0x80) = false) as -> by (by destruct Hfl as [-> | ->]).
  destruct (existsb (λ j, pt_overlap (t i) (t j) && negb (i =? j)) [0; 1; 2; 3]) eqn:Hex.
  { apply existsb_four in Hex as (j & Hj & [Ho Hne]%andb_prop). apply negb_true_iff, Z.eqb_neq in Hne. by rewrite Hov in Ho. }
  rewrite IH by (intros; apply Hgood; lia). rewrite (seqZ_cons i) by lia. cbn [existsb].
  replace (Z.pred (Z.of_nat (S n))) with (Z.of_nat n) by lia. change (Z.succ i) with (i + 1). by rewrite orb_assoc.
Qed.

Lemma mbr_scan_valid t n i found found' :
  mbr_scan t n i found = (false, true, found') → ∀ k, i <= k < i + Z.of_nat n → entry_good t k.
Proof.
  revert i found. induction n as [|n IH]; intros i found; cbn [mbr_scan]; [lia|].
  destruct (Z.eqb_spec (pt_type (t i)) 0xee) as [|Hty]; [done|].
  destruct (negb _ && negb _) eqn:Hfl; [done|].
  destruct (existsb (λ j, pt_overlap (t i) (t j) && negb (i =? j)) [0; 1; 2; 3]) eqn:Hov; [done|]. intros Hscan k Hk.
  destruct (decide (k = i)) as [->|]; [|apply (IH _ _ Hscan); lia]. split_and!; [done| |].
  - destruct (Z.eqb_spec (pt_flags (t i)) 0); [by left|]. destruct (Z.eqb_spec (pt_flags (t i)) 0x80); [by right|done].
  - intros j Hj Hne. destruct (pt_overlap (t i) (t j)) eqn:Ho; [|done]. rewrite <- not_true_iff_false, existsb_four in Hov.
    destruct Hov. exists j. by rewrite Ho, (proj2 (Z.eqb_neq _ _)) by done.
Qed.

(** The scan accepts exactly the usable tables. *)
Lemma mbr_scan_ok t :
  (∀ i, 0 <= i < 4 → entry_fits (t i)) → mbr_scan t 4 0 false = (false, true, true) ↔ table_ok t.
Proof.
  intros Hfit.
  assert (existsb (λ k, entry_counts (t k)) (seqZ 0 (Z.of_nat 4)) = true ↔ ∃ i, 0 <= i < 4 ∧ pt_count (t i) ≠ 0 ∧ pt_lba (t i) ≠ 0) as Hsome.
  { change (seqZ 0 (Z.of_nat 4)) with [0; 1; 2; 3]. rewrite existsb_four. unfold entry_counts.
    setoid_rewrite andb_true_iff. setoid_rewrite negb_true_iff. by setoid_rewrite Z.eqb_neq. }
  split.
  - intros Hscan. pose proof (mbr_scan_valid t 4 0 false true Hscan) as Hgood. rewrite mbr_scan_good in Hscan by done.
    injection Hscan as Hex. split.
    + intros i Hi. by apply Hgood.
    + intros i Hi. by apply Hgood.
    + by apply Hsome.
    + intros i j Hi Hj Hne. apply pt_overlap_apart; [by apply Hfit..|]. by apply Hgood.
  - intros [Hk Hf Hs Hap]. rewrite mbr_scan_good.
    + by rewrite (proj2 Hsome Hs).
    + intros k Hk'. split_and!; [by apply Hk|by apply Hf|]. intros j Hj Hne. apply pt_overlap_apart; [by apply Hfit..|]. by apply Hap.
Qed.

(** The entries with sectors, in the order of the table. *)
Definition table_partitions (t : Z → ptentry) : list (Z * Z) :=
  omap (λ i, if pt_count (t i) =? 0 then None else Some (pt_lba (t i), pt_count (t i))) [0; 1; 2; 3].

(** C29: what [detect_partitions] accepts.  For a table whose entries end below 2^32, status
    0 is returned exactly when the boot sector has its signature, no entry is of the GPT
    kind, the flags of every entry are 0 or 0x80, some entry has sectors and does not start at
    sector 0, and of any two entries one ends before the other begins, so that no
    sector belongs to two of them; the partitions registered are then the entries with
    sectors, in order. *)
Theorem detect_partitions_exact (file : disk) stale parts :
  let mbr := default stale (fread file 0 512) in
  let t := mbr_entry mbr in
  (∀ i, 0 <= i < 4 → entry_fits (t i)) →
  (detect_partitions file stale = (0, parts) ↔ mbr_sig mbr = 0xaa55 ∧ table_ok t ∧ parts = table_partitions t) ∧
  (detect_partitions file stale = (0, parts) → ∀ i j x, 0 <= i < 4 → 0 <= j < 4 → in_entry (t i) x → in_entry (t j) x → i = j).
Proof.
  intros mbr t Hfit.
  assert (detect_partitions file stale = (0, parts) ↔ mbr_sig mbr = 0xaa55 ∧ table_ok t ∧ parts = table_partitions t) as Hiff.
  { rewrite <- (mbr_scan_ok t Hfit). unfold detect_partitions. fold mbr t. fold (table_partitions t).
    destruct (Z.eqb_spec (mbr_sig mbr) 0xaa55) as [Hsig|Hsig]; cbn [negb]; [|split; [done|by intros [? _]]].
    destruct (mbr_scan t 4 0 false) as [[use_gpt valid] found].
    destruct valid, found, use_gpt; cbn [negb orb]; (split; [by intros [=]|by intros (_ & [=] & ->)]). }
  split; [exact Hiff|]. intros (_ & Ht & _)%Hiff i j x Hi Hj Hx Hx'. destruct (decide (i = j)) as [|Hne]; [done|].
  by destruct (apart_no_sector (t i) (t j) x (to_apart _ Ht i j Hi Hj Hne) Hx).
Qed.

(** A disk whose boot sector has one Linux partition, sectors 2 to 5. *)
Definition mbr_disk : disk :=
  Disk 8192 {[450 := 0x83; 454 := 2; 458 := 4; 510 := 0x55; 511 := 0xaa]}.

(** A disk whose boot sector has two Linux partitions, sectors 2 to 5 and 6 to 9. *)
Definition mbr_two_disk : disk :=
  Disk 8192 {[450 := 0x83; 454 := 2; 458 := 4; 466 := 0x83; 470 := 6; 474 := 4; 510 := 0x55; 511 := 0xaa]}.

Lemma detect_partitions_exact_witness :
  detect_partitions mbr_two_disk [] = (0, [(2, 4); (6, 4)]) ∧
  ¬ in_entry (mbr_entry (default [] (fread mbr_two_disk 0 512)) 1) 5.
Proof.
  assert (detect_partitions mbr_two_disk [] = (0, [(2, 4); (6, 4)])) as Hd by (vm_compute; reflexivity).
  destruct (detect_partitions_exact mbr_two_disk [] [(2, 4); (6, 4)]) as [_ Hap].
  - intros i Hi. assert (i = 0 ∨ i = 1 ∨ i = 2 ∨ i = 3) as [->|[->|[->| ->]]] by lia; by_computation.
  - split; [exact Hd|]. intros Hx. assert (0 = 1) as E; [|discriminate E]. apply (Hap Hd 0 1 5); [lia|lia|by_computation|exact Hx].
Defined.

(** An entry whose end wraps hides another one: sectors 16 up to 2^32 + 7, and 32 to 35. *)
Definition wrapped_disk : disk :=
  Disk 8192 {[450 := 0x83; 454 := 16; 458 := 0xf8; 459 := 0xff; 460 := 0xff; 461 := 0xff; 466 := 0x83; 470 := 32; 474 := 4;
              510 := 0x55; 511 := 0xaa]}.
Lemma detect_partitions_wrapped : detect_partitions wrapped_disk [] = (0, [(16, 0xfffffff8); (32, 4)]).
Proof. vm_compute. reflexivity. Qed.
