(* ===== verification/Fat32.v ===== *)
(** * The FAT32 driver (src/src/kmodules/fs_driver.c)

    The allocation table through its one-window cache, cluster chains, and
    reading a file.  The functions act on one mount (the source selects it with
    [mount_index]); the device below is any [BlockDev]. *)
From S2P Require Import Prelude Device.

Definition FAT32_EOC_MIN : Z := 0x0FFFFFF8.
Definition FAT32_EOC : Z := 0x0FFFFFFF.
Definition FAT_CACHE_SIZE_ENTRIES : Z := 16384.

(** The fields of the boot sector the driver uses. *)
Record fat32_bpb := BPB {
  bytes_per_sector : Z;
  sectors_per_cluster : Z;
  reserved_sectors : Z;
  fat_count : Z;
  sectors_per_fat : Z;
  sector_count : Z;
  root_dir_cluster : Z;
}.

(** ** Tables of words *)

Fixpoint words_of (bs : list Z) : list Z :=
  match bs with
  | b0 :: b1 :: b2 :: b3 :: bs => le32 b0 b1 b2 b3 :: words_of bs
  | _ => []
  end.
Fixpoint bytes_of (ws : list Z) : list Z :=
  match ws with
  | [] => []
  | w :: ws => word_byte w 0 :: word_byte w 1 :: word_byte w 2 :: word_byte w 3 :: bytes_of ws
  end.

Lemma length_bytes_of ws : length (bytes_of ws) = (4 * length ws)%nat.
Proof. induction ws; simpl; lia. Qed.
Lemma bytes_of_u8 ws : Forall is_u8 (bytes_of ws).
Proof. induction ws; simpl; repeat constructor; try apply is_u8_word_byte; done. Qed.

Lemma bytes_of_lookup ws i w k :
  ws !! i = Some w → (k < 4)%nat → bytes_of ws !! (4 * i + k)%nat = Some (word_byte w (Z.of_nat k)).
Proof.
  revert i. induction ws as [|x ws IH]; intros i Hi Hk; [done|]. destruct i as [|i].
  - injection Hi as ->. do 4 (destruct k as [|k]; [done|]). lia.
  - replace (4 * S i + k)%nat with (S (S (S (S (4 * i + k))))) by lia. simpl. by apply IH.
Qed.

Lemma words_of_lookup bs i b0 b1 b2 b3 :
  bs !! (4 * i)%nat = Some b0 → bs !! (4 * i + 1)%nat = Some b1 →
  bs !! (4 * i + 2)%nat = Some b2 → bs !! (4 * i + 3)%nat = Some b3 →
  words_of bs !! i = Some (le32 b0 b1 b2 b3).
Proof.
  revert bs. induction i as [|i IH]; intros bs H0 H1 H2 H3.
  - destruct bs as [|? [|? [|? [|? bs]]]]; try done. simpl in *. congruence.
  - replace (4 * S i)%nat with (S (S (S (S (4 * i))))) in H0 by lia.
    replace (4 * S i + 1)%nat with (S (S (S (S (4 * i + 1))))) in H1 by lia.
    replace (4 * S i + 2)%nat with (S (S (S (S (4 * i + 2))))) in H2 by lia.
    replace (4 * S i + 3)%nat with (S (S (S (S (4 * i + 3))))) in H3 by lia.
    destruct bs as [|? [|? [|? [|? bs]]]]; try done. simpl in *. by apply IH.
Qed.

Lemma length_words_of bs n : length bs = (4 * n)%nat → length (words_of bs) = n.
Proof.
  revert bs. induction n as [|n IH]; intros bs Hl.
  - by destruct bs.
  - destruct bs as [|? [|? [|? [|? bs]]]]; simpl in *; try lia. rewrite (IH bs); lia.
Qed.

(** ** A mount *)

Record fat_mount (D : Type) := FatMount {
  bpb : fat32_bpb;
  mount_src : D;
  src_block_size : Z;
  cache_dirty : bool;
  spinlock : bool;
  fat_search_start : Z;
  fat_start_sector : Z;
  data_start_sector : Z;
  fat_cache_start : Z;
  fat_cache_size : Z;
  fat_cache : option (list Z);
}.
Arguments FatMount {D}.
Arguments bpb {D}.
Arguments mount_src {D}.
Arguments src_block_size {D}.
Arguments cache_dirty {D}.
Arguments spinlock {D}.
Arguments fat_search_start {D}.
Arguments fat_start_sector {D}.
Arguments data_start_sector {D}.
Arguments fat_cache_start {D}.
Arguments fat_cache_size {D}.
Arguments fat_cache {D}.

Section driver.
Context {D : Type} `{BlockDev D}.
Notation mount := (fat_mount D).
Implicit Types m : mount.

(** What a page array holds when it has just been allocated. *)
Variable fresh : list Z.

Definition set_src (d : D) m : mount :=
  FatMount (bpb m) d (src_block_size m) (cache_dirty m) (spinlock m) (fat_search_start m)
    (fat_start_sector m) (data_start_sector m) (fat_cache_start m) (fat_cache_size m) (fat_cache m).
Definition set_cache (c : option (list Z)) m : mount :=
  FatMount (bpb m) (mount_src m) (src_block_size m) (cache_dirty m) (spinlock m) (fat_search_start m)
    (fat_start_sector m) (data_start_sector m) (fat_cache_start m) (fat_cache_size m) c.
Definition set_window (start size : Z) (dirty : bool) m : mount :=
  FatMount (bpb m) (mount_src m) (src_block_size m) dirty (spinlock m) (fat_search_start m)
    (fat_start_sector m) (data_start_sector m) start size (fat_cache m).
Definition set_dirty (b : bool) m : mount :=
  FatMount (bpb m) (mount_src m) (src_block_size m) b (spinlock m) (fat_search_start m)
    (fat_start_sector m) (data_start_sector m) (fat_cache_start m) (fat_cache_size m) (fat_cache m).
Definition set_search (i : Z) m : mount :=
  FatMount (bpb m) (mount_src m) (src_block_size m) (cache_dirty m) (spinlock m) i
    (fat_start_sector m) (data_start_sector m) (fat_cache_start m) (fat_cache_size m) (fat_cache m).

(** Byte offset of the window that starts at entry [min]. *)
Definition fat_offset m (min : Z) : Z :=
  u32 (u32 (fat_start_sector m * src_block_size m) + u32 (min * 4)).

Definition recache_fat32_table (index : Z) : M mount unit :=
  c ← gets fat_cache;
  let new_allocation := match c with None => true | Some _ => false end in
  when new_allocation (modify (set_cache (Some fresh)));;
  min_fat_index ← gets fat_cache_start;
  dirty ← gets cache_dirty;
  when (negb new_allocation && dirty)
    (modify (λ m, set_src (fwrite (mount_src m) (bytes_of (default [] (fat_cache m)))
                             (fat_offset m min_fat_index)) m));;
  let min_fat_index := Z.land index (u32 (- FAT_CACHE_SIZE_ENTRIES)) in
  modify (set_window min_fat_index FAT_CACHE_SIZE_ENTRIES false);;
  modify (λ m,
    match fread (mount_src m) (fat_offset m min_fat_index) (FAT_CACHE_SIZE_ENTRIES * 4) with
    | Some bs => set_cache (Some (words_of bs)) m
    | None => m
    end).

Definition fat32_check_bounds (index : Z) m : bool :=
  if fat_cache_size m =? 0 then false
  else
    let min_fat_index := fat_cache_start m in
    let max_fat_index := u32 (min_fat_index + fat_cache_size m) in
    negb ((index <? min_fat_index) || (index >=? max_fat_index)).

Definition cache_read (i : Z) : M mount Z := λ m,
  match fat_cache m with
  | Some c => match c !! Z.to_nat i with Some x => Ok (x, m) | None => Err (OutOfBounds i) end
  | None => Err (PageFault (4 * i))
  end.
Definition cache_write (i x : Z) : M mount unit := λ m,
  match fat_cache m with
  | Some c =>
      if bool_decide (0 <= i < Z.of_nat (length c))
      then Ok (tt, set_cache (Some (<[Z.to_nat i := x]> c)) m) else Err (OutOfBounds i)
  | None => Err (PageFault (4 * i))
  end.

Definition fat32_set_next_cluster (index value : Z) : M mount unit :=
  inb ← gets (fat32_check_bounds index);
  when (negb inb) (recache_fat32_table index);;
  min_fat_index ← gets fat_cache_start;
  modify (set_dirty true);;
  cache_write (u32 (index - min_fat_index)) value;;
  modify (set_search index).

Definition fat32_get_next_cluster (index : Z) : M mount Z :=
  inb ← gets (fat32_check_bounds index);
  when (negb inb) (recache_fat32_table index);;
  min_fat_index ← gets fat_cache_start;
  cache_read (u32 (index - min_fat_index)).

Definition cluster_limit m : Z :=
  u32 (sector_count (bpb m) - reserved_sectors (bpb m) - u32 (fat_count (bpb m) * sectors_per_fat (bpb m)))
  / sectors_per_cluster (bpb m).

(** 0 when no cluster is free. *)
Definition fat32_get_free_cluster : M mount Z :=
  search_start ← gets fat_search_start;
  entry_count ← gets cluster_limit;
  r ← for_loop search_start entry_count (λ i,
        x ← fat32_get_next_cluster i;
        if x =? 0 then modify (set_search i);; mret (Some i) else mret None);
  mret (default 0 r).

(** ** Reading a file *)

Definition cluster_size_bytes m : Z := bytes_per_sector (bpb m) * sectors_per_cluster (bpb m).

(** Where a cluster's data starts; the 32-bit product is widened afterwards. *)
Definition read_offset m (cluster : Z) : Z :=
  u64 (u32 (u32 (cluster - 2) * cluster_size_bytes m)
       + u32 (data_start_sector m * bytes_per_sector (bpb m))).

(** [fread] into a caller's buffer, which is a map from offsets to bytes. *)
Definition fread_into (buf : gmap Z Z) (pos offset count : Z) m : gmap Z Z :=
  match fread (mount_src m) offset count with
  | Some bs => store_bytes pos bs buf
  | None => buf
  end.

(** The walk to the cluster the read starts in; [None] when the chain ends. *)
Definition seek_cluster (first : Z) (n : Z) : M mount (option Z) :=
  r ← fora_loop 0 n (λ _ current,
        next ← fat32_get_next_cluster current;
        if next >=? FAT32_EOC_MIN then mret (inr tt) else mret (inl next)) first;
  mret (match r with inl c => Some c | inr _ => None end).

(** The loop over whole clusters: [i] counts them, [base] is the start of the
    part of the buffer it fills. *)
Definition read_clusters (base clusters_to_read count : Z) (current remaining : Z) (buf : gmap Z Z)
    : M mount (Z * gmap Z Z) :=
  csz ← gets cluster_size_bytes;
  loop fuel32 (λ '(i, current, remaining, buf),
    if remaining >? 0 then
      m ← gets id;
      let part := if remaining <? csz then remaining else csz in
      let buf := fread_into buf (base + i * csz) (read_offset m current) part m in
      let remaining := if remaining <? csz then 0 else remaining - csz in
      next ← fat32_get_next_cluster current;
      if (next >=? FAT32_EOC_MIN) && (i <? u32 (clusters_to_read - 1)) then mret (inr ((i + 1) * csz, buf))
      else mret (inl (i + 1, next, remaining, buf))
    else mret (inr (count, buf))) (0, current, remaining, buf).

(** [udiv64] of modlib.h: [divl] raises the divide error when the quotient does
    not fit 32 bits. *)
Definition udiv64 (dividend divisor : Z) : M mount Z :=
  if bool_decide (0 < divisor ∧ dividend / divisor < 2 ^ 32) then mret (dividend / divisor)
  else fail DivideError.

(** The value returned and the buffer, for an open file that starts at
    [first_cluster]. *)
Definition fat32_read (first_cluster : Z) (buf : gmap Z Z) (offset count : Z) : M mount (Z * gmap Z Z) :=
  csz ← gets cluster_size_bytes;
  clusters_until_start ← udiv64 offset csz;
  clusters_to_read ← udiv64 (u64 (count + csz - 1)) csz;
  start ← seek_cluster first_cluster clusters_until_start;
  match start with
  | None => mret (0, buf)
  | Some current =>
      let offset_in_cluster := Z.land offset (csz - 1) in
      if offset_in_cluster =? 0 then read_clusters 0 clusters_to_read count current count buf
      else
        m ← gets id;
        let here := csz - offset_in_cluster in
        let buf := fread_into buf 0 (read_offset m current + offset_in_cluster)
                     (if here >? count then count else here) m in
        if here >? count then mret (count, buf)
        else
          next ← fat32_get_next_cluster current;
          let remaining := count - here in
          if next >=? FAT32_EOC_MIN then mret (count - remaining, buf)
          else read_clusters here clusters_to_read count next remaining buf
  end.

(** ** The table the cache and the device stand for *)

(** The table is cached in windows; [limit] entries of it, a whole number of
    windows, lie on the device below 4 GiB. *)
Variable limit : Z.

Definition fat_start m : Z := fat_start_sector m * src_block_size m.

Record fat_geom m : Prop := {
  fg_dev : dev_ok (mount_src m);
  fg_limit : 0 <= limit ∧ limit mod FAT_CACHE_SIZE_ENTRIES = 0;
  fg_start : 0 <= fat_start m;
  fg_end : fat_start m + 4 * limit <= dev_size (mount_src m);
  fg_32 : fat_start m + 4 * limit < 2 ^ 32;
}.

(** The table entry on the device. *)
Definition disk_entry m (i : Z) : Z := dev_word (mount_src m) (fat_start m + 4 * i).

(** A window that is in use, and what a clean one holds. *)
Record window_ok m (c : list Z) : Prop := {
  wo_size : fat_cache_size m = FAT_CACHE_SIZE_ENTRIES;
  wo_start : 0 <= fat_cache_start m ∧ fat_cache_start m mod FAT_CACHE_SIZE_ENTRIES = 0;
  wo_end : fat_cache_start m + FAT_CACHE_SIZE_ENTRIES <= limit;
  wo_len : Z.of_nat (length c) = FAT_CACHE_SIZE_ENTRIES;
  wo_u32 : Forall is_u32 c;
  wo_clean : cache_dirty m = false →
    ∀ k x, c !! k = Some x → x = disk_entry m (fat_cache_start m + Z.of_nat k);
}.

Definition cache_ok m : Prop :=
  match fat_cache m with
  | None => fat_cache_size m = 0
  | Some c => window_ok m c
  end.

Definition in_window m (i : Z) : Prop :=
  fat_cache_start m <= i < fat_cache_start m + fat_cache_size m.
#[local] Instance in_window_dec m i : Decision (in_window m i).
Proof. unfold in_window. apply _. Defined.

Definition fat_entry m (i : Z) : Z :=
  match fat_cache m with
  | Some c => if decide (in_window m i) then default 0 (c !! Z.to_nat (i - fat_cache_start m)) else disk_entry m i
  | None => disk_entry m i
  end.

(** The mount holds the table [F]. *)
Record fat_repr (F : Z → Z) m : Prop := {
  fr_geom : fat_geom m;
  fr_cache : cache_ok m;
  fr_entry i : 0 <= i < limit → fat_entry m i = F i;
}.

(** Everything a table access leaves alone. *)
Record same_mount m m' : Prop := {
  sm_bpb : bpb m' = bpb m;
  sm_block : src_block_size m' = src_block_size m;
  sm_lock : spinlock m' = spinlock m;
  sm_fat : fat_start_sector m' = fat_start_sector m;
  sm_data : data_start_sector m' = data_start_sector m;
  sm_size : dev_size (mount_src m') = dev_size (mount_src m);
  sm_bytes k : ¬ (fat_start m <= k < fat_start m + 4 * limit) →
    dev_byte (mount_src m') k = dev_byte (mount_src m) k;
}.

Lemma same_mount_refl m : same_mount m m.
Proof. by split. Qed.
Lemma same_mount_trans m1 m2 m3 : same_mount m1 m2 → same_mount m2 m3 → same_mount m1 m3.
Proof.
  intros [A1 A2 A3 A4 A5 A6 H1] [B1 B2 B3 B4 B5 B6 H2].
  split; [by rewrite B1|by rewrite B2|by rewrite B3|by rewrite B4|by rewrite B5|by rewrite B6|].
  intros k Hk. rewrite H2; [by apply H1|]. unfold fat_start in *. congruence.
Qed.

Lemma fat_offset_eq m i :
  fat_geom m → 0 <= i → i + FAT_CACHE_SIZE_ENTRIES <= limit → fat_offset m i = fat_start m + 4 * i.
Proof.
  intros [? ? ? ? ?] Hi Hl. unfold FAT_CACHE_SIZE_ENTRIES in *. unfold fat_offset. fold (fat_start m).
  rewrite (u32_id (fat_start m)), (u32_id (i * 4)), u32_id by (unfold is_u32; lia). lia.
Qed.

Lemma window_of i :
  0 <= i < limit → limit mod FAT_CACHE_SIZE_ENTRIES = 0 → limit < 2 ^ 32 →
  let w := Z.land i (u32 (- FAT_CACHE_SIZE_ENTRIES)) in
  w = i / FAT_CACHE_SIZE_ENTRIES * FAT_CACHE_SIZE_ENTRIES ∧
  0 <= w ∧ w mod FAT_CACHE_SIZE_ENTRIES = 0 ∧ w <= i < w + FAT_CACHE_SIZE_ENTRIES ∧
  w + FAT_CACHE_SIZE_ENTRIES <= limit.
Proof.
  intros Hi Hm Hl w. unfold FAT_CACHE_SIZE_ENTRIES in *.
  assert (w = i / 16384 * 16384) as Hw.
  { unfold w. exact (land_high i 14 ltac:(unfold is_u32; lia) ltac:(lia)). }
  pose proof (Z.div_mod i 16384 ltac:(lia)). pose proof (Z.mod_pos_bound i 16384 ltac:(lia)).
  pose proof (Z.div_mod limit 16384 ltac:(lia)). rewrite Hw.
  split_and!; try lia. apply Z.mod_mul. lia.
Qed.

(** Reading a window gives the words of the device. *)
Lemma window_read m w :
  fat_geom m → 0 <= w → w + FAT_CACHE_SIZE_ENTRIES <= limit →
  ∃ bs, fread (mount_src m) (fat_start m + 4 * w) (FAT_CACHE_SIZE_ENTRIES * 4) = Some bs ∧
    Z.of_nat (length (words_of bs)) = FAT_CACHE_SIZE_ENTRIES ∧
    ∀ k, 0 <= k < FAT_CACHE_SIZE_ENTRIES →
      words_of bs !! Z.to_nat k = Some (disk_entry m (w + k)).
Proof.
  intros [Hd _ Hs He _] Hw Hl. set (n := FAT_CACHE_SIZE_ENTRIES * 4).
  assert (0 < n) by (unfold n, FAT_CACHE_SIZE_ENTRIES; lia).
  exists ((λ k, dev_byte (mount_src m) (fat_start m + 4 * w + k)) <$> seqZ 0 n). split_and!.
  - apply fread_spec; [done|lia|done|]. unfold n. lia.
  - rewrite (length_words_of _ (Z.to_nat FAT_CACHE_SIZE_ENTRIES)).
    + unfold FAT_CACHE_SIZE_ENTRIES. lia.
    + rewrite length_fmap, length_seqZ. unfold n, FAT_CACHE_SIZE_ENTRIES. lia.
  - intros k Hk. unfold disk_entry, dev_word.
    assert (∀ j, (j < 4)%nat → ((λ k, dev_byte (mount_src m) (fat_start m + 4 * w + k)) <$> seqZ 0 n)
      !! (4 * Z.to_nat k + j)%nat = Some (dev_byte (mount_src m) (fat_start m + 4 * (w + k) + Z.of_nat j))) as Hb.
    { intros j Hj. replace (4 * Z.to_nat k + j)%nat with (Z.to_nat (4 * k + Z.of_nat j)) by lia.
      rewrite lookup_fmap_seqZ by (unfold n; lia). do 2 f_equal. lia. }
    pose proof (Hb 0%nat ltac:(lia)) as B0. rewrite Nat.add_0_r in B0. change (Z.of_nat 0) with 0 in B0.
    rewrite Z.add_0_r in B0. apply words_of_lookup; [done|apply (Hb 1%nat)|apply (Hb 2%nat)|apply (Hb 3%nat)]; lia.
Qed.

(** Writing a window back puts its words on the device and nothing else. *)
Lemma window_write m c w :
  fat_geom m → 0 <= w → w + FAT_CACHE_SIZE_ENTRIES <= limit →
  Z.of_nat (length c) = FAT_CACHE_SIZE_ENTRIES → Forall is_u32 c →
  let d := fwrite (mount_src m) (bytes_of c) (fat_start m + 4 * w) in
  dev_ok d ∧ dev_size d = dev_size (mount_src m) ∧
  (∀ k, ¬ (fat_start m + 4 * w <= k < fat_start m + 4 * (w + FAT_CACHE_SIZE_ENTRIES)) →
     dev_byte d k = dev_byte (mount_src m) k) ∧
  ∀ i, dev_word d (fat_start m + 4 * i) =
    if decide (w <= i < w + FAT_CACHE_SIZE_ENTRIES) then default 0 (c !! Z.to_nat (i - w))
    else disk_entry m i.
Proof.
  intros [Hd _ Hs He _] Hw Hl Hlen Hu d.
  assert (Z.of_nat (length (bytes_of c)) = 4 * FAT_CACHE_SIZE_ENTRIES) as Hbl by (rewrite length_bytes_of; lia).
  assert (∀ k, dev_byte d k = if decide (fat_start m + 4 * w <= k < fat_start m + 4 * w + 4 * FAT_CACHE_SIZE_ENTRIES)
    then default 0 (bytes_of c !! Z.to_nat (k - (fat_start m + 4 * w))) else dev_byte (mount_src m) k) as Hbyte.
  { intros k. unfold d. rewrite fwrite_spec by (done || apply bytes_of_u8 || lia). by rewrite Hbl. }
  split_and!; [by apply fwrite_ok, bytes_of_u8|apply fwrite_size| |].
  - intros k Hk. rewrite Hbyte, decide_False by lia. done.
  - intros i. unfold dev_word, disk_entry. rewrite !Hbyte.
    destruct (decide (w <= i < w + FAT_CACHE_SIZE_ENTRIES)) as [Hi|Hi].
    + rewrite !decide_True by lia. destruct (lookup_lt_is_Some_2 c (Z.to_nat (i - w))) as [x Hx]; [lia|].
      rewrite Hx. simpl.
      assert (∀ j, (j < 4)%nat → bytes_of c !! Z.to_nat (fat_start m + 4 * i + Z.of_nat j - (fat_start m + 4 * w))
        = Some (word_byte x (Z.of_nat j))) as Hb.
      { intros j Hj. replace (Z.to_nat _) with (4 * Z.to_nat (i - w) + j)%nat by lia. by apply bytes_of_lookup. }
      pose proof (Hb 0%nat ltac:(lia)) as B0. change (Z.of_nat 0) with 0 in B0. rewrite Z.add_0_r in B0.
      pose proof (Hb 1%nat ltac:(lia)) as B1. pose proof (Hb 2%nat ltac:(lia)) as B2.
      pose proof (Hb 3%nat ltac:(lia)) as B3.
      change (Z.of_nat 1) with 1 in B1. change (Z.of_nat 2) with 2 in B2. change (Z.of_nat 3) with 3 in B3.
      rewrite B0, B1, B2, B3. simpl.
      apply le32_word_byte. rewrite Forall_forall in Hu. apply Hu. by eapply list_elem_of_lookup_2.
    + by rewrite !decide_False by lia.
Qed.

(** ** The cache refines the table *)

Definition windowed (w : Z) m : Prop :=
  fat_cache_start m = w ∧ fat_cache_size m = FAT_CACHE_SIZE_ENTRIES.

Lemma fat_entry_in m c i :
  fat_cache m = Some c → in_window m i → fat_entry m i = default 0 (c !! Z.to_nat (i - fat_cache_start m)).
Proof. intros Hc Hi. unfold fat_entry. by rewrite Hc, decide_True. Qed.
Lemma fat_entry_out m i : ¬ in_window m i → fat_entry m i = disk_entry m i.
Proof. intros Hi. unfold fat_entry. destruct (fat_cache m); [|done]. by rewrite decide_False. Qed.

Lemma fat_entry_disk m i : cache_ok m → cache_dirty m = false ∨ fat_cache m = None → fat_entry m i = disk_entry m i.
Proof.
  intros Hc Hcl. unfold fat_entry, cache_ok in *. destruct (fat_cache m) as [c|]; [|done].
  case_decide as Hin; [|done]. destruct Hcl as [Hcl|]; [|done]. destruct Hc as [Hs _ _ Hl _ Hd].
  unfold in_window in Hin. rewrite Hs in Hin.
  destruct (lookup_lt_is_Some_2 c (Z.to_nat (i - fat_cache_start m))) as [x Hx]; [lia|].
  rewrite Hx. simpl. rewrite (Hd Hcl _ _ Hx). f_equal. lia.
Qed.

(** After the write-back the device alone holds the table. *)
Lemma writeback_repr F m :
  fat_repr F m →
  let m' := match fat_cache m with
            | Some c => if cache_dirty m then set_src (fwrite (mount_src m) (bytes_of c)
                                                         (fat_offset m (fat_cache_start m))) m else m
            | None => m
            end in
  fat_geom m' ∧ same_mount m m' ∧ fat_cache_start m' = fat_cache_start m ∧
  ∀ i, 0 <= i < limit → disk_entry m' i = F i.
Proof.
  intros [Hg Hc He]. cbn zeta.
  assert (fat_cache m = None ∨ cache_dirty m = false →
    fat_geom m ∧ same_mount m m ∧ fat_cache_start m = fat_cache_start m ∧
    ∀ i, 0 <= i < limit → disk_entry m i = F i) as Hclean.
  { intros Hcl. split_and!; [done|apply same_mount_refl|done|]. intros i Hi.
    rewrite <- He by done. symmetry. apply fat_entry_disk; [done|tauto]. }
  destruct (fat_cache m) as [c|] eqn:Hcache; [|by apply Hclean; left].
  destruct (cache_dirty m) eqn:Hdirty; [|by apply Hclean; right]. clear Hclean.
  unfold cache_ok in Hc. rewrite Hcache in Hc. destruct Hc as [Hsz [Hs0 Hsm] Hend Hlen Hu _].
  rewrite fat_offset_eq by done.
  destruct (window_write m c (fat_cache_start m) Hg Hs0 Hend Hlen Hu) as (Hdok & Hdsz & Hdb & Hdw).
  set (d := fwrite _ _ _) in *. split_and!.
  - destruct Hg. split; try done. change (dev_size (mount_src (set_src d m))) with (dev_size d). by rewrite Hdsz.
  - split; try done. intros k Hk. change (mount_src (set_src d m)) with d. apply Hdb. lia.
  - done.
  - intros i Hi. unfold disk_entry. change (mount_src (set_src d m)) with d.
    change (fat_start (set_src d m)) with (fat_start m). rewrite Hdw, <- He by done.
    unfold fat_entry. rewrite Hcache. destruct (decide (in_window m i)) as [Hin|Hin]; unfold in_window in Hin;
      rewrite Hsz in Hin; [rewrite decide_True|rewrite decide_False]; done.
Qed.

Lemma recache_wp F m index :
  fat_repr F m → 0 <= index < limit →
  wp (recache_fat32_table index) (λ _ m',
    fat_repr F m' ∧ same_mount m m' ∧ fat_search_start m' = fat_search_start m ∧
    windowed (index / FAT_CACHE_SIZE_ENTRIES * FAT_CACHE_SIZE_ENTRIES) m') m.
Proof.
  intros Hr Hi. pose proof (fr_geom _ _ Hr) as Hg0.
  destruct (window_of index) as (Hw & Hw0 & Hwm & Hwi & Hwl);
    [done|apply Hg0|destruct Hg0; lia|].
  pose proof (writeback_repr F m Hr) as Hwb. cbn zeta in Hwb.
  unfold recache_fat32_table. wp.
  set (w := Z.land index _) in *.
  (* the mount just before the new window is read *)
  set (m1 := match fat_cache m with
             | Some c => if cache_dirty m then set_src (fwrite (mount_src m) (bytes_of c)
                            (fat_offset m (fat_cache_start m))) m else m
             | None => set_cache (Some fresh) m
             end).
  assert (fat_geom m1 ∧ same_mount m m1 ∧ (∀ i, 0 <= i < limit → disk_entry m1 i = F i) ∧
    fat_search_start m1 = fat_search_start m) as (Hg & Hsame & Hdisk & Hsearch).
  { unfold m1. destruct (fat_cache m) eqn:E; [destruct (cache_dirty m)|].
    - destruct Hwb as (? & ? & _ & ?). done.
    - destruct Hwb as (? & ? & _ & ?). done.
    - destruct Hwb as (Hg & Hs & _ & Hd). split_and!; [destruct Hg; by split|by split|exact Hd|done]. }
  assert (wp (modify (set_window w FAT_CACHE_SIZE_ENTRIES false);;
    modify (λ m, match fread (mount_src m) (fat_offset m w) (FAT_CACHE_SIZE_ENTRIES * 4) with
      | Some bs => set_cache (Some (words_of bs)) m | None => m end)) (λ _ m',
    fat_repr F m' ∧ same_mount m m' ∧ fat_search_start m' = fat_search_start m ∧ windowed w m') m1) as Hfin.
  { wp. change (fat_offset (set_window w FAT_CACHE_SIZE_ENTRIES false m1) w) with (fat_offset m1 w).
    change (mount_src (set_window _ _ _ m1)) with (mount_src m1). rewrite fat_offset_eq by done.
    destruct (window_read m1 w Hg Hw0 Hwl) as (bs & -> & Hlen & Hwords). split_and!; [|by destruct Hsame; split|done..].
    assert (cache_ok (set_cache (Some (words_of bs)) (set_window w FAT_CACHE_SIZE_ENTRIES false m1))) as Hok.
    { split; try done.
      - apply Forall_lookup. intros k x Hx. apply lookup_lt_Some in Hx as Hlt.
        rewrite <- (Nat2Z.id k) in Hx. rewrite Hwords in Hx by lia. injection Hx as <-.
        apply dev_word_u32, Hg.
      - intros _ k x Hx. apply lookup_lt_Some in Hx as Hlt.
        rewrite <- (Nat2Z.id k) in Hx. rewrite Hwords in Hx by lia. by injection Hx as <-. }
    split; [destruct Hg; by split|done|]. intros i Hil. rewrite fat_entry_disk by (done || by left). by apply Hdisk. }
  rewrite <- Hw. revert Hfin. unfold m1.
  destruct (fat_cache m) as [c|] eqn:Hcache; cbn [negb andb]; wp.
  - destruct (cache_dirty m); wp; [|auto].
    change (default [] (Some c)) with c. auto.
  - cbn [cache_dirty set_cache]. auto.
Qed.

Lemma check_bounds_spec m i :
  fat_geom m → cache_ok m → 0 <= i < limit →
  fat32_check_bounds i m = true ↔ ∃ c, fat_cache m = Some c ∧ in_window m i.
Proof.
  intros Hg Hc Hi. unfold fat32_check_bounds, cache_ok, in_window in *. destruct (fat_cache m) as [c|].
  2: { rewrite Hc. split; [done|by intros (? & ? & _)]. }
  destruct Hc as [Hs [Hs0 _] Hend _ _ _]. rewrite Hs. unfold FAT_CACHE_SIZE_ENTRIES in *. simpl (_ =? _).
  rewrite u32_id by (unfold is_u32; destruct Hg; lia).
  rewrite negb_true_iff, orb_false_iff, Z.ltb_ge, Z.geb_leb, Z.leb_gt. split; [|by intros (? & _ & ?)].
  intros [? ?]. by exists c.
Qed.

(** Both accessors first bring the window to the entry. *)
Lemma ensure_window_wp F m i (Q : unit → mount → Prop) :
  fat_repr F m → 0 <= i < limit →
  (∀ m' c, fat_repr F m' → same_mount m m' → fat_search_start m' = fat_search_start m →
     fat_cache m' = Some c → in_window m' i → Q tt m') →
  wp (inb ← gets (fat32_check_bounds i); when (negb inb) (recache_fat32_table i)) Q m.
Proof.
  intros Hr Hi HQ. wp. pose proof (check_bounds_spec m i (fr_geom _ _ Hr) (fr_cache _ _ Hr) Hi) as Hcb.
  destruct (fat32_check_bounds i m); simpl; wp.
  - destruct (proj1 Hcb eq_refl) as (c & Hc & Hin). by apply (HQ m c).
  - eapply wp_mono; [by apply (recache_wp F)|]. intros [] m' (Hr' & Hs & Hse & Hst & Hsz).
    destruct (window_of i) as (Hw & _ & _ & Hwi & _); [done|apply Hr|destruct (fr_geom _ _ Hr); lia|].
    pose proof (fr_cache _ _ Hr') as Hc. unfold cache_ok in Hc. destruct (fat_cache m') as [c|] eqn:Hcache.
    + apply (HQ m' c); try done. unfold in_window. rewrite Hst, Hsz, <- Hw. done.
    + unfold windowed in *. rewrite Hsz in Hc. done.
Qed.

Lemma window_index m c i :
  window_ok m c → in_window m i →
  0 <= i - fat_cache_start m < Z.of_nat (length c) ∧ u32 (i - fat_cache_start m) = i - fat_cache_start m.
Proof.
  intros [Hs _ _ Hl _ _] Hin. unfold in_window in Hin. rewrite Hs in Hin. split; [lia|].
  apply u32_id. unfold is_u32, FAT_CACHE_SIZE_ENTRIES in *. lia.
Qed.

Lemma get_next_wp F m i (Q : Z → mount → Prop) :
  fat_repr F m → 0 <= i < limit →
  (∀ m', fat_repr F m' → same_mount m m' → fat_search_start m' = fat_search_start m → Q (F i) m') →
  wp (fat32_get_next_cluster i) Q m.
Proof.
  intros Hr Hi HQ. unfold fat32_get_next_cluster.
  pose proof (ensure_window_wp F m i (λ _ m', wp (min ← gets fat_cache_start; cache_read (u32 (i - min))) Q m') Hr Hi)
    as Hens. autorewrite with wp in Hens |- *. apply Hens. clear Hens.
  intros m' c Hr' Hs Hse Hc Hin. wp. pose proof (fr_cache _ _ Hr') as Hok. unfold cache_ok in Hok. rewrite Hc in Hok.
  destruct (window_index m' c i Hok Hin) as [Hb Hu]. unfold wp, cache_read. rewrite Hc, Hu.
  destruct (lookup_lt_is_Some_2 c (Z.to_nat (i - fat_cache_start m'))) as [x Hx]; [lia|]. rewrite Hx.
  assert (x = F i) as ->; [|by apply HQ]. rewrite <- (fr_entry _ _ Hr') by done.
  by rewrite (fat_entry_in m' c i), Hx.
Qed.

Lemma cache_write_wp i x c (Q : unit → mount → Prop) m :
  fat_cache m = Some c → 0 <= i < Z.of_nat (length c) →
  Q tt (set_cache (Some (<[Z.to_nat i := x]> c)) m) → wp (cache_write i x) Q m.
Proof. intros Hc Hi HQ. unfold wp, cache_write. by rewrite Hc, bool_decide_eq_true_2. Qed.

Lemma set_next_wp F m i v (Q : unit → mount → Prop) :
  fat_repr F m → 0 <= i < limit → is_u32 v →
  (∀ m', fat_repr (λ j, if decide (j = i) then v else F j) m' → same_mount m m' →
     fat_search_start m' = i → Q tt m') →
  wp (fat32_set_next_cluster i v) Q m.
Proof.
  intros Hr Hi Hv HQ. unfold fat32_set_next_cluster.
  pose proof (ensure_window_wp F m i (λ _ m', wp (min ← gets fat_cache_start; modify (set_dirty true);;
    cache_write (u32 (i - min)) v;; modify (set_search i)) Q m') Hr Hi) as Hens.
  autorewrite with wp in Hens |- *. apply Hens. clear Hens.
  intros m' c Hr' Hs Hse Hc Hin. wp. pose proof (fr_cache _ _ Hr') as Hok. unfold cache_ok in Hok. rewrite Hc in Hok.
  destruct (window_index m' c i Hok Hin) as [Hb Hu]. rewrite Hu.
  apply (cache_write_wp _ _ c); [done|done|]. wp. set (k := Z.to_nat (i - fat_cache_start m')).
  apply HQ; [|by destruct Hs; split|done]. destruct Hok as [? ? ? Hl Hu32 _].
  split; [destruct (fr_geom _ _ Hr'); by split| |].
  - split; try done; [by rewrite length_insert|by apply Forall_insert].
  - intros j Hj. set (m2 := set_search i _). rewrite <- (fr_entry _ _ Hr' j Hj).
    destruct (decide (in_window m' j)) as [Hw|Hw].
    + rewrite (fat_entry_in m2 (<[k := v]> c) j), (fat_entry_in m' c j) by done.
      change (fat_cache_start m2) with (fat_cache_start m'). case_decide as Hji.
      * subst j. rewrite list_lookup_insert_eq; [done|]. unfold k. lia.
      * rewrite list_lookup_insert_ne; [done|]. unfold k, in_window in *. lia.
    + rewrite (fat_entry_out m2 j), (fat_entry_out m' j) by done. rewrite decide_False; [done|]. by intros ->.
Qed.

(** ** Files as chains of clusters *)

Fixpoint nth_cluster (F : Z → Z) (first : Z) (n : nat) : Z :=
  match n with
  | O => first
  | S n => F (nth_cluster F first n)
  end.

Definition data_base m : Z := data_start_sector m * bytes_per_sector (bpb m).

(** Clusters have a power-of-two size, and the data area lies behind the table. *)
Record data_geom m : Prop := {
  dg_size : ∃ n, 0 <= n <= 24 ∧ cluster_size_bytes m = 2 ^ n;
  dg_base : fat_start m + 4 * limit <= data_base m < 2 ^ 32;
}.

(** A data cluster the device has room for. *)
Record cluster_ok m (c : Z) : Prop := {
  co_index : 2 <= c < limit;
  co_eoc : c < FAT32_EOC_MIN;
  co_32 : (c - 2) * cluster_size_bytes m < 2 ^ 32;
  co_dev : data_base m + (c - 1) * cluster_size_bytes m <= dev_size (mount_src m);
}.

(** Byte [k] of the file whose chain starts at [first]. *)
Definition file_byte m (F : Z → Z) (first k : Z) : Z :=
  let csz := cluster_size_bytes m in
  dev_byte (mount_src m) (data_base m + (nth_cluster F first (Z.to_nat (k / csz)) - 2) * csz + k mod csz).

(** The chain covers the first [n] bytes. *)
Definition chain_covers m (F : Z → Z) (first n : Z) : Prop :=
  ∀ j, Z.of_nat j * cluster_size_bytes m < n → cluster_ok m (nth_cluster F first j).

Lemma same_csz m m' : same_mount m m' → cluster_size_bytes m' = cluster_size_bytes m ∧ data_base m' = data_base m.
Proof. intros [Hb _ _ _ Hd _ _]. unfold cluster_size_bytes, data_base. by rewrite Hb, Hd. Qed.

Lemma csz_pos m : data_geom m → 0 < cluster_size_bytes m < 2 ^ 25.
Proof.
  intros [(n & Hn & ->) _]. split; [apply Z.pow_pos_nonneg; lia|]. apply Z.pow_lt_mono_r; lia.
Qed.

Lemma data_geom_same m m' : same_mount m m' → data_geom m → data_geom m'.
Proof.
  intros Hs [Hn Hb]. destruct (same_csz m m' Hs) as [Hc Hd]. destruct Hs as [_ Hbl _ Hf _ _ _].
  split; [by rewrite Hc|]. unfold fat_start in *. by rewrite Hd, Hf, Hbl.
Qed.
Lemma cluster_ok_same m m' c : same_mount m m' → cluster_ok m c → cluster_ok m' c.
Proof.
  intros Hs [? ? ? ?]. destruct (same_csz m m' Hs) as [Hc Hd]. split; try done.
  - by rewrite Hc.
  - by rewrite Hc, Hd, (sm_size _ _ Hs).
Qed.
Lemma chain_covers_same m m' F first n : same_mount m m' → chain_covers m F first n → chain_covers m' F first n.
Proof.
  intros Hs Hc j. destruct (same_csz m m' Hs) as [-> _]. intros Hj. by apply (cluster_ok_same m), Hc.
Qed.

(** Table accesses do not change file contents. *)
Lemma data_byte_same m m' k :
  same_mount m m' → data_geom m → data_base m <= k → dev_byte (mount_src m') k = dev_byte (mount_src m) k.
Proof. intros Hs [_ Hb] Hk. apply (sm_bytes _ _ Hs). lia. Qed.

Lemma read_offset_eq m c :
  data_geom m → fat_geom m → cluster_ok m c → read_offset m c = data_base m + (c - 2) * cluster_size_bytes m.
Proof.
  intros Hg Hf [? ? ? ?]. pose proof (csz_pos m Hg). destruct Hg as [_ Hb]. destruct Hf as [_ ? ? ? ?].
  unfold read_offset. fold (data_base m). unfold FAT32_EOC_MIN in *.
  rewrite (u32_id (c - 2)), (u32_id ((c - 2) * _)), (u32_id (data_base m)) by (unfold is_u32; nia).
  unfold u64. rewrite Z.mod_small; [lia|]. nia.
Qed.

Lemma fread_into_get m buf pos off n k :
  dev_ok (mount_src m) → 0 <= off → 0 < n → off + n <= dev_size (mount_src m) →
  fread_into buf pos off n m !0 k =
    if decide (pos <= k < pos + n) then dev_byte (mount_src m) (off + (k - pos)) else buf !0 k.
Proof.
  intros Hd Ho Hn Hs. unfold fread_into. rewrite fread_spec by done. rewrite store_bytes_get, length_fmap_seqZ by lia.
  case_decide; [|done]. by rewrite lookup_fmap_seqZ by lia.
Qed.

Lemma seek_cluster_wp F m first n (Q : option Z → mount → Prop) :
  fat_repr F m → 0 <= n →
  (∀ j, (Z.of_nat j <= n) → cluster_ok m (nth_cluster F first j)) →
  (∀ m', fat_repr F m' → same_mount m m' → Q (Some (nth_cluster F first (Z.to_nat n))) m') →
  wp (seek_cluster first n) Q m.
Proof.
  intros Hr Hn Hok HQ. unfold seek_cluster. wp.
  apply (wp_fora (λ k c m', c = nth_cluster F first (Z.to_nat k) ∧ fat_repr F m' ∧ same_mount m m')); [done| | |].
  - split_and!; [done..|apply same_mount_refl].
  - intros k c m' Hk (-> & Hr' & Hs). wp.
    pose proof (co_index _ _ (Hok (Z.to_nat k) ltac:(lia))). apply (get_next_wp F); [done|lia|].
    intros m2 Hr2 Hs2 _. change (F (nth_cluster F first (Z.to_nat k))) with (nth_cluster F first (S (Z.to_nat k))).
    replace (S (Z.to_nat k)) with (Z.to_nat (k + 1)) by lia.
    pose proof (co_eoc _ _ (Hok (Z.to_nat (k + 1)) ltac:(lia))) as He.
    rewrite Z.geb_leb, (proj2 (Z.leb_gt _ _)) by lia. wp. split_and!; [done..|]. by eapply same_mount_trans.
  - intros c m' (-> & Hr' & Hs). wp. by apply HQ.
Qed.

(** The state of the cluster loop: [i] clusters done, of [rem0] bytes wanted
    from cluster number [q0] of the chain on. *)
Record read_inv (F : Z → Z) (first m0 : _) (base q0 rem0 : Z) (buf0 : gmap Z Z)
    (i current remaining : Z) (buf : gmap Z Z) m : Prop := {
  ri_repr : fat_repr F m;
  ri_same : same_mount m0 m;
  ri_i : 0 <= i;
  ri_rem : remaining = Z.max 0 (rem0 - i * cluster_size_bytes m0);
  ri_cur : 0 < remaining → current = nth_cluster F first (Z.to_nat (q0 + i));
  ri_buf k : buf !0 k =
    if decide (base <= k < base + Z.min rem0 (i * cluster_size_bytes m0))
    then file_byte m0 F first (q0 * cluster_size_bytes m0 + (k - base)) else buf0 !0 k;
}.

Lemma file_byte_in m F first q j :
  data_geom m → 0 <= q → 0 <= j < cluster_size_bytes m →
  file_byte m F first (q * cluster_size_bytes m + j) =
    dev_byte (mount_src m) (data_base m + (nth_cluster F first (Z.to_nat q) - 2) * cluster_size_bytes m + j).
Proof.
  intros Hg Hq Hj. pose proof (csz_pos m Hg). unfold file_byte.
  assert ((q * cluster_size_bytes m + j) / cluster_size_bytes m = q) as ->
    by (symmetry; apply (Z.div_unique _ _ _ j); lia).
  assert ((q * cluster_size_bytes m + j) mod cluster_size_bytes m = j) as ->
    by (symmetry; apply (Z.mod_unique _ _ q); lia).
  done.
Qed.

(** One cluster. *)
Lemma read_step F first m0 base q0 rem0 buf0 i current remaining buf m n :
  data_geom m0 → 0 <= q0 →
  read_inv F first m0 base q0 rem0 buf0 i current remaining buf m →
  cluster_ok m0 current → 0 < remaining →
  n = (if remaining <? cluster_size_bytes m0 then remaining else cluster_size_bytes m0) →
  ∀ k, fread_into buf (base + i * cluster_size_bytes m0) (read_offset m current) n m !0 k =
    if decide (base <= k < base + Z.min rem0 ((i + 1) * cluster_size_bytes m0))
    then file_byte m0 F first (q0 * cluster_size_bytes m0 + (k - base)) else buf0 !0 k.
Proof.
  intros Hg Hq [Hr Hs Hi Hrem Hcur Hbuf] Hc Hpos Hn k. pose proof (csz_pos m0 Hg) as Hcs.
  destruct (same_csz m0 m Hs) as [Hcm Hdm]. set (csz := cluster_size_bytes m0) in *.
  assert (0 < n <= csz) as Hn1 by (rewrite Hn; destruct (Z.ltb_spec remaining csz); lia).
  assert (Z.min rem0 ((i + 1) * csz) = i * csz + n) as Hmin
    by (rewrite Hn; destruct (Z.ltb_spec remaining csz); lia).
  assert (Z.min rem0 (i * csz) = i * csz) as Hmin0 by lia.
  assert (read_offset m current = data_base m0 + (current - 2) * csz) as Hoff.
  { rewrite read_offset_eq; [by rewrite Hcm, Hdm|by apply (data_geom_same m0)|apply Hr|by apply (cluster_ok_same m0)]. }
  pose proof Hc as [Hci _ _ Hcd].
  assert (0 <= data_base m0) by (destruct Hg as [_ Hb]; destruct (fr_geom _ _ Hr) as [_ ? ? ? ?];
    unfold fat_start in *; rewrite (sm_fat _ _ Hs), (sm_block _ _ Hs) in *; lia).
  assert (0 <= (current - 2) * csz) by nia.
  rewrite fread_into_get, Hoff; [|apply Hr|rewrite Hoff; lia|lia|rewrite Hoff, (sm_size _ _ Hs); nia].
  rewrite Hbuf, Hmin, Hmin0.
  destruct (decide (base + i * csz <= k < base + i * csz + n)) as [Hk|Hk].
  - rewrite decide_True by lia.
    replace (q0 * csz + (k - base)) with ((q0 + i) * csz + (k - (base + i * csz))) by lia.
    unfold csz. rewrite file_byte_in by (done || (fold csz; lia)). fold csz. rewrite <- (Hcur Hpos).
    apply (data_byte_same m0 m); [done|done|lia].
  - repeat case_decide; try lia; done.
Qed.

Lemma read_clusters_wp F first m0 base q0 count buf0 (Q : Z * gmap Z Z → mount → Prop) rem0 ctr :
  fat_repr F m0 → data_geom m0 → 0 <= q0 → 0 <= base → 0 <= rem0 < 2 ^ 31 →
  chain_covers m0 F first (q0 * cluster_size_bytes m0 + rem0) →
  (∀ r buf m', fat_repr F m' → same_mount m0 m' →
     (∀ k, buf !0 k = if decide (base <= k < base + rem0)
        then file_byte m0 F first (q0 * cluster_size_bytes m0 + (k - base)) else buf0 !0 k) →
     (u32 (ctr - 1) * cluster_size_bytes m0 < rem0 ∨ rem0 = 0 → r = count) →
     (let n := (rem0 - 1) / cluster_size_bytes m0 in
      0 < rem0 → n < u32 (ctr - 1) → FAT32_EOC_MIN <= nth_cluster F first (Z.to_nat (q0 + n + 1)) →
      r = (n + 1) * cluster_size_bytes m0) → Q (r, buf) m') →
  wp (read_clusters base ctr count (nth_cluster F first (Z.to_nat q0)) rem0 buf0) Q m0.
Proof.
  intros Hr Hg Hq Hbase Hrem Hch HQ. pose proof (csz_pos m0 Hg) as Hcs.
  unfold read_clusters. wp. set (csz := cluster_size_bytes m0) in *.
  apply (wp_loop (λ '(i, current, remaining, buf) m,
      read_inv F first m0 base q0 rem0 buf0 i current remaining buf m ∧
      (remaining = 0 → 0 < rem0 → (i - 1) * csz < rem0 ∧
       (FAT32_EOC_MIN <= nth_cluster F first (Z.to_nat (q0 + i)) → u32 (ctr - 1) <= i - 1)))
    (λ '(i, current, remaining, buf) _, remaining)).
  - split; [|lia]. split; [done|apply same_mount_refl|lia|fold csz; lia|intros _; by rewrite Z.add_0_r|].
    intros k. rewrite decide_False; [done|]. lia.
  - unfold fuel32. change (Z.pos (2 ^ 32)) with (2 ^ 32). lia.
  - intros [[[i current] remaining] buf] m [[_ _ _ -> _ _] _]. lia.
  - intros [[[i current] remaining] buf] m [Hinv Hlast]. pose proof Hinv as [Hr' Hs Hi Hre Hcur Hbuf]. fold csz in Hre.
    rewrite Z.gtb_ltb. destruct (Z.ltb_spec 0 remaining) as [Hpos|Hz]; wp.
    2: { apply HQ; [done..| |done|].
      - intros k. rewrite Hbuf. fold csz. replace (Z.min rem0 (i * csz)) with rem0 by lia. done.
      - fold csz. intros n Hp Hn He. exfalso. destruct (Hlast ltac:(lia) Hp) as [Hl1 Hl2].
        assert (n = i - 1) as Hni by (symmetry; apply (Z.div_unique (rem0 - 1) csz (i - 1) (rem0 - 1 - csz * (i - 1))); nia).
        rewrite Hni in He, Hn. replace (q0 + (i - 1) + 1) with (q0 + i) in He by lia. specialize (Hl2 He). lia. }
    assert (cluster_ok m0 current) as Hcok.
    { rewrite (Hcur Hpos). apply Hch. fold csz. rewrite Z2Nat.id by lia. lia. }
    pose proof (read_step F first m0 base q0 rem0 buf0 i current remaining buf m _ Hg Hq Hinv Hcok Hpos eq_refl) as Hstep.
    cbv [id]. fold csz in Hstep. set (buf' := fread_into _ _ _ _ _) in *.
    set (remaining' := if remaining <? csz then 0 else remaining - csz).
    assert (remaining' = Z.max 0 (rem0 - (i + 1) * csz)) as Hre'
      by (unfold remaining'; destruct (Z.ltb_spec remaining csz); lia).
    pose proof (co_index _ _ Hcok). apply (get_next_wp F); [done|lia|]. intros m' Hr2 Hs2 _.
    assert (same_mount m0 m') as Hs' by (by eapply same_mount_trans).
    assert (0 < remaining' → F current = nth_cluster F first (Z.to_nat (q0 + (i + 1)))) as Hnext.
    { intros _. rewrite (Hcur Hpos). replace (Z.to_nat (q0 + (i + 1))) with (S (Z.to_nat (q0 + i))) by lia. done. }
    assert (0 < remaining' → F current < FAT32_EOC_MIN) as Hneoc.
    { intros Hp. rewrite (Hnext Hp). apply (co_eoc m0), Hch. fold csz. rewrite Z2Nat.id by lia. lia. }
    rewrite Z.geb_leb. destruct (Z.leb_spec FAT32_EOC_MIN (F current)) as [Heoc|Heoc]; cbn [andb].
    + assert (remaining' = 0) by (destruct (decide (0 < remaining')); [specialize (Hneoc ltac:(done)); lia|lia]).
      destruct (Z.ltb_spec i (u32 (ctr - 1))) as [Hearly|]; wp.
      * apply HQ; [done..| | |].
        -- intros k. rewrite Hstep. replace (Z.min rem0 ((i + 1) * csz)) with rem0 by lia. done.
        -- fold csz. intros [Hlt|]; [nia|lia].
        -- fold csz. intros n _ _ _.
           assert (n = i) as -> by (symmetry; apply (Z.div_unique (rem0 - 1) csz i (rem0 - 1 - csz * i)); nia).
           done.
      * split; [|lia]. split; [split; [done..|lia|done|done|done]|]. intros _ _. split; [nia|lia].
    + wp. split; [|lia]. split; [split; [done..|lia|done|done|done]|]. intros Hz _. split; [nia|].
      intros He. exfalso. revert He. replace (Z.to_nat (q0 + (i + 1))) with (S (Z.to_nat (q0 + i))) by lia.
      cbn [nth_cluster]. rewrite <- (Hcur Hpos). lia.
Qed.

Lemma file_byte_same m m' F first n k :
  same_mount m m' → data_geom m → chain_covers m F first n → 0 <= k < n →
  file_byte m' F first k = file_byte m F first k.
Proof.
  intros Hs Hg Hch Hk. pose proof (csz_pos m Hg). unfold file_byte.
  destruct (same_csz m m' Hs) as [-> ->]. apply (data_byte_same m m'); [done|done|].
  pose proof (Z.mod_pos_bound k (cluster_size_bytes m) ltac:(lia)).
  pose proof (Z.div_pos k (cluster_size_bytes m) ltac:(lia) ltac:(lia)).
  destruct (Hch (Z.to_nat (k / cluster_size_bytes m))) as [? _ _ _].
  { rewrite Z2Nat.id by done. pose proof (Z.mul_div_le k (cluster_size_bytes m) ltac:(lia)). lia. }
  nia.
Qed.

(** The part of a read that starts inside of a cluster. *)
Lemma read_head m F first offset n buf k :
  fat_geom m → data_geom m → chain_covers m F first (offset + 1) → 0 <= offset →
  let csz := cluster_size_bytes m in let o := offset mod csz in
  0 < n <= csz - o →
  fread_into buf 0 (read_offset m (nth_cluster F first (Z.to_nat (offset / csz))) + o) n m !0 k =
    if decide (0 <= k < n) then file_byte m F first (offset + k) else buf !0 k.
Proof.
  intros Hf Hg Hch Ho csz o Hn. pose proof (csz_pos m Hg) as Hcs. fold csz in Hcs.
  pose proof (Z.mod_pos_bound offset csz ltac:(lia)) as Hob. fold o in Hob.
  pose proof (Z.div_mod offset csz ltac:(lia)) as Hdm. fold o in Hdm.
  pose proof (Z.div_pos offset csz Ho ltac:(lia)) as Hq.
  assert (cluster_ok m (nth_cluster F first (Z.to_nat (offset / csz)))) as Hc.
  { apply Hch. fold csz. rewrite Z2Nat.id by done. lia. }
  rewrite read_offset_eq by done. fold csz. pose proof Hc as [Hci _ _ Hcd]. fold csz in Hcd.
  assert (0 <= data_base m) by (destruct Hg as [_ Hb]; destruct Hf; lia).
  rewrite fread_into_get; [|apply Hf|nia|lia|nia]. destruct (decide (0 <= k < n)) as [Hk|Hk];
    [rewrite decide_True by lia|by rewrite decide_False by lia].
  replace (offset + k) with (offset / csz * csz + (o + k)) by lia. unfold csz.
  rewrite file_byte_in by (done || (fold csz; lia)). f_equal. fold csz. lia.
Qed.

Lemma udiv64_wp a b (Q : Z → mount → Prop) m :
  0 < b → a / b < 2 ^ 32 → wp (udiv64 a b) Q m = Q (a / b) m.
Proof. intros. unfold udiv64. by rewrite bool_decide_eq_true_2 by done. Qed.

Lemma fat32_read_wp F first m buf offset count (Q : Z * gmap Z Z → mount → Prop) :
  fat_repr F m → data_geom m → 0 <= offset → 0 < count → offset + count < 2 ^ 31 →
  chain_covers m F first (offset + count) →
  (∀ r buf' m', fat_repr F m' → same_mount m m' →
     (∀ k, buf' !0 k = if decide (0 <= k < count) then file_byte m F first (offset + k) else buf !0 k) →
     (offset mod cluster_size_bytes m = 0 → r = count) →
     (let csz := cluster_size_bytes m in let here := csz - offset mod csz in
      offset mod csz ≠ 0 → here < count → (count - here - 1) / csz < (count - 1) / csz →
      FAT32_EOC_MIN <= nth_cluster F first (S (Z.to_nat ((offset + count - 1) / csz))) →
      r = ((count - here - 1) / csz + 1) * csz) → Q (r, buf') m') →
  wp (fat32_read first buf offset count) Q m.
Proof.
  intros Hr Hg Ho Hc Hlt Hch HQ. pose proof (csz_pos m Hg) as Hcs. unfold fat32_read. wp.
  destruct (dg_size m Hg) as (n & Hn & Hpow).
  assert (Z.land offset (cluster_size_bytes m - 1) = offset mod cluster_size_bytes m) as Hland.
  { rewrite Hpow. replace (2 ^ n - 1) with (Z.ones n) by (rewrite Z.ones_equiv; lia). apply land_low. lia. }
  rewrite Hland. set (csz := cluster_size_bytes m) in *.
  pose proof (Z.mod_pos_bound offset csz ltac:(lia)) as Hob.
  pose proof (Z.div_mod offset csz ltac:(lia)) as Hdm.
  pose proof (Z.div_pos offset csz Ho ltac:(lia)) as Hq.
  assert (offset / csz <= offset) by (apply Z.div_le_upper_bound; nia).
  rewrite udiv64_wp by lia. wp.
  assert (u64 (count + csz - 1) = count - 1 + 1 * csz) as Hu64 by (unfold u64; rewrite Z.mod_small by lia; lia).
  assert ((count - 1) / csz <= count - 1) by (apply Z.div_le_upper_bound; nia).
  pose proof (Z.div_pos (count - 1) csz ltac:(lia) ltac:(lia)).
  rewrite udiv64_wp by (rewrite ?Hu64, ?Z.div_add; lia). wp.
  apply (seek_cluster_wp F); [done|done| |].
  { intros j Hj. apply Hch. fold csz. nia. }
  intros m1 Hr1 Hs1. cbn beta iota. destruct (same_csz m m1 Hs1) as [Hc1 _]. fold csz in Hc1.
  assert (data_geom m1) as Hg1 by (by apply (data_geom_same m)).
  assert (chain_covers m1 F first (offset + count)) as Hch1 by (by apply (chain_covers_same m)).
  assert (∀ k, 0 <= k < count → file_byte m1 F first (offset + k) = file_byte m F first (offset + k)) as Hfb.
  { intros k Hk. apply (file_byte_same m m1 F first (offset + count)); [done..|lia]. }
  set (ctr := u64 (count + csz - 1) / csz).
  assert (ctr - 1 = (count - 1) / csz) as Hctr.
  { unfold ctr. rewrite Hu64, Z.div_add by lia. lia. }
  destruct (Z.eqb_spec (offset mod csz) 0) as [Hz|Hnz].
  - apply (read_clusters_wp F first m1 0 (offset / csz)); [done|done|lia..| |].
    { rewrite Hc1. replace (offset / csz * csz) with offset by lia. done. }
    intros r buf' m' Hr' Hs' Hbuf Hret _. apply HQ; [done|by eapply same_mount_trans| | |done].
    + intros k. rewrite Hbuf. case_decide; [|by rewrite decide_False by lia].
      rewrite decide_True by lia. rewrite Hc1. replace (offset / csz * csz + (k - 0)) with (offset + k) by lia.
      apply Hfb. lia.
    + intros _. apply Hret. left. rewrite Hc1, Hctr.
      pose proof (Z.mul_div_le (count - 1) csz ltac:(lia)). pose proof (Z.div_pos (count - 1) csz ltac:(lia) ltac:(lia)).
      assert ((count - 1) / csz <= count - 1) by (apply Z.div_le_upper_bound; nia).
      rewrite u32_id by (unfold is_u32; lia). lia.
  - assert (chain_covers m1 F first (offset + 1)) as Hch2 by (intros j Hj; apply Hch1; lia).
    wp. cbv [id]. rewrite Z.gtb_ltb. set (here := csz - offset mod csz).
    pose proof (read_head m1 F first offset (if count <? here then count else here) buf) as Hhead.
    cbn zeta in Hhead. rewrite Hc1 in Hhead.
    assert (∀ k, fread_into buf 0 (read_offset m1 (nth_cluster F first (Z.to_nat (offset / csz))) + offset mod csz)
      (if count <? here then count else here) m1 !0 k =
      if decide (0 <= k < Z.min count here) then file_byte m F first (offset + k) else buf !0 k) as Hbuf1.
    { intros k. rewrite Hhead; [|apply Hr1|done|done|done|destruct (Z.ltb_spec count here); unfold here in *; lia].
      destruct (Z.ltb_spec count here); repeat case_decide; try lia; try done; apply Hfb; lia. }
    clear Hhead. set (buf1 := fread_into _ _ _ _ _) in *.
    destruct (Z.ltb_spec count here) as [Hin|Hout]; wp.
    { apply HQ; [done..| |done|cbn zeta; fold csz; intros _ Hh; fold here in Hh; lia].
      intros k. rewrite Hbuf1. by replace (Z.min count here) with count by lia. }
    replace (Z.min count here) with here in Hbuf1 by lia.
    assert (cluster_ok m1 (nth_cluster F first (Z.to_nat (offset / csz)))) as Hcok.
    { apply Hch2. rewrite Hc1, Z2Nat.id by done. lia. }
    pose proof (co_index _ _ Hcok). apply (get_next_wp F); [done|lia|]. intros m2 Hr2 Hs2 _.
    assert (same_mount m m2) as Hs02 by (by eapply same_mount_trans).
    rewrite Z.geb_leb. change (F (nth_cluster F first (Z.to_nat (offset / csz))))
      with (nth_cluster F first (S (Z.to_nat (offset / csz)))).
    destruct (Z.leb_spec FAT32_EOC_MIN (nth_cluster F first (S (Z.to_nat (offset / csz))))) as [He|He]; wp.
    + assert (count = here) as Hce.
      { destruct (decide (count = here)); [done|]. exfalso.
        pose proof (co_eoc _ _ (Hch (S (Z.to_nat (offset / csz))) ltac:(fold csz; unfold here in *; nia))). lia. }
      apply HQ; [done..| |done|cbn zeta; fold csz; intros _ Hh; fold here in Hh; lia]. intros k. rewrite Hbuf1. by rewrite Hce.
    + replace (S (Z.to_nat (offset / csz))) with (Z.to_nat (offset / csz + 1)) by lia.
      destruct (same_csz m m2 Hs02) as [Hc2 _]. fold csz in Hc2.
      apply (read_clusters_wp F first m2 here (offset / csz + 1)); [done|by apply (data_geom_same m)|unfold here in *; lia..| |].
      { rewrite Hc2. apply (chain_covers_same m); [done|].
        replace ((offset / csz + 1) * csz + (count - here)) with (offset + count) by (unfold here; lia). done. }
      intros r buf' m' Hr' Hs' Hbuf _ Hshort. apply HQ; [done|by eapply same_mount_trans| |done|].
      * intros k. rewrite Hbuf, Hbuf1, Hc2. unfold here in *. repeat case_decide; try lia; try done.
        replace ((offset / csz + 1) * csz + (k - (csz - offset mod csz))) with (offset + k) by lia.
        apply (file_byte_same m m2 F first (offset + count)); [done..|lia].
      * cbn zeta. fold csz. intros _ Hh Hlt' He'. fold here in Hh, Hlt' |- *. rewrite Hc2 in Hshort. apply Hshort; [lia| |].
        -- rewrite Hctr, u32_id; [done|]. unfold is_u32.
           pose proof (Z.div_pos (count - 1) csz ltac:(lia) ltac:(lia)).
           assert ((count - 1) / csz <= count - 1) by (apply Z.div_le_upper_bound; nia). lia.
        -- pose proof (Z.div_pos (count - here - 1) csz ltac:(lia) ltac:(lia)).
           replace (Z.to_nat (offset / csz + 1 + (count - here - 1) / csz + 1))
             with (S (Z.to_nat ((offset + count - 1) / csz))); [done|].
           replace (offset + count - 1) with (count - here - 1 + (offset / csz + 1) * csz) by (unfold here; lia).
           rewrite Z.div_add by lia. lia.
Qed.

(** Reading leaves the place alone where the search for a free cluster starts. *)
Definition same_search m m' : Prop := fat_search_start m' = fat_search_start m.
#[local] Instance same_search_preorder : PreOrder same_search.
Proof. split; [by intros m|intros m1 m2 m3; unfold same_search; congruence]. Qed.
Lemma cache_read_search i : preserves same_search (cache_read i).
Proof. intros m a m'. unfold cache_read. repeat case_match; naive_solver. Qed.
#[local] Hint Resolve cache_read_search : preserves.
Lemma recache_search i : preserves same_search (recache_fat32_table i).
Proof. unfold recache_fat32_table. preserves. Qed.
#[local] Hint Resolve recache_search : preserves.
Lemma get_next_search i : preserves same_search (fat32_get_next_cluster i).
Proof. unfold fat32_get_next_cluster. preserves. Qed.
#[local] Hint Resolve get_next_search : preserves.
Lemma fat32_read_search first buf offset count : preserves same_search (fat32_read first buf offset count).
Proof. unfold fat32_read, udiv64, seek_cluster, read_clusters. preserves. Qed.

(** ** The free-cluster search *)

Lemma set_search_repr F m i : fat_repr F m → fat_repr F (set_search i m).
Proof. intros [[] Hc He]. split; [by split| |exact He]. unfold cache_ok in *. simpl. destruct (fat_cache m); [|done].
  destruct Hc. by split. Qed.

Lemma get_free_wp F m (Q : Z → mount → Prop) :
  fat_repr F m → 0 <= fat_search_start m → cluster_limit m <= limit →
  (∀ r m', fat_repr F m' → same_mount m m' → fat_search_start m <= r < cluster_limit m → F r = 0 →
     (∀ j, fat_search_start m <= j < r → F j ≠ 0) → fat_search_start m' = r → Q r m') →
  (∀ m', fat_repr F m' → same_mount m m' → fat_search_start m' = fat_search_start m →
     (∀ j, fat_search_start m <= j < cluster_limit m → F j ≠ 0) → Q 0 m') →
  wp fat32_get_free_cluster Q m.
Proof.
  intros Hr Hs Hl HQ1 HQ2. unfold fat32_get_free_cluster. wp.
  destruct (decide (fat_search_start m <= cluster_limit m)) as [Hle|Hgt].
  2: { unfold for_loop. replace (Z.to_nat _) with O by lia. wp. apply HQ2; [done|apply same_mount_refl|done|lia]. }
  apply (wp_for (λ k m', fat_repr F m' ∧ same_mount m m' ∧ fat_search_start m' = fat_search_start m ∧
    ∀ j, fat_search_start m <= j < k → F j ≠ 0)); [done| | |].
  - split_and!; [done|apply same_mount_refl|done|lia].
  - intros k m1 Hk (Hr1 & Hs1 & Hse1 & Hno). wp. apply (get_next_wp F); [done|lia|].
    intros m2 Hr2 Hs2 Hse2. destruct (Z.eqb_spec (F k) 0) as [Hz|Hnz]; wp.
    + apply HQ1; [by apply set_search_repr| |done..].
      apply (same_mount_trans m m1); [done|]. apply (same_mount_trans m1 m2); [done|]. by split.
    + split_and!; [done|by apply (same_mount_trans m m1)|by rewrite Hse2|].
      intros j Hj. destruct (decide (j = k)) as [->|]; [done|]. apply Hno. lia.
  - intros m1 (? & ? & ? & ?). wp. by apply HQ2.
Qed.

(** ** Properties *)

(** An access to the table. *)
Inductive fat_call := FatGet (i : Z) | FatSet (i v : Z).
Definition fat_call_ok (c : fat_call) : Prop :=
  match c with
  | FatGet i => 0 <= i < limit
  | FatSet i v => 0 <= i < limit ∧ is_u32 v
  end.

Fixpoint run_fat (cs : list fat_call) : M mount (list Z) :=
  match cs with
  | [] => mret []
  | FatGet i :: cs => x ← fat32_get_next_cluster i; xs ← run_fat cs; mret (x :: xs)
  | FatSet i v :: cs => fat32_set_next_cluster i v;; run_fat cs
  end.

(** The same calls on a plain table. *)
Definition table_set (F : Z → Z) (i v : Z) : Z → Z := λ j, if decide (j = i) then v else F j.
Fixpoint run_table (cs : list fat_call) (F : Z → Z) : list Z * (Z → Z) :=
  match cs with
  | [] => ([], F)
  | FatGet i :: cs => let '(xs, F') := run_table cs F in (F i :: xs, F')
  | FatSet i v :: cs => run_table cs (table_set F i v)
  end.

Lemma run_fat_wp cs F m :
  fat_repr F m → Forall fat_call_ok cs →
  wp (run_fat cs) (λ xs m', xs = (run_table cs F).1 ∧ fat_repr (run_table cs F).2 m' ∧ same_mount m m') m.
Proof.
  revert F m. induction cs as [|c cs IH]; intros F m Hr Hcs; cbn [run_fat run_table].
  { wp. split_and!; [done..|apply same_mount_refl]. }
  apply Forall_cons_1 in Hcs as [Hc Hcs]. destruct c as [i|i v]; cbn [fat_call_ok] in Hc; wp.
  - apply (get_next_wp F); [done|done|]. intros m1 Hr1 Hs1 _. wp.
    eapply wp_mono; [by apply (IH F)|]. intros xs m2 (-> & Hr2 & Hs2). wp.
    destruct (run_table cs F) as [ys F'] eqn:E. cbn [fst snd] in *.
    split_and!; [done..|by eapply same_mount_trans].
  - destruct Hc as [Hi Hv]. apply (set_next_wp F); [done|done|done|]. intros m1 Hr1 Hs1 _.
    eapply wp_mono; [by apply (IH (table_set F i v))|]. intros xs m2 (-> & Hr2 & Hs2).
    split_and!; [done..|by eapply same_mount_trans].
Qed.

(** C7: the table behind its window.  Any sequence of reads and writes of
    entries goes through without a fault and returns what the same sequence
    returns on a plain table, wherever the entries lie and however often the
    window moves; the mount then stands for the plain table's final state, and
    outside of the table's area the device is unchanged. *)
Theorem fat_calls_refine_table (cs : list fat_call) (F : Z → Z) (m : mount) :
  fat_repr F m → Forall fat_call_ok cs →
  ∃ m', run_fat cs m = Ok ((run_table cs F).1, m') ∧ fat_repr (run_table cs F).2 m' ∧ same_mount m m'.
Proof.
  intros Hr Hcs. destruct (proj1 (wp_ok _ _ _) (run_fat_wp cs F m Hr Hcs)) as (xs & m' & Hrun & -> & ? & ?).
  by exists m'.
Qed.

(** The cluster [fat32_get_free_cluster] returns is the first free one at or
    behind the search position, which moves to it; 0 is returned without a
    change when there is none.  The table itself is never changed. *)
Theorem fat32_get_free_cluster_spec (F : Z → Z) (m : mount) :
  fat_repr F m → 0 <= fat_search_start m → cluster_limit m <= limit →
  ∃ r m', fat32_get_free_cluster m = Ok (r, m') ∧ fat_repr F m' ∧ same_mount m m' ∧
    ((fat_search_start m <= r < cluster_limit m ∧ F r = 0 ∧
      (∀ j, fat_search_start m <= j < r → F j ≠ 0) ∧ fat_search_start m' = r) ∨
     (r = 0 ∧ fat_search_start m' = fat_search_start m ∧
      ∀ j, fat_search_start m <= j < cluster_limit m → F j ≠ 0)).
Proof.
  intros Hr Hs Hl. apply (wp_ok fat32_get_free_cluster (λ r m', fat_repr F m' ∧ same_mount m m' ∧ _)).
  apply (get_free_wp F); [done..| |].
  - intros r m' ? ? ? ? ? ?. split_and!; [done..|]. left. done.
  - intros m' ? ? ? ?. split_and!; [done..|]. right. done.
Qed.

(** C8: [fat32_read] delivers the file.  When the chain covers the range, the
    buffer holds exactly the file's bytes from [offset] on and nothing else of
    it changes, for every offset and count; a read that starts on a cluster
    boundary also returns its count. *)
Theorem fat32_read_delivers_file (F : Z → Z) (m : mount) first buf offset count :
  fat_repr F m → data_geom m → 0 <= offset → 0 < count → offset + count < 2 ^ 31 →
  chain_covers m F first (offset + count) →
  ∃ r buf' m', fat32_read first buf offset count m = Ok ((r, buf'), m') ∧
    fat_repr F m' ∧ same_mount m m' ∧
    (∀ k, buf' !0 k = if decide (0 <= k < count) then file_byte m F first (offset + k) else buf !0 k) ∧
    (offset mod cluster_size_bytes m = 0 → r = count).
Proof.
  intros Hr Hg Ho Hc Hlt Hch.
  destruct (proj1 (wp_ok (fat32_read first buf offset count) (λ rb m', fat_repr F m' ∧ same_mount m m' ∧
    (∀ k, rb.2 !0 k = if decide (0 <= k < count) then file_byte m F first (offset + k) else buf !0 k) ∧
    (offset mod cluster_size_bytes m = 0 → rb.1 = count)) m)) as ([r buf'] & m' & Hrun & Hpost).
  - apply (fat32_read_wp F); [done..|]. intros r buf' m' ? ? ? ? _. done.
  - by exists r, buf', m'.
Qed.

(** The count of an unaligned read can be short of what was delivered.
    When a read starts inside of a cluster and the chain ends with the cluster
    the read ends in, the loop compares its cluster number with a bound that
    does not count the first part; if the range touches fewer whole clusters
    than [clusters_to_read], all [count] bytes are in the buffer and a smaller
    number is returned. *)
Theorem fat32_read_unaligned_short_count (F : Z → Z) (m : mount) first buf offset count :
  let csz := cluster_size_bytes m in let here := csz - offset mod csz in
  fat_repr F m → data_geom m → 0 <= offset → 0 < count → offset + count < 2 ^ 31 →
  chain_covers m F first (offset + count) →
  offset mod csz ≠ 0 → here < count → (count - here - 1) / csz < (count - 1) / csz →
  FAT32_EOC_MIN <= nth_cluster F first (S (Z.to_nat ((offset + count - 1) / csz))) →
  ∃ r buf' m', fat32_read first buf offset count m = Ok ((r, buf'), m') ∧ r < count ∧
    ∀ k, 0 <= k < count → buf' !0 k = file_byte m F first (offset + k).
Proof.
  intros csz here Hr Hg Ho Hc Hlt Hch Hnz Hh Hn He. pose proof (csz_pos m Hg) as Hcs. fold csz in Hcs.
  destruct (proj1 (wp_ok (fat32_read first buf offset count) (λ rb m', rb.1 < count ∧
    ∀ k, 0 <= k < count → rb.2 !0 k = file_byte m F first (offset + k)) m)) as ([r buf'] & m' & Hrun & Hpost).
  - apply (fat32_read_wp F); [done..|]. intros r buf' m' _ _ Hbuf _ Hshort. split.
    + cbn [fst]. rewrite (Hshort Hnz Hh Hn He). fold csz here.
      pose proof (Z.mul_div_le (count - 1) csz ltac:(lia)). nia.
    + intros k Hk. cbn [snd]. by rewrite Hbuf, decide_True.
  - by exists r, buf', m'.
Qed.
End driver.

(** ** Examples *)

(** A volume with 512-byte clusters: the table at sector 1, ten data clusters
    behind it, a file in clusters 2, 3 and 4. *)
Definition fat_disk : disk :=
  Disk (66048 + 512 * 10)
    (store_bytes 512 [0xf8; 0xff; 0xff; 0x0f; 0xff; 0xff; 0xff; 0x0f; 3; 0; 0; 0; 4; 0; 0; 0; 0xff; 0xff; 0xff; 0x0f]
      {[66048 := 75; 66559 := 105; 66560 := 109; 67072 := 105]}).

Definition fat_example : fat_mount disk :=
  FatMount (BPB 512 1 1 1 128 139 2) fat_disk 512 false false 0 1 129 0 0 None.
Definition fat_example_table : Z → Z := disk_entry fat_example.

Lemma fat_example_repr : fat_repr 16384 fat_example_table fat_example.
Proof.
  split.
  - split; [|by_computation..]. apply store_bytes_ok; [|repeat constructor; by_computation].
    intros k. unfold zget. rewrite !lookup_insert, lookup_singleton. repeat case_decide; by_computation.
  - reflexivity.
  - intros i _. reflexivity.
Defined.

Lemma fat_example_geom : data_geom 16384 fat_example.
Proof. split; [exists 9; split; by_computation|by_computation]. Defined.

Lemma fat_example_chain : chain_covers 16384 fat_example fat_example_table 2 1536.
Proof.
  intros j Hj. change (cluster_size_bytes fat_example) with 512 in Hj.
  assert (j = 0 ∨ j = 1 ∨ j = 2)%nat as [->|[->| ->]] by lia; split; by_computation.
Defined.

Lemma fat_example_used j : 0 <= j < 5 → fat_example_table j ≠ 0.
Proof.
  intros Hj. assert (Forall (λ j, fat_example_table j ≠ 0) [0; 1; 2; 3; 4]) as Hall by by_computation.
  rewrite Forall_forall in Hall. apply Hall. rewrite !elem_of_cons.
  assert (j = 0 ∨ j = 1 ∨ j = 2 ∨ j = 3 ∨ j = 4) as H5 by lia. tauto.
Qed.

Lemma fat_calls_refine_table_witness :
  ∃ m', run_fat [] [FatGet 2; FatSet 5 7; FatGet 5; FatGet 6] fat_example = Ok ([3; 7; 0], m').
Proof.
  destruct (fat_calls_refine_table [] 16384 [FatGet 2; FatSet 5 7; FatGet 5; FatGet 6]
    fat_example_table fat_example fat_example_repr) as (m' & Hrun & _).
  - repeat constructor; by_computation.
  - exists m'. rewrite Hrun. vm_compute. reflexivity.
Defined.

Lemma fat32_get_free_cluster_spec_witness :
  ∃ m', fat32_get_free_cluster [] fat_example = Ok (5, m').
Proof.
  destruct (fat32_get_free_cluster_spec [] 16384 fat_example_table fat_example fat_example_repr)
    as (r & m' & Hrun & _ & _ & [(Hr & Hz & Hno & _)|(_ & _ & Hno)]); [by_computation..| |].
  - exists m'. rewrite Hrun. do 2 f_equal. change (0 <= r < 10) in Hr. change (∀ j, 0 <= j < r → fat_example_table j ≠ 0) in Hno.
    destruct (decide (5 < r)) as [Hlt|]; [exfalso; apply (Hno 5); [lia|vm_compute; reflexivity]|].
    destruct (decide (r < 5)); [|lia]. destruct (fat_example_used r); [lia|exact Hz].
  - exfalso. apply (Hno 5); [split; by_computation|vm_compute; reflexivity].
Defined.

Lemma fat32_read_delivers_file_witness :
  ∃ buf' m', fat32_read [] 2 ∅ 0 1024 fat_example = Ok ((1024, buf'), m') ∧ buf' !0 512 = 109.
Proof.
  destruct (fat32_read_delivers_file [] 16384 fat_example_table fat_example 2 ∅ 0 1024
    fat_example_repr fat_example_geom) as (r & buf' & m' & Hrun & _ & _ & Hbuf & Hcount).
  1-3: by_computation.
  { intros j Hj. apply fat_example_chain. lia. }
  exists buf', m'. rewrite Hrun, (Hcount eq_refl), Hbuf. split; [reflexivity|vm_compute; reflexivity].
Defined.

Lemma fat32_read_unaligned_short_count_witness :
  ∃ r buf' m', fat32_read [] 2 ∅ 511 1025 fat_example = Ok ((r, buf'), m') ∧ r < 1025.
Proof.
  destruct (fat32_read_unaligned_short_count [] 16384 fat_example_table fat_example 2 ∅ 511 1025
    fat_example_repr fat_example_geom) as (r & buf' & m' & Hrun & Hlt & _).
  1-3: by_computation.
  { exact fat_example_chain. }
  1-4: by_computation.
  exists r, buf', m'. exact (conj Hrun Hlt).
Defined.
