(* ===== verification/KString.v ===== *)
(** * Strings and numbers (src/src/kernel/shared/string.h, src/src/kernel/system/string.c,
      [atoi] of src/src/kernel/shared/kstdlib.c)

    The functions work on byte memory: a pointer is an address, and every load
    and store of the C code is one of the model.  Memory that was never written
    reads as 0. *)
From S2P Require Import Prelude Device.

Notation memory := (gmap Z Z).

Definition ld (p : Z) : M memory Z := gets (λ m, m !0 p).
Definition st (p x : Z) : M memory unit := modify (λ m, <[p := u8 x]> m).

Lemma wp_ld p (Q : Z → memory → Prop) m : wp (ld p) Q m = Q (m !0 p) m.
Proof. done. Qed.
Lemma wp_st p x (Q : unit → memory → Prop) m : wp (st p x) Q m = Q tt (<[p := u8 x]> m).
Proof. done. Qed.
#[export] Hint Rewrite wp_ld wp_st : wp.

(** A [char] as the signed number it is on i386. *)
Definition s8 (x : Z) : Z := if x <? 128 then x else x - 256.

Definition strlen (str : Z) : M memory Z :=
  loop fuel32 (λ c,
    x ← ld (str + c);
    if x =? 0 then mret (inr c) else mret (inl (u32 (c + 1)))) 0.

(** 0 when the strings are equal, 1 otherwise. *)
Definition strcmp (str1 str2 : Z) : M memory Z :=
  loop fuel32 (λ i,
    x ← ld (str1 + i);
    y ← ld (str2 + i);
    if negb (x =? 0) && (x =? y) then mret (inl (u32 (i + 1)))
    else mret (inr (if x =? y then 0 else 1))) 0.

Definition memclr (ptr count : Z) : M memory unit :=
  if count mod 4 =? 0 then
    for_all 0 (count / 4) (λ i,
      st (ptr + 4 * i) 0;; st (ptr + 4 * i + 1) 0;; st (ptr + 4 * i + 2) 0;; st (ptr + 4 * i + 3) 0)
  else for_all 0 count (λ i, st (ptr + i) 0).

Definition memcpy (src dest c : Z) : M memory unit :=
  for_all 0 c (λ i, x ← ld (src + i); st (dest + i) x).

Definition strcpy (src dest : Z) : M memory unit :=
  if (src =? 0) || (dest =? 0) then skip
  else
    len ← strlen src;
    for_all 0 len (λ i, x ← ld (src + i); st (dest + i) x);;
    st (dest + len) 0.

Definition strcat (src dest : Z) : M memory unit :=
  n ← strlen dest;
  strcpy src (dest + n).

Definition memcmp (ptr1 ptr2 size : Z) : M memory Z :=
  r ← for_loop 0 size (λ i,
        x ← ld (ptr1 + i);
        y ← ld (ptr2 + i);
        if x =? y then mret None else mret (Some (s8 x - s8 y)));
  mret (default 0 r).

Definition memset (ptr value num : Z) : M memory Z :=
  for_all 0 num (λ i, st (ptr + i) value);;
  mret ptr.

(** [tmp] is the local array, [length] bytes long. *)
Definition strpad (tmp string padding length : Z) : M memory unit :=
  n ← strlen string;
  if n >=? padding then skip
  else
    n ← strlen string;
    for_all 0 (u32 (length - n)) (λ i, st (tmp + i) padding);;
    n ← strlen string;
    strcpy string (tmp + length - n);;
    strcpy tmp string.

(** [input] is the static variable: its new value comes back with the result.
    [res] is the global array. *)
Definition strtok (res string d input : Z) : M memory (Z * Z) :=
  let input := if negb (string =? 0) then string else input in
  if input =? 0 then mret (0, input)
  else
    loop fuel32 (λ i,
      x ← ld (input + i);
      if x =? 0 then st (res + i) 0;; mret (inr (res, 0))
      else if negb (x =? d) then st (res + i) x;; mret (inl (i + 1))
      else st (res + i) 0;; mret (inr (res, input + i + 1))) 0.

(** The characters of [itoa]. *)
Definition carr (k : Z) : Z := if k <? 10 then 48 + k else if k <? 36 then 55 + k else 0.

(** [itoa] writes its digits to a local array of twelve characters first. *)
Definition itoa_digits (tmp base : Z) : M memory (list Z) :=
  if base =? 0 then fail DivideError
  else
    loop fuel32 (λ '(tmp, buffer),
      if tmp =? 0 then mret (inr buffer)
      else if 12 <=? Z.of_nat (length buffer) then fail (OutOfBounds 12)
      else if 36 <? tmp mod base then fail (OutOfBounds (tmp mod base))
      else mret (inl (tmp / base, buffer ++ [carr (tmp mod base)]))) (tmp, []).

Definition itoa (data res base : Z) : M memory unit :=
  if res =? 0 then skip
  else if data =? 0 then st res 48;; st (res + 1) 0
  else
    let negative := if (data <? 0) && (base =? 10) then 1 else 0 in
    let data := if (data <? 0) && (base =? 10) then - data else data in
    buffer ← (if u32 data =? 0 then mret [] else itoa_digits (u32 data) base);
    let ptr := Z.of_nat (length buffer) in
    st (res + ptr) 0;;
    for_all 0 ptr (λ rindex, st (res + (ptr - 1 - rindex) + negative) (nth (Z.to_nat rindex) buffer 0));;
    x ← ld res;
    st res (x + negative * 45).

(** The value of one character; the comparisons with the base are unsigned. *)
Definition digit_value (c base : Z) : Z :=
  (if (48 <=? s8 c) && (s8 c <=? 57 - (if base <? 10 then 10 - base else 0)) then s8 c - 48 else 0) +
  (if (10 <? base) && (97 <=? s8 c) && (s8 c <=? u32 (102 - (16 - base))) then s8 c - 97 + 10 else 0).

Definition atoi (str base : Z) : M memory Z :=
  loop fuel32 (λ '(i, total),
    c ← ld (str + i);
    if c =? 0 then mret (inr total)
    else mret (inl (u32 (i + 1), u32 (u32 (total * base) + digit_value c base)))) (0, 0).

(** ** Strings in memory *)

Record cstr (m : memory) (p : Z) (s : list Z) : Prop := {
  cs_char i x : s !! i = Some x → m !0 (p + Z.of_nat i) = x;
  cs_end : m !0 (p + Z.of_nat (length s)) = 0;
  cs_nonzero : Forall (λ x, 0 < x < 256) s;
  cs_len : Z.of_nat (length s) < 2 ^ 31;
}.

Lemma cstr_at m p s i : cstr m p s → 0 <= i <= Z.of_nat (length s) → m !0 (p + i) = nth (Z.to_nat i) s 0.
Proof.
  intros [Hc He _ _] Hi. destruct (decide (i < Z.of_nat (length s))) as [Hlt|].
  - destruct (lookup_lt_is_Some_2 s (Z.to_nat i)) as [x Hx]; [lia|].
    specialize (Hc _ _ Hx). rewrite Z2Nat.id in Hc by lia. rewrite Hc. symmetry. by apply nth_lookup_Some.
  - replace i with (Z.of_nat (length s)) by lia. rewrite He, Nat2Z.id. by rewrite nth_overflow.
Qed.

Lemma cstr_nth m p s i : cstr m p s → (nth (Z.to_nat i) s 0 =? 0) = negb (Z.to_nat i <? length s)%nat.
Proof.
  intros Hs. destruct (Nat.ltb_spec (Z.to_nat i) (length s)) as [Hlt|].
  - destruct (lookup_lt_is_Some_2 s (Z.to_nat i) Hlt) as [x Hx].
    rewrite (nth_lookup_Some s _ 0 x Hx). pose proof (proj1 (Forall_lookup _ _) (cs_nonzero _ _ _ Hs) _ _ Hx). simpl in *.
    apply Z.eqb_neq. lia.
  - by rewrite nth_overflow.
Qed.

(** Only the string's own bytes matter. *)
Lemma cstr_frame m m' p s :
  cstr m p s → (∀ k, p <= k <= p + Z.of_nat (length s) → m' !0 k = m !0 k) → cstr m' p s.
Proof.
  intros [Hc He Hn Hl] Hk. split; [|rewrite Hk; [done|lia]|done|done].
  intros i x Hx. pose proof (lookup_lt_Some _ _ _ Hx). rewrite Hk by lia. by apply Hc.
Qed.

Lemma strlen_wp m p s (Q : Z → memory → Prop) :
  cstr m p s → Q (Z.of_nat (length s)) m → wp (strlen p) Q m.
Proof.
  intros Hs HQ. pose proof (cs_len _ _ _ Hs). unfold strlen.
  apply (wp_loop (λ c m', m' = m ∧ 0 <= c <= Z.of_nat (length s)) (λ c _, Z.of_nat (length s) - c)).
  - split; [done|lia].
  - unfold fuel32. lia.
  - intros c m' [_ ?]. lia.
  - intros c m' [-> Hc]. wp. rewrite (cstr_at m p s) by done. rewrite (cstr_nth m p s) by done.
    destruct (Nat.ltb_spec (Z.to_nat c) (length s)); cbn [negb]; wp.
    + rewrite u32_id by (unfold is_u32; lia). split; [split; [done|]|]; lia.
    + by replace c with (Z.of_nat (length s)) by lia.
Qed.

Lemma nth_eq_prefix (s t : list Z) n :
  Forall (λ x, 0 < x < 256) s → Forall (λ x, 0 < x < 256) t →
  (n <= length s)%nat → (n <= length t)%nat →
  (∀ i, (i < n)%nat → nth i s 0 = nth i t 0) → nth n s 0 = 0 → nth n t 0 = 0 → s = t.
Proof.
  intros Hs Ht Hns Hnt Hpre Hes Het.
  assert (∀ u, Forall (λ x, 0 < x < 256) u → (n <= length u)%nat → nth n u 0 = 0 → length u = n) as Hlen.
  { intros u Hu Hle He. destruct (decide (length u = n)) as [|Hne]; [done|].
    destruct (lookup_lt_is_Some_2 u n) as [x Hx]; [lia|]. rewrite (nth_lookup_Some u n 0 x Hx) in He.
    pose proof (proj1 (Forall_lookup _ _) Hu _ _ Hx). simpl in *. lia. }
  apply (nth_ext s t 0 0); [by rewrite (Hlen s), (Hlen t)|]. rewrite (Hlen s) by done. auto.
Qed.

Lemma strcmp_wp m p q s t (Q : Z → memory → Prop) :
  cstr m p s → cstr m q t → Q (if decide (s = t) then 0 else 1) m → wp (strcmp p q) Q m.
Proof.
  intros Hs Ht HQ. pose proof (cs_len _ _ _ Hs). pose proof (cs_len _ _ _ Ht). unfold strcmp.
  apply (wp_loop (λ i m', m' = m ∧ 0 <= i <= Z.of_nat (length s) ∧ i <= Z.of_nat (length t) ∧
      ∀ j, (j < Z.to_nat i)%nat → nth j s 0 = nth j t 0) (λ i _, Z.of_nat (length s) - i)).
  - split_and!; try done; lia.
  - unfold fuel32. lia.
  - intros i m' (_ & ? & _). lia.
  - intros i m' (-> & Hi & Hit & Hpre). wp. rewrite (cstr_at m p s), (cstr_at m q t) by (done || lia).
    destruct (Z.eqb_spec (nth (Z.to_nat i) s 0) (nth (Z.to_nat i) t 0)) as [Heq|Hne].
    + rewrite (cstr_nth m p s) by done. destruct (Nat.ltb_spec (Z.to_nat i) (length s)) as [Hlt|Hge]; cbn [negb andb]; wp.
      * assert (Z.to_nat i < length t)%nat as Hlt'.
        { pose proof (cstr_nth m q t i Ht) as Hz. rewrite <- Heq, (cstr_nth m p s i Hs) in Hz.
          destruct (Nat.ltb_spec (Z.to_nat i) (length s)), (Nat.ltb_spec (Z.to_nat i) (length t)); (done || lia). }
        rewrite u32_id by (unfold is_u32; lia). split; [|lia]. split_and!; [done|lia..|].
        intros j Hj. destruct (decide (j = Z.to_nat i)) as [->|]; [done|]. apply Hpre. lia.
      * assert (nth (Z.to_nat i) s 0 = 0) as Hz by (by rewrite nth_overflow).
        rewrite decide_True in HQ; [done|].
        apply (nth_eq_prefix s t (Z.to_nat i)); [apply Hs|apply Ht|lia|lia|done|done|by rewrite <- Heq].
    + rewrite andb_false_r. wp. rewrite decide_False in HQ; [done|]. by intros ->.
Qed.

(** ** Copying *)

Lemma copy_wp src dest n m (Q : unit → memory → Prop) :
  0 <= n → src + n <= dest ∨ dest + n <= src →
  (∀ k, src <= k < src + n → is_u8 (m !0 k)) →
  (∀ m', (∀ k, m' !0 k = if decide (dest <= k < dest + n) then m !0 (src + (k - dest)) else m !0 k) → Q tt m') →
  wp (for_all 0 n (λ i, x ← ld (src + i); st (dest + i) x)) Q m.
Proof.
  intros Hn Hd Hu HQ.
  apply (wp_for_all (λ i m', ∀ k, m' !0 k = if decide (dest <= k < dest + i) then m !0 (src + (k - dest)) else m !0 k));
    [done| | |done].
  - intros k. by rewrite decide_False by lia.
  - intros i m' Hi Hm'. wp. intros k. rewrite zget_insert. destruct (decide (dest + i = k)) as [<-|Hne].
    + rewrite Hm', decide_False by lia. rewrite decide_True by lia. rewrite u8_id by (apply Hu; lia). f_equal. lia.
    + rewrite Hm'. repeat case_decide; (done || lia).
Qed.

Lemma memclr_wp p n m (Q : unit → memory → Prop) :
  0 <= n → (∀ m', (∀ k, m' !0 k = if decide (p <= k < p + n) then 0 else m !0 k) → Q tt m') → wp (memclr p n) Q m.
Proof.
  intros Hn HQ. unfold memclr. destruct (Z.eqb_spec (n mod 4) 0) as [Hz|Hz].
  - pose proof (Z.div_mod n 4 ltac:(lia)) as Hd.
    apply (wp_for_all (λ i m', ∀ k, m' !0 k = if decide (p <= k < p + 4 * i) then 0 else m !0 k)).
    + apply Z.div_pos; lia.
    + intros k. by rewrite decide_False by lia.
    + intros i m' Hi Hm'. wp. intros k. rewrite !zget_insert, Hm'. change (u8 0) with 0. repeat case_decide; done || lia.
    + intros m' Hm'. apply HQ. intros k. rewrite Hm'. repeat case_decide; done || lia.
  - apply (wp_for_all (λ i m', ∀ k, m' !0 k = if decide (p <= k < p + i) then 0 else m !0 k)); [done| | |].
    + intros k. by rewrite decide_False by lia.
    + intros i m' Hi Hm'. wp. intros k. rewrite zget_insert, Hm'. change (u8 0) with 0. repeat case_decide; done || lia.
    + intros m' Hm'. by apply HQ.
Qed.

Lemma cstr_u8 m p s k : cstr m p s → p <= k < p + Z.of_nat (length s) → is_u8 (m !0 k).
Proof.
  intros Hs Hk. destruct (lookup_lt_is_Some_2 s (Z.to_nat (k - p))) as [x Hx]; [lia|].
  pose proof (cs_char _ _ _ Hs _ _ Hx) as Hc. rewrite Z2Nat.id in Hc by lia. replace (p + (k - p)) with k in Hc by lia.
  rewrite Hc. pose proof (proj1 (Forall_lookup _ _) (cs_nonzero _ _ _ Hs) _ _ Hx). simpl in *. unfold is_u8. lia.
Qed.

Lemma strcpy_wp m src dest s (Q : unit → memory → Prop) :
  cstr m src s → src ≠ 0 → dest ≠ 0 →
  src + Z.of_nat (length s) < dest ∨ dest + Z.of_nat (length s) < src →
  (∀ m', cstr m' dest s →
     (∀ k, ¬ (dest <= k <= dest + Z.of_nat (length s)) → m' !0 k = m !0 k) → Q tt m') →
  wp (strcpy src dest) Q m.
Proof.
  intros Hs Hsrc Hdest Hdis HQ. unfold strcpy.
  rewrite (proj2 (Z.eqb_neq _ _) Hsrc), (proj2 (Z.eqb_neq _ _) Hdest). cbn [orb]. wp.
  apply (strlen_wp m src s); [done|]. wp. set (n := Z.of_nat (length s)) in *.
  apply copy_wp; [lia|lia|intros k Hk; by apply (cstr_u8 m src s)|].
  intros m' Hm'. wp. apply HQ.
  - destruct Hs as [Hc He Hnz Hl]. split; [|by rewrite zget_insert_eq|done|done].
    intros i x Hx. pose proof (lookup_lt_Some _ _ _ Hx). rewrite zget_insert_ne by lia.
    rewrite Hm', decide_True by lia. rewrite <- (Hc _ _ Hx). f_equal. lia.
  - intros k Hk. rewrite zget_insert_ne by lia. by rewrite Hm', decide_False by lia.
Qed.

Lemma strcat_wp m src dest s t (Q : unit → memory → Prop) :
  cstr m src s → cstr m dest t → src ≠ 0 → 0 < dest →
  Z.of_nat (length t) + Z.of_nat (length s) < 2 ^ 31 →
  src + Z.of_nat (length s) < dest ∨ dest + Z.of_nat (length t) + Z.of_nat (length s) < src →
  (∀ m', cstr m' dest (t ++ s) →
     (∀ k, ¬ (dest + Z.of_nat (length t) <= k <= dest + Z.of_nat (length t) + Z.of_nat (length s)) →
        m' !0 k = m !0 k) → Q tt m') →
  wp (strcat src dest) Q m.
Proof.
  intros Hs Ht Hsrc Hdest Hlen Hdis HQ. unfold strcat. wp. apply (strlen_wp m dest t); [done|].
  apply (strcpy_wp m src _ s); [done|done|lia|lia|]. intros m' Hm' Hfr. apply HQ; [|done].
  destruct Ht as [Hc _ Hnz _]. destruct Hm' as [Hc' He' Hnz' _].
  split; [|rewrite length_app, Nat2Z.inj_add, Z.add_assoc; done|by apply Forall_app|rewrite length_app; lia].
  intros i x Hx. apply lookup_app_Some in Hx as [Hx|[Hge Hx]].
  - pose proof (lookup_lt_Some _ _ _ Hx). rewrite Hfr by lia. by apply Hc.
  - rewrite <- (Hc' _ _ Hx). f_equal. lia.
Qed.

(** ** Numbers *)

(** The digits of a number, least significant first. *)
Definition of_digits (base : Z) (ds : list Z) : Z := foldr (λ d n, d + base * n) 0 ds.

Lemma of_digits_app base ds d :
  of_digits base (ds ++ [d]) = of_digits base ds + d * base ^ Z.of_nat (length ds).
Proof.
  induction ds as [|x ds IH]; simpl of_digits; [simpl; lia|]. rewrite IH.
  cbn [length]. rewrite Nat2Z.inj_succ, Z.pow_succ_r by lia. simpl. lia.
Qed.

Lemma of_digits_nonneg base ds : 0 <= base → Forall (λ d, 0 <= d < base) ds → 0 <= of_digits base ds.
Proof. intros Hb. induction 1; simpl; nia. Qed.

(** Twelve digits are enough for 32 bits in every base from 7 on. *)
Lemma itoa_digits_wp n base (Q : list Z → memory → Prop) m :
  0 < n < 2 ^ 32 → 7 <= base <= 36 →
  (∀ ds, Forall (λ d, 0 <= d < base) ds → of_digits base ds = n → (0 < length ds <= 12)%nat →
     last ds ≠ Some 0 → Q (carr <$> ds) m) →
  wp (itoa_digits n base) Q m.
Proof.
  intros Hn Hb HQ. unfold itoa_digits. rewrite (proj2 (Z.eqb_neq _ _)) by lia.
  apply (wp_loop (λ '(tmp, buffer) m', m' = m ∧ ∃ ds, buffer = carr <$> ds ∧ Forall (λ d, 0 <= d < base) ds ∧
      0 <= tmp ∧ (tmp = 0 → ds ≠ [] ∧ last ds ≠ Some 0) ∧ (length ds <= 12)%nat ∧
      of_digits base ds + tmp * base ^ Z.of_nat (length ds) = n) (λ '(tmp, _) _, tmp)).
  - split; [done|]. exists []. split_and!; [done|constructor|lia|lia|simpl; lia|simpl; lia].
  - unfold fuel32. lia.
  - intros [tmp buffer] m' (_ & ds & _ & _ & ? & _). done.
  - intros [tmp buffer] m' (-> & ds & -> & Hds & Ht & Hne & Hl & Hval).
    destruct (Z.eqb_spec tmp 0) as [->|Hnz]; wp.
    { destruct (Hne eq_refl) as [Hnil Hlast]. apply HQ; [done|lia| |done]. destruct ds; [done|simpl in *; lia]. }
    rewrite length_fmap. destruct (Z.leb_spec 12 (Z.of_nat (length ds))) as [H12|H12].
    { exfalso. replace (Z.of_nat (length ds)) with 12 in Hval by lia.
      pose proof (of_digits_nonneg base ds ltac:(lia) Hds).
      assert (7 ^ 12 <= base ^ 12) by (apply Z.pow_le_mono_l; lia).
      change (7 ^ 12) with 13841287201 in *. nia. }
    pose proof (Z.mod_pos_bound tmp base ltac:(lia)). pose proof (Z.div_mod tmp base ltac:(lia)).
    pose proof (Z.div_pos tmp base ltac:(lia) ltac:(lia)).
    destruct (Z.ltb_spec 36 (tmp mod base)); [lia|]. wp.
    split; [|apply Z.div_lt; lia]. split; [done|]. exists (ds ++ [tmp mod base]). split_and!.
    + by rewrite fmap_app.
    + apply Forall_app. split; [done|]. by constructor.
    + done.
    + intros Hz. split; [by destruct ds|]. rewrite last_snoc. intros [= ?]. lia.
    + rewrite length_app. simpl. lia.
    + rewrite of_digits_app, length_app. cbn [length]. rewrite Nat2Z.inj_add, Z.pow_add_r by lia.
      change (base ^ Z.of_nat 1) with (base ^ 1). rewrite Z.pow_1_r. nia.
Qed.

Lemma carr_char d base : 7 <= base <= 36 → 0 <= d < base → 0 < carr d < 128.
Proof. intros Hb Hd. unfold carr. destruct (Z.ltb_spec d 10), (Z.ltb_spec d 36); lia. Qed.

(** The reversing loop, with room for [neg] characters in front. *)
Lemma itoa_reverse_wp res neg bs m (Q : unit → memory → Prop) :
  Forall (λ x, 0 < x < 256) bs →
  let ptr := Z.of_nat (length bs) in
  (∀ m', (∀ k, m' !0 k = if decide (res + neg <= k < res + neg + ptr)
            then nth (Z.to_nat (k - (res + neg))) (reverse bs) 0 else m !0 k) → Q tt m') →
  wp (for_all 0 ptr (λ rindex, st (res + (ptr - 1 - rindex) + neg) (nth (Z.to_nat rindex) bs 0))) Q m.
Proof.
  intros Hbs ptr HQ.
  apply (wp_for_all (λ i m', ∀ k, m' !0 k =
    if decide (res + neg + ptr - i <= k < res + neg + ptr)
    then nth (Z.to_nat (k - (res + neg))) (reverse bs) 0 else m !0 k)).
  - lia.
  - intros k. by rewrite decide_False by lia.
  - intros i m' Hi Hm'. wp. intros k. rewrite zget_insert.
    destruct (decide (res + (ptr - 1 - i) + neg = k)) as [<-|Hne]; [|rewrite Hm'; repeat case_decide; (done || lia)].
    rewrite decide_True by lia. replace (res + (ptr - 1 - i) + neg - (res + neg)) with (ptr - 1 - i) by lia.
    destruct (lookup_lt_is_Some_2 bs (Z.to_nat i)) as [x Hx]; [lia|]. rewrite (nth_lookup_Some bs _ 0 x Hx).
    rewrite (nth_lookup_Some (reverse bs) _ 0 x).
    + pose proof (proj1 (Forall_lookup _ _) Hbs _ _ Hx). simpl in *. apply u8_id. unfold is_u8. lia.
    + rewrite reverse_lookup by lia. rewrite <- Hx. f_equal. lia.
  - intros m' Hm'. apply HQ. intros k. rewrite Hm'. repeat case_decide; (done || lia).
Qed.

Lemma carr_chars base ds :
  7 <= base <= 36 → Forall (λ d, 0 <= d < base) ds → Forall (λ x, 0 < x < 256) (carr <$> ds).
Proof.
  intros Hb Hds. apply Forall_fmap. eapply Forall_impl; [exact Hds|]. intros d Hd. simpl.
  pose proof (carr_char d base Hb Hd). lia.
Qed.

Lemma itoa_wp n res base m (Q : unit → memory → Prop) :
  0 < n < 2 ^ 32 → 7 <= base <= 36 → res ≠ 0 →
  (∀ m' ds, Forall (λ d, 0 <= d < base) ds → of_digits base ds = n → (0 < length ds <= 12)%nat →
     last ds ≠ Some 0 → cstr m' res (reverse (carr <$> ds)) →
     (∀ k, ¬ (res <= k <= res + Z.of_nat (length ds)) → m' !0 k = m !0 k) → Q tt m') →
  wp (itoa n res base) Q m.
Proof.
  intros Hn Hb Hres HQ. unfold itoa. rewrite (proj2 (Z.eqb_neq res 0)), (proj2 (Z.eqb_neq n 0)) by lia.
  rewrite (proj2 (Z.ltb_ge n 0)) by lia. cbn [andb]. rewrite u32_id by (unfold is_u32; lia). wp.
  rewrite (proj2 (Z.eqb_neq n 0)) by lia. apply itoa_digits_wp; [done|done|].
  intros ds Hds Hval Hlen Hlast. wp.
  pose proof (carr_chars base ds Hb Hds) as Hchars. set (n' := Z.of_nat (length (carr <$> ds))).
  assert (0 < n' <= 12) as Hn' by (unfold n'; rewrite length_fmap; lia).
  apply itoa_reverse_wp; [done|]. fold n'. intros m' Hm'. wp. rewrite Z.add_0_r in Hm' |- *.
  assert (cstr m' res (reverse (carr <$> ds))) as Hstr.
  { split; rewrite ?length_reverse; fold n'; [| |by apply Forall_reverse|lia].
    - intros i x Hx. pose proof (lookup_lt_Some _ _ _ Hx) as Hlt. rewrite length_reverse in Hlt.
      rewrite Hm', decide_True by lia. apply nth_lookup_Some. rewrite <- Hx. f_equal. lia.
    - by rewrite Hm', decide_False, zget_insert_eq by lia. }
  apply (HQ _ ds); [done|done|done|done| |].
  - apply (cstr_frame m'); [done|]. intros k _. rewrite zget_insert. case_decide; [|done]. subst k.
    apply u8_id, (cstr_u8 m' res _ res Hstr). rewrite length_reverse. lia.
  - intros k Hk. rewrite <- (length_fmap carr ds) in Hk. fold n' in Hk.
    by rewrite zget_insert_ne, Hm', decide_False, zget_insert_ne by lia.
Qed.

(** The reference: the digits of [n], least significant first. *)
Fixpoint digits (fuel : nat) (base n : Z) : list Z :=
  match fuel with
  | O => []
  | S fuel => if n =? 0 then [] else n mod base :: digits fuel base (n / base)
  end.
(** The numeral of [n]. *)
Definition numeral (base n : Z) : list Z := if n =? 0 then [48] else reverse (carr <$> digits 12 base n).

Lemma digits_length fuel base n k : 1 < base → 0 <= n < base ^ Z.of_nat k → (length (digits fuel base n) <= k)%nat.
Proof.
  intros Hb. revert n k. induction fuel as [|fuel IH]; intros n k Hn; [simpl; lia|]. cbn [digits].
  destruct (Z.eqb_spec n 0) as [|Hnz]; [simpl; lia|]. destruct k as [|k]; [simpl in Hn; lia|].
  cbn [length]. apply le_n_S, IH. rewrite Nat2Z.inj_succ, Z.pow_succ_r in Hn by lia.
  split; [apply Z.div_pos; lia|]. apply Z.div_lt_upper_bound; lia.
Qed.
Lemma digits_unique base ds fuel :
  1 < base → Forall (λ d, 0 <= d < base) ds → last ds ≠ Some 0 → (length ds <= fuel)%nat →
  digits fuel base (of_digits base ds) = ds.
Proof.
  intros Hb Hds. revert fuel. induction Hds as [|d ds Hd Hds IH]; intros fuel Hlast Hf; [by destruct fuel|].
  destruct fuel as [|fuel]; [simpl in Hf; lia|]. cbn [of_digits foldr digits]. fold (of_digits base ds).
  pose proof (of_digits_nonneg base ds ltac:(lia) Hds) as Hpos.
  assert (of_digits base ds ≠ 0 ∨ ds = []) as Hne.
  { destruct (decide (ds = [])) as [->|Hn]; [by right|left]. intros H0.
    assert (digits (length ds) base (of_digits base ds) = ds) as Hdg.
    { apply IH; [|done]. destruct ds; [done|]. exact Hlast. }
    rewrite H0 in Hdg. apply Hn. destruct ds; [done|]. by rewrite <- Hdg. }
  assert (d + base * of_digits base ds ≠ 0).
  { destruct Hne as [Hne| ->]; [nia|]. simpl in *. intros He. apply Hlast. f_equal. lia. }
  rewrite (proj2 (Z.eqb_neq _ _)) by done.
  rewrite (Z.add_comm d), Z.mul_comm, Z.add_comm, Z.mod_add, Z.div_add, Z.mod_small, Z.div_small by lia. f_equal.
  rewrite Z.add_0_l. apply IH; [|simpl in Hf; lia]. destruct ds; [done|]. exact Hlast.
Qed.

Lemma itoa_numeral_wp n res base m (Q : unit → memory → Prop) :
  0 <= n < 2 ^ 32 → 7 <= base <= 36 → res ≠ 0 →
  (∀ m', cstr m' res (numeral base n) → (length (numeral base n) <= 12)%nat →
     (∀ k, ¬ (res <= k <= res + Z.of_nat (length (numeral base n))) → m' !0 k = m !0 k) → Q tt m') →
  wp (itoa n res base) Q m.
Proof.
  intros Hn Hb Hres HQ. unfold numeral in HQ. destruct (Z.eqb_spec n 0) as [->|Hnz].
  - unfold itoa. rewrite (proj2 (Z.eqb_neq res 0)) by lia. cbn [Z.eqb]. wp. apply HQ; [|simpl; lia|].
    + split; [|by rewrite zget_insert_eq|by repeat constructor|simpl; lia].
      intros [|i] x Hx; [|done]. injection Hx as <-.
      rewrite zget_insert_ne, Z.add_0_r, zget_insert_eq by (simpl; lia). done.
    + intros k Hk. simpl in Hk. by rewrite !zget_insert_ne by lia.
  - apply itoa_wp; [lia|lia|done|]. intros m' ds Hds Hval Hlen Hlast Hstr Hfr.
    assert (digits 12 base n = ds) as Hdg by (rewrite <- Hval; apply digits_unique; done || lia).
    rewrite Hdg, length_reverse, length_fmap in HQ. apply HQ; [done|lia|done].
Qed.

(** A short string is moved up behind its padding; [tmp] is written with one byte more
    than the array has. *)
Lemma strpad_wp m tmp p pad len s (Q : unit → memory → Prop) :
  cstr m p s → Z.of_nat (length s) < pad < 256 → Z.of_nat (length s) <= len < 2 ^ 31 → 0 < tmp → 0 < p →
  p + len < tmp ∨ tmp + len < p →
  (∀ m', cstr m' p (replicate (Z.to_nat (len - Z.of_nat (length s))) pad ++ s) →
     (∀ k, ¬ (p <= k <= p + len) → ¬ (tmp <= k <= tmp + len) → m' !0 k = m !0 k) → Q tt m') →
  wp (strpad tmp p pad len) Q m.
Proof.
  intros Hs Hpad Hlen Ht Hp Hdis HQ. set (n := Z.of_nat (length s)) in *. unfold strpad.
  wp. apply (strlen_wp m p s); [done|]. fold n. rewrite Z.geb_leb, (proj2 (Z.leb_gt _ _)) by lia. wp.
  apply (strlen_wp m p s); [done|]. fold n. wp. rewrite u32_id by (unfold is_u32; lia).
  apply (wp_for_all (λ i m', ∀ k, m' !0 k = if decide (tmp <= k < tmp + i) then pad else m !0 k)); [lia| | |].
  - intros k. by rewrite decide_False by lia.
  - intros i m' Hi Hm'. wp. intros k. rewrite zget_insert, u8_id by (unfold is_u8; lia).
    destruct (decide (tmp + i = k)) as [<-|]; [by rewrite decide_True by lia|]. rewrite Hm'. repeat case_decide; done || lia.
  - intros m1 Hm1. wp. assert (cstr m1 p s) as Hs1.
    { apply (cstr_frame m); [done|]. intros k Hk. rewrite Hm1, decide_False by (fold n in Hk; lia). done. }
    apply (strlen_wp m1 p s); [done|]. fold n. wp.
    apply (strcpy_wp m1 p _ s); [done|lia|lia|fold n; lia|]. fold n. intros m2 Hs2 Hm2.
    assert (cstr m2 tmp (replicate (Z.to_nat (len - n)) pad ++ s)) as Hs3.
    { destruct Hs2 as [Hc He Hnz _]. split.
      - intros i x [Hi|[Hge Hi]]%lookup_app_Some.
        + apply lookup_replicate in Hi as [-> Hi]. rewrite Hm2, Hm1, decide_True by lia. done.
        + rewrite length_replicate in Hge, Hi. rewrite <- (Hc _ _ Hi). f_equal. lia.
      - rewrite length_app, length_replicate. rewrite <- He. f_equal. lia.
      - apply Forall_app. split; [apply Forall_replicate; lia|done].
      - rewrite length_app, length_replicate. lia. }
    apply (strcpy_wp m2 tmp p _ _ Hs3); [lia|lia|rewrite length_app, length_replicate; lia|].
    rewrite length_app, length_replicate. intros m3 Hs4 Hm3. apply HQ; [done|]. intros k Hk1 Hk2.
    rewrite Hm3, Hm2, Hm1, decide_False by lia. done.
Qed.

(** [atoi] folds over the characters. *)
Lemma atoi_wp m p s base (Q : Z → memory → Prop) :
  cstr m p s → Q (foldl (λ total c, u32 (u32 (total * base) + digit_value c base)) 0 s) m → wp (atoi p base) Q m.
Proof.
  intros Hs HQ. pose proof (cs_len _ _ _ Hs). unfold atoi.
  set (f := λ total c, u32 (u32 (total * base) + digit_value c base)) in *.
  apply (wp_loop (λ '(i, total) m', m' = m ∧ 0 <= i <= Z.of_nat (length s) ∧ total = foldl f 0 (take (Z.to_nat i) s))
    (λ '(i, _) _, Z.of_nat (length s) - i)).
  - split_and!; [done|lia|lia|done].
  - unfold fuel32. lia.
  - intros [i total] m' (_ & ? & _). lia.
  - intros [i total] m' (-> & Hi & ->). wp. rewrite (cstr_at m p s), (cstr_nth m p s) by done.
    destruct (Nat.ltb_spec (Z.to_nat i) (length s)) as [Hlt|Hge]; cbn [negb]; wp.
    + rewrite u32_id by (unfold is_u32; lia). split; [|lia]. split_and!; [done|lia|lia|].
      destruct (lookup_lt_is_Some_2 s (Z.to_nat i) Hlt) as [x Hx]. rewrite (nth_lookup_Some s _ 0 x Hx).
      replace (Z.to_nat (i + 1)) with (S (Z.to_nat i)) by lia. rewrite (take_S_r s _ x Hx), foldl_app. done.
    + by rewrite take_ge by lia.
Qed.

Lemma digit_value_carr d base : 7 <= base <= 10 → 0 <= d < base → digit_value (carr d) base = d.
Proof.
  intros Hb Hd. unfold digit_value, carr, s8. rewrite (proj2 (Z.ltb_lt d 10)) by lia.
  rewrite (proj2 (Z.ltb_lt (48 + d) 128)) by lia. rewrite (proj2 (Z.leb_le 48 (48 + d))) by lia.
  rewrite (proj2 (Z.ltb_ge 10 base)) by lia. cbn [andb].
  rewrite (proj2 (Z.leb_le (48 + d) _)) by (destruct (Z.ltb_spec base 10); lia). lia.
Qed.

Lemma atoi_digits base ds :
  7 <= base <= 10 → Forall (λ d, 0 <= d < base) ds → of_digits base ds < 2 ^ 32 →
  foldl (λ total c, u32 (u32 (total * base) + digit_value c base)) 0 (reverse (carr <$> ds)) = of_digits base ds.
Proof.
  intros Hb Hds. induction ds as [|d ds IH]; intros Hlt; [done|]. apply Forall_cons_1 in Hds as [Hd Hds].
  pose proof (of_digits_nonneg base ds ltac:(lia) Hds). cbn [of_digits foldr] in Hlt. fold (of_digits base ds) in Hlt.
  rewrite fmap_cons, reverse_cons, foldl_app, IH by (done || nia). cbn [foldl].
  rewrite digit_value_carr by done. rewrite (u32_id (_ * _)) by (unfold is_u32; nia).
  rewrite u32_id by (unfold is_u32; nia). cbn [of_digits foldr]. fold (of_digits base ds). lia.
Qed.

(** ** Properties *)

(** Numbers survive printing and parsing.  In every base from 7 to 10 and
    for every 32-bit number, [itoa] writes a string of at most twelve characters
    at [res], changes nothing behind them, and [atoi] reads the number back. *)
Theorem itoa_atoi_roundtrip n res base m :
  0 <= n < 2 ^ 32 → 7 <= base <= 10 → res ≠ 0 →
  ∃ m', itoa n res base m = Ok (tt, m') ∧ atoi res base m' = Ok (n, m') ∧
    ∀ k, ¬ (res <= k <= res + 12) → m' !0 k = m !0 k.
Proof.
  intros Hn Hb Hres.
  assert (wp (itoa n res base) (λ _ m', wp (atoi res base) (λ r m'', r = n ∧ m'' = m') m' ∧
    ∀ k, ¬ (res <= k <= res + 12) → m' !0 k = m !0 k) m) as Hwp.
  2: { apply wp_unit in Hwp as (m' & Hrun & Hat & Hfr). exists m'. split_and!; [done| |done]. by apply wp_pure. }
  destruct (decide (n = 0)) as [->|].
  - unfold itoa. rewrite (proj2 (Z.eqb_neq res 0)) by lia. cbn [Z.eqb]. wp. split.
    + apply (atoi_wp _ res [48]).
      * split; [|by rewrite zget_insert_eq|by repeat constructor|simpl; lia].
        intros [|i] x Hx; [|done]. injection Hx as <-.
        rewrite zget_insert_ne, Z.add_0_r, zget_insert_eq by (simpl; lia). done.
      * cbn [foldl]. change 48 with (carr 0). rewrite (digit_value_carr 0 base Hb ltac:(lia)). done.
    + intros k Hk. by rewrite !zget_insert_ne by lia.
  - apply itoa_wp; [lia|lia|done|]. intros m' ds Hds Hval Hlen _ Hstr Hfr. split; [|intros k Hk; apply Hfr; lia].
    eapply atoi_wp; [exact Hstr|]. rewrite atoi_digits by (done || lia). done.
Qed.

Lemma itoa_atoi_roundtrip_witness :
  ∃ m', itoa 4294967295 100 10 ∅ = Ok (tt, m') ∧ atoi 100 10 m' = Ok (4294967295, m').
Proof.
  destruct (itoa_atoi_roundtrip 4294967295 100 10 ∅) as (m' & Hi & Ha & _); [lia..|].
  exists m'. exact (conj Hi Ha).
Defined.

(** Strings.  [strcat] appends, [strcpy] copies and [strcmp] decides
    equality: joining [s] to [t] and copying the result gives two strings that
    compare equal, and compare different from any other string in memory. *)
Theorem strcat_strcpy_strcmp m src dest copy other s t u :
  cstr m src s → cstr m dest t → cstr m other u →
  src ≠ 0 → 0 < dest → 0 < copy →
  let n := Z.of_nat (length t) + Z.of_nat (length s) in
  n < 2 ^ 31 →
  src + Z.of_nat (length s) < dest ∨ dest + n < src →
  dest + n < copy ∨ copy + n < dest →
  other + Z.of_nat (length u) < dest ∨ dest + n < other →
  other + Z.of_nat (length u) < copy ∨ copy + n < other →
  ∃ m', (strcat src dest;; strcpy dest copy) m = Ok (tt, m') ∧
    cstr m' copy (t ++ s) ∧ cstr m' dest (t ++ s) ∧
    strcmp dest copy m' = Ok (0, m') ∧
    strcmp copy other m' = Ok (if decide (t ++ s = u) then 0 else 1, m').
Proof.
  intros Hs Ht Hu Hsrc Hdest Hcopy n Hn Hd1 Hd2 Hd3 Hd4.
  assert (wp (strcat src dest;; strcpy dest copy) (λ _ m', cstr m' copy (t ++ s) ∧ cstr m' dest (t ++ s) ∧
    cstr m' other u) m) as Hwp.
  { wp. apply (strcat_wp m src dest s t); [done|done|done|done|lia|lia|]. intros m1 H1 Hf1.
    apply (strcpy_wp m1 dest copy (t ++ s)); [done|lia|lia|rewrite length_app; lia|]. intros m2 H2 Hf2.
    rewrite length_app in Hf2. split_and!; [done| |].
    - apply (cstr_frame m1); [done|]. rewrite length_app. intros k Hk. apply Hf2. lia.
    - apply (cstr_frame m); [done|]. intros k Hk. rewrite Hf2, Hf1 by lia. done. }
  apply wp_unit in Hwp as (m' & Hrun & H1 & H2 & H3). exists m'. split_and!; [done..| |].
  - apply wp_pure. apply (strcmp_wp m' dest copy (t ++ s) (t ++ s)); [done|done|]. by rewrite decide_True.
  - apply wp_pure. by apply (strcmp_wp m' copy other (t ++ s) u).
Qed.

(** "sda" at 100 and "/dev/" at 200. *)
Definition str_example : memory := store_bytes 100 [115; 100; 97; 0] (store_bytes 200 [47; 100; 101; 118; 47; 0] ∅).

Lemma cstr_store m p s :
  Forall (λ x, 0 < x < 256) s → Z.of_nat (length s) < 2 ^ 31 → cstr (store_bytes p (s ++ [0]) m) p s.
Proof.
  intros Hs Hl. assert (∀ i, (i <= length s)%nat → store_bytes p (s ++ [0]) m !0 (p + Z.of_nat i) =
    default 0 ((s ++ [0]) !! i)) as Hget.
  { intros i Hi. rewrite store_bytes_get, length_app. simpl length. rewrite decide_True by lia.
    by replace (Z.to_nat (p + Z.of_nat i - p)) with i by lia. }
  split; [|rewrite Hget by lia; by rewrite lookup_app_r, Nat.sub_diag by lia|done|done].
  intros i x Hx. pose proof (lookup_lt_Some _ _ _ Hx). rewrite Hget by lia. by rewrite lookup_app_l, Hx by done.
Qed.

Lemma strcat_strcpy_strcmp_witness :
  ∃ m', (strcat 100 200;; strcpy 200 300) str_example = Ok (tt, m') ∧
    strcmp 200 300 m' = Ok (0, m') ∧ strcmp 300 100 m' = Ok (1, m').
Proof.
  assert (cstr str_example 100 [115; 100; 97]) as Hs
    by (apply (cstr_store _ 100 [115; 100; 97]); by_computation).
  assert (cstr str_example 200 [47; 100; 101; 118; 47]) as Ht.
  { apply (cstr_frame (store_bytes 200 [47; 100; 101; 118; 47; 0] ∅)); [apply (cstr_store _ 200 [47; 100; 101; 118; 47]); by_computation|].
    intros k Hk. simpl in Hk. unfold str_example. rewrite store_bytes_get. simpl length. by rewrite decide_False by lia. }
  destruct (strcat_strcpy_strcmp str_example 100 200 300 100 _ _ _ Hs Ht Hs)
    as (m' & Hrun & _ & _ & H1 & H2); [by_computation..|].
  exists m'. exact (conj Hrun (conj H1 H2)).
Defined.

(** A negative number is printed wrongly.  For base 10 [itoa] shifts the
    digits up by one character, which puts the last digit over the terminator
    it wrote before, and adds the minus sign to whatever [res[0]] held.  The
    digits stand at [res + 1] and memory behind them is as it was. *)
Theorem itoa_negative_unterminated n res m :
  0 < n < 2 ^ 32 → res ≠ 0 →
  ∃ m' ds, itoa (- n) res 10 m = Ok (tt, m') ∧
    of_digits 10 ds = n ∧ (0 < length ds <= 12)%nat ∧
    (∀ i, (i < length ds)%nat → m' !0 (res + 1 + Z.of_nat i) = nth i (reverse (carr <$> ds)) 0) ∧
    m' !0 res = u8 (m !0 res + 45) ∧
    ∀ k, res + Z.of_nat (length ds) < k → m' !0 k = m !0 k.
Proof.
  intros Hn Hres.
  assert (wp (itoa (- n) res 10) (λ _ m', ∃ ds, of_digits 10 ds = n ∧ (0 < length ds <= 12)%nat ∧
    (∀ i, (i < length ds)%nat → m' !0 (res + 1 + Z.of_nat i) = nth i (reverse (carr <$> ds)) 0) ∧
    m' !0 res = u8 (m !0 res + 45) ∧ ∀ k, res + Z.of_nat (length ds) < k → m' !0 k = m !0 k) m) as Hwp.
  2: { apply wp_unit in Hwp as (m' & Hrun & ds & Hpost). exists m', ds. exact (conj Hrun Hpost). }
  unfold itoa. rewrite (proj2 (Z.eqb_neq res 0)), (proj2 (Z.eqb_neq (- n) 0)) by lia.
  rewrite (proj2 (Z.ltb_lt (- n) 0)) by lia. cbn [andb Z.eqb Pos.eqb].
  rewrite Z.opp_involutive, u32_id by (unfold is_u32; lia). wp. rewrite (proj2 (Z.eqb_neq n 0)) by lia.
  apply itoa_digits_wp; [lia|lia|]. intros ds Hds Hval Hlen _. wp.
  apply itoa_reverse_wp; [by apply (carr_chars 10)|]. rewrite length_fmap. intros m' Hm'. wp.
  exists ds. split_and!; [done|lia|lia| | |].
  - intros i Hi. rewrite zget_insert_ne, Hm', decide_True by lia. f_equal. lia.
  - rewrite zget_insert_eq, Hm', decide_False, zget_insert_ne by lia. done.
  - intros k Hk. by rewrite zget_insert_ne, Hm', decide_False, zget_insert_ne by lia.
Qed.

Lemma itoa_negative_unterminated_witness :
  ∃ m', itoa (-5) 100 10 {[100 := 32; 102 := 63]} = Ok (tt, m') ∧ m' !0 100 = 77.
Proof.
  destruct (itoa_negative_unterminated 5 100 {[100 := 32; 102 := 63]}) as (m' & ds & Hrun & _ & _ & _ & Hs & _);
    [lia|lia|]. exists m'. split; [exact Hrun|]. rewrite Hs. vm_compute. reflexivity.
Defined.
