(* ===== verification/FatWrite.v ===== *)
(** * Writing FAT32 files (src/src/kmodules/fs_driver.c: fat32_write, dirent_writeback)

    A write walks to the cluster it starts in, makes the chain longer where it
    ends too early, puts the bytes into the clusters and records the new size in
    the file's directory entry.  The functions act on one mount, as in [Fat32]. *)
From S2P Require Import Prelude Device Fat32.

(** An open file.  [fat32_open] stores the same structure in the file and in
    [open_file_cache], so there is one. *)
Record fat_open_file := OpenFile {
  first_cluster : Z;
  size_bytes : Z;
  file_flags : Z;
  dirent_cluster : Z;
  dirent_offset : Z;
}.
Definition set_first_cluster (c : Z) (o : fat_open_file) : fat_open_file :=
  OpenFile c (size_bytes o) (file_flags o) (dirent_cluster o) (dirent_offset o).
Definition set_size_bytes (n : Z) (o : fat_open_file) : fat_open_file :=
  OpenFile (first_cluster o) n (file_flags o) (dirent_cluster o) (dirent_offset o).

(** [n] bytes of a buffer, from [pos] on. *)
Definition buf_bytes (buf : gmap Z Z) (pos n : Z) : list Z := (λ k, buf !0 (pos + k)) <$> seqZ 0 n.

Section write.
Context {D : Type} `{BlockDev D}.
Notation mount := (fat_mount D).
Implicit Types m : mount.

(** What a page array holds when it has just been allocated, and whether
    [malloc] has a page for the zeros of a new cluster. *)
Variable fresh : list Z.
Variable malloc_ok : bool.

Definition set_spinlock (b : bool) m : mount :=
  FatMount (bpb m) (mount_src m) (src_block_size m) (cache_dirty m) b (fat_search_start m)
    (fat_start_sector m) (data_start_sector m) (fat_cache_start m) (fat_cache_size m) (fat_cache m).
Definition mount_acquire : M mount unit :=
  locked ← gets spinlock;
  if locked then fail Deadlock else modify (set_spinlock true).
Definition mount_release : M mount unit := modify (set_spinlock false).

Definition fwrite_src (bytes : list Z) (offset : Z) : M mount unit :=
  modify (λ m, set_src (fwrite (mount_src m) bytes offset) m).

(** A new cluster behind the last one; [None] when no cluster is free. *)
Definition extend_chain (last_cluster : Z) : M mount (option Z) :=
  mount_acquire;;
  new_cluster ← fat32_get_free_cluster fresh;
  if new_cluster =? 0 then mount_release;; mret None
  else
    fat32_set_next_cluster fresh last_cluster new_cluster;;
    fat32_set_next_cluster fresh new_cluster FAT32_EOC;;
    mount_release;;
    mret (Some new_cluster).

(** The walk to the first cluster of the write; [None] is the early [return 0].
    The page of zeros is written after it has been freed, which leaves its
    bytes as they are. *)
Definition write_seek (first : Z) (n : Z) : M mount (option Z) :=
  r ← fora_loop 0 n (λ _ current_cluster,
        next ← fat32_get_next_cluster fresh current_cluster;
        if next >=? FAT32_EOC_MIN then
          new ← extend_chain current_cluster;
          match new with
          | None => mret (inr tt)
          | Some new_cluster =>
              if malloc_ok then
                m ← gets id;
                fwrite_src (replicate (Z.to_nat PAGE_SIZE_BYTES) 0) (read_offset m new_cluster);;
                mret (inl new_cluster)
              else mret (inr tt)
          end
        else mret (inl next)) first;
  mret (match r with inl c => Some c | inr _ => None end).

(** The loop over whole clusters; [Some r] is the early return, [base] the
    start of the part of the buffer it takes. *)
Definition write_clusters (buf : gmap Z Z) (base current remaining : Z) : M mount (option Z) :=
  csz ← gets cluster_size_bytes;
  loop fuel32 (λ '(i, current_cluster, remaining),
    if remaining >? 0 then
      m ← gets id;
      let part := if remaining <? csz then remaining else csz in
      fwrite_src (buf_bytes buf (base + i * csz) part) (read_offset m current_cluster);;
      let remaining := if remaining <? csz then 0 else remaining - csz in
      next ← fat32_get_next_cluster fresh current_cluster;
      if (next >=? FAT32_EOC_MIN) && (remaining >? 0) then
        new ← extend_chain current_cluster;
        match new with
        | None => mret (inr (Some (i * csz)))
        | Some new_cluster => mret (inl (i + 1, new_cluster, remaining))
        end
      else mret (inl (i + 1, next, remaining))
    else mret (inr None)) (0, current, remaining).

(** The fields of a directory entry an open file knows, stored into the page
    [dir] at byte [p]. *)
Definition patch_dirent (o : fat_open_file) (p : Z) (dir : gmap Z Z) : gmap Z Z :=
  let dir := store_bytes (p + 28) ((λ k, word_byte (size_bytes o) k) <$> seqZ 0 4) dir in
  let dir := store_bytes (p + 20) ((λ k, word_byte (Z.shiftr (first_cluster o) 16) k) <$> seqZ 0 2) dir in
  let dir := store_bytes (p + 26) ((λ k, word_byte (Z.land (first_cluster o) 0xffff) k) <$> seqZ 0 2) dir in
  store_bytes (p + 11) [u8 (file_flags o)] dir.

(** Where [dirent_writeback] takes a directory's cluster to start: the whole sum
    is made in 32 bits and widened afterwards, unlike in [read_offset]. *)
Definition dirent_page_offset m (cluster : Z) : Z :=
  u32 (u32 (u32 (cluster - 2) * cluster_size_bytes m) + u32 (data_start_sector m * bytes_per_sector (bpb m))).

(** [dir] is a page; an entry outside of it is outside of the allocation. *)
Definition dirent_writeback (dir : gmap Z Z) (o : fat_open_file) : M mount unit :=
  csz ← gets cluster_size_bytes;
  let dirents_per_cluster := csz / 32 in
  if dirents_per_cluster =? 0 then fail DivideError
  else
    let n := dirent_offset o / dirents_per_cluster in
    r ← fora_loop 0 n (λ i cluster,
          if (cluster >=? FAT32_EOC) && (i <? u32 (n - 1)) then mret (inr tt)
          else next ← fat32_get_next_cluster fresh cluster; mret (inl next)) (dirent_cluster o);
    match r with
    | inr _ => skip
    | inl cluster =>
        m ← gets id;
        let dir := fread_into dir 0 (dirent_page_offset m cluster) PAGE_SIZE_BYTES m in
        let index_adj := dirent_offset o mod dirents_per_cluster in
        if PAGE_SIZE_BYTES <? 32 * index_adj + 32 then fail (OutOfBounds index_adj)
        else fwrite_src (buf_bytes (patch_dirent o (32 * index_adj) dir) 0 PAGE_SIZE_BYTES)
               (dirent_page_offset m cluster)
    end.

(** The cluster loop and what follows it. *)
Definition write_finish (dir : gmap Z Z) (o : fat_open_file) (buf : gmap Z Z) (offset count base current remaining : Z)
    : M mount (Z * fat_open_file) :=
  r ← write_clusters buf base current remaining;
  match r with
  | Some r => mret (r, o)
  | None =>
      let o := if offset + count >? size_bytes o then set_size_bytes (u32 (offset + count)) o else o in
      dirent_writeback dir o;;
      mret (count, o)
  end.

(** A write to a file that has a first cluster: the value returned and the open
    file. *)
Definition write_from (dir : gmap Z Z) (o : fat_open_file) (buf : gmap Z Z) (offset count : Z)
    : M mount (Z * fat_open_file) :=
  csz ← gets cluster_size_bytes;
  clusters_until_start ← udiv64 offset csz;
  clusters_to_write ← udiv64 (u64 (count + csz - 1)) csz;
  start ← write_seek (first_cluster o) clusters_until_start;
  match start with
  | None => mret (0, o)
  | Some current =>
      let offset_in_cluster := Z.land offset (csz - 1) in
      if offset_in_cluster =? 0 then write_finish dir o buf offset count 0 current count
      else
        m ← gets id;
        let here := csz - offset_in_cluster in
        fwrite_src (buf_bytes buf 0 (if here >? count then count else here))
          (read_offset m current + offset_in_cluster);;
        if here >? count then mret (count, o)
        else
          next ← fat32_get_next_cluster fresh current;
          let remaining := count - here in
          if next >=? FAT32_EOC_MIN then mret (count - remaining, o)
          else write_finish dir o buf offset count here next remaining
  end.

Definition fat32_write (dir : gmap Z Z) (o : fat_open_file) (buf : gmap Z Z) (offset count : Z)
    : M mount (Z * fat_open_file) :=
  if first_cluster o =? 0 then
    first ← fat32_get_free_cluster fresh;
    if first =? 0 then mret (0, o)
    else
      fat32_set_next_cluster fresh first FAT32_EOC;;
      write_from dir (set_first_cluster first o) buf offset count
  else write_from dir o buf offset count.

(** ** What a step of a write leaves alone *)

Variable limit : Z.

Record same_vol m m' : Prop := {
  sv_bpb : bpb m' = bpb m;
  sv_block : src_block_size m' = src_block_size m;
  sv_fat : fat_start_sector m' = fat_start_sector m;
  sv_data : data_start_sector m' = data_start_sector m;
  sv_size : dev_size (mount_src m') = dev_size (mount_src m);
}.
(** The bytes of the data area. *)
Definition same_data m m' : Prop := ∀ k, data_base m <= k → dev_byte (mount_src m') k = dev_byte (mount_src m) k.

#[local] Instance same_vol_refl : Reflexive same_vol.
Proof. intros m. by split. Qed.
#[local] Instance same_vol_trans : Transitive same_vol.
Proof. intros m1 m2 m3 [] []. split; congruence. Qed.

Lemma same_mount_vol m m' : same_mount limit m m' → same_vol m m'.
Proof. by intros []. Qed.
Lemma same_mount_data m m' : data_geom limit m → same_mount limit m m' → same_data m m'.
Proof. intros Hg Hs k Hk. by apply (data_byte_same limit m m'). Qed.

Lemma vol_geom m m' :
  same_vol m m' →
  cluster_size_bytes m' = cluster_size_bytes m ∧ data_base m' = data_base m ∧ fat_start m' = fat_start m ∧
  cluster_limit m' = cluster_limit m.
Proof.
  intros [Hb Hbl Hf Hd _]. unfold cluster_size_bytes, data_base, fat_start, cluster_limit.
  by rewrite Hb, Hbl, Hf, Hd.
Qed.
Lemma vol_data_geom m m' : same_vol m m' → data_geom limit m → data_geom limit m'.
Proof. intros (Hc & Hd & Hf & _)%vol_geom [Hn Hb]. split; [by rewrite Hc|by rewrite Hd, Hf]. Qed.
Lemma vol_cluster_ok m m' c : same_vol m m' → cluster_ok limit m c → cluster_ok limit m' c.
Proof.
  intros Hs [? ? ? ?]. destruct (vol_geom m m' Hs) as (Hc & Hd & _). split; try done.
  - by rewrite Hc.
  - by rewrite Hc, Hd, (sv_size _ _ Hs).
Qed.
Lemma vol_read_offset m m' c :
  same_vol m m' → data_geom limit m → fat_geom limit m' → cluster_ok limit m c →
  read_offset m' c = data_base m + (c - 2) * cluster_size_bytes m.
Proof.
  intros Hs Hg Hf Hc. destruct (vol_geom m m' Hs) as (Hcs & Hd & _).
  rewrite (read_offset_eq limit m'), Hcs, Hd; [done|by apply (vol_data_geom m)|done|by apply (vol_cluster_ok m)].
Qed.
(** Below 4 GiB the 32-bit sum is the place of the cluster. *)
Lemma vol_dirent_page_offset m m' c :
  same_vol m m' → data_geom limit m → fat_geom limit m' → cluster_ok limit m c →
  data_base m + (c - 2) * cluster_size_bytes m < 2 ^ 32 →
  dirent_page_offset m' c = data_base m + (c - 2) * cluster_size_bytes m.
Proof.
  intros Hs Hg Hf Hc Hlow. destruct (vol_geom m m' Hs) as (Hcs & Hd & Hfs & _). pose proof (csz_pos limit m Hg).
  destruct Hc as [? ? ? ?], Hg as [_ Hb], Hf as [_ ? ? ? ?]. rewrite Hfs in *.
  unfold dirent_page_offset. fold (data_base m'). rewrite Hcs, Hd. unfold FAT32_EOC_MIN in *.
  rewrite (u32_id (c - 2)), (u32_id ((c - 2) * _)), (u32_id (data_base m)) by (unfold is_u32; nia).
  rewrite u32_id by (unfold is_u32; nia). lia.
Qed.
(** Behind 4 GiB it is not: the page of the entry is taken from 4 GiB further down. *)
Lemma dirent_page_offset_wraps m c :
  data_geom limit m → fat_geom limit m → cluster_ok limit m c → 2 ^ 32 <= data_base m + (c - 2) * cluster_size_bytes m →
  dirent_page_offset m c = read_offset m c - 2 ^ 32.
Proof.
  intros Hg Hf Hc Hhigh. rewrite (read_offset_eq limit) by done. pose proof (csz_pos limit m Hg).
  destruct Hc as [? ? ? ?], Hg as [_ Hb], Hf as [_ ? ? ? ?].
  unfold dirent_page_offset. fold (data_base m). unfold FAT32_EOC_MIN in *.
  rewrite (u32_id (c - 2)), (u32_id ((c - 2) * _)), (u32_id (data_base m)) by (unfold is_u32; nia).
  unfold u32. symmetry. apply (Z.mod_unique _ _ 1); lia.
Qed.

Lemma set_spinlock_repr F m b : fat_repr limit F m → fat_repr limit F (set_spinlock b m).
Proof.
  intros [[] Hc He]. split; [by split| |exact He]. unfold cache_ok in *. simpl.
  destruct (fat_cache m); [|done]. destruct Hc. by split.
Qed.

(** ** Bytes of a buffer *)

Lemma length_buf_bytes buf pos n : 0 <= n → Z.of_nat (length (buf_bytes buf pos n)) = n.
Proof. apply length_fmap_seqZ. Qed.
Lemma buf_bytes_u8 buf pos n : bytes_ok buf → Forall is_u8 (buf_bytes buf pos n).
Proof. intros Hb. apply Forall_fmap, Forall_true. intros k. apply Hb. Qed.
Lemma lookup_buf_bytes buf pos n k : 0 <= k < n → default 0 (buf_bytes buf pos n !! Z.to_nat k) = buf !0 (pos + k).
Proof. intros Hk. unfold buf_bytes. by rewrite lookup_fmap_seqZ. Qed.

(** A write behind the table keeps the table. *)
Lemma fwrite_src_wp F m bs off (Q : unit → mount → Prop) :
  fat_repr limit F m → Forall is_u8 bs → fat_start m + 4 * limit <= off →
  off + Z.of_nat (length bs) <= dev_size (mount_src m) →
  (∀ m', fat_repr limit F m' → same_vol m m' → spinlock m' = spinlock m → fat_search_start m' = fat_search_start m →
     (∀ k, dev_byte (mount_src m') k = if decide (off <= k < off + Z.of_nat (length bs))
        then default 0 (bs !! Z.to_nat (k - off)) else dev_byte (mount_src m) k) → Q tt m') →
  wp (fwrite_src bs off) Q m.
Proof.
  intros [Hg Hc He] Hb Ho Hs HQ. unfold fwrite_src. wp. set (d := fwrite _ _ _).
  pose proof Hg as [Hd Hl Hst Hend H32].
  assert (∀ k, dev_byte d k = if decide (off <= k < off + Z.of_nat (length bs))
    then default 0 (bs !! Z.to_nat (k - off)) else dev_byte (mount_src m) k) as Hbyte.
  { intros k. apply fwrite_spec; (done || lia). }
  assert (∀ i, 0 <= i < limit → disk_entry (set_src d m) i = disk_entry m i) as Hent.
  { intros i Hi. unfold disk_entry, dev_word. change (mount_src (set_src d m)) with d.
    change (fat_start (set_src d m)) with (fat_start m). by rewrite !Hbyte, !decide_False by lia. }
  apply HQ; [|by split; try done; apply fwrite_size|done|done|exact Hbyte]. split.
  - split; try done; [by apply fwrite_ok|]. change (mount_src (set_src d m)) with d. unfold d. by rewrite fwrite_size.
  - unfold cache_ok in *. simpl. destruct (fat_cache m) as [c|]; [|done].
    destruct Hc as [Hsz [Hs0 Hsm] Hse Hlen Hu Hcl]. split; try done. intros Hdirty k x Hx.
    apply lookup_lt_Some in Hx as Hlt. rewrite Hent by (simpl; lia). by apply Hcl.
  - intros i Hi. rewrite <- He by done. destruct (fat_cache m) as [c|] eqn:Hcm.
    + destruct (decide (in_window m i)) as [Hin|Hin].
      * by rewrite (fat_entry_in (set_src d m) c), (fat_entry_in m c).
      * rewrite (fat_entry_out (set_src d m)), (fat_entry_out m) by done. by apply Hent.
    + unfold fat_entry. simpl. rewrite Hcm. by apply Hent.
Qed.

(** ** Growing a chain *)

(** The clusters of a file, in order. *)
Definition chain (F : Z → Z) (cs : list Z) : Prop :=
  ∀ i c, cs !! i = Some c →
    match cs !! S i with Some d => F c = d | None => FAT32_EOC_MIN <= F c end.
Record file_chain m (F : Z → Z) (cs : list Z) : Prop := {
  fc_chain : chain F cs;
  fc_nodup : NoDup cs;
  fc_ok : Forall (cluster_ok limit m) cs;
}.

Lemma fc_cluster m F cs i c : file_chain m F cs → cs !! i = Some c → cluster_ok limit m c.
Proof. intros [_ _ Hok] Hi. rewrite Forall_lookup in Hok. by eapply Hok. Qed.

Lemma chain_nonzero m F cs c : file_chain m F cs → c ∈ cs → F c ≠ 0.
Proof.
  intros Hf [i Hi]%list_elem_of_lookup. pose proof (fc_chain _ _ _ Hf i c Hi) as Hn.
  destruct (cs !! S i) as [d|] eqn:Hd.
  - rewrite Hn. pose proof (co_index _ _ _ (fc_cluster _ _ _ _ _ Hf Hd)). lia.
  - unfold FAT32_EOC_MIN in Hn. lia.
Qed.

(** The table after [last] has been followed by [r]. *)
Definition table_link (F : Z → Z) (last r : Z) : Z → Z := table_set (table_set F last r) r FAT32_EOC.

Lemma table_link_new F l r : table_link F l r r = FAT32_EOC.
Proof. unfold table_link, table_set. by rewrite decide_True. Qed.
Lemma table_link_last F l r : l ≠ r → table_link F l r l = r.
Proof. intros. unfold table_link, table_set. by rewrite decide_False, decide_True. Qed.
Lemma table_link_other F l r c : c ≠ l → c ≠ r → table_link F l r c = F c.
Proof. intros. unfold table_link, table_set. by rewrite !decide_False. Qed.

Lemma file_chain_snoc m F cs i l r :
  file_chain m F cs → cs !! i = Some l → S i = length cs → F r = 0 → cluster_ok limit m r →
  file_chain m (table_link F l r) (cs ++ [r]).
Proof.
  intros Hf Hl Hlen Hr Hok.
  assert (r ∉ cs) as Hnin by (intros Hin; by apply (chain_nonzero m F cs r)).
  assert (∀ c, c ∈ cs → c ≠ r) as Hne by (by intros c Hc ->).
  split.
  - intros j c Hj. destruct (decide (j = length cs)) as [->|Hj1].
    + rewrite lookup_app_r, Nat.sub_diag in Hj by done. injection Hj as <-.
      rewrite (lookup_ge_None_2 (cs ++ [r])) by (rewrite length_app; simpl; lia).
      rewrite table_link_new. unfold FAT32_EOC, FAT32_EOC_MIN. lia.
    + assert (j < length cs)%nat as Hlt by (apply lookup_lt_Some in Hj; rewrite length_app in Hj; simpl in Hj; lia).
      rewrite lookup_app_l in Hj by done. destruct (decide (j = i)) as [->|Hji].
      * assert (c = l) as -> by congruence. rewrite lookup_app_r, Hlen, Nat.sub_diag by lia. simpl.
        apply table_link_last. apply Hne. by eapply list_elem_of_lookup_2.
      * rewrite lookup_app_l by lia. pose proof (fc_chain _ _ _ Hf j c Hj) as Hn.
        assert (c ≠ l) by (intros ->; apply Hji; by eapply (NoDup_lookup cs); [apply Hf|..]).
        rewrite table_link_other; [done|done|]. apply Hne. by eapply list_elem_of_lookup_2.
  - apply NoDup_app. split_and!; [apply Hf|set_solver|apply NoDup_singleton].
  - apply Forall_app. split; [apply Hf|by constructor].
Qed.

(** From [F] and [cs] to [F'] and [cs']: clusters that were free have been
    added at the end, and no other entry has changed. *)
Record grown m (F : Z → Z) (cs : list Z) (F' : Z → Z) (cs' : list Z) : Prop := {
  gr_new : ∃ new, cs' = cs ++ new ∧ ∀ c, c ∈ new → F c = 0;
  gr_chain : file_chain m F' cs';
  gr_frame c : c ∉ cs' → F' c = F c;
}.

Lemma chain_grown_refl m F cs : file_chain m F cs → grown m F cs F cs.
Proof.
  intros. split; [|done|done]. exists []. split; [by rewrite app_nil_r|]. intros c Hc. by apply not_elem_of_nil in Hc.
Qed.
Lemma grown_snoc m F cs F' cs' i l r :
  grown m F cs F' cs' → cs' !! i = Some l → S i = length cs' → F' r = 0 → cluster_ok limit m r →
  grown m F cs (table_link F' l r) (cs' ++ [r]).
Proof.
  intros [(new & -> & Hnew) Hch Hfr] Hl Hlen Hr Hok.
  assert (r ∉ cs ++ new) as Hnin by (intros Hin; by apply (chain_nonzero m F' (cs ++ new) r)).
  split.
  - exists (new ++ [r]). split; [by rewrite app_assoc|]. intros c [Hc| ->%list_elem_of_singleton]%elem_of_app; [by apply Hnew|].
    by rewrite <- (Hfr r).
  - by apply (file_chain_snoc m F' _ i).
  - intros c Hc. rewrite not_elem_of_app, list_elem_of_singleton in Hc. destruct Hc as [Hc1 Hc2].
    rewrite table_link_other; [by apply Hfr| |done]. intros ->. apply Hc1. by eapply list_elem_of_lookup_2.
Qed.
Lemma grown_used m F cs F' cs' c : grown m F cs F' cs' → F c ≠ 0 → c ∉ cs → c ∉ cs' ∧ F' c = F c.
Proof.
  intros [(new & -> & Hnew) _ Hfr] Hc Hcs. assert (c ∉ cs ++ new) as Hn.
  { intros [|Hin]%elem_of_app; [done|]. by apply Hc, Hnew. }
  split; [done|by apply Hfr].
Qed.
Lemma grown_lookup m F cs F' cs' i c : grown m F cs F' cs' → cs !! i = Some c → cs' !! i = Some c.
Proof. intros [(new & -> & _) _ _] Hi. by apply lookup_app_l_Some. Qed.

Lemma extend_chain_wp F m last (Q : option Z → mount → Prop) :
  fat_repr limit F m → data_geom limit m → spinlock m = false → 2 <= fat_search_start m → cluster_limit m <= limit →
  0 <= last < limit → F last ≠ 0 →
  (∀ r m', fat_repr limit (table_link F last r) m' → same_vol m m' → same_data m m' → spinlock m' = false →
     2 <= r < cluster_limit m → F r = 0 → fat_search_start m' = r → Q (Some r) m') →
  (∀ m', fat_repr limit F m' → same_vol m m' → same_data m m' → spinlock m' = false →
     fat_search_start m' = fat_search_start m →
     (∀ j, fat_search_start m <= j < cluster_limit m → F j ≠ 0) → Q None m') →
  wp (extend_chain last) Q m.
Proof.
  intros Hr Hg Hlock Hs Hl Hlast Hnz HQ1 HQ2. unfold extend_chain, mount_acquire, mount_release. wp. rewrite Hlock. wp.
  assert (fat_repr limit F (set_spinlock true m)) as Hr0 by by apply set_spinlock_repr.
  assert (limit < 2 ^ 32) by (destruct (fr_geom _ _ _ Hr); lia).
  apply (get_free_wp fresh limit F); [done|simpl; lia|done| |].
  - intros r m1 Hr1 Hs1 Hb Hz _ Hse1. change (fat_search_start (set_spinlock true m)) with (fat_search_start m) in Hb.
    change (cluster_limit (set_spinlock true m)) with (cluster_limit m) in Hb.
    rewrite (proj2 (Z.eqb_neq r 0)) by lia. wp.
    apply (set_next_wp fresh limit F); [done|lia|unfold is_u32; lia|]. intros m2 Hr2 Hs2 _. wp.
    apply (set_next_wp fresh limit (table_set F last r)); [done|lia|unfold is_u32, FAT32_EOC; lia|].
    intros m3 Hr3 Hs3 Hse3. wp.
    assert (same_mount limit (set_spinlock true m) m3) as Hs03.
    { eapply same_mount_trans; [done|]. by eapply same_mount_trans. }
    apply HQ1; [by apply set_spinlock_repr| | |done|lia|done|done].
    + destruct Hs03. by split.
    + intros k Hk. by apply (same_mount_data (set_spinlock true m) m3); [destruct Hg; split|..].
  - intros m1 Hr1 Hs1 Hse1 Hno. wp. apply HQ2; [by apply set_spinlock_repr| | |done|done|done].
    + destruct Hs1. by split.
    + intros k Hk. by apply (same_mount_data (set_spinlock true m) m1); [destruct Hg; split|..].
Qed.

(** ** Bytes of a chain *)

(** Where byte [p] of a file with the clusters [cs] lies on the device. *)
Definition loc m (cs : list Z) (p : Z) : Z :=
  let csz := cluster_size_bytes m in
  data_base m + (default 0 (cs !! Z.to_nat (p / csz)) - 2) * csz + p mod csz.
Definition in_cluster m (c k : Z) : Prop :=
  data_base m + (c - 2) * cluster_size_bytes m <= k < data_base m + (c - 1) * cluster_size_bytes m.

Lemma loc_at m cs i c o :
  data_geom limit m → cs !! Z.to_nat i = Some c → 0 <= i → 0 <= o < cluster_size_bytes m →
  loc m cs (i * cluster_size_bytes m + o) = data_base m + (c - 2) * cluster_size_bytes m + o.
Proof.
  intros Hg Hc Hi Ho. pose proof (csz_pos limit m Hg). unfold loc.
  assert ((i * cluster_size_bytes m + o) / cluster_size_bytes m = i) as ->
    by (symmetry; apply (Z.div_unique _ _ _ o); lia).
  assert ((i * cluster_size_bytes m + o) mod cluster_size_bytes m = o) as ->
    by (symmetry; apply (Z.mod_unique _ _ i); lia).
  by rewrite Hc.
Qed.

(** A position is a cluster number and an offset. *)
Lemma pos_split m p :
  data_geom limit m → 0 <= p → ∃ i o, p = i * cluster_size_bytes m + o ∧ 0 <= i ∧ 0 <= o < cluster_size_bytes m.
Proof.
  intros Hg Hp. pose proof (csz_pos limit m Hg). exists (p / cluster_size_bytes m), (p mod cluster_size_bytes m).
  pose proof (Z.div_mod p (cluster_size_bytes m) ltac:(lia)).
  pose proof (Z.mod_pos_bound p (cluster_size_bytes m) ltac:(lia)).
  pose proof (Z.div_pos p (cluster_size_bytes m) Hp ltac:(lia)). lia.
Qed.
Lemma loc_cases m F cs p :
  data_geom limit m → file_chain m F cs → 0 <= p < Z.of_nat (length cs) * cluster_size_bytes m →
  ∃ i o c, p = i * cluster_size_bytes m + o ∧ 0 <= i ∧ 0 <= o < cluster_size_bytes m ∧ cs !! Z.to_nat i = Some c ∧
    cluster_ok limit m c ∧ loc m cs p = data_base m + (c - 2) * cluster_size_bytes m + o ∧ in_cluster m c (loc m cs p).
Proof.
  intros Hg Hf Hp. destruct (pos_split m p Hg) as (i & o & -> & Hi & Ho); [lia|].
  destruct (lookup_lt_is_Some_2 cs (Z.to_nat i)) as [c Hc]; [nia|].
  assert (loc m cs (i * cluster_size_bytes m + o) = data_base m + (c - 2) * cluster_size_bytes m + o) as Hl
    by by apply loc_at.
  exists i, o, c. rewrite Hl. pose proof (fc_cluster m F cs _ c Hf Hc). unfold in_cluster. split_and!; (done || lia).
Qed.
Lemma loc_app m cs new p :
  data_geom limit m → 0 <= p < Z.of_nat (length cs) * cluster_size_bytes m → loc m (cs ++ new) p = loc m cs p.
Proof.
  intros Hg Hp. destruct (pos_split m p Hg) as (i & o & -> & Hi & Ho); [lia|].
  destruct (lookup_lt_is_Some_2 cs (Z.to_nat i)) as [c Hc]; [nia|].
  rewrite !(loc_at _ _ _ c); try done. by apply lookup_app_l_Some.
Qed.
Lemma cluster_disjoint m c c' k : data_geom limit m → in_cluster m c k → in_cluster m c' k → c = c'.
Proof. intros Hg. pose proof (csz_pos limit m Hg). unfold in_cluster. nia. Qed.
Lemma cluster_behind m c k : data_geom limit m → cluster_ok limit m c → in_cluster m c k → data_base m <= k.
Proof. intros Hg [? _ _ _]. pose proof (csz_pos limit m Hg). unfold in_cluster. nia. Qed.

(** ** The state of a write *)

(** The bytes from [lo] to [hi] have been written with [g]; the chain may have
    grown, by no cluster that starts behind the end [tot] of the write; apart from new
    clusters nothing else of the data area has changed. *)
Record write_inv m0 (F : Z → Z) (cs : list Z) (g : Z → Z) (tot lo hi : Z) (F' : Z → Z) (cs' : list Z) m : Prop := {
  wi_grown : grown m0 F cs F' cs';
  wi_fit : cs' = cs ∨ (Z.of_nat (length cs') - 1) * cluster_size_bytes m0 < tot;
  wi_repr : fat_repr limit F' m;
  wi_vol : same_vol m0 m;
  wi_lock : spinlock m = false;
  wi_search : 2 <= fat_search_start m;
  wi_range : lo < hi → 0 <= lo ∧ hi <= Z.of_nat (length cs') * cluster_size_bytes m0;
  wi_bytes p : lo <= p < hi → dev_byte (mount_src m) (loc m0 cs' p) = g p;
  wi_frame k : data_base m0 <= k → (∀ p, lo <= p < hi → k ≠ loc m0 cs' p) →
    (∀ c, c ∈ cs' → c ∉ cs → ¬ in_cluster m0 c k) → dev_byte (mount_src m) k = dev_byte (mount_src m0) k;
}.

Lemma same_vol_data m0 m m' : same_vol m0 m → same_data m m' →
  ∀ k, data_base m0 <= k → dev_byte (mount_src m') k = dev_byte (mount_src m) k.
Proof. intros Hv Hd k Hk. apply Hd. by destruct (vol_geom m0 m Hv) as (_ & -> & _). Qed.

(** Table reads do not disturb it. *)
Lemma write_inv_same m0 F cs g tot lo hi F' cs' m m' :
  data_geom limit m0 → write_inv m0 F cs g tot lo hi F' cs' m → fat_repr limit F' m' → same_mount limit m m' →
  fat_search_start m' = fat_search_start m → write_inv m0 F cs g tot lo hi F' cs' m'.
Proof.
  intros Hg [Hgr Hfit Hr Hv Hl Hs Hra Hb Hf] Hr' Hs' Hse.
  assert (same_data m m') as Hd by (apply same_mount_data; [by apply (vol_data_geom m0)|done]).
  pose proof (same_vol_data m0 m m' Hv Hd) as Hsame. split; try done.
  - transitivity m; [done|by apply same_mount_vol].
  - by rewrite (sm_lock _ _ _ Hs').
  - by rewrite Hse.
  - intros p Hp. destruct (Hra ltac:(lia)) as [Hlo Hhi].
    destruct (loc_cases m0 F' cs' p Hg (gr_chain _ _ _ _ _ Hgr)) as (i & o & c & _ & _ & _ & _ & Hok & _ & Hin); [lia|].
    rewrite Hsame; [by apply Hb|by eapply cluster_behind].
  - intros k Hk Hn Hc. rewrite Hsame by done. by apply Hf.
Qed.

Lemma write_inv_grow m0 F cs g tot lo hi F' cs' m m' i l r :
  data_geom limit m0 → write_inv m0 F cs g tot lo hi F' cs' m →
  cs' !! i = Some l → S i = length cs' → Z.of_nat (length cs') * cluster_size_bytes m0 < tot → F' r = 0 → cluster_ok limit m0 r →
  fat_repr limit (table_link F' l r) m' → same_vol m m' → same_data m m' → spinlock m' = false →
  fat_search_start m' = r → write_inv m0 F cs g tot lo hi (table_link F' l r) (cs' ++ [r]) m'.
Proof.
  intros Hg [Hgr Hfit Hr Hv Hl Hs Hra Hb Hf] Hi Hlen Htot Hz Hok Hr' Hv' Hd' Hl' Hse'.
  pose proof (csz_pos limit m0 Hg). pose proof (same_vol_data m0 m m' Hv Hd') as Hsame.
  assert (∀ p, lo <= p < hi → loc m0 (cs' ++ [r]) p = loc m0 cs' p) as Hloc.
  { intros p Hp. destruct (Hra ltac:(lia)). apply loc_app; [done|lia]. }
  split; try done.
  - by apply (grown_snoc m0 F cs F' cs' i).
  - right. rewrite length_app. simpl. lia.
  - by transitivity m.
  - rewrite Hse'. by destruct Hok as [[? _] _ _ _].
  - intros Hlt. destruct (Hra Hlt). rewrite length_app. simpl. nia.
  - intros p Hp. rewrite Hloc by done. destruct (Hra ltac:(lia)).
    destruct (loc_cases m0 F' cs' p Hg (gr_chain _ _ _ _ _ Hgr)) as (? & ? & c & _ & _ & _ & _ & Hc & _ & Hin); [lia|].
    rewrite Hsame; [by apply Hb|by eapply cluster_behind].
  - intros k Hk Hn Hc. rewrite Hsame by done. apply Hf; [done| |].
    + intros p Hp. rewrite <- Hloc by done. by apply Hn.
    + intros c Hin. apply Hc, elem_of_app. by left.
Qed.

(** Bytes put at [off]: the positions up to [hi] lie elsewhere, those from [hi]
    to [hi'] are the bytes, and what is hit is one of the file's positions
    or in a new cluster. *)
Lemma write_inv_store m0 F cs g tot lo hi hi' F' cs' m m' off n :
  data_geom limit m0 → write_inv m0 F cs g tot lo hi F' cs' m → lo <= hi <= hi' →
  (lo < hi' → 0 <= lo ∧ hi' <= Z.of_nat (length cs') * cluster_size_bytes m0) →
  fat_repr limit F' m' → same_vol m m' → spinlock m' = spinlock m → fat_search_start m' = fat_search_start m →
  (∀ k, ¬ (off <= k < off + n) → dev_byte (mount_src m') k = dev_byte (mount_src m) k) →
  (∀ p, lo <= p < hi → ¬ (off <= loc m0 cs' p < off + n)) →
  (∀ p, hi <= p < hi' → dev_byte (mount_src m') (loc m0 cs' p) = g p) →
  (∀ k, off <= k < off + n → (∃ p, lo <= p < hi' ∧ k = loc m0 cs' p) ∨
     ∃ c, c ∈ cs' ∧ c ∉ cs ∧ in_cluster m0 c k) →
  write_inv m0 F cs g tot lo hi' F' cs' m'.
Proof.
  intros Hg [Hgr Hfit Hr Hv Hl Hs Hra Hb Hf] Hle Hra' Hr' Hv' Hl' Hse' Hout Hold Hnew Hhit. split; try done.
  - by transitivity m.
  - by rewrite Hl'.
  - by rewrite Hse'.
  - intros p Hp. destruct (decide (p < hi)); [|apply Hnew; lia]. rewrite Hout by (apply Hold; lia). apply Hb. lia.
  - intros k Hk Hn Hc. destruct (decide (off <= k < off + n)) as [Hin|Hin].
    + exfalso. destruct (Hhit k Hin) as [(p & Hp & ->)|(c & H1 & H2 & H3)]; [by apply (Hn p)|by apply (Hc c)].
    + rewrite Hout by done. apply Hf; [done| |done]. intros p Hp. apply Hn. lia.
Qed.

(** Every cluster the search can return is a data cluster of the device. *)
Record clusters_ok m : Prop := {
  cl_limit : cluster_limit m <= limit;
  cl_ok c : 2 <= c < cluster_limit m → cluster_ok limit m c;
}.
Definition no_free (F : Z → Z) m : Prop := ∀ j, fat_search_start m <= j < cluster_limit m → F j ≠ 0.

Section steps.
Context (m0 : mount) (F : Z → Z) (cs : list Z) (g : Z → Z) (tot lo : Z).
Context (Hgeom : data_geom limit m0) (Hcl : clusters_ok m0) (Hmalloc : malloc_ok = true).
Notation csz := (cluster_size_bytes m0).

(** Part of a cluster is written, where the last write ended. *)
Lemma put_wp F' cs' m i c o n bs (Q : unit → mount → Prop) :
  write_inv m0 F cs g tot lo (i * csz + o) F' cs' m → 0 <= lo <= i * csz + o →
  cs' !! Z.to_nat i = Some c → 0 <= i → 0 <= o → 0 < n → o + n <= csz →
  Z.of_nat (length bs) = n → Forall is_u8 bs →
  (∀ j, 0 <= j < n → default 0 (bs !! Z.to_nat j) = g (i * csz + o + j)) →
  (∀ m', write_inv m0 F cs g tot lo (i * csz + o + n) F' cs' m' → Q tt m') →
  wp (fwrite_src bs (read_offset m c + o)) Q m.
Proof using Hgeom.
  intros Hinv Hlo Hc Hi Ho Hn Hcs Hlen Hu Hbs HQ. pose proof Hinv as [Hgr _ Hr Hv _ _ _ _ _].
  pose proof (csz_pos limit m0 Hgeom) as Hpos. pose proof (gr_chain _ _ _ _ _ Hgr) as Hch.
  pose proof (fc_cluster _ _ _ _ _ Hch Hc) as Hok. pose proof Hok as [Hci _ _ Hcd].
  destruct (vol_geom m0 m Hv) as (_ & _ & Hfs & _).
  rewrite (vol_read_offset m0) by (done || apply Hr). set (off := data_base m0 + (c - 2) * csz + o).
  assert (data_base m0 <= off) by (unfold off; nia).
  apply (fwrite_src_wp F'); [done|done| | |].
  { rewrite Hfs. destruct Hgeom as [_ Hb]. lia. }
  { rewrite Hlen, (sv_size _ _ Hv). unfold off. nia. }
  intros m' Hr' Hv' Hl' Hse' Hbyte. rewrite Hlen in Hbyte. apply HQ.
  assert (∀ p, i * csz + o <= p < i * csz + o + n → loc m0 cs' p = off + (p - (i * csz + o))) as Hloc.
  { intros p Hp. replace p with (i * csz + (p - i * csz)) at 1 by lia. rewrite (loc_at m0 cs' i c) by (done || lia).
    unfold off. lia. }
  assert (Z.of_nat (Z.to_nat i) < Z.of_nat (length cs')) as Hil by (apply lookup_lt_Some in Hc; lia).
  apply (write_inv_store m0 F cs g tot lo (i * csz + o) _ F' cs' m m' off n); try done; [lia|nia| | | |].
  - intros k Hk. by rewrite Hbyte, decide_False.
  - intros p Hp Hin. destruct (loc_cases m0 F' cs' p Hgeom Hch) as (j & o' & c' & -> & Hj & Ho' & Hc' & _ & Hl & Hinc); [nia|].
    assert (c' = c) as ->.
    { apply (cluster_disjoint m0 _ _ _ Hgeom Hinc). unfold in_cluster, off in *. lia. }
    assert (Z.to_nat j = Z.to_nat i) by (eapply (NoDup_lookup cs'); [apply Hch|done|done]).
    assert (j = i) as -> by lia. unfold off in Hin. lia.
  - intros p Hp. rewrite Hbyte, Hloc, decide_True by lia. replace (Z.to_nat _) with (Z.to_nat (p - (i * csz + o))) by lia.
    rewrite Hbs by lia. f_equal. lia.
  - intros k Hk. left. exists (i * csz + o + (k - off)). split; [lia|]. rewrite Hloc; lia.
Qed.

Lemma write_inv_next F' cs' m hi i c :
  write_inv m0 F cs g tot lo hi F' cs' m → cs' !! i = Some c →
  0 <= c < limit ∧ F' c ≠ 0 ∧
  match cs' !! S i with
  | Some d => F' c = d ∧ d < FAT32_EOC_MIN
  | None => FAT32_EOC_MIN <= F' c ∧ S i = length cs'
  end.
Proof using Type.
  intros [Hgr _ _ _ _ _ _ _ _] Hc. pose proof (gr_chain _ _ _ _ _ Hgr) as Hch.
  pose proof (fc_chain _ _ _ Hch i c Hc) as Hn. pose proof (co_index _ _ _ (fc_cluster _ _ _ _ _ Hch Hc)).
  split_and!; [lia|lia|apply (chain_nonzero m0 F' cs' c Hch); by eapply list_elem_of_lookup_2|].
  destruct (cs' !! S i) as [d|] eqn:Hd.
  - split; [done|]. by apply (co_eoc limit m0), (fc_cluster _ _ _ _ _ Hch Hd).
  - split; [done|]. apply lookup_ge_None in Hd. apply lookup_lt_Some in Hc. lia.
Qed.

(** A new cluster in the middle of a write. *)
Lemma extend_wp F' cs' m hi i l (Q : option Z → mount → Prop) :
  write_inv m0 F cs g tot lo hi F' cs' m → cs' !! i = Some l → S i = length cs' → Z.of_nat (length cs') * csz < tot →
  (∀ r m', write_inv m0 F cs g tot lo hi (table_link F' l r) (cs' ++ [r]) m' → cluster_ok limit m0 r → r ∉ cs' → Q (Some r) m') →
  (∀ m', write_inv m0 F cs g tot lo hi F' cs' m' → no_free F' m' → Q None m') →
  wp (extend_chain l) Q m.
Proof using Hcl Hgeom.
  intros Hinv Hl Hlen Htot HQ1 HQ2. pose proof Hinv as [Hgr Hfit Hr Hv Hlock Hse Hra Hb Hf].
  destruct (write_inv_next F' cs' m hi i l Hinv Hl) as (Hli & Hnz & _).
  destruct (vol_geom m0 m Hv) as (_ & _ & _ & Hlim).
  apply (extend_chain_wp F'); [done|by apply (vol_data_geom m0)|done|done|rewrite Hlim; apply Hcl|done|done| |].
  - intros r m' Hr' Hv' Hd' Hl' Hrb Hz Hse'. rewrite Hlim in Hrb. pose proof (cl_ok _ Hcl r Hrb) as Hok.
    apply HQ1; [by apply (write_inv_grow m0 F cs g tot lo hi F' cs' m m' i l r)|done|].
    intros Hin. by apply (chain_nonzero m0 F' cs' r (gr_chain _ _ _ _ _ Hgr)).
  - intros m' Hr' Hv' Hd' Hl' Hse' Hno.
    assert (cluster_limit m' = cluster_limit m) as Hlim' by by destruct (vol_geom m m' Hv') as (_ & _ & _ & ->).
    apply HQ2; [|unfold no_free; by rewrite Hse', Hlim'].
    pose proof (same_vol_data m0 m m' Hv Hd') as Hsame. split; try done.
    + by transitivity m.
    + by rewrite Hse'.
    + intros p Hp. destruct (Hra ltac:(lia)).
      destruct (loc_cases m0 F' cs' p Hgeom (gr_chain _ _ _ _ _ Hgr)) as (? & ? & c & _ & _ & _ & _ & Hc & _ & Hin); [lia|].
      rewrite Hsame; [by apply Hb|by eapply cluster_behind].
    + intros k Hk Hn Hc. rewrite Hsame by done. by apply Hf.
Qed.

(** The zeros written to a new cluster during the walk. *)
Lemma zero_wp F' cs' m r (Q : unit → mount → Prop) :
  write_inv m0 F cs g tot lo lo F' cs' m → r ∈ cs' → r ∉ cs → cluster_ok limit m0 r → PAGE_SIZE_BYTES <= csz →
  (∀ m', write_inv m0 F cs g tot lo lo F' cs' m' → Q tt m') →
  wp (fwrite_src (replicate (Z.to_nat PAGE_SIZE_BYTES) 0) (read_offset m r)) Q m.
Proof using Hgeom.
  intros Hinv Hin Hnin Hok Hpage HQ. pose proof Hinv as [Hgr _ Hr Hv _ _ _ _ _].
  pose proof (csz_pos limit m0 Hgeom) as Hpos. pose proof Hok as [Hci _ _ Hcd].
  destruct (vol_geom m0 m Hv) as (_ & _ & Hfs & _). unfold PAGE_SIZE_BYTES in *.
  rewrite (vol_read_offset m0) by (done || apply Hr). set (off := data_base m0 + (r - 2) * csz).
  apply (fwrite_src_wp F'); [done|by apply Forall_replicate| | |].
  { rewrite Hfs. destruct Hgeom as [_ Hb]. unfold off. nia. }
  { rewrite length_replicate, (sv_size _ _ Hv). unfold off. nia. }
  intros m' Hr' Hv' Hl' Hse' Hbyte. rewrite length_replicate in Hbyte. apply HQ.
  apply (write_inv_store m0 F cs g tot lo lo lo F' cs' m m' off 4096); try done; try lia.
  - intros k Hk. rewrite Hbyte, decide_False by lia. done.
  - intros k Hk. right. exists r. split_and!; [done|done|unfold in_cluster, off in *; nia..].
Qed.

Lemma write_seek_wp F1 cs1 m first q (Q : option Z → mount → Prop) :
  write_inv m0 F cs g tot lo lo F1 cs1 m → cs1 !! 0%nat = Some first → 0 <= q → q * csz < tot →
  q < Z.of_nat (length cs1) ∨ PAGE_SIZE_BYTES <= csz →
  (∀ F' cs' c m', write_inv m0 F cs g tot lo lo F' cs' m' → cs' !! Z.to_nat q = Some c → Q (Some c) m') →
  (∀ F' cs' m', write_inv m0 F cs g tot lo lo F' cs' m' → no_free F' m' → Z.of_nat (length cs') * csz < tot → Q None m') →
  wp (write_seek first q) Q m.
Proof using Hcl Hgeom Hmalloc.
  intros Hinv Hfirst Hq Htot Hpage HQ1 HQ2. unfold write_seek. wp.
  apply (wp_fora (λ k c m', ∃ F' cs', write_inv m0 F cs g tot lo lo F' cs' m' ∧ cs' !! Z.to_nat k = Some c ∧
    (length cs1 <= length cs')%nat)); [done| | |].
  - by exists F1, cs1.
  - intros k c m1 Hk (F' & cs' & Hinv1 & Hc & Hlen). wp.
    destruct (write_inv_next F' cs' m1 lo _ c Hinv1 Hc) as (Hci & Hnz & Hnext).
    apply (get_next_wp fresh limit F'); [apply Hinv1|done|]. intros m2 Hr2 Hs2 Hse2.
    assert (write_inv m0 F cs g tot lo lo F' cs' m2) as Hinv2 by (by apply (write_inv_same m0 F cs g tot lo lo F' cs' m1)).
    replace (Z.to_nat (k + 1)) with (S (Z.to_nat k)) by lia.
    rewrite Z.geb_leb. destruct (cs' !! S (Z.to_nat k)) as [d|] eqn:Hd.
    + destruct Hnext as [-> Hlt]. rewrite (proj2 (Z.leb_gt _ _)) by done. wp. by exists F', cs'.
    + destruct Hnext as [Heoc Hend]. rewrite (proj2 (Z.leb_le _ _)) by done. wp.
      assert (Z.of_nat (length cs') * csz < tot) by (pose proof (csz_pos limit m0 Hgeom); nia).
      apply (extend_wp F' cs' m2 lo (Z.to_nat k)); [done..| |].
      * intros r m3 Hinv3 Hok Hnew. rewrite Hmalloc. wp. cbv [id].
        assert (r ∉ cs) by (intros Hin; apply Hnew; destruct (gr_new _ _ _ _ _ (wi_grown _ _ _ _ _ _ _ _ _ _ Hinv1)) as (new & -> & _);
          apply elem_of_app; by left).
        apply (zero_wp (table_link F' c r) (cs' ++ [r])); [done| |done|done| |].
        { apply elem_of_app. right. by apply list_elem_of_singleton. }
        { destruct Hpage; [|done]. lia. }
        intros m4 Hinv4. wp. exists (table_link F' c r), (cs' ++ [r]). split_and!; [done| |rewrite length_app; lia].
        rewrite Hend, lookup_app_r, Nat.sub_diag by done. done.
      * intros m3 Hinv3 Hno. wp. by apply (HQ2 F' cs').
  - intros c m1 (F' & cs' & Hinv1 & Hc & _). wp. by apply (HQ1 F' cs').
Qed.

Lemma write_clusters_wp F1 cs1 m buf base q current rem0 (Q : option Z → mount → Prop) :
  write_inv m0 F cs g tot lo (q * csz) F1 cs1 m → 0 <= lo <= q * csz → 0 <= q → 0 <= rem0 < 2 ^ 31 → q * csz + rem0 <= tot →
  cs1 !! Z.to_nat q = Some current → bytes_ok buf →
  (∀ j, 0 <= j < rem0 → buf !0 (base + j) = g (q * csz + j)) →
  (∀ F' cs' m', write_inv m0 F cs g tot lo (q * csz + rem0) F' cs' m' → Q None m') →
  (∀ F' cs' m' i, 0 <= i → (i + 1) * csz < rem0 → write_inv m0 F cs g tot lo (q * csz + (i + 1) * csz) F' cs' m' →
     no_free F' m' → Z.of_nat (length cs') * csz < tot → Q (Some (i * csz)) m') →
  wp (write_clusters buf base current rem0) Q m.
Proof using Hcl Hgeom.
  intros Hinv Hlo Hq Hrem Htot Hcur Hbuf Hg HQ1 HQ2. unfold write_clusters. wp.
  destruct (vol_geom m0 m (wi_vol _ _ _ _ _ _ _ _ _ _ Hinv)) as (-> & _). pose proof (csz_pos limit m0 Hgeom) as Hcs.
  apply (wp_loop (λ '(i, current, remaining) m', ∃ F' cs',
      write_inv m0 F cs g tot lo (q * csz + Z.min rem0 (i * csz)) F' cs' m' ∧ 0 <= i ∧
      remaining = Z.max 0 (rem0 - i * csz) ∧ (0 < remaining → cs' !! Z.to_nat (q + i) = Some current))
    (λ '(i, current, remaining) _, remaining)).
  - exists F1, cs1. replace (q * csz + Z.min rem0 (0 * csz)) with (q * csz) by lia.
    split_and!; [done|lia|lia|]. intros _. by rewrite Z.add_0_r.
  - unfold fuel32. change (Z.pos (2 ^ 32)) with (2 ^ 32). lia.
  - intros [[i c] remaining] m1 (F' & cs' & _ & _ & -> & _). lia.
  - intros [[i c] remaining] m1 (F' & cs' & Hinv1 & Hi & Hre & Hc).
    rewrite Z.gtb_ltb. destruct (Z.ltb_spec 0 remaining) as [Hpos|Hz]; wp.
    2: { apply (HQ1 F' cs'). by replace (Z.min rem0 (i * csz)) with rem0 in Hinv1 by lia. }
    specialize (Hc Hpos). cbv [id]. set (n := if remaining <? csz then remaining else csz).
    assert (0 < n <= csz ∧ Z.min rem0 ((i + 1) * csz) = i * csz + n) as [Hn Hmin]
      by (unfold n; destruct (Z.ltb_spec remaining csz); lia).
    set (remaining' := if remaining <? csz then 0 else remaining - csz).
    assert (remaining' = Z.max 0 (rem0 - (i + 1) * csz)) as Hre'
      by (unfold remaining'; destruct (Z.ltb_spec remaining csz); lia).
    rewrite <- (Z.add_0_r (read_offset m1 c)). replace (Z.min rem0 (i * csz)) with (i * csz) in Hinv1 by lia.
    apply (put_wp F' cs' m1 (q + i) c 0 n).
    1: { by replace ((q + i) * csz + 0) with (q * csz + i * csz) by lia. }
    1-6: (done || lia).
    { apply length_buf_bytes. lia. }
    { by apply buf_bytes_u8. }
    { intros j Hj. rewrite lookup_buf_bytes by done. replace (base + i * csz + j) with (base + (i * csz + j)) by lia.
      rewrite Hg by nia. f_equal. lia. }
    intros m2 Hinv2. replace ((q + i) * csz + 0 + n) with (q * csz + Z.min rem0 ((i + 1) * csz)) in Hinv2 by lia. wp.
    destruct (write_inv_next F' cs' m2 _ _ c Hinv2 Hc) as (Hci & Hnz & Hnext).
    apply (get_next_wp fresh limit F'); [apply Hinv2|done|]. intros m3 Hr3 Hs3 Hse3.
    assert (write_inv m0 F cs g tot lo (q * csz + Z.min rem0 ((i + 1) * csz)) F' cs' m3) as Hinv3
      by (by apply (write_inv_same m0 F cs g tot lo _ F' cs' m2)).
    rewrite Z.geb_leb, Z.gtb_ltb. assert (Z.to_nat (q + (i + 1)) = S (Z.to_nat (q + i))) as Hsuc by lia.
    destruct (cs' !! S (Z.to_nat (q + i))) as [d|] eqn:Hd.
    + destruct Hnext as [-> Hlt]. rewrite (proj2 (Z.leb_gt _ _)) by done. wp. split; [|lia].
      exists F', cs'. rewrite Hsuc. split_and!; [done|lia|done|done].
    + destruct Hnext as [Heoc Hend]. rewrite (proj2 (Z.leb_le _ _)) by done. cbn [andb].
      destruct (Z.ltb_spec 0 remaining') as [Hp'|Hz']; wp.
      2: { split; [|lia]. exists F', cs'. split_and!; [done|lia|done|lia]. }
      replace (Z.min rem0 ((i + 1) * csz)) with ((i + 1) * csz) in * by lia.
      assert (Z.of_nat (length cs') * csz < tot) by nia.
      apply (extend_wp F' cs' m3 (q * csz + (i + 1) * csz) (Z.to_nat (q + i))); [done..| |].
      * intros r m4 Hinv4 _ _. wp. split; [|lia]. exists (table_link F' c r), (cs' ++ [r]).
        replace (Z.min rem0 ((i + 1) * csz)) with ((i + 1) * csz) by lia.
        rewrite Hsuc. split_and!; [done|lia|done|]. intros _. rewrite lookup_app_r, <- Hend, Nat.sub_diag by lia. done.
      * intros m4 Hinv4 Hno. wp. apply (HQ2 F' cs'); [lia|lia|done|done|done].
Qed.
End steps.

(** ** The directory entry *)

(** Byte [x] of the entry, when it is one of those that are set. *)
Definition dirent_field (o : fat_open_file) (x : Z) : option Z :=
  if decide (x = 11) then Some (u8 (file_flags o))
  else if decide (26 <= x < 28) then Some (word_byte (Z.land (first_cluster o) 0xffff) (x - 26))
  else if decide (20 <= x < 22) then Some (word_byte (Z.shiftr (first_cluster o) 16) (x - 20))
  else if decide (28 <= x < 32) then Some (word_byte (size_bytes o) (x - 28))
  else None.

Lemma dirent_field_range o x b : dirent_field o x = Some b → 0 <= x < 32.
Proof. unfold dirent_field. repeat case_decide; lia || done. Qed.

Lemma patch_dirent_get o p dir k :
  patch_dirent o p dir !0 k = default (dir !0 k) (dirent_field o (k - p)).
Proof.
  assert (∀ (f : Z → Z) n j, 0 <= j < n → default 0 ((f <$> seqZ 0 n) !! Z.to_nat j) = f j) as Hf
    by (intros; by rewrite lookup_fmap_seqZ).
  unfold patch_dirent, dirent_field. rewrite !store_bytes_get, !length_fmap_seqZ by lia.
  change (Z.of_nat (length [u8 (file_flags o)])) with 1.
  destruct (decide (k - p = 11)) as [Hk|Hk].
  { rewrite decide_True by lia. replace (Z.to_nat _) with O by lia. done. }
  rewrite decide_False by lia.
  repeat match goal with |- context [decide (?a <= k - p < ?b)] =>
    destruct (decide (a <= k - p < b)); [rewrite decide_True by lia; rewrite Hf by lia; simpl; f_equal; lia
                                        |rewrite decide_False by lia] end.
  done.
Qed.

(** The entry lies in a cluster of a directory, apart from the file's clusters,
    and inside of the page [dirent_writeback] reads.  The cluster starts below
    4 GiB of the device: behind that the 32-bit sum of [dirent_page_offset]
    wraps, and the page is read from and written to another place. *)
Definition dirent_home m (F : Z → Z) (o : fat_open_file) : Z :=
  nth_cluster F (dirent_cluster o) (Z.to_nat (dirent_offset o / (cluster_size_bytes m / 32))).
Definition dirent_pos m (F : Z → Z) (o : fat_open_file) : Z :=
  data_base m + (dirent_home m F o - 2) * cluster_size_bytes m
  + 32 * (dirent_offset o mod (cluster_size_bytes m / 32)).
Record dir_ok m (F : Z → Z) (cs : list Z) (o : fat_open_file) : Prop := {
  do_size : 32 <= cluster_size_bytes m;
  do_off : 0 <= dirent_offset o;
  do_used j : Z.of_nat j <= dirent_offset o / (cluster_size_bytes m / 32) →
    let c := nth_cluster F (dirent_cluster o) j in cluster_ok limit m c ∧ F c ≠ 0 ∧ c ∉ cs;
  do_page : 32 * (dirent_offset o mod (cluster_size_bytes m / 32)) + 32 <= PAGE_SIZE_BYTES;
  do_dev : data_base m + (dirent_home m F o - 2) * cluster_size_bytes m + PAGE_SIZE_BYTES <= dev_size (mount_src m);
  do_low : data_base m + (dirent_home m F o - 2) * cluster_size_bytes m < 2 ^ 32;
}.

Lemma dir_dpc m F cs o : dir_ok m F cs o →
  let dpc := cluster_size_bytes m / 32 in
  0 < dpc ∧ 32 * dpc <= cluster_size_bytes m ∧ 0 <= dirent_offset o / dpc ∧ 0 <= dirent_offset o mod dpc < dpc.
Proof.
  intros [Hs Ho _ _ _ _] dpc. assert (0 < dpc) by (apply Z.div_str_pos; lia).
  pose proof (Z.mul_div_le (cluster_size_bytes m) 32 ltac:(lia)).
  split_and!; [done|done|apply Z.div_pos; lia|apply Z.mod_pos_bound; lia..].
Qed.
Lemma dirent_in_home m F cs o x :
  data_geom limit m → dir_ok m F cs o → 0 <= x < 32 → in_cluster m (dirent_home m F o) (dirent_pos m F o + x).
Proof.
  intros Hg Hd Hx. destruct (dir_dpc m F cs o Hd) as (? & ? & ? & ?). unfold in_cluster, dirent_pos. lia.
Qed.
Lemma dirent_home_ok m F cs o :
  dir_ok m F cs o → cluster_ok limit m (dirent_home m F o) ∧ F (dirent_home m F o) ≠ 0 ∧ dirent_home m F o ∉ cs.
Proof. intros Hd. destruct (dir_dpc m F cs o Hd) as (? & ? & ? & ?). apply (do_used _ _ _ _ Hd). lia. Qed.

Lemma fread_into_ok m buf pos off n :
  dev_ok (mount_src m) → 0 <= off → 0 < n → off + n <= dev_size (mount_src m) → bytes_ok buf →
  bytes_ok (fread_into buf pos off n m).
Proof. intros. intros k. rewrite fread_into_get by done. case_decide; [by apply dev_byte_u8|done]. Qed.

(** The walk to the directory entry, over a table that agrees with [F] on the
    directory's clusters. *)
Lemma dirent_walk_wp m0 F cs o F' m (Q : Z + unit → mount → Prop) :
  dir_ok m0 F cs o → fat_repr limit F' m → (∀ c, F c ≠ 0 → c ∉ cs → F' c = F c) →
  let n := dirent_offset o / (cluster_size_bytes m0 / 32) in
  (∀ m', fat_repr limit F' m' → same_mount limit m m' → fat_search_start m' = fat_search_start m →
     Q (inl (dirent_home m0 F o)) m') →
  wp (fora_loop 0 n (λ i cluster,
        if (cluster >=? FAT32_EOC) && (i <? u32 (n - 1)) then mret (inr tt)
        else next ← fat32_get_next_cluster fresh cluster; mret (inl next)) (dirent_cluster o)) Q m.
Proof.
  intros Hd Hr Hagree n HQ. destruct (dir_dpc m0 F cs o Hd) as (? & ? & Hn & _). fold n in Hn.
  apply (wp_fora (λ k c m', c = nth_cluster F (dirent_cluster o) (Z.to_nat k) ∧ fat_repr limit F' m' ∧
    same_mount limit m m' ∧ fat_search_start m' = fat_search_start m)); [done| | |].
  - split_and!; [done|done|apply same_mount_refl|done].
  - intros k c m1 Hk (-> & Hr1 & Hs1 & Hse1).
    destruct (do_used _ _ _ _ Hd (Z.to_nat k)) as ([Hci Hceoc _ _] & Hnz & Hnin); [fold n; lia|].
    rewrite Z.geb_leb, (proj2 (Z.leb_gt _ _)) by (unfold FAT32_EOC, FAT32_EOC_MIN in *; lia). cbn [andb]. wp.
    apply (get_next_wp fresh limit F'); [done|lia|]. intros m2 Hr2 Hs2 Hse2. wp.
    replace (Z.to_nat (k + 1)) with (S (Z.to_nat k)) by lia. rewrite Hagree by done.
    split_and!; [done|done|by eapply same_mount_trans|congruence].
  - intros c m1 (-> & Hr1 & Hs1 & Hse1). by apply HQ.
Qed.

Lemma dirent_writeback_wp m0 F cs o F' dir m (Q : unit → mount → Prop) :
  data_geom limit m0 → dir_ok m0 F cs o → same_vol m0 m → fat_repr limit F' m → bytes_ok dir →
  (∀ c, F c ≠ 0 → c ∉ cs → F' c = F c) →
  (∀ m', fat_repr limit F' m' → same_vol m m' → spinlock m' = spinlock m → fat_search_start m' = fat_search_start m →
     (∀ k, data_base m0 <= k → dev_byte (mount_src m') k =
        default (dev_byte (mount_src m) k) (dirent_field o (k - dirent_pos m0 F o))) → Q tt m') →
  wp (dirent_writeback dir o) Q m.
Proof.
  intros Hg Hd Hv Hr Hdir Hagree HQ. unfold dirent_writeback. wp. destruct (vol_geom m0 m Hv) as (-> & _).
  destruct (dir_dpc m0 F cs o Hd) as (Hdpc & Hle & Hn & Hmod). rewrite (proj2 (Z.eqb_neq _ _)) by lia. wp.
  apply (dirent_walk_wp m0 F cs o F'); [done..|]. intros m1 Hr1 Hs1 Hse1. wp. cbv [id].
  destruct (dirent_home_ok m0 F cs o Hd) as (Hok & _ & _). pose proof Hok as [Hci _ _ _].
  assert (same_vol m0 m1) as Hv1 by (transitivity m; [done|by apply same_mount_vol]).
  pose proof (csz_pos limit m0 Hg) as Hcs. destruct (vol_geom m0 m1 Hv1) as (_ & _ & Hfs & _).
  rewrite (proj2 (Z.ltb_ge _ _)) by apply Hd.
  rewrite (vol_dirent_page_offset m0) by (done || apply Hr1 || apply (do_low _ _ _ _ Hd)). set (off := data_base m0 + _).
  pose proof (do_dev _ _ _ _ Hd) as Hdev. fold off in Hdev.
  assert (data_base m0 <= off) by (unfold off; nia). pose proof (dg_base _ _ Hg) as Hbase. rewrite <- Hfs in Hbase.
  destruct (fr_geom _ _ _ Hr1) as [Hdok [Hl0 _] Hf0 _ _].
  rewrite <- (sv_size _ _ Hv1) in Hdev. unfold PAGE_SIZE_BYTES in *.
  apply (fwrite_src_wp F').
  1: done.
  { apply buf_bytes_u8. unfold patch_dirent.
    assert (∀ (f : Z → Z) n, (∀ k, is_u8 (f k)) → Forall is_u8 (f <$> seqZ 0 n)) as Hfa
      by (intros f n Hf; by apply Forall_fmap, Forall_true).
    repeat (apply store_bytes_ok; [|by apply Hfa, is_u8_word_byte || (repeat constructor; apply is_u8_u8)]).
    apply fread_into_ok; done || lia. }
  { lia. }
  { rewrite length_buf_bytes by lia. lia. }
  rewrite length_buf_bytes by lia. intros m' Hr' Hv' Hl' Hse' Hbyte. apply HQ; [done| | | |].
  - transitivity m1; [by apply same_mount_vol|done].
  - by rewrite Hl', (sm_lock _ _ _ Hs1).
  - congruence.
  - intros k Hk.
    assert (dev_byte (mount_src m1) k = dev_byte (mount_src m) k) as Hsame.
    { apply (same_vol_data m0 m m1 Hv); [|done]. apply same_mount_data; [by apply (vol_data_geom m0)|done]. }
    assert (dirent_pos m0 F o = off + 32 * (dirent_offset o mod (cluster_size_bytes m0 / 32))) as -> by done.
    rewrite Hbyte. case_decide as Hin.
    + rewrite lookup_buf_bytes, patch_dirent_get by lia. f_equal.
      * rewrite fread_into_get, decide_True by (done || lia). rewrite <- Hsame. f_equal. lia.
      * f_equal. lia.
    + rewrite Hsame. destruct (dirent_field _ _) as [b|] eqn:Hb; [|done].
      apply dirent_field_range in Hb. pose proof (do_page _ _ _ _ Hd). unfold PAGE_SIZE_BYTES in *. lia.
Qed.

(** ** A whole write *)

(** What [fat32_write] has done when it returns [r]: the file's bytes from
    [offset] to [hi] are those of the buffer. *)
Record write_result m (F : Z → Z) (cs : list Z) (o : fat_open_file) (buf : gmap Z Z) (offset count : Z)
    (r : Z) (o' : fat_open_file) m' (F' : Z → Z) (cs' : list Z) (hi : Z) : Prop := {
  wr_count : 0 <= r <= count;
  wr_hi : offset + r <= hi <= offset + count;
  wr_repr : fat_repr limit F' m';
  wr_vol : same_vol m m';
  wr_lock : spinlock m' = false;
  wr_grown : grown m F cs F' cs';
  wr_fit : cs' = cs ∨ (Z.of_nat (length cs') - 1) * cluster_size_bytes m < offset + count;
  wr_first : first_cluster o' = default 0 (head cs');
  wr_range : offset < hi → hi <= Z.of_nat (length cs') * cluster_size_bytes m;
  wr_bytes p : offset <= p < hi → dev_byte (mount_src m') (loc m cs' p) = buf !0 (p - offset);
  wr_frame k : data_base m <= k → (∀ p, offset <= p < hi → k ≠ loc m cs' p) →
    (∀ c, c ∈ cs' → c ∉ cs → ¬ in_cluster m c k) →
    ¬ (dirent_pos m F o <= k < dirent_pos m F o + 32) → dev_byte (mount_src m') k = dev_byte (mount_src m) k;
  wr_aligned : offset mod cluster_size_bytes m = 0 →
    (r = count ∧ size_bytes o' = Z.max (size_bytes o) (offset + count) ∧
     ∀ x, 0 <= x < 32 → dev_byte (mount_src m') (dirent_pos m F o + x) =
       default (dev_byte (mount_src m) (dirent_pos m F o + x)) (dirent_field o' x)) ∨
    (r < count ∧ no_free F' m' ∧ Z.of_nat (length cs') * cluster_size_bytes m < offset + count);
}.

Section whole.
Context (m : mount) (F : Z → Z) (cs : list Z) (o : fat_open_file) (dir buf : gmap Z Z) (offset count : Z).
Context (Hgeom : data_geom limit m) (Hcl : clusters_ok m) (Hdir : dir_ok m F cs o).
Context (Hbuf : bytes_ok buf) (Hpage : bytes_ok dir) (Hmalloc : malloc_ok = true).
Context (Hoff : 0 <= offset) (Hcount : 0 < count) (Hlt : offset + count < 2 ^ 31).
Context (Hfirst : cs !! 0%nat = Some (first_cluster o)).
Notation csz := (cluster_size_bytes m).
Notation g := (λ p, buf !0 (p - offset)).
Notation post := (λ (ro : Z * fat_open_file) m', ∃ F' cs' hi, write_result m F cs o buf offset count ro.1 ro.2 m' F' cs' hi).

Lemma head_grown F' cs' : grown m F cs F' cs' → first_cluster o = default 0 (head cs').
Proof using Hfirst. intros Hgr. apply (grown_lookup _ _ _ _ _ _ _ Hgr) in Hfirst. by rewrite head_lookup, Hfirst. Qed.

(** A write that ends before the directory entry is touched. *)
Lemma write_short r F' cs' hi m' :
  write_inv m F cs g (offset + count) offset hi F' cs' m' → 0 <= r <= count → offset + r <= hi <= offset + count →
  (offset mod csz = 0 → r < count ∧ no_free F' m' ∧ Z.of_nat (length cs') * csz < offset + count) → post (r, o) m'.
Proof using Hfirst.
  intros [Hgr Hfit Hr Hv Hl _ Hra Hb Hf] Hr0 Hhi Hal. exists F', cs', hi. split; try done.
  - by apply (head_grown F').
  - intros Hh. by apply Hra.
  - intros k Hk Hn Hc _. by apply Hf.
  - intros Ha. right. auto.
Qed.

(** The whole range has been written and the directory entry follows. *)
Lemma write_entry F' cs' m1 :
  write_inv m F cs g (offset + count) offset (offset + count) F' cs' m1 →
  let o' := if offset + count >? size_bytes o then set_size_bytes (u32 (offset + count)) o else o in
  wp (dirent_writeback dir o') (λ _ m', post (count, o') m') m1.
Proof using Hcount Hdir Hfirst Hgeom Hlt Hoff Hpage.
  intros Hinv o'. pose proof Hinv as [Hgr Hfit Hr Hv Hl _ Hra Hb Hf].
  assert (size_bytes o' = Z.max (size_bytes o) (offset + count) ∧ first_cluster o' = first_cluster o ∧
    dirent_cluster o' = dirent_cluster o ∧ dirent_offset o' = dirent_offset o) as (Hsize & Hfst & Hdc & Hdo).
  { unfold o'. rewrite Z.gtb_ltb. destruct (Z.ltb_spec (size_bytes o) (offset + count)); split_and!; try done.
    - cbn. rewrite u32_id by (unfold is_u32; lia). lia.
    - lia. }
  assert (dir_ok m F cs o') as Hdir' by (destruct Hdir; split; unfold dirent_home in *; by rewrite ?Hdc, ?Hdo).
  assert (dirent_pos m F o' = dirent_pos m F o) as Hpos by (unfold dirent_pos, dirent_home; by rewrite Hdc, Hdo).
  apply (dirent_writeback_wp m F cs o' F'); [done..| |].
  { intros c Hnz Hnin. by apply (grown_used m F cs F' cs'). }
  rewrite Hpos. intros m' Hr' Hv' Hl' _ Hbyte. exists F', cs', (offset + count). cbn [fst snd].
  destruct (dirent_home_ok m F cs o Hdir) as (Hhok & Hhnz & Hhnin).
  destruct (grown_used m F cs F' cs' _ Hgr Hhnz Hhnin) as [Hhnin' _].
  split; try done; try lia.
  - by transitivity m1.
  - by rewrite Hl'.
  - rewrite Hfst. by apply (head_grown F').
  - intros p Hp. destruct (Hra ltac:(lia)).
    destruct (loc_cases m F' cs' p Hgeom (gr_chain _ _ _ _ _ Hgr)) as (i & x & c & _ & _ & _ & Hc & Hok & _ & Hin); [lia|].
    rewrite Hbyte by (by eapply cluster_behind). destruct (dirent_field _ _) as [b|] eqn:Hfield; [|by apply Hb].
    exfalso. apply Hhnin'. apply dirent_field_range in Hfield.
    pose proof (dirent_in_home m F cs o _ Hgeom Hdir Hfield) as Hhome.
    replace (dirent_pos m F o + (loc m cs' p - dirent_pos m F o)) with (loc m cs' p) in Hhome by lia.
    rewrite (cluster_disjoint m _ _ _ Hgeom Hhome Hin). by eapply list_elem_of_lookup_2.
  - intros k Hk Hn Hc Hd. rewrite Hbyte by done. destruct (dirent_field _ _) eqn:Hfield; [|by apply Hf].
    apply dirent_field_range in Hfield. lia.
  - intros _. left. split_and!; [done|done|]. intros x Hx.
    pose proof (dirent_in_home m F cs o x Hgeom Hdir Hx) as Hhome.
    pose proof (cluster_behind m _ _ Hgeom Hhok Hhome) as Hbehind. rewrite Hbyte by done.
    replace (dirent_pos m F o + x - dirent_pos m F o) with x by lia. f_equal. apply Hf; [done| |].
    + intros p Hp Heq. destruct (Hra ltac:(lia)).
      destruct (loc_cases m F' cs' p Hgeom (gr_chain _ _ _ _ _ Hgr)) as (i & y & c & _ & _ & _ & Hc & _ & _ & Hin); [lia|].
      rewrite <- Heq in Hin. apply Hhnin'. rewrite (cluster_disjoint m _ _ _ Hgeom Hhome Hin). by eapply list_elem_of_lookup_2.
    + intros c Hc _ Hin. apply Hhnin'. by rewrite (cluster_disjoint m _ _ _ Hgeom Hhome Hin).
Qed.

Lemma write_finish_wp F1 cs1 m1 q base current rem0 :
  write_inv m F cs g (offset + count) offset (q * csz) F1 cs1 m1 → offset <= q * csz → 0 <= q → 0 <= rem0 →
  cs1 !! Z.to_nat q = Some current → base = q * csz - offset → rem0 = count - base →
  wp (write_finish dir o buf offset count base current rem0) post m1.
Proof using Hbuf Hcl Hcount Hdir Hfirst Hgeom Hlt Hoff Hpage.
  intros Hinv Hle Hq Hrem Hcur Hbase Hrem0. unfold write_finish. wp.
  pose proof (csz_pos limit m Hgeom) as Hcs.
  apply (write_clusters_wp m F cs g (offset + count) offset Hgeom Hcl F1 cs1 m1 buf base q); [done|lia..|done|done| | |].
  - intros j Hj. f_equal. lia.
  - intros F' cs' m2 Hinv2. wp. replace (q * csz + rem0) with (offset + count) in Hinv2 by lia.
    eapply wp_mono; [by apply (write_entry F' cs')|]. intros [] m3 Hpost. by wp.
  - intros F' cs' m2 i Hi Hn Hinv2 Hno Htot. wp. apply (write_short _ F' cs' (q * csz + (i + 1) * csz)); [done|nia|nia|].
    intros _. split; [nia|done].
Qed.

Lemma land_offset : Z.land offset (csz - 1) = offset mod csz.
Proof using Hgeom Hoff.
  destruct (dg_size limit m Hgeom) as (n & Hn & ->). replace (2 ^ n - 1) with (Z.ones n) by (rewrite Z.ones_equiv; lia).
  apply land_low. lia.
Qed.

(** The part of a write that starts inside of a cluster. *)
Lemma write_head_wp F1 cs1 m1 c (Q : unit → mount → Prop) :
  write_inv m F cs g (offset + count) offset offset F1 cs1 m1 → cs1 !! Z.to_nat (offset / csz) = Some c → offset mod csz ≠ 0 →
  let here := csz - offset mod csz in
  let n := if here >? count then count else here in
  (∀ m', write_inv m F cs g (offset + count) offset (offset + n) F1 cs1 m' → Q tt m') →
  wp (fwrite_src (buf_bytes buf 0 n) (read_offset m1 c + offset mod csz)) Q m1.
Proof using Hbuf Hcount Hgeom Hoff.
  intros Hinv Hc Hnz here n HQ. pose proof (csz_pos limit m Hgeom) as Hcs.
  pose proof (Z.mod_pos_bound offset csz ltac:(lia)) as Hob. pose proof (Z.div_mod offset csz ltac:(lia)) as Hdm.
  pose proof (Z.div_pos offset csz Hoff ltac:(lia)).
  assert (0 < n <= here) as Hn.
  { unfold n. rewrite Z.gtb_ltb. destruct (Z.ltb_spec count here); unfold here in *; lia. }
  assert (offset / csz * csz + offset mod csz = offset) as Hpos by lia.
  apply (put_wp m F cs g (offset + count) offset Hgeom F1 cs1 m1 (offset / csz) c (offset mod csz) n); rewrite ?Hpos; try (done || lia).
  - apply length_buf_bytes. lia.
  - by apply buf_bytes_u8.
  - intros j Hj. rewrite lookup_buf_bytes by done. f_equal. lia.
Qed.

Lemma write_from_wp m1 :
  write_inv m F cs g (offset + count) offset offset F cs m1 → offset / csz < Z.of_nat (length cs) ∨ PAGE_SIZE_BYTES <= csz →
  wp (write_from dir o buf offset count) post m1.
Proof using Hbuf Hcl Hcount Hdir Hfirst Hgeom Hlt Hmalloc Hoff Hpage.
  intros Hinv Hroom. unfold write_from. wp. pose proof (csz_pos limit m Hgeom) as Hcs.
  destruct (vol_geom m m1 (wi_vol _ _ _ _ _ _ _ _ _ _ Hinv)) as (-> & _). rewrite land_offset.
  pose proof (Z.mod_pos_bound offset csz ltac:(lia)) as Hob. pose proof (Z.div_mod offset csz ltac:(lia)) as Hdm.
  pose proof (Z.div_pos offset csz Hoff ltac:(lia)) as Hq.
  assert (offset / csz <= offset) by (apply Z.div_le_upper_bound; nia).
  rewrite udiv64_wp by lia. wp.
  assert (u64 (count + csz - 1) = count + csz - 1) as Hu by (unfold u64; apply Z.mod_small; lia).
  assert ((count + csz - 1) / csz <= count + csz - 1) by (apply Z.div_le_upper_bound; nia).
  rewrite udiv64_wp by (rewrite ?Hu; lia). wp.
  apply (write_seek_wp m F cs g (offset + count) offset Hgeom Hcl Hmalloc F cs); [done|done|done|nia|done| |].
  2: { intros F' cs' m2 Hinv2 Hno Htot. apply (write_short 0 F' cs' offset); [done|lia|lia|]. intros _. split; [lia|done]. }
  intros F' cs' c m2 Hinv2 Hc. destruct (Z.eqb_spec (offset mod csz) 0) as [Hz|Hnz].
  - assert (offset / csz * csz = offset) as Hal by lia.
    apply (write_finish_wp F' cs' m2 (offset / csz)); rewrite ?Hal; try done; lia.
  - wp. cbv [id]. set (here := csz - offset mod csz).
    apply (write_head_wp F' cs'); [done|done|done|]. fold here. intros m3 Hinv3. rewrite Z.gtb_ltb in *.
    destruct (Z.ltb_spec count here) as [Hin|Hout]; wp.
    { apply (write_short count F' cs' (offset + count)); [done|lia|lia|done]. }
    destruct (write_inv_next m F cs g (offset + count) offset F' cs' m3 _ _ c Hinv3 Hc) as (Hci & _ & Hnext).
    apply (get_next_wp fresh limit F'); [apply Hinv3|done|]. intros m4 Hr4 Hs4 Hse4.
    assert (write_inv m F cs g (offset + count) offset (offset + here) F' cs' m4) as Hinv4 by (by apply (write_inv_same m F cs g (offset + count) offset _ F' cs' m3)).
    rewrite Z.geb_leb. destruct (cs' !! S (Z.to_nat (offset / csz))) as [d|] eqn:Hd.
    + destruct Hnext as [-> Hlt2]. rewrite (proj2 (Z.leb_gt _ _)) by done.
      apply (write_finish_wp F' cs' m4 (offset / csz + 1)); [|unfold here in *; lia..| | |lia].
      * by replace ((offset / csz + 1) * csz) with (offset + here) by (unfold here; lia).
      * by replace (Z.to_nat (offset / csz + 1)) with (S (Z.to_nat (offset / csz))) by lia.
      * unfold here. lia.
    + destruct Hnext as [Heoc _]. rewrite (proj2 (Z.leb_le _ _)) by done. wp.
      apply (write_short _ F' cs' (offset + here)); [done|unfold here in *; lia|lia|done].
Qed.
End whole.

(** ** The first cluster of an empty file *)

Lemma first_chain m F r :
  cluster_ok limit m r → file_chain m (table_set F r FAT32_EOC) [r].
Proof.
  intros Hok. split; [|apply NoDup_singleton|by constructor]. intros [|i] c Hc; [|by destruct i].
  injection Hc as <-. simpl. unfold table_set. rewrite decide_True by done. unfold FAT32_EOC, FAT32_EOC_MIN. lia.
Qed.

(** The directory of an empty file is not disturbed by it. *)
Lemma nth_cluster_set F r v first n :
  (∀ j, (j < n)%nat → nth_cluster F first j ≠ r) → nth_cluster (table_set F r v) first n = nth_cluster F first n.
Proof.
  induction n as [|n IH]; intros Hne; [done|]. cbn [nth_cluster]. rewrite IH by (intros; apply Hne; lia).
  unfold table_set. by rewrite decide_False by (apply Hne; lia).
Qed.
Lemma dir_ok_first m F o r :
  F r = 0 → dir_ok m F [] o →
  dir_ok m (table_set F r FAT32_EOC) [r] o ∧ dirent_pos m (table_set F r FAT32_EOC) o = dirent_pos m F o.
Proof.
  intros Hz Hd. pose proof Hd as [Hs Ho Hu Hp Hdev Hlow]. destruct (dir_dpc m F [] o Hd) as (? & ? & Hn & ?).
  set (n := dirent_offset o / (cluster_size_bytes m / 32)) in *.
  assert (∀ j, Z.of_nat j <= n → nth_cluster F (dirent_cluster o) j ≠ r) as Hne
    by (intros j Hj E; destruct (Hu j Hj) as (_ & Hnz & _); apply Hnz; by rewrite E).
  assert (∀ j, Z.of_nat j <= n → nth_cluster (table_set F r FAT32_EOC) (dirent_cluster o) j = nth_cluster F (dirent_cluster o) j) as Heq
    by (intros j Hj; apply nth_cluster_set; intros; apply Hne; lia).
  assert (dirent_home m (table_set F r FAT32_EOC) o = dirent_home m F o) as Hh by (apply Heq; lia).
  split; [|unfold dirent_pos; by rewrite Hh]. split; try done; [|by rewrite Hh..].
  intros j Hj. cbn zeta. rewrite Heq by done. destruct (Hu j Hj) as (Hok & Hnz & _).
  unfold table_set. rewrite decide_False by (by apply Hne). split_and!; [done|done|].
  rewrite list_elem_of_singleton. by apply Hne.
Qed.

Lemma write_result_first m F o buf offset count r o' m' r0 F' cs' hi :
  F r0 = 0 → dir_ok m F [] o → 0 < offset + count →
  write_result m (table_set F r0 FAT32_EOC) [r0] (set_first_cluster r0 o) buf offset count r o' m' F' cs' hi →
  write_result m F [] o buf offset count r o' m' F' cs' hi.
Proof.
  intros Hz Hd Htot [Hc Hh Hr Hv Hl [(new & -> & Hnew) Hch Hfr] Hfit Hf Hra Hb Hfm Hal].
  destruct (dir_ok_first m F o r0 Hz Hd) as [_ Hpos].
  change (dirent_pos m (table_set F r0 FAT32_EOC) (set_first_cluster r0 o))
    with (dirent_pos m (table_set F r0 FAT32_EOC) o) in *. rewrite Hpos in *.
  assert (∀ c, c ≠ r0 → table_set F r0 FAT32_EOC c = F c) as Hset by (intros; unfold table_set; by rewrite decide_False).
  split; try done.
  - split; [|done|].
    + exists ([r0] ++ new). split; [done|]. intros c Hin. destruct (decide (c = r0)) as [->|]; [done|].
      rewrite <- Hset by done. apply Hnew. apply elem_of_app in Hin as [?%list_elem_of_singleton|]; done.
    + intros c Hin. rewrite Hfr by done. apply Hset. intros ->. apply Hin. apply elem_of_app. left. by apply list_elem_of_singleton.
  - right. destruct Hfit as [Hnil|]; [|done]. rewrite Hnil. simpl. lia.
  - intros k Hk Hn Hcl Hdp. apply Hfm; [done|done| |done]. intros c Hin _. apply Hcl; [done|]. apply not_elem_of_nil.
Qed.

Lemma fat32_write_wp m F cs o dir buf offset count :
  fat_repr limit F m → data_geom limit m → clusters_ok m → file_chain m F cs → dir_ok m F cs o →
  spinlock m = false → 2 <= fat_search_start m → first_cluster o = default 0 (head cs) →
  bytes_ok buf → bytes_ok dir → malloc_ok = true →
  0 <= offset → 0 < count → offset + count < 2 ^ 31 →
  offset < Z.max 1 (Z.of_nat (length cs)) * cluster_size_bytes m ∨ PAGE_SIZE_BYTES <= cluster_size_bytes m →
  wp (fat32_write dir o buf offset count)
    (λ ro m', ∃ F' cs' hi, write_result m F cs o buf offset count ro.1 ro.2 m' F' cs' hi) m.
Proof.
  intros Hr Hg Hcl Hch Hdir Hlock Hse Hfirst Hbuf Hpage Hm Hoff Hcount Hlt Hroom. unfold fat32_write.
  pose proof (csz_pos limit m Hg) as Hcs.
  assert (∀ n, offset < n * cluster_size_bytes m → offset / cluster_size_bytes m < n) as Hdiv
    by (intros n Hn; apply Z.div_lt_upper_bound; lia).
  destruct cs as [|c0 cs].
  - rewrite Hfirst. cbn [head default Z.eqb]. wp. change (Z.of_nat (length [])) with 0 in Hroom.
    apply (get_free_wp fresh limit F); [done|lia|apply Hcl| |].
    + intros r0 m1 Hr1 Hs1 Hb Hz _ Hse1. rewrite (proj2 (Z.eqb_neq _ _)) by lia. wp.
      pose proof (cl_ok _ Hcl r0 ltac:(lia)) as Hok. pose proof Hok as [Hci _ _ _].
      apply (set_next_wp fresh limit F); [done|lia|unfold is_u32, FAT32_EOC; lia|]. intros m2 Hr2 Hs2 Hse2.
      destruct (dir_ok_first m F o r0 Hz Hdir) as [Hdir' _].
      assert (same_mount limit m m2) as Hs02 by (by eapply same_mount_trans).
      eapply wp_mono; [apply (write_from_wp m (table_set F r0 FAT32_EOC) [r0] (set_first_cluster r0 o) dir buf offset count);
        try done|].
      * by destruct Hdir'.
      * split; try done; try lia; [by apply chain_grown_refl, first_chain|by left|by apply same_mount_vol|by rewrite (sm_lock _ _ _ Hs02)|].
        intros k Hk _ _. by apply (same_mount_data m m2).
      * destruct Hroom as [Hn|]; [left|by right]. apply Hdiv. exact Hn.
      * intros [r o'] m' (F' & cs' & hi & Hres). exists F', cs', hi. apply (write_result_first m F o buf offset count r o' m' r0); [done|done|lia|done].
    + intros m1 Hr1 Hs1 Hse1 Hno. wp. exists F, [], offset. cbn [fst snd].
      split; try done; try lia; [by apply same_mount_vol|by rewrite (sm_lock _ _ _ Hs1)|by apply chain_grown_refl|by left| |].
      * intros k Hk _ _ _. by apply (same_mount_data m m1).
      * intros _. right. split_and!; [lia| |simpl; lia]. unfold no_free.
        destruct (vol_geom m m1 (same_mount_vol _ _ Hs1)) as (_ & _ & _ & ->). by rewrite Hse1.
  - pose proof (co_index _ _ _ (fc_cluster m F (c0 :: cs) 0 c0 Hch eq_refl)).
    change (default 0 (head (c0 :: cs))) with c0 in Hfirst. rewrite (proj2 (Z.eqb_neq (first_cluster o) 0)) by lia.
    apply (write_from_wp m F (c0 :: cs) o dir buf offset count); try done.
    + cbn. by rewrite Hfirst.
    + split; try done; try lia; [by apply chain_grown_refl|by left].
    + destruct Hroom as [Hn|]; [left|by right]. apply Hdiv. cbn [length] in *. lia.
Qed.

(** C9: writing.  For an open file whose directory entry lies below 4 GiB of the device
    ([dir_ok]; [dirent_writeback] wraps behind that) a write at any offset inside of the file (or behind its end,
    when a cluster has a page at least) stores the bytes of the buffer at their
    places in the file's clusters: the chain grows by clusters that were free, and by
    no more than the range written needs, no other entry of the table changes, no byte of another file changes, and
    the count returned never exceeds what has been stored.  A write that starts
    on a cluster boundary either is complete, and the directory entry then holds
    the new size and the first cluster, or it ends because the search finds no
    free cluster. *)
Theorem fat32_write_spec m F cs o dir buf offset count :
  fat_repr limit F m → data_geom limit m → clusters_ok m → file_chain m F cs → dir_ok m F cs o →
  spinlock m = false → 2 <= fat_search_start m → first_cluster o = default 0 (head cs) →
  bytes_ok buf → bytes_ok dir → malloc_ok = true →
  0 <= offset → 0 < count → offset + count < 2 ^ 31 →
  offset < Z.max 1 (Z.of_nat (length cs)) * cluster_size_bytes m ∨ PAGE_SIZE_BYTES <= cluster_size_bytes m →
  ∃ r o' m' F' cs' hi, fat32_write dir o buf offset count m = Ok ((r, o'), m') ∧
    write_result m F cs o buf offset count r o' m' F' cs' hi.
Proof.
  intros. destruct (proj1 (wp_ok _ _ _) (fat32_write_wp m F cs o dir buf offset count
    ltac:(done) ltac:(done) ltac:(done) ltac:(done) ltac:(done) ltac:(done) ltac:(done) ltac:(done) ltac:(done)
    ltac:(done) ltac:(done) ltac:(done) ltac:(done) ltac:(done) ltac:(done)))
    as ([r o'] & m' & Hrun & F' & cs' & hi & Hres).
  by exists r, o', m', F', cs', hi.
Qed.

(** A write inside of the clusters a file has is complete, and they stay. *)
Lemma write_within m F cs o buf offset count r o' m' F' cs' hi :
  data_geom limit m → write_result m F cs o buf offset count r o' m' F' cs' hi →
  offset mod cluster_size_bytes m = 0 → offset + count <= Z.of_nat (length cs) * cluster_size_bytes m →
  r = count ∧ hi = offset + count ∧ cs' = cs ∧ (∀ c, c ∉ cs → F' c = F c).
Proof.
  intros Hg Hres Ha Hle. pose proof (csz_pos limit m Hg). destruct Hres as [_ Hhi _ _ _ [(new & -> & _) _ Hfr] Hfit _ _ _ _ Hal].
  rewrite length_app in *. assert (cs ++ new = cs) as Heq by (destruct Hfit as [|Hfit]; [done|]; destruct new; [by rewrite app_nil_r|simpl in Hfit; nia]).
  rewrite Heq in *. destruct (Hal Ha) as [(-> & _)|(_ & _ & Hlt)]; [|nia]. split_and!; (done || lia).
Qed.

(** Byte [p] of the file, seen from its chain and from its first cluster. *)
Lemma chain_nth F cs first i :
  chain F cs → cs !! 0%nat = Some first → (i < length cs)%nat → cs !! i = Some (nth_cluster F first i).
Proof.
  intros Hc Hf. induction i as [|i IH]; intros Hi; [done|]. cbn [nth_cluster].
  specialize (IH ltac:(lia)). pose proof (Hc i _ IH) as Hn. destruct (cs !! S i) as [d|] eqn:Hd; [by f_equal|].
  apply lookup_ge_None in Hd. lia.
Qed.
Lemma file_byte_loc m F cs first p :
  data_geom limit m → file_chain m F cs → cs !! 0%nat = Some first →
  0 <= p < Z.of_nat (length cs) * cluster_size_bytes m →
  file_byte m F first p = dev_byte (mount_src m) (loc m cs p).
Proof.
  intros Hg [Hc _ _] Hf Hp. pose proof (csz_pos limit m Hg). unfold file_byte, loc.
  rewrite (chain_nth F cs first (Z.to_nat (p / cluster_size_bytes m)) Hc Hf); [done|].
  apply Nat2Z.inj_lt. rewrite Z2Nat.id by (apply Z.div_pos; lia). apply Z.div_lt_upper_bound; lia.
Qed.

(** C10: a file written is read back.  With the directory entry below 4 GiB as for the
    write itself, after a complete write [fat32_read] of the
    same range, from the first cluster the open file now has, delivers the
    buffer. *)
Theorem fat32_write_read m F cs o dir buf buf2 offset count o' m' :
  fat_repr limit F m → data_geom limit m → clusters_ok m → file_chain m F cs → dir_ok m F cs o →
  spinlock m = false → 2 <= fat_search_start m → first_cluster o = default 0 (head cs) →
  bytes_ok buf → bytes_ok dir → malloc_ok = true →
  0 <= offset → 0 < count → offset + count < 2 ^ 31 →
  offset < Z.max 1 (Z.of_nat (length cs)) * cluster_size_bytes m ∨ PAGE_SIZE_BYTES <= cluster_size_bytes m →
  fat32_write dir o buf offset count m = Ok ((count, o'), m') →
  ∃ r buf' m2, fat32_read fresh (first_cluster o') buf2 offset count m' = Ok ((r, buf'), m2) ∧
    ∀ k, buf' !0 k = if decide (0 <= k < count) then buf !0 k else buf2 !0 k.
Proof.
  intros Hr Hg Hcl Hch Hdir Hlock Hse Hfirst Hbuf Hpage Hm Hoff Hcount Hlt Hroom Hrun.
  pose proof (fat32_write_wp m F cs o dir buf offset count Hr Hg Hcl Hch Hdir Hlock Hse Hfirst Hbuf Hpage Hm Hoff
    Hcount Hlt Hroom) as Hw. rewrite (wp_run _ _ _ _ _ Hrun) in Hw. destruct Hw as (F' & cs' & hi & Hres).
  destruct Hres as [_ Hhi Hr' Hv _ Hgr _ Hf' Hra Hb _ _]. cbn [fst snd] in *.
  assert (hi = offset + count) as -> by lia. specialize (Hra ltac:(lia)).
  destruct (vol_geom m m' Hv) as (Hcs & Hdb & _). pose proof (csz_pos limit m Hg).
  assert (cs' !! 0%nat = Some (first_cluster o')) as Hhead.
  { rewrite Hf'. destruct cs'; [simpl in Hra; lia|done]. }
  assert (file_chain m' F' cs') as Hch'.
  { destruct (gr_chain _ _ _ _ _ Hgr) as [? ? Hok]. split; try done. eapply Forall_impl; [done|].
    intros c. by apply vol_cluster_ok. }
  pose proof (vol_data_geom m m' Hv Hg) as Hg'.
  destruct (proj1 (wp_ok (fat32_read fresh (first_cluster o') buf2 offset count) (λ rb m2,
    ∀ k, rb.2 !0 k = if decide (0 <= k < count) then buf !0 k else buf2 !0 k) m')) as ([r buf'] & m2 & Hrun2 & Hpost).
  - apply (fat32_read_wp fresh limit F'); [done|done|done|done|done| |].
    { intros j Hj. rewrite Hcs in Hj. assert (j < length cs')%nat by nia.
      eapply fc_cluster; [exact Hch'|]. apply chain_nth; [apply Hch'|done|done]. }
    intros r buf' m2 _ _ Hbuf' _ _. cbn [snd]. intros k. rewrite Hbuf'. case_decide; [|done].
    rewrite (file_byte_loc m' F' cs') by (done || (rewrite ?Hcs; lia)).
    replace (loc m' cs' (offset + k)) with (loc m cs' (offset + k)) by (unfold loc; by rewrite Hcs, Hdb).
    rewrite Hb by lia. f_equal. lia.
  - by exists r, buf', m2.
Qed.
End write.

(** ** Examples *)

(** A volume with 512-byte clusters whose table is in the cache: a directory in
    cluster 2, a file in clusters 3 and 4, the rest free. *)
Definition write_disk_example : disk := Disk (66048 + 512 * 10) ∅.
Definition write_cache_example : list Z :=
  [0x0ffffff8; 0x0fffffff; 0x0fffffff; 4; 0x0fffffff] ++ replicate 16379 0.
Definition write_example : fat_mount disk :=
  FatMount (BPB 512 1 1 1 128 139 2) write_disk_example 512 true false 2 1 129 0 16384 (Some write_cache_example).
Definition write_table_example : Z → Z := fat_entry write_example.
Definition write_file_example : fat_open_file := OpenFile 3 1000 0x20 2 3.
Definition write_buffer_example : gmap Z Z := {[ 0 := 75; 1 := 79; 511 := 83; 512 := 33 ]}.

Lemma write_example_repr : fat_repr 16384 write_table_example write_example.
Proof.
  split.
  - split; [|by_computation..]. intros k. unfold zget. simpl. rewrite lookup_empty. by_computation.
  - split; [done|by_computation|by_computation|vm_compute; reflexivity| |done].
    apply Forall_app. split; [repeat constructor; by_computation|]. apply Forall_replicate. by_computation.
  - reflexivity.
Defined.
Lemma write_example_geom : data_geom 16384 write_example.
Proof. split; [exists 9; split; by_computation|by_computation]. Defined.
Lemma write_example_cluster c : 2 <= c < 10 → cluster_ok 16384 write_example c.
Proof.
  intros Hc. split; change (cluster_size_bytes write_example) with 512; change (data_base write_example) with 66048;
    change (dev_size (mount_src write_example)) with 71168; unfold FAT32_EOC_MIN; lia.
Defined.
Lemma write_example_clusters : clusters_ok 16384 write_example.
Proof. split; [by_computation|]. exact write_example_cluster. Defined.
Lemma write_example_chain : file_chain 16384 write_example write_table_example [3; 4].
Proof.
  split.
  - intros [|[|i]] c Hc; [injection Hc as <-; vm_compute; reflexivity|injection Hc as <-; vm_compute; discriminate|by destruct i].
  - apply NoDup_cons. split; [by rewrite list_elem_of_singleton|apply NoDup_singleton].
  - repeat constructor; apply write_example_cluster; lia.
Defined.
Lemma write_example_dir : dir_ok 16384 write_example write_table_example [3; 4] write_file_example.
Proof.
  split; [by_computation|by_computation| |by_computation..].
  intros j Hj. change (Z.of_nat j <= 0) in Hj. assert (j = O) as -> by lia. cbn zeta.
  change (nth_cluster write_table_example (dirent_cluster write_file_example) 0) with 2.
  split_and!; [apply write_example_cluster; lia|vm_compute; discriminate|].
  rewrite elem_of_cons, list_elem_of_singleton. lia.
Defined.
Lemma write_buffer_ok : bytes_ok write_buffer_example.
Proof.
  intros k. unfold zget, write_buffer_example. rewrite !lookup_insert, lookup_singleton. repeat case_decide; by_computation.
Defined.
Lemma empty_page_ok : bytes_ok ∅.
Proof. intros k. unfold zget. rewrite lookup_empty. by_computation. Defined.

Lemma fat32_write_spec_witness :
  ∃ r o' m' F' cs' hi, fat32_write [] true ∅ write_file_example write_buffer_example 512 700 write_example = Ok ((r, o'), m') ∧
    write_result 16384 write_example write_table_example [3; 4] write_file_example write_buffer_example 512 700 r o' m' F' cs' hi.
Proof.
  apply (fat32_write_spec [] true 16384 write_example write_table_example [3; 4] write_file_example ∅ write_buffer_example 512 700
    write_example_repr write_example_geom write_example_clusters write_example_chain write_example_dir).
  1-3: by_computation.
  1: exact write_buffer_ok.
  1: exact empty_page_ok.
  1: reflexivity.
  1-3: by_computation.
  left. by_computation.
Defined.

Lemma write_example_runs :
  match fat32_write [] true ∅ write_file_example write_buffer_example 512 700 write_example with
  | Ok ((r, _), _) => r =? 700
  | Err _ => false
  end = true.
Proof. vm_compute. reflexivity. Qed.

Lemma fat32_write_read_witness :
  ∃ o' m' r buf' m2, fat32_write [] true ∅ write_file_example write_buffer_example 512 700 write_example = Ok ((700, o'), m') ∧
    fat32_read [] (first_cluster o') ∅ 512 700 m' = Ok ((r, buf'), m2) ∧ buf' !0 512 = 33.
Proof.
  pose proof write_example_runs as Hr.
  destruct (fat32_write [] true ∅ write_file_example write_buffer_example 512 700 write_example) as [[[r o'] m']|] eqn:Hrun;
    [|discriminate Hr].
  apply Z.eqb_eq in Hr. subst r. exists o', m'.
  destruct (fat32_write_read [] true 16384 write_example write_table_example [3; 4] write_file_example ∅ write_buffer_example ∅
    512 700 o' m' write_example_repr write_example_geom write_example_clusters write_example_chain write_example_dir)
    as (r & buf' & m2 & Hread & Hbytes).
  1-3: by_computation.
  1: exact write_buffer_ok.
  1: exact empty_page_ok.
  1: reflexivity.
  1-3: by_computation.
  1: left; by_computation.
  1: exact Hrun.
  exists r, buf', m2. split_and!; [reflexivity|exact Hread|]. rewrite Hbytes. vm_compute. reflexivity.
Defined.
