(* ===== verification/FatDir.v ===== *)
(** * FAT32 directory entries (src/src/kmodules/fs_driver.c)

    Long and short names of directory entries: how [fat32_create] lays a name
    out over entries, and how [fat32_search_dir] reads it back.  A directory is
    an array of 32-byte entries in byte memory. *)
From S2P Require Import Prelude Device KString.

Definition FAT32_LONG_FILE_NAME : Z := 0xF.
Definition LFN_ENTRY_CHAR_COUNT : Z := 13.
Definition DIR_ENT_MAX : Z := 65536.

(** Addresses: entry [i] of a directory, and the fields of [fat_dirent_t] and
    [fat_lfn_t] inside of an entry. *)
Definition dirent (dir_data i : Z) : Z := dir_data + 32 * i.
Definition d_flags : Z := 11.
Definition d_cluster_high : Z := 20.
Definition d_cluster_low : Z := 26.
Definition d_size : Z := 28.
Definition l_name0 : Z := 1.
Definition l_checksum : Z := 13.
Definition l_name1 : Z := 14.
Definition l_name2 : Z := 28.

Definition ld16 (p : Z) : M memory Z := x ← ld p; y ← ld (p + 1); mret (le16 x y).
Definition st16 (p x : Z) : M memory unit := st p x;; st (p + 1) (Z.shiftr x 8).

(** One of the three loops over an entry's characters; the value is [i]. *)
Definition read_lfn_part (chars n filename filename_index_start i : Z) : M memory Z :=
  r ← fora_loop 0 n (λ j i,
        c ← ld16 (chars + 2 * j);
        if (c =? 0xffff) || (c =? 0) then mret (inr i)
        else st (filename + u32 (i + filename_index_start)) c;; mret (inl (i + 1))) i;
  mret (match r with inl i => i | inr i => i end).

Definition fat32_build_filename_long (start_index filename dir_data : Z) : M memory Z :=
  fl ← ld (dirent dir_data start_index + d_flags);
  if (dir_data =? 0) || (filename =? 0) || negb (fl =? FAT32_LONG_FILE_NAME) then mret start_index
  else
    loop fuel32 (λ index,
      let lfn_ent := dirent dir_data index in
      fl ← ld (lfn_ent + d_flags);
      c ← ld lfn_ent;
      if negb (Z.land fl FAT32_LONG_FILE_NAME =? 0) && negb (c =? 0) then
        entry_no ← ld lfn_ent;
        let filename_index_start := u32 ((Z.land entry_no 0x3f - 1) * LFN_ENTRY_CHAR_COUNT) in
        i ← read_lfn_part (lfn_ent + l_name0) 5 filename filename_index_start 0;
        i ← read_lfn_part (lfn_ent + l_name1) 6 filename filename_index_start i;
        i ← read_lfn_part (lfn_ent + l_name2) 2 filename filename_index_start i;
        mret (inl (index + 1))
      else mret (inr index)) start_index.

Definition fat32_copy_short_filename (index filename dir_data : Z) : M memory unit :=
  for_all 0 8 (λ j, c ← ld (dirent dir_data index + j); st (filename + j) c);;
  j ← loop fuel32 (λ j,
        c ← ld (filename + j);
        if ((c =? 32) || (c =? 0)) && (j >? 0) then st (filename + j) 0;; mret (inl (j - 1))
        else mret (inr j)) 8;
  let j := j + 1 in
  c ← ld (dirent dir_data index + 8);
  st (filename + j) (if negb (c =? 0) then 46 else 0);;
  for_all 8 11 (λ i, c ← ld (dirent dir_data index + i); st (filename + (j + i - 7)) c).

(** The index of the entry found.  [filename] is the local array of 256
    characters, cleared for every entry. *)
Definition fat32_search_dir (path dir_data filename : Z) : M memory (option Z) :=
  loop fuel32 (λ i,
    c ← ld (dirent dir_data i);
    if negb (c =? 0) && (i <? DIR_ENT_MAX) then
      memset filename 0 256;;
      fl ← ld (dirent dir_data i + d_flags);
      i ← (if fl =? FAT32_LONG_FILE_NAME then fat32_build_filename_long i filename dir_data
           else fat32_copy_short_filename i filename dir_data;; mret i);
      r ← strcmp path filename;
      if r =? 0 then mret (inr (Some i)) else mret (inl (i + 1))
    else mret (inr None)) 0.

Definition lfn_checksum (sfn : Z) : M memory Z :=
  r ← fora_loop 0 11 (λ i sum,
        c ← ld (sfn + i);
        mret (inl (u8 ((if negb (Z.land sum 1 =? 0) then 0x80 else 0) + Z.shiftr sum 1 + c)))) 0;
  mret (match r with inl sum => sum | inr sum => sum end).

(** ** Laying a name out ([fat32_create]) *)

(** A loop over part of an entry; the value is [name_pos]. *)
Definition write_lfn_part (chars n file_to_create name_pos : Z) : M memory Z :=
  r ← fora_loop 0 n (λ j name_pos,
        c ← ld (file_to_create + name_pos);
        if c =? 0 then mret (inr name_pos)
        else st16 (chars + 2 * j) (s8 c);; mret (inl (name_pos + 1))) name_pos;
  mret (match r with inl p => p | inr p => p end).

Definition write_lfn (lfn_ent i total_dirents checksum file_to_create name_pos : Z) : M memory Z :=
  memset lfn_ent 0 32;;
  p ← write_lfn_part (lfn_ent + l_name0) 5 file_to_create name_pos;
  p ← write_lfn_part (lfn_ent + l_name1) 6 file_to_create p;
  p ← write_lfn_part (lfn_ent + l_name2) 2 file_to_create p;
  st lfn_ent (i + 1);;
  st (lfn_ent + l_checksum) checksum;;
  st (lfn_ent + d_flags) 0xf;;
  when (i =? total_dirents - 2) (x ← ld lfn_ent; st lfn_ent (Z.lor x 0x40));;
  mret p.

(** The fields of the real entry that are set; the times are left as they are. *)
Definition write_dirent (dirent short_filename flags : Z) : M memory unit :=
  memcpy short_filename dirent 11;;
  st (dirent + d_flags) (Z.land flags 0x2f);;
  memset (dirent + d_size) 0 4;;
  memset (dirent + d_cluster_high) 0 2;;
  memset (dirent + d_cluster_low) 0 2;;
  skip.

Definition make_dirents (dirents_to_write total_dirents checksum file_to_create short_filename flags : Z)
    : M memory unit :=
  _ ← fora_loop (R := unit) 0 total_dirents (λ i name_pos,
        if i =? total_dirents - 1 then
          write_dirent (dirent dirents_to_write i) short_filename flags;; mret (inr tt)
        else
          p ← write_lfn (dirent dirents_to_write i) i total_dirents checksum file_to_create name_pos;
          mret (inl p)) 0;
  skip.

(** The entries go into the directory in reverse, the real one last. *)
Definition install_dirents (dirents_to_write total_dirents buffer free_index : Z) : M memory unit :=
  for_all 0 total_dirents (λ i,
    let from := if i =? total_dirents - 1 then total_dirents - 1 else total_dirents - 2 - i in
    memcpy (dirent dirents_to_write from) (dirent buffer (i + free_index)) 32).

(** ** Names over entries *)

(** Byte [o] of a run of 16-bit characters that starts at character [pos] of [s]. *)
Definition name_byte (s : list Z) (pos o : Z) : Z :=
  if o mod 2 =? 0 then nth (Z.to_nat (pos + o / 2)) s 0 else 0.

(** Byte [o] of the [i]-th of [n] long-name entries. *)
Definition entry_byte (s : list Z) (n checksum i o : Z) : Z :=
  if decide (o = 0) then if i =? n - 1 then Z.lor (i + 1) 0x40 else i + 1
  else if decide (1 <= o < 11) then name_byte s (13 * i) (o - 1)
  else if decide (o = 11) then 0xf
  else if decide (o = 13) then u8 checksum
  else if decide (14 <= o < 26) then name_byte s (13 * i + 5) (o - 14)
  else if decide (28 <= o < 32) then name_byte s (13 * i + 11) (o - 28)
  else 0.

(** Two memory regions that do not meet. *)
Definition apart (a n b k : Z) : Prop := a + n <= b ∨ b + k <= a.

(** The memory where a region has been replaced. *)
Definition patched (m m' : memory) (lo hi : Z) (f : Z → Z) : Prop :=
  ∀ k, m' !0 k = if decide (lo <= k < hi) then f k else m !0 k.

Lemma patched_refl m lo f : patched m m lo lo f.
Proof. intros k. by rewrite decide_False by lia. Qed.

Lemma patched_trans m1 m2 m3 lo mid hi f g h :
  patched m1 m2 lo mid f → patched m2 m3 mid hi g → lo <= mid <= hi →
  (∀ k, lo <= k < mid → f k = h k) → (∀ k, mid <= k < hi → g k = h k) → patched m1 m3 lo hi h.
Proof.
  intros H1 H2 Hle Hf Hg k. rewrite H2, H1. repeat case_decide; try lia; auto.
Qed.

Lemma patched_out m m' lo hi f k : patched m m' lo hi f → ¬ (lo <= k < hi) → m' !0 k = m !0 k.
Proof. intros H Hk. by rewrite H, decide_False. Qed.
Lemma patched_in m m' lo hi f k : patched m m' lo hi f → lo <= k < hi → m' !0 k = f k.
Proof. intros H Hk. by rewrite H, decide_True. Qed.

Lemma patched_st m m' lo hi f p x :
  patched m m' lo hi f → lo <= p < hi →
  patched m (<[p := u8 x]> m') lo hi (λ k, if decide (k = p) then u8 x else f k).
Proof.
  intros H Hp k. rewrite zget_insert, H. repeat case_decide; try done; try lia.
Qed.
Lemma patched_ext m m' lo hi f g :
  patched m m' lo hi f → (∀ k, lo <= k < hi → f k = g k) → patched m m' lo hi g.
Proof. intros H He k. rewrite H. case_decide; auto. Qed.

Lemma memset_wp p x n m (Q : Z → memory → Prop) :
  0 <= n → (∀ m', patched m m' p (p + n) (λ _, u8 x) → Q p m') → wp (memset p x n) Q m.
Proof.
  intros Hn HQ. unfold memset. wp.
  apply (wp_for_all (λ i m', patched m m' p (p + i) (λ _, u8 x))); [done| | |].
  - rewrite Z.add_0_r. apply patched_refl.
  - intros i m' Hi Hm'. wp. intros k. rewrite zget_insert, Hm'. repeat case_decide; (done || lia).
  - intros m' Hm'. wp. auto.
Qed.

Lemma memcpy_wp src dest n m (Q : unit → memory → Prop) :
  0 <= n → apart src n dest n → (∀ k, src <= k < src + n → is_u8 (m !0 k)) →
  (∀ m', patched m m' dest (dest + n) (λ k, m !0 (src + (k - dest))) → Q tt m') → wp (memcpy src dest n) Q m.
Proof. intros Hn Hd Hu HQ. unfold memcpy. apply copy_wp; auto. Qed.

Lemma name_byte_even s pos j : name_byte s pos (2 * j) = nth (Z.to_nat (pos + j)) s 0.
Proof.
  unfold name_byte. rewrite Z.mul_comm, Z.mod_mul, Z.div_mul by lia. done.
Qed.
Lemma name_byte_odd s pos j : name_byte s pos (2 * j + 1) = 0.
Proof.
  unfold name_byte. replace ((2 * j + 1) mod 2) with 1; [done|].
  apply (Z.mod_unique _ _ j); lia.
Qed.

(** Past the end the name reads as zeros, wherever one starts. *)
Lemma name_byte_past s pos o : Z.of_nat (length s) <= pos → 0 <= o → name_byte s pos o = 0.
Proof.
  intros Hp Ho. unfold name_byte. case_match; [|done]. apply nth_overflow.
  pose proof (Z.div_pos o 2 Ho ltac:(lia)). lia.
Qed.
Lemma name_byte_min s pos o :
  0 <= o → name_byte s (Z.min pos (Z.of_nat (length s))) o = name_byte s pos o.
Proof.
  intros Ho. destruct (decide (pos <= Z.of_nat (length s))).
  - by rewrite Z.min_l by lia.
  - rewrite Z.min_r, !name_byte_past by lia. done.
Qed.

Definition ascii_name (s : list Z) : Prop := Forall (λ x, 0 < x < 128) s.

Lemma ascii_nth s i : ascii_name s → 0 <= nth i s 0 < 128.
Proof.
  intros Hs. destruct (s !! i) as [x|] eqn:Hx.
  - rewrite (nth_lookup_Some s i 0 x Hx). pose proof (proj1 (Forall_lookup _ _) Hs _ _ Hx). simpl in *. lia.
  - apply lookup_ge_None in Hx. rewrite nth_overflow by done. lia.
Qed.

Lemma write_part_wp chars n f s pos m (Q : Z → memory → Prop) :
  cstr m f s → ascii_name s → 0 <= pos → 0 <= n →
  apart chars (2 * n) f (Z.of_nat (length s) + 1) →
  (∀ k, chars <= k < chars + 2 * n → m !0 k = 0) →
  (∀ m', patched m m' chars (chars + 2 * n) (λ k, name_byte s pos (k - chars)) →
     Q (Z.min (pos + n) (Z.of_nat (length s))) m') →
  pos <= Z.of_nat (length s) →
  wp (write_lfn_part chars n f pos) Q m.
Proof.
  intros Hs Ha Hpos Hn Hap Hz HQ Hle. unfold write_lfn_part. wp.
  apply (wp_fora (λ j p m', p = pos + j ∧ pos + j <= Z.of_nat (length s) ∧
    patched m m' chars (chars + 2 * j) (λ k, name_byte s pos (k - chars)))); [done| | |].
  - split_and!; [lia|lia|]. rewrite Z.mul_0_r, Z.add_0_r. apply patched_refl.
  - intros j p m' Hj (-> & Hle' & Hm'). wp.
    assert (m' !0 (f + (pos + j)) = nth (Z.to_nat (pos + j)) s 0) as Hc.
    { rewrite (patched_out m m' _ _ _ _ Hm') by (unfold apart in Hap; lia). apply (cstr_at m f s); [done|lia]. }
    rewrite Hc, (cstr_nth m f s) by done. pose proof (ascii_nth s (Z.to_nat (pos + j)) Ha) as Hasc.
    destruct (Nat.ltb_spec (Z.to_nat (pos + j)) (length s)) as [Hlt|Hge]; cbn [negb]; wp.
    + assert (s8 (nth (Z.to_nat (pos + j)) s 0) = nth (Z.to_nat (pos + j)) s 0) as ->
        by (unfold s8; rewrite (proj2 (Z.ltb_lt _ _)) by lia; done).
      unfold st16. wp. split_and!; [lia|lia|]. intros k. rewrite !zget_insert, Hm'.
      rewrite Z.shiftr_div_pow2, Z.div_small by lia. change (u8 0) with 0.
      rewrite u8_id by (unfold is_u8; lia).
      destruct (decide (chars + 2 * j + 1 = k)) as [<-|].
      { rewrite decide_True by lia. replace (chars + 2 * j + 1 - chars) with (2 * j + 1) by lia. by rewrite name_byte_odd. }
      destruct (decide (chars + 2 * j = k)) as [<-|].
      { rewrite decide_True by lia. replace (chars + 2 * j - chars) with (2 * j) by lia. by rewrite name_byte_even. }
      repeat case_decide; (done || lia).
    + replace (pos + j) with (Z.min (pos + n) (Z.of_nat (length s))) by lia. apply HQ.
      intros k. rewrite Hm'. repeat case_decide; try done; try lia. rewrite Hz by lia. symmetry.
      unfold name_byte. case_match; [|done]. apply nth_overflow.
      pose proof (Z.div_le_mono (2 * j) (k - chars) 2 ltac:(lia) ltac:(lia)) as Hd.
      rewrite (Z.mul_comm 2 j), Z.div_mul in Hd by lia. lia.
  - intros p m' (-> & Hle' & Hm'). wp. replace (pos + n) with (Z.min (pos + n) (Z.of_nat (length s))) by lia. auto.
Qed.

Lemma cstr_patched m m' lo hi f p s :
  cstr m p s → patched m m' lo hi f → apart lo (hi - lo) p (Z.of_nat (length s) + 1) → cstr m' p s.
Proof.
  intros Hs Hm' Hap. apply (cstr_frame m); [done|]. intros k Hk. apply (patched_out m m' lo hi f); [done|].
  unfold apart in Hap. lia.
Qed.

Lemma write_lfn_wp p i n checksum f s m (Q : Z → memory → Prop) :
  cstr m f s → ascii_name s → 0 <= i < n → 13 * i <= Z.of_nat (length s) → n < 64 →
  apart p 32 f (Z.of_nat (length s) + 1) →
  (∀ m', patched m m' p (p + 32) (λ k, entry_byte s n checksum i (k - p)) →
     Q (Z.min (13 * (i + 1)) (Z.of_nat (length s))) m') →
  wp (write_lfn p i (n + 1) checksum f (13 * i)) Q m.
Proof.
  intros Hs Ha Hi Hle Hn Hap HQ. unfold write_lfn, l_name0, l_name1, l_name2, l_checksum, d_flags. wp.
  set (L := Z.of_nat (length s)) in *. unfold apart in Hap.
  apply memset_wp; [lia|]. intros m1 H1. change (u8 0) with 0 in H1.
  assert (cstr m1 f s) as Hs1 by (eapply cstr_patched; [done..|unfold apart; lia]). wp.
  apply (write_part_wp _ _ _ s); [done|done|lia|lia|unfold apart; lia| | |done].
  { intros k Hk. apply (patched_in _ _ _ _ _ k H1). lia. }
  intros m2 H2. assert (cstr m2 f s) as Hs2 by (eapply cstr_patched; [done..|unfold apart; lia]). wp.
  apply (write_part_wp _ _ _ s); [done|done|lia|lia|unfold apart; lia| | |lia].
  { intros k Hk. rewrite (patched_out _ _ _ _ _ k H2) by lia. apply (patched_in _ _ _ _ _ k H1). lia. }
  intros m3 H3. assert (cstr m3 f s) as Hs3 by (eapply cstr_patched; [done..|unfold apart; lia]). wp.
  apply (write_part_wp _ _ _ s); [done|done|lia|lia|unfold apart; lia| | |lia].
  { intros k Hk. rewrite (patched_out _ _ _ _ _ k H3), (patched_out _ _ _ _ _ k H2) by lia.
    apply (patched_in _ _ _ _ _ k H1). lia. }
  intros m4 H4. wp. fold L in H3, H4 |- *.
  assert (Z.min (Z.min (Z.min (13 * i + 5) L + 6) L + 2) L = Z.min (13 * (i + 1)) L) as -> by lia.
  assert (∀ o, 0 <= o → name_byte s (Z.min (13 * i + 5) L) o = name_byte s (13 * i + 5) o) as E3
    by (intros; by apply name_byte_min).
  assert (∀ o, 0 <= o → name_byte s (Z.min (Z.min (13 * i + 5) L + 6) L) o = name_byte s (13 * i + 11) o) as E4.
  { intros o Ho. replace (Z.min (Z.min (13 * i + 5) L + 6) L) with (Z.min (13 * i + 11) L) by lia. by apply name_byte_min. }
  assert (u8 (i + 1) = i + 1) as Eno by (apply u8_id; unfold is_u8; lia).
  assert (u8 (Z.lor (i + 1) 64) = Z.lor (i + 1) 64) as Elast.
  { apply u8_id. unfold is_u8. rewrite Z.lor_comm. change 64 with (Z.shiftl 1 6). rewrite lor_shiftl_add by lia. lia. }
  replace (n + 1 - 2) with (n - 1) by lia.
  assert (∀ m5, (∀ k, m5 !0 k = if decide (k = p) then (if i =? n - 1 then Z.lor (i + 1) 64 else i + 1)
      else <[p + 11 := u8 15]> (<[p + 13 := u8 checksum]> m4) !0 k) →
    patched m m5 p (p + 32) (λ k, entry_byte s n checksum i (k - p))) as Hfin.
  { intros m5 H5 k. rewrite H5, !zget_insert, H4, H3, H2, H1. unfold entry_byte.
    repeat case_decide; try done; try lia; rewrite ?E3, ?E4 by lia; f_equal; lia. }
  destruct (Z.eqb_spec i (n - 1)) as [Hl|Hl]; wp; apply HQ, Hfin; intros k.
  - rewrite !zget_insert, Eno. repeat case_decide; try done; try lia.
  - rewrite !zget_insert, Eno. repeat case_decide; try done; try lia.
Qed.

(** The bytes of the size and of the first cluster. *)
Definition empty_field (k : Z) : Prop := 20 <= k < 22 ∨ 26 <= k < 32.

Lemma write_dirent_wp d short flags m (Q : unit → memory → Prop) :
  apart d 32 short 11 → bytes_ok m →
  (∀ m', bytes_ok m' → (∀ k, ¬ (d <= k < d + 32) → m' !0 k = m !0 k) → (∀ k, 0 <= k < 11 → m' !0 (d + k) = m !0 (short + k)) →
     m' !0 (d + d_flags) = Z.land flags 0x2f → (∀ k, empty_field k → m' !0 (d + k) = 0) → Q tt m') →
  wp (write_dirent d short flags) Q m.
Proof.
  intros Hap Hu HQ. unfold apart in Hap. unfold write_dirent, d_flags, d_size, d_cluster_high, d_cluster_low. wp.
  apply memcpy_wp; [lia|unfold apart; lia|intros; apply Hu|]. intros m1 H1. wp.
  apply memset_wp; [lia|]. intros m2 H2. wp. apply memset_wp; [lia|]. intros m3 H3. wp.
  apply memset_wp; [lia|]. intros m4 H4. wp. apply HQ.
  - intros k. rewrite H4, H3, H2, zget_insert, H1. repeat case_decide; auto.
  - intros k Hk. rewrite H4, H3, H2, zget_insert, H1. repeat case_decide; (done || lia).
  - intros k Hk. rewrite H4, H3, H2, zget_insert, H1. repeat case_decide; try lia. f_equal. lia.
  - unfold d_flags. rewrite H4, H3, H2, zget_insert, H1. repeat case_decide; try lia. apply u8_id. unfold is_u8.
    change 47 with (Z.land 47 (Z.ones 8)). rewrite Z.land_assoc, land_low by lia. apply Z.mod_pos_bound. lia.
  - intros k Hk. unfold empty_field in Hk. rewrite H4, H3, H2. repeat case_decide; (done || lia).
Qed.

Lemma div_mod_entry dw i k : dw + 32 * i <= k < dw + 32 * i + 32 → (k - dw) / 32 = i ∧ (k - dw) mod 32 = k - (dw + 32 * i).
Proof.
  intros Hk. split; [symmetry; apply (Z.div_unique _ _ _ (k - dw - 32 * i))|symmetry; apply (Z.mod_unique _ _ i)]; lia.
Qed.

(** The bytes of the long-name entries, one after the other. *)
Definition entries_byte (s : list Z) (n checksum o : Z) : Z := entry_byte s n checksum (o / 32) (o mod 32).

Lemma name_byte_u8 s pos o : ascii_name s → is_u8 (name_byte s pos o).
Proof.
  intros Ha. unfold name_byte. case_match; [|by_computation].
  pose proof (ascii_nth s (Z.to_nat (pos + o / 2)) Ha). unfold is_u8. lia.
Qed.
Lemma entries_byte_u8 s n ck o : ascii_name s → 0 <= o < 32 * n → n < 64 → is_u8 (entries_byte s n ck o).
Proof.
  intros Ha Ho Hn. unfold entries_byte, entry_byte. pose proof (Z.div_pos o 32 ltac:(lia) ltac:(lia)).
  assert (o / 32 < n) by (apply Z.div_lt_upper_bound; lia).
  repeat case_decide; try (by apply name_byte_u8); try by_computation; [|apply is_u8_u8]. unfold is_u8.
  case_match; [|lia]. rewrite Z.lor_comm. change 64 with (Z.shiftl 1 6). rewrite lor_shiftl_add by lia. lia.
Qed.

Lemma make_dirents_wp dw n checksum f s short flags m (Q : unit → memory → Prop) :
  cstr m f s → ascii_name s → 13 * (n - 1) < Z.of_nat (length s) <= 13 * n → 0 < n < 64 →
  apart dw (32 * (n + 1)) f (Z.of_nat (length s) + 1) → apart dw (32 * (n + 1)) short 11 →
  bytes_ok m →
  (∀ m', bytes_ok m' → (∀ k, ¬ (dw <= k < dw + 32 * (n + 1)) → m' !0 k = m !0 k) →
     (∀ k, dw <= k < dw + 32 * n → m' !0 k = entries_byte s n checksum (k - dw)) →
     (∀ k, 0 <= k < 11 → m' !0 (dirent dw n + k) = m !0 (short + k)) →
     m' !0 (dirent dw n + d_flags) = Z.land flags 0x2f → (∀ k, empty_field k → m' !0 (dirent dw n + k) = 0) → Q tt m') →
  wp (make_dirents dw (n + 1) checksum f short flags) Q m.
Proof.
  intros Hs Ha Hlen Hn Hapf Haps Hu HQ. unfold make_dirents, apart, dirent in *. wp.
  apply (wp_fora (λ i p m', i <= n ∧ p = Z.min (13 * i) (Z.of_nat (length s)) ∧
    patched m m' dw (dw + 32 * i) (λ k, entries_byte s n checksum (k - dw)))); [lia| | |].
  - split_and!; [lia|lia|]. rewrite Z.mul_0_r, Z.add_0_r. apply patched_refl.
  - intros i p m' Hi (Hin & -> & Hm'). replace (n + 1 - 1) with n by lia.
    destruct (Z.eqb_spec i n) as [->|Hne]; wp.
    + apply write_dirent_wp; [unfold apart; lia| |].
      { intros k. rewrite Hm'. case_decide; [|apply Hu]. apply entries_byte_u8; [done|lia|lia]. }
      intros m2 Hu2 Hfr Hnm Hfl Hze. wp. apply HQ; [done| | | |done|done].
      * intros k Hk. rewrite Hfr by lia. apply (patched_out _ _ _ _ _ k Hm'). lia.
      * intros k Hk. rewrite Hfr by lia. by apply (patched_in _ _ _ _ _ k Hm').
      * intros k Hk. rewrite Hnm by done. apply (patched_out _ _ _ _ _ _ Hm'). lia.
    + rewrite Z.min_l by lia. apply (write_lfn_wp _ i n checksum f s); [|done|lia|lia|lia|unfold apart; lia|].
      { eapply cstr_patched; [done..|unfold apart; lia]. }
      intros m2 H2. wp. split_and!; [lia|done|].
      replace (dw + 32 * (i + 1)) with (dw + 32 * i + 32) by lia.
      eapply patched_trans; [exact Hm'|exact H2|lia|done|].
      intros k Hk. unfold entries_byte. destruct (div_mod_entry dw i k) as [-> ->]; [lia|]. done.
  - intros p m' (? & _). lia.
Qed.

Lemma install_dirents_wp dw n buffer free m (Q : unit → memory → Prop) :
  0 < n → apart dw (32 * (n + 1)) (dirent buffer free) (32 * (n + 1)) →
  bytes_ok m →
  (∀ m', patched m m' (dirent buffer free) (dirent buffer free + 32 * (n + 1)) (λ k,
     let i := (k - dirent buffer free) / 32 in
     m !0 (dirent dw (if i =? n then n else n - 1 - i) + (k - dirent buffer free) mod 32)) → Q tt m') →
  wp (install_dirents dw (n + 1) buffer free) Q m.
Proof.
  intros Hn Hap Hu HQ. unfold install_dirents. set (base := dirent buffer free) in *. unfold apart in Hap.
  apply (wp_for_all (λ j m', patched m m' base (base + 32 * j) (λ k,
     let i := (k - base) / 32 in
     m !0 (dirent dw (if i =? n then n else n - 1 - i) + (k - base) mod 32)))); [lia| | |done].
  - rewrite Z.mul_0_r, Z.add_0_r. apply patched_refl.
  - intros j m' Hj Hm'. replace (n + 1 - 1) with n by lia. replace (n + 1 - 2 - j) with (n - 1 - j) by lia.
    replace (dirent buffer (j + free)) with (base + 32 * j) by (unfold base, dirent; lia).
    set (from := if j =? n then n else n - 1 - j).
    assert (0 <= from <= n) as Hfrom by (unfold from; destruct (Z.eqb_spec j n); lia).
    apply memcpy_wp; [lia|unfold apart, dirent; lia| |].
    { intros k Hk. unfold dirent in Hk. rewrite (patched_out _ _ _ _ _ k Hm') by lia. apply Hu. }
    intros m2 H2. replace (base + 32 * (j + 1)) with (base + 32 * j + 32) by lia.
    eapply patched_trans; [exact Hm'|exact H2|lia|done|].
    intros k Hk. cbn zeta. destruct (div_mod_entry base j k) as [-> ->]; [lia|]. fold from.
    rewrite (patched_out _ _ _ _ _ _ Hm') by (unfold dirent; lia). done.
Qed.

(** ** Reading a name back *)

Lemma read_part_wp chars n fn start i s pos m (Q : Z → memory → Prop) :
  let L := Z.of_nat (length s) in
  ascii_name s → L < 2 ^ 31 → 0 <= pos → 0 <= n → (pos < L → i + start = pos) →
  (∀ o, 0 <= o < 2 * n → m !0 (chars + o) = name_byte s pos o) → apart chars (2 * n) fn L →
  (∀ m', patched m m' (fn + pos) (fn + Z.min (pos + n) L) (λ k, nth (Z.to_nat (k - fn)) s 0) →
     Q (i + Z.max 0 (Z.min n (L - pos))) m') →
  wp (read_lfn_part chars n fn start i) Q m.
Proof.
  intros L Ha HL Hpos Hn Hi Hch Hap HQ. unfold read_lfn_part. wp. unfold apart in Hap.
  apply (wp_fora (λ j i' m', i' = i + j ∧ (0 < j → pos + j <= L) ∧
    patched m m' (fn + pos) (fn + pos + j) (λ k, nth (Z.to_nat (k - fn)) s 0))); [done| | |].
  - split_and!; [lia|lia|]. rewrite Z.add_0_r. apply patched_refl.
  - intros j i' m' Hj (-> & HjL & Hm'). unfold ld16. wp.
    assert (m' !0 (chars + 2 * j) = nth (Z.to_nat (pos + j)) s 0) as ->.
    { rewrite (patched_out _ _ _ _ _ _ Hm') by lia. rewrite Hch by lia. apply name_byte_even. }
    assert (m' !0 (chars + 2 * j + 1) = 0) as ->.
    { rewrite (patched_out _ _ _ _ _ _ Hm') by lia. rewrite <- Z.add_assoc, Hch by lia. apply name_byte_odd. }
    pose proof (ascii_nth s (Z.to_nat (pos + j)) Ha) as Hasc.
    assert (le16 (nth (Z.to_nat (pos + j)) s 0) 0 = nth (Z.to_nat (pos + j)) s 0) as -> by (unfold le16; rewrite Z.shiftl_0_l; lia).
    rewrite (proj2 (Z.eqb_neq _ 0xffff)) by lia. cbn [orb].
    destruct (decide (pos + j < L)) as [Hlt|Hge].
    + destruct (lookup_lt_is_Some_2 s (Z.to_nat (pos + j))) as [x Hx]; [lia|].
      rewrite (nth_lookup_Some s _ 0 x Hx) in Hasc |- *.
      pose proof (proj1 (Forall_lookup _ _) Ha _ _ Hx). simpl in *.
      rewrite (proj2 (Z.eqb_neq x 0)) by lia. wp. split_and!; [lia|lia|].
      replace (u32 (i + j + start)) with (pos + j) by (rewrite u32_id; unfold is_u32; lia).
      intros k. rewrite zget_insert, Hm'. destruct (decide (fn + (pos + j) = k)) as [<-|]; [|repeat case_decide; (done || lia)].
      rewrite decide_True by lia. replace (fn + (pos + j) - fn) with (pos + j) by lia.
      rewrite (nth_lookup_Some s _ 0 x Hx). apply u8_id. unfold is_u8. lia.
    + rewrite nth_overflow by lia. wp. cbn [Z.eqb]. wp.
      replace (i + j) with (i + Z.max 0 (Z.min n (L - pos))) by lia. apply HQ.
      intros k. rewrite Hm'. repeat case_decide; (done || lia).
  - intros i' m' (-> & HjL & Hm'). wp. destruct (decide (0 < n)); [|replace n with 0 in * by lia].
    + replace (i + n) with (i + Z.max 0 (Z.min n (L - pos))) by lia. apply HQ.
      by replace (fn + Z.min (pos + n) L) with (fn + pos + n) by lia.
    + replace (i + 0) with (i + Z.max 0 (Z.min 0 (L - pos))) by lia. apply HQ.
      intros k. rewrite Hm'. repeat case_decide; (done || lia).
Qed.

Lemma entry_name0 s n ck i o : 0 <= o < 10 → entry_byte s n ck i (l_name0 + o) = name_byte s (13 * i) o.
Proof. intros Ho. unfold entry_byte, l_name0. repeat case_decide; try lia. f_equal. lia. Qed.
Lemma entry_name1 s n ck i o : 0 <= o < 12 → entry_byte s n ck i (l_name1 + o) = name_byte s (13 * i + 5) o.
Proof. intros Ho. unfold entry_byte, l_name1. repeat case_decide; try lia. f_equal. lia. Qed.
Lemma entry_name2 s n ck i o : 0 <= o < 4 → entry_byte s n ck i (l_name2 + o) = name_byte s (13 * i + 11) o.
Proof. intros Ho. unfold entry_byte, l_name2. repeat case_decide; try lia. f_equal. lia. Qed.

Lemma entry_no_eq s n ck i :
  0 <= i < n → n < 64 →
  0 < entry_byte s n ck i 0 ∧ u32 ((Z.land (entry_byte s n ck i 0) 0x3f - 1) * LFN_ENTRY_CHAR_COUNT) = 13 * i.
Proof.
  intros Hi Hn. unfold entry_byte, LFN_ENTRY_CHAR_COUNT. rewrite decide_True by done.
  assert (∀ x, 0 <= x < 64 → Z.land x 63 = x) as Hlow.
  { intros x Hx. change 63 with (Z.ones 6). rewrite land_low by lia. apply Z.mod_small. lia. }
  destruct (Z.eqb_spec i (n - 1)) as [Hl|Hl].
  - rewrite Z.land_lor_distr_l. change (Z.land 64 63) with 0. rewrite Z.lor_0_r, Hlow by lia.
    split; [|rewrite u32_id; unfold is_u32; lia]. rewrite Z.lor_comm. change 64 with (Z.shiftl 1 6).
    rewrite lor_shiftl_add by lia. lia.
  - rewrite Hlow by lia. split; [lia|]. rewrite u32_id; unfold is_u32; lia.
Qed.

(** The three loops on one entry. *)
Lemma read_entry_wp {A} p fn e n ck s (x : A) m (Q : A → memory → Prop) :
  let L := Z.of_nat (length s) in
  ascii_name s → L < 2 ^ 31 → 0 <= e < n → 13 * e < L →
  (∀ o, 0 <= o < 32 → m !0 (p + o) = entry_byte s n ck e o) → apart p 32 fn L →
  (∀ m', patched m m' (fn + 13 * e) (fn + Z.min (13 * (e + 1)) L) (λ k, nth (Z.to_nat (k - fn)) s 0) → Q x m') →
  wp (i ← read_lfn_part (p + l_name0) 5 fn (13 * e) 0;
      i ← read_lfn_part (p + l_name1) 6 fn (13 * e) i;
      _ ← read_lfn_part (p + l_name2) 2 fn (13 * e) i;
      mret x) Q m.
Proof.
  intros L Ha HL He HeL Hent Hap HQ. unfold apart in Hap. wp.
  apply (read_part_wp _ _ _ _ _ s (13 * e)); [done|done|lia|lia|lia| |unfold apart, l_name0; lia|].
  { intros o Ho. rewrite <- Z.add_assoc, Hent by (unfold l_name0; lia). apply entry_name0. lia. }
  intros m1 H1. wp. apply (read_part_wp _ _ _ _ _ s (13 * e + 5)); [done|done|lia|lia|fold L; lia| |unfold apart, l_name1; lia|].
  { intros o Ho. rewrite (patched_out _ _ _ _ _ _ H1) by (unfold l_name1; lia).
    rewrite <- Z.add_assoc, Hent by (unfold l_name1; lia). apply entry_name1. lia. }
  intros m2 H2. wp. apply (read_part_wp _ _ _ _ _ s (13 * e + 11)); [done|done|lia|lia|fold L; lia| |unfold apart, l_name2; lia|].
  { intros o Ho. rewrite (patched_out _ _ _ _ _ _ H2), (patched_out _ _ _ _ _ _ H1) by (unfold l_name2; lia).
    rewrite <- Z.add_assoc, Hent by (unfold l_name2; lia). apply entry_name2. lia. }
  intros m3 H3. wp. apply HQ. fold L in H1, H2, H3. intros k. rewrite H3, H2, H1. repeat case_decide; (done || lia).
Qed.

(** A directory that holds the long-name entries of [s] from index [free] on. *)
Definition holds_name (m : memory) (dir free n ck : Z) (s : list Z) : Prop :=
  ∀ t o, 0 <= t < n → 0 <= o < 32 → m !0 (dirent dir (free + t) + o) = entry_byte s n ck (n - 1 - t) o.

(** The loop of [fat32_build_filename_long], up to the entry behind the name. *)
Definition build_inv (m : memory) (dir fn free n ck : Z) (s : list Z) (index : Z) (m' : memory) : Prop :=
  free <= index <= free + n ∧
  patched m m' (fn + 13 * (n - (index - free))) (fn + Z.of_nat (length s)) (λ k, nth (Z.to_nat (k - fn)) s 0).

Lemma build_step dir fn free n ck s index m m' (Q : Z + Z → memory → Prop) :
  let L := Z.of_nat (length s) in
  ascii_name s → 13 * (n - 1) < L <= 13 * n → 0 < n < 64 → holds_name m dir free n ck s →
  apart (dirent dir free) (32 * n) fn L → build_inv m dir fn free n ck s index m' → index < free + n →
  (∀ m2, build_inv m dir fn free n ck s (index + 1) m2 → Q (inl (index + 1)) m2) →
  wp (let lfn_ent := dirent dir index in
      fl ← ld (lfn_ent + d_flags);
      c ← ld lfn_ent;
      if negb (Z.land fl FAT32_LONG_FILE_NAME =? 0) && negb (c =? 0) then
        entry_no ← ld lfn_ent;
        let filename_index_start := u32 ((Z.land entry_no 0x3f - 1) * LFN_ENTRY_CHAR_COUNT) in
        i ← read_lfn_part (lfn_ent + l_name0) 5 fn filename_index_start 0;
        i ← read_lfn_part (lfn_ent + l_name1) 6 fn filename_index_start i;
        i ← read_lfn_part (lfn_ent + l_name2) 2 fn filename_index_start i;
        mret (inl (index + 1))
      else mret (inr index)) Q m'.
Proof.
  intros L Ha HL Hn Hd Hap [Hix Hm'] Hlt HQ. unfold apart in Hap. cbn zeta.
  assert (∀ o, 0 <= o < 32 → m' !0 (dirent dir index + o) = entry_byte s n ck (n - 1 - (index - free)) o) as Hent.
  { intros o Ho. rewrite (patched_out _ _ _ _ _ _ Hm') by (unfold dirent in *; fold L; lia).
    rewrite <- (Hd (index - free) o) by lia. f_equal. unfold dirent. lia. }
  set (e := n - 1 - (index - free)) in *.
  destruct (entry_no_eq s n ck e) as [Hno Hst]; [unfold e; lia|lia|].
  wp. unfold d_flags. rewrite Hent by lia.
  pose proof (Hent 0 ltac:(lia)) as H0. rewrite Z.add_0_r in H0. rewrite H0.
  change (entry_byte s n ck e 11) with 0xf. change (Z.land 15 FAT32_LONG_FILE_NAME =? 0) with false.
  rewrite (proj2 (Z.eqb_neq (entry_byte s n ck e 0) 0)) by lia. cbn [negb andb]. wp. rewrite H0, Hst.
  rewrite <- wp_bind. apply (read_entry_wp _ _ e n ck s); [done|lia|unfold e; lia|unfold e; lia|done| |].
  { unfold apart, dirent in *. fold L. lia. }
  intros m2 H2. apply HQ. split; [lia|].
  fold L in H2, Hm' |- *. intros k. rewrite H2, Hm'. unfold e in *. repeat case_decide; (done || lia).
Qed.

Lemma build_long_wp dir fn free n ck s m (Q : Z → memory → Prop) :
  let L := Z.of_nat (length s) in
  ascii_name s → 13 * (n - 1) < L <= 13 * n → 0 < n < 64 → dir ≠ 0 → fn ≠ 0 → holds_name m dir free n ck s →
  apart (dirent dir free) (32 * (n + 1)) fn L →
  Z.land (m !0 (dirent dir (free + n) + d_flags)) FAT32_LONG_FILE_NAME = 0 →
  (∀ m', patched m m' fn (fn + L) (λ k, nth (Z.to_nat (k - fn)) s 0) → Q (free + n) m') →
  wp (fat32_build_filename_long free fn dir) Q m.
Proof.
  intros L Ha HL Hn Hdir Hfn Hd Hap Hstop HQ. unfold apart in Hap. unfold fat32_build_filename_long. wp.
  rewrite (proj2 (Z.eqb_neq dir 0)), (proj2 (Z.eqb_neq fn 0)) by done.
  pose proof (Hd 0 d_flags ltac:(lia) ltac:(unfold d_flags; lia)) as H0. rewrite Z.add_0_r in H0. rewrite H0.
  change (entry_byte s n ck (n - 1 - 0) d_flags) with 0xf. cbn [orb negb Z.eqb Pos.eqb FAT32_LONG_FILE_NAME].
  apply (wp_loop (build_inv m dir fn free n ck s) (λ index _, free + n - index)).
  - split; [lia|]. fold L. intros k. by rewrite decide_False by lia.
  - unfold fuel32. lia.
  - intros index m' [? _]. lia.
  - intros index m' Hinv. destruct (decide (index < free + n)) as [Hlt|Hge].
    + apply (build_step dir fn free n ck s index m m'); [done..| |done|done|].
      { unfold apart. fold L. lia. }
      intros m2 H2. split; [done|lia].
    + destruct Hinv as [Hix Hm']. assert (index = free + n) as -> by lia. cbn zeta. wp.
      replace (n - (free + n - free)) with 0 in Hm' by lia. rewrite Z.mul_0_r, Z.add_0_r in Hm'. fold L in Hm'.
      rewrite (patched_out _ _ _ _ _ (dirent dir (free + n) + d_flags) Hm'), Hstop
        by (unfold dirent, d_flags in *; lia). cbn [Z.eqb negb andb]. wp. by apply HQ.
Qed.

(** What [fat32_create] does with a name: lay it out, and put it in the directory. *)
Definition create_entries (dw n checksum f short flags buffer free : Z) : M memory unit :=
  make_dirents dw (n + 1) checksum f short flags;;
  install_dirents dw (n + 1) buffer free.

(** The regions of memory involved: the name, its short form, the scratch
    entries, the directory and the buffer a name is read into. *)
Record name_layout (m : memory) (f short dw buffer free fn n : Z) (s : list Z) : Prop := {
  nl_name : cstr m f s;
  nl_ascii : ascii_name s;
  nl_count : 13 * (n - 1) < Z.of_nat (length s) <= 13 * n;
  nl_n : 0 < n < 64;
  nl_bytes : bytes_ok m;
  nl_null : buffer ≠ 0 ∧ fn ≠ 0;
  nl_dw_name : apart dw (32 * (n + 1)) f (Z.of_nat (length s) + 1);
  nl_dw_short : apart dw (32 * (n + 1)) short 11;
  nl_dw_dir : apart dw (32 * (n + 1)) (dirent buffer free) (32 * (n + 1));
  nl_dw_fn : apart dw (32 * (n + 1)) fn (Z.of_nat (length s) + 1);
  nl_dir_fn : apart (dirent buffer free) (32 * (n + 1)) fn (Z.of_nat (length s) + 1);
}.

Lemma create_entries_wp m f short dw buffer free fn n s ck flags (Q : unit → memory → Prop) :
  name_layout m f short dw buffer free fn n s →
  (∀ m', bytes_ok m' → holds_name m' buffer free n ck s →
     m' !0 (dirent buffer (free + n) + d_flags) = Z.land flags 0x2f →
     (∀ k, 0 <= k < 11 → m' !0 (dirent buffer (free + n) + k) = m !0 (short + k)) →
     (∀ k, empty_field k → m' !0 (dirent buffer (free + n) + k) = 0) →
     (∀ k, ¬ (dw <= k < dw + 32 * (n + 1)) → ¬ (dirent buffer free <= k < dirent buffer free + 32 * (n + 1)) →
        m' !0 k = m !0 k) → Q tt m') →
  wp (create_entries dw n ck f short flags buffer free) Q m.
Proof.
  intros [Hs Ha HL Hn Hu _ Hdf Hds Hdd _ _] HQ. unfold create_entries. wp.
  apply (make_dirents_wp _ _ _ _ s); [done..|]. intros m1 Hu1 Hfr1 Hent Hnm Hfl Hze.
  apply install_dirents_wp; [lia|done|done|]. intros m2 H2. unfold apart in Hdd.
  assert (∀ o, 0 <= o < 32 → m2 !0 (dirent buffer (free + n) + o) = m1 !0 (dirent dw n + o)) as Hreal.
  { intros o Ho. rewrite (patched_in _ _ _ _ _ _ H2) by (unfold dirent; lia). cbn zeta.
    destruct (div_mod_entry (dirent buffer free) n (dirent buffer (free + n) + o)) as [-> ->]; [unfold dirent; lia|].
    rewrite Z.eqb_refl. f_equal. unfold dirent. lia. }
  apply HQ.
  - intros k. rewrite H2. case_decide; apply Hu1.
  - intros t o Ht Ho. rewrite (patched_in _ _ _ _ _ _ H2) by (unfold dirent; lia). cbn zeta.
    destruct (div_mod_entry (dirent buffer free) t (dirent buffer (free + t) + o)) as [-> ->]; [unfold dirent; lia|].
    rewrite (proj2 (Z.eqb_neq t n)) by lia. rewrite Hent by (unfold dirent; lia). unfold entries_byte.
    destruct (div_mod_entry dw (n - 1 - t) (dirent dw (n - 1 - t) + (dirent buffer (free + t) + o -
      (dirent buffer free + 32 * t)))) as [-> ->]; [unfold dirent; lia|]. f_equal. unfold dirent. lia.
  - rewrite Hreal by (unfold d_flags; lia). done.
  - intros k Hk. rewrite Hreal by lia. by apply Hnm.
  - intros k Hk. rewrite Hreal by (unfold empty_field in Hk; lia). by apply Hze.
  - intros k Hk1 Hk2. rewrite (patched_out _ _ _ _ _ _ H2) by lia. by apply Hfr1.
Qed.

(** ** Properties *)

(** C16: a long name survives the directory.  A name of up to 63 entries that
    [fat32_create] lays out is read back by [fat32_build_filename_long]
    unchanged, into a buffer that was cleared, and the index it returns is that
    of the file's own entry, which carries the flags and the short name; this
    for a file that is none of read-only, hidden, system or a volume label. *)
Theorem lfn_roundtrip m f short dw buffer free fn n s ck flags :
  name_layout m f short dw buffer free fn n s →
  m !0 (fn + Z.of_nat (length s)) = 0 → Z.land flags 0xf = 0 →
  ∃ m', (create_entries dw n ck f short flags buffer free;; fat32_build_filename_long free fn buffer) m
      = Ok (free + n, m') ∧
    cstr m' fn s ∧
    m' !0 (dirent buffer (free + n) + d_flags) = Z.land flags 0x2f ∧
    ∀ k, 0 <= k < 11 → m' !0 (dirent buffer (free + n) + k) = m !0 (short + k).
Proof.
  intros Hnl Hz Hfl. pose proof Hnl as [Hs Ha HL Hn _ [Hb0 Hf0] _ _ _ Hdf Hbf].
  assert (wp (create_entries dw n ck f short flags buffer free;; fat32_build_filename_long free fn buffer)
    (λ r m', r = free + n ∧ cstr m' fn s ∧ m' !0 (dirent buffer (free + n) + d_flags) = Z.land flags 0x2f ∧
       ∀ k, 0 <= k < 11 → m' !0 (dirent buffer (free + n) + k) = m !0 (short + k)) m) as Hwp.
  2: { apply wp_ok in Hwp as (r & m' & Hrun & -> & Hpost). exists m'. exact (conj Hrun Hpost). }
  wp. apply (create_entries_wp m f short dw buffer free fn n s); [done|]. intros m1 _ Hh Hf1 Hn1 _ Hfr1.
  unfold apart in *. apply (build_long_wp _ _ _ n ck s); [done..|unfold apart; lia| |].
  - rewrite Hf1, <- Z.land_assoc. change (Z.land 47 FAT32_LONG_FILE_NAME) with 15. done.
  - intros m2 H2. split_and!; [done| | |].
    + split; [| |eapply Forall_impl; [exact Ha|]; simpl; lia|lia].
      * intros i x Hx. pose proof (lookup_lt_Some _ _ _ Hx). rewrite (patched_in _ _ _ _ _ _ H2) by lia.
        apply nth_lookup_Some. rewrite <- Hx. f_equal. lia.
      * rewrite (patched_out _ _ _ _ _ _ H2) by lia. rewrite Hfr1 by lia. done.
    + rewrite (patched_out _ _ _ _ _ _ H2) by (unfold dirent, d_flags in *; lia). done.
    + intros k Hk. rewrite (patched_out _ _ _ _ _ _ H2) by (unfold dirent in *; lia). by apply Hn1.
Qed.

(** Whatever an entry holds, reading it ends and writes nothing below the buffer. *)
Lemma read_part_any chars n fn start i m (P : memory → Prop) (Q : Z → memory → Prop) :
  0 <= n → P m → (∀ m' p x, fn <= p → P m' → P (<[p := x]> m')) →
  (∀ i m', P m' → Q i m') → wp (read_lfn_part chars n fn start i) Q m.
Proof.
  intros Hn HP Hst HQ. unfold read_lfn_part. wp. apply (wp_fora (λ _ _, P)); [done|done| |].
  - intros j i' m' Hj HP'. unfold ld16. wp. case_match; wp; [by apply HQ|]. apply Hst; [|done].
    pose proof (is_u32_u32 (i' + start)) as [? _]. lia.
  - intros i' m' HP'. wp. by apply HQ.
Qed.

(** Files that are read-only, hidden or system files are found at the wrong
    entry.  [fat32_build_filename_long] goes on while [flags & 0xf] is not zero,
    which the file's own entry then satisfies: it is taken for one more part of
    the name, and the index returned is that of the entry behind it. *)
Theorem lfn_attribute_skips_dirent m f short dw buffer free fn n s ck flags :
  name_layout m f short dw buffer free fn n s →
  Z.land flags 0xf ≠ 0 → m !0 short ≠ 0 →
  dirent buffer (free + n + 1) < fn → apart dw (32 * (n + 1)) (dirent buffer (free + n + 1)) 1 →
  m !0 (dirent buffer (free + n + 1)) = 0 →
  ∃ m', (create_entries dw n ck f short flags buffer free;; fat32_build_filename_long free fn buffer) m
      = Ok (free + n + 1, m').
Proof.
  intros Hnl Hfl Hsh Hbelow Hap Hnext. pose proof Hnl as [Hs Ha HL Hn _ [Hb0 Hf0] _ _ _ Hdf Hbf].
  assert (wp (create_entries dw n ck f short flags buffer free;; fat32_build_filename_long free fn buffer)
    (λ r m', r = free + n + 1) m) as Hwp.
  2: { apply wp_ok in Hwp as (r & m' & Hrun & ->). by exists m'. }
  wp. apply (create_entries_wp m f short dw buffer free fn n s); [done|]. intros m1 _ Hh Hf1 Hn1 _ Hfr1.
  unfold apart in *. set (L := Z.of_nat (length s)) in *.
  assert (m1 !0 (dirent buffer (free + n + 1)) = 0) as Hnext1 by (rewrite Hfr1; unfold dirent in *; (done || lia)).
  pose proof (Hn1 0 ltac:(lia)) as Hc1. rewrite !Z.add_0_r in Hc1.
  unfold fat32_build_filename_long. wp. rewrite (proj2 (Z.eqb_neq buffer 0)), (proj2 (Z.eqb_neq fn 0)) by done.
  pose proof (Hh 0 d_flags ltac:(lia) ltac:(unfold d_flags; lia)) as H0. rewrite Z.add_0_r in H0. rewrite H0.
  change (entry_byte s n ck (n - 1 - 0) d_flags) with 0xf. cbn [orb negb Z.eqb Pos.eqb FAT32_LONG_FILE_NAME].
  apply (wp_loop (λ index m', build_inv m1 buffer fn free n ck s index m' ∨
      index = free + n + 1 ∧ m' !0 (dirent buffer (free + n + 1)) = 0) (λ index _, free + n + 1 - index)).
  - left. split; [lia|]. fold L. intros k. by rewrite decide_False by lia.
  - unfold fuel32. lia.
  - intros index m' [[? _]|[-> _]]; lia.
  - intros index m' [Hinv|[-> Hz]].
    + destruct (decide (index < free + n)) as [Hlt|Hge].
      { apply (build_step buffer fn free n ck s index m1 m'); [done..|unfold apart; fold L; lia|done|done|].
        intros m2 H2. split; [by left|lia]. }
      destruct Hinv as [Hix Hm']. assert (index = free + n) as -> by lia. cbn zeta. wp. fold L in Hm'.
      assert (∀ k, k < fn → m' !0 k = m1 !0 k) as Hlow by (intros; apply (patched_out _ _ _ _ _ _ Hm'); lia).
      rewrite !Hlow, Hf1, Hc1 by (unfold dirent, d_flags in *; lia).
      rewrite <- Z.land_assoc. change (Z.land 47 FAT32_LONG_FILE_NAME) with 15.
      rewrite (proj2 (Z.eqb_neq _ _) Hfl), (proj2 (Z.eqb_neq _ _) Hsh). cbn [negb andb]. wp.
      set (P := λ m2 : memory, m2 !0 (dirent buffer (free + n + 1)) = 0).
      assert (P m') as HP by (unfold P; rewrite Hlow; done).
      assert (∀ m2 p x, fn <= p → P m2 → P (<[p := x]> m2)) as Hst
        by (intros m2 p x Hp HP2; unfold P; rewrite zget_insert_ne by lia; done).
      do 3 (apply (read_part_any _ _ _ _ _ _ P); [lia|done|done|]; clear HP; intros ? ? HP; wp).
      split; [by right|lia].
    + cbn zeta. wp. rewrite Hz, andb_false_r. wp. done.
Qed.

(** Example: a name of 20 characters, two long entries. *)
Definition name_example : list Z := (λ k, 97 + k) <$> seqZ 0 20.
Definition name_memory : memory := store_bytes 1000 (name_example ++ [0]) {[2000 := 65]}.

Lemma name_example_layout : name_layout name_memory 1000 2000 3000 4096 2 8192 2 name_example.
Proof.
  split; [|by_computation|by_computation|by_computation| |by_computation|unfold apart, dirent; simpl length; lia..].
  - apply cstr_store; by_computation.
  - apply store_bytes_ok; [|by_computation]. intros k. unfold zget. rewrite lookup_singleton. case_decide; by_computation.
Defined.

Lemma lfn_roundtrip_witness :
  ∃ m', (create_entries 3000 2 7 1000 2000 0x20 4096 2;; fat32_build_filename_long 2 8192 4096) name_memory
      = Ok (4, m') ∧ cstr m' 8192 name_example.
Proof.
  destruct (lfn_roundtrip _ _ _ _ _ _ _ _ _ 7 0x20 name_example_layout) as (m' & Hrun & Hs & _);
    [vm_compute; reflexivity..|]. exists m'. exact (conj Hrun Hs).
Defined.

Lemma lfn_attribute_skips_dirent_witness :
  ∃ m', (create_entries 3000 2 7 1000 2000 1 4096 2;; fat32_build_filename_long 2 8192 4096) name_memory = Ok (5, m').
Proof.
  apply (lfn_attribute_skips_dirent _ _ _ _ _ _ _ _ _ 7 1 name_example_layout); by_computation.
Defined.
