(* ===== verification/FatPath.v ===== *)
(** * FAT32 paths (src/src/kmodules/fs_driver.c: fat32_read_dirent, resolve_path, fat32_open)

    The driver finds a file by reading the directories along its path into memory,
    one after the other, and searching each for the next name.  A volume is a mount
    with byte memory beside it. *)
From S2P Require Import Prelude Device KString Fat32 FatDir FatWrite.

Record volume (D : Type) := Volume { vol_mount : fat_mount D; vol_mem : memory }.
Arguments Volume {D}.
Arguments vol_mount {D}.
Arguments vol_mem {D}.
#[export, refine] Instance volume_mount {D} : Lens (volume D) (fat_mount D) := {|
  view := vol_mount;
  put m v := Volume m (vol_mem v);
|}.
Proof. all: done || by intros []. Defined.
#[export, refine] Instance volume_memory {D} : Lens (volume D) memory := {|
  view := vol_mem;
  put m v := Volume (vol_mount v) m;
|}.
Proof. all: done || by intros []. Defined.

(** A directory entry as a value, as [resolve_path] keeps it. *)
Record fat_dirent := Dirent {
  de_name : list Z;
  de_flags : Z;
  de_cluster_high : Z;
  de_cluster_low : Z;
  de_size : Z;
}.
Definition no_dirent : fat_dirent := Dirent (replicate 11 0) 0 0 0 0.
Definition dirent_at (b : Z → Z) (p : Z) : fat_dirent :=
  Dirent ((λ k, b (p + k)) <$> seqZ 0 11) (b (p + d_flags))
    (le16 (b (p + d_cluster_high)) (b (p + d_cluster_high + 1)))
    (le16 (b (p + d_cluster_low)) (b (p + d_cluster_low + 1)))
    (le32 (b (p + d_size)) (b (p + d_size + 1)) (b (p + d_size + 2)) (b (p + d_size + 3))).
Definition de_first (d : fat_dirent) : Z := nth 0 (de_name d) 0.
Definition de_cluster (d : fat_dirent) : Z := Z.lor (u32 (Z.shiftl (de_cluster_high d) 16)) (de_cluster_low d).

Definition MAX_TOKENS : Z := PAGE_SIZE_BYTES / 4.

Section path.
Context {D : Type} `{BlockDev D}.
Notation mount := (fat_mount D).
Implicit Types m : mount.

(** What a page array holds when it has just been allocated. *)
Variable fresh : list Z.
(** The blocks that [malloc] returns, 0 for none: for the copy of the path, for its
    tokens, for the open file, and for the directory of each component; and
    the local array of [fat32_search_dir]. *)
Variables (b_path b_tokens b_file : Z) (b_dir : Z → Z) (filename : Z).

(** The cluster an entry stands for: no entry stands for the root directory. *)
Definition dir_cluster m (d : fat_dirent) : Z :=
  if negb (de_first d =? 0) then de_cluster d else root_dir_cluster (bpb m).

(** The offset of a cluster, with 32 bits. *)
Definition cluster_offset_start m (cluster : Z) : Z :=
  u32 (u32 (data_start_sector m + u32 (u32 (cluster - 2) * sectors_per_cluster (bpb m))) * bytes_per_sector (bpb m)).

Definition fat32_read_dirent (d : fat_dirent) (buffer : Z) : M (volume D) unit :=
  m ← gets vol_mount;
  loop fuel32 (λ '(cluster, cluster_number),
    if cluster <? FAT32_EOC_MIN then
      modify (λ v, put (fread_into (vol_mem v) (buffer + u32 (cluster_number * cluster_size_bytes (vol_mount v)))
        (cluster_offset_start (vol_mount v) cluster) (cluster_size_bytes (vol_mount v)) (vol_mount v)) v);;
      next ← zoom (fat32_get_next_cluster fresh cluster);
      mret (inl (next, u32 (cluster_number + 1)))
    else mret (inr tt)) (dir_cluster m d, 0).

(** The loop that cuts the copy of the path at its slashes. *)
Definition add_token (tokens : list Z) (pathtok : Z) : list Z :=
  if Z.of_nat (length tokens) <? MAX_TOKENS then tokens ++ [pathtok] else tokens.
Definition cut_path (pathname : Z) : M memory (list Z) :=
  loop fuel32 (λ '(i, pathtok, tokens),
    c ← ld i;
    if c =? 0 then mret (inr (add_token tokens pathtok))
    else if c =? 47 then st i 0;; mret (inl (i + 1, i + 1, add_token tokens pathtok))
    else mret (inl (i + 1, pathtok, tokens))) (pathname, pathname, []).

(** One component: the directory is read and searched; the new state is the old
    parent, the entry found and its index. *)
Definition resolve_step (i token : Z) (parent_dir : fat_dirent) : M (volume D) (option (fat_dirent * Z)) :=
  let dir_data := b_dir i in
  fat32_read_dirent parent_dir dir_data;;
  found ← zoom (fat32_search_dir token dir_data filename);
  match found with
  | None => mret None
  | Some ix => v ← gets id; mret (Some (dirent_at (zget (vol_mem v)) (dirent dir_data ix), ix))
  end.

Definition resolve_path (path : Z) : M (volume D) (option fat_open_file) :=
  c ← zoom (ld path);
  if (path =? 0) || (c =? 0) then mret None
  else if b_path =? 0 then mret None
  else
    zoom (strcpy path b_path);;
    c ← zoom (ld b_path);
    let pathname := if c =? 47 then b_path + 1 else b_path in
    if b_tokens =? 0 then mret None
    else
      path_tokens ← zoom (cut_path pathname);
      r ← fora_loop 0 (Z.of_nat (length path_tokens)) (λ i '(last_parent_dir, parent_dir, dirent_index),
            found ← resolve_step i (nth (Z.to_nat i) path_tokens 0) parent_dir;
            mret (match found with
                  | None => inr tt
                  | Some (d, ix) => inl (parent_dir, d, ix)
                  end)) (no_dirent, no_dirent, 0);
      match r with
      | inr _ => mret None
      | inl (last_parent_dir, parent_dir, dirent_index) =>
          if b_file =? 0 then mret None
          else
            path_length ← zoom (strlen path);
            zoom (memcpy path b_file (if path_length >=? 100 then 100 else path_length));;
            m ← gets vol_mount;
            if cluster_size_bytes m =? 0 then fail DivideError
            else
              mret (Some (OpenFile (de_cluster parent_dir) (de_size parent_dir) (de_flags parent_dir)
                (dir_cluster m last_parent_dir) dirent_index))
      end.
End path.

(** ** Reading a directory, proved *)

Section read_proof.
Context {D : Type} `{BlockDev D}.
Notation mount := (fat_mount D).
Implicit Types m : mount.
Variable limit : Z.
Variable fresh : list Z.

(** A directory that starts at [c]: its clusters lie below 4 GiB. *)
Record dir_chain m (F : Z → Z) (c : Z) (cs : list Z) : Prop := {
  dc_chain : file_chain limit m F cs;
  dc_first : cs !! 0%nat = Some c;
  dc_low : Forall (λ c, data_base m + (c - 1) * cluster_size_bytes m <= 2 ^ 32) cs;
  dc_size : Z.of_nat (length cs) * cluster_size_bytes m < 2 ^ 31;
}.
Definition dir_bytes m (cs : list Z) (k : Z) : Z := dev_byte (mount_src m) (loc m cs k).
Definition dir_length m (cs : list Z) : Z := Z.of_nat (length cs) * cluster_size_bytes m.

Lemma dir_chain_same m m' F c cs : data_geom limit m → same_mount limit m m' → dir_chain m F c cs → dir_chain m' F c cs.
Proof using Type.
  intros Hg Hs [[Hc Hn Hok] Hf Hl Hz]. destruct (same_csz limit m m' Hs) as [Hcs Hb]. split.
  - split; [done|done|]. eapply Forall_impl; [exact Hok|]. intros x Hx. by eapply cluster_ok_same.
  - done.
  - by rewrite Hcs, Hb.
  - by rewrite Hcs.
Qed.
Lemma dir_bytes_same m m' F c cs k :
  data_geom limit m → same_mount limit m m' → dir_chain m F c cs → 0 <= k < dir_length m cs → dir_bytes m' cs k = dir_bytes m cs k.
Proof using Type.
  intros Hg Hs [Hc _ _ _] Hk. destruct (same_csz limit m m' Hs) as [Hcs Hb]. unfold dir_bytes.
  assert (loc m' cs k = loc m cs k) as -> by (unfold loc; by rewrite Hcs, Hb).
  destruct (loc_cases limit m F cs k Hg Hc) as (i & o & x & _ & _ & _ & _ & Hx & _ & Hin); [done|].
  apply (data_byte_same limit); [done|done|]. by eapply cluster_behind.
Qed.

Lemma u32_mul_l a b : u32 (u32 a * b) = u32 (a * b).
Proof using Type. apply Zmult_mod_idemp_l. Qed.
Lemma u32_add_r a b : u32 (a + u32 b) = u32 (a + b).
Proof using Type. apply Zplus_mod_idemp_r. Qed.

Lemma cluster_offset_eq m c :
  fat_geom limit m → data_geom limit m → cluster_ok limit m c → data_base m + (c - 1) * cluster_size_bytes m <= 2 ^ 32 →
  cluster_offset_start m c = data_base m + (c - 2) * cluster_size_bytes m.
Proof using Type.
  intros [_ ? ? _ _] Hg [? _ _ _] Hlow. pose proof (csz_pos limit m Hg) as Hcp. destruct Hg as [_ Hb]. unfold cluster_offset_start.
  rewrite (u32_mul_l (c - 2)), u32_add_r, u32_mul_l. rewrite u32_id; [unfold data_base, cluster_size_bytes; ring|].
  replace ((data_start_sector m + (c - 2) * sectors_per_cluster (bpb m)) * bytes_per_sector (bpb m))
    with (data_base m + (c - 2) * cluster_size_bytes m) by (unfold data_base, cluster_size_bytes; ring).
  unfold is_u32. nia.
Qed.

(** The loop of [fat32_read_dirent] after [n] clusters. *)
Record dirent_inv m (mem : memory) (F : Z → Z) (cs : list Z) (buffer : Z) (cluster n : Z) (v : volume D) : Prop := {
  di_n : 0 <= n <= Z.of_nat (length cs);
  di_cluster : match cs !! Z.to_nat n with Some c => cluster = c | None => FAT32_EOC_MIN <= cluster end;
  di_repr : fat_repr limit F (vol_mount v);
  di_same : same_mount limit m (vol_mount v);
  di_mem k : vol_mem v !0 k =
    if decide (buffer <= k < buffer + n * cluster_size_bytes m) then dir_bytes m cs (k - buffer) else mem !0 k;
}.

Lemma dirent_step m mem F cs buffer cluster n v c (Q : (Z * Z) + unit → volume D → Prop) :
  data_geom limit m → file_chain limit m F cs → cs !! Z.to_nat n = Some c →
  Forall (λ c, data_base m + (c - 1) * cluster_size_bytes m <= 2 ^ 32) cs →
  Z.of_nat (length cs) * cluster_size_bytes m < 2 ^ 31 →
  dirent_inv m mem F cs buffer cluster n v →
  (∀ next v', dirent_inv m mem F cs buffer next (n + 1) v' → Q (inl (next, u32 (n + 1))) v') →
  wp (modify (λ v, put (fread_into (vol_mem v) (buffer + u32 (n * cluster_size_bytes (vol_mount v)))
        (cluster_offset_start (vol_mount v) cluster) (cluster_size_bytes (vol_mount v)) (vol_mount v)) v);;
      next ← zoom (fat32_get_next_cluster fresh cluster);
      mret (inl (next, u32 (n + 1)))) Q v.
Proof using Type.
  intros Hg Hch Hc Hlow Hsz [Hn Hcl Hr Hs Hmem] HQ. rewrite Hc in Hcl. subst cluster.
  pose proof (fc_cluster _ _ _ _ _ _ Hch Hc) as Hok. pose proof (cluster_ok_same _ _ _ _ Hs Hok) as Hok'.
  destruct (same_csz limit _ _ Hs) as [Hcs Hb]. pose proof (csz_pos limit m Hg) as Hcp. pose proof (lookup_lt_Some _ _ _ Hc) as Hlt.
  pose proof (data_geom_same limit _ _ Hs Hg) as Hg'. rewrite Forall_lookup in Hlow. pose proof (Hlow _ _ Hc) as Hlow'.
  destruct v as [mv memv]. cbn [vol_mount vol_mem] in *.
  assert (0 <= data_base m + (c - 2) * cluster_size_bytes m) as Hpos.
  { rewrite <- Hb. destruct (fr_geom _ _ _ Hr) as [_ ? ? _ _], Hg' as [_ ?], Hok as [? _ _ _]. nia. }
  assert (cluster_offset_start mv c = data_base m + (c - 2) * cluster_size_bytes m) as Hoff
    by (rewrite (cluster_offset_eq mv c (fr_geom _ _ _ Hr) Hg' Hok') by (rewrite Hb, Hcs; lia); by rewrite Hb, Hcs).
  wp. cbn [vol_mount vol_mem put volume_memory volume_mount view]. rewrite Hcs, Hoff.
  apply (get_next_wp fresh limit F); [done|destruct Hok; lia|]. intros m2 Hr2 Hs2 _. wp. apply HQ. cbn [vol_mount vol_mem].
  destruct Hok as [Hci Hce _ Hcd]. split; cbn [vol_mount vol_mem].
  - lia.
  - pose proof (fc_chain _ _ _ _ Hch _ _ Hc) as Hnext. replace (Z.to_nat (n + 1)) with (S (Z.to_nat n)) by lia. by destruct (cs !! S (Z.to_nat n)).
  - done.
  - by eapply same_mount_trans.
  - intros k. rewrite u32_id by (unfold is_u32; nia).
    rewrite fread_into_get; [|apply Hr|done|lia|rewrite (sm_size _ _ _ Hs); lia]. rewrite Hmem.
    destruct (decide (buffer + n * cluster_size_bytes m <= k < buffer + n * cluster_size_bytes m + cluster_size_bytes m)) as [Hk|Hk].
    + rewrite (decide_True (P := buffer <= k < _)) by lia. unfold dir_bytes.
      replace (k - buffer) with (n * cluster_size_bytes m + (k - (buffer + n * cluster_size_bytes m))) by lia.
      rewrite (loc_at limit m cs n c) by (done || lia). apply (data_byte_same limit m); [done|done|]. nia.
    + destruct (decide (buffer <= k < buffer + n * cluster_size_bytes m)).
      * by rewrite decide_True by lia.
      * by rewrite decide_False by lia.
Qed.

Lemma fat32_read_dirent_wp F v d cs buffer (Q : unit → volume D → Prop) :
  let m := vol_mount v in
  fat_repr limit F m → data_geom limit m → dir_chain m F (dir_cluster m d) cs →
  (∀ m' mem', fat_repr limit F m' → same_mount limit m m' →
     patched (vol_mem v) mem' buffer (buffer + dir_length m cs) (λ k, dir_bytes m cs (k - buffer)) → Q tt (Volume m' mem')) →
  wp (fat32_read_dirent fresh d buffer) Q v.
Proof using Type.
  intros m Hr Hg [Hch Hfst Hlow Hsz] HQ. unfold fat32_read_dirent. wp. fold m. pose proof (csz_pos limit m Hg) as Hcp.
  apply (wp_loop (λ '(cluster, n) v', dirent_inv m (vol_mem v) F cs buffer cluster n v') (λ '(_, n) _, Z.of_nat (length cs) - n)).
  - split; [lia|change (Z.to_nat 0) with 0%nat; by rewrite Hfst|done|apply same_mount_refl|]. intros k. by rewrite decide_False by lia.
  - unfold fuel32. nia.
  - intros [cluster n] v' [? _ _ _ _]. lia.
  - intros [cluster n] v' Hinv. pose proof (di_cluster _ _ _ _ _ _ _ _ Hinv) as Hcl. pose proof (di_n _ _ _ _ _ _ _ _ Hinv) as Hn.
    destruct (cs !! Z.to_nat n) as [c|] eqn:Hc.
    + pose proof (lookup_lt_Some _ _ _ Hc). pose proof (co_eoc _ _ _ (fc_cluster _ _ _ _ _ _ Hch Hc)). subst cluster.
      rewrite (proj2 (Z.ltb_lt c FAT32_EOC_MIN)) by done. apply (dirent_step m (vol_mem v) F cs buffer c n v' c); [done..|].
      intros next v2 H2. rewrite u32_id by (unfold is_u32; nia). split; [done|lia].
    + apply lookup_ge_None_1 in Hc. rewrite (proj2 (Z.ltb_ge cluster FAT32_EOC_MIN)) by done. wp.
      destruct v' as [m' mem']. destruct Hinv as [_ _ Hr' Hs' Hm']. cbn [vol_mount vol_mem] in *. apply HQ; [done|done|].
      intros k. rewrite Hm'. unfold dir_length. by replace n with (Z.of_nat (length cs)) by lia.
Qed.
End read_proof.

(** ** Cutting a path into its components *)

Fixpoint path_text (comps : list (list Z)) : list Z :=
  match comps with
  | [] => []
  | [c] => c
  | c :: cs => c ++ 47 :: path_text cs
  end.
Definition comp_ok (c : list Z) : Prop := Forall (λ x, x ≠ 47) c.
(** How far the components reach, each with the character behind it, and where they start. *)
Definition reach (comps : list (list Z)) : Z := foldr (λ c n, Z.of_nat (length c) + 1 + n) 0 comps.
Fixpoint token_ptrs (p : Z) (comps : list (list Z)) : list Z :=
  match comps with [] => [] | c :: cs => p :: token_ptrs (p + Z.of_nat (length c) + 1) cs end.

Lemma path_text_cons c cs : path_text (c :: cs) = c ++ match cs with [] => [] | _ => 47 :: path_text cs end.
Proof. destruct cs; [by rewrite app_nil_r|done]. Qed.
Lemma path_text_app dn c cs : ∃ pre, path_text (dn ++ c :: cs) = pre ++ path_text (c :: cs) ∧ Z.of_nat (length pre) = reach dn.
Proof.
  induction dn as [|d dn (pre & IH & Hl)]; [by exists []|]. exists (d ++ 47 :: pre). split.
  - rewrite <- app_comm_cons, path_text_cons, IH. destruct (dn ++ c :: cs) eqn:He; [by destruct dn|]. by rewrite <- app_assoc.
  - rewrite length_app, length_cons. cbn [reach foldr]. fold (reach dn). lia.
Qed.
Lemma token_ptrs_app p dn cs : token_ptrs p (dn ++ cs) = token_ptrs p dn ++ token_ptrs (p + reach dn) cs.
Proof.
  revert p. induction dn as [|d dn IH]; intros p; cbn [token_ptrs app reach foldr]; [by rewrite Z.add_0_r|].
  fold (reach dn). rewrite IH. do 3 f_equal. lia.
Qed.
Lemma length_token_ptrs p cs : length (token_ptrs p cs) = length cs.
Proof. revert p. induction cs as [|c cs IH]; intros p; [done|]. cbn. by rewrite IH. Qed.
Lemma reach_nonneg dn : 0 <= reach dn.
Proof. induction dn as [|d dn IH]; [done|]. cbn [reach foldr]. fold (reach dn). lia. Qed.
Lemma reach_app dn c : reach (dn ++ [c]) = reach dn + Z.of_nat (length c) + 1.
Proof. induction dn as [|d dn IH]; cbn [reach foldr app] in *; [lia|]. fold (reach dn) (reach (dn ++ [c])). lia. Qed.

(** A component in memory, below [hi]. *)
Definition token_at (m : memory) (hi : Z) (a : Z) (c : list Z) : Prop := cstr m a c ∧ a + Z.of_nat (length c) < hi.

Lemma cut_path_wp p comps m (Q : list Z → memory → Prop) :
  let text := path_text comps in
  cstr m p text → comps ≠ [] → Forall comp_ok comps → (length comps <= 1024)%nat →
  (∀ m', Forall2 (token_at m' (p + Z.of_nat (length text) + 1)) (token_ptrs p comps) comps →
     (∀ k, ¬ (p <= k < p + Z.of_nat (length text)) → m' !0 k = m !0 k) → Q (token_ptrs p comps) m') →
  wp (cut_path p) Q m.
Proof.
  intros text Ht Hne Hok Hlen HQ. unfold cut_path. pose proof (cs_len _ _ _ Ht) as Htl.
  assert (∀ dn c cs, comps = dn ++ c :: cs → ∃ pre, text = pre ++ path_text (c :: cs) ∧ Z.of_nat (length pre) = reach dn) as Hpre
    by (intros dn c cs Hc; subst text; rewrite Hc; apply path_text_app).
  apply (wp_loop (λ '(i, pathtok, tokens) m', ∃ dn c cs n, comps = dn ++ c :: cs ∧ (n <= length c)%nat ∧ pathtok = p + reach dn ∧
    i = pathtok + Z.of_nat n ∧ tokens = token_ptrs p dn ∧ Forall2 (token_at m' pathtok) (token_ptrs p dn) dn ∧
    (∀ k, pathtok <= k → m' !0 k = m !0 k) ∧ ∀ k, k < p → m' !0 k = m !0 k)
    (λ '(i, _, _) _, p + Z.of_nat (length text) - i)).
  - destruct comps as [|c cs]; [done|]. exists [], c, cs, 0%nat. cbn. split_and!; try done; try lia.
  - unfold fuel32. lia.
  - intros [[i pt] tokens] m' (dn & c & cs & n & Hc & Hn & -> & -> & _). destruct (Hpre _ _ _ Hc) as (pre & Hx & Hpl).
    rewrite Hx, length_app, path_text_cons, length_app. lia.
  - intros [[i pt] tokens] m' (dn & c & cs & n & Hc & Hn & -> & -> & -> & Htok & Habove & Hbelow).
    destruct (Hpre _ _ _ Hc) as (pre & Hx & Hpl). rewrite path_text_cons in Hx.
    assert (Z.of_nat (length dn) < 1024) as Hdl by (rewrite Hc, length_app in Hlen; simpl in Hlen; lia).
    pose proof (reach_nonneg dn) as Hrn. wp. rewrite Habove by lia.
    assert (∀ j y, path_text (c :: cs) !! j = Some y → m !0 (p + reach dn + Z.of_nat j) = y) as Hchar.
    { intros j y Hj. rewrite path_text_cons in Hj. rewrite <- (cs_char _ _ _ Ht (length pre + j)%nat y); [f_equal; lia|].
      rewrite Hx, lookup_app_r by lia. by replace (length pre + j - length pre)%nat with j by lia. }
    assert (Forall (λ x, 0 < x < 256) c ∧ Z.of_nat (length c) < 2 ^ 31) as [Hcz Hcl].
    { pose proof (cs_nonzero _ _ _ Ht) as Hnz. rewrite Hx, !Forall_app in Hnz. rewrite Hx, !length_app in Htl. split; [apply Hnz|lia]. }
    assert (∀ j y, c !! j = Some y → m !0 (p + reach dn + Z.of_nat j) = y) as Hcc.
    { intros j y Hj. apply Hchar. rewrite path_text_cons. by apply lookup_app_l_Some. }
    destruct (decide (n < length c)%nat) as [Hlt|Hge].
    + destruct (lookup_lt_is_Some_2 c n Hlt) as [y Hy].
      assert (path_text (c :: cs) !! n = Some y) as Hy' by (rewrite path_text_cons; by apply lookup_app_l_Some).
      rewrite (Hchar n y Hy'). pose proof (cs_nonzero _ _ _ Ht) as Hnz. rewrite Forall_lookup in Hnz.
      assert (text !! (length pre + n)%nat = Some y) as Hty.
      { rewrite Hx, lookup_app_r by lia. replace (length pre + n - length pre)%nat with n by lia. by rewrite <- path_text_cons. }
      pose proof (Hnz _ _ Hty). rewrite (proj2 (Z.eqb_neq y 0)) by lia.
      assert (y ≠ 47) as Hy47. { rewrite Hc, Forall_app, Forall_cons in Hok. destruct Hok as (_ & Hc47 & _). unfold comp_ok in Hc47. rewrite Forall_lookup in Hc47. by eapply Hc47. }
      rewrite (proj2 (Z.eqb_neq y 47)) by done. wp. split; [|lia]. exists dn, c, cs, (S n). split_and!; try done; lia.
    + assert (n = length c) as -> by lia. destruct cs as [|c2 cs].
      * assert (m !0 (p + reach dn + Z.of_nat (length c)) = 0) as Hz.
        { rewrite app_nil_r in Hx. rewrite <- (cs_end _ _ _ Ht). f_equal. rewrite Hx, length_app. lia. }
        rewrite Hz. cbn [Z.eqb]. wp. unfold add_token, MAX_TOKENS, PAGE_SIZE_BYTES. rewrite length_token_ptrs, (proj2 (Z.ltb_lt _ (4096 / 4))) by (change (4096 / 4) with 1024; lia).
        assert (token_ptrs p dn ++ [p + reach dn] = token_ptrs p comps) as -> by (by rewrite Hc, token_ptrs_app).
        rewrite app_nil_r in Hx.
        apply HQ.
        -- rewrite Hc, token_ptrs_app, Hx, length_app. apply Forall2_app.
           ++ eapply Forall2_impl; [exact Htok|]. intros a d [? ?]. split; [done|lia].
           ++ constructor; [|constructor]. split; [|lia]. split; [|by rewrite Habove by lia|done|done].
              intros j y Hj. rewrite Habove by lia. by apply Hcc.
        -- intros k Hk. rewrite Hx, length_app in Hk. destruct (decide (k < p)); [by apply Hbelow|apply Habove]. lia.
      * set (q := p + reach dn + Z.of_nat (length c)) in *.
        assert (m !0 q = 47) as ->.
        { apply Hchar. rewrite path_text_cons. rewrite lookup_app_r, Nat.sub_diag by lia. done. }
        cbn [Z.eqb Pos.eqb]. wp. split; [|lia]. unfold add_token, MAX_TOKENS, PAGE_SIZE_BYTES.
        rewrite length_token_ptrs, (proj2 (Z.ltb_lt _ (4096 / 4))) by (change (4096 / 4) with 1024; lia).
        exists (dn ++ [c]), c2, cs, 0%nat. rewrite reach_app, token_ptrs_app. cbn [token_ptrs]. rewrite <- app_assoc.
        split_and!; [done|lia|lia|lia|done| | |].
        -- apply Forall2_app.
           ++ eapply Forall2_impl; [exact Htok|]. intros a d [Hs Hlt]. split; [|lia].
              apply (cstr_frame m'); [done|]. intros k Hk. rewrite zget_insert_ne; [done|lia].
           ++ constructor; [|constructor]. split; [|lia]. split; [|by rewrite zget_insert_eq|done|done].
              intros j y Hj. pose proof (lookup_lt_Some _ _ _ Hj). rewrite zget_insert_ne, Habove by lia. by apply Hcc.
        -- intros k Hk. rewrite zget_insert_ne by lia. apply Habove. lia.
        -- intros k Hk. rewrite zget_insert_ne by lia. by apply Hbelow.
Qed.

(** ** Directories *)

(** What a directory holds: names over several entries with the file's own entry behind
    them, and entries with a short name only: [base] padded with [pad], and up to three
    characters [ext], with zeros behind them. *)
Inductive item :=
  | Long (ck n : Z) (name : list Z)
  | Short (pad : Z) (base ext : list Z).

Definition item_name (it : item) : list Z :=
  match it with Long _ _ s => s | Short _ base ext => base ++ 46 :: ext end.
(** The file's own entry, counted from the first one of the item. *)
Definition item_entry (it : item) : Z := match it with Long _ n _ => n | Short _ _ _ => 0 end.
Definition short_field (pad : Z) (base ext : list Z) : list Z :=
  base ++ replicate (8 - length base) pad ++ ext ++ replicate (3 - length ext) 0.

Definition char_ok (x : Z) : Prop := 0 < x < 256.
Definition item_ok (it : item) : Prop :=
  match it with
  | Long _ n s => ascii_name s ∧ 13 * (n - 1) < Z.of_nat (length s) <= 13 * n ∧ 0 < n < 64 ∧ Z.of_nat (length s) < 256
  | Short pad base ext =>
      Forall char_ok (base ++ ext) ∧ (0 < length base <= 8)%nat ∧ (length base = 1%nat ∨ last base ≠ Some 32) ∧
      (0 < length ext <= 3)%nat ∧ (pad = 32 ∨ pad = 0)
  end.

(** The bytes of an item from entry [i] on. *)
Definition item_at (b : Z → Z) (i : Z) (it : item) : Prop :=
  match it with
  | Long ck n s =>
      (∀ t o, 0 <= t < n → 0 <= o < 32 → b (32 * (i + t) + o) = entry_byte s n ck (n - 1 - t) o) ∧
      Z.land (b (32 * (i + n) + d_flags)) FAT32_LONG_FILE_NAME = 0
  | Short pad base ext =>
      (∀ k x, short_field pad base ext !! k = Some x → b (32 * i + Z.of_nat k) = x) ∧ b (32 * i + d_flags) ≠ FAT32_LONG_FILE_NAME
  end.
Fixpoint items_at (b : Z → Z) (i : Z) (its : list item) : Prop :=
  match its with
  | [] => b (32 * i) = 0
  | it :: its => item_ok it ∧ item_at b i it ∧ items_at b (i + item_entry it + 1) its
  end.
Definition slots (its : list item) : Z := foldr (λ it n, item_entry it + 1 + n) 0 its.

(** The index of the entry with a name, for items that start at entry [i]. *)
Fixpoint find_item (name : list Z) (i : Z) (its : list item) : option Z :=
  match its with
  | [] => None
  | it :: its => if decide (name = item_name it) then Some (i + item_entry it) else find_item name (i + item_entry it + 1) its
  end.

Lemma item_entry_nonneg it : item_ok it → 0 <= item_entry it.
Proof. destruct it as [ck n s|pad base ext]; cbn; [lia|done]. Qed.

Lemma short_field_lookup pad base ext k :
  (length base <= 8)%nat → (length ext <= 3)%nat →
  short_field pad base ext !! k =
    if decide (k < length base)%nat then base !! k else if decide (k < 8)%nat then Some pad
    else if decide (k < 8 + length ext)%nat then ext !! (k - 8)%nat else if decide (k < 11)%nat then Some 0 else None.
Proof.
  intros Hb He. unfold short_field. repeat case_decide.
  - by apply lookup_app_l.
  - rewrite lookup_app_r, lookup_app_l by (rewrite ?length_replicate; lia). apply lookup_replicate_2. lia.
  - rewrite lookup_app_r, lookup_app_r, lookup_app_l by (rewrite ?length_replicate; lia). f_equal. rewrite length_replicate. lia.
  - rewrite lookup_app_r, lookup_app_r, lookup_app_r by (rewrite ?length_replicate; lia). apply lookup_replicate_2. rewrite length_replicate. lia.
  - apply lookup_ge_None_2. rewrite !length_app, !length_replicate. lia.
Qed.

(** The field of an entry, byte by byte. *)
Lemma short_byte m p pad base ext k :
  item_ok (Short pad base ext) → (∀ k x, short_field pad base ext !! k = Some x → m !0 (p + Z.of_nat k) = x) → 0 <= k < 11 →
  m !0 (p + k) = nth (Z.to_nat k) (short_field pad base ext) 0 ∧ 0 <= nth (Z.to_nat k) (short_field pad base ext) 0 < 256.
Proof.
  intros (Hch & Hb & _ & He & Hpad) Hent Hk. destruct (short_field pad base ext !! Z.to_nat k) as [x|] eqn:Hx.
  - rewrite (nth_lookup_Some _ _ 0 x Hx). split; [rewrite <- (Hent _ _ Hx); f_equal; lia|].
    rewrite Forall_app, !Forall_lookup in Hch. destruct Hch as [Hcb Hce]. rewrite short_field_lookup in Hx by lia. unfold char_ok in *.
    repeat case_decide; [specialize (Hcb _ _ Hx); lia|injection Hx as <-; lia|specialize (Hce _ _ Hx); lia|injection Hx as <-; lia|done].
  - apply lookup_ge_None_1 in Hx. unfold short_field in Hx. rewrite !length_app, !length_replicate in Hx. lia.
Qed.
Lemma short_field_blank pad base ext k :
  (length base <= 8)%nat → (length ext <= 3)%nat → Z.of_nat (length base) <= k < 8 → nth (Z.to_nat k) (short_field pad base ext) 0 = pad.
Proof. intros Hb He Hk. apply nth_lookup_Some. rewrite short_field_lookup by lia. by rewrite decide_False, decide_True by lia. Qed.
Lemma short_field_base pad base ext k :
  (length base <= 8)%nat → (length ext <= 3)%nat → 0 <= k < Z.of_nat (length base) →
  nth (Z.to_nat k) (short_field pad base ext) 0 = nth (Z.to_nat k) base 0.
Proof. intros Hb He Hk. rewrite !nth_lookup. rewrite short_field_lookup, decide_True by lia. done. Qed.
Lemma short_field_ext pad base ext k :
  (length base <= 8)%nat → (length ext <= 3)%nat → 8 <= k < 11 →
  nth (Z.to_nat k) (short_field pad base ext) 0 = nth (Z.to_nat (k - 8)) ext 0.
Proof.
  intros Hb He Hk. rewrite !nth_lookup. rewrite short_field_lookup, !(decide_False (P := (Z.to_nat k < _)%nat)) by lia.
  replace (Z.to_nat k - 8)%nat with (Z.to_nat (k - 8)) by lia. case_decide; [done|]. rewrite decide_True by lia.
  by rewrite lookup_ge_None_2 by lia.
Qed.

Lemma char_nth l k : Forall char_ok l → (k < length l)%nat → 0 < nth k l 0 < 256.
Proof.
  intros Hl Hk. destruct (lookup_lt_is_Some_2 l k Hk) as [x Hx]. rewrite (nth_lookup_Some _ _ 0 x Hx).
  rewrite Forall_lookup in Hl. exact (Hl _ _ Hx).
Qed.

(** The loop that cuts the spaces off: the name up to [j] is left. *)
Definition trimmed (m m' : memory) (fn : Z) (field : list Z) (j : Z) : Prop :=
  ∀ k, m' !0 k = if decide (fn <= k < fn + 8) then (if decide (k - fn <= j) then nth (Z.to_nat (k - fn)) field 0 else 0) else m !0 k.

Section copy_short.
Variables (m : memory) (fn p pad : Z) (base ext : list Z).
Context (Hitem : item_ok (Short pad base ext)) (Hent : ∀ k x, short_field pad base ext !! k = Some x → m !0 (p + Z.of_nat k) = x).
Context (Hzero : ∀ k, 0 <= k < 256 → m !0 (fn + k) = 0) (Hap : apart p 32 fn 256).

Lemma copy_field_wp (Q : unit → memory → Prop) :
  (∀ m', trimmed m m' fn (short_field pad base ext) 8 → Q tt m') → wp (for_all 0 8 (λ j, c ← ld (p + j); st (fn + j) c)) Q m.
Proof using Hitem Hent Hap.
  intros HQ. unfold apart in Hap.
  apply (wp_for_all (λ i m', ∀ k, m' !0 k = if decide (fn <= k < fn + i) then nth (Z.to_nat (k - fn)) (short_field pad base ext) 0 else m !0 k)); [done| | |].
  - intros k. by rewrite decide_False by lia.
  - intros i m' Hi Hm'. wp. intros k. rewrite zget_insert, Hm', (decide_False (P := fn <= p + i < _)) by lia.
    destruct (short_byte m p pad base ext i Hitem Hent ltac:(lia)) as [-> Hr]. rewrite u8_id by (unfold is_u8; lia).
    destruct (decide (fn + i = k)) as [<-|]; [rewrite decide_True by lia; do 2 f_equal; lia|]. rewrite Hm'. repeat case_decide; done || lia.
  - intros m' Hm'. apply HQ. intros k. rewrite Hm'. repeat case_decide; done || lia.
Qed.

Lemma trim_field_wp m1 (Q : Z → memory → Prop) :
  trimmed m m1 fn (short_field pad base ext) 8 →
  (∀ m', trimmed m m' fn (short_field pad base ext) (Z.of_nat (length base) - 1) → Q (Z.of_nat (length base) - 1) m') →
  wp (loop fuel32 (λ j, c ← ld (fn + j);
        if ((c =? 32) || (c =? 0)) && (j >? 0) then st (fn + j) 0;; mret (inl (j - 1)) else mret (inr j)) 8) Q m1.
Proof using Hitem Hent Hzero.
  intros Hm1 HQ. pose proof Hitem as (_ & Hb & Hlast & He & Hpad). set (L := Z.of_nat (length base)) in *. set (field := short_field pad base ext) in *.
  apply (wp_loop (λ j m', L - 1 <= j <= 8 ∧ trimmed m m' fn field j) (λ j _, j)); [split; [lia|done]|unfold fuel32; lia|intros j m' [? _]; lia|].
  intros j m' [Hj Hm']. wp. rewrite Hm'. replace (fn + j - fn) with j by lia. rewrite (decide_True (P := j <= j)) by lia.
  destruct (decide (L <= j)) as [HLj|HLj].
  - assert (((if decide (fn <= fn + j < fn + 8) then nth (Z.to_nat j) field 0 else m !0 (fn + j)) =? 32)
      || ((if decide (fn <= fn + j < fn + 8) then nth (Z.to_nat j) field 0 else m !0 (fn + j)) =? 0) = true) as ->.
    { case_decide; [subst field; rewrite short_field_blank by lia; by destruct Hpad as [->| ->]|]. rewrite Hzero by lia. by rewrite orb_true_r. }
    rewrite Z.gtb_ltb, (proj2 (Z.ltb_lt 0 j)) by lia. cbn [andb]. wp. split; [|lia]. split; [lia|]. intros k.
    rewrite zget_insert, Hm'. change (u8 0) with 0. repeat case_decide; try done; try lia.
    replace k with (fn + (k - fn)) by lia. symmetry. apply Hzero. lia.
  - assert (j = L - 1) as -> by lia. rewrite decide_True by lia.
    pose proof (char_nth base (Z.to_nat (L - 1)) ltac:(by destruct Hitem as [[? _]%Forall_app _]) ltac:(lia)) as Hr.
    rewrite <- (short_field_base pad base ext) in Hr by lia. fold field in Hr.
    assert (((nth (Z.to_nat (L - 1)) field 0 =? 32) || (nth (Z.to_nat (L - 1)) field 0 =? 0)) && (L - 1 >? 0) = false) as ->; [|wp; by apply HQ].
    destruct Hlast as [H1|H32]; [unfold L; rewrite H1; apply andb_false_r|]. rewrite (proj2 (Z.eqb_neq _ 0)) by (subst field; lia).
    rewrite (proj2 (Z.eqb_neq _ 32)); [done|]. intros H. apply H32. subst field. rewrite short_field_base, nth_lookup in H by lia.
    rewrite last_lookup. replace (pred (length base)) with (Z.to_nat (L - 1)) by lia.
    destruct (lookup_lt_is_Some_2 base (Z.to_nat (L - 1))) as [y Hy]; [lia|]. rewrite Hy in H |- *. cbn in H. congruence.
Qed.

Lemma copy_ext_wp m1 j (Q : unit → memory → Prop) :
  let q := fn + j + 1 in
  (∀ k, 8 <= k < 11 → m1 !0 (p + k) = m !0 (p + k)) → 0 <= j → j + 4 <= 256 →
  (∀ m', (∀ k, m' !0 k = if decide (q <= k < q + 3) then nth (Z.to_nat (k - q)) ext 0 else m1 !0 k) → Q tt m') →
  wp (for_all 8 11 (λ i, c ← ld (p + i); st (fn + (j + i - 7)) c)) Q m1.
Proof using Hitem Hent Hap.
  intros q Hm1 Hlo Hhi HQ. pose proof Hitem as (_ & Hb & _ & He & _). unfold apart in Hap.
  apply (wp_for_all (λ i m2, ∀ k, m2 !0 k = if decide (q <= k < q + (i - 8)) then nth (Z.to_nat (k - q)) ext 0 else m1 !0 k)); [done| | |].
  - intros k. by rewrite decide_False by lia.
  - intros i m2 Hi Hm2. wp. intros k. rewrite zget_insert, (Hm2 (p + i)), (decide_False (P := q <= p + i < _)) by lia. rewrite Hm1 by lia.
    destruct (short_byte m p pad base ext i Hitem Hent ltac:(lia)) as [-> Hr]. rewrite u8_id by (unfold is_u8; lia).
    rewrite short_field_ext by lia. destruct (decide (fn + (j + i - 7) = k)) as [<-|]; [rewrite decide_True by lia; do 2 f_equal; lia|].
    rewrite Hm2. repeat case_decide; done || lia.
  - exact HQ.
Qed.

(** The name, the dot and the extension make a string. *)
Lemma short_string m1 :
  (∀ k, m1 !0 k = let q := fn + Z.of_nat (length base) in
     if decide (fn <= k < q) then nth (Z.to_nat (k - fn)) base 0 else if decide (k = q) then 46
     else if decide (q + 1 <= k < q + 4) then nth (Z.to_nat (k - (q + 1))) ext 0 else m !0 k) →
  cstr m1 fn (base ++ 46 :: ext).
Proof using Hitem Hzero.
  intros Hm1. pose proof Hitem as (Hch & Hb & _ & He & _). cbv zeta in Hm1. rewrite Forall_app in Hch. destruct Hch as [Hcb Hce]. split.
  - intros i x Hx. rewrite Hm1. destruct (decide (i < length base)%nat).
    + rewrite lookup_app_l in Hx by done. rewrite decide_True by lia. apply nth_lookup_Some. rewrite <- Hx. f_equal. lia.
    + rewrite lookup_app_r in Hx by lia. rewrite decide_False by lia. destruct (decide (i = length base)) as [->|].
      * rewrite Nat.sub_diag in Hx. injection Hx as <-. by rewrite decide_True by lia.
      * replace (i - length base)%nat with (S (i - length base - 1)) in Hx by lia. cbn in Hx. pose proof (lookup_lt_Some _ _ _ Hx).
        rewrite decide_False, decide_True by lia. apply nth_lookup_Some. rewrite <- Hx. f_equal. lia.
  - rewrite length_app, length_cons, Hm1, (decide_False (P := fn <= _ < _)), (decide_False (P := _ = _)) by lia. case_decide; [|apply Hzero; lia].
    apply nth_overflow. lia.
  - apply Forall_app. split; [done|]. by constructor.
  - rewrite length_app, length_cons. lia.
Qed.
End copy_short.

Lemma copy_short_wp index fn dir pad base ext m (Q : unit → memory → Prop) :
  item_ok (Short pad base ext) → (∀ k x, short_field pad base ext !! k = Some x → m !0 (dirent dir index + Z.of_nat k) = x) →
  (∀ k, 0 <= k < 256 → m !0 (fn + k) = 0) → apart (dirent dir index) 32 fn 256 →
  (∀ m', cstr m' fn (base ++ 46 :: ext) → (∀ k, ¬ (fn <= k < fn + 256) → m' !0 k = m !0 k) → Q tt m') →
  wp (fat32_copy_short_filename index fn dir) Q m.
Proof.
  intros Hit Hent Hz Hap HQ. pose proof Hit as ([_ Hext]%Forall_app & Hb & _ & He & _). unfold fat32_copy_short_filename. set (p := dirent dir index) in *.
  set (L := Z.of_nat (length base)). rewrite wp_bind. apply (copy_field_wp m fn p pad base ext); [done..|]. intros m1 Hm1.
  rewrite wp_bind. apply (trim_field_wp m fn p pad base ext); [done..|]. fold L. intros m2 Hm2. wp. replace (L - 1 + 1) with L by lia. unfold apart in Hap.
  assert (∀ k, 8 <= k < 11 → m2 !0 (p + k) = m !0 (p + k)) as Hout by (intros k Hk; rewrite Hm2; by rewrite decide_False by lia).
  rewrite Hout by lia. destruct (short_byte m p pad base ext 8 Hit Hent ltac:(lia)) as [-> _].
  rewrite (short_field_ext pad base ext 8) by lia. pose proof (char_nth ext 0 Hext ltac:(lia)) as H8. change (Z.to_nat (8 - 8)) with 0%nat. rewrite (proj2 (Z.eqb_neq _ 0)) by lia. cbn [negb].
  apply (copy_ext_wp m fn p pad base ext); [done..| |lia|lia|].
  { intros k Hk. rewrite zget_insert_ne by lia. by apply Hout. }
  intros m3 Hm3. apply HQ.
  - apply (short_string m fn pad base ext); [done..|]. intros k. cbv zeta. fold L. rewrite Hm3, zget_insert, Hm2. change (u8 46) with 46.
    repeat case_decide; try done; try lia; subst; try (by rewrite short_field_base by lia); f_equal; try lia.
    symmetry. replace k with (fn + (k - fn)) by lia. apply Hz. lia.
  - intros k Hk. rewrite Hm3, decide_False, zget_insert_ne, Hm2, decide_False by lia. done.
Qed.

(** *** Searching *)

(** The memory outside of the name buffer. *)
Definition same_but (m m' : memory) (fn : Z) : Prop := ∀ k, ¬ (fn <= k < fn + 256) → m' !0 k = m !0 k.

(** Reading the name of one item into the cleared buffer. *)
Lemma item_name_wp dir fn i it m (Q : Z → memory → Prop) :
  item_ok it → item_at (λ k, m !0 (dir + k)) i it → dir ≠ 0 → fn ≠ 0 →
  (∀ k, 0 <= k < 256 → m !0 (fn + k) = 0) → apart (dirent dir i) (32 * (item_entry it + 1)) fn 256 →
  (∀ m', cstr m' fn (item_name it) → same_but m m' fn → Q (i + item_entry it) m') →
  wp (fl ← ld (dirent dir i + d_flags);
      if fl =? FAT32_LONG_FILE_NAME then fat32_build_filename_long i fn dir
      else fat32_copy_short_filename i fn dir;; mret i) Q m.
Proof.
  intros Hok Hat Hd Hf Hz Hap HQ. wp. destruct it as [ck n s|pad base ext]; cbn [item_name item_entry item_at] in *.
  - destruct Hok as (Ha & HL & Hn & Hl), Hat as [Hb Hstop]. unfold apart in Hap.
    assert (holds_name m dir i n ck s) as Hh.
    { intros t o Ht Ho. rewrite <- Hb by done. f_equal. unfold dirent. lia. }
    assert (m !0 (dirent dir i + d_flags) = 15) as ->.
    { pose proof (Hh 0 d_flags ltac:(lia) ltac:(unfold d_flags; lia)) as H0. rewrite Z.add_0_r in H0. by rewrite H0. }
    cbn [Z.eqb Pos.eqb FAT32_LONG_FILE_NAME]. apply (build_long_wp _ _ _ n ck s); [done..|unfold apart; lia| |].
    + rewrite <- Hstop. f_equal. f_equal. unfold dirent. lia.
    + intros m' Hm'. apply HQ.
      * split; [| |eapply Forall_impl; [exact Ha|]; simpl; lia|lia].
        -- intros j x Hj. pose proof (lookup_lt_Some _ _ _ Hj). rewrite (patched_in _ _ _ _ _ _ Hm') by lia.
           apply nth_lookup_Some. rewrite <- Hj. f_equal. lia.
        -- rewrite (patched_out _ _ _ _ _ _ Hm') by lia. apply Hz. lia.
      * intros k Hk. apply (patched_out _ _ _ _ _ _ Hm'). lia.
  - destruct Hat as [Hb Hfl]. rewrite Z.add_0_r in HQ.
    assert (m !0 (dirent dir i + d_flags) ≠ FAT32_LONG_FILE_NAME) as Hne
      by (intros He; apply Hfl; rewrite <- He; f_equal; unfold dirent; lia).
    rewrite (proj2 (Z.eqb_neq _ _) Hne). wp. apply (copy_short_wp i fn dir pad base ext); [done| |done|done|].
    + intros k x Hk. rewrite <- (Hb k x Hk). f_equal. unfold dirent. lia.
    + intros m' Hs Hfr. wp. by apply HQ.
Qed.

Lemma item_ext b b' i it :
  (∀ k, 32 * i <= k < 32 * (i + item_entry it + 1) → b' k = b k) → item_ok it → item_at b i it → item_at b' i it.
Proof.
  intros Hb Hit Hat. destruct it as [ck n s|pad base ext]; cbn [item_at item_entry] in *; destruct Hat as [H1 H2].
  - destruct Hit as (_ & _ & Hn & _). split.
    + intros t o Ht Ho. rewrite Hb by lia. by apply H1.
    + rewrite Hb by (unfold d_flags; lia). done.
  - destruct Hit as (_ & ? & _ & He). split.
    + intros k x Hk. rewrite Hb; [by apply H1|]. pose proof (lookup_lt_Some _ _ _ Hk) as Hlt. unfold short_field in Hlt.
      rewrite !length_app, !length_replicate in Hlt. lia.
    + rewrite Hb by (unfold d_flags; lia). done.
Qed.

Lemma items_ok b i its : items_at b i its → Forall item_ok its.
Proof. revert i. induction its as [|it its IH]; intros i; [constructor|]. intros (? & _ & ?). constructor; [done|by eapply IH]. Qed.
Lemma slots_nonneg its : Forall item_ok its → 0 <= slots its.
Proof. induction 1 as [|x its Hx _ IH]; [done|]. cbn [slots foldr]. pose proof (item_entry_nonneg _ Hx). fold (slots its). lia. Qed.

Lemma items_ext b b' i its :
  (∀ k, 32 * i <= k < 32 * (i + slots its + 1) → b' k = b k) → items_at b i its → items_at b' i its.
Proof.
  intros Hb Hat. revert i Hb Hat. induction its as [|it its IH]; intros i Hb Hat; cbn [items_at slots foldr] in *.
  - rewrite <- Hat. apply Hb. lia.
  - fold (slots its) in *. destruct Hat as (Hit & Hat & Hr). pose proof (item_entry_nonneg _ Hit).
    pose proof (slots_nonneg its (items_ok _ _ _ Hr)). split; [done|]. split.
    + apply (item_ext b); [intros k Hk; apply Hb; lia|done|done].
    + apply IH; [intros k Hk; apply Hb; lia|done].
Qed.

(** Every entry in use has a first byte. *)
Lemma item_first b i it : item_ok it → item_at b i it → b (32 * i) ≠ 0.
Proof.
  intros Hok Hat. destruct it as [ck n s|pad base ext]; cbn [item_at] in Hat.
  - destruct Hok as (_ & HL & Hn & _), Hat as [Hb _]. pose proof (Hb 0 0 ltac:(lia) ltac:(lia)) as H0. rewrite !Z.add_0_r in H0.
    rewrite H0. destruct (entry_no_eq s n ck (n - 1 - 0)) as [Hno _]; [lia|lia|lia].
  - destruct Hok as (Hch & Hl & _), Hat as [Hb _]. destruct base as [|x base]; [simpl in Hl; lia|].
    pose proof (Hb 0%nat x eq_refl) as H0. change (Z.of_nat 0) with 0 in H0. rewrite Z.add_0_r in H0. rewrite H0. inversion Hch as [|? ? Hx]. unfold char_ok in Hx. lia.
Qed.

Lemma search_names_wp path name dir fn its m (Q : option Z → memory → Prop) :
  items_at (λ k, m !0 (dir + k)) 0 its → slots its < DIR_ENT_MAX → cstr m path name →
  dir ≠ 0 → fn ≠ 0 → apart dir (32 * (slots its + 1)) fn 256 → apart path (Z.of_nat (length name) + 1) fn 256 →
  (∀ m', same_but m m' fn → Q (find_item name 0 its) m') →
  wp (fat32_search_dir path dir fn) Q m.
Proof.
  intros Hits Hmax Hpath Hd Hf Hap Hpf HQ. unfold fat32_search_dir, apart in *.
  apply (wp_loop (λ i m', ∃ rest, 0 <= i ∧ i + slots rest = slots its ∧ items_at (λ k, m !0 (dir + k)) i rest ∧
    find_item name i rest = find_item name 0 its ∧ same_but m m' fn) (λ i _, slots its + 1 - i)).
  - exists its. split_and!; try done; lia.
  - unfold fuel32, DIR_ENT_MAX in *. lia.
  - intros i m' (rest & _ & Hs & Hat & _). pose proof (slots_nonneg rest (items_ok _ _ _ Hat)). lia.
  - intros i m' (rest & Hi & Hs & Hat & Hfind & Hsame). pose proof (slots_nonneg rest (items_ok _ _ _ Hat)) as Hsl.
    wp. rewrite Hsame by (unfold dirent; lia).
    destruct rest as [|it rest]; cbn [items_at find_item slots foldr] in *.
    + unfold dirent. rewrite Hat. cbn [Z.eqb negb andb]. wp. rewrite Hfind. by apply HQ.
    + fold (slots rest) in *. destruct Hat as (Hok & Hat & Hrest). pose proof (slots_nonneg rest (items_ok _ _ _ Hrest)) as Hsl2.
      pose proof (item_entry_nonneg _ Hok) as He. pose proof (item_first _ _ _ Hok Hat) as Hfirst. cbn beta in Hfirst.
      unfold dirent at 1. rewrite (proj2 (Z.eqb_neq _ 0) Hfirst), (proj2 (Z.ltb_lt i DIR_ENT_MAX)) by lia. cbn [negb andb]. wp.
      apply memset_wp; [lia|]. intros m1 Hm1. change (u8 0) with 0 in Hm1.
      assert (same_but m m1 fn) as Hs1 by (intros k Hk; rewrite (patched_out _ _ _ _ _ k Hm1 Hk); by apply Hsame).
      assert (item_at (λ k, m1 !0 (dir + k)) i it) as Hat1
        by (apply (item_ext (λ k, m !0 (dir + k))); [intros k Hk; apply Hs1; lia|done|done]).
      pose proof (item_name_wp dir fn i it m1 (λ i' m2, wp (r ← strcmp path fn; if r =? 0 then mret (inr (Some i')) else mret (inl (i' + 1)))
        (λ r m3, match r with inl a => (∃ rest, 0 <= a ∧ a + slots rest = slots its ∧ items_at (λ k, m !0 (dir + k)) a rest ∧
          find_item name a rest = find_item name 0 its ∧ same_but m m3 fn) ∧ slots its + 1 - a < slots its + 1 - i
          | inr o => Q o m3 end) m2)) as Hstep.
      autorewrite with wp in Hstep |- *. apply Hstep; clear Hstep; [done|done|done|done| | |].
      * intros k Hk. apply (patched_in _ _ _ _ _ _ Hm1). lia.
      * unfold apart, dirent. lia.
      * intros m2 Hs2 Hsame2. wp. assert (same_but m m2 fn) as Hs3 by (intros k Hk; by rewrite Hsame2, Hs1).
        apply (strcmp_wp _ _ _ name (item_name it)).
        -- apply (cstr_frame m); [done|]. intros k Hk. apply Hs3. lia.
        -- done.
        -- destruct (decide (name = item_name it)) as [->|Hne]; cbn [Z.eqb]; wp.
           ++ rewrite Hfind. by apply HQ.
           ++ split; [|lia]. exists rest. split_and!; try done; lia.
Qed.

(** ** Resolving a path *)

Lemma find_item_range name i its ix : Forall item_ok its → find_item name i its = Some ix → i <= ix < i + slots its.
Proof.
  intros Hok. revert i. induction Hok as [|it its Hit Hits IH]; intros i Hf; [done|]. cbn [find_item slots foldr] in *.
  fold (slots its). pose proof (item_entry_nonneg _ Hit). pose proof (slots_nonneg its Hits). case_decide; [injection Hf as <-; lia|].
  specialize (IH _ Hf). lia.
Qed.

Lemma dirent_at_ext b b' p p' : (∀ k, 0 <= k < 32 → b (p + k) = b' (p' + k)) → dirent_at b p = dirent_at b' p'.
Proof.
  intros Hb. unfold dirent_at, d_flags, d_cluster_high, d_cluster_low, d_size. rewrite <- !Z.add_assoc, !Hb by lia. f_equal.
  apply list_fmap_ext. intros i k Hk. apply lookup_seqZ in Hk. apply Hb. lia.
Qed.

Section resolve.
Context {D : Type} `{BlockDev D}.
Notation mount := (fat_mount D).
Implicit Types m : mount.
Variable limit : Z.
Variable fresh : list Z.
Variables (b_path b_tokens b_file : Z) (b_dir : Z → Z) (filename : Z).
(** The mount at the start, and its table. *)
Variables (m0 : mount) (F : Z → Z).

(** The directory an entry stands for: its clusters and what it holds.  It fits into
    the eight pages that are allocated for it. *)
Record dir_view (d : fat_dirent) (cs : list Z) (its : list item) : Prop := {
  dv_chain : dir_chain limit m0 F (dir_cluster m0 d) cs;
  dv_items : items_at (dir_bytes m0 cs) 0 its;
  dv_room : 32 * (slots its + 1) <= dir_length m0 cs <= 8 * PAGE_SIZE_BYTES;
}.

(** Where a path leads from a directory: the directory it ends in, the entry and its
    index; nowhere when a component is missing. *)
Inductive walk : fat_dirent → list (list Z) → option (fat_dirent * fat_dirent * Z) → Prop :=
  | walk_missing d c comps cs its : dir_view d cs its → find_item c 0 its = None → walk d (c :: comps) None
  | walk_last d c cs its ix : dir_view d cs its → find_item c 0 its = Some ix →
      walk d [c] (Some (d, dirent_at (dir_bytes m0 cs) (32 * ix), ix))
  | walk_down d c c' comps cs its ix r : dir_view d cs its → find_item c 0 its = Some ix →
      walk (dirent_at (dir_bytes m0 cs) (32 * ix)) (c' :: comps) r → walk d (c :: c' :: comps) r.

(** The blocks of memory do not overlap. *)
Record path_layout : Prop := {
  pl_path : 0 < b_path;
  pl_tokens : b_tokens ≠ 0;
  pl_filename : 0 < filename;
  pl_dir i : 0 < b_dir i;
  pl_path_dir i : apart b_path PAGE_SIZE_BYTES (b_dir i) (8 * PAGE_SIZE_BYTES);
  pl_path_name : apart b_path PAGE_SIZE_BYTES filename 256;
  pl_dir_name i : apart (b_dir i) (8 * PAGE_SIZE_BYTES) filename 256;
}.

Context (Hgeom : data_geom limit m0) (Hlay : path_layout).

(** The bytes outside of the driver's buffers. *)
Definition outside (k : Z) : Prop :=
  ¬ (b_path <= k < b_path + PAGE_SIZE_BYTES) ∧ (∀ i, ¬ (b_dir i <= k < b_dir i + 8 * PAGE_SIZE_BYTES)) ∧
  ¬ (filename <= k < filename + 256) ∧ ¬ (b_file <= k < b_file + 100).
Definition kept (P : Z → Prop) (mem mem' : memory) : Prop := ∀ k, P k → mem' !0 k = mem !0 k.

(** The mount has only moved its window. *)
Definition vol_ok (v : volume D) : Prop := fat_repr limit F (vol_mount v) ∧ same_mount limit m0 (vol_mount v).

Lemma resolve_step_wp i tok name d cs its v (Q : option (fat_dirent * Z) → volume D → Prop) :
  vol_ok v → dir_view d cs its → cstr (vol_mem v) tok name → b_path <= tok → tok + Z.of_nat (length name) < b_path + PAGE_SIZE_BYTES →
  (∀ v', vol_ok v' → kept (λ k, b_path <= k < b_path + PAGE_SIZE_BYTES ∨ outside k) (vol_mem v) (vol_mem v') →
     Q ((λ ix, (dirent_at (dir_bytes m0 cs) (32 * ix), ix)) <$> find_item name 0 its) v') →
  wp (resolve_step fresh b_dir filename i tok d) Q v.
Proof using Hgeom Hlay.
  intros [Hr Hs] [Hc Hit Hroom] Htok Hlo Hhi HQ. unfold resolve_step. wp.
  destruct Hlay as [_ _ Hfn Hdir Hpd Hpn Hdn]. specialize (Hpd i). specialize (Hdn i). specialize (Hdir i). unfold apart, PAGE_SIZE_BYTES in *.
  destruct (same_csz limit _ _ Hs) as [Hcs _].
  assert (dir_cluster (vol_mount v) d = dir_cluster m0 d) as Hdc by (unfold dir_cluster; by rewrite (sm_bpb _ _ _ Hs)).
  assert (dir_length (vol_mount v) cs = dir_length m0 cs) as Hdl by (unfold dir_length; by rewrite Hcs).
  apply (fat32_read_dirent_wp limit fresh F v d cs); [done|by eapply data_geom_same|rewrite Hdc; by apply (dir_chain_same limit m0)|].
  intros m1 mem1 Hr1 Hs1 Hm1. rewrite Hdl in Hm1. set (dir := b_dir i) in *. cbn [view volume_memory vol_mem]. wp.
  assert (∀ k, 0 <= k < dir_length m0 cs → mem1 !0 (dir + k) = dir_bytes m0 cs k) as Hbytes.
  { intros k Hk. rewrite (patched_in _ _ _ _ _ _ Hm1) by lia. replace (dir + k - dir) with k by lia.
    by apply (dir_bytes_same limit m0 _ F (dir_cluster m0 d)). }
  assert (slots its < DIR_ENT_MAX) as Hmax by (unfold DIR_ENT_MAX; lia).
  cbn [view volume_memory vol_mem]. apply (search_names_wp tok name dir filename its).
  - apply (items_ext (dir_bytes m0 cs)); [|done]. intros k Hk. apply Hbytes. lia.
  - done.
  - apply (cstr_frame (vol_mem v)); [done|]. intros k Hk. apply (patched_out _ _ _ _ _ _ Hm1). lia.
  - lia.
  - lia.
  - unfold apart. lia.
  - unfold apart. lia.
  - intros mem2 Hsame. cbn [put volume_memory vol_mount]. assert (vol_ok (Volume m1 mem2)) as Hok by (split; [done|by eapply same_mount_trans]).
    assert (kept (λ k, b_path <= k < b_path + PAGE_SIZE_BYTES ∨ outside k) (vol_mem v) mem2) as Hfr.
    { intros k Hk. assert (¬ (filename <= k < filename + 256) ∧ ¬ (dir <= k < dir + 8 * 4096)) as [? ?]
        by (unfold outside, PAGE_SIZE_BYTES in Hk; destruct Hk as [?|(_ & Ho & ? & _)]; [lia|split; [done|apply Ho]]).
      rewrite Hsame by lia. apply (patched_out _ _ _ _ _ _ Hm1). lia. }
    specialize (HQ (Volume m1 mem2) Hok Hfr). destruct (find_item name 0 its) as [ix|] eqn:Hf; wp; [|done].
    pose proof (find_item_range _ _ _ _ (items_ok _ _ _ Hit) Hf). cbn [vol_mem id].
    assert (dirent_at (zget mem2) (dirent dir ix) = dirent_at (dir_bytes m0 cs) (32 * ix)) as ->; [|done].
    apply dirent_at_ext. intros k Hk. unfold dirent. rewrite Hsame by lia. rewrite <- Z.add_assoc. apply Hbytes. lia.
Qed.

(** What [resolve_path] makes of a walk. *)
Definition opened (r : option (fat_dirent * fat_dirent * Z)) : option fat_open_file :=
  match r with
  | None => None
  | Some (last_dir, d, ix) => Some (OpenFile (de_cluster d) (de_size d) (de_flags d) (dir_cluster m0 last_dir) ix)
  end.

Lemma resolve_loop_wp comps tokens r v (Q : (fat_dirent * fat_dirent * Z) + unit → volume D → Prop) :
  vol_ok v → comps ≠ [] → walk no_dirent comps r →
  Forall2 (token_at (vol_mem v) (b_path + PAGE_SIZE_BYTES)) tokens comps → Forall (λ a, b_path <= a) tokens →
  (∀ v', vol_ok v' → kept outside (vol_mem v) (vol_mem v') → Q (match r with None => inr tt | Some x => inl x end) v') →
  wp (fora_loop 0 (Z.of_nat (length tokens)) (λ i '(last_parent_dir, parent_dir, dirent_index),
        found ← resolve_step fresh b_dir filename i (nth (Z.to_nat i) tokens 0) parent_dir;
        mret (match found with
              | None => inr tt
              | Some (d, ix) => inl (parent_dir, d, ix)
              end)) (no_dirent, no_dirent, 0)) Q v.
Proof using Hgeom Hlay.
  intros Hv Hne Hw Htok Hlo HQ. pose proof (Forall2_length _ _ _ Htok) as Hlen.
  apply (wp_fora (λ i '(last, parent, ix) v', vol_ok v' ∧
    kept (λ k, b_path <= k < b_path + PAGE_SIZE_BYTES ∨ outside k) (vol_mem v) (vol_mem v') ∧
    match drop (Z.to_nat i) comps with [] => r = Some (last, parent, ix) | rest => walk parent rest r end)); [lia| | |].
  - split_and!; [done|done|]. change (drop (Z.to_nat 0) comps) with comps. by destruct comps.
  - intros i [[last parent] ix] v1 Hi (Hv1 & Hmem & Hrest). wp.
    destruct (lookup_lt_is_Some_2 comps (Z.to_nat i)) as [c Hc]; [lia|]. rewrite (drop_S _ c) in Hrest by done.
    destruct (lookup_lt_is_Some_2 tokens (Z.to_nat i)) as [tok Ht]; [lia|]. rewrite (nth_lookup_Some _ _ 0 tok Ht).
    pose proof (Forall2_lookup_lr _ _ _ _ _ _ Htok Ht Hc) as [Hstr Hhi]. rewrite Forall_lookup in Hlo. pose proof (Hlo _ _ Ht).
    assert (cstr (vol_mem v1) tok c) as Hstr1 by (apply (cstr_frame (vol_mem v)); [done|]; intros k Hk; apply Hmem; left; lia).
    assert (∃ cs its, dir_view parent cs its ∧
      match find_item c 0 its with
      | None => r = None
      | Some ix => match drop (S (Z.to_nat i)) comps with
                   | [] => r = Some (parent, dirent_at (dir_bytes m0 cs) (32 * ix), ix)
                   | rest => walk (dirent_at (dir_bytes m0 cs) (32 * ix)) rest r end
      end) as (cs & its & Hdv & Hnext).
    { inversion Hrest; subst; eexists cs, its; (split; [done|]); match goal with Hf : find_item _ _ _ = _ |- _ => rewrite Hf end; done. }
    apply (resolve_step_wp i tok c parent cs its); [done|done|done|done|lia|]. intros v2 Hv2 Hmem2. wp.
    destruct (find_item c 0 its) as [ix'|]; cbn [fmap option_fmap option_map]; [|subst r; apply HQ; [done|]; intros k Hk; rewrite Hmem2, Hmem; auto].
    replace (Z.to_nat (i + 1)) with (S (Z.to_nat i)) by lia. split_and!; [done| |done].
    intros k Hk. by rewrite Hmem2, Hmem.
  - intros [[last parent] ix] v1 (Hv1 & Hmem & Hrest). rewrite Hlen, Nat2Z.id, drop_all in Hrest. subst r.
    apply HQ; [done|]. intros k Hk. apply Hmem. auto.
Qed.
End resolve.

(** ** The open files *)

(** The driver: its volume, and the list of open files: an array of pointers in
    memory, its size in entries, and where the search for a free entry starts. *)
Record driver (D : Type) := Driver {
  dr_vol : volume D;
  open_file_cache : Z;
  open_file_cache_size : Z;
  first_free_open_file_index : Z;
}.
Arguments Driver {D}.
Arguments dr_vol {D}.
Arguments open_file_cache {D}.
Arguments open_file_cache_size {D}.
Arguments first_free_open_file_index {D}.
#[export, refine] Instance driver_volume {D} : Lens (driver D) (volume D) := {|
  view := dr_vol;
  put v s := Driver v (open_file_cache s) (open_file_cache_size s) (first_free_open_file_index s);
|}.
Proof. all: done || by intros []. Defined.

Definition ld32 (p : Z) : M memory Z := b0 ← ld p; b1 ← ld (p + 1); b2 ← ld (p + 2); b3 ← ld (p + 3); mret (le32 b0 b1 b2 b3).
Definition st32 (p x : Z) : M memory unit :=
  st p x;; st (p + 1) (Z.shiftr x 8);; st (p + 2) (Z.shiftr x 16);; st (p + 3) (Z.shiftr x 24).

(** What [fat32_open] returns: a file of the VFS with its open file behind it. *)
Record fat_vfile := FatVfile { fv_flags : Z; fv_offset : Z; fv_size : Z; fv_file : fat_open_file }.

Definition translate_fat32_flags_to_vfile (fat32_flags : Z) : Z := Z.land fat32_flags 0x37.

Section open.
Context {D : Type} `{BlockDev D}.
Notation mount := (fat_mount D).
Implicit Types m : mount.
Variable fresh : list Z.
Variables (b_path b_tokens b_file : Z) (b_dir : Z → Z) (filename : Z).

Definition on_mem {A} (c : M memory A) : M (driver D) A := zoom (zoom (S := volume D) c).

(** The loop that looks for a free entry. *)
Definition cache_scan (file : Z) : M (driver D) (option Z) :=
  s ← gets id;
  for_loop (first_free_open_file_index s) (open_file_cache_size s) (λ i,
    x ← on_mem (ld32 (open_file_cache s + 4 * i));
    if negb (x =? 0) then mret None
    else
      modify (λ s, Driver (dr_vol s) (open_file_cache s) (open_file_cache_size s) i);;
      on_mem (st32 (open_file_cache s + 4 * i) file);;
      mret (Some i)).

(** The list grows when it is full.  The loop meant to clear the new array sets
    the pointer to it to 0, so the old entries are copied to address 0. *)
Definition cache_grow : M (driver D) unit :=
  s ← gets id;
  let used_pages := u32 (open_file_cache_size s + PAGE_SIZE_BYTES - 1) / PAGE_SIZE_BYTES in
  let new_pages := u32 (used_pages + 4) in
  let new_cache := 0 in
  on_mem (memcpy (open_file_cache s) new_cache (u32 (open_file_cache_size s * 4)));;
  modify (λ s, Driver (dr_vol s) new_cache (u32 (new_pages * PAGE_SIZE_BYTES) / 4) (first_free_open_file_index s)).

(** [fuel] is the number of calls: one more for each time the list grows. *)
Fixpoint fat32_cache_open (fuel : nat) (file : Z) : M (driver D) Z :=
  match fuel with
  | O => fail OutOfFuel
  | S fuel =>
      r ← cache_scan file;
      match r with
      | Some i => mret i
      | None => cache_grow;; fat32_cache_open fuel file
      end
  end.

(** Opening the empty path gives the root directory. *)
Definition fat32_open (fuel : nat) (path parent_flags : Z) : M (driver D) (option fat_vfile) :=
  file ← zoom (resolve_path fresh b_path b_tokens b_file b_dir filename path);
  file ← match file with
         | Some f => mret (Some f)
         | None =>
             c ← on_mem (ld path);
             if c =? 0 then
               s ← gets id;
               mret (Some (OpenFile (root_dir_cluster (bpb (vol_mount (dr_vol s)))) 0 parent_flags 0 0))
             else mret None
         end;
  match file with
  | None => mret None
  | Some f =>
      offset ← fat32_cache_open fuel b_file;
      mret (Some (FatVfile (translate_fat32_flags_to_vfile (file_flags f)) offset (size_bytes f) f))
  end.
End open.

(** *** The list of open files, proved *)

Section open_proof.
Context {D : Type} `{BlockDev D}.

Definition word (m : memory) (p : Z) : Z := le32 (m !0 p) (m !0 (p + 1)) (m !0 (p + 2)) (m !0 (p + 3)).

Lemma st32_wp p x m (Q : unit → memory → Prop) :
  is_u32 x → (∀ m', word m' p = x → (∀ k, ¬ (p <= k < p + 4) → m' !0 k = m !0 k) → Q tt m') → wp (st32 p x) Q m.
Proof.
  intros Hx HQ. unfold st32. wp. apply HQ.
  - unfold word. rewrite !zget_insert.
    repeat (case_decide; try lia). by apply (le32_word_byte x).
  - intros k Hk. by rewrite !zget_insert_ne by lia.
Qed.

Lemma ld32_wp p m (Q : Z → memory → Prop) : Q (word m p) m → wp (ld32 p) Q m.
Proof. intros HQ. unfold ld32. wp. done. Qed.

Lemma wp_on_mem {A} (c : M memory A) (Q : A → driver D → Prop) s :
  wp c (λ a m, Q a (put (put m (dr_vol s)) s)) (vol_mem (dr_vol s)) → wp (on_mem c) Q s.
Proof. intros HQ. unfold on_mem. wp. done. Qed.

Lemma put_mem_id (s : driver D) : put (put (vol_mem (dr_vol s)) (dr_vol s)) s = s.
Proof. by destruct s as [[]]. Qed.

(** The entry [i] of the list in memory. *)
Definition cache_entry (s : driver D) (i : Z) : Z := word (vol_mem (dr_vol s)) (open_file_cache s + 4 * i).

(** The list with a file at a free entry, the first one from where the search starts. *)
Record cached (s s' : driver D) (file i : Z) : Prop := {
  ca_mount : vol_mount (dr_vol s') = vol_mount (dr_vol s);
  ca_base : open_file_cache s' = open_file_cache s;
  ca_size : open_file_cache_size s' = open_file_cache_size s;
  ca_next : first_free_open_file_index s' = i;
  ca_index : first_free_open_file_index s <= i < open_file_cache_size s;
  ca_free : cache_entry s i = 0;
  ca_first k : first_free_open_file_index s <= k < i → cache_entry s k ≠ 0;
  ca_entry : cache_entry s' i = file;
  ca_mem k : ¬ (open_file_cache s + 4 * i <= k < open_file_cache s + 4 * i + 4) → vol_mem (dr_vol s') !0 k = vol_mem (dr_vol s) !0 k;
}.

Lemma cache_scan_wp file s (Q : option Z → driver D → Prop) :
  is_u32 file → first_free_open_file_index s <= open_file_cache_size s →
  (∀ i s', cached s s' file i → Q (Some i) s') →
  ((∀ k, first_free_open_file_index s <= k < open_file_cache_size s → cache_entry s k ≠ 0) → Q None s) →
  wp (cache_scan file) Q s.
Proof.
  intros Hf Hle HS HN. unfold cache_scan. wp. cbn [id].
  apply (wp_for (λ i s', s' = s ∧ ∀ k, first_free_open_file_index s <= k < i → cache_entry s k ≠ 0)); [done|split; [done|lia]| |].
  - intros i s' Hi [-> Hnz]. wp. apply wp_on_mem, ld32_wp. rewrite put_mem_id.
    fold (cache_entry s i). destruct (Z.eqb_spec (cache_entry s i) 0) as [Hz|Hz]; cbn [negb].
    + wp. apply wp_on_mem, st32_wp; [done|]. intros m' Hw Hfr. wp. apply HS. split; cbn; try done. 
    + wp. split; [done|]. intros k Hk. destruct (decide (k = i)) as [->|]; [done|]. apply Hnz. lia.
  - intros s' [-> Hnz]. by apply HN.
Qed.

Lemma cache_open_room_wp fuel file s (Q : Z → driver D → Prop) :
  is_u32 file → (∃ i, first_free_open_file_index s <= i < open_file_cache_size s ∧ cache_entry s i = 0) →
  (∀ i s', cached s s' file i → Q i s') → wp (fat32_cache_open (S fuel) file) Q s.
Proof.
  intros Hf (i & Hi & Hz) HQ. cbn [fat32_cache_open]. wp. apply cache_scan_wp; [done|lia| |].
  - intros j s' Hc. wp. by apply HQ.
  - intros Hnz. by destruct (Hnz i).
Qed.
End open_proof.

(** *** Opening, proved *)

Section opening.
Context {D : Type} `{BlockDev D}.
Notation mount := (fat_mount D).
Implicit Types m : mount.
Variable limit : Z.
Variable fresh : list Z.
Variables (b_path b_tokens b_file : Z) (b_dir : Z → Z) (filename : Z).
Variables (m0 : mount) (F : Z → Z).
Context (Hgeom : data_geom limit m0) (Hlay : path_layout b_path b_tokens b_dir filename).

Lemma token_ptrs_ge p comps : Forall (λ a, p <= a) (token_ptrs p comps).
Proof using Type.
  clear. revert p. induction comps as [|c comps IH]; intros p; cbn [token_ptrs]; constructor; [lia|].
  eapply Forall_impl; [apply IH|]. cbn. intros a. lia.
Qed.

(** A path in memory: a slash in front or not, and the components. *)
Record path_at (mem : memory) (path : Z) (slash : bool) (comps : list (list Z)) : Prop := {
  pa_string : cstr mem path ((if slash then [47] else []) ++ path_text comps);
  pa_nonempty : (if slash then [47] else []) ++ path_text comps ≠ [];
  pa_first : head (path_text comps) ≠ Some 47;
  pa_comps : comps ≠ [] ∧ Forall comp_ok comps ∧ (length comps <= 1024)%nat;
  pa_length : Z.of_nat (length (path_text comps)) + 2 < PAGE_SIZE_BYTES;
  pa_address : 0 < path;
  pa_outside k : path <= k <= path + Z.of_nat (length (path_text comps)) + 1 → outside b_path b_file b_dir filename k;
}.

Definition full_path (slash : bool) (comps : list (list Z)) : list Z := (if slash then [47] else []) ++ path_text comps.

Lemma span_apart a n b c : (∀ k, a <= k <= a + n → ¬ (b <= k < b + c)) → 0 <= n → 0 < c → a + n < b ∨ b + c <= a.
Proof using Type. clear. intros Hk Hn Hc. pose proof (Hk a). pose proof (Hk b). lia. Qed.

Lemma cstr_head mem p s : cstr mem p s → s ≠ [] → mem !0 p ≠ 0.
Proof using Type.
  clear. intros Hs Hne. destruct s as [|x s]; [done|]. pose proof (cs_char _ _ _ Hs 0%nat x eq_refl) as Hch. rewrite Z.add_0_r in Hch.
  pose proof (cs_nonzero _ _ _ Hs) as Hnz. apply Forall_cons_1 in Hnz as [? _]. lia.
Qed.

(** The slash in front is skipped. *)
Lemma skip_slash (mem : memory) p (slash : bool) text :
  cstr mem p ((if slash then [47] else []) ++ text) → (if slash then [47] else []) ++ text ≠ [] → head text ≠ Some 47 →
  (if mem !0 p =? 47 then p + 1 else p) = p + (if slash then 1 else 0) ∧ cstr mem (p + (if slash then 1 else 0)) text.
Proof using Type.
  clear. intros Hs Hne Hfst. destruct slash; cbn [app] in *.
  - pose proof (cs_char _ _ _ Hs 0%nat 47 eq_refl) as H47. rewrite Z.add_0_r in H47. rewrite H47. cbn [Z.eqb Pos.eqb]. split; [done|].
    destruct Hs as [Hch Hend Hnz Hl]. split; [|rewrite <- Hend; f_equal; simpl; lia|by apply Forall_cons_1 in Hnz as [_ ?]|simpl in Hl; lia].
    intros i x Hx. rewrite <- (Hch (S i) x Hx). f_equal. lia.
  - rewrite Z.add_0_r. destruct text as [|x t]; [done|]. pose proof (cs_char _ _ _ Hs 0%nat x eq_refl) as Hch. rewrite Z.add_0_r in Hch.
    rewrite Hch, (proj2 (Z.eqb_neq x 47)); [done|]. by intros ->; apply Hfst.
Qed.

(** The name that is kept in the open file: its first 100 characters. *)
Lemma keep_name_wp mem path full (Q : unit → memory → Prop) :
  cstr mem path full → (∀ k, path <= k <= path + Z.of_nat (length full) → ¬ (b_file <= k < b_file + 100)) →
  (∀ mem', kept (λ k, ¬ (b_file <= k < b_file + 100)) mem mem' → Q tt mem') →
  wp (memcpy path b_file (if Z.of_nat (length full) >=? 100 then 100 else Z.of_nat (length full))) Q mem.
Proof using Type.
  clear. intros Hs Hout HQ. apply span_apart in Hout; [|lia..]. set (n := if Z.of_nat (length full) >=? 100 then 100 else Z.of_nat (length full)).
  assert (0 <= n <= Z.of_nat (length full) ∧ n <= 100) as [Hn Hn']
    by (subst n; destruct (Z.geb_spec (Z.of_nat (length full)) 100); lia).
  apply memcpy_wp; [lia|unfold apart; lia| |].
  - intros k Hk. apply (cstr_u8 mem path full); [done|lia].
  - intros mem' Hm'. apply HQ. intros k Hk. apply (patched_out _ _ _ _ _ _ Hm'). lia.
Qed.

Lemma resolve_path_wp path slash comps r v (Q : option fat_open_file → volume D → Prop) :
  vol_ok limit m0 F v → path_at (vol_mem v) path slash comps → walk limit m0 F no_dirent comps r → b_file ≠ 0 →
  (∀ v', vol_ok limit m0 F v' → kept (outside b_path b_file b_dir filename) (vol_mem v) (vol_mem v') → Q (opened m0 r) v') →
  wp (resolve_path fresh b_path b_tokens b_file b_dir filename path) Q v.
Proof using Hgeom Hlay.
  intros Hv [Hs Hne Hfst (Hc0 & Hc1 & Hc2) Hlen Hpa Hout] Hw Hbf HQ. unfold resolve_path. wp.
  destruct Hlay as [Hbp Hbt _ _ _ _ _]. unfold PAGE_SIZE_BYTES in Hlen. pose proof (cstr_head _ _ _ Hs Hne) as Hp0.
  fold (full_path slash comps) in Hs, Hne.
  assert (Z.of_nat (length (full_path slash comps)) = (if slash then 1 else 0) + Z.of_nat (length (path_text comps))) as Hfl
    by (unfold full_path; rewrite length_app; destruct slash; cbn [length]; lia).
  assert (∀ k, path <= k <= path + Z.of_nat (length (full_path slash comps)) → outside b_path b_file b_dir filename k) as Ho
    by (intros k Hk; apply Hout; destruct slash; lia).
  assert (path + Z.of_nat (length (full_path slash comps)) < b_path ∨ b_path + 4096 <= path) as Hap
    by (apply span_apart; [|lia..]; intros k Hk; apply (Ho k Hk)).
  cbn [view volume_memory].
  rewrite (proj2 (Z.eqb_neq path 0)), (proj2 (Z.eqb_neq _ 0) Hp0), (proj2 (Z.eqb_neq b_path 0)) by lia. cbn [orb]. wp.
  cbn [view volume_memory put vol_mem vol_mount].
  apply (strcpy_wp _ path b_path (full_path slash comps)); [done|lia|lia|destruct slash; lia|]. intros mem1 Hs1 Hfr1. wp.
  cbn [view volume_memory put vol_mem vol_mount]. rewrite (proj2 (Z.eqb_neq b_tokens 0) Hbt).
  destruct (skip_slash mem1 b_path slash (path_text comps)) as [-> Hpt]; [done..|]. wp. cbn [view volume_memory put vol_mem vol_mount].
  apply (cut_path_wp _ comps); [done..|]. intros mem2 Htok Hfr2. wp.
  apply (resolve_loop_wp limit fresh b_path b_tokens b_file b_dir filename m0 F Hgeom Hlay comps _ r); [done|done|done| | |].
  - cbn [put volume_memory vol_mem]. eapply Forall2_impl; [exact Htok|]. intros a c [? ?]. split; [done|]. unfold PAGE_SIZE_BYTES. destruct slash; lia.
  - eapply Forall_impl; [apply token_ptrs_ge|]. cbn. intros a Ha. destruct slash; lia.
  - intros v' Hv' Hk'. cbn [put volume_memory vol_mem] in Hk'.
    assert (kept (outside b_path b_file b_dir filename) (vol_mem v) (vol_mem v')) as Hkept.
    { intros k Hk. rewrite Hk' by done. destruct Hk as (Hk & _ & _). unfold PAGE_SIZE_BYTES in Hk.
      rewrite Hfr2 by (destruct slash; lia). apply Hfr1. destruct slash; lia. }
    destruct r as [[[last d] ix]|]; wp; [|by apply HQ]. rewrite (proj2 (Z.eqb_neq b_file 0) Hbf). wp. cbn [view volume_memory].
    assert (cstr (vol_mem v') path (full_path slash comps)) as Hs' by (apply (cstr_frame (vol_mem v)); [done|]; intros k Hk; apply Hkept, Ho, Hk).
    apply (strlen_wp _ _ _ _ Hs'). wp. cbn [view volume_memory put vol_mem vol_mount].
    apply (keep_name_wp _ _ _ _ Hs'); [intros k Hk; apply (Ho k Hk)|]. intros mem3 Hk3. wp. cbn [put volume_memory vol_mount].
    destruct Hv' as [Hr' Hsm]. destruct (same_csz limit _ _ Hsm) as [Hcs _]. pose proof (csz_pos limit m0 Hgeom).
    rewrite (proj2 (Z.eqb_neq (cluster_size_bytes _) 0)) by (rewrite Hcs; lia). wp.
    assert (dir_cluster (vol_mount v') last = dir_cluster m0 last) as -> by (unfold dir_cluster; by rewrite (sm_bpb _ _ _ Hsm)).
    apply (HQ (Volume (vol_mount v') mem3)); [done|]. intros k Hk. cbn [vol_mem]. rewrite Hk3; [by apply Hkept|apply Hk].
Qed.

(** The list of open files lies outside of the buffers, and has a free entry. *)
Record list_ok (s : driver D) : Prop := {
  lo_room : ∃ i, first_free_open_file_index s <= i < open_file_cache_size s ∧ cache_entry s i = 0;
  lo_outside i k : first_free_open_file_index s <= i < open_file_cache_size s →
    open_file_cache s + 4 * i <= k < open_file_cache s + 4 * i + 4 → outside b_path b_file b_dir filename k;
}.
(** The file at the index [i] is the one just opened, and that entry was free. *)
Definition listed (s s' : driver D) (i : Z) : Prop :=
  cache_entry s i = 0 ∧ cache_entry s' i = b_file ∧ first_free_open_file_index s <= i < open_file_cache_size s ∧
  open_file_cache s' = open_file_cache s ∧ open_file_cache_size s' = open_file_cache_size s.

Lemma cache_entry_kept s v i :
  list_ok s → kept (outside b_path b_file b_dir filename) (vol_mem (dr_vol s)) (vol_mem v) →
  first_free_open_file_index s <= i < open_file_cache_size s → cache_entry (put v s) i = cache_entry s i.
Proof using Type.
  intros [_ Hout] Hk Hi. unfold cache_entry, word. cbn [put driver_volume dr_vol open_file_cache].
  rewrite !Hk by (apply (Hout i); lia). done.
Qed.

Lemma fat32_open_wp fuel path slash comps last d ix pflags s (Q : option fat_vfile → driver D → Prop) :
  vol_ok limit m0 F (dr_vol s) → path_at (vol_mem (dr_vol s)) path slash comps →
  walk limit m0 F no_dirent comps (Some (last, d, ix)) → 0 < b_file < 2 ^ 32 → list_ok s →
  (∀ i s', vol_ok limit m0 F (dr_vol s') → listed s s' i →
     Q (Some (FatVfile (Z.land (de_flags d) 0x37) i (de_size d)
              (OpenFile (de_cluster d) (de_size d) (de_flags d) (dir_cluster m0 last) ix))) s') →
  wp (fat32_open fresh b_path b_tokens b_file b_dir filename (S fuel) path pflags) Q s.
Proof using Hgeom Hlay.
  intros Hv Hp Hw Hbf Hl HQ. unfold fat32_open. wp. cbn [view driver_volume].
  apply (resolve_path_wp path slash comps (Some (last, d, ix))); [done|done|done|lia|]. intros v' Hv' Hk. cbn [opened]. wp.
  set (s1 := put v' s). apply cache_open_room_wp; [unfold is_u32; lia| |].
  - destruct (lo_room s Hl) as (i & Hi & Hz). exists i. split; [done|]. unfold s1. by rewrite cache_entry_kept.
  - intros i s2 Hc. wp. cbn [file_flags size_bytes]. apply HQ.
    + destruct Hv' as [? ?]. unfold vol_ok. by rewrite (ca_mount _ _ _ _ Hc).
    + pose proof (ca_index _ _ _ _ Hc) as Hi. cbn in Hi. unfold listed. rewrite (ca_base _ _ _ _ Hc), (ca_size _ _ _ _ Hc), (ca_entry _ _ _ _ Hc).
      split_and!; try done; try lia. rewrite <- (ca_free _ _ _ _ Hc). symmetry. by apply cache_entry_kept.
Qed.

(** Opening a path and reading from the file. *)
Definition open_read (fuel : nat) (path parent_flags : Z) (buf : gmap Z Z) (offset count : Z)
    : M (driver D) (option (fat_vfile * Z * gmap Z Z)) :=
  f ← fat32_open fresh b_path b_tokens b_file b_dir filename fuel path parent_flags;
  match f with
  | None => mret None
  | Some f =>
      '(n, buf) ← zoom (zoom (S := volume D) (fat32_read fresh (first_cluster (fv_file f)) buf offset count));
      mret (Some (f, n, buf))
  end.
End opening.

(** ** Properties *)

(** C11: a path leads to its file.  On a volume whose directories along the path hold
    long and short names, [fat32_open] finds the entry that the components name, one
    directory after the other, puts the file at the first free entry of the list of open files,
    and [fat32_read] on it delivers the bytes of the file's chain of clusters. *)
Theorem fat32_open_reads {D} `{BlockDev D} limit fresh b_path b_tokens b_file b_dir filename (m0 : fat_mount D) F
    fuel path slash comps last d ix pflags buf offset count s :
  data_geom limit m0 → path_layout b_path b_tokens b_dir filename →
  vol_ok limit m0 F (dr_vol s) → path_at b_path b_file b_dir filename (vol_mem (dr_vol s)) path slash comps →
  walk limit m0 F no_dirent comps (Some (last, d, ix)) → 0 < b_file < 2 ^ 32 → list_ok b_path b_file b_dir filename s →
  0 <= offset → 0 < count → offset + count < 2 ^ 31 → offset mod cluster_size_bytes m0 = 0 →
  chain_covers limit m0 F (de_cluster d) (offset + count) →
  ∃ f buf' s', open_read fresh b_path b_tokens b_file b_dir filename (S fuel) path pflags buf offset count s
      = Ok (Some (f, count, buf'), s') ∧
    first_cluster (fv_file f) = de_cluster d ∧ fv_size f = de_size d ∧ dirent_offset (fv_file f) = ix ∧
    dirent_cluster (fv_file f) = dir_cluster m0 last ∧ listed b_file s s' (fv_offset f) ∧
    ∀ k, buf' !0 k = if decide (0 <= k < count) then file_byte m0 F (de_cluster d) (offset + k) else buf !0 k.
Proof.
  intros Hg Hlay Hv Hp Hw Hbf Hl Ho Hc Hlt Hal Hcov.
  assert (wp (open_read fresh b_path b_tokens b_file b_dir filename (S fuel) path pflags buf offset count)
    (λ r s', ∃ f buf', r = Some (f, count, buf') ∧
      first_cluster (fv_file f) = de_cluster d ∧ fv_size f = de_size d ∧ dirent_offset (fv_file f) = ix ∧
      dirent_cluster (fv_file f) = dir_cluster m0 last ∧ listed b_file s s' (fv_offset f) ∧
      ∀ k, buf' !0 k = if decide (0 <= k < count) then file_byte m0 F (de_cluster d) (offset + k) else buf !0 k) s) as Hwp.
  2:{ apply wp_ok in Hwp as (r & s' & Hrun & f & buf' & -> & Hpost). by exists f, buf', s'. }
  unfold open_read. wp. apply (fat32_open_wp limit fresh b_path b_tokens b_file b_dir filename m0 F Hg Hlay fuel path slash comps last d ix);
    [done..|]. intros i s1 [Hr1 Hs1] Hlist. wp. cbn [view driver_volume volume_mount fv_file first_cluster].
  destruct (same_csz limit _ _ Hs1) as [Hcs Hdb].
  apply (fat32_read_wp fresh limit F); [done|by eapply data_geom_same|done|done|done|by apply (chain_covers_same limit m0)|].
  intros r buf' m' Hr' Hs' Hb Hcount _. wp. rewrite Hcs in Hcount. rewrite (Hcount Hal). eexists _, buf'. split; [done|]. cbn [fv_file first_cluster fv_size dirent_offset dirent_cluster fv_offset].
  split_and!; try done. intros k. rewrite Hb. case_decide; [|done]. apply (file_byte_same limit m0 _ F _ (offset + count)); done || lia.
Qed.

(** C31: a path that leads nowhere.  When a component is in none of the directory's
    entries, [fat32_open] returns no file and leaves the list of open files as it is. *)
Theorem fat32_open_missing {D} `{BlockDev D} limit fresh b_path b_tokens b_file b_dir filename (m0 : fat_mount D) F
    fuel path slash comps pflags s :
  data_geom limit m0 → path_layout b_path b_tokens b_dir filename →
  vol_ok limit m0 F (dr_vol s) → path_at b_path b_file b_dir filename (vol_mem (dr_vol s)) path slash comps →
  walk limit m0 F no_dirent comps None → b_file ≠ 0 →
  ∃ v', fat32_open fresh b_path b_tokens b_file b_dir filename fuel path pflags s = Ok (None, put v' s) ∧
    vol_ok limit m0 F v' ∧ kept (outside b_path b_file b_dir filename) (vol_mem (dr_vol s)) (vol_mem v').
Proof.
  intros Hg Hlay Hv Hp Hw Hbf.
  assert (wp (fat32_open fresh b_path b_tokens b_file b_dir filename fuel path pflags) (λ r s', r = None ∧ ∃ v', s' = put v' s ∧
    vol_ok limit m0 F v' ∧ kept (outside b_path b_file b_dir filename) (vol_mem (dr_vol s)) (vol_mem v')) s) as Hwp.
  2:{ apply wp_ok in Hwp as (r & s' & Hrun & -> & v' & -> & Hpost). by exists v'. }
  unfold fat32_open. wp. cbn [view driver_volume].
  apply (resolve_path_wp limit fresh b_path b_tokens b_file b_dir filename m0 F Hg Hlay path slash comps None); [done..|].
  intros v' Hv' Hk. cbn [opened]. wp. apply wp_on_mem. wp. cbn [put driver_volume dr_vol].
  assert (vol_mem v' !0 path ≠ 0) as Hne.
  { rewrite Hk by (apply (pa_outside _ _ _ _ _ _ _ _ Hp); lia). destruct Hp as [Hs Hn _ _ _ _ _]. set (full := (if slash then [47] else []) ++ path_text comps) in *.
    destruct full as [|x l]; [done|]. pose proof (cs_char _ _ _ Hs 0%nat x eq_refl) as Hch. rewrite Z.add_0_r in Hch.
    pose proof (cs_nonzero _ _ _ Hs) as Hnz. apply Forall_cons_1 in Hnz as [? _]. lia. }
  rewrite (proj2 (Z.eqb_neq _ 0) Hne). wp. split; [done|]. exists v'. split_and!; [|done|done]. by destruct v', s as [[]].
Qed.

(** ** An example *)

(** The root directory holds a directory with the long name [docs], in cluster 3,
    which holds the file [A.TXT] in cluster 4. *)
Definition root_entries : list Z :=
  ((λ o, entry_byte (bytes_of_string "docs") 1 0 0 o) <$> seqZ 0 32) ++
  bytes_of_string "D~0     doc" ++ [0x10; 0; 0; 0; 0; 0; 0; 0; 0; 0; 0; 0; 0; 0; 0; 3; 0; 0; 0; 0; 0].
Definition docs_entries : list Z :=
  bytes_of_string "A       TXT" ++ [0x20; 0; 0; 0; 0; 0; 0; 0; 0; 0; 0; 0; 0; 0; 0; 4; 0; 5; 0; 0; 0].
Definition path_disk : disk :=
  Disk (66048 + 512 * 10)
    (store_bytes 512 ([0xf8; 0xff; 0xff; 0x0f] ++ concat (replicate 4 [0xff; 0xff; 0xff; 0x0f]))
      (store_bytes 66048 root_entries (store_bytes 66560 docs_entries (store_bytes 67072 (bytes_of_string "hello") ∅)))).
Definition path_mount : fat_mount disk :=
  FatMount (BPB 512 1 1 1 128 139 2) path_disk 512 false false 0 1 129 0 0 None.
Definition path_table : Z → Z := disk_entry path_mount.
Definition docs : list Z := bytes_of_string "docs".
Definition a_txt : list Z := bytes_of_string "A.TXT".

Lemma path_disk_ok : bytes_ok (disk_bytes path_disk).
Proof.
  unfold path_disk. cbn [disk_bytes]. repeat (apply store_bytes_ok; [|by_computation]). intros k. unfold zget. rewrite lookup_empty. by_computation.
Qed.
Lemma path_repr : fat_repr 16384 path_table path_mount.
Proof. split; [|reflexivity|reflexivity]. split; [exact path_disk_ok|by_computation..]. Qed.
Lemma path_geom : data_geom 16384 path_mount.
Proof. split; [exists 9; split; by_computation|by_computation]. Qed.
Lemma path_cluster c : 2 <= c < 10 → cluster_ok 16384 path_mount c.
Proof.
  intros Hc. split; change (cluster_size_bytes path_mount) with 512; change (data_base path_mount) with 66048;
    change (dev_size (mount_src path_mount)) with 71168; unfold FAT32_EOC_MIN; lia.
Qed.
Lemma path_dir c : 2 <= c < 5 → dir_chain 16384 path_mount path_table c [c].
Proof.
  intros Hc. split; [|done| |by vm_compute].
  - split; [|apply NoDup_singleton|by repeat constructor; apply path_cluster; lia].
    intros [|i] x Hx; [|done]. injection Hx as <-. cbn. assert (c = 2 ∨ c = 3 ∨ c = 4) as [->|[->| ->]] by lia; vm_compute; discriminate.
  - repeat constructor. change (cluster_size_bytes path_mount) with 512. change (data_base path_mount) with 66048. lia.
Qed.

Definition root_items : list item := [Long 0 1 docs].
Definition docs_items : list item := [Short 32 [65] (bytes_of_string "TXT")].
Lemma root_view : dir_view 16384 path_mount path_table no_dirent [2] root_items.
Proof.
  split; [apply path_dir; lia| |by_computation]. cbn [items_at root_items item_ok item_at item_entry]. split_and!; [by_computation..| | |vm_compute; reflexivity].
  - intros t o Ht Ho. assert (t = 0) as -> by lia.
    assert (Forall (λ o, dir_bytes path_mount [2] (32 * (0 + 0) + o) = entry_byte docs 1 0 (1 - 1 - 0) o) (seqZ 0 32)) as Hall by by_computation.
    rewrite Forall_forall in Hall. apply Hall, elem_of_seqZ. lia.
  - by_computation.
Qed.

Definition docs_dirent : fat_dirent := dirent_at (dir_bytes path_mount [2]) (32 * 1).
Definition a_dirent : fat_dirent := dirent_at (dir_bytes path_mount [3]) (32 * 0).
Lemma docs_view : dir_view 16384 path_mount path_table docs_dirent [3] docs_items.
Proof.
  split; [|cbn [items_at docs_items item_ok item_at item_entry]|by_computation].
  - assert (dir_cluster path_mount docs_dirent = 3) as -> by by_computation. apply path_dir. lia.
  - split_and!; [by_computation..| |vm_compute; discriminate|vm_compute; reflexivity].
    assert (Forall (λ k, dir_bytes path_mount [3] (32 * 0 + Z.of_nat k) = nth k (short_field 32 [65] (bytes_of_string "TXT")) 0) (seq 0 11)) as Hall
      by by_computation.
    rewrite Forall_forall in Hall. intros k x Hx. rewrite Hall; [by apply nth_lookup_Some|].
    apply lookup_lt_Some in Hx. change (length (short_field 32 [65] (bytes_of_string "TXT"))) with 11%nat in Hx. apply elem_of_seq. lia.
Qed.
Lemma path_walk : walk 16384 path_mount path_table no_dirent [docs; a_txt] (Some (docs_dirent, a_dirent, 0)).
Proof.
  apply (walk_down _ _ _ _ _ _ _ [2] root_items 1); [exact root_view|by_computation|].
  apply (walk_last _ _ _ _ _ [3] docs_items 0); [exact docs_view|by_computation].
Qed.
Lemma path_walk_missing : walk 16384 path_mount path_table no_dirent [docs; docs] None.
Proof.
  apply (walk_down _ _ _ _ _ _ _ [2] root_items 1); [exact root_view|by_computation|].
  apply (walk_missing _ _ _ _ _ _ [3] docs_items); [exact docs_view|by_computation].
Qed.

(** The buffers: the path's copy, its tokens, the two directories and a name. *)
Definition dir_buffer (i : Z) : Z := if decide (i = 0) then 0x20000 else 0x28000.
Lemma example_layout : path_layout 0x10000 0x11000 dir_buffer 0x30000.
Proof. unfold dir_buffer. split; unfold apart, PAGE_SIZE_BYTES; try lia; intros i; case_decide; lia. Qed.
Lemma example_outside k : k < 0x10000 ∨ 0x50000 <= k → outside 0x10000 0x40000 dir_buffer 0x30000 k.
Proof. intros Hk. unfold outside, dir_buffer, PAGE_SIZE_BYTES. split_and!; [lia| |lia..]. intros i. case_decide; lia. Qed.

Definition path_of (comps : list (list Z)) : driver disk :=
  Driver (Volume path_mount (store_bytes 0x1000 (47 :: path_text comps ++ [0]) ∅)) 0x50000 4 0.
Lemma path_at_example comps :
  Forall comp_ok comps → Forall char_ok (path_text comps) → head (path_text comps) ≠ Some 47 → comps ≠ [] → (length comps <= 1024)%nat →
  Z.of_nat (length (path_text comps)) + 2 < PAGE_SIZE_BYTES → path_at 0x10000 0x40000 dir_buffer 0x30000 (vol_mem (dr_vol (path_of comps))) 0x1000 true comps.
Proof.
  intros Hok Hch Hfst Hne Hlen Hl. unfold PAGE_SIZE_BYTES in Hl. split; try done; try lia.
  - apply (cstr_store ∅ 4096 (47 :: path_text comps)); [by constructor|]. rewrite length_cons. lia.
  - intros k Hk. apply example_outside. lia.
Qed.
Lemma list_ok_example comps : Z.of_nat (length (path_text comps)) + 2 < PAGE_SIZE_BYTES → list_ok 0x10000 0x40000 dir_buffer 0x30000 (path_of comps).
Proof.
  unfold PAGE_SIZE_BYTES. intros Hl.
  split.
  - exists 0. unfold path_of. cbn [first_free_open_file_index open_file_cache_size]. split; [lia|].
    unfold cache_entry, word. cbn [path_of dr_vol vol_mem open_file_cache].
    rewrite !store_bytes_get. rewrite length_cons, length_app.
    cbn [length]. by rewrite !decide_False by lia.
  - intros i k Hi Hk. cbn in Hi, Hk. apply example_outside. lia.
Qed.

Lemma fat32_open_reads_witness :
  ∃ f buf' s', open_read [] 0x10000 0x11000 0x40000 dir_buffer 0x30000 1 0x1000 0x10 ∅ 0 5 (path_of [docs; a_txt]) = Ok (Some (f, 5, buf'), s') ∧
    fv_size f = 5 ∧ listed 0x40000 (path_of [docs; a_txt]) s' (fv_offset f) ∧
    ∀ k, buf' !0 k = if decide (0 <= k < 5) then nth (Z.to_nat k) (bytes_of_string "hello") 0 else 0.
Proof.
  destruct (fat32_open_reads 16384 [] 0x10000 0x11000 0x40000 dir_buffer 0x30000 path_mount path_table 0 0x1000 true [docs; a_txt]
    docs_dirent a_dirent 0 0x10 ∅ 0 5 (path_of [docs; a_txt])) as (f & buf' & s' & Hrun & _ & Hsize & _ & _ & Hlist & Hbuf).
  - exact path_geom.
  - exact example_layout.
  - split; [exact path_repr|]. split; by_computation || done.
  - apply path_at_example; by_computation.
  - exact path_walk.
  - lia.
  - apply list_ok_example. by_computation.
  - lia.
  - lia.
  - lia.
  - by_computation.
  - intros j Hj. assert (j = 0%nat) as -> by (change (cluster_size_bytes path_mount) with 512 in Hj; lia).
    change (nth_cluster path_table (de_cluster a_dirent) 0) with (de_cluster a_dirent).
    assert (de_cluster a_dirent = 4) as -> by by_computation. apply path_cluster. lia.
  - exists f, buf', s'. split_and!; [exact Hrun|rewrite Hsize; by_computation|exact Hlist|].
    intros k. rewrite Hbuf. case_decide as Hk; [|done].
    assert (k = 0 ∨ k = 1 ∨ k = 2 ∨ k = 3 ∨ k = 4) as [->|[->|[->|[->| ->]]]] by lia; by_computation.
Defined.

Lemma fat32_open_missing_witness :
  ∃ v', fat32_open [] 0x10000 0x11000 0x40000 dir_buffer 0x30000 1 0x1000 0x10 (path_of [docs; docs]) = Ok (None, put v' (path_of [docs; docs])).
Proof.
  destruct (fat32_open_missing 16384 [] 0x10000 0x11000 0x40000 dir_buffer 0x30000 path_mount path_table 1 0x1000 true [docs; docs]
    0x10 (path_of [docs; docs])) as (v' & Hrun & _).
  - exact path_geom.
  - exact example_layout.
  - split; [exact path_repr|]. split; by_computation || done.
  - apply path_at_example; by_computation.
  - exact path_walk_missing.
  - lia.
  - by exists v'.
Defined.
