(* ===== verification/FatCreate.v ===== *)
(** * Creating FAT32 files (src/src/kmodules/fs_driver.c: fat32_create)

    The directory of the new file is read into memory, a place for the entries of its
    name is looked for, the entries are put there, and the whole directory is written
    back.  Blocks of memory from [malloc] are arguments, 0 for none. *)
From S2P Require Import Prelude Device KString Fat32 FatWrite FatDir FatPath.

(** The blocks one call of [fat32_open] gets: see [FatPath]. *)
Record open_blocks := OpenBlocks {
  ob_path : Z;
  ob_tokens : Z;
  ob_file : Z;
  ob_dir : Z → Z;
  ob_filename : Z;
}.

(** ** The path of the new file *)

(** The copy of the path is cut at its last slash; the value is the name behind it. *)
Definition split_path (trunc_path : Z) : M memory Z :=
  n ← strlen trunc_path;
  let file_to_create := trunc_path + n - 1 in
  c ← ld file_to_create;
  when (c =? 47) (st file_to_create 0);;
  file_to_create ← loop fuel32 (λ p,
    c ← ld p;
    if negb (c =? 47) && (p >? trunc_path) then mret (inl (p - 1)) else mret (inr p)) file_to_create;
  c ← ld file_to_create;
  if c =? 47 then st file_to_create 0;; mret (file_to_create + 1) else mret file_to_create.

(** ** A place for the entries *)

(** What the search keeps: whether a place was found, where, and how many names start
    with the same character. *)
Record place := Place { found : bool; free_index : Z; short_filename_matches : Z }.
Definition no_place : place := Place false (2 ^ 32 - 1) 0.

(** The inner loop: [total_dirents] entries from [i] on.  The first character of a name
    is a [char], which is never 0xe5. *)
Definition scan_entries (buffer dir_entry_count total_dirents i : Z) : M memory (bool * Z) :=
  r ← fora_loop 0 total_dirents (λ j _,
        if i + j >=? dir_entry_count then mret (inr (false, i))
        else
          c ← ld (dirent buffer (i + j));
          if c =? 0 then mret (inr (true, i))
          else if negb (s8 c =? 0xe5) then mret (inr (false, i + j))
          else mret (inl tt)) tt;
  mret (match r with inl _ => (true, i) | inr x => x end).

Definition find_place (buffer dir_entry_count total_dirents file_to_create : Z) : M memory place :=
  loop fuel32 (λ '(i, p),
    if i <? dir_entry_count then
      '(ok, i) ← scan_entries buffer dir_entry_count total_dirents i;
      c ← ld (dirent buffer i);
      if c =? 0 then mret (inr (Place true i (short_filename_matches p)))
      else
        x ← ld file_to_create;
        let n := if c =? x then u32 (short_filename_matches p + 1) else short_filename_matches p in
        if ok then mret (inl (u32 (i + 1), Place ok (if i <? free_index p then i else free_index p) n))
        else mret (inl (u32 (i + 1), Place ok (free_index p) n))
    else mret (inr p)) (0, no_place).

(** ** The short name *)

(** Behind the first dot of the name, or its end. *)
Definition find_ext (file_to_create filename_len : Z) : M memory Z :=
  loop fuel32 (λ i,
    if i <? filename_len then
      c ← ld (file_to_create + i);
      if c =? 46 then mret (inr (i + 1)) else mret (inl (i + 1))
    else mret (inr i)) 0.

(** The local array has 20 characters; its first six have been copied from the name. *)
Definition make_short_name (short_filename file_to_create filename_len matches : Z) : M memory unit :=
  itoa matches (short_filename + 2) 10;;
  ext_index ← find_ext file_to_create filename_len;
  memcpy (file_to_create + ext_index) (short_filename + 8) 3.

(** ** Directories in memory *)

(** Bytes of memory as a buffer of its own, and back. *)
Definition slice (mem : memory) (p n : Z) : gmap Z Z := store_bytes 0 ((λ k, mem !0 (p + k)) <$> seqZ 0 n) ∅.
Definition unslice (buf : gmap Z Z) (p n : Z) (mem : memory) : memory := store_bytes p (buf_bytes buf 0 n) mem.

Section create.
Context {D : Type} `{BlockDev D}.
Variable fresh : list Z.
(** For [fat32_write]: whether there is a page of zeros, and the page for the entry. *)
Variable malloc_ok : bool.
Variable dir_page : gmap Z Z.
(** The blocks for the two calls of [fat32_open], for the copy of the path, for the
    directory and, when it grows, its new copy, for the new entries, and the local array. *)
Variables (ob1 ob2 : open_blocks) (b_trunc b_buffer b_new b_dirents short_filename : Z).
(** The mount's file. *)
Variables (parent_flags : Z) (parent_file : option fat_open_file).

Definition on_mount {A} (c : M (fat_mount D) A) : M (driver D) A := zoom (zoom (S := volume D) c).
Definition open_with (ob : open_blocks) (fuel : nat) (path : Z) : M (driver D) (option fat_vfile) :=
  fat32_open fresh (ob_path ob) (ob_tokens ob) (ob_file ob) (ob_dir ob) (ob_filename ob) fuel path parent_flags.

(** The clusters of a chain: the last one, and how many there are. *)
Definition count_clusters (first : Z) : M (fat_mount D) (Z * Z) :=
  loop fuel32 (λ '(cluster, last_cluster, cluster_count),
    if cluster <? FAT32_EOC then
      next ← fat32_get_next_cluster fresh cluster;
      mret (inl (next, cluster, u32 (cluster_count + 1)))
    else mret (inr (last_cluster, cluster_count))) (first, 0, 0).

Definition fat32_read_mem (o : fat_open_file) (buffer offset count : Z) : M (driver D) Z :=
  s ← gets id;
  '(r, buf) ← on_mount (fat32_read fresh (first_cluster o) (slice (vol_mem (dr_vol s)) buffer count) offset count);
  on_mem (modify (unslice buf buffer count));;
  mret r.
Definition fat32_write_mem (o : fat_open_file) (buffer offset count : Z) : M (driver D) Z :=
  s ← gets id;
  '(r, _) ← on_mount (fat32_write fresh malloc_ok dir_page o (slice (vol_mem (dr_vol s)) buffer count) offset count);
  mret r.

(** The directory in memory, with its last cluster and their number; [None] when there
    is no cluster or no block for it. *)
Definition load_directory (o : fat_open_file) : M (driver D) (option (Z * Z)) :=
  csz ← on_mount (gets cluster_size_bytes);
  if first_cluster o =? 0 then
    cluster ← on_mount (fat32_get_free_cluster fresh);
    if cluster =? 0 then mret None
    else
      on_mount (fat32_set_next_cluster fresh cluster FAT32_EOC);;
      if b_buffer =? 0 then mret None
      else
        on_mem (for_all 0 (csz / 4) (λ i, st32 (b_buffer + 4 * i) 0));;
        mret (Some (cluster, 1))
  else
    '(last_cluster, cluster_count) ← on_mount (count_clusters (first_cluster o));
    if b_buffer =? 0 then mret None
    else
      _ ← fat32_read_mem o b_buffer 0 (u32 (cluster_count * csz));
      mret (Some (last_cluster, cluster_count)).

(** One cluster more: the new buffer, the number of clusters and the place.  The table
    is written before the cluster is looked at, and [memclr] gets a position in entries. *)
Definition extend_directory (last_cluster cluster_count dir_entry_count : Z) (p : place)
    : M (driver D) (option (Z * Z * Z)) :=
  csz ← on_mount (gets cluster_size_bytes);
  new_cluster ← on_mount (fat32_get_free_cluster fresh);
  on_mount (fat32_set_next_cluster fresh new_cluster FAT32_EOC);;
  if new_cluster =? 0 then mret None
  else
    on_mount (fat32_set_next_cluster fresh last_cluster new_cluster);;
    on_mem (memcpy b_buffer b_new (u32 (cluster_count * csz)));;
    let cluster_count := u32 (cluster_count + 1) in
    on_mem (memclr (b_new + 32 * u32 (csz * cluster_count)) csz);;
    mret (Some (b_new, cluster_count, if found p then free_index p else dir_entry_count)).

(** From the place on: the names, the entries, and the directory back to the volume. *)
Definition fill_directory (o : fat_open_file) (file_to_create filename_len total_dirents flags buffer cluster_count free_index matches : Z)
    : M (driver D) (option Z) :=
  csz ← on_mount (gets cluster_size_bytes);
  on_mem (c ← ld file_to_create; st short_filename c;; st (short_filename + 1) 126);;
  if 999999 <? matches then mret None
  else
    on_mem (
      make_short_name short_filename file_to_create filename_len matches;;
      checksum ← lfn_checksum short_filename;
      create_entries b_dirents (total_dirents - 1) checksum file_to_create short_filename flags buffer free_index);;
    r ← fat32_write_mem o buffer 0 (u32 (csz * cluster_count));
    mret (Some r).

(** The directory is known. *)
Definition create_in (o : fat_open_file) (file_to_create flags : Z) : M (driver D) (option Z) :=
  csz ← on_mount (gets cluster_size_bytes);
  filename_len ← on_mem (strlen file_to_create);
  let total_dirents := u32 (filename_len + 13 - 1) / 13 + 1 in
  d ← load_directory o;
  match d with
  | None => mret None
  | Some (last_cluster, cluster_count) =>
      let dir_entry_count := u32 (csz * cluster_count) / 32 in
      on_mem (memcpy file_to_create short_filename 6);;
      p ← on_mem (find_place b_buffer dir_entry_count total_dirents file_to_create);
      e ← (if negb (found p) || (u32 (free_index p + total_dirents) >? dir_entry_count)
           then extend_directory last_cluster cluster_count dir_entry_count p
           else mret (Some (b_buffer, cluster_count, free_index p)));
      match e with
      | None => mret None
      | Some (buffer, cluster_count, free_index) =>
          fill_directory o file_to_create filename_len total_dirents flags buffer cluster_count free_index (short_filename_matches p)
      end
  end.

Definition fat32_create (fuel : nat) (path flags : Z) : M (driver D) (option fat_vfile) :=
  c ← on_mem (ld path);
  if c =? 0 then mret None
  else if b_trunc =? 0 then mret None
  else
    let path := if c =? 47 then path + 1 else path in
    on_mem (strcpy path b_trunc);;
    file_to_create ← on_mem (split_path b_trunc);
    dir ← (if negb (file_to_create =? b_trunc) then
             f ← open_with ob1 fuel b_trunc; mret (fv_file <$> f)
           else mret parent_file);
    match dir with
    | None => mret None
    | Some o =>
        r ← create_in o file_to_create flags;
        match r with
        | None => mret None
        | Some _ => open_with ob2 fuel path
        end
    end.
End create.

(** ** Cutting the path, proved *)

Lemma cstr_cut m p s t : cstr m p (s ++ t) → cstr (<[p + Z.of_nat (length s) := 0]> m) p s.
Proof.
  intros [Hc _ Hn Hl]. rewrite length_app in Hl. apply Forall_app in Hn as [Hn _]. split; [|by rewrite zget_insert_eq|done|lia].
  intros i x Hx. pose proof (lookup_lt_Some _ _ _ Hx). rewrite zget_insert_ne by lia. apply Hc. by apply lookup_app_l_Some.
Qed.
Lemma cstr_suffix m p s t : cstr m p (s ++ t) → cstr m (p + Z.of_nat (length s)) t.
Proof.
  intros [Hc He Hn Hl]. rewrite length_app in Hl, He. apply Forall_app in Hn as [_ Hn]. split; [| |done|lia].
  - intros i x Hx. replace (p + Z.of_nat (length s) + Z.of_nat i) with (p + Z.of_nat (length s + i)) by lia. apply Hc.
    rewrite lookup_app_r by lia. by replace (length s + i - length s)%nat with i by lia.
  - rewrite <- He. f_equal. lia.
Qed.

Section split.
Variables (p : Z) (dir name : list Z).
Context (Hname : Forall (λ x, x ≠ 47) name) (Hne : name ≠ []).
Notation d := (Z.of_nat (length dir)).
Notation e := (Z.of_nat (length name)).

(** A character of the name, or the terminator behind it. *)
Lemma name_char m q : cstr m p (dir ++ 47 :: name) → p + d < q <= p + d + 1 + e → m !0 q ≠ 47.
Proof using Hname.
  intros Hs Hq. assert (cstr m (p + d + 1) name) as Hn.
  { change (47 :: name) with ([47] ++ name) in Hs. rewrite app_assoc in Hs. apply cstr_suffix in Hs. rewrite length_app in Hs.
    by replace (p + d + 1) with (p + Z.of_nat (length dir + length [47])) by (simpl; lia). }
  replace q with (p + d + 1 + (q - (p + d + 1))) by lia. rewrite (cstr_at _ _ _ _ Hn) by lia.
  destruct (name !! Z.to_nat (q - (p + d + 1))) as [x|] eqn:Hx.
  - rewrite (nth_lookup_Some _ _ _ _ Hx). rewrite Forall_lookup in Hname. by eapply Hname.
  - rewrite nth_overflow by (by apply lookup_ge_None_1). done.
Qed.

(** From behind the slash back to it, and the cut. *)
Lemma split_scan_wp m q (Q : Z → memory → Prop) :
  cstr m p (dir ++ 47 :: name) → p + d < q <= p + d + 1 + e →
  Q (p + d + 1) (<[p + d := 0]> m) →
  wp (loop fuel32 (λ p0, c ← ld p0;
        if negb (c =? 47) && (p0 >? p) then mret (inl (p0 - 1)) else mret (inr p0)) q)
    (λ file_to_create m',
       wp (c ← ld file_to_create; if c =? 47 then st file_to_create 0;; mret (file_to_create + 1) else mret file_to_create) Q m') m.
Proof using Hname.
  intros Hs Hq HQ. assert (m !0 (p + d) = 47) as Hslash.
  { rewrite (cstr_at _ _ _ _ Hs) by (rewrite length_app; simpl; lia). by rewrite Nat2Z.id, nth_middle. }
  pose proof (cs_len _ _ _ Hs) as Hl. rewrite length_app in Hl. cbn [length] in Hl.
  apply (wp_loop (λ q m', m' = m ∧ p + d <= q <= p + d + 1 + e) (λ q _, q - p)).
  - split; [done|lia].
  - unfold fuel32. change (Z.pos (2 ^ 32)) with (2 ^ 32). lia.
  - intros q' m' [_ ?]. lia.
  - intros q' m' [-> Hq']. wp. rewrite Z.gtb_ltb. destruct (decide (q' = p + d)) as [->|Hn].
    + rewrite Hslash. cbn [Z.eqb Pos.eqb negb andb]. wp. rewrite Hslash. cbn [Z.eqb Pos.eqb]. wp. exact HQ.
    + rewrite (proj2 (Z.eqb_neq _ 47)) by (apply name_char; [done|lia]). rewrite (proj2 (Z.ltb_lt _ _)) by lia.
      cbn [negb andb]. wp. split; [|lia]. split; [done|lia].
Qed.

(** The name is what stands behind the last slash, a final one apart; the path in front
    of it is left for the parent. *)
Lemma split_path_wp m (final : bool) (Q : Z → memory → Prop) :
  cstr m p (dir ++ 47 :: name ++ (if final then [47] else [])) →
  (∀ m', cstr m' p dir → cstr m' (p + d + 1) name →
     (∀ k, ¬ (p + d <= k < p + d + e + 2) → m' !0 k = m !0 k) → Q (p + d + 1) m') →
  wp (split_path p) Q m.
Proof using Hname Hne.
  intros Hs HQ. assert (0 < e) by (destruct name; [done|simpl; lia]).
  assert (∀ m1, cstr m1 p (dir ++ 47 :: name) → (∀ k, ¬ (p + d <= k < p + d + e + 2) → m1 !0 k = m !0 k) →
    Q (p + d + 1) (<[p + d := 0]> m1)) as Hend.
  { intros m1 Hs1 Hfr. apply HQ; [by eapply cstr_cut| |intros k Hk; rewrite zget_insert_ne by lia; by apply Hfr].
    change (47 :: name) with ([47] ++ name) in Hs1. rewrite app_assoc in Hs1. apply cstr_suffix in Hs1. rewrite length_app in Hs1.
    replace (p + d + 1) with (p + Z.of_nat (length dir + length [47])) by (simpl; lia).
    apply (cstr_frame m1); [done|]. intros k Hk. rewrite zget_insert_ne; [done|]. simpl in Hk. lia. }
  replace (dir ++ 47 :: name ++ (if final then [47] else [])) with ((dir ++ 47 :: name) ++ (if final then [47] else [])) in Hs
    by (by rewrite <- app_assoc).
  assert (Z.of_nat (length (dir ++ 47 :: name)) = d + 1 + e) as Hlen by (rewrite length_app; simpl; lia).
  unfold split_path. wp. eapply strlen_wp; [exact Hs|]. rewrite length_app, Nat2Z.inj_add, Hlen. wp.
  destruct final.
  - cbn [length]. replace (p + (d + 1 + e + Z.of_nat 1) - 1) with (p + Z.of_nat (length (dir ++ 47 :: name))) by lia.
    rewrite (cstr_at _ _ _ _ Hs) by (rewrite !length_app; cbn [length]; lia). rewrite Nat2Z.id, nth_middle. cbn [Z.eqb Pos.eqb]. wp.
    change (u8 0) with 0. apply split_scan_wp; [by eapply cstr_cut|lia|]. apply Hend; [by eapply cstr_cut|].
    intros k Hk. rewrite zget_insert_ne by lia. done.
  - rewrite app_nil_r in Hs. cbn [length]. replace (p + (d + 1 + e + Z.of_nat 0) - 1) with (p + d + e) by lia.
    rewrite (proj2 (Z.eqb_neq _ 47)) by (apply (name_char m); [done|lia]). apply split_scan_wp; [done|lia|]. by apply Hend.
Qed.
End split.

(** ** A place, proved *)

(** How many of the first [k] entries have a name that starts with [x]. *)
Fixpoint starts_with (b : Z → Z) (x : Z) (k : nat) : Z :=
  match k with
  | O => 0
  | S k => starts_with b x k + if b (32 * Z.of_nat k) =? x then 1 else 0
  end.

Lemma starts_with_range b x k : 0 <= starts_with b x k <= Z.of_nat k.
Proof. induction k as [|k IH]; cbn [starts_with]; [lia|]. destruct (_ =? _); lia. Qed.

Lemma s8_not_e5 c : is_u8 c → (s8 c =? 0xe5) = false.
Proof. unfold is_u8, s8. intros. destruct (Z.ltb_spec c 128); apply Z.eqb_neq; lia. Qed.

Section place.
Variables (buffer dir_entry_count total_dirents file : Z) (m : memory).
Context (Hbytes : bytes_ok m) (Htotal : 0 < total_dirents) (Hcount : 0 <= dir_entry_count < 2 ^ 32).
Notation b := (λ k, m !0 (buffer + k)).

(** No place starts at an entry in use: one entry is looked at only. *)
Lemma scan_entries_wp i (Q : bool * Z → memory → Prop) :
  0 <= i < dir_entry_count →
  (b (32 * i) = 0 → Q (true, i) m) → (b (32 * i) ≠ 0 → Q (false, i) m) →
  wp (scan_entries buffer dir_entry_count total_dirents i) Q m.
Proof using Hbytes Htotal.
  intros Hi Hz Hn. unfold scan_entries. rewrite wp_bind.
  assert (fora_loop 0 total_dirents (λ j _,
      if i + j >=? dir_entry_count then mret (inr (false, i))
      else c ← ld (dirent buffer (i + j));
        if c =? 0 then mret (inr (true, i)) else if negb (s8 c =? 0xe5) then mret (inr (false, i + j)) else mret (inl tt)) tt m
    = Ok (inr (b (32 * i) =? 0, i), m)) as Hrun.
  { unfold fora_loop. replace (Z.to_nat (total_dirents - 0)) with (S (Z.to_nat (total_dirents - 1))) by lia.
    cbn [fora_nat]. rewrite Z.add_0_r, Z.geb_leb, (proj2 (Z.leb_gt _ _)) by lia.
    unfold bind at 1. unfold bind at 1. unfold ld, gets, dirent. rewrite (s8_not_e5 (m !0 (buffer + 32 * i))) by apply Hbytes.
    destruct (m !0 (buffer + 32 * i) =? 0); done. }
  rewrite (wp_run _ _ _ _ _ Hrun). wp. destruct (Z.eqb_spec (b (32 * i)) 0); auto.
Qed.

(** The place is the first entry that was never used; the names in front of it that start
    like the new one are counted. *)
Lemma find_place_wp k (Q : place → memory → Prop) :
  0 <= k <= dir_entry_count → (∀ i, 0 <= i < k → b (32 * i) ≠ 0) → (k < dir_entry_count → b (32 * k) = 0) →
  Q (Place (bool_decide (k < dir_entry_count)) (if decide (k < dir_entry_count) then k else 2 ^ 32 - 1)
       (starts_with b (m !0 file) (Z.to_nat k))) m →
  wp (find_place buffer dir_entry_count total_dirents file) Q m.
Proof using Hbytes Htotal Hcount.
  intros Hk Hused Hfree HQ. unfold find_place.
  apply (wp_loop (λ '(i, p) m', m' = m ∧ 0 <= i <= k ∧ p = Place false (2 ^ 32 - 1) (starts_with b (m !0 file) (Z.to_nat i)))
    (λ '(i, _) _, dir_entry_count - i)).
  - split_and!; [done|lia|lia|done].
  - unfold fuel32. change (Z.pos (2 ^ 32)) with (2 ^ 32). lia.
  - intros [i p] m' (_ & ? & _). lia.
  - intros [i p] m' (-> & Hi & ->). destruct (Z.ltb_spec i dir_entry_count) as [Hlt|Hge].
    2: { wp. replace k with i in * by lia. rewrite bool_decide_eq_false_2, decide_False in HQ by lia. done. }
    wp. apply scan_entries_wp; [lia| |]; intros Hb; wp; unfold dirent.
    + rewrite Hb. cbn [Z.eqb]. wp. assert (k = i) as -> by (destruct (decide (i = k)); [done|]; exfalso; apply (Hused i); [lia|done]).
      rewrite bool_decide_eq_true_2, decide_True in HQ by lia. done.
    + rewrite (proj2 (Z.eqb_neq _ _)) by done. wp.
      assert (i < k) by (destruct (decide (i = k)) as [->|]; [|lia]; exfalso; apply Hb, Hfree; lia).
      rewrite (u32_id (i + 1)) by (unfold is_u32; lia). split; [|lia]. split_and!; [done|lia|lia|]. f_equal.
      replace (Z.to_nat (i + 1)) with (S (Z.to_nat i)) by lia. cbn [starts_with]. rewrite Z2Nat.id by lia.
      pose proof (starts_with_range b (m !0 file) (Z.to_nat i)).
      cbn [short_filename_matches]. destruct (_ =? _); [|lia]. apply u32_id. unfold is_u32. lia.
Qed.
End place.

(** ** The short name, proved *)

(** Where the three characters of the extension are taken from. *)
Fixpoint ext_pos (s : list Z) : Z :=
  match s with
  | [] => 0
  | x :: s => if x =? 46 then 1 else 1 + ext_pos s
  end.
Lemma ext_pos_range s : 0 <= ext_pos s <= Z.of_nat (length s).
Proof. induction s as [|x s IH]; cbn [ext_pos length]; [lia|]. destruct (x =? 46); lia. Qed.
Lemma ext_pos_app s t : Forall (λ x, x ≠ 46) s → ext_pos (s ++ t) = Z.of_nat (length s) + ext_pos t.
Proof.
  induction 1 as [|x s Hx _ IH]; cbn [ext_pos app length]; [lia|]. rewrite (proj2 (Z.eqb_neq _ _)) by done. lia.
Qed.

Lemma find_ext_wp m f s (Q : Z → memory → Prop) :
  cstr m f s → Q (ext_pos s) m → wp (find_ext f (Z.of_nat (length s))) Q m.
Proof.
  intros Hs HQ. pose proof (cs_len _ _ _ Hs). unfold find_ext.
  apply (wp_loop (λ i m', m' = m ∧ 0 <= i <= Z.of_nat (length s) ∧ Forall (λ x, x ≠ 46) (take (Z.to_nat i) s))
    (λ i _, Z.of_nat (length s) - i)).
  - split_and!; [done|lia|lia|constructor].
  - unfold fuel32. lia.
  - intros i m' (_ & ? & _). lia.
  - intros i m' (-> & Hi & Hno). rewrite <- (take_drop (Z.to_nat i) s) in HQ.
    destruct (Z.ltb_spec i (Z.of_nat (length s))) as [Hlt|Hge]; wp.
    + destruct (lookup_lt_is_Some_2 s (Z.to_nat i)) as [x Hx]; [lia|].
      rewrite (cstr_at m f s), (nth_lookup_Some s _ 0 x Hx) by (done || lia).
      rewrite (drop_S _ _ _ Hx), ext_pos_app, length_take in HQ by done. cbn [ext_pos] in HQ.
      destruct (Z.eqb_spec x 46) as [|Hne]; wp.
      * replace (i + 1) with (Z.of_nat (Z.to_nat i `min` length s) + 1) by lia. done.
      * split; [|lia]. split_and!; [done|lia|lia|]. replace (Z.to_nat (i + 1)) with (S (Z.to_nat i)) by lia.
        rewrite (take_S_r _ _ _ Hx). by apply Forall_app; split; [|constructor].
    + rewrite drop_ge, app_nil_r, take_ge in HQ by lia. rewrite take_ge in Hno by lia.
      rewrite <- (app_nil_r s), ext_pos_app in HQ by done. cbn [ext_pos] in HQ.
      replace i with (Z.of_nat (length s) + 0) by lia. done.
Qed.

Lemma numeral_length base n k : 1 < base → 0 <= n < base ^ Z.of_nat k → (0 < k)%nat → (length (numeral base n) <= k)%nat.
Proof.
  intros Hb Hn Hk. unfold numeral. destruct (n =? 0); [simpl; lia|]. rewrite length_reverse, length_fmap. by apply digits_length.
Qed.

Lemma bytes_ok_string (m m' : memory) p s :
  bytes_ok m → cstr m' p s → (∀ k, ¬ (p <= k <= p + Z.of_nat (length s)) → m' !0 k = m !0 k) → bytes_ok m'.
Proof.
  intros Hb Hs Hfr k. destruct (decide (p <= k < p + Z.of_nat (length s))); [by apply (cstr_u8 m' p s)|].
  destruct (decide (k = p + Z.of_nat (length s))) as [->|]; [rewrite (cs_end _ _ _ Hs); by_computation|].
  rewrite Hfr by lia. apply Hb.
Qed.
Lemma bytes_ok_patched (m m' : memory) lo hi g :
  bytes_ok m → patched m m' lo hi g → (∀ k, lo <= k < hi → is_u8 (g k)) → bytes_ok m'.
Proof. intros Hb Hp Hg k. rewrite Hp. case_decide; [by apply Hg|apply Hb]. Qed.

(** The number of the name, and three characters behind its dot: less than three, and
    what lies behind the name in memory is taken too. *)
Lemma make_short_name_wp m short f s n (Q : unit → memory → Prop) :
  cstr m f s → bytes_ok m → apart f (Z.of_nat (length s) + 3) short 20 → 0 < short → 0 <= n <= 999999 →
  (∀ m', bytes_ok m' → (∀ k, ¬ (short + 2 <= k < short + 11) → m' !0 k = m !0 k) →
     (∀ k x, numeral 10 n !! k = Some x → m' !0 (short + 2 + Z.of_nat k) = x) →
     (∀ k, 0 <= k < 3 → m' !0 (short + 8 + k) = m !0 (f + ext_pos s + k)) → Q tt m') →
  wp (make_short_name short f (Z.of_nat (length s)) n) Q m.
Proof.
  intros Hs Hb Hap Hsh Hn HQ. unfold make_short_name, apart in *. wp.
  pose proof (numeral_length 10 n 6 ltac:(lia) ltac:(simpl; lia) ltac:(lia)) as Hlen. pose proof (ext_pos_range s) as Hext.
  apply itoa_numeral_wp; [lia|lia|lia|]. intros m1 Hnum _ Hfr1. wp.
  apply find_ext_wp; [apply (cstr_frame m); [done|intros; apply Hfr1; lia]|]. wp.
  pose proof (bytes_ok_string m m1 _ _ Hb Hnum Hfr1) as Hb1.
  apply memcpy_wp; [lia|unfold apart; lia|intros; apply Hb1|]. intros m2 H2. apply HQ.
  - apply (bytes_ok_patched m1 m2 _ _ _ Hb1 H2). intros. apply Hb1.
  - intros k Hk. rewrite (patched_out _ _ _ _ _ _ H2) by lia. apply Hfr1. lia.
  - intros k x Hx. pose proof (lookup_lt_Some _ _ _ Hx). rewrite (patched_out _ _ _ _ _ _ H2) by lia.
    by apply (cs_char _ _ _ Hnum).
  - intros k Hk. rewrite (patched_in _ _ _ _ _ _ H2) by lia. rewrite Hfr1 by lia. f_equal. lia.
Qed.

(** The checksum of the first [n] bytes of a short name. *)
Definition checksum_step (sum c : Z) : Z := u8 ((if negb (Z.land sum 1 =? 0) then 0x80 else 0) + Z.shiftr sum 1 + c).
Definition sfn_checksum (b : Z → Z) (n : Z) : Z := foldl (λ sum i, checksum_step sum (b i)) 0 (seqZ 0 n).
Lemma sfn_checksum_S b n : 0 <= n → sfn_checksum b (n + 1) = checksum_step (sfn_checksum b n) (b n).
Proof.
  intros. unfold sfn_checksum. rewrite (seqZ_app 0 n 1), foldl_app by lia. rewrite (seqZ_cons (0 + n) 1) by lia.
  change (seqZ (Z.succ (0 + n)) (Z.pred 1)) with (@nil Z). by rewrite Z.add_0_l.
Qed.

Lemma lfn_checksum_wp m sfn (Q : Z → memory → Prop) :
  Q (sfn_checksum (λ k, m !0 (sfn + k)) 11) m → wp (lfn_checksum sfn) Q m.
Proof.
  unfold lfn_checksum. generalize 11. intros n HQ.
  destruct (decide (0 <= n)) as [Hn|Hn].
  - rewrite wp_bind. apply (wp_fora (λ i sum m', m' = m ∧ sum = sfn_checksum (λ k, m !0 (sfn + k)) i)); [done|done| |].
    + intros i sum m' Hi [-> Hsum]. wp. split; [done|]. rewrite sfn_checksum_S, <- Hsum by lia. done.
    + intros sum m' [-> Hsum]. wp. by rewrite Hsum.
  - unfold sfn_checksum, fora_loop in *. rewrite seqZ_nil in HQ by lia. replace (Z.to_nat (n - 0)) with O by lia. exact HQ.
Qed.

(** ** The directory on the volume, proved *)

Lemma slice_get mem p n k : 0 <= k < n → slice mem p n !0 k = mem !0 (p + k).
Proof.
  intros Hk. unfold slice. rewrite store_bytes_get, length_fmap_seqZ, decide_True by lia.
  by rewrite Z.sub_0_r, lookup_fmap_seqZ by lia.
Qed.
Lemma slice_ok mem p n : bytes_ok mem → bytes_ok (slice mem p n).
Proof.
  intros Hb. apply store_bytes_ok; [intros k; unfold zget; rewrite lookup_empty; by_computation|]. apply Forall_fmap, Forall_forall. intros. apply Hb.
Qed.

Section driver_wp.
Context {D : Type} `{BlockDev D}.
Implicit Types s : driver D.

(** The driver with another mount and other memory. *)
Definition with_vol s (m : fat_mount D) (mem : memory) : driver D :=
  Driver (Volume m mem) (open_file_cache s) (open_file_cache_size s) (first_free_open_file_index s).
Lemma with_vol_id s : with_vol s (vol_mount (dr_vol s)) (vol_mem (dr_vol s)) = s.
Proof. by destruct s as [[]]. Qed.

Lemma on_mount_wp {A} (c : M (fat_mount D) A) s m mem (Q : A → driver D → Prop) :
  wp c (λ a m', Q a (with_vol s m' mem)) m → wp (on_mount c) Q (with_vol s m mem).
Proof. intros HQ. unfold on_mount. wp. exact HQ. Qed.
Lemma on_mem_wp {A} (c : M memory A) s m mem (Q : A → driver D → Prop) :
  wp c (λ a mem', Q a (with_vol s m mem')) mem → wp (on_mem c) Q (with_vol s m mem).
Proof. intros HQ. unfold on_mem. wp. exact HQ. Qed.
End driver_wp.

Section volume.
Context {D : Type} `{BlockDev D}.
Notation mount := (fat_mount D).
Implicit Types m : mount.
Variable limit : Z.
Variable fresh : list Z.
Variable dir_page : gmap Z Z.
Variable o : fat_open_file.

(** A volume with a directory [cs] that [o] has open: its chain ends with the last mark,
    and its own entry lies in another directory. *)
Record dir_open m (F : Z → Z) (cs : list Z) : Prop := {
  do_repr : fat_repr limit F m;
  do_geom : data_geom limit m;
  do_clusters : clusters_ok limit m;
  do_chain : dir_chain limit m F (first_cluster o) cs;
  do_last c : last cs = Some c → FAT32_EOC <= F c;
  do_entry : dir_ok limit m F cs o;
  do_lock : spinlock m = false;
  do_search : 2 <= fat_search_start m;
}.

(** The volume after the directory has been written with [g]: the table still has its
    chain and nothing but the directory and its own entry has changed. *)
Record dir_written m (F : Z → Z) (cs : list Z) (g : Z → Z) m' (F' : Z → Z) : Prop := {
  dn_repr : fat_repr limit F' m';
  dn_vol : same_vol m m';
  dn_chain : dir_chain limit m' F' (first_cluster o) cs;
  dn_table c : c ∉ cs → F' c = F c;
  dn_bytes k : 0 <= k < dir_length m cs → dir_bytes m' cs k = g k;
  dn_frame k : data_base m <= k → (∀ c, c ∈ cs → ¬ in_cluster m c k) →
    ¬ (dirent_pos m F o <= k < dirent_pos m F o + 32) → dev_byte (mount_src m') k = dev_byte (mount_src m) k;
}.

Lemma dir_chain_vol m m' F F' c cs :
  same_vol m m' → dir_chain limit m F c cs → file_chain limit m F' cs → dir_chain limit m' F' c cs.
Proof using Type.
  intros Hv [_ Hf Hl Hz] [Hc Hn Hok]. destruct (vol_geom m m' Hv) as (Hcs & Hdb & _). split; rewrite ?Hcs, ?Hdb; try done.
  split; [done..|]. eapply Forall_impl; [exact Hok|]. intros x. by apply vol_cluster_ok.
Qed.
Lemma dir_chain_nonempty m F c cs : dir_chain limit m F c cs → cs ≠ [] ∧ (0 < length cs)%nat ∧ head cs = Some c.
Proof using Type. intros [_ Hf _ _]. destruct cs; [done|]. simpl in *. split_and!; [done|lia|done]. Qed.

Lemma write_dir_wp m F cs buf (Q : Z * fat_open_file → mount → Prop) :
  dir_open m F cs → bytes_ok buf → bytes_ok dir_page →
  (∀ o' m' F', dir_written m F cs (λ k, buf !0 k) m' F' → Q (dir_length m cs, o') m') →
  wp (fat32_write fresh true dir_page o buf 0 (dir_length m cs)) Q m.
Proof using Type.
  intros [Hr Hg Hcl Hch _ Hen Hlk Hse] Hbuf Hpage HQ. pose proof (csz_pos limit m Hg) as Hcs.
  destruct (dir_chain_nonempty _ _ _ _ Hch) as (_ & Hlen & Hhead). pose proof Hch as [Hfc _ _ Hsize].
  assert (0 < dir_length m cs) by (unfold dir_length; nia).
  eapply wp_mono; [apply (fat32_write_wp fresh true limit m F cs); try done; [by rewrite Hhead|left; nia]|].
  intros [r o'] m' (F' & cs' & hi & Hres). cbn [fst snd] in Hres.
  destruct (write_within limit m F cs o buf 0 (dir_length m cs) r o' m' F' cs' hi Hg Hres) as (-> & -> & -> & Hfr);
    [apply Z.mod_0_l; lia|unfold dir_length; lia|].
  destruct Hres as [_ _ Hr' Hv _ Hgr _ _ _ Hb Hframe _]. apply (HQ o' m' F').
  destruct (vol_geom m m' Hv) as (Hcs' & Hdb & _). split; try done.
  - by apply (dir_chain_vol m m' F F'); [..|apply Hgr].
  - intros k Hk. unfold dir_bytes. assert (loc m' cs k = loc m cs k) as -> by (unfold loc; by rewrite Hcs', Hdb).
    rewrite Hb by lia. by rewrite Z.sub_0_r.
  - intros k Hk Hout Hent. apply Hframe; [done| |intros c Hc Hn; done|done]. intros p Hp ->.
    destruct (loc_cases limit m F cs p Hg Hfc) as (i & x & c & _ & _ & _ & Hc & _ & _ & Hin); [unfold dir_length in *; lia|].
    apply (Hout c); [|done]. by eapply list_elem_of_lookup_2.
Qed.

(** The walk to the end of the chain. *)
Lemma count_clusters_wp m F cs (Q : Z * Z → mount → Prop) :
  dir_open m F cs →
  (∀ c m', last cs = Some c → fat_repr limit F m' → same_mount limit m m' → fat_search_start m' = fat_search_start m →
     Q (c, Z.of_nat (length cs)) m') →
  wp (count_clusters fresh (first_cluster o)) Q m.
Proof using Type.
  intros [Hr Hg _ [Hch Hfst _ Hsize] Hlast _ _ _] HQ. pose proof (csz_pos limit m Hg) as Hcs. unfold count_clusters.
  apply (wp_loop (λ '(cluster, last_cluster, n) m', 0 <= n <= Z.of_nat (length cs) ∧ fat_repr limit F m' ∧ same_mount limit m m' ∧
      fat_search_start m' = fat_search_start m ∧ (0 < n → cs !! Z.to_nat (n - 1) = Some last_cluster) ∧
      match cs !! Z.to_nat n with Some c => cluster = c | None => FAT32_EOC <= cluster end)
    (λ '(_, _, n) _, Z.of_nat (length cs) - n)).
  - split_and!; [lia|lia|done|apply same_mount_refl|done|lia|]. change (Z.to_nat 0) with 0%nat. by rewrite Hfst.
  - unfold fuel32. nia.
  - intros [[? ?] n] m' [? _]. lia.
  - intros [[c l] n] m' (Hn & Hr' & Hs' & Hse' & Hl & Hc). destruct (cs !! Z.to_nat n) as [d|] eqn:Hd.
    + subst c. pose proof (lookup_lt_Some _ _ _ Hd). pose proof (fc_cluster _ _ _ _ _ _ Hch Hd) as [Hidx Heoc _ _].
      rewrite (proj2 (Z.ltb_lt d FAT32_EOC)) by (unfold FAT32_EOC, FAT32_EOC_MIN in *; lia). wp.
      apply (get_next_wp fresh limit F); [done|lia|]. intros m2 Hr2 Hs2 Hse2. wp.
      rewrite u32_id by (unfold is_u32; nia). split; [|lia].
      split_and!; [lia|lia|done|by eapply same_mount_trans|by rewrite Hse2| |].
      * intros _. by replace (n + 1 - 1) with n by lia.
      * replace (Z.to_nat (n + 1)) with (S (Z.to_nat n)) by lia. pose proof (fc_chain _ _ _ _ Hch _ _ Hd) as Hnext.
        destruct (cs !! S (Z.to_nat n)) as [e|] eqn:He; [done|]. apply Hlast. rewrite last_lookup. rewrite <- Hd. f_equal.
        apply lookup_ge_None_1 in He. lia.
    + apply lookup_ge_None_1 in Hd. rewrite (proj2 (Z.ltb_ge c FAT32_EOC)) by done. wp.
      assert (n = Z.of_nat (length cs)) as -> by lia.
      destruct cs as [|c0 cs0] eqn:Ecs; [done|]. rewrite <- Ecs in *.
      apply HQ; [|done..]. rewrite last_lookup. rewrite <- Hl by (rewrite Ecs; simpl; lia). f_equal. lia.
Qed.
End volume.

(** ** A new file, proved *)

(** The regions of memory a new name needs do not overlap: the name and six bytes behind
    it, the array of the short name, the [n + 1] new entries and the directory. *)
Record create_layout (f short dw buffer len n : Z) (s : list Z) : Prop := {
  la_short : 0 < short;
  la_buffer : 0 < buffer;
  la_name_short : apart f (Z.of_nat (length s) + 6) short 20;
  la_dw_name : apart dw (32 * (n + 1)) f (Z.of_nat (length s) + 1);
  la_dw_short : apart dw (32 * (n + 1)) short 20;
  la_dw_dir : apart dw (32 * (n + 1)) buffer len;
  la_dir_name : apart buffer len f (Z.of_nat (length s) + 6);
  la_dir_short : apart buffer len short 20;
}.

(** A name [n] entries hold. *)
Definition name_ok (s : list Z) (n : Z) : Prop :=
  ascii_name s ∧ 13 * (n - 1) < Z.of_nat (length s) <= 13 * n ∧ 0 < n < 64.

(** The short name: the first character, a tilde, the number of the name, and what stands
    behind its dot. *)
Record short_name_of (s : list Z) (count : Z) (b : Z → Z) : Prop := {
  sn_first : b 0 = nth 0 s 0;
  sn_tilde : b 1 = 126;
  sn_number k x : (k < 6)%nat → numeral 10 count !! k = Some x → b (2 + Z.of_nat k) = x;
  sn_ext k : 0 <= k < 3 → ext_pos s + k < Z.of_nat (length s) → b (8 + k) = nth (Z.to_nat (ext_pos s + k)) s 0;
}.

(** The entries from [free] on hold the name, and an empty file with the flags. *)
Record new_entries (b : Z → Z) (free n ck flags count : Z) (s : list Z) : Prop := {
  ne_name t o : 0 <= t < n → 0 <= o < 32 → b (32 * (free + t) + o) = entry_byte s n ck (n - 1 - t) o;
  ne_flags : b (32 * (free + n) + d_flags) = Z.land flags 0x2f;
  ne_empty k : empty_field k → b (32 * (free + n) + k) = 0;
  ne_short : short_name_of s count (λ k, b (32 * (free + n) + k));
  ne_checksum : ck = sfn_checksum (λ k, b (32 * (free + n) + k)) 11;
}.

Section fill.
Variables (f short dw buffer len n : Z) (s : list Z) (mem : memory).
Context (Hlay : create_layout f short dw buffer len n s) (Hname : name_ok s n) (Hstr : cstr mem f s) (Hbytes : bytes_ok mem).

(** What is done in memory before the directory is written. *)
Definition fill_memory (matches flags free : Z) : M memory unit :=
  c ← ld f; st short c;; st (short + 1) 126;;
  make_short_name short f (Z.of_nat (length s)) matches;;
  checksum ← lfn_checksum short;
  create_entries dw n checksum f short flags buffer free.

Lemma name_bytes k : 0 <= k < Z.of_nat (length s) → mem !0 (f + k) = nth (Z.to_nat k) s 0.
Proof using Hstr. intros. apply cstr_at; [done|lia]. Qed.

Lemma checksum_ext b b' k : (∀ i, 0 <= i < k → b i = b' i) → sfn_checksum b k = sfn_checksum b' k.
Proof.
  intros Hb. destruct (decide (0 <= k)) as [Hk|]; [|unfold sfn_checksum; by rewrite !seqZ_nil by lia].
  revert k Hk Hb. apply (natlike_ind (λ k, (∀ i, 0 <= i < k → b i = b' i) → sfn_checksum b k = sfn_checksum b' k)); [done|].
  intros k Hk IH Hb. change (Z.succ k) with (k + 1). rewrite !sfn_checksum_S by lia. rewrite IH by (intros; apply Hb; lia).
  by rewrite Hb by lia.
Qed.

Lemma fill_memory_wp matches flags free (Q : unit → memory → Prop) :
  0 <= matches <= 999999 → 0 <= free → 32 * (free + n + 1) <= len →
  (∀ mem', bytes_ok mem' → (∃ ck, new_entries (λ k, mem' !0 (buffer + k)) free n ck flags matches s) →
     (∀ k, ¬ (dw <= k < dw + 32 * (n + 1)) → ¬ (short <= k < short + 20) →
        ¬ (dirent buffer free <= k < dirent buffer free + 32 * (n + 1)) → mem' !0 k = mem !0 k) → Q tt mem') →
  wp (fill_memory matches flags free) Q mem.
Proof using Hlay Hname Hstr Hbytes.
  intros Hm Hfree Hlen HQ. destruct Hname as (Ha & HL & Hn). unfold fill_memory. wp.
  destruct Hlay as [Hs0 Hb0 Hns Hdn Hds Hdd Hbn Hbs]. unfold apart in *.
  set (mem1 := <[short + 1 := u8 126]> (<[short := u8 (mem !0 f)]> mem)).
  assert (∀ k, ¬ (short <= k < short + 2) → mem1 !0 k = mem !0 k) as Hfr1 by (intros; unfold mem1; by rewrite !zget_insert_ne by lia).
  assert (bytes_ok mem1) as Hok1.
  { intros k. unfold mem1. rewrite !zget_insert. repeat case_decide; [apply is_u8_u8..|apply Hbytes]. }
  apply (make_short_name_wp mem1 short f s matches); [apply (cstr_frame mem); [done|intros; apply Hfr1; lia]|done|unfold apart; lia|lia|lia|].
  intros mem2 Hok2 Hfr2 Hnum Hext. wp. apply lfn_checksum_wp. set (ck := sfn_checksum _ 11).
  set (fn := Z.max (dw + 32 * (n + 1)) (dirent buffer free + 32 * (n + 1)) + 1).
  assert (cstr mem2 f s) as Hstr2 by (apply (cstr_frame mem); [done|]; intros; rewrite Hfr2, Hfr1 by lia; done).
  apply (create_entries_wp mem2 f short dw buffer free fn n s).
  { split; unfold apart; done || unfold fn, dirent; lia. }
  intros mem3 Hok3 Hent Hfl Hsn Hze Hfr3.
  assert (∀ k, 0 <= k < 11 → mem3 !0 (buffer + (32 * (free + n) + k)) = mem2 !0 (short + k)) as Hsn'.
  { intros k Hk. rewrite <- Hsn by done. f_equal. unfold dirent. lia. }
  apply HQ; [done| |].
  - exists ck. split.
    + intros t o Ht Ho. rewrite <- Hent by done. f_equal. unfold dirent. lia.
    + rewrite <- Hfl. f_equal. unfold dirent. lia.
    + intros k Hk. rewrite <- (Hze k Hk). f_equal. unfold dirent. lia.
    + assert (mem1 !0 short = mem !0 f) as H0.
      { unfold mem1. rewrite zget_insert_ne, zget_insert_eq by lia. apply u8_id, Hbytes. }
      split.
      * rewrite Hsn', Z.add_0_r, Hfr2, H0 by lia. rewrite <- (Z.add_0_r f). apply name_bytes. lia.
      * rewrite Hsn', Hfr2 by lia. unfold mem1. by rewrite zget_insert_eq.
      * intros k x Hk Hx. rewrite Hsn' by lia. rewrite Z.add_assoc. by apply Hnum.
      * intros k Hk Hin. pose proof (ext_pos_range s). rewrite Hsn', Z.add_assoc, Hext, Hfr1 by lia. rewrite <- Z.add_assoc. apply name_bytes. lia.
    + apply checksum_ext. intros k Hk. by rewrite Hsn'.
  - intros k H1 H2 H3. rewrite Hfr3, Hfr2, Hfr1 by lia. done.
Qed.
End fill.

Section create_proof.
Context {D : Type} `{BlockDev D}.
Notation mount := (fat_mount D).
Implicit Types m : mount.
Variable limit : Z.
Variable fresh : list Z.
Variable dir_page : gmap Z Z.
Variables (b_buffer b_new b_dirents short_filename : Z).
Variable o : fat_open_file.

(** The directory from a table read on. *)
Lemma dir_open_same m m' F cs :
  dir_open limit o m F cs → fat_repr limit F m' → same_mount limit m m' → fat_search_start m' = fat_search_start m →
  dir_open limit o m' F cs.
Proof using Type.
  intros [Hr Hg [Hcl Hok] Hch Hla Hen Hlk Hse] Hr' Hs' Hse'. destruct (vol_geom m m' (same_mount_vol limit m m' Hs')) as (Hcs & Hdb & _ & Hlim).
  split; try done.
  - by apply (data_geom_same limit m).
  - split; [by rewrite Hlim|]. rewrite Hlim. intros c Hc. by apply (cluster_ok_same limit m), Hok.
  - by apply (dir_chain_same limit m).
  - destruct Hen as [? ? Hu ? ?]. split; unfold dirent_home in *; rewrite ?Hcs, ?Hdb, ?(sm_size _ _ _ Hs'); try done.
    intros j Hj. destruct (Hu j Hj) as (? & ? & ?). split_and!; [by apply (cluster_ok_same limit m)|done|done].
  - by rewrite (sm_lock _ _ _ Hs').
  - by rewrite Hse'.
Qed.

Lemma unslice_get buf p n mem k : 0 <= n →
  unslice buf p n mem !0 k = if decide (p <= k < p + n) then buf !0 (k - p) else mem !0 k.
Proof using Type.
  intros Hn. unfold unslice. rewrite store_bytes_get, length_buf_bytes by done. case_decide; [|done].
  rewrite lookup_buf_bytes by lia. done.
Qed.

Lemma read_dir_wp m mem F cs (Q : Z → driver D → Prop) s :
  dir_open limit o m F cs →
  (∀ m' mem', dir_open limit o m' F cs → same_mount limit m m' →
     patched mem mem' b_buffer (b_buffer + dir_length m cs) (λ k, dir_bytes m cs (k - b_buffer)) →
     Q (dir_length m cs) (with_vol s m' mem')) →
  wp (fat32_read_mem fresh o b_buffer 0 (dir_length m cs)) Q (with_vol s m mem).
Proof using Type.
  intros Hd HQ. pose proof Hd as [Hr Hg _ Hch _ _ _ _]. pose proof (csz_pos limit m Hg) as Hcs.
  destruct (dir_chain_nonempty _ _ _ _ _ Hch) as (_ & Hlen & Hhead). pose proof Hch as [Hfc Hfst _ Hsize].
  assert (0 < dir_length m cs) by (unfold dir_length; nia).
  unfold fat32_read_mem. rewrite wp_bind, wp_gets, wp_bind. apply on_mount_wp.
  eapply wp_mono; [apply (wp_preserves _ _ (λ rb m', rb.1 = dir_length m cs ∧ fat_repr limit F m' ∧ same_mount limit m m' ∧
    ∀ k, 0 <= k < dir_length m cs → rb.2 !0 k = dir_bytes m cs k) _ (fat32_read_search fresh (first_cluster o) _ 0 (dir_length m cs)))|].
  - apply (fat32_read_wp fresh limit F); [done|done|lia|done|unfold dir_length; lia| |].
    { intros j Hj. assert (j < length cs)%nat by (unfold dir_length in Hj; nia).
      eapply fc_cluster; [exact Hfc|]. apply chain_nth; [apply Hfc|done|done]. }
    intros r buf' m' Hr' Hs' Hbuf Hret _. cbn [fst snd]. split_and!; [by apply Hret, Z.mod_0_l; lia|done|done|].
    intros k Hk. rewrite Hbuf, decide_True by done. rewrite Z.add_0_l. by apply (file_byte_loc limit).
  - intros [r buf'] m' [(Hret & Hr' & Hs' & Hbuf) Hse']. cbn [fst snd] in Hret, Hbuf. subst r. cbn beta iota. rewrite wp_bind. apply on_mem_wp. wp.
    apply HQ; [by apply (dir_open_same m)|done|]. intros k. rewrite unslice_get by lia. case_decide; [|done]. apply Hbuf. lia.
Qed.

(** The directory of an open file in memory. *)
Lemma load_directory_wp m mem F cs (Q : option (Z * Z) → driver D → Prop) s :
  dir_open limit o m F cs → b_buffer ≠ 0 →
  (∀ c m' mem', last cs = Some c → dir_open limit o m' F cs → same_mount limit m m' →
     patched mem mem' b_buffer (b_buffer + dir_length m cs) (λ k, dir_bytes m cs (k - b_buffer)) →
     Q (Some (c, Z.of_nat (length cs))) (with_vol s m' mem')) →
  wp (load_directory fresh b_buffer o) Q (with_vol s m mem).
Proof using Type.
  intros Hd Hb HQ. pose proof Hd as [Hr Hg _ Hch _ _ _ _]. pose proof (csz_pos limit m Hg) as Hcs.
  destruct (dir_chain_nonempty _ _ _ _ _ Hch) as (_ & Hlen & Hhead). pose proof Hch as [Hfc Hfst _ Hsize].
  pose proof (co_index _ _ _ (fc_cluster _ _ _ _ _ _ Hfc Hfst)).
  unfold load_directory. rewrite wp_bind. apply on_mount_wp. wp. rewrite (proj2 (Z.eqb_neq (first_cluster o) 0)) by lia.
  rewrite wp_bind. apply on_mount_wp. apply (count_clusters_wp limit fresh o m F cs); [done|].
  intros c m1 Hlast Hr1 Hs1 Hse1. cbn beta iota. rewrite (proj2 (Z.eqb_neq b_buffer 0)) by done.
  pose proof (dir_open_same m m1 F cs Hd Hr1 Hs1 Hse1) as Hd1. destruct (same_csz limit m m1 Hs1) as [Hc1 _].
  assert (dir_length m1 cs = dir_length m cs) as Hdl by (unfold dir_length; by rewrite Hc1).
  rewrite u32_id by (unfold is_u32; nia). change (Z.of_nat (length cs) * cluster_size_bytes m) with (dir_length m cs).
  rewrite <- Hdl, wp_bind. apply (read_dir_wp m1 mem F cs); [done|]. intros m2 mem2 Hd2 Hs2 Hmem. wp.
  apply HQ; [done|done|by eapply same_mount_trans|]. rewrite Hdl in Hmem. eapply patched_ext; [exact Hmem|].
  intros k Hk. by apply (dir_bytes_same limit m m1 F (first_cluster o)); [..|lia].
Qed.
End create_proof.

(** ** What a directory holds afterwards *)

(** The items, and no entry of theirs looks like the end of the directory. *)
Record dir_holds (b : Z → Z) (its : list item) : Prop := {
  dh_items : items_at b 0 its;
  dh_used i : 0 <= i < slots its → b (32 * i) ≠ 0;
}.

Lemma slots_snoc its it : slots (its ++ [it]) = slots its + item_entry it + 1.
Proof. induction its as [|x its IH]; cbn [slots foldr app] in *; [lia|]. fold (slots (its ++ [it])) (slots its). lia. Qed.

Lemma items_at_snoc b b' i its it :
  items_at b i its → (∀ k, 32 * i <= k < 32 * (i + slots its) → b' k = b k) → item_ok it → item_at b' (i + slots its) it →
  b' (32 * (i + slots its + item_entry it + 1)) = 0 → items_at b' i (its ++ [it]).
Proof.
  intros Hat Hb Hok Hit Hz. revert i Hat Hb Hit Hz. induction its as [|x its IH]; intros i Hat Hb Hit Hz; cbn [items_at slots foldr app] in *.
  - rewrite Z.add_0_r in Hit, Hz. done.
  - fold (slots its) in *. destruct Hat as (Hx & Hxat & Hr). pose proof (item_entry_nonneg _ Hx).
    pose proof (slots_nonneg its (items_ok _ _ _ Hr)). split; [done|]. split.
    + apply (item_ext b); [intros k Hk; apply Hb; lia|done|done].
    + apply IH; [done|intros k Hk; apply Hb; lia| |].
      * by replace (i + item_entry x + 1 + slots its) with (i + (item_entry x + 1 + slots its)) by lia.
      * rewrite <- Hz. f_equal. lia.
Qed.

Lemma find_item_snoc name i its it :
  find_item name i (its ++ [it]) =
    match find_item name i its with
    | Some ix => Some ix
    | None => if decide (name = item_name it) then Some (i + slots its + item_entry it) else None
    end.
Proof.
  revert i. induction its as [|x its IH]; intros i; cbn [find_item app slots foldr]; [by rewrite Z.add_0_r|].
  fold (slots its). destruct (decide (name = item_name x)); [done|]. rewrite IH. destruct (find_item name (i + item_entry x + 1) its); [done|].
  destruct (decide (name = item_name it)); [|done]. f_equal. lia.
Qed.

Lemma new_entries_item b its n ck flags count s :
  name_ok s n → Z.of_nat (length s) < 256 → Z.land flags 0xf = 0 → new_entries b (slots its) n ck flags count s →
  item_ok (Long ck n s) ∧ item_at b (slots its) (Long ck n s).
Proof.
  intros (Ha & HL & Hn) Hlen Hfl [Hnm Hf _ _ _]. split; [done|]. split; [intros t o Ht Ho; by apply Hnm|].
  rewrite Hf, <- Z.land_assoc. change (Z.land 0x2f FAT32_LONG_FILE_NAME) with 0xf. done.
Qed.

(** The new entries behind the others, in front of an entry that was never used. *)
Lemma dir_holds_snoc b b' its n ck flags count s :
  dir_holds b its → name_ok s n → Z.of_nat (length s) < 256 → Z.land flags 0xf = 0 →
  (∀ k, 0 <= k < 32 * slots its → b' k = b k) → new_entries b' (slots its) n ck flags count s →
  b' (32 * (slots its + n + 1)) = 0 → dir_holds b' (its ++ [Long ck n s]).
Proof.
  intros [Hat Hused] Hn Hlen Hfl Hb Hnew Hz. destruct (new_entries_item b' its n ck flags count s Hn Hlen Hfl Hnew) as [Hok Hit].
  split.
  - apply (items_at_snoc b); [done|intros k Hk; apply Hb; lia|done|done|done].
  - rewrite slots_snoc. cbn [item_entry]. intros i Hi. destruct (decide (i < slots its)) as [Hlt|Hge].
    + rewrite Hb by lia. apply Hused. lia.
    + destruct Hn as (Ha & HL & Hn). destruct (decide (i = slots its + n)) as [->|Hne].
      * pose proof (sn_first _ _ _ (ne_short _ _ _ _ _ _ _ Hnew)) as H0. cbn beta in H0. rewrite Z.add_0_r in H0. rewrite H0.
        destruct s as [|x s]; [simpl in HL; lia|]. inversion Ha. simpl. lia.
      * pose proof (ne_name _ _ _ _ _ _ _ Hnew (i - slots its) 0 ltac:(lia) ltac:(lia)) as H0.
        rewrite Z.add_0_r in H0. replace (slots its + (i - slots its)) with i in H0 by lia. rewrite H0.
        destruct (entry_no_eq s n ck (n - 1 - (i - slots its))) as [Hno _]; [lia..|]. lia.
Qed.

Lemma items_end b i its : items_at b i its → b (32 * (i + slots its)) = 0.
Proof.
  revert i. induction its as [|it its IH]; intros i; cbn [items_at slots foldr]; [by rewrite Z.add_0_r|].
  fold (slots its). intros (_ & _ & Hr). rewrite <- (IH _ Hr). f_equal. lia.
Qed.

Lemma new_entries_ext b b' free n ck flags count s :
  0 <= n → (∀ k, 32 * free <= k < 32 * (free + n + 1) → b' k = b k) → new_entries b free n ck flags count s → new_entries b' free n ck flags count s.
Proof.
  intros Hn Hb [H1 H2 H3 [S1 S2 S3 S4] H5].
  assert (∀ k, 0 <= k < 32 → b' (32 * (free + n) + k) = b (32 * (free + n) + k)) as Hr by (intros; apply Hb; lia).
  split.
  - intros t o Ht Ho. rewrite Hb by lia. by apply H1.
  - rewrite Hr by (unfold d_flags; lia). done.
  - intros k Hk. rewrite Hr by (unfold empty_field in Hk; lia). by apply H3.
  - split; [by rewrite Hr|by rewrite Hr| |].
    + intros k x Hk Hx. rewrite Hr by lia. by apply S3.
    + intros k Hk Hin. rewrite Hr by lia. by apply S4.
  - rewrite H5. apply checksum_ext. intros i Hi. symmetry. apply Hr. lia.
Qed.

(** ** Creating a file *)

Section create_spec.
Context {D : Type} `{BlockDev D}.
Notation mount := (fat_mount D).
Implicit Types m : mount.
Variable limit : Z.
Variable fresh : list Z.
Variable dir_page : gmap Z Z.
Variables (b_buffer b_new b_dirents short_filename : Z).
Variable o : fat_open_file.
Notation create := (create_in fresh true dir_page b_buffer b_new b_dirents short_filename o).

(** The number of names that start like the new one. *)
Definition namesakes (b : Z → Z) (its : list item) (s : list Z) : Z := starts_with b (nth 0 s 0) (Z.to_nat (slots its)).

(** A directory with the items, and room for the new ones in front of an entry that was
    never used. *)
Record dir_room m (F : Z → Z) (cs : list Z) (its : list item) (s : list Z) (n : Z) : Prop := {
  dr_open : dir_open limit o m F cs;
  dr_holds : dir_holds (dir_bytes m cs) its;
  dr_name : name_ok s n;
  dr_slots : 32 * (slots its + n + 2) <= dir_length m cs;
  dr_zero : dir_bytes m cs (32 * (slots its + n + 1)) = 0;
  dr_namesakes : namesakes (dir_bytes m cs) its s <= 999999;
}.

Lemma entry_count_eq m F cs : dir_open limit o m F cs → 32 * (dir_length m cs / 32) = dir_length m cs.
Proof using Type.
  intros [_ Hg _ _ _ [Hsz _ _ _ _] _ _]. destruct (dg_size limit m Hg) as (p & Hp & Hpow). rewrite Hpow in Hsz.
  assert (5 <= p) by (apply (Z.pow_le_mono_r_iff 2); lia). unfold dir_length. rewrite Hpow.
  replace (2 ^ p) with (2 ^ (p - 5) * 32) by (change 32 with (2 ^ 5); rewrite <- Z.pow_add_r by lia; f_equal; lia).
  rewrite Z.mul_assoc, Z.div_mul by lia. lia.
Qed.

Lemma starts_with_ext b b' x k : (∀ i, 0 <= i < Z.of_nat k → b (32 * i) = b' (32 * i)) → starts_with b x k = starts_with b' x k.
Proof using Type.
  induction k as [|k IH]; intros Hb; [done|]. cbn [starts_with]. rewrite IH by (intros; apply Hb; lia). by rewrite Hb by lia.
Qed.

(** The search in the directory that has been read. *)
Lemma find_dir_place_wp m F cs its s n f mem (Q : place → memory → Prop) :
  dir_room m F cs its s n → bytes_ok mem → (∀ k, 0 <= k < dir_length m cs → mem !0 (b_buffer + k) = dir_bytes m cs k) →
  mem !0 f = nth 0 s 0 →
  Q (Place true (slots its) (namesakes (dir_bytes m cs) its s)) mem →
  wp (find_place b_buffer (dir_length m cs / 32) (n + 1) f) Q mem.
Proof using Type.
  intros [Hd [Hat Hused] (Ha & HL & Hn) Hroom Hz Hsake] Hok Hbuf Hf HQ. pose proof (entry_count_eq m F cs Hd) as Hec.
  pose proof (slots_nonneg its (items_ok _ _ _ Hat)) as Hsl.
  pose proof (dc_size _ _ _ _ _ (do_chain _ _ _ _ _ Hd)) as Hsz. fold (dir_length m cs) in Hsz.
  pose proof (items_end _ _ _ Hat) as Hend. rewrite Z.add_0_l in Hend.
  apply (find_place_wp b_buffer (dir_length m cs / 32) (n + 1) f mem Hok ltac:(lia) ltac:(lia) (slots its)).
  - lia.
  - intros i Hi. rewrite Hbuf by lia. by apply Hused.
  - intros _. by rewrite Hbuf by lia.
  - rewrite bool_decide_eq_true_2, decide_True by lia. rewrite Hf.
    rewrite (starts_with_ext _ (dir_bytes m cs)); [done|]. intros i Hi. apply Hbuf. lia.
Qed.

(** The memory outside of the buffers. *)
Definition out_of_buffers (len n k : Z) : Prop :=
  ¬ (b_dirents <= k < b_dirents + 32 * (n + 1)) ∧ ¬ (short_filename <= k < short_filename + 20) ∧ ¬ (b_buffer <= k < b_buffer + len).

(** What has come of it: the new entries on the volume, everything else in the directory
    as it was. *)
Record file_created m F cs its s n flags ck (mem : memory) (st' : driver D) (F' : Z → Z) (g : Z → Z) : Prop := {
  fc_written : dir_written limit o m F cs g (vol_mount (dr_vol st')) F';
  fc_entries : new_entries g (slots its) n ck flags (namesakes (dir_bytes m cs) its s) s;
  fc_others k : 0 <= k < dir_length m cs → ¬ (32 * slots its <= k < 32 * (slots its + n + 1)) → g k = dir_bytes m cs k;
  fc_memory k : out_of_buffers (dir_length m cs) n k → vol_mem (dr_vol st') !0 k = mem !0 k;
}.

Lemma fill_directory_wp m F cs its s n f flags mem st (Q : option Z → driver D → Prop) :
  dir_room m F cs its s n → create_layout f short_filename b_dirents b_buffer (dir_length m cs) n s →
  cstr mem f s → bytes_ok mem → bytes_ok dir_page →
  (∀ k, 0 <= k < dir_length m cs → mem !0 (b_buffer + k) = dir_bytes m cs k) →
  (∀ st' F' ck g, file_created m F cs its s n flags ck mem st' F' g → Q (Some (dir_length m cs)) st') →
  wp (fill_directory fresh true dir_page b_dirents short_filename o f (Z.of_nat (length s)) (n + 1) flags b_buffer
        (Z.of_nat (length cs)) (slots its) (namesakes (dir_bytes m cs) its s)) Q (with_vol st m mem).
Proof using Type.
  intros Hroom Hlay Hs Hok Hpage Hbuf HQ. pose proof Hroom as [Hd [Hat Hused] Hname Hslots Hz Hsake].
  pose proof Hd as [_ Hg _ Hch _ _ _ _]. pose proof (csz_pos limit m Hg) as Hcs. pose proof (dc_size _ _ _ _ _ Hch) as Hsz.
  pose proof (slots_nonneg its (items_ok _ _ _ Hat)) as Hsl.
  pose proof (starts_with_range (dir_bytes m cs) (nth 0 s 0) (Z.to_nat (slots its))) as Hsk. fold (namesakes (dir_bytes m cs) its s) in Hsk.
  assert (wp (fill_memory f short_filename b_dirents b_buffer n s (namesakes (dir_bytes m cs) its s) flags (slots its))
    (λ _ mem', wp (r ← fat32_write_mem fresh true dir_page o b_buffer 0 (u32 (cluster_size_bytes m * Z.of_nat (length cs))); mret (Some r))
       Q (with_vol st m mem')) mem) as Hfill.
  - apply (fill_memory_wp f short_filename b_dirents b_buffer (dir_length m cs) n s); [done|done|done|done|lia|lia|lia|].
    intros mem' Hok' [ck Hnew] Hfr. unfold dirent in Hfr.
    rewrite u32_id, Z.mul_comm by (unfold is_u32; nia). change (Z.of_nat (length cs) * cluster_size_bytes m) with (dir_length m cs).
    unfold fat32_write_mem. wp. apply on_mount_wp. apply (write_dir_wp limit fresh dir_page o m F cs); [done|by apply slice_ok|done|].
    intros o' m' F' Hw. wp. cbn [with_vol dr_vol vol_mem] in Hw. apply (HQ _ F' ck (λ k, mem' !0 (b_buffer + k))). split.
    + destruct Hw as [? ? ? ? Hb ?]. split; try done. intros k Hk. rewrite Hb by done. by apply slice_get.
    + done.
    + intros k Hk Hout. rewrite <- Hbuf by done. destruct Hlay as [_ _ _ _ _ Hdd _ Hds]. unfold apart in Hdd, Hds. apply Hfr; lia.
    + intros k (H1 & H2 & H3). cbn [with_vol dr_vol vol_mem]. apply Hfr; [done|done|lia].
  - unfold fill_directory. rewrite wp_bind. apply on_mount_wp. wp. apply on_mem_wp.
    rewrite (proj2 (Z.ltb_ge 999999 _)) by lia. replace (n + 1 - 1) with n by lia.
    unfold fill_memory in Hfill. autorewrite with wp in Hfill |- *. cbn beta iota. apply on_mem_wp. rewrite wp_bind. exact Hfill.
Qed.

(** The description of the volume does not depend on where the window lies. *)
Section moved.
Variables (m m' : mount) (F : Z → Z) (cs : list Z) (its : list item) (s : list Z) (n : Z).
Context (Hroom : dir_room m F cs its s n) (Hopen : dir_open limit o m' F cs) (Hsame : same_mount limit m m').

Lemma moved_length : dir_length m' cs = dir_length m cs.
Proof using Hsame. unfold dir_length. by destruct (same_csz limit m m' Hsame) as [-> _]. Qed.
Lemma moved_bytes k : 0 <= k < dir_length m cs → dir_bytes m' cs k = dir_bytes m cs k.
Proof using Hroom Hsame.
  destruct Hroom as [[_ Hg _ Hch _ _ _ _] _ _ _ _ _]. intros. by apply (dir_bytes_same limit m m' F (first_cluster o)).
Qed.
Lemma moved_namesakes : namesakes (dir_bytes m' cs) its s = namesakes (dir_bytes m cs) its s.
Proof using Hroom Hsame.
  pose proof Hroom as [_ [Hat _] (_ & _ & Hn) Hsl _ _]. pose proof (slots_nonneg its (items_ok _ _ _ Hat)).
  apply starts_with_ext. intros i Hi. apply moved_bytes. lia.
Qed.
Lemma moved_room : dir_room m' F cs its s n.
Proof using Hroom Hopen Hsame.
  pose proof Hroom as [_ [Hat Hused] Hname Hsl Hz Hk]. pose proof Hname as (_ & _ & Hn). pose proof (slots_nonneg its (items_ok _ _ _ Hat)).
  split; rewrite ?moved_length, ?moved_namesakes; try done.
  - split; [apply (items_ext (dir_bytes m cs)); [intros; apply moved_bytes; lia|done]|].
    intros i Hi. rewrite moved_bytes by lia. by apply Hused.
  - rewrite moved_bytes by lia. done.
Qed.

Lemma moved_created flags ck (mem mem' : memory) st' F' g :
  (∀ k, out_of_buffers (dir_length m cs) n k → mem' !0 k = mem !0 k) →
  file_created m' F cs its s n flags ck mem' st' F' g → file_created m F cs its s n flags ck mem st' F' g.
Proof using Hroom Hsame.
  intros Hmem [[Hr Hv Hc Ht Hb Hfr] Hent Hoth Hm]. destruct (same_csz limit m m' Hsame) as [Hcs Hdb].
  pose proof (dr_open _ _ _ _ _ _ Hroom) as [_ Hg _ _ _ _ _ _].
  rewrite moved_length in *. rewrite moved_namesakes in Hent. split; [split; try done|done| |].
  - by apply (same_vol_trans m m'); [apply (same_mount_vol limit)|].
  - intros k Hk Hout Hpos. rewrite Hfr.
    + by apply (data_byte_same limit).
    + by rewrite Hdb.
    + intros c Hc'. unfold in_cluster. rewrite Hcs, Hdb. by apply Hout.
    + unfold dirent_pos, dirent_home in *. by rewrite Hcs, Hdb.
  - intros k Hk Hn. rewrite Hoth by done. by apply moved_bytes.
  - intros k Hk. rewrite Hm by done. by apply Hmem.
Qed.
End moved.

Lemma create_in_wp m F cs its s n f flags mem st (Q : option Z → driver D → Prop) :
  dir_room m F cs its s n → create_layout f short_filename b_dirents b_buffer (dir_length m cs) n s →
  cstr mem f s → bytes_ok mem → bytes_ok dir_page →
  (∀ st' F' ck g, file_created m F cs its s n flags ck mem st' F' g → Q (Some (dir_length m cs)) st') →
  wp (create f flags) Q (with_vol st m mem).
Proof using Type.
  intros Hroom Hlay Hs Hok Hpage HQ. pose proof Hroom as [Hd [Hat Hused] Hname Hslots Hz Hsake].
  pose proof Hd as [Hr Hg _ Hch _ _ _ _]. pose proof (csz_pos limit m Hg) as Hcs. pose proof (dc_size _ _ _ _ _ Hch) as Hsz.
  pose proof (slots_nonneg its (items_ok _ _ _ Hat)) as Hsl. pose proof (entry_count_eq m F cs Hd) as Hec.
  pose proof Hname as (Ha & HL & Hn). pose proof Hlay as [Hl1 Hl2 Hl3 Hl4 Hl5 Hl6 Hl7 Hl8]. unfold apart in *.
  unfold create_in. rewrite wp_bind. apply on_mount_wp. wp. apply on_mem_wp. apply (strlen_wp _ _ s); [done|]. cbn beta. rewrite wp_bind.
  apply (load_directory_wp limit fresh b_buffer o m mem F cs); [done|lia|]. intros last m1 mem1 Hlast Hd1 Hs1 Hmem1. cbn beta iota.
  assert (u32 (Z.of_nat (length s) + 13 - 1) / 13 + 1 = n + 1) as ->.
  { rewrite u32_id by (unfold is_u32; lia). f_equal. symmetry. apply (Z.div_unique _ _ _ (Z.of_nat (length s) + 12 - 13 * n)); lia. }
  rewrite (u32_id (cluster_size_bytes m * _)) by (unfold is_u32; nia).
  rewrite (Z.mul_comm (cluster_size_bytes m)). change (Z.of_nat (length cs) * cluster_size_bytes m) with (dir_length m cs).
  assert (bytes_ok mem1) as Hok1 by (eapply bytes_ok_patched; [exact Hok|exact Hmem1|]; intros; apply dev_byte_u8, (fr_geom _ _ _ Hr)).
  wp. apply on_mem_wp. apply memcpy_wp; [lia|unfold apart; lia|intros; apply Hok1|]. intros mem2 Hmem2. wp. apply on_mem_wp.
  assert (bytes_ok mem2) as Hok2 by (eapply bytes_ok_patched; [exact Hok1|exact Hmem2|]; intros; apply Hok1).
  assert (∀ k, 0 <= k < dir_length m cs → mem2 !0 (b_buffer + k) = dir_bytes m cs k) as Hbuf.
  { intros k Hk. rewrite (patched_out _ _ _ _ _ _ Hmem2), (patched_in _ _ _ _ _ _ Hmem1) by lia. f_equal. lia. }
  assert (cstr mem2 f s) as Hs2.
  { apply (cstr_frame mem); [done|]. intros k Hk. rewrite (patched_out _ _ _ _ _ _ Hmem2), (patched_out _ _ _ _ _ _ Hmem1) by lia. done. }
  apply (find_dir_place_wp m F cs its s n); [done|done|done| |].
  { rewrite <- (Z.add_0_r f). apply cstr_at; [done|lia]. }
  assert (dir_length m cs < 2 ^ 31) by exact Hsz.
  cbn [found free_index short_filename_matches negb orb]. rewrite (u32_id (slots its + (n + 1))) by (unfold is_u32; lia).
  rewrite Z.gtb_ltb, (proj2 (Z.ltb_ge _ _)) by lia. wp. pose proof (moved_room m m1 F cs its s n Hroom Hd1 Hs1) as Hroom1.
  rewrite <- (moved_namesakes m m1 F cs its s n Hroom Hs1). pose proof (moved_length m m1 cs Hs1) as Hdl.
  apply (fill_directory_wp m1 F cs its s n); [done|by rewrite Hdl|done|done|done| |].
  - rewrite Hdl. intros k Hk. rewrite Hbuf by done. symmetry. by apply (moved_bytes m m1 F cs its s n).
  - rewrite Hdl. intros st' F' ck g Hcr. apply (HQ st' F' ck g). apply (moved_created m m1 F cs its s n Hroom Hs1 flags ck mem mem2 st' F' g); [|done].
    intros k (Hk1 & Hk2 & Hk3). rewrite (patched_out _ _ _ _ _ _ Hmem2), (patched_out _ _ _ _ _ _ Hmem1) by lia. done.
Qed.
End create_spec.

(** ** A directory without room *)

Section extend.
Context {D : Type} `{BlockDev D}.
Notation mount := (fat_mount D).
Implicit Types m : mount.
Variable limit : Z.
Variable fresh : list Z.
Variables (b_buffer b_new : Z).
Variable o : fat_open_file.

(** The directory with one cluster more: on the volume it is linked in, in memory the old
    part is copied, and [csz] bytes far behind the new buffer are cleared instead of the
    new part, which is as the allocation has left it. *)
Record dir_extended m (F : Z → Z) (cs : list Z) (mem : memory) m' (mem' : memory) (r : Z) (F' : Z → Z) : Prop := {
  dx_free : F r = 0 ∧ r ∉ cs;
  dx_repr : fat_repr limit F' m';
  dx_same : same_mount limit m m';
  dx_chain : file_chain limit m F' (cs ++ [r]);
  dx_table c : c ∉ cs ++ [r] → F' c = F c;
  dx_copied k : 0 <= k < dir_length m cs → mem' !0 (b_new + k) = mem !0 (b_buffer + k);
  dx_new k : dir_length m cs <= k < dir_length m (cs ++ [r]) → mem' !0 (b_new + k) = mem !0 (b_new + k);
  dx_cleared k : 0 <= k < cluster_size_bytes m → mem' !0 (b_new + 32 * dir_length m (cs ++ [r]) + k) = 0;
}.

Lemma dir_length_snoc m cs r : dir_length m (cs ++ [r]) = dir_length m cs + cluster_size_bytes m.
Proof using Type. unfold dir_length. rewrite length_app. simpl. lia. Qed.

(** Marking the new cluster first, then linking it, gives the same table. *)
Lemma link_chain m F cs i l r :
  file_chain limit m F cs → cs !! i = Some l → S i = length cs → F r = 0 → cluster_ok limit m r →
  file_chain limit m (table_set (table_set F r FAT32_EOC) l r) (cs ++ [r]) ∧ r ∉ cs ∧
  ∀ c, c ∉ cs ++ [r] → table_set (table_set F r FAT32_EOC) l r c = F c.
Proof using Type.
  intros Hch Hl Hlen Hz Hok. assert (r ∉ cs) as Hr by (intros Hin; by apply (chain_nonzero limit m F cs r)).
  assert (l ∈ cs) as Hin by (by eapply list_elem_of_lookup_2). assert (l ≠ r) by (intros ->; done).
  assert (∀ c, table_set (table_set F r FAT32_EOC) l r c = table_link F l r c) as Heq.
  { intros c. unfold table_link, table_set. repeat case_decide; (done || congruence). }
  split_and!; [|done|].
  - destruct (file_chain_snoc limit m F cs i l r Hch Hl Hlen Hz Hok) as [Hc Hn Ho]. split; [|done|done].
    intros k c Hk. specialize (Hc k c Hk). by rewrite Heq.
  - intros c Hc. rewrite not_elem_of_app, list_elem_of_singleton in Hc. destruct Hc as [Hc1 Hc2]. rewrite Heq. apply table_link_other; [|done].
    intros ->. done.
Qed.

Lemma extend_directory_wp m F cs i l mem st p (Q : option (Z * Z * Z) → driver D → Prop) :
  dir_open limit o m F cs → cs !! i = Some l → S i = length cs →
  (∃ j, fat_search_start m <= j < cluster_limit m ∧ F j = 0) →
  bytes_ok mem → 0 < b_new → apart b_buffer (dir_length m cs) b_new (dir_length m cs + cluster_size_bytes m) →
  32 * (dir_length m cs + cluster_size_bytes m) < 2 ^ 31 →
  (∀ r m' mem' F', dir_extended m F cs mem m' mem' r F' →
     Q (Some (b_new, Z.of_nat (length cs) + 1, if found p then free_index p else dir_length m cs / 32)) (with_vol st m' mem')) →
  wp (extend_directory fresh b_buffer b_new l (Z.of_nat (length cs)) (dir_length m cs / 32) p) Q (with_vol st m mem).
Proof using Type.
  intros [Hr Hg [Hcl Hclok] Hch _ _ _ Hse] Hl Hlen [j [Hj Hjz]] Hok Hnew Hap Hsz HQ. pose proof (csz_pos limit m Hg) as Hcs.
  pose proof Hch as [Hfc _ _ _]. pose proof (co_index _ _ _ (fc_cluster _ _ _ _ _ _ Hfc Hl)) as Hli.
  unfold extend_directory. rewrite wp_bind. apply on_mount_wp. wp. apply on_mount_wp.
  apply (get_free_wp fresh limit F); [done|lia|done| |].
  2: { intros m1 _ _ _ Hno. exfalso. by apply (Hno j). }
  intros r m1 Hr1 Hs1 Hb Hz _ _. pose proof (Hclok r ltac:(lia)) as Hrok. pose proof (co_index _ _ _ Hrok) as Hri. wp.
  apply on_mount_wp, (set_next_wp fresh limit F); [done|lia|unfold is_u32, FAT32_EOC; lia|]. intros m2 Hr2 Hs2 _.
  rewrite (proj2 (Z.eqb_neq r 0)) by lia. rewrite wp_bind.
  assert (limit < 2 ^ 32) by (destruct (fr_geom _ _ _ Hr); lia).
  apply on_mount_wp, (set_next_wp fresh limit (table_set F r FAT32_EOC)); [done|lia|unfold is_u32; lia|]. intros m3 Hr3 Hs3 _.
  destruct (link_chain m F cs i l r Hfc Hl Hlen Hz Hrok) as (Hch' & Hnin & Htab).
  rewrite wp_bind. apply on_mem_wp. unfold dir_length in Hsz. rewrite (u32_id (Z.of_nat (length cs) * _)) by (unfold is_u32; nia).
  change (Z.of_nat (length cs) * cluster_size_bytes m) with (dir_length m cs) in *. assert (0 <= dir_length m cs) by (unfold dir_length; nia).
  unfold apart in Hap. apply memcpy_wp; [done|unfold apart; lia|intros; apply Hok|]. intros mem1 Hm1. rewrite wp_bind. apply on_mem_wp.
  rewrite (u32_id (Z.of_nat (length cs) + 1)) by (unfold is_u32, dir_length in *; nia).
  rewrite (u32_id (cluster_size_bytes m * _)) by (unfold is_u32, dir_length in *; nia).
  replace (cluster_size_bytes m * (Z.of_nat (length cs) + 1)) with (dir_length m (cs ++ [r])) by (rewrite dir_length_snoc; unfold dir_length; lia).
  apply memclr_wp; [lia|]. intros mem2 Hm2. wp. pose proof (dir_length_snoc m cs r) as Hdl.
  apply (HQ r m3 mem2 (table_set (table_set F r FAT32_EOC) l r)). split; try done.
  - apply (same_mount_trans limit m m2); [by apply (same_mount_trans limit m m1)|done].
  - intros k Hk. rewrite Hm2, decide_False, Hm1, decide_True by lia. f_equal. lia.
  - intros k Hk. rewrite Hm2, decide_False, Hm1, decide_False by lia. done.
  - intros k Hk. rewrite Hm2, decide_True by lia. done.
Qed.
End extend.

(** ** Properties *)

(** C12: creating a file.  In a directory that has a cluster chain, room and no two names
    too many, and whose own entry lies below 4 GiB of the device, [fat32_create] adds the new name behind the items the directory holds and
    leaves those as they are.  The directory on the volume then holds the items and the
    new one, a search finds it when none of them had its name, and its entry is an empty
    file with the flags asked for; the table still has the directory's chain and no
    other entry of it changes, and no other byte of the data area, apart from the
    directory's own entry. *)
Theorem fat32_create_adds_item {D} `{BlockDev D} limit fresh dir_page b_buffer b_new b_dirents short_filename
    (o : fat_open_file) F cs its s n f flags (st : driver D) :
  let m := vol_mount (dr_vol st) in
  dir_room limit o m F cs its s n →
  create_layout f short_filename b_dirents b_buffer (dir_length m cs) n s →
  cstr (vol_mem (dr_vol st)) f s → bytes_ok (vol_mem (dr_vol st)) → bytes_ok dir_page →
  Z.of_nat (length s) < 256 → Z.land flags 0xf = 0 →
  ∃ st' F' ck, create_in fresh true dir_page b_buffer b_new b_dirents short_filename o f flags st = Ok (Some (dir_length m cs), st') ∧
    let m' := vol_mount (dr_vol st') in
    dir_holds (dir_bytes m' cs) (its ++ [Long ck n s]) ∧
    (find_item s 0 its = None → find_item s 0 (its ++ [Long ck n s]) = Some (slots its + n)) ∧
    (let d := dirent_at (dir_bytes m' cs) (32 * (slots its + n)) in
     de_flags d = Z.land flags 0x2f ∧ de_size d = 0 ∧ de_cluster d = 0) ∧
    (∀ k, 0 <= k < 32 * slots its → dir_bytes m' cs k = dir_bytes m cs k) ∧
    fat_repr limit F' m' ∧ dir_chain limit m' F' (first_cluster o) cs ∧ (∀ c, c ∉ cs → F' c = F c) ∧
    (∀ k, data_base m <= k → (∀ c, c ∈ cs → ¬ in_cluster m c k) → ¬ (dirent_pos m F o <= k < dirent_pos m F o + 32) →
       dev_byte (mount_src m') k = dev_byte (mount_src m) k).
Proof.
  intros m Hroom Hlay Hs Hok Hpage Hlen Hfl. pose proof (dr_holds _ _ _ _ _ _ _ _ Hroom) as Hh.
  pose proof (dr_name _ _ _ _ _ _ _ _ Hroom) as Hname. pose proof Hname as (_ & _ & Hn).
  pose proof (slots_nonneg its (items_ok _ _ _ (dh_items _ _ Hh))) as Hsl. pose proof (dr_slots _ _ _ _ _ _ _ _ Hroom) as Hslots.
  pose proof (create_in_wp limit fresh dir_page b_buffer b_new b_dirents short_filename o m F cs its s n f flags _ st
    (λ r st', r = Some (dir_length m cs) ∧ ∃ F' ck g, file_created limit b_buffer b_dirents short_filename o m F cs its s n flags ck
       (vol_mem (dr_vol st)) st' F' g) Hroom Hlay Hs Hok Hpage ltac:(intros st' F' ck g Hc; split; [done|by exists F', ck, g])) as Hwp.
  unfold m in Hwp. rewrite with_vol_id in Hwp. apply wp_ok in Hwp as (r & st' & Hrun & -> & F' & ck & g & Hc).
  exists st', F', ck. split; [exact Hrun|]. fold m in Hc |- *. destruct Hc as [[Hr Hv Hch Ht Hb Hfr] Hent Hoth _].
  assert (new_entries (dir_bytes (vol_mount (dr_vol st')) cs) (slots its) n ck flags (namesakes (dir_bytes m cs) its s) s) as Hnew
    by (apply (new_entries_ext g); [lia|intros k Hk; apply Hb; lia|done]).
  cbn zeta. split_and!; try done.
  - apply (dir_holds_snoc (dir_bytes m cs) _ its n ck flags (namesakes (dir_bytes m cs) its s)); try done.
    + intros k Hk. rewrite Hb, Hoth by lia. done.
    + rewrite Hb, Hoth by lia. apply Hroom.
  - intros Hno. rewrite find_item_snoc, Hno, Z.add_0_l. cbn [item_name item_entry]. by rewrite decide_True.
  - apply (ne_flags _ _ _ _ _ _ _ Hnew).
  - unfold dirent_at. cbn [de_size]. rewrite <- !Z.add_assoc. unfold d_size. cbn [Z.add].
    rewrite !(ne_empty _ _ _ _ _ _ _ Hnew) by (unfold empty_field; lia). done.
  - unfold de_cluster, dirent_at. cbn [de_cluster_high de_cluster_low].
    rewrite <- !Z.add_assoc. rewrite !(ne_empty _ _ _ _ _ _ _ Hnew) by (unfold empty_field, d_cluster_high, d_cluster_low; lia). done.
  - intros k Hk. rewrite Hb, Hoth by lia. done.
Qed.

(** A directory that is full.  [fat32_create] links a free cluster behind the chain, and
    copies the directory into a larger block; but the part of the block that stands for
    the new cluster is not cleared: it keeps what the allocation had in it, and the bytes
    that are cleared instead lie 32 times as far behind the start. *)
Theorem extend_directory_clears_elsewhere {D} `{BlockDev D} limit fresh b_buffer b_new (o : fat_open_file) F cs i l p (st : driver D) :
  let m := vol_mount (dr_vol st) in let mem := vol_mem (dr_vol st) in
  dir_open limit o m F cs → cs !! i = Some l → S i = length cs →
  (∃ j, fat_search_start m <= j < cluster_limit m ∧ F j = 0) →
  bytes_ok mem → 0 < b_new → apart b_buffer (dir_length m cs) b_new (dir_length m cs + cluster_size_bytes m) →
  32 * (dir_length m cs + cluster_size_bytes m) < 2 ^ 31 →
  ∃ r F' st', extend_directory fresh b_buffer b_new l (Z.of_nat (length cs)) (dir_length m cs / 32) p st =
      Ok (Some (b_new, Z.of_nat (length cs) + 1, if found p then free_index p else dir_length m cs / 32), st') ∧
    dir_extended limit b_buffer b_new m F cs mem (vol_mount (dr_vol st')) (vol_mem (dr_vol st')) r F'.
Proof.
  intros m mem Hd Hl Hlen Hfree Hok Hnew Hap Hsz.
  pose proof (extend_directory_wp limit fresh b_buffer b_new o m F cs i l mem st p
    (λ x st', x = Some (b_new, Z.of_nat (length cs) + 1, if found p then free_index p else dir_length m cs / 32) ∧
       ∃ r F', dir_extended limit b_buffer b_new m F cs mem (vol_mount (dr_vol st')) (vol_mem (dr_vol st')) r F')
    Hd Hl Hlen Hfree Hok Hnew Hap Hsz ltac:(intros r m' mem' F' Hx; split; [done|by exists r, F'])) as Hwp.
  unfold m, mem in Hwp. rewrite with_vol_id in Hwp. apply wp_ok in Hwp as (x & st' & Hrun & -> & r & F' & Hx).
  exists r, F', st'. exact (conj Hrun Hx).
Qed.

(** ** An example *)

(** The directory [docs] of [FatPath] gets the file [new.txt]. *)
Definition create_mount : fat_mount disk := set_search 2 path_mount.
Definition docs_file : fat_open_file := OpenFile 3 0 0x10 2 1.
Definition new_txt : list Z := bytes_of_string "new.txt".
Definition create_driver : driver disk := Driver (Volume create_mount (store_bytes 0x1000 (new_txt ++ [0]) ∅)) 0x50000 4 0.

Lemma create_mount_same : same_mount 16384 path_mount create_mount.
Proof. by split. Defined.
Lemma create_mount_ok : dir_open 16384 docs_file create_mount path_table [3].
Proof.
  pose proof create_mount_same as Hs. assert (∀ c, 2 <= c < 10 → cluster_ok 16384 create_mount c) as Hcl
    by (intros c Hc; apply (cluster_ok_same 16384 path_mount); [done|by apply path_cluster]).
  split; try done.
  - apply (set_search_repr 16384), path_repr.
  - by apply (data_geom_same 16384 path_mount), path_geom.
  - apply (dir_chain_same 16384 path_mount); [exact path_geom|done|by apply path_dir].
  - intros c Hc. injection Hc as <-. vm_compute. discriminate.
  - split; [by_computation|by_computation| |by_computation..].
    intros j Hj. change (Z.of_nat j <= 0) in Hj. assert (j = O) as -> by lia. cbn zeta.
    change (nth_cluster path_table (dirent_cluster docs_file) 0) with 2.
    split_and!; [apply Hcl; lia|vm_compute; discriminate|]. rewrite list_elem_of_singleton. lia.
Defined.
Lemma create_room : dir_room 16384 docs_file create_mount path_table [3] docs_items new_txt 1.
Proof.
  split; [exact create_mount_ok| | |by_computation|vm_compute; reflexivity|by_computation].
  - split; [apply (items_ext (dir_bytes path_mount [3])); [done|exact (dv_items _ _ _ _ _ _ docs_view)]|].
    intros i Hi. change (0 <= i < 1) in Hi. assert (i = 0) as -> by lia. vm_compute. discriminate.
  - split_and!; by_computation.
Defined.
Lemma create_layout_example : create_layout 0x1000 0x3000 0x4000 0x8000 (dir_length create_mount [3]) 1 new_txt.
Proof. change (dir_length create_mount [3]) with 512. split; unfold apart; cbn; lia. Defined.
Lemma create_memory_ok : bytes_ok (vol_mem (dr_vol create_driver)).
Proof. apply store_bytes_ok; [|by_computation]. intros k. unfold zget. rewrite lookup_empty. by_computation. Defined.

Lemma fat32_create_adds_item_witness :
  ∃ st' F' ck, create_in [] true ∅ 0x8000 0 0x4000 0x3000 docs_file 0x1000 0x20 create_driver = Ok (Some 512, st') ∧
    dir_holds (dir_bytes (vol_mount (dr_vol st')) [3]) [Short 32 [65] (bytes_of_string "TXT"); Long ck 1 new_txt] ∧
    find_item new_txt 0 [Short 32 [65] (bytes_of_string "TXT"); Long ck 1 new_txt] = Some 2 ∧
    fat_repr 16384 F' (vol_mount (dr_vol st')).
Proof.
  destruct (fat32_create_adds_item 16384 [] ∅ 0x8000 0 0x4000 0x3000 docs_file path_table [3] docs_items new_txt 1 0x1000 0x20 create_driver)
    as (st' & F' & ck & Hrun & Hh & Hfind & _ & _ & Hr & _).
  - exact create_room.
  - exact create_layout_example.
  - exact (cstr_store ∅ 4096 new_txt ltac:(by_computation) ltac:(by_computation)).
  - exact create_memory_ok.
  - intros k. unfold zget. rewrite lookup_empty. by_computation.
  - by_computation.
  - by_computation.
  - exists st', F', ck. exact (conj Hrun (conj Hh (conj (Hfind eq_refl) Hr))).
Defined.

Lemma extend_directory_clears_elsewhere_witness :
  ∃ r F' st', extend_directory [] 0x8000 0x9000 3 1 16 no_place create_driver = Ok (Some (0x9000, 2, 16), st') ∧
    file_chain 16384 create_mount F' [3; r] ∧
    ∀ k, 512 <= k < 1024 → vol_mem (dr_vol st') !0 (0x9000 + k) = vol_mem (dr_vol create_driver) !0 (0x9000 + k).
Proof.
  destruct (extend_directory_clears_elsewhere 16384 [] 0x8000 0x9000 docs_file path_table [3] 0 3 no_place create_driver)
    as (r & F' & st' & Hrun & Hx).
  - exact create_mount_ok.
  - reflexivity.
  - reflexivity.
  - exists 5. split; [split; by_computation|vm_compute; reflexivity].
  - exact create_memory_ok.
  - lia.
  - left. vm_compute. discriminate.
  - by_computation.
  - exists r, F', st'. split; [exact Hrun|]. split; [exact (dx_chain _ _ _ _ _ _ _ _ _ _ _ Hx)|]. intros k Hk.
    apply (dx_new _ _ _ _ _ _ _ _ _ _ _ Hx). exact Hk.
Defined.
