(* ===== verification/RamFS.v ===== *)
(** * The virtual file system and its RAM file system
      (src/src/kernel/system/vfs.c, src/src/kernel/system/ramfs.c)

    Files are [vfile_t] structures at addresses; a file's [private] pointer leads
    to a page array that holds its bytes, or, for a directory, the addresses of
    its entries.  [kmalloc] is seen from its client's side: it returns a fresh
    block (what Kmalloc.v proves of it) or fails, and what a fresh block holds
    is not known. *)
From S2P Require Import Prelude.

Definition FS_FILE_READ_ONLY : Z := 1.
Definition FS_FILE_IS_DIR : Z := 0x10.
Definition FS_FILE_MOUNT : Z := 0x100.
Definition MAX_TOKENS : Z := PAGE_SIZE_BYTES / 4.
(** The size of [vfile_t.name] and of the whole structure. *)
Definition NAME_SIZE : Z := 76.
Definition VFILE_SIZE : Z := 128.

(** The operations of a file: none yet, the RAM file system's, or a driver's. *)
Inductive fileops := no_ops | ramfs_ops | driver_ops (d : Z).

Record vfile := VFile {
  vname : list Z;
  vflags : Z;
  vops : fileops;
  refcount : Z;
  private : Z;
  vsize : Z;
  block_size_bytes : Z;
}.

Inductive block := Bytes (bs : list Z) | Dirents (ps : list Z).

Record fs := FS {
  vfiles : gmap Z vfile;
  blocks : gmap Z block;
  brk : Z;
  vfs_lock : bool;
}.

Definition set_vfile (f : Z) (v : vfile) (s : fs) : fs := FS (<[f := v]> (vfiles s)) (blocks s) (brk s) (vfs_lock s).
Definition set_block (p : Z) (b : block) (s : fs) : fs := FS (vfiles s) (<[p := b]> (blocks s)) (brk s) (vfs_lock s).
Definition del_block (p : Z) (s : fs) : fs := FS (vfiles s) (delete p (blocks s)) (brk s) (vfs_lock s).
Definition set_brk (p : Z) (s : fs) : fs := FS (vfiles s) (blocks s) p (vfs_lock s).
Definition set_vlock (b : bool) (s : fs) : fs := FS (vfiles s) (blocks s) (brk s) b.

Definition with_private (p size : Z) (v : vfile) : vfile :=
  VFile (vname v) (vflags v) (vops v) (refcount v) p size (block_size_bytes v).

Definition get_vfile (f : Z) : M fs vfile := λ s,
  match vfiles s !! f with Some v => Ok (v, s) | None => Err (PageFault f) end.

Definition is_flag (v : vfile) (b : Z) : bool := negb (Z.land (vflags v) b =? 0).
Definition pages_of (bytes : Z) : Z := (bytes + PAGE_SIZE_BYTES - 1) / PAGE_SIZE_BYTES.

(** Entry [i] of the array at [p]. *)
Definition dirents_at (p : Z) : M fs (list Z) := λ s,
  match blocks s !! p with Some (Dirents ps) => Ok (ps, s) | _ => Err (PageFault p) end.
Definition bytes_at (p : Z) : M fs (list Z) := λ s,
  match blocks s !! p with Some (Bytes bs) => Ok (bs, s) | _ => Err (PageFault p) end.
Definition at_index (l : list Z) (i : Z) : M fs Z :=
  match l !! Z.to_nat i with Some x => mret x | None => fail (OutOfBounds i) end.

Section ramfs.
(** Whether an allocation succeeds, what a fresh page array holds, and opening
    or creating a path on a mounted file, which is up to the driver. *)
Variable can_alloc : Z → fs → bool.
Variable junk : Z → list Z.
Variable mount_rfopen : list Z → Z → fs → Z.
Variable mount_create : Z → list Z → Z → M fs Z.

Definition kmalloc (pages : Z) : M fs Z := λ s,
  if can_alloc pages s then Ok (brk s, set_brk (brk s + PAGE_SIZE_BYTES * Z.max 1 pages) s) else Ok (0, s).
Definition kfree (p : Z) : M fs unit := modify (del_block p).

(** A fresh array of [n] elements. *)
Definition fresh_list (n : Z) : list Z := take (Z.to_nat n) (junk n ++ replicate (Z.to_nat n) 0).

(** ** The RAM file system *)

Definition search_dir (subname : list Z) (directory : Z) : M fs Z :=
  if directory =? 0 then mret 0
  else
    d ← get_vfile directory;
    if private d =? 0 then mret 0
    else
      children ← dirents_at (private d);
      r ← for_loop 0 (vsize d / 4) (λ i,
            c ← at_index children i;
            if c =? 0 then mret None
            else
              v ← get_vfile c;
              if bool_decide (vname v = subname) then mret (Some c) else mret None);
      mret (default 0 r).

(** The loop that cuts a path at its slashes. *)
Fixpoint split_path (path : list Z) : list (list Z) :=
  match path with
  | [] => [[]]
  | c :: path =>
      if c =? 47 then [] :: split_path path
      else match split_path path with
           | t :: ts => (c :: t) :: ts
           | [] => [[c]]
           end
  end.
Definition strip_slash (path : list Z) : list Z :=
  match path with
  | c :: path' => if c =? 47 then path' else path
  | [] => []
  end.

(** The walk over the tokens; [current_path] is the rest of the path. *)
Fixpoint walk (get_last_child : bool) (tokens : list (list Z)) (entry : Z) (current_path : list Z) : M fs Z :=
  match tokens with
  | [] => mret entry
  | t :: tokens =>
      entry ← search_dir t entry;
      let current_path := strip_slash (drop (length t) current_path) in
      if entry =? 0 then mret 0
      else
        v ← get_vfile entry;
        if is_flag v FS_FILE_MOUNT then
          if get_last_child then gets (mount_rfopen current_path entry) else mret 0
        else walk get_last_child tokens entry current_path
  end.

Definition resolve_path (pathname : list Z) (start : Z) (get_last_child : bool) : M fs Z :=
  if start =? 0 then mret 0
  else if PAGE_SIZE_BYTES <=? Z.of_nat (length pathname) then fail (OutOfBounds PAGE_SIZE_BYTES)
  else
    let tokens := take (Z.to_nat MAX_TOKENS) (split_path (strip_slash pathname)) in
    walk get_last_child tokens start pathname.

(** Copying [n] bytes of the old array to the new one; of a directory, [n / 4]
    entries. *)
Definition copy_block (old new n : Z) : M fs unit := λ s,
  match blocks s !! old, blocks s !! new with
  | Some (Bytes a), Some (Bytes b) =>
      if bool_decide (n <= Z.of_nat (length a) ∧ n <= Z.of_nat (length b))
      then Ok (tt, set_block new (Bytes (take (Z.to_nat n) a ++ drop (Z.to_nat n) b)) s) else Err (OutOfBounds n)
  | Some (Dirents a), Some (Dirents b) =>
      if bool_decide (n / 4 <= Z.of_nat (length a) ∧ n / 4 <= Z.of_nat (length b))
      then Ok (tt, set_block new (Dirents (take (Z.to_nat (n / 4)) a ++ drop (Z.to_nat (n / 4)) b)) s)
      else Err (OutOfBounds n)
  | _, _ => Err (PageFault old)
  end.

Definition ramfs_resize (file new_size_bytes : Z) : M fs Z :=
  v ← get_vfile file;
  if new_size_bytes =? vsize v then mret new_size_bytes
  else
    let new_size_pages := u32 (new_size_bytes + PAGE_SIZE_BYTES - 1) / PAGE_SIZE_BYTES in
    let old_size_pages := u32 (pages_of (vsize v)) in
    ok ← (if old_size_pages =? new_size_pages then mret true
          else
            new_ptr ← kmalloc new_size_pages;
            if new_ptr =? 0 then mret false
            else
              modify (set_block new_ptr
                (if is_flag v FS_FILE_IS_DIR then Dirents (fresh_list (1024 * new_size_pages))
                 else Bytes (fresh_list (4096 * new_size_pages))));;
              when (negb (private v =? 0))
                (copy_block (private v) new_ptr
                   (if new_size_bytes <? old_size_pages then new_size_bytes else u32 (vsize v));;
                 kfree (private v));;
              modify (set_vfile file (with_private new_ptr (vsize v) v));;
              mret true);
    if ok then
      v ← get_vfile file;
      modify (set_vfile file (with_private (private v) new_size_bytes v));;
      mret new_size_bytes
    else mret 0.

(** A new file structure; [strcpy] into [name] has no bound. *)
Definition new_vfile (new_file : Z) (name : list Z) (flags block_size : Z) : M fs unit :=
  if new_file =? 0 then fail (PageFault 0)
  else if NAME_SIZE <=? Z.of_nat (length name) then fail (OutOfBounds NAME_SIZE)
  else modify (set_vfile new_file (VFile name flags ramfs_ops 0 0 0 block_size)).

Definition set_dirent (p i x : Z) : M fs unit :=
  ps ← dirents_at p;
  if bool_decide (0 <= i < Z.of_nat (length ps)) then modify (set_block p (Dirents (<[Z.to_nat i := x]> ps)))
  else fail (OutOfBounds i).

Definition ramfs_create (root : Z) (path : list Z) (flags : Z) : M fs Z :=
  let path := strip_slash path in
  if root =? 0 then mret 0
  else
    parent ← get_vfile root;
    if negb (is_flag parent FS_FILE_IS_DIR) then mret 0
    else
      r ← for_loop 0 (vsize parent / 4) (λ i,
            dirents ← dirents_at (private parent);
            c ← at_index dirents i;
            if negb (c =? 0) then mret None
            else
              new_file ← kmalloc 1;
              new_vfile new_file path flags 0;;
              set_dirent (private parent) i new_file;;
              mret (Some new_file));
      match r with
      | Some new_file => mret new_file
      | None =>
          ok ← ramfs_resize root (u32 (vsize parent + 4));
          if ok =? 0 then mret 0
          else
            new_file ← kmalloc 1;
            if new_file =? 0 then mret 0
            else
              new_vfile new_file path flags 1;;
              parent ← get_vfile root;
              set_dirent (private parent) (vsize parent / 4 - 1) new_file;;
              mret new_file
      end.

(** Structures copied out of a directory, and the count returned. *)
Definition ramfs_translate_dir (file offset count : Z) : M fs (list vfile * Z) :=
  d ← get_vfile file;
  let to_copy := Z.min (u32 (vsize d / 4)) (u32 (count / VFILE_SIZE)) in
  dirents ← dirents_at (private d);
  r ← fora_loop (R := unit) 0 to_copy (λ i acc,
        c ← at_index dirents (i + offset);
        v ← get_vfile c;
        mret (inl (acc ++ [v]))) [];
  mret (match r with inl acc => acc | inr _ => [] end, to_copy * VFILE_SIZE).

(** [data] is the caller's buffer, [count] bytes of it. *)
Definition ramfs_write (file : Z) (data : list Z) (offset : Z) : M fs Z :=
  let count := Z.of_nat (length data) in
  if file =? 0 then mret 0
  else
    v ← get_vfile file;
    if negb (Z.land (vflags v) (Z.lor FS_FILE_READ_ONLY (Z.lor FS_FILE_IS_DIR FS_FILE_MOUNT)) =? 0) then mret 0
    else
      ok ← (if u64 (count + offset) >? vsize v then ramfs_resize file (u32 (u64 (count + offset))) else mret 1);
      if ok =? 0 then mret 0
      else
        v ← get_vfile file;
        bs ← bytes_at (private v);
        if bool_decide (offset + count <= Z.of_nat (length bs)) then
          modify (set_block (private v)
            (Bytes (take (Z.to_nat offset) bs ++ data ++ drop (Z.to_nat offset + length data) bs)));;
          mret count
        else fail (OutOfBounds (offset + count)).

(** The bytes read (for a directory, none of this model's buffer) and the count. *)
Definition ramfs_read (file offset count : Z) : M fs (list Z * Z) :=
  if file =? 0 then mret ([], 0)
  else
    v ← get_vfile file;
    if (private v =? 0) || is_flag v FS_FILE_MOUNT then mret ([], 0)
    else if is_flag v FS_FILE_IS_DIR then
      '(_, n) ← ramfs_translate_dir file offset count; mret ([], n)
    else
      bs ← bytes_at (private v);
      if bool_decide (offset + count <= Z.of_nat (length bs)) then
        mret (take (Z.to_nat count) (drop (Z.to_nat offset) bs), count)
      else fail (OutOfBounds (offset + count)).

Definition ramfs_close (file : Z) : M fs unit :=
  v ← get_vfile file;
  modify (set_vfile file
    (VFile (vname v) (vflags v) (vops v) (u32 (refcount v - 1)) (private v) (vsize v) (block_size_bytes v))).

Definition ramfs_rfopen (name : list Z) (parent : Z) : M fs Z := resolve_path name parent true.

(** ** The layer above *)

(** The root directory is a global. *)
Definition root_dir : Z := 4096.

Definition rfopen (name : list Z) (dir : Z) : M fs Z :=
  if dir =? 0 then mret 0
  else
    v ← get_vfile dir;
    match vops v with
    | no_ops => mret 0
    | ramfs_ops => ramfs_rfopen name dir
    | driver_ops _ => gets (mount_rfopen name dir)
    end.

Definition fclose (file : Z) : M fs unit :=
  if file =? 0 then skip
  else
    v ← get_vfile file;
    match vops v with
    | ramfs_ops => ramfs_close file
    | _ => skip
    end.

Definition fopen (name : list Z) : M fs Z :=
  if bool_decide (name = [47]) then mret root_dir
  else ramfs_rfopen (strip_slash name) root_dir.

Definition vfs_create (parent : Z) (name : list Z) (flags : Z) : M fs Z :=
  v ← get_vfile parent;
  match vops v with
  | no_ops => fail (PageFault 0)
  | ramfs_ops => ramfs_create parent name flags
  | driver_ops _ => mount_create parent name flags
  end.

(** The part of a name up to its first slash. *)
Fixpoint first_part (name : list Z) : list Z :=
  match name with
  | [] => []
  | c :: name => if c =? 47 then [] else c :: first_part name
  end.

(** A trailing slash is cut off, but [name_length] still counts it.  The
    recursion is on a shorter path, so [fuel] one above its length is enough. *)
Fixpoint vfcreate (fuel : nat) (parent_dir : Z) (relpath : list Z) (flags : Z) : M fs Z :=
  match fuel with
  | O => fail OutOfFuel
  | S fuel =>
      let name := strip_slash relpath in
      let name_length := length name in
      let name := if bool_decide (last name = Some 47) then take (name_length - 1) name else name in
      let part := first_part name in
      if (name_length <=? length part)%nat then vfs_create parent_dir part flags
      else
        new_parent ← rfopen part parent_dir;
        if new_parent =? 0 then mret 0
        else
          new_file ← vfcreate fuel new_parent (drop (length part + 1) name) flags;
          fclose new_parent;;
          mret new_file
  end.

Definition fcreate (path : list Z) (flags : Z) : M fs Z :=
  held ← gets vfs_lock;
  (if held then fail Deadlock else modify (set_vlock true));;
  returnable ← vfcreate (length path + 1) root_dir path flags;
  modify (set_vlock false);;
  mret returnable.

(** Nothing is deleted: the function of the RAM file system is empty. *)
Definition ramfs_delete (parent : Z) (child : list Z) : M fs Z := mret 0.
Definition readdir (file buffer offset count : Z) : M fs Z := mret 0.

(** ** What holds of the file system *)

Definition unit_of (v : vfile) : Z := if is_flag v FS_FILE_IS_DIR then 4 else 1.
Definition mk_block (v : vfile) (l : list Z) : block :=
  if is_flag v FS_FILE_IS_DIR then Dirents l else Bytes l.
Definition cells (b : block) : list Z := match b with Bytes l => l | Dirents l => l end.
(** How many elements the array of a file of [n] bytes has. *)
Definition capacity (v : vfile) (n : Z) : Z := (4096 / unit_of v) * pages_of n.

Record array_ok (s : fs) (v : vfile) (l : list Z) : Prop := {
  ao_block : blocks s !! private v = Some (mk_block v l);
  ao_len : Z.of_nat (length l) = capacity v (vsize v);
  ao_unit : vsize v mod unit_of v = 0;
  ao_dirents : is_flag v FS_FILE_IS_DIR = true →
    Forall (λ c, c = 0 ∨ is_Some (vfiles s !! c)) (take (Z.to_nat (vsize v / 4)) l);
}.

Definition node_ok (s : fs) (v : vfile) : Prop :=
  0 <= vsize v < 2 ^ 31 ∧ (private v = 0 ∧ vsize v = 0 ∨ private v ≠ 0 ∧ ∃ l, array_ok s v l).

(** The files of drivers are no arrays of the file system; where they point is theirs. *)
Record fs_ok (s : fs) : Prop := {
  fo_brk : 0 < brk s;
  fo_files f v : vfiles s !! f = Some v → 0 < f < brk s;
  fo_blocks p b : blocks s !! p = Some b → 0 < p < brk s;
  fo_private f g v w : vfiles s !! f = Some v → vfiles s !! g = Some w →
    vops v = ramfs_ops → vops w = ramfs_ops → private v = private w → private v ≠ 0 → f = g;
  fo_node f v : vfiles s !! f = Some v → vops v = ramfs_ops → node_ok s v;
}.

Lemma wp_get_vfile f v (Q : vfile → fs → Prop) s : vfiles s !! f = Some v → Q v s → wp (get_vfile f) Q s.
Proof. intros Hf HQ. unfold wp, get_vfile. by rewrite Hf. Qed.
Lemma wp_dirents_at p l (Q : list Z → fs → Prop) s : blocks s !! p = Some (Dirents l) → Q l s → wp (dirents_at p) Q s.
Proof. intros Hf HQ. unfold wp, dirents_at. by rewrite Hf. Qed.
Lemma wp_bytes_at p l (Q : list Z → fs → Prop) s : blocks s !! p = Some (Bytes l) → Q l s → wp (bytes_at p) Q s.
Proof. intros Hf HQ. unfold wp, bytes_at. by rewrite Hf. Qed.
Lemma wp_at_index l i x (Q : Z → fs → Prop) s : l !! Z.to_nat i = Some x → Q x s → wp (at_index l i) Q s.
Proof. intros Hf HQ. unfold wp, at_index. by rewrite Hf. Qed.

Lemma unit_cases v : unit_of v = 1 ∨ unit_of v = 4.
Proof. unfold unit_of. case_match; auto. Qed.

Lemma pages_bounds n : 0 <= n → 0 <= pages_of n ∧ n <= 4096 * pages_of n ∧ (0 < n → 0 < pages_of n <= n).
Proof.
  intros Hn. unfold pages_of, PAGE_SIZE_BYTES. pose proof (Z.div_mod (n + 4096 - 1) 4096 ltac:(lia)).
  pose proof (Z.mod_pos_bound (n + 4096 - 1) 4096 ltac:(lia)). split_and!; [|lia|nia].
  apply Z.div_pos; lia.
Qed.

(** The elements in use are within the array. *)
Lemma capacity_enough v n : 0 <= n → n / unit_of v <= capacity v n.
Proof.
  intros Hn. destruct (pages_bounds n Hn) as (? & ? & _). unfold capacity.
  destruct (unit_cases v) as [-> | ->]; [change (4096 / 1) with 4096|change (4096 / 4) with 1024].
  - rewrite Z.div_1_r. lia.
  - apply Z.div_le_upper_bound; lia.
Qed.

Lemma length_fresh_list n : 0 <= n → Z.of_nat (length (fresh_list n)) = n.
Proof.
  intros Hn. unfold fresh_list. rewrite length_take, length_app, length_replicate. lia.
Qed.

Lemma copy_block_wp v old new a b n (Q : unit → fs → Prop) s :
  blocks s !! old = Some (mk_block v a) → blocks s !! new = Some (mk_block v b) →
  0 <= n → n / unit_of v <= Z.of_nat (length a) → n / unit_of v <= Z.of_nat (length b) →
  Q tt (set_block new (mk_block v (take (Z.to_nat (n / unit_of v)) a ++ drop (Z.to_nat (n / unit_of v)) b)) s) →
  wp (copy_block old new n) Q s.
Proof.
  intros Ha Hb Hn Hla Hlb HQ. unfold wp, copy_block. rewrite Ha, Hb. unfold mk_block, unit_of in *.
  destruct (is_flag v FS_FILE_IS_DIR); rewrite ?Z.div_1_r in *; by rewrite bool_decide_eq_true_2.
Qed.

(** What growing a file leaves behind: the same elements in front, in an array
    of the new size, which is the old one or fresh. *)
Record grown (s : fs) (f : Z) (v : vfile) (n : Z) (p : Z) (l : list Z) (s' : fs) : Prop := {
  gr_files : vfiles s' = <[f := with_private p n v]> (vfiles s);
  gr_block : blocks s' !! p = Some (mk_block v l);
  gr_len : Z.of_nat (length l) = capacity v n;
  gr_same l0 : array_ok s v l0 → take (Z.to_nat (vsize v / unit_of v)) l = take (Z.to_nat (vsize v / unit_of v)) l0;
  gr_ptr : (p = private v ∧ private v ≠ 0) ∨ p = brk s;
  gr_other q : (private v ≠ 0 → q ≠ private v) → q ≠ p → blocks s' !! q = blocks s !! q;
  gr_old : p ≠ private v → private v ≠ 0 → blocks s' !! private v = None;
  gr_brk : brk s <= brk s' ∧ (p = brk s → brk s < brk s');
  gr_lock : vfs_lock s' = vfs_lock s;
}.

Hypothesis alloc_ok : ∀ pages s, can_alloc pages s = true.

Lemma ram_kmalloc_wp pages (Q : Z → fs → Prop) s :
  Q (brk s) (set_brk (brk s + PAGE_SIZE_BYTES * Z.max 1 pages) s) → wp (kmalloc pages) Q s.
Proof using alloc_ok. intros HQ. unfold wp, kmalloc. by rewrite alloc_ok. Qed.

(** The three ways to grow. *)
Lemma grown_in_place s f v n l0 :
  fs_ok s → vfiles s !! f = Some v → private v ≠ 0 → array_ok s v l0 → pages_of (vsize v) = pages_of n →
  grown s f v n (private v) l0 (set_vfile f (with_private (private v) n v) s).
Proof.
  intros Hok Hf Hpr Hl0 Heq. pose proof (fo_blocks s Hok _ _ (ao_block _ _ _ Hl0)).
  split; [done|apply Hl0| | |by left|done|done|simpl; lia|done].
  - unfold capacity. rewrite <- Heq. apply Hl0.
  - intros l1 Hl1. destruct Hl0 as [Hb0 _ _ _], Hl1 as [Hb1 _ _ _]. rewrite Hb0 in Hb1. unfold mk_block in Hb1.
    destruct (is_flag v FS_FILE_IS_DIR); injection Hb1 as ->; done.
Qed.

Lemma grown_fresh_empty s f v n s1 l0 :
  private v = 0 → vsize v = 0 → Z.of_nat (length l0) = capacity v n →
  s1 = set_brk (brk s + PAGE_SIZE_BYTES * Z.max 1 (pages_of n)) s →
  grown s f v n (brk s) l0 (set_vfile f (with_private (brk s) n v)
    (set_vfile f (with_private (brk s) (vsize v) v) (set_block (brk s) (mk_block v l0) s1))).
Proof.
  intros Hpr Hz Hlen ->. split; simpl; try done.
  - by rewrite insert_insert_eq.
  - apply lookup_insert_eq.
  - intros l1 [Hb _ _ _]. rewrite Hz. change (0 / unit_of v) with 0. done.
  - by right.
  - intros q _ Hq. by rewrite lookup_insert_ne.
  - unfold PAGE_SIZE_BYTES. lia.
Qed.

Lemma grown_moved s f v n s1 l0 fresh :
  fs_ok s → private v ≠ 0 → array_ok s v l0 → 0 <= vsize v < n → Z.of_nat (length fresh) = capacity v n →
  s1 = set_brk (brk s + PAGE_SIZE_BYTES * Z.max 1 (pages_of n)) s →
  let k := Z.to_nat (vsize v / unit_of v) in
  let l := take k l0 ++ drop k fresh in
  grown s f v n (brk s) l (set_vfile f (with_private (brk s) n v)
    (set_vfile f (with_private (brk s) (vsize v) v)
      (del_block (private v) (set_block (brk s) (mk_block v l) (set_block (brk s) (mk_block v fresh) s1))))).
Proof.
  intros Hok Hpr Hl0 Hsz Hlen -> k l. pose proof (fo_blocks s Hok _ _ (ao_block _ _ _ Hl0)) as Hpb.
  assert (k <= length l0)%nat as Hk0.
  { pose proof (capacity_enough v (vsize v) ltac:(lia)). pose proof (ao_len _ _ _ Hl0). unfold k. lia. }
  assert (k <= length fresh)%nat as Hk1.
  { pose proof (capacity_enough v n ltac:(lia)). unfold k.
    pose proof (Z.div_le_mono (vsize v) n (unit_of v) ltac:(destruct (unit_cases v) as [-> | ->]; lia) ltac:(lia)). lia. }
  split; simpl.
  - by rewrite insert_insert_eq.
  - rewrite lookup_delete_ne by lia. apply lookup_insert_eq.
  - unfold l. rewrite length_app, length_take, length_drop. lia.
  - intros l1 Hl1. assert (l1 = l0) as ->.
    { destruct Hl0 as [Hb0 _ _ _], Hl1 as [Hb1 _ _ _]. rewrite Hb0 in Hb1. unfold mk_block in Hb1.
      destruct (is_flag v FS_FILE_IS_DIR); by injection Hb1. }
    unfold l. fold k. rewrite take_app_le, take_take by (rewrite length_take; lia). f_equal. lia.
  - by right.
  - intros q Hq1 Hq2. specialize (Hq1 Hpr). by rewrite lookup_delete_ne, !lookup_insert_ne by done.
  - intros _ _. by rewrite lookup_delete_eq.
  - unfold PAGE_SIZE_BYTES. lia.
  - done.
Qed.

Lemma resize_wp f v n s (Q : Z → fs → Prop) :
  fs_ok s → vfiles s !! f = Some v → vops v = ramfs_ops → vsize v < n < 2 ^ 31 →
  (∀ p l s', grown s f v n p l s' → Q n s') →
  wp (ramfs_resize f n) Q s.
Proof using alloc_ok.
  intros Hok Hf Hram Hn HQ. destruct (fo_node s Hok f v Hf Hram) as [Hsz Hnode]. pose proof (fo_brk s Hok) as Hbrk.
  unfold ramfs_resize. wp. apply (wp_get_vfile _ v); [done|]. rewrite (proj2 (Z.eqb_neq n (vsize v))) by lia. wp.
  destruct (pages_bounds n ltac:(lia)) as (Hp0 & Hp1 & Hp2). destruct (pages_bounds (vsize v) ltac:(lia)) as (Ho0 & Ho1 & Ho2).
  assert (u32 (n + PAGE_SIZE_BYTES - 1) / PAGE_SIZE_BYTES = pages_of n) as ->.
  { unfold pages_of, PAGE_SIZE_BYTES. rewrite u32_id; [done|]. unfold is_u32. lia. }
  assert (pages_of (vsize v) <= vsize v) by (destruct (decide (vsize v = 0)) as [E|]; [rewrite E; reflexivity|lia]).
  rewrite (u32_id (pages_of (vsize v))) by (unfold is_u32; lia). rewrite (u32_id (vsize v)) by (unfold is_u32; lia).
  rewrite (proj2 (Z.ltb_ge n (pages_of (vsize v)))) by lia.
  destruct (Z.eqb_spec (pages_of (vsize v)) (pages_of n)) as [Heq|Hne]; wp.
  - assert (vsize v ≠ 0) as Hnz by (intros E; rewrite E in Heq; change (pages_of 0) with 0 in Heq; lia).
    destruct Hnode as [[_ ?]|[Hpr [l0 Hl0]]]; [done|]. apply (wp_get_vfile _ v); [done|]. wp.
    apply (HQ (private v) l0). by apply grown_in_place.
  - apply ram_kmalloc_wp. rewrite (proj2 (Z.eqb_neq (brk s) 0)) by lia. wp.
    set (s1 := set_brk _ s). set (n0 := capacity v n).
    assert ((if is_flag v FS_FILE_IS_DIR then Dirents (fresh_list (1024 * pages_of n))
             else Bytes (fresh_list (4096 * pages_of n))) = mk_block v (fresh_list n0)) as ->
      by (unfold mk_block, n0, capacity, unit_of; by destruct (is_flag v FS_FILE_IS_DIR)).
    assert (0 <= n0) as Hn0 by (pose proof (capacity_enough v n ltac:(lia)); unfold n0, capacity;
      destruct (unit_cases v) as [-> | ->]; [change (4096 / 1) with 4096|change (4096 / 4) with 1024]; lia).
    pose proof (length_fresh_list n0 Hn0) as Hlf.
    destruct Hnode as [[Hpr Hz]|[Hpr [l0 Hl0]]].
    + rewrite Hpr. wp. apply (wp_get_vfile _ (with_private (brk s) (vsize v) v)); [by apply lookup_insert_eq|]. wp.
      apply (HQ (brk s) (fresh_list n0)). exact (grown_fresh_empty s f v n s1 _ Hpr Hz Hlf eq_refl).
    + rewrite (proj2 (Z.eqb_neq (private v) 0)) by done. cbn [negb]. wp.
      pose proof (fo_blocks s Hok _ _ (ao_block _ _ _ Hl0)) as Hpb.
      apply (copy_block_wp v _ _ l0 (fresh_list n0)).
      { change (blocks (set_block (brk s) (mk_block v (fresh_list n0)) s1)) with (<[brk s := mk_block v (fresh_list n0)]> (blocks s)).
        rewrite lookup_insert_ne by lia. apply Hl0. }
      { apply lookup_insert_eq. }
      { lia. }
      { rewrite (ao_len _ _ _ Hl0). apply capacity_enough. lia. }
      { rewrite Hlf. etransitivity; [|apply capacity_enough; lia]. apply Z.div_le_mono; [|lia].
        destruct (unit_cases v) as [-> | ->]; lia. }
      unfold kfree. do 2 wp. apply (wp_get_vfile _ (with_private (brk s) (vsize v) v)); [by apply lookup_insert_eq|]. wp.
      eapply HQ. exact (grown_moved s f v n s1 l0 _ Hok Hpr Hl0 (conj (proj1 Hsz) (proj1 Hn)) Hlf eq_refl).
Qed.
Lemma grown_refl s f v l0 :
  fs_ok s → vfiles s !! f = Some v → private v ≠ 0 → array_ok s v l0 → grown s f v (vsize v) (private v) l0 s.
Proof.
  intros Hok Hf Hpr Hl0. pose proof (fo_blocks s Hok _ _ (ao_block _ _ _ Hl0)).
  destruct (grown_in_place s f v (vsize v) l0 Hok Hf Hpr Hl0 eq_refl). split; try done.
  rewrite insert_id; [done|]. rewrite Hf. by destruct v.
Qed.

(** Another file's array is neither the grown file's old one nor its new one. *)
Lemma grown_elsewhere s f v n p l s' g w :
  fs_ok s → vfiles s !! f = Some v → vops v = ramfs_ops → grown s f v n p l s' → g ≠ f → vfiles s !! g = Some w → vops w = ramfs_ops →
  private w ≠ 0 →
  private w ≠ private v ∧ private w ≠ p ∧ blocks s' !! private w = blocks s !! private w.
Proof.
  intros Hok Hf Hram Hg Hne Hw Hramw Hpw.
  assert (private w ≠ private v) as H1 by (intros E; apply Hne; symmetry; by apply (fo_private s Hok f g v w); congruence).
  assert (private w ≠ p) as H2.
  { destruct (gr_ptr _ _ _ _ _ _ _ Hg) as [[-> _]| ->]; [done|]. intros E.
    destruct (fo_node s Hok g w Hw Hramw) as [_ [[? _]|[_ [lw Hlw]]]]; [done|].
    pose proof (fo_blocks s Hok _ _ (ao_block _ _ _ Hlw)). lia. }
  split_and!; [done..|]. apply (gr_other _ _ _ _ _ _ _ Hg); done.
Qed.

(** The file system is in order again once the grown array has been filled, also
    when a new, empty file has been added. *)
Lemma grown_ok s f v n p l l' s' s2 :
  fs_ok s → vfiles s !! f = Some v → vops v = ramfs_ops → grown s f v n p l s' → 0 <= n < 2 ^ 31 → n mod unit_of v = 0 →
  length l' = length l → blocks s2 = <[p := mk_block v l']> (blocks s') → brk s' <= brk s2 →
  vfiles s' ⊆ vfiles s2 →
  (∀ g w, vfiles s2 !! g = Some w → vfiles s' !! g = Some w ∨ private w = 0 ∧ vsize w = 0 ∧ 0 < g < brk s2) →
  (is_flag v FS_FILE_IS_DIR = true →
     Forall (λ c, c = 0 ∨ is_Some (vfiles s2 !! c)) (take (Z.to_nat (n / 4)) l')) →
  fs_ok s2.
Proof.
  intros Hok Hf Hram Hg Hn Hun Hlen Hb2 Hbrk Hsub Hnew Hdir. pose proof (fo_brk s Hok) as Hb0.
  pose proof Hg as [Hgf Hgb Hgl _ Hgp Hgo Hgold [Hgbrk Hgbrk'] _].
  assert (0 < p < brk s') as Hp.
  { destruct Hgp as [[-> Hpr]| ->]; [|lia]. destruct (fo_node s Hok f v Hf Hram) as [_ [[? _]|[_ [l0 Hl0]]]]; [done|].
    pose proof (fo_blocks s Hok _ _ (ao_block _ _ _ Hl0)). lia. }
  assert (∀ g w, vfiles s2 !! g = Some w → private w ≠ 0 →
    (g = f ∧ w = with_private p n v) ∨ (g ≠ f ∧ vfiles s !! g = Some w)) as Hinv.
  { intros g w Hw Hpw. destruct (Hnew g w Hw) as [Hw'|(? & _)]; [|done]. rewrite Hgf in Hw'.
    apply lookup_insert_Some in Hw' as [[<- <-]|[? ?]]; auto. }
  assert (∀ c, is_Some (vfiles s !! c) → is_Some (vfiles s2 !! c)) as Hmono.
  { intros c Hc. assert (is_Some (vfiles s' !! c)) as [w Hw] by (rewrite Hgf; apply lookup_insert_is_Some'; by right).
    exists w. by apply (lookup_weaken (vfiles s')). }
  split.
  - lia.
  - intros g w Hw. destruct (Hnew g w Hw) as [Hw'|(_ & _ & ?)]; [|lia]. rewrite Hgf in Hw'.
    apply lookup_insert_Some in Hw' as [[<- _]|[_ Hw']]; [pose proof (fo_files s Hok _ _ Hf)|pose proof (fo_files s Hok _ _ Hw')]; lia.
  - intros q b Hq. rewrite Hb2 in Hq. apply lookup_insert_Some in Hq as [[<- _]|[Hqp Hq]]; [lia|].
    destruct (decide (private v ≠ 0 ∧ q = private v)) as [[Hpr ->]|Hqv]; [by rewrite Hgold in Hq by done|].
    rewrite Hgo in Hq by (done || (intros ? ->; by apply Hqv)). pose proof (fo_blocks s Hok _ _ Hq). lia.
  - intros g h w x Hw Hx Hrw Hrx Heq Hpw.
    destruct (Hinv g w Hw Hpw) as [[-> ->]|[Hgne Hws]], (Hinv h x Hx ltac:(congruence)) as [[-> ->]|[Hhne Hxs]]; [done| | |].
    + destruct (grown_elsewhere s f v n p l s' h x Hok Hf Hram Hg Hhne Hxs Hrx) as (_ & ? & _);
        cbn [private with_private] in Heq, Hpw; congruence.
    + destruct (grown_elsewhere s f v n p l s' g w Hok Hf Hram Hg Hgne Hws Hrw) as (_ & ? & _);
        cbn [private with_private] in Heq, Hpw; congruence.
    + by apply (fo_private s Hok g h w x).
  - intros g w Hw Hrw. destruct (decide (private w = 0)) as [E|Hpw].
    { destruct (Hnew g w Hw) as [Hw'|(_ & Hz & _)]; [|split; [rewrite Hz; lia|by left]]. rewrite Hgf in Hw'.
      apply lookup_insert_Some in Hw' as [[_ <-]|[_ Hw']]; [simpl in E; lia|].
      destruct (fo_node s Hok g w Hw' Hrw) as [? [?|[? _]]]; [|done]. split; [done|by left]. }
    destruct (Hinv g w Hw Hpw) as [[-> ->]|[Hgne Hws]].
    + split; [done|]. right. split; [done|]. exists l'. split; simpl; try done.
      * rewrite Hb2. by rewrite lookup_insert_eq.
      * by rewrite Hlen.
    + destruct (grown_elsewhere s f v n p l s' g w Hok Hf Hram Hg Hgne Hws Hrw Hpw) as (Hne1 & Hne2 & Heqb).
      destruct (fo_node s Hok g w Hws Hrw) as [Hsz [[? _]|[_ [lw [H1 H2 H3 H4]]]]]; [done|]. split; [done|].
      right. split; [done|]. exists lw. split; [|done|done|].
      * rewrite Hb2, lookup_insert_ne by done. by rewrite Heqb.
      * intros Hd. eapply Forall_impl; [by apply H4|]. intros c [?|?]; auto.
Qed.
(** ** Writing and reading *)

(** A plain file that may be written. *)
Definition writable (v : vfile) : Prop :=
  Z.land (vflags v) (Z.lor FS_FILE_READ_ONLY (Z.lor FS_FILE_IS_DIR FS_FILE_MOUNT)) = 0.

Lemma writable_flags v :
  writable v → is_flag v FS_FILE_IS_DIR = false ∧ is_flag v FS_FILE_MOUNT = false.
Proof.
  unfold writable, is_flag. intros Hw.
  assert (∀ b, Z.land b (Z.lor FS_FILE_READ_ONLY (Z.lor FS_FILE_IS_DIR FS_FILE_MOUNT)) = b →
    Z.land (vflags v) b = 0) as Hb.
  { intros b Hb. rewrite <- Hb, (Z.land_comm b), Z.land_assoc, Hw. by rewrite Z.land_0_l. }
  rewrite !Hb by reflexivity. done.
Qed.

Lemma plain_file v l n : is_flag v FS_FILE_IS_DIR = false → mk_block v l = Bytes l ∧ unit_of v = 1 ∧ capacity v n = 4096 * pages_of n.
Proof. intros Hd. unfold capacity, mk_block, unit_of. by rewrite Hd. Qed.

Lemma ramfs_write_wp f v data off s (Q : Z → fs → Prop) :
  fs_ok s → vfiles s !! f = Some v → vops v = ramfs_ops → writable v → (0 < length data)%nat → 0 <= off →
  off + Z.of_nat (length data) < 2 ^ 31 →
  (∀ p l s1, grown s f v (Z.max (vsize v) (off + Z.of_nat (length data))) p l s1 →
     Q (Z.of_nat (length data)) (set_block p (Bytes (splice l data off)) s1)) →
  wp (ramfs_write f data off) Q s.
Proof using alloc_ok.
  intros Hok Hf Hram Hw Hd Ho Hlim HQ. set (count := Z.of_nat (length data)) in *.
  destruct (fo_node s Hok f v Hf Hram) as [Hsz Hnode]. pose proof (fo_files s Hok f v Hf) as Hf0.
  destruct (writable_flags v Hw) as [Hdir _].
  assert (∀ p l s1 n, grown s f v n p l s1 → n = Z.max (vsize v) (off + count) →
    wp (v ← get_vfile f; bs ← bytes_at (private v);
        if bool_decide (off + count <= Z.of_nat (length bs)) then
          modify (set_block (private v) (Bytes (splice bs data off)));; mret count
        else fail (OutOfBounds (off + count))) Q s1) as Hstore.
  { intros p l s1 n Hg ->. destruct (plain_file v l (Z.max (vsize v) (off + count)) Hdir) as (Hmk & _ & Hcap). wp.
    apply (wp_get_vfile _ (with_private p (Z.max (vsize v) (off + count)) v)).
    { rewrite (gr_files _ _ _ _ _ _ _ Hg). apply lookup_insert_eq. }
    wp. cbn [private with_private]. apply (wp_bytes_at _ l); [by rewrite (gr_block _ _ _ _ _ _ _ Hg), Hmk|].
    destruct (pages_bounds (Z.max (vsize v) (off + count)) ltac:(lia)) as (_ & Hpg & _).
    rewrite bool_decide_eq_true_2 by (rewrite (gr_len _ _ _ _ _ _ _ Hg), Hcap; lia). wp. by apply HQ. }
  unfold ramfs_write. fold count. rewrite (proj2 (Z.eqb_neq f 0)) by lia. wp. apply (wp_get_vfile _ v); [done|].
  unfold writable in Hw. rewrite Hw. cbn [Z.eqb negb]. wp.
  assert (u64 (count + off) = off + count) as -> by (unfold u64; rewrite Z.mod_small; lia).
  rewrite Z.gtb_ltb. destruct (Z.ltb_spec (vsize v) (off + count)) as [Hgrow|Hin]; wp.
  - rewrite u32_id by (unfold is_u32; lia). apply (resize_wp f v); [done|done|done|lia|]. intros p l s1 Hg.
    rewrite (proj2 (Z.eqb_neq (off + count) 0)) by lia. apply (Hstore p l s1 (off + count)); [done|lia].
  - destruct Hnode as [[_ ?]|[Hpr [l0 Hl0]]]; [lia|].
    apply (Hstore (private v) l0 s (vsize v)); [by apply grown_refl|lia].
Qed.

(** The bytes of a plain file. *)
Definition contents (s : fs) (v : vfile) : list Z :=
  match blocks s !! private v with
  | Some b => take (Z.to_nat (vsize v)) (cells b)
  | None => []
  end.

Lemma ramfs_read_wp f v l off count s (Q : list Z * Z → fs → Prop) :
  f ≠ 0 → vfiles s !! f = Some v → writable v → private v ≠ 0 → blocks s !! private v = Some (Bytes l) →
  off + count <= Z.of_nat (length l) →
  Q (take (Z.to_nat count) (drop (Z.to_nat off) l), count) s → wp (ramfs_read f off count) Q s.
Proof.
  intros Hf0 Hf Hw Hpr Hb Hl HQ. destruct (writable_flags v Hw) as [Hdir Hmnt].
  unfold ramfs_read. rewrite (proj2 (Z.eqb_neq f 0)) by done. wp. apply (wp_get_vfile _ v); [done|].
  rewrite Hdir, Hmnt, (proj2 (Z.eqb_neq _ _) Hpr). cbn [orb]. wp. apply (wp_bytes_at _ l); [done|].
  rewrite bool_decide_eq_true_2 by done. by wp.
Qed.

(** ** Directories *)

(** The entries of a directory. *)
Definition children (s : fs) (v : vfile) : list Z :=
  match blocks s !! private v with
  | Some b => take (Z.to_nat (vsize v / 4)) (cells b)
  | None => []
  end.

(** The first entry with a name, or 0. *)
Fixpoint find_name (s : fs) (name : list Z) (cs : list Z) : Z :=
  match cs with
  | [] => 0
  | c :: cs =>
      if c =? 0 then find_name s name cs
      else match vfiles s !! c with
           | Some v => if decide (vname v = name) then c else find_name s name cs
           | None => find_name s name cs
           end
  end.

Definition named (s : fs) (name : list Z) (c : Z) : bool :=
  negb (c =? 0) && match vfiles s !! c with Some v => bool_decide (vname v = name) | None => false end.

Lemma find_name_app s name cs c cs' :
  (∀ x, x ∈ cs → named s name x = false) →
  find_name s name (cs ++ c :: cs') = if named s name c then c else find_name s name cs'.
Proof.
  induction cs as [|x cs IH]; intros Hno; cbn [app find_name].
  - unfold named. destruct (c =? 0); [done|]. destruct (vfiles s !! c) as [v|]; [|done]. cbn [negb andb].
    by repeat case_decide; case_bool_decide.
  - pose proof (Hno x ltac:(left)) as Hx. unfold named in Hx. rewrite IH by (intros; apply Hno; by right).
    destruct (x =? 0); [done|]. destruct (vfiles s !! x); [|done]. cbn [negb andb] in Hx.
    case_decide; [|done]. by rewrite bool_decide_eq_true_2 in Hx.
Qed.

Lemma find_name_none s name cs : (∀ x, x ∈ cs → named s name x = false) → find_name s name cs = 0.
Proof.
  induction cs as [|x cs IH]; intros Hno; [done|]. cbn [find_name].
  pose proof (Hno x ltac:(left)) as Hx. unfold named in Hx. rewrite IH by (intros; apply Hno; by right).
  destruct (x =? 0); [done|]. destruct (vfiles s !! x); [|done]. cbn [negb andb] in Hx.
  case_decide; [|done]. by rewrite bool_decide_eq_true_2 in Hx.
Qed.

Lemma find_name_zero s name cs : find_name s name cs = 0 → ∀ x, x ∈ cs → named s name x = false.
Proof.
  induction cs as [|y cs IH]; intros Hz x Hx; [by apply not_elem_of_nil in Hx|]. cbn [find_name] in Hz.
  assert (named s name y = false ∧ find_name s name cs = 0) as [Hy Hcs].
  { unfold named. destruct (Z.eqb_spec y 0); [done|]. destruct (vfiles s !! y); [|done].
    case_decide; [lia|]. split; [|done]. by apply bool_decide_eq_false_2. }
  apply elem_of_cons in Hx as [->|Hx]; [done|]. by apply IH.
Qed.

Lemma children_eq s v l :
  is_flag v FS_FILE_IS_DIR = true → blocks s !! private v = Some (mk_block v l) →
  children s v = take (Z.to_nat (vsize v / 4)) l.
Proof. intros Hd Hb. unfold children. rewrite Hb. unfold mk_block. by rewrite Hd. Qed.

Lemma children_empty s v : fs_ok s → private v = 0 → children s v = [].
Proof.
  intros Hok Hp. unfold children. rewrite Hp. destruct (blocks s !! 0) as [b|] eqn:E; [|done].
  pose proof (fo_blocks s Hok _ _ E). lia.
Qed.

Lemma dir_array s d v :
  fs_ok s → vfiles s !! d = Some v → is_flag v FS_FILE_IS_DIR = true → vops v = ramfs_ops → private v ≠ 0 →
  ∃ l, array_ok s v l ∧ blocks s !! private v = Some (Dirents l) ∧
    0 <= vsize v / 4 <= Z.of_nat (length l) ∧ vsize v mod 4 = 0 ∧ children s v = take (Z.to_nat (vsize v / 4)) l.
Proof.
  intros Hok Hd Hdir Hram Hpr. destruct (fo_node s Hok d v Hd Hram) as [Hsz [[? _]|[_ [l Hl]]]]; [done|].
  exists l. pose proof (capacity_enough v (vsize v) ltac:(lia)) as Hc. pose proof Hl as [Hb Hlen Hu _].
  assert (unit_of v = 4) as Hun by (unfold unit_of; by rewrite Hdir). rewrite Hun in Hc, Hu.
  pose proof (Z.div_pos (vsize v) 4 ltac:(lia) ltac:(lia)).
  split_and!; [done| |done|lia|done|by apply children_eq]. rewrite Hb. unfold mk_block. by rewrite Hdir.
Qed.

(** A scan over the entries that stops at the first hit is [find_name]. *)
Lemma search_dir_wp nm d v s (Q : Z → fs → Prop) :
  fs_ok s → vfiles s !! d = Some v → is_flag v FS_FILE_IS_DIR = true → vops v = ramfs_ops →
  Q (find_name s nm (children s v)) s → wp (search_dir nm d) Q s.
Proof.
  intros Hok Hd Hdir Hram HQ. pose proof (fo_files s Hok d v Hd). unfold search_dir.
  rewrite (proj2 (Z.eqb_neq d 0)) by lia. wp. apply (wp_get_vfile _ v); [done|].
  destruct (Z.eqb_spec (private v) 0) as [Hp|Hpr]; wp.
  { by rewrite children_empty in HQ. }
  destruct (dir_array s d v Hok Hd Hdir Hram Hpr) as (l & [_ _ _ Hall] & Hb & Hlen & _ & Hch). specialize (Hall Hdir).
  apply (wp_dirents_at _ l); [done|]. rewrite Hch in HQ. set (cs := take _ l) in *. wp.
  apply (wp_for (λ i s', s' = s ∧ ∀ x, x ∈ take (Z.to_nat i) cs → named s nm x = false)); [lia| | |].
  - split; [done|]. intros x Hx. by apply not_elem_of_nil in Hx.
  - intros i s' Hi [-> Hno]. destruct (lookup_lt_is_Some_2 l (Z.to_nat i)) as [c Hc]; [lia|]. wp.
    apply (wp_at_index _ _ c); [done|].
    assert (cs !! Z.to_nat i = Some c) as Hcc by (unfold cs; rewrite lookup_take, decide_True by lia; done).
    assert (∀ y, named s nm c = false → y ∈ take (Z.to_nat (i + 1)) cs → named s nm y = false) as Hstep.
    { intros y Hcn Hy. replace (Z.to_nat (i + 1)) with (S (Z.to_nat i)) in Hy by lia.
      rewrite (take_S_r _ _ _ Hcc) in Hy. apply elem_of_app in Hy as [Hy|Hy]; [by apply Hno|].
      apply list_elem_of_singleton in Hy as ->. done. }
    destruct (Z.eqb_spec c 0) as [->|Hc0]; wp.
    { split; [done|]. intros y Hy. by apply Hstep. }
    destruct (proj1 (Forall_lookup _ _) Hall _ _ Hcc) as [?|[w Hw]]; [done|].
    apply (wp_get_vfile _ w); [done|].
    assert (named s nm c = bool_decide (vname w = nm)) as Hnm
      by (unfold named; by rewrite (proj2 (Z.eqb_neq c 0) Hc0), Hw).
    destruct (bool_decide (vname w = nm)); wp.
    + assert (find_name s nm cs = c) as Hfind.
      { rewrite <- (take_drop_middle cs _ _ Hcc), find_name_app by done. by rewrite Hnm. }
      by rewrite Hfind in HQ.
    + split; [done|]. intros y Hy. by apply Hstep.
  - intros s' [-> Hno]. wp. rewrite find_name_none in HQ; [done|]. intros x Hx. apply Hno.
    rewrite take_ge by (unfold cs; rewrite length_take; lia). done.
Qed.

(** A new entry goes into the first free place, or behind the last one. *)
Fixpoint fill (cs : list Z) (f : Z) : list Z :=
  match cs with
  | [] => [f]
  | c :: cs => if c =? 0 then f :: cs else c :: fill cs f
  end.

Lemma fill_app cs f cs' : Forall (λ c, c ≠ 0) cs → fill (cs ++ 0 :: cs') f = cs ++ f :: cs'.
Proof.
  induction 1 as [|c cs Hc _ IH]; [done|]. cbn [app fill]. by rewrite (proj2 (Z.eqb_neq c 0)), IH.
Qed.
Lemma fill_at cs i f : cs !! i = Some 0 → Forall (λ c, c ≠ 0) (take i cs) → fill cs f = <[i := f]> cs.
Proof.
  intros Hi Hno. rewrite <- (take_drop_middle cs i 0 Hi) at 1. rewrite fill_app by done.
  symmetry. apply insert_take_drop. by apply lookup_lt_Some in Hi.
Qed.
Lemma fill_full cs f : Forall (λ c, c ≠ 0) cs → fill cs f = cs ++ [f].
Proof.
  induction 1 as [|c cs Hc _ IH]; [done|]. cbn [app fill]. by rewrite (proj2 (Z.eqb_neq c 0)), IH.
Qed.
Lemma elem_of_fill cs f x : x ∈ fill cs f → x = f ∨ x ∈ cs.
Proof.
  induction cs as [|c cs IH]; cbn [fill]; [rewrite list_elem_of_singleton; by left|].
  case_match; rewrite !elem_of_cons; [intros [->|?]; auto|]. intros [->|?%IH]; [auto|]. destruct H0; auto.
Qed.

(** A file [f] called [nm] has been added to directory [d]. *)
Record created (s : fs) (d : Z) (v : vfile) (nm : list Z) (flags f : Z) (s' : fs)
    (n p : Z) (l l' : list Z) (s1 : fs) (bsz : Z) : Prop := {
  cr_grown : grown s d v n p l s1;
  cr_n : 0 <= n < 2 ^ 31 ∧ n mod 4 = 0;
  cr_f : f = brk s1;
  cr_files : vfiles s' = <[f := VFile nm flags ramfs_ops 0 0 0 bsz]> (vfiles s1);
  cr_blocks : blocks s' = <[p := Dirents l']> (blocks s1);
  cr_len : length l' = length l;
  cr_children : take (Z.to_nat (n / 4)) l' = fill (children s v) f;
  cr_brk : brk s1 < brk s';
  cr_lock : vfs_lock s' = vfs_lock s;
}.

Lemma new_vfile_wp f nm flags bsz (Q : unit → fs → Prop) s :
  f ≠ 0 → Z.of_nat (length nm) < NAME_SIZE → Q tt (set_vfile f (VFile nm flags ramfs_ops 0 0 0 bsz) s) →
  wp (new_vfile f nm flags bsz) Q s.
Proof.
  intros Hf Hn HQ. unfold new_vfile. rewrite (proj2 (Z.eqb_neq f 0)), (proj2 (Z.leb_gt _ _)) by done. by wp.
Qed.
Lemma set_dirent_wp p i x l (Q : unit → fs → Prop) s :
  blocks s !! p = Some (Dirents l) → 0 <= i < Z.of_nat (length l) →
  Q tt (set_block p (Dirents (<[Z.to_nat i := x]> l)) s) → wp (set_dirent p i x) Q s.
Proof.
  intros Hb Hi HQ. unfold set_dirent. wp. apply (wp_dirents_at _ l); [done|]. rewrite bool_decide_eq_true_2 by done. by wp.
Qed.

(** The loop finds the first free place. *)
Lemma create_loop_wp d v l nm flags s (Q : option Z → fs → Prop) :
  fs_ok s → vfiles s !! d = Some v → private v ≠ 0 → blocks s !! private v = Some (Dirents l) →
  0 <= vsize v / 4 <= Z.of_nat (length l) → Z.of_nat (length nm) < NAME_SIZE →
  (∀ i, (i < Z.to_nat (vsize v / 4))%nat → l !! i = Some 0 → Forall (λ c, c ≠ 0) (take i l) →
     Q (Some (brk s)) (set_block (private v) (Dirents (<[i := brk s]> l))
       (set_vfile (brk s) (VFile nm flags ramfs_ops 0 0 0 0) (set_brk (brk s + PAGE_SIZE_BYTES * Z.max 1 1) s)))) →
  (Forall (λ c, c ≠ 0) (take (Z.to_nat (vsize v / 4)) l) → Q None s) →
  wp (for_loop 0 (vsize v / 4) (λ i,
        dirents ← dirents_at (private v);
        c ← at_index dirents i;
        if negb (c =? 0) then mret None
        else
          new_file ← kmalloc 1;
          new_vfile new_file nm flags 0;;
          set_dirent (private v) i new_file;;
          mret (Some new_file))) Q s.
Proof using alloc_ok.
  intros Hok Hd Hpr Hb Hlen Hnm HQ1 HQ2. pose proof (fo_brk s Hok).
  apply (wp_for (λ i s', s' = s ∧ Forall (λ c, c ≠ 0) (take (Z.to_nat i) l))); [lia|by split| |].
  - intros i s' Hi [-> Hno]. wp. apply (wp_dirents_at _ l); [done|].
    destruct (lookup_lt_is_Some_2 l (Z.to_nat i)) as [c Hc]; [lia|]. wp. apply (wp_at_index _ _ c); [done|].
    destruct (Z.eqb_spec c 0) as [->|Hc0]; cbn [negb]; wp.
    + apply ram_kmalloc_wp. wp. apply new_vfile_wp; [lia|done|]. wp. apply (set_dirent_wp _ _ _ l); [done|lia|]. wp.
      apply HQ1; [lia|done|done].
    + split; [done|]. replace (Z.to_nat (i + 1)) with (S (Z.to_nat i)) by lia. rewrite (take_S_r _ _ _ Hc).
      apply Forall_app. split; [done|]. by constructor.
  - intros s' [-> Hno]. auto.
Qed.

Lemma strip_clean nm : head nm ≠ Some 47 → strip_slash nm = nm.
Proof. destruct nm as [|c nm]; [done|]. cbn [strip_slash head]. intros Hc. by destruct (Z.eqb_spec c 47) as [->|]. Qed.

Lemma grown_children s d v n p l s1 :
  fs_ok s → vfiles s !! d = Some v → is_flag v FS_FILE_IS_DIR = true → vops v = ramfs_ops → grown s d v n p l s1 →
  take (Z.to_nat (vsize v / 4)) l = children s v.
Proof.
  intros Hok Hd Hdir Hram Hg. destruct (fo_node s Hok d v Hd Hram) as [Hsz [[Hp Hz]|[Hpr _]]].
  - rewrite Hz, children_empty by done. done.
  - destruct (dir_array s d v Hok Hd Hdir Hram Hpr) as (l0 & Hl0 & _ & _ & _ & Hch).
    pose proof (gr_same _ _ _ _ _ _ _ Hg l0 Hl0) as Hs. unfold unit_of in Hs. rewrite Hdir in Hs. by rewrite Hs, Hch.
Qed.

(** The end of [ramfs_create], when no place is free. *)
Lemma create_extend_wp d v nm flags s (Q : Z → fs → Prop) :
  fs_ok s → vfiles s !! d = Some v → is_flag v FS_FILE_IS_DIR = true → vops v = ramfs_ops → vsize v + 4 < 2 ^ 31 → vsize v mod 4 = 0 →
  Z.of_nat (length nm) < NAME_SIZE → Forall (λ c, c ≠ 0) (children s v) →
  (∀ f s' n p l l' s1 bsz, created s d v nm flags f s' n p l l' s1 bsz → Q f s') →
  wp (ok ← ramfs_resize d (u32 (vsize v + 4));
      if ok =? 0 then mret 0
      else
        new_file ← kmalloc 1;
        if new_file =? 0 then mret 0
        else
          new_vfile new_file nm flags 1;;
          parent ← get_vfile d;
          set_dirent (private parent) (vsize parent / 4 - 1) new_file;;
          mret new_file) Q s.
Proof using alloc_ok.
  intros Hok Hd Hdir Hram Hlim Hm Hnm Hnz HQ. pose proof (fo_files s Hok d v Hd). pose proof (fo_brk s Hok).
  destruct (fo_node s Hok d v Hd Hram) as [Hsz _]. rewrite u32_id by (unfold is_u32; lia). wp.
  apply (resize_wp d v); [done|done|done|lia|]. intros p l s1 Hg. rewrite (proj2 (Z.eqb_neq (vsize v + 4) 0)) by lia. wp.
  pose proof (gr_brk _ _ _ _ _ _ _ Hg) as [Hb1 Hb2].
  apply ram_kmalloc_wp. rewrite (proj2 (Z.eqb_neq (brk s1) 0)) by lia. wp. apply new_vfile_wp; [lia|done|]. wp.
  assert (brk s1 ≠ d) by lia.
  apply (wp_get_vfile _ (with_private p (vsize v + 4) v)).
  { cbn [vfiles set_vfile set_brk]. rewrite lookup_insert_ne by done. rewrite (gr_files _ _ _ _ _ _ _ Hg). apply lookup_insert_eq. }
  cbn [private vsize with_private]. replace (vsize v + 4) with (vsize v + 1 * 4) in * by lia.
  assert ((vsize v + 1 * 4) / 4 = vsize v / 4 + 1) as Hq by (rewrite Z.div_add; lia).
  replace ((vsize v + 1 * 4) / 4 - 1) with (vsize v / 4) by lia.
  pose proof (gr_len _ _ _ _ _ _ _ Hg) as Hlen. pose proof (capacity_enough v (vsize v + 1 * 4) ltac:(lia)) as Hcap.
  assert (unit_of v = 4) as Hun by (unfold unit_of; by rewrite Hdir). rewrite Hun, Hq in Hcap.
  assert (0 <= vsize v / 4) by (apply Z.div_pos; lia).
  wp. apply (set_dirent_wp _ _ _ l); [|lia|].
  { cbn [blocks set_vfile set_brk]. rewrite (gr_block _ _ _ _ _ _ _ Hg). unfold mk_block. by rewrite Hdir. }
  wp. eapply (HQ _ _ (vsize v + 1 * 4) p l). split; [exact Hg| |reflexivity..|by rewrite length_insert| | |].
  - split; [lia|]. by rewrite Z.mod_add by lia.
  - rewrite fill_full by done. rewrite Hq. replace (Z.to_nat (vsize v / 4 + 1)) with (S (Z.to_nat (vsize v / 4))) by lia.
    rewrite (take_S_r _ _ (brk s1)) by (apply list_lookup_insert_eq; lia). f_equal.
    rewrite take_insert_ge by lia. by eapply grown_children.
  - simpl. unfold PAGE_SIZE_BYTES. lia.
  - apply (gr_lock _ _ _ _ _ _ _ Hg).
Qed.

Lemma ramfs_create_wp d v nm flags s (Q : Z → fs → Prop) :
  fs_ok s → vfiles s !! d = Some v → is_flag v FS_FILE_IS_DIR = true → vops v = ramfs_ops → vsize v + 4 < 2 ^ 31 →
  head nm ≠ Some 47 → Z.of_nat (length nm) < NAME_SIZE →
  (∀ f s' n p l l' s1 bsz, created s d v nm flags f s' n p l l' s1 bsz → Q f s') →
  wp (ramfs_create d nm flags) Q s.
Proof using alloc_ok.
  intros Hok Hd Hdir Hram Hlim Hcl Hnm HQ. pose proof (fo_files s Hok d v Hd). pose proof (fo_brk s Hok).
  destruct (fo_node s Hok d v Hd Hram) as [Hsz _].
  unfold ramfs_create. rewrite (strip_clean nm Hcl), (proj2 (Z.eqb_neq d 0)) by lia. wp.
  apply (wp_get_vfile _ v); [done|]. rewrite Hdir. cbn [negb]. wp.
  destruct (decide (private v = 0)) as [Hp|Hpr].
  { destruct (fo_node s Hok d v Hd Hram) as [_ [[_ Hz]|[? _]]]; [|done].
    assert (children s v = []) as Hch by (by apply children_empty).
    pose proof (create_extend_wp d v nm flags s Q Hok Hd Hdir Hram Hlim) as Hext. rewrite Hz, Hch in *.
    apply Hext; [done..|constructor|done]. }
  destruct (dir_array s d v Hok Hd Hdir Hram Hpr) as (l & Hl & Hb & Hlen & Hm & Hch).
  apply (create_loop_wp d v l nm flags); [done..| |].
  - intros i Hi Hl0 Hno. wp. eapply (HQ _ _ (vsize v) (private v) l). split; [by apply grown_refl|..]; try reflexivity.
    + done.
    + by rewrite length_insert.
    + rewrite Hch, take_insert_lt by done. symmetry. apply fill_at.
      * by rewrite lookup_take, decide_True.
      * by rewrite take_take, Nat.min_l by lia.
    + simpl. unfold PAGE_SIZE_BYTES. lia.
  - intros Hno. apply (create_extend_wp d v nm flags s Q Hok Hd Hdir Hram Hlim Hm Hnm); [by rewrite Hch|done].
Qed.

Lemma find_name_cons s nm c cs : find_name s nm (c :: cs) = if named s nm c then c else find_name s nm cs.
Proof. apply (find_name_app s nm []). intros x Hx. by apply not_elem_of_nil in Hx. Qed.

Lemma find_name_ext s s' nm cs :
  (∀ x, x ∈ cs → named s' nm x = named s nm x) → find_name s' nm cs = find_name s nm cs.
Proof.
  induction cs as [|c cs IH]; intros Hx; [done|]. rewrite !find_name_cons, (Hx c), IH by (left || (intros; apply Hx; by right)).
  done.
Qed.

Lemma find_name_fill s s' nm f cs :
  (∀ x, x ∈ cs → named s' nm x = named s nm x) → named s' nm 0 = false →
  find_name s' nm (fill cs f) =
    if named s' nm f then (if decide (find_name s nm cs = 0) then f else find_name s' nm (fill cs f))
    else find_name s nm cs.
Proof.
  intros Hx H0. induction cs as [|c cs IH]; cbn [fill].
  - rewrite find_name_cons. destruct (named s' nm f); [|done]. by rewrite decide_True.
  - specialize (IH ltac:(intros; apply Hx; by right)). pose proof (Hx c ltac:(left)) as Hc.
    destruct (Z.eqb_spec c 0) as [->|Hc0].
    + rewrite !find_name_cons. rewrite <- Hc, H0. destruct (named s' nm f).
      * by case_decide.
      * apply find_name_ext. intros; apply Hx. by right.
    + rewrite !find_name_cons. rewrite <- Hc. destruct (named s' nm c) eqn:E.
      * rewrite decide_False by done. by destruct (named s' nm f).
      * rewrite IH. destruct (named s' nm f); [|done]. by case_decide.
Qed.

Lemma created_ok s d v nm flags f s' n p l l' s1 bsz :
  fs_ok s → vfiles s !! d = Some v → is_flag v FS_FILE_IS_DIR = true → vops v = ramfs_ops →
  created s d v nm flags f s' n p l l' s1 bsz → fs_ok s'.
Proof.
  intros Hok Hd Hdir Hram [Hg [Hn Hm] Hf Hfs Hbs Hlen Hch Hbrk _]. pose proof (fo_brk s Hok).
  pose proof (gr_brk _ _ _ _ _ _ _ Hg) as [Hb1 _]. pose proof (gr_files _ _ _ _ _ _ _ Hg) as Hgf.
  assert (vfiles s1 !! f = None) as Hfresh.
  { destruct (vfiles s1 !! f) as [w|] eqn:E; [|done]. rewrite Hgf in E.
    apply lookup_insert_Some in E as [[<- _]|[_ E]]; [pose proof (fo_files s Hok _ _ Hd)|pose proof (fo_files s Hok _ _ E)]; lia. }
  apply (grown_ok s d v n p l l' s1 s'); try done.
  - unfold unit_of. by rewrite Hdir.
  - rewrite Hbs. unfold mk_block. by rewrite Hdir.
  - lia.
  - rewrite Hfs. by apply insert_subseteq.
  - intros g w Hw. rewrite Hfs in Hw. apply lookup_insert_Some in Hw as [[<- <-]|[_ Hw]]; [right|by left].
    split_and!; try done; simpl; lia.
  - intros _. rewrite Hch. apply Forall_forall. intros x Hx. apply elem_of_fill in Hx as [->|Hx].
    + right. rewrite Hfs. by rewrite lookup_insert_eq.
    + destruct (decide (private v = 0)) as [E|Hpr].
      { rewrite children_empty in Hx by done. by apply not_elem_of_nil in Hx. }
      destruct (dir_array s d v Hok Hd Hdir Hram Hpr) as (l0 & [_ _ _ Hall] & _ & _ & _ & Hch0). specialize (Hall Hdir).
      rewrite <- Hch0, Forall_forall in Hall. destruct (Hall x Hx) as [?|[w Hw]]; [by left|]. right.
      rewrite Hfs, Hgf. rewrite !lookup_insert_is_Some'. right. right. by exists w.
Qed.

(** What a new file changes of the tree: its directory's entries, and nothing
    that was there before. *)
Record added (s : fs) (d : Z) (v : vfile) (nm : list Z) (f : Z) (s' : fs) (v' : vfile) (fv : vfile) : Prop := {
  ad_ok : fs_ok s';
  ad_new : vfiles s !! f = None;
  ad_file : vfiles s' !! f = Some fv;
  ad_name : vname fv = nm;
  ad_dir : vfiles s' !! d = Some v';
  ad_same_dir : vname v' = vname v ∧ vflags v' = vflags v ∧ vops v' = vops v;
  ad_children : children s' v' = fill (children s v) f;
  ad_other g w : g ≠ d → vfiles s !! g = Some w → vfiles s' !! g = Some w ∧ (vops w = ramfs_ops → children s' w = children s w);
}.

Lemma created_added s d v nm flags f s' n p l l' s1 bsz :
  fs_ok s → vfiles s !! d = Some v → is_flag v FS_FILE_IS_DIR = true → vops v = ramfs_ops →
  created s d v nm flags f s' n p l l' s1 bsz →
  added s d v nm f s' (with_private p n v) (VFile nm flags ramfs_ops 0 0 0 bsz).
Proof.
  intros Hok Hd Hdir Hram Hcr. pose proof (created_ok _ _ _ _ _ _ _ _ _ _ _ _ _ Hok Hd Hdir Hram Hcr) as Hok'.
  destruct Hcr as [Hg _ Hf Hfs Hbs _ Hch _ _]. pose proof (gr_brk _ _ _ _ _ _ _ Hg) as [Hb1 _].
  pose proof (gr_files _ _ _ _ _ _ _ Hg) as Hgf.
  assert (∀ g w, vfiles s !! g = Some w → f ≠ g) as Hne.
  { intros g w Hw ->. pose proof (fo_files s Hok _ _ Hw). lia. }
  split; try done.
  - destruct (vfiles s !! f) as [w|] eqn:E; [|done]. by destruct (Hne f w E).
  - rewrite Hfs. apply lookup_insert_eq.
  - rewrite Hfs, lookup_insert_ne by (by apply (Hne d v)). rewrite Hgf. apply lookup_insert_eq.
  - unfold children at 1. cbn [private vsize with_private]. rewrite Hbs, lookup_insert_eq. done.
  - intros g w Hgd Hw. split.
    + rewrite Hfs, lookup_insert_ne by (by apply (Hne g w)). rewrite Hgf. by rewrite lookup_insert_ne.
    + intros Hrw. destruct (decide (private w = 0)) as [E|Hpw]; [by rewrite !children_empty|].
      destruct (grown_elsewhere s d v n p l s1 g w Hok Hd Hram Hg Hgd Hw Hrw Hpw) as (_ & Hpp & Heq).
      unfold children. by rewrite Hbs, lookup_insert_ne, Heq by done.
Qed.

Section added.
Context {s d v nm f s' v' fv} (Hok : fs_ok s) (Hd : vfiles s !! d = Some v) (Ha : added s d v nm f s' v' fv).

Lemma added_named nm' x : is_Some (vfiles s !! x) ∨ x = 0 → named s' nm' x = named s nm' x.
Proof using Hok Hd Ha.
  intros [[w Hw]| ->]; [|done]. unfold named. destruct (decide (x = d)) as [->|Hxd].
  - rewrite (ad_dir _ _ _ _ _ _ _ _ Ha), Hd. by destruct (ad_same_dir _ _ _ _ _ _ _ _ Ha) as [-> _].
  - destruct (ad_other _ _ _ _ _ _ _ _ Ha x w Hxd Hw) as [-> _]. by rewrite Hw.
Qed.

Lemma children_exist g w :
  vfiles s !! g = Some w → is_flag w FS_FILE_IS_DIR = true → vops w = ramfs_ops → ∀ x, x ∈ children s w → is_Some (vfiles s !! x) ∨ x = 0.
Proof using Hok.
  intros Hg Hdir Hram x Hx. destruct (decide (private w = 0)) as [E|Hpr].
  { rewrite children_empty in Hx by done. by apply not_elem_of_nil in Hx. }
  destruct (dir_array s g w Hok Hg Hdir Hram Hpr) as (l0 & [_ _ _ Hall] & _ & _ & _ & Hch). specialize (Hall Hdir).
  rewrite <- Hch, Forall_forall in Hall. destruct (Hall x Hx); auto.
Qed.

(** Looking a name up in any directory gives what it gave before, except for
    the new name in the new file's directory. *)
Lemma added_find_other g w nm' :
  g ≠ d → vfiles s !! g = Some w → is_flag w FS_FILE_IS_DIR = true → vops w = ramfs_ops →
  find_name s' nm' (children s' w) = find_name s nm' (children s w).
Proof using Hok Hd Ha.
  intros Hgd Hw Hdir Hram. destruct (ad_other _ _ _ _ _ _ _ _ Ha g w Hgd Hw) as [_ ->]; [|done].
  apply find_name_ext. intros x Hx. apply added_named. by apply (children_exist g w).
Qed.

Lemma added_find_dir nm' :
  is_flag v FS_FILE_IS_DIR = true → vops v = ramfs_ops →
  nm' ≠ nm ∨ find_name s nm (children s v) = 0 →
  find_name s' nm' (children s' v') = if decide (nm' = nm) then f else find_name s nm' (children s v).
Proof using Hok Hd Ha.
  intros Hdir Hram Hnm. rewrite (ad_children _ _ _ _ _ _ _ _ Ha).
  assert (named s' nm' f = bool_decide (nm = nm')) as Hf.
  { unfold named. rewrite (ad_file _ _ _ _ _ _ _ _ Ha), (ad_name _ _ _ _ _ _ _ _ Ha).
    pose proof (fo_files s' (ad_ok _ _ _ _ _ _ _ _ Ha) _ _ (ad_file _ _ _ _ _ _ _ _ Ha)).
    rewrite (proj2 (Z.eqb_neq f 0)) by lia. done. }
  rewrite (find_name_fill s s' nm' f (children s v)), Hf; [|intros x Hx; apply added_named; by apply (children_exist d v)|done].
  destruct (decide (nm' = nm)) as [->|Hne].
  - rewrite bool_decide_eq_true_2 by done. destruct Hnm as [?|Hz]; [done|]. by rewrite decide_True.
  - by rewrite bool_decide_eq_false_2 by congruence.
Qed.
End added.

(** ** Reference counts and the lock aside *)

(** Closing a directory only counts its references down, and the lock is taken
    around a call: states that differ in nothing else show the same tree. *)
Definition erase (v : vfile) : vfile :=
  VFile (vname v) (vflags v) (vops v) 0 (private v) (vsize v) (block_size_bytes v).
Definition forget (s : fs) : fs := FS (erase <$> vfiles s) (blocks s) (brk s) false.
Definition same_tree (s s' : fs) : Prop := forget s = forget s'.

#[local] Instance same_tree_equiv : Equivalence same_tree.
Proof. split; unfold same_tree; [intros x; reflexivity|intros x y; congruence|intros x y z; congruence]. Qed.

Lemma same_tree_vfile s s' g w' :
  same_tree s s' → vfiles s' !! g = Some w' → ∃ w, vfiles s !! g = Some w ∧ erase w = erase w'.
Proof.
  intros Hst Hw. apply (f_equal vfiles) in Hst. cbn [vfiles forget] in Hst.
  apply (f_equal (λ m, m !! g)) in Hst. rewrite !lookup_fmap, Hw in Hst.
  destruct (vfiles s !! g) as [w|]; [|done]. exists w. split; [done|]. apply (inj Some). exact Hst.
Qed.

Lemma erase_eq v w :
  erase v = erase w → vname v = vname w ∧ vflags v = vflags w ∧ vops v = vops w ∧ private v = private w ∧ vsize v = vsize w.
Proof. unfold erase. intros [=]. done. Qed.

Lemma same_tree_blocks s s' : same_tree s s' → blocks s' = blocks s ∧ brk s' = brk s.
Proof. unfold same_tree, forget. intros [=]. done. Qed.

Lemma same_tree_is_Some s s' x : same_tree s s' → is_Some (vfiles s' !! x) ↔ is_Some (vfiles s !! x).
Proof.
  intros Hst. split; intros [w Hw].
  - destruct (same_tree_vfile s s' x w Hst Hw) as (w' & -> & _). done.
  - symmetry in Hst. destruct (same_tree_vfile s' s x w Hst Hw) as (w' & -> & _). done.
Qed.

#[local] Instance named_proper : Proper (same_tree ==> eq ==> eq ==> eq) named.
Proof.
  intros s s' Hst nm ? <- x ? <-. unfold named. destruct (vfiles s' !! x) as [w'|] eqn:E.
  - destruct (same_tree_vfile s s' x w' Hst E) as (w & -> & He). by destruct (erase_eq _ _ He) as [-> _].
  - destruct (vfiles s !! x) as [w|] eqn:E'; [|done]. symmetry in Hst.
    destruct (same_tree_vfile s' s x w Hst E') as (w' & Hw' & _). congruence.
Qed.
#[local] Instance find_name_proper : Proper (same_tree ==> eq ==> eq ==> eq) find_name.
Proof. intros s s' Hst nm ? <- cs ? <-. apply find_name_ext. intros x _. symmetry. by apply named_proper. Qed.

Lemma children_same s s' w w' : same_tree s s' → erase w = erase w' → children s' w' = children s w.
Proof.
  intros Hst He. destruct (same_tree_blocks s s' Hst) as [Hb _]. destruct (erase_eq _ _ He) as (_ & _ & _ & Hp & Hs).
  unfold children. by rewrite Hb, Hp, Hs.
Qed.

Lemma same_tree_array s s' w w' l : same_tree s s' → erase w = erase w' → array_ok s w l → array_ok s' w' l.
Proof.
  intros Hst He [H1 H2 H3 H4]. destruct (same_tree_blocks s s' Hst) as [Hb _].
  destruct (erase_eq _ _ He) as (_ & Hfl & _ & Hp & Hs).
  assert (unit_of w' = unit_of w) as Hu by (unfold unit_of, is_flag; by rewrite Hfl).
  split.
  - rewrite Hb, <- Hp, H1. unfold mk_block, is_flag. by rewrite Hfl.
  - rewrite H2. unfold capacity. by rewrite Hu, Hs.
  - by rewrite Hu, <- Hs.
  - unfold is_flag in *. rewrite <- Hfl, <- Hs. intros Hd. eapply Forall_impl; [by apply H4|].
    intros c [?|?]; [by left|]. right. by apply (same_tree_is_Some s s').
Qed.

#[local] Instance fs_ok_proper : Proper (same_tree ==> impl) fs_ok.
Proof.
  intros s s' Hst [H1 H2 H3 H4 H5]. destruct (same_tree_blocks s s' Hst) as [Hb Hk]. split.
  - by rewrite Hk.
  - intros g w' Hw. destruct (same_tree_vfile s s' g w' Hst Hw) as (w & Hw0 & _). rewrite Hk. by apply (H2 g w).
  - intros q b. rewrite Hb, Hk. apply H3.
  - intros g h w' x' Hw Hx Hrw Hrx Hp Hnz. destruct (same_tree_vfile s s' g w' Hst Hw) as (w & Hw0 & Ew).
    destruct (same_tree_vfile s s' h x' Hst Hx) as (x & Hx0 & Ex).
    destruct (erase_eq _ _ Ew) as (_ & _ & ? & Hpw & _). destruct (erase_eq _ _ Ex) as (_ & _ & ? & Hpx & _).
    apply (H4 g h w x); congruence.
  - intros g w' Hw Hrw. destruct (same_tree_vfile s s' g w' Hst Hw) as (w & Hw0 & Ew).
    destruct (erase_eq _ _ Ew) as (_ & _ & Ho & Hp & Hs). destruct (H5 g w Hw0) as [Hsz Hn]; [congruence|].
    split; [lia|]. rewrite <- Hp, <- Hs. destruct Hn as [?|[? [l Hl]]]; [by left|]. right. split; [done|].
    exists l. by apply (same_tree_array s s' w w').
Qed.

(** ** Paths *)

(** A directory of the RAM file system. *)
Definition ram_dir (v : vfile) : Prop :=
  is_flag v FS_FILE_IS_DIR = true ∧ is_flag v FS_FILE_MOUNT = false ∧ vops v = ramfs_ops.

(** The names [cs] lead from directory [d] over directories to [d']. *)
Fixpoint dir_path (s : fs) (d : Z) (cs : list (list Z)) (d' : Z) : Prop :=
  match cs with
  | [] => d = d' ∧ ∃ v, vfiles s !! d = Some v ∧ ram_dir v
  | c :: cs => ∃ v, vfiles s !! d = Some v ∧ ram_dir v ∧ dir_path s (find_name s c (children s v)) cs d'
  end.

Lemma dir_path_start s d cs d' : dir_path s d cs d' → ∃ v, vfiles s !! d = Some v ∧ ram_dir v.
Proof. destruct cs; cbn [dir_path]; [by intros [_ ?]|]. intros (v & ? & ? & _). by exists v. Qed.
Lemma dir_path_end s d cs d' : dir_path s d cs d' → ∃ v, vfiles s !! d' = Some v ∧ ram_dir v.
Proof.
  revert d. induction cs as [|c cs IH]; intros d; cbn [dir_path]; [by intros [-> ?]|].
  intros (v & _ & _ & Hp). by eapply IH.
Qed.

Lemma ram_dir_same v w : vflags w = vflags v → vops w = vops v → ram_dir v → ram_dir w.
Proof. intros Hf Ho (H1 & H2 & H3). unfold ram_dir, is_flag in *. by rewrite Hf, Ho. Qed.

#[local] Instance dir_path_proper : Proper (same_tree ==> eq ==> eq ==> eq ==> impl) dir_path.
Proof.
  intros s s' Hst d ? <- cs ? <- d' ? <-. revert d. induction cs as [|c cs IH]; intros d; cbn [dir_path].
  - intros [-> (v & Hv & Hr)]. split; [done|]. symmetry in Hst.
    destruct (same_tree_vfile s' s d' v Hst Hv) as (v' & Hv' & He). exists v'. split; [done|].
    destruct (erase_eq _ _ He) as (_ & ? & ? & _). by apply (ram_dir_same v).
  - intros (v & Hv & Hr & Hp). pose proof Hst as Hst'. symmetry in Hst'.
    destruct (same_tree_vfile s' s d v Hst' Hv) as (v' & Hv' & He). exists v'. split; [done|].
    destruct (erase_eq _ _ He) as (_ & ? & ? & _). split; [by apply (ram_dir_same v)|].
    rewrite (children_same s s' v v' Hst (eq_sym He)), <- (find_name_proper s s' Hst c c eq_refl _ _ eq_refl). by apply IH.
Qed.
Lemma fs_ok_same s s' : same_tree s s' → fs_ok s → fs_ok s'.
Proof. apply fs_ok_proper. Qed.
Lemma dir_path_same s s' d cs d' : same_tree s s' → dir_path s d cs d' → dir_path s' d cs d'.
Proof. intros H. by apply dir_path_proper. Qed.

(** A new file leaves all paths as they are. *)
Lemma added_dir_path s d v nm f s' v' fv x cs y :
  fs_ok s → vfiles s !! d = Some v → is_flag v FS_FILE_IS_DIR = true → vops v = ramfs_ops → added s d v nm f s' v' fv →
  find_name s nm (children s v) = 0 → dir_path s x cs y → dir_path s' x cs y.
Proof.
  intros Hok Hd Hdir Hram Ha Hz. revert x. induction cs as [|c cs IH]; intros x; cbn [dir_path].
  - intros [-> (w & Hw & Hr)]. split; [done|]. destruct (decide (y = d)) as [->|Hne].
    + exists v'. split; [apply Ha|]. destruct (ad_same_dir _ _ _ _ _ _ _ _ Ha) as (_ & ? & ?).
      apply (ram_dir_same v); [done..|]. congruence.
    + exists w. split; [|done]. by destruct (ad_other _ _ _ _ _ _ _ _ Ha y w Hne Hw).
  - intros (w & Hw & Hr & Hp). destruct (decide (x = d)) as [->|Hne].
    + assert (w = v) as -> by congruence. exists v'. split; [apply Ha|].
      destruct (ad_same_dir _ _ _ _ _ _ _ _ Ha) as (_ & ? & ?). split; [by apply (ram_dir_same v)|].
      rewrite (added_find_dir Hok Hd Ha) by (done || by right). case_decide as Hc; [|by apply IH]. subst c. exfalso.
      rewrite Hz in Hp. destruct (dir_path_start _ _ _ _ Hp) as (u & Hu & _). pose proof (fo_files s Hok _ _ Hu). lia.
    + exists w. destruct (ad_other _ _ _ _ _ _ _ _ Ha x w Hne Hw) as [Hw' _]. split_and!; [done..|].
      rewrite (added_find_other Hok Hd Ha x) by (done || apply Hr). by apply IH.
Qed.

(** A path made of names. *)
Fixpoint join_path (cs : list (list Z)) : list Z :=
  match cs with
  | [] => []
  | [c] => c
  | c :: cs => c ++ 47 :: join_path cs
  end.
Definition clean_name (c : list Z) : Prop := c ≠ [] ∧ Forall (λ x, x ≠ 47) c.

Lemma clean_head c cs : clean_name c → head (join_path (c :: cs)) ≠ Some 47.
Proof.
  intros [Hne Hc]. destruct c as [|x c]; [done|]. apply Forall_cons_1 in Hc as [Hx _].
  destruct cs; cbn; congruence.
Qed.

Lemma split_clean c : Forall (λ x, x ≠ 47) c → split_path c = [c].
Proof. induction 1 as [|x c Hx _ IH]; [done|]. cbn [split_path]. by rewrite (proj2 (Z.eqb_neq x 47)), IH. Qed.
Lemma split_clean_app c r : Forall (λ x, x ≠ 47) c → split_path (c ++ 47 :: r) = c :: split_path r.
Proof. induction 1 as [|x c Hx _ IH]; [done|]. cbn [split_path app]. by rewrite (proj2 (Z.eqb_neq x 47)), IH. Qed.

Lemma split_join c cs : Forall clean_name (c :: cs) → split_path (join_path (c :: cs)) = c :: cs.
Proof.
  revert c. induction cs as [|c' cs IH]; intros c Hcl; apply Forall_cons_1 in Hcl as [[_ Hc] Hcl].
  - by apply split_clean.
  - change (join_path (c :: c' :: cs)) with (c ++ 47 :: join_path (c' :: cs)).
    by rewrite split_clean_app, IH.
Qed.

Lemma first_part_clean c r : Forall (λ x, x ≠ 47) c → first_part (c ++ 47 :: r) = c ∧ first_part c = c.
Proof.
  induction 1 as [|x c Hx _ [IH1 IH2]]; [done|]. cbn [first_part app].
  by rewrite (proj2 (Z.eqb_neq x 47)), IH1, IH2.
Qed.

Lemma join_suffix cs nm : ∃ pre, join_path (cs ++ [nm]) = pre ++ nm.
Proof.
  induction cs as [|c cs [pre IH]]; [by exists []|]. destruct cs as [|c' cs]; cbn [app] in *.
  - by exists (c ++ [47]); rewrite <- app_assoc.
  - exists (c ++ 47 :: pre). change (join_path (c :: c' :: cs ++ [nm])) with (c ++ 47 :: join_path (c' :: cs ++ [nm])).
    by rewrite IH, <- app_assoc.
Qed.

Lemma last_join cs nm : clean_name nm → last (join_path (cs ++ [nm])) ≠ Some 47.
Proof.
  intros [Hne Hc] Hl. destruct (join_suffix cs nm) as [pre E]. rewrite E, last_app in Hl.
  destruct (last nm) as [x|] eqn:El; [|by apply last_None in El].
  injection Hl as ->. apply last_Some_elem_of in El. rewrite Forall_forall in Hc. by apply (Hc 47).
Qed.

(** ** Walking *)

Lemma walk_step c d v cs cur s (Q : Z → fs → Prop) :
  fs_ok s → vfiles s !! d = Some v → ram_dir v →
  let e := find_name s c (children s v) in
  (∀ w cur', vfiles s !! e = Some w → is_flag w FS_FILE_MOUNT = false → wp (walk true cs e cur') Q s) →
  (∃ w, vfiles s !! e = Some w ∧ is_flag w FS_FILE_MOUNT = false) →
  wp (walk true (c :: cs) d cur) Q s.
Proof.
  intros Hok Hd (Hdir & _ & Hram) e HQ (w & Hw & Hm). cbn [walk]. wp. apply (search_dir_wp c d v); [done..|]. fold e. wp.
  pose proof (fo_files s Hok _ _ Hw). rewrite (proj2 (Z.eqb_neq e 0)) by lia. wp. apply (wp_get_vfile _ w); [done|].
  rewrite Hm. by apply (HQ w).
Qed.

Lemma walk_dirs cs ts d d' cur s (Q : Z → fs → Prop) :
  fs_ok s → dir_path s d cs d' → (∀ cur', wp (walk true ts d' cur') Q s) → wp (walk true (cs ++ ts) d cur) Q s.
Proof.
  intros Hok. revert d cur. induction cs as [|c cs IH]; intros d cur Hp HQ; cbn [dir_path] in Hp.
  - destruct Hp as [-> _]. apply HQ.
  - destruct Hp as (v & Hv & Hr & Hp). apply (walk_step c d v); [done..| |].
    + intros w cur' Hw Hm. by apply IH.
    + destruct (dir_path_start _ _ _ _ Hp) as (w & Hw & (_ & Hm & _)). by exists w.
Qed.

(** Opening a path of names. *)
Lemma resolve_wp cs nm d d' v f w s (Q : Z → fs → Prop) :
  fs_ok s → dir_path s d cs d' → vfiles s !! d' = Some v → ram_dir v → Forall clean_name (cs ++ [nm]) →
  f = find_name s nm (children s v) → vfiles s !! f = Some w → is_flag w FS_FILE_MOUNT = false →
  (length cs < 1024)%nat → Z.of_nat (length (join_path (cs ++ [nm]))) < 4096 →
  Q f s → wp (ramfs_rfopen (join_path (cs ++ [nm])) d) Q s.
Proof.
  intros Hok Hp Hv Hr Hcl -> Hw Hm Hn Hlen HQ. unfold ramfs_rfopen, resolve_path.
  destruct (dir_path_start _ _ _ _ Hp) as (u & Hu & _). pose proof (fo_files s Hok _ _ Hu).
  rewrite (proj2 (Z.eqb_neq d 0)) by lia. rewrite (proj2 (Z.leb_gt _ _)) by done.
  assert (strip_slash (join_path (cs ++ [nm])) = join_path (cs ++ [nm])) as ->.
  { apply strip_clean. destruct cs as [|c cs]; cbn [app] in *; apply clean_head; by apply Forall_cons_1 in Hcl as [? _]. }
  assert (split_path (join_path (cs ++ [nm])) = cs ++ [nm]) as ->.
  { destruct cs as [|c cs]; cbn [app] in *; by apply split_join. }
  rewrite take_ge by (rewrite length_app; change (Z.to_nat MAX_TOKENS) with 1024%nat; simpl; lia).
  apply (walk_dirs cs [nm] d d'); [done..|]. intros cur'. apply (walk_step nm d' v); [done..| |by exists w].
  intros w' cur'' _ _. cbn [walk]. by wp.
Qed.

(** ** Creating a path *)

Lemma rfopen_wp c d v e w s (Q : Z → fs → Prop) :
  fs_ok s → vfiles s !! d = Some v → ram_dir v → clean_name c → Z.of_nat (length c) < 4096 →
  e = find_name s c (children s v) → vfiles s !! e = Some w → is_flag w FS_FILE_MOUNT = false →
  Q e s → wp (rfopen c d) Q s.
Proof.
  intros Hok Hd Hr Hc Hlen He Hw Hm HQ. pose proof (fo_files s Hok _ _ Hd). unfold rfopen.
  rewrite (proj2 (Z.eqb_neq d 0)) by lia. wp. apply (wp_get_vfile _ v); [done|]. destruct Hr as (Hr1 & Hr2 & Hr3). rewrite Hr3.
  change c with (join_path ([] ++ [c])). apply (resolve_wp [] c d d v e w); try done.
  - split; [done|]. by exists v.
  - by constructor.
  - simpl. lia.
Qed.

Lemma fclose_wp e s0 s w (Q : unit → fs → Prop) :
  fs_ok s → same_tree s0 s → vfiles s !! e = Some w → vops w = ramfs_ops →
  (∀ s', same_tree s0 s' → vfs_lock s' = vfs_lock s → Q tt s') → wp (fclose e) Q s.
Proof.
  intros Hok Hst He Ho HQ. pose proof (fo_files s Hok _ _ He). unfold fclose. rewrite (proj2 (Z.eqb_neq e 0)) by lia. wp.
  apply (wp_get_vfile _ w); [done|]. rewrite Ho. unfold ramfs_close. wp. apply (wp_get_vfile _ w); [done|]. wp.
  apply HQ; [|done]. etransitivity; [exact Hst|]. unfold same_tree, forget. cbn [vfiles blocks brk set_vfile]. f_equal.
  rewrite fmap_insert. symmetry. apply insert_id. rewrite lookup_fmap, He. done.
Qed.

Lemma vfcreate_wp cs nm flags fuel d d' v s (Q : Z → fs → Prop) :
  fs_ok s → dir_path s d cs d' → vfiles s !! d' = Some v → vsize v + 4 < 2 ^ 31 →
  Forall clean_name (cs ++ [nm]) → Z.of_nat (length nm) < NAME_SIZE → (length cs < fuel)%nat →
  Z.of_nat (length (join_path (cs ++ [nm]))) < 4096 →
  find_name s nm (children s v) = 0 →
  (∀ f s1 v' bsz s', added s d' v nm f s1 v' (VFile nm flags ramfs_ops 0 0 0 bsz) → same_tree s1 s' →
     vfs_lock s' = vfs_lock s → Q f s') →
  wp (vfcreate fuel d (join_path (cs ++ [nm])) flags) Q s.
Proof using alloc_ok.
  intros Hok. revert fuel d Q. induction cs as [|c cs IH]; intros fuel d Q Hp Hv Hlim Hcl Hnl Hfuel Hlen Hz HQ;
    (destruct fuel as [|fuel]; [simpl in Hfuel; lia|]); cbn [vfcreate].
  - destruct Hp as [-> (v0 & Hv0 & Hr)]. assert (v0 = v) as -> by congruence. cbn [app join_path].
    apply Forall_cons_1 in Hcl as [Hc _]. pose proof (clean_head nm [] Hc) as Hh. cbn [join_path] in Hh.
    rewrite (strip_clean nm Hh), bool_decide_eq_false_2 by (by apply (last_join [])).
    destruct (first_part_clean nm [] (proj2 Hc)) as [_ ->]. rewrite Nat.leb_refl. unfold vfs_create. wp.
    apply (wp_get_vfile _ v); [done|]. pose proof Hr as (Hdir & _ & Hram). rewrite Hram. apply (ramfs_create_wp d' v); [done..|].
    intros f s' n p l l' s1 bsz Hcr. pose proof (cr_lock _ _ _ _ _ _ _ _ _ _ _ _ _ Hcr).
    apply (HQ f s' (with_private p n v) bsz); [by eapply created_added|reflexivity|done].
  - destruct Hp as (v0 & Hv0 & Hr & Hp). cbn [app] in Hcl, Hlen |- *. pose proof Hcl as Hcl'.
    apply Forall_cons_1 in Hcl as [Hc Hcl]. rewrite (strip_clean _ (clean_head c _ Hc)).
    rewrite bool_decide_eq_false_2 by (apply (last_join (c :: cs) nm); by apply Forall_app in Hcl as [_ [? _]%Forall_cons_1]).
    assert (join_path (c :: cs ++ [nm]) = c ++ 47 :: join_path (cs ++ [nm])) as Hj by (by destruct cs).
    rewrite Hj in Hlen |- *. destruct (first_part_clean c (join_path (cs ++ [nm])) (proj2 Hc)) as [-> _].
    rewrite length_app in Hlen |- *. cbn [length] in *. rewrite (proj2 (Nat.leb_gt _ _)) by lia.
    assert (drop (length c + 1) (c ++ 47 :: join_path (cs ++ [nm])) = join_path (cs ++ [nm])) as ->
      by (by rewrite Nat.add_1_r, drop_app, (drop_ge c), Nat.sub_succ_l, Nat.sub_diag by lia).
    destruct (dir_path_start _ _ _ _ Hp) as (w & Hw & Hrw). set (e := find_name s c (children s v0)) in *.
    pose proof (fo_files s Hok _ _ Hw). wp. apply (rfopen_wp c d v0 e w); [done|done|done|done|lia|done|done|apply Hrw|].
    rewrite (proj2 (Z.eqb_neq e 0)) by lia. wp. apply IH; [done..|lia|lia|done|].
    intros f s1 v' bsz s' Had Hst Hlk. wp.
    assert (fs_ok s') as Hok' by (eapply fs_ok_proper; [exact Hst|apply Had]).
    assert (dir_path s' e [] e) as [_ (w' & Hw' & (_ & _ & Ho'))].
    { eapply dir_path_proper; [exact Hst|reflexivity..|]. destruct (dir_path_end _ _ _ _ Hp) as (vv & Hvv & Hrv).
      assert (vv = v) as -> by congruence.
      eapply (added_dir_path s d' v); [done|done|apply Hrv|apply Hrv|done|done|]. split; [done|]. by exists w. }
    apply (fclose_wp e s1 s' w'); [done..|]. intros s2 Hs2 Hlk2. wp. apply (HQ f s1 v' bsz); [done|done|congruence].
Qed.

(** ** Properties *)

(** C22: a RAM file keeps what is written to it.  A write to a plain file, at any
    offset below 2 GiB and with any count, returns its count and leaves the file
    system in order; reading the range gives the data back, the file's size is
    the old one or the end of the range, its other old bytes are unchanged, and
    so is every other file in memory, even when the file had to move to a bigger array. *)
Theorem ramfs_write_read f v data off s :
  fs_ok s → vfiles s !! f = Some v → vops v = ramfs_ops → writable v → (0 < length data)%nat → 0 <= off →
  off + Z.of_nat (length data) < 2 ^ 31 →
  ∃ s' v', ramfs_write f data off s = Ok (Z.of_nat (length data), s') ∧ fs_ok s' ∧
    ramfs_read f off (Z.of_nat (length data)) s' = Ok ((data, Z.of_nat (length data)), s') ∧
    vfiles s' !! f = Some v' ∧ vname v' = vname v ∧ vflags v' = vflags v ∧
    vsize v' = Z.max (vsize v) (off + Z.of_nat (length data)) ∧
    (∀ k, Z.of_nat k < vsize v → ¬ (off <= Z.of_nat k < off + Z.of_nat (length data)) →
       contents s' v' !! k = contents s v !! k) ∧
    ∀ g w, g ≠ f → vfiles s !! g = Some w →
      vfiles s' !! g = Some w ∧ (vops w = ramfs_ops → private w ≠ 0 → blocks s' !! private w = blocks s !! private w).
Proof using alloc_ok.
  intros Hok Hf Hram Hw Hd Ho Hlim. set (count := Z.of_nat (length data)) in *. set (n := Z.max (vsize v) (off + count)).
  destruct (fo_node s Hok f v Hf Hram) as [Hsz Hnode]. pose proof (fo_files s Hok f v Hf) as Hf0.
  destruct (writable_flags v Hw) as [Hdir _].
  destruct (proj1 (wp_ok (ramfs_write f data off) (λ r s', r = count ∧ ∃ p l s1, grown s f v n p l s1 ∧
    s' = set_block p (Bytes (splice l data off)) s1) s)) as (r & s' & Hrun & -> & p & l & s1 & Hg & ->).
  { apply (ramfs_write_wp f v); [done..|]. intros p l s1 Hg. split; [done|]. by exists p, l, s1. }
  destruct (plain_file v l n Hdir) as (Hmk & Hun & Hcap).
  pose proof (gr_len _ _ _ _ _ _ _ Hg) as Hlen. rewrite Hcap in Hlen.
  destruct (pages_bounds n ltac:(lia)) as (_ & Hpg & _).
  assert (off + count <= Z.of_nat (length l)) as Hfit by lia.
  pose proof (length_splice l data off Ho Hfit) as Hspl. set (s' := set_block p _ s1) in *.
  assert (vfiles s' !! f = Some (with_private p n v)) as Hf'.
  { change (vfiles s') with (vfiles s1). rewrite (gr_files _ _ _ _ _ _ _ Hg). apply lookup_insert_eq. }
  assert (blocks s' !! p = Some (Bytes (splice l data off))) as Hb' by apply lookup_insert_eq.
  assert (p ≠ 0) as Hp0.
  { destruct (gr_ptr _ _ _ _ _ _ _ Hg) as [[-> ?]| ->]; [done|]. pose proof (fo_brk s Hok). lia. }
  exists s', (with_private p n v). split_and!; try done.
  - destruct (plain_file v (splice l data off) n Hdir) as (Hmk' & _ & _).
    apply (grown_ok s f v n p l (splice l data off) s1 s'); try done.
    + lia.
    + rewrite Hun. apply Z.mod_1_r.
    + by rewrite Hmk'.
    + intros g w Hgw. by left.
    + intros E. by rewrite Hdir in E.
  - apply wp_pure. apply (ramfs_read_wp f (with_private p n v) (splice l data off)); try done; [lia|by rewrite Hspl|].
    unfold count. rewrite Nat2Z.id, splice_read by done. done.
  - intros k Hk Hout. destruct Hnode as [[_ Hz]|[Hpr [l0 Hl0]]]; [lia|].
    unfold contents. cbn [private with_private]. rewrite Hb', (ao_block _ _ _ Hl0).
    destruct (plain_file v l0 n Hdir) as (-> & _ & _). cbn [cells vsize with_private].
    rewrite !lookup_take, !decide_True by lia. rewrite splice_lookup by done.
    pose proof (gr_same _ _ _ _ _ _ _ Hg l0 Hl0) as Hsame. rewrite Hun, Z.div_1_r in Hsame.
    apply (f_equal (λ x, x !! k)) in Hsame. by rewrite !lookup_take, !decide_True in Hsame by lia.
  - intros g w Hne Hgw. split.
    + change (vfiles s') with (vfiles s1). rewrite (gr_files _ _ _ _ _ _ _ Hg). by rewrite lookup_insert_ne.
    + intros Hrw Hpw. destruct (grown_elsewhere s f v n p l s1 g w Hok Hf Hram Hg Hne Hgw Hrw Hpw) as (_ & Hpp & Heq).
      change (blocks s') with (<[p := Bytes (splice l data off)]> (blocks s1)). by rewrite lookup_insert_ne.
Qed.

Lemma length_join cs nm : Forall clean_name (cs ++ [nm]) → (length cs < length (join_path (cs ++ [nm])))%nat.
Proof.
  induction cs as [|c cs IH]; intros Hcl; cbn [app] in *; apply Forall_cons_1 in Hcl as [[Hne _] Hcl].
  - simpl. destruct nm; [done|simpl; lia].
  - specialize (IH Hcl). destruct (cs ++ [nm]) as [|c' cs'] eqn:E; [by destruct cs|].
    change (join_path (c :: c' :: cs')) with (c ++ 47 :: join_path (c' :: cs')). rewrite length_app. cbn [length]. lia.
Qed.

Lemma vfcreate_slash fuel d p flags : head p ≠ Some 47 → vfcreate fuel d (47 :: p) flags = vfcreate fuel d p flags.
Proof. intros Hp. destruct fuel; [done|]. cbn [vfcreate]. by rewrite (strip_clean p Hp). Qed.

(** What [fcreate] does, for any flags. *)
Lemma fcreate_added cs nm flags d v s :
  let path := 47 :: join_path (cs ++ [nm]) in
  fs_ok s → vfs_lock s = false → dir_path s root_dir cs d → vfiles s !! d = Some v → vsize v + 4 < 2 ^ 31 →
  Forall clean_name (cs ++ [nm]) → Z.of_nat (length nm) < NAME_SIZE → (length cs < 1024)%nat →
  Z.of_nat (length path) < 4096 → find_name s nm (children s v) = 0 →
  ∃ f s' s1 v' bsz, fcreate path flags s = Ok (f, s') ∧ vfs_lock s' = false ∧
    added (set_vlock true s) d v nm f s1 v' (VFile nm flags ramfs_ops 0 0 0 bsz) ∧ same_tree s1 s'.
Proof using alloc_ok.
  intros path Hok Hlk Hp Hv Hlim Hcl Hnl Hn Hlen Hz. set (s0 := set_vlock true s).
  assert (same_tree s s0) as Hs0 by reflexivity.
  assert (head (join_path (cs ++ [nm])) ≠ Some 47) as Hh.
  { destruct cs as [|c cs]; cbn [app] in *; apply clean_head; by apply Forall_cons_1 in Hcl as [? _]. }
  assert (fs_ok s0) as Hok0 by (eapply fs_ok_proper; [exact Hs0|done]).
  assert (find_name s0 nm (children s0 v) = 0) as Hz0 by (by rewrite <- (find_name_proper s s0 Hs0 nm nm eq_refl _ _ eq_refl)).
  destruct (proj1 (wp_ok (fcreate path flags) (λ f s', vfs_lock s' = false ∧ ∃ s1 v' bsz,
    added s0 d v nm f s1 v' (VFile nm flags ramfs_ops 0 0 0 bsz) ∧ same_tree s1 s') s))
    as (f & s' & Hrun & Hlk' & s1 & v' & bsz & Had & Hst).
  { unfold fcreate. wp. rewrite Hlk. wp. unfold path. rewrite (vfcreate_slash _ _ _ _ Hh).
    apply (vfcreate_wp cs nm flags _ root_dir d v); [done| |done|done|done|done| |simpl in Hlen; lia|done|].
    - eapply dir_path_proper; [exact Hs0|reflexivity..|done].
    - cbn [length]. pose proof (length_join cs nm Hcl). lia.
    - intros f s1 v' bsz s' Had Hst _. wp. split; [done|]. exists s1, v', bsz. split; [done|exact Hst]. }
  by exists f, s', s1, v', bsz.
Qed.

(** ** Directories one after the other *)

(** What a name stands for in a directory, and how many entries the directory has. *)
Definition entry_of (s : fs) (x : Z) (nm : list Z) : Z :=
  match vfiles s !! x with Some v => find_name s nm (children s v) | None => 0 end.
Definition entry_count (s : fs) (x : Z) : Z :=
  match vfiles s !! x with Some v => Z.of_nat (length (children s v)) | None => 0 end.

Lemma dir_size s x v : fs_ok s → vfiles s !! x = Some v → ram_dir v → vsize v = 4 * entry_count s x.
Proof.
  intros Hok Hx (Hdir & _ & Hram). unfold entry_count. rewrite Hx. destruct (fo_node s Hok x v Hx Hram) as [Hsz [[Hp Hz]|[Hp (l & [Hb Hl Hu _])]]].
  - rewrite children_empty by done. simpl. lia.
  - unfold children. rewrite Hb. unfold mk_block, capacity, unit_of in *. rewrite Hdir in *. cbn [cells]. rewrite length_take.
    pose proof (capacity_enough v (vsize v) (proj1 Hsz)) as Hc. unfold capacity, unit_of in Hc. rewrite Hdir in Hc.
    assert (0 <= vsize v / 4) by (apply Z.div_pos; lia). pose proof (Z.div_mod (vsize v) 4 ltac:(lia)). lia.
Qed.

(** One file more: [f], with the name [nm] in directory [d]. *)
Record file_made (s : fs) (d : Z) (nm : list Z) (flags f : Z) (fv : vfile) (s' : fs) : Prop := {
  fm_ok : fs_ok s';
  fm_lock : vfs_lock s' = false;
  fm_old x cs y : dir_path s x cs y → dir_path s' x cs y;
  fm_new : vfiles s !! f = None;
  fm_file : vfiles s' !! f = Some fv;
  fm_fields : vname fv = nm ∧ vflags fv = flags ∧ vops fv = ramfs_ops;
  fm_entry x nm' y : dir_path s root_dir x y → entry_of s' y nm' = if decide (y = d ∧ nm' = nm) then f else entry_of s y nm';
  fm_fresh nm' : entry_of s' f nm' = 0;
  fm_count x y : dir_path s root_dir x y → entry_count s' y <= entry_count s y + 1;
  fm_empty : entry_count s' f = 0;
  fm_other g w : g ≠ d → vfiles s !! g = Some w → ∃ w', vfiles s' !! g = Some w' ∧ erase w' = erase w;
}.

(** One directory more. *)
Record directory_made (s : fs) (d : Z) (cs : list (list Z)) (nm : list Z) (f : Z) (s' : fs) : Prop := {
  dm_ok : fs_ok s';
  dm_lock : vfs_lock s' = false;
  dm_old x cs' y : dir_path s x cs' y → dir_path s' x cs' y;
  dm_new : dir_path s' root_dir (cs ++ [nm]) f;
  dm_entry x nm' y : dir_path s root_dir x y → entry_of s' y nm' = if decide (y = d ∧ nm' = nm) then f else entry_of s y nm';
  dm_fresh nm' : entry_of s' f nm' = 0;
  dm_count x y : dir_path s root_dir x y → entry_count s' y <= entry_count s y + 1;
  dm_empty : entry_count s' f = 0;
}.

Lemma entry_of_same s s' x nm : same_tree s s' → entry_of s' x nm = entry_of s x nm.
Proof.
  intros Hst. unfold entry_of. destruct (vfiles s' !! x) as [w|] eqn:E.
  - destruct (same_tree_vfile s s' x w Hst E) as (v & -> & He).
    by rewrite (children_same s s' v w Hst He), <- (find_name_proper s s' Hst nm nm eq_refl _ _ eq_refl).
  - destruct (vfiles s !! x) as [v|] eqn:E'; [|done]. symmetry in Hst.
    destruct (same_tree_vfile s' s x v Hst E') as (w & Hw & _). congruence.
Qed.
Lemma entry_count_same s s' x : same_tree s s' → entry_count s' x = entry_count s x.
Proof.
  intros Hst. unfold entry_count. destruct (vfiles s' !! x) as [w|] eqn:E.
  - destruct (same_tree_vfile s s' x w Hst E) as (v & -> & He). by rewrite (children_same s s' v w Hst He).
  - destruct (vfiles s !! x) as [v|] eqn:E'; [|done]. symmetry in Hst.
    destruct (same_tree_vfile s' s x v Hst E') as (w & Hw & _). congruence.
Qed.

Lemma dir_path_snoc s x cs d nm f :
  dir_path s x cs d → entry_of s d nm = f → (∃ v, vfiles s !! f = Some v ∧ ram_dir v) → dir_path s x (cs ++ [nm]) f.
Proof.
  intros Hp Hf Hv. revert x Hp. induction cs as [|c cs IH]; intros x; cbn [dir_path app].
  - intros [-> (v & Hx & Hr)]. exists v. unfold entry_of in Hf. rewrite Hx in Hf. subst f. by split_and!.
  - intros (v & Hx & Hr & Hp). exists v. split_and!; [done|done|]. by apply IH.
Qed.
Lemma length_fill cs f : (length (fill cs f) <= length cs + 1)%nat.
Proof. induction cs as [|c cs IH]; cbn [fill]; [simpl; lia|]. case_match; cbn [length]; lia. Qed.

(** [fcreate] makes a file where there is none of its name. *)
Lemma fcreate_file cs nm flags d s :
  let path := 47 :: join_path (cs ++ [nm]) in
  fs_ok s → vfs_lock s = false → dir_path s root_dir cs d → 4 * (entry_count s d + 1) < 2 ^ 31 →
  Forall clean_name (cs ++ [nm]) → Z.of_nat (length nm) < NAME_SIZE → (length cs < 1024)%nat →
  Z.of_nat (length path) < 4096 → entry_of s d nm = 0 →
  ∃ f s' fv, fcreate path flags s = Ok (f, s') ∧ file_made s d nm flags f fv s'.
Proof using alloc_ok.
  intros path Hok Hlk Hp Hlim Hcl Hnl Hn Hlen Hz. set (s0 := set_vlock true s).
  assert (same_tree s s0) as Hs0 by reflexivity.
  assert (fs_ok s0) as Hok0 by (eapply fs_ok_proper; [exact Hs0|done]).
  destruct (dir_path_end _ _ _ _ Hp) as (v & Hv & Hr). pose proof (dir_size s d v Hok Hv Hr) as Hsz.
  unfold entry_of in Hz. rewrite Hv in Hz.
  assert (find_name s0 nm (children s0 v) = 0) as Hz0 by (by rewrite <- (find_name_proper s s0 Hs0 nm nm eq_refl _ _ eq_refl)).
  destruct (fcreate_added cs nm flags d v s) as (f & s' & s1 & v' & bsz & Hrun & Hlk' & Had & Hst); [done..| |done|done|done|done|done|].
  { rewrite Hsz. lia. }
  fold s0 in Had. pose proof (ad_ok _ _ _ _ _ _ _ _ Had) as Hok1.
  set (fv := VFile nm flags ramfs_ops 0 0 0 bsz) in *. pose proof Hst as Hst'. symmetry in Hst'.
  destruct (same_tree_vfile s' s1 f fv Hst' (ad_file _ _ _ _ _ _ _ _ Had)) as (fw & Hfw & Efw).
  destruct (erase_eq _ _ Efw) as (Hn1 & Hn2 & Hn3 & _).
  exists f, s', fw. split; [exact Hrun|]. assert (children s1 fv = []) as Hnone by (by apply children_empty).
  split.
  - eapply fs_ok_proper; [exact Hst|done].
  - done.
  - intros x cs' y Hxy. eapply dir_path_proper; [exact Hst|reflexivity..|].
    eapply (added_dir_path s0 d v); [done|done|apply Hr|apply Hr|done|done|].
    eapply dir_path_proper; [exact Hs0|reflexivity..|done].
  - exact (ad_new _ _ _ _ _ _ _ _ Had).
  - done.
  - done.
  - intros x nm' y Hy. rewrite (entry_of_same s1 s') by done. destruct (dir_path_end _ _ _ _ Hy) as (w & Hw & Hrw).
    destruct (decide (y = d)) as [->|Hyd].
    + assert (w = v) as -> by congruence. unfold entry_of at 1. rewrite (ad_dir _ _ _ _ _ _ _ _ Had).
      rewrite (added_find_dir Hok0 Hv Had nm' (proj1 Hr) (proj2 (proj2 Hr)) (or_intror Hz0)). destruct (decide (nm' = nm)) as [->|Hne].
      * by rewrite decide_True.
      * rewrite decide_False by tauto. rewrite <- (entry_of_same s s0) by done. unfold entry_of.
        by rewrite (Hv : vfiles s0 !! d = Some v).
    + rewrite decide_False by tauto. rewrite <- (entry_of_same s s0) by done. unfold entry_of.
      rewrite (Hw : vfiles s0 !! y = Some w). destruct (ad_other _ _ _ _ _ _ _ _ Had y w Hyd Hw) as [-> _].
      by rewrite (added_find_other Hok0 Hv Had y) by (done || apply Hrw).
  - intros nm'. rewrite (entry_of_same s1 s') by done. unfold entry_of. by rewrite (ad_file _ _ _ _ _ _ _ _ Had), Hnone.
  - intros x y Hy. rewrite (entry_count_same s1 s') by done. destruct (dir_path_end _ _ _ _ Hy) as (w & Hw & Hrw).
    unfold entry_count. destruct (decide (y = d)) as [->|Hyd].
    + assert (w = v) as -> by congruence. rewrite (ad_dir _ _ _ _ _ _ _ _ Had), Hv, (ad_children _ _ _ _ _ _ _ _ Had).
      change (children s0 v) with (children s v). pose proof (length_fill (children s v) f). lia.
    + rewrite Hw. destruct (ad_other _ _ _ _ _ _ _ _ Had y w Hyd Hw) as [-> ->]; [|apply Hrw]. change (children s0 w) with (children s w). lia.
  - rewrite (entry_count_same s1 s') by done. unfold entry_count. by rewrite (ad_file _ _ _ _ _ _ _ _ Had), Hnone.
  - intros g w Hg Hw. destruct (ad_other _ _ _ _ _ _ _ _ Had g w Hg Hw) as [Hw1 _].
    destruct (same_tree_vfile s' s1 g w Hst' Hw1) as (w' & Hw' & Ew). by exists w'.
Qed.

(** [fcreate] makes a directory where there is none of its name. *)
Lemma fcreate_directory cs nm d s :
  let path := 47 :: join_path (cs ++ [nm]) in
  fs_ok s → vfs_lock s = false → dir_path s root_dir cs d → 4 * (entry_count s d + 1) < 2 ^ 31 →
  Forall clean_name (cs ++ [nm]) → Z.of_nat (length nm) < NAME_SIZE → (length cs < 1024)%nat →
  Z.of_nat (length path) < 4096 → entry_of s d nm = 0 →
  ∃ f s', fcreate path FS_FILE_IS_DIR s = Ok (f, s') ∧ directory_made s d cs nm f s'.
Proof using alloc_ok.
  intros path Hok Hlk Hp Hlim Hcl Hnl Hn Hlen Hz.
  destruct (fcreate_file cs nm FS_FILE_IS_DIR d s) as (f & s' & fv & Hrun & [Hok' Hlk' Hold Hnew Hf [_ [Hfl Hops]] Hent Hfr Hcnt Hem _]); [done..|].
  exists f, s'. split; [exact Hrun|]. split; try done.
  apply (dir_path_snoc _ _ _ d); [by apply Hold| |].
  - rewrite (Hent cs) by done. by rewrite decide_True.
  - exists fv. split; [done|]. unfold ram_dir, is_flag. by rewrite Hfl, Hops.
Qed.

(** ** Files of drivers *)

(** A driver takes a file over: whatever it writes into the structure, the tree of the RAM
    file system is as before. *)
Section driver_file.
Context {s : fs} {f : Z} {fv fv' : vfile}.
Hypothesis Hok : fs_ok s.
Hypothesis Hf : vfiles s !! f = Some fv.
Hypothesis Hname : vname fv' = vname fv.
Hypothesis Hops : vops fv' ≠ ramfs_ops.
Hypothesis Hdir : ¬ ram_dir fv.
Notation s' := (set_vfile f fv' s).

Lemma driver_vfile g w : g ≠ f → vfiles s !! g = Some w → vfiles s' !! g = Some w.
Proof using Type. intros Hg Hw. cbn [vfiles set_vfile]. by rewrite lookup_insert_ne. Qed.
Lemma driver_vfile_ram g w : vfiles s' !! g = Some w → vops w = ramfs_ops → g ≠ f ∧ vfiles s !! g = Some w.
Proof using Hops.
  cbn [vfiles set_vfile]. intros [[<- <-]|[Hne Hw]]%lookup_insert_Some Ho; [done|]. by split; [apply not_eq_sym|].
Qed.
Lemma driver_file_ok : fs_ok s'.
Proof using Hok Hf Hops.
  split.
  - apply (fo_brk s Hok).
  - intros g w. cbn [vfiles set_vfile]. intros [[<- _]|[_ Hw]]%lookup_insert_Some; [apply (fo_files s Hok _ _ Hf)|apply (fo_files s Hok _ _ Hw)].
  - apply (fo_blocks s Hok).
  - intros g h w x Hw Hx Hrw Hrx Hp Hnz. destruct (driver_vfile_ram g w Hw Hrw) as [_ Hw0], (driver_vfile_ram h x Hx Hrx) as [_ Hx0].
    by apply (fo_private s Hok g h w x).
  - intros g w Hw Hrw. destruct (driver_vfile_ram g w Hw Hrw) as [_ Hw0]. destruct (fo_node s Hok g w Hw0 Hrw) as [Hsz Hn]. split; [done|].
    destruct Hn as [?|[Hpr (l & [Hb Hl Hu Hall])]]; [by left|]. right. split; [done|]. exists l. split; try done.
    intros Hd. eapply Forall_impl; [by apply Hall|]. intros c [?|Hc]; [by left|]. right. cbn [vfiles set_vfile].
    apply lookup_insert_is_Some'. by right.
Qed.
Lemma driver_find_name nm cs : find_name s' nm cs = find_name s nm cs.
Proof using Hf Hname.
  apply find_name_ext. intros x _. unfold named. cbn [vfiles set_vfile]. destruct (decide (x = f)) as [->|Hne].
  - by rewrite lookup_insert_eq, Hf, Hname.
  - by rewrite lookup_insert_ne by done.
Qed.
Lemma driver_dir g w : vfiles s !! g = Some w → ram_dir w → g ≠ f.
Proof using Hf Hdir. intros Hw Hr ->. apply Hdir. congruence. Qed.
Lemma driver_dir_path x cs y : dir_path s x cs y → dir_path s' x cs y.
Proof using Hf Hname Hdir.
  revert x. induction cs as [|c cs IH]; intros x; cbn [dir_path].
  - intros [-> (w & Hw & Hr)]. split; [done|]. exists w. split; [|done]. apply driver_vfile; [by eapply driver_dir|done].
  - intros (w & Hw & Hr & Hp). exists w. split_and!; [apply driver_vfile; [by eapply driver_dir|done]|done|].
    change (children s' w) with (children s w). rewrite driver_find_name. by apply IH.
Qed.
Lemma driver_entry_of y nm : (∃ x cs, dir_path s x cs y) → entry_of s' y nm = entry_of s y nm.
Proof using Hf Hname Hdir.
  intros (x & cs & Hp). destruct (dir_path_end _ _ _ _ Hp) as (w & Hw & Hr). unfold entry_of.
  rewrite (driver_vfile y w), Hw by (done || by eapply driver_dir). change (children s' w) with (children s w). apply driver_find_name.
Qed.
Lemma driver_entry_count y : (∃ x cs, dir_path s x cs y) → entry_count s' y = entry_count s y.
Proof using Hf Hname Hdir.
  intros (x & cs & Hp). destruct (dir_path_end _ _ _ _ Hp) as (w & Hw & Hr). unfold entry_count.
  by rewrite (driver_vfile y w), Hw by (done || by eapply driver_dir).
Qed.
End driver_file.

(** ** Properties of paths *)

(** C20: what [fcreate] makes, [fopen] finds.  When the directories of an absolute
    path exist in the RAM file system and the last name is not taken, [fcreate]
    returns a new file with that name and the flags asked for, and leaves the
    file system in order; opening the same path afterwards returns that very
    file, and every path of directories that led somewhere still leads there. *)
Theorem fcreate_fopen_roundtrip cs nm flags d v s :
  let path := 47 :: join_path (cs ++ [nm]) in
  fs_ok s → vfs_lock s = false → dir_path s root_dir cs d → vfiles s !! d = Some v → vsize v + 4 < 2 ^ 31 →
  Forall clean_name (cs ++ [nm]) → Z.of_nat (length nm) < NAME_SIZE → (length cs < 1024)%nat →
  Z.of_nat (length path) < 4096 → find_name s nm (children s v) = 0 → Z.land flags FS_FILE_MOUNT = 0 →
  ∃ f s' fv, fcreate path flags s = Ok (f, s') ∧ fopen path s' = Ok (f, s') ∧
    vfiles s !! f = None ∧ vfiles s' !! f = Some fv ∧ vname fv = nm ∧ vflags fv = flags ∧ fs_ok s' ∧
    vfs_lock s' = false ∧ ∀ x cs' y, dir_path s x cs' y → dir_path s' x cs' y.
Proof using alloc_ok.
  intros path Hok Hlk Hp Hv Hlim Hcl Hnl Hn Hlen Hz Hfl. set (s0 := set_vlock true s).
  assert (same_tree s s0) as Hs0 by reflexivity.
  assert (fs_ok s0) as Hok0 by (eapply fs_ok_proper; [exact Hs0|done]).
  destruct (dir_path_end _ _ _ _ Hp) as (v0 & Hv0 & Hr). assert (v0 = v) as -> by congruence.
  assert (find_name s0 nm (children s0 v) = 0) as Hz0 by (by rewrite <- (find_name_proper s s0 Hs0 nm nm eq_refl _ _ eq_refl)).
  destruct (fcreate_added cs nm flags d v s) as (f & s' & s1 & v' & bsz & Hrun & Hlk' & Had & Hst); [done..|].
  set (fv := VFile nm flags ramfs_ops 0 0 0 bsz) in *. pose proof (ad_ok _ _ _ _ _ _ _ _ Had) as Hok1.
  assert (∀ x cs' y, dir_path s x cs' y → dir_path s' x cs' y) as Hpaths.
  { intros x cs' y Hxy. eapply dir_path_proper; [exact Hst|reflexivity..|].
    eapply (added_dir_path s0 d v); [done|done|apply Hr|apply Hr|done|done|].
    eapply dir_path_proper; [exact Hs0|reflexivity..|done]. }
  assert (fs_ok s') as Hok' by (eapply fs_ok_proper; [exact Hst|done]). pose proof Hst as Hst'. symmetry in Hst'.
  destruct (same_tree_vfile s' s1 f fv Hst' (ad_file _ _ _ _ _ _ _ _ Had)) as (fw & Hfw & Efw).
  destruct (same_tree_vfile s' s1 d v' Hst' (ad_dir _ _ _ _ _ _ _ _ Had)) as (w & Hw & Ew).
  destruct (erase_eq _ _ Efw) as (Hn1 & Hn2 & _). destruct (ad_same_dir _ _ _ _ _ _ _ _ Had) as (_ & Hd2 & Hd3).
  destruct (erase_eq _ _ Ew) as (_ & Hw2 & Hw3 & _).
  exists f, s', fw. split_and!; try done; [|apply Had].
  apply wp_pure. unfold fopen, path. rewrite bool_decide_eq_false_2.
  2: { intros [= E]. destruct (join_suffix cs nm) as [pre Epre]. rewrite Epre in E. apply app_eq_nil in E as [_ E].
    apply Forall_app in Hcl as [_ [[Hne _] _]%Forall_cons_1]. done. }
  apply (resolve_wp cs nm root_dir d w f fw); try done.
  - by apply Hpaths.
  - apply (ram_dir_same v); [congruence|congruence|done].
  - rewrite (children_same s1 s' v' w Hst (eq_sym Ew)), <- (find_name_proper s1 s' Hst nm nm eq_refl _ _ eq_refl).
    rewrite (added_find_dir Hok0 Hv Had nm (proj1 Hr) (proj2 (proj2 Hr)) (or_intror Hz0)). by rewrite decide_True.
  - unfold is_flag. rewrite Hn2. cbn [vflags fv]. by rewrite Hfl.
  - unfold path in Hlen. cbn [length] in Hlen. cbn [strip_slash Z.eqb Pos.eqb]. lia.
Qed.
End ramfs.

(** ** Deleting *)

Section delete.
(** The [delete] of a driver's operations, where it has one. *)
Variable mount_delete : Z → option (Z → list Z → M fs Z).
Definition fdelete (parent : Z) (child : option (list Z)) : M fs Z :=
  held ← gets vfs_lock;
  (if held then fail Deadlock else modify (set_vlock true));;
  let parent := if parent =? 0 then root_dir else parent in
  v ← get_vfile parent;
  let delete := match vops v with no_ops => None | ramfs_ops => Some ramfs_delete | driver_ops d => mount_delete d end in
  match delete, child with
  | Some delete, Some child => r ← delete parent child; modify (set_vlock false);; mret r
  | _, _ => modify (set_vlock false);; mret 0
  end.

(** Deleting in a directory in memory answers 0 and takes nothing away. *)
Lemma fdelete_keeps parent child v s :
  vfs_lock s = false → vfiles s !! (if parent =? 0 then root_dir else parent) = Some v → vops v = no_ops ∨ vops v = ramfs_ops →
  fdelete parent child s = Ok (0, s).
Proof.
  intros Hlk Hv Hops. assert (wp (fdelete parent child) (λ r s', r = 0 ∧ s' = s) s) as Hw.
  { unfold fdelete. wp. rewrite Hlk. wp. apply (wp_get_vfile _ v); [exact Hv|].
    assert (set_vlock false (set_vlock true s) = s) as Es by (destruct s; cbn in *; by subst).
    unfold ramfs_delete. destruct Hops as [-> | ->], child; wp; by rewrite Es. }
  by apply wp_ok in Hw as (? & ? & Hrun & -> & ->).
Qed.
End delete.

(** ** Examples *)

(** The file system after [ramfs_init] (with one more, empty, file). *)
Definition root_file : vfile := VFile [47] 0x14 ramfs_ops 0 0 0 0.
Definition fs_init : fs := FS {[root_dir := root_file]} ∅ 8192 false.
Definition fs_one : fs := FS {[root_dir := root_file; 8192 := VFile [97] 0 ramfs_ops 0 0 0 1]} ∅ 12288 false.

Lemma fs_ok_empty files b lk :
  0 < b → map_Forall (λ f v, 0 < f < b ∧ private v = 0 ∧ vsize v = 0) files → fs_ok (FS files ∅ b lk).
Proof.
  intros Hb Hall. split; cbn.
  - done.
  - intros f v Hf. by apply (Hall f v Hf).
  - intros p bl Hp. by rewrite lookup_empty in Hp.
  - intros f g v w Hf _ _ _ _ Hnz. destruct Hnz. by apply (Hall f v Hf).
  - intros f v Hf _. destruct (Hall f v Hf) as (_ & Hp & Hz). split; [rewrite Hz; lia|by left].
Qed.

Lemma fs_init_ok : fs_ok fs_init.
Proof. apply fs_ok_empty; by_computation. Defined.
Lemma fs_one_ok : fs_ok fs_one.
Proof. apply fs_ok_empty; by_computation. Defined.

Lemma ramfs_write_read_witness :
  ∃ s', ramfs_write (λ _ _, true) (λ _, []) 8192 [1; 2; 3] 5000 fs_one = Ok (3, s') ∧
    ramfs_read 8192 5000 3 s' = Ok (([1; 2; 3], 3), s').
Proof.
  destruct (ramfs_write_read (λ _ _, true) (λ _, []) (λ _ _, eq_refl) 8192 (VFile [97] 0 ramfs_ops 0 0 0 1) [1; 2; 3] 5000
    fs_one fs_one_ok) as (s' & v' & Hw & _ & Hr & _).
  - reflexivity.
  - reflexivity.
  - reflexivity.
  - simpl. lia.
  - lia.
  - simpl. lia.
  - exists s'. exact (conj Hw Hr).
Defined.

(** "/tmp" in the empty file system. *)
Lemma fcreate_fopen_roundtrip_witness :
  let create := fcreate (λ _ _, true) (λ _, []) (λ _ _ _, 0) (λ _ _ _, mret 0) in
  ∃ f s', create [47; 116; 109; 112] FS_FILE_IS_DIR fs_init = Ok (f, s') ∧
    fopen (λ _ _ _, 0) [47; 116; 109; 112] s' = Ok (f, s').
Proof.
  destruct (fcreate_fopen_roundtrip (λ _ _, true) (λ _, []) (λ _ _ _, 0) (λ _ _ _, mret 0) (λ _ _, eq_refl)
    [] [116; 109; 112] FS_FILE_IS_DIR root_dir root_file fs_init fs_init_ok) as (f & s' & fv & H1 & H2 & _).
  - reflexivity.
  - split; [reflexivity|]. exists root_file. repeat split; reflexivity.
  - reflexivity.
  - by_computation.
  - repeat constructor; by_computation.
  - by_computation.
  - simpl. lia.
  - by_computation.
  - reflexivity.
  - reflexivity.
  - exists f, s'. exact (conj H1 H2).
Defined.
