(* ===== verification/Elf.v ===== *)
(** * The ELF loader (src/src/kernel/system/elf.c)

    Driver modules are shared objects: [load_elf_dynamic] copies the segments of a
    file that is already in memory into fresh pages.  Programs are loaded in
    [Exec]. *)
From S2P Require Import Prelude Device KString PhysMem Paging Heap Kmalloc.

Definition ELF_SIG : Z := 0x464c457f.
Definition ELF_BITS_32 : Z := 1.
Definition ELF_TYPE_EXEC : Z := 2.
Definition ELF_TYPE_SHARED : Z := 3.
Definition ELF_TYPE_CORE : Z := 4.
Definition PROG_ENT_LOAD : Z := 1.

Record elf_header := ElfHeader {
  magic : Z; bits : Z; endianness : Z; elf_type : Z;
  entry_offset : Z; program_header_offset : Z; program_entry_size : Z; program_entry_count : Z;
}.
Record program_entry := ProgramEntry {
  pe_type : Z; data_offset : Z; pe_vaddr : Z; fsize : Z; msize : Z; pe_flags : Z;
}.

(** The structures at an address; [b] is the byte at each address. *)
Definition half_at (b : Z → Z) (p : Z) : Z := le16 (b p) (b (p + 1)).
Definition word_at (b : Z → Z) (p : Z) : Z := le32 (b p) (b (p + 1)) (b (p + 2)) (b (p + 3)).
Definition header_at (b : Z → Z) (p : Z) : elf_header :=
  ElfHeader (word_at b p) (b (p + 4)) (b (p + 5)) (half_at b (p + 16))
    (word_at b (p + 24)) (word_at b (p + 28)) (half_at b (p + 42)) (half_at b (p + 44)).
Definition entry_at (b : Z → Z) (p : Z) : program_entry :=
  ProgramEntry (word_at b p) (word_at b (p + 4)) (word_at b (p + 8)) (word_at b (p + 16)) (word_at b (p + 20)) (word_at b (p + 24)).
(** [sizeof(program_entry_t)] and [sizeof(elf_header_t)]. *)
Definition ENTRY_SIZE : Z := 32.
Definition HEADER_SIZE : Z := 52.

(** ** Shared objects *)

(** The loader works on bytes behind virtual addresses, [ld_mem], and on the kernel
    memory component, which says which of the addresses are mapped. *)
Record loader := Loader { ld_mem : memory; ld_km : kmem }.
#[export, refine] Instance loader_memory : Lens loader memory := {|
  view := ld_mem;
  put m s := Loader m (ld_km s);
|}.
Proof. all: done || by intros []. Defined.
#[export, refine] Instance loader_kmem : Lens loader kmem := {|
  view := ld_km;
  put k s := Loader (ld_mem s) k;
|}.
Proof. all: done || by intros []. Defined.

Definition header (file_data : Z) : M memory elf_header := gets (λ m, header_at (zget m) file_data).
Definition program_header (p i : Z) : M memory program_entry := gets (λ m, entry_at (zget m) (p + ENTRY_SIZE * i)).

Definition load_segment_dynamic (entry : program_entry) (file_data base_segment : Z) : M memory Z :=
  h ← header file_data;
  when ((pe_type entry =? 1) && (elf_type h =? ELF_TYPE_SHARED)) (
    let segment := u32 (base_segment + pe_vaddr entry) in
    memclr segment (msize entry);;
    for_all 0 (fsize entry) (λ i,
      x ← ld (file_data + u32 (i + data_offset entry));
      st (segment + i) x));;
  mret base_segment.

Definition unsigned_max (a b : Z) : Z := if b <? a then a else b.

Definition image_limit (p count : Z) : M memory Z :=
  r ← fora_loop (R := unit) 0 count (λ i limit,
    e ← program_header p i;
    mret (inl (unsigned_max limit (u32 (pe_vaddr e + msize e))))) 0;
  mret (match r with inl l => l | inr _ => 0 end).

Definition load_elf_dynamic (file_data : Z) : M loader Z :=
  h ← zoom (header file_data);
  if negb (magic h =? ELF_SIG) || (elf_type h =? ELF_TYPE_CORE) then mret 0
  else
    let p := file_data + program_header_offset h in
    let count := program_entry_count h in
    limit ← zoom (image_limit p count);
    let size_pages := u32 (limit + PAGE_SIZE_BYTES - 1) / PAGE_SIZE_BYTES in
    base ← zoom (kmalloc size_pages);
    r ← fora_loop (R := unit) 0 count (λ i base_segment,
      e ← zoom (program_header p i);
      b ← zoom (load_segment_dynamic e file_data base_segment);
      mret (inl b)) base;
    h ← zoom (header file_data);
    mret (u32 (match r with inl b => b | inr _ => 0 end + entry_offset h)).

(** ** Loading, proved *)

(** One past the last byte a segment needs. *)
Definition image_end (es : list program_entry) : Z := foldl (λ l e, Z.max l (pe_vaddr e + msize e)) 0 es.
Definition loaded (e : program_entry) : Prop := pe_type e = PROG_ENT_LOAD.
Definition segment_bytes (f : Z → Z) (fd : Z) (e : program_entry) (k : Z) : Z :=
  if decide (k < fsize e) then f (fd + data_offset e + k) else 0.

(** A file of [len] bytes at [fd] with the program header [es]: no segment is bigger
    in the file than in memory, and segments that are loaded do not overlap. *)
Record image (m : memory) (fd len : Z) (h : elf_header) (es : list program_entry) : Prop := {
  im_header : header_at (zget m) fd = h;
  im_magic : magic h = ELF_SIG;
  im_type : elf_type h = ELF_TYPE_SHARED;
  im_count : program_entry_count h = Z.of_nat (length es);
  im_entries : ∀ i e, es !! i = Some e →
    entry_at (zget m) (fd + program_header_offset h + ENTRY_SIZE * Z.of_nat i) = e;
  im_table : HEADER_SIZE <= len ∧ 0 <= program_header_offset h ∧
    program_header_offset h + ENTRY_SIZE * Z.of_nat (length es) <= len <= 2 ^ 32;
  im_sizes : ∀ e, e ∈ es → 0 <= fsize e <= msize e ∧ 0 <= pe_vaddr e ∧ 0 <= data_offset e ∧ data_offset e + fsize e <= len;
  im_apart : ∀ i j e e', es !! i = Some e → es !! j = Some e' → i ≠ j → loaded e → loaded e' →
    pe_vaddr e + msize e <= pe_vaddr e' ∨ pe_vaddr e' + msize e' <= pe_vaddr e;
  im_bytes : ∀ k, is_u8 (m !0 k);
  im_end : image_end es <= 2 ^ 31;
}.

Lemma image_end_app es e : image_end (es ++ [e]) = Z.max (image_end es) (pe_vaddr e + msize e).
Proof. unfold image_end. by rewrite foldl_app. Qed.
Lemma image_end_nonneg es : 0 <= image_end es.
Proof. induction es as [|e es IH] using rev_ind; [done|]. rewrite image_end_app. lia. Qed.
Lemma image_end_elem es e : e ∈ es → pe_vaddr e + msize e <= image_end es.
Proof.
  induction es as [|x es IH] using rev_ind; [by intros ?%not_elem_of_nil|].
  rewrite elem_of_app, list_elem_of_singleton, image_end_app. intros [Hin| ->]; [specialize (IH Hin)|]; lia.
Qed.

(** The structures only depend on the bytes of the file. *)
Lemma entry_at_ext b b' p : (∀ k, p <= k < p + ENTRY_SIZE → b k = b' k) → entry_at b p = entry_at b' p.
Proof. intros Hb. unfold entry_at, word_at, ENTRY_SIZE in *. by rewrite !Hb by lia. Qed.
Lemma header_at_ext b b' p : (∀ k, p <= k < p + HEADER_SIZE → b k = b' k) → header_at b p = header_at b' p.
Proof. intros Hb. unfold header_at, word_at, half_at, HEADER_SIZE in *. by rewrite !Hb by lia. Qed.

Lemma image_limit_wp m fd len h es (Q : Z → memory → Prop) :
  image m fd len h es → Q (image_end es) m →
  wp (image_limit (fd + program_header_offset h) (program_entry_count h)) Q m.
Proof.
  intros Him HQ. destruct Him as [_ _ _ Hc He _ Hs _ _ Hend]. unfold image_limit, program_header. wp. rewrite Hc.
  apply (wp_fora (λ i l m', m' = m ∧ l = image_end (take (Z.to_nat i) es))); [lia|done| |].
  - intros i l m' Hi [-> ->]. wp. split; [done|].
    destruct (lookup_lt_is_Some_2 es (Z.to_nat i)) as [e Hei]; [lia|]. pose proof (He _ _ Hei) as Hat.
    rewrite Z2Nat.id in Hat by lia. rewrite Hat. replace (Z.to_nat (i + 1)) with (S (Z.to_nat i)) by lia.
    rewrite (take_S_r _ _ e), image_end_app by done.
    pose proof (list_elem_of_lookup_2 _ _ _ Hei) as Hin. pose proof (image_end_elem es e Hin). destruct (Hs e Hin) as (? & ? & _).
    rewrite u32_id by (unfold is_u32; lia). unfold unsigned_max. destruct (Z.ltb_spec (pe_vaddr e + msize e) (image_end (take (Z.to_nat i) es))); lia.
  - intros l m' [-> ->]. wp. rewrite take_ge by lia. done.
Qed.

(** Loading one segment behind those that are loaded already. *)
Lemma load_segment_wp fd len (m : memory) base e (Q : Z → memory → Prop) :
  elf_type (header_at (zget m) fd) = ELF_TYPE_SHARED →
  0 <= fsize e <= msize e → 0 <= pe_vaddr e → 0 <= data_offset e → data_offset e + fsize e <= len → len <= 2 ^ 32 →
  0 <= base → base + (pe_vaddr e + msize e) < 2 ^ 32 →
  (∀ k, fd <= k < fd + len → base <= k < base + (pe_vaddr e + msize e) → False) → (∀ k, fd <= k < fd + len → is_u8 (m !0 k)) →
  (∀ m', (∀ k, m' !0 k = if decide (loaded e ∧ base + pe_vaddr e <= k < base + pe_vaddr e + msize e)
                         then segment_bytes (zget m) fd e (k - (base + pe_vaddr e)) else m !0 k) → Q base m') →
  wp (load_segment_dynamic e fd base) Q m.
Proof.
  intros Ht Hsz Hv Ho Hlen Hmax Hb Hbe Hap Hu HQ. unfold load_segment_dynamic, header. wp. rewrite Ht, andb_true_r.
  change (pe_type e =? 1) with (pe_type e =? PROG_ENT_LOAD). destruct (Z.eqb_spec (pe_type e) PROG_ENT_LOAD) as [Hl|Hl].
  2:{ apply HQ. intros k. by rewrite decide_False by (by intros [? _]). }
  rewrite u32_id by (unfold is_u32; lia). wp. apply memclr_wp; [lia|]. intros m1 Hm1. wp.
  apply (wp_for_all (λ i m', ∀ k, m' !0 k =
    if decide (base + pe_vaddr e <= k < base + pe_vaddr e + i) then m !0 (fd + data_offset e + (k - (base + pe_vaddr e))) else m1 !0 k)).
  - lia.
  - intros k. by rewrite decide_False by lia.
  - intros i m' Hi Hm'. wp. intros k. rewrite zget_insert. destruct (decide (base + pe_vaddr e + i = k)) as [<-|Hne].
    + rewrite (u32_id (i + data_offset e)) by (unfold is_u32; lia).
      assert (¬ base <= fd + (i + data_offset e) < base + (pe_vaddr e + msize e)) as Hx
        by (intros ?; apply (Hap (fd + (i + data_offset e))); lia).
      rewrite decide_True by lia. rewrite Hm'. rewrite decide_False by lia. rewrite Hm1, decide_False by lia.
      rewrite u8_id by (apply Hu; lia). f_equal. lia.
    + rewrite Hm'. repeat case_decide; done || lia.
  - intros m' Hm'. apply HQ. intros k. rewrite Hm', Hm1. unfold segment_bytes.
    destruct (decide (base + pe_vaddr e <= k < base + pe_vaddr e + msize e)).
    + rewrite (decide_True (P := loaded e ∧ _)) by done. repeat case_decide; done || lia.
    + rewrite (decide_False (P := loaded e ∧ _)) by (by intros [_ ?]). by rewrite !decide_False by lia.
Qed.

(** C39: loading a driver module.  [kmalloc] gives it a fresh run of pages for all of
    its segments, the first that is long enough; every byte of a loaded segment is
    the byte of the file, and 0 behind the part that is in the file; nothing else
    in memory changes; the result is the entry point in the pages. *)
Theorem load_elf_dynamic_loads fd len h es m km :
  let n := (image_end es + 4095) / 4096 in
  image m fd len h es → 0 < image_end es → 0 <= entry_offset h < 2 ^ 22 →
  kready km → (∃ i, kfits (km_pg km) n i) → avail (pg_pm (km_pg km)) (2 * Z.to_nat n) →
  (∀ v, fd <= v < fd + len → ¬ free_page (km_pg km) (v / 4096)) →
  ∃ i m' km', load_elf_dynamic fd (Loader m km) = Ok (i * 4096 + entry_offset h, Loader m' km') ∧
    kmalloc n km = Ok (i * 4096, km') ∧ kfits (km_pg km) n i ∧ (∀ k, kfits (km_pg km) n k → i <= k) ∧
    (∀ e k, e ∈ es → loaded e → 0 <= k < msize e → m' !0 (i * 4096 + pe_vaddr e + k) = segment_bytes (zget m) fd e k) ∧
    ∀ x, ¬ (i * 4096 <= x < i * 4096 + image_end es) → m' !0 x = m !0 x.
Proof.
  intros n Him Hpos Hentry Hr Hfit Hav Hfd.
  destruct (proj1 (wp_ok (kmalloc n) (λ a km', ∃ i, a = i * 4096 ∧ kfits (km_pg km) n i ∧ ∀ k, kfits (km_pg km) n k → i <= k) km))
    as (a & km' & Hkm & i & -> & Hi & Hmin).
  { apply kmalloc_wp; [done|subst n; apply Z.div_le_lower_bound; lia|done|done|]. intros i fs p ? ? _. by exists i. }
  pose proof Hi as (Hi1 & Hi2 & Hfree).
  assert (image_end es <= n * 4096) as Hn by (subst n; Z.to_euclidean_division_equations; lia).
  assert (∀ k, fd <= k < fd + len → ¬ i * 4096 <= k < i * 4096 + image_end es) as Hap.
  { intros k Hk Hin. apply (Hfd k Hk). replace (k / 4096) with (i + (k / 4096 - i)) by lia.
    apply Hfree. Z.to_euclidean_division_equations; lia. }
  destruct (proj1 (wp_ok (load_elf_dynamic fd) (λ r s', r = i * 4096 + entry_offset h ∧ ld_km s' = km' ∧
    (∀ e k, e ∈ es → loaded e → 0 <= k < msize e → ld_mem s' !0 (i * 4096 + pe_vaddr e + k) = segment_bytes (zget m) fd e k) ∧
    ∀ x, ¬ (i * 4096 <= x < i * 4096 + image_end es) → ld_mem s' !0 x = m !0 x) (Loader m km)))
    as (r & [m' ?] & Hrun & -> & Hk & Hpost); [|cbn in Hk; subst; by exists i, m', km'].
  pose proof Him as [Hh Hmg Hty Hc He [Hhl [Hp0 Hpl]] Hs Hd Hu Hend].
  unfold load_elf_dynamic. unfold header at 1. wp. cbn [view loader_memory ld_mem ld_km put].
  rewrite Hh, Hmg, Hty. cbn [Z.eqb Pos.eqb ELF_SIG ELF_TYPE_SHARED ELF_TYPE_CORE negb orb]. wp.
  apply (image_limit_wp m fd len h es); [done|]. cbn [view loader_kmem ld_mem ld_km put]. unfold PAGE_SIZE_BYTES.
  rewrite u32_id by (unfold is_u32; lia). replace (image_end es + 4096 - 1) with (image_end es + 4095) by lia. fold n.
  wp. rewrite (wp_run _ _ _ _ _ Hkm). cbn beta. rewrite wp_bind. cbn [view put loader_kmem loader_memory ld_mem ld_km].
  unfold program_header. set (base := i * 4096) in *.
  apply (wp_fora (λ i b s', b = base ∧ ld_km s' = km' ∧
    (∀ j e k, es !! j = Some e → Z.of_nat j < i → loaded e → 0 <= k < msize e → ld_mem s' !0 (base + pe_vaddr e + k) = segment_bytes (zget m) fd e k) ∧
    ∀ x, ¬ (base <= x < base + image_end es) → ld_mem s' !0 x = m !0 x)).
  - lia.
  - split_and!; [done|done|lia|done].
  - intros t b [m1 km1] Ht (-> & Hk1 & Hin & Hout). cbn [ld_mem ld_km] in *. subst km1. wp. cbn [view loader_memory ld_mem ld_km put].
    destruct (lookup_lt_is_Some_2 es (Z.to_nat t)) as [e Hei]; [lia|]. pose proof (list_elem_of_lookup_2 _ _ _ Hei) as Helem.
    assert (∀ k, fd <= k < fd + len → m1 !0 k = m !0 k) as Hfile by (intros k Hk; by apply Hout, Hap).
    assert (entry_at (zget m1) (fd + program_header_offset h + ENTRY_SIZE * t) = e) as ->.
    { rewrite <- (He _ _ Hei), Z2Nat.id by lia. apply entry_at_ext. unfold ENTRY_SIZE in *. intros k Hk. apply Hfile. lia. }
    destruct (Hs e Helem) as (Hsz & Hv & Hdo & Hdl). pose proof (image_end_elem es e Helem) as Hee.
    apply (load_segment_wp fd len); try done; try lia.
    + rewrite (header_at_ext _ (zget m)), Hh by (unfold HEADER_SIZE in *; intros; apply Hfile; lia). done.
    + intros k Hk Hb. apply (Hap k Hk). lia.
    + intros k Hk. rewrite Hfile by lia. apply Hu.
    + intros m2 Hm2. cbn [view loader_memory ld_mem ld_km put]. wp. split_and!; [done|done| |]; cbn [ld_mem].
      * intros j e' k Hej Hj Hl Hk. rewrite Hm2. destruct (decide (j = Z.to_nat t)) as [->|Hne].
        -- rewrite Hei in Hej. injection Hej as <-. rewrite decide_True by (split; [done|lia]).
           unfold segment_bytes. replace (base + pe_vaddr e + k - (base + pe_vaddr e)) with k by lia.
           destruct (decide (k < fsize e)); [apply Hfile; lia|done].
        -- rewrite decide_False; [apply (Hin j); [done|lia|done..]|]. intros [Hle Hx].
           destruct (Hd j (Z.to_nat t) e' e Hej Hei Hne Hl Hle); lia.
      * intros x Hx. rewrite Hm2, decide_False by lia. by apply Hout.
  - intros b [m1 km1] (-> & Hk1 & Hin & Hout). cbn [ld_mem ld_km] in *. subst km1. unfold header. wp. cbn [view loader_memory ld_mem ld_km put].
    assert (header_at (zget m1) fd = h) as ->.
    { rewrite <- Hh. apply header_at_ext. unfold HEADER_SIZE in *. intros k Hk. apply Hout, Hap. lia. }
    split_and!; [apply u32_id; unfold is_u32 in *; lia|done| |done]. intros e k Hel Hl Hk. apply list_elem_of_lookup_1 in Hel as [j Hj].
    apply (Hin j); try done. rewrite Hc. apply lookup_lt_Some in Hj. lia.
Qed.

(** A shared object of 87 bytes: the header, one entry, three bytes of code that are
    wanted at [0x10] with two more that are cleared. *)
Definition elf_example : list Z :=
  [0x7f; 0x45; 0x4c; 0x46; 1; 1; 1; 0; 0; 0; 0; 0; 0; 0; 0; 0; 3; 0; 3; 0; 1; 0; 0; 0;
   0x12; 0; 0; 0; 52; 0; 0; 0; 0; 0; 0; 0; 0; 0; 0; 0; 52; 0; 32; 0; 1; 0; 40; 0; 0; 0; 0; 0;
   1; 0; 0; 0; 84; 0; 0; 0; 0x10; 0; 0; 0; 0x10; 0; 0; 0; 3; 0; 0; 0; 5; 0; 0; 0; 5; 0; 0; 0; 0; 16; 0; 0;
   0x90; 0x90; 0xc3].
Definition elf_example_entry : program_entry := ProgramEntry 1 84 0x10 3 5 5.
Definition elf_example_memory : memory := store_bytes 256 elf_example ∅.

Definition elf_example_header : elf_header := ElfHeader ELF_SIG 1 1 ELF_TYPE_SHARED 0x12 52 32 1.

Lemma elf_example_image :
  image elf_example_memory 256 87 elf_example_header [elf_example_entry].
Proof.
  split.
  - vm_compute. reflexivity.
  - reflexivity.
  - reflexivity.
  - reflexivity.
  - intros [|i] e Hi; [injection Hi as <-; vm_compute; reflexivity|discriminate Hi].
  - cbn. unfold HEADER_SIZE, ENTRY_SIZE. lia.
  - intros e ->%list_elem_of_singleton. cbn. lia.
  - intros [|i] [|j] e e' Hi Hj; discriminate || congruence.
  - apply store_bytes_ok; [intros k; split; [apply Z.le_refl|reflexivity]|by_computation].
  - unfold image_end. cbn. lia.
Qed.

(** The file lies in page 0, which is mapped; the kernel half is free. *)
Definition km_vector : kmem := KMem pg_vector (Heap ∅ 0 0 0 false) false.

Lemma km_vector_ready : kready km_vector.
Proof. split; [apply pg_vector_wf|done|done]. Defined.
Lemma km_vector_fits : kfits (km_pg km_vector) 1 0xc0000.
Proof.
  split_and!; [lia|lia|]. intros j Hj. unfold free_page, entry. change (km_pg km_vector) with pg_vector.
  rewrite pg_vector_pde, pg_example_pde; [done|..]; Z.to_euclidean_division_equations; lia.
Defined.
Lemma km_vector_avail : avail (pg_pm (km_pg km_vector)) (2 * Z.to_nat 1).
Proof. apply (avail_le _ (2 * Z.to_nat 2)); [lia|exact km_example_avail]. Defined.

Lemma load_elf_dynamic_loads_witness :
  ∃ m' km', load_elf_dynamic 256 (Loader elf_example_memory km_vector) = Ok (0xc0000012, Loader m' km') ∧
    (λ k, m' !0 k) <$> seqZ 0xc0000010 5 = [0x90; 0x90; 0xc3; 0; 0].
Proof.
  destruct (load_elf_dynamic_loads 256 87 _ _ _ km_vector elf_example_image) as (i & m' & km' & Hrun & _ & [Hi _] & Hmin & Hseg & _).
  - reflexivity.
  - cbn. lia.
  - exact km_vector_ready.
  - exists 0xc0000. exact km_vector_fits.
  - exact km_vector_avail.
  - intros v Hv. rewrite Z.div_small by lia. intros Hf. vm_compute in Hf. discriminate Hf.
  - pose proof (Hmin 0xc0000 km_vector_fits) as Hle. assert (i = 0xc0000) as -> by lia. exists m', km'. split; [exact Hrun|].
    assert (∀ k, 0 <= k < 5 → m' !0 (0xc0000010 + k) = segment_bytes (zget elf_example_memory) 256 elf_example_entry k) as Hk
      by (intros k Hk; apply (Hseg elf_example_entry k); [by left|reflexivity|exact Hk]).
    change (seqZ 0xc0000010 5) with ((λ k, 0xc0000010 + k) <$> seqZ 0 5). rewrite <- list_fmap_compose.
    etransitivity; [apply list_fmap_ext; intros j k Hj; apply Hk; apply lookup_seqZ in Hj; lia|]. vm_compute. reflexivity.
Defined.
