(* ===== verification/Exec.v ===== *)
(** * Running programs (src/src/kernel/system/elf.c: load_segment_static, load_elf; scheduler.c: exec)

    A program is copied page by page: every page of a segment is given a frame, mapped
    for user mode, cleared, and filled from the file.  All accesses go through the
    page tables, byte by byte. *)
From S2P Require Import Prelude Device PhysMem Paging Heap Kmalloc KBytes KString Scheduler Elf.

Section loader.
Context {D : Type} `{BlockDev D}.
(** The file of the program. *)
Variable file : D.

(** [fread] to a virtual address. *)
Definition kfread (p offset count : Z) : M kmem unit :=
  match fread file offset count with Some bs => kwrite_bytes p bs | None => skip end.

Definition kheader (p : Z) : M kmem elf_header :=
  bs ← kread_bytes p HEADER_SIZE; mret (header_at (λ k, nth (Z.to_nat k) bs 0) 0).
Definition kentry (p : Z) : M kmem program_entry :=
  bs ← kread_bytes p ENTRY_SIZE; mret (entry_at (λ k, nth (Z.to_nat k) bs 0) 0).

(** The flags of a segment's pages: writable when the segment is. *)
Definition segment_flags (e : program_entry) : Z :=
  Z.lor (Z.lor PT_PRESENT PT_USER) (if Z.land (pe_flags e) 2 =? 0 then 0 else PT_USER_RW).

Definition load_segment_static (e : program_entry) : M kmem unit :=
  if negb (pe_type e =? PROG_ENT_LOAD) then skip
  else
    let base_vaddr := pe_vaddr e in
    let size_pages := u32 (msize e + PAGE_SIZE_BYTES - 1) / PAGE_SIZE_BYTES in
    for_all 0 size_pages (λ i,
      f ← kpm pm_alloc;
      kpg (map (u32 (base_vaddr + i * PAGE_SIZE_BYTES)) f (segment_flags e));;
      kclear (u32 (base_vaddr + i * PAGE_SIZE_BYTES)) PAGE_SIZE_BYTES);;
    kfread base_vaddr (data_offset e) (fsize e).

(** The address of the first instruction, 0 for a file that is not a program.  The word
    at that address is read for a message. *)
Definition load_elf : M kmem Z :=
  file_data ← kmalloc 1;
  kfread file_data 0 HEADER_SIZE;;
  h ← kheader file_data;
  if negb (magic h =? ELF_SIG) || (elf_type h =? ELF_TYPE_CORE) then _ ← kfree file_data; mret 0
  else if endianness h =? 2 then _ ← kfree file_data; mret 0
  else if negb (bits h =? ELF_BITS_32) then _ ← kfree file_data; mret 0
  else
    let entry_count := program_entry_count h in
    let entry_size := program_entry_size h in
    program_header ← kmalloc (u32 (u32 (entry_count * entry_size) + PAGE_SIZE_BYTES - 1) / PAGE_SIZE_BYTES);
    kfread program_header (program_header_offset h) (u32 (entry_count * entry_size));;
    for_all 0 entry_count (λ i,
      e ← kentry (u32 (program_header + ENTRY_SIZE * i));
      load_segment_static e);;
    h ← kheader file_data;
    _ ← kread_bytes (entry_offset h) 4;
    mret (entry_offset h).

(** The second half of [exec]: the program is loaded, it gets a stack of 32 pages below its
    entry point and one of 8 pages for system calls. *)
Definition stack_top (entry : Z) : Z := u32 (entry - 0x10000).
Definition ESP0 : Z := 0xc0000000 - 0x10000.
Definition map_stack (top pages flags : Z) : M kmem unit :=
  for_all 0 pages (λ i, f ← kpm pm_alloc; kpg (map (u32 (top - i * PAGE_SIZE_BYTES)) f flags)).
Definition enter_program : M sched (Z * Z) :=
  entry ← zoom load_elf;
  zoom (map_stack (stack_top entry) 32 (Z.lor (Z.lor PT_USER_RW PT_USER) PT_PRESENT));;
  zoom (map_stack ESP0 8 PT_PRESENT);;
  pid ← gets current_pid;
  update_proc pid (set_esp0 ESP0);;
  mret (u32 (stack_top entry - 4), entry).
End loader.

(** [exec]: [inl] is what it returns when there is no such file; otherwise it goes to user
    mode with the stack pointer and the entry point of [inr].  The page tables of the
    user half are cleared and forgotten; the file is the result of [fopen]. *)
Definition clear_user_half (pd_ptr : Z) : M kmem unit :=
  for_all (Z.shiftr 0x400000 22) (Z.shiftr 0xc0000000 22) (λ i,
    e ← kread32 (u32 (pd_ptr + 4 * i));
    pt_ptr ← kmalloc_page_paddr e 1;
    for_all 0 1024 (λ j, kwrite32 (u32 (pt_ptr + 4 * j)) 0);;
    _ ← kfree pt_ptr;
    kwrite32 (u32 (pd_ptr + 4 * i)) 0).
Definition exec {D} `{BlockDev D} (program : option D) : M sched (Z + (Z * Z)) :=
  pid ← gets current_pid;
  p ← get_proc pid;
  pd_ptr ← zoom (kmalloc_page_paddr (page_dir p) 1);
  match program with
  | None => mret (inl (-1))
  | Some file =>
      zoom (clear_user_half pd_ptr);;
      _ ← zoom (kfree pd_ptr);
      r ← enter_program file;
      mret (inr r)
  end.

(** ** Loading a segment *)

Lemma step_kept s0 s s' P : mem_kept s0 s → data_step s s' P → (∀ g, used (pg_pm s0) g = true → ¬ P g) → mem_kept s0 s'.
Proof.
  intros [Hf Hp] Hst Hnot. split.
  - intros g Hg. destruct (Hf g Hg) as [Hu Hd]. split; [by rewrite (ds_pm _ _ _ Hst)|]. intros Hg0. destruct (Hd Hg0) as [Hd' Hw].
    split; [by apply (ds_frame _ _ _ Hst)|]. intros k Hk. rewrite (ds_words _ _ _ Hst) by auto. by apply Hw.
  - intros i b Hi Hb. rewrite (ds_pde _ _ _ Hst) by done. by apply Hp.
Qed.

(** The state [p], which has grown from [s0] by the pages [A] of a program: their frames
    were free, user mode can reach them as their flags say, and they hold [c]. *)
Record loading (s0 : paging) (A : page_map) (c : Z → Z) (p : paging) : Prop := {
  lo_wf : pg_wf p;
  lo_placed : placed p A;
  lo_new f : frame_in A f → used (pg_pm s0) f = false;
  lo_kept : mem_kept s0 p;
  lo_entry n : 0 < n / 1024 < 1023 → A !! n = None → entry p n = entry s0 n;
  lo_bytes : bytes_are p A c;
  lo_user n f fl : A !! n = Some (f, fl) → 0x400 <= n < 0xc0000 ∧ Z.land (user_flags fl) (pde p (n / 1024)) = user_flags fl;
}.

Lemma loading_start s0 c : pg_wf s0 → loading s0 ∅ c s0.
Proof.
  intros Hwf. split; try done. intros f (n & fl & Hn). by rewrite lookup_empty in Hn.
Qed.

Lemma land_mono a x y : (∀ b, Z.testbit x b = true → Z.testbit y b = true) → Z.land a x = a → Z.land a y = a.
Proof.
  intros Hxy Ha. apply Z.bits_inj'. intros b _. rewrite Z.land_spec. destruct (Z.testbit a b) eqn:Hb; [|done].
  rewrite <- Ha, Z.land_spec in Hb. apply andb_prop in Hb as [_ Hb]. by rewrite Hxy.
Qed.

(** The contents change only inside of the pages. *)
Lemma loading_write s0 A c c' p p' :
  loading s0 A c p → data_step p p' (frame_in A) → bytes_are p' A c' → loading s0 A c' p'.
Proof.
  intros [Hwf Hpl Hnew Hk He Hb Hu] Hst Hb'. split; try done.
  - apply Hst.
  - by eapply placed_step.
  - apply (step_kept s0 p p' (frame_in A)); [done..|]. intros g Hg Hin. rewrite (Hnew g Hin) in Hg. done.
  - intros n Hn Hno. rewrite (ds_entry _ _ _ Hst) by done. by apply He.
  - intros n f fl Hn. destruct (Hu n f fl Hn) as [Hr Hl]. split; [done|]. rewrite (ds_pde _ _ _ Hst); [done|].
    Z.to_euclidean_division_equations; lia.
Qed.

(** One more page, before it is cleared. *)
Lemma loading_map s0 A c p f n fl p' pm' :
  loading s0 A c p → 0x400 <= n < 0xc0000 → A !! n = None → 0 <= fl < 4096 → Z.testbit fl 0 = true →
  0 <= f < frames → used (pg_pm p) f = false → pm_wf pm' → (∀ g, used pm' g = bool_decide (f = g) || used (pg_pm p) g) →
  pg_wf p' → (∀ k, 0 < k / 1024 < 1023 → entry p' k = if decide (k = n) then Z.lor (f * PAGE_SIZE_BYTES) fl else entry p k) →
  Z.land (user_flags fl) (pde p' (n / 1024)) = user_flags fl → mem_kept (put pm' p) p' →
  ∃ c', loading s0 (<[n := (f, fl)]> A) c' p' ∧ ∀ v, v / 4096 ≠ n → c' v = c v.
Proof.
  intros [Hwf Hpl Hnew Hk He Hb Hu] Hn HA Hfl Hfl0 Hf Hfu Hpm Hus Hwf' He' Hpde Hk'.
  assert (mem_kept p p') as Hpp.
  { etransitivity; [apply (take_kept p pm')|done]. intros g Hg. rewrite Hus, Hg. apply orb_true_r. }
  assert (0 < n / 1024 < 1023) as Hslot by (Z.to_euclidean_division_equations; lia).
  assert (∀ k fr g, A !! k = Some (fr, g) → fr ≠ f) as Hfresh.
  { intros k fr g Hg ->. destruct (pl_on _ _ Hpl k f g Hg) as [_ _ _ _ (_ & Hx & _)]. congruence. }
  assert (on_frame p' n f fl) as Hnf.
  { split; [done|by rewrite He', decide_True by done|done|done|]. split; [done|].
    destruct (mk_frames _ _ Hk' f) as [Hu' Hd']; [cbn; rewrite Hus; by rewrite bool_decide_eq_true_2|].
    split; [done|]. apply Hd'. by apply (unused_data_frame p). }
  assert (∀ k, is_Some (A !! k) → k ≠ n) as Hkn by (intros k [x Hx] ->; congruence).
  assert (placed p' A ∧ ∀ fr, frame_in A fr → same_words p p' fr) as [Hpl' Hwords].
  { apply placed_kept; [done|apply Hpp|]. intros k Hk1. destruct (id Hk1) as [[fr g] Hx].
    rewrite He' by (by apply (pl_on _ _ Hpl k fr g)). by rewrite decide_False by (by apply Hkn). }
  exists (λ v, if decide (v / 4096 = n) then fbyte p' f (v mod 4096) else c v). split; [split|].
  - done.
  - split.
    + intros k fr g. destruct (decide (k = n)) as [->|Hne]; [rewrite lookup_insert_eq; by intros [= <- <-]|].
      rewrite lookup_insert_ne by done. apply Hpl'.
    + intros k k' fr g g'. destruct (decide (k = n)) as [->|Hne], (decide (k' = n)) as [->|Hne'];
        rewrite ?lookup_insert_eq, ?lookup_insert_ne by done; try done.
      * intros [= <- <-] Hx. by destruct (Hfresh k' f g' Hx).
      * intros Hx [= <- <-]. by destruct (Hfresh k f g Hx).
      * apply Hpl'.
  - intros fr (k & g & Hkg). destruct (decide (k = n)) as [->|Hne].
    + rewrite lookup_insert_eq in Hkg. injection Hkg as <- <-. destruct (used (pg_pm s0) f) eqn:Hx; [|done].
      destruct (mk_frames _ _ Hk f Hx). congruence.
    + rewrite lookup_insert_ne in Hkg by done. apply Hnew. by exists k, g.
  - by etransitivity.
  - intros k Hk1. destruct (decide (k = n)) as [->|Hne]; [by rewrite lookup_insert_eq|]. rewrite lookup_insert_ne by done.
    intros Hx. rewrite He', decide_False by done. by apply He.
  - intros k fr g o. destruct (decide (k = n)) as [->|Hne].
    + rewrite lookup_insert_eq. intros [= <- <-] Ho. rewrite decide_True; [f_equal|]; Z.to_euclidean_division_equations; lia.
    + rewrite lookup_insert_ne by done. intros Hx Ho. rewrite decide_False by (Z.to_euclidean_division_equations; lia).
      rewrite (same_words_byte p) by (try done; apply Hwords; by exists k, g). by apply (Hb k fr g).
  - intros k fr g. destruct (decide (k = n)) as [->|Hne]; [rewrite lookup_insert_eq; by intros [= <- <-]|].
    rewrite lookup_insert_ne by done. intros Hx. destruct (Hu k fr g Hx) as [Hr Hl]. split; [done|].
    apply (land_mono _ (pde p (k / 1024))); [|done]. intros b. apply (mk_pde _ _ Hpp). Z.to_euclidean_division_equations; lia.
  - intros v Hv. by rewrite decide_False.
Qed.

Lemma bytes_are_ext s A c c' : (∀ v, c v = c' v) → bytes_are s A c → bytes_are s A c'.
Proof. intros Hc Hb n f fl o Hn Ho. rewrite <- Hc. by apply (Hb n f fl). Qed.

Lemma load_page_wp ks s0 A c n fl m (Q : unit → kmem → Prop) :
  loading s0 A c (km_pg ks) → 0x400 <= n < 0xc0000 → A !! n = None → 0 <= fl < 4096 → Z.testbit fl 0 = true →
  avail (pg_pm (km_pg ks)) (S (S m)) →
  (∀ f c' p, loading s0 (<[n := (f, fl)]> A) c' p → avail (pg_pm p) m →
     (∀ v, c' v = if decide (v / 4096 = n) then 0 else c v) → Q tt (put p ks)) →
  wp (f ← kpm pm_alloc; kpg (map (n * 4096) f fl);; kclear (n * 4096) PAGE_SIZE_BYTES) Q ks.
Proof.
  intros Hl Hn HA Hfl Hfl0 Hav HQ. wp. assert (0 < n / 1024 < 1023) as Hslot by (Z.to_euclidean_division_equations; lia).
  apply (pm_alloc_avail_wp _ (S m)); [apply Hl|done|]. intros f pm' Hf Hfu Hpm Hav' Hus. wp. cbn [view put kmem_paging km_pg paging_pmem].
  assert (n * 4096 / 4096 = n) as Hdiv by (by apply Z.div_mul).
  apply (map_wp _ _ _ _ m); rewrite ?Hdiv; [by apply (pg_wf_take _ pm' f); [apply Hl|done..]|done|done|].
  intros p' Hwf' _ He' Hpde Hk' Hav''. wp. cbn [put kmem_paging km_heap page_lock].
  destruct (loading_map s0 A c (km_pg ks) f n fl p' pm') as (c1 & Hl1 & Hc1); [done..|apply Hpde; lia|done|].
  unfold kclear. apply (kfill_wp _ (<[n := (f, fl)]> A) _ _ (λ _, 0) c1); cbn [km_pg]; unfold PAGE_SIZE_BYTES.
  - done.
  - apply Hl1.
  - intros v Hv. assert (v / 4096 = n) as -> by (Z.to_euclidean_division_equations; lia). by rewrite lookup_insert_eq.
  - lia.
  - lia.
  - lia.
  - done.
  - apply Hl1.
  - intros p Hst Hpl Hb. apply (HQ f (λ v, if decide (v / 4096 = n) then 0 else c v)).
    + apply (loading_write s0 _ c1 _ p'); [done|done|]. eapply bytes_are_ext; [|exact Hb]. intros v. cbn beta.
      destruct (decide (v / 4096 = n)) as [E|E].
      * rewrite decide_True; [done|]. Z.to_euclidean_division_equations; lia.
      * rewrite decide_False; [by apply Hc1|]. Z.to_euclidean_division_equations; lia.
    + by rewrite (ds_pm _ _ _ Hst).
    + done.
Qed.

(** ** Segments *)

Section segments.
Context {D : Type} `{BlockDev D}.
Variable file : D.

(** The pages of a segment. *)
Definition seg_pages (e : program_entry) : Z := (msize e + 4095) / 4096.
Definition seg_page (e : program_entry) (n : Z) : Prop := pe_vaddr e / 4096 <= n < pe_vaddr e / 4096 + seg_pages e.
#[export] Instance seg_page_dec e n : Decision (seg_page e n).
Proof. unfold seg_page. apply _. Defined.

(** A segment that starts at a page of the user half and is in the file. *)
Record segment_ok (e : program_entry) : Prop := {
  so_aligned : pe_vaddr e mod 4096 = 0;
  so_user : 0x400000 <= pe_vaddr e ∧ pe_vaddr e + msize e <= 0xc0000000;
  so_sizes : 0 <= fsize e <= msize e;
  so_file : 0 <= data_offset e ∧ data_offset e + fsize e <= dev_size file;
}.
(** What it holds: the bytes of the file, and zeros behind them. *)
Definition segment_byte (e : program_entry) (v : Z) : Z :=
  if decide (pe_vaddr e <= v < pe_vaddr e + fsize e) then dev_byte file (data_offset e + (v - pe_vaddr e)) else 0.

Lemma segment_flags_ok e : 0 <= segment_flags e < 4096 ∧ Z.testbit (segment_flags e) 0 = true.
Proof using Type. unfold segment_flags. by destruct (Z.land (pe_flags e) 2 =? 0). Qed.

Lemma kfread_wp s A lo offset count c (Q : unit → kmem → Prop) :
  pg_wf (km_pg s) → placed (km_pg s) A → covered A lo (lo + count) → 0 <= lo → 0 <= count → lo + count <= 2 ^ 32 →
  dev_ok file → 0 <= offset → offset + count <= dev_size file → bytes_are (km_pg s) A c →
  (∀ p, data_step (km_pg s) p (frame_in A) → placed p A →
     bytes_are p A (λ v, if decide (lo <= v < lo + count) then dev_byte file (offset + (v - lo)) else c v) → Q tt (put p s)) →
  wp (kfread file lo offset count) Q s.
Proof using Type.
  intros Hwf HA Hcov Hlo Hn Hmax Hd Ho Hs Hc HQ. unfold kfread, fread. destruct (Z.eqb_spec count 0) as [->|Hnz].
  - wp. replace s with (put (km_pg s) s) by (by destruct s). apply HQ; [by apply data_step_refl|done|].
    eapply bytes_are_ext; [|done]. intros v. cbn beta. by rewrite decide_False by lia.
  - rewrite dev_read_spec by (done || lia). unfold kwrite_bytes. rewrite length_fmap, length_seqZ, Z2Nat.id by lia.
    assert (∀ i, 0 <= i < count → nth (Z.to_nat i) ((λ k, dev_byte file (offset + k)) <$> seqZ 0 count) 0 = dev_byte file (offset + i)) as Hnth.
    { intros i Hi. apply nth_lookup_Some. rewrite list_lookup_fmap, lookup_seqZ_lt by lia. cbn. do 2 f_equal. lia. }
    apply (kfill_wp s A lo count _ c); try done.
    + intros i Hi. rewrite Hnth by done. by apply dev_byte_u8.
    + intros p Hst Hpl Hb. apply HQ; [done|done|]. eapply bytes_are_ext; [|exact Hb]. intros v. cbn beta.
      case_decide as Hv; [|done]. apply Hnth. lia.
Qed.

(** [A'] has the pages of [e] in addition. *)
Definition extends (A A' : page_map) (e : program_entry) (k : Z) : Prop :=
  (∀ n x, A !! n = Some x → A' !! n = Some x) ∧
  (∀ n, pe_vaddr e / 4096 <= n < pe_vaddr e / 4096 + k → ∃ f, A' !! n = Some (f, segment_flags e)) ∧
  (∀ n, A !! n = None → ¬ (pe_vaddr e / 4096 <= n < pe_vaddr e / 4096 + k) → A' !! n = None).

Lemma load_segment_static_wp ks s0 A c e m (Q : unit → kmem → Prop) :
  dev_ok file → segment_ok e → loaded e → (∀ n, seg_page e n → A !! n = None) → loading s0 A c (km_pg ks) →
  avail (pg_pm (km_pg ks)) (2 * Z.to_nat (seg_pages e) + m) →
  (∀ A' c' p, loading s0 A' c' p → avail (pg_pm p) m → extends A A' e (seg_pages e) →
     (∀ v, c' v = if decide (seg_page e (v / 4096)) then segment_byte e v else c v) → Q tt (put p ks)) →
  wp (load_segment_static file e) Q ks.
Proof using Type.
  intros Hd [Hal [Hu1 Hu2] Hsz [Hf1 Hf2]] Hl HA Hload Hav HQ. unfold load_segment_static. rewrite Hl. cbn [negb Z.eqb Pos.eqb PROG_ENT_LOAD].
  set (b := pe_vaddr e / 4096). assert (pe_vaddr e = b * 4096) as Hb by (subst b; Z.to_euclidean_division_equations; lia).
  destruct (segment_flags_ok e) as [Hfl Hfl0]. set (cnt := seg_pages e) in *.
  assert (u32 (msize e + PAGE_SIZE_BYTES - 1) / PAGE_SIZE_BYTES = cnt) as ->.
  { unfold PAGE_SIZE_BYTES. rewrite u32_id by (unfold is_u32; lia). subst cnt. unfold seg_pages. f_equal. lia. }
  assert (0 <= cnt ∧ b + cnt <= 0xc0000 ∧ 0x400 <= b ∧ msize e <= cnt * 4096) as (Hc0 & Hc1 & Hb0 & Hms)
    by (subst cnt; unfold seg_pages; Z.to_euclidean_division_equations; lia).
  rewrite wp_bind.
  apply (wp_for_all (λ i s', ∃ A' c' p, s' = put p ks ∧ loading s0 A' c' p ∧ extends A A' e i ∧
    avail (pg_pm p) (2 * Z.to_nat (cnt - i) + m) ∧ ∀ v, c' v = if decide (b <= v / 4096 < b + i) then 0 else c v)); [done| | |].
  - exists A, c, (km_pg ks). split_and!; [by destruct ks|done| |by rewrite Z.sub_0_r|].
    + split_and!; [done|lia|done].
    + intros v. by rewrite decide_False by lia.
  - intros i ? Hi (A' & c' & p & -> & Hload' & (Hold & Hnew & Hno) & Hav' & Hc').
    rewrite Hb, u32_id by (unfold is_u32, PAGE_SIZE_BYTES; lia). replace (b * 4096 + i * PAGE_SIZE_BYTES) with ((b + i) * 4096) by (unfold PAGE_SIZE_BYTES; lia).
    assert (A' !! (b + i) = None) as HbA by (apply Hno; [apply HA; unfold seg_page; fold b cnt; lia|fold b; lia]).
    apply (load_page_wp _ s0 A' c' _ _ (2 * Z.to_nat (cnt - (i + 1)) + m)); [done|lia|done|done|done| |].
    { eapply avail_le; [|done]. lia. }
    intros f c2 p2 Hl2 Hav2 Hc2. exists (<[b + i := (f, segment_flags e)]> A'), c2, p2. split_and!; [by destruct ks|done| |done|].
    + split_and!.
      * intros n x Hx. rewrite lookup_insert_ne by (intros <-; rewrite (Hold _ _ Hx) in HbA; done). by apply Hold.
      * fold b. intros n Hn. destruct (decide (n = b + i)) as [->|Hne]; [exists f; apply lookup_insert_eq|].
        rewrite lookup_insert_ne by done. apply Hnew. fold b. lia.
      * fold b. intros n Hx Hn. rewrite lookup_insert_ne by lia. apply Hno; [done|fold b; lia].
    + intros v. rewrite Hc2, Hc'. repeat case_decide; done || lia.
  - intros ? (A' & c' & p & -> & Hload' & (Hold & Hnew & Hno) & Hav' & Hc').
    assert (covered A' (pe_vaddr e) (pe_vaddr e + fsize e)) as Hcov.
    { intros v Hv. destruct (Hnew (v / 4096)) as [f Hf]; [fold b; Z.to_euclidean_division_equations; lia|]. by exists (f, segment_flags e). }
    apply (kfread_wp _ A' _ _ _ c'); try done; try lia; [apply Hload'|apply Hload'|apply Hload'|].
    intros p2 Hst Hpl Hby. replace (put p2 (put p ks)) with (put p2 ks) by (by destruct ks).
    apply (HQ A' (λ v, if decide (seg_page e (v / 4096)) then segment_byte e v else c v)).
    + apply (loading_write s0 _ c' _ p); [done|done|]. eapply bytes_are_ext; [|exact Hby]. intros v. cbn beta.
      rewrite Hc'. unfold seg_page, segment_byte. fold b cnt. destruct (decide (pe_vaddr e <= v < pe_vaddr e + fsize e)) as [Hv|Hv].
      * rewrite decide_True by (Z.to_euclidean_division_equations; lia). done.
      * done.
    + rewrite (ds_pm _ _ _ Hst). eapply avail_le; [|done]. lia.
    + by split_and!.
    + done.
Qed.
End segments.

(** ** Programs *)

(** The byte at a virtual address, by the hardware walk. *)
Definition vbyte (s : paging) (v : Z) : Z :=
  match walk s (v - v mod 4) with
  | Some p => u8 (Z.shiftr (phys s !0 p) (8 * (v mod 4)))
  | None => 0
  end.

Lemma vbyte_on_frame s n f fl o : pg_wf s → on_frame s n f fl → 0 <= o < 4096 → vbyte s (n * 4096 + o) = fbyte s f o.
Proof.
  intros Hwf Hn Ho. unfold vbyte. destruct (align_in_page n o Ho) as [-> ->].
  rewrite (on_frame_walk s n f fl); [done|done|done|]. Z.to_euclidean_division_equations; lia.
Qed.

(** What the pages of a map hold at the start. *)
Definition page_bytes (s : paging) (A : page_map) (v : Z) : Z :=
  match A !! (v / 4096) with Some (f, _) => fbyte s f (v mod 4096) | None => 0 end.
Lemma page_bytes_are s A : bytes_are s A (page_bytes s A).
Proof.
  intros n f fl o Hn Ho. unfold page_bytes. assert ((n * 4096 + o) / 4096 = n) as -> by (Z.to_euclidean_division_equations; lia).
  rewrite Hn. f_equal. Z.to_euclidean_division_equations; lia.
Qed.

Section programs.
Context {D : Type} `{BlockDev D}.
Variable file : D.

Definition table_pages (es : list program_entry) : Z := (ENTRY_SIZE * Z.of_nat (length es) + 4095) / 4096.
Definition frames_needed (es : list program_entry) : nat :=
  foldr (λ e n, if pe_type e =? PROG_ENT_LOAD then (2 * Z.to_nat (seg_pages e) + n)%nat else n) 0%nat es.

(** An executable file: its header, its program headers, and segments on different pages. *)
Record program_file (h : elf_header) (es : list program_entry) : Prop := {
  pf_dev : dev_ok file;
  pf_header : header_at (dev_byte file) 0 = h ∧ HEADER_SIZE <= dev_size file;
  pf_magic : magic h = ELF_SIG ∧ elf_type h ≠ ELF_TYPE_CORE ∧ endianness h ≠ 2 ∧ bits h = ELF_BITS_32;
  pf_count : program_entry_count h = Z.of_nat (length es) ∧ program_entry_size h = ENTRY_SIZE ∧ Z.of_nat (length es) < 2 ^ 16;
  pf_table : 0 <= program_header_offset h ∧ program_header_offset h + ENTRY_SIZE * Z.of_nat (length es) <= dev_size file;
  pf_entries i e : es !! i = Some e → entry_at (dev_byte file) (program_header_offset h + ENTRY_SIZE * Z.of_nat i) = e;
  pf_segments i e : es !! i = Some e → loaded e → segment_ok file e;
  pf_apart i j e e' n : es !! i = Some e → es !! j = Some e' → loaded e → loaded e' → seg_page e n → seg_page e' n → i = j;
  pf_entry : ∃ i e, es !! i = Some e ∧ loaded e ∧
    pe_vaddr e <= entry_offset h ∧ entry_offset h + 4 <= pe_vaddr e + 4096 * seg_pages e;
}.

(** The two blocks of the heap that [kmalloc] hands out for the headers, mapped in the
    kernel half. *)
Record header_blocks (km : kmem) (es : list program_entry) (M : page_map) (a b : Z) (h1 h2 : heap) : Prop := {
  hb_heap : heap_base (km_heap km) ≠ 0 ∧ heap_base h1 ≠ 0;
  hb_first : heap_alloc 1 (km_heap km) = Ok (a, h1);
  hb_second : heap_alloc (table_pages es) h1 = Ok (b, h2);
  hb_wf : pg_wf (km_pg km) ∧ placed (km_pg km) M;
  hb_kernel n : is_Some (M !! n) → 0xc0000 <= n;
  hb_range : 0 <= a ∧ a + 4096 <= 2 ^ 32 ∧ 0 <= b ∧ b + table_pages es * 4096 <= 2 ^ 32;
  hb_covered : covered M a (a + 4096) ∧ covered M b (b + table_pages es * 4096);
  hb_apart : a + 4096 <= b ∨ b + table_pages es * 4096 <= a;
}.

Lemma kmalloc_heap n (km : kmem) a h1 (Q : Z → kmem → Prop) :
  heap_base (km_heap km) ≠ 0 → heap_alloc n (km_heap km) = Ok (a, h1) → Q a (KMem (km_pg km) h1 (page_lock km)) → wp (kmalloc n) Q km.
Proof using Type.
  clear. intros Hb Ha HQ. unfold kmalloc. wp. rewrite (proj2 (Z.eqb_neq _ 0) Hb). cbn [negb]. wp. apply wp_ok.
  exists a, h1. split; [exact Ha|]. by destruct km.
Qed.

(** Headers that are read back from memory. *)
Lemma nth_bytes c lo len i : 0 <= i < len → nth (Z.to_nat i) ((λ i, c (lo + i)) <$> seqZ 0 len) 0 = c (lo + i) :> Z.
Proof using Type.
  clear. intros Hi. apply nth_lookup_Some. rewrite list_lookup_fmap, lookup_seqZ_lt by lia. cbn. do 2 f_equal. lia.
Qed.
Lemma kheader_wp s A p h c (Q : elf_header → kmem → Prop) :
  pg_wf (km_pg s) → placed (km_pg s) A → covered A p (p + HEADER_SIZE) → 0 <= p → p + HEADER_SIZE <= 2 ^ 32 → bytes_are (km_pg s) A c →
  (∀ i, 0 <= i < HEADER_SIZE → c (p + i) = dev_byte file i) → header_at (dev_byte file) 0 = h → Q h s → wp (kheader p) Q s.
Proof using Type.
  intros Hwf HA Hcov Hp Hmax Hb Hc <- HQ. unfold kheader. rewrite wp_bind. apply (kread_bytes_wp s A _ _ c); try done. wp.
  rewrite (header_at_ext _ (dev_byte file)); [done|]. intros k Hk. rewrite nth_bytes by lia. by apply Hc.
Qed.
Lemma kentry_wp s A p off e c (Q : program_entry → kmem → Prop) :
  pg_wf (km_pg s) → placed (km_pg s) A → covered A p (p + ENTRY_SIZE) → 0 <= p → p + ENTRY_SIZE <= 2 ^ 32 → bytes_are (km_pg s) A c →
  (∀ i, 0 <= i < ENTRY_SIZE → c (p + i) = dev_byte file (off + i)) → entry_at (dev_byte file) off = e → Q e s → wp (kentry p) Q s.
Proof using Type.
  intros Hwf HA Hcov Hp Hmax Hb Hc <- HQ. unfold kentry. rewrite wp_bind. apply (kread_bytes_wp s A _ _ c); try done. wp.
  assert (entry_at (λ k, nth (Z.to_nat k) ((λ i, c (p + i)) <$> seqZ 0 ENTRY_SIZE) 0) 0 = entry_at (dev_byte file) off) as ->; [|done].
  unfold entry_at, word_at. unfold ENTRY_SIZE in *. rewrite !nth_bytes by lia. rewrite !Hc by lia.
  rewrite !Z.add_0_r. repeat (f_equal; try lia).
Qed.

(** The first [i] segments are in the pages [A], which hold [c]. *)
Record image_loaded (es : list program_entry) (i : nat) (A : page_map) (c : Z → Z) : Prop := {
  il_pages j e n : es !! j = Some e → (j < i)%nat → loaded e → seg_page e n → ∃ f, A !! n = Some (f, segment_flags e);
  il_none n : (∀ j e, es !! j = Some e → (j < i)%nat → loaded e → ¬ seg_page e n) → A !! n = None;
  il_bytes j e v : es !! j = Some e → (j < i)%nat → loaded e → seg_page e (v / 4096) → c v = segment_byte file e v;
}.

Lemma image_step h es i e A c A' c' :
  program_file h es → es !! i = Some e → loaded e → image_loaded es i A c → extends A A' e (seg_pages e) →
  (∀ v, c' v = if decide (seg_page e (v / 4096)) then segment_byte file e v else c v) → image_loaded es (S i) A' c'.
Proof using Type.
  intros Hpf He Hty [Hpg Hno Hby] (Hold & Hnew & Hnone) Hc'.
  assert (∀ j e', es !! j = Some e' → (j < S i)%nat → (j < i)%nat ∨ e' = e) as Hcase.
  { intros j e' Hj Hlt. destruct (decide (j = i)) as [->|]; [right; congruence|left; lia]. }
  split.
  - intros j e' n Hj Hlt Hle Hn. destruct (Hcase j e' Hj Hlt) as [Hji| ->]; [|by apply Hnew].
    destruct (Hpg j e' n) as [f Hf]; [done..|]. exists f. by apply Hold.
  - intros n Hn. apply Hnone; [apply Hno; intros j e' Hj Hlt; apply (Hn j e'); [done|lia]|apply (Hn i e); [done|lia|done]].
  - intros j e' v Hj Hlt Hle Hn. rewrite Hc'. destruct (Hcase j e' Hj Hlt) as [Hji| ->]; [|by rewrite decide_True].
    rewrite decide_False; [by apply (Hby j)|]. intros Hn'. pose proof (pf_apart _ _ Hpf j i e' e _ Hj He Hle Hty Hn Hn'). lia.
Qed.
Lemma image_skip es i e A c : es !! i = Some e → ¬ loaded e → image_loaded es i A c → image_loaded es (S i) A c.
Proof using Type.
  intros He Hty [Hpg Hno Hby].
  assert (∀ j e', es !! j = Some e' → (j < S i)%nat → loaded e' → (j < i)%nat) as Hlt.
  { intros j e' Hj Hlt Hle. destruct (decide (j = i)) as [->|]; [|lia]. by assert (e' = e) as -> by congruence. }
  split.
  - intros j e' n Hj Hji Hle. apply (Hpg j e' n); [done|by eapply Hlt|done].
  - intros n Hn. apply Hno. intros j e' Hj Hji. apply (Hn j e'); [done|lia].
  - intros j e' v Hj Hji Hle. apply (Hby j e' v); [done|by eapply Hlt|done].
Qed.

(** Pages of the kernel half are left alone. *)
Lemma kernel_kept s0 A c p M cM :
  loading s0 A c p → placed s0 M → (∀ n, is_Some (M !! n) → 0xc0000 <= n) → bytes_are s0 M cM → placed p M ∧ bytes_are p M cM.
Proof using Type.
  clear. intros Hl HM Hk Hb. destruct (placed_kept s0 p M) as [HM' Hw]; [done|apply Hl| |split; [done|by eapply bytes_are_kept]].
  intros n Hn. apply (lo_entry _ _ _ _ Hl).
  - destruct (id Hn) as [[f fl] Hx]. by apply (pl_on _ _ HM n f fl).
  - destruct (A !! n) as [[f fl]|] eqn:Hx; [|done]. destruct (lo_user _ _ _ _ Hl n f fl Hx) as [? _]. pose proof (Hk n Hn). lia.
Qed.

Lemma load_segments_wp h es ks M cM b m (Q : unit → kmem → Prop) :
  program_file h es → pg_wf (km_pg ks) → placed (km_pg ks) M → (∀ n, is_Some (M !! n) → 0xc0000 <= n) →
  covered M b (b + ENTRY_SIZE * Z.of_nat (length es)) → 0 <= b → b + ENTRY_SIZE * Z.of_nat (length es) <= 2 ^ 32 → bytes_are (km_pg ks) M cM →
  (∀ i, 0 <= i < ENTRY_SIZE * Z.of_nat (length es) → cM (b + i) = dev_byte file (program_header_offset h + i)) →
  avail (pg_pm (km_pg ks)) (frames_needed es + m) →
  (∀ A c p, loading (km_pg ks) A c p → avail (pg_pm p) m → image_loaded es (length es) A c → Q tt (put p ks)) →
  wp (for_all 0 (Z.of_nat (length es)) (λ i, e ← kentry (u32 (b + ENTRY_SIZE * i)); load_segment_static file e)) Q ks.
Proof using Type.
  intros Hpf Hwf HM Hker Hcov Hb Hmax HcM Htab Hav HQ. unfold ENTRY_SIZE in *.
  apply (wp_for_all (λ i s', ∃ A c p, s' = put p ks ∧ loading (km_pg ks) A c p ∧ image_loaded es (Z.to_nat i) A c ∧
    avail (pg_pm p) (frames_needed (drop (Z.to_nat i) es) + m))); [lia| | |].
  - exists ∅, (λ _, 0), (km_pg ks). split_and!; [by destruct ks|by apply loading_start| |done].
    split; [lia|intros n _; apply lookup_empty|lia].
  - intros i ? Hi (A & c & p & -> & Hl & Himg & Hav'). destruct (lookup_lt_is_Some_2 es (Z.to_nat i)) as [e He]; [lia|].
    destruct (kernel_kept _ _ _ _ M cM Hl HM Hker HcM) as [HM' HcM']. rewrite wp_bind, u32_id by (unfold is_u32; lia).
    apply (kentry_wp _ M _ (program_header_offset h + 32 * i) e cM); unfold ENTRY_SIZE; cbn [km_pg put kmem_paging]; try done; try lia.
    { apply Hl. }
    { intros v Hv. apply Hcov. lia. }
    { intros k Hk. rewrite <- !Z.add_assoc. apply Htab. lia. }
    { rewrite <- (pf_entries _ _ Hpf _ _ He). unfold ENTRY_SIZE. do 2 f_equal. lia. }
    rewrite (drop_S _ _ _ He) in Hav'. cbn [frames_needed foldr] in Hav'. replace (Z.to_nat (i + 1)) with (S (Z.to_nat i)) by lia.
    destruct (Z.eqb_spec (pe_type e) PROG_ENT_LOAD) as [Hty|Hty].
    + assert (∀ n, seg_page e n → A !! n = None) as Hfree.
      { intros n Hn. apply (il_none _ _ _ _ Himg). intros j e' Hj Hlt Hle Hn'.
        pose proof (pf_apart _ _ Hpf j (Z.to_nat i) e' e n Hj He Hle Hty Hn' Hn). lia. }
      apply (load_segment_static_wp file _ (km_pg ks) A c e (frames_needed (drop (S (Z.to_nat i)) es) + m));
        [apply Hpf|by apply (pf_segments _ _ Hpf _ _ He)|done|done|done|by rewrite Nat.add_assoc|].
      intros A' c' p' Hl' Hav2 Hext Hc'. exists A', c', p'. split_and!; [by destruct ks|done| |done]. by apply (image_step h es _ e A c).
    + unfold load_segment_static. rewrite (proj2 (Z.eqb_neq _ _) Hty). cbn [negb]. wp. exists A, c, p.
      split_and!; [done..| |done]. by apply (image_skip es _ e).
  - intros ? (A & c & p & -> & Hl & Himg & Hav'). rewrite Nat2Z.id in Himg, Hav'. rewrite drop_all in Hav'. by apply (HQ A c).
Qed.
End programs.

(** ** Loading a program, proved *)

Section load_proof.
Context {D : Type} `{BlockDev D}.
Variable file : D.

Lemma is_program h : magic h = ELF_SIG ∧ elf_type h ≠ ELF_TYPE_CORE ∧ endianness h ≠ 2 ∧ bits h = ELF_BITS_32 →
  negb (magic h =? ELF_SIG) || (elf_type h =? ELF_TYPE_CORE) = false ∧ (endianness h =? 2) = false ∧ negb (bits h =? ELF_BITS_32) = false.
Proof using Type.
  clear. intros (-> & Ht & He & ->). by rewrite (proj2 (Z.eqb_neq _ _) Ht), (proj2 (Z.eqb_neq _ _) He).
Qed.

Lemma load_elf_wp h es km M a b h1 h2 m (Q : Z → kmem → Prop) :
  program_file file h es → header_blocks km es M a b h1 h2 → avail (pg_pm (km_pg km)) (frames_needed es + m) →
  (∀ s0 A c km', data_step (km_pg km) s0 (frame_in M) → loading s0 A c (km_pg km') → image_loaded file es (length es) A c →
     avail (pg_pm (km_pg km')) m → Q (entry_offset h) km') →
  wp (load_elf file) Q km.
Proof using Type.
  intros Hpf [[Hh0 Hh1] Ha Hb [Hwf HM] Hker (Ha0 & Ha1 & Hb0 & Hb1) [Hca Hcb] Hap] Hav HQ.
  pose proof Hpf as [Hd [Hhd Hhs] Hmg (Hcnt & Hsz & Hlen) [Ht0 Ht1] _ _ _ (ie & e & Hie & Hle & He1 & He2)].
  destruct (is_program h Hmg) as (G1 & G2 & G3). unfold load_elf.
  assert (0 <= ENTRY_SIZE * Z.of_nat (length es) <= table_pages es * 4096 ∧ 0 <= table_pages es) as [Htp Htp0]
    by (unfold table_pages, ENTRY_SIZE; Z.to_euclidean_division_equations; lia).
  assert (covered M a (a + HEADER_SIZE)) as Hca' by (intros v Hv; apply Hca; unfold HEADER_SIZE in Hv; lia).
  assert (covered M b (b + ENTRY_SIZE * Z.of_nat (length es))) as Hcb' by (intros v Hv; apply Hcb; lia).
  rewrite wp_bind. apply (kmalloc_heap 1 km a h1); [done..|]. rewrite wp_bind.
  apply (kfread_wp file _ M _ _ _ (page_bytes (km_pg km) M)); cbn [km_pg]; unfold HEADER_SIZE in *; try done; try lia; [apply page_bytes_are|].
  intros p1 Hst1 HM1 Hb1'. rewrite wp_bind.
  apply (kheader_wp file _ M a h _) with (2 := HM1) (6 := Hb1'); try done; unfold HEADER_SIZE; try lia; [apply Hst1|..].
  { intros i Hi. rewrite decide_True by lia. f_equal. lia. }
  rewrite G1, G2, G3. cbn iota. rewrite wp_bind, Hcnt, Hsz.
  replace (Z.of_nat (length es) * ENTRY_SIZE) with (ENTRY_SIZE * Z.of_nat (length es)) by lia.
  rewrite (u32_id (ENTRY_SIZE * _)) by (unfold is_u32, ENTRY_SIZE; lia).
  assert (u32 (ENTRY_SIZE * Z.of_nat (length es) + PAGE_SIZE_BYTES - 1) / PAGE_SIZE_BYTES = table_pages es) as ->.
  { unfold PAGE_SIZE_BYTES, table_pages, ENTRY_SIZE. rewrite u32_id by (unfold is_u32; lia). f_equal. lia. }
  apply (kmalloc_heap _ _ b h2); [done..|]. rewrite wp_bind.
  apply (kfread_wp file _ M _ _ _ _) with (10 := Hb1'); cbn [km_pg put kmem_paging page_lock km_heap]; try done; try lia; [apply Hst1|].
  intros p2 Hst2 HM2 Hb2. change (put p2 _) with (KMem p2 h2 (page_lock km)). set (ks := KMem p2 h2 (page_lock km)). set (c2 := λ v : Z, if decide (b <= v < b + _) then _ else _) in Hb2.
  assert (data_step (km_pg km) p2 (frame_in M)) as Hst by (by eapply data_step_trans).
  rewrite wp_bind. apply (load_segments_wp file h es ks M c2 b m); try done; try lia; [apply Hst2| |..].
  { intros i Hi. unfold c2. rewrite decide_True by lia. f_equal. lia. }
  { change (pg_pm (km_pg ks)) with (pg_pm p2). by rewrite (ds_pm _ _ _ Hst). }
  intros A c p Hl Hav' Himg. change (km_pg ks) with p2 in Hl. destruct (kernel_kept p2 A c p M c2 Hl HM2 Hker Hb2) as [HM3 Hb3].
  rewrite wp_bind. apply (kheader_wp file _ M a h c2); try done; unfold HEADER_SIZE; try lia; [apply Hl| |].
  { intros i Hi. unfold c2. rewrite decide_False by (clear - Hi Hap Htp; lia). rewrite decide_True by lia. f_equal. lia. }
  assert (segment_ok file e) as [Hal [Hu1 Hu2] [Hf0 Hf1] _] by (by eapply pf_segments).
  rewrite wp_bind. apply (kread_bytes_wp _ A _ _ c); try done; try apply Hl.
  - intros v Hv. destruct (il_pages _ _ _ _ _ Himg ie e (v / 4096)) as [f Hf]; [done|by eapply lookup_lt_Some|done| |by exists (f, segment_flags e)].
    unfold seg_page. clear - Hal He1 He2 Hv. Z.to_euclidean_division_equations; lia.
  - lia.
  - unfold seg_pages in He2. clear - He2 Hu2. Z.to_euclidean_division_equations; lia.
  - wp. by apply (HQ p2 A c).
Qed.
End load_proof.

(** What the flags of a page mean for user code. *)
Lemma entry_bit f fl b : 0 <= b < 12 → Z.testbit (Z.lor (f * PAGE_SIZE_BYTES) fl) b = Z.testbit fl b.
Proof. intros Hb. rewrite Z.lor_spec, testbit_page_low by (done || by apply Z.mod_mul). done. Qed.
Lemma user_bit fl x i : Z.land (user_flags fl) x = user_flags fl → Z.testbit (user_flags fl) i = true → Z.testbit x i = true.
Proof. intros Hx Hi. rewrite <- Hx, Z.land_spec in Hi. by apply andb_prop in Hi as [_ ?]. Qed.

(** What the flags of a segment mean for user code. *)
Lemma segment_rights e x f :
  Z.land (user_flags (segment_flags e)) x = user_flags (segment_flags e) →
  Z.testbit (Z.lor (f * PAGE_SIZE_BYTES) (segment_flags e)) 0 = true ∧ Z.testbit x 2 && Z.testbit (Z.lor (f * PAGE_SIZE_BYTES) (segment_flags e)) 2 = true ∧
  Z.testbit x 1 && Z.testbit (Z.lor (f * PAGE_SIZE_BYTES) (segment_flags e)) 1 = Z.testbit (pe_flags e) 1.
Proof.
  intros Hx. assert ((Z.land (pe_flags e) 2 =? 0) = negb (Z.testbit (pe_flags e) 1)) as Hw.
  { change 2 with (Z.shiftl 1 1). destruct (Z.testbit (pe_flags e) 1) eqn:E; cbn [negb].
    - apply Z.eqb_neq. intros H0. apply (f_equal (λ z, Z.testbit z 1)) in H0. rewrite Z.land_spec, E in H0. done.
    - apply Z.eqb_eq, Z.bits_inj'. intros i Hi. rewrite Z.land_spec, testbit_shift1, Z.bits_0 by done.
      case_bool_decide as Hd; [subst; by rewrite E|by rewrite andb_false_r]. }
  rewrite !entry_bit by lia. unfold segment_flags in *. rewrite Hw in *. pose proof (λ i, user_bit _ x i Hx) as Hbit.
  destruct (Z.testbit (pe_flags e) 1); cbn [negb] in *; rewrite (Hbit 2) by done; (split; [done|split; [done|]]).
  - by rewrite (Hbit 1).
  - apply andb_false_r.
Qed.


(** ** Entering a program, proved *)

Section enter.
Context {D : Type} `{BlockDev D}.
Variable file : D.

(** Page [top - i] for [i] below [k]. *)
Definition stack_page (top k n : Z) : Prop := top - k < n <= top.

Lemma map_stack_wp ks s0 A c top pages fl m (Q : unit → kmem → Prop) :
  loading s0 A c (km_pg ks) → 0 <= pages → 0x400 <= top / 4096 - pages + 1 → top / 4096 < 0xc0000 →
  (∀ n, stack_page (top / 4096) pages n → A !! n = None) → 0 <= fl < 4096 → Z.testbit fl 0 = true →
  avail (pg_pm (km_pg ks)) (2 * Z.to_nat pages + m) →
  (∀ A' c' p, loading s0 A' c' p → avail (pg_pm p) m →
     (∀ n, ¬ stack_page (top / 4096) pages n → A' !! n = A !! n) →
     (∀ n, stack_page (top / 4096) pages n → ∃ f, A' !! n = Some (f, fl)) →
     (∀ v, is_Some (A !! (v / 4096)) → c' v = c v) → Q tt (put p ks)) →
  wp (map_stack top pages fl) Q ks.
Proof using Type.
  clear. intros Hl Hp Hlo Hhi HA Hfl Hfl0 Hav HQ. unfold map_stack. set (t := top / 4096) in *.
  apply (wp_for_all (λ i s', ∃ A' c' p, s' = put p ks ∧ loading s0 A' c' p ∧ avail (pg_pm p) (2 * Z.to_nat (pages - i) + m) ∧
    (∀ n, ¬ stack_page t i n → A' !! n = A !! n) ∧ (∀ n, stack_page t i n → ∃ f, A' !! n = Some (f, fl)) ∧
    ∀ v, is_Some (A !! (v / 4096)) → c' v = c v)); [done| | |].
  - exists A, c, (km_pg ks). split_and!; [by destruct ks|done|by rewrite Z.sub_0_r|done|unfold stack_page; lia|done].
  - intros i ? Hi (A' & c' & p & -> & Hl' & Hav' & Hold & Hnew & Hc'). wp. cbn [view put kmem_paging km_pg paging_pmem].
    apply (pm_alloc_avail_wp _ (S (2 * Z.to_nat (pages - (i + 1)) + m))); [apply Hl'|eapply avail_le; [|exact Hav']; lia|].
    intros f pm' Hf Hfu Hpm Hav2 Hus. wp. cbn [view put kmem_paging km_pg paging_pmem km_heap page_lock].
    assert (u32 (top - i * PAGE_SIZE_BYTES) / 4096 = t - i) as Hdiv.
    { unfold PAGE_SIZE_BYTES. rewrite u32_id by (unfold is_u32; subst t; Z.to_euclidean_division_equations; lia).
      subst t. Z.to_euclidean_division_equations; lia. }
    assert (0x400 <= t - i < 0xc0000) as Hrange by lia.
    apply (map_wp _ _ _ _ (2 * Z.to_nat (pages - (i + 1)) + m)); rewrite ?Hdiv;
      [by apply (pg_wf_take _ pm' f); [apply Hl'|done..]|Z.to_euclidean_division_equations; lia|done|].
    intros p' Hwf' _ He' Hpde Hk' Hav''.
    assert (A' !! (t - i) = None) as Hnone.
    { rewrite Hold by (unfold stack_page; lia). apply HA. unfold stack_page. lia. }
    destruct (loading_map s0 A' c' p f (t - i) fl p' pm') as (c2 & Hl2 & Hc2); [done..| |done|].
    { apply Hpde. revert Hdiv Hrange. generalize (u32 (top - i * PAGE_SIZE_BYTES)) (t - i). clear. intros x y Hxy Hy.
      Z.to_euclidean_division_equations; lia. }
    exists (<[t - i := (f, fl)]> A'), c2, p'. split_and!; [by destruct ks|done|done| | |].
    + intros n Hn. unfold stack_page in *. rewrite lookup_insert_ne by lia. apply Hold. lia.
    + intros n Hn. destruct (decide (n = t - i)) as [->|]; [exists f; apply lookup_insert_eq|]. rewrite lookup_insert_ne by done.
      apply Hnew. unfold stack_page in *. lia.
    + intros v Hv. rewrite Hc2; [by apply Hc'|]. intros E. rewrite E in Hv.
      rewrite HA in Hv; [by destruct Hv|unfold stack_page; lia].
  - intros ? (A' & c' & p & -> & Hl' & Hav' & Hold & Hnew & Hc'). apply (HQ A' c' p); try done.
    eapply avail_le; [|exact Hav']. lia.
Qed.
End enter.

(** ** Properties *)

(** The new pages of a program: those of its segments, and those in [R]. *)
Definition new_page (es : list program_entry) (R : Z → Prop) (n : Z) : Prop :=
  (∃ e, e ∈ es ∧ loaded e ∧ seg_page e n) ∨ R n.

(** Each of the pages in [P] has a frame of its own: by the hardware walk its bytes are those
    of a frame that was free before and is in use now, which is not a table of the paging
    unit, and which no other of the pages has. *)
Definition own_frames (P : Z → Prop) (s0 s : paging) : Prop :=
  ∃ frame : Z → Z,
    (∀ n, P n → 0 <= frame n < frames ∧ used (pg_pm s0) (frame n) = false ∧ used (pg_pm s) (frame n) = true ∧
       data_frame s (frame n) ∧ ∀ o, 0 <= o < 4096 → walk s (n * 4096 + o) = Some (frame n * PAGE_SIZE_BYTES + o)) ∧
    (∀ n n', P n → P n' → frame n = frame n' → n = n').

(** What a program finds: the segments [es] with their contents and rights, all its pages on
    frames of their own, and nothing else new but the pages in [R]. *)
Record program_ready {D} `{BlockDev D} (file : D) (es : list program_entry) (R : Z → Prop) (s0 s : paging) : Prop := {
  pr_wf : pg_wf s;
  pr_bytes e v : e ∈ es → loaded e → seg_page e (v / 4096) → vbyte s v = segment_byte file e v;
  pr_rights e v : e ∈ es → loaded e → seg_page e (v / 4096) →
    user_access s v = true ∧ user_write s v = Z.testbit (pe_flags e) 1;
  pr_frames : own_frames (new_page es R) s0 s;
  pr_other n : 0 < n / 1024 < 1023 → ¬ new_page es R n → entry s n = entry s0 n;
}.

Lemma loading_page s0 A c p n f fl v :
  loading s0 A c p → A !! n = Some (f, fl) → n = v / 4096 → vbyte p v = c v ∧
  entry p n = Z.lor (f * PAGE_SIZE_BYTES) fl ∧ Z.land (user_flags fl) (pde p (n / 1024)) = user_flags fl.
Proof.
  intros Hl Hf ->. pose proof (pl_on _ _ (lo_placed _ _ _ _ Hl) _ _ _ Hf) as Hon. destruct (lo_user _ _ _ _ Hl _ _ _ Hf) as [_ Huf].
  destruct (page_byte v) as (n & o & Hno & Ho & Hn & _). split.
  - rewrite Hno. rewrite <- Hn in Hf, Hon. rewrite (vbyte_on_frame _ n f fl) by (done || apply Hl). by rewrite (lo_bytes _ _ _ _ Hl n f fl).
  - split; [apply (of_entry _ _ _ _ Hon)|done].
Qed.

Lemma loading_frames km s0 M A c p (P : Z → Prop) :
  data_step km s0 (frame_in M) → loading s0 A c p → (∀ n, P n → is_Some (A !! n)) → own_frames P km p.
Proof.
  intros Hst Hl HP. exists (λ n, default 0 (fst <$> A !! n)). split.
  - intros n Hn. destruct (HP n Hn) as [[f fl] Hf]. rewrite Hf. cbn.
    pose proof (pl_on _ _ (lo_placed _ _ _ _ Hl) _ _ _ Hf) as Hon. destruct (of_frame _ _ _ _ Hon) as (Hr & Hu & Hd).
    split_and!; try done; [apply Hr..| |].
    + rewrite <- (ds_pm _ _ _ Hst). apply (lo_new _ _ _ _ Hl). by exists n, fl.
    + intros o Ho. by apply (on_frame_walk p n f fl); [apply Hl|..].
  - intros n n' Hn Hn'. destruct (HP n Hn) as [[f fl] Hf], (HP n' Hn') as [[f' fl'] Hf']. rewrite Hf, Hf'. cbn.
    intros ->. by apply (pl_inj _ _ (lo_placed _ _ _ _ Hl) n n' f' fl fl').
Qed.

(** The rights of a page that is there. *)
Lemma loading_rights s0 A c p v f fl :
  loading s0 A c p → A !! (v / 4096) = Some (f, fl) → page_present p v = true.
Proof.
  intros Hl Hf. pose proof (pl_on _ _ (lo_placed _ _ _ _ Hl) _ _ _ Hf) as [Hs He Hp _ _].
  rewrite page_present_entry by (done || apply Hl). rewrite He, entry_bit by lia. exact Hp.
Qed.

Lemma image_ready {D} `{BlockDev D} (file : D) es km s0 M A c A' c' p (R : Z → Prop) :
  data_step km s0 (frame_in M) → image_loaded file es (length es) A c → loading s0 A' c' p →
  (∀ n x, A !! n = Some x → A' !! n = Some x) → (∀ n, A !! n = None → ¬ R n → A' !! n = None) → (∀ n, R n → is_Some (A' !! n)) →
  (∀ v, is_Some (A !! (v / 4096)) → c' v = c v) → program_ready file es R km p.
Proof.
  intros Hst Himg Hl Hold Hnone HR Hc.
  assert (∀ e v, e ∈ es → loaded e → seg_page e (v / 4096) → ∃ f, A !! (v / 4096) = Some (f, segment_flags e) ∧ c v = segment_byte file e v) as Hpage.
  { intros e v Hin Hle Hv. apply list_elem_of_lookup_1 in Hin as [j Hj]. pose proof (lookup_lt_Some _ _ _ Hj) as Hlt.
    destruct (il_pages _ _ _ _ _ Himg j e (v / 4096)) as [f Hf]; [done..|]. exists f. split; [done|]. by apply (il_bytes _ _ _ _ _ Himg j). }
  split.
  - apply Hl.
  - intros e v Hin Hle Hv. destruct (Hpage e v Hin Hle Hv) as (f & Hf & <-).
    destruct (loading_page s0 A' c' p (v / 4096) f (segment_flags e) v) as (-> & _); [done|by apply Hold|done|]. apply Hc. by eexists.
  - intros e v Hin Hle Hv. destruct (Hpage e v Hin Hle Hv) as (f & Hf & _).
    destruct (loading_page s0 A' c' p (v / 4096) f (segment_flags e) v) as (_ & He & Hu); [done|by apply Hold|done|].
    destruct (segment_rights e _ f Hu) as (_ & H2 & H1).
    unfold user_write, user_access. rewrite (loading_rights s0 A' c' p v f (segment_flags e)) by (done || by apply Hold).
    by rewrite He, H2, H1.
  - apply (loading_frames km s0 M A' c'); [done..|]. intros n [(e & Hin & Hle & Hn)|Hn]; [|by apply HR].
    destruct (Hpage e (n * 4096) Hin Hle) as (f & Hf & _); rewrite Z.div_mul in * by done; [done|]. eexists. by apply Hold.
  - intros n Hn Hno. rewrite (lo_entry _ _ _ _ Hl); [by apply (ds_entry _ _ _ Hst)|done|]. apply Hnone.
    + apply (il_none _ _ _ _ _ Himg). intros j e Hj _ Hle Hp. apply Hno. left. exists e. split_and!; [|done..]. by eapply list_elem_of_lookup_2.
    + intros Hr. apply Hno. by right.
Qed.

(** A program is loaded.  For an executable file whose segments start at pages of the user half
    and lie on different pages, with enough free frames and the two blocks for the
    headers, [load_elf] returns the entry point; every byte of every page of a segment
    is then the byte of the file, or 0 behind the part that is in the file; user code
    can reach all of them, and write to those of writable segments only; every page has a
    frame of its own, which was free; and no other page is translated differently. *)
Theorem load_elf_loads {D} `{BlockDev D} (file : D) h es km M a b h1 h2 :
  program_file file h es → header_blocks km es M a b h1 h2 → avail (pg_pm (km_pg km)) (frames_needed es) →
  ∃ km', load_elf file km = Ok (entry_offset h, km') ∧ program_ready file es (λ _, False) (km_pg km) (km_pg km').
Proof.
  intros Hpf Hhb Hav.
  assert (wp (load_elf file) (λ r km', r = entry_offset h ∧ program_ready file es (λ _, False) (km_pg km) (km_pg km')) km) as Hwp.
  2: { apply wp_ok in Hwp as (r & km' & Hrun & -> & Hr). by exists km'. }
  apply (load_elf_wp file h es km M a b h1 h2 0); [done|done|by rewrite Nat.add_0_r|].
  intros s0 A c km' Hst Hl Himg _. split; [done|]. by apply (image_ready _ _ _ s0 M A c A c); try done.
Qed.

(** C19: a program is entered.  When its segments leave room for them, the second half of [exec]
    loads the program and gives it 32 pages of stack below the entry point, which user code can
    write to, and 8 pages for system calls at the top of the user half, which are present but
    which user code cannot reach; every page of the segments and of the stacks has a frame of
    its own ([own_frames]: it was free, it is in use now, and no two of the pages share one);
    every byte of a segment is the byte of the file or 0; the process enters the program
    with these stacks, and no other page and no other process changes. *)
Theorem enter_program_ready {D} `{BlockDev D} (file : D) h es s M a b h1 h2 :
  let top := entry_offset h - 0x10000 in
  let stack n := stack_page (top / 4096) 32 n in
  let kstack n := stack_page (ESP0 / 4096) 8 n in
  program_file file h es → header_blocks (sc_km s) es M a b h1 h2 → avail (pg_pm (km_pg (sc_km s))) (frames_needed es + 80) →
  0x400000 + 32 * 4096 <= top → top / 4096 <= ESP0 / 4096 - 8 →
  (∀ e n, e ∈ es → loaded e → seg_page e n → ¬ stack n ∧ ¬ kstack n) → 0 <= current_pid s < PROCESS_COUNT →
  ∃ s', enter_program file s = Ok ((top - 4, entry_offset h), s') ∧
    let pg := km_pg (sc_km s') in
    program_ready file es (λ n, stack n ∨ kstack n) (km_pg (sc_km s)) pg ∧
    (∀ v, stack (v / 4096) → user_access pg v = true ∧ user_write pg v = true) ∧
    (∀ v, kstack (v / 4096) → is_Some (walk pg v) ∧ user_access pg v = false) ∧
    ∀ k, proc s' k = if decide (k = current_pid s) then set_esp0 ESP0 (proc s k) else proc s k.
Proof.
  intros top stack kstack Hpf Hhb Hav Htop Hapart Hroom Hpid.
  assert (stack_top (entry_offset h) = top) as Hst by (unfold stack_top, top in *; apply u32_id; unfold is_u32, ESP0 in *; Z.to_euclidean_division_equations; lia).
  assert (wp (enter_program file) (λ r s', r = (top - 4, entry_offset h) ∧ let pg := km_pg (sc_km s') in
    program_ready file es (λ n, stack n ∨ kstack n) (km_pg (sc_km s)) pg ∧
    (∀ v, stack (v / 4096) → user_access pg v = true ∧ user_write pg v = true) ∧
    (∀ v, kstack (v / 4096) → is_Some (walk pg v) ∧ user_access pg v = false) ∧
    ∀ k, proc s' k = if decide (k = current_pid s) then set_esp0 ESP0 (proc s k) else proc s k) s) as Hwp.
  2: { apply wp_ok in Hwp as (r & s' & Hrun & -> & Hpost). by exists s'. }
  assert (∀ A c n, image_loaded file es (length es) A c → stack n ∨ kstack n → A !! n = None) as Hfree.
  { intros A c n Himg Hn. apply (il_none _ _ _ _ _ Himg). intros j e Hj _ Hle Hs. apply list_elem_of_lookup_2 in Hj.
    destruct (Hroom e n Hj Hle Hs) as [? ?]. tauto. }
  unfold enter_program. wp. cbn [view sched_kmem]. apply (load_elf_wp file h es (sc_km s) M a b h1 h2 80); [done..|].
  intros s0 A c km1 Hst0 Hl0 Himg Hav0. wp. cbn [view put sched_kmem sc_km]. rewrite Hst.
  apply (map_stack_wp _ s0 A c _ _ _ 16); [done|lia|unfold ESP0 in *; Z.to_euclidean_division_equations; lia..| |done|done|done|].
  { intros n Hn. apply (Hfree A c n Himg). by left. }
  intros A1 c1 p1 Hl1 Hav1 Hold1 Hnew1 Hc1. wp. cbn [view put sched_kmem sc_km kmem_paging].
  apply (map_stack_wp _ s0 A1 c1 _ _ _ 0); [done|done|done|done| |done|done|done|].
  { intros n Hn. rewrite Hold1; [apply (Hfree A c n Himg); by right|]. unfold stack_page in *. lia. }
  intros A2 c2 p2 Hl2 _ Hold2 Hnew2 Hc2. wp. apply update_proc_wp; [done|]. wp. split.
  { f_equal. apply u32_id. unfold is_u32, ESP0 in *. Z.to_euclidean_division_equations; lia. }
  cbn [put sched_kmem sc_km set_processes kmem_paging km_pg current_pid processes].
  assert (∀ n, stack n → ¬ kstack n) as Hdis by (intros n; unfold stack, kstack, stack_page; lia).
  split_and!.
  - apply (image_ready file es _ s0 M A c A2 c2); try done.
    + intros n x Hx. rewrite Hold2, Hold1; [done|..]; intros Hn; rewrite (Hfree A c n Himg) in Hx; done || (by left) || (by right).
    + intros n Hx Hn. rewrite Hold2, Hold1; [done|..]; tauto.
    + intros n [Hn|Hn]; [|destruct (Hnew2 n Hn) as [f Hf]; by eexists].
      destruct (Hnew1 n Hn) as [f Hf]. rewrite Hold2 by (by apply Hdis). by eexists.
    + intros v Hv. rewrite Hc2, Hc1; [done|done|]. rewrite Hold1; [done|]. intros Hn. rewrite (Hfree A c _ Himg) in Hv; [by destruct Hv|by left].
  - intros v Hv. destruct (Hnew1 (v / 4096)) as [f Hf]; [done|].
    destruct (loading_page s0 A2 c2 p2 (v / 4096) f 7 v) as (_ & He & Hu); [done|rewrite Hold2; [done|by apply Hdis]|done|].
    unfold user_write, user_access.
    rewrite (loading_rights s0 A2 c2 p2 v f 7) by (done || (rewrite Hold2; [done|by apply Hdis])).
    rewrite He, !entry_bit by lia. by rewrite (user_bit _ _ 2 Hu), (user_bit _ _ 1 Hu).
  - intros v Hv. destruct (Hnew2 (v / 4096)) as [f Hf]; [done|].
    destruct (loading_page s0 A2 c2 p2 (v / 4096) f 1 v) as (_ & He & Hu); [done|done|done|]. split.
    + destruct (page_byte v) as (n & o & -> & Ho & Hn & _). rewrite <- Hn in Hf.
      pose proof (pl_on _ _ (lo_placed _ _ _ _ Hl2) _ _ _ Hf) as Hon. rewrite (on_frame_walk _ _ _ _ _ (lo_wf _ _ _ _ Hl2) Hon Ho). by eexists.
    + unfold user_access. rewrite He, entry_bit by lia. by rewrite !andb_false_r.
  - intros k. unfold proc. cbn. destruct (decide (k = current_pid s)) as [->|Hne]; [by rewrite lookup_insert_eq|by rewrite lookup_insert_ne].
Qed.

(** ** An example *)

(** A program of one segment, three bytes of code at 0x430000 with two more that are cleared. *)
Definition program_example : disk := Disk 87 (store_bytes 0
  ([0x7f; 0x45; 0x4c; 0x46; 1; 1; 1; 0; 0; 0; 0; 0; 0; 0; 0; 0; 2; 0; 3; 0; 1; 0; 0; 0;
    0; 0; 0x43; 0; 52; 0; 0; 0; 0; 0; 0; 0; 0; 0; 0; 0; 52; 0; 32; 0; 1; 0; 40; 0; 0; 0; 0; 0] ++
   [1; 0; 0; 0; 84; 0; 0; 0; 0; 0; 0x43; 0; 0; 0; 0x43; 0; 3; 0; 0; 0; 5; 0; 0; 0; 5; 0; 0; 0; 0; 16; 0; 0] ++
   [0x90; 0x90; 0xc3]) ∅).
Definition program_example_header : elf_header := ElfHeader ELF_SIG 1 1 ELF_TYPE_EXEC 0x430000 52 32 1.
Definition program_example_segment : program_entry := ProgramEntry 1 84 0x430000 3 5 5.

Lemma program_example_file : program_file program_example program_example_header [program_example_segment].
Proof.
  split; try by_computation.
  - apply store_bytes_ok; [intros k; split; [apply Z.le_refl|reflexivity]|by_computation].
  - split; [vm_compute; reflexivity|by_computation].
  - intros [|i] e He; [injection He as <-; vm_compute; reflexivity|discriminate He].
  - intros [|i] e He; [injection He as <-; intros _; split; by_computation|discriminate He].
  - intros [|i] [|j] e e' n Hi Hj; discriminate || done.
  - exists 0%nat, program_example_segment. split_and!; [reflexivity|reflexivity|by_computation|by_computation].
Qed.

(** The kernel with a heap of two pages at 0xc0000000, on the frames 18 and 19. *)
Definition program_paging : paging :=
  Paging (PMem {[0 := 255; 1 := 255; 2 := 15]} 0 false 0)
    {[0x10000 := 0x83; 0x10000 + 4 * 768 := 0x11003; 0x10000 + 4 * 1023 := 0x10003; 0x11000 := 0x12003; 0x11004 := 0x13003]} 0x10000.
Definition program_kmem : kmem := KMem program_paging (Heap ∅ 1 0xc0000000 0 false) false.
Definition heap_pages : page_map := {[0xc0000 := (18, 3); 0xc0001 := (19, 3)]}.

Lemma program_pde i : 0 < i < 1023 → i ≠ 768 → pde program_paging i = 0.
Proof.
  intros Hi Hne. unfold pde, program_paging, zget. cbn [phys cr3].
  rewrite !lookup_insert_ne by lia. by rewrite lookup_singleton_ne by lia.
Qed.
Lemma program_pde_768 i : 0 < i < 1023 → pde program_paging i ≠ 0 → i = 768.
Proof. intros Hi Hnz. destruct (decide (i = 768)); [done|]. by rewrite program_pde in Hnz. Qed.

Lemma program_paging_wf : pg_wf program_paging.
Proof.
  split; try (intros i Hi Hnz; rewrite (program_pde_768 i Hi Hnz); by vm_compute).
  - split; [|unfold mmap_count; simpl; lia|done]. apply zget_Forall; by_computation.
  - by split; [by_computation|split; [split|]; vm_compute].
  - intros i Hi. unfold pde. apply (zget_Forall is_u32); by_computation.
  - intros i Hi. destruct (decide (i = 768)) as [->|]; [right; by vm_compute|left; by apply program_pde].
  - by vm_compute.
  - by vm_compute.
  - intros i j Hi Hj Hi0 Hj0 _. by rewrite (program_pde_768 i Hi Hi0), (program_pde_768 j Hj Hj0).
Qed.

Lemma heap_page_cases n f fl : heap_pages !! n = Some (f, fl) → (n = 0xc0000 ∧ f = 18 ∧ fl = 3) ∨ (n = 0xc0001 ∧ f = 19 ∧ fl = 3).
Proof.
  unfold heap_pages. intros [[<- [= <- <-]]|[Hne [<- [= <- <-]]%lookup_singleton_Some]]%lookup_insert_Some; tauto.
Qed.
Lemma heap_page_on n f fl : heap_pages !! n = Some (f, fl) → on_frame program_paging n f fl.
Proof.
  intros [(-> & -> & ->)|(-> & -> & ->)]%heap_page_cases; (split; [by_computation|by vm_compute|done|done|]); (split_and!; [done|done|by vm_compute|]).
  - split_and!; [done|by vm_compute|]. intros i Hi Hnz. rewrite (program_pde_768 i Hi Hnz). by vm_compute.
  - split_and!; [done|by vm_compute|]. intros i Hi Hnz. rewrite (program_pde_768 i Hi Hnz). by vm_compute.
Qed.

Lemma program_blocks : ∃ h1 h2, header_blocks program_kmem [program_example_segment] heap_pages 0xc0000000 0xc0001000 h1 h2.
Proof.
  destruct (heap_alloc 1 (km_heap program_kmem)) as [[a1 h1]|] eqn:H1; [|by vm_compute in H1].
  destruct (heap_alloc 1 h1) as [[a2 h2]|] eqn:H2; [|vm_compute in H1; injection H1 as <- <-; by vm_compute in H2].
  exists h1, h2. pose proof H1 as E1. vm_compute in H1. injection H1 as <- Eh. pose proof H2 as E2. rewrite <- Eh in H2. vm_compute in H2. injection H2 as <- _.
  split.
  - split; [done|]. by rewrite <- Eh.
  - exact E1.
  - exact E2.
  - split; [exact program_paging_wf|]. split; [exact heap_page_on|].
    intros n n' f fl fl' Hn Hn'. apply heap_page_cases in Hn, Hn'. lia.
  - intros n [[f fl] Hn]. apply heap_page_cases in Hn. lia.
  - by_computation.
  - change (table_pages [program_example_segment]) with 1. split; intros v Hv.
    + assert (v / 4096 = 0xc0000) as -> by (Z.to_euclidean_division_equations; lia). by eexists.
    + assert (v / 4096 = 0xc0001) as -> by (Z.to_euclidean_division_equations; lia). by eexists.
  - change (table_pages [program_example_segment]) with 1. lia.
Qed.

Lemma program_avail n : (n <= 200)%nat → avail (pg_pm program_paging) n.
Proof.
  intros Hn. apply (avail_le _ 200); [done|]. exists (seqZ 20 200). split_and!; [apply NoDup_seqZ|by rewrite length_seqZ|by_computation].
Qed.

Lemma load_elf_loads_witness :
  ∃ km', load_elf program_example program_kmem = Ok (0x430000, km') ∧
    (λ k, vbyte (km_pg km') k) <$> seqZ 0x430000 5 = [0x90; 0x90; 0xc3; 0; 0].
Proof.
  destruct program_blocks as (h1 & h2 & Hb).
  destruct (load_elf_loads program_example _ _ program_kmem heap_pages 0xc0000000 0xc0001000 h1 h2 program_example_file Hb) as (km' & Hrun & Hr).
  - apply program_avail. vm_compute. lia.
  - exists km'. split; [exact Hrun|].
    assert (∀ k, 0 <= k < 5 → vbyte (km_pg km') (0x430000 + k) = segment_byte program_example program_example_segment (0x430000 + k)) as Hk.
    { intros k Hk. apply (pr_bytes _ _ _ _ _ Hr); [by left|reflexivity|].
      assert ((0x430000 + k) / 4096 = 0x430) as -> by (Z.to_euclidean_division_equations; lia). by_computation. }
    change (seqZ 0x430000 5) with ((λ k, 0x430000 + k) <$> seqZ 0 5). rewrite <- list_fmap_compose.
    etransitivity; [apply list_fmap_ext; intros j k Hj; apply Hk; apply lookup_seqZ in Hj; lia|]. vm_compute. reflexivity.
Defined.

Definition program_sched : sched := Sched program_kmem {[1 := zero_process]} ∅ 0 1 0 0 false.

Lemma enter_program_ready_witness :
  ∃ s', enter_program program_example program_sched = Ok ((0x41fffc, 0x430000), s') ∧
    vbyte (km_pg (sc_km s')) 0x430002 = 0xc3 ∧ user_write (km_pg (sc_km s')) 0x41fffc = true ∧ esp0 (proc s' 1) = 0xbfff0000.
Proof.
  destruct program_blocks as (h1 & h2 & Hb).
  destruct (enter_program_ready program_example program_example_header [program_example_segment] program_sched heap_pages 0xc0000000 0xc0001000 h1 h2)
    as (s' & Hrun & Hr & Hs & _ & Hp).
  - exact program_example_file.
  - exact Hb.
  - apply program_avail. vm_compute. lia.
  - by_computation.
  - by_computation.
  - intros e n ->%list_elem_of_singleton _ Hn. assert (n = 0x430) as -> by (unfold seg_page in Hn; change (seg_pages program_example_segment) with 1 in Hn; change (pe_vaddr program_example_segment / 4096) with 0x430 in Hn; lia).
    unfold stack_page. change ((entry_offset program_example_header - 0x10000) / 4096) with 0x420. change (ESP0 / 4096) with 0xbfff0. lia.
  - by_computation.
  - exists s'. split; [exact Hrun|]. split_and!.
    + rewrite (pr_bytes _ _ _ _ _ Hr program_example_segment); [vm_compute; reflexivity|by left|reflexivity|by_computation].
    + apply Hs. by_computation.
    + rewrite Hp. reflexivity.
Defined.
