(* ===== verification/Ustar.v ===== *)
(** * The initial RAM disk (src/src/kernel/drivers/ustar.c)

    [read_initrd] walks over a tar archive in memory and makes a file of [/boot] for
    each entry, whose contents are the bytes of the archive themselves. *)
From S2P Require Import Prelude Device KString RamFS.

(** [sizeof(USTAR_file_t)] and the places of the fields in it. *)
Definition USTAR_SIZE : Z := 512.
Definition FSIZE_FIELD : Z := 124.
Definition USTAR_FIELD : Z := 257.

Section ustar.
(** Memory: the byte at each address. *)
Variable byte : Z → Z.
(** What the RAM file system needs to know. *)
Variable can_alloc : Z → fs → bool.
Variable junk : Z → list Z.
Variable mount_rfopen : list Z → Z → fs → Z.
Variable mount_create : Z → list Z → Z → M fs Z.

(** [for(j = 11; j > 0; j--, count *= 8) size += (in[j - 1] - '0') * count;] *)
Definition ustar_getsize (inp : Z) : Z :=
  (foldl (λ '(size, count) j, (u32 (size + u32 ((s8 (byte (inp + j - 1)) - 48) * count)), u32 (count * 8)))
    (0, 1) (reverse (seqZ 1 11))).1.

(** [!memcmp(file->ustar, "ustar", 5)] *)
Definition is_ustar (file : Z) : bool :=
  bool_decide ((λ k, byte (file + USTAR_FIELD + k)) <$> seqZ 0 5 = bytes_of_string "ustar").

(** [char final_fname[80] = "/boot/"; strcat(file->filename, final_fname);] *)
Definition final_fname (file : Z) : M fs (list Z) :=
  loop fuel32 (λ name,
    if 80 <=? Z.of_nat (length name) then fail (OutOfBounds 80)
    else
      let c := byte (file + (Z.of_nat (length name) - 6)) in
      if c =? 0 then mret (inr name) else mret (inl (name ++ [c]))) (bytes_of_string "/boot/").

(** The bytes of the archive from [p] on, as the array behind a file. *)
Definition archive_block (p n : Z) : block := Bytes ((λ k, byte (p + k)) <$> seqZ 0 n).

Definition read_initrd (archive : Z) : M fs Z :=
  loop fuel32 (λ offset,
    let file := archive + offset in
    if is_ustar file then
      let filesize := s32 (ustar_getsize (file + FSIZE_FIELD)) in
      let fsize_pgs := u32 (Z.quot (filesize + 4095) 4096) in
      name ← final_fname file;
      tmp ← fcreate can_alloc junk mount_rfopen mount_create name 0;
      if tmp =? 0 then mret (inr 1)
      else
        v ← get_vfile tmp;
        when (negb (private v =? 0)) (kfree (private v));;
        modify (set_vfile tmp (with_private (file + USTAR_SIZE) (u32 (fsize_pgs * 4096)) v));;
        modify (set_block (file + USTAR_SIZE) (archive_block (file + USTAR_SIZE) (u32 (fsize_pgs * 4096))));;
        mret (inl (u32 (offset + (Z.quot (filesize + 511) 512 + 1) * 512)))
    else mret (inr 0)) 0.

(** ** The archive format *)

Record entry := Entry { e_name : list Z; e_data : list Z }.
Definition e_size (e : entry) : Z := Z.of_nat (length (e_data e)).
(** The bytes an entry takes, and the bytes of the file made for it. *)
Definition e_span (e : entry) : Z := ((e_size e + 511) / 512 + 1) * 512.
Definition e_pages (e : entry) : Z := (e_size e + 4095) / 4096 * 4096.

(** A number in [k] octal digits. *)
Fixpoint octal (k : nat) (n : Z) : list Z :=
  match k with O => [] | S k => octal k (n / 8) ++ [48 + n mod 8] end.

Record entry_at (file : Z) (e : entry) : Prop := {
  ea_name : text_at byte file (e_name e ++ [0]);
  ea_nonzero : Forall (λ c, c ≠ 0) (e_name e);
  ea_length : Z.of_nat (length (e_name e)) < 74;
  ea_size : text_at byte (file + FSIZE_FIELD) (octal 11 (e_size e));
  ea_ustar : is_ustar file = true;
  ea_data : text_at byte (file + USTAR_SIZE) (e_data e);
  ea_small : e_size e < 2 ^ 31 - 4096;
}.

Fixpoint archive_at (file : Z) (es : list entry) : Prop :=
  match es with
  | [] => is_ustar file = false
  | e :: es => entry_at file e ∧ archive_at (file + e_span e) es
  end.

Definition total_span (es : list entry) : Z := foldr (λ e n, e_span e + n) 0 es.

(** ** What an archive means *)

(** The contents of a file of [/boot]: the data, and what comes behind them in the
    last page. *)
Definition boot_contents (p : Z) (e : entry) : list Z :=
  e_data e ++ ((λ k, byte (p + k)) <$> seqZ (e_size e) (e_pages e - e_size e)).

Definition install (file : Z) (e : entry) : M fs Z :=
  tmp ← fcreate can_alloc junk mount_rfopen mount_create (bytes_of_string "/boot/" ++ e_name e) 0;
  if tmp =? 0 then mret 0
  else
    v ← get_vfile tmp;
    when (negb (private v =? 0)) (kfree (private v));;
    modify (set_vfile tmp (with_private (file + USTAR_SIZE) (e_pages e) v));;
    modify (set_block (file + USTAR_SIZE) (Bytes (boot_contents (file + USTAR_SIZE) e)));;
    mret tmp.

Fixpoint installs (file : Z) (es : list entry) : M fs Z :=
  match es with
  | [] => mret 0
  | e :: es => tmp ← install file e; if tmp =? 0 then mret 1 else installs (file + e_span e) es
  end.

(** ** The proof *)

Lemma length_octal k n : length (octal k n) = k.
Proof using Type. revert n. induction k as [|k IH]; intros n; [done|]. cbn [octal]. rewrite length_app, IH. simpl. lia. Qed.

Lemma u32_add_mul a b c d : u32 (u32 (a + u32 (b * c)) + d * u32 (c * 8)) = u32 (a + (b + 8 * d) * c).
Proof using Type.
  unfold u32. rewrite (Z.mod_eq (b * c)), (Z.mod_eq (c * 8)), (Z.mod_eq (a + _)) by lia.
  set (m := 2 ^ 32). set (q1 := b * c / m). set (q2 := (a + (b * c - m * q1)) / m). set (q3 := c * 8 / m).
  rewrite <- (Z_mod_plus_full (a + (b + 8 * d) * c) (- (q1 + q2 + d * q3)) m). f_equal. ring.
Qed.

(** One digit of each step of the loop. *)
Lemma getsize_digits k p n size count :
  0 <= n → text_at byte p (octal k n) → n < 8 ^ Z.of_nat k →
  u32 (foldl (λ '(size, count) j, (u32 (size + u32 ((s8 (byte (p + j - 1)) - 48) * count)), u32 (count * 8)))
    (size, count) (reverse (seqZ 1 (Z.of_nat k)))).1 = u32 (size + n * count).
Proof using Type.
  revert n size count. induction k as [|k IH]; intros n size count Hn Ht Hlt.
  - change (8 ^ Z.of_nat 0) with 1 in Hlt. assert (n = 0) as -> by lia. by rewrite Z.mul_0_l, Z.add_0_r.
  - cbn [octal] in Ht. apply text_at_app in Ht as [Ht Hd]. apply text_at_cons in Hd as [Hd _]. rewrite length_octal in Hd.
    replace (Z.of_nat (S k)) with (Z.of_nat k + 1) in * by lia. rewrite Z.pow_add_r, Z.pow_1_r in Hlt by lia.
    rewrite seqZ_app, reverse_app by lia. rewrite seqZ_cons, (seqZ_nil _ (Z.pred 1)) by lia.
    cbn [reverse rev_append app foldl]. replace (p + (1 + Z.of_nat k) - 1) with (p + Z.of_nat k) by lia. rewrite Hd.
    rewrite (IH (n / 8)); [|apply Z.div_pos; lia|done|apply Z.div_lt_upper_bound; lia].
    pose proof (Z.mod_pos_bound n 8 ltac:(lia)). pose proof (Z.div_mod n 8 ltac:(lia)).
    assert (s8 (48 + n mod 8) - 48 = n mod 8) as -> by (unfold s8; rewrite (proj2 (Z.ltb_lt _ 128)) by lia; lia).
    rewrite u32_add_mul. f_equal. nia.
Qed.

Lemma getsize_u32 p js size count :
  is_u32 size →
  is_u32 (foldl (λ '(size, count) j, (u32 (size + u32 ((s8 (byte (p + j - 1)) - 48) * count)), u32 (count * 8))) (size, count) js).1.
Proof using Type. revert size count. induction js as [|j js IH]; intros size count Hs; [done|]. apply IH, is_u32_u32. Qed.

Lemma ustar_getsize_octal p n : text_at byte p (octal 11 n) → is_u32 n → ustar_getsize p = n.
Proof using Type.
  intros Ht Hn. unfold is_u32 in Hn. pose proof (getsize_digits 11 p n 0 1 ltac:(lia) Ht ltac:(simpl; lia)) as Hg.
  unfold ustar_getsize. change (Z.of_nat 11) with 11 in Hg. rewrite Z.add_0_l, Z.mul_1_r, (u32_id n) in Hg by done.
  rewrite <- Hg. symmetry. by apply u32_id, getsize_u32.
Qed.

(** The size of an entry survives the archive.  [ustar_getsize] reads back every
    32-bit size written in eleven octal digits. *)
Theorem ustar_size_roundtrip p n : is_u32 n → text_at byte p (octal 11 n) → ustar_getsize p = n.
Proof using Type. intros. by apply ustar_getsize_octal. Qed.

Lemma final_fname_wp file e (Q : list Z → fs → Prop) s :
  entry_at file e → Q (bytes_of_string "/boot/" ++ e_name e) s → wp (final_fname file) Q s.
Proof using Type.
  intros [Hn Hnz Hl _ _ _ _] HQ. unfold final_fname. apply text_at_app in Hn as [Hn He]. apply text_at_cons in He as [He _].
  apply (wp_loop (λ name s', s' = s ∧ ∃ k, (k <= length (e_name e))%nat ∧ name = bytes_of_string "/boot/" ++ take k (e_name e))
    (λ name _, 80 - Z.of_nat (length name))).
  - split; [done|]. exists 0%nat. by split; [lia|].
  - simpl. unfold fuel32. lia.
  - intros name s' (_ & k & Hk & ->). rewrite length_app, length_take. simpl. lia.
  - intros name s' (-> & k & Hk & ->). rewrite length_app, length_take, Nat.min_l by lia. change (length (bytes_of_string "/boot/")) with 6%nat.
    rewrite (proj2 (Z.leb_gt 80 _)) by lia. replace (Z.of_nat (6 + k) - 6) with (Z.of_nat k) by lia.
    destruct (decide (k = length (e_name e))) as [->|Hne].
    + rewrite He. cbn [Z.eqb]. wp. by rewrite take_ge by lia.
    + destruct (lookup_lt_is_Some_2 (e_name e) k) as [c Hc]; [lia|]. rewrite (Hn k c Hc). rewrite Forall_lookup in Hnz.
      rewrite (proj2 (Z.eqb_neq c 0) (Hnz k c Hc)). wp. split.
      * split; [done|]. exists (S k). split; [lia|]. by rewrite (take_S_r _ _ c Hc), app_assoc.
      * rewrite !length_app, length_take. simpl. lia.
Qed.

Lemma e_size_bounds e : 0 <= e_size e <= e_pages e ∧ 512 <= e_span e ∧ e_pages e < e_size e + 4096 ∧ e_span e <= e_size e + 1024.
Proof using Type.
  clear. unfold e_pages, e_span, e_size. Z.to_euclidean_division_equations; lia.
Qed.
Lemma total_span_nonneg es : 0 <= total_span es.
Proof using Type.
  clear. induction es as [|e es IH]; [done|]. cbn [total_span foldr]. pose proof (e_size_bounds e). fold (total_span es). lia.
Qed.

Lemma archive_block_contents file e :
  entry_at file e → archive_block (file + USTAR_SIZE) (e_pages e) = Bytes (boot_contents (file + USTAR_SIZE) e).
Proof using Type.
  intros [_ _ _ _ _ Hd _]. unfold archive_block, boot_contents. pose proof (e_size_bounds e) as (? & _). f_equal.
  replace (e_pages e) with (e_size e + (e_pages e - e_size e)) at 1 by lia. rewrite seqZ_app, fmap_app by lia. f_equal.
  apply list_eq. intros k. destruct (decide (k < length (e_data e))%nat) as [Hk|Hk].
  - destruct (lookup_lt_is_Some_2 _ _ Hk) as [x Hx]. rewrite Hx, list_lookup_fmap, lookup_seqZ_lt by (unfold e_size; lia).
    cbn [fmap option_fmap option_map]. f_equal. by apply Hd.
  - rewrite (lookup_ge_None_2 (e_data e)) by lia. apply lookup_ge_None_2. rewrite length_fmap, length_seqZ. unfold e_size. lia.
Qed.

(** C38: reading the initial RAM disk.  For an archive of entries with names short
    enough for the buffer, [read_initrd] does for each entry, in order, what
    [install] says: a file of [/boot] whose contents start with the data of
    the entry; it stops with 1 at the first file that cannot be created, and returns 0
    behind the last entry. *)
Theorem read_initrd_installs archive es r s s' :
  archive_at archive es → total_span es < 2 ^ 32 → installs archive es s = Ok (r, s') → read_initrd archive s = Ok (r, s').
Proof using Type.
  intros Hes Htot Hrun.
  assert (wp (read_initrd archive) (λ r1 s1, r1 = r ∧ s1 = s') s) as Hwp;
    [|apply wp_ok in Hwp as (? & ? & Hr & -> & ->); exact Hr].
  assert (wp (installs archive es) (λ r1 s1, r1 = r ∧ s1 = s') s) as Hin by (unfold wp; by rewrite Hrun). clear Hrun.
  unfold read_initrd.
  apply (wp_loop (λ offset s1, ∃ es', archive_at (archive + offset) es' ∧ 0 <= offset ∧ offset + total_span es' = total_span es ∧
    wp (installs (archive + offset) es') (λ r1 s1, r1 = r ∧ s1 = s') s1) (λ offset _, total_span es - offset)).
  - exists es. by rewrite Z.add_0_r.
  - unfold fuel32. lia.
  - intros offset s1 (es' & _ & _ & <- & _). pose proof (total_span_nonneg es'). lia.
  - intros offset s1 ([|e es'] & Hat & Ho & Hsum & Hp); cbn [archive_at installs] in Hat, Hp.
    + rewrite Hat. wp. by autorewrite with wp in Hp.
    + destruct Hat as [He Hat]. rewrite (ea_ustar _ _ He). pose proof (e_size_bounds e) as (Hsz & Hsp & Hpg & Hsp2).
      pose proof (ea_small _ _ He) as Hsmall. cbn [total_span foldr] in Hsum. fold (total_span es') in Hsum.
      pose proof (total_span_nonneg es') as Hpos.
      set (file := archive + offset) in *.
      rewrite (ustar_getsize_octal _ _ (ea_size _ _ He)) by (unfold is_u32; lia).
      assert (s32 (e_size e) = e_size e) as -> by (unfold s32; rewrite Z.mod_small by lia; lia).
      rewrite !Z.quot_div_nonneg by lia. wp. apply (final_fname_wp file e); [done|].
      unfold install in Hp. rewrite !wp_bind in Hp. rewrite wp_bind. eapply wp_mono; [exact Hp|]. cbn beta. intros tmp s2 Hp2.
      destruct (Z.eqb_spec tmp 0) as [->|Hz]; [wp; by autorewrite with wp in Hp2|].
      rewrite !wp_bind in Hp2. rewrite wp_bind. eapply wp_mono; [exact Hp2|]. cbn beta. intros v s3 Hp3.
      rewrite wp_bind in Hp3. rewrite wp_bind. eapply wp_mono; [exact Hp3|]. cbn beta. intros [] s4 Hp4.
      assert (u32 (u32 ((e_size e + 4095) / 4096) * 4096) = e_pages e) as ->.
      { unfold e_pages in *. rewrite (u32_id (_ / _)) by (unfold is_u32; lia). apply u32_id. unfold is_u32. lia. }
      rewrite archive_block_contents by done. autorewrite with wp in Hp4. cbn beta iota in Hp4. rewrite (proj2 (Z.eqb_neq tmp 0) Hz) in Hp4.
      wp. fold (e_span e). rewrite u32_id by (unfold is_u32; lia). split; [|lia]. exists es'.
      replace (archive + (offset + e_span e)) with (file + e_span e) by (subst file; lia). split_and!; [done|lia|lia|done].
Qed.
End ustar.

(** ** A concrete archive *)

(** The header of a plain file, and the data padded to whole blocks. *)
Definition tar_header (e : entry) : list Z :=
  take 124 (e_name e ++ replicate 124 0) ++ octal 11 (e_size e) ++ replicate 122 0 ++ bytes_of_string "ustar" ++ replicate 250 0.
Definition tar_entry (e : entry) : list Z :=
  tar_header e ++ e_data e ++ replicate (Z.to_nat ((- e_size e) mod 512)) 0.

Definition motd : entry := Entry (bytes_of_string "motd") (bytes_of_string "hello").
Definition tar_bytes : list Z := tar_entry motd ++ replicate 4096 0.
Definition tar_memory (a : Z) : Z := nth (Z.to_nat (a - 4096)) tar_bytes 0.

(** A file system with an empty [/boot]. *)
Definition fs_boot : fs :=
  FS {[root_dir := VFile [47] 0x14 ramfs_ops 0 12288 4 0; 8192 := VFile (bytes_of_string "boot") FS_FILE_IS_DIR ramfs_ops 0 0 0 1]}
     {[12288 := Dirents (8192 :: replicate 1023 0)]} 16384 false.

Lemma tar_archive : archive_at tar_memory 4096 [motd].
Proof.
  cbn [archive_at]. split; [|vm_compute; reflexivity].
  split; [apply text_at_seqZ; vm_compute; reflexivity|by_computation|vm_compute; reflexivity|apply text_at_seqZ; vm_compute; reflexivity
    |vm_compute; reflexivity|apply text_at_seqZ; vm_compute; reflexivity|vm_compute; reflexivity].
Qed.

Lemma ustar_size_roundtrip_witness : ustar_getsize tar_memory 4220 = 5.
Proof. apply (ustar_size_roundtrip tar_memory 4220 5); [by_computation|apply text_at_seqZ; vm_compute; reflexivity]. Defined.

Lemma read_initrd_installs_witness :
  ∃ s', read_initrd tar_memory (λ _ _, true) (λ _, []) (λ _ _ _, 0) (λ _ _ _, mret 0) 4096 fs_boot = Ok (0, s') ∧
    fopen (λ _ _ _, 0) (bytes_of_string "/boot/motd") s' = Ok (20480, s').
Proof.
  set (run := installs tar_memory (λ _ _, true) (λ _, []) (λ _ _ _, 0) (λ _ _ _, mret 0) 4096 [motd]).
  set (s' := match run fs_boot with Ok (_, s1) => s1 | Err _ => fs_boot end).
  exists s'. split.
  - apply (read_initrd_installs _ _ _ _ _ _ [motd] 0); [exact tar_archive|vm_compute; reflexivity|]. subst s'.
    vm_compute. reflexivity.
  - subst s'. vm_compute. reflexivity.
Defined.
