(* ===== verification/Ports.v ===== *)
(** * Port input and output (src/src/kernel/drivers/cpuio.h, src/src/kernel/drivers/pic.c)

    A driver talks to hardware by reading and writing numbered ports.  The state
    of the port machine is the log of all accesses; what a read returns is up to
    the hardware, a function of the accesses made so far.  On top of it: the
    pair of interrupt controllers. *)
From S2P Require Import Prelude.

(** An access of 8, 16 or 32 bits.  The newest is first in a log. *)
Inductive io :=
  | Out (width port data : Z)
  | In (width port data : Z).
Definition ports : Type := list io.

#[export] Instance io_eq_dec : EqDecision io.
Proof. solve_decision. Defined.

#[export, refine] Instance lens_id {S} : Lens S S | 10 := {| view s := s; put s _ := s |}.
Proof. all: done. Defined.

Section cpuio.
Context {S : Type} `{!Lens S ports}.
(** What a read of a port returns after the accesses in the log. *)
Variable device : ports → Z → Z → Z.

Definition port_out (width port data : Z) : M S unit := zoom (T := ports) (modify (cons (Out width port data))).
Definition port_in (width port : Z) (wrap : Z → Z) : M S Z :=
  zoom (T := ports) (l ← gets (λ l, l);
                     let v := wrap (device l width port) in
                     modify (cons (In width port v));; mret v).

Definition outb (port data : Z) : M S unit := port_out 8 (u16 port) (u8 data).
Definition outw (port data : Z) : M S unit := port_out 16 (u16 port) (u16 data).
Definition outl (port data : Z) : M S unit := port_out 32 (u16 port) (u32 data).
Definition inb (port : Z) : M S Z := port_in 8 (u16 port) u8.
Definition inw (port : Z) : M S Z := port_in 16 (u16 port) u16.
Definition inl32 (port : Z) : M S Z := port_in 32 (u16 port) u32.

Definition log_io (e : io) (s : S) : S := put (e :: view (T := ports) s) s.

Lemma view_log_io e s : view (T := ports) (log_io e s) = e :: view s.
Proof. apply view_put. Qed.

Lemma wp_outb p d (Q : unit → S → Prop) s : wp (outb p d) Q s = Q tt (log_io (Out 8 (u16 p) (u8 d)) s).
Proof. unfold outb, port_out. by wp. Qed.
Lemma wp_outw p d (Q : unit → S → Prop) s : wp (outw p d) Q s = Q tt (log_io (Out 16 (u16 p) (u16 d)) s).
Proof. unfold outw, port_out. by wp. Qed.
Lemma wp_outl p d (Q : unit → S → Prop) s : wp (outl p d) Q s = Q tt (log_io (Out 32 (u16 p) (u32 d)) s).
Proof. unfold outl, port_out. by wp. Qed.

(** The value a read of the given width returns. *)
Definition port_reply (width port : Z) (wrap : Z → Z) (s : S) : Z := wrap (device (view s) width port).

Lemma wp_inb p (Q : Z → S → Prop) s :
  wp (inb p) Q s = Q (port_reply 8 (u16 p) u8 s) (log_io (In 8 (u16 p) (port_reply 8 (u16 p) u8 s)) s).
Proof. unfold inb, port_in. by wp. Qed.
Lemma wp_inw p (Q : Z → S → Prop) s :
  wp (inw p) Q s = Q (port_reply 16 (u16 p) u16 s) (log_io (In 16 (u16 p) (port_reply 16 (u16 p) u16 s)) s).
Proof. unfold inw, port_in. by wp. Qed.
Lemma wp_inl32 p (Q : Z → S → Prop) s :
  wp (inl32 p) Q s = Q (port_reply 32 (u16 p) u32 s) (log_io (In 32 (u16 p) (port_reply 32 (u16 p) u32 s)) s).
Proof. unfold inl32, port_in. by wp. Qed.
End cpuio.
#[export] Hint Rewrite @wp_outb @wp_outw @wp_outl @wp_inb @wp_inw @wp_inl32 : wp.

(** ** The interrupt controllers (pic.c) *)

Definition PIC1_COMMAND : Z := 0x20.
Definition PIC1_DATA : Z := 0x21.
Definition PIC2_COMMAND : Z := 0xA0.
Definition PIC2_DATA : Z := 0xA1.
Definition PIC_ICW1_ICW4 : Z := 0x01.
Definition PIC_ICW1_INIT : Z := 0x10.
Definition PIC_ICW4_8086 : Z := 0x01.

Section pic.
Context {S : Type} `{!Lens S ports}.
Variable device : ports → Z → Z → Z.

(** The vector base passed in is not used. *)
Definition pic_init (idt_index : Z) : M S unit :=
  a1 ← inb device PIC1_DATA;
  a2 ← inb device PIC2_DATA;
  outb PIC1_COMMAND (Z.lor PIC_ICW1_INIT PIC_ICW1_ICW4);;
  outb PIC2_COMMAND (Z.lor PIC_ICW1_INIT PIC_ICW1_ICW4);;
  outb PIC1_DATA 32;;
  outb PIC2_DATA 40;;
  outb PIC1_DATA 4;;
  outb PIC2_DATA 2;;
  outb PIC1_DATA PIC_ICW4_8086;;
  outb PIC2_DATA PIC_ICW4_8086;;
  outb PIC1_DATA a1;;
  outb PIC2_DATA a2.
Definition pic_disable : M S unit := outb PIC1_DATA 0xff;; outb PIC2_DATA 0xff.
Definition pic_setmask (mask pic : Z) : M S unit := outb pic mask.
Definition pic_getmask (pic : Z) : M S Z := inb device pic.
End pic.

(** What the data sheet of the 8259A says of the accesses to one controller:
    the command byte with bit 4 starts the initialisation, which takes the
    vector base, the cascade byte and, when bit 0 was set, the mode; outside of
    it a byte written to the data port is the interrupt mask. *)
Record pic_chip := Chip { vector_base : Z; cascade : Z; mode : Z; mask : Z; expects : list nat }.

Definition pic_command (b : Z) (c : pic_chip) : pic_chip :=
  if Z.land b PIC_ICW1_INIT =? 0 then c
  else Chip 0 0 0 0 (if Z.land b PIC_ICW1_ICW4 =? 0 then [2; 3]%nat else [2; 3; 4]%nat).
Definition pic_data (b : Z) (c : pic_chip) : pic_chip :=
  match expects c with
  | 2%nat :: r => Chip (Z.land b 0xf8) (cascade c) (mode c) (mask c) r
  | 3%nat :: r => Chip (vector_base c) b (mode c) (mask c) r
  | 4%nat :: r => Chip (vector_base c) (cascade c) b (mask c) r
  | _ => Chip (vector_base c) (cascade c) (mode c) (u8 b) []
  end.
Definition pic_step (command data : Z) (e : io) (c : pic_chip) : pic_chip :=
  match e with
  | Out 8 p b => if p =? command then pic_command b c else if p =? data then pic_data b c else c
  | _ => c
  end.
(** The controller after a log. *)
Definition pic_after (command data : Z) (l : ports) (c : pic_chip) : pic_chip := foldr (pic_step command data) c l.

Section pic_proofs.
Context {S : Type} `{!Lens S ports}.
Variable device : ports → Z → Z → Z.

(** The hardware's part: outside of an initialisation a read of a data port
    returns the mask that was written last. *)
Definition pic_reads_mask (c1 c2 : pic_chip) : Prop :=
  ∀ l, let k1 := pic_after PIC1_COMMAND PIC1_DATA l c1 in let k2 := pic_after PIC2_COMMAND PIC2_DATA l c2 in
    (expects k1 = [] → u8 (device l 8 PIC1_DATA) = mask k1) ∧ (expects k2 = [] → u8 (device l 8 PIC2_DATA) = mask k2).

Lemma pic_init_wp (idx : Z) (c1 c2 : pic_chip) (Q : unit → S → Prop) (s : S) :
  let k1 := pic_after PIC1_COMMAND PIC1_DATA (view s) c1 in
  let k2 := pic_after PIC2_COMMAND PIC2_DATA (view s) c2 in
  pic_reads_mask c1 c2 → expects k1 = [] → expects k2 = [] →
  (∀ l, pic_after PIC1_COMMAND PIC1_DATA l c1 = Chip 32 4 PIC_ICW4_8086 (mask k1) [] →
     pic_after PIC2_COMMAND PIC2_DATA l c2 = Chip 40 2 PIC_ICW4_8086 (mask k2) [] → Q tt (put l s)) →
  wp (pic_init device idx) Q s.
Proof.
  intros k1 k2 Hhw H1 H2 HQ. unfold pic_init. wp.
  change (u16 PIC1_DATA) with PIC1_DATA. change (u16 PIC2_DATA) with PIC2_DATA.
  change (u16 PIC1_COMMAND) with PIC1_COMMAND. change (u16 PIC2_COMMAND) with PIC2_COMMAND.
  unfold log_io. rewrite !view_put, !put_put. unfold port_reply. rewrite !view_put.
  set (l := view s) in *. set (a1 := u8 (device l 8 PIC1_DATA)). set (a2 := u8 (device (In 8 PIC1_DATA a1 :: l) 8 PIC2_DATA)).
  assert (a1 = mask k1) as Ha1 by exact (proj1 (Hhw l) H1).
  assert (a2 = mask k2) as Ha2 by exact (proj2 (Hhw (In 8 PIC1_DATA a1 :: l)) H2).
  assert (u8 (u8 a1) = a1) as E1 by (rewrite !u8_id; done || apply is_u8_u8).
  assert (u8 (u8 a2) = a2) as E2 by (rewrite !u8_id; done || apply is_u8_u8).
  apply HQ; unfold pic_after; cbn [foldr].
  - rewrite <- Ha1. revert E1. generalize (foldr (pic_step PIC1_COMMAND PIC1_DATA) c1 l). clearbody a1 a2.
    generalize (u8 a1), (u8 a2). intros b1 b2 x <-. reflexivity.
  - rewrite <- Ha2. revert E2. generalize (foldr (pic_step PIC2_COMMAND PIC2_DATA) c2 l). clearbody a1 a2.
    generalize (u8 a1), (u8 a2). intros b1 b2 x <-. reflexivity.
Qed.

(** Initialising the interrupt controllers.  Whatever state they are in,
    afterwards both are fully initialised: the first one raises vectors from
    32 on and is cascaded at line 2, the second one from 40 on with cascade
    identity 2, both in 8086 mode, and the interrupt masks are what they were
    before. *)
Theorem pic_init_remaps (idx : Z) (c1 c2 : pic_chip) (s : S) :
  let k1 := pic_after PIC1_COMMAND PIC1_DATA (view s) c1 in
  let k2 := pic_after PIC2_COMMAND PIC2_DATA (view s) c2 in
  pic_reads_mask c1 c2 → expects k1 = [] → expects k2 = [] →
  ∃ s', pic_init device idx s = Ok (tt, s') ∧
    pic_after PIC1_COMMAND PIC1_DATA (view s') c1 = Chip 32 4 PIC_ICW4_8086 (mask k1) [] ∧
    pic_after PIC2_COMMAND PIC2_DATA (view s') c2 = Chip 40 2 PIC_ICW4_8086 (mask k2) [].
Proof.
  intros k1 k2 Hhw H1 H2. apply wp_unit, (pic_init_wp idx c1 c2); [done..|]. intros l Hl1 Hl2. by rewrite view_put.
Qed.

(** A log that goes on with accesses to other ports leaves both controllers alone. *)
Definition pics_kept (l l' : ports) : Prop :=
  ∀ c, pic_after PIC1_COMMAND PIC1_DATA l' c = pic_after PIC1_COMMAND PIC1_DATA l c ∧
       pic_after PIC2_COMMAND PIC2_DATA l' c = pic_after PIC2_COMMAND PIC2_DATA l c.
#[export] Instance pics_kept_preorder : PreOrder pics_kept.
Proof. split; [done|]. intros l1 l2 l3 H12 H23 c. destruct (H12 c), (H23 c). split; congruence. Qed.

Definition pic_port (p : Z) : Prop := p ∈ [PIC1_COMMAND; PIC1_DATA; PIC2_COMMAND; PIC2_DATA].
#[export] Instance pic_port_dec p : Decision (pic_port p) := _.
Definition not_pic (e : io) : Prop := match e with Out _ p _ => ¬ pic_port p | In _ _ _ => True end.

Lemma pics_kept_app ws l : Forall not_pic ws → pics_kept l (ws ++ l).
Proof.
  intros Hws c. unfold pic_after. rewrite !foldr_app. induction Hws as [|e ws He _ [IH1 IH2]]; [done|]. cbn [foldr].
  rewrite IH1, IH2. unfold pic_step. destruct e as [w p d|]; [|done]. unfold not_pic, pic_port in He.
  repeat rewrite not_elem_of_cons in He. destruct He as (H1 & H2 & H3 & H4 & _).
  rewrite !(proj2 (Z.eqb_neq _ _)) by done. split; repeat case_match; done.
Qed.
End pic_proofs.

Definition pic_example_device (l : ports) (w p : Z) : Z :=
  if p =? PIC1_DATA then mask (pic_after PIC1_COMMAND PIC1_DATA l (Chip 8 4 1 5 []))
  else mask (pic_after PIC2_COMMAND PIC2_DATA l (Chip 112 2 1 7 [])).


Lemma pic_after_u8 cmd dat c l : is_u8 (mask c) → is_u8 (mask (pic_after cmd dat l c)).
Proof.
  intros Hc. induction l as [|e l IH]; [done|]. unfold pic_after in *. cbn [foldr].
  destruct (foldr _ _ _) as [v ca mo ma ex]. unfold pic_step. destruct e as [w p d|]; [|done].
  destruct (decide (w = 8)) as [->|]; [|by destruct w as [|w|w]; repeat (destruct w as [w|w|]; try done)].
  unfold pic_command, pic_data. repeat case_match; done || apply is_u8_u8.
Defined.

Lemma pic_init_remaps_witness :
  ∃ s', pic_init (S := ports) pic_example_device 0x20 [] = Ok (tt, s') ∧
    vector_base (pic_after PIC1_COMMAND PIC1_DATA s' (Chip 8 4 1 5 [])) = 32.
Proof.
  destruct (pic_init_remaps (S := ports) pic_example_device 0x20 (Chip 8 4 1 5 []) (Chip 112 2 1 7 []) []) as (s' & Hrun & H1 & _).
  - intros l k1 k2. split; intros _; unfold pic_example_device.
    + apply u8_id, pic_after_u8. by_computation.
    + apply u8_id, pic_after_u8. by_computation.
  - reflexivity.
  - reflexivity.
  - exists s'. split; [exact Hrun|]. exact (f_equal vector_base H1).
Defined.
