(* ===== verification/Serial.v ===== *)
(** * The serial port and the kernel log (src/src/kernel/drivers/serial.c,
    src/src/kernel/shared/kstdlib.c: mlog, vmlog)

    Output goes byte by byte to the data register of the first serial port.  The local
    arrays of [vprintf] stand in memory at [frame d], for the call with [d] calls left
    below it; where the compiler puts a string literal is a function [literal]. *)
From S2P Require Import Prelude Device Ports KString.

Record serial := Serial {
  sr_io : ports;
  sr_mem : memory;
  com_ports : gmap Z Z;
  com_buffer : gmap Z Z;
  com_buffer_index : gmap Z Z;
}.
#[export, refine] Instance serial_ports : Lens serial ports := {|
  view := sr_io;
  put l s := Serial l (sr_mem s) (com_ports s) (com_buffer s) (com_buffer_index s);
|}.
Proof. all: done || by intros []. Defined.
#[export, refine] Instance serial_memory : Lens serial memory := {|
  view := sr_mem;
  put m s := Serial (sr_io s) m (com_ports s) (com_buffer s) (com_buffer_index s);
|}.
Proof. all: done || by intros []. Defined.
Definition set_com_ports (x : gmap Z Z) (s : serial) : serial :=
  Serial (sr_io s) (sr_mem s) x (com_buffer s) (com_buffer_index s).
Definition set_com_buffer (x : gmap Z Z) (s : serial) : serial :=
  Serial (sr_io s) (sr_mem s) (com_ports s) x (com_buffer_index s).
Definition set_com_buffer_index (x : gmap Z Z) (s : serial) : serial :=
  Serial (sr_io s) (sr_mem s) (com_ports s) (com_buffer s) x.

(** The BIOS data area. *)
Definition BDA : Z := 0x400.

Definition mem {A} (m : M memory A) : M serial A := zoom m.

Definition serial_init : M serial unit :=
  for_all 0 4 (λ i,
    lo ← mem (ld (BDA + 2 * i)); hi ← mem (ld (BDA + 2 * i + 1));
    modify (λ s, set_com_ports (<[i := lo + 256 * hi]> (com_ports s)) s)).

(** The arrays have eight rows; a row of [com_buffer] has 128 bytes, and an index behind
    it is one in the next row. *)
Definition com_port (port : Z) : M serial Z :=
  if port <? 8 then gets (λ s, com_ports s !0 port) else fail (OutOfBounds port).
Definition com_slot (port index : Z) : M serial Z :=
  if port * 128 + index <? 1024 then mret (port * 128 + index) else fail (OutOfBounds index).

Section serial.
Variable device : ports → Z → Z → Z.

Definition serial_writeb (port data : Z) : M serial unit :=
  p ← com_port port;
  when (p =? 0) (
    i ← gets (λ s, com_buffer_index s !0 port);
    modify (λ s, set_com_buffer_index (<[port := u8 (i + 1)]> (com_buffer_index s)) s);;
    k ← com_slot port i;
    modify (λ s, set_com_buffer (<[k := u8 data]> (com_buffer s)) s));;
  p ← com_port port;
  outb p data.
Definition serial_readb (port : Z) : M serial Z :=
  p ← com_port port;
  if p =? 0 then
    i ← gets (λ s, com_buffer_index s !0 port);
    modify (λ s, set_com_buffer_index (<[port := u8 (i - 1)]> (com_buffer_index s)) s);;
    k ← com_slot port i;
    gets (λ s, com_buffer s !0 k)
  else inb device p.
Definition serial_writereg (port reg data : Z) : M serial unit :=
  p ← com_port port;
  if (p =? 0) || (8 <? reg) then skip else outb (p + reg) data.
Definition serial_readreg (port reg : Z) : M serial Z :=
  p ← com_port port;
  if (p =? 0) || (8 <? reg) then mret (u8 (-1)) else inb device (p + reg).
End serial.

(** One character to the first port. *)
Definition put_char (c : Z) : M serial unit := p ← com_port 0; outb p c.

Definition debug_puts (string : Z) : M serial unit :=
  loop fuel32 (λ string,
    c ← mem (ld string);
    if c =? 0 then mret (inr tt) else put_char c;; mret (inl (string + 1))) string.

(** The next argument.  Reading one that was not passed is outside of the list. *)
Definition va_arg (vars : list Z) : M serial (Z * list Z) :=
  match vars with
  | x :: vars => mret (u32 x, vars)
  | [] => fail (OutOfBounds 0)
  end.

Definition MLOG_DEBUG : Z := 1.
Definition MLOG_PRINT : Z := 2.
Definition MLOG_WARN : Z := 3.
Definition MLOG_ERR : Z := 4.
Definition backspace : string := String (Ascii.ascii_of_nat 8) EmptyString.
Definition log_info_types (type : Z) : string :=
  if (type =? 1)%Z then "| DEBUG" else if (type =? 3)%Z then "| WARNING"
  else if (type =? 4)%Z then "| ERROR" else backspace.

Section printf.
Variable frame : nat → Z.
Variable literal : string → Z.

(** The locals of one call: [numb], the array of one character and, in [strpad], [tmp]. *)
Definition numb (d : nat) : Z := frame d.
Definition single (d : nat) : Z := frame d + 16.
Definition pad_tmp (d : nat) : Z := frame d + 24.
Definition frame_size : Z := 40.

(** One character or directive of the format; [printf] is the call without arguments. *)
Definition vprintf_step (printf : Z → M serial unit) (d : nat) '((string, vars) : Z * list Z)
    : M serial (Z * list Z + unit) :=
  c ← mem (ld string);
  if c =? 0 then mret (inr tt)
  else if negb (c =? 37) then put_char c;; mret (inl (string + 1, vars))
  else
    let string := string + 1 in
    c ← mem (ld string);
    if c =? 100 then
      '(num, vars) ← va_arg vars;
      mem (itoa (s32 num) (numb d) 10);;
      debug_puts (numb d);;
      mret (inl (string + 1, vars))
    else if c =? 120 then
      '(num, vars) ← va_arg vars;
      mem (itoa (s32 num) (numb d) 16);;
      mem (strpad (pad_tmp d) (numb d) 48 8);;
      debug_puts (numb d);;
      mret (inl (string + 1, vars))
    else if c =? 115 then
      '(ptr, vars) ← va_arg vars;
      printf ptr;;
      mret (inl (string + 1, vars))
    else if c =? 99 then
      '(num, vars) ← va_arg vars;
      mem (st (single d) num);;
      mem (st (single d + 1) 0);;
      printf (single d);;
      mret (inl (string + 1, vars))
    else if c =? 98 then
      let string := string + 1 in
      '(num, vars) ← va_arg vars;
      printf (if num =? 0 then literal "false" else literal "true");;
      c ← mem (ld string);
      put_char c;;
      mret (inl (string + 1, vars))
    else
      put_char c;; mret (inl (string + 1, vars)).
Fixpoint vprintf (depth : nat) (string : Z) (vars : list Z) : M serial unit :=
  match depth with
  | O => fail OutOfFuel
  | S d => loop fuel32 (vprintf_step (λ str, vprintf d str []) d) (string, vars)
  end.

(** A format with its arguments; an argument string has no arguments of its own, so two
    calls on top of each other are enough. *)
Definition printf (str : Z) (vars : list Z) : M serial unit := vprintf 3 str vars.

Definition vmlog (module str type : Z) (vars : list Z) : M serial unit :=
  if (type =? 0) || (4 <? type) then skip
  else
    printf (literal "[ %s %s ] ") [module; literal (log_info_types type)];;
    printf str vars.
Definition mlog (module str type : Z) (vars : list Z) : M serial unit :=
  if (type =? 0) || (4 <? type) then skip
  else
    printf (literal "[ %s %s ] ") [module; literal (log_info_types type)];;
    printf str vars.

Lemma vprintf_S d p vars : vprintf (S d) p vars = loop fuel32 (vprintf_step (λ str, vprintf d str []) d) (p, vars).
Proof. reflexivity. Qed.
End printf.

(** ** What is sent *)

(** [s] after the bytes [bs] have gone to the first port. *)
Definition emit (bs : list Z) (s : serial) : serial :=
  put (rev ((λ b, Out 8 (u16 (com_ports s !0 0)) (u8 b)) <$> bs) ++ sr_io s) s.

Lemma emit_nil s : emit [] s = s.
Proof. by destruct s. Qed.
Lemma emit_app a b s : emit b (emit a s) = emit (a ++ b) s.
Proof. unfold emit. cbn. by rewrite fmap_app, rev_app_distr, app_assoc. Qed.
Lemma emit_mem bs m (s : serial) : emit bs (put m s) = put m (emit bs s).
Proof. done. Qed.
Lemma mem_emit bs s : sr_mem (emit bs s) = sr_mem s.
Proof. done. Qed.
Lemma put_mem m m' (s : serial) : put (m : memory) (put (m' : memory) s) = put m s.
Proof. done. Qed.
Lemma put_own_mem (s : serial) : put (sr_mem s) s = s.
Proof. by destruct s. Qed.
Lemma mem_put m (s : serial) : sr_mem (put m s) = m.
Proof. done. Qed.
#[local] Hint Rewrite emit_app emit_mem mem_emit put_mem put_own_mem mem_put : sent.

Lemma wp_mem {A} (m : M memory A) Q (s : serial) : wp (mem m) Q s = wp m (λ a m', Q a (put m' s)) (sr_mem s).
Proof. unfold mem. by rewrite wp_zoom. Qed.
Lemma put_char_wp c (Q : unit → serial → Prop) s : Q tt (emit [c] s) → wp (put_char c) Q s.
Proof. intros HQ. unfold put_char, com_port. change (0 <? 8) with true. cbn iota. by wp. Qed.

Lemma ld_wp p (Q : Z → serial → Prop) s : Q (sr_mem s !0 p) s → wp (mem (ld p)) Q s.
Proof. intros HQ. rewrite wp_mem. wp. by rewrite put_own_mem. Qed.

(** The character at position [i] of a string, and its end. *)
Lemma cstr_char m p s i x : cstr m p s → s !! i = Some x → m !0 (p + Z.of_nat i) = x ∧ 0 < x < 256.
Proof.
  intros Hs Hx. split; [by apply Hs|]. exact (proj1 (Forall_lookup _ _) (cs_nonzero _ _ _ Hs) _ _ Hx).
Qed.

Lemma debug_puts_wp p t (Q : unit → serial → Prop) s :
  cstr (sr_mem s) p t → Q tt (emit t s) → wp (debug_puts p) Q s.
Proof.
  intros Ht HQ. pose proof (cs_len _ _ _ Ht). unfold debug_puts.
  apply (wp_loop (λ q s', ∃ i, q = p + Z.of_nat i ∧ (i <= length t)%nat ∧ s' = emit (take i t) s)
    (λ q _, p + Z.of_nat (length t) - q)).
  - exists 0%nat. split_and!; [lia|lia|by rewrite emit_nil].
  - unfold fuel32. lia.
  - intros q _ (i & -> & Hi & _). lia.
  - intros q ? (i & -> & Hi & ->). rewrite wp_bind. apply ld_wp. rewrite mem_emit.
    destruct (t !! i) as [x|] eqn:Hx.
    + destruct (cstr_char _ _ _ _ _ Ht Hx) as [-> Hr]. rewrite (proj2 (Z.eqb_neq _ _)) by lia.
      rewrite wp_bind. apply put_char_wp. wp. split; [|lia]. apply lookup_lt_Some in Hx as Hlt. exists (S i).
      split_and!; [lia|lia|]. by rewrite emit_app, (take_S_r _ _ x Hx).
    + apply lookup_ge_None in Hx. assert (i = length t) as -> by lia. rewrite (cs_end _ _ _ Ht). cbn [Z.eqb]. wp.
      by rewrite take_ge in * by lia.
Qed.

(** ** Formats *)

(** The parts of a format, with the arguments they take. *)
Inductive item :=
  | Plain (c : Z)
  | Decimal (n : Z)
  | Hexadecimal (n : Z)
  | Text (p : Z) (t : list Z)
  | Character (c : Z)
  | Truth (n c : Z)
  | Escaped (c : Z).

Definition item_format (it : item) : list Z :=
  match it with
  | Plain c => [c]
  | Decimal _ => [37; 100]
  | Hexadecimal _ => [37; 120]
  | Text _ _ => [37; 115]
  | Character _ => [37; 99]
  | Truth _ c => [37; 98; c]
  | Escaped c => [37; c]
  end.
Definition item_args (it : item) : list Z :=
  match it with
  | Plain _ | Escaped _ => []
  | Decimal n | Hexadecimal n | Character n | Truth n _ => [n]
  | Text p _ => [p]
  end.
(** What is sent for it. *)
Definition item_output (it : item) : list Z :=
  match it with
  | Plain c | Escaped c | Character c => [c]
  | Decimal n => numeral 10 n
  | Hexadecimal n => replicate (8 - length (numeral 16 n)) 48 ++ numeral 16 n
  | Text _ t => t
  | Truth n c => bytes_of_string (if n =? 0 then "false" else "true") ++ [c]
  end.
Definition directives : list Z := [100; 120; 115; 99; 98].

Section rendering.
Variable frame : nat → Z.
Variable literal : string → Z.

(** Apart from the locals of the outer call. *)
Definition apart (d : nat) (p : Z) (t : list Z) : Prop :=
  p + Z.of_nat (length t) < frame d ∨ frame d + frame_size <= p.
(** A string without directives, which [vprintf] does not overwrite. *)
Definition safe_text (d : nat) (m : memory) (p : Z) (t : list Z) : Prop := cstr m p t ∧ 37 ∉ t ∧ apart d p t ∧ is_u32 p.
Definition item_ok (d : nat) (m : memory) (it : item) : Prop :=
  match it with
  | Plain c => c ≠ 37
  | Decimal n => 0 <= n < 2 ^ 31
  | Hexadecimal n => 0 <= n < 2 ^ 32
  | Text p t => safe_text d m p t
  | Character c => 0 < c < 256 ∧ c ≠ 37
  | Truth n c => is_u32 n
  | Escaped c => c ∉ directives
  end.
Definition format_of (its : list item) : list Z := its ≫= item_format.
Definition args_of (its : list item) : list Z := its ≫= item_args.
Definition output_of (its : list item) : list Z := its ≫= item_output.

Definition literals_ok (d : nat) (m : memory) : Prop :=
  ∀ t, t ∈ ["true"; "false"; "| DEBUG"; "| WARNING"; "| ERROR"; backspace]%string →
    safe_text d m (literal t) (bytes_of_string t).
(** The locals are at addresses of their own, and only they change. *)
Definition locals_only (d : nat) (m m' : memory) : Prop :=
  ∀ k, ¬ (frame d <= k < frame d + frame_size) → m' !0 k = m !0 k.

Lemma cstr_locals d m m' p t : cstr m p t → apart d p t → locals_only d m m' → cstr m' p t.
Proof. intros Ht Ha Hm. apply (cstr_frame m); [done|]. intros k Hk. apply Hm. unfold apart in Ha. lia. Qed.

(** A string without directives is sent as it is, whatever the depth. *)
Lemma plain_wp d p t (Q : unit → serial → Prop) s :
  cstr (sr_mem s) p t → 37 ∉ t → Q tt (emit t s) → wp (vprintf frame literal (S d) p []) Q s.
Proof.
  intros Ht Hno HQ. pose proof (cs_len _ _ _ Ht). rewrite vprintf_S.
  apply (wp_loop (λ '(q, vars) s', vars = [] ∧ ∃ i, q = p + Z.of_nat i ∧ (i <= length t)%nat ∧ s' = emit (take i t) s)
    (λ '(q, _) _, p + Z.of_nat (length t) - q)).
  - split; [done|]. exists 0%nat. split_and!; [lia|lia|by rewrite emit_nil].
  - unfold fuel32. lia.
  - intros [q vars] _ (_ & i & -> & Hi & _). lia.
  - intros [q vars] ? (-> & i & -> & Hi & ->). unfold vprintf_step. rewrite wp_bind. apply ld_wp. rewrite mem_emit.
    destruct (t !! i) as [x|] eqn:Hx.
    + destruct (cstr_char _ _ _ _ _ Ht Hx) as [-> Hr]. rewrite (proj2 (Z.eqb_neq x 0)) by lia.
      assert (x ≠ 37) as Hx37 by (intros ->; apply Hno; by eapply list_elem_of_lookup_2).
      rewrite (proj2 (Z.eqb_neq x 37)) by done. cbn [negb]. rewrite wp_bind. apply put_char_wp. wp. split; [|lia].
      apply lookup_lt_Some in Hx as Hlt. split; [done|]. exists (S i). split_and!; [lia|lia|].
      by rewrite emit_app, (take_S_r _ _ x Hx).
    + apply lookup_ge_None in Hx. assert (i = length t) as -> by lia. rewrite (cs_end _ _ _ Ht). cbn [Z.eqb]. wp.
      by rewrite take_ge in * by lia.
Qed.

(** ** One step *)

Lemma locals_only_trans d m1 m2 m3 : locals_only d m1 m2 → locals_only d m2 m3 → locals_only d m1 m3.
Proof. intros H12 H23 k Hk. by rewrite H23, H12. Qed.

Lemma s32_small n : 0 <= n < 2 ^ 31 → s32 n = n.
Proof. intros Hn. unfold s32. rewrite Z.mod_small by lia. lia. Qed.
Lemma itoa_hex n res m : is_u32 n → itoa (s32 n) res 16 m = itoa n res 16 m.
Proof.
  intros Hn. unfold itoa. destruct (res =? 0); [done|].
  change (16 =? 10) with false. rewrite !andb_false_r. cbv zeta.
  assert (u32 (s32 n) = u32 n ∧ (s32 n =? 0) = (n =? 0)) as [-> ->].
  { unfold s32, u32, is_u32 in *. destruct (decide (n < 2 ^ 31)).
    - rewrite (Z.mod_small (n + _)) by lia. by replace (n + 2 ^ 31 - 2 ^ 31) with n by lia.
    - replace (n + 2 ^ 31) with (n - 2 ^ 31 + 1 * 2 ^ 32) by lia. rewrite Z.mod_add, (Z.mod_small (n - _)) by lia.
      replace (n - 2 ^ 31 - 2 ^ 31) with (n + (-1) * 2 ^ 32) by lia. rewrite Z.mod_add by lia. split; [done|].
      destruct (Z.eqb_spec (n + (-1) * 2 ^ 32) 0), (Z.eqb_spec n 0); lia. }
  done.
Qed.
Lemma wp_itoa_hex n res m (Q : unit → memory → Prop) : is_u32 n → wp (itoa n res 16) Q m → wp (itoa (s32 n) res 16) Q m.
Proof. intros Hn. unfold wp. by rewrite itoa_hex. Qed.

Section step.
Variables (d : nat) (p : Z).
Notation D := (S d).
Notation step := (vprintf_step frame literal (λ str, vprintf frame literal D str []) D).

(** What one step does with a part of the format that stands at [p]. *)
Definition step_sends (s : serial) (vars : list Z) (it : item) : Prop :=
  ∀ Q : Z * list Z + unit → serial → Prop,
    (∀ m', locals_only D (sr_mem s) m' →
       Q (inl (p + Z.of_nat (length (item_format it)), vars)) (put m' (emit (item_output it) s))) →
    wp (step (p, item_args it ++ vars)) Q s.

Variables (s : serial) (vars : list Z).
Context (Hframe : 0 < frame D).

Ltac directive := 
  match goal with Ht : text_at _ _ _ |- _ =>
    let H0 := fresh "H0" in let H1 := fresh "H1" in
    destruct (text_at_cons _ _ _ Ht) as [H0 [H1 Htail]%text_at_cons];
    unfold vprintf_step; rewrite wp_bind; apply ld_wp; rewrite H0; cbn [Z.eqb Pos.eqb negb];
    rewrite wp_bind; apply ld_wp; rewrite H1; cbn [Z.eqb Pos.eqb item_args app va_arg] end.

Lemma plain_step c : text_at (λ k, sr_mem s !0 k) p [c] → 0 < c → c ≠ 37 → step_sends s vars (Plain c).
Proof.
  intros [H0 _]%text_at_cons Hc Hc37 Q HQ. unfold vprintf_step. rewrite wp_bind. apply ld_wp. rewrite H0.
  rewrite (proj2 (Z.eqb_neq c 0)), (proj2 (Z.eqb_neq c 37)) by lia. cbn [negb]. rewrite wp_bind. apply put_char_wp. wp.
  specialize (HQ (sr_mem s)). rewrite <- (put_own_mem (emit [c] s)). by apply HQ.
Qed.

Lemma escaped_step c : text_at (λ k, sr_mem s !0 k) p [37; c] → c ∉ directives → step_sends s vars (Escaped c).
Proof.
  intros Ht Hc Q HQ. directive. unfold directives in Hc.
  repeat rewrite not_elem_of_cons in Hc. destruct Hc as (? & ? & ? & ? & ? & _).
  do 5 (rewrite (proj2 (Z.eqb_neq c _)) by done). rewrite wp_bind. apply put_char_wp. wp.
  replace (p + 1 + 1) with (p + 2) by lia. rewrite <- (put_own_mem (emit [c] s)). by apply HQ.
Qed.

Lemma decimal_step n : text_at (λ k, sr_mem s !0 k) p [37; 100] → 0 <= n < 2 ^ 31 → step_sends s vars (Decimal n).
Proof using Hframe.
  intros Ht Hn Q HQ. directive. wp. rewrite u32_id, s32_small by (unfold is_u32; lia). rewrite wp_mem.
  apply itoa_numeral_wp; [lia|lia|unfold numb; lia|]. intros m' Hs' Hl12 Hfr. wp. eapply debug_puts_wp; [exact Hs'|].
  wp. replace (p + 1 + 1) with (p + 2) by lia. apply HQ. intros k Hk. apply Hfr. unfold numb, frame_size in *. lia.
Qed.

Lemma text_step ptr t : text_at (λ k, sr_mem s !0 k) p [37; 115] → safe_text D (sr_mem s) ptr t → step_sends s vars (Text ptr t).
Proof.
  intros Ht (Hs & Hno & _ & Hp) Q HQ. directive. wp. rewrite u32_id by done.
  apply (plain_wp d ptr t); [done|done|]. wp. replace (p + 1 + 1) with (p + 2) by lia.
  rewrite <- (put_own_mem (emit t s)). by apply HQ.
Qed.

Lemma character_step c : text_at (λ k, sr_mem s !0 k) p [37; 99] → 0 < c < 256 → c ≠ 37 → step_sends s vars (Character c).
Proof.
  intros Ht Hc Hc37 Q HQ. directive. wp. rewrite u32_id by (unfold is_u32; lia). rewrite wp_mem. wp. rewrite wp_mem. wp.
  rewrite put_mem, mem_put, (u8_id c) by (unfold is_u8; lia). set (m' := <[_ := u8 0]> _).
  apply (plain_wp d _ [c]).
  - cbn. split; [| |by constructor|cbn; lia].
    + intros [|k] x Hx; [|done]. injection Hx as <-. unfold m'. by rewrite Z.add_0_r, zget_insert_ne, zget_insert_eq by lia.
    + unfold m'. cbn [length]. by rewrite zget_insert_eq.
  - by rewrite list_elem_of_singleton.
  - wp. replace (p + 1 + 1) with (p + 2) by lia. apply (HQ m'). intros k Hk. unfold m', single, frame_size in *.
    by rewrite !zget_insert_ne by lia.
Qed.

Lemma truth_step n c : text_at (λ k, sr_mem s !0 k) p [37; 98; c] → is_u32 n → literals_ok D (sr_mem s) → step_sends s vars (Truth n c).
Proof.
  clear Hframe.
  intros Ht Hn Hlit Q HQ. directive. destruct (text_at_cons _ _ _ Htail) as [H2 _]. wp. rewrite u32_id by done.
  set (t := if n =? 0 then "false"%string else "true"%string).
  assert ((if n =? 0 then literal "false" else literal "true") = literal t) as -> by (unfold t; by destruct (n =? 0)).
  destruct (Hlit t) as (Hs & Hno & _ & _); [unfold t; destruct (n =? 0); set_solver|].
  apply (plain_wp d _ (bytes_of_string t)); [done|done|]. wp. apply ld_wp. rewrite mem_emit.
  replace (sr_mem s !0 (p + 1 + 1)) with c by done. rewrite wp_bind. apply put_char_wp. rewrite emit_app. wp.
  replace (p + 1 + 1 + 1) with (p + 3) by lia. fold t in HQ. rewrite <- (put_own_mem (emit _ s)).
  specialize (HQ (sr_mem s) ltac:(done)). unfold t in HQ |- *. exact HQ.
Qed.

Lemma numeral_hex_length n : 0 <= n < 2 ^ 32 → (1 <= length (numeral 16 n) <= 8)%nat.
Proof.
  intros Hn. unfold numeral. destruct (Z.eqb_spec n 0) as [|Hnz]; [simpl; lia|]. rewrite length_reverse, length_fmap.
  split; [|apply digits_length; simpl; lia]. cbn [digits]. rewrite (proj2 (Z.eqb_neq n 0)) by done. simpl. lia.
Qed.

Lemma hexadecimal_step n : text_at (λ k, sr_mem s !0 k) p [37; 120] → 0 <= n < 2 ^ 32 → step_sends s vars (Hexadecimal n).
Proof using Hframe.
  intros Ht Hn Q HQ. directive. wp. rewrite u32_id by (unfold is_u32; lia). rewrite wp_mem.
  pose proof (numeral_hex_length n Hn) as Hlen. apply wp_itoa_hex; [done|].
  apply (itoa_numeral_wp n (numb frame D) 16); [lia|lia|unfold numb; lia|]. intros m1 Hs1 _ Hfr1. wp. rewrite wp_mem. cbn [serial_memory put sr_mem].
  eapply strpad_wp; [exact Hs1|lia|lia|unfold pad_tmp; lia|unfold numb; lia|unfold pad_tmp, numb; lia|].
  intros m2 Hs2 Hfr2. wp. eapply debug_puts_wp; [exact Hs2|]. wp. replace (p + 1 + 1) with (p + 2) by lia.
  replace (Z.to_nat (8 - Z.of_nat (length (numeral 16 n)))) with (8 - length (numeral 16 n))%nat by lia. apply HQ.
  intros k Hk. unfold numb, pad_tmp, frame_size in *. rewrite Hfr2, Hfr1 by lia. done.
Qed.

Lemma item_step it :
  text_at (λ k, sr_mem s !0 k) p (item_format it) → Forall (λ x, 0 < x < 256) (item_format it) →
  item_ok D (sr_mem s) it → literals_ok D (sr_mem s) → step_sends s vars it.
Proof using Hframe.
  intros Ht Hnz Hok Hlit. destruct it as [c|n|n|q t|c|n c|c]; cbn [item_format item_ok] in *.
  - apply plain_step; [done|apply Forall_cons_1 in Hnz as [? _]; lia|done].
  - by apply decimal_step.
  - by apply hexadecimal_step.
  - by apply text_step.
  - destruct Hok. by apply character_step.
  - by apply truth_step.
  - by apply escaped_step.
Qed.
End step.

(** ** The whole format *)

Lemma safe_text_locals d m m' p t : safe_text d m p t → locals_only d m m' → safe_text d m' p t.
Proof. intros (Hs & Hno & Ha & Hp) Hm. split_and!; try done; [by eapply cstr_locals|apply Hp..]. Qed.
Lemma item_ok_locals d m m' it : item_ok d m it → locals_only d m m' → item_ok d m' it.
Proof. destruct it; cbn; try done. by apply safe_text_locals. Qed.
Lemma literals_ok_locals d m m' : literals_ok d m → locals_only d m m' → literals_ok d m'.
Proof. intros Hl Hm t Ht. by apply (safe_text_locals d m), Hm; apply Hl. Qed.

Lemma item_format_length it : (0 < length (item_format it))%nat.
Proof. destruct it; simpl; lia. Qed.

Lemma vprintf_wp d p its (Q : unit → serial → Prop) s :
  let fmt := format_of its in
  0 < frame (S d) → cstr (sr_mem s) p fmt → apart (S d) p fmt → literals_ok (S d) (sr_mem s) →
  Forall (item_ok (S d) (sr_mem s)) its →
  (∀ m', locals_only (S d) (sr_mem s) m' → Q tt (put m' (emit (output_of its) s))) →
  wp (vprintf frame literal (S (S d)) p (args_of its)) Q s.
Proof.
  intros fmt Hf Hs Ha Hlit Hits HQ. pose proof (cs_len _ _ _ Hs).
  rewrite vprintf_S.
  apply (wp_loop (λ '(q, vars) s', ∃ ds rest m', its = ds ++ rest ∧ q = p + Z.of_nat (length (format_of ds)) ∧
    vars = args_of rest ∧ locals_only (S d) (sr_mem s) m' ∧ s' = put m' (emit (output_of ds) s))
    (λ '(q, _) _, p + Z.of_nat (length fmt) - q)).
  - exists [], its, (sr_mem s). split_and!; [done|simpl; lia|done|done|]. by rewrite emit_nil, put_own_mem.
  - unfold fuel32. lia.
  - intros [q vars] _ (ds & rest & m' & E & -> & _). unfold fmt, format_of. rewrite E, bind_app, length_app. lia.
  - intros [q vars] ? (ds & rest & m' & E & -> & -> & Hm & ->).
    assert (cstr m' p fmt) as Hs' by (by apply (cstr_locals (S d) (sr_mem s))).
    destruct rest as [|it rest].
    + rewrite app_nil_r in E. subst ds. unfold vprintf_step. rewrite wp_bind. apply ld_wp. rewrite mem_put. fold fmt.
      rewrite (cs_end _ _ _ Hs'). cbn [Z.eqb]. wp. by apply HQ.
    + assert (fmt = format_of ds ++ item_format it ++ format_of rest) as Ef
        by (unfold fmt, format_of; rewrite E, bind_app; done).
      assert (text_at (λ k, m' !0 k) p fmt) as Ht by (intros k x; apply Hs').
      rewrite Ef in Ht. apply text_at_app in Ht as [_ [Ht _]%text_at_app].
      rewrite E in Hits. apply Forall_app in Hits as [_ [Hit _]%Forall_cons].
      assert (Forall (λ x, 0 < x < 256) (item_format it)) as Hnz.
      { pose proof (cs_nonzero _ _ _ Hs') as Hn. rewrite Ef in Hn. apply Forall_app in Hn as [_ [Hn _]%Forall_app]. done. }
      assert (step_sends d (p + Z.of_nat (length (format_of ds))) (put m' (emit (output_of ds) s)) (args_of rest) it) as Hstep.
      { apply item_step; [exact Hf|exact Ht|exact Hnz|by apply (item_ok_locals _ (sr_mem s))|by apply (literals_ok_locals _ (sr_mem s))]. }
      change (args_of (it :: rest)) with (item_args it ++ args_of rest). refine (Hstep _ _). intros m'' Hm''. split.
      * exists (ds ++ [it]), rest, m''. rewrite <- app_assoc. split_and!; [done| |done|by eapply locals_only_trans|].
        -- unfold format_of. rewrite bind_app, length_app. cbn. rewrite app_nil_r. lia.
        -- rewrite emit_mem, put_mem, emit_app. unfold output_of. rewrite bind_app. cbn. by rewrite app_nil_r.
      * pose proof (item_format_length it). rewrite Ef, !length_app. lia.
Qed.


(** A line of the log: its module, the name of its type, and the text. *)
Definition log_items (module : Z) (name : list Z) (type : string) : list item :=
  [Plain 91; Plain 32; Text module name; Plain 32; Text (literal type) (bytes_of_string type); Plain 32; Plain 93; Plain 32].
Lemma log_items_output module name type out :
  output_of (log_items module name type) ++ out =
    bytes_of_string "[ " ++ name ++ [32] ++ bytes_of_string type ++ bytes_of_string " ] " ++ out.
Proof.
  change (bytes_of_string "[ ") with [91; 32]. change (bytes_of_string " ] ") with [32; 93; 32].
  unfold output_of, log_items. cbn [mbind list_bind item_output]. cbn [app]. do 2 f_equal.
  rewrite <- !app_assoc. f_equal. cbn [app]. f_equal. by rewrite <- app_assoc.
Qed.
Lemma mlog_wp module name p type its (Q : unit → serial → Prop) s :
  0 < frame 2 → 1 <= type <= 4 → safe_text 2 (sr_mem s) module name →
  cstr (sr_mem s) (literal "[ %s %s ] ") (bytes_of_string "[ %s %s ] ") →
  apart 2 (literal "[ %s %s ] ") (bytes_of_string "[ %s %s ] ") →
  cstr (sr_mem s) p (format_of its) → apart 2 p (format_of its) → literals_ok 2 (sr_mem s) →
  Forall (item_ok 2 (sr_mem s)) its →
  (∀ m', locals_only 2 (sr_mem s) m' →
     Q tt (put m' (emit (bytes_of_string "[ " ++ name ++ [32] ++ bytes_of_string (log_info_types type) ++
                         bytes_of_string " ] " ++ output_of its) s))) →
  wp (mlog frame literal module p type (args_of its)) Q s.
Proof.
  intros Hf Htype Hname Hpre Hpa Hs Ha Hlit Hits HQ. unfold mlog.
  rewrite (proj2 (Z.eqb_neq type 0)), (proj2 (Z.ltb_ge 4 type)) by lia. cbn [orb]. rewrite wp_bind.
  set (ty := log_info_types type).
  assert (safe_text 2 (sr_mem s) (literal ty) (bytes_of_string ty)) as Hty.
  { apply Hlit. unfold ty, log_info_types. repeat case_match; set_solver. }
  change [module; literal ty] with (args_of (log_items module name ty)).
  apply (vprintf_wp 1); try done.
  { repeat (apply Forall_cons; split); try done. }
  intros m1 Hm1. apply (vprintf_wp 1); [exact Hf|by apply (cstr_locals 2 (sr_mem s))|exact Ha|by apply (literals_ok_locals _ (sr_mem s))| |].
  - eapply Forall_impl; [exact Hits|]. intros it Hit. by apply (item_ok_locals _ (sr_mem s)).
  - intros m2 Hm2. rewrite emit_mem, put_mem, emit_app. specialize (HQ m2 (locals_only_trans _ _ _ _ Hm1 Hm2)).
    rewrite log_items_output. exact HQ.
Qed.
End rendering.

(** ** The registers *)

(** Without a port a byte is kept in the buffer, but it is also written to port 0; reading
    returns what stands behind it and not the byte itself. *)
Lemma serial_buffer_wp device port b (Q : Z → serial → Prop) s :
  0 <= port < 8 → com_ports s !0 port = 0 → 0 <= com_buffer_index s !0 port < 127 →
  let i := com_buffer_index s !0 port in
  (∀ s', sr_io s' = Out 8 0 (u8 b) :: sr_io s → com_buffer_index s' !0 port = i →
     com_buffer s' !0 (port * 128 + i) = u8 b → Q (com_buffer s !0 (port * 128 + (i + 1))) s') →
  wp (serial_writeb port b;; serial_readb device port) Q s.
Proof.
  intros Hp H0 Hi i HQ. fold i in Hi. unfold serial_writeb, serial_readb, com_port, com_slot.
  rewrite (proj2 (Z.ltb_lt port 8)) by lia. wp. rewrite H0. change (0 =? 0) with true. cbn iota. wp. fold i.
  rewrite (proj2 (Z.ltb_lt (port * 128 + i) 1024)) by lia. wp. cbn. rewrite H0. change (0 =? 0) with true. cbn iota. wp. cbn.
  rewrite !zget_insert_eq. replace (u8 (i + 1)) with (i + 1) by (symmetry; apply u8_id; unfold is_u8; lia).
  replace (i + 1 - 1) with i by lia. rewrite (u8_id i) by (unfold is_u8; lia).
  rewrite (proj2 (Z.ltb_lt (port * 128 + (i + 1)) 1024)) by lia. wp. cbn. rewrite zget_insert_ne by lia. apply HQ; cbn.
  - reflexivity.
  - by rewrite zget_insert_eq.
  - by rewrite zget_insert_eq.
Qed.

(** ** An example *)

Lemma cstr_of_list m p s :
  (λ i, m !0 (p + i)) <$> seqZ 0 (Z.of_nat (length (s ++ [0]))) = s ++ [0] → Forall (λ x, 0 < x < 256) s →
  Z.of_nat (length s) < 2 ^ 31 → cstr m p s.
Proof.
  intros Hm%text_at_seqZ Hnz Hl. apply text_at_app in Hm as [Hm [He _]%text_at_cons]. split; try done.
Qed.

Definition example_literal (t : string) : Z :=
  if decide (t = "true"%string) then 0x2000 else if decide (t = "false"%string) then 0x2010
  else if decide (t = "| DEBUG"%string) then 0x2020 else if decide (t = "| WARNING"%string) then 0x2030
  else if decide (t = "| ERROR"%string) then 0x2040 else 0x2050.
(** "u=%x %d%%%s%c%b" and a line feed. *)
Definition example_items : list item :=
  [Plain 117; Plain 61; Hexadecimal 48879; Plain 32; Decimal 1030; Escaped 37; Text 0x3000 [111; 107]; Character 33; Truth 1 10].
Definition example_memory : memory :=
  store_bytes 0x1000 (format_of example_items ++ [0])
    (store_bytes 0x3000 [111; 107; 0]
      (foldr (λ t, store_bytes (example_literal t) (bytes_of_string t ++ [0])) ∅
         ["true"; "false"; "| DEBUG"; "| WARNING"; "| ERROR"; backspace]%string)).
Definition example_serial : serial := Serial [] example_memory {[0 := 0x3f8]} ∅ ∅.
Definition example_frame (d : nat) : Z := 0x100 + 64 * Z.of_nat d.

Ltac cstr_by_computation := apply cstr_of_list; [vm_compute; reflexivity|by_computation|by_computation].

Lemma example_literals_ok : literals_ok example_frame example_literal 2 (sr_mem example_serial).
Proof.
  intros t Ht. repeat rewrite elem_of_cons in Ht.
  destruct Ht as [->|[->|[->|[->|[->|[->|Hnil]]]]]]; [..|by apply elem_of_nil in Hnil];
    (split; [cstr_by_computation|]; split; [by_computation|]; split; [|by_computation]; right; by_computation).
Defined.

