(* ===== verification/Pci.v ===== *)
(** * PCI (src/src/kernel/drivers/pci.c)

    Reading and writing of configuration space through a pair of ports, the
    search for devices on all buses, and the files made for them.  A file of a
    device has its own operations; which device it is is kept in its [id]: in the
    model [driver_ops id]. *)
From S2P Require Import Prelude Ports RamFS.

(** The names; a row is 20 pointers long, the missing ones are null. *)
Definition classes : list (list string) := [
  [];
  ["scsi"; "ide"; "floppy"; "ipi"; "raid"; "ata"; "sata"; "sascsi"; "nvm"];
  ["eth"; "tring"; "fddi"; "atm"; "isdn"; "wordfip"; "picmg"; "infband"; "fabric"];
  ["vga"; "xga"; "nvga3d"];
  [];
  [];
  ["host"; "isa"; "eisa"; "mca"; "pci"; "pcmcia"; "nubus"; "cardbus"];
  [];
  ["pic"; "dma"; "timer"; "rtc"]
]%string.

Record pci := Pci { pci_ports : ports; pci_fs : fs }.
#[export, refine] Instance pci_lens_ports : Lens pci ports := {| view := pci_ports; put x s := Pci x (pci_fs s) |}.
Proof. all: done || by intros []. Defined.
#[export, refine] Instance pci_lens_fs : Lens pci fs := {| view := pci_fs; put x s := Pci (pci_ports s) x |}.
Proof. all: done || by intros []. Defined.

(** The lenses are needed at other states too: configuration space needs only the ports. *)
Section config.
Context {S : Type} `{!Lens S ports}.
Variable device : ports → Z → Z → Z.

Definition pci_address (bus slot func offset : Z) : Z :=
  u32 (Z.lor (Z.lor (Z.lor (Z.lor (Z.shiftl bus 16) (Z.shiftl slot 11)) (Z.shiftl func 8)) (Z.land (u8 offset) 0xfc)) 0x80000000).

Definition pci_read_config (bus slot func offset : Z) : M S Z :=
  outl 0xcf8 (pci_address bus slot func offset);;
  v ← inl32 device 0xcfc;
  mret (u16 (Z.land (Z.shiftr v (Z.land (u8 offset) 2 * 8)) 0xffff)).

Definition pci_write_config (bus slot func offset word : Z) : M S Z :=
  outl 0xcf8 (pci_address bus slot func offset);;
  outl 0xcfc (u16 word);;
  mret 0.

(** The value is what is put into the buffer. *)
Definition pci_read_file (id offset count : Z) : M S (list Z) :=
  let bus := u8 (Z.shiftr id 16) in
  let func := u8 (Z.land (Z.shiftr id 8) 0xff) in
  let slot := u8 (Z.land id 0xff) in
  r ← fora_loop (R := unit) 0 (u32 (count / 4)) (λ i buffer,
    lo ← pci_read_config bus slot func (offset + i * 4);
    hi ← pci_read_config bus slot func (u8 offset + i * 4 + 2);
    mret (inl (buffer ++ [u32 (Z.lor lo (Z.shiftl hi 16))]))) [];
  mret (match r with inl b => b | inr _ => [] end).
End config.

Section devices.
Variable device : ports → Z → Z → Z.
(** The file system's parameters, and what is found at address 0 when a class
    has no name. *)
Variable can_alloc : Z → fs → bool.
Variable junk : Z → list Z.
Variable mount_rfopen : list Z → Z → fs → Z.
Variable mount_create : Z → list Z → Z → M fs Z.
Variable at_null : list Z.

Definition fs_create (path : list Z) (flags : Z) : M pci Z :=
  zoom (T := fs) (fcreate can_alloc junk mount_rfopen mount_create path flags).

(** [file->fileops] and [file->id]. *)
Definition set_device (file id : Z) : M pci unit :=
  zoom (T := fs) (
    v ← get_vfile file;
    modify (set_vfile file (VFile (vname v) (vflags v) (driver_ops id) (refcount v) (private v) (vsize v) (block_size_bytes v)))).

Definition class_name (class : Z) : M pci (list Z) :=
  match classes !! Z.to_nat (Z.shiftr class 8) with
  | Some row => mret (match row !! Z.to_nat (Z.land class 0xf) with Some n => bytes_of_string n | None => at_null end)
  | None => fail (OutOfBounds (Z.shiftr class 8))
  end.

(** The directory of a class; for disks the device is made a bus master. *)
Definition class_directory (class bus slot func : Z) : M pci (list Z) :=
  let c := Z.shiftr class 8 in
  if c =? 0x1 then
    lo ← pci_read_config device bus slot func 0x4;
    hi ← pci_read_config device bus slot func 0x6;
    let l := Z.lor lo (u32 (Z.shiftl hi 16)) in
    _ ← pci_write_config bus slot func 0x4 (Z.lor l 4);
    mret (bytes_of_string "disk/")
  else mret (bytes_of_string (if c =? 0x2 then "net/" else if c =? 0x3 then "video/" else if c =? 0x6 then "bridge/" else "")).

(** [tries] is 0 for every file: the loop around it is commented out. *)
Definition pci_make_file (class bus slot func : Z) : M pci unit :=
  dev ← class_name class;
  dir ← class_directory class bus slot func;
  file ← fs_create (bytes_of_string "/dev/pci/" ++ dir ++ dev ++ bytes_of_string "0") 0;
  if file =? 0 then skip
  else set_device file (Z.lor (Z.lor slot (Z.shiftl func 8)) (Z.shiftl bus 16)).

Definition pci_read_funcs (bus slot : Z) : M pci unit :=
  for_all 1 256 (λ i,
    vendor ← pci_read_config device bus slot i 0;
    when (negb (vendor =? 0xffff)) (
      _ ← pci_read_config device bus slot i 2;
      _ ← pci_read_config device bus slot i 0xe;
      class ← pci_read_config device bus slot i 0xa;
      pci_make_file class bus slot (u8 i))).

Definition pci_get_vendor (bus slot : Z) : M pci Z :=
  vendor ← pci_read_config device bus slot 0 0;
  when (negb (vendor =? 0xffff)) (
    _ ← pci_read_config device bus slot 0 2;
    header ← pci_read_config device bus slot 0 0xe;
    class ← pci_read_config device bus slot 0 0xa;
    when (negb (Z.land header 0x80 =? 0)) (pci_read_funcs bus slot);;
    pci_make_file class bus slot 0);;
  mret vendor.

Definition pci_enumerate_bus (bus : Z) : M pci unit :=
  for_all 0 32 (λ i, _ ← pci_get_vendor bus (u8 i); skip).

Definition pci_init : M pci unit :=
  _ ← fs_create (bytes_of_string "/dev/pci/") FS_FILE_IS_DIR;
  _ ← fs_create (bytes_of_string "/dev/pci/disk") FS_FILE_IS_DIR;
  _ ← fs_create (bytes_of_string "/dev/pci/net") FS_FILE_IS_DIR;
  _ ← fs_create (bytes_of_string "/dev/pci/video") FS_FILE_IS_DIR;
  _ ← fs_create (bytes_of_string "/dev/pci/bridge") FS_FILE_IS_DIR;
  for_all 0 256 (λ i, pci_enumerate_bus (u8 i)).
End devices.

(** ** Configuration space, by its specification *)

(** The host bridge: a write to 0xcf8 selects a word of the configuration space
    of one function, a write to 0xcfc changes it, a read of 0xcfc returns it. *)
Record bridge := Bridge { selected : Z; space : Z → Z }.
Definition bridge_step (e : io) (b : bridge) : bridge :=
  match e with
  | Out 32 p v =>
      if p =? 0xcf8 then Bridge v (space b)
      else if p =? 0xcfc then
        if Z.testbit (selected b) 31
        then Bridge (selected b) (λ x, if x =? selected b / 4 * 4 then u32 v else space b x) else b
      else b
  | _ => b
  end.
Definition bridge_after (b : bridge) (l : ports) : bridge := foldr bridge_step b l.

(** The word of function [func] of device [slot] that holds byte [reg]. *)
Definition config_word (bus slot func reg : Z) : Z :=
  2 ^ 31 + 65536 * bus + 2048 * slot + 256 * func + reg / 4 * 4.

Lemma shiftl_lor_shiftl a b j k :
  0 <= j → 0 <= k → Z.lor (Z.shiftl a (j + k)) (Z.shiftl b k) = Z.shiftl (Z.lor (Z.shiftl a j) b) k.
Proof. intros. by rewrite Z.shiftl_lor, Z.shiftl_shiftl. Qed.

(** Function numbers from 8 on reach into the device number. *)
Lemma slot_func slot func :
  0 <= func → Z.lor (Z.shiftl slot 3) func = Z.shiftl (Z.lor slot (func / 8)) 3 + func mod 8.
Proof.
  intros Hf. rewrite (Z.shiftl_mul_pow2 (Z.lor slot _)) by lia. rewrite <- lor_shiftl_add by (pose proof (Z.mod_pos_bound func 8); lia).
  rewrite Z.shiftl_lor, <- Z.lor_assoc. f_equal. rewrite lor_shiftl_add by (pose proof (Z.mod_pos_bound func 8); lia).
  change (2 ^ 3) with 8. pose proof (Z.div_mod func 8 ltac:(lia)). lia.
Qed.

Lemma lor_bound a b n : 0 <= n → 0 <= a < 2 ^ n → 0 <= b < 2 ^ n → 0 <= Z.lor a b < 2 ^ n.
Proof.
  intros Hn Ha Hb. assert (0 <= Z.lor a b) by (apply Z.lor_nonneg; lia). split; [done|].
  destruct (decide (Z.lor a b = 0)) as [->|]; [lia|]. apply Z.log2_lt_pow2; [lia|]. rewrite Z.log2_lor by lia.
  destruct (decide (n = 0)) as [->|]; [change (2 ^ 0) with 1 in *; assert (a = 0) as -> by lia; assert (b = 0) as -> by lia; done|].
  apply Z.max_lub_lt.
  - destruct (decide (a = 0)) as [->|]; [rewrite Z.log2_nonpos; lia|apply Z.log2_lt_pow2; lia].
  - destruct (decide (b = 0)) as [->|]; [rewrite Z.log2_nonpos; lia|apply Z.log2_lt_pow2; lia].
Qed.

Lemma land_fc x : 0 <= x < 256 → Z.land x 0xfc = x / 4 * 4.
Proof.
  intros Hx. change 0xfc with (Z.land (Z.shiftl (Z.ones (32 - 2)) 2) 0xff). rewrite Z.land_assoc.
  rewrite (land_high x 2) by (unfold is_u32; lia). change (2 ^ 2) with 4. change 0xff with (Z.ones 8). rewrite land_low by lia.
  change (2 ^ 8) with 256. apply Z.mod_small. pose proof (Z.div_mod x 4 ltac:(lia)). pose proof (Z.mod_pos_bound x 4 ltac:(lia)). lia.
Qed.

Lemma pci_address_eq bus slot func offset :
  0 <= bus < 256 → 0 <= slot < 32 → 0 <= func < 256 →
  pci_address bus slot func offset = config_word bus (Z.lor slot (func / 8)) (func mod 8) (u8 offset).
Proof.
  intros Hb Hs Hf. unfold pci_address, config_word. pose proof (is_u8_u8 offset) as Ho. set (o := u8 offset) in *. unfold is_u8 in Ho.
  pose proof (Z.mod_pos_bound func 8 ltac:(lia)) as Hm.
  assert (0 <= Z.lor slot (func / 8) < 2 ^ 5) as Hl.
  { apply lor_bound; [lia|lia|]. split; [apply Z.div_pos; lia|apply Z.div_lt_upper_bound; lia]. }
  pose proof (Z.div_mod o 4 ltac:(lia)). pose proof (Z.mod_pos_bound o 4 ltac:(lia)).
  rewrite land_fc by done.
  assert (Z.lor (Z.lor (Z.shiftl bus 16) (Z.shiftl slot 11)) (Z.shiftl func 8) =
    Z.shiftl (bus * 2 ^ 8 + (Z.lor slot (func / 8) * 2 ^ 3 + func mod 8)) 8) as ->.
  { change 16 with (8 + 8). change 11 with (3 + 8). rewrite <- Z.lor_assoc.
    rewrite (shiftl_lor_shiftl slot func 3 8) by lia. rewrite (shiftl_lor_shiftl bus _ 8 8) by lia. f_equal.
    rewrite slot_func by lia. rewrite (Z.shiftl_mul_pow2 (Z.lor slot _)) by lia. rewrite lor_shiftl_add; [done|lia|]. change (2 ^ 3) with 8. lia. }
  rewrite lor_shiftl_add by lia. rewrite Z.lor_comm. change 0x80000000 with (Z.shiftl 1 31).
  rewrite lor_shiftl_add by (change (2 ^ 3) with 8; lia). rewrite u32_id by (unfold is_u32; change (2 ^ 3) with 8; lia).
  change (2 ^ 3) with 8. lia.
Qed.

Section config_proofs.
Context {S : Type} `{!Lens S ports}.
Variable device : ports → Z → Z → Z.
Variable b0 : bridge.

(** What the bridge answers. *)
Definition bridge_reads : Prop := ∀ l,
  Z.testbit (selected (bridge_after b0 l)) 31 = true →
  u32 (device l 32 0xcfc) = space (bridge_after b0 l) (selected (bridge_after b0 l) / 4 * 4).
Hypothesis Hhw : bridge_reads.

(** Configuration space as it is now. *)
Definition config (s : S) : Z → Z := space (bridge_after b0 (view s)).

Lemma config_word_select bus slot func reg :
  0 <= bus < 256 → 0 <= slot < 32 → 0 <= func < 8 → 0 <= reg < 256 →
  is_u32 (config_word bus slot func reg) ∧ Z.testbit (config_word bus slot func reg) 31 = true ∧
  config_word bus slot func reg / 4 * 4 = config_word bus slot func reg.
Proof using Type.
  intros Hb Hs Hf Hr. unfold config_word. pose proof (Z.div_mod reg 4 ltac:(lia)). pose proof (Z.mod_pos_bound reg 4 ltac:(lia)).
  split_and!.
  - unfold is_u32. lia.
  - rewrite Z.testbit_true by lia. match goal with |- (?x / _) mod _ = _ => replace (x / 2 ^ 31) with 1; [done|] end.
    apply (Z.div_unique_pos _ _ _ (65536 * bus + 2048 * slot + 256 * func + reg / 4 * 4)); lia.
  - change (2 ^ 31) with (4 * 536870912).
    replace (4 * 536870912 + 65536 * bus + 2048 * slot + 256 * func + reg / 4 * 4)
      with ((536870912 + 16384 * bus + 512 * slot + 64 * func + reg / 4) * 4) by lia.
    by rewrite Z.div_mul.
Qed.

(** The function that really answers. *)
Definition target (bus slot func reg : Z) : Z := config_word bus (Z.lor slot (func / 8)) (func mod 8) reg.

Lemma target_select bus slot func offset :
  0 <= bus < 256 → 0 <= slot < 32 → 0 <= func < 256 →
  let a := target bus slot func (u8 offset) in
  pci_address bus slot func offset = a ∧ u32 a = a ∧ Z.testbit a 31 = true ∧ a / 4 * 4 = a.
Proof using Type.
  intros Hb Hs Hf. cbv zeta. split; [by apply pci_address_eq|].
  destruct (config_word_select bus (Z.lor slot (func / 8)) (func mod 8) (u8 offset)) as (H1 & H2 & H3); try done.
  - apply (lor_bound _ _ 5); [lia|lia|]. split; [apply Z.div_pos; lia|apply Z.div_lt_upper_bound; lia].
  - apply Z.mod_pos_bound. lia.
  - apply is_u8_u8.
  - by rewrite u32_id.
Qed.

Lemma pci_read_config_wp bus slot func offset (Q : Z → S → Prop) s :
  0 <= bus < 256 → 0 <= slot < 32 → 0 <= func < 256 →
  (∀ s', config s' = config s →
     Q (u16 (Z.land (Z.shiftr (config s (target bus slot func (u8 offset))) (Z.land (u8 offset) 2 * 8)) 0xffff)) s') →
  wp (pci_read_config device bus slot func offset) Q s.
Proof using Hhw.
  intros Hb Hs Hf HQ. destruct (target_select bus slot func offset Hb Hs Hf) as (Ha & Hu & Ht & Hd).
  unfold pci_read_config. wp. unfold port_reply. change (u16 0xcf8) with 0xcf8. change (u16 0xcfc) with 0xcfc.
  rewrite Ha, Hu. rewrite Hhw by (rewrite view_log_io; done). rewrite view_log_io.
  unfold bridge_after at 1 2. cbn [foldr bridge_step Z.eqb Pos.eqb selected space]. rewrite Hd. apply HQ.
  unfold config. by rewrite !view_log_io.
Qed.

(** Reading configuration space.  For a function below 8 the halfword read is the
    one at the offset; a function number from 8 on is not refused but
    answered by another device, and nothing is changed by a read. *)
Theorem pci_read_config_spec bus slot func offset (s : S) :
  0 <= bus < 256 → 0 <= slot < 32 → 0 <= func < 256 →
  let a := config_word bus (Z.lor slot (func / 8)) (func mod 8) (u8 offset) in
  ∃ s', pci_read_config device bus slot func offset s =
          Ok (u16 (Z.land (Z.shiftr (config s a) (Z.land (u8 offset) 2 * 8)) 0xffff), s') ∧ config s' = config s.
Proof using Hhw.
  intros Hb Hs Hf a.
  destruct (proj1 (wp_ok (pci_read_config device bus slot func offset) (λ r s',
    r = u16 (Z.land (Z.shiftr (config s a) (Z.land (u8 offset) 2 * 8)) 0xffff) ∧ config s' = config s) s))
    as (r & s' & Hrun & -> & Hc); [|by exists s'].
  by apply pci_read_config_wp.
Qed.

Lemma half_low o v : o mod 4 = 0 → is_u32 v → u16 (Z.land (Z.shiftr v (Z.land o 2 * 8)) 0xffff) = v mod 65536.
Proof using Type.
  intros Ho Hv. assert (Z.land o 2 = 0) as ->.
  { change 2 with (Z.land 2 3). rewrite Z.land_assoc, (Z.land_comm o 2), <- Z.land_assoc. change 3 with (Z.ones 2).
    rewrite land_low by lia. change (2 ^ 2) with 4. by rewrite Ho. }
  rewrite Z.mul_0_l, Z.shiftr_0_r. change 0xffff with (Z.ones 16). rewrite land_low by lia. unfold u16. by rewrite Z.mod_mod.
Qed.
Lemma half_high o v : o mod 4 = 0 → is_u32 v → u16 (Z.land (Z.shiftr v (Z.land (o + 2) 2 * 8)) 0xffff) = v / 65536.
Proof using Type.
  intros Ho [H0 H1]. assert (Z.land (o + 2) 2 = 2) as ->.
  { change 2 with (Z.land 2 3) at 2. rewrite Z.land_assoc, (Z.land_comm (o + 2) 2), <- Z.land_assoc. change 3 with (Z.ones 2).
    rewrite land_low by lia. change (2 ^ 2) with 4. by rewrite <- Z.add_mod_idemp_l, Ho by lia. }
  change (2 * 8) with 16. rewrite Z.shiftr_div_pow2 by lia. change (2 ^ 16) with 65536. change 0xffff with (Z.ones 16).
  rewrite land_low by lia. unfold u16. rewrite Z.mod_mod by lia. change (2 ^ 16) with 65536. apply Z.mod_small.
  split; [apply Z.div_pos; lia|apply Z.div_lt_upper_bound; lia].
Qed.
Lemma halves v : is_u32 v → u32 (Z.lor (v mod 65536) (Z.shiftl (v / 65536) 16)) = v.
Proof using Type.
  intros Hv. rewrite Z.lor_comm. rewrite lor_shiftl_add by (try apply Z.mod_pos_bound; lia). change (2 ^ 16) with 65536.
  pose proof (Z.div_mod v 65536 ltac:(lia)). replace (v / 65536 * 65536 + v mod 65536) with v by lia. by apply u32_id.
Qed.

(** The identification of a function in a file's [id]. *)
Definition device_id (bus slot func : Z) : Z := Z.lor (Z.lor slot (Z.shiftl func 8)) (Z.shiftl bus 16).
Lemma device_id_fields bus slot func :
  0 <= bus < 256 → 0 <= slot < 256 → 0 <= func < 256 →
  let id := device_id bus slot func in
  u8 (Z.shiftr id 16) = bus ∧ u8 (Z.land (Z.shiftr id 8) 0xff) = func ∧ u8 (Z.land id 0xff) = slot.
Proof using Type.
  intros Hb Hs Hf id. assert (id = bus * 65536 + (func * 256 + slot)) as ->.
  { unfold id, device_id. rewrite (Z.lor_comm slot), lor_shiftl_add by lia. rewrite Z.lor_comm, lor_shiftl_add by lia. lia. }
  change 0xff with (Z.ones 8). rewrite !land_low, !Z.shiftr_div_pow2 by lia. unfold u8.
  change (2 ^ 16) with 65536. change (2 ^ 8) with 256. rewrite !Z.mod_mod by lia.
  rewrite Z.div_add_l, (Z.div_small (func * 256 + slot)) by lia.
  replace (bus * 65536 + (func * 256 + slot)) with ((bus * 256 + func) * 256 + slot) by lia.
  rewrite Z.div_add_l, (Z.div_small slot) by lia.
  split_and!; Z.to_euclidean_division_equations; lia.
Qed.

(** The file of a device.  Reading words from the file whose [id] names a
    function delivers the configuration words of that function, in
    order, and changes nothing. *)
Theorem pci_read_file_delivers bus slot func offset count (s : S) :
  0 <= bus < 256 → 0 <= slot < 32 → 0 <= func < 8 → 0 <= offset → offset mod 4 = 0 → 0 <= count → offset + count <= 256 →
  (∀ x, is_u32 (config s x)) →
  ∃ s', pci_read_file device (device_id bus slot func) offset count s =
          Ok ((λ i, config s (config_word bus slot func (offset + i * 4))) <$> seqZ 0 (count / 4), s') ∧ config s' = config s.
Proof using Hhw.
  intros Hb Hs Hf Ho Hal Hc Hoc Hw.
  destruct (proj1 (wp_ok (pci_read_file device (device_id bus slot func) offset count) (λ r s',
    r = (λ i, config s (config_word bus slot func (offset + i * 4))) <$> seqZ 0 (count / 4) ∧ config s' = config s) s))
    as (r & s' & Hrun & -> & Hcfg); [|by exists s'].
  unfold pci_read_file. destruct (device_id_fields bus slot func) as (-> & -> & ->); [lia..|].
  assert (0 <= count / 4) by (apply Z.div_pos; lia). pose proof (Z.div_mod count 4 ltac:(lia)). pose proof (Z.mod_pos_bound count 4 ltac:(lia)).
  rewrite u32_id by (unfold is_u32; lia). wp.
  apply (wp_fora (λ i b s', b = (λ i, config s (config_word bus slot func (offset + i * 4))) <$> seqZ 0 i ∧ config s' = config s)).
  - done.
  - done.
  - intros i b s1 Hi [-> Hc1]. wp. apply pci_read_config_wp; [lia..|]. intros s2 Hc2. wp. apply pci_read_config_wp; [lia..|].
    intros s3 Hc3. wp. split; [|congruence]. rewrite Hc2, Hc1.
    assert (0 <= offset + i * 4 < 253) as Hoi by lia. assert ((offset + i * 4) mod 4 = 0) as Hmod by (by rewrite Z.mod_add).
    rewrite (u8_id offset), (u8_id (offset + i * 4)), (u8_id (offset + i * 4 + 2)) by (unfold is_u8; lia).
    unfold target. rewrite Z.div_small, Z.lor_0_r, Z.mod_small by lia.
    assert (config_word bus slot func (offset + i * 4 + 2) = config_word bus slot func (offset + i * 4)) as ->.
    { unfold config_word. replace ((offset + i * 4 + 2) / 4) with ((offset + i * 4) / 4); [done|]. Z.to_euclidean_division_equations. lia. }
    rewrite half_low, half_high, halves by done.
    rewrite seqZ_app, fmap_app, Z.add_0_l by lia. rewrite (seqZ_cons i 1) by lia. done.
  - intros b s' [-> Hc1]. by wp.
Qed.
End config_proofs.

(** ** Examples *)

(** A bridge with a disk controller as device 1. *)
Definition bridge_example : bridge :=
  Bridge 0 (λ x, if x =? config_word 0 1 0 0x8 then 0x01018000 else if x =? config_word 0 1 0 0 then 0x70108086 else 0xffffffff).
Definition pci_device_example (l : ports) (w p : Z) : Z :=
  if p =? 0xcfc then space (bridge_after bridge_example l) (selected (bridge_after bridge_example l) / 4 * 4) else 0.

Lemma bridge_space_u32 b l x : (∀ x, is_u32 (space b x)) → is_u32 (space (bridge_after b l) x).
Proof.
  intros Hb. induction l as [|e l IH]; [apply Hb|]. unfold bridge_after in *. cbn [foldr].
  destruct (foldr _ _ _) as [a sp]. unfold bridge_step. destruct e as [w p v|]; [|exact IH].
  destruct (decide (w = 32)) as [->|Hne].
  - repeat case_match; cbn [space] in *; try exact IH. case_match; [apply is_u32_u32|exact IH].
  - destruct w as [|w|w]; [exact IH| |exact IH]. do 6 (destruct w as [w|w|]; try exact IH). done.
Qed.

Lemma bridge_example_u32 x : is_u32 (space bridge_example x).
Proof. unfold bridge_example. cbn [space]. repeat case_match; by_computation. Qed.

Lemma bridge_example_reads : bridge_reads pci_device_example bridge_example.
Proof. intros l _. unfold pci_device_example. cbn [Z.eqb Pos.eqb]. apply u32_id, bridge_space_u32, bridge_example_u32. Qed.

Lemma pci_read_config_spec_witness :
  ∃ s1 s2, pci_read_config (S := ports) pci_device_example 0 1 0 0 [] = Ok (0x8086, s1) ∧
    pci_read_config (S := ports) pci_device_example 0 0 8 0 [] = Ok (0x8086, s2).
Proof.
  destruct (pci_read_config_spec (S := ports) pci_device_example bridge_example bridge_example_reads 0 1 0 0 []
    ltac:(lia) ltac:(lia) ltac:(lia)) as (s1 & H1 & _).
  destruct (pci_read_config_spec (S := ports) pci_device_example bridge_example bridge_example_reads 0 0 8 0 []
    ltac:(lia) ltac:(lia) ltac:(lia)) as (s2 & H2 & _).
  exists s1, s2. split; [exact H1|exact H2].
Defined.

Lemma pci_read_file_delivers_witness :
  ∃ s', pci_read_file (S := ports) pci_device_example (device_id 0 1 0) 8 4 [] = Ok ([0x01018000], s').
Proof.
  destruct (pci_read_file_delivers (S := ports) pci_device_example bridge_example bridge_example_reads 0 1 0 8 4 [])
    as (s' & Hrun & _); try (lia || reflexivity).
  - intros x. exact (bridge_example_u32 x).
  - exists s'. exact Hrun.
Defined.
