(* ===== verification/Vector.v ===== *)
(** * Growing arrays (src/src/kernel/shared/kstdlib.c: [vector_t])

    A vector is a pointer to a page array, a count and an element size; the
    elements are bytes in memory.  [kmalloc] returns fresh pages. *)
From S2P Require Import Prelude Device KString.

Record vector := Vector {
  v_ptr : Z;
  v_size : Z;
  v_sizeof : Z;
}.
Record vstate := VState {
  vmem : memory;
  vvec : vector;
  vbrk : Z;
}.
Definition set_vmem (m : memory) (s : vstate) : vstate := VState m (vvec s) (vbrk s).
Definition set_vec (v : vector) (s : vstate) : vstate := VState (vmem s) v (vbrk s).

Definition vld (p : Z) : M vstate Z := gets (λ s, vmem s !0 p).
Definition vst (p x : Z) : M vstate unit := modify (λ s, set_vmem (<[p := u8 x]> (vmem s)) s).
Definition vkmalloc (pages : Z) : M vstate Z := λ s,
  Ok (vbrk s, VState (vmem s) (vvec s) (vbrk s + 4096 * Z.max 1 pages)).

(** [for(uint8_t i = 0; i < n; i++) body]: the counter wraps at 256. *)
Definition u8_loop (fuel : positive) (n : Z) (body : Z → M vstate unit) : M vstate unit :=
  loop fuel (λ i, if i <? n then body i;; mret (inl (u8 (i + 1))) else mret (inr tt)) 0.

Definition init_vector (fuel : positive) (sizeof_elements elements initializer : Z) : M vstate unit :=
  ptr ← vkmalloc (u32 (elements * sizeof_elements) / 4096 + 1);
  modify (set_vec (Vector ptr elements sizeof_elements));;
  if initializer =? 0 then skip
  else u8_loop fuel (u32 (elements * sizeof_elements)) (λ i, x ← vld (initializer + i); vst (ptr + i) x).

(** 0 when the position is outside. *)
Definition vector_get (pos : Z) (v : vector) : Z :=
  if pos >? u32 (v_size v - 1) then 0 else v_ptr v + u32 (pos * v_sizeof v).

Definition vector_set (pos new_element : Z) : M vstate unit :=
  v ← gets vvec;
  if pos >? u32 (v_size v - 1) then skip
  else for_all 0 (v_sizeof v) (λ i, x ← vld (new_element + i); vst (v_ptr v + u32 (pos * 4) + i) x).

(** One more element ends in another page than the elements there are. *)
Definition crosses_page (size sizeof : Z) : bool :=
  negb (Z.shiftr (u32 ((size + 1) * sizeof)) 12 =? Z.shiftr (u32 (size * sizeof)) 12).

Definition vector_push (fuel : positive) (new_element : Z) : M vstate unit :=
  v ← gets vvec;
  (if crosses_page (v_size v) (v_sizeof v) then
     newptr ← vkmalloc (u32 (v_size v * v_sizeof v) / 4096);
     when (negb (v_ptr v =? 0))
       (u8_loop fuel (u32 ((v_size v - 1) * v_sizeof v))
          (λ i, x ← vld (v_ptr v + u32 (i * v_size v)); vst (newptr + i) x));;
     modify (set_vec (Vector newptr (v_size v) (v_sizeof v)))
   else skip);;
  v ← gets vvec;
  for_all 0 (v_sizeof v) (λ i,
    x ← vld (new_element + i); vst (v_ptr v + u32 (u32 (v_size v * v_sizeof v) + i)) x);;
  modify (set_vec (Vector (v_ptr v) (u32 (v_size v + 1)) (v_sizeof v))).

(** The position is ignored: the first element is copied out. *)
Definition vector_pop (element : Z) : M vstate unit :=
  v ← gets vvec;
  for_all 0 (v_sizeof v) (λ i, x ← vld (v_ptr v + i); vst (element + i) x);;
  modify (set_vec (Vector (v_ptr v) (u32 (v_size v - 1)) (v_sizeof v))).

Lemma wp_vld p (Q : Z → vstate → Prop) s : wp (vld p) Q s = Q (vmem s !0 p) s.
Proof. done. Qed.
Lemma wp_vst p x (Q : unit → vstate → Prop) s : wp (vst p x) Q s = Q tt (set_vmem (<[p := u8 x]> (vmem s)) s).
Proof. done. Qed.
#[export] Hint Rewrite wp_vld wp_vst : wp.

(** ** The elements *)

(** The vector holds the elements [rows]. *)
Record vec_holds (s : vstate) (rows : list (list Z)) : Prop := {
  vh_size : v_size (vvec s) = Z.of_nat (length rows);
  vh_row i row : rows !! i = Some row → Z.of_nat (length row) = v_sizeof (vvec s);
  vh_byte i row j x : rows !! i = Some row → row !! j = Some x →
    vmem s !0 (v_ptr (vvec s) + Z.of_nat i * v_sizeof (vvec s) + Z.of_nat j) = x;
}.

(** The bytes of an element in memory. *)
Definition bytes_from (m : memory) (p n : Z) : list Z := (λ j, m !0 (p + j)) <$> seqZ 0 n.

Lemma vcopy_wp src dest g n s (Q : unit → vstate → Prop) :
  0 <= n → (∀ i, 0 <= i < n → g i = dest + i) → src + n <= dest ∨ dest + n <= src → (∀ k, is_u8 (vmem s !0 k)) →
  (∀ m', (∀ k, m' !0 k = if decide (dest <= k < dest + n) then vmem s !0 (src + (k - dest)) else vmem s !0 k) →
     Q tt (set_vmem m' s)) →
  wp (for_all 0 n (λ i, x ← vld (src + i); vst (g i) x)) Q s.
Proof.
  intros Hn Hg Hd Hu HQ.
  apply (wp_for_all (λ i s', ∃ m', s' = set_vmem m' s ∧
    ∀ k, m' !0 k = if decide (dest <= k < dest + i) then vmem s !0 (src + (k - dest)) else vmem s !0 k)).
  - done.
  - exists (vmem s). split; [by destruct s|]. intros k. by rewrite decide_False by lia.
  - intros i s' Hi (m' & -> & Hm'). wp. rewrite Hg by done. exists (<[dest + i := u8 (m' !0 (src + i))]> m'). split; [done|].
    intros k. rewrite zget_insert. destruct (decide (dest + i = k)) as [<-|Hne].
    + rewrite Hm', decide_False by lia. rewrite decide_True by lia. rewrite u8_id by apply Hu. f_equal. lia.
    + rewrite Hm'. repeat case_decide; (done || lia).
  - intros s' (m' & -> & Hm'). by apply HQ.
Qed.

Lemma push_wp fuel e rows s (Q : unit → vstate → Prop) :
  let n := Z.of_nat (length rows) in let v := vvec s in let sz := v_sizeof v in
  vec_holds s rows → bytes_ok (vmem s) → 0 < sz → (n + 1) * sz < 2 ^ 32 →
  (n + 1) * sz / 4096 = n * sz / 4096 →
  e + sz <= v_ptr v + n * sz ∨ v_ptr v + n * sz + sz <= e →
  (∀ s', vec_holds s' (rows ++ [bytes_from (vmem s) e sz]) → vvec s' = Vector (v_ptr v) (n + 1) sz → Q tt s') →
  wp (vector_push fuel e) Q s.
Proof.
  intros n v sz [Hsize Hrow Hbyte] Hu Hsz Hlim Hcross Hap HQ. unfold vector_push, crosses_page. wp.
  fold v in Hsize |- *. fold sz. rewrite Hsize. fold n.
  rewrite !u32_id by (unfold is_u32; nia). rewrite !Z.shiftr_div_pow2 by lia. change (2 ^ 12) with 4096.
  rewrite Hcross, Z.eqb_refl. cbn [negb]. wp. fold v. fold sz. rewrite Hsize. fold n.
  rewrite (u32_id (n * sz)) by (unfold is_u32; nia).
  apply (vcopy_wp _ (v_ptr v + n * sz) (λ i, v_ptr v + u32 (n * sz + i))); [lia| |lia|apply Hu|].
  { intros i Hi. rewrite u32_id by (unfold is_u32; nia). lia. }
  intros m' Hm'. wp. apply HQ; [|by rewrite (u32_id (n + 1)) by (unfold is_u32; nia)].
  split; cbn [vvec vmem set_vec set_vmem v_size v_sizeof v_ptr].
  - rewrite (u32_id (n + 1)) by (unfold is_u32; nia). rewrite length_app. simpl. lia.
  - intros i row [Hi|[Hge Hi]]%lookup_app_Some; [by apply (Hrow i)|].
    apply list_lookup_singleton_Some in Hi as [_ <-]. unfold bytes_from. apply length_fmap_seqZ. lia.
  - intros i row j x [Hi|[Hge Hi]]%lookup_app_Some Hj.
    + pose proof (Hrow _ _ Hi) as Hlr. fold v sz in Hlr. apply lookup_lt_Some in Hi as Hil. apply lookup_lt_Some in Hj as Hjl.
      rewrite Hm', decide_False by nia. by apply (Hbyte i row).
    + apply list_lookup_singleton_Some in Hi as [Hi0 <-]. assert (i = length rows) as -> by lia. fold n.
      apply lookup_lt_Some in Hj as Hjl. unfold bytes_from in Hjl. rewrite length_fmap, length_seqZ in Hjl.
      rewrite Hm', decide_True by lia. unfold bytes_from in Hj. rewrite list_lookup_fmap, lookup_seqZ_lt in Hj by lia.
      injection Hj as <-. f_equal. lia.
Qed.

(** ** Properties *)

(** Pushing and getting.  As long as a push does not cross a page boundary,
    it appends the element's bytes and leaves the elements before it as they
    were; [vector_get] then returns the address of each element, and 0 for the
    position behind the last. *)
Theorem vector_push_get fuel e rows s :
  let n := Z.of_nat (length rows) in let v := vvec s in let sz := v_sizeof v in
  vec_holds s rows → bytes_ok (vmem s) → 0 < sz → (n + 1) * sz < 2 ^ 32 →
  (n + 1) * sz / 4096 = n * sz / 4096 →
  e + sz <= v_ptr v + n * sz ∨ v_ptr v + n * sz + sz <= e →
  ∃ s', vector_push fuel e s = Ok (tt, s') ∧ vec_holds s' (rows ++ [bytes_from (vmem s) e sz]) ∧
    (∀ i, 0 <= i <= n → vector_get i (vvec s') = v_ptr v + i * sz) ∧ vector_get (n + 1) (vvec s') = 0.
Proof.
  intros n v sz Hh Hu Hsz Hlim Hcross Hap.
  destruct (wp_unit (vector_push fuel e) (λ s', vec_holds s' (rows ++ [bytes_from (vmem s) e sz]) ∧
    vvec s' = Vector (v_ptr v) (n + 1) sz) s) as (s' & Hrun & Hh' & Hv').
  { apply (push_wp fuel e rows); [done..|]. intros s' H1 H2. done. }
  exists s'. rewrite Hv'. unfold vector_get. cbn [v_ptr v_size v_sizeof].
  replace (n + 1 - 1) with n by lia. rewrite (u32_id n) by (unfold is_u32; nia). rewrite !Z.gtb_ltb. split_and!; [done|done| |].
  - intros i Hi. rewrite Z.gtb_ltb, (proj2 (Z.ltb_ge n i)) by lia. rewrite u32_id by (unfold is_u32; nia). done.
  - by rewrite (proj2 (Z.ltb_lt n (n + 1))) by lia.
Qed.

(** The push that crosses a page boundary never returns.  It copies the old
    elements with an 8-bit counter, which cannot reach a bound above 255; at the
    first boundary the bound is far above that, so the loop exceeds every
    number of iterations. *)
Theorem vector_push_hangs fuel e s :
  let v := vvec s in
  0 < v_ptr v → 0 < v_size v → 0 < v_sizeof v → (v_size v + 1) * v_sizeof v < 2 ^ 32 →
  (v_size v + 1) * v_sizeof v / 4096 ≠ v_size v * v_sizeof v / 4096 → 255 < (v_size v - 1) * v_sizeof v →
  vector_push fuel e s = Err OutOfFuel.
Proof.
  intros v Hp Hn Hsz Hlim Hcross Hbig. unfold vector_push, crosses_page, bind, gets. cbv beta. fold v.
  rewrite !u32_id by (unfold is_u32; nia). rewrite !Z.shiftr_div_pow2 by lia. change (2 ^ 12) with 4096.
  rewrite (proj2 (Z.eqb_neq _ _) Hcross). cbn [negb]. unfold vkmalloc, when. rewrite (proj2 (Z.eqb_neq (v_ptr v) 0)) by lia.
  cbn [negb]. unfold u8_loop. set (s1 := VState _ _ _).
  rewrite (loop_diverges (λ i _, 0 <= i < 256)); [done|lia|].
  intros i s2 Hi. rewrite (proj2 (Z.ltb_lt i _)) by lia. unfold bind, vld, vst, gets, modify. simpl.
  eexists _, _. split; [reflexivity|]. exact (is_u8_u8 (i + 1)).
Qed.

(** The table of modules: elements of 40 bytes at 0x10000. *)
Definition vec_empty : vstate := VState (store_bytes 0x500 [1; 2; 3] ∅) (Vector 0x10000 0 40) 0x20000.
Definition vec_full : vstate := VState ∅ (Vector 0x10000 102 40) 0x20000.

Lemma vector_push_get_witness :
  ∃ s', vector_push 1 0x500 vec_empty = Ok (tt, s') ∧ vector_get 0 (vvec s') = 0x10000 ∧ vector_get 1 (vvec s') = 0.
Proof.
  destruct (vector_push_get 1 0x500 [] vec_empty) as (s' & Hrun & _ & Hget & Hout).
  - split; [reflexivity|intros i row Hi; discriminate|intros i row j x Hi; discriminate].
  - apply store_bytes_ok; [|repeat constructor; by_computation]. intros k. by_computation.
  - by_computation.
  - by_computation.
  - reflexivity.
  - left. by_computation.
  - exists s'. exact (conj Hrun (conj (Hget 0 ltac:(lia)) Hout)).
Defined.

(** The 103rd module is never registered. *)
Lemma vector_push_hangs_witness : vector_push fuel32 0x500 vec_full = Err OutOfFuel.
Proof. apply (vector_push_hangs fuel32 0x500 vec_full); by_computation. Defined.
