(* ===== verification/Interrupts.v ===== *)
(** * Interrupts (src/src/kernel/arch_i386/interrupts.c)

    The descriptor table, the interval timer, the task state segment, and the
    dispatch of hardware interrupts and system calls.  Register frames are
    structures at stack addresses; a handler is an address, and what the code
    there does is an argument of the model, apart from the scheduler. *)
From S2P Require Import Prelude PhysMem Paging Heap Kmalloc Scheduler Ports.

Definition IDT_GATE_INT : Z := 0xe.
Definition GDT_SYSSEG_TSS32A : Z := 0x9.
Definition KOS_INT_EXIT : Z := 0.
Definition KOS_INT_OPEN : Z := 1.
Definition KOS_INT_FORK : Z := 7.
Definition IRQ_COUNT : Z := 16.

Record idt_entry := Gate { offset_low : Z; code_seg : Z; gate_flags : Z; offset_high : Z }.
Definition no_gate : idt_entry := Gate 0 0 0 0.

(** The fields of the task state segment the kernel sets. *)
Record tss_entry := Tss { tss_esp0_field : Z; tss_ss0 : Z; tss_ss : Z }.
(** A descriptor of the global table. *)
Record gdt_entry := Gdt {
  limit_low : Z; base_low : Z; base_med : Z; sd_type : Z; sd_present : Z; gdt_limit : Z; gdt_flags : Z; base_high : Z;
}.

Record intr := Intr {
  it_sched : sched;
  it_ports : ports;
  it_frames : gmap Z cpu_registers;
  in_interrupt : Z;
  interrupt_handlers : gmap Z Z;
  idt_table : gmap Z idt_entry;
  gdt : gmap Z gdt_entry;
  tss_vaddr : Z;
  tss_esp0 : Z;
  tss : tss_entry;
}.

#[export, refine] Instance intr_sched : Lens intr sched := {|
  view := it_sched;
  put x s := Intr x (it_ports s) (it_frames s) (in_interrupt s) (interrupt_handlers s) (idt_table s) (gdt s)
               (tss_vaddr s) (tss_esp0 s) (tss s);
|}.
Proof. all: done || by intros []. Defined.
#[export, refine] Instance intr_ports : Lens intr ports := {|
  view := it_ports;
  put x s := Intr (it_sched s) x (it_frames s) (in_interrupt s) (interrupt_handlers s) (idt_table s) (gdt s)
               (tss_vaddr s) (tss_esp0 s) (tss s);
|}.
Proof. all: done || by intros []. Defined.

Definition set_frames (m : gmap Z cpu_registers) (s : intr) : intr :=
  Intr (it_sched s) (it_ports s) m (in_interrupt s) (interrupt_handlers s) (idt_table s) (gdt s)
    (tss_vaddr s) (tss_esp0 s) (tss s).
Definition set_in_interrupt (b : Z) (s : intr) : intr :=
  Intr (it_sched s) (it_ports s) (it_frames s) b (interrupt_handlers s) (idt_table s) (gdt s)
    (tss_vaddr s) (tss_esp0 s) (tss s).
Definition set_handlers (m : gmap Z Z) (s : intr) : intr :=
  Intr (it_sched s) (it_ports s) (it_frames s) (in_interrupt s) m (idt_table s) (gdt s)
    (tss_vaddr s) (tss_esp0 s) (tss s).
Definition set_idt (m : gmap Z idt_entry) (s : intr) : intr :=
  Intr (it_sched s) (it_ports s) (it_frames s) (in_interrupt s) (interrupt_handlers s) m (gdt s)
    (tss_vaddr s) (tss_esp0 s) (tss s).
Definition set_gdt (m : gmap Z gdt_entry) (s : intr) : intr :=
  Intr (it_sched s) (it_ports s) (it_frames s) (in_interrupt s) (interrupt_handlers s) (idt_table s) m
    (tss_vaddr s) (tss_esp0 s) (tss s).
Definition set_tss (vaddr top : Z) (t : tss_entry) (s : intr) : intr :=
  Intr (it_sched s) (it_ports s) (it_frames s) (in_interrupt s) (interrupt_handlers s) (idt_table s) (gdt s)
    vaddr top t.

Definition set_esp (x : Z) (r : cpu_registers) : cpu_registers :=
  Regs (gs r) (fs r) (es r) (ds r) (edi r) (esi r) (ebp r) x (ebx r) (edx r) (ecx r) (eax r)
    (int_no r) (pfa r) (eip r) (cs r) (eflags r) (useresp r) (ss r).
Definition set_int_no (x : Z) (r : cpu_registers) : cpu_registers :=
  Regs (gs r) (fs r) (es r) (ds r) (edi r) (esi r) (ebp r) (esp r) (ebx r) (edx r) (ecx r) (eax r)
    x (pfa r) (eip r) (cs r) (eflags r) (useresp r) (ss r).

Definition get_frame (regs : Z) : M intr cpu_registers := λ s,
  match it_frames s !! regs with Some f => Ok (f, s) | None => Err (PageFault regs) end.
Definition put_frame (regs : Z) (f : cpu_registers) : M intr unit := modify (λ s, set_frames (<[regs := f]> (it_frames s)) s).

(** ** The descriptor table and the timer *)

Definition set_idt_entry (index ptr flags segment : Z) : M intr unit :=
  modify (λ s, set_idt (<[index := Gate (Z.land ptr 0xffff) (u16 segment) (u8 (Z.lor flags 0x80)) (u16 (Z.shiftr ptr 16))]>
                          (idt_table s)) s).

Definition PIT_CMD : Z := 0x43.
Definition PIT_DATA : Z := 0x40.
Definition pit_reload (mode reload : Z) : M intr unit :=
  outb PIT_CMD (0x30 + mode);;
  outb PIT_DATA (Z.shiftr (u16 reload) 8);;
  outb PIT_DATA (Z.land (u16 reload) 0xff).

(** The value is a number of milliseconds. *)
Definition pit_init (freq : Z) : M intr Z :=
  let reload_value := 0x10000 in
  if freq <=? 18 then pit_reload 4 reload_value;; mret (u32 (reload_value * 3000) / 3579545)
  else if freq >=? 1193181 then pit_reload 4 (Z.shiftr reload_value 16);; mret (u32 (reload_value * 3000) / 3579545)
  else
    let reload_value := 3579545 / freq / 3 in
    pit_reload 4 reload_value;;
    mret (u32 (reload_value * 3000) / 3579545).

Definition handler_at (i : Z) : M intr Z :=
  if bool_decide (0 <= i < IRQ_COUNT) then gets (λ s, interrupt_handlers s !0 i) else fail (OutOfBounds i).
Definition install_irq_handler (handler irqno : Z) : M intr unit :=
  if bool_decide (0 <= irqno < IRQ_COUNT) then modify (λ s, set_handlers (<[irqno := handler]> (interrupt_handlers s)) s)
  else fail (OutOfBounds irqno).
Definition get_irq_handler (irqno : Z) : M intr Z := handler_at irqno.

Section entry_points.
(** The addresses of the assembly stubs. *)
Variable isr : Z → Z.
Variable irq0 irq1 syscall_stub : Z.

(** The source writes the 32 exception gates out one by one. *)
Definition idt_load : M intr unit :=
  for_all 0 32 (λ i, set_idt_entry i (isr i) IDT_GATE_INT 0x10);;
  for_all 0 16 (λ i, set_idt_entry (i + 32) (u32 (irq0 + (irq1 - irq0) * i)) IDT_GATE_INT 0x10);;
  modify (λ s, set_tss 0 (tss_esp0 s) (tss s) s);;
  set_idt_entry 0x80 syscall_stub (Z.lor IDT_GATE_INT (Z.shiftl 3 5)) 0x10;;
  for_all 0 16 (λ i, install_irq_handler 0 i);;
  _ ← pit_init 1000;
  skip.
End entry_points.

(** ** The task state segment *)

Definition reset_tss_stack (esp0 : Z) : M intr unit :=
  v ← gets tss_vaddr;
  if v =? 0 then skip
  else modify (λ s, set_tss (tss_vaddr s) (tss_esp0 s) (Tss esp0 (tss_ss0 (tss s)) 0x18) s).

(** [entry_no] is the slot of the global descriptor table.  The limit's upper
    bits are those of an 8-bit value shifted out. *)
Definition sizeof_tss : Z := 108.
Definition tss_init (entry_no : Z) : M intr unit :=
  t ← zoom (T := sched) (zoom (T := kmem) (kmalloc 1));
  modify (λ s, set_gdt (<[entry_no := Gdt sizeof_tss (Z.land t 0xffff) (Z.land (Z.shiftr t 16) 0xff) GDT_SYSSEG_TSS32A 1
                            (Z.shiftr (u8 sizeof_tss) 16) 0 (Z.land (Z.shiftr t 24) 0xff)]> (gdt s)) s);;
  stk ← zoom (T := sched) (zoom (T := kmem) (kmalloc 16));
  let top := u32 (stk + PAGE_SIZE_BYTES * 16 - 4) in
  modify (set_tss t top (Tss top 0x18 0)).

(** ** Dispatch *)

Section dispatch.
(** What the code at an address does with a frame; what the code that is
    interrupted by [int $32] inside of a system call leaves on its stack. *)
Variable call : Z → Z → M intr Z.
Variable nested_frame : Z * cpu_registers.

(** The handler of the line, and after a line other than the timer's the timer's
    handler too. *)
Definition run_handlers (regs int_no : Z) : M intr Z :=
  h ← handler_at (u32 (int_no - 32));
  if h =? 0 then mret regs
  else
    regs ← call h regs;
    h0 ← handler_at 0;
    if (32 <? int_no) && negb (h0 =? 0) then call h0 regs else mret regs.

Definition end_interrupt (regs int_no : Z) : M intr Z :=
  outb 0x20 0x20;;
  when (0x28 <=? int_no) (outb 0xa0 0x20);;
  modify (set_in_interrupt 0);;
  reset_tss_stack regs;;
  mret regs.

(** The entry of [_irq_handler]: the value is the interrupt's number. *)
Definition enter_interrupt (regs : Z) : M intr Z :=
  modify (set_in_interrupt 1);;
  f ← get_frame regs;
  put_frame regs (set_esp regs f);;
  mret (int_no f).

(** [int $32] in kernel code: the value is the frame that is resumed. *)
Definition int_32 : M intr Z :=
  let '(a, f) := nested_frame in
  put_frame a (set_int_no 32 f);;
  n ← enter_interrupt a;
  regs ← run_handlers a n;
  end_interrupt regs n.

(** [inl] returns to the interrupted program.  [inr] is the frame of another one:
    the caller does not exist any more.  When the nested interrupt comes back
    all the same, the exit falls through to the next case of the switch, which
    only prints. *)
Definition syscall (regs : Z) : M intr (Z + Z) :=
  f ← get_frame regs;
  if eax f =? KOS_INT_EXIT then
    pid ← zoom (T := sched) get_current_pid;
    zoom (T := sched) (kill pid);;
    top ← gets tss_esp0;
    reset_tss_stack top;;
    r ← int_32;
    mret (if r =? fst nested_frame then inl regs else inr r)
  else if eax f =? KOS_INT_FORK then
    pid ← zoom (T := sched) (fork f);
    put_frame regs (set_eax pid f);;
    mret (inl regs)
  else mret (inl regs).

Definition irq_handler (regs : Z) : M intr Z :=
  n ← enter_interrupt regs;
  if n =? 0x80 then
    r ← syscall regs;
    match r with
    | inl regs => end_interrupt regs n
    | inr regs => mret regs
    end
  else
    regs ← run_handlers regs n;
    end_interrupt regs n.
End dispatch.

(** [schedule] as a handler. *)
Definition schedule_handler (regs : Z) : M intr Z :=
  f ← get_frame regs;
  zoom (T := sched) (schedule f).

(** ** Dispatch, proved *)

Lemma get_frame_wp regs f (Q : cpu_registers → intr → Prop) s :
  it_frames s !! regs = Some f → Q f s → wp (get_frame regs) Q s.
Proof. intros Hf HQ. unfold wp, get_frame. by rewrite Hf. Qed.

(** The state a handler sees: the flag is set and the frame holds its own
    address. *)
Definition entered (regs : Z) (f : cpu_registers) (s : intr) : intr :=
  set_frames (<[regs := set_esp regs f]> (it_frames s)) (set_in_interrupt 1 s).

Lemma enter_interrupt_wp regs f (Q : Z → intr → Prop) s :
  it_frames s !! regs = Some f → Q (int_no f) (entered regs f s) → wp (enter_interrupt regs) Q s.
Proof.
  intros Hf HQ. unfold enter_interrupt, put_frame. wp. apply (get_frame_wp regs f); [done|]. by wp.
Qed.

(** The accesses that acknowledge an interrupt, newest first. *)
Definition eoi (n : Z) : ports :=
  (if 0x28 <=? n then [Out 8 0xa0 0x20] else []) ++ [Out 8 0x20 0x20].
(** The stack the processor takes on the next entry from user mode. *)
Definition kernel_stack (r : Z) (s : intr) : Prop := tss_vaddr s ≠ 0 → tss_esp0_field (tss s) = r.

Lemma end_interrupt_wp r n (Q : Z → intr → Prop) s :
  (∀ s', it_sched s' = it_sched s → it_frames s' = it_frames s → it_ports s' = eoi n ++ it_ports s →
     in_interrupt s' = 0 → interrupt_handlers s' = interrupt_handlers s → kernel_stack r s' → Q r s') →
  wp (end_interrupt r n) Q s.
Proof.
  intros HQ. unfold end_interrupt, reset_tss_stack. wp. change (u16 0x20) with 0x20. change (u8 0x20) with 0x20.
  change (u16 0xa0) with 0xa0.
  assert (∀ s0, it_sched s0 = it_sched s → it_frames s0 = it_frames s → it_ports s0 = eoi n ++ it_ports s →
    interrupt_handlers s0 = interrupt_handlers s →
    if tss_vaddr (set_in_interrupt 0 s0) =? 0 then Q r (set_in_interrupt 0 s0)
    else Q r ((λ s, set_tss (tss_vaddr s) (tss_esp0 s) (Tss r (tss_ss0 (tss s)) 24) s) (set_in_interrupt 0 s0))) as Hend.
  { intros s0 H1 H2 H3 H4. destruct (Z.eqb_spec (tss_vaddr (set_in_interrupt 0 s0)) 0) as [Hz|Hnz]; apply HQ; try done.
    by intros ?. }
  destruct (Z.leb_spec 0x28 n) as [Hn|Hn].
  - wp. specialize (Hend (log_io (Out 8 160 32) (log_io (Out 8 32 32) s))).
    unfold eoi in Hend. rewrite (proj2 (Z.leb_le _ _)) in Hend by lia. specialize (Hend eq_refl eq_refl eq_refl eq_refl).
    destruct (_ =? 0); wp; exact Hend.
  - specialize (Hend (log_io (Out 8 32 32) s)).
    unfold eoi in Hend. rewrite (proj2 (Z.leb_gt _ _)) in Hend by lia. specialize (Hend eq_refl eq_refl eq_refl eq_refl).
    destruct (_ =? 0); wp; exact Hend.
Qed.

Section dispatch_proofs.
Variable call : Z → Z → M intr Z.
Variable nested_frame : Z * cpu_registers.
(** The address of [schedule]. *)
Variable scheduler : Z.
Hypothesis call_scheduler : ∀ regs, call scheduler regs = schedule_handler regs.
Hypothesis scheduler_nonnull : scheduler ≠ 0.

Lemma handler_at_wp i (Q : Z → intr → Prop) s :
  0 <= i < IRQ_COUNT → Q (interrupt_handlers s !0 i) s → wp (handler_at i) Q s.
Proof using Type. intros Hi HQ. unfold handler_at. by rewrite bool_decide_eq_true_2. Qed.

Lemma irq_line n : 32 <= n < 48 → u32 (n - 32) = n - 32 ∧ 0 <= n - 32 < IRQ_COUNT.
Proof using Type. intros Hn. unfold IRQ_COUNT. split; [apply u32_id; unfold is_u32; lia|lia]. Qed.

Lemma schedule_handler_wp q regs f (Q : Z → intr → Prop) s :
  sched_wf q (it_sched s) → NoDup q → it_frames s !! regs = Some f →
  (∀ x, switched q f (it_sched s) x → Q (resume_frame x) (put x s)) →
  wp (schedule_handler regs) Q s.
Proof using Type.
  intros Hwf Hnd Hf HQ. unfold schedule_handler. wp. apply (get_frame_wp regs f); [done|]. wp.
  by apply (schedule_switched_wp q).
Qed.

(** What is promised of a device's handler: it comes back with the frame it was
    given and keeps the kernel's tables in order; it may wake processes. *)
Definition device_handler (h regs : Z) : Prop :=
  ∀ q s, sched_wf q (it_sched s) → NoDup q →
    wp (call h regs) (λ r s', r = regs ∧ it_frames s' = it_frames s ∧ interrupt_handlers s' = interrupt_handlers s ∧
      current_pid (it_sched s') = current_pid (it_sched s) ∧
      ∃ q', sched_wf q' (it_sched s') ∧ NoDup q' ∧ q ⊆ q') s.

(** C17: a hardware interrupt, from the frame it pushed to the frame the processor
    resumes.  The handler of the line runs first (for the timer that is the
    scheduler itself), then the scheduler: the interrupted process is saved with
    its frame and a queued process is chosen and resumed.  The controllers have
    been acknowledged, the second one exactly when the line is its own, the
    interrupt flag is clear, and the next entry from user mode will take the
    stack below the resumed frame. *)
Theorem irq_switches_process q regs f h s :
  sched_wf q (it_sched s) → NoDup q → it_frames s !! regs = Some f → 32 <= int_no f < 48 →
  interrupt_handlers s !0 0 = scheduler → interrupt_handlers s !0 (int_no f - 32) = h → h ≠ 0 →
  (int_no f ≠ 32 → device_handler h regs) →
  ∃ r s' s1 q', irq_handler call nested_frame regs s = Ok (r, s') ∧
    (if int_no f =? 32 then s1 = entered regs f s else call h regs (entered regs f s) = Ok (regs, s1)) ∧
    q ⊆ q' ∧ switched q' (set_esp regs f) (it_sched s1) (it_sched s') ∧
    current_pid (it_sched s1) = current_pid (it_sched s) ∧
    r = resume_frame (it_sched s') ∧ it_ports s' = eoi (int_no f) ++ it_ports s1 ∧
    in_interrupt s' = 0 ∧ kernel_stack r s'.
Proof using call_scheduler scheduler_nonnull.
  intros Hwf Hnd Hf Hn H0 Hh Hhn Hdev. destruct (irq_line (int_no f) Hn) as [Hu Hline].
  destruct (proj1 (wp_ok (irq_handler call nested_frame regs) (λ r s', ∃ s1 q',
    (if int_no f =? 32 then s1 = entered regs f s else call h regs (entered regs f s) = Ok (regs, s1)) ∧
    q ⊆ q' ∧ switched q' (set_esp regs f) (it_sched s1) (it_sched s') ∧
    current_pid (it_sched s1) = current_pid (it_sched s) ∧
    r = resume_frame (it_sched s') ∧ it_ports s' = eoi (int_no f) ++ it_ports s1 ∧
    in_interrupt s' = 0 ∧ kernel_stack r s') s)) as (r & s' & Hrun & s1 & q' & Hpost); [|by exists r, s', s1, q'].
  unfold irq_handler. wp. apply (enter_interrupt_wp regs f); [done|]. rewrite (proj2 (Z.eqb_neq (int_no f) 0x80)) by lia.
  unfold run_handlers. wp. rewrite Hu. apply handler_at_wp; [done|].
  change (interrupt_handlers (entered regs f s)) with (interrupt_handlers s). rewrite Hh, (proj2 (Z.eqb_neq h 0)) by done. wp.
  assert (it_frames (entered regs f s) !! regs = Some (set_esp regs f)) as Hfr by apply lookup_insert_eq.
  assert (∀ s1 q', sched_wf q' (it_sched s1) → NoDup q' → it_frames s1 !! regs = Some (set_esp regs f) → q ⊆ q' →
    current_pid (it_sched s1) = current_pid (it_sched s) →
    (if int_no f =? 32 then s1 = entered regs f s else call h regs (entered regs f s) = Ok (regs, s1)) →
    ∀ k, (∀ r s2, it_ports s2 = it_ports s1 → switched q' (set_esp regs f) (it_sched s1) (it_sched s2) →
      interrupt_handlers s2 = interrupt_handlers s1 → r = resume_frame (it_sched s2) → k r s2) →
    wp (schedule_handler regs) k s1) as Hsched.
  { intros s1 q' H1 H2 H3 _ _ _ k Hk. apply (schedule_handler_wp q' regs (set_esp regs f)); [done..|].
    intros x Hx. by apply Hk. }
  destruct (Z.eqb_spec (int_no f) 32) as [H32|H32].
  - assert (h = scheduler) as -> by (by rewrite <- Hh, H32, <- H0). rewrite call_scheduler.
    apply (Hsched (entered regs f s) q); try done. intros r s2 Hp2 Hsw _ Hr. wp. apply handler_at_wp; [by_computation|]. wp.
    rewrite H32. simpl (32 <? 32). cbn [andb]. wp. apply end_interrupt_wp.
    intros s3 E1 _ E3 E4 _ E6. exists (entered regs f s), q. rewrite E1, E3, Hp2. split_and!; done.
  - specialize (Hdev H32 q (entered regs f s) Hwf Hnd). apply wp_ok in Hdev as (r1 & s1 & Hcall & -> & Hf1 & Hh1 & Hc1 & q' & Hwf' & Hnd' & Hsub).
    unfold wp at 1. rewrite Hcall. wp. apply handler_at_wp; [by_computation|]. rewrite Hh1.
    change (interrupt_handlers (entered regs f s)) with (interrupt_handlers s). rewrite H0.
    rewrite (proj2 (Z.ltb_lt _ _)), (proj2 (Z.eqb_neq _ _)) by (done || lia). cbn [andb negb]. rewrite call_scheduler.
    apply (Hsched s1 q'); try done; [by rewrite Hf1|]. intros r s2 Hp2 Hsw _ Hr. wp. apply end_interrupt_wp.
    intros s3 E1 _ E3 E4 _ E6. exists s1, q'. rewrite E1, E3, Hp2. split_and!; done.
Qed.
End dispatch_proofs.

(** ** The descriptor table, proved *)

Definition gate_address (g : idt_entry) : Z := offset_low g + 65536 * offset_high g.
Definition gate_present (g : idt_entry) : bool := negb (Z.land (gate_flags g) 0x80 =? 0).
Definition gate_dpl (g : idt_entry) : Z := Z.land (Z.shiftr (gate_flags g) 5) 3.
Definition gate (s : intr) (i : Z) : idt_entry := default no_gate (idt_table s !! i).

(** A gate to [a] in the kernel's code segment. *)
Definition gate_to (a dpl : Z) (g : idt_entry) : Prop :=
  gate_address g = a ∧ gate_present g = true ∧ gate_dpl g = dpl ∧ code_seg g = 0x10 ∧
  Z.land (gate_flags g) 0xf = IDT_GATE_INT.

Lemma split_address a : is_u32 a → Z.land a 0xffff + 65536 * u16 (Z.shiftr a 16) = a.
Proof.
  intros [H0 H1]. change 0xffff with (Z.ones 16). rewrite land_low, Z.shiftr_div_pow2 by lia.
  unfold u16. change (2 ^ 16) with 65536. rewrite (Z.mod_small (a / 65536)).
  - pose proof (Z.div_mod a 65536 ltac:(lia)). lia.
  - split; [apply Z.div_pos; lia|apply Z.div_lt_upper_bound; lia].
Qed.

Lemma set_idt_entry_wp i a fl (Q : unit → intr → Prop) s :
  is_u32 a → fl = IDT_GATE_INT ∨ fl = Z.lor IDT_GATE_INT (Z.shiftl 3 5) →
  (∀ g, gate_to a (if fl =? IDT_GATE_INT then 0 else 3) g → Q tt (set_idt (<[i := g]> (idt_table s)) s)) →
  wp (set_idt_entry i a fl 0x10) Q s.
Proof.
  intros Ha Hfl HQ. unfold set_idt_entry. wp. apply HQ. unfold gate_to, gate_address. cbn [offset_low offset_high].
  split; [by apply split_address|]. by destruct Hfl as [->| ->].
Qed.

(** Filling [n] gates from [base] on. *)
Lemma fill_gates_wp base n (index addr : Z → Z) (Q : unit → intr → Prop) s :
  0 <= n → (∀ i, index i = base + i) → (∀ i, 0 <= i < n → is_u32 (addr i)) →
  (∀ m, (∀ i, 0 <= i < n → ∃ g, m !! (base + i) = Some g ∧ gate_to (addr i) 0 g) →
     (∀ j, ¬ (base <= j < base + n) → m !! j = idt_table s !! j) → Q tt (set_idt m s)) →
  wp (for_all 0 n (λ i, set_idt_entry (index i) (addr i) IDT_GATE_INT 0x10)) Q s.
Proof.
  intros Hn Hidx Ha HQ. apply (wp_for_all (λ k s', ∃ m, s' = set_idt m s ∧
    (∀ i, 0 <= i < k → ∃ g, m !! (base + i) = Some g ∧ gate_to (addr i) 0 g) ∧
    ∀ j, ¬ (base <= j < base + k) → m !! j = idt_table s !! j)); [done| | |].
  - exists (idt_table s). split_and!; [by destruct s|lia|done].
  - intros k s' Hk (m & -> & Hin & Hout). apply set_idt_entry_wp; [by apply Ha|by left|]. intros g Hg.
    exists (<[index k := g]> m). rewrite Hidx. split_and!; [done| |].
    + intros i Hi. destruct (decide (i = k)) as [->|].
      * exists g. rewrite lookup_insert_eq. done.
      * rewrite lookup_insert_ne by lia. apply Hin. lia.
    + intros j Hj. rewrite lookup_insert_ne by lia. apply Hout. lia.
  - intros s' (m & -> & Hin & Hout). by apply HQ.
Qed.

Lemma pit_reload_wp mode reload (Q : unit → intr → Prop) s :
  (∀ l, pics_kept (it_ports s) l → Q tt (put (T := ports) l s)) → wp (pit_reload mode reload) Q s.
Proof.
  intros HQ. unfold pit_reload. wp. apply HQ.
  apply (pics_kept_app [Out 8 _ _; Out 8 _ _; Out 8 _ _]). repeat constructor; by_computation.
Qed.
Lemma pit_init_wp freq (Q : Z → intr → Prop) s :
  (∀ r l, pics_kept (it_ports s) l → Q r (put (T := ports) l s)) → wp (pit_init freq) Q s.
Proof. intros HQ. unfold pit_init. repeat case_match; wp; apply pit_reload_wp; intros l Hl; wp; by apply HQ. Qed.

(** What [idt_load] leaves behind. *)
Record idt_loaded (isr : Z → Z) (irq0 irq1 stub : Z) (s s' : intr) : Prop := {
  il_isr i : 0 <= i < 32 → gate_to (isr i) 0 (gate s' i);
  il_irq i : 0 <= i < 16 → gate_to (u32 (irq0 + (irq1 - irq0) * i)) 0 (gate s' (32 + i));
  il_syscall : gate_to stub 3 (gate s' 0x80);
  il_other j : ¬ (0 <= j < 48) → j ≠ 0x80 → gate s' j = gate s j;
  il_handlers i : 0 <= i < IRQ_COUNT → interrupt_handlers s' !0 i = 0;
  il_tss : tss_vaddr s' = 0;
  il_sched : it_sched s' = it_sched s;
  il_ports : pics_kept (it_ports s) (it_ports s');
}.

Lemma idt_load_wp isr irq0 irq1 stub (Q : unit → intr → Prop) s :
  (∀ i, 0 <= i < 32 → is_u32 (isr i)) → is_u32 stub →
  (∀ s', idt_loaded isr irq0 irq1 stub s s' → Q tt s') → wp (idt_load isr irq0 irq1 stub) Q s.
Proof.
  intros Hisr Hstub HQ. unfold idt_load. wp.
  apply (fill_gates_wp 0 32 (λ i, i)); [lia|lia|done|]. intros m1 Hin1 Hout1. wp.
  apply (fill_gates_wp 32 16 (λ i, i + 32)); [lia|lia|intros; apply is_u32_u32|]. intros m2 Hin2 Hout2. wp.
  apply set_idt_entry_wp; [done|by right|]. intros g Hg. rewrite wp_bind.
  apply (wp_for_all (λ k s', ∃ h, s' = set_handlers h (set_idt (<[0x80 := g]> m2) (set_tss 0 (tss_esp0 s) (tss s) s)) ∧
    ∀ i, 0 <= i < k → h !0 i = 0)); [lia| | |].
  - exists (interrupt_handlers s). split; [done|lia].
  - intros k s' Hk (h & -> & Hh). unfold install_irq_handler, IRQ_COUNT. rewrite bool_decide_eq_true_2 by lia. wp.
    exists (<[k := 0]> h). split; [done|]. intros i Hi. rewrite zget_insert. case_decide; [done|]. apply Hh. lia.
  - intros s' (h & -> & Hh). wp. apply pit_init_wp. intros r l Hl. wp.
    assert (∀ j, gate (put l (set_handlers h (set_idt (<[0x80 := g]> m2) (set_tss 0 (tss_esp0 s) (tss s) s)))) j =
      default no_gate (<[0x80 := g]> m2 !! j)) as Hgate by done.
    apply HQ. split; try done.
    + intros i Hi. rewrite Hgate, lookup_insert_ne by lia. rewrite Hout2 by lia. cbn [idt_table set_idt].
      destruct (Hin1 i Hi) as (g' & Hg' & Hto). rewrite Z.add_0_l in Hg'. by rewrite Hg'.
    + intros i Hi. rewrite Hgate, lookup_insert_ne by lia. destruct (Hin2 i Hi) as (g' & -> & Hto). done.
    + rewrite Hgate. by rewrite lookup_insert_eq.
    + intros j Hj Hj2. rewrite Hgate, lookup_insert_ne by done. rewrite Hout2 by lia. cbn [idt_table set_idt].
      unfold gate. by rewrite Hout1 by lia.
Qed.

(** C40: the interrupt table.  After [idt_load] each exception vector below 32 has
    a kernel gate to its own stub, each of the sixteen lines a kernel gate to
    the stub at its place in the row of equally spaced ones, and vector 0x80 the
    only gate that user code may call; every other gate is what it was, no
    handler is installed, and no task state segment is in use. *)
Theorem idt_load_installs_gates isr irq0 irq1 stub s :
  (∀ i, 0 <= i < 32 → is_u32 (isr i)) → is_u32 stub →
  ∃ s', idt_load isr irq0 irq1 stub s = Ok (tt, s') ∧
    (∀ i, 0 <= i < 32 → gate_to (isr i) 0 (gate s' i)) ∧
    (∀ i, 0 <= i < 16 → gate_to (u32 (irq0 + (irq1 - irq0) * i)) 0 (gate s' (32 + i))) ∧
    gate_to stub 3 (gate s' 0x80) ∧
    (∀ j, ¬ (0 <= j < 48) → j ≠ 0x80 → gate s' j = gate s j) ∧
    (∀ i, 0 <= i < IRQ_COUNT → interrupt_handlers s' !0 i = 0) ∧ tss_vaddr s' = 0.
Proof.
  intros Hisr Hstub. apply wp_unit, idt_load_wp; [done..|]. intros s' []. by split_and!.
Qed.

(** ** The interval timer against its data sheet *)

(** Channel 0 of the 8253: the control word selects how the counter is written,
    in mode 3 the low byte first and the high byte second. *)
Record pit_chip := Pit { access : Z; latched_low : option Z; counter : Z }.
Definition pit_step (e : io) (c : pit_chip) : pit_chip :=
  match e with
  | Out 8 p b =>
      if p =? PIT_CMD then
        if Z.shiftr b 6 =? 0 then Pit (Z.land (Z.shiftr b 4) 3) None (counter c) else c
      else if p =? PIT_DATA then
        if access c =? 3 then
          match latched_low c with
          | None => Pit 3 (Some b) (counter c)
          | Some lo => Pit 3 None (lo + 256 * b)
          end
        else if access c =? 2 then Pit 2 None (256 * b) else Pit (access c) None b
      else c
  | _ => c
  end.
Definition pit_after (l : ports) (c : pit_chip) : pit_chip := foldr pit_step c l.

(** The timer's frequency.  For every frequency between 19 Hz and the input
    clock the reload value is the clock divided by it, but its high byte is sent
    first while the timer is set up to take the low byte first: the counter is
    loaded with the two bytes exchanged. *)
Theorem pit_init_swaps_bytes freq (c : pit_chip) s :
  18 < freq < 1193181 →
  let reload := 3579545 / freq / 3 in
  ∃ s', pit_init freq s = Ok (reload * 3000 / 3579545, s') ∧ 0 < reload < 65536 ∧
    counter (pit_after (it_ports s') c) = reload / 256 + 256 * (reload mod 256).
Proof.
  intros Hf reload.
  assert (0 < reload < 65536) as Hr.
  { unfold reload. rewrite Z.div_div by lia. split; [apply Z.div_str_pos; lia|apply Z.div_lt_upper_bound; lia]. }
  destruct (proj1 (wp_ok (pit_init freq) (λ r s', r = reload * 3000 / 3579545 ∧
    counter (pit_after (it_ports s') c) = reload / 256 + 256 * (reload mod 256)) s)) as (r & s' & Hrun & -> & Hc); [|by exists s'].
  unfold pit_init. rewrite (proj2 (Z.leb_gt _ _)) by lia. rewrite Z.geb_leb, (proj2 (Z.leb_gt _ _)) by lia.
  fold reload. unfold pit_reload. wp. rewrite (u32_id (reload * 3000)) by (unfold is_u32; lia). split; [done|].
  assert (u16 reload = reload) as -> by (unfold u16; apply Z.mod_small; lia).
  rewrite Z.shiftr_div_pow2 by lia. change 0xff with (Z.ones 8). rewrite land_low by lia. change (2 ^ 8) with 256.
  assert (0 <= reload / 256 < 256) by (split; [apply Z.div_pos; lia|apply Z.div_lt_upper_bound; lia]).
  pose proof (Z.mod_pos_bound reload 256 ltac:(lia)). rewrite !u8_id by (unfold is_u8; lia).
  generalize (reload / 256), (reload mod 256). intros hi lo. cbn. reflexivity.
Qed.

(** ** Examples *)

Definition intr_example : intr :=
  Intr sched_example [] {[ 0x7000 := set_int_no 33 zero_regs ]} 0 {[ 0 := 100; 1 := 200 ]} ∅ ∅ 0x9000 0x8ffc
    (Tss 0x8ffc 0x18 0).
(** The scheduler at 100, a handler that leaves everything as it is elsewhere. *)
Definition call_example (a regs : Z) : M intr Z := if a =? 100 then schedule_handler regs else mret regs.

Lemma device_handler_example : device_handler call_example 200 0x7000.
Proof. intros q s Hwf Hnd. unfold call_example. cbn [Z.eqb Pos.eqb]. wp. split_and!; try done. by exists q. Qed.

Lemma irq_switches_process_witness :
  ∃ r s', irq_handler call_example (0, zero_regs) 0x7000 intr_example = Ok (r, s') ∧
    it_ports s' = [Out 8 0x20 0x20] ∧ tss_esp0_field (tss s') = r ∨ tss_vaddr s' = 0.
Proof.
  destruct (irq_switches_process call_example (0, zero_regs) 100 (λ _, eq_refl) ltac:(lia) [5; 0; 7] 0x7000
    (set_int_no 33 zero_regs) 200 intr_example sched_example_wf sched_example_nodup)
    as (r & s' & s1 & q' & Hrun & Hs1 & _ & _ & _ & _ & Hports & _ & Hstk).
  - reflexivity.
  - split; by_computation.
  - reflexivity.
  - reflexivity.
  - by_computation.
  - intros _. exact device_handler_example.
  - exists r, s'. destruct (decide (tss_vaddr s' = 0)) as [|Hne]; [by right|left].
    split; [exact Hrun|]. split; [|exact (Hstk Hne)]. rewrite Hports. injection Hs1 as <-. reflexivity.
Defined.

Lemma idt_load_installs_gates_witness :
  ∃ s', idt_load (λ i, 0x100000 + 16 * i) 0x101000 0x101010 0x102000 intr_example = Ok (tt, s') ∧
    gate_address (gate s' 3) = 0x100030 ∧ gate_dpl (gate s' 0x80) = 3.
Proof.
  destruct (idt_load_installs_gates (λ i, 0x100000 + 16 * i) 0x101000 0x101010 0x102000 intr_example)
    as (s' & Hrun & Hisr & _ & Hsys & _).
  - intros i Hi. unfold is_u32. lia.
  - unfold is_u32. lia.
  - exists s'. split; [exact Hrun|]. split; [exact (proj1 (Hisr 3 ltac:(lia)))|].
    exact (proj1 (proj2 (proj2 Hsys))).
Defined.

Lemma pit_init_swaps_bytes_witness :
  ∃ s', pit_init 1000 intr_example = Ok (0, s') ∧ counter (pit_after (it_ports s') (Pit 0 None 0)) = 0xa904.
Proof.
  destruct (pit_init_swaps_bytes 1000 (Pit 0 None 0) intr_example ltac:(lia)) as (s' & Hrun & _ & Hc).
  exists s'. split; [exact Hrun|exact Hc].
Defined.
