(* ===== verification/Modules.v ===== *)
(** * Kernel modules (src/src/kernel/system/modules.c)

    The table of registered modules, the interrupts they claim, and messages to
    them.  The table is a [vector_t] of 40-byte elements: a list here, to which a push
    appends as long as it does not cross a page ([vector_push_get] of Vector.v), and
    which a push that crosses one never comes back from ([vector_push_hangs]).  The
    functions work on any state that has a table of modules and the state of the
    interrupts. *)
From S2P Require Import Prelude PhysMem Paging Heap Kmalloc Scheduler Ports Interrupts Vector.

Record module := Module {
  m_id : Z;
  m_interrupts : Z;
  m_key : Z;
  m_handler : Z;
}.
Record mods := Mods { modules : list module }.
Definition mod_size (s : mods) : Z := Z.of_nat (length (modules s)).

Definition set_interrupts (x : Z) (m : module) : module := Module (m_id m) x (m_key m) (m_handler m).
Definition set_message_handler (h : Z) (m : module) : module := Module (m_id m) (m_interrupts m) (m_key m) h.

(** Pointers into the table. *)
Definition module_at (i : Z) : M mods module := λ s,
  match modules s !! Z.to_nat i with Some m => Ok (m, s) | None => Err (PageFault 0) end.
Definition set_module (i : Z) (m : module) : M mods unit := modify (λ s, Mods (<[Z.to_nat i := m]> (modules s))).
Definition MODULE_SIZE : Z := 40.
Definition vector_push (m : module) : M mods unit :=
  size ← gets mod_size;
  if crosses_page size MODULE_SIZE then fail OutOfFuel
  else modify (λ s, Mods (modules s ++ [m])).

(** The first page has room for 102 modules; the 103rd is never registered. *)
Definition MODULE_ROOM : Z := 102.
Lemma module_room n : 0 <= n < MODULE_ROOM → crosses_page n MODULE_SIZE = false.
Proof.
  intros Hn. assert (Forall (λ n, crosses_page n MODULE_SIZE = false) (seqZ 0 MODULE_ROOM)) as Hall by by_computation.
  rewrite Forall_forall in Hall. apply Hall, elem_of_seqZ. lia.
Qed.
Lemma vector_push_room m s : mod_size s < MODULE_ROOM → vector_push m s = Ok (tt, Mods (modules s ++ [m])).
Proof. intros Hs. unfold vector_push, bind, gets. rewrite module_room by (unfold mod_size in *; lia). done. Qed.
Lemma vector_push_full m s : mod_size s = MODULE_ROOM → vector_push m s = Err OutOfFuel.
Proof. intros Hs. unfold vector_push, bind, gets. rewrite Hs. reflexivity. Qed.

(** The key: 64-bit arithmetic, cut to 32 bits when it is stored, and then combined with the
    number of modules.  [tmp] is a frame that is allocated for the purpose and freed again. *)
Definition module_sum (size tmp : Z) : Z :=
  u32 (Z.lxor size 190507 + Z.lxor (Z.lxor (u32 (Z.shiftl tmp 12)) 4405648937) (Z.shiftr 8592807313 5)).
Definition module_key (size tmp : Z) : Z := Z.land (module_sum size tmp) (Z.lor 0xffffff00 size).

(** The shift of the [int] 1 takes its count modulo 32 on this processor. *)
Definition irq_bit (int_index : Z) : Z := u32 (Z.shiftl 1 (int_index mod 32)).

Section interrupts.
Context {S : Type} `{!Lens S mods} `{!Lens S intr}.

(** MODULE_API_ADDINT: the module is the one the key's low byte names. *)
Definition module_addint (int_index key interrupt_handler : Z) : M S Z :=
  if int_index >=? 16 then mret (u32 (-1))
  else
    zoom (T := intr) (install_irq_handler interrupt_handler (u8 int_index));;
    m ← zoom (T := mods) (module_at (Z.land key 0xff));
    zoom (T := mods) (set_module (Z.land key 0xff) (set_interrupts (Z.lor (m_interrupts m) (irq_bit int_index)) m));;
    mret 0.

(** MODULE_API_DELINT *)
Definition module_delint (int_index key : Z) : M S Z :=
  m ← zoom (T := mods) (module_at (Z.land key 0xff));
  if key =? m_key m then
    zoom (T := intr) (install_irq_handler 0 (u8 int_index));;
    zoom (T := mods) (set_module (Z.land key 0xff) (set_interrupts (Z.ldiff (m_interrupts m) (irq_bit int_index)) m));;
    mret 0
  else mret (u32 (-1)).
End interrupts.

(** MODULE_MESSAGE_HANDLER: 0 once a module with the key is found. *)
Definition module_set_handler (key h : Z) : M mods Z :=
  n ← gets mod_size;
  r ← for_loop 0 n (λ i,
        m ← module_at i;
        if m_key m =? key then set_module i (set_message_handler h m);; mret (Some 0)
        else mret None);
  mret (match r with Some x => x | None => if n =? 0 then 0 else u32 (-1) end).

(** The first module with the key gets the handler. *)
Lemma module_set_handler_wp key h l1 m l2 (Q : Z → mods → Prop) s :
  modules s = l1 ++ m :: l2 → Forall (λ m, m_key m ≠ key) l1 → m_key m = key →
  Q 0 (Mods (l1 ++ set_message_handler h m :: l2)) → wp (module_set_handler key h) Q s.
Proof.
  intros Hs Hl1 Hm HQ. unfold module_set_handler. wp.
  apply (wp_for (λ i s', s' = s ∧ 0 <= i <= Z.of_nat (length l1))).
  - unfold mod_size. lia.
  - split; [done|lia].
  - intros i ? [_ Hi] [-> Hi1]. rewrite wp_bind. unfold wp at 1, module_at. rewrite Hs.
    destruct (decide (i = Z.of_nat (length l1))) as [->|Hne].
    + rewrite Nat2Z.id, list_lookup_middle by done. rewrite (proj2 (Z.eqb_eq _ _) Hm). unfold set_module. wp.
      rewrite Hs, Nat2Z.id, insert_app_r_alt, Nat.sub_diag by lia. exact HQ.
    + destruct (lookup_lt_is_Some_2 l1 (Z.to_nat i)) as [x Hx]; [lia|]. rewrite (lookup_app_l_Some _ _ _ _ Hx).
      assert (m_key x ≠ key) as Hk by exact (proj1 (Forall_lookup _ _) Hl1 _ _ Hx).
      rewrite (proj2 (Z.eqb_neq _ _) Hk). wp. split; [done|lia].
  - intros ? [-> Hi]. exfalso. unfold mod_size in Hi. rewrite Hs, length_app in Hi. simpl in Hi. lia.
Qed.

(** ** Messages *)

Definition MESSAGE_MOUNT_FS : Z := 0.
Definition MESSAGE_UNMOUNT_FS : Z := 1.
Definition MESSAGE_PARTITON_DETECT : Z := 2.
Definition MESSAGE_DEVICE_ADD : Z := 3.
Definition MESSAGE_DEVICE_REMOVE : Z := 4.

(** How many arguments a message has; [None] for a message the switch lacks. *)
Definition message_args (message : Z) : option nat :=
  if message =? MESSAGE_MOUNT_FS then Some 3%nat
  else if (message =? MESSAGE_UNMOUNT_FS) || (message =? MESSAGE_PARTITON_DETECT) ||
          (message =? MESSAGE_DEVICE_REMOVE) || (message =? MESSAGE_DEVICE_ADD) then Some 1%nat
  else None.

(** A module's code behind its handler pointer. *)
Section dispatch.
Context {S : Type} `{!Lens S mods}.
Variable handler : Z → Z → list Z → M S Z.

Definition table (s : S) : list module := modules (view s).
Definition table_size (s : S) : Z := Z.of_nat (length (table s)).

Definition va_dispatch_message (message : Z) (args : list Z) : M S Z :=
  loop fuel32 (λ i,
    n ← zoom (T := mods) (gets mod_size);
    if i <? n then
      m ← zoom (T := mods) (module_at i);
      if m_handler m =? 0 then mret (inl (i + 1))
      else
        result ← (match message_args message with
                  | Some k => handler (m_handler m) message (take k args)
                  | None => mret 0
                  end);
        if (message <? 2 ^ 31) && (result >=? 0) then mret (inr (u32 result)) else mret (inl (i + 1))
    else mret (inr (u32 (-1)))) 0.

(** ** What a dispatch does *)

(** Handlers asked one after the other, until one takes the message. *)
Fixpoint ask (message : Z) (args : list Z) (hs : list Z) : M S Z :=
  match hs with
  | [] => mret (u32 (-1))
  | h :: hs =>
      result ← handler h message args;
      if result >=? 0 then mret (u32 result) else ask message args hs
  end.
Definition handlers_of (l : list module) : list Z := filter (λ h, h ≠ 0) (m_handler <$> l).

(** Handlers return, and leave the table of modules alone. *)
Definition handlers_ok : Prop :=
  ∀ h message args s, ∃ r s', handler h message args s = Ok (r, s') ∧ table s' = table s.

Lemma handlers_of_cons m l : handlers_of (m :: l) = if m_handler m =? 0 then handlers_of l else m_handler m :: handlers_of l.
Proof.
  unfold handlers_of. rewrite fmap_cons, filter_cons. destruct (Z.eqb_spec (m_handler m) 0).
  - by rewrite decide_False by tauto.
  - by rewrite decide_True.
Qed.

Lemma module_at_wp i m (Q : module → S → Prop) s :
  table s !! Z.to_nat i = Some m → Q m s → wp (zoom (T := mods) (module_at i)) Q s.
Proof. unfold table. intros Hm HQ. rewrite wp_zoom. unfold wp, module_at. by rewrite Hm, put_view. Qed.

Lemma ask_total message args hs s :
  handlers_ok → ∃ r s', ask message args hs s = Ok (r, s') ∧ table s' = table s.
Proof.
  intros Hh. revert s. induction hs as [|h hs IH]; intros s; cbn [ask]; [by exists (u32 (-1)), s|].
  destruct (Hh h message args s) as (r & s1 & Hr & Hm). unfold bind. rewrite Hr.
  destruct (r >=? 0); [by exists (u32 r), s1|]. destruct (IH s1) as (r2 & s2 & H2 & Hm2). exists r2, s2. by rewrite Hm2.
Qed.

Lemma message_args_known message k : message_args message = Some k → 0 <= message < 2 ^ 31.
Proof.
  unfold message_args, MESSAGE_MOUNT_FS, MESSAGE_UNMOUNT_FS, MESSAGE_PARTITON_DETECT, MESSAGE_DEVICE_REMOVE, MESSAGE_DEVICE_ADD.
  destruct (Z.eqb_spec message 0); [lia|]. destruct (Z.eqb_spec message 1); [lia|].
  destruct (Z.eqb_spec message 2); [lia|]. destruct (Z.eqb_spec message 4); [lia|].
  destruct (Z.eqb_spec message 3); [lia|done].
Qed.

Lemma dispatch_wp message k args s r' s2 :
  handlers_ok → message_args message = Some k → table_size s < 2 ^ 32 →
  ask message (take k args) (handlers_of (table s)) s = Ok (r', s2) →
  wp (va_dispatch_message message args) (λ r s', r = r' ∧ s' = s2) s.
Proof.
  intros Hh Hk Hlim Hask. pose proof (message_args_known message k Hk) as Hmsg. unfold va_dispatch_message. rewrite Hk.
  apply (wp_loop (λ i s', ask message (take k args) (handlers_of (drop (Z.to_nat i) (table s'))) s' = Ok (r', s2) ∧
      table s' = table s ∧ 0 <= i <= table_size s) (λ i _, table_size s - i)).
  - split_and!; [by rewrite drop_0|done|lia|unfold table_size; lia].
  - unfold fuel32. lia.
  - intros i s' (_ & _ & ?). lia.
  - intros i s' (Hrest & Hmods & Hi). assert (table_size s' = table_size s) as Hsz by (unfold table_size; by rewrite Hmods).
    wp. change (mod_size (view s')) with (table_size s'). rewrite Hsz. destruct (Z.ltb_spec i (table_size s)) as [Hlt|Hge].
    + destruct (lookup_lt_is_Some_2 (table s') (Z.to_nat i)) as [m Hm]; [unfold table_size in *; lia|].
      rewrite (drop_S _ _ _ Hm), handlers_of_cons in Hrest. rewrite put_view, wp_bind. apply (module_at_wp i m); [done|].
      replace (Datatypes.S (Z.to_nat i)) with (Z.to_nat (i + 1)) in Hrest by lia.
      destruct (Z.eqb_spec (m_handler m) 0) as [Hz|Hnz]; wp.
      { split_and!; try done; lia. }
      destruct (Hh (m_handler m) message (take k args) s') as (r & s1 & Hr & Hm1). cbn [ask] in Hrest.
      unfold bind in Hrest. rewrite Hr in Hrest. rewrite (wp_run _ _ _ _ _ Hr).
      rewrite (proj2 (Z.ltb_lt message (2 ^ 31))) by lia. cbn [andb].
      destruct (r >=? 0); wp.
      * injection Hrest as -> ->. done.
      * split; [|lia]. split_and!; [|by rewrite Hm1|lia|lia]. rewrite Hm1. done.
    + rewrite drop_ge in Hrest by (unfold table_size in *; lia). injection Hrest as <- <-. wp. by rewrite put_view.
Qed.

(** ** Properties *)

(** A message goes to the first module that takes it.  For every message the
    kernel knows, dispatching asks the registered handlers in the order of
    registration, with as many arguments as the message has, stops at the first
    that answers with a number that is not negative, and returns that number;
    when none does it returns -1. *)
Theorem dispatch_asks_in_order message k args s :
  handlers_ok → message_args message = Some k → table_size s < 2 ^ 32 →
  va_dispatch_message message args s = ask message (take k args) (handlers_of (table s)) s ∧
  ∃ r s', va_dispatch_message message args s = Ok (r, s').
Proof.
  intros Hh Hk Hlim. destruct (ask_total message (take k args) (handlers_of (table s)) s Hh) as (r & s' & Hask & _).
  pose proof (dispatch_wp message k args s r s' Hh Hk Hlim Hask) as Hwp.
  apply wp_ok in Hwp as (r2 & s2 & Hrun & -> & ->). rewrite Hrun, Hask. split; [done|]. by exists r, s'.
Qed.

(** A message the switch lacks (a driver's MESSAGE_DEVICE_REMOVE is 5, the kernel's
    is 4) reaches no handler, and is reported as delivered as soon as the first
    module has a handler. *)
Theorem dispatch_drops_unknown message args m l s :
  message_args message = None → 0 <= message < 2 ^ 31 → table s = m :: l → m_handler m ≠ 0 →
  va_dispatch_message message args s = Ok (0, s).
Proof.
  intros Hk Hmsg Hm Hh. apply wp_pure. unfold va_dispatch_message. rewrite Hk.
  assert (table_size s > 0) by (unfold table_size; rewrite Hm; simpl; lia).
  apply (wp_loop (λ i s', i = 0 ∧ s' = s) (λ _ _, 0)); [done|unfold fuel32; lia|done|].
  intros i s' [-> ->]. wp. change (mod_size (view s)) with (table_size s). rewrite (proj2 (Z.ltb_lt 0 _)) by lia. rewrite put_view, wp_bind.
  apply (module_at_wp 0 m); [by rewrite Hm|]. rewrite (proj2 (Z.eqb_neq _ _) Hh). wp. rewrite (proj2 (Z.ltb_lt message (2 ^ 31))) by lia. done.
Qed.
End dispatch.

(** The key of the fourth module names the second one: its low byte, by which
    MODULE_API_ADDINT and MODULE_API_DELINT find the module, is 1, whatever frame
    went into it. *)
Theorem module_key_names_other tmp : Z.land (module_key 3 tmp) 0xff = 1.
Proof.
  unfold module_key, module_sum. rewrite <- Z.land_assoc. change (Z.land (Z.lor 0xffffff00 3) 0xff) with (Z.ones 2).
  change (Z.lxor 3 190507) with 190504. change (Z.shiftr 8592807313 5) with 268525228.
  rewrite Z.lxor_assoc. change (Z.lxor 4405648937 268525228) with 4674125957.
  set (x := u32 (Z.shiftl tmp 12)).
  assert (∀ y, u32 y mod 2 ^ 2 = y mod 2 ^ 2) as Hmod.
  { intros y. unfold u32. rewrite Z.mod_mod_divide; [done|]. by exists (2 ^ 30). }
  rewrite land_low, Hmod by lia. rewrite <- Z.add_mod_idemp_r by lia. rewrite <- (land_low (Z.lxor _ _)) by lia.
  assert (Z.land x (Z.ones 2) = 0) as Hx.
  { unfold x. rewrite land_low, Hmod, Z.shiftl_mul_pow2 by lia. change (2 ^ 12) with (1024 * 2 ^ 2).
    rewrite Z.mul_assoc. apply Z.mod_mul. lia. }
  assert (Z.land (Z.lxor x 4674125957) (Z.ones 2) = 1) as ->; [|done].
  apply Z.bits_inj'. intros j Hj. rewrite Z.land_spec, Z.lxor_spec.
  assert (Z.testbit (Z.land x (Z.ones 2)) j = false) as Hb by (rewrite Hx; apply Z.testbit_0_l).
  rewrite Z.land_spec in Hb. change (Z.testbit 1 j) with (Z.testbit (Z.land 4674125957 (Z.ones 2)) j). rewrite Z.land_spec.
  destruct (Z.testbit (Z.ones 2) j); [|by rewrite !andb_false_r]. rewrite andb_true_r in Hb. by rewrite Hb.
Qed.

(** ** Examples *)

(** A handler that takes every message and answers 7, one that refuses, and two
    modules that use them. *)
Definition example_handler (h message : Z) (args : list Z) : M mods Z := if h =? 1 then mret (-1) else mret 7.
Definition two_modules : mods := Mods [Module 1 0 0 1; Module 2 0 0 2].

Lemma example_handlers_ok : handlers_ok example_handler.
Proof. intros h message args s. unfold example_handler. destruct (h =? 1); eexists _, _; (split; [reflexivity|done]). Defined.

Lemma dispatch_asks_in_order_witness :
  va_dispatch_message example_handler MESSAGE_DEVICE_ADD [42] two_modules = Ok (7, two_modules).
Proof.
  destruct (dispatch_asks_in_order example_handler MESSAGE_DEVICE_ADD 1 [42] two_modules example_handlers_ok eq_refl eq_refl)
    as [Hrun _]. rewrite Hrun. reflexivity.
Defined.

(** A driver that announces the removal of a disk. *)
Example removal_is_dropped : va_dispatch_message example_handler 5 [42] two_modules = Ok (0, two_modules).
Proof. apply (dispatch_drops_unknown example_handler 5 [42] (Module 1 0 0 1) [Module 2 0 0 2]); (reflexivity || lia || done). Qed.
