(* ===== verification/Api.v ===== *)
(** * The module interface (src/src/kernel/system/modules.c: module_api,
    src/src/kmodules/modlib.h)

    Drivers reach the kernel through one function of a variable number of arguments.  The
    arguments are the words behind the last named one on the caller's stack: [va k] is the
    [k]-th, also when the caller passed fewer, and a 64-bit one takes two, the low half
    first.  [KernelApi] is what the interface hands calls over to: the table of modules, the
    state of interrupts, processes and memory, and the file system and the log behind
    functions of their own. *)
From S2P Require Import Prelude PhysMem Paging Heap Kmalloc KBytes Boot Scheduler Ports Interrupts Modules.

(** Words on the stack from the first variable argument on. *)
Definition va_list : Type := nat → Z.
Definition va_skip (n : nat) (va : va_list) : va_list := λ k, va (n + k)%nat.
Definition va_u32 (va : va_list) (k : nat) : Z := u32 (va k).
Definition va_u64 (va : va_list) (k : nat) : Z := u32 (va k) + 2 ^ 32 * u32 (va (k + 1)%nat).

(** A call pushes its arguments; what lies behind them is whatever the stack holds. *)
Definition push_args (args : list Z) (stack : va_list) : va_list := λ k,
  match args !! k with Some x => x | None => stack (k - length args)%nat end.

Definition MODULE_API_ADDFUNC : Z := 0.
Definition MODULE_API_REGISTER : Z := 1.
Definition MODULE_API_DELFUNC : Z := 2.
Definition MODULE_API_ADDINT : Z := 3.
Definition MODULE_API_DELINT : Z := 4.
Definition MODULE_API_PRINT : Z := 5.
Definition MODULE_API_READ : Z := 6.
Definition MODULE_API_WRITE : Z := 7.
Definition MODULE_API_CREAT : Z := 8.
Definition MODULE_API_DELET : Z := 9.
Definition MODULE_API_OPEN : Z := 10.
Definition MODULE_API_MAP : Z := 11.
Definition MODULE_API_UNMAP : Z := 12.
Definition MODULE_API_PADDR : Z := 13.
Definition MODULE_API_MALLOC : Z := 14.
Definition MODULE_API_FREE : Z := 15.
Definition MODULE_API_PMALLOC64K : Z := 16.
Definition MODULE_API_KMALLOC_PADDR : Z := 17.
Definition MODULE_MESSAGE_HANDLER : Z := 18.
Definition MODULE_API_DISPATCH_MESSAGE : Z := 19.
Definition MODULE_API_BLOCK_PID : Z := 20.
Definition MODULE_API_UNBLOCK_PID : Z := 21.
Definition MODULE_API_GET_CPID : Z := 22.
Definition MODULE_API_IS_INTERRUPT : Z := 23.

(** What a call of the interface may be handed over to. *)
Class KernelApi (S : Type) := {
  ka_mods :: Lens S mods;
  ka_intr :: Lens S intr;
  ka_apart (i : intr) (t : mods) s : put i (put t s) = put t (put i s);
  (** vfs.c *)
  vfs_fread : Z → Z → Z → Z → M S Z;
  vfs_fwrite : Z → Z → Z → Z → M S Z;
  vfs_fcreate : Z → Z → M S Z;
  vfs_fdelete : Z → Z → M S Z;
  vfs_fopen : Z → M S Z;
  (** kstdlib.c; the last argument is the rest of the caller's arguments *)
  log_vmlog : Z → Z → Z → va_list → M S unit;
  (** the code of a module behind the pointer to its message handler *)
  module_code : Z → Z → list Z → M S Z;
}.

Section api.
Context {S : Type} `{KernelApi S}.

Definition api_sched {A} (m : M sched A) : M S A := zoom (T := intr) (zoom m).
Definition api_km {A} (m : M kmem A) : M S A := api_sched (zoom m).
Definition api_mods {A} (m : M mods A) : M S A := zoom m.

(** Offsets of the fields of [module_t]. *)
Definition MODULE_ID : Z := 4.
Definition MODULE_INTERRUPTS : Z := 24.
Definition MODULE_KEY : Z := 28.
Definition MODULE_HANDLER : Z := 32.

(** The structure lies in the memory of the driver.  Its address is not tested again
    after the first test, so a null pointer goes on.  [vector_push] copies it. *)
Definition register (structure : Z) : M S Z :=
  size ← api_mods (gets mod_size);
  tmp ← api_km (kpm pm_alloc);
  api_km (kwrite32 (u32 (structure + MODULE_KEY)) (module_sum size tmp));;
  key ← api_km (kread32 (u32 (structure + MODULE_KEY)));
  size ← api_mods (gets mod_size);
  api_km (kwrite32 (u32 (structure + MODULE_KEY)) (Z.land key (Z.lor 0xffffff00 size)));;
  id ← api_km (kread32 (u32 (structure + MODULE_ID)));
  interrupts ← api_km (kread32 (u32 (structure + MODULE_INTERRUPTS)));
  key ← api_km (kread32 (u32 (structure + MODULE_KEY)));
  handler ← api_km (kread32 (u32 (structure + MODULE_HANDLER)));
  api_mods (vector_push (Module id interrupts key handler));;
  api_km (kpm (pm_free tmp));;
  mret 0.

(** The interface; a number without a case is answered with 0. *)
Definition module_api (func : Z) (va : va_list) : M S Z :=
  let arg := va_u32 va in
  if func =? MODULE_API_REGISTER then register (arg 0%nat)
  else if func =? MODULE_API_ADDINT then module_addint (arg 0%nat) (arg 1%nat) (arg 2%nat)
  else if func =? MODULE_API_DELINT then module_delint (arg 0%nat) (arg 1%nat)
  else if func =? MODULE_API_PRINT then log_vmlog (arg 0%nat) (arg 1%nat) 2 (va_skip 2 va);; mret 0
  else if func =? MODULE_API_READ then
    r ← vfs_fread (arg 0%nat) (arg 1%nat) (va_u64 va 2) (va_u64 va 4); mret (u32 r)
  else if func =? MODULE_API_WRITE then
    r ← vfs_fwrite (arg 0%nat) (arg 1%nat) (va_u64 va 2) (va_u64 va 4); mret (u32 r)
  else if func =? MODULE_API_CREAT then vfs_fcreate (arg 0%nat) (arg 1%nat)
  else if func =? MODULE_API_DELET then r ← vfs_fdelete (arg 0%nat) (arg 1%nat); mret (u32 r)
  else if func =? MODULE_API_OPEN then vfs_fopen (arg 0%nat)
  else if func =? MODULE_API_MAP then api_km (kpg (map (arg 0%nat) (arg 1%nat) (arg 2%nat)));; mret 0
  else if func =? MODULE_API_UNMAP then api_km (kpg (unmap (arg 0%nat)));; mret 0
  else if func =? MODULE_API_PADDR then api_km (kpg (get_paddr (arg 0%nat)))
  else if func =? MODULE_API_MALLOC then api_km (kmalloc (arg 0%nat))
  else if func =? MODULE_API_FREE then _ ← api_km (kfree (arg 0%nat)); mret 0
  else if func =? MODULE_API_PMALLOC64K then api_km (kpm pm_alloc_64kaligned)
  else if func =? MODULE_API_KMALLOC_PADDR then api_km (kmalloc_page_paddr (arg 0%nat) (arg 1%nat))
  else if func =? MODULE_MESSAGE_HANDLER then api_mods (module_set_handler (arg 0%nat) (arg 1%nat))
  else if func =? MODULE_API_BLOCK_PID then api_sched (set_pid_blocked (arg 0%nat));; mret 0
  else if func =? MODULE_API_UNBLOCK_PID then api_sched (set_pid_unblocked (arg 0%nat));; mret 0
  else if func =? MODULE_API_GET_CPID then api_sched get_current_pid
  else if func =? MODULE_API_IS_INTERRUPT then zoom (T := intr) (gets in_interrupt)
  else if func =? MODULE_API_DISPATCH_MESSAGE then
    va_dispatch_message module_code (arg 0%nat) (arg <$> seq 1 3)
  else mret 0.

Definition dispatch_message (message : Z) (args : list Z) : M S Z := va_dispatch_message module_code message args.

(** An empty vector has one page for itself and one for its elements. *)
Definition modules_init : M S unit :=
  _ ← api_km (kmalloc 1);
  _ ← api_km (kmalloc 1);
  api_mods (modify (λ _, Mods [])).

(** What a driver's [init] does to be asked: it registers the structure of its module,
    reads the key that it was given, and names its handler of messages. *)
Definition driver_listen (structure handler : Z) (stack : nat → Z) : M S Z :=
  _ ← module_api MODULE_API_REGISTER (push_args [structure] stack);
  key ← api_km (kread32 (u32 (structure + MODULE_KEY)));
  module_api MODULE_MESSAGE_HANDLER (push_args [key; handler] stack).
End api.

(** ** The drivers' side (modlib.h) *)

Definition words64 (x : Z) : list Z := [u32 x; u32 (Z.shiftr x 32)].

Section modlib.
Context {S : Type}.
Variable api : Z → va_list → M S Z.
Variable stack : va_list.

Definition modlib_malloc (size_pages : Z) : M S Z := api MODULE_API_MALLOC (push_args [u32 size_pages] stack).
Definition modlib_free (ptr : Z) : M S Z := _ ← api MODULE_API_FREE (push_args [u32 ptr] stack); mret 0.
Definition modlib_fopen (filename : Z) : M S Z := api MODULE_API_OPEN (push_args [u32 filename] stack).
Definition modlib_fread (file buffer offset count : Z) : M S Z :=
  r ← api MODULE_API_READ (push_args ([u32 file; u32 buffer] ++ words64 offset ++ words64 count) stack); mret (s32 r).
Definition modlib_fwrite (file buffer offset count : Z) : M S Z :=
  r ← api MODULE_API_WRITE (push_args ([u32 file; u32 buffer] ++ words64 offset ++ words64 count) stack); mret (s32 r).
Definition modlib_fcreate (filename type : Z) : M S Z := api MODULE_API_CREAT (push_args [u32 filename; u32 type] stack).
Definition modlib_puts (mname str : Z) : M S unit := _ ← api MODULE_API_PRINT (push_args [u32 mname; u32 str] stack); mret tt.
Definition modlib_is_interrupt : M S Z := r ← api MODULE_API_IS_INTERRUPT (push_args [] stack); mret (u8 r).
End modlib.

(** ** Every wrapper reaches its function *)

Lemma u32_u32 x : u32 (u32 x) = u32 x.
Proof. unfold u32. by rewrite Z.mod_mod by lia. Qed.
Lemma s32_u32 x : s32 (u32 x) = s32 x.
Proof. unfold s32, u32. by rewrite Z.add_mod_idemp_l by lia. Qed.

Lemma va_u32_push args stack k x : args !! k = Some x → va_u32 (push_args args stack) k = u32 x.
Proof. intros Hx. unfold va_u32, push_args. by rewrite Hx. Qed.
Lemma va_u64_push args stack k x :
  args !! k = Some (u32 x) → args !! (k + 1)%nat = Some (u32 (Z.shiftr x 32)) → va_u64 (push_args args stack) k = u64 x.
Proof.
  intros H0 H1. unfold va_u64, push_args. rewrite H0, H1, !u32_u32. unfold u32, u64. rewrite Z.shiftr_div_pow2 by lia.
  change (2 ^ 64) with (2 ^ 32 * 2 ^ 32). rewrite Z.rem_mul_r by lia. lia.
Qed.
Lemma va_skip_push args stack k : va_skip (length args) (push_args args stack) k = stack k.
Proof.
  unfold va_skip, push_args. rewrite lookup_ge_None_2 by lia. f_equal. lia.
Qed.

(** Fetches the arguments of a call that has passed all of them. *)
Ltac arguments :=
  repeat erewrite va_u64_push by reflexivity; repeat erewrite va_u32_push by reflexivity; rewrite ?u32_u32.

Section wrappers.
Context {S : Type} `{KernelApi S}.

(** The cases of the interface that the wrappers use. *)
Lemma api_malloc va : module_api MODULE_API_MALLOC va = api_km (kmalloc (va_u32 va 0)).
Proof. reflexivity. Qed.
Lemma api_free va : module_api MODULE_API_FREE va = (_ ← api_km (kfree (va_u32 va 0)); mret 0).
Proof. reflexivity. Qed.
Lemma api_open va : module_api MODULE_API_OPEN va = vfs_fopen (va_u32 va 0).
Proof. reflexivity. Qed.
Lemma api_read va :
  module_api MODULE_API_READ va = (r ← vfs_fread (va_u32 va 0) (va_u32 va 1) (va_u64 va 2) (va_u64 va 4); mret (u32 r)).
Proof. reflexivity. Qed.
Lemma api_write va :
  module_api MODULE_API_WRITE va = (r ← vfs_fwrite (va_u32 va 0) (va_u32 va 1) (va_u64 va 2) (va_u64 va 4); mret (u32 r)).
Proof. reflexivity. Qed.
Lemma api_creat va : module_api MODULE_API_CREAT va = vfs_fcreate (va_u32 va 0) (va_u32 va 1).
Proof. reflexivity. Qed.
Lemma api_print va :
  module_api MODULE_API_PRINT va = (log_vmlog (va_u32 va 0) (va_u32 va 1) 2 (va_skip 2 va);; mret 0).
Proof. reflexivity. Qed.

Lemma bind_assoc {A B C} (m : M S A) (k : A → M S B) (h : B → M S C) s :
  (y ← (x ← m; k x); h y) s = (x ← m; y ← k x; h y) s.
Proof. unfold bind. by destruct (m s) as [[]|]. Qed.

(** C37: A driver that calls a wrapper of modlib.h calls the function of the kernel that the
    wrapper is named after: for every stack of the caller and in every state, [malloc],
    [free], [fopen], [fread], [fwrite], [fcreate] and [is_interrupt] through [module_api] do
    to the kernel what [kmalloc], [kfree], [fopen], [fread], [fwrite], [fcreate] and
    [get_in_interrupt] do, with the arguments at their width and the 64-bit ones put
    together again, and return what those return; [puts] logs its text, with whatever lies on
    the stack as the arguments of the directives in it. *)
Theorem modlib_wrappers_reach_kernel (stack : va_list) (s : S) :
  (∀ n, modlib_malloc module_api stack n s = api_km (kmalloc (u32 n)) s) ∧
  (∀ p, modlib_free module_api stack p s = (_ ← api_km (kfree (u32 p)); mret 0) s) ∧
  (∀ name, modlib_fopen module_api stack name s = vfs_fopen (u32 name) s) ∧
  (∀ f b o c, modlib_fread module_api stack f b o c s =
     (r ← vfs_fread (u32 f) (u32 b) (u64 o) (u64 c); mret (s32 r)) s) ∧
  (∀ f b o c, modlib_fwrite module_api stack f b o c s =
     (r ← vfs_fwrite (u32 f) (u32 b) (u64 o) (u64 c); mret (s32 r)) s) ∧
  (∀ name t, modlib_fcreate module_api stack name t s = vfs_fcreate (u32 name) (u32 t) s) ∧
  (∀ m t, ∃ va, (∀ k, va k = stack k) ∧ modlib_puts module_api stack m t s = log_vmlog (u32 m) (u32 t) 2 va s) ∧
  modlib_is_interrupt module_api stack s = (r ← zoom (T := intr) (gets in_interrupt); mret (u8 r)) s.
Proof.
  split_and!; intros.
  - unfold modlib_malloc. rewrite api_malloc. by arguments.
  - unfold modlib_free. rewrite api_free, bind_assoc. by arguments.
  - unfold modlib_fopen. rewrite api_open. by arguments.
  - unfold modlib_fread.
    rewrite api_read, bind_assoc. arguments.
    unfold bind, mret. destruct (vfs_fread _ _ _ _ s) as [[]|]; [|done]. unfold M_ret. by rewrite s32_u32.
  - unfold modlib_fwrite.
    rewrite api_write, bind_assoc. arguments.
    unfold bind, mret. destruct (vfs_fwrite _ _ _ _ s) as [[]|]; [|done]. unfold M_ret. by rewrite s32_u32.
  - unfold modlib_fcreate. rewrite api_creat. by arguments.
  - exists (va_skip 2 (push_args [u32 m; u32 t] stack)). split; [intros k; apply (va_skip_push [_; _])|].
    unfold modlib_puts. rewrite api_print. arguments. unfold bind, mret, M_ret. by destruct (log_vmlog _ _ _ _ s) as [[[]]|].
  - reflexivity.
Qed.
End wrappers.

(** ** A driver that registers and listens *)

Section driver.
Context {S : Type} `{KernelApi S}.

(** The kernel's memory, and the state with another one. *)
Definition memory_of (s : S) : kmem := view (view (T := sched) (view (T := intr) s)).
Definition with_memory (km : kmem) (s : S) : S :=
  put (put (put km (view (T := sched) (view (T := intr) s))) (view (T := intr) s)) s.

Lemma api_km_wp {A} (m : M kmem A) (Q : A → S → Prop) s :
  wp m (λ a km, Q a (with_memory km s)) (memory_of s) → wp (api_km m) Q s.
Proof. unfold api_km, api_sched. by rewrite !wp_zoom. Qed.
Lemma api_mods_wp {A} (m : M mods A) (Q : A → S → Prop) s :
  wp m (λ a t, Q a (put t s)) (view s) → wp (api_mods m) Q s.
Proof. unfold api_mods. by rewrite wp_zoom. Qed.

Lemma mods_put_intr (i : intr) (s : S) : view (T := mods) (put i s) = view s.
Proof.
  assert (put (view (T := mods) s) (put i s) = put i s) as E by (by rewrite <- ka_apart, put_view).
  by rewrite <- E, view_put.
Qed.
Lemma intr_put_mods (t : mods) (s : S) : view (T := intr) (put t s) = view s.
Proof.
  assert (put (view (T := intr) s) (put t s) = put t s) as E by (by rewrite ka_apart, put_view).
  by rewrite <- E, view_put.
Qed.
Lemma memory_with km s : memory_of (with_memory km s) = km.
Proof. unfold memory_of, with_memory. by rewrite !view_put. Qed.
Lemma with_with km km' s : with_memory km (with_memory km' s) = with_memory km s.
Proof. unfold with_memory. rewrite !view_put, !put_put. by destruct (view s) as [[]]. Qed.
Lemma with_own s : with_memory (memory_of s) s = s.
Proof. unfold with_memory, memory_of. by rewrite !put_view. Qed.
Lemma mods_with km s : view (T := mods) (with_memory km s) = view s.
Proof. apply mods_put_intr. Qed.
Lemma put_own_mods km s : put (view (T := mods) s) (with_memory km s) = with_memory km s.
Proof. by rewrite <- (mods_with km s), put_view. Qed.
Lemma memory_put (t : mods) s : memory_of (put t s) = memory_of s.
Proof. unfold memory_of. by rewrite intr_put_mods. Qed.
Lemma with_put km (t : mods) s : with_memory km (put t s) = put t (with_memory km s).
Proof. unfold with_memory. by rewrite intr_put_mods, ka_apart. Qed.
End driver.
#[export] Hint Rewrite @memory_with @with_with @with_own @mods_with @memory_put @with_put : api.

(** The structure of a driver, in one page of its memory. *)
Record structure_at (p : paging) (n f o id interrupts handler : Z) : Prop := {
  sa_page : ∃ fl, on_frame p n f fl;
  sa_range : 0 <= o ∧ o + 40 <= 4096 ∧ o mod 4 = 0 ∧ n * 4096 + o < 2 ^ 32 - 4096;
  sa_id : kword p f (o + MODULE_ID) = id;
  sa_interrupts : kword p f (o + MODULE_INTERRUPTS) = interrupts;
  sa_handler : kword p f (o + MODULE_HANDLER) = handler;
}.

Lemma u32_module_key size tmp : u32 (module_key size tmp) = module_key size tmp.
Proof.
  unfold module_key, module_sum, u32. rewrite <- !Z.land_ones by lia. rewrite <- !Z.land_assoc. f_equal.
  rewrite (Z.land_comm (Z.lor _ _)), Z.land_assoc, Z.land_diag. done.
Qed.
Lemma page_number_nonneg p n f fl : on_frame p n f fl → 0 <= n * 4096.
Proof.
  intros [[Hs _] _ _ _ _]. destruct (decide (0 <= n)); [lia|]. assert (n / 1024 <= 0) by (apply Z.div_le_upper_bound; lia). lia.
Qed.

(** The memory after the key has been stored: one word has changed, and the same frames are
    in use. *)
Record key_stored (p p' : paging) (f o key : Z) : Prop := {
  ks_wf : pg_wf p';
  ks_used g : used (pg_pm p') g = used (pg_pm p) g;
  ks_phys : ∃ x, phys p' = <[f * PAGE_SIZE_BYTES + (o + MODULE_KEY) := key]> (<[f * PAGE_SIZE_BYTES + (o + MODULE_KEY) := x]> (phys p));
  ks_step : data_step p (put (pg_pm p) p') (eq f);
}.

Ltac register_step := cbv beta; rewrite ?wp_bind; (apply api_km_wp || apply api_mods_wp); autorewrite with api.

Lemma key_stored_word p p' n f o id interrupts h key :
  pg_wf p → structure_at p n f o id interrupts h → key_stored p p' f o key →
  u32 (n * 4096 + o + MODULE_KEY) = n * 4096 + (o + MODULE_KEY) ∧
  walk p' (n * 4096 + (o + MODULE_KEY)) = Some (f * PAGE_SIZE_BYTES + (o + MODULE_KEY)) ∧ kword p' f (o + MODULE_KEY) = key.
Proof.
  intros Hwf [[fl Hon] (Ho & Ho' & _ & Hlim) _ _ _] [_ _ [x Hx] Hst]. pose proof (page_number_nonneg _ _ _ _ Hon) as Hn.
  unfold MODULE_KEY in *. split_and!.
  - rewrite u32_id by (unfold is_u32; lia). lia.
  - change (walk (put (pg_pm p) p') (n * 4096 + (o + 28)) = Some (f * PAGE_SIZE_BYTES + (o + 28))).
    apply (on_frame_walk _ _ _ fl); [apply Hst|by apply (data_step_on_frame p _ (eq f))|lia].
  - unfold kword. by rewrite Hx, zget_insert_eq.
Qed.

Section register.
Context {S : Type} `{KernelApi S}.

Lemma register_wp n f o id interrupts handler (Q : Z → S → Prop) s :
  let p := km_pg (memory_of s) in
  pg_wf p → avail (pg_pm p) 1 → structure_at p n f o id interrupts handler → table_size s < MODULE_ROOM →
  (∀ g p' key, used (pg_pm p) g = false → key = module_key (table_size s) (g * PAGE_SIZE_BYTES) → key_stored p p' f o key →
     Q 0 (put (Mods (table s ++ [Module id interrupts key handler])) (with_memory (put p' (memory_of s)) s))) →
  wp (register (n * 4096 + o)) Q s.
Proof.
  intros p Hwf Hav [[fl Hon] (Ho & Ho' & Hal & Hlim) Hid Hint Hh] Hroom HQ. unfold register.
  pose proof (page_number_nonneg _ _ _ _ Hon) as Hn.
  assert (∀ j, 0 <= j <= 36 → u32 (n * 4096 + o + j) = n * 4096 + (o + j)) as Hu32 by (intros j Hj; rewrite u32_id by (unfold is_u32; lia); lia).
  unfold MODULE_KEY, MODULE_ID, MODULE_INTERRUPTS, MODULE_HANDLER in *. rewrite !Hu32 by lia.
  assert (∀ j, j mod 4 = 0 → 0 <= j <= 36 → ∃ k, 0 <= k < 1024 ∧ o + j = 4 * k) as Hword.
  { intros j Hj Hj'. exists ((o + j) / 4). Z.to_euclidean_division_equations. lia. }
  destruct (Hword 28 eq_refl ltac:(lia)) as (kk & Hkk & Ek).
  set (a := f * PAGE_SIZE_BYTES + (o + 28)).
  assert (∀ x q, data_step p q (eq f) → data_step p (wr a x q) (eq f)) as Hwr.
  { intros x q Hq. eapply data_step_trans; [exact Hq|]. unfold a. rewrite Ek. apply wr_data; [apply Hq| |done].
    apply (ds_frame _ _ _ Hq), Hon. }
  assert (∀ q o', data_step p q (eq f) → 0 <= o' < 4096 → walk q (n * 4096 + o') = Some (f * PAGE_SIZE_BYTES + o')) as Hwalk.
  { intros q o' Hq Ho''. apply (on_frame_walk _ _ _ fl); [apply Hq|by apply (data_step_on_frame p q (eq f))|done]. }
  assert (data_step p p (eq f)) as H0 by by apply data_step_refl.
  set (km := memory_of s) in *.
  rewrite wp_bind. apply api_mods_wp. wp. rewrite put_view. change (mod_size (view s)) with (table_size s).
  rewrite ?wp_bind. apply api_km_wp. wp. fold km. apply (pm_alloc_avail_wp _ 0); [apply Hwf|done|].
  intros g pm1 Hg Hgu Hpm1 _ Hu1. set (tmp := g * PAGE_SIZE_BYTES). set (key := module_key (table_size s) tmp).
  set (p1 := wr a (module_sum (table_size s) tmp) p). set (p2 := wr a key p1).
  assert (data_step p p1 (eq f)) as H1 by by apply Hwr. assert (data_step p p2 (eq f)) as H2 by by apply Hwr.
  change (put pm1 (km_pg km)) with (put pm1 p).
  assert (∀ (q : paging) o', walk (put pm1 q) o' = walk q o') as Hput by done.
  assert (∀ o', 0 <= o' < 4096 → kword p1 f o' = if decide (o' = o + 28) then module_sum (table_size s) tmp else kword p f o') as Hk1.
  { intros o' _. unfold kword, p1, wr. cbn [phys set_phys]. rewrite zget_insert. unfold a. apply decide_ext. lia. }
  assert (∀ o', 0 <= o' < 4096 → kword p2 f o' = if decide (o' = o + 28) then key else kword p f o') as Hk2.
  { intros o' Ho''. unfold kword at 1, p2, wr. cbn [phys set_phys]. rewrite zget_insert.
    change (phys p1 !0 (f * PAGE_SIZE_BYTES + o')) with (kword p1 f o'). rewrite Hk1 by done.
    unfold a. repeat case_decide; try done; lia. }
  register_step. apply (kwrite32_wp _ f _ (o + 28)); [apply (Hwalk p); [done|lia]|].
  change (put (wr _ _ _) _) with (put (put pm1 p1) km).
  register_step. apply (kread32_wp _ f _ (o + 28)); [apply (Hwalk p1); [done|lia]|].
  change (kword _ f (o + 28)) with (kword p1 f (o + 28)). rewrite Hk1, decide_True by lia.
  register_step. wp. autorewrite with api. rewrite put_own_mods. change (mod_size (view s)) with (table_size s).
  register_step. apply (kwrite32_wp _ f _ (o + 28)); [apply (Hwalk p1); [done|lia]|].
  change (put (wr _ _ _) _) with (put (put pm1 p2) km).
  register_step. apply (kread32_wp _ f _ (o + 4)); [apply (Hwalk p2); [done|lia]|].
  change (kword _ f (o + 4)) with (kword p2 f (o + 4)). rewrite Hk2, decide_False, Hid by lia.
  register_step. apply (kread32_wp _ f _ (o + 24)); [apply (Hwalk p2); [done|lia]|].
  change (kword _ f (o + 24)) with (kword p2 f (o + 24)). rewrite Hk2, decide_False, Hint by lia.
  register_step. apply (kread32_wp _ f _ (o + 28)); [apply (Hwalk p2); [done|lia]|].
  change (kword _ f (o + 28)) with (kword p2 f (o + 28)). rewrite Hk2, decide_True by lia.
  register_step. apply (kread32_wp _ f _ (o + 32)); [apply (Hwalk p2); [done|lia]|].
  change (kword _ f (o + 32)) with (kword p2 f (o + 32)). rewrite Hk2, decide_False, Hh by lia.
  register_step. rewrite (wp_run _ _ _ _ _ (vector_push_room _ _ Hroom)). autorewrite with api.
  register_step. wp.
  assert (is_u32 tmp) as Htmp by (unfold tmp, is_u32, frames, mmap_count, PAGE_SIZE_BYTES in *; lia).
  assert (tmp / PAGE_SIZE_BYTES = g) as Hdiv by (by apply Z.div_mul).
  change (pg_pm (km_pg _)) with pm1. apply pm_free_wp; [done|done|]. rewrite Hdiv. set (pm2 := set_first_free _ _).
  wp. autorewrite with api. change (with_memory _ s) with (with_memory (put (put pm2 p2) km) s).
  assert (∀ g', used pm2 g' = used (pg_pm p) g') as Hu2.
  { intros g'. change (used pm2 g') with (used (unmark g pm1) g'). rewrite used_unmark, Hu1. case_bool_decide as He; [rewrite <- He; by rewrite Hgu|done]. }
  apply (HQ g); [done|done|]. split.
  - apply pg_wf_same_used; [apply H2| |intros g'; by rewrite Hu2, (ds_pm _ _ _ H2)].
    apply set_first_free_wf; [|by apply unmark_wf]. pose proof (wf_first _ Hpm1).
    assert (0 <= g / 8 < mmap_count) by (unfold frames in Hg; split; [apply Z.div_pos; lia|apply Z.div_lt_upper_bound; lia]). lia.
  - done.
  - by exists (module_sum (table_size s) tmp).
  - exact H2.
Qed.
End register.

Section listen.
Context {S : Type} `{KernelApi S}.

Lemma api_register va : module_api MODULE_API_REGISTER va = register (va_u32 va 0).
Proof. reflexivity. Qed.
Lemma api_message_handler va :
  module_api MODULE_MESSAGE_HANDLER va = api_mods (module_set_handler (va_u32 va 0) (va_u32 va 1)).
Proof. reflexivity. Qed.
Lemma api_dispatch va :
  module_api MODULE_API_DISPATCH_MESSAGE va = va_dispatch_message module_code (va_u32 va 0) (va_u32 va <$> seq 1 3).
Proof. reflexivity. Qed.

Lemma message_words message k args stack :
  message_args message = Some k → (k <= length args)%nat →
  take k (va_u32 (push_args (message :: args) stack) <$> seq 1 3) = u32 <$> take k args.
Proof.
  intros Hk Hlen. assert (k = 3 ∨ k = 1)%nat as [-> | ->].
  { revert Hk. unfold message_args. repeat case_match; intros [=]; auto. }
  - destruct args as [|a [|b [|c args]]]; simpl in Hlen; try lia. reflexivity.
  - destruct args as [|a args]; simpl in Hlen; [lia|]. reflexivity.
Qed.

Lemma handlers_of_snoc l m : m_handler m ≠ 0 → handlers_of (l ++ [m]) = handlers_of l ++ [m_handler m].
Proof. intros Hm. unfold handlers_of. rewrite fmap_app, filter_app. cbn. by rewrite decide_True. Qed.

End listen.

(** ** Example *)

(** A machine without files and without a log, whose modules refuse every message. *)
Record machine := Machine { mc_mods : mods; mc_intr : intr }.
#[export, refine] Instance machine_mods : Lens machine mods := {| view := mc_mods; put x s := Machine x (mc_intr s) |}.
Proof. all: done || by intros []. Defined.
#[export, refine] Instance machine_intr : Lens machine intr := {| view := mc_intr; put x s := Machine (mc_mods s) x |}.
Proof. all: done || by intros []. Defined.
#[export, refine] Instance machine_api : KernelApi machine := {|
  vfs_fread _ _ _ _ := mret 0; vfs_fwrite _ _ _ _ := mret 0; vfs_fcreate _ _ := mret 0; vfs_fdelete _ _ := mret 0;
  vfs_fopen _ := mret 0; log_vmlog _ _ _ _ := skip; module_code _ _ _ := mret (-1);
|}.
Proof. done. Defined.

(** The tables of the start-up example with the first 97 bytes of the bitmap in use, and a
    module structure with the number 7 at 3 GiB. *)
Definition api_pmem : pmem := PMem (gset_to_gmap 0xff (list_to_set (seqZ 0 97))) 0 false 0.
Definition api_paging : paging := Paging api_pmem (<[0x300004 := 7]> (phys (km_pg boot_example))) 0x10000.
Definition api_intr : intr :=
  Intr (Sched (KMem api_paging (Heap ∅ 0 0 0 false) false) ∅ ∅ 0 0 0 0 false) [] ∅ 0 ∅ ∅ ∅ 0 0 (Tss 0 0 0).
Definition api_machine : machine := Machine (Mods [Module 1 0 0x5000 0x100]) api_intr.

Lemma api_pmem_wf : pm_wf api_pmem.
Proof. split; [apply zget_Forall; by_computation|done|done]. Defined.
Lemma api_pmem_used f : 0 <= f < 512 → used api_pmem f = true.
Proof.
  intros Hf. assert (Forall (λ f, used api_pmem f = true) (seqZ 0 512)) as Hall by by_computation.
  rewrite Forall_forall in Hall. apply Hall, elem_of_seqZ. lia.
Defined.
Lemma api_paging_pde i : 0 <= i < 1024 → pde api_paging i = pde (km_pg boot_example) i.
Proof. intros Hi. unfold pde, api_paging. cbn [cr3 phys]. change (cr3 (km_pg boot_example)) with 0x10000. apply zget_insert_ne. lia. Qed.
Lemma api_paging_tables : boot_tables api_paging.
Proof.
  destruct boot_example_tables as [Hrec Hu Hp Hc Hl Hn Hi]. split.
  - apply (rec_ok_ext (km_pg boot_example)); [done|by apply api_paging_pde|done].
  - intros i Hir. rewrite api_paging_pde by lia. by apply Hu.
  - intros i Hir. rewrite api_paging_pde by lia. by apply Hp.
  - done.
  - intros i Hir. rewrite api_paging_pde by lia. by apply Hl.
  - intros i Hir. rewrite api_paging_pde by lia. by apply Hn.
  - intros i j Hir Hjr. rewrite !api_paging_pde by lia. by apply Hi.
Qed.
Lemma api_paging_wf : pg_wf api_paging.
Proof. exact (boot_tables_wf api_paging api_pmem api_paging_tables api_pmem_wf api_pmem_used). Qed.

Lemma api_structure : structure_at api_paging 0xc0000 0x300 0 7 0 0.
Proof.
  split; [|by_computation|vm_compute; reflexivity..]. exists 3. split; [by_computation|vm_compute; reflexivity|done|done|].
  split; [by_computation|]. split; [vm_compute; reflexivity|]. split; [done|]. split; [done|].
  intros i Hi. rewrite api_paging_pde by lia. rewrite boot_example_pde by done. by case_decide; vm_compute.
Qed.
Lemma api_avail : avail api_pmem 1.
Proof. exists [0x308]. split_and!; [apply NoDup_singleton|done|by_computation]. Qed.
Lemma api_code : handlers_ok (module_code (S := machine)).
Proof. intros h message args s. by exists (-1), s. Qed.

