(* ===== verification/FatMount.v ===== *)
(** * Mounting a FAT32 volume (src/src/kmodules/fs_driver.c: fat32_mount, message_handler, init)

    The driver keeps 64 mounts.  Mounting reads the boot sector of a device, fills a
    free mount, and makes a file of the VFS that stands for the root directory. *)
From S2P Require Import Prelude Device Fat32 FatWrite RamFS Modules.

Definition MAX_MOUNT_COUNT : Z := 64.
Definition FAT32_FSINFO_LEAD_SIG : Z := 0x41615252.
Definition FAT32_FSINFO_SIG2 : Z := 0x61417272.
Definition FAT32_FSINFO_TRAIL_SIG : Z := 0xAA550000.

(** Numbers in a page: [fat32_bpb_t] and [fsinfo_t] are packed structures. *)
Definition half_at (b : Z → Z) (o : Z) : Z := le16 (b o) (b (o + 1)).
Definition word_at (b : Z → Z) (o : Z) : Z := le32 (b o) (b (o + 1)) (b (o + 2)) (b (o + 3)).

Definition bpb_at (b : Z → Z) : fat32_bpb :=
  BPB (half_at b 11) (b 13) (half_at b 14) (b 16) (word_at b 36) (word_at b 32) (word_at b 44).
Definition bpb_sectors_small (b : Z → Z) : Z := half_at b 19.
Definition bpb_fsinfo_sector (b : Z → Z) : Z := half_at b 48.
Definition fat32_check_valid (b : Z → Z) : bool := (b 66 =? 0x28) || (b 66 =? 0x29).

Definition fsinfo_first_free (b : Z → Z) : Z := word_at b 492.
Definition fat32_check_fsinfo (b : Z → Z) : bool :=
  (word_at b 0 =? FAT32_FSINFO_LEAD_SIG) && (word_at b 484 =? FAT32_FSINFO_SIG2) && (word_at b 508 =? FAT32_FSINFO_TRAIL_SIG).

(** A device as the VFS hands it over: its contents and its block size. *)
Record device_file (D : Type) := DeviceFile { df_dev : D; df_block_size : Z }.
Arguments DeviceFile {D}.
Arguments df_dev {D}.
Arguments df_block_size {D}.

(** The file system, the mounts in use and the open files of their roots. *)
Record kifsm (D : Type) := Kifsm {
  kf_fs : fs;
  fat32_mounts : Z → option (fat_mount D);
  kf_files : gmap Z fat_open_file;
}.
Arguments Kifsm {D}.
Arguments kf_fs {D}.
Arguments fat32_mounts {D}.
Arguments kf_files {D}.
#[export, refine] Instance kifsm_fs {D} : Lens (kifsm D) fs := {|
  view := kf_fs;
  put f s := Kifsm f (fat32_mounts s) (kf_files s);
|}.
Proof. all: done || by intros []. Defined.

Section mounting.
Context {D : Type} `{BlockDev D}.
Notation mount := (fat_mount D).

(** The RAM file system's parameters, the bytes and the open file that [malloc] leaves
    in new pages, and the address of the page for the open file. *)
Variable can_alloc : Z → fs → bool.
Variable junk : Z → list Z.
Variable mount_rfopen : list Z → Z → fs → Z.
Variable mount_create : Z → list Z → Z → M fs Z.
Variable fresh_page : list Z.
Variable fresh_file : fat_open_file.
Variable b_root : Z.

Definition set_mount (i : Z) (m : option mount) (s : kifsm D) : kifsm D :=
  Kifsm (kf_fs s) (λ k, if k =? i then m else fat32_mounts s k) (kf_files s).
Definition set_file (p : Z) (f : fat_open_file) (s : kifsm D) : kifsm D := Kifsm (kf_fs s) (fat32_mounts s) (<[p := f]> (kf_files s)).

(** 512 bytes from a device in a new page. *)
Definition fread_page (d : D) (offset : Z) : Z → Z :=
  let bs := default [] (fread d offset 512) in λ k, nth (Z.to_nat k) (bs ++ drop (length bs) fresh_page) 0.

Definition find_mount : M (kifsm D) Z :=
  r ← for_loop 0 MAX_MOUNT_COUNT (λ i,
        s ← gets id;
        match fat32_mounts s i with Some _ => mret None | None => mret (Some i) end);
  mret (default 0 r).

(** The fields that are set from the boot sector; all others are cleared. *)
Definition new_mount (dev_file : device_file D) (b : fat32_bpb) : mount :=
  FatMount b (df_dev dev_file) (df_block_size dev_file) false false 0 (reserved_sectors b)
    (u32 (reserved_sectors b + u32 (fat_count b * sectors_per_fat b))) 0 0 None.

Definition fat32_mount (dev_file : option (device_file D)) (destination : list Z) (offset : Z) : M (kifsm D) Z :=
  match dev_file with
  | None => mret (u32 (-1))
  | Some dev_file =>
      let bpb_buffer := fread_page (df_dev dev_file) offset in
      let bpb := bpb_at bpb_buffer in
      if negb (fat32_check_valid bpb_buffer) && (bpb_sectors_small bpb_buffer >? 0) then mret (u32 (-1))
      else
        index ← find_mount;
        if sectors_per_cluster bpb =? 0 then fail DivideError
        else
          let mount := new_mount dev_file bpb in
          modify (set_mount index (Some mount));;
          let filesize := u32 (u32 (sector_count bpb - u32 (reserved_sectors bpb + u32 (fat_count bpb * sectors_per_fat bpb)))
                               * bytes_per_sector bpb) in
          let fsinfo_offset := u32 (bpb_fsinfo_sector bpb_buffer * bytes_per_sector bpb) in
          let fsinfo := fread_page (df_dev dev_file) fsinfo_offset in
          when (fat32_check_fsinfo fsinfo) (modify (set_mount index (Some (set_search (fsinfo_first_free fsinfo) mount))));;
          mountfile ← zoom (fcreate can_alloc junk mount_rfopen mount_create destination FS_FILE_MOUNT);
          if mountfile =? 0 then modify (set_mount index None);; mret (u32 (-1))
          else
            modify (set_file b_root (set_first_cluster (root_dir_cluster bpb) fresh_file));;
            zoom (T := fs) (
              v ← get_vfile mountfile;
              modify (set_vfile mountfile (VFile (vname v) (vflags v) (driver_ops index) (refcount v) b_root filesize
                (bytes_per_sector bpb * sectors_per_cluster bpb))));;
            mret 0
  end.

(** The result is an [int32_t]. *)
Definition message_handler (message : Z) (device : option (device_file D)) (dest : list Z) (offset : Z) : M (kifsm D) Z :=
  if message =? MESSAGE_MOUNT_FS then r ← fat32_mount device dest offset; mret (s32 r)
  else mret (-1).

(** [init] clears the mounts. *)
Definition init : M (kifsm D) unit := modify (λ s, Kifsm (kf_fs s) (λ _, None) (kf_files s)).

(** ** What a volume looks like on a device *)

(** A number of [n] bytes, the lowest one first. *)
Fixpoint field (b : Z → Z) (o : Z) (n : nat) : Z :=
  match n with O => 0 | S n => b o + 256 * field b (o + 1) n end.

Lemma half_field b o : half_at b o = field b o 2.
Proof using Type. clear. unfold half_at, le16. cbn [field]. rewrite Z.shiftl_mul_pow2 by done. lia. Qed.
Lemma word_field b o : word_at b o = field b o 4.
Proof using Type.
  clear. unfold word_at, le32. cbn [field]. rewrite !Z.shiftl_mul_pow2 by done.
  replace (o + 1 + 1 + 1) with (o + 3) by lia. replace (o + 1 + 1) with (o + 2) by lia. lia.
Qed.
Lemma field_ext b b' o n : (∀ k, o <= k < o + Z.of_nat n → b k = b' k) → field b o n = field b' o n.
Proof using Type.
  clear. revert o. induction n as [|n IH]; intros o Hb; [done|]. cbn [field]. rewrite Hb, (IH (o + 1)) by (intros; apply Hb; lia) || lia. done.
Qed.
Lemma field_bound b o n : (∀ k, is_u8 (b k)) → 0 <= field b o n < 256 ^ Z.of_nat n.
Proof using Type.
  clear. intros Hb. revert o. induction n as [|n IH]; intros o; [done|]. cbn [field]. specialize (IH (o + 1)).
  pose proof (Hb o) as H0. unfold is_u8 in H0. rewrite Nat2Z.inj_succ, Z.pow_succ_r by lia. lia.
Qed.

(** A boot sector with the fields of the FAT32 format at [offset] of a device, the table
    of [limit] entries behind the reserved sectors and the clusters behind the tables. *)
Record fat_volume (d : device_file D) (offset : Z) (B : fat32_bpb) (limit : Z) : Prop := {
  fv_dev : dev_ok (df_dev d);
  fv_room : 0 <= offset ∧ offset + 512 <= dev_size (df_dev d);
  fv_fields : let b k := dev_byte (df_dev d) (offset + k) in
    field b 11 2 = bytes_per_sector B ∧ field b 13 1 = sectors_per_cluster B ∧ field b 14 2 = reserved_sectors B ∧
    field b 16 1 = fat_count B ∧ field b 32 4 = sector_count B ∧ field b 36 4 = sectors_per_fat B ∧
    field b 44 4 = root_dir_cluster B;
  fv_signature : field (λ k, dev_byte (df_dev d) (offset + k)) 66 1 ∈ [0x28; 0x29];
  fv_block : df_block_size d = bytes_per_sector B;
  fv_cluster : ∃ n, 0 <= n <= 24 ∧ bytes_per_sector B * sectors_per_cluster B = 2 ^ n;
  fv_limit : 0 <= limit ∧ limit mod FAT_CACHE_SIZE_ENTRIES = 0;
  fv_tables : 4 * limit <= fat_count B * sectors_per_fat B * bytes_per_sector B;
  fv_data : offset + (reserved_sectors B + fat_count B * sectors_per_fat B) * bytes_per_sector B
    <= Z.min (2 ^ 32 - 1) (dev_size (df_dev d));
}.
(** The table of a volume at [offset]: behind the volume's reserved sectors. *)
Definition table_at (d : device_file D) (offset : Z) (B : fat32_bpb) (i : Z) : Z :=
  dev_word (df_dev d) (offset + reserved_sectors B * bytes_per_sector B + 4 * i).

Lemma fread_page_byte d offset k :
  dev_ok d → 0 <= offset → offset + 512 <= dev_size d → 0 <= k < 512 → fread_page d offset k = dev_byte d (offset + k).
Proof using Type.
  intros Hd Ho Hs Hk. unfold fread_page, fread. cbn [Z.eqb]. rewrite dev_read_spec by (done || lia). cbn [default from_option id].
  rewrite app_nth1 by (rewrite length_fmap, length_seqZ; lia). apply nth_lookup_Some.
  rewrite list_lookup_fmap, lookup_seqZ_lt by lia. cbn. do 2 f_equal. lia.
Qed.

Lemma boot_sector_read d offset B limit :
  fat_volume d offset B limit →
  bpb_at (fread_page (df_dev d) offset) = B ∧ fat32_check_valid (fread_page (df_dev d) offset) = true.
Proof using Type.
  intros [Hd [Ho Hs] Hf Hsig _ _ _ _ _]. cbv zeta in Hf. set (b := λ k, dev_byte (df_dev d) (offset + k)) in *.
  assert (∀ o n, 0 <= o → o + Z.of_nat n <= 512 → field (fread_page (df_dev d) offset) o n = field b o n) as Hext.
  { intros o n Hlo Hhi. apply field_ext. intros k Hk. apply fread_page_byte; done || lia. }
  assert (∀ o, fread_page (df_dev d) offset o = field (fread_page (df_dev d) offset) o 1) as Hbyte by (intros o; cbn; lia).
  split.
  - unfold bpb_at. rewrite !half_field, !word_field, (Hbyte 13), (Hbyte 16), !Hext by lia.
    destruct Hf as (-> & -> & -> & -> & -> & -> & ->). by destruct B.
  - unfold fat32_check_valid. rewrite (Hbyte 66), Hext by lia.
    apply elem_of_cons in Hsig as [-> | ->%list_elem_of_singleton]; done.
Qed.

Lemma volume_ranges d offset B limit :
  fat_volume d offset B limit →
  0 < bytes_per_sector B < 2 ^ 16 ∧ 0 < sectors_per_cluster B < 2 ^ 8 ∧ 0 <= reserved_sectors B < 2 ^ 16 ∧
  0 <= fat_count B < 2 ^ 8 ∧ 0 <= sectors_per_fat B < 2 ^ 32.
Proof using Type.
  intros [Hd _ Hf _ _ (n & Hn & Hc) _ _ _]. cbv zeta in Hf. set (b := λ k, dev_byte (df_dev d) (offset + k)) in *.
  assert (∀ k, is_u8 (b k)) as Hb by (intros k; by apply dev_byte_u8). destruct Hf as (H1 & H2 & H3 & H4 & _ & H6 & _).
  pose proof (field_bound b 11 2 Hb). pose proof (field_bound b 13 1 Hb). pose proof (field_bound b 14 2 Hb).
  pose proof (field_bound b 16 1 Hb). pose proof (field_bound b 36 4 Hb). pose proof (Z.pow_pos_nonneg 2 n ltac:(lia) ltac:(lia)).
  change (256 ^ Z.of_nat 1) with (2 ^ 8) in *. change (256 ^ Z.of_nat 2) with (2 ^ 16) in *. change (256 ^ Z.of_nat 4) with (2 ^ 32) in *.
  assert (bytes_per_sector B ≠ 0 ∧ sectors_per_cluster B ≠ 0) as [? ?] by (split; intros E; rewrite E in Hc; lia). lia.
Qed.

(** Where the mount made from a boot sector takes the table and the clusters from.  The
    place of the boot sector does not count: they are those of a volume at the start of
    the device. *)
Lemma new_mount_places d offset B limit start :
  fat_volume d offset B limit → let m := set_search start (new_mount d B) in
  fat_start m = reserved_sectors B * bytes_per_sector B ∧
  data_base m = (reserved_sectors B + fat_count B * sectors_per_fat B) * bytes_per_sector B.
Proof using Type.
  intros Hv m. pose proof (volume_ranges d offset B limit Hv) as (Hb & Hc & Hr & Hf & Hs).
  destruct Hv as [_ [Ho _] _ _ Hbl _ _ _ Hdat]. assert (0 <= fat_count B * sectors_per_fat B) as Hp by nia.
  assert (reserved_sectors B + fat_count B * sectors_per_fat B < 2 ^ 32) as Hlt by nia.
  split; [unfold fat_start; cbn; by rewrite Hbl|]. unfold data_base. cbn.
  rewrite (u32_id (fat_count B * _)), u32_id by (unfold is_u32; lia). done.
Qed.

(** For a volume at the start of its device the mount stands for the volume's table. *)
Lemma new_mount_ok d B limit start :
  fat_volume d 0 B limit →
  fat_repr limit (table_at d 0 B) (set_search start (new_mount d B)) ∧ data_geom limit (set_search start (new_mount d B)).
Proof using Type.
  intros Hv. destruct (new_mount_places d 0 B limit start Hv) as [Hst Hdb]. set (m := set_search start (new_mount d B)) in *.
  pose proof (volume_ranges d 0 B limit Hv) as (Hb & Hc & Hr & Hf & Hs). destruct Hv as [Hd _ _ _ Hbl Hcl [Hl0 Hl] Ht Hdat].
  assert (0 <= fat_count B * sectors_per_fat B) as Hp by nia.
  split; [split|split].
  - split; [done|done|rewrite Hst; lia|rewrite Hst; cbn; lia|rewrite Hst; lia].
  - reflexivity.
  - intros i _. change (fat_entry m i) with (disk_entry m i). unfold disk_entry, table_at. by rewrite Hst.
  - destruct Hcl as (n & Hn & E). exists n. split; [done|exact E].
  - rewrite Hdb, Hst. lia.
Qed.

(** ** Mounting, proved *)

(** The first mount that is not in use; the first of all when every one is. *)
Definition next_mount (s : kifsm D) (i : Z) : Prop :=
  0 <= i < MAX_MOUNT_COUNT ∧ (∀ k, 0 <= k < i → fat32_mounts s k ≠ None) ∧
  (fat32_mounts s i = None ∨ i = 0 ∧ ∀ k, 0 <= k < MAX_MOUNT_COUNT → fat32_mounts s k ≠ None).

Lemma find_mount_wp s i (Q : Z → kifsm D → Prop) : next_mount s i → Q i s → wp find_mount Q s.
Proof using Type.
  intros (Hi & Hlow & Hnext) HQ. unfold find_mount. rewrite wp_bind.
  apply (wp_for (λ k s', s' = s ∧ ∀ j, 0 <= j < k → fat32_mounts s j ≠ None)); [done|split; [done|lia]| |].
  - intros k s' Hk [-> Hused]. wp. cbn [id]. destruct (fat32_mounts s k) as [m|] eqn:Hm; wp.
    + split; [done|]. intros j Hj. destruct (decide (j = k)) as [->|]; [by rewrite Hm|apply Hused; lia].
    + assert (k = i) as ->; [|exact HQ]. destruct Hnext as [Hi0|[-> Hall]]; [|by destruct (Hall k)].
      destruct (Z.lt_trichotomy k i) as [Hlt|[?|Hgt]]; [by destruct (Hlow k); [lia|]|done|by destruct (Hused i); [lia|]].
  - intros s' [-> Hused]. wp. cbn. destruct Hnext as [Hi0|[-> _]]; [by destruct (Hused i)|exact HQ].
Qed.

(** The information sector only tells where to start looking for free clusters. *)
Definition search_start (d : device_file D) (offset : Z) (B : fat32_bpb) : Z :=
  let fsinfo := fread_page (df_dev d) (u32 (bpb_fsinfo_sector (fread_page (df_dev d) offset) * bytes_per_sector B)) in
  if fat32_check_fsinfo fsinfo then fsinfo_first_free fsinfo else 0.

Definition volume_bytes (B : fat32_bpb) : Z :=
  u32 (u32 (sector_count B - u32 (reserved_sectors B + u32 (fat_count B * sectors_per_fat B))) * bytes_per_sector B).

Lemma fat32_mount_wp d offset B limit i destination f g v s (Q : Z → kifsm D → Prop) :
  fat_volume d offset B limit → next_mount s i →
  fcreate can_alloc junk mount_rfopen mount_create destination FS_FILE_MOUNT (kf_fs s) = Ok (f, g) →
  f ≠ 0 → vfiles g !! f = Some v →
  (∀ s', let fv := VFile (vname v) (vflags v) (driver_ops i) (refcount v) b_root (volume_bytes B) (bytes_per_sector B * sectors_per_cluster B) in
     kf_fs s' = set_vfile f fv g →
     (∀ k, fat32_mounts s' k = if k =? i then Some (set_search (search_start d offset B) (new_mount d B)) else fat32_mounts s k) →
     kf_files s' = <[b_root := set_first_cluster (root_dir_cluster B) fresh_file]> (kf_files s) → Q 0 s') →
  wp (fat32_mount (Some d) destination offset) Q s.
Proof using Type.
  intros Hv Hi Hcr Hf Hfv HQ. pose proof (volume_ranges d offset B limit Hv) as (_ & Hc & _).
  destruct (boot_sector_read d offset B limit Hv) as [HB Hval]. unfold fat32_mount. rewrite HB, Hval. cbn [negb andb].
  rewrite wp_bind. apply (find_mount_wp s i); [done|]. rewrite (proj2 (Z.eqb_neq _ 0)) by lia.
  cbv zeta in HQ. fold (volume_bytes B). unfold search_start in HQ. rewrite wp_bind, wp_modify, wp_bind.
  set (Q' := λ (_ : unit) (s1 : kifsm D), kf_fs s1 = kf_fs s ∧ kf_files s1 = kf_files s ∧
    ∀ k, fat32_mounts s1 k = if k =? i then Some (set_search (search_start d offset B) (new_mount d B)) else fat32_mounts s k).
  apply (wp_mono _ Q').
  - unfold Q', search_start. destruct (fat32_check_fsinfo _); cbn [when]; wp; (split_and!; [done|done|]); intros k;
      cbn [set_mount fat32_mounts]; by destruct (k =? i).
  - intros _ s1 (Hfs & Hfiles & Hmounts). wp. cbn [view kifsm_fs]. rewrite Hfs. apply wp_ok. exists f, g. split; [done|].
    rewrite (proj2 (Z.eqb_neq f 0)) by done. wp.
    cbn [view put kifsm_fs kf_fs set_file]. apply (wp_get_vfile f v); [done|]. wp. apply HQ; cbn [put kifsm_fs kf_fs fat32_mounts kf_files set_file]; [done|exact Hmounts|by rewrite Hfiles].
Qed.

(** A boot sector without the signature is refused, if the count of sectors of older formats is not 0,
    and when the file for the mount cannot be made the mount is given back. *)
Lemma fat32_mount_refuses d offset destination s :
  fat32_check_valid (fread_page (df_dev d) offset) = false → 0 < bpb_sectors_small (fread_page (df_dev d) offset) →
  fat32_mount (Some d) destination offset s = Ok (u32 (-1), s).
Proof using Type.
  intros Hv Hs. unfold fat32_mount. rewrite Hv. cbn [negb andb]. rewrite Z.gtb_ltb, (proj2 (Z.ltb_lt _ _) Hs). done.
Qed.
Lemma fat32_mount_no_file d offset B limit i destination g s :
  fat_volume d offset B limit → next_mount s i →
  fcreate can_alloc junk mount_rfopen mount_create destination FS_FILE_MOUNT (kf_fs s) = Ok (0, g) →
  ∃ s', fat32_mount (Some d) destination offset s = Ok (u32 (-1), s') ∧ kf_fs s' = g ∧ kf_files s' = kf_files s ∧
    ∀ k, fat32_mounts s' k = if k =? i then None else fat32_mounts s k.
Proof using Type.
  intros Hv Hi Hcr. pose proof (volume_ranges d offset B limit Hv) as (_ & Hc & _).
  destruct (boot_sector_read d offset B limit Hv) as [HB Hval].
  assert (wp (fat32_mount (Some d) destination offset) (λ r s', r = u32 (-1) ∧ kf_fs s' = g ∧ kf_files s' = kf_files s ∧
    ∀ k, fat32_mounts s' k = if k =? i then None else fat32_mounts s k) s) as Hwp.
  2: { apply wp_ok in Hwp as (r & s' & Hrun & -> & ?). by exists s'. }
  unfold fat32_mount. rewrite HB, Hval. cbn [negb andb]. rewrite wp_bind. apply (find_mount_wp s i); [done|].
  rewrite (proj2 (Z.eqb_neq _ 0)) by lia. rewrite wp_bind, wp_modify, wp_bind.
  apply (wp_mono _ (λ (_ : unit) (s1 : kifsm D), kf_fs s1 = kf_fs s ∧ kf_files s1 = kf_files s ∧
    ∀ k, k ≠ i → fat32_mounts s1 k = fat32_mounts s k)).
  - destruct (fat32_check_fsinfo _); cbn [when]; wp; (split_and!; [done|done|]); intros k Hk;
      cbn [set_mount fat32_mounts]; by rewrite (proj2 (Z.eqb_neq k i) Hk).
  - intros _ s1 (Hfs & Hfiles & Hmounts). wp. cbn [view kifsm_fs]. rewrite Hfs. apply wp_ok. exists 0, g. split; [done|].
    cbn [Z.eqb]. wp. cbn [set_mount put kifsm_fs kf_fs fat32_mounts kf_files]. split_and!; [done..|]. intros k.
    destruct (Z.eqb_spec k i); [done|by apply Hmounts].
Qed.
End mounting.

(** ** Properties *)

(** C15: mounting a volume at the start of its device.  For a device that begins with a FAT32 boot
    sector, and a path whose directories exist and whose last name is free, [fat32_mount]
    with offset 0 returns 0; the first free mount (the first of all when every one is in use)
    then stands for the table of the volume and for its clusters and is not locked, as the other
    operations of the driver ask for; the last name of the path is that of a new file,
    which belongs to the driver and leads to the root directory; the tree in memory stays
    in order, all paths of it lead where they led, and no other mount and no other file
    changes.  (With another offset the code takes the table from the start of the device
    all the same: [mount_offset_ignored] below.) *)
Theorem fat32_mount_ready {D} `{BlockDev D} can_alloc junk mount_rfopen mount_create fresh_page fresh_file b_root
    (d : device_file D) B limit i cs nm dir s :
  (∀ pages s, can_alloc pages s = true) → fat_volume d 0 B limit → next_mount s i →
  let path := 47 :: join_path (cs ++ [nm]) in
  fs_ok (kf_fs s) → vfs_lock (kf_fs s) = false → dir_path (kf_fs s) root_dir cs dir →
  4 * (entry_count (kf_fs s) dir + 1) < 2 ^ 31 → Forall clean_name (cs ++ [nm]) → Z.of_nat (length nm) < NAME_SIZE →
  (length cs < 1024)%nat → Z.of_nat (length path) < 4096 → entry_of (kf_fs s) dir nm = 0 →
  ∃ s' m f fv, fat32_mount can_alloc junk mount_rfopen mount_create fresh_page fresh_file b_root (Some d) path 0 s = Ok (0, s') ∧
    fat32_mounts s' i = Some m ∧ fat_repr limit (table_at d 0 B) m ∧ data_geom limit m ∧ spinlock m = false ∧ bpb m = B ∧ mount_src m = df_dev d ∧
    (∀ k, k ≠ i → fat32_mounts s' k = fat32_mounts s k) ∧
    fs_ok (kf_fs s') ∧ (∀ x cs' y, dir_path (kf_fs s) x cs' y → dir_path (kf_fs s') x cs' y) ∧
    entry_of (kf_fs s') dir nm = f ∧ vfiles (kf_fs s) !! f = None ∧ vfiles (kf_fs s') !! f = Some fv ∧
    vname fv = nm ∧ vflags fv = FS_FILE_MOUNT ∧ vops fv = driver_ops i ∧
    first_cluster <$> (kf_files s' !! private fv) = Some (root_dir_cluster B) ∧
    ∀ g w, g ≠ dir → vfiles (kf_fs s) !! g = Some w → ∃ w', vfiles (kf_fs s') !! g = Some w' ∧ erase w' = erase w.
Proof.
  intros Hal Hvol Hi path Hok Hlk Hp Hlim Hcl Hnl Hn Hlen Hz.
  destruct (fcreate_file can_alloc junk mount_rfopen mount_create Hal cs nm FS_FILE_MOUNT dir (kf_fs s))
    as (f & g & fw & Hrun & [Hok' _ Hold Hnew Hfw (Hn1 & Hn2 & _) Hent _ _ _ Hother]); [done..|].
  pose proof (fo_files _ Hok' f _ Hfw) as Hf0. set (m := set_search (search_start fresh_page d 0 B) (new_mount d B)).
  set (fv := VFile nm FS_FILE_MOUNT (driver_ops i) (refcount fw) b_root (volume_bytes B) (bytes_per_sector B * sectors_per_cluster B)).
  assert (wp (fat32_mount can_alloc junk mount_rfopen mount_create fresh_page fresh_file b_root (Some d) path 0) (λ r s', r = 0 ∧
    kf_fs s' = set_vfile f fv g ∧ (∀ k, fat32_mounts s' k = if k =? i then Some m else fat32_mounts s k) ∧
    kf_files s' = <[b_root := set_first_cluster (root_dir_cluster B) fresh_file]> (kf_files s)) s) as Hwp.
  { apply (fat32_mount_wp can_alloc junk mount_rfopen mount_create fresh_page fresh_file b_root d 0 B limit i path f g fw); [done..|lia|done|].
    intros s' fv' Hg Hm Hfl. split; [done|]. subst fv'. by rewrite Hn1, Hn2 in Hg. }
  apply wp_ok in Hwp as (r & s' & Hmount & -> & Hfs & Hm & Hfl).
  destruct (new_mount_ok d B limit (search_start fresh_page d 0 B) Hvol) as [Hrep Hgeom].
  assert (vname fv = vname fw) as Hname by (by rewrite Hn1). assert (vops fv ≠ ramfs_ops) as Hops by done.
  assert (¬ ram_dir fw) as Hnd by (intros (_ & Hmt & _); unfold is_flag in Hmt; by rewrite Hn2 in Hmt).
  exists s', m, f, fv. rewrite Hfs. split_and!; try done.
  - by rewrite Hm, Z.eqb_refl.
  - intros k Hk. by rewrite Hm, (proj2 (Z.eqb_neq k i) Hk).
  - exact (driver_file_ok Hok' Hfw Hops).
  - intros x cs' y Hxy. apply (driver_dir_path Hfw Hname Hnd). by apply Hold.
  - rewrite (driver_entry_of Hfw Hname Hnd) by (by exists root_dir, cs; apply Hold). rewrite (Hent cs) by done. by rewrite decide_True.
  - apply lookup_insert_eq.
  - rewrite Hfl. cbn [private fv]. by rewrite lookup_insert_eq.
  - intros x w Hx Hw. destruct (Hother x w Hx Hw) as (w' & Hw' & Ew'). exists w'. split; [|done]. cbn [vfiles set_vfile].
    rewrite lookup_insert_ne; [done|]. intros ->. congruence.
Qed.

(** ** An example *)

(** A volume of ten clusters on a RAM disk, mounted on /mnt. *)
Definition boot_disk : disk :=
  Disk (66048 + 512 * 10) (store_bytes 11 [0; 2; 1; 1; 0; 1] (store_bytes 32 [139; 0; 0; 0; 128; 0; 0; 0] (store_bytes 44 [2; 0; 0; 0] {[66 := 0x29]}))).
Definition boot_device : device_file disk := DeviceFile boot_disk 512.
Definition boot_bpb : fat32_bpb := BPB 512 1 1 1 128 139 2.
Definition kifsm_start : kifsm disk := Kifsm fs_init (λ _, None) ∅.

Lemma boot_volume : fat_volume boot_device 0 boot_bpb 16384.
Proof.
  split; try by_computation.
  - intros k. unfold boot_device, boot_disk. cbn [df_dev disk_bytes]. repeat (apply store_bytes_ok; [|by_computation]).
    intros j. unfold zget. rewrite lookup_singleton. case_decide; by_computation.
  - cbv zeta. by_computation.
  - exists 9. by_computation.
Qed.

Lemma fat32_mount_ready_witness :
  ∃ s' m, fat32_mount (λ _ _, true) (λ _, []) (λ _ _ _, 0) (λ _ _ _, mret 0) [] (OpenFile 0 0 0 0 0) 0x7000 (Some boot_device) (bytes_of_string "/mnt") 0
      kifsm_start = Ok (0, s') ∧ fat32_mounts s' 0 = Some m ∧ bpb m = boot_bpb.
Proof.
  destruct (fat32_mount_ready (λ _ _, true) (λ _, []) (λ _ _ _, 0) (λ _ _ _, mret 0) [] (OpenFile 0 0 0 0 0) 0x7000 boot_device boot_bpb 16384 0
    [] (bytes_of_string "mnt") root_dir kifsm_start (λ _ _, eq_refl) boot_volume) as (s' & m & f & fv & Hrun & Hm & _ & _ & _ & Hb & _).
  - split; [by_computation|]. split; [intros k Hk; lia|]. by left.
  - exact fs_init_ok.
  - reflexivity.
  - split; [reflexivity|]. exists root_file. repeat split; reflexivity.
  - by_computation.
  - by_computation.
  - by_computation.
  - by_computation.
  - by_computation.
  - by_computation.
  - exists s', m. exact (conj Hrun (conj Hm Hb)).
Defined.

(** The volume behind a sector of zeros, with a 7 in entry 2 of its table: the mount made for it
    takes the entry from the volume's boot sector, which is where the table of a volume at
    the start of the device would be. *)
Definition moved_disk : disk :=
  Disk (512 + disk_size boot_disk) (store_bytes (1024 + 4 * 2) [7] (store_bytes 512 (dev_byte boot_disk <$> seqZ 0 512) ∅)).
Definition moved_device : device_file disk := DeviceFile moved_disk 512.

Lemma mount_offset_ignored :
  fat_volume moved_device 512 boot_bpb 16384 ∧ table_at moved_device 512 boot_bpb 2 = 7 ∧
  disk_entry (new_mount moved_device boot_bpb) 2 = 0.
Proof.
  split_and!; [|by_computation..]. split; try by_computation.
  - intros k. unfold moved_device, moved_disk. cbn [df_dev disk_bytes]. apply store_bytes_ok; [|by_computation].
    apply store_bytes_ok; [intros j; unfold zget; rewrite lookup_empty; by_computation|].
    apply Forall_fmap, Forall_forall. intros j _. apply dev_byte_u8, boot_volume.
  - cbv zeta. by_computation.
  - exists 9. by_computation.
Qed.
