(* ===== verification/Partitions.v ===== *)
(** * The files of partitions (src/src/kmodules/partition_mgr.c: detect_partitions)

    For every partition that it finds on a disk the partition manager puts a file into
    /dev/disk, whose name it composes in buffers: that of the disk, a "p", and the number
    of the partition. *)
From stdpp Require Import strings.
From S2P Require Import Prelude Device PartMgr RamFS KString.

(** The memory of the driver, and the tree of files. *)
Record disks := Disks { dk_mem : memory; dk_fs : fs }.
#[export, refine] Instance disks_mem : Lens disks memory := {| view := dk_mem; put m s := Disks m (dk_fs s) |}.
Proof. all: done || by intros []. Defined.
#[export, refine] Instance disks_fs : Lens disks fs := {| view := dk_fs; put f s := Disks (dk_mem s) f |}.
Proof. all: done || by intros []. Defined.

(** The string at an address, up to the [n]th character. *)
Fixpoint c_string (n : nat) (m : memory) (p : Z) : list Z :=
  match n with
  | O => []
  | S n => if m !0 p =? 0 then [] else m !0 p :: c_string n m (p + 1)
  end.

Lemma c_string_eq n m p s : cstr m p s → (length s <= n)%nat → c_string n m p = s.
Proof.
  revert p s. induction n as [|n IH]; intros p s Hs Hn; [by destruct s; [|simpl in Hn; lia]|]. cbn [c_string].
  destruct Hs as [Hc He Hz Hl]. destruct s as [|x s].
  - cbn [length] in He. rewrite Z.add_0_r in He. by rewrite He.
  - pose proof (Hc 0%nat x eq_refl) as Hx. rewrite Z.add_0_r in Hx. apply Forall_cons in Hz as [Hx0 Hz].
    rewrite Hx, (proj2 (Z.eqb_neq x 0)) by lia. f_equal. apply IH; [|simpl in Hn; lia]. cbn [length] in He, Hl. split; [| |done|lia].
    + intros i y Hy. rewrite <- (Hc (Datatypes.S i) y Hy). f_equal. lia.
    + rewrite <- He. f_equal. lia.
Qed.

Definition disk_prefix : list Z := bytes_of_string "/dev/disk/".

Section files.
(** The literal "/dev/disk/", the local arrays, and the page allocated for each name. *)
Variables (file_prefix postfix number : Z) (fname : Z → Z).
(** The address of an entry of the table of references. *)
Variable partent : Z → Z → Z.
Variable can_alloc : Z → fs → bool.
Variable junk : Z → list Z.
Variable mount_rfopen : list Z → Z → fs → Z.
Variable mount_create : Z → list Z → Z → M fs Z.

(** The name is put together in a page; [name] is that of the disk's file. *)
Definition partition_fname (name partition_count : Z) : M memory unit :=
  st postfix 112;;
  for_all 1 6 (λ i, st (postfix + i) 0);;
  itoa partition_count number 10;;
  strcpy file_prefix (fname partition_count);;
  strcat name (fname partition_count);;
  strcat number postfix;;
  strcat postfix (fname partition_count).

(** The fields [size], [id], [private] and [fileops]; [id] goes with the operations. *)
Definition partition_file (name index partition_count size : Z) : M disks Z :=
  zoom (partition_fname name partition_count);;
  path ← gets (λ s, c_string 4096 (dk_mem s) (fname partition_count));
  zoom (T := fs) (
    new_file ← fcreate can_alloc junk mount_rfopen mount_create path FS_FILE_MOUNT;
    v ← get_vfile new_file;
    modify (set_vfile new_file (VFile (vname v) (vflags v) (driver_ops index) (refcount v) (partent index partition_count)
      size (block_size_bytes v)));;
    mret new_file).

Fixpoint partition_files (name index partition_count : Z) (parts : list (Z * Z)) : M disks (list Z) :=
  match parts with
  | [] => mret []
  | (_, size) :: parts =>
      f ← partition_file name index partition_count size;
      fs ← partition_files name index (u32 (partition_count + 1)) parts;
      mret (f :: fs)
  end.

(** The disk at [file], whose name lies at [name], gets the slot [index]. *)
Definition detect_files {D} `{BlockDev D} (file : D) (stale : list Z) (name index : Z) : M disks (Z * list Z) :=
  let '(result, parts) := detect_partitions file stale in
  if negb (result =? 0) then mret (result, [])
  else fs ← partition_files name index 0 parts; mret (result, fs).

(** ** The names *)

Definition off (a n b k : Z) : Prop := a + n <= b ∨ b + k <= a.

(** Where the strings lie: the arrays have the sizes that the source gives them. *)
Record laid_out (m : memory) (name : Z) (nm : list Z) : Prop := {
  lo_prefix : cstr m file_prefix disk_prefix;
  lo_name : cstr m name nm;
  lo_length : Z.of_nat (length nm) < NAME_SIZE;
  lo_positive : 0 < file_prefix ∧ 0 < postfix ∧ 0 < number ∧ 0 < name ∧ ∀ c, 0 < fname c;
  lo_arrays : off postfix 6 number 4 ∧ off postfix 6 file_prefix 11 ∧ off number 4 file_prefix 11;
  lo_names : off postfix 6 name NAME_SIZE ∧ off number 4 name NAME_SIZE;
  lo_pages c : off (fname c) 4096 postfix 6 ∧ off (fname c) 4096 number 4 ∧ off (fname c) 4096 file_prefix 11 ∧
    off (fname c) 4096 name NAME_SIZE;
}.

(** Only the arrays and the page change. *)
Definition scratch (c k : Z) : Prop := postfix <= k < postfix + 6 ∨ number <= k < number + 4 ∨ fname c <= k < fname c + 4096.
Lemma laid_out_frame m m' name nm c :
  laid_out m name nm → (∀ k, ¬ scratch c k → m' !0 k = m !0 k) → laid_out m' name nm.
Proof using Type.
  intros [Hp Hn Hl Hpos (H1 & H2 & H3) (H4 & H5) Hpg] Hm. unfold off, NAME_SIZE, scratch in *. destruct (Hpg c) as (P1 & P2 & P3 & P4).
  split; try done; (eapply cstr_frame; [done|]; intros k Hk; apply Hm).
  - change (Z.of_nat (length disk_prefix)) with 10 in Hk. lia.
  - lia.
Qed.

Definition partition_name (nm : list Z) (c : Z) : list Z := nm ++ [112; 48 + c].

Lemma partition_fname_wp name nm c (Q : unit → memory → Prop) m :
  laid_out m name nm → 0 <= c < 4 →
  (∀ m', laid_out m' name nm → cstr m' (fname c) (disk_prefix ++ partition_name nm c) → Q tt m') →
  wp (partition_fname name c) Q m.
Proof using Type.
  intros Hlo Hc HQ. pose proof Hlo as [Hp Hn Hl (Z1 & Z2 & Z3 & Z4 & Z5) (A1 & A2 & A3) (B1 & B2) Hpg].
  destruct (Hpg c) as (P1 & P2 & P3 & P4). specialize (Z5 c). unfold off, NAME_SIZE in *.
  assert (Z.of_nat (length disk_prefix) = 10) as Hlp by done.
  assert (numeral 10 c = [48 + c]) as Hnum.
  { assert (c = 0 ∨ c = 1 ∨ c = 2 ∨ c = 3) as [->|[->|[->| ->]]] by lia; done. }
  unfold partition_fname. wp.
  apply (wp_for_all (λ i m1, m1 !0 postfix = 112 ∧ (1 < i → m1 !0 (postfix + 1) = 0) ∧
    ∀ k, ¬ (postfix <= k < postfix + 6) → m1 !0 k = m !0 k)); [lia| | |].
  { split_and!; [by rewrite zget_insert_eq|lia|]. intros k Hk. by rewrite zget_insert_ne by lia. }
  { intros i m1 Hi (E1 & E2 & E3). wp. split_and!.
    - by rewrite zget_insert_ne by lia.
    - intros _. destruct (decide (i = 1)) as [->|]; [by rewrite zget_insert_eq|]. rewrite zget_insert_ne by lia. apply E2. lia.
    - intros k Hk. rewrite zget_insert_ne by lia. by apply E3. }
  intros m1 (E1 & E2 & F1). specialize (E2 ltac:(lia)).
  assert (cstr m1 postfix [112]) as S1.
  { split; [|exact E2|by repeat constructor|done]. intros [|i] x Hx; [|done]. injection Hx as <-. by rewrite Z.add_0_r. }
  wp. apply itoa_numeral_wp; [lia|lia|lia|]. rewrite Hnum. intros m2 S2 _ F2. cbn [length] in F2. change (Z.of_nat 1) with 1 in F2.
  wp. apply (strcpy_wp m2 file_prefix (fname c) disk_prefix); [|lia|lia|lia|].
  { eapply cstr_frame; [exact Hp|]. intros k Hk. rewrite F2, F1 by lia. done. }
  intros m3 S3 F3. rewrite Hlp in F3. wp. apply (strcat_wp m3 name (fname c) nm disk_prefix); [|done|lia|lia|lia|lia|].
  { eapply cstr_frame; [exact Hn|]. intros k Hk. rewrite F3, F2, F1 by lia. done. }
  intros m4 S4 F4. rewrite Hlp in F4. wp. apply (strcat_wp m4 number postfix [48 + c] [112]); [| |lia|lia|done|simpl; lia|].
  { eapply cstr_frame; [exact S2|]. cbn [length]. intros k Hk. rewrite F4, F3 by lia. done. }
  { eapply cstr_frame; [exact S1|]. cbn [length]. intros k Hk. rewrite F4, F3, F2 by lia. done. }
  intros m5 S5 F5. cbn [length] in F5. change (Z.of_nat 1) with 1 in F5.
  assert (Z.of_nat (length (disk_prefix ++ nm)) = 10 + Z.of_nat (length nm)) as Hl4 by (rewrite length_app; lia).
  apply (strcat_wp m5 postfix (fname c) [112; 48 + c] (disk_prefix ++ nm)); [exact S5| |lia|lia|simpl; lia|rewrite Hl4; simpl; lia|].
  { eapply cstr_frame; [exact S4|]. intros k Hk. rewrite F5 by lia. done. }
  intros m6 S6 F6. rewrite Hl4 in F6. cbn [length] in F6. change (Z.of_nat 2) with 2 in F6. apply HQ.
  - apply (laid_out_frame m _ name nm c); [done|]. unfold scratch. intros k Hk. rewrite F6, F5, F4, F3, F2, F1 by lia. done.
  - rewrite <- app_assoc in S6. exact S6.
Qed.

(** ** The files *)

Hypothesis alloc_ok : ∀ pages s, can_alloc pages s = true.

Definition disk_dir : list (list Z) := [bytes_of_string "dev"; bytes_of_string "disk"].

(** The tree in order, with the directory [d] for the files of disks, and room in it. *)
Record disk_tree (s : disks) (d : Z) (room : Z) (name : Z) (nm : list Z) : Prop := {
  dt_ok : fs_ok (dk_fs s);
  dt_lock : vfs_lock (dk_fs s) = false;
  dt_dir : dir_path (dk_fs s) root_dir disk_dir d;
  dt_room : 4 * (entry_count (dk_fs s) d + room) < 2 ^ 31;
  dt_laid : laid_out (dk_mem s) name nm;
}.

(** A file of a partition: [c] in the order of the table. *)
Definition partition_vfile (nm : list Z) (index c size : Z) (v : vfile) : Prop :=
  vname v = partition_name nm c ∧ vflags v = FS_FILE_MOUNT ∧ vops v = driver_ops index ∧ private v = partent index c ∧ vsize v = size.

(** What making one changes. *)
Record partition_made (s : disks) (d : Z) (nm : list Z) (index c size f : Z) (s' : disks) : Prop := {
  pa_old x cs y : dir_path (dk_fs s) x cs y → dir_path (dk_fs s') x cs y;
  pa_new : vfiles (dk_fs s) !! f = None;
  pa_file : ∃ v, vfiles (dk_fs s') !! f = Some v ∧ partition_vfile nm index c size v;
  pa_entry nm' : entry_of (dk_fs s') d nm' = if decide (nm' = partition_name nm c) then f else entry_of (dk_fs s) d nm';
  pa_other g w : g ≠ d → vfiles (dk_fs s) !! g = Some w → ∃ w', vfiles (dk_fs s') !! g = Some w' ∧ erase w' = erase w;
}.

Lemma partition_file_wp name nm index c size d n (Q : Z → disks → Prop) s :
  disk_tree s d (n + 1) name nm → 0 <= n → 0 <= c < 4 → clean_name nm → Z.of_nat (length nm) + 2 < NAME_SIZE →
  entry_of (dk_fs s) d (partition_name nm c) = 0 →
  (∀ f s', disk_tree s' d n name nm → partition_made s d nm index c size f s' → Q f s') →
  wp (partition_file name index c size) Q s.
Proof using alloc_ok.
  intros [Hok Hlk Hdir Hroom Hlo] Hn Hc Hcl Hlen Hfree HQ. unfold partition_file. rewrite wp_bind, wp_zoom.
  apply (partition_fname_wp name nm c); [exact Hlo|done|]. intros m' Hlo' Hstr.
  rewrite wp_bind, wp_gets. cbn [dk_mem put disks_mem].
  assert (length (disk_prefix ++ partition_name nm c) = 12 + length nm)%nat as Hplen.
  { unfold partition_name. rewrite !length_app. change (length disk_prefix) with 10%nat. simpl. lia. }
  unfold NAME_SIZE in Hlen. rewrite (c_string_eq 4096 m' (fname c) _ Hstr) by lia.
  rewrite wp_zoom. cbn [view disks_fs put disks_mem dk_fs dk_mem]. rewrite wp_bind.
  assert (clean_name (partition_name nm c)) as Hcl'.
  { destruct Hcl as [Hne Hf]. split; [by destruct nm|]. apply Forall_app. split; [done|]. repeat constructor; lia. }
  destruct (fcreate_file can_alloc junk mount_rfopen mount_create alloc_ok disk_dir (partition_name nm c) FS_FILE_MOUNT d (dk_fs s))
    as (f & g & fw & Hrun & [Hok' Hlk' Hold Hnew Hfw (Hn1 & Hn2 & _) Hent _ Hcnt _ Hother]); [done|done|done|lia| | |simpl; lia| |done|].
  { repeat (apply Forall_cons; split); [split; by_computation..|done|done]. }
  { unfold partition_name, NAME_SIZE. rewrite length_app. simpl. lia. }
  { change (47 :: join_path (disk_dir ++ [partition_name nm c])) with (disk_prefix ++ partition_name nm c). lia. }
  change (47 :: join_path (disk_dir ++ [partition_name nm c])) with (disk_prefix ++ partition_name nm c) in Hrun.
  rewrite (wp_run _ _ _ _ _ Hrun), wp_bind. apply (wp_get_vfile _ fw); [done|]. rewrite wp_bind, wp_modify, wp_ret.
  rewrite Hn1, Hn2. set (fv := VFile _ _ _ _ _ _ _).
  assert (vname fv = vname fw) as Hname by (by rewrite Hn1). assert (vops fv ≠ ramfs_ops) as Hops by done.
  assert (¬ ram_dir fw) as Hnd by (intros (_ & Hmt & _); unfold is_flag in Hmt; by rewrite Hn2 in Hmt).
  pose proof (Hold _ _ _ Hdir) as Hdir'.
  assert (d ≠ f) as Hdf by (intros ->; destruct (dir_path_end _ _ _ _ Hdir) as (w & Hw & _); congruence).
  apply HQ; split; cbn [dk_fs dk_mem].
  - exact (driver_file_ok Hok' Hfw Hops).
  - exact Hlk'.
  - exact (driver_dir_path Hfw Hname Hnd _ _ _ Hdir').
  - rewrite (driver_entry_count Hfw Hname Hnd) by (by exists root_dir, disk_dir). specialize (Hcnt _ _ Hdir). lia.
  - exact Hlo'.
  - intros x cs y Hxy. apply (driver_dir_path Hfw Hname Hnd). by apply Hold.
  - exact Hnew.
  - exists fv. split; [apply lookup_insert_eq|done].
  - intros nm'. rewrite (driver_entry_of Hfw Hname Hnd) by (by exists root_dir, disk_dir). rewrite (Hent disk_dir) by done.
    destruct (decide (nm' = partition_name nm c)); [by rewrite decide_True|rewrite decide_False by tauto; done].
  - intros x w Hx Hw. destruct (Hother x w Hx Hw) as (w' & Hw' & Ew'). exists w'. split; [|done]. cbn [vfiles set_vfile].
    rewrite lookup_insert_ne; [done|]. intros ->. congruence.
Qed.
(** The files [fl] stand for the partitions [parts], which are numbered from [c] on. *)
Definition files_stand (s : disks) (d : Z) (nm : list Z) (index c : Z) (parts : list (Z * Z)) (fl : list Z) : Prop :=
  length fl = length parts ∧ ∀ k lba size, parts !! k = Some (lba, size) → ∃ f v, fl !! k = Some f ∧
    entry_of (dk_fs s) d (partition_name nm (c + Z.of_nat k)) = f ∧ vfiles (dk_fs s) !! f = Some v ∧
    partition_vfile nm index (c + Z.of_nat k) size v.

Lemma partition_name_inj nm c c' : partition_name nm c = partition_name nm c' → c = c'.
Proof using Type. unfold partition_name. intros H%app_inv_head. injection H. lia. Qed.

Lemma partition_vfile_same nm index c size v w : erase w = erase v → partition_vfile nm index c size v → partition_vfile nm index c size w.
Proof using Type. intros He (H1 & H2 & H3 & H4 & H5). destruct (erase_eq _ _ He) as (E1 & E2 & E3 & E4 & E5). split_and!; congruence. Qed.

Lemma partition_files_wp name nm index d parts : ∀ c (Q : list Z → disks → Prop) s,
  disk_tree s d (Z.of_nat (length parts)) name nm → 0 <= c → c + Z.of_nat (length parts) <= 4 →
  clean_name nm → Z.of_nat (length nm) + 2 < NAME_SIZE →
  (∀ k, c <= k < c + Z.of_nat (length parts) → entry_of (dk_fs s) d (partition_name nm k) = 0) →
  (∀ fl s', disk_tree s' d 0 name nm → files_stand s' d nm index c parts fl →
     (∀ x cs y, dir_path (dk_fs s) x cs y → dir_path (dk_fs s') x cs y) →
     (∀ nm', (∀ k, c <= k < c + Z.of_nat (length parts) → nm' ≠ partition_name nm k) → entry_of (dk_fs s') d nm' = entry_of (dk_fs s) d nm') →
     (∀ g w, g ≠ d → vfiles (dk_fs s) !! g = Some w → ∃ w', vfiles (dk_fs s') !! g = Some w' ∧ erase w' = erase w) →
     Q fl s') →
  wp (partition_files name index c parts) Q s.
Proof using alloc_ok.
  induction parts as [|[lba size] parts IH]; intros c Q s Ht Hc Hmax Hcl Hlen Hfree HQ; cbn [partition_files].
  - wp. apply HQ; [done| |done|done|intros g w _ Hw; by exists w]. split; [done|]. intros k ? ? Hk. done.
  - cbn [length] in *. rewrite wp_bind.
    apply (partition_file_wp name nm index c size d (Z.of_nat (length parts))); [|lia|lia|done|done|apply Hfree; lia|].
    { by replace (Z.of_nat (length parts) + 1) with (Z.of_nat (Datatypes.S (length parts))) by lia. }
    intros f s1 Ht1 [Hold1 Hnew1 (v1 & Hv1 & Hpv1) Hent1 Hoth1]. rewrite u32_id by (unfold is_u32; lia). rewrite wp_bind.
    apply IH; [done|lia|lia|done|done| |].
    { intros k Hk. rewrite Hent1, decide_False by (intros E%partition_name_inj; lia). apply Hfree. lia. }
    intros fl s2 Ht2 [Hlen2 Hst2] Hold2 Hent2 Hoth2. rewrite wp_ret.
    assert (f ≠ d) as Hfd by (intros ->; destruct (dir_path_end _ _ _ _ (dt_dir _ _ _ _ _ Ht)) as (w & Hw & _); congruence).
    apply HQ.
    + exact Ht2.
    + split; [simpl; lia|]. intros [|k] lba' size' Hk.
      * injection Hk as -> ->. destruct (Hoth2 f v1 Hfd Hv1) as (v2 & Hv2 & Ev). exists f, v2. rewrite Z.add_0_r. split_and!; [done| |done|].
        -- rewrite Hent2, Hent1, decide_True; [done|done|]. intros k Hk E%partition_name_inj. lia.
        -- by eapply partition_vfile_same.
      * destruct (Hst2 k lba' size' Hk) as (f' & v' & H1 & H2 & H3 & H4). exists f', v'.
        replace (c + Z.of_nat (Datatypes.S k)) with (c + 1 + Z.of_nat k) by lia. by split_and!.
    + intros x cs y Hxy. by apply Hold2, Hold1.
    + intros nm' Hnm. rewrite Hent2 by (intros k Hk; apply Hnm; lia). rewrite Hent1, decide_False; [done|]. apply Hnm. lia.
    + intros g w Hg Hw. destruct (Hoth1 g w Hg Hw) as (w1 & Hw1 & E1). destruct (Hoth2 g w1 Hg Hw1) as (w2 & Hw2 & E2).
      exists w2. split; [done|congruence].
Qed.

Lemma detected_four {D} `{BlockDev D} (file : D) stale result parts :
  detect_partitions file stale = (result, parts) → Z.of_nat (length parts) <= 4.
Proof using Type.
  unfold detect_partitions. intros E. repeat case_match; simplify_eq; try (simpl; lia).
  cbn [omap list_omap]. repeat case_match; simpl; lia.
Qed.

End files.

(** ** A disk with one partition *)

Definition names_memory : memory := store_bytes 0x1000 (disk_prefix ++ [0]) (store_bytes 0x1200 (bytes_of_string "hda" ++ [0]) ∅).

Lemma names_laid : laid_out 0x1000 0x1100 0x1110 (λ _, 0x10000) names_memory 0x1200 (bytes_of_string "hda").
Proof.
  unfold names_memory, disk_prefix. split.
  - apply cstr_store; by_computation.
  - eapply cstr_frame; [apply (cstr_store ∅ 0x1200 (bytes_of_string "hda")); by_computation|].
    intros k Hk. change (Z.of_nat (length (bytes_of_string "hda"))) with 3 in Hk.
    assert (k = 0x1200 ∨ k = 0x1201 ∨ k = 0x1202 ∨ k = 0x1203) as [->|[->|[->| ->]]] by lia; vm_compute; reflexivity.
  - by_computation.
  - done.
  - unfold off. lia.
  - unfold off, NAME_SIZE. lia.
  - intros c. unfold off, NAME_SIZE. lia.
Defined.

(** The tree with /dev/disk alone. *)
Definition dev_tree : fs :=
  match (fcreate (λ _ _, true) (λ _, []) (λ _ _ _, 0) (λ _ _ _, mret 0) (bytes_of_string "/dev") FS_FILE_IS_DIR;;
         fcreate (λ _ _, true) (λ _, []) (λ _ _ _, 0) (λ _ _ _, mret 0) (bytes_of_string "/dev/disk") FS_FILE_IS_DIR) fs_init with
  | Ok (_, s) => s | Err _ => fs_init end.

