(* ===== verification/Initrc.v ===== *)
(** * The start-up script (src/src/kernel/system/intirc.c) and the settings (src/src/kernel/shared/config.c)

    [initrc_read] interprets the lines of a script; what the lines ask of other
    parts of the kernel goes through the class [InitrcEnv]. *)
From S2P Require Import Prelude Device KString.

(** ** Settings *)

Record kernel_config := KernelConfig {
  kernel_heap_size : Z; logfile : Z; user_stack_size : Z; swap_size : Z;
  swapfile : Z; swap_enable : Z; panic_on_exception : Z;
}.

Definition config_init : M kernel_config unit := modify (λ c,
  KernelConfig (Z.shiftl 8 20) 0 (Z.shiftl 1 20) (swap_size c) (swapfile c) 0 1).
Definition config_set_kernel_heap_size (value : Z) : M kernel_config unit := modify (λ c,
  KernelConfig value (logfile c) (user_stack_size c) (swap_size c) (swapfile c) (swap_enable c) (panic_on_exception c)).
Definition config_set_user_stack_size (value : Z) : M kernel_config unit := modify (λ c,
  KernelConfig (kernel_heap_size c) (logfile c) value (swap_size c) (swapfile c) (swap_enable c) (panic_on_exception c)).
Definition config_set_swap_enable (value : Z) : M kernel_config unit := modify (λ c,
  KernelConfig (kernel_heap_size c) (logfile c) (user_stack_size c) (swap_size c) (swapfile c) (u8 value) (panic_on_exception c)).
Definition config_set_expanic (value : Z) : M kernel_config unit := modify (λ c,
  KernelConfig (kernel_heap_size c) (logfile c) (user_stack_size c) (swap_size c) (swapfile c) (swap_enable c) (u8 value)).
Definition config_set_swap_size (value : Z) : M kernel_config unit := modify (λ c,
  KernelConfig (kernel_heap_size c) (logfile c) (user_stack_size c) value (swapfile c) (swap_enable c) (panic_on_exception c)).
Definition get_config_const : M kernel_config kernel_config := gets id.

(** ** What a script uses of the kernel *)

(** [module_start] gets the contents of the file that [fopen] found, and
    [dispatch_message] is called with [MESSAGE_MOUNT_FS]. *)
Class InitrcEnv (E : Type) := {
  ie_config :: Lens E kernel_config;
  env_printf : list Z → M E unit;
  env_fopen : list Z → M E Z;
  env_module_start : Z → M E unit;
  env_mount_fs : Z → list Z → Z → M E Z;
  env_exec : list Z → M E unit;
  env_heap_init : Z → M E unit;
}.

(** ** The interpreter *)

Definition is_num (c : Z) : bool :=
  if (s8 c <? 48) || ((57 <? s8 c) && (s8 c <? 97)) then false else negb (102 <? s8 c).

(** How a line ends: [Rest i] goes on to skip the rest of the line from [i],
    [Continue i] starts the next statement at [i], [Return] leaves. *)
Inductive outcome := Rest (i : Z) | Continue (i : Z) | Return.

Section interpreter.
Context {E : Type} `{InitrcEnv E}.
(** The contents of the file and its size. *)
Variables (ptr : Z → Z) (size : Z).

Definition scan (c : Z → bool) (i : Z) : M E Z :=
  loop fuel32 (λ i, if c (ptr i) then mret (inl (u32 (i + 1))) else mret (inr i)) i.

(** [while(c) array[j] = ptr[i + j], j++;] and the terminator behind it, for a
    local array of 512 characters. *)
Definition copy_while (c : Z → Z → bool) (i : Z) : M E (list Z) :=
  w ← loop fuel32 (λ w,
    let j := Z.of_nat (length w) in
    if c j (ptr (u32 (i + j))) then
      if j <? 512 then mret (inl (w ++ [ptr (u32 (i + j))])) else fail (OutOfBounds j)
    else mret (inr w)) [];
  if Z.of_nat (length w) <? 512 then mret w else fail (OutOfBounds (Z.of_nat (length w))).
Definition behind (i : Z) (w : list Z) : Z := u32 (i + Z.of_nat (length w)).

Definition blank (x : Z) : bool := (x =? 32) || (x =? 9) || (x =? 10).
Definition in_word (x : Z) : bool := negb (x =? 32) && negb (x =? 10) && negb (x =? 0).
Definition in_line (x : Z) : bool := negb (x =? 10) && negb (x =? 0).

Definition do_echo (i : Z) : M E outcome :=
  env_printf (bytes_of_string "[ INITRC ]");;
  i ← loop fuel32 (λ i,
    if in_line (ptr i) && negb (ptr i =? 35) then
      when (negb (ptr i =? 34)) (env_printf [ptr i]);;
      mret (inl (u32 (i + 1)))
    else mret (inr i)) (u32 (i + 1));
  env_printf [10];;
  mret (Rest i).

(** A name that ends with its line, at a space, at 512 characters or with the file. *)
Definition read_name (i : Z) : M E (list Z) :=
  copy_while (λ j x, (j <? 512) && in_word x && (u32 (i + j) <? size)) i.

Definition do_module (i : Z) : M E outcome :=
  let i := u32 (i + 1) in
  module_name ← read_name i;
  let i := behind i module_name in
  module ← env_fopen module_name;
  if module =? 0 then
    env_printf (bytes_of_string "Error: Could not find module in Initrc.conf: " ++ module_name ++ [10]);;
    mret (Continue i)
  else env_module_start module;; mret (Rest i).

Definition local_atoi (str : list Z) (base : Z) : M E Z := λ s,
  match atoi 0 base (store_bytes 0 (str ++ [0]) ∅) with
  | Ok (n, _) => Ok (n, s)
  | Err e => Err e
  end.

(** The optional offset behind the mount point. *)
Definition mount_offset (i : Z) : M E (Z * Z) :=
  if ptr i =? 32 then
    let i := u32 (i + 1) in
    let '(i, base) :=
      if ptr (u32 (i + 1)) =? 120 then (u32 (i + 2), 16)
      else if (ptr i =? 48) && (ptr (u32 (i + 1)) =? 48) then (u32 (i + 2), 8)
      else (i, 10) in
    atoi_str ← copy_while (λ j x, (j <? 512) && in_word x && is_num x) i;
    offset ← local_atoi atoi_str base;
    mret (behind i atoi_str, offset)
  else mret (i, 0).

Definition do_mount (i : Z) : M E outcome :=
  let i := u32 (i + 1) in
  mount_src_name ← read_name i;
  let i := behind i mount_src_name in
  mount_dest ← copy_while (λ j x, in_word x && (u32 (u32 (i + 1) + j) <? size)) (u32 (i + 1));
  let i := behind (u32 (i + 1)) mount_dest in
  '(i, offset) ← mount_offset i;
  to_mount ← env_fopen mount_src_name;
  if to_mount =? 0 then mret (Continue i)
  else
    _ ← env_mount_fs to_mount mount_dest offset;
    mret (Rest i).

Definition do_exec (i : Z) : M E outcome :=
  i ← scan (λ x, s8 x <=? 32) i;
  src_file ← copy_while (λ j x, (32 <? s8 x) && negb (x =? 35) && (j <? 511)) i;
  env_exec src_file;;
  mret (Rest (behind i src_file)).

Definition do_sysinit (i : Z) : M E outcome :=
  config ← zoom get_config_const;
  env_heap_init (kernel_heap_size config);;
  mret (Rest i).

Definition is_word (w : list Z) (keyword : string) : bool := bool_decide (w = bytes_of_string keyword).

Definition do_statement (statement : list Z) (i : Z) : M E outcome :=
  if default 0 (head statement) =? 35 then
    i ← scan in_line i; mret (Rest i)
  else if is_word statement "ECHO" then do_echo i
  else if is_word statement "MODULE" then do_module i
  else if is_word statement "MOUNT" then do_mount i
  else if is_word statement "CONFIG" then mret (Rest i)
  else if is_word statement "EXEC" then do_exec i
  else if is_word statement "SYSINIT" then do_sysinit i
  else if is_word statement "END" then mret Return
  else
    env_printf (bytes_of_string "FATAL ERROR: Unknown Instruction: " ++ statement ++ [10]);;
    fail Panic.

(** The loop at the end of a line: [None] when the file ends first. *)
Definition skip_line (i : Z) : M E (option Z) :=
  loop fuel32 (λ i,
    if ptr i =? 10 then mret (inr (Some (u32 (i + 1))))
    else
      let i := u32 (i + 1) in
      if size <=? i then mret (inr None) else mret (inl i)) i.

(** [statement0] is what the uninitialised array holds. *)
Definition interpret (statement0 : list Z) : M E unit :=
  loop fuel32 (λ '(i, statement),
    if is_word statement "END" then mret (inr tt)
    else
      i ← scan blank i;
      statement ← copy_while (λ _ x, in_word x) i;
      r ← do_statement statement (behind i statement);
      match r with
      | Return => mret (inr tt)
      | Continue i => mret (inl (i, statement))
      | Rest i =>
          r ← skip_line i;
          mret (match r with Some i => inl (i, statement) | None => inr tt end)
      end) (0, statement0).
End interpreter.

(** A file is its contents and its size; [None] stands for the null pointers. *)
Definition initrc_read {E} `{InitrcEnv E} (file : option ((Z → Z) * Z)) (statement0 : list Z) : M E unit :=
  match file with
  | None => skip
  | Some (ptr, size) => interpret ptr size statement0
  end.

(** ** The language of scripts *)

(** What a line says.  [Comment], [Echo] and [Config] carry the text behind the
    keyword; the offset of [Mount] is a base and its digits, the first one first. *)
Inductive statement :=
  | Comment (word text : list Z)
  | Echo (text comment : list Z)
  | LoadModule (name : list Z)
  | Mount (source target : list Z) (offset : option (Z * list Z))
  | Config (text : list Z)
  | Exec (path : list Z)
  | Sysinit.

Definition digit_char (d : Z) : Z := if d <? 10 then 48 + d else 87 + d.
Definition offset_text (o : option (Z * list Z)) : list Z :=
  match o with
  | None => []
  | Some (base, ds) =>
      32 :: bytes_of_string (if base =? 16 then "0x" else if base =? 8 then "00" else "") ++ (digit_char <$> ds)
  end.
Definition number (base : Z) (ds : list Z) : Z := foldl (λ n d, n * base + d) 0 ds.
Definition offset_value (o : option (Z * list Z)) : Z :=
  match o with None => 0 | Some (base, ds) => number base ds end.

Definition keyword (st : statement) : list Z :=
  match st with
  | Comment w _ => 35 :: w
  | Echo _ _ => bytes_of_string "ECHO"
  | LoadModule _ => bytes_of_string "MODULE"
  | Mount _ _ _ => bytes_of_string "MOUNT"
  | Config _ => bytes_of_string "CONFIG"
  | Exec _ => bytes_of_string "EXEC"
  | Sysinit => bytes_of_string "SYSINIT"
  end.
Definition operands (st : statement) : list Z :=
  match st with
  | Comment _ t => t
  | Echo t c => 32 :: t ++ c
  | LoadModule n => 32 :: n
  | Mount s d o => 32 :: s ++ 32 :: d ++ offset_text o
  | Config t => t
  | Exec p => 32 :: p
  | Sysinit => []
  end.
(** A line with its indentation. *)
Definition line (l : list Z * statement) : list Z := l.1 ++ keyword l.2 ++ operands l.2 ++ [10].

(** What fits into the buffers and is not taken for something else. *)
Definition word_ok (w : list Z) : Prop := Forall (λ x, in_word x = true) w ∧ Z.of_nat (length w) < 511.
Definition text_ok (t : list Z) : Prop := (t = [] ∨ head t = Some 32) ∧ Forall (λ x, in_line x = true) t.
Definition offset_ok (o : option (Z * list Z)) : Prop :=
  match o with
  | None => True
  | Some (base, ds) =>
      base ∈ [8; 10; 16] ∧ ds ≠ [] ∧ Forall (λ d, 0 <= d < base) ds ∧ Z.of_nat (length ds) < 500 ∧
      number base ds < 2 ^ 32 ∧ (base = 10 → ∀ ds', ds ≠ 0 :: 0 :: ds')
  end.
Definition statement_ok (st : statement) : Prop :=
  match st with
  | Comment w t => word_ok w ∧ text_ok t
  | Echo t c => Forall (λ x, in_line x = true ∧ x ≠ 35) t ∧ (c = [] ∨ head c = Some 35) ∧ Forall (λ x, in_line x = true) c
  | LoadModule n => word_ok n
  | Mount s d o => word_ok s ∧ word_ok d ∧ offset_ok o
  | Config t => text_ok t
  | Exec p => p ≠ [] ∧ Forall (λ x, 32 < s8 x ∧ x ≠ 35) p ∧ Z.of_nat (length p) < 511
  | Sysinit => True
  end.
Definition line_ok (l : list Z * statement) : Prop := Forall (λ x, blank x = true) l.1 ∧ statement_ok l.2.

(** What a line means. *)
Section meaning.
Context {E : Type} `{InitrcEnv E}.

Fixpoint print_chars (t : list Z) : M E unit :=
  match t with
  | [] => skip
  | x :: t => when (negb (x =? 34)) (env_printf [x]);; print_chars t
  end.

Definition meaning (st : statement) : M E unit :=
  match st with
  | Comment _ _ | Config _ => skip
  | Echo t _ => env_printf (bytes_of_string "[ INITRC ]");; print_chars t;; env_printf [10]
  | LoadModule n =>
      module ← env_fopen n;
      if module =? 0 then env_printf (bytes_of_string "Error: Could not find module in Initrc.conf: " ++ n ++ [10])
      else env_module_start module
  | Mount s d o =>
      device ← env_fopen s;
      if device =? 0 then skip else _ ← env_mount_fs device d (offset_value o); skip
  | Exec p => env_exec p
  | Sysinit => config ← zoom get_config_const; env_heap_init (kernel_heap_size config)
  end.

Fixpoint meanings (ls : list (list Z * statement)) : M E unit :=
  match ls with
  | [] => skip
  | l :: ls => meaning l.2;; meanings ls
  end.
End meaning.

(** ** Reading text *)

Section reading.
Context {E : Type} `{InitrcEnv E}.
Variables (ptr : Z → Z) (size : Z).

Local Notation at_text := (text_at ptr).

Lemma scan_wp c i l x (Q : Z → E → Prop) s :
  at_text i (l ++ [x]) → Forall (λ y, c y = true) l → c x = false →
  0 <= i → i + Z.of_nat (length l) < 2 ^ 32 → Q (i + Z.of_nat (length l)) s → wp (scan ptr c i) Q s.
Proof using Type.
  intros Ht Hl Hx Hi Hb HQ. unfold scan.
  apply (wp_loop (λ j s', s' = s ∧ i <= j <= i + Z.of_nat (length l)) (λ j _, i + Z.of_nat (length l) - j)).
  - split; [done|lia].
  - unfold fuel32. lia.
  - intros j s' [_ ?]. lia.
  - intros j s' [-> Hj]. destruct (decide (j = i + Z.of_nat (length l))) as [->|Hne].
    + apply text_at_app in Ht as [_ Ht]. apply text_at_cons in Ht as [-> _]. rewrite Hx. by wp.
    + destruct (lookup_lt_is_Some_2 l (Z.to_nat (j - i))) as [y Hy]; [lia|].
      assert (ptr j = y) as -> by (rewrite <- (Ht (Z.to_nat (j - i)) y) by (by apply lookup_app_l_Some); f_equal; lia).
      rewrite Forall_lookup in Hl. rewrite (Hl _ _ Hy). wp. rewrite u32_id by (unfold is_u32; lia). split; [split; [done|lia]|lia].
Qed.

Lemma copy_while_wp c i l x (Q : list Z → E → Prop) s :
  at_text i (l ++ [x]) → (∀ k y, l !! k = Some y → c (Z.of_nat k) y = true) → c (Z.of_nat (length l)) x = false →
  Z.of_nat (length l) < 512 → 0 <= i → i + Z.of_nat (length l) < 2 ^ 32 → Q l s → wp (copy_while ptr c i) Q s.
Proof using Type.
  intros Ht Hl Hx Hlen Hi Hb HQ. unfold copy_while. wp.
  apply (wp_loop (λ w s', s' = s ∧ ∃ k, w = take k l ∧ (k <= length l)%nat) (λ w _, Z.of_nat (length l) - Z.of_nat (length w))).
  - split; [done|]. exists 0%nat. split; [done|lia].
  - simpl. unfold fuel32. lia.
  - intros w s' (_ & k & -> & Hk). rewrite length_take. lia.
  - intros w s' (-> & k & -> & Hk). rewrite length_take, (Nat.min_l _ _ Hk), (u32_id (i + _)) by (unfold is_u32; lia).
    destruct (decide (k = length l)) as [->|Hne].
    + apply text_at_app in Ht as [_ Ht]. apply text_at_cons in Ht as [-> _]. rewrite Hx, take_ge by lia. wp.
      rewrite (proj2 (Z.ltb_lt _ _)) by lia. by wp.
    + destruct (lookup_lt_is_Some_2 l k) as [y Hy]; [lia|]. rewrite (Ht k y) by (by apply lookup_app_l_Some).
      rewrite (Hl k y Hy), (proj2 (Z.ltb_lt _ _)) by lia. wp. rewrite length_app, length_take, Nat.min_l by lia.
      split; [|simpl; lia]. split; [done|]. exists (S k). split; [by rewrite (take_S_r _ _ y Hy)|lia].
Qed.

Lemma skip_line_wp i l (Q : option Z → E → Prop) s :
  at_text i (l ++ [10]) → Forall (λ y, y ≠ 10) l → 0 <= i → i + Z.of_nat (length l) < size → size < 2 ^ 32 →
  Q (Some (i + Z.of_nat (length l) + 1)) s → wp (skip_line ptr size i) Q s.
Proof using Type.
  intros Ht Hl Hi Hb Hs HQ. unfold skip_line.
  apply (wp_loop (λ j s', s' = s ∧ i <= j <= i + Z.of_nat (length l)) (λ j _, i + Z.of_nat (length l) - j)).
  - split; [done|lia].
  - unfold fuel32. lia.
  - intros j s' [_ ?]. lia.
  - intros j s' [-> Hj]. destruct (decide (j = i + Z.of_nat (length l))) as [->|Hne].
    + apply text_at_app in Ht as [_ Ht]. apply text_at_cons in Ht as [-> _]. wp. rewrite u32_id by (unfold is_u32; lia). done.
    + destruct (lookup_lt_is_Some_2 l (Z.to_nat (j - i))) as [y Hy]; [lia|].
      assert (ptr j = y) as -> by (rewrite <- (Ht (Z.to_nat (j - i)) y) by (by apply lookup_app_l_Some); f_equal; lia).
      rewrite Forall_lookup in Hl. rewrite (proj2 (Z.eqb_neq _ _) (Hl _ _ Hy)). rewrite u32_id by (unfold is_u32; lia).
      rewrite (proj2 (Z.leb_gt _ _)) by lia. wp. split; [split; [done|lia]|lia].
Qed.

(** *** Numbers *)

Lemma number_ge base ds n : 1 <= base → Forall (λ d, 0 <= d < base) ds → 0 <= n → n <= foldl (λ n d, n * base + d) n ds.
Proof using Type.
  intros Hb Hds. revert n. induction Hds as [|d ds Hd _ IH]; intros n Hn; cbn [foldl]; [lia|].
  etransitivity; [|apply IH]; nia.
Qed.

Lemma digit_value_char base d : base ∈ [8; 10; 16] → 0 <= d < base → digit_value (digit_char d) base = d.
Proof using Type.
  intros Hb Hd.
  assert (d ∈ seqZ 0 base) as Hd' by (apply elem_of_seqZ; lia).
  clear Hd. revert d Hd'. apply Forall_forall. rewrite !elem_of_cons in Hb.
  destruct Hb as [->|[->|[->|?%elem_of_nil]]]; [by_computation..|done].
Qed.

Lemma atoi_number base ds n :
  base ∈ [8; 10; 16] → Forall (λ d, 0 <= d < base) ds → 0 <= n → foldl (λ n d, n * base + d) n ds < 2 ^ 32 →
  foldl (λ total c, u32 (u32 (total * base) + digit_value c base)) n (digit_char <$> ds) = foldl (λ n d, n * base + d) n ds.
Proof using Type.
  intros Hb Hds. assert (1 <= base) as Hb1 by (rewrite !elem_of_cons in Hb; destruct Hb as [->|[->|[->|?%elem_of_nil]]]; lia || done).
  revert n. induction Hds as [|d ds Hd Hds IH]; intros n Hn Hlt; [done|]. rewrite fmap_cons. cbn [foldl] in *.
  pose proof (number_ge base ds (n * base + d) Hb1 Hds ltac:(nia)).
  rewrite digit_value_char by done. rewrite (u32_id (n * base)) by (unfold is_u32; nia).
  rewrite u32_id by (unfold is_u32; nia). apply IH; nia.
Qed.

Lemma digit_char_props base d :
  base ∈ [8; 10; 16] → 0 <= d < base →
  in_word (digit_char d) = true ∧ is_num (digit_char d) = true ∧ digit_char d ≠ 120 ∧ 0 < digit_char d < 256 ∧ (digit_char d = 48 → d = 0).
Proof using Type.
  intros Hb Hd. assert (d ∈ seqZ 0 16) as Hd'.
  { apply elem_of_seqZ. rewrite !elem_of_cons in Hb. destruct Hb as [->|[->|[->|?%elem_of_nil]]]; lia || done. }
  clear Hd. revert d Hd'. apply Forall_forall. by_computation.
Qed.

Lemma local_atoi_wp base ds (Q : Z → E → Prop) s :
  base ∈ [8; 10; 16] → Forall (λ d, 0 <= d < base) ds → Z.of_nat (length ds) < 500 → number base ds < 2 ^ 32 →
  Q (number base ds) s → wp (local_atoi (digit_char <$> ds) base) Q s.
Proof using Type.
  intros Hb Hds Hlen Hlt HQ.
  destruct (proj1 (wp_ok (atoi 0 base) (λ n _, n = number base ds) (store_bytes 0 ((digit_char <$> ds) ++ [0]) ∅)))
    as (n & m & Hrun & ->).
  - apply (atoi_wp _ 0 (digit_char <$> ds)).
    + apply cstr_store; [|rewrite length_fmap; lia]. rewrite Forall_fmap. eapply Forall_impl; [exact Hds|].
      intros d Hd. apply (digit_char_props base d Hb Hd).
    + by apply atoi_number.
  - unfold wp, local_atoi. by rewrite Hrun.
Qed.

(** *** Statements *)

(** Where a statement leaves the interpreter when its line ends at [e]. *)
Definition ends_at (e : Z) (r : outcome) : Prop :=
  match r with
  | Rest k => ∃ l, at_text k (l ++ [10]) ∧ Forall (λ y, y ≠ 10) l ∧ 0 <= k ∧ k + Z.of_nat (length l) = e
  | Continue k => k = e
  | Return => False
  end.
Definition end_of (i : Z) (st : statement) : Z := i + Z.of_nat (length (operands st)).

(** [f] runs [st], whose operands are at [i], as [meaning] says. *)
Definition runs (f : Z → M E outcome) (i : Z) (st : statement) : Prop :=
  ∀ (P : E → Prop) (Q : outcome → E → Prop) s,
    wp (meaning st) (λ _, P) s → (∀ r s', ends_at (end_of i st) r → P s' → Q r s') → wp (f i) Q s.

Lemma in_line_ne l : Forall (λ x, in_line x = true) l → Forall (λ y, y ≠ 10) l.
Proof using Type. intros Hl. eapply Forall_impl; [exact Hl|]. by intros x Hx ->. Qed.
Lemma ends_at_end e : at_text e [10] → 0 <= e → ends_at e (Rest e).
Proof using Type. intros He Hle. exists []. split_and!; [done|by constructor|done|simpl; lia]. Qed.

Context (Hsize : size < 2 ^ 32).

Lemma read_name_wp i w x (Q : list Z → E → Prop) s :
  word_ok w → in_word x = false → 0 <= i → at_text i (w ++ [x]) → i + Z.of_nat (length w) <= size →
  Q w s → wp (read_name ptr size i) Q s.
Proof using Hsize.
  intros [Hw Hlen] Hx Hi Ht Hb HQ. unfold read_name. apply (copy_while_wp _ _ w x); try done; try lia.
  - intros k y Hy. pose proof (lookup_lt_Some _ _ _ Hy). rewrite Forall_lookup in Hw. rewrite (Hw _ _ Hy).
    rewrite u32_id by (unfold is_u32; lia). rewrite !(proj2 (Z.ltb_lt _ _)) by lia. done.
  - rewrite Hx. by rewrite andb_false_r.
Qed.

Lemma do_echo_runs i t c :
  statement_ok (Echo t c) → 0 <= i → at_text i (operands (Echo t c) ++ [10]) → end_of i (Echo t c) < size →
  runs (do_echo ptr) i (Echo t c).
Proof using Hsize.
  intros (Ht & Hc & Hc') Hi Hat Hend P Q s HP HQ. unfold end_of in *. cbn [operands] in *.
  rewrite length_cons, length_app in Hend. rewrite <- app_comm_cons, <- app_assoc in Hat.
  apply text_at_cons in Hat as [_ Hat]. apply text_at_app in Hat as [Htt Htc].
  unfold do_echo. cbn [meaning] in HP. rewrite wp_bind in HP. rewrite wp_bind. eapply wp_mono; [exact HP|]. cbn beta. intros _ s1 HP1.
  rewrite wp_bind, u32_id by (unfold is_u32; lia).
  apply (wp_loop (λ j s', ∃ k, (k <= length t)%nat ∧ j = i + 1 + Z.of_nat k ∧ wp (print_chars (drop k t);; env_printf [10]) (λ _, P) s')
    (λ j _, i + 1 + Z.of_nat (length t) - j)).
  - exists 0%nat. split; [lia|]. split; [lia|]. by rewrite drop_0.
  - unfold fuel32. lia.
  - intros j s' (k & ? & ? & _). lia.
  - intros j s' (k & Hk & -> & Hp). destruct (decide (k = length t)) as [->|Hne].
    + assert (in_line (ptr (i + 1 + Z.of_nat (length t))) && negb (ptr (i + 1 + Z.of_nat (length t)) =? 35) = false) as ->.
      { destruct Hc as [->|Hc]; [apply text_at_cons in Htc as [-> _]; done|].
        destruct c as [|x c]; [done|]. injection Hc as ->. apply text_at_cons in Htc as [-> _]. done. }
      rewrite drop_ge in Hp by lia. cbn [print_chars] in Hp. autorewrite with wp in Hp. wp.
      eapply wp_mono; [exact Hp|]. intros [] s2 HP2. wp. apply HQ; [|done].
      exists c. split_and!; [done|by apply in_line_ne|lia|rewrite length_cons, length_app; lia].
    + destruct (lookup_lt_is_Some_2 t k) as [y Hy]; [lia|]. rewrite (Htt k y Hy).
      rewrite Forall_lookup in Ht. destruct (Ht _ _ Hy) as [-> Hn]. rewrite (proj2 (Z.eqb_neq _ _) Hn). cbn [andb negb].
      rewrite (drop_S _ y k Hy) in Hp. cbn [print_chars] in Hp. rewrite wp_bind, wp_bind in Hp. rewrite wp_bind.
      eapply wp_mono; [exact Hp|]. intros [] s2 Hp2. wp. rewrite u32_id by (unfold is_u32; lia).
      split; [|lia]. exists (S k). split; [lia|]. split; [lia|]. by rewrite wp_bind.
Qed.

Lemma do_module_runs i n :
  statement_ok (LoadModule n) → 0 <= i → at_text i (operands (LoadModule n) ++ [10]) → end_of i (LoadModule n) < size →
  runs (do_module ptr size) i (LoadModule n).
Proof using Hsize.
  intros Hn Hi Hat Hend P Q s HP HQ. unfold end_of in *. cbn [operands] in *. rewrite length_cons in Hend, HQ.
  rewrite <- app_comm_cons in Hat. apply text_at_cons in Hat as [_ Hat]. pose proof (text_at_app _ _ _ Hat) as [_ Hnl].
  unfold do_module. wp. rewrite u32_id by (unfold is_u32; lia). apply (read_name_wp _ n 10); [done|done|lia|done|lia|].
  unfold behind. rewrite u32_id by (unfold is_u32; lia). cbn [meaning] in HP. rewrite wp_bind in HP. rewrite wp_bind.
  eapply wp_mono; [exact HP|]. cbn beta. intros f s1 HP1. destruct (f =? 0).
  - rewrite wp_bind. eapply wp_mono; [exact HP1|]. intros [] s2 HP2. wp. apply HQ; [cbn; lia|done].
  - rewrite wp_bind. eapply wp_mono; [exact HP1|]. intros [] s2 HP2. wp. apply HQ; [|done].
    replace (i + Z.of_nat (S (length n))) with (i + 1 + Z.of_nat (length n)) by lia. apply ends_at_end; [done|lia].
Qed.

Lemma read_digits_wp base ds j (Q : Z * Z → E → Prop) s :
  base ∈ [8; 10; 16] → Forall (λ d, 0 <= d < base) ds → Z.of_nat (length ds) < 500 → number base ds < 2 ^ 32 →
  0 <= j → at_text j ((digit_char <$> ds) ++ [10]) → j + Z.of_nat (length ds) < size →
  Q (j + Z.of_nat (length ds), number base ds) s →
  wp (atoi_str ← copy_while ptr (λ j x, (j <? 512) && in_word x && is_num x) j;
      offset ← local_atoi atoi_str base;
      mret (behind j atoi_str, offset)) Q s.
Proof using Hsize.
  intros Hb Hds Hlen Hn Hj Hat Hlt HQ. wp. apply (copy_while_wp _ _ (digit_char <$> ds) 10); rewrite ?length_fmap; try done; try lia.
  - intros k y Hy. pose proof (lookup_lt_Some _ _ _ Hy) as Hk. rewrite length_fmap in Hk.
    apply list_lookup_fmap_Some in Hy as (d & -> & Hd). rewrite Forall_lookup in Hds.
    destruct (digit_char_props base d Hb (Hds _ _ Hd)) as (-> & -> & _). by rewrite (proj2 (Z.ltb_lt _ _)) by lia.
  - by rewrite andb_false_r.
  - rewrite wp_bind. apply local_atoi_wp; [done..|]. wp. unfold behind. rewrite length_fmap, u32_id by (unfold is_u32; lia). done.
Qed.

Lemma mount_offset_wp o q (Q : Z * Z → E → Prop) s :
  offset_ok o → 0 <= q → at_text q (offset_text o ++ [10]) → q + Z.of_nat (length (offset_text o)) < size →
  Q (q + Z.of_nat (length (offset_text o)), offset_value o) s → wp (mount_offset ptr q) Q s.
Proof using Hsize.
  intros Ho Hq Hat Hlt HQ. unfold mount_offset. destruct o as [[base ds]|]; cbn [offset_text offset_value app] in *.
  2:{ apply text_at_cons in Hat as [-> _]. wp. by rewrite Z.add_0_r in HQ. }
  destruct Ho as (Hb & Hne & Hds & Hlen & Hn & H00). apply text_at_cons in Hat as [-> Hat]. cbn [Z.eqb Pos.eqb].
  rewrite length_cons, length_app, length_fmap in Hlt, HQ. rewrite <- app_assoc in Hat.
  assert (1 <= length ds)%nat by (destruct ds; [done|simpl; lia]).
  rewrite !(u32_id (q + 1)), (u32_id (q + 1 + 1)), (u32_id (q + 1 + 2)) by (unfold is_u32; lia).
  pose proof Hb as Hb'. rewrite !elem_of_cons in Hb'. destruct Hb' as [->|[->|[->|?%elem_of_nil]]]; [| | |done].
  - cbn in Hat, Hlt, HQ. apply text_at_cons in Hat as [-> Hat]. apply text_at_cons in Hat as [-> Hat]. cbn.
    replace (q + 1 + 1 + 1) with (q + 1 + 2) in Hat by lia. apply (read_digits_wp 8 ds); try done; try lia.
    by replace (q + 1 + 2 + Z.of_nat (length ds)) with (q + Z.of_nat (S (S (S (length ds))))) by lia.
  - cbn in Hat, Hlt, HQ. destruct ds as [|d ds]; [done|]. pose proof Hds as Hds'. apply Forall_cons_1 in Hds' as [Hd Hds'].
    pose proof Hat as Hat'. rewrite fmap_cons, <- app_comm_cons in Hat'. apply text_at_cons in Hat' as [-> Hat'].
    destruct (digit_char_props 10 d Hb Hd) as (_ & _ & _ & _ & Hd0).
    assert (ptr (q + 1 + 1) ≠ 120 ∧ (ptr (q + 1 + 1) = 48 → digit_char d = 48 → False)) as [Hx Hz].
    { destruct ds as [|d1 ds]; [apply text_at_cons in Hat' as [-> _]; done|].
      rewrite fmap_cons, <- app_comm_cons in Hat'. apply text_at_cons in Hat' as [-> _]. apply Forall_cons_1 in Hds' as [Hd1 _].
      destruct (digit_char_props 10 d1 Hb Hd1) as (_ & _ & ? & _ & Hd10). split; [done|].
      intros ?%Hd10 ?%Hd0. subst. by apply (H00 eq_refl ds). }
    rewrite (proj2 (Z.eqb_neq _ 120)) by done.
    assert ((digit_char d =? 48) && (ptr (q + 1 + 1) =? 48) = false) as ->.
    { apply andb_false_iff. destruct (Z.eqb_spec (digit_char d) 48); [right|by left]. apply Z.eqb_neq. intros ?. by apply Hz. }
    apply (read_digits_wp 10 (d :: ds)); try done; try (rewrite length_cons in *; lia).
    rewrite length_cons in *. by replace (q + 1 + Z.of_nat (S (length ds))) with (q + Z.of_nat (S (S (length ds)))) by lia.
  - cbn in Hat, Hlt, HQ. apply text_at_cons in Hat as [_ Hat]. apply text_at_cons in Hat as [-> Hat]. cbn.
    replace (q + 1 + 1 + 1) with (q + 1 + 2) in Hat by lia. apply (read_digits_wp 16 ds); try done; try lia.
    by replace (q + 1 + 2 + Z.of_nat (length ds)) with (q + Z.of_nat (S (S (S (length ds))))) by lia.
Qed.

Lemma do_mount_runs i a b o :
  statement_ok (Mount a b o) → 0 <= i → at_text i (operands (Mount a b o) ++ [10]) → end_of i (Mount a b o) < size →
  runs (do_mount ptr size) i (Mount a b o).
Proof using Hsize.
  intros (Ha & Hb & Ho) Hi Hat Hend P Q s HP HQ. unfold end_of in *. cbn [operands] in *.
  rewrite length_cons, length_app, length_cons, length_app in Hend, HQ.
  rewrite <- app_comm_cons, <- app_assoc, <- app_comm_cons, <- app_assoc in Hat. apply text_at_cons in Hat as [_ Hat].
  assert (at_text (i + 1) (a ++ [32])) as Ha'.
  { apply (text_at_app _ _ (b ++ offset_text o ++ [10])). by rewrite <- app_assoc. }
  apply text_at_app in Hat as [_ Hat]. apply text_at_cons in Hat as [_ Hat].
  unfold do_mount. wp. rewrite (u32_id (i + 1)) by (unfold is_u32; lia). apply (read_name_wp _ a 32); [done|done|lia|done|lia|].
  unfold behind. rewrite (u32_id (i + 1 + _)), (u32_id (i + 1 + _ + 1)) by (unfold is_u32; lia).
  set (p := i + 1 + Z.of_nat (length a) + 1) in *. wp.
  assert (∃ x t, offset_text o ++ [10] = x :: t ∧ in_word x = false) as (x & t & Hxt & Hx).
  { destruct o as [[base ds]|]; [by eexists 32, _|by exists 10, []]. }
  assert (at_text p (b ++ [x])) as Hbx.
  { apply (text_at_app _ _ t). by rewrite <- app_assoc, <- app_comm_cons, app_nil_l, <- Hxt. }
  apply text_at_app in Hat as [_ Hat]. destruct Hb as [Hbw Hbl]. apply (copy_while_wp _ _ b x); try done; try lia.
  - intros k y Hy. pose proof (lookup_lt_Some _ _ _ Hy). rewrite Forall_lookup in Hbw. rewrite (Hbw _ _ Hy).
    rewrite u32_id by (unfold is_u32; lia). by rewrite (proj2 (Z.ltb_lt _ _)) by lia.
  - by rewrite Hx.
  - rewrite u32_id by (unfold is_u32; lia). wp. apply (mount_offset_wp o); [done|lia|done|lia|]. cbn [meaning] in HP. wp.
    rewrite wp_bind in HP. rewrite ?wp_bind. eapply wp_mono; [exact HP|]. cbn beta. intros f s1 HP1.
    set (e := p + Z.of_nat (length b) + Z.of_nat (length (offset_text o))).
    replace (i + Z.of_nat (S (length a + S (length b + length (offset_text o))))) with e in HQ by lia. destruct (f =? 0).
    + wp. autorewrite with wp in HP1. by apply HQ.
    + rewrite wp_bind in HP1. rewrite wp_bind. eapply wp_mono; [exact HP1|]. intros r s2 HP2. autorewrite with wp in HP2. wp. apply HQ; [|done].
      apply text_at_app in Hat as [_ Hat]. apply ends_at_end; [done|lia].
Qed.

Lemma do_exec_runs i p :
  statement_ok (Exec p) → 0 <= i → at_text i (operands (Exec p) ++ [10]) → end_of i (Exec p) < size → runs (do_exec ptr) i (Exec p).
Proof using Hsize.
  intros (Hne & Hp & Hlen) Hi Hat Hend P Q s HP HQ. unfold end_of in *. cbn [operands] in *. rewrite length_cons in Hend, HQ.
  destruct p as [|y p]; [done|]. rewrite <- app_comm_cons in Hat. unfold do_exec. wp.
  pose proof (Forall_cons_1 _ _ _ Hp) as [[Hy _] _].
  apply (scan_wp _ i [32] y); [|by repeat constructor|by apply Z.leb_gt|done|simpl; lia|].
  { apply (text_at_app _ _ (p ++ [10])). by rewrite <- app_assoc. }
  apply text_at_cons in Hat as [_ Hat]. pose proof (text_at_app _ _ _ Hat) as [_ Hnl]. simpl (length [32]). wp.
  apply (copy_while_wp _ _ (y :: p) 10); [done| |done|lia|lia|lia|].
  - intros k z Hz. pose proof (lookup_lt_Some _ _ _ Hz). rewrite Forall_lookup in Hp. destruct (Hp _ _ Hz) as [Hz1 Hz2].
    rewrite (proj2 (Z.ltb_lt _ _) Hz1), (proj2 (Z.eqb_neq _ _) Hz2), (proj2 (Z.ltb_lt _ _)) by lia. done.
  - wp. unfold behind. rewrite u32_id by (unfold is_u32; lia). cbn [meaning] in HP. eapply wp_mono; [exact HP|].
    intros [] s1 HP1. wp. apply HQ; [|done]. replace (i + Z.of_nat (S (length (y :: p)))) with (i + Z.of_nat 1 + Z.of_nat (length (y :: p))) by lia.
    apply ends_at_end; [done|lia].
Qed.

Lemma do_statement_runs i st :
  statement_ok st → 0 <= i → at_text i (operands st ++ [10]) → end_of i st < size →
  runs (do_statement ptr size (keyword st)) i st.
Proof using Hsize.
  intros Hok Hi Hat Hend. unfold do_statement.
  assert (∀ t, operands st = t → text_ok t → at_text i (t ++ [10]) ∧ Forall (λ x, in_line x = true) t) as Htext
    by (intros t <- [_ Ht]; done).
  destruct st as [w t|t c|n|a b o|t|p|].
  - intros P Q s HP HQ. cbn [keyword]. change (default 0 (head (35 :: w)) =? 35) with true. cbn beta iota. wp. destruct Hok as [_ Ht].
    destruct (Htext t eq_refl Ht) as [Htt Hl]. unfold end_of in *. cbn [operands] in *.
    apply (scan_wp in_line i t 10); [done|done|done|done|lia|]. wp. apply HQ; [|done].
    apply ends_at_end; [by apply (text_at_app _ t)|lia].
  - by apply do_echo_runs.
  - by apply do_module_runs.
  - by apply do_mount_runs.
  - intros P Q s HP HQ. cbn. wp. destruct (Htext t eq_refl Hok) as [Htt Hl]. apply HQ; [|done].
    exists t. split_and!; [done|by apply in_line_ne|done|done].
  - by apply do_exec_runs.
  - intros P Q s HP HQ. unfold end_of in HQ. cbn [operands length] in *. rewrite Z.add_0_r in HQ.
    change (wp (do_sysinit i) Q s). unfold do_sysinit. cbn [meaning] in HP. rewrite wp_bind in HP. rewrite wp_bind.
    eapply wp_mono; [exact HP|]. cbn beta. intros c s1 HP1. rewrite wp_bind. eapply wp_mono; [exact HP1|].
    intros [] s2 HP2. wp. apply HQ; [|done]. by apply ends_at_end.
Qed.

Lemma keyword_word st :
  statement_ok st →
  Forall (λ x, in_word x = true) (keyword st) ∧ Z.of_nat (length (keyword st)) < 512 ∧
  is_word (keyword st) "END" = false ∧ ∃ x l, keyword st = x :: l ∧ blank x = false.
Proof using Type.
  intros Hok. destruct st as [w t|t c|n|a b o|t|p|];
    [|split_and!; [by_computation|simpl; lia|done|by eexists _, _]..].
  destruct Hok as [[Hw Hl] _]. cbn [keyword]. split_and!; [by constructor|rewrite length_cons; lia| |by exists 35, w].
  apply bool_decide_eq_false. intros [=].
Qed.
Lemma operands_end st : statement_ok st → ∃ x t, operands st ++ [10] = x :: t ∧ in_word x = false.
Proof using Type.
  intros Hok. assert (∀ t, text_ok t → ∃ x l, t ++ [10] = x :: l ∧ in_word x = false) as Ht.
  { intros t [[->|Hh] _]; [by exists 10, []|]. destruct t as [|x t]; [done|]. injection Hh as ->. by eexists 32, _. }
  destruct st as [w t|t c|n|a b o|t|p|]; cbn [operands]; try (by eexists 32, _).
  - apply Ht, Hok.
  - by apply Ht.
  - by exists 10, [].
Qed.

(** *** Scripts *)

Definition script (ls : list (list Z * statement)) : list Z := concat (line <$> ls).

Lemma interpret_wp statement0 ls x (P : E → Prop) (Q : unit → E → Prop) s :
  Forall line_ok ls → in_word x = false → at_text 0 (script ls ++ bytes_of_string "END" ++ [x]) →
  Z.of_nat (length (script ls)) + 3 <= size → is_word statement0 "END" = false →
  wp (meanings ls) (λ _, P) s → (∀ s', P s' → Q tt s') → wp (interpret ptr size statement0) Q s.
Proof using Hsize.
  intros Hls Hx Hat Hlen Hw HP HQ. unfold interpret.
  apply (wp_loop (λ '(i, w) s', ∃ pre ls', Forall (λ y, blank y = true) pre ∧ Forall line_ok ls' ∧ 0 <= i ∧
    at_text i (pre ++ script ls' ++ bytes_of_string "END" ++ [x]) ∧
    i + Z.of_nat (length (pre ++ script ls')) + 3 <= size ∧ is_word w "END" = false ∧ wp (meanings ls') (λ _, P) s')
    (λ '(i, _) _, size - i)).
  - exists [], ls. split_and!; [by constructor|done|done|done|simpl; lia|done|done].
  - unfold fuel32. lia.
  - intros [i w] s' (pre & ls' & ? & ? & ? & ? & ? & _). lia.
  - intros [i w] s1 (pre & ls' & Hpre & Hls' & Hi & Ht & Hb & -> & HP1). rewrite length_app in Hb.
    destruct ls' as [|[ws st] ls'].
    + wp. cbn [script fmap list_fmap concat app length] in *.
      assert (at_text i (pre ++ [69])) as Hpt.
      { apply (text_at_app _ _ ([78; 68] ++ [x])). by rewrite <- app_assoc. }
      apply text_at_app in Ht as [_ Ht]. apply (scan_wp blank i pre 69); [done|done|done|done|lia|]. wp.
      apply (copy_while_wp _ _ (bytes_of_string "END") x); [done| |done|by cbn|lia|cbn; lia|].
      * intros k y Hy. apply (proj1 (Forall_lookup (λ y, in_word y = true) (bytes_of_string "END"))) with (2 := Hy). by_computation.
      * wp. cbn. autorewrite with wp in HP1. wp. by apply HQ.
    + apply Forall_cons_1 in Hls' as [[Hws Hst] Hls']. cbn [fst snd] in Hws, Hst.
      destruct (keyword_word st Hst) as (Hkw & Hkl & Hke & y & kw & Hky & Hyb). destruct (operands_end st Hst) as (z & t & Hzt & Hz).
      change (script ((ws, st) :: ls')) with ((ws ++ keyword st ++ operands st ++ [10]) ++ script ls') in *.
      rewrite !length_app in Hb. cbn [length] in Hb. rewrite <- !app_assoc, app_assoc in Ht. cbn [meanings] in HP1.
      assert (at_text i ((pre ++ ws) ++ [y])) as Hyt.
      { rewrite Hky in Ht. rewrite <- app_comm_cons in Ht. eapply text_at_app. rewrite <- app_assoc. exact Ht. }
      pose proof (text_at_app _ _ _ Ht) as [_ Ht1]. rewrite length_app in Ht1.
      assert (at_text (i + Z.of_nat (length pre + length ws)) (keyword st ++ [z])) as Hkt.
      { rewrite (app_assoc (operands st)), Hzt, <- app_comm_cons in Ht1. eapply text_at_app. rewrite <- app_assoc. exact Ht1. }
      pose proof (text_at_app _ _ _ Ht1) as [_ Ht2]. pose proof Ht2 as Ht3. rewrite app_assoc in Ht3.
      pose proof (text_at_app _ _ _ Ht2) as [_ Ht5]. apply text_at_app in Ht3 as [Ht3 Ht4]. rewrite length_app in Ht4.
      wp. apply (scan_wp blank i (pre ++ ws) y); rewrite ?length_app; [done|by apply Forall_app|done|done|lia|]. wp.
      set (j := i + Z.of_nat (length pre + length ws)) in *.
      apply (copy_while_wp _ _ (keyword st) z); [done| |done|done|lia|lia|].
      { intros k c Hc. rewrite Forall_lookup in Hkw. by eapply Hkw. }
      wp. unfold behind. rewrite u32_id by (unfold is_u32; lia). rewrite wp_bind in HP1.
      assert (1 <= length (keyword st))%nat by (rewrite Hky; simpl; lia).
      assert (0 <= j + Z.of_nat (length (keyword st))) as Hj0 by lia.
      apply (do_statement_runs _ st Hst Hj0 Ht3) with (P := λ s', wp (meanings ls') (λ _, P) s');
        [unfold end_of; lia|exact HP1|]. unfold end_of.
      set (e := j + Z.of_nat (length (keyword st)) + Z.of_nat (length (operands st))) in *.
      intros [k|k|] s2 Hr HP2; cbn [ends_at] in Hr; [| |done].
      * destruct Hr as (l & Hlt & Hl & Hk & Hke'). wp. apply (skip_line_wp k l); [done|done|lia|lia|done|]. wp.
        split; [|lia]. exists [], ls'. split_and!; [by constructor|done|lia| |rewrite app_nil_l; lia|done|done].
        rewrite app_nil_l, Hke'. replace (e + 1) with (j + Z.of_nat (length (keyword st)) + Z.of_nat (length (operands st) + length [10])) by (simpl; lia). done.
      * subst k. wp. split; [|lia]. exists [10], ls'. split_and!; [by repeat constructor|done|lia|done|rewrite length_app; simpl; lia|done|done].
Qed.
End reading.

(** C36: the interpreter runs a script as its lines say.  For a script of lines that
    fit into the buffers, in front of [END], the calls made of the rest of the
    kernel are those of the lines, in order and with their operands (the name of
    a module, the source, the target and the offset of a mount in each of the
    three bases); a module or a device that is not there does not stop it. *)
Theorem initrc_read_runs_script {E} `{InitrcEnv E} ptr size statement0 ls x (s s' : E) :
  Forall line_ok ls → in_word x = false → text_at ptr 0 (script ls ++ bytes_of_string "END" ++ [x]) →
  Z.of_nat (length (script ls)) + 3 <= size < 2 ^ 32 → is_word statement0 "END" = false →
  meanings ls s = Ok (tt, s') → initrc_read (Some (ptr, size)) statement0 s = Ok (tt, s').
Proof.
  intros Hls Hx Hat Hsize Hw Hrun.
  assert (wp (interpret ptr size statement0) (λ _ s1, s1 = s') s) as Hwp.
  { apply (interpret_wp ptr size (proj2 Hsize) statement0 ls x (λ s1, s1 = s')); [done|done|done|lia|done| |by intros s1 ->].
    unfold wp. by rewrite Hrun. }
  apply wp_unit in Hwp as (s1 & Hr & <-). exact Hr.
Qed.

(** A kernel that writes down what it is asked for. *)
Inductive request :=
  | Printed (t : list Z) | Opened (n : list Z) | Started (f : Z) | Mounted (f : Z) (d : list Z) (o : Z)
  | Executed (p : list Z) | HeapOf (n : Z).
Definition recorder : Type := kernel_config * list request.
Definition record_request (r : request) : M recorder unit := modify (λ s, (s.1, s.2 ++ [r])).
#[export, refine] Instance recorder_env : InitrcEnv recorder := {|
  ie_config := {| view := fst; put c s := (c, s.2) |};
  env_printf t := record_request (Printed t);
  env_fopen n := record_request (Opened n);; mret (Z.of_nat (length n));
  env_module_start f := record_request (Started f);
  env_mount_fs f d o := record_request (Mounted f d o);; mret 0;
  env_exec p := record_request (Executed p);
  env_heap_init n := record_request (HeapOf n);
|}.
Proof. all: done || by intros []. Defined.

Definition example_lines : list (list Z * statement) := [
  ([], Comment (bytes_of_string "boot") (bytes_of_string " script"));
  ([10; 9], LoadModule (bytes_of_string "/boot/ata.ko"));
  ([], Mount (bytes_of_string "/dev/p0") (bytes_of_string "/") (Some (16, [1; 15])));
  ([], Sysinit);
  ([], Exec (bytes_of_string "/bin/sh"))].
Definition example_script : list Z := script example_lines ++ bytes_of_string "END" ++ [10].
Definition example_start : recorder := (KernelConfig 8388608 0 0 0 0 0 0, []).

Lemma initrc_read_runs_script_witness :
  initrc_read (Some (λ i, nth (Z.to_nat i) example_script 0, 100)) [] example_start =
    Ok (tt, (example_start.1, [Opened (bytes_of_string "/boot/ata.ko"); Started 12;
      Opened (bytes_of_string "/dev/p0"); Mounted 7 (bytes_of_string "/") 31;
      HeapOf 8388608; Executed (bytes_of_string "/bin/sh")])).
Proof.
  apply (initrc_read_runs_script _ _ _ example_lines 10).
  - assert (∀ w, bool_decide (word_ok w) = true → word_ok w) as Hword by (intros w Hw; by apply bool_decide_eq_true in Hw).
    repeat apply Forall_cons_2; try apply Forall_nil_2; (split; [by_computation|]).
    + split; [by apply Hword|split; [by right|by_computation]].
    + by apply Hword.
    + split; [by apply Hword|]. split; [by apply Hword|]. split_and!; try by_computation; done.
    + done.
    + split_and!; [done|by_computation|by vm_compute].
  - reflexivity.
  - intros k y Hk. apply nth_lookup_Some with (d := 0) in Hk. rewrite <- Hk. f_equal. lia.
  - by vm_compute.
  - reflexivity.
  - vm_compute. reflexivity.
Defined.
