(* ===== verification/Threads.v ===== *)
(** * Kernel threads (src/src/kernel/system/scheduler.c: thread_start)

    Starting a thread takes a stack and a table of descriptors from [kmalloc], puts the
    frame from which the thread is resumed on the stack, and queues it. *)
From S2P Require Import Prelude PhysMem Paging Heap Kmalloc KBytes MemInv Scheduler.

(** Room for [m] more pages, and frames for [r] more pages and tables. *)
Record memory_room (s : kmem) (m : Z) (r : nat) : Prop := {
  mr_ready : kready s;
  mr_fits : ∃ i, kfits (km_pg s) m i;
  mr_avail : avail (pg_pm (km_pg s)) r;
}.

(** The frame of [regs] lies at the address that its [esp] holds. *)
Record frame_on (p : paging) (regs : cpu_registers) (n f fl o : Z) : Prop := {
  fo_page : on_frame p n f fl;
  fo_range : 0 <= o ∧ o + sizeof_regs <= 4096 ∧ o mod 4 = 0;
  fo_esp : esp regs = n * 4096 + o;
  fo_words i : 0 <= i < 19 → kword p f (o + 4 * i) = default 0 (regs_words regs !! Z.to_nat i);
}.
Definition frame_stored (p : paging) (regs : cpu_registers) : Prop := ∃ n f fl o, frame_on p regs n f fl o.

(** ** What a call leaves of the memory *)

(** Mapped pages stay where they are, and what lies on them stays. *)
Record pages_kept (p p' : paging) : Prop := {
  pk_frames : frames_kept p p';
  pk_entry n : 0 < n / 1024 < 1023 → ¬ free_page p n → entry p' n = entry p n;
}.
#[export] Instance pages_kept_preorder : PreOrder pages_kept.
Proof.
  split; [by split|]. intros p1 p2 p3 [H12 E12] [H23 E23]. split; [by etransitivity|].
  intros n Hn Hnz. rewrite E23, E12; [done..|]. unfold free_page in *. by rewrite E12.
Qed.

Lemma on_frame_not_free p n f fl : on_frame p n f fl → ¬ free_page p n.
Proof.
  intros [_ He Hp Hfl (Hf & _)]. unfold free_page. rewrite He. intros Hz.
  assert (Z.testbit (Z.land (Z.lor (f * PAGE_SIZE_BYTES) fl) 0xfff) 0 = true) as Hb; [|by rewrite Hz in Hb].
  rewrite Z.land_spec, Z.lor_spec, Hp. by rewrite orb_true_r.
Qed.
Lemma on_frame_kept p p' n f fl : pages_kept p p' → on_frame p n f fl → on_frame p' n f fl ∧ same_words p p' f.
Proof.
  intros [Hf He] Hon. pose proof (on_frame_not_free _ _ _ _ Hon) as Hnf. destruct Hon as [Hs Hen Hp Hfl (Hr & Hu & Hd)].
  destruct (Hf f Hu) as [Hu' Hd']. destruct (Hd' Hd) as [Hd'' Hw]. split; [|done]. split; try done. by rewrite He.
Qed.
Lemma frame_kept p p' regs : pages_kept p p' → frame_stored p regs → frame_stored p' regs.
Proof.
  intros Hk (n & f & fl & o & [Hon Ho Hesp Hw]). destruct (on_frame_kept _ _ _ _ _ Hk Hon) as [Hon' Hsame].
  exists n, f, fl, o. split; try done. intros i Hi. unfold kword. unfold sizeof_regs in Ho.
  assert (∃ k, 0 <= k < 1024 ∧ o + 4 * i = 4 * k) as (k & Hk' & E).
  { exists (o / 4 + i). Z.to_euclidean_division_equations. lia. }
  rewrite E, Hsame by done. rewrite <- E. by apply Hw.
Qed.

Lemma kmapped_pages_kept p i n fs p' : kfits p n i → kmapped p i n n fs p' → pages_kept p p'.
Proof.
  intros (Hi & Hin & Hfree) Hm. split; [apply (kp_kept _ _ _ _ _ _ Hm)|].
  intros k Hk Hnf. apply (kp_other _ _ _ _ _ _ Hm); [done|]. intros Hr. apply Hnf.
  specialize (Hfree (k - i) ltac:(lia)). by replace (i + (k - i)) with k in Hfree by lia.
Qed.
(** Writing to a frame that was not in use before. *)
Lemma data_step_pages_kept p p1 p2 f :
  pages_kept p p1 → used (pg_pm p) f = false → data_step p1 p2 (eq f) → pages_kept p p2.
Proof.
  intros [Hf He] Hu Hst. split.
  - intros g Hg. destruct (Hf g Hg) as [Hg1 Hd1]. rewrite (ds_pm _ _ _ Hst). split; [done|]. intros Hd.
    destruct (Hd1 Hd) as [Hd2 Hw]. split; [by apply (ds_frame _ _ _ Hst)|]. intros k Hk.
    rewrite (ds_words _ _ _ Hst g) by congruence. by apply Hw.
  - intros n Hn Hnf. rewrite (ds_entry _ _ _ Hst) by done. by apply He.
Qed.

(** ** The calls *)

Lemma kmalloc_room_wp s n m r (Q : Z → kmem → Prop) :
  memory_room s (n + m) (2 * Z.to_nat n + r) → 1 <= n → 0 <= m →
  (∀ i fs p, kmapped (km_pg s) i n n fs p → kplaced p i n fs → pages_kept (km_pg s) p → memory_room (put p s) m r →
     Q (i * 4096) (put p s)) →
  wp (kmalloc n) Q s.
Proof.
  intros [Hr [i0 Hfit] Hav] Hn Hm HQ. apply (kmalloc_avail_wp s n r); [done|done| |done|].
  { exists i0. destruct Hfit as (? & ? & Hf). split_and!; [lia|lia|]. intros j Hj. apply Hf. lia. }
  intros i fs p Hi Hmin Hmp Hav'. apply (HQ i fs p); [done| |by eapply kmapped_pages_kept|].
  - destruct Hi as (? & ? & _). by eapply kmapped_placed.
  - destruct Hr as [Hwf Hh Hl]. split; [by split; [apply Hmp| |]| |done]. exists (i0 + n). by eapply kfits_after.
Qed.

Lemma data_step_room s p P m r :
  memory_room s m r → data_step (km_pg s) p P → memory_room (put p s) m r.
Proof.
  intros [[Hwf Hh Hl] [i (Hi & Hin & Hfree)] Hav] Hst. split; [split; [apply Hst|done|done]| |].
  - exists i. split_and!; [lia|lia|]. intros j Hj. unfold free_page. cbn [put kmem_paging km_pg].
    rewrite (ds_entry _ _ _ Hst); [by apply Hfree|]. apply kpage_slot. unfold kpage. lia.
  - cbn [put kmem_paging km_pg]. by rewrite (ds_pm _ _ _ Hst).
Qed.

Lemma store_regs_wp s n f fl o regs (Q : unit → kmem → Prop) :
  pg_wf (km_pg s) → on_frame (km_pg s) n f fl → 0 <= o → o + sizeof_regs <= 4096 → o mod 4 = 0 → 0 <= n → n * 4096 + 4096 <= 2 ^ 32 →
  (∀ p, data_step (km_pg s) p (eq f) → (∀ i, 0 <= i < 19 → kword p f (o + 4 * i) = default 0 (regs_words regs !! Z.to_nat i)) →
     Q tt (put p s)) →
  wp (store_regs (n * 4096 + o) regs) Q s.
Proof.
  intros Hwf Hon Ho Ho' Hal Hn0 Hlim HQ. unfold store_regs, sizeof_regs in *.
  apply (wp_for_all (λ k s', ∃ p, s' = put p s ∧ data_step (km_pg s) p (eq f) ∧
    ∀ i, 0 <= i < k → kword p f (o + 4 * i) = default 0 (regs_words regs !! Z.to_nat i))); [lia| | |].
  - exists (km_pg s). split_and!; [by destruct s|by apply data_step_refl|lia].
  - intros k ? Hk (p & -> & Hst & Hw). rewrite u32_id by (unfold is_u32; lia). rewrite <- Z.add_assoc.
    apply (kwrite32_wp _ f _ (o + 4 * k)).
    { apply (on_frame_walk _ _ _ fl); [apply Hst|by eapply data_step_on_frame|lia]. }
    cbn [put kmem_paging km_pg]. set (x := default 0 _). exists (wr (f * PAGE_SIZE_BYTES + (o + 4 * k)) x p).
    split; [by destruct s|]. assert (o + 4 * k = 4 * (o / 4 + k)) as E by (Z.to_euclidean_division_equations; lia). split.
    + eapply data_step_trans; [exact Hst|]. rewrite E. apply wr_data; [apply Hst|apply (ds_frame _ _ _ Hst), Hon|].
      Z.to_euclidean_division_equations; lia.
    + intros i Hi. unfold kword, wr. cbn [phys set_phys]. rewrite zget_insert. destruct (decide (i = k)) as [->|Hne].
      * by rewrite decide_True.
      * rewrite decide_False by lia. apply Hw. lia.
  - intros ? (p & -> & Hst & Hw). by apply HQ.
Qed.

(** The registers a thread begins with, on a stack whose frame is at [sp]. *)
Definition thread_regs (function sp : Z) : cpu_registers :=
  Regs 0 0 0x18 0x18 0 0 sp sp 0 0 0 0 0 0 function 0x10 0x202 0 0x18.

(** Thread [pid] is ready to run [function]: present, a child of process [parent_pid], in the
    kernel's page directory, and resumed from a frame on its stack. *)
Record thread_ready (s : sched) (pid function parent_pid : Z) : Prop := {
  tr_present : present (flags (proc s pid)) = 1;
  tr_regs : cpuregs (proc s pid) = thread_regs function (esp0 (proc s pid));
  tr_dir : page_dir (proc s pid) = 0x10000;
  tr_parent : parent (proc s pid) = parent_pid;
  tr_frame : frame_stored (km_pg (sc_km s)) (cpuregs (proc s pid));
}.

(** What starting a thread does to the scheduler and to the memory. *)
Record thread_started (q : list Z) (s : sched) (function : Z) (m : Z) (r : nat) (pid : Z) (s' : sched) : Prop := {
  ts_range : 0 <= pid < PROCESS_COUNT;
  ts_slot : first_free s (current_pid s) pid;
  ts_runq : runq (q ++ [pid]) s';
  ts_thread : thread_ready s' pid function (current_pid s);
  ts_other x : x ≠ pid → proc s' x = proc s x;
  ts_current : current_pid s' = current_pid s;
  ts_index : current_queue_index s' = current_queue_index s;
  ts_pages : pages_kept (km_pg (sc_km s)) (km_pg (sc_km s'));
  ts_room : memory_room (sc_km s') m r;
}.

Lemma thread_start_wp q function m r (Q : Z → sched → Prop) s :
  runq q s → Z.of_nat (length q) < PROCESS_COUNT → 0 <= current_pid s < PROCESS_COUNT →
  (∃ x, 0 <= x < PROCESS_COUNT ∧ slot_free s x) →
  memory_room (sc_km s) (8 + (1 + m)) (16 + (2 + r)) → 0 <= m →
  (∀ pid s', thread_started q s function m r pid s' → Q pid s') →
  wp (thread_start function) Q s.
Proof.
  intros Hr Hmax Hcur (x & Hx & Hxf) Hroom Hm HQ. unfold thread_start. rewrite wp_bind, wp_zoom.
  change (view s) with (sc_km s). apply (kmalloc_room_wp _ 8 (1 + m) (2 + r)); [exact Hroom|lia|lia|].
  intros i fs p Hmp Hpl Hkept Hroom1.
  destruct (lookup_lt_is_Some_2 fs 7) as [f Hf]; [pose proof (kp_len _ _ _ _ _ _ Hmp); lia|].
  pose proof (kplaced_on _ _ _ _ _ _ Hpl Hf) as Hon. change (Z.of_nat 7) with 7 in Hon.
  assert (0xc0000 <= i ∧ i + 8 <= 1023 * 1024) as [Hi Hin] by (by destruct Hpl).
  assert (used (pg_pm (km_pg (sc_km s))) f = false) as Hfu by (apply (kp_frame _ _ _ _ _ _ Hmp f); by eapply list_elem_of_lookup_2).
  assert (u32 (i * 4096 + PAGE_SIZE_BYTES * 8 - 4 - sizeof_regs) = (i + 7) * 4096 + 4016) as ->.
  { unfold PAGE_SIZE_BYTES, sizeof_regs. rewrite u32_id by (unfold is_u32; lia). lia. }
  set (sp := (i + 7) * 4096 + 4016). cbv zeta. fold (thread_regs function sp). set (regs := thread_regs function sp).
  rewrite wp_bind, wp_zoom. cbn [view sched_kmem]. change (sc_km (put (put p (sc_km s)) s)) with (put p (sc_km s)).
  apply (store_regs_wp _ (i + 7) f (link_flags 7 8) 4016); [apply Hpl|exact Hon|lia|by unfold sizeof_regs|done|lia|lia|].
  intros p2 Hst Hw. change (km_pg (put p (sc_km s))) with p in Hst.
  assert (pages_kept (km_pg (sc_km s)) p2) as Hkept2 by (by eapply data_step_pages_kept).
  pose proof (data_step_room _ _ _ _ _ Hroom1 Hst) as Hroom2. change (put p2 (put p (sc_km s))) with (put p2 (sc_km s)) in *.
  assert (frame_stored p2 regs) as Hstored.
  { exists (i + 7), f, (link_flags 7 8), 4016. split; [by eapply data_step_on_frame|by unfold sizeof_regs|done|done]. }
  set (km2 := put p2 (sc_km s)) in *. set (s2 := put km2 s).
  change (put km2 (put (put p (sc_km s)) s)) with s2. rewrite wp_bind.
  assert (wp (kmalloc 1) (λ _ km3, pages_kept (km_pg km2) (km_pg km3) ∧ memory_room km3 m r) km2) as Hfds.
  { apply (kmalloc_room_wp _ 1 m r); [exact Hroom2|lia|done|]. intros i' fs' p3 _ _ Hk3 Hr3. by split. }
  apply wp_ok in Hfds as (fds & km3 & Hrun & Hk3 & Hroom3).
  assert (runq q s2) as Hr2 by (by apply (runq_same q s)).
  apply (spawn_wp q regs 0 0 0x10000 fds km3); [done|done|done|exact Hrun| |].
  2: { intros Hno. destruct (Hno x Hx). exact Hxf. }
  intros pid s3 Hpid Hfirst Hr3 Hkm3 Hc3 Hi3 Hproc. change (current_pid s2) with (current_pid s) in *.
  wp. apply update_proc_wp; [done|]. wp. apply update_proc_wp; [done|]. wp.
  rewrite Hc3. set (p3 := Process _ _ _ _ _ _ _ _ _ _ _ _ _ _ _) in Hproc.
  set (s4 := set_processes _ s3). set (s5 := set_processes _ s4).
  assert (∀ y, proc s5 y = if decide (pid = y) then set_esp0 sp (set_parent (current_pid s) p3) else proc s y) as Hp5.
  { assert (∀ y, proc s4 y = if decide (pid = y) then set_parent (current_pid s) p3 else proc s y) as Hp4.
    { intros y. unfold s4. rewrite proc_insert, !Hproc, (decide_True (P := pid = pid)) by done. by case_decide. }
    intros y. unfold s5. rewrite proc_insert, !Hp4, (decide_True (P := pid = pid)) by done. by case_decide. }
  apply HQ. split.
  - done.
  - exact Hfirst.
  - by apply (runq_same _ s3).
  - split; rewrite ?Hp5, ?decide_True by done; try done. change (sc_km s5) with (sc_km s3). rewrite Hkm3.
    apply (frame_kept p2); [exact Hk3|exact Hstored].
  - intros y Hy. by rewrite Hp5, decide_False.
  - done.
  - done.
  - change (sc_km s5) with (sc_km s3). rewrite Hkm3. etransitivity; [exact Hkept2|exact Hk3].
  - change (sc_km s5) with (sc_km s3). by rewrite Hkm3.
Qed.

(** The pages of the table of processes. *)
Definition process_pages : Z := (PROCESS_COUNT * sizeof_process + 4095) / 4096.

(** The scheduler before the first thread: nobody queued, every slot of the table free. *)
Record no_threads (s s' : sched) (m : Z) (r : nat) : Prop := {
  nt_runq : runq [] s';
  nt_current : current_pid s' = 0;
  nt_index : current_queue_index s' = 0;
  nt_free i : 0 <= i < PROCESS_COUNT → slot_free s' i;
  nt_pages : pages_kept (km_pg (sc_km s)) (km_pg (sc_km s'));
  nt_room : memory_room (sc_km s') m r;
}.

Lemma scheduler_init_wp m r (Q : unit → sched → Prop) s :
  memory_room (sc_km s) (process_pages + m) (2 * Z.to_nat process_pages + r) → 0 <= m →
  (∀ s', no_threads s s' m r → Q tt s') → wp scheduler_init Q s.
Proof.
  intros Hroom Hm HQ. unfold scheduler_init. fold process_pages. rewrite wp_bind, wp_zoom. change (view s) with (sc_km s).
  apply (kmalloc_room_wp _ process_pages m r); [exact Hroom|by vm_compute|done|].
  intros i fs p _ _ Hk Hr. set (km := put p (sc_km s)). set (s1 := put km s). rewrite wp_bind.
  apply (wp_for_all (λ k s', sc_km s' = km ∧ ∀ j, 0 <= j < k → slot_free s' j)); [done| | |].
  - split; [done|lia].
  - intros k s' Hk' [Hkm Hf]. rewrite wp_bind. apply update_proc_wp; [done|]. cbv beta. apply queue_write_wp; [done|].
    split; [done|]. intros j Hj. unfold slot_free. set (s3 := set_processes _ s'). change (proc (set_queue _ s3) j) with (proc s3 j).
    unfold s3. rewrite proc_insert. case_decide as Hkj; [done|]. apply Hf. lia.
  - intros s' [Hkm Hf]. wp. apply HQ. set (sf := set_proc_lock false _).
    assert (sc_km sf = km) as Hsf by exact Hkm. split; try done.
    + split; try done. intros x Hx. by apply elem_of_nil in Hx.
    + by rewrite Hsf.
    + by rewrite Hsf.
Qed.
