(* ===== verification/Kmain.v ===== *)
(** * Start-up (src/src/kernel/kmain.c: kmain)

    The whole kernel as one state, and [kmain] as the calls into its parts, in the order
    of the source, up to the endless loop at its end.  What [kmain] and
    [ramfs_init] print goes through the log and the serial port; what [pm_init] prints is
    left out, as in its own file. *)
From stdpp Require Import strings.
From S2P Require Import Prelude Device RamFS KString PhysMem Paging Heap Kmalloc KBytes Boot Scheduler Threads Ports Serial Initrc Interrupts.

(** The console: the arrays of serial.c, and the memory in which strings lie. *)
Record console := Console {
  cn_mem : memory; cn_ports : gmap Z Z; cn_buffer : gmap Z Z; cn_index : gmap Z Z;
}.
Record kernel := Kernel {
  k_config : kernel_config;
  k_intr : intr;
  k_console : console;
  k_fs : RamFS.fs;
  k_boot_info : Z;
  k_interrupts : bool;
}.

#[export, refine] Instance kernel_lens_config : Lens kernel kernel_config := {|
  view := k_config; put x s := Kernel x (k_intr s) (k_console s) (k_fs s) (k_boot_info s) (k_interrupts s) |}.
Proof. all: done || by intros []. Defined.
#[export, refine] Instance kernel_lens_intr : Lens kernel intr := {|
  view := k_intr; put x s := Kernel (k_config s) x (k_console s) (k_fs s) (k_boot_info s) (k_interrupts s) |}.
Proof. all: done || by intros []. Defined.
#[export, refine] Instance kernel_lens_fs : Lens kernel RamFS.fs := {|
  view := k_fs; put x s := Kernel (k_config s) (k_intr s) (k_console s) x (k_boot_info s) (k_interrupts s) |}.
Proof. all: done || by intros []. Defined.
#[export, refine] Instance kernel_lens_serial : Lens kernel serial := {|
  view s := Serial (it_ports (k_intr s)) (cn_mem (k_console s)) (cn_ports (k_console s)) (cn_buffer (k_console s)) (cn_index (k_console s));
  put x s := Kernel (k_config s) (put (sr_io x) (k_intr s)) (Console (sr_mem x) (com_ports x) (com_buffer x) (com_buffer_index x))
               (k_fs s) (k_boot_info s) (k_interrupts s) |}.
Proof.
  - by intros [] s.
  - done.
  - by intros [c [] [] f b i].
Defined.

Definition k_sched {A} (m : M sched A) : M kernel A := zoom (T := intr) (zoom m).
Definition k_mem {A} (m : M kmem A) : M kernel A := k_sched (zoom m).
Definition k_files {A} (m : M RamFS.fs A) : M kernel A := zoom m.

Definition vfs_init : M RamFS.fs unit := modify (set_vlock false).
Definition enable_interrupts : M kernel unit := modify (λ s,
  Kernel (k_config s) (k_intr s) (k_console s) (k_fs s) (k_boot_info s) true).

Definition line_feed : string := String (Ascii.ascii_of_nat 10) EmptyString.
Definition used_memory_text (phase : string) : string := "Used memory after " ++ phase ++ " setup: %x" ++ line_feed.

(** A global of memory.c that nothing assigns. *)
Definition memory_limit : Z := 0.

Section kmain.
(** The hardware, the locals and the literals of the printing functions, the addresses of
    the entry points and of the two threads, and what the file system is given. *)
Variable device : ports → Z → Z → Z.
Variable frame : nat → Z.
Variable literal : string → Z.
Variable isr : Z → Z.
Variables (irq0 irq1 syscall_stub : Z) (schedule_code pid0 sysinit : Z).
Variable can_alloc : Z → RamFS.fs → bool.
Variable junk : Z → list Z.
Variable mount_rfopen : list Z → Z → RamFS.fs → Z.
Variable mount_create : Z → list Z → Z → M RamFS.fs Z.
Notation fcreate := (fcreate can_alloc junk mount_rfopen mount_create).

Definition k_mlog (module text : string) : M kernel unit :=
  zoom (T := serial) (mlog frame literal (literal module) (literal text) MLOG_PRINT []).
Definition empty_root_dir : M RamFS.fs unit :=
  v ← get_vfile root_dir;
  modify (set_vfile root_dir (with_private 0 0 v)).
Definition ramfs_init : M kernel unit :=
  k_mlog "RAMFS" ("Initializing VFS" ++ line_feed);;
  k_files empty_root_dir.
Definition report (phase : string) : M kernel unit :=
  n ← k_mem (kpm (get_used_memory memory_limit));
  zoom (T := serial) (printf frame literal (literal (used_memory_text phase)) [n]).

(** The directories that [kmain] makes. *)
Definition make_directories : M RamFS.fs unit :=
  _ ← fcreate (bytes_of_string "/tmp") FS_FILE_IS_DIR;
  _ ← fcreate (bytes_of_string "/dev") FS_FILE_IS_DIR;
  _ ← fcreate (bytes_of_string "/boot") FS_FILE_IS_DIR;
  _ ← fcreate (bytes_of_string "/dev/disk") FS_FILE_IS_DIR;
  skip.

(** The machine, the files, and the threads. *)
Definition start_machine (mmap : list mmap_entry) (start : Z) : M kernel unit :=
  zoom (T := kernel_config) config_init;;
  zoom (T := serial) serial_init;;
  _ ← k_mem (pm_init mmap start);
  ramfs_init;;
  k_mlog "KERNEL" ("Initializing IDT" ++ line_feed);;
  zoom (T := intr) (idt_load isr irq0 irq1 syscall_stub);;
  zoom (T := intr) (pic_init device 0x20);;
  zoom (T := intr) (pic_setmask 0 PIC1_DATA);;
  zoom (T := intr) (pic_setmask 0 PIC2_DATA);;
  report "PIC".
Definition start_files : M kernel unit :=
  k_files vfs_init;;
  k_files make_directories;;
  report "VFS".
Definition start_threads (kernel_info : Z) : M kernel unit :=
  k_mlog "KERNEL" ("Initializing Scheduler & starting PID 1" ++ line_feed);;
  modify (λ s, Kernel (k_config s) (k_intr s) (k_console s) (k_fs s) kernel_info (k_interrupts s));;
  k_sched scheduler_init;;
  zoom (T := intr) (install_irq_handler schedule_code 0);;
  report "Scheduler";;
  _ ← k_sched (thread_start pid0);
  _ ← k_sched (thread_start sysinit);
  enable_interrupts.

Definition kmain (kernel_info : Z) (mmap : list mmap_entry) (start : Z) : M kernel unit :=
  start_machine mmap start;;
  start_files;;
  start_threads kernel_info.
End kmain.

(** ** Memory *)

(** What the threads of [kmain] take: the table of processes, two stacks and two tables of
    descriptors; and the frames for them, with one for the page table of each page. *)
Definition boot_pages : Z := process_pages + (8 + (1 + (8 + (1 + 0)))).
Definition boot_frames : nat := 2 * Z.to_nat process_pages + (16 + (2 + (16 + (2 + 0)))).

(** The firmware gives a run of frames behind those that [pm_init] keeps from the page of its
    start word on, and the kernel's tables leave a run of pages. *)
Record boot_budget (s : paging) (mmap : list mmap_entry) (k n lo : Z) : Prop := {
  bb_pages : ∃ i, kfits s boot_pages i;
  bb_lo : 512 <= lo ∧ lo + Z.of_nat boot_frames <= frames;
  bb_behind f : run_frame s k n f → f < lo;
  bb_freed f : lo <= f < lo + Z.of_nat boot_frames → freed mmap f;
}.

Lemma NoDup_seqZ a n : NoDup (seqZ a n).
Proof. unfold seqZ. apply NoDup_fmap_2; [|apply NoDup_seq]. intros i j. lia. Qed.

Lemma budget_room s p mmap k n lo :
  boot_budget (km_pg s) mmap k n lo → kready (booted s p) → hint_low (km_pg s) k n p →
  (∀ f, 0 <= f < frames → used p f = false ↔ 512 <= f ∧ freed mmap f ∧ ¬ run_frame (km_pg s) k n f) →
  memory_room (booted s p) boot_pages boot_frames.
Proof.
  intros [[i Hi] [Hlo Hhi] Hbeh Hfr] Hr Hh Hu. split; [done|by exists i|].
  change (pg_pm (km_pg (booted s p))) with p. exists (seqZ lo (Z.of_nat boot_frames)). split_and!.
  - apply NoDup_seqZ.
  - rewrite length_seqZ. lia.
  - apply Forall_forall. intros f Hf%elem_of_seqZ. split.
    + split; [|lia]. destruct Hh as [Hh|(g & Hg & Hh)]; [lia|]. specialize (Hbeh g Hg). lia.
    + apply Hu; [lia|]. split_and!; [lia|by apply Hfr|]. intros Hk. specialize (Hbeh f Hk). lia.
Qed.

(** ** Files *)

(** The root directory as the linker lays it out, and no other file. *)
Record fs_start (s : RamFS.fs) : Prop := {
  fst_files : ∃ rc pr sz bs, vfiles s = {[root_dir := VFile [47] 0x14 ramfs_ops rc pr sz bs]};
  fst_blocks : blocks s = ∅;
  fst_brk : root_dir < RamFS.brk s;
}.

Definition name_of (t : string) : list Z := bytes_of_string t.
Definition boot_paths : list (list (list Z)) := [[name_of "tmp"]; [name_of "dev"]; [name_of "boot"]; [name_of "dev"; name_of "disk"]].

(** The directories of [kmain] exist. *)
Record files_ready (s : RamFS.fs) : Prop := {
  fr_ok : fs_ok s;
  fr_lock : RamFS.vfs_lock s = false;
  fr_dirs : Forall (λ cs, ∃ d, dir_path s root_dir cs d) boot_paths;
}.

(** An empty root directory. *)
Record empty_root (s : RamFS.fs) : Prop := {
  er_ok : fs_ok s;
  er_root : dir_path s root_dir [] root_dir;
  er_entry nm : entry_of s root_dir nm = 0;
  er_count : entry_count s root_dir = 0;
}.

Lemma empty_root_dir_wp (Q : unit → RamFS.fs → Prop) s :
  fs_start s → (∀ s', empty_root s' → Q tt s') → wp empty_root_dir Q s.
Proof.
  intros [(rc & pr & sz & bs & Hf) Hb Hbrk] HQ. destruct s as [files blks b lk]. cbn in Hf, Hb, Hbrk. subst files blks.
  unfold empty_root_dir. rewrite wp_bind.
  apply (wp_get_vfile _ (VFile [47] 0x14 ramfs_ops rc pr sz bs)); [exact (lookup_singleton_eq root_dir _)|]. rewrite wp_modify.
  set (v := VFile [47] 0x14 ramfs_ops rc 0 0 bs).
  assert (vfiles (set_vfile root_dir v (FS {[root_dir := VFile [47] 0x14 ramfs_ops rc pr sz bs]} ∅ b lk)) = {[root_dir := v]}) as Hv.
  { cbn [vfiles set_vfile]. apply insert_singleton_eq. }
  assert (fs_ok (FS {[root_dir := v]} ∅ b lk)) as Hok.
  { apply fs_ok_empty; [unfold root_dir in Hbrk; lia|]. apply map_Forall_singleton. split_and!; [by unfold root_dir|lia|done|done]. }
  apply HQ. change (with_private 0 0 _) with v. set (s' := set_vfile _ _ _) in *.
  assert (s' = FS {[root_dir := v]} ∅ b lk) as -> by (unfold s', set_vfile; cbn [vfiles] in *; f_equal; exact Hv).
  assert (children (FS {[root_dir := v]} ∅ b lk) v = []) as Hnone by (by apply children_empty).
  assert (({[root_dir := v]} : gmap Z vfile) !! root_dir = Some v) as Hl by apply lookup_singleton_eq.
  split.
  - done.
  - split; [done|]. exists v. by split; [exact Hl|].
  - intros nm. unfold entry_of. cbn [vfiles]. rewrite Hl. by rewrite Hnone.
  - unfold entry_count. cbn [vfiles]. rewrite Hl. by rewrite Hnone.
Qed.

Section files.
Variable can_alloc : Z → RamFS.fs → bool.
Variable junk : Z → list Z.
Variable mount_rfopen : list Z → Z → RamFS.fs → Z.
Variable mount_create : Z → list Z → Z → M RamFS.fs Z.
Hypothesis alloc_ok : ∀ pages s, can_alloc pages s = true.
Notation fcreate := (fcreate can_alloc junk mount_rfopen mount_create).

(** One call of [fcreate] for a directory. *)
Lemma fcreate_directory_wp cs nm d t (Q : Z → RamFS.fs → Prop) s :
  bytes_of_string t = 47 :: join_path (cs ++ [nm]) →
  fs_ok s → RamFS.vfs_lock s = false → dir_path s root_dir cs d → entry_count s d <= 3 → entry_of s d nm = 0 →
  Forall clean_name (cs ++ [nm]) → Z.of_nat (length nm) < NAME_SIZE → (length cs < 1024)%nat →
  Z.of_nat (length (bytes_of_string t)) < 4096 →
  (∀ f s', directory_made s d cs nm f s' → Q f s') → wp (fcreate (bytes_of_string t) FS_FILE_IS_DIR) Q s.
Proof using alloc_ok.
  intros -> Hok Hlk Hp Hcount Hz Hcl Hnl Hn Hlen HQ.
  destruct (fcreate_directory can_alloc junk mount_rfopen mount_create alloc_ok cs nm d s) as (f & s' & Hrun & Hdm); [done..| |done|done|done|done|done|].
  { lia. }
  rewrite (wp_run _ _ _ _ _ Hrun). by apply HQ.
Qed.

Notation make_directories := (make_directories can_alloc junk mount_rfopen mount_create).

Ltac clean := repeat constructor; by_computation.

Lemma make_directories_wp (Q : unit → RamFS.fs → Prop) s :
  empty_root s → RamFS.vfs_lock s = false → (∀ s', files_ready s' → Q tt s') → wp make_directories Q s.
Proof using alloc_ok.
  intros [Hok Hroot Hent Hcnt] Hlk HQ. unfold make_directories. rewrite wp_bind.
  apply (fcreate_directory_wp [] (name_of "tmp") root_dir); [done|done|done|done|lia|done|clean|by_computation|simpl; lia|by_computation|].
  intros f1 s1 [Hok1 Hlk1 Hold1 Hnew1 Hent1 _ Hcnt1 _]. cbn [app] in *. rewrite wp_bind.
  specialize (Hcnt1 [] root_dir Hroot). pose proof (λ nm, Hent1 [] nm root_dir Hroot) as Hroot1. pose proof (Hold1 _ _ _ Hroot) as Hr1.
  apply (fcreate_directory_wp [] (name_of "dev") root_dir); [done|done|done|done|lia| |clean|by_computation|simpl; lia|by_computation|].
  { rewrite Hroot1, Hent, decide_False; [done|]. intros [_ E]. revert E. by_computation. }
  intros f2 s2 [Hok2 Hlk2 Hold2 Hnew2 Hent2 Hfresh2 Hcnt2 Hempty2]. cbn [app] in *. rewrite wp_bind.
  specialize (Hcnt2 [] root_dir Hr1). pose proof (λ nm, Hent2 [] nm root_dir Hr1) as Hroot2. pose proof (Hold2 _ _ _ Hr1) as Hr2.
  apply (fcreate_directory_wp [] (name_of "boot") root_dir); [done|done|done|done|lia| |clean|by_computation|simpl; lia|by_computation|].
  { rewrite Hroot2, decide_False, Hroot1, Hent, decide_False; [done|..]; intros [_ E]; revert E; by_computation. }
  intros f3 s3 [Hok3 Hlk3 Hold3 Hnew3 Hent3 _ Hcnt3 _]. cbn [app] in *. rewrite wp_bind.
  specialize (Hcnt3 [name_of "dev"] f2 Hnew2).
  assert (f2 ≠ root_dir) as Hne.
  { intros E. specialize (Hfresh2 (name_of "dev")). rewrite E, Hroot2, decide_True in Hfresh2 by done. unfold root_dir in E. lia. }
  apply (fcreate_directory_wp [name_of "dev"] (name_of "disk") f2);
    [done|done|done|by apply Hold3|lia| |clean|by_computation|simpl; lia|by_computation|].
  { rewrite (Hent3 [name_of "dev"]), decide_False by (done || by intros []). apply Hfresh2. }
  intros f4 s4 [Hok4 Hlk4 Hold4 Hnew4 _ _ _ _]. wp. apply HQ. split; [done|done|]. unfold boot_paths.
  repeat (apply Forall_cons; split); [..|done].
  - exists f1. by apply Hold4, Hold3, Hold2.
  - exists f2. by apply Hold4, Hold3.
  - exists f3. by apply Hold4.
  - exists f4. exact Hnew4.
Qed.
End files.

(** ** The console *)

Section console.
Variable device : ports → Z → Z → Z.
Variable frame : nat → Z.
Variable literal : string → Z.

Definition ramfs_text : string := "Initializing VFS" ++ line_feed.
Definition idt_text : string := "Initializing IDT" ++ line_feed.
Definition scheduler_text : string := "Initializing Scheduler & starting PID 1" ++ line_feed.

(** A format that the locals of the printing functions do not overwrite. *)
Definition format_at (m : memory) (t : string) : Prop :=
  cstr m (literal t) (bytes_of_string t) ∧ apart frame 2 (literal t) (bytes_of_string t).

(** The literals that [kmain] prints are where the linker has put them. *)
Record texts_ok (m : memory) : Prop := {
  tx_frame : 0 < frame 2;
  tx_literals : literals_ok frame literal 2 m;
  tx_modules : Forall (λ t, safe_text frame 2 m (literal t) (bytes_of_string t)) ["KERNEL"; "RAMFS"]%string;
  tx_formats : Forall (format_at m) ["[ %s %s ] "%string; ramfs_text; idt_text; scheduler_text;
    used_memory_text "PIC"; used_memory_text "VFS"; used_memory_text "Scheduler"];
}.

Lemma texts_ok_locals m m' : texts_ok m → locals_only frame 2 m m' → texts_ok m'.
Proof.
  intros [Hf Hl Hk Ht] Hm. split; [done|by apply (literals_ok_locals frame literal 2 m)| |].
  { eapply Forall_impl; [exact Hk|]. intros t Hs. by apply (safe_text_locals frame 2 m). }
  eapply Forall_impl; [exact Ht|]. intros t [Hc Ha]. split; [|done]. by apply (cstr_locals frame 2 m).
Qed.

(** Something has been printed: bytes have gone to a port other than those of the interrupt
    controllers, and locals have changed. *)
Record printed (s s' : kernel) : Prop := {
  pr_intr : ∃ l, k_intr s' = put l (k_intr s) ∧ pics_kept (it_ports (k_intr s)) l;
  pr_mem : locals_only frame 2 (cn_mem (k_console s)) (cn_mem (k_console s'));
  pr_ports : cn_ports (k_console s') = cn_ports (k_console s);
  pr_rest : k_config s' = k_config s ∧ k_fs s' = k_fs s ∧ k_boot_info s' = k_boot_info s ∧ k_interrupts s' = k_interrupts s;
}.
Record console_ok (s : kernel) : Prop := {
  co_texts : texts_ok (cn_mem (k_console s));
  co_port : ¬ pic_port (u16 (cn_ports (k_console s) !0 0));
}.
Lemma printed_console s s' : printed s s' → console_ok s → console_ok s'.
Proof. intros [_ Hm Hp _] [Ht Hc]. split; [by eapply texts_ok_locals|by rewrite Hp]. Qed.

Lemma emit_printed bs m s :
  console_ok s → locals_only frame 2 (cn_mem (k_console s)) m →
  printed s (put (put m (emit bs (view (T := serial) s))) s).
Proof.
  intros [_ Hp] Hm. split; try done. eexists. split; [reflexivity|]. apply pics_kept_app, Forall_rev, Forall_fmap, Forall_forall.
  intros b _. exact Hp.
Qed.

(** A text without directives. *)
Lemma plain_items l : args_of (Plain <$> l) = [] ∧ format_of (Plain <$> l) = l ∧ (37 ∉ l → ∀ m, Forall (item_ok frame 2 m) (Plain <$> l)).
Proof.
  unfold args_of, format_of. induction l as [|c l (IH1 & IH2 & IH3)]; [by split_and!; [| |constructor]|]. cbn. rewrite IH1, IH2.
  split_and!; [done|done|]. intros [Hc Hl]%not_elem_of_cons m. apply Forall_cons. split; [cbn; congruence|by apply IH3].
Qed.

Lemma k_mlog_wp md t (Q : unit → kernel → Prop) s :
  console_ok s → md ∈ ["KERNEL"; "RAMFS"]%string → t ∈ [ramfs_text; idt_text; scheduler_text] → (∀ s', printed s s' → Q tt s') → wp (k_mlog frame literal md t) Q s.
Proof.
  intros Hc Hmd Ht HQ. pose proof Hc as [[Hf Hl Hk Htx] _]. rewrite Forall_forall in Htx, Hk. specialize (Hk md Hmd).
  assert (37 ∉ bytes_of_string t) as Hno.
  { apply elem_of_cons in Ht as [-> |Ht]; [by_computation|]. apply elem_of_cons in Ht as [-> |Ht]; [by_computation|]. apply list_elem_of_singleton in Ht as ->. by_computation. }
  destruct (Htx t) as [Hcs Hap]; [clear -Ht; set_solver|].
  destruct (Htx "[ %s %s ] "%string) as [Hps Hpa]; [by left|].
  destruct (plain_items (bytes_of_string t)) as (Ha & Hfm & Hits). unfold k_mlog. rewrite wp_zoom. rewrite <- Ha.
  apply (mlog_wp frame literal _ (bytes_of_string md)); rewrite ?Hfm; try done; [by apply Hits|].
  intros m Hm. apply HQ. by apply emit_printed.
Qed.

Lemma used_memory_zero : get_used_memory memory_limit = mret 0.
Proof. reflexivity. Qed.

Lemma report_wp ph (Q : unit → kernel → Prop) s :
  console_ok s → ph ∈ ["PIC"; "VFS"; "Scheduler"]%string → (∀ s', printed s s' → Q tt s') → wp (report frame literal ph) Q s.
Proof.
  intros Hc Hph HQ. pose proof Hc as [[Hf Hl Hk Htx] _]. rewrite Forall_forall in Htx.
  destruct (Htx (used_memory_text ph)) as [Hcs Hap].
  { rewrite !elem_of_cons in Hph. destruct Hph as [->|[->|[->|Hn]]]; [set_solver..|by apply elem_of_nil in Hn]. }
  unfold report. rewrite wp_bind. unfold k_mem, k_sched. rewrite !wp_zoom, wp_kpm, used_memory_zero, wp_ret.
  match goal with |- wp _ _ ?x => replace x with s by (by destruct s as [? [[[[] ? ?] ? ? ? ? ? ? ?] ? ? ? ? ? ? ? ? ?] ? ? ? ?]) end.
  rewrite wp_zoom. set (front := bytes_of_string ("Used memory after " ++ ph ++ " setup: ")).
  set (its := (Plain <$> front) ++ [Hexadecimal 0; Plain 10]).
  assert (37 ∉ front ∧ format_of its = bytes_of_string (used_memory_text ph) ∧ args_of its = [0]) as (Hno & Hfm & Ha).
  { rewrite !elem_of_cons in Hph. unfold its, front.
    destruct Hph as [->|[->|[->|Hn]]]; [split; [by_computation|split; reflexivity]..|by apply elem_of_nil in Hn]. }
  rewrite <- Hfm in Hcs, Hap. rewrite <- Ha. unfold printf.
  apply (vprintf_wp frame literal 1); [done|done|done|done| |].
  - apply Forall_app. split; [by apply (plain_items front)|]. repeat (apply Forall_cons; split); cbn; [lia|lia|done].
  - intros m Hm. apply HQ. by apply emit_printed.
Qed.
End console.

(** ** The whole start-up *)

Section boot.
Variable device : ports → Z → Z → Z.
Variable frame : nat → Z.
Variable literal : string → Z.
Variable isr : Z → Z.
Variables (irq0 irq1 syscall_stub : Z) (schedule_code pid0 sysinit : Z).
Variable can_alloc : Z → RamFS.fs → bool.
Variable junk : Z → list Z.
Variable mount_rfopen : list Z → Z → RamFS.fs → Z.
Variable mount_create : Z → list Z → Z → M RamFS.fs Z.
(** [start] is the word at the symbol [_start]. *)
Variables (kernel_info : Z) (mmap : list mmap_entry) (start : Z).
Notation kmain := (kmain device frame literal isr irq0 irq1 syscall_stub schedule_code pid0 sysinit
                     can_alloc junk mount_rfopen mount_create kernel_info mmap start).

Definition sched_of (s : kernel) : sched := it_sched (k_intr s).
Definition paging_of (s : kernel) : paging := km_pg (sc_km (sched_of s)).
(** The first serial port, as the BIOS has left its number. *)
Definition first_com (s : kernel) : Z := cn_mem (k_console s) !0 BDA + 256 * cn_mem (k_console s) !0 (BDA + 1).
Definition pic1 (c : pic_chip) (s : kernel) : pic_chip := pic_after PIC1_COMMAND PIC1_DATA (it_ports (k_intr s)) c.
Definition pic2 (c : pic_chip) (s : kernel) : pic_chip := pic_after PIC2_COMMAND PIC2_DATA (it_ports (k_intr s)) c.

(** The machine as the boot loader hands it over. *)
Record can_boot (c1 c2 : pic_chip) (n lo : Z) (s : kernel) : Prop := {
  cb_mmap : mmap_ok 0 mmap;
  cb_tables : boot_tables (paging_of s);
  cb_start : 0 <= start;
  cb_kernel : start_run (paging_of s) (start / 4096) n;
  cb_budget : boot_budget (paging_of s) mmap (start / 4096) n lo;
  cb_texts : texts_ok frame literal (cn_mem (k_console s));
  cb_port : ¬ pic_port (u16 (first_com s));
  cb_files : fs_start (k_fs s);
  cb_device : pic_reads_mask device c1 c2;
  cb_chips : expects (pic1 c1 s) = [] ∧ expects (pic2 c2 s) = [];
  cb_stubs : (∀ i, 0 <= i < 32 → is_u32 (isr i)) ∧ is_u32 syscall_stub;
  cb_alloc : ∀ pages s, can_alloc pages s = true;
}.

(** The configuration, the interrupt table, the controllers and the console are up; the
    timer's line runs [timer]. *)
Record devices_up (c1 c2 : pic_chip) (timer : Z) (s s' : kernel) : Prop := {
  du_config : config_init (k_config s) = Ok (tt, k_config s');
  du_gates : (∀ i, 0 <= i < 32 → gate_to (isr i) 0 (gate (k_intr s') i)) ∧
    (∀ i, 0 <= i < 16 → gate_to (u32 (irq0 + (irq1 - irq0) * i)) 0 (gate (k_intr s') (32 + i))) ∧
    gate_to syscall_stub 3 (gate (k_intr s') 0x80);
  du_handlers i : 0 <= i < IRQ_COUNT → interrupt_handlers (k_intr s') !0 i = if decide (i = 0) then timer else 0;
  du_pics : pic1 c1 s' = Chip 32 4 PIC_ICW4_8086 0 [] ∧ pic2 c2 s' = Chip 40 2 PIC_ICW4_8086 0 [];
  du_console : console_ok frame literal s';
}.
(** So is the memory, with room for the threads. *)
Record machine_up (c1 c2 : pic_chip) (s s' : kernel) : Prop := {
  mu_devices : devices_up c1 c2 0 s s';
  mu_room : memory_room (sc_km (sched_of s')) boot_pages boot_frames;
}.

(** Both threads of [kmain] wait for the scheduler, which has not run yet. *)
Record threads_up (s : sched) : Prop := {
  tu_sched : sched_wf [0; 1] s ∧ current_pid s = 0;
  tu_idle : thread_ready s 0 pid0 0;
  tu_sysinit : thread_ready s 1 sysinit 0;
  tu_memory : kready (sc_km s);
}.
(** The kernel that [kmain] leaves to its two threads. *)
Record kernel_up (c1 c2 : pic_chip) (s s' : kernel) : Prop := {
  ku_devices : devices_up c1 c2 schedule_code s s';
  ku_files : files_ready (k_fs s');
  ku_threads : threads_up (sched_of s');
  ku_interrupts : k_interrupts s' = true ∧ k_boot_info s' = kernel_info;
}.

Lemma serial_init_wp (Q : unit → serial → Prop) s :
  (∀ t, t !0 0 = sr_mem s !0 BDA + 256 * sr_mem s !0 (BDA + 1) → Q tt (set_com_ports t s)) → wp serial_init Q s.
Proof.
  intros HQ. unfold serial_init.
  apply (wp_for_all (λ k s', ∃ t, s' = set_com_ports t s ∧ (0 < k → t !0 0 = sr_mem s !0 BDA + 256 * sr_mem s !0 (BDA + 1)))); [done| | |].
  - exists (com_ports s). split; [by destruct s|lia].
  - intros k ? Hk (t & -> & Ht). rewrite wp_bind. apply ld_wp. rewrite wp_bind. apply ld_wp. wp.
    exists (<[k := sr_mem s !0 (BDA + 2 * k) + 256 * sr_mem s !0 (BDA + 2 * k + 1)]> t). split; [done|].
    intros _. rewrite zget_insert. case_decide as E; [by subst k|apply Ht; lia].
  - intros ? (t & -> & Ht). apply HQ. by apply Ht.
Qed.

Lemma printed_sched s s' : printed frame s s' → sched_of s' = sched_of s.
Proof. intros [(l & E & _) _ _ _]. unfold sched_of. by rewrite E. Qed.
Lemma printed_pics c1 c2 s s' : printed frame s s' → pic1 c1 s' = pic1 c1 s ∧ pic2 c2 s' = pic2 c2 s.
Proof. intros [(l & E & Hl) _ _ _]. unfold pic1, pic2. rewrite E. split; apply Hl. Qed.
Lemma devices_printed c1 c2 h s s1 s2 : devices_up c1 c2 h s s1 → printed frame s1 s2 → devices_up c1 c2 h s s2.
Proof.
  intros [Hcf Hg Hh Hp Hc] Hpr. destruct (printed_pics c1 c2 _ _ Hpr) as [E1 E2].
  pose proof (printed_console _ _ _ _ Hpr Hc) as Hc2. destruct Hpr as [(l & E & _) _ _ (Ec & _)].
  split; [by rewrite Ec|by rewrite E|by rewrite E|by rewrite E1, E2|done].
Qed.
Lemma machine_printed c1 c2 s s1 s2 : machine_up c1 c2 s s1 → printed frame s1 s2 → machine_up c1 c2 s s2.
Proof.
  intros [Hd Hr] Hpr. split; [by eapply devices_printed|]. by rewrite (printed_sched _ _ Hpr).
Qed.
(** They do not depend on the scheduler or on the files. *)
Lemma devices_same (t : sched) c1 c2 h s s1 s2 :
  devices_up c1 c2 h s s1 → k_config s2 = k_config s1 → k_intr s2 = put t (k_intr s1) → k_console s2 = k_console s1 →
  devices_up c1 c2 h s s2.
Proof.
  intros [Hcf Hg Hh Hp [Ht Hc]] Ec Ei Eco. unfold pic1, pic2 in *.
  split; unfold pic1, pic2; rewrite ?Ec, ?Ei; try done. 
  split; [rewrite Eco; exact Ht|rewrite Eco; exact Hc].
Qed.

Lemma set_masks (l : ports) c1 c2 m1 m2 :
  pic_after PIC1_COMMAND PIC1_DATA l c1 = Chip 32 4 PIC_ICW4_8086 m1 [] →
  pic_after PIC2_COMMAND PIC2_DATA l c2 = Chip 40 2 PIC_ICW4_8086 m2 [] →
  let l' := Out 8 (u16 PIC2_DATA) (u8 0) :: Out 8 (u16 PIC1_DATA) (u8 0) :: l in
  pic_after PIC1_COMMAND PIC1_DATA l' c1 = Chip 32 4 PIC_ICW4_8086 0 [] ∧
  pic_after PIC2_COMMAND PIC2_DATA l' c2 = Chip 40 2 PIC_ICW4_8086 0 [].
Proof. unfold pic_after. intros H1 H2. cbn [foldr]. rewrite H1, H2. by split. Qed.

(** The memory and the console are up, the controllers untouched. *)
Record memory_up (s s' : kernel) : Prop := {
  my_config : config_init (k_config s) = Ok (tt, k_config s');
  my_room : memory_room (sc_km (sched_of s')) boot_pages boot_frames;
  my_console : console_ok frame literal s';
  my_pics c1 c2 : pic1 c1 s' = pic1 c1 s ∧ pic2 c2 s' = pic2 c2 s;
}.
Lemma memory_printed s s1 s2 : memory_up s s1 → printed frame s1 s2 → memory_up s s2.
Proof.
  intros [Hcf Hr Hc Hp] Hpr. split.
  - destruct Hpr as [_ _ _ (-> & _)]. exact Hcf.
  - by rewrite (printed_sched _ _ Hpr).
  - by eapply printed_console.
  - intros c1 c2. destruct (printed_pics c1 c2 _ _ Hpr) as [-> ->]. apply Hp.
Qed.
Lemma memory_files (f : RamFS.fs) s s1 : memory_up s s1 → memory_up s (put f s1).
Proof. intros [Hcf Hr [Ht Hc] Hp]. split; [exact Hcf|exact Hr|by split|exact Hp]. Qed.

Lemma start_memory_wp c1 c2 n lo (k : M kernel unit) (Q : unit → kernel → Prop) s :
  can_boot c1 c2 n lo s → (∀ s', memory_up s s' → k_fs s' = k_fs s → wp k Q s') →
  wp (zoom (T := kernel_config) config_init;; zoom (T := serial) serial_init;; _ ← k_mem (pm_init mmap start); k) Q s.
Proof.
  intros [Hmm Hbt Hst Hk Hbud Htx Hport _ _ _ _ _] HQ.
  rewrite wp_bind, wp_zoom. unfold config_init at 1. rewrite wp_modify. set (cfg := KernelConfig _ _ _ _ _ _ _).
  rewrite wp_bind, wp_zoom. apply serial_init_wp. intros t Ht.
  rewrite wp_bind. unfold k_mem, k_sched. rewrite !wp_zoom.
  apply (pm_init_wp mmap start n); [done|exact Hbt|done|exact Hk|]. intros p Hready Hhint Hused.
  pose proof (budget_room _ _ _ _ _ _ Hbud Hready Hhint Hused) as Hroom. apply HQ; [|reflexivity]. split.
  - reflexivity.
  - exact Hroom.
  - split; [exact Htx|]. match goal with |- ¬ pic_port (u16 ?x) => change x with (t !0 0) end. by rewrite Ht.
  - by split.
Qed.

Lemma ramfs_init_wp (Q : unit → kernel → Prop) s0 s :
  memory_up s0 s → fs_start (k_fs s) → (∀ s', memory_up s0 s' → empty_root (k_fs s') → Q tt s') → wp (ramfs_init frame literal) Q s.
Proof.
  intros Hup Hfs HQ. unfold ramfs_init. rewrite wp_bind. apply k_mlog_wp; [apply Hup|by right; left|by left|]. intros s1 Hpr.
  pose proof (memory_printed _ _ _ Hup Hpr) as Hup1. destruct Hpr as [_ _ _ (_ & Efs & _)].
  unfold k_files. rewrite wp_zoom. change (view s1) with (k_fs s1). rewrite Efs. apply empty_root_dir_wp; [exact Hfs|].
  intros f Hroot. apply HQ; [by apply memory_files|exact Hroot].
Qed.

Lemma start_machine_wp c1 c2 n lo (Q : unit → kernel → Prop) s :
  can_boot c1 c2 n lo s → (∀ s', machine_up c1 c2 s s' → empty_root (k_fs s') → Q tt s') →
  wp (start_machine device frame literal isr irq0 irq1 syscall_stub mmap start) Q s.
Proof.
  intros Hb HQ. unfold start_machine. apply (start_memory_wp c1 c2 n lo); [exact Hb|]. intros s1 Hup1 Efs1.
  destruct Hb as [_ _ _ _ _ _ _ Hfs Hdev [He1 He2] [Hisr Hstub] _]. rewrite wp_bind.
  apply (ramfs_init_wp _ s); [exact Hup1|by rewrite Efs1|]. intros s1' Hup1' Hroot. rewrite wp_bind.
  apply k_mlog_wp; [apply Hup1'|by left|by right; left|]. intros s2 Hpr2.
  pose proof (memory_printed _ _ _ Hup1' Hpr2) as [Hcf Hroom [Htx Hport] Hpics]. destruct (Hpics c1 c2) as [P1 P2].
  destruct Hpr2 as [_ _ _ (_ & Efs & _)].
  rewrite wp_bind, wp_zoom. apply idt_load_wp; [done|done|]. intros i3 Hidt. pose proof (il_ports _ _ _ _ _ _ Hidt) as Hl3.
  rewrite wp_bind, wp_zoom. cbn [view put kernel_lens_intr k_intr].
  apply (pic_init_wp device 0x20 c1 c2); [done| | |].
  { change (view i3) with (it_ports i3). rewrite (proj1 (Hl3 c1)). change (expects (pic1 c1 s2) = []). by rewrite P1. }
  { change (view i3) with (it_ports i3). rewrite (proj2 (Hl3 c2)). change (expects (pic2 c2 s2) = []). by rewrite P2. }
  intros l4 H41 H42. rewrite wp_bind, wp_zoom. unfold pic_setmask at 1. rewrite wp_outb.
  rewrite wp_bind, wp_zoom. unfold pic_setmask. rewrite wp_outb.
  match goal with |- wp _ _ ?x => set (s5 := x) end.
  destruct (set_masks l4 c1 c2 _ _ H41 H42) as [H51 H52].
  assert (machine_up c1 c2 s s5) as Hup.
  { destruct Hidt as [Hg1 Hg2 Hg3 _ Hh _ Hs _]. split; [split|].
    - exact Hcf.
    - assert (∀ j, gate (k_intr s5) j = gate i3 j) as Hg by reflexivity.
      split_and!; intros; rewrite Hg; [by apply Hg1|by apply Hg2|exact Hg3].
    - intros i Hi. change (interrupt_handlers (k_intr s5) !0 i) with (interrupt_handlers i3 !0 i). rewrite Hh by done. by case_decide.
    - exact (conj H51 H52).
    - by split.
    - assert (sched_of s5 = it_sched i3) as -> by reflexivity. by rewrite Hs. }
  apply report_wp; [apply Hup|by left|]. intros s6 Hpr6. apply HQ; [by eapply machine_printed|].
  destruct Hpr6 as [_ _ _ (_ & -> & _)]. change (k_fs s5) with (k_fs s2). by rewrite Efs.
Qed.

Lemma start_files_wp c1 c2 (Q : unit → kernel → Prop) s s1 :
  (∀ pages s, can_alloc pages s = true) →
  machine_up c1 c2 s s1 → empty_root (k_fs s1) →
  (∀ s', machine_up c1 c2 s s' → files_ready (k_fs s') → Q tt s') →
  wp (start_files frame literal can_alloc junk mount_rfopen mount_create) Q s1.
Proof.
  clear start mmap kernel_info schedule_code pid0 sysinit device. intros Halloc Hup [Hok Hroot Hent Hcnt] HQ. unfold start_files, vfs_init. rewrite wp_bind. unfold k_files. rewrite wp_zoom, wp_modify.
  set (f2 := set_vlock false (k_fs s1)). assert (same_tree (k_fs s1) f2) as Hsame by reflexivity.
  assert (empty_root f2) as Hroot2.
  { split; [exact (fs_ok_same _ _ Hsame Hok)|exact (dir_path_same _ _ _ _ _ Hsame Hroot)|intros nm; by rewrite (entry_of_same (k_fs s1))|by rewrite (entry_count_same (k_fs s1))]. }
  rewrite wp_bind, wp_zoom. apply make_directories_wp; [done|exact Hroot2|done|]. intros f3 Hready.
  match goal with |- wp _ _ ?x => set (s3 := x) end.
  assert (machine_up c1 c2 s s3) as Hup3.
  { destruct Hup as [Hd Hr]. split; [|exact Hr]. apply (devices_same (sched_of s1) _ _ _ _ _ _ Hd); [done| |done].
    change (k_intr s3) with (k_intr s1). unfold sched_of. symmetry. exact (put_view (T := sched) (k_intr s1)). }
  apply report_wp; [apply Hup3|set_solver|]. intros s4 Hpr. apply HQ; [by eapply machine_printed|].
  destruct Hpr as [_ _ _ (_ & -> & _)]. exact Hready.
Qed.

(** The first thread takes slot 0 of the free table, the second slot 1. *)
Lemma first_slot s : slot_free s 0 → ∀ i, first_free s 0 i → i = 0.
Proof.
  intros H0 i (_ & d & Hd & -> & Hb). destruct (decide (d = 0)) as [->|Hne]; [done|].
  destruct (Hb 0); [lia|exact H0].
Qed.
Lemma second_slot s : ¬ slot_free s 0 → slot_free s 1 → ∀ i, first_free s 0 i → i = 1.
Proof.
  intros H0 H1 i (Hi & d & Hd & -> & Hb). destruct (decide (d = 0)) as [->|Hne]; [by destruct H0|].
  destruct (decide (d = 1)) as [->|Hne1]; [done|]. destruct (Hb 1); [lia|exact H1].
Qed.
Lemma thread_ready_kept s s' pid f pp :
  thread_ready s pid f pp → proc s' pid = proc s pid → pages_kept (km_pg (sc_km s)) (km_pg (sc_km s')) → thread_ready s' pid f pp.
Proof. intros [Hp Hr Hd Hpa Hf] E Hk. split; rewrite ?E; try done. by eapply frame_kept. Qed.

(** The two threads of a machine without any. *)
Lemma two_threads_wp (Q : Z → sched → Prop) s0 s :
  no_threads s0 s (8 + (1 + (8 + (1 + 0)))) (16 + (2 + (16 + (2 + 0)))) →
  (∀ s', threads_up s' → Q 1 s') → wp (thread_start pid0) (λ _, wp (thread_start sysinit) Q) s.
Proof.
  intros [Hq Hcur Hidx Hfree _ Hroom] HQ.
  apply (thread_start_wp [] pid0 (8 + (1 + 0)) (16 + (2 + 0))); [done|done|by rewrite Hcur|exists 0; split; [done|by apply Hfree]|exact Hroom|done|].
  intros p1 s1 [_ Hs1 Hq1 Ht1 Ho1 Hc1 Hi1 _ Hr1]. rewrite Hcur in *. pose proof (first_slot s ltac:(by apply Hfree) _ Hs1) as ->.
  assert (slot_free s1 1) as Hf1 by (unfold slot_free; rewrite Ho1 by done; by apply Hfree).
  apply (thread_start_wp [0] sysinit 0 0); [done|done|by rewrite Hc1|by exists 1|exact Hr1|done|].
  intros p2 s2 [_ Hs2 Hq2 Ht2 Ho2 Hc2 Hi2 Hk2 Hr2]. rewrite Hc1 in *.
  assert (¬ slot_free s1 0) as Hn0 by (unfold slot_free; by rewrite (tr_present _ _ _ _ Ht1)).
  pose proof (second_slot s1 Hn0 Hf1 _ Hs2) as ->. apply HQ. split; [split; [|done]| |exact Ht2|apply Hr2].
  - split; [exact Hq2|by rewrite Hc2|]. rewrite Hi2, Hi1, Hidx. split; [done|lia].
  - eapply thread_ready_kept; [exact Ht1|by apply Ho2|exact Hk2].
Qed.

Lemma start_threads_wp c1 c2 (Q : unit → kernel → Prop) s s1 :
  machine_up c1 c2 s s1 → files_ready (k_fs s1) →
  (∀ s', kernel_up c1 c2 s s' → Q tt s') →
  wp (start_threads frame literal schedule_code pid0 sysinit kernel_info) Q s1.
Proof.
  clear can_alloc junk mount_rfopen mount_create mmap start device. intros Hup Hfiles HQ. unfold start_threads. rewrite wp_bind. apply k_mlog_wp; [apply Hup|by left|by right; right; left|]. intros s2 Hpr2.
  pose proof (machine_printed _ _ _ _ _ Hup Hpr2) as Hup2. destruct Hpr2 as [_ _ _ (_ & Efs2 & _)].
  rewrite wp_bind, wp_modify. rewrite wp_bind. unfold k_sched. rewrite !wp_zoom.
  destruct Hup2 as [Hd2 Hroom2].
  apply (scheduler_init_wp (8 + (1 + (8 + (1 + 0)))) (16 + (2 + (16 + (2 + 0))))); [exact Hroom2|done|]. intros t3 Hnt.
  rewrite wp_bind, wp_zoom. unfold install_irq_handler. rewrite bool_decide_eq_true_2 by done. rewrite wp_modify.
  rewrite wp_bind. match goal with |- wp _ _ ?x => set (s4 := x) end.
  assert (devices_up c1 c2 schedule_code s s4) as Hd4.
  { destruct Hd2 as [Hcf Hg Hh Hp [Ht Hc]]. split; [exact Hcf|exact Hg| |exact Hp|by split].
    intros i Hi. change (interrupt_handlers (k_intr s4) !0 i) with (<[0 := schedule_code]> (interrupt_handlers (k_intr s2)) !0 i).
    rewrite zget_insert. case_decide as E; [by rewrite decide_True|]. rewrite Hh by done. by rewrite !decide_False. }
  apply report_wp; [apply Hd4|set_solver|]. intros s5 Hpr5. pose proof (devices_printed _ _ _ _ _ _ Hd4 Hpr5) as Hd5.
  pose proof (printed_sched _ _ Hpr5) as E5. change (sched_of s4) with t3 in E5. destruct Hpr5 as [_ _ _ (_ & Efs5 & Ebi5 & _)].
  rewrite wp_bind, !wp_zoom. change (view (view s5)) with (sched_of s5). rewrite E5.
  pose proof (two_threads_wp (λ _ s', threads_up s') _ _ Hnt (λ _ H, H)) as Hth.
  apply wp_ok in Hth as (r1 & t6 & Hrun1 & Hth). apply wp_ok in Hth as (r2 & t7 & Hrun2 & Hth).
  rewrite (wp_run _ _ _ _ _ Hrun1), wp_bind, !wp_zoom.
  change (view (view (put (put t6 (view s5)) s5))) with t6. rewrite (wp_run _ _ _ _ _ Hrun2).
  unfold enable_interrupts. rewrite wp_modify. apply HQ. split.
  - apply (devices_same t7 _ _ _ _ _ _ Hd5); done.
  - match goal with |- files_ready ?f => change f with (k_fs s5) end. rewrite Efs5. change (k_fs s4) with (k_fs s2). by rewrite Efs2.
  - exact Hth.
  - split; [done|exact Ebi5].
Qed.

(** C5: From the machine as the boot loader hands it over, with memory for the two threads
    and the log's texts in place, [kmain] reaches its endless loop: the allocators are set
    up, every gate of the interrupt table is written and the controllers deliver IRQ [n] as
    vector [32 + n] with no line masked, "/tmp", "/dev", "/boot" and "/dev/disk" exist, the
    timer runs the scheduler, and the two threads are queued, each to be resumed at its
    entry point, when interrupts are enabled. *)
Theorem kmain_boots c1 c2 n lo s :
  can_boot c1 c2 n lo s → ∃ s', kmain s = Ok (tt, s') ∧ kernel_up c1 c2 s s'.
Proof.
  intros Hb. enough (wp kmain (λ _ s', kernel_up c1 c2 s s') s) as Hwp.
  { apply wp_ok in Hwp as ([] & s' & Hrun & Hup). by exists s'. }
  unfold kmain. rewrite wp_bind. apply (start_machine_wp c1 c2 n lo); [exact Hb|]. intros s1 Hup1 Hroot. rewrite wp_bind.
  apply (start_files_wp c1 c2 _ s); [apply Hb|exact Hup1|exact Hroot|]. intros s2 Hup2 Hfiles.
  by apply (start_threads_wp c1 c2 _ s).
Qed.
End boot.

(** ** A machine with 64 MiB *)

Definition kernel_texts : list string :=
  ["true"; "false"; "| DEBUG"; "| WARNING"; "| ERROR"; backspace; "KERNEL"; "RAMFS"; "[ %s %s ] "; ramfs_text; idt_text; scheduler_text;
   used_memory_text "PIC"; used_memory_text "VFS"; used_memory_text "Scheduler"]%string.
Definition kernel_literal (t : string) : Z :=
  match list_find (eq t) kernel_texts with Some (i, _) => 0x2000 + 64 * Z.of_nat i | None => 0x8000 end.
Definition kernel_memory : memory :=
  foldr (λ t, store_bytes (kernel_literal t) (bytes_of_string t ++ [0])) {[0x400 := 0xf8; 0x401 := 0x03]} kernel_texts.

Lemma kernel_texts_ok : texts_ok example_frame kernel_literal kernel_memory.
Proof.
  split; [done| | |].
  - intros t Ht. repeat rewrite elem_of_cons in Ht.
    destruct Ht as [->|[->|[->|[->|[->|[->|Hnil]]]]]]; [..|by apply elem_of_nil in Hnil];
      (split; [cstr_by_computation|]; split; [by_computation|]; split; [|by_computation]; right; by_computation).
  - repeat (apply Forall_cons; split); [..|done];
      (split; [cstr_by_computation|]; split; [by_computation|]; split; [|by_computation]; right; by_computation).
  - repeat (apply Forall_cons; split); [..|done]; (split; [cstr_by_computation|right; by_computation]).
Qed.

(** The root directory, and nothing else. *)
Definition boot_fs : RamFS.fs := RamFS.FS {[root_dir := VFile [47] 0x14 ramfs_ops 0 0 0 0]} ∅ 0x2000 false.
Definition boot_kernel : kernel :=
  Kernel (KernelConfig 0 0 0 0 0 0 0)
    (Intr (Sched boot_example ∅ ∅ 0 0 0 0 false) [] ∅ 0 ∅ ∅ ∅ 0 0 (Tss 0 0 0))
    (Console kernel_memory ∅ ∅ ∅) boot_fs 0 false.

Lemma boot_budget_example : boot_budget (km_pg boot_example) mmap_example (start_word / 4096) 0 0x400.
Proof.
  split.
  - exists 0xd0000. unfold kfits. split_and!; [done|by_computation|]. intros j Hj. unfold free_page, entry.
    rewrite boot_example_pde; unfold boot_pages, process_pages, PROCESS_COUNT, sizeof_process in Hj; [|Z.to_euclidean_division_equations; lia].
    rewrite decide_False; [done|]. Z.to_euclidean_division_equations; lia.
  - split; by_computation.
  - intros f (i & Hi & _). lia.
  - intros f Hf. apply Exists_cons_tl, Exists_cons_tl, Exists_cons_hd. apply frees_aligned; [done|]. split; [done|].
    change (0x100 <= f < 0x100 + 0x3f00). assert (Z.of_nat boot_frames = 4260) as E by reflexivity. rewrite E in Hf. lia.
Qed.

Definition boot_chip1 : pic_chip := Chip 8 4 1 5 [].
Definition boot_chip2 : pic_chip := Chip 112 2 1 7 [].

Lemma boot_kernel_ok :
  can_boot pic_example_device example_frame kernel_literal (λ i, 0x100000 + 16 * i) 0x101000 (λ _ _, true) mmap_example start_word
    boot_chip1 boot_chip2 0 0x400 boot_kernel.
Proof.
  split.
  - repeat (split; [cbn; lia|]); cbn; lia.
  - exact boot_example_tables.
  - by_computation.
  - exact boot_example_run.
  - exact boot_budget_example.
  - exact kernel_texts_ok.
  - by_computation.
  - split; [by exists 0, 0, 0, 0|done|done].
  - intros l k1 k2. split; intros _; unfold pic_example_device; apply u8_id, pic_after_u8; by_computation.
  - by split.
  - split; [intros i Hi; unfold is_u32; lia|by_computation].
  - done.
Qed.

Lemma kmain_boots_witness :
  ∃ s', kmain pic_example_device example_frame kernel_literal (λ i, 0x100000 + 16 * i) 0x102000 0x102010 0x101000 0x103000
      0x104000 0x105000 (λ _ _, true) (λ _, []) (λ _ _ _, 0) (λ _ _ _, mret 0) 0x9000 mmap_example start_word boot_kernel = Ok (tt, s') ∧
    threads_up 0x104000 0x105000 (sched_of s').
Proof.
  destruct (kmain_boots pic_example_device example_frame kernel_literal (λ i, 0x100000 + 16 * i) 0x102000 0x102010 0x101000 0x103000
    0x104000 0x105000 (λ _ _, true) (λ _, []) (λ _ _ _, 0) (λ _ _ _, mret 0) 0x9000 mmap_example start_word
    boot_chip1 boot_chip2 0 0x400 boot_kernel boot_kernel_ok) as (s' & Hrun & Hup).
  exists s'. split; [exact Hrun|]. destruct Hup as [_ _ Hth _]. exact Hth.
Defined.
