(* ===== verification/Panic.v ===== *)
(** * Exceptions (src/src/kernel/arch_i386/interrupts.c: _isr_handler, kernel_panic)

    An exception is the end of the kernel: its handler sends the registers to the serial
    port and stays in an endless loop, up to which it is modelled. *)
From stdpp Require Import strings.
From S2P Require Import Prelude Device RamFS KString PhysMem Paging Heap Kmalloc Scheduler Ports Serial Initrc Interrupts Kmain.

Definition isr_error_strings : list string :=
  ["DE"; "DB"; "NMI"; "BP"; "OF"; "BR"; "UD"; "NM"; "DF"; "CSO"; "TS"; "NP"; "SS"; "GP"; "PF"; ""; "MF"; "AC"; "MC"; "XM";
   "VE"; "CP"; ""]%string.
Definition isr_text : string := "ISR: #%s On pid: %d" ++ line_feed.
Definition panic_text : string := "Kernel Panic!" ++ line_feed.
Definition general_text : string := "EAX: %x EBX: %x ECX: %x EDX: %x" ++ line_feed.
Definition index_text : string := "ESI: %x EDI: %x ESP: %x EBP: %x" ++ line_feed.
Definition segment_text : string := "EIP: %x CS: %x DS: %x SS: %x" ++ line_feed.
Definition error_text : string := "Error Code: %x" ++ line_feed.
Definition fault_text : string := "Paddr and flags: %x, %x" ++ line_feed.
Definition fatal_text : string :=
  "Kernel Panic!" ++ line_feed ++ "An fatal error occured, and could not be recovered." ++ line_feed ++ "Error: ".
Definition halting_text : string := "System halting..." ++ line_feed.

Section exceptions.
Variable frame : nat → Z.
Variable literal : string → Z.
(** What the variable [cr2] holds; the second instruction in front of it reads it. *)
Variable cr2 : Z.
(** The assembly routine that stops the processor, and the software interrupt 13. *)
Variable panic_hold : cpu_registers → M kernel unit.
Variable int_0d : M kernel unit.

Definition k_printf (text : string) (args : list Z) : M kernel unit :=
  zoom (T := serial) (printf frame literal (literal text) args).

Definition isr_handler (regs : cpu_registers) : M kernel unit :=
  match isr_error_strings !! Z.to_nat (int_no regs) with
  | None => fail (OutOfBounds (int_no regs))
  | Some name =>
      pid ← k_sched (gets current_pid);
      k_printf isr_text [literal name; pid];;
      k_printf panic_text [];;
      k_printf general_text [eax regs; ebx regs; ecx regs; edx regs];;
      k_printf index_text [esi regs; edi regs; esp regs; ebp regs];;
      k_printf segment_text [eip regs; cs regs; ds regs; ss regs];;
      k_printf error_text [pfa regs];;
      when (int_no regs =? 14) (
        paddr ← k_mem (kpg (get_paddr cr2));
        flags ← k_mem (kpg (get_pflags cr2));
        k_printf fault_text [paddr; flags])
  end.

(** The message is printed as a format. *)
Definition kernel_panic (message : Z) (regs : option cpu_registers) : M kernel unit :=
  k_printf fatal_text [];;
  zoom (T := serial) (printf frame literal message []);;
  k_printf halting_text [];;
  match regs with Some regs => panic_hold regs | None => skip end;;
  int_0d.
End exceptions.

(** ** What is sent *)

Definition plain (t : string) : list item := Plain <$> bytes_of_string t.
Definition hex_items (l : list (string * Z)) : list item := (l ≫= λ '(t, x), plain t ++ [Hexadecimal x]) ++ plain line_feed.

(** The report of an exception, line by line. *)
Definition isr_items (name : string) (p pid : Z) : list item :=
  plain "ISR: #" ++ [Text p (bytes_of_string name)] ++ plain " On pid: " ++ [Decimal pid] ++ plain line_feed.
Definition general_items (r : cpu_registers) : list item :=
  hex_items [("EAX: ", eax r); (" EBX: ", ebx r); (" ECX: ", ecx r); (" EDX: ", edx r)]%string.
Definition index_items (r : cpu_registers) : list item :=
  hex_items [("ESI: ", esi r); (" EDI: ", edi r); (" ESP: ", esp r); (" EBP: ", ebp r)]%string.
Definition segment_items (r : cpu_registers) : list item :=
  hex_items [("EIP: ", eip r); (" CS: ", cs r); (" DS: ", ds r); (" SS: ", ss r)]%string.
Definition error_items (r : cpu_registers) : list item := hex_items [("Error Code: ", pfa r)]%string.
Definition fault_items (paddr flags : Z) : list item := hex_items [("Paddr and flags: ", paddr); (", ", flags)]%string.

Section sent.
Variable frame : nat → Z.
Variable literal : string → Z.

(** [s'] is [s] after [bs] has gone to the first serial port, but for locals. *)
Definition sent (bs : list Z) (s s' : kernel) : Prop :=
  ∃ m, s' = put (put m (emit bs (view (T := serial) s))) s ∧ locals_only frame 2 (cn_mem (k_console s)) m.

(** The literals are where the linker has put them. *)
Record panic_texts (m : memory) : Prop := {
  pt_frame : 0 < frame 2;
  pt_literals : literals_ok frame literal 2 m;
  pt_names : Forall (λ t, safe_text frame 2 m (literal t) (bytes_of_string t)) isr_error_strings;
  pt_formats : Forall (format_at frame literal m)
    [isr_text; panic_text; general_text; index_text; segment_text; error_text; fault_text; fatal_text; halting_text];
}.
Lemma panic_texts_locals m m' : panic_texts m → locals_only frame 2 m m' → panic_texts m'.
Proof.
  intros [Hf Hl Hk Ht] Hm. split; [done|by apply (literals_ok_locals frame literal 2 m)| |].
  - eapply Forall_impl; [exact Hk|]. intros t Hs. by apply (safe_text_locals frame 2 m).
  - eapply Forall_impl; [exact Ht|]. intros t [Hc Ha]. split; [|done]. by apply (cstr_locals frame 2 m).
Qed.

Lemma sent_trans a b s1 s2 s3 : sent a s1 s2 → sent b s2 s3 → sent (a ++ b) s1 s3.
Proof.
  intros (m & -> & Hm) (m' & -> & Hm'). exists m'. split.
  - rewrite <- emit_app. by destruct s1 as [? [] [] ? ? ?].
  - by eapply locals_only_trans.
Qed.
Lemma sent_mem bs s s' : sent bs s s' → locals_only frame 2 (cn_mem (k_console s)) (cn_mem (k_console s')).
Proof. by intros (m & -> & Hm). Qed.
Lemma sent_sched bs s s' : sent bs s s' → sched_of s' = sched_of s.
Proof. by intros (m & -> & _). Qed.

Lemma printf_sent its p (Q : unit → kernel → Prop) s :
  panic_texts (cn_mem (k_console s)) → cstr (cn_mem (k_console s)) p (format_of its) → apart frame 2 p (format_of its) →
  Forall (item_ok frame 2 (cn_mem (k_console s))) its →
  (∀ s', sent (output_of its) s s' → Q tt s') →
  wp (zoom (T := serial) (printf frame literal p (args_of its))) Q s.
Proof.
  intros [Hf Hl _ _] Hc Ha Hits HQ. rewrite wp_zoom. apply (vprintf_wp frame literal 1); [done..|].
  intros m Hm. apply HQ. exists m. split; [done|exact Hm].
Qed.
End sent.

Lemma land_u32 x m : 0 <= m < 2 ^ 32 → 0 <= Z.land x m < 2 ^ 32.
Proof.
  intros Hm. assert (Z.land x m = Z.land x m mod 2 ^ 32) as ->; [|by apply Z.mod_pos_bound].
  rewrite <- Z.land_ones, <- Z.land_assoc, (Z.land_ones m), Z.mod_small by done. done.
Qed.

Section reports.
Variable frame : nat → Z.
Variable literal : string → Z.
Variable cr2 : Z.
Notation texts s := (panic_texts frame literal (cn_mem (k_console s))).
Notation sent := (sent frame).

Lemma plain_ok m t : 37 ∉ bytes_of_string t → Forall (item_ok frame 2 m) (plain t).
Proof. intros Hn. by apply (plain_items frame). Qed.
Lemma hex_items_ok m l :
  Forall (λ '(t, x), 37 ∉ bytes_of_string t ∧ 0 <= x < 2 ^ 32) l → Forall (item_ok frame 2 m) (hex_items l).
Proof.
  intros Hl. apply Forall_app. split; [|by apply plain_ok; by_computation].
  apply Forall_forall. intros it ([t x] & Hit & Hx)%list_elem_of_bind. rewrite Forall_forall in Hl. destruct (Hl _ Hx) as [Ht Hr].
  apply elem_of_app in Hit as [Hit|Hit%list_elem_of_singleton]; [|by subst it].
  pose proof (plain_ok m t Ht) as Hp. rewrite Forall_forall in Hp. by apply Hp.
Qed.

(** One of the formats of this file. *)
Lemma k_printf_sent t its (Q : unit → kernel → Prop) s :
  texts s → t ∈ [isr_text; panic_text; general_text; index_text; segment_text; error_text; fault_text; fatal_text; halting_text] →
  format_of its = bytes_of_string t → Forall (item_ok frame 2 (cn_mem (k_console s))) its →
  (∀ s', sent (output_of its) s s' → texts s' → Q tt s') → wp (k_printf frame literal t (args_of its)) Q s.
Proof.
  intros Ht Hin Hfm Hits HQ. pose proof Ht as [_ _ _ Hf]. rewrite Forall_forall in Hf. destruct (Hf t Hin) as [Hc Ha].
  apply (printf_sent frame literal its); rewrite ?Hfm; try done. intros s' Hs. apply HQ; [done|].
  eapply panic_texts_locals; [exact Ht|]. by eapply sent_mem.
Qed.

(** What the handler sends for every exception. *)
Definition exception_output (name : string) (pid : Z) (r : cpu_registers) : list Z :=
  output_of (isr_items name (literal name) pid) ++ output_of (plain panic_text) ++ output_of (general_items r) ++
  output_of (index_items r) ++ output_of (segment_items r) ++ output_of (error_items r).

Lemma isr_items_ok m name pid :
  safe_text frame 2 m (literal name) (bytes_of_string name) → 0 <= pid < 2 ^ 31 → Forall (item_ok frame 2 m) (isr_items name (literal name) pid).
Proof.
  intros Hs Hp. unfold isr_items. rewrite !Forall_app.
  split_and!; [by apply plain_ok; by_computation|by apply Forall_singleton|by apply plain_ok; by_computation|by apply Forall_singleton|by apply plain_ok; by_computation].
Qed.

(** The next line of a report: the items behind the arguments. *)
Ltac line its :=
  rewrite wp_bind;
  lazymatch goal with |- wp (k_printf _ _ _ ?args) _ _ => change args with (args_of its) end;
  apply k_printf_sent;
    [done|clear; set_solver|reflexivity|apply hex_items_ok; repeat (apply Forall_cons; split); try done; (split; [by_computation|assumption])|].

Lemma isr_report_wp name regs (k : M kernel unit) (Q : unit → kernel → Prop) s :
  texts s → name ∈ isr_error_strings → Forall is_u32 (regs_words regs) → 0 <= current_pid (sched_of s) < 2 ^ 31 →
  (∀ s', sent (exception_output name (current_pid (sched_of s)) regs) s s' → texts s' → wp k Q s') →
  wp (pid ← k_sched (gets current_pid);
      k_printf frame literal isr_text [literal name; pid];;
      k_printf frame literal panic_text [];;
      k_printf frame literal general_text [eax regs; ebx regs; ecx regs; edx regs];;
      k_printf frame literal index_text [esi regs; edi regs; esp regs; ebp regs];;
      k_printf frame literal segment_text [eip regs; cs regs; ds regs; ss regs];;
      k_printf frame literal error_text [pfa regs];; k) Q s.
Proof.
  intros Ht Hn Hr Hpid HQ. unfold k_sched. rewrite wp_bind, !wp_zoom, wp_gets.
  change (current_pid (view (view s))) with (current_pid (sched_of s)).
  match goal with |- wp _ _ ?x => replace x with s by (by destruct s as [? [] ? ? ? ?]) end. set (pid := current_pid (sched_of s)) in *.
  pose proof Ht as [_ _ Hnames _]. rewrite Forall_forall in Hnames. specialize (Hnames name Hn).
  unfold regs_words in Hr. repeat (apply Forall_cons in Hr as [? Hr]). unfold is_u32 in *.
  rewrite wp_bind. change [literal name; pid] with (args_of (isr_items name (literal name) pid)).
  apply k_printf_sent; [done|by left|reflexivity|by apply isr_items_ok|].
  intros s1 Hs1 Ht1. rewrite wp_bind. change (k_printf frame literal panic_text []) with (k_printf frame literal panic_text (args_of (plain panic_text))).
  apply k_printf_sent; [done|by right; left|reflexivity|by apply plain_ok; by_computation|].
  intros s2 Hs2 Ht2. line (general_items regs). intros s3 Hs3 Ht3. line (index_items regs). intros s4 Hs4 Ht4.
  line (segment_items regs). intros s5 Hs5 Ht5. line (error_items regs). intros s6 Hs6 Ht6.
  apply HQ; [|done]. unfold exception_output.
  eapply sent_trans; [exact Hs1|]. eapply sent_trans; [exact Hs2|]. eapply sent_trans; [exact Hs3|].
  eapply sent_trans; [exact Hs4|]. eapply sent_trans; [exact Hs5|exact Hs6].
Qed.

(** Reading the page tables. *)
Lemma k_mem_reads (m : M paging Z) x (Q : Z → kernel → Prop) s :
  wp m (λ r p, r = x ∧ p = km_pg (sc_km (sched_of s))) (km_pg (sc_km (sched_of s))) → Q x s → wp (k_mem (kpg m)) Q s.
Proof.
  intros Hm HQ. unfold k_mem, k_sched. rewrite !wp_zoom, wp_kpg. eapply wp_mono; [exact Hm|]. intros ? ? [-> ->].
  by destruct s as [? [[[[] ? ?] ? ? ? ? ? ? ?] ? ? ? ? ? ? ? ? ?] ? ? ? ?].
Qed.

(** The page of the address that a page fault reports. *)
Definition fault_entry (s : kernel) : Z := entry (km_pg (sc_km (sched_of s))) (cr2 / 4096).

(** C32: An exception is reported.  For every exception the handler has a name for, with the
    literals in place, it reaches its endless loop, and what has gone to the serial port is
    its name, the process that ran, of the frame the eight general registers (eax, ebx,
    ecx, edx, esi, edi, esp, ebp), eip, cs, ds and ss, and the error code, and for a page
    fault the address and the flags of the entry of the page that it looks up.  The other
    fields of the frame (gs, fs, es, eflags, useresp) are not sent. *)
Theorem exception_reported name regs s :
  texts s → isr_error_strings !! Z.to_nat (int_no regs) = Some name → Forall is_u32 (regs_words regs) →
  0 <= current_pid (sched_of s) < 2 ^ 31 →
  (int_no regs = 14 → pg_wf (km_pg (sc_km (sched_of s))) ∧ 0 < cr2 / 4096 / 1024 < 1023) →
  ∃ s', isr_handler frame literal cr2 regs s = Ok (tt, s') ∧
    sent (exception_output name (current_pid (sched_of s)) regs ++
          if int_no regs =? 14 then output_of (fault_items (Z.land (fault_entry s) 0xfffff000) (Z.land (fault_entry s) 0xfff)) else []) s s'.
Proof.
  intros Ht Hname Hr Hpid Hpf. unfold isr_handler. rewrite Hname. apply wp_unit.
  apply isr_report_wp; [done|by eapply list_elem_of_lookup_2|done|done|]. intros s1 H1 Ht1.
  destruct (Z.eqb_spec (int_no regs) 14) as [E|E]; cbn [when]; [|wp; by rewrite app_nil_r].
  destruct (Hpf E) as [Hwf Hrange]. pose proof (sent_sched _ _ _ _ H1) as Es. unfold fault_entry. rewrite <- Es in *.
  rewrite wp_bind. eapply k_mem_reads; [by apply get_paddr_wp|].
  rewrite wp_bind. eapply k_mem_reads; [by apply get_pflags_wp|].
  match goal with |- wp (k_printf _ _ _ [?a; ?b]) _ _ => change [a; b] with (args_of (fault_items a b)) end.
  apply k_printf_sent; [done|clear; set_solver|reflexivity| |].
  - apply hex_items_ok. repeat (apply Forall_cons; split); try done; (split; [by_computation|by apply land_u32]).
  - intros s2 H2 _. by eapply sent_trans.
Qed.

(** A panic prints its message as a format, so only a message without percent signs is sent
    as it is. *)
Lemma kernel_panic_wp panic_hold int_0d message t regs (Q : unit → kernel → Prop) s :
  texts s → cstr (cn_mem (k_console s)) message t → apart frame 2 message t → 37 ∉ t →
  (∀ s', sent (bytes_of_string fatal_text ++ t ++ bytes_of_string halting_text) s s' → texts s' →
     wp (match regs with Some regs => panic_hold regs | None => skip end;; int_0d) Q s') →
  wp (kernel_panic frame literal panic_hold int_0d message regs) Q s.
Proof.
  intros Ht Hm Ha Hno HQ. unfold kernel_panic. rewrite wp_bind.
  change (k_printf frame literal fatal_text []) with (k_printf frame literal fatal_text (args_of (plain fatal_text))).
  apply k_printf_sent; [done|clear; set_solver|reflexivity|by apply plain_ok; by_computation|]. intros s1 Hs1 Ht1.
  destruct (plain_items frame t) as (Hargs & Hfm & Hok). rewrite wp_bind. rewrite <- Hargs.
  apply (printf_sent frame literal (Plain <$> t)); [done| |by rewrite Hfm|by apply Hok|].
  { rewrite Hfm. eapply cstr_locals; [exact Hm|exact Ha|by eapply sent_mem]. }
  intros s2 Hs2. assert (texts s2) as Ht2 by (eapply panic_texts_locals; [exact Ht1|by eapply sent_mem]).
  rewrite wp_bind. rewrite Hargs.
  change (k_printf frame literal halting_text []) with (k_printf frame literal halting_text (args_of (plain halting_text))).
  apply k_printf_sent; [done|clear; set_solver|reflexivity|by apply plain_ok; by_computation|]. intros s3 Hs3 Ht3.
  apply HQ; [|done]. eapply sent_trans; [exact Hs1|]. eapply sent_trans; [|exact Hs3].
  assert (output_of (Plain <$> t) = t) as <-; [|exact Hs2]. clear. induction t as [|c t IH]; [done|]. cbn. by f_equal.
Qed.
End reports.

(** The names run out before the exceptions do. *)
Lemma exception_unnamed frame literal cr2 regs s :
  23 <= int_no regs → isr_handler frame literal cr2 regs s = Err (OutOfBounds (int_no regs)).
Proof.
  intros Hi. unfold isr_handler. rewrite (proj2 (lookup_ge_None isr_error_strings (Z.to_nat (int_no regs)))); [done|].
  change (length isr_error_strings) with 23%nat. lia.
Qed.

(** ** A general protection fault *)

Definition panic_strings : list string :=
  ["true"; "false"; "| DEBUG"; "| WARNING"; "| ERROR"; backspace; isr_text; panic_text; general_text; index_text; segment_text;
   error_text; fault_text; fatal_text; halting_text]%string ++ isr_error_strings.
Definition panic_literal (t : string) : Z :=
  match list_find (eq t) panic_strings with Some (i, _) => 0x2000 + 128 * Z.of_nat i | None => 0x8000 end.
Definition panic_memory : memory :=
  foldr (λ t, store_bytes (panic_literal t) (bytes_of_string t ++ [0])) ∅ panic_strings.
Definition panic_kernel : kernel :=
  Kernel (KernelConfig 0 0 0 0 0 0 0) (k_intr boot_kernel) (Console panic_memory {[0 := 0x3f8]} ∅ ∅) boot_fs 0 false.

Lemma panic_texts_example : panic_texts example_frame panic_literal panic_memory.
Proof.
  assert (∀ t, cstr panic_memory (panic_literal t) (bytes_of_string t) → 37 ∉ bytes_of_string t → example_frame 2 + frame_size <= panic_literal t →
    is_u32 (panic_literal t) → safe_text example_frame 2 panic_memory (panic_literal t) (bytes_of_string t)) as Hsafe.
  { intros t Hc Hp Ha Hr. split; [exact Hc|]. split; [exact Hp|]. split; [by right|exact Hr]. }
  split; [done| | |].
  - intros t Ht. repeat rewrite elem_of_cons in Ht.
    destruct Ht as [->|[->|[->|[->|[->|[->|Hnil]]]]]]; [..|by apply elem_of_nil in Hnil];
      (apply Hsafe; [cstr_by_computation|by_computation..]).
  - repeat (apply Forall_cons; split); [..|done]; (apply Hsafe; [cstr_by_computation|by_computation..]).
  - repeat (apply Forall_cons; split); [..|done]; (split; [cstr_by_computation|right; by_computation]).
Qed.

Lemma exception_reported_witness :
  ∃ s' regs, isr_handler example_frame panic_literal 0 regs panic_kernel = Ok (tt, s') ∧
    sent example_frame (bytes_of_string ("ISR: #GP On pid: 0" ++ line_feed ++ "Kernel Panic!" ++ line_feed ++
      "EAX: 0000BEEF EBX: 00000000 ECX: 00000000 EDX: 00000000" ++ line_feed ++
      "ESI: 00000000 EDI: 00000000 ESP: 00000000 EBP: 00000000" ++ line_feed ++
      "EIP: C0100000 CS: 00000010 DS: 00000000 SS: 00000000" ++ line_feed ++
      "Error Code: 00000008" ++ line_feed)) panic_kernel s'.
Proof.
  set (regs := Regs 0 0 0 0 0 0 0 0 0 0 0 0xbeef 13 8 0xc0100000 0x10 0 0 0).
  destruct (exception_reported example_frame panic_literal 0 "GP" regs panic_kernel) as (s' & Hrun & Hsent).
  - exact panic_texts_example.
  - reflexivity.
  - by_computation.
  - by_computation.
  - discriminate.
  - exists s', regs. split; [exact Hrun|]. exact Hsent.
Defined.
