(* ===== verification/Disk.v ===== *)
(** * Disk files (src/src/kmodules/disk_driver.c: read_disk, write_disk)

    Reading and writing of any number of bytes at any offset, by transfers of
    whole pages at sector boundaries.  The functions are written against the
    class [AtaChannel], what a channel promises of [ata_read] and [ata_write];
    [Ata] has the instance. *)
From S2P Require Import Prelude.

(** [ac_mem] is the memory as the driver addresses it and [ac_poke] a store to
    it, for the addresses in [ac_valid]; [ac_dma ptr n] says that the channel can
    transfer to and from the [n] pages at [ptr], [ac_other] that two drives are not
    the same disk.  A transfer has whole pages. *)
Class AtaChannel (S : Type) := {
  ac_ok : Z → S → Prop;
  ac_valid : Z → Prop;
  ac_mem : S → Z → Z;
  ac_poke : Z → Z → S → S;
  ac_disk : S → Z → Z → Z;
  ac_blocks : Z → Z → Z → Prop;
  ac_dma : Z → Z → Prop;
  ac_other : Z → Z → Prop;
  ac_read : Z → Z → Z → Z → M S Z;
  ac_write : Z → Z → Z → Z → M S Z;
  ac_poke_ok id a b s : ac_ok id s → ac_ok id (ac_poke a b s);
  ac_poke_disk a b s : ac_disk (ac_poke a b s) = ac_disk s;
  ac_poke_mem a b s x : ac_valid a → ac_valid x → ac_mem (ac_poke a b s) x = if decide (x = a) then b else ac_mem s x;
  ac_read_spec id ptr off count n s (Q : Z → S → Prop) :
    ac_ok id s → ac_dma ptr n → 0 < count → (count + 4095) / 4096 = n →
    0 <= off → off mod 512 = 0 → ac_blocks id off n →
    (∀ s', ac_ok id s' → ac_disk s' = ac_disk s →
       (∀ x, ac_valid x → ac_mem s' x =
          if decide (ptr <= x < ptr + n * PAGE_SIZE_BYTES) then ac_disk s id (off + (x - ptr)) else ac_mem s x) → Q 0 s') →
    wp (ac_read id ptr off count) Q s;
  ac_write_spec id ptr off count n s (Q : Z → S → Prop) :
    ac_ok id s → ac_dma ptr n → 0 < count → (count + 4095) / 4096 = n →
    0 <= off → off mod 512 = 0 → ac_blocks id off n →
    (∀ s', ac_ok id s' → (∀ x, ac_valid x → ac_mem s' x = ac_mem s x) →
       (∀ x, ac_disk s' id x =
          if decide (off <= x < off + n * PAGE_SIZE_BYTES) then ac_mem s (ptr + (x - off)) else ac_disk s id x) →
       (∀ j x, ac_other id j → ac_disk s' j x = ac_disk s j x) → Q 0 s') →
    wp (ac_write id ptr off count) Q s;
}.

Section disk.
Context {S : Type} `{AtaChannel S}.
(** The flag of a drive with 48-bit addresses, and the page that MODULE_API_MALLOC
    returns; it is freed again before the function returns. *)
Variable huge : Z → bool.
Variable bounce : Z.

Definition SECTOR_SZ : Z := 0x200.
Definition LBA28_BOUNDARY : Z := 0x20000.
Definition LBA48_BOUNDARY : Z := 0x2000000.
Definition min_u32 (a b : Z) : Z := if u32 a <? u32 b then u32 a else u32 b.

(** [memcpy] and the copying loops. *)
Definition copy_bytes (src dst n : Z) : M S unit :=
  for_all 0 n (λ i, modify (λ s, ac_poke (dst + i) (ac_mem s (src + i)) s)).

Definition max_size (id : Z) : Z := if huge id then LBA48_BOUNDARY else LBA28_BOUNDARY.
(** The size of the next transfer. *)
Definition chunk (max remaining_count : Z) : Z :=
  let to_read := min_u32 max remaining_count in
  if negb (Z.land to_read (PAGE_SIZE_BYTES - 1) =? 0) && (PAGE_SIZE_BYTES <? to_read)
  then u32 (to_read - Z.land to_read (PAGE_SIZE_BYTES - 1)) else to_read.

Definition read_chunks (id ptr offset count remaining_count : Z) : M S unit :=
  loop fuel32 (λ remaining_count,
    if 0 <? remaining_count then
      let to_read := chunk (max_size id) remaining_count in
      let done := u64 (count - remaining_count) in
      (if to_read <? PAGE_SIZE_BYTES then
         _ ← ac_read id bounce (u64 (offset + done)) PAGE_SIZE_BYTES;
         copy_bytes bounce (u32 (ptr + done)) to_read
       else
         _ ← ac_read id (u32 (ptr + done)) (u64 (offset + done)) to_read;
         skip);;
      mret (inl (u32 (remaining_count - to_read)))
    else mret (inr tt)) remaining_count.

(** [file] is the [id] of the file, [None] a null pointer. *)
Definition read_disk (file : option Z) (ptr offset count : Z) : M S Z :=
  match file with
  | None => mret 0
  | Some id =>
      if ptr =? 0 then mret 0
      else if count =? 0 then mret 0
      else
        let remaining_count := u32 count in
        if negb (Z.land offset 0x1ff =? 0) then
          let aligned_offset := u32 (Z.land offset (Z.lnot 0x1ff)) in
          _ ← ac_read id bounce aligned_offset SECTOR_SZ;
          copy_bytes (bounce + Z.land offset 0x1ff) ptr (min_u32 count (SECTOR_SZ - offset));;
          if count <=? u64 (SECTOR_SZ - offset) then mret (s32 count)
          else
            read_chunks id (u32 (ptr + (SECTOR_SZ - offset))) offset count
              (u32 (remaining_count - (SECTOR_SZ - Z.land offset 0x1ff)));;
            mret (s32 count)
        else
          read_chunks id ptr offset count remaining_count;;
          mret (s32 count)
  end.

Definition write_chunks (id ptr offset count remaining_count : Z) : M S unit :=
  loop fuel32 (λ remaining_count,
    if 0 <? remaining_count then
      let to_write := chunk (max_size id) remaining_count in
      let done := u64 (count - remaining_count) in
      (if to_write <? PAGE_SIZE_BYTES then
         _ ← ac_read id bounce (u64 (offset + done)) PAGE_SIZE_BYTES;
         copy_bytes (u32 (ptr + done)) bounce to_write;;
         _ ← ac_write id bounce (u64 (offset + done)) PAGE_SIZE_BYTES;
         skip
       else
         _ ← ac_write id (u32 (ptr + done)) (u64 (offset + done)) to_write;
         skip);;
      mret (inl (u32 (remaining_count - to_write)))
    else mret (inr tt)) remaining_count.

Definition write_disk (file : option Z) (ptr offset count : Z) : M S Z :=
  match file with
  | None => mret 0
  | Some id =>
      if ptr =? 0 then mret 0
      else if count =? 0 then mret 0
      else
        let remaining_count := u32 count in
        if negb (Z.land offset 0x1ff =? 0) then
          let aligned_offset := u32 (Z.land offset (Z.lnot 0x1ff)) in
          _ ← ac_read id bounce aligned_offset SECTOR_SZ;
          copy_bytes ptr (bounce + Z.land offset 0x1ff) (min_u32 count (SECTOR_SZ - offset));;
          _ ← ac_write id bounce aligned_offset SECTOR_SZ;
          if count <=? u64 (SECTOR_SZ - offset) then mret (s32 count)
          else
            write_chunks id (u32 (ptr + (SECTOR_SZ - offset))) offset count
              (u32 (remaining_count - (SECTOR_SZ - Z.land offset 0x1ff)));;
            mret (s32 count)
        else
          write_chunks id ptr offset count remaining_count;;
          mret (s32 count)
  end.

(** ** Transfers of any size, proved *)

(** The memory and the blocks a call uses: a buffer apart from the bounce page, whose
    chunks and whose last, partial page the channel can transfer. *)
Record usable (id ptr offset count : Z) : Prop := {
  us_valid : ∀ x, ptr <= x < ptr + count → ac_valid x;
  us_bounce : ∀ x, bounce <= x < bounce + PAGE_SIZE_BYTES → ac_valid x;
  us_apart : bounce + PAGE_SIZE_BYTES <= ptr ∨ ptr + count <= bounce;
  us_dma_bounce : ac_dma bounce 1;
  us_dma : ∀ j, 0 <= j → j * max_size id + PAGE_SIZE_BYTES <= count →
    ac_dma (ptr + j * max_size id) (chunk (max_size id) (count - j * max_size id) / PAGE_SIZE_BYTES);
  us_blocks : ∀ k n, 0 <= k < count → 0 < n → n * PAGE_SIZE_BYTES <= max_size id → k + n * PAGE_SIZE_BYTES < count + PAGE_SIZE_BYTES →
    ac_blocks id (offset + k) n;
  us_ptr : 0 < ptr;
  us_end : ptr + count <= 2 ^ 32;
  us_count : 0 < count < 2 ^ 31;
  us_offset : 0 <= offset ∧ offset + count < 2 ^ 64;
}.

(** The bytes of the bounce page are of no interest. *)
Definition elsewhere (x : Z) : Prop := ac_valid x ∧ ¬ (bounce <= x < bounce + PAGE_SIZE_BYTES).

Lemma copy_bytes_wp id src dst n (Q : unit → S → Prop) s :
  0 <= n → ac_ok id s → (∀ x, dst <= x < dst + n → ac_valid x) → (∀ x, src <= x < src + n → ac_valid x) →
  (dst + n <= src ∨ src + n <= dst) →
  (∀ s', ac_ok id s' → ac_disk s' = ac_disk s →
     (∀ x, ac_valid x → ac_mem s' x = if decide (dst <= x < dst + n) then ac_mem s (src + (x - dst)) else ac_mem s x) → Q tt s') →
  wp (copy_bytes src dst n) Q s.
Proof.
  intros Hn Hok Hd Hs Hap HQ. unfold copy_bytes.
  apply (wp_for_all (λ k s', ac_ok id s' ∧ ac_disk s' = ac_disk s ∧
    ∀ x, ac_valid x → ac_mem s' x = if decide (dst <= x < dst + k) then ac_mem s (src + (x - dst)) else ac_mem s x)); [done| | |].
  - split_and!; [done..|]. intros x Hx. by rewrite decide_False by lia.
  - intros k s' Hk (Hok' & Hdisk & Hmem). wp. split_and!; [by apply ac_poke_ok|by rewrite ac_poke_disk|].
    intros x Hx. rewrite ac_poke_mem by (done || (apply Hd; lia)).
    destruct (decide (x = dst + k)) as [->|Hne].
    + rewrite decide_True by lia. rewrite Hmem by (apply Hs; lia). rewrite decide_False by lia. f_equal. lia.
    + rewrite Hmem by done. repeat case_decide; done || lia.
  - intros s' (Hok' & Hdisk & Hmem). by apply HQ.
Qed.

Lemma max_size_pages id : max_size id mod PAGE_SIZE_BYTES = 0 ∧ 0x20000 <= max_size id <= 0x2000000.
Proof using Type. unfold max_size. by destruct (huge id). Qed.

(** The next transfer is the rest, the largest one, or the whole pages of the rest. *)
Lemma chunk_cases id r :
  0 < r < 2 ^ 31 →
  let c := chunk (max_size id) r in
  0 < c <= r ∧
  ((r < PAGE_SIZE_BYTES ∧ c = r) ∨
   (PAGE_SIZE_BYTES <= r ∧ c mod PAGE_SIZE_BYTES = 0 ∧ c <= max_size id ∧ (c = max_size id ∨ r - c < PAGE_SIZE_BYTES))).
Proof using Type.
  intros Hr. destruct (max_size_pages id) as [Hm [Hm1 Hm2]]. unfold chunk, min_u32, PAGE_SIZE_BYTES in *.
  rewrite !u32_id by (unfold is_u32; lia). change (4096 - 1) with (Z.ones 12). rewrite !land_low by lia. change (2 ^ 12) with 4096.
  set (m := max_size id) in *. clearbody m.
  destruct (Z.ltb_spec m r) as [Hlt|Hge].
  - rewrite Hm. cbn [Z.eqb negb andb]. split; [lia|]. right. lia.
  - pose proof (Z.mod_pos_bound r 4096 ltac:(lia)).
    destruct (Z.eqb_spec (r mod 4096) 0) as [Hz|Hnz]; cbn [negb andb]; [split; [lia|]; destruct (decide (r < 4096)); [left|right]; lia|].
    destruct (Z.ltb_spec 4096 r) as [Hbig|Hsmall]; [|split; [lia|]; destruct (decide (r = 4096)) as [->|]; [done|left; lia]].
    rewrite u32_id by (unfold is_u32; lia). assert ((r - r mod 4096) mod 4096 = 0) as Hmod.
    { rewrite Zminus_mod_idemp_r. by rewrite Z.sub_diag. }
    split; [|right; lia]. split; [|lia]. pose proof (Z.mod_le r 4096 ltac:(lia) ltac:(lia)). lia.
Qed.

(** How far a call has come: to the end, or to the start of a transfer. *)
Definition reached (id count done : Z) : Prop :=
  done = count ∨
  (0 <= done < count ∧ done mod 512 = 0 ∧ (count - done < PAGE_SIZE_BYTES ∨ done mod max_size id = 0)).

(** The transfer made from there: the bounce page for the last bytes, or whole
    pages of the buffer. *)
Lemma next_chunk id ptr offset count done :
  usable id ptr offset count → reached id count done → done < count →
  let c := chunk (max_size id) (count - done) in
  0 < c <= count - done ∧ done mod 512 = 0 ∧ reached id count (done + c) ∧
  (c < PAGE_SIZE_BYTES → ac_blocks id (offset + done) 1) ∧
  (PAGE_SIZE_BYTES <= c → (c + 4095) / 4096 = c / PAGE_SIZE_BYTES ∧ c / PAGE_SIZE_BYTES * PAGE_SIZE_BYTES = c ∧
     ac_dma (ptr + done) (c / PAGE_SIZE_BYTES) ∧ ac_blocks id (offset + done) (c / PAGE_SIZE_BYTES)).
Proof using Type.
  intros Hus [->|(Hd & H512 & Hm)] Hlt; [lia|]. destruct Hus as [_ _ _ _ Hdma Hblk _ _ Hcount _].
  destruct (max_size_pages id) as [Hmp [Hm1 Hm2]].
  destruct (chunk_cases id (count - done) ltac:(lia)) as [Hcb Hcases]. set (c := chunk _ _) in *.
  cbv zeta. unfold PAGE_SIZE_BYTES in *. split; [done|]. split; [done|].
  destruct Hcases as [[Hr Hc]|(Hr & Hmod & Hcm & Hor)].
  - split; [left; lia|]. split; [|lia]. intros _. apply Hblk; lia.
  - assert (c = 4096 * (c / 4096)) as Hq by (pose proof (Z.div_mod c 4096 ltac:(lia)); lia).
    split; [|split; [lia|]].
    + destruct (decide (done + c = count)) as [|Hne]; [by left|]. right. unfold PAGE_SIZE_BYTES. split; [lia|]. split.
      * rewrite Z.add_mod, H512 by lia. replace (c mod 512) with 0; [done|].
        rewrite Hq. replace (4096 * (c / 4096)) with (8 * (c / 4096) * 512) by lia. by rewrite Z.mod_mul.
      * destruct Hor as [He|]; [|left; lia]. right. destruct Hm as [|Hm]; [lia|]. rewrite He.
        rewrite <- Z.add_mod_idemp_r, Z.mod_same by lia. by rewrite Z.add_0_r.
    + intros _. destruct Hm as [|Hm]; [lia|]. split_and!; [|lia| |apply Hblk; lia].
      * rewrite Hq at 1. rewrite Z.mul_comm, Z.div_add_l by lia. rewrite (Z.div_small 4095) by lia. lia.
      * assert (done = done / max_size id * max_size id) as Hj by (pose proof (Z.div_mod done (max_size id) ltac:(lia)); lia).
        pose proof (Hdma (done / max_size id)) as Hdj. rewrite <- Hj in Hdj. apply Hdj; [apply Z.div_pos; lia|lia].
Qed.

(** The loop works on what is left of [count + k] bytes: [k] of them are done. *)
Lemma read_chunks_wp k id ptr offset count (Q : unit → S → Prop) s :
  0 <= k < 2 ^ 32 → usable id ptr offset count → ac_ok id s → offset mod 512 = 0 →
  (∀ s', ac_ok id s' → ac_disk s' = ac_disk s →
     (∀ x, elsewhere x → ac_mem s' x =
        if decide (ptr <= x < ptr + count) then ac_disk s id (offset + (x - ptr)) else ac_mem s x) → Q tt s') →
  wp (read_chunks id (ptr - k) (offset - k) (count + k) count) Q s.
Proof using Type.
  intros Hk Hus Hok Ho HQ. pose proof Hus as [Hval Hbv Hap Hdb _ _ Hp0 Hpe Hcount Hoff]. unfold read_chunks.
  apply (wp_loop (λ r s', reached id count (count - r) ∧ 0 <= r ∧ ac_ok id s' ∧ ac_disk s' = ac_disk s ∧
    ∀ x, elsewhere x → ac_mem s' x =
      if decide (ptr <= x < ptr + (count - r)) then ac_disk s id (offset + (x - ptr)) else ac_mem s x) (λ r _, r)).
  - split_and!; try (done || lia).
    + right. split_and!; [lia|lia|by rewrite Z.sub_diag|right]. by rewrite Z.sub_diag, Z.mod_0_l by (destruct (max_size_pages id); lia).
    + intros x Hx. by rewrite decide_False by lia.
  - unfold fuel32. lia.
  - intros r s' (_ & ? & _). lia.
  - intros r s' (Hr & Hr0 & Hok' & Hdisk & Hmem). destruct (Z.ltb_spec 0 r) as [Hlt|Hge].
    2:{ wp. apply HQ; [done..|]. intros x Hx. rewrite Hmem by done. by replace (count - r) with count by lia. }
    assert (r <= count) by (destruct Hr; lia).
    destruct (next_chunk id ptr offset count (count - r) Hus Hr ltac:(lia)) as (Hc & H512 & Hnext & Hone & Hpages).
    replace (count - (count - r)) with r in * by lia. set (c := chunk (max_size id) r) in *. cbv zeta.
    assert (u64 (count + k - r) = count + k - r) as -> by (unfold u64; apply Z.mod_small; lia).
    replace (offset - k + (count + k - r)) with (offset + (count - r)) by lia.
    replace (ptr - k + (count + k - r)) with (ptr + (count - r)) by lia.
    assert (u64 (offset + (count - r)) = offset + (count - r)) as -> by (unfold u64; apply Z.mod_small; lia).
    rewrite (u32_id (ptr + (count - r))), (u32_id (r - c)) by (unfold is_u32; lia).
    assert ((offset + (count - r)) mod 512 = 0) as Hal by (by rewrite Z.add_mod, Ho, H512 by lia).
    assert (∀ s2, ac_ok id s2 → ac_disk s2 = ac_disk s' →
      (∀ x, elsewhere x → ac_mem s2 x = if decide (ptr + (count - r) <= x < ptr + (count - r) + c)
         then ac_disk s id (offset + (x - ptr)) else ac_mem s' x) →
      (reached id count (count - (r - c)) ∧ 0 <= r - c ∧ ac_ok id s2 ∧ ac_disk s2 = ac_disk s ∧
       ∀ x, elsewhere x → ac_mem s2 x =
         if decide (ptr <= x < ptr + (count - (r - c))) then ac_disk s id (offset + (x - ptr)) else ac_mem s x) ∧ r - c < r) as Hstep.
    { intros s2 Hok2 Hd2 Hm2. split; [|lia]. replace (count - (r - c)) with (count - r + c) by lia.
      split_and!; [done|lia|done|congruence|]. intros x Hx. rewrite Hm2, Hmem by done. repeat case_decide; done || lia. }
    destruct (Z.ltb_spec c PAGE_SIZE_BYTES) as [Hs|Hb]; wp.
    + apply (ac_read_spec _ _ _ _ 1); try done; [lia|by apply Hone|]. intros s1 Hok1 Hd1 Hm1. wp. unfold PAGE_SIZE_BYTES in *.
      apply (copy_bytes_wp id); [lia|done|intros; apply Hval; lia|intros; apply Hbv; lia|lia|].
      intros s2 Hok2 Hd2 Hm2. wp. apply Hstep; [done|congruence|]. intros x Hx. rewrite Hm2 by apply Hx.
      case_decide; [|].
      * rewrite Hm1 by (apply Hbv; lia). rewrite decide_True by lia. rewrite Hdisk. f_equal. lia.
      * rewrite Hm1 by apply Hx. rewrite decide_False; [done|]. destruct Hx as [_ Hx]. unfold PAGE_SIZE_BYTES in Hx. lia.
    + destruct (Hpages Hb) as (Hn & Hnc & Hdma & Hblk).
      apply (ac_read_spec _ _ _ _ (c / PAGE_SIZE_BYTES)); try done; [lia|lia|]. intros s1 Hok1 Hd1 Hm1. wp. rewrite Hnc in Hm1.
      apply Hstep; [done|done|]. intros x Hx. rewrite Hm1 by apply Hx. rewrite Hdisk. case_decide; [f_equal; lia|done].
Qed.

Lemma write_chunks_wp id ptr offset count (Q : unit → S → Prop) s :
  usable id ptr offset count → ac_ok id s → offset mod 512 = 0 →
  (∀ s', ac_ok id s' → (∀ x, elsewhere x → ac_mem s' x = ac_mem s x) →
     (∀ x, ac_disk s' id x =
        if decide (offset <= x < offset + count) then ac_mem s (ptr + (x - offset)) else ac_disk s id x) →
     (∀ j x, ac_other id j → ac_disk s' j x = ac_disk s j x) → Q tt s') →
  wp (write_chunks id ptr offset count count) Q s.
Proof using Type.
  intros Hus Hok Ho HQ. pose proof Hus as [Hval Hbv Hap Hdb _ _ Hp0 Hpe Hcount Hoff]. unfold write_chunks.
  assert (∀ x, ptr <= x < ptr + count → elsewhere x) as Hbuf.
  { intros x Hx. split; [by apply Hval|]. unfold PAGE_SIZE_BYTES in *. lia. }
  apply (wp_loop (λ r s', reached id count (count - r) ∧ 0 <= r ∧ ac_ok id s' ∧
    (∀ x, elsewhere x → ac_mem s' x = ac_mem s x) ∧
    (∀ x, ac_disk s' id x =
      if decide (offset <= x < offset + (count - r)) then ac_mem s (ptr + (x - offset)) else ac_disk s id x) ∧
    ∀ j x, ac_other id j → ac_disk s' j x = ac_disk s j x) (λ r _, r)).
  - split_and!; try (done || lia).
    + right. split_and!; [lia|lia|by rewrite Z.sub_diag|right]. by rewrite Z.sub_diag, Z.mod_0_l by (destruct (max_size_pages id); lia).
    + intros x. by rewrite decide_False by lia.
  - unfold fuel32. lia.
  - intros r s' (_ & ? & _). lia.
  - intros r s' (Hr & Hr0 & Hok' & Hmem & Hdisk & Hoth). destruct (Z.ltb_spec 0 r) as [Hlt|Hge].
    2:{ wp. apply HQ; [done..| |done]. intros x. rewrite Hdisk. by replace (count - r) with count by lia. }
    assert (r <= count) by (destruct Hr; lia).
    destruct (next_chunk id ptr offset count (count - r) Hus Hr ltac:(lia)) as (Hc & H512 & Hnext & Hone & Hpages).
    replace (count - (count - r)) with r in * by lia. set (c := chunk (max_size id) r) in *. cbv zeta.
    assert (u64 (count - r) = count - r) as -> by (unfold u64; apply Z.mod_small; lia).
    assert (u64 (offset + (count - r)) = offset + (count - r)) as -> by (unfold u64; apply Z.mod_small; lia).
    rewrite (u32_id (ptr + (count - r))), (u32_id (r - c)) by (unfold is_u32; lia).
    assert ((offset + (count - r)) mod 512 = 0) as Hal by (by rewrite Z.add_mod, Ho, H512 by lia).
    assert (∀ s2, ac_ok id s2 → (∀ x, elsewhere x → ac_mem s2 x = ac_mem s' x) →
      (∀ x, ac_disk s2 id x = if decide (offset + (count - r) <= x < offset + (count - r) + c)
         then ac_mem s (ptr + (x - offset)) else ac_disk s' id x) →
      (∀ j x, ac_other id j → ac_disk s2 j x = ac_disk s' j x) →
      (reached id count (count - (r - c)) ∧ 0 <= r - c ∧ ac_ok id s2 ∧ (∀ x, elsewhere x → ac_mem s2 x = ac_mem s x) ∧
       (∀ x, ac_disk s2 id x =
         if decide (offset <= x < offset + (count - (r - c))) then ac_mem s (ptr + (x - offset)) else ac_disk s id x) ∧
       ∀ j x, ac_other id j → ac_disk s2 j x = ac_disk s j x) ∧ r - c < r) as Hstep.
    { intros s2 Hok2 Hm2 Hd2 Ho2. split; [|lia]. replace (count - (r - c)) with (count - r + c) by lia.
      split_and!; [done|lia|done|intros; rewrite Hm2 by done; by apply Hmem| |intros; rewrite Ho2 by done; by apply Hoth].
      intros x. rewrite Hd2, Hdisk. repeat case_decide; done || lia. }
    destruct (Z.ltb_spec c PAGE_SIZE_BYTES) as [Hs|Hb]; wp.
    + apply (ac_read_spec _ _ _ _ 1); try done; [lia|by apply Hone|]. intros s1 Hok1 Hd1 Hm1. wp. unfold PAGE_SIZE_BYTES in *.
      apply (copy_bytes_wp id); [lia|done|intros; apply Hbv; lia|intros; apply Hval; lia|lia|].
      intros s2 Hok2 Hd2 Hm2. wp. apply (ac_write_spec _ _ _ _ 1); try done; [lia|by apply Hone|].
      intros s3 Hok3 Hm3 Hd3 Ho3. wp. unfold PAGE_SIZE_BYTES in *.
      apply Hstep; [done| | |intros; rewrite Ho3 by done; congruence].
      * intros x [Hx1 Hx2]. unfold PAGE_SIZE_BYTES in Hx2. rewrite Hm3, Hm2 by done. rewrite decide_False by lia.
        rewrite Hm1 by done. by rewrite decide_False by lia.
      * intros x. rewrite Hd3. destruct (decide (_ <= x < _ + 1 * 4096)) as [Hx|Hx].
        -- rewrite Hm2 by (apply Hbv; lia). case_decide as Hin.
           ++ rewrite decide_True by lia. rewrite Hm1 by (apply Hval; lia). rewrite decide_False by lia. rewrite Hmem by (apply Hbuf; lia).
              f_equal. lia.
           ++ rewrite decide_False by lia. rewrite Hm1 by (apply Hbv; lia). rewrite decide_True by lia. f_equal. lia.
        -- rewrite Hd2, Hd1. by rewrite decide_False by lia.
    + destruct (Hpages Hb) as (Hn & Hnc & Hdma & Hblk).
      apply (ac_write_spec _ _ _ _ (c / PAGE_SIZE_BYTES)); try done; [lia|lia|]. intros s1 Hok1 Hm1 Hd1 Ho1. wp. rewrite Hnc in Hd1.
      apply Hstep; [done|intros x Hx; apply Hm1, Hx| |done]. intros x. rewrite Hd1. case_decide as Hx; [|done].
      rewrite Hmem by (apply Hbuf; lia). f_equal. lia.
Qed.

Lemma s32_count n : 0 < n < 2 ^ 31 → s32 n = n.
Proof using Type. intros Hn. unfold s32. rewrite Z.mod_small; lia. Qed.
Lemma land_sector x : Z.land x 0x1ff = x mod 512.
Proof using Type. change 0x1ff with (Z.ones 9). by apply land_low. Qed.

Lemma read_disk_wp id ptr offset count (Q : Z → S → Prop) s :
  usable id ptr offset count → ac_ok id s → offset mod 512 = 0 →
  (∀ s', ac_ok id s' → ac_disk s' = ac_disk s →
     (∀ x, elsewhere x → ac_mem s' x =
        if decide (ptr <= x < ptr + count) then ac_disk s id (offset + (x - ptr)) else ac_mem s x) → Q count s') →
  wp (read_disk (Some id) ptr offset count) Q s.
Proof using Type.
  intros Hus Hok Ho HQ. pose proof Hus as [_ _ _ _ _ _ Hp0 Hpe Hcount Hoff].
  unfold read_disk. rewrite !(proj2 (Z.eqb_neq _ 0)) by lia. rewrite land_sector, Ho. cbn [Z.eqb negb].
  rewrite (u32_id count) by (unfold is_u32; lia). wp.
  rewrite <- (Z.sub_0_r ptr) at 1. rewrite <- (Z.sub_0_r offset) at 1. rewrite <- (Z.add_0_r count) at 1.
  apply read_chunks_wp; [done..|]. intros s' H1 H2 H3. wp. rewrite s32_count by done. by apply HQ.
Qed.

Lemma write_disk_wp id ptr offset count (Q : Z → S → Prop) s :
  usable id ptr offset count → ac_ok id s → offset mod 512 = 0 →
  (∀ s', ac_ok id s' → (∀ x, elsewhere x → ac_mem s' x = ac_mem s x) →
     (∀ x, ac_disk s' id x =
        if decide (offset <= x < offset + count) then ac_mem s (ptr + (x - offset)) else ac_disk s id x) →
     (∀ j x, ac_other id j → ac_disk s' j x = ac_disk s j x) → Q count s') →
  wp (write_disk (Some id) ptr offset count) Q s.
Proof using Type.
  intros Hus Hok Ho HQ. pose proof Hus as [_ _ _ _ _ _ Hp0 Hpe Hcount Hoff].
  unfold write_disk. rewrite !(proj2 (Z.eqb_neq _ 0)) by lia. rewrite land_sector, Ho. cbn [Z.eqb negb].
  rewrite (u32_id count) by (unfold is_u32; lia). wp. apply write_chunks_wp; [done..|]. intros s' H1 H2 H3 H4. wp.
  rewrite s32_count by done. by apply HQ.
Qed.

(** Reading from the disk.  From any sector on, any number of bytes arrives in
    the buffer, byte for byte what is on the disk, however the call is cut into
    transfers; memory outside of the buffer and of the bounce page is what it
    was, and the count is returned. *)
Theorem read_disk_delivers id ptr offset count s :
  usable id ptr offset count → ac_ok id s → offset mod 512 = 0 →
  ∃ s', read_disk (Some id) ptr offset count s = Ok (count, s') ∧ ac_ok id s' ∧ ac_disk s' = ac_disk s ∧
    ∀ x, elsewhere x → ac_mem s' x =
      if decide (ptr <= x < ptr + count) then ac_disk s id (offset + (x - ptr)) else ac_mem s x.
Proof using Type.
  intros Hus Hok Ho.
  destruct (proj1 (wp_ok (read_disk (Some id) ptr offset count) (λ r s', r = count ∧ ac_ok id s' ∧ ac_disk s' = ac_disk s ∧
    ∀ x, elsewhere x → ac_mem s' x =
      if decide (ptr <= x < ptr + count) then ac_disk s id (offset + (x - ptr)) else ac_mem s x) s)) as (r & s' & Hrun & -> & Hpost);
    [|by exists s'].
  by apply read_disk_wp.
Qed.

(** Writing to the disk.  From any sector on, exactly the bytes of the buffer
    are stored in their place: no other byte of this disk or of another one
    changes, also when the last page is written only in part. *)
Theorem write_disk_stores id ptr offset count s :
  usable id ptr offset count → ac_ok id s → offset mod 512 = 0 →
  ∃ s', write_disk (Some id) ptr offset count s = Ok (count, s') ∧ ac_ok id s' ∧
    (∀ x, elsewhere x → ac_mem s' x = ac_mem s x) ∧
    (∀ x, ac_disk s' id x =
      if decide (offset <= x < offset + count) then ac_mem s (ptr + (x - offset)) else ac_disk s id x) ∧
    ∀ j x, ac_other id j → ac_disk s' j x = ac_disk s j x.
Proof using Type.
  intros Hus Hok Ho.
  destruct (proj1 (wp_ok (write_disk (Some id) ptr offset count) (λ r s', r = count ∧ ac_ok id s' ∧
    (∀ x, elsewhere x → ac_mem s' x = ac_mem s x) ∧ (∀ x, ac_disk s' id x =
      if decide (offset <= x < offset + count) then ac_mem s (ptr + (x - offset)) else ac_disk s id x) ∧
    ∀ j x, ac_other id j → ac_disk s' j x = ac_disk s j x) s))
    as (r & s' & Hrun & -> & Hpost); [|by exists s'].
  by apply write_disk_wp.
Qed.

Lemma sector_start offset : 0 <= offset → offset - offset mod 512 = 512 * (offset / 512).
Proof using Type. intros. pose proof (Z.div_mod offset 512 ltac:(lia)). lia. Qed.
Lemma aligned_offset_eq offset : is_u32 offset → u32 (Z.land offset (Z.lnot 0x1ff)) = 512 * (offset / 512).
Proof using Type.
  intros [H0 H1]. change (Z.land offset (Z.lnot 0x1ff)) with (Z.ldiff offset (Z.ones 9)) || rewrite <- Z.ldiff_land.
  change 0x1ff with (Z.ones 9). rewrite Z.ldiff_ones_r, Z.shiftl_mul_pow2, Z.shiftr_div_pow2 by lia. change (2 ^ 9) with 512.
  rewrite u32_id; [lia|]. unfold is_u32. pose proof (Z.div_mod offset 512 ltac:(lia)). pose proof (Z.mod_pos_bound offset 512 ltac:(lia)). lia.
Qed.

(** The first, partial sector through the bounce page. *)
Lemma read_head_wp (rest : M S Z) id ptr offset count n (Q : Z → S → Prop) s :
  ac_ok id s → 0 < offset < 2 ^ 32 → 0 <= n → offset mod 512 + n <= PAGE_SIZE_BYTES → n = min_u32 count (SECTOR_SZ - offset) →
  (∀ x, ptr <= x < ptr + n → ac_valid x) → (∀ x, bounce <= x < bounce + PAGE_SIZE_BYTES → ac_valid x) →
  (bounce + PAGE_SIZE_BYTES <= ptr ∨ ptr + n <= bounce) → ac_dma bounce 1 → ac_blocks id (512 * (offset / 512)) 1 →
  (∀ s', ac_ok id s' → ac_disk s' = ac_disk s →
     (∀ x, elsewhere x → ac_mem s' x = if decide (ptr <= x < ptr + n) then ac_disk s id (offset + (x - ptr)) else ac_mem s x) →
     wp rest Q s') →
  wp (_ ← ac_read id bounce (u32 (Z.land offset (Z.lnot 0x1ff))) SECTOR_SZ;
      copy_bytes (bounce + Z.land offset 0x1ff) ptr (min_u32 count (SECTOR_SZ - offset));; rest) Q s.
Proof using Type.
  intros Hok Ho Hn Hfit Hne Hv Hbv Hap Hdma Hblk HQ. rewrite aligned_offset_eq by (unfold is_u32; lia). wp.
  pose proof (sector_start offset ltac:(lia)) as Hst. pose proof (Z.mod_pos_bound offset 512 ltac:(lia)) as Hm.
  apply (ac_read_spec _ _ _ _ 1); try done; [lia|by rewrite Z.mul_comm, Z.mod_mul|].
  intros s1 Hok1 Hd1 Hm1. wp. rewrite <- Hne, land_sector. unfold PAGE_SIZE_BYTES in *.
  apply (copy_bytes_wp id); [done|done|done|intros; apply Hbv; lia|lia|].
  intros s2 Hok2 Hd2 Hm2. apply HQ; [done|congruence|]. intros x [Hx Hx2]. unfold PAGE_SIZE_BYTES in Hx2. rewrite Hm2 by done. case_decide.
  - rewrite Hm1 by (apply Hbv; lia). rewrite decide_True by lia. f_equal. lia.
  - rewrite Hm1 by done. by rewrite decide_False by lia.
Qed.

(** Reading from the middle of a sector.  In the first sector of the disk the
    head of the read is right, but what follows is put too far back by the size
    of the head: a gap of that size keeps its old contents, and as many
    bytes are overwritten behind the buffer. *)
Theorem read_disk_shifts_tail id ptr offset count s :
  let h := 512 - offset in
  0 < offset < 512 → h < count → ac_ok id s → usable id (ptr + 2 * h) 512 (count - h) → 0 < ptr → count < 2 ^ 31 →
  (∀ x, ptr <= x < ptr + h → ac_valid x) → bounce + PAGE_SIZE_BYTES <= ptr ∨ ptr + h <= bounce → ac_blocks id 0 1 →
  ∃ s', read_disk (Some id) ptr offset count s = Ok (count, s') ∧
    ∀ x, elsewhere x → ac_mem s' x =
      if decide (ptr <= x < ptr + h) then ac_disk s id (offset + (x - ptr))
      else if decide (ptr + 2 * h <= x < ptr + h + count) then ac_disk s id (512 + (x - (ptr + 2 * h)))
      else ac_mem s x.
Proof using Type.
  intros h Ho Hc Hok Hus Hp0 Hc2 Hv Hap Hblk. pose proof Hus as [_ Hbv _ Hdma _ _ _ Hpe _ _].
  destruct (proj1 (wp_ok (read_disk (Some id) ptr offset count) (λ r s', r = count ∧ ∀ x, elsewhere x → ac_mem s' x =
      if decide (ptr <= x < ptr + h) then ac_disk s id (offset + (x - ptr))
      else if decide (ptr + 2 * h <= x < ptr + h + count) then ac_disk s id (512 + (x - (ptr + 2 * h)))
      else ac_mem s x) s)) as (r & s' & Hrun & -> & Hpost); [|by exists s'].
  assert (min_u32 count (SECTOR_SZ - offset) = h) as Hmin.
  { unfold min_u32, SECTOR_SZ. fold h. rewrite !u32_id by (unfold is_u32, h in *; lia). by rewrite (proj2 (Z.ltb_ge _ _)) by lia. }
  assert (offset mod 512 = offset) as Hmod by (apply Z.mod_small; lia).
  assert (offset / 512 = 0) as Hdiv by (apply Z.div_small; lia).
  unfold read_disk. rewrite !(proj2 (Z.eqb_neq _ 0)) by (rewrite ?land_sector; unfold h in *; lia). cbn [negb].
  apply (read_head_wp _ _ _ _ _ h); try done; try (unfold h, PAGE_SIZE_BYTES in *; lia); [by rewrite Hdiv|].
  intros s1 Hok1 Hd1 Hm1. assert (u64 (SECTOR_SZ - offset) = h) as -> by (unfold u64, SECTOR_SZ; apply Z.mod_small; unfold h in *; lia).
  rewrite (proj2 (Z.leb_gt _ _)) by lia. rewrite land_sector, Hmod. unfold SECTOR_SZ. fold h.
  rewrite (u32_id count) by (unfold is_u32; lia).
  rewrite (u32_id (ptr + h)), (u32_id (count - h)) by (unfold is_u32, h in *; lia). wp.
  replace (ptr + h) with (ptr + 2 * h - h) by lia. replace offset with (512 - h) at 1 by (unfold h; lia).
  replace count with (count - h + h) at 1 by lia.
  apply read_chunks_wp; [unfold h in *; lia|done..|]. intros s2 Hok2 Hd2 Hm2. wp. split; [apply s32_count; lia|].
  intros x Hx. rewrite Hm2, Hd1 by done. rewrite Hm1 by done. unfold h in *. repeat case_decide; done || lia.
Qed.

(** A read that starts anywhere in a sector and stays in the page behind the
    sector's start is right, when it is in the first sector or ends with it. *)
Theorem read_disk_short_unaligned id ptr offset count s :
  let n := offset mod 512 + count in
  0 < offset → offset mod 512 ≠ 0 → 0 < count → offset + count <= 2 ^ 32 → (if offset <? 512 then n <= 512 else n <= PAGE_SIZE_BYTES) →
  ac_ok id s → 0 < ptr → (∀ x, ptr <= x < ptr + count → ac_valid x) → (∀ x, bounce <= x < bounce + PAGE_SIZE_BYTES → ac_valid x) →
  bounce + PAGE_SIZE_BYTES <= ptr ∨ ptr + count <= bounce → ac_dma bounce 1 → ac_blocks id (512 * (offset / 512)) 1 →
  ∃ s', read_disk (Some id) ptr offset count s = Ok (count, s') ∧ ac_disk s' = ac_disk s ∧
    ∀ x, elsewhere x → ac_mem s' x =
      if decide (ptr <= x < ptr + count) then ac_disk s id (offset + (x - ptr)) else ac_mem s x.
Proof using Type.
  intros n Ho Hm Hc Hend Hn Hok Hp0 Hv Hbv Hap Hdma Hblk. pose proof (Z.mod_pos_bound offset 512 ltac:(lia)) as Hmb.
  assert (count <= PAGE_SIZE_BYTES) as Hc4 by (unfold n, PAGE_SIZE_BYTES in *; case_match; lia).
  destruct (proj1 (wp_ok (read_disk (Some id) ptr offset count) (λ r s', r = count ∧ ac_disk s' = ac_disk s ∧
    ∀ x, elsewhere x → ac_mem s' x =
      if decide (ptr <= x < ptr + count) then ac_disk s id (offset + (x - ptr)) else ac_mem s x) s))
    as (r & s' & Hrun & -> & Hpost); [|by exists s'].
  unfold PAGE_SIZE_BYTES in Hc4.
  assert (min_u32 count (SECTOR_SZ - offset) = count) as Hmin.
  { unfold min_u32, SECTOR_SZ. rewrite (u32_id count) by (unfold is_u32; lia).
    destruct (Z.ltb_spec offset 512) as [Hlt|Hge].
    - rewrite (u32_id (512 - offset)) by (unfold is_u32; lia).
      assert (offset mod 512 = offset) as Hmod by (apply Z.mod_small; lia). unfold n in Hn. rewrite Hmod in Hn.
      destruct (Z.ltb_spec count (512 - offset)); lia.
    - assert (u32 (512 - offset) = 2 ^ 32 + 512 - offset) as ->.
      { unfold u32. rewrite <- (Z.mod_add _ 1) by lia. rewrite Z.mod_small; [lia|].
        destruct (decide (offset = 512)) as [->|]; [done|]. lia. }
      by rewrite (proj2 (Z.ltb_lt _ _)) by lia. }
  unfold read_disk. rewrite !(proj2 (Z.eqb_neq _ 0)) by (rewrite ?land_sector; lia). cbn [negb].
  apply (read_head_wp _ _ _ _ _ count); try done; try lia; [unfold n, PAGE_SIZE_BYTES in *; case_match; lia|].
  intros s1 Hok1 Hd1 Hm1.
  rewrite (proj2 (Z.leb_le _ _)); [wp; split; [apply s32_count; lia|done]|].
  unfold u64, SECTOR_SZ. destruct (Z.ltb_spec offset 512) as [Hlt|Hge].
  - rewrite Z.mod_small; [|lia]. unfold n in Hn. rewrite Z.mod_small in Hn by lia. lia.
  - destruct (decide (offset = 512)) as [->|]; [done|].
    rewrite <- (Z.mod_add _ 1) by lia. rewrite Z.mod_small; lia.
Qed.

(** What is written is read back: a write followed by a read of the same range
    into another buffer fills that buffer with the bytes written. *)
Theorem disk_write_read id ptr ptr2 offset count s :
  usable id ptr offset count → usable id ptr2 offset count → ac_ok id s → offset mod 512 = 0 →
  ∃ s1 s2, write_disk (Some id) ptr offset count s = Ok (count, s1) ∧
    read_disk (Some id) ptr2 offset count s1 = Ok (count, s2) ∧
    ∀ k, 0 <= k < count → ac_mem s2 (ptr2 + k) = ac_mem s (ptr + k).
Proof using Type.
  intros Hus Hus2 Hok Ho. pose proof Hus as [_ _ _ _ _ _ Hp0 Hpe Hcount Hoff]. pose proof Hus2 as [Hv2 _ Hap2 _ _ _ Hp2 _ _ _].
  destruct (proj1 (wp_ok (write_disk (Some id) ptr offset count) (λ r s1, r = count ∧
    wp (read_disk (Some id) ptr2 offset count) (λ r2 s2, r2 = count ∧
      ∀ k, 0 <= k < count → ac_mem s2 (ptr2 + k) = ac_mem s (ptr + k)) s1) s)) as (r & s1 & Hw & -> & Hr).
  { apply write_disk_wp; [done..|]. intros s1 Hok1 Hm1 Hd1 _. split; [done|].
    apply read_disk_wp; [done..|]. intros s2 Hok2 Hd2 Hm2. split; [done|]. intros k Hk.
    unfold PAGE_SIZE_BYTES in *. rewrite Hm2 by (split; [apply Hv2; lia|unfold PAGE_SIZE_BYTES; lia]).
    rewrite decide_True by lia. rewrite Hd1, decide_True by lia. f_equal. lia. }
  apply wp_ok in Hr as (r2 & s2 & Hr & -> & Hmem). by exists s1, s2.
Qed.
End disk.

(** ** Examples *)

(** A channel that is nothing but memory and disks. *)
Record plain := Plain { plain_mem : Z → Z; plain_disk : Z → Z → Z }.
Definition plain_pages (count : Z) : Z := (count + 4095) / 4096 * PAGE_SIZE_BYTES.
Definition plain_read (id ptr off count : Z) : M plain Z := λ s,
  Ok (0, Plain (λ x, if decide (ptr <= x < ptr + plain_pages count) then plain_disk s id (off + (x - ptr)) else plain_mem s x)
           (plain_disk s)).
Definition plain_write (id ptr off count : Z) : M plain Z := λ s,
  Ok (0, Plain (plain_mem s) (λ j x, if decide (j = id ∧ off <= x < off + plain_pages count)
                                    then plain_mem s (ptr + (x - off)) else plain_disk s j x)).

#[export, refine] Instance plain_channel : AtaChannel plain := {|
  ac_ok _ _ := True;
  ac_valid _ := True;
  ac_mem := plain_mem;
  ac_poke a b s := Plain (λ x, if decide (x = a) then b else plain_mem s x) (plain_disk s);
  ac_disk := plain_disk;
  ac_blocks _ _ _ := True;
  ac_dma _ _ := True;
  ac_other i j := i ≠ j;
  ac_read := plain_read;
  ac_write := plain_write;
|}.
Proof.
  - done.
  - done.
  - done.
  - intros id ptr off count n s Q _ _ _ <- _ _ _ HQ. apply HQ; done.
  - intros id ptr off count n s Q _ _ _ <- _ _ _ HQ. apply HQ; [done|done| |].
    + intros x. cbn [plain_disk]. unfold plain_pages. repeat case_decide; done || tauto.
    + intros j x Hne. cbn [plain_disk]. rewrite decide_False; [done|]. intros [-> _]. done.
Defined.

Definition plain_example : plain := Plain (λ x, 0) (λ j x, x mod 256).

Lemma plain_usable ptr offset count :
  0 < ptr → ptr + count <= 0x100000 → 0 < count < 0x100000 → 0 <= offset < 0x100000 →
  usable (S := plain) (λ _, false) 0x100000 3 ptr offset count.
Proof. intros. split; try done; lia. Defined.

Lemma read_disk_delivers_witness :
  ∃ s', read_disk (λ _, false) 0x100000 (Some 3) 0x1000 1024 5000 plain_example = Ok (5000, s') ∧
    plain_mem s' (0x1000 + 4999) = 135.
Proof.
  destruct (read_disk_delivers (λ _, false) 0x100000 3 0x1000 1024 5000 plain_example) as (s' & Hrun & _ & _ & Hm).
  - apply plain_usable; lia.
  - done.
  - reflexivity.
  - exists s'. split; [exact Hrun|]. exact (Hm (0x1000 + 4999) ltac:(split; [done|unfold PAGE_SIZE_BYTES; lia])).
Defined.

Lemma write_disk_stores_witness :
  ∃ s', write_disk (λ _, false) 0x100000 (Some 3) 0x1000 1024 5000 plain_example = Ok (5000, s') ∧
    plain_disk s' 3 1024 = 0 ∧ plain_disk s' 3 6024 = 136.
Proof.
  destruct (write_disk_stores (λ _, false) 0x100000 3 0x1000 1024 5000 plain_example) as (s' & Hrun & _ & _ & Hd & _).
  - apply plain_usable; lia.
  - done.
  - reflexivity.
  - exists s'. split; [exact Hrun|]. split; [exact (Hd 1024)|exact (Hd 6024)].
Defined.

Lemma read_disk_shifts_tail_witness :
  ∃ s', read_disk (λ _, false) 0x100000 (Some 3) 0x1000 500 600 plain_example = Ok (600, s') ∧
    plain_mem s' 0x1000 = 244 ∧ plain_mem s' (0x1000 + 12) = 0 ∧ plain_mem s' (0x1000 + 24) = 0.
Proof.
  destruct (read_disk_shifts_tail (λ _, false) 0x100000 3 0x1000 500 600 plain_example) as (s' & Hrun & Hm); try done.
  - apply plain_usable; lia.
  - right. lia.
  - exists s'. split; [exact Hrun|].
    assert (∀ x, 0x1000 <= x < 0x10000 → elsewhere (S := plain) 0x100000 x) as He.
    { intros x Hx. split; [done|]. unfold PAGE_SIZE_BYTES. lia. }
    split_and!; [exact (Hm 0x1000 (He 0x1000 ltac:(lia)))|exact (Hm (0x1000 + 12) (He (0x1000 + 12) ltac:(lia)))|exact (Hm (0x1000 + 24) (He (0x1000 + 24) ltac:(lia)))].
Defined.
