(* ===== verification/Ata.v ===== *)
(** * The disk controller (src/src/kmodules/disk_driver.c)

    One parallel ATA channel with bus-master DMA: the table of memory regions
    built for a transfer, the registers programmed for it, the interrupt that
    ends it, and the detection of drives.  The hardware is seen through [Ports];
    the kernel is seen through the module interface: [paddr] is what
    MODULE_API_PADDR answers for a virtual address, the frame of its page. *)
From stdpp Require Import pretty.
From S2P Require Import Prelude Ports Disk.
Open Scope Z_scope.

Definition ATA_FEATURES : Z := 1.
Definition ATA_SECTOR_COUNT : Z := 2.
Definition ATA_LBA_LOW : Z := 3.
Definition ATA_LBA_MID : Z := 4.
Definition ATA_LBA_HIH : Z := 5.
Definition ATA_DRIVE_HEAD : Z := 6.
Definition ATA_STATUS : Z := 7.
Definition ATA_COMMAND : Z := 7.
Definition ATA_PRIMARY_BUS : Z := 0x1F0.
Definition ATA_MASTER : Z := 0xa0.
Definition ATA_SLAVE : Z := 0xb0.
Definition ATA_CMD_READ_DMA : Z := 0xC8.
Definition ATA_CMD_READ_DMA_EXT : Z := 0x25.
Definition ATA_CMD_WRITE_DMA : Z := 0xCA.
Definition ATA_CMD_WRITE_DMA_EXT : Z := 0x35.
Definition ATA_CMD_IDENTIFY : Z := 0xEC.

Definition ATA_BSY (a : Z) : bool := negb (Z.land a 0x80 =? 0).
Definition ATA_DRQ (a : Z) : bool := negb (Z.land a 0x8 =? 0).
Definition ATA_ERR (a : Z) : bool := negb (Z.land a 0x1 =? 0).

Inductive drive_type := TYPE_NULL | TYPE_TMP | TYPE_IDE | TYPE_AHCI | TYPE_NVME | TYPE_USB | TYPE_FLOPPY.
#[export] Instance drive_type_eq_dec : EqDecision drive_type.
Proof. solve_decision. Defined.

(** A memory region of a transfer; a count of 0 is 64 KiB. *)
Record prd := Prd { prd_address : Z; byte_count : Z; reserved : Z }.

Record drive := Drive {
  BARs : gmap Z Z;
  dr_type : drive_type;
  size_sectors : Z;
  huge : bool;
  slave : bool;
  PRDT : Z;
}.
Definition no_drive : drive := Drive ∅ TYPE_NULL 0 false false 0.

(** A file made for a drive: its number and the drive's index. *)
Record ide_file := IdeFile { ide_name : string; ide_id : Z }.

Record ata := Ata {
  drives : gmap Z drive;
  transferring_disk_index : Z;
  expected_ints : Z;
  recieved_ints : Z;
  transferring_pid : Z;
  primary_ata_locked : bool;
  last_disk : Z;
  last_bar : Z;
  native_ide_present : bool;
  at_ports : ports;
  prd_mem : gmap Z prd;          (* the PRD at a bus address *)
  blocked : gset Z;              (* the processes that are blocked *)
  running : Z;                   (* the running process *)
  ide_files : list ide_file;     (* the files announced to the kernel, newest first *)
  phys : Z → Z;                  (* physical memory *)
  media : bool → Z → Z;          (* the bytes on the master and on the slave drive *)
}.

#[export, refine] Instance ata_ports : Lens ata ports := {|
  view := at_ports;
  put x s := Ata (drives s) (transferring_disk_index s) (expected_ints s) (recieved_ints s) (transferring_pid s)
    (primary_ata_locked s) (last_disk s) (last_bar s) (native_ide_present s) x (prd_mem s) (blocked s) (running s)
    (ide_files s) (phys s) (media s);
|}.
Proof. all: done || by intros []. Defined.

Definition set_drives (m : gmap Z drive) (s : ata) : ata :=
  Ata m (transferring_disk_index s) (expected_ints s) (recieved_ints s) (transferring_pid s)
    (primary_ata_locked s) (last_disk s) (last_bar s) (native_ide_present s) (at_ports s) (prd_mem s) (blocked s)
    (running s) (ide_files s) (phys s) (media s).
(** The transfer in progress and the process that waits for it. *)
Definition set_transfer (disk pid : Z) (s : ata) : ata :=
  Ata (drives s) disk (expected_ints s) (recieved_ints s) pid
    (primary_ata_locked s) (last_disk s) (last_bar s) (native_ide_present s) (at_ports s) (prd_mem s) (blocked s)
    (running s) (ide_files s) (phys s) (media s).
Definition set_ints (expected recieved : Z) (s : ata) : ata :=
  Ata (drives s) (transferring_disk_index s) expected recieved (transferring_pid s)
    (primary_ata_locked s) (last_disk s) (last_bar s) (native_ide_present s) (at_ports s) (prd_mem s) (blocked s)
    (running s) (ide_files s) (phys s) (media s).
Definition set_locked (b : bool) (s : ata) : ata :=
  Ata (drives s) (transferring_disk_index s) (expected_ints s) (recieved_ints s) (transferring_pid s)
    b (last_disk s) (last_bar s) (native_ide_present s) (at_ports s) (prd_mem s) (blocked s)
    (running s) (ide_files s) (phys s) (media s).
Definition set_last (disk bar : Z) (s : ata) : ata :=
  Ata (drives s) (transferring_disk_index s) (expected_ints s) (recieved_ints s) (transferring_pid s)
    (primary_ata_locked s) disk bar (native_ide_present s) (at_ports s) (prd_mem s) (blocked s)
    (running s) (ide_files s) (phys s) (media s).
Definition set_native (b : bool) (s : ata) : ata :=
  Ata (drives s) (transferring_disk_index s) (expected_ints s) (recieved_ints s) (transferring_pid s)
    (primary_ata_locked s) (last_disk s) (last_bar s) b (at_ports s) (prd_mem s) (blocked s)
    (running s) (ide_files s) (phys s) (media s).
Definition set_prd_mem (m : gmap Z prd) (s : ata) : ata :=
  Ata (drives s) (transferring_disk_index s) (expected_ints s) (recieved_ints s) (transferring_pid s)
    (primary_ata_locked s) (last_disk s) (last_bar s) (native_ide_present s) (at_ports s) m (blocked s)
    (running s) (ide_files s) (phys s) (media s).
Definition set_blocked (b : gset Z) (s : ata) : ata :=
  Ata (drives s) (transferring_disk_index s) (expected_ints s) (recieved_ints s) (transferring_pid s)
    (primary_ata_locked s) (last_disk s) (last_bar s) (native_ide_present s) (at_ports s) (prd_mem s) b
    (running s) (ide_files s) (phys s) (media s).
Definition set_ide_files (l : list ide_file) (s : ata) : ata :=
  Ata (drives s) (transferring_disk_index s) (expected_ints s) (recieved_ints s) (transferring_pid s)
    (primary_ata_locked s) (last_disk s) (last_bar s) (native_ide_present s) (at_ports s) (prd_mem s) (blocked s)
    (running s) l (phys s) (media s).
Definition set_data (p : Z → Z) (d : bool → Z → Z) (s : ata) : ata :=
  Ata (drives s) (transferring_disk_index s) (expected_ints s) (recieved_ints s) (transferring_pid s)
    (primary_ata_locked s) (last_disk s) (last_bar s) (native_ide_present s) (at_ports s) (prd_mem s) (blocked s)
    (running s) (ide_files s) p d.

Definition DRIVE_COUNT : Z := 32.
Definition drive_at (s : ata) (i : Z) : drive := default no_drive (drives s !! i).
Definition get_drive (i : Z) : M ata drive :=
  if bool_decide (0 <= i < DRIVE_COUNT) then gets (λ s, drive_at s i) else fail (OutOfBounds i).
Definition update_drive (i : Z) (f : drive → drive) : M ata unit :=
  if bool_decide (0 <= i < DRIVE_COUNT) then modify (λ s, set_drives (<[i := f (drive_at s i)]> (drives s)) s)
  else fail (OutOfBounds i).
Definition set_type (t : drive_type) (d : drive) : drive := Drive (BARs d) t (size_sectors d) (huge d) (slave d) (PRDT d).
Definition set_bar (k v : Z) (d : drive) : drive :=
  Drive (<[k := v]> (BARs d)) (dr_type d) (size_sectors d) (huge d) (slave d) (PRDT d).
Definition set_size (h : bool) (n : Z) (d : drive) : drive := Drive (BARs d) (dr_type d) n h (slave d) (PRDT d).
Definition set_slave (d : drive) : drive := Drive (BARs d) (dr_type d) (size_sectors d) (huge d) true (PRDT d).
Definition set_PRDT (p : Z) (d : drive) : drive := Drive (BARs d) (dr_type d) (size_sectors d) (huge d) (slave d) p.

(** The three port ranges of a drive. *)
Definition io_base (d : drive) : Z := Z.land (BARs d !0 0) 0xfffe.
Definition ctrl_base (d : drive) : Z := Z.land (BARs d !0 1) 0xfffe.
Definition bm_base (d : drive) : Z := u16 (Z.land (BARs d !0 4) (Z.lnot 3)).
Definition slave_bit (d : drive) : Z := Z.shiftl (b2z (slave d)) 4.

Section driver.
Variable device : ports → Z → Z → Z.
Variable paddr : Z → Z.
(** What happens while the running process is off the processor. *)
Variable int_32 : M ata unit.

(** ** Waiting *)

Definition ata_acquire_primary_lock : M ata unit :=
  loop fuel32 (λ _ : unit,
    l ← gets primary_ata_locked;
    if l then int_32;; mret (inl tt) else mret (inr tt)) tt;;
  modify (set_locked true).

(** [bar2 ATA_ALT_STATUS] is [bar2 + 0]. *)
Definition ata_ready (bar bar2 drive : Z) : M ata bool :=
  ld ← gets last_disk;
  lb ← gets last_bar;
  when (negb (ld =? drive) && negb (lb =? bar)) (
    modify (set_last drive (u16 bar));;
    outb (bar + ATA_DRIVE_HEAD) drive);;
  for_all 0 4 (λ _, _ ← inb device (bar2 + ATA_STATUS); skip);;
  status ← inb device bar2;
  mret ((Z.shiftr status 7 =? 0) && (Z.land (Z.shiftr status 3) 1 =? 0)).

Definition ata_reset (bar1 : Z) : M ata unit := outw bar1 0x4;; outw bar1 0x0.

(** ** The table of memory regions *)

(** The frame of page [i] behind [ptr]. *)
Definition frame_of (ptr i : Z) : Z := paddr (u32 (ptr + u32 (Z.shiftl i 12))).

(** The number of pages from page [i] on that are consecutive in physical memory,
    and the new [boundary_page]. *)
Definition count_run (ptr pages i boundary_page : Z) : M ata (Z * Z) :=
  let paddr_offset := Z.land ptr 0xfff in
  let pa := frame_of ptr i in
  loop fuel32 (λ '(ccount, boundary_page),
    if (u32 (i + ccount) <? pages) && (frame_of ptr (i + ccount) =? u32 (pa + ccount * PAGE_SIZE_BYTES))
       && (ccount <? 16)
    then
      let next_paddr := u32 (frame_of ptr (i + ccount + 1) + paddr_offset) in
      let ccount := u32 (ccount + 1) in
      mret (inl (ccount, if 0x10000 <=? Z.land next_paddr 0xffff + PAGE_SIZE_BYTES then ccount else boundary_page))
    else mret (inr (ccount, boundary_page))) (0, boundary_page).

(** The table has the 64 KiB that are allocated for it. *)
Definition PRD_COUNT : Z := 8192.
Definition put_prd (prdt k : Z) (e : prd) : M ata unit :=
  if bool_decide (0 <= k < PRD_COUNT) then modify (λ s, set_prd_mem (<[paddr prdt + 8 * k := e]> (prd_mem s)) s)
  else fail (OutOfBounds k).

(** One or two entries for a run; the value is the index of the next entry. *)
Definition put_run (prdt ptr pages i ccount boundary_page prdt_count : Z) : M ata Z :=
  let paddr_offset := Z.land ptr 0xfff in
  let pa := frame_of ptr i in
  let address := u32 (pa + paddr_offset) in
  let new_paddr := frame_of ptr (i + ccount - 1) in
  let last := if u32 (pages - 1) <=? u32 (i + ccount) then 0x8000 else 0 in
  if (0x10000 <=? Z.land (u32 (new_paddr + paddr_offset)) 0xffff + PAGE_SIZE_BYTES) || negb (boundary_page =? 0) then
    let prd_offset := Z.land pa 0xffff + paddr_offset in
    let bytes_to_boundary := u32 (0x10000 - prd_offset) in
    let second_count := u32 (ccount * PAGE_SIZE_BYTES - bytes_to_boundary) in
    put_prd prdt prdt_count (Prd address (u16 bytes_to_boundary) 0);;
    put_prd prdt (prdt_count + 1) (Prd (u32 (pa + paddr_offset + bytes_to_boundary)) (u16 second_count) last);;
    mret (prdt_count + 2)
  else
    put_prd prdt prdt_count (Prd address (u16 (PAGE_SIZE_BYTES * ccount)) last);;
    mret (prdt_count + 1).

Definition fill_prdt (prdt ptr pages : Z) : M ata Z :=
  loop fuel32 (λ '(i, prdt_count, boundary_page),
    if i <? pages then
      '(ccount, boundary_page) ← count_run ptr pages i boundary_page;
      prdt_count ← put_run prdt ptr pages i ccount boundary_page prdt_count;
      mret (inl (u32 (i + ccount), prdt_count, boundary_page))
    else mret (inr prdt_count)) (0, 0, 0).

(** ** A transfer *)

(** The task file of the drive.  [ata_read] and [ata_write] differ in the
    commands. *)
Definition ata_wait_status (io : Z) : M ata unit :=
  status ← inb device (io + ATA_STATUS);
  loop fuel32 (λ status,
    if ATA_BSY status || (Z.land status 0x40 =? 0) then status ← inb device (io + ATA_STATUS); mret (inl status)
    else mret (inr tt)) status.

Definition ata_command (d : drive) (lba sector_count cmd_ext cmd : Z) : M ata unit :=
  let io := io_base d in
  outb (io + ATA_DRIVE_HEAD) (Z.lor (Z.lor 0x40 (slave_bit d)) (Z.land (Z.shiftr lba 24) 0x0f));;
  if huge d then
    outb (io + ATA_SECTOR_COUNT) (Z.shiftr sector_count 8);;
    outb (io + ATA_LBA_LOW) (Z.land (Z.shiftr lba 24) 0xff);;
    outb (io + ATA_LBA_MID) (Z.land (Z.shiftr lba 32) 0xff);;
    outb (io + ATA_LBA_HIH) (Z.land (Z.shiftr lba 40) 0xff);;
    outb (io + ATA_SECTOR_COUNT) (Z.land sector_count 0xff);;
    outb (io + ATA_LBA_LOW) (Z.land lba 0xff);;
    outb (io + ATA_LBA_MID) (Z.land (Z.shiftr lba 8) 0xff);;
    outb (io + ATA_LBA_HIH) (Z.land (Z.shiftr lba 16) 0xff);;
    ata_wait_status io;;
    outb (io + ATA_COMMAND) cmd_ext
  else
    outb (io + ATA_SECTOR_COUNT) sector_count;;
    outb (io + ATA_LBA_LOW) (Z.land lba 0xff);;
    outb (io + ATA_LBA_MID) (Z.land (Z.shiftr lba 8) 0xff);;
    outb (io + ATA_LBA_HIH) (Z.land (Z.shiftr lba 16) 0xff);;
    ata_wait_status io;;
    outb (io + ATA_COMMAND) cmd.

(** MODULE_API_BLOCK_PID and MODULE_API_UNBLOCK_PID. *)
Definition block_pid (pid : Z) : M ata unit := modify (λ s, set_blocked ({[pid]} ∪ blocked s) s).
Definition unblock_pid (pid : Z) : M ata unit := modify (λ s, set_blocked (blocked s ∖ {[pid]}) s).

(** Setting up a transfer that [start] starts. *)
Definition ata_prepare (d : drive) (id ptr offset pages cmd_ext cmd start : Z) : M ata unit :=
  let sector_count := u32 (pages * 8) in
  _ ← fill_prdt (PRDT d) ptr pages;
  outb (ctrl_base d) 0x00;;
  outb (bm_base d + 2) 0x06;;
  outl (bm_base d + 4) (paddr (PRDT d));;
  _ ← inl32 device (bm_base d + 4);
  outb (bm_base d) 0x08;;
  loop fuel32 (λ _ : unit,
    r ← ata_ready (io_base d) (ctrl_base d) (slave_bit d);
    if r : bool then mret (inr tt) else int_32;; mret (inl tt)) tt;;
  ata_command d (Z.shiftr offset 9) sector_count cmd_ext cmd;;
  modify (set_ints pages 0);;
  modify (λ s, set_transfer id (transferring_pid s) s);;
  cpid ← gets running;
  block_pid cpid;;
  modify (λ s, set_transfer (transferring_disk_index s) cpid s);;
  outb (bm_base d) start.

Definition ata_transfer (id ptr offset count cmd_ext cmd start : Z) : M ata Z :=
  if count =? 0 then mret (-1)
  else
    d ← get_drive id;
    ata_acquire_primary_lock;;
    let pages := u32 (u64 (count + 4095) / 4096) in
    if u32 (pages * 8) =? 0 then mret (-1)
    else
      ata_prepare d id ptr offset pages cmd_ext cmd start;;
      _ ← inb device (ctrl_base d);
      _ ← inb device (bm_base d + 2);
      int_32;;
      mret 0.

(** [id] is the [id] of the file. *)
Definition ata_write (id ptr offset count : Z) : M ata Z :=
  ata_transfer id ptr offset count ATA_CMD_WRITE_DMA_EXT ATA_CMD_WRITE_DMA 0x01.
Definition ata_read (id ptr offset count : Z) : M ata Z :=
  ata_transfer id ptr offset count ATA_CMD_READ_DMA_EXT ATA_CMD_READ_DMA 0x09.

(** The end of a transfer: nobody waits and the channel is free. *)
Definition transfer_done : M ata unit :=
  modify (λ s, set_transfer (u32 (-1)) (transferring_pid s) s);;
  pid ← gets transferring_pid;
  unblock_pid pid;;
  modify (λ s, set_transfer (transferring_disk_index s) 0 s);;
  modify (set_locked false).

(** The frame is passed through and left out. *)
Definition int_handler : M ata unit :=
  i ← gets transferring_disk_index;
  if i =? u32 (-1) then skip
  else
    d ← get_drive i;
    status ← inb device (bm_base d + 2);
    if Z.land status 0x4 =? 0 then skip
    else
      outb (bm_base d) 0x0;;
      _ ← inb device (io_base d + ATA_STATUS);
      outb (bm_base d + 2) (Z.land status 0x6);;
      if negb (Z.land status 0x2 =? 0) then transfer_done
      else
        outb 0x70 0x80;;
        _ ← inb device 0x71;
        outb 0x70 0x82;;
        _ ← inb device 0x71;
        transfer_done.

(** ** Detection *)

Definition find_free_drive : M ata Z :=
  r ← for_loop 0 32 (λ i,
    d ← get_drive i;
    mret (if decide (dr_type d = TYPE_NULL) then Some i else None));
  mret (default (u32 (-1)) r).

Definition ata_set_dma (index dma_mode : Z) : M ata unit :=
  d ← get_drive index;
  let bar0 := io_base d in
  let bar1 := ctrl_base d in
  loop fuel32 (λ _ : unit,
    r ← ata_ready bar0 bar1 (slave_bit d);
    mret (if r : bool then inr tt else inl tt)) tt;;
  outb (bar0 + ATA_FEATURES) 0x3;;
  outb (bar0 + ATA_SECTOR_COUNT)
    (Z.lor (if negb (Z.land dma_mode 0x80 =? 0) then Z.shiftl 1 6 else Z.shiftl 1 5) (Z.land dma_mode 0x7f));;
  outb (bar0 + ATA_LBA_LOW) 0;;
  outb (bar0 + ATA_LBA_MID) 0;;
  outb (bar0 + ATA_LBA_HIH) 0;;
  outb (bar0 + ATA_COMMAND) 0xEF;;
  loop fuel32 (λ _ : unit,
    status ← inb device (bar0 + ATA_STATUS);
    mret (if ATA_BSY status then inl tt else inr tt)) tt;;
  _ ← inb device (bar0 + ATA_STATUS);
  skip.

(** MODULE_API_PMALLOC64K and MODULE_API_KMALLOC_PADDR of sixteen pages: the
    address of a block that is contiguous in physical memory. *)
Variable alloc_prdt : M ata Z.

(** The words of the answer to IDENTIFY. *)
Definition read_identify (bar0 : Z) : M ata (gmap Z Z) :=
  r ← fora_loop (R := unit) 0 256 (λ i m, w ← inw device (bar0 + 0); mret (inl (<[i := w]> m))) ∅;
  mret (match r with inl m => m | inr _ => ∅ end).

(** [identify[101] << 16] is an [int]. *)
Definition identify_size (w : gmap Z Z) : bool * Z :=
  let lba48 := negb (Z.land (w !0 83) (Z.shiftl 1 10) =? 0) in
  (lba48,
   if lba48 then
     u64 (Z.lor (Z.lor (w !0 100) (u64 (s32 (Z.shiftl (w !0 101) 16)))) (Z.shiftl (w !0 102) 32))
   else u64 (Z.lor (w !0 60) (s32 (Z.shiftl (w !0 61) 16)))).

(** The number of shifts until [dma] is zero; a byte takes at most eight. *)
Fixpoint highest_mode (n : nat) (dma : Z) : Z :=
  match n with
  | O => 0
  | S n => if dma =? 0 then 0 else 1 + highest_mode n (Z.shiftr dma 1)
  end.

Definition add_drive (index : Z) : M ata unit :=
  ata_drives ← fora_loop (R := unit) 0 32 (λ i n,
    d ← get_drive i;
    mret (inl (if decide (dr_type d = TYPE_IDE) then u8 (n + 1) else n))) 0;
  let n := match ata_drives with inl n => n | inr _ => 0 end in
  update_drive index (set_type TYPE_IDE);;
  p ← alloc_prdt;
  update_drive index (set_PRDT p);;
  modify (λ s, set_ide_files (IdeFile ("/dev/disk/ide" +:+ pretty n) index :: ide_files s) s).

(** The value is an [uint8_t]: -1 is 255. *)
Definition ata_identify (index disk : Z) : M ata Z :=
  d ← get_drive index;
  let bar0 := io_base d in
  let bar1 := ctrl_base d in
  r ← ata_ready bar0 bar1 (Z.land disk 0x10);
  if negb r then mret (u8 (-1))
  else
    outb (bar0 + ATA_SECTOR_COUNT) 0;;
    outb (bar0 + ATA_LBA_LOW) 0;;
    outb (bar0 + ATA_LBA_MID) 0;;
    outb (bar0 + ATA_LBA_HIH) 0;;
    outb (bar0 + ATA_COMMAND) ATA_CMD_IDENTIFY;;
    status ← inb device (bar0 + ATA_STATUS);
    if status =? 0 then mret (u8 (-1))
    else
      e ← loop fuel32 (λ status,
        if ATA_BSY status then
          status ← inb device (bar0 + ATA_STATUS);
          mret (if ATA_ERR status then inr true else inl status)
        else mret (inr false)) status;
      if e : bool then mret (u8 (-1))
      else
        lba_mid ← inb device (bar0 + ATA_LBA_MID);
        lba_high ← inb device (bar0 + ATA_LBA_HIH);
        if negb (lba_mid =? 0) || negb (lba_high =? 0) then mret (u8 (-1))
        else
          status ← inb device (bar0 + ATA_STATUS);
          if negb (ATA_DRQ status) then mret (u8 (-1))
          else
            identify ← read_identify bar0;
            let '(lba48, size) := identify_size identify in
            update_drive index (set_size lba48 size);;
            if Z.land (identify !0 49) (Z.shiftl 1 8) =? 0 then mret (u8 (-1))
            else
              let udma_mode := Z.land (identify !0 88) 0xff in
              let mdma_mode := Z.land (identify !0 63) 0xff in
              let dma := if udma_mode =? 0 then mdma_mode else udma_mode in
              ata_set_dma index (Z.lor (if udma_mode =? 0 then 0 else 0x80) (highest_mode 8 dma));;
              add_drive index;;
              mret 0.

Definition ide_init (bars : gmap Z Z) : M ata unit :=
  primary_index ← find_free_drive;
  if primary_index =? u32 (-1) then skip
  else
    update_drive primary_index (set_type TYPE_TMP);;
    primary_slave_index ← find_free_drive;
    when (negb (primary_slave_index =? u32 (-1))) (update_drive primary_slave_index (set_type TYPE_TMP));;
    for_all 0 2 (λ i,
      update_drive primary_index (set_bar i (bars !0 i));;
      update_drive primary_slave_index (set_bar i (bars !0 i)));;
    update_drive primary_index (set_bar 4 (bars !0 4));;
    update_drive primary_slave_index (set_bar 4 (bars !0 4));;
    update_drive primary_slave_index set_slave;;
    master_status ← ata_identify primary_index ATA_MASTER;
    slave_status ← ata_identify primary_slave_index ATA_SLAVE;
    when (master_status =? -1) (update_drive primary_index (set_type TYPE_NULL));;
    when (slave_status =? -1) (update_drive primary_slave_index (set_type TYPE_NULL)).

(** The search among the files of the PCI disk controllers; a file is its
    configuration space, the word at each offset. *)
Definition PCI_IDE_SUPPORT_DMA (a : Z) : bool := negb (Z.land a 0x80 =? 0).
Definition PCI_IDE_NATIVE (a : Z) : bool := negb (Z.land a 1 =? 0).
Definition kidm_probe (config : Z → Z) : M ata unit :=
  let class := config 0x8 in
  let progif := Z.land (Z.shiftr class 8) 0xff in
  let class := Z.shiftr class 16 in
  nat ← gets native_ide_present;
  if (class =? 0x101) && PCI_IDE_SUPPORT_DMA progif && negb nat then
    let bars : gmap Z Z := list_to_map ((λ k, (k, config (0x10 + 4 * k))) <$> seqZ 0 5) in
    if PCI_IDE_NATIVE (Z.lnot progif) then
      modify (set_native true);;
      ide_init (<[1 := Z.lor (ATA_PRIMARY_BUS + 0x206) 1]> (<[0 := Z.lor ATA_PRIMARY_BUS 1]> bars))
    else ide_init bars
  else skip.
Fixpoint kidm_init (files : list (Z → Z)) : M ata unit :=
  match files with
  | [] => skip
  | f :: fs => kidm_probe f;; kidm_init fs
  end.
End driver.

(** ** The table, proved *)

Section table.
Variable paddr : Z → Z.
Hypothesis paddr_u32 : ∀ v, is_u32 (paddr v).

(** What the loop of [count_run] finds from page [i] on. *)
Record run_at (ptr pages i b cc b' : Z) : Prop := {
  ra_some : 1 <= cc <= 16;
  ra_end : i + cc <= pages;
  ra_frames : ∀ k, 0 <= k < cc → frame_of paddr ptr (i + k) = u32 (frame_of paddr ptr i + k * PAGE_SIZE_BYTES);
  ra_max : i + cc < pages → cc < 16 →
    frame_of paddr ptr (i + cc) ≠ u32 (frame_of paddr ptr i + cc * PAGE_SIZE_BYTES);
  ra_boundary : b' = 0 → ∀ k, 1 <= k <= cc →
    u32 (frame_of paddr ptr (i + k) + Z.land ptr 0xfff) mod 65536 < 0xf000;
  ra_flagged : b' ≠ 0 → b ≠ 0 ∨ ∃ k, 1 <= k <= cc ∧
    0xf000 <= u32 (frame_of paddr ptr (i + k) + Z.land ptr 0xfff) mod 65536;
}.

Lemma land_64k x : Z.land x 0xffff = x mod 65536.
Proof using Type. change 0xffff with (Z.ones 16). by apply land_low. Qed.
Lemma land_4k x : Z.land x 0xfff = x mod 4096.
Proof using Type. change 0xfff with (Z.ones 12). by apply land_low. Qed.

Lemma count_run_wp ptr pages i b (Q : Z * Z → ata → Prop) s :
  0 <= i < pages → pages < 2 ^ 20 → 0 <= b →
  (∀ cc b', run_at ptr pages i b cc b' → 0 <= b' → Q (cc, b') s) →
  wp (count_run paddr ptr pages i b) Q s.
Proof using paddr_u32.
  intros Hi Hp Hb HQ. unfold count_run.
  apply (wp_loop (λ '(cc, b') s', s' = s ∧ 0 <= b' ∧ 0 <= cc <= 16 ∧ i + cc <= pages ∧
    (∀ k, 0 <= k < cc → frame_of paddr ptr (i + k) = u32 (frame_of paddr ptr i + k * PAGE_SIZE_BYTES)) ∧
    (b' = 0 → ∀ k, 1 <= k <= cc → u32 (frame_of paddr ptr (i + k) + Z.land ptr 0xfff) mod 65536 < 0xf000) ∧
    (b' ≠ 0 → b ≠ 0 ∨ ∃ k, 1 <= k <= cc ∧ 0xf000 <= u32 (frame_of paddr ptr (i + k) + Z.land ptr 0xfff) mod 65536))
    (λ '(cc, _) _, 16 - cc)).
  - split_and!; (done || lia || by left).
  - by_computation.
  - intros [cc b'] s' (_ & _ & ? & _). lia.
  - intros [cc b'] s' (-> & Hb' & Hcc & Hend & Hfr & Hbd & Hfl). rewrite (u32_id (i + cc)) by (unfold is_u32; lia).
    destruct (Z.ltb_spec (i + cc) pages) as [Hlt|Hge]; cbn [andb];
      [destruct (Z.eqb_spec (frame_of paddr ptr (i + cc)) (u32 (frame_of paddr ptr i + cc * PAGE_SIZE_BYTES))) as [He|Hne];
       cbn [andb]; [destruct (Z.ltb_spec cc 16) as [H16|H16]|]|]; wp.
    + rewrite (u32_id (cc + 1)) by (unfold is_u32; lia). rewrite land_64k.
      set (low := _ mod 65536). split_and!; try lia; [done|by case_match; lia| | |].
      * intros k Hk. destruct (decide (k = cc)) as [->|]; [done|apply Hfr; lia].
      * intros Hz k Hk. destruct (Z.leb_spec 0x10000 (low + PAGE_SIZE_BYTES)) as [|Hlow]; [lia|].
        destruct (decide (k = cc + 1)) as [->|]; [|apply Hbd; [done|lia]].
        rewrite Z.add_assoc. unfold low, PAGE_SIZE_BYTES in *. lia.
      * intros Hnz. destruct (Z.leb_spec 0x10000 (low + PAGE_SIZE_BYTES)) as [Hlow|].
        -- right. exists (cc + 1). rewrite Z.add_assoc. unfold low, PAGE_SIZE_BYTES in *. lia.
        -- destruct (Hfl Hnz) as [|(k & Hk & Hk2)]; [by left|right]. exists k. lia.
    + apply HQ; [|done]. split; done || lia.
    + apply HQ; [|done]. split; try done; try lia.
      destruct (decide (cc = 0)) as [->|]; [|lia]. exfalso. apply Hne. rewrite Z.add_0_r, Z.mul_0_l, Z.add_0_r.
      by rewrite u32_id by apply paddr_u32.
    + apply HQ; [|done]. split; try done; try lia.
Qed.

Lemma put_prd_wp prdt k e (Q : unit → ata → Prop) s :
  0 <= k < PRD_COUNT → Q tt (set_prd_mem (<[paddr prdt + 8 * k := e]> (prd_mem s)) s) → wp (put_prd paddr prdt k e) Q s.
Proof using Type. intros Hk HQ. unfold put_prd. by rewrite bool_decide_eq_true_2. Qed.

(** For any translation the loop ends with the table filled, two entries for
    each run at most. *)
Lemma fill_prdt_ends prdt ptr pages (Q : Z → ata → Prop) s :
  0 <= pages → 2 * pages <= PRD_COUNT →
  (∀ c m, 0 <= c <= 2 * pages → Q c (set_prd_mem m s)) →
  wp (fill_prdt paddr prdt ptr pages) Q s.
Proof using paddr_u32.
  intros H0 Hp HQ. unfold PRD_COUNT in *. unfold fill_prdt.
  apply (wp_loop (λ '(i, c, b) s', (∃ m, s' = set_prd_mem m s) ∧ 0 <= b ∧ 0 <= i <= pages ∧ 0 <= c <= 2 * i)
    (λ '(i, _, _) _, pages - i)).
  - split_and!; try lia. exists (prd_mem s). by destruct s.
  - unfold fuel32. lia.
  - intros [[i c] b] s' (_ & _ & ? & _). lia.
  - intros [[i c] b] s' ([m ->] & Hb & Hi & Hc). destruct (Z.ltb_spec i pages) as [Hlt|Hge]; wp.
    + apply count_run_wp; [lia|lia|done|]. intros cc b' [Hs He _ _ _ _] Hb'. wp.
      rewrite (u32_id (i + cc)) by (unfold is_u32; lia). unfold put_run.
      destruct (_ || _); wp; repeat (apply put_prd_wp; [unfold PRD_COUNT; lia|]; wp);
        (split; [|lia]); (split_and!; [by eexists|lia..]).
    + apply HQ. lia.
Qed.
End table.

(** ** The bus master *)

(** The memory byte [k] of a transfer, found by walking the table: each region
    takes up its size, and a region with the top bit of [reserved] is the last. *)
Definition prd_size (e : prd) : Z := if byte_count e =? 0 then 65536 else byte_count e.
Fixpoint prd_walk (n : nat) (m : gmap Z prd) (table k : Z) : option Z :=
  match n with
  | O => None
  | S n =>
      e ← m !! table;
      if k <? prd_size e then Some (prd_address e + k)
      else if Z.testbit (reserved e) 15 then None else prd_walk n m (table + 8) (k - prd_size e)
  end%stdpp.
Definition dma_address (m : gmap Z prd) (table k : Z) : option Z := prd_walk (Z.to_nat PRD_COUNT) m table k.
(** The bus master cannot cross a 64 KiB boundary in a region. *)
Definition within_64k (e : prd) : Prop := prd_address e mod 65536 + prd_size e <= 65536.

Section buffer.
Variable paddr : Z → Z.
Hypothesis paddr_u32 : ∀ v, is_u32 (paddr v).

(** [n] pages behind [ptr] in consecutive frames, the first of them [p]. *)
Record contiguous (ptr n p : Z) : Prop := {
  cb_frames : ∀ k, 0 <= k < n → frame_of paddr ptr k = p + k * PAGE_SIZE_BYTES;
  cb_page : p mod 4096 = 0;
  cb_start : 0 <= p;
  cb_end : p + (n + 1) * PAGE_SIZE_BYTES <= 2 ^ 32;
}.

(** The buffer's bytes are described in their order, by regions the bus master
    can use. *)
Definition describes (m : gmap Z prd) (table c a size : Z) : Prop :=
  (∀ k, 0 <= k < size → dma_address m table k = Some (a + k)) ∧
  ∀ j, 0 <= j < c → ∃ e, m !! (table + 8 * j) = Some e ∧ within_64k e.

Lemma dma_first m table e k :
  m !! table = Some e → k < prd_size e → dma_address m table k = Some (prd_address e + k).
Proof using Type.
  intros He Hk. unfold dma_address, PRD_COUNT. replace (Z.to_nat 8192) with (S (Z.to_nat 8191)) by lia.
  generalize (Z.to_nat 8191) as f. intros f. cbn [prd_walk]. rewrite He. simpl. by rewrite (proj2 (Z.ltb_lt _ _)).
Qed.
Lemma dma_second m table e e2 k :
  m !! table = Some e → m !! (table + 8) = Some e2 → reserved e = 0 →
  prd_size e <= k → k - prd_size e < prd_size e2 →
  dma_address m table k = Some (prd_address e2 + (k - prd_size e)).
Proof using Type.
  intros He He2 Hr Hk Hk2. unfold dma_address, PRD_COUNT. replace (Z.to_nat 8192) with (S (S (Z.to_nat 8190))) by lia.
  generalize (Z.to_nat 8190) as f. intros f. cbn [prd_walk]. rewrite He. simpl. rewrite (proj2 (Z.ltb_ge _ _)), Hr by done.
  rewrite Z.bits_0, He2. simpl. by rewrite (proj2 (Z.ltb_lt _ _)).
Qed.

Lemma u16_small x : 0 <= x < 65536 → u16 x = x.
Proof using Type. intros. unfold u16. by apply Z.mod_small. Qed.
(** A region of 64 KiB has the count 0. *)
Lemma prd_size_u16 a x r : 0 < x <= 65536 → prd_size (Prd a (u16 x) r) = x.
Proof using Type.
  intros Hx. unfold prd_size. cbn [byte_count]. destruct (decide (x = 65536)) as [->|]; [done|].
  rewrite u16_small by lia. by rewrite (proj2 (Z.eqb_neq _ _)) by lia.
Qed.

Lemma low_of_page p off : p mod 4096 = 0 → 0 <= off < 4096 → p mod 65536 + off = (p + off) mod 65536.
Proof using Type. intros. Z.to_euclidean_division_equations. lia. Qed.

(** A single run: the entries that are written describe it. *)
Lemma put_run_wp prdt ptr n p b (Q : Z → ata → Prop) s :
  is_u32 ptr → contiguous ptr n p → 1 <= n <= 16 →
  (b = 0 → ∀ k, 1 <= k <= n → u32 (frame_of paddr ptr k + Z.land ptr 0xfff) mod 65536 < 0xf000) →
  n = 1 ∨ (p + ptr mod 4096) mod 65536 < 0xf000 →
  (∀ c m, 0 <= c <= 2 → describes m (paddr prdt) c (p + ptr mod 4096) (n * PAGE_SIZE_BYTES) → Q c (set_prd_mem m s)) →
  wp (put_run paddr prdt ptr n 0 n b 0) Q s.
Proof using Type.
  intros Hptr [Hfr Hpage H0 Hend] Hn Hb Hlow HQ. unfold put_run, PAGE_SIZE_BYTES in *. rewrite land_4k, !land_64k in *.
  set (off := ptr mod 4096) in *. assert (0 <= off < 4096) as Hoff by (apply Z.mod_pos_bound; lia).
  rewrite !Hfr by lia. rewrite Z.add_0_l, Z.mul_0_l, Z.add_0_r.
  set (a := p + off) in *. replace (p + (n - 1) * 4096 + off) with (a + (n - 1) * 4096) by (unfold a; lia).
  assert (0 <= a) by (unfold a; lia). assert (a + n * 4096 <= 2 ^ 32) by (unfold a; lia).
  rewrite !(u32_id a), (u32_id (a + (n - 1) * 4096)) by (unfold is_u32; lia).
  rewrite (u32_id (n - 1)), (u32_id n) by (unfold is_u32; lia). rewrite (proj2 (Z.leb_le (n - 1) n)) by lia.
  assert (p mod 65536 + off = a mod 65536) as Hmod. by (by apply low_of_page).
  rewrite Hmod. pose proof (Z.mod_pos_bound a 65536 ltac:(lia)) as Hr.
  pose proof (Z.div_mod a 65536 ltac:(lia)) as Hdm. set (r := a mod 65536) in *.
  assert (p + off = a) as Ea by done.
  destruct ((_ <=? _) || _) eqn:Hsplit; wp.
  - (* two regions, the first one up to the boundary *)
    rewrite (u32_id (65536 - r)) by (unfold is_u32; lia).
    do 2 (apply put_prd_wp; [unfold PRD_COUNT; lia|]; wp). cbn [prd_mem set_prd_mem].
    change (set_prd_mem ?m (set_prd_mem _ s)) with (set_prd_mem m s). apply HQ; [lia|].
    rewrite Z.mul_0_r, Z.add_0_r, Z.mul_1_r. set (e1 := Prd a _ _). set (e2 := Prd _ _ _).
    assert (prd_size e1 = 65536 - r) as Hs1 by (apply prd_size_u16; lia).
    split.
    + intros k Hk. destruct (Z.lt_ge_cases k (65536 - r)) as [Hk1|Hk1].
      * rewrite (dma_first _ _ e1) by (rewrite ?lookup_insert_ne by lia; rewrite ?lookup_insert_eq; done || lia). done.
      * assert (u32 (n * 4096 - (65536 - r)) = n * 4096 - (65536 - r)) as E2 by (apply u32_id; unfold is_u32; lia).
        assert (prd_size e2 = n * 4096 - (65536 - r)) as Hs2 by (unfold e2; rewrite E2; apply prd_size_u16; lia).
        rewrite (dma_second _ _ e1 e2); rewrite ?lookup_insert_ne by lia; rewrite ?lookup_insert_eq; try (done || lia).
        f_equal. unfold e2. cbn [prd_address]. rewrite Hs1, u32_id by (unfold is_u32; lia). lia.
    + intros j Hj. destruct (decide (j = 0)) as [->|]; [|replace j with 1 by lia].
      * rewrite Z.mul_0_r, Z.add_0_r. exists e1. rewrite lookup_insert_ne, lookup_insert_eq by lia. split; [done|].
        unfold within_64k. rewrite Hs1. cbn [prd_address e1]. fold r. lia.
      * rewrite Z.mul_1_r. exists e2. rewrite lookup_insert_eq. split; [done|]. unfold within_64k, prd_size, e2. cbn [prd_address byte_count].
        replace (a + (65536 - r)) with ((a / 65536 + 1) * 65536) by lia.
        assert (u32 ((a / 65536 + 1) * 65536) mod 65536 = 0) as ->.
        { unfold u32. change (2 ^ 32) with (65536 * 65536). rewrite Z.mul_mod_distr_r by lia. by apply Z.mod_mul. }
        pose proof (Z.mod_pos_bound (u32 (n * 4096 - (65536 - r))) 65536 ltac:(lia)). unfold u16 in *. change (2 ^ 16) with 65536 in *.
        case_match; lia.
  - (* one region *)
    apply orb_false_iff in Hsplit as [Hs1 Hs2]. apply Z.leb_gt in Hs1. apply negb_false_iff, Z.eqb_eq in Hs2.
    assert (∀ k, 0 <= k < n → (a + k * 4096) mod 65536 < 0xf000) as Hlows.
    { intros k Hk. destruct (decide (k = n - 1)) as [->|]; [lia|]. destruct (decide (k = 0)) as [->|].
      - rewrite Z.mul_0_l, Z.add_0_r. destruct Hlow; [lia|done].
      - specialize (Hb Hs2 k ltac:(lia)). rewrite Hfr in Hb by lia.
        replace (p + k * 4096 + off) with (a + k * 4096) in Hb by (unfold a; lia).
        rewrite u32_id in Hb by (unfold is_u32; lia). done. }
    assert (r + n * 4096 <= 65536) as Hfit.
    { assert (∀ k : nat, Z.of_nat k < n → (a + Z.of_nat k * 4096) mod 65536 = r + Z.of_nat k * 4096) as Hlin.
      { induction k as [|k IH]; intros Hk; [by rewrite Z.mul_0_l, !Z.add_0_r|].
        pose proof (Hlows (Z.of_nat k) ltac:(lia)) as Hl. rewrite IH in Hl by lia.
        replace (a + Z.of_nat (S k) * 4096) with (a + Z.of_nat k * 4096 + 4096) by lia.
        rewrite <- Z.add_mod_idemp_l, IH, Z.mod_small by lia. lia. }
      specialize (Hlin (Z.to_nat (n - 1)) ltac:(lia)). rewrite Z2Nat.id in Hlin by lia. rewrite Hlin in Hs1. lia. }
    apply put_prd_wp; [unfold PRD_COUNT; lia|]. wp. apply HQ; [lia|]. rewrite Z.mul_0_r, Z.add_0_r.
    set (e1 := Prd a _ _). assert (prd_size e1 = 4096 * n) as Hsz by (apply prd_size_u16; lia). split.
    + intros k Hk. rewrite (dma_first _ _ e1) by (rewrite ?lookup_insert_eq; done || lia). done.
    + intros j Hj. replace j with 0 by lia. exists e1. rewrite Z.mul_0_r, Z.add_0_r, lookup_insert_eq. split; [done|].
      unfold within_64k. rewrite Hsz. cbn [prd_address e1]. fold r. lia.
Qed.

Lemma fill_one_run_wp prdt ptr n p (Q : Z → ata → Prop) s :
  is_u32 ptr → contiguous ptr n p → 1 <= n <= 16 → n = 1 ∨ (p + ptr mod 4096) mod 65536 < 0xf000 →
  (∀ c m, describes m (paddr prdt) c (p + ptr mod 4096) (n * PAGE_SIZE_BYTES) → Q c (set_prd_mem m s)) →
  wp (fill_prdt paddr prdt ptr n) Q s.
Proof using paddr_u32.
  intros Hptr Hc Hn Hlow HQ. unfold fill_prdt.
  apply (wp_loop (λ '(i, c, b) s', (i = 0 ∧ c = 0 ∧ b = 0 ∧ s' = s) ∨ (i = n ∧ Q c s')) (λ '(i, _, _) _, n - i)).
  - by left.
  - unfold fuel32. lia.
  - intros [[i c] b] s' [(-> & _)|(-> & _)]; lia.
  - intros [[i c] b] s' [(-> & -> & -> & ->)|(-> & HQs)]; [|by rewrite Z.ltb_irrefl].
    rewrite (proj2 (Z.ltb_lt _ _)) by lia. wp. apply count_run_wp; [done|lia|lia|done|].
    intros cc b' [Hs He Hfr Hmax Hbd _] Hb'. wp.
    assert (cc = n) as ->.
    { destruct (decide (cc = n)) as [|Hne]; [done|]. exfalso. apply (Hmax ltac:(lia) ltac:(lia)).
      destruct Hc as [Hf _ H0 Hend]. unfold PAGE_SIZE_BYTES in *. rewrite !Hf by lia. unfold is_u32 in *.
      rewrite u32_id by (unfold is_u32; lia). lia. }
    apply (put_run_wp _ _ _ p); try done. intros c m _ Hdesc. wp.
    rewrite u32_id by (unfold is_u32; lia). split; [|lia]. right. split; [lia|]. by apply HQ.
Qed.

(** C34: the regions of a transfer.  A buffer of up to sixteen pages in consecutive
    frames is described exactly: byte [k] of the transfer is byte [k] of the
    buffer, no region crosses a 64 KiB boundary, and nothing but the table is
    written.  The exception the code does not see is a buffer of several pages
    whose first page is the last one below such a boundary. *)
Theorem prdt_describes_buffer prdt ptr n p s :
  is_u32 ptr → contiguous ptr n p → 1 <= n <= 16 → n = 1 ∨ (p + ptr mod 4096) mod 65536 < 0xf000 →
  ∃ c m, fill_prdt paddr prdt ptr n s = Ok (c, set_prd_mem m s) ∧
    describes m (paddr prdt) c (p + ptr mod 4096) (n * PAGE_SIZE_BYTES).
Proof using paddr_u32.
  intros Hptr Hc Hn Hlow.
  destruct (proj1 (wp_ok (fill_prdt paddr prdt ptr n) (λ c s', ∃ m, s' = set_prd_mem m s ∧
    describes m (paddr prdt) c (p + ptr mod 4096) (n * PAGE_SIZE_BYTES)) s)) as (c & s' & Hrun & m & -> & Hd);
    [|by exists c, m].
  apply (fill_one_run_wp prdt ptr n p); try done. intros c m Hd. by exists m.
Qed.

(** C35: the table is filled for every translation: the loops end, and at most two
    entries are written for a page, inside of the table when it has room for them. *)
Theorem fill_prdt_terminates prdt ptr pages s :
  0 <= pages → 2 * pages <= PRD_COUNT →
  ∃ c m, fill_prdt paddr prdt ptr pages s = Ok (c, set_prd_mem m s) ∧ 0 <= c <= 2 * pages.
Proof using paddr_u32.
  intros H0 Hp. destruct (proj1 (wp_ok (fill_prdt paddr prdt ptr pages) (λ c s', ∃ m, s' = set_prd_mem m s ∧
    0 <= c <= 2 * pages) s)) as (c & s' & Hrun & m & -> & Hd); [|by exists c, m].
  apply fill_prdt_ends; [done..|]. intros c m Hc. by exists m.
Qed.

(** A buffer of two pages in frames that are not consecutive gets two regions,
    but the first one is marked as the last: the transfer has no address for
    the second page. *)
Theorem prdt_split_buffer_cut prdt ptr s :
  ptr mod 4096 = 0 → is_u32 ptr →
  frame_of paddr ptr 1 ≠ u32 (frame_of paddr ptr 0 + PAGE_SIZE_BYTES) →
  frame_of paddr ptr 0 mod 65536 < 0xf000 → frame_of paddr ptr 1 mod 65536 < 0xf000 → frame_of paddr ptr 0 mod 4096 = 0 →
  ∃ c m, fill_prdt paddr prdt ptr 2 s = Ok (c, set_prd_mem m s) ∧
    (∀ k, 0 <= k < PAGE_SIZE_BYTES → dma_address m (paddr prdt) k = Some (frame_of paddr ptr 0 + k)) ∧
    ∀ k, PAGE_SIZE_BYTES <= k → dma_address m (paddr prdt) k = None.
Proof using paddr_u32.
  intros Hpg Hptr Hne Hlow0 Hlow1 Hf0. set (f0 := frame_of paddr ptr 0) in *.
  assert (is_u32 f0) as Hu0 by apply paddr_u32. set (e1 := Prd f0 4096 0x8000).
  destruct (proj1 (wp_ok (fill_prdt paddr prdt ptr 2) (λ c s', ∃ m, s' = set_prd_mem m s ∧ m !! (paddr prdt) = Some e1) s))
    as (c & s' & Hrun & m & -> & Hm).
  { unfold fill_prdt.
    apply (wp_loop (λ '(i, c, b) s', (i = 0 ∧ c = 0 ∧ b = 0 ∧ s' = s) ∨
      (1 <= i <= 2 ∧ 1 <= c <= 4 ∧ 0 <= b ∧ c <= 2 * i ∧ ∃ m, s' = set_prd_mem m s ∧ m !! (paddr prdt) = Some e1)) (λ '(i, _, _) _, 2 - i)).
    - by left.
    - by_computation.
    - intros [[i c] b] s' [(-> & _)|(? & _)]; lia.
    - intros [[i c] b] s' [(-> & -> & -> & ->)|(Hi & Hc & Hb & Hci & m & -> & Hm)].
      + cbn [Z.ltb Z.compare]. wp. apply count_run_wp; [done|lia|done|done|]. intros cc b' [Hs He Hfr _ _ Hfl] Hb'. wp.
        rewrite Z.add_0_l in He.
        assert (cc = 1) as -> by (destruct (decide (cc = 1)) as [|]; [done|]; exfalso; apply Hne; exact (Hfr 1 ltac:(lia))).
        assert (b' = 0) as ->.
        { destruct (decide (b' = 0)) as [|Hnz]; [done|]. destruct (Hfl Hnz) as [|(k & Hk & Hk2)]; [done|].
          replace k with 1 in Hk2 by lia. rewrite Z.add_0_l, land_4k, Hpg, Z.add_0_r, u32_id in Hk2 by apply paddr_u32. lia. }
        unfold put_run. rewrite land_4k, Hpg, !land_64k, !Z.add_0_r. cbn [Z.add Z.sub Z.opp Z.pos_sub].
        change (0 + 1 - 1) with 0. fold f0. rewrite u32_id by done. unfold PAGE_SIZE_BYTES.
        rewrite (proj2 (Z.leb_gt _ _)) by lia. cbn [orb negb Z.eqb]. wp.
        apply put_prd_wp; [by_computation|]. wp. split; [|reflexivity]. right. change (u32 (0 + 1)) with 1.
        split_and!; try lia. eexists. split; [done|]. rewrite Z.mul_0_r, Z.add_0_r, lookup_insert_eq. done.
      + destruct (Z.ltb_spec i 2) as [Hlt|]; wp; [|by exists m]. replace i with 1 in * by lia.
        apply count_run_wp; [done|lia|done|done|]. intros cc b' [Hs He _ _ _ _] Hb'. wp. replace cc with 1 in * by lia.
        unfold put_run. destruct (_ || _); wp; repeat (apply put_prd_wp; [unfold PRD_COUNT; lia|]; wp); (split; [|reflexivity]);
          right; change (u32 (1 + 1)) with 2; (split_and!; try (done || lia)); (eexists; split; [done|]); cbn [prd_mem set_prd_mem];
          rewrite ?lookup_insert_ne by lia; exact Hm. }
  exists c, m. split_and!; [done| |].
  - intros k Hk. exact (dma_first m _ e1 k Hm (proj2 Hk)).
  - intros k Hk. unfold dma_address, PRD_COUNT. replace (Z.to_nat 8192) with (S (Z.to_nat 8191)) by lia.
    generalize (Z.to_nat 8191) as f. intros f. cbn [prd_walk]. rewrite Hm. cbn [mbind option_bind].
    unfold PAGE_SIZE_BYTES in *. change (prd_size e1) with 4096. by rewrite (proj2 (Z.ltb_ge _ _)).
Qed.
End buffer.

(** ** The drive and the transfer, by their data sheets *)

(** The task file.  A register is written twice for a 48-bit command: it keeps
    the byte before the last one too. *)
Record taskfile := Tf {
  tf_head : Z; tf_count : Z * Z; tf_low : Z * Z; tf_mid : Z * Z; tf_high : Z * Z; tf_command : Z;
}.
Definition shift_in (b : Z) (r : Z * Z) : Z * Z := (b, fst r).
Definition tf_write (r b : Z) (t : taskfile) : taskfile :=
  if r =? 2 then Tf (tf_head t) (shift_in b (tf_count t)) (tf_low t) (tf_mid t) (tf_high t) (tf_command t)
  else if r =? 3 then Tf (tf_head t) (tf_count t) (shift_in b (tf_low t)) (tf_mid t) (tf_high t) (tf_command t)
  else if r =? 4 then Tf (tf_head t) (tf_count t) (tf_low t) (shift_in b (tf_mid t)) (tf_high t) (tf_command t)
  else if r =? 5 then Tf (tf_head t) (tf_count t) (tf_low t) (tf_mid t) (shift_in b (tf_high t)) (tf_command t)
  else if r =? 6 then Tf b (tf_count t) (tf_low t) (tf_mid t) (tf_high t) (tf_command t)
  else if r =? 7 then Tf (tf_head t) (tf_count t) (tf_low t) (tf_mid t) (tf_high t) b
  else t.
Definition tf_step (io : Z) (e : Ports.io) (t : taskfile) : taskfile :=
  match e with Out 8 p b => tf_write (p - io) b t | _ => t end.
Definition tf_reset : taskfile := Tf 0 (0, 0) (0, 0) (0, 0) (0, 0) 0.
Definition tf_after (io : Z) (l : ports) : taskfile := foldr (tf_step io) tf_reset l.

Record command := Cmd { c_write : bool; c_slave : bool; c_lba : Z; c_sectors : Z }.
Definition le24 (a b c : Z) : Z := a + 256 * b + 65536 * c.
Definition decode_command (t : taskfile) : option command :=
  let sl := Z.land (Z.shiftr (tf_head t) 4) 1 =? 1 in
  let lba28 := le24 (fst (tf_low t)) (fst (tf_mid t)) (fst (tf_high t)) + 16777216 * Z.land (tf_head t) 0xf in
  let lba48 := le24 (fst (tf_low t)) (fst (tf_mid t)) (fst (tf_high t)) +
    16777216 * le24 (snd (tf_low t)) (snd (tf_mid t)) (snd (tf_high t)) in
  let count28 := if fst (tf_count t) =? 0 then 256 else fst (tf_count t) in
  let count48 := let c := fst (tf_count t) + 256 * snd (tf_count t) in if c =? 0 then 65536 else c in
  let c := tf_command t in
  if c =? 0xC8 then Some (Cmd false sl lba28 count28)
  else if c =? 0xCA then Some (Cmd true sl lba28 count28)
  else if c =? 0x25 then Some (Cmd false sl lba48 count48)
  else if c =? 0x35 then Some (Cmd true sl lba48 count48)
  else None.

(** The registers of the bus master: bit 0 of the command starts it, bit 3 set
    means to memory. *)
Record busmaster := Bm { bm_command : Z; bm_table : Z }.
Definition bm_step (bm : Z) (e : Ports.io) (b : busmaster) : busmaster :=
  match e with
  | Out 8 p x => if p =? bm then Bm x (bm_table b) else b
  | Out 32 p x => if p =? bm + 4 then Bm (bm_command b) x else b
  | _ => b
  end.
Definition bm_after (bm : Z) (l : ports) : busmaster := foldr (bm_step bm) (Bm 0 0) l.

Definition tf (d : drive) (s : ata) : taskfile := tf_after (io_base d) (at_ports s).
Definition bm (d : drive) (s : ata) : busmaster := bm_after (bm_base d) (at_ports s).

(** Bytes that arrive one after the other at the addresses [addr]. *)
Fixpoint dma_copy (n : nat) (addr : Z → option Z) (src dst : Z → Z) : Z → Z :=
  match n with
  | O => dst
  | S n =>
      match addr (Z.of_nat n) with
      | Some a => λ x, if x =? a then src (Z.of_nat n) else dma_copy n addr src dst x
      | None => dma_copy n addr src dst
      end
  end.

(** The transfer the hardware makes for the commands it was given. *)
Definition hw_transfer (d : drive) (s : ata) : ata :=
  match decode_command (tf d s) with
  | None => s
  | Some c =>
      let b := bm d s in
      let addr := dma_address (prd_mem s) (bm_table b) in
      let from := 512 * c_lba c in
      let size := 512 * c_sectors c in
      let disk := media s (c_slave c) in
      if negb (Z.testbit (bm_command b) 0) then s
      else if c_write c then
        if Z.testbit (bm_command b) 3 then s
        else set_data (phys s) (λ sl x,
          if bool_decide (sl = c_slave c ∧ from <= x < from + size)
          then match addr (x - from) with Some a => phys s a | None => media s sl x end
          else media s sl x) s
      else
        if Z.testbit (bm_command b) 3
        then set_data (dma_copy (Z.to_nat size) addr (λ k, disk (from + k)) (phys s)) (media s) s
        else s
  end.

Lemma dma_copy_run n addr src dst a x :
  (∀ k, 0 <= k < Z.of_nat n → addr k = Some (a + k)) →
  dma_copy n addr src dst x = if decide (a <= x < a + Z.of_nat n) then src (x - a) else dst x.
Proof.
  induction n as [|n IH]; intros Ha; cbn [dma_copy]; [by rewrite decide_False by lia|].
  rewrite Ha by lia. rewrite IH by (intros; apply Ha; lia).
  destruct (Z.eqb_spec x (a + Z.of_nat n)) as [->|Hne].
  - rewrite decide_True by lia. f_equal. lia.
  - repeat case_decide; done || lia.
Qed.

(** Where the registers of a drive are. *)
Record ports_ok (d : drive) : Prop := {
  po_io : 0 <= io_base d <= 0xfff8;
  po_ctrl : 0 <= ctrl_base d < 0x10000 ∧ ¬ (io_base d <= ctrl_base d < io_base d + 8);
  po_bm : 0 <= bm_base d <= 0xfff8 ∧ (bm_base d + 8 <= io_base d ∨ io_base d + 8 <= bm_base d) ∧
    ¬ (bm_base d <= ctrl_base d < bm_base d + 8);
}.

Section registers.
Variable d : drive.
Hypothesis Hok : ports_ok d.

Lemma tf_reg r b s :
  0 <= r <= 7 → tf d (log_io (Out 8 (u16 (io_base d + r)) b) s) = tf_write r b (tf d s).
Proof using Hok.
  intros Hr. destruct Hok as [Hio _ _]. unfold tf, tf_after, log_io. cbn [at_ports put ata_ports view foldr tf_step].
  rewrite u16_small by lia. by rewrite Z.add_simpl_l.
Qed.
Lemma tf_other p b s : ¬ (io_base d <= p < io_base d + 8) → tf d (log_io (Out 8 p b) s) = tf d s.
Proof using Type.
  intros Hp. unfold tf, tf_after, log_io. cbn [at_ports put ata_ports view foldr tf_step]. unfold tf_write.
  rewrite !(proj2 (Z.eqb_neq _ _)) by lia. done.
Qed.
Lemma tf_out32 p b s : tf d (log_io (Out 32 p b) s) = tf d s.
Proof using Type. done. Qed.
Lemma tf_in w p b s : tf d (log_io (In w p b) s) = tf d s.
Proof using Type. done. Qed.

Lemma bm_reg b s : bm d (log_io (Out 8 (u16 (bm_base d)) b) s) = Bm b (bm_table (bm d s)).
Proof using Hok.
  destruct Hok as [_ _ [Hbm _]]. unfold bm, bm_after, log_io. cbn [at_ports put ata_ports view foldr bm_step].
  rewrite u16_small by lia. by rewrite Z.eqb_refl.
Qed.
Lemma bm_tab b s : bm d (log_io (Out 32 (u16 (bm_base d + 4)) b) s) = Bm (bm_command (bm d s)) b.
Proof using Hok.
  destruct Hok as [_ _ [Hbm _]]. unfold bm, bm_after, log_io. cbn [at_ports put ata_ports view foldr bm_step].
  rewrite u16_small by lia. by rewrite Z.eqb_refl.
Qed.
Lemma bm_other p b s : p ≠ bm_base d → bm d (log_io (Out 8 p b) s) = bm d s.
Proof using Type.
  intros Hp. unfold bm, bm_after, log_io. cbn [at_ports put ata_ports view foldr bm_step].
  rewrite !(proj2 (Z.eqb_neq _ _)) by lia. done.
Qed.
Lemma bm_in w p b s : bm d (log_io (In w p b) s) = bm d s.
Proof using Type. done. Qed.
End registers.

(** ** A transfer, proved *)

(** The drive answers that it is ready within [n] reads of its status. *)
Definition drdy (v : Z) : bool := negb (ATA_BSY v) && negb (Z.land v 0x40 =? 0).
Fixpoint ready_in (device : ports → Z → Z → Z) (n : nat) (p : Z) (l : ports) : bool :=
  let v := u8 (device l 8 p) in
  drdy v || match n with O => false | S n => ready_in device n p (In 8 p v :: l) end.

(** Nothing but the log of port accesses changes. *)
Definition only_ports (s s' : ata) : Prop := s' = put (T := ports) (at_ports s') s.

Lemma only_ports_refl s : only_ports s s.
Proof. by destruct s. Qed.
Lemma only_ports_log e s s' : only_ports s s' → only_ports s (log_io e s').
Proof. unfold only_ports. intros ->. done. Qed.
Lemma only_ports_trans s1 s2 s3 : only_ports s1 s2 → only_ports s2 s3 → only_ports s1 s3.
Proof. unfold only_ports. intros -> ->. done. Qed.

(** Reads only: the registers are as they were. *)
Record quiet (d : drive) (s s' : ata) : Prop := {
  qu_ports : only_ports s s';
  qu_tf : tf d s' = tf d s;
  qu_bm : bm d s' = bm d s;
}.
Lemma quiet_refl d s : quiet d s s.
Proof. split; [apply only_ports_refl|done..]. Qed.
Lemma quiet_in d w p v s s' : quiet d s s' → quiet d s (log_io (In w p v) s').
Proof. intros [H1 H2 H3]. split; [by apply only_ports_log|by rewrite tf_in|by rewrite bm_in]. Qed.

Section wait.
Variable device : ports → Z → Z → Z.

Lemma ata_wait_status_wp d n (Q : unit → ata → Prop) s :
  ready_in device n (u16 (io_base d + ATA_STATUS)) (at_ports s) = true → Z.of_nat n < 2 ^ 32 - 1 →
  (∀ s', quiet d s s' → Q tt s') → wp (ata_wait_status device (io_base d)) Q s.
Proof.
  intros Hr Hn HQ. unfold ata_wait_status. wp. unfold port_reply. set (p := u16 (io_base d + ATA_STATUS)) in *.
  set (N := Z.of_nat (length (at_ports s) + n)).
  apply (wp_loop (λ status s', quiet d s s' ∧ ∃ l (k : nat), at_ports s' = In 8 p status :: l ∧
    status = u8 (device l 8 p) ∧ ready_in device k p l = true ∧ Z.of_nat (length l + k) = N)
    (λ _ s', N + 1 - Z.of_nat (length (at_ports s')))).
  - split; [apply quiet_in, quiet_refl|]. by exists (at_ports s), n.
  - unfold N. cbn [at_ports log_io put view ata_ports length]. unfold fuel32. lia.
  - intros status s' (_ & l & k & -> & _ & _ & Hlen). simpl. lia.
  - intros status s' (Hq & l & k & Hl & Hst & Hk & Hlen).
    assert (ATA_BSY status || (Z.land status 0x40 =? 0) = negb (drdy status)) as ->.
    { unfold drdy. by destruct (ATA_BSY status), (Z.land status 0x40 =? 0). }
    destruct (drdy status) eqn:Hd; cbn [negb]; wp; [by apply HQ|].
    unfold port_reply. fold p.
    change (view s') with (at_ports s'). split; [split; [by apply quiet_in|]|].
    + destruct k as [|k]; cbn [ready_in] in Hk; rewrite <- Hst, Hd in Hk; [done|]. cbn [orb] in Hk.
      exists (at_ports s'), k. split_and!; [done|done|by rewrite Hl|]. rewrite Hl. simpl. lia.
    + cbn [at_ports log_io put view ata_ports length]. lia.
Qed.
End wait.

(** The bytes of a block address and of a count. *)
Lemma byte_at x k : 0 <= k → u8 (Z.land (Z.shiftr x k) 0xff) = x / 2 ^ k mod 256.
Proof.
  intros Hk. change 0xff with (Z.ones 8). rewrite land_low, Z.shiftr_div_pow2 by lia. change (2 ^ 8) with 256.
  apply u8_id, Z.mod_pos_bound. lia.
Qed.
Lemma byte_0 x : u8 (Z.land x 0xff) = x mod 256.
Proof. change 0xff with (Z.ones 8). rewrite land_low by lia. apply u8_id, Z.mod_pos_bound. lia. Qed.

Lemma le24_bytes x : le24 (x mod 256) (x / 2 ^ 8 mod 256) (x / 2 ^ 16 mod 256) = x mod 16777216.
Proof.
  unfold le24. change (2 ^ 8) with 256. change (2 ^ 16) with 65536.
  Z.to_euclidean_division_equations. lia.
Qed.

(** The byte written to the drive and head register. *)
Lemma head_fields (b : bool) x :
  let h := u8 (Z.lor (Z.lor 0x40 (Z.shiftl (b2z b) 4)) (Z.land x 0x0f)) in
  (Z.land (Z.shiftr h 4) 1 =? 1) = b ∧ Z.land h 0xf = x mod 16.
Proof.
  intros h. assert (h = (if b then 5 else 4) * 2 ^ 4 + x mod 16) as ->.
  { unfold h. change 0x0f with (Z.ones 4). rewrite land_low by lia. pose proof (Z.mod_pos_bound x 16 ltac:(lia)).
    change (2 ^ 4) with 16 in *.
    assert (Z.lor 0x40 (Z.shiftl (b2z b) 4) = Z.shiftl (if b then 5 else 4) 4) as -> by by destruct b.
    rewrite lor_shiftl_add by (change (2 ^ 4) with 16; lia). change (2 ^ 4) with 16. apply u8_id. unfold is_u8. destruct b; lia. }
  pose proof (Z.mod_pos_bound x 16 ltac:(lia)). change (2 ^ 4) with 16. split.
  - rewrite Z.shiftr_div_pow2 by lia. change (2 ^ 4) with 16. rewrite Z.div_add_l by lia. rewrite Z.div_small by lia. by destruct b.
  - change 0xf with (Z.ones 4). rewrite land_low by lia. change (2 ^ 4) with 16.
    rewrite Z.add_comm, Z.mod_add by lia. rewrite Z.mod_small; lia.
Qed.

(** The blocks and sectors a command can name. *)
Definition lba_ok (d : drive) (lba sectors : Z) : Prop :=
  if huge d then 0 <= lba < 2 ^ 48 ∧ 0 < sectors <= 65536 else 0 <= lba < 2 ^ 28 ∧ 0 < sectors <= 256.

Lemma count28 x : 0 < x <= 256 → (if u8 x =? 0 then 256 else u8 x) = x.
Proof.
  intros Hx. destruct (decide (x = 256)) as [->|]; [done|]. rewrite u8_id by (unfold is_u8; lia).
  by rewrite (proj2 (Z.eqb_neq _ _)) by lia.
Qed.
Lemma count48 x : 0 < x <= 65536 →
  (let c := x mod 256 + 256 * u8 (Z.shiftr x 8) in if c =? 0 then 65536 else c) = x.
Proof.
  intros Hx. destruct (decide (x = 65536)) as [->|]; [done|]. cbv zeta. set (c := x mod 256 + _).
  assert (c = x) as ->.
  { unfold c. rewrite Z.shiftr_div_pow2 by lia. change (2 ^ 8) with 256. rewrite u8_id.
    - pose proof (Z.div_mod x 256 ltac:(lia)). lia.
    - unfold is_u8. split; [apply Z.div_pos; lia|apply Z.div_lt_upper_bound; lia]. }
  by rewrite (proj2 (Z.eqb_neq _ _)) by lia.
Qed.
Lemma lba28 x : 0 <= x < 2 ^ 28 → x mod 16777216 + 16777216 * (Z.shiftr x 24 mod 16) = x.
Proof.
  intros Hx. rewrite Z.shiftr_div_pow2 by lia. change (2 ^ 24) with 16777216.
  rewrite (Z.mod_small (x / 16777216)); [pose proof (Z.div_mod x 16777216 ltac:(lia)); lia|].
  split; [apply Z.div_pos; lia|apply Z.div_lt_upper_bound; lia].
Qed.
Lemma lba48 x : 0 <= x < 2 ^ 48 →
  x mod 16777216 + 16777216 * le24 (x / 2 ^ 24 mod 256) (x / 2 ^ 32 mod 256) (x / 2 ^ 40 mod 256) = x.
Proof.
  intros Hx. change (2 ^ 32) with (2 ^ 24 * 2 ^ 8). change (2 ^ 40) with (2 ^ 24 * 2 ^ 16).
  rewrite <- !Z.div_div by lia. rewrite le24_bytes. change (2 ^ 24) with 16777216.
  rewrite (Z.mod_small (x / 16777216)); [pose proof (Z.div_mod x 16777216 ltac:(lia)); lia|].
  split; [apply Z.div_pos; lia|apply Z.div_lt_upper_bound; lia].
Qed.

Section command_proofs.
Variable device : ports → Z → Z → Z.
Variable d : drive.
Hypothesis Hok : ports_ok d.

Lemma io_not_bm r : 0 <= r <= 7 → u16 (io_base d + r) ≠ bm_base d.
Proof using Hok. destruct Hok as [Hio _ [Hbm [Hd _]]]. intros Hr. rewrite u16_small by lia. lia. Qed.

(** The drive decodes the command the driver meant. *)
Lemma ata_command_wp n (w : bool) lba sc (Q : unit → ata → Prop) s :
  (∀ l, ready_in device n (u16 (io_base d + ATA_STATUS)) l = true) → Z.of_nat n < 2 ^ 32 - 1 → lba_ok d lba sc →
  (∀ s', only_ports s s' → bm d s' = bm d s → decode_command (tf d s') = Some (Cmd w (slave d) lba sc) → Q tt s') →
  wp (ata_command device d lba sc (if w then ATA_CMD_WRITE_DMA_EXT else ATA_CMD_READ_DMA_EXT)
        (if w then ATA_CMD_WRITE_DMA else ATA_CMD_READ_DMA)) Q s.
Proof using Hok.
  intros Hr Hn Hlba HQ. unfold ata_command, lba_ok, slave_bit in *.
  unfold ATA_DRIVE_HEAD, ATA_SECTOR_COUNT, ATA_LBA_LOW, ATA_LBA_MID, ATA_LBA_HIH, ATA_COMMAND.
  destruct (head_fields (slave d) (Z.shiftr lba 24)) as [Hsl Hhd]. cbv zeta in Hsl, Hhd.
  destruct (huge d); wp; (apply (ata_wait_status_wp _ _ n); [apply Hr|done|]); intros s' [Hp Htf Hbm]; wp; apply HQ.
  - apply only_ports_log. eapply only_ports_trans; [|exact Hp]. repeat apply only_ports_log. apply only_ports_refl.
  - rewrite bm_other by (apply io_not_bm; lia). rewrite Hbm. by rewrite !bm_other by (apply io_not_bm; lia).
  - rewrite tf_reg by (done || lia). rewrite Htf, !tf_reg by (done || lia).
    cbn [tf_write shift_in Z.eqb Pos.eqb fst snd tf_head tf_count tf_low tf_mid tf_high tf_command].
    unfold decode_command, shift_in. cbn [fst snd tf_head tf_count tf_low tf_mid tf_high tf_command].
    rewrite Hsl, !byte_at, !byte_0 by lia. rewrite le24_bytes, lba48, count48 by lia. by destruct w.
  - apply only_ports_log. eapply only_ports_trans; [|exact Hp]. repeat apply only_ports_log. apply only_ports_refl.
  - rewrite bm_other by (apply io_not_bm; lia). rewrite Hbm. by rewrite !bm_other by (apply io_not_bm; lia).
  - rewrite tf_reg by (done || lia). rewrite Htf, !tf_reg by (done || lia).
    cbn [tf_write shift_in Z.eqb Pos.eqb fst snd tf_head tf_count tf_low tf_mid tf_high tf_command].
    unfold decode_command, shift_in. cbn [fst snd tf_head tf_count tf_low tf_mid tf_high tf_command].
    rewrite Hsl, Hhd, !byte_at, !byte_0, le24_bytes, lba28, count28 by lia. by destruct w.
Qed.
End command_proofs.

(** What a step of the driver leaves alone. *)
Record same_kernel (s s' : ata) : Prop := {
  sk_drives : drives s' = drives s;
  sk_running : running s' = running s;
  sk_files : ide_files s' = ide_files s;
  sk_phys : phys s' = phys s;
  sk_media : media s' = media s;
  sk_locked : primary_ata_locked s' = primary_ata_locked s;
  sk_blocked : blocked s' = blocked s;
  sk_index : transferring_disk_index s' = transferring_disk_index s;
}.
Lemma same_kernel_refl s : same_kernel s s.
Proof. done. Qed.
Lemma same_kernel_log e s s' : same_kernel s s' → same_kernel s (log_io e s').
Proof. intros []. by split. Qed.
Lemma same_kernel_ports s s' s2 : same_kernel s s' → only_ports s' s2 → same_kernel s s2.
Proof. unfold only_ports. intros [] ->. by split. Qed.
Lemma only_ports_prd s s' : only_ports s s' → prd_mem s' = prd_mem s.
Proof. unfold only_ports. by intros ->. Qed.
#[export] Hint Resolve same_kernel_refl same_kernel_log : core.

(** The hardware and the rest of the system as the driver relies on them: the
    drive gets ready, its interrupt is seen in the bus master's status, and a
    process that gives up the processor during its transfer comes back after
    the transfer and its interrupt. *)
Record channel (device : ports → Z → Z → Z) (int_32 : M ata unit) (d : drive) : Prop := {
  ch_ports : ports_ok d;
  ch_ready : ∃ n : nat, Z.of_nat n < 2 ^ 32 - 1 ∧ ∀ l, ready_in device n (u16 (io_base d + ATA_STATUS)) l = true;
  ch_idle : ∀ l, let v := u8 (device l 8 (ctrl_base d)) in (Z.shiftr v 7 =? 0) && (Z.land (Z.shiftr v 3) 1 =? 0) = true;
  ch_irq : ∀ l, Z.testbit (bm_command (bm_after (bm_base d) l)) 0 = true →
    Z.land (u8 (device l 8 (u16 (bm_base d + 2)))) 0x4 ≠ 0;
  ch_wait : ∀ s, 0 <= transferring_disk_index s < DRIVE_COUNT → drive_at s (transferring_disk_index s) = d →
    int_32 s = int_handler device (hw_transfer d s);
}.

Section transfer.
Variable device : ports → Z → Z → Z.
Variable paddr : Z → Z.
Hypothesis paddr_u32 : ∀ v, is_u32 (paddr v).
Variable int_32 : M ata unit.
Variable d : drive.
Hypothesis Hch : channel device int_32 d.

Lemma ata_ready_wp (Q : bool → ata → Prop) s :
  (∀ s', same_kernel s s' → prd_mem s' = prd_mem s → bm d s' = bm d s → Q true s') →
  wp (ata_ready device (io_base d) (ctrl_base d) (slave_bit d)) Q s.
Proof using Hch.
  intros HQ. destruct Hch as [Hok _ Hidle _ _]. pose proof (po_ctrl d Hok) as [Hc _].
  assert (∀ s1, same_kernel s s1 → prd_mem s1 = prd_mem s → bm d s1 = bm d s →
    wp (for_all 0 4 (λ _, _ ← inb device (ctrl_base d + ATA_STATUS); skip);;
        status ← inb device (ctrl_base d);
        mret ((Z.shiftr status 7 =? 0) && (Z.land (Z.shiftr status 3) 1 =? 0))) Q s1) as Hrest.
  { intros s1 H1 H2 H3. rewrite wp_bind.
    apply (wp_for_all (λ _ s', same_kernel s s' ∧ prd_mem s' = prd_mem s ∧ bm d s' = bm d s)); [done|done| |].
    - intros k s' _ (? & ? & ?). wp. split_and!; [by apply same_kernel_log|done|by rewrite bm_in].
    - intros s' (H4 & H5 & H6). wp. unfold port_reply. rewrite (u16_small (ctrl_base d)) by lia.
      change (view s') with (at_ports s'). rewrite Hidle. apply HQ; [by apply same_kernel_log|done|by rewrite bm_in]. }
  unfold ata_ready. wp. destruct (_ && _); wp; apply Hrest; try done.
  rewrite bm_other by (apply io_not_bm; done || (unfold ATA_DRIVE_HEAD; lia)). done.
Qed.

(** The driver is ready to start the transfer [w] of [n] pages. *)
Record prepared (w : bool) (id lba a n : Z) (s s' : ata) : Prop := {
  pr_drives : drives s' = drives s;
  pr_running : running s' = running s;
  pr_files : ide_files s' = ide_files s;
  pr_phys : phys s' = phys s;
  pr_media : media s' = media s;
  pr_index : transferring_disk_index s' = id;
  pr_pid : transferring_pid s' = running s;
  pr_blocked : blocked s' = {[running s]} ∪ blocked s;
  pr_cmd : decode_command (tf d s') = Some (Cmd w (slave d) lba (n * 8));
  pr_table : ∀ k, 0 <= k < n * PAGE_SIZE_BYTES → dma_address (prd_mem s') (bm_table (bm d s')) k = Some (a + k);
}.

Definition cmd_ext (w : bool) : Z := if w then ATA_CMD_WRITE_DMA_EXT else ATA_CMD_READ_DMA_EXT.
Definition cmd_28 (w : bool) : Z := if w then ATA_CMD_WRITE_DMA else ATA_CMD_READ_DMA.

Lemma ata_prepare_wp (w : bool) id ptr offset n p start (Q : unit → ata → Prop) s :
  is_u32 ptr → contiguous paddr ptr n p → 1 <= n <= 16 → n = 1 ∨ (p + ptr mod 4096) mod 65536 < 0xf000 →
  0 <= offset → lba_ok d (offset / 512) (n * 8) → is_u8 start →
  (∀ s', prepared w id (offset / 512) (p + ptr mod 4096) n s s' → bm_command (bm d s') = start → Q tt s') →
  wp (ata_prepare device paddr int_32 d id ptr offset n (cmd_ext w) (cmd_28 w) start) Q s.
Proof using paddr_u32 Hch.
  intros Hptr Hc Hn Hlow Ho Hlba Hst HQ. pose proof Hch as [Hok (N & HN & Hrdy) _ _ _]. pose proof Hok as [Hio [Hct Hct2] [Hbm [Hbm2 Hbm3]]].
  unfold ata_prepare. wp. apply (fill_one_run_wp paddr paddr_u32 _ _ _ p); [done..|]. intros c m [Hdesc _]. wp.
  rewrite (u16_small (ctrl_base d)), (u16_small (bm_base d + 2)) by lia. rewrite (u32_id (paddr _)) by apply paddr_u32.
  set (s1 := log_io _ _).
  assert (same_kernel s s1) as H1 by by (repeat apply same_kernel_log).
  assert (prd_mem s1 = m) as Hm by done.
  assert (bm_table (bm d s1) = paddr (PRDT d)) as Ht.
  { unfold s1. rewrite bm_reg by done. cbn [bm_table]. rewrite bm_in, bm_tab by done. done. }
  clearbody s1.
  apply (wp_loop (λ _ s', s' = s1) (λ _ _, 0)); [done|by_computation|lia|]. intros [] s' ->. wp.
  apply ata_ready_wp. intros s2 H2 Hm2 Hb2. wp. rewrite Z.shiftr_div_pow2 by lia. change (2 ^ 9) with 512.
  rewrite (u32_id (n * 8)) by (unfold is_u32; lia).
  apply (ata_command_wp device d Hok N); [done..|]. intros s3 Hp3 Hb3 Hcmd. wp. apply HQ.
  - pose proof (same_kernel_ports _ _ _ H2 Hp3) as H3. pose proof (only_ports_prd _ _ Hp3) as Hm3. destruct H1, H3.
    split; try (cbn [drives running ide_files phys media transferring_disk_index transferring_pid blocked
      set_transfer set_blocked set_ints log_io put ata_ports]; congruence).
    + change (decode_command (tf d (log_io (Out 8 (u16 (bm_base d)) (u8 start)) s3)) =
        Some (Cmd w (slave d) (offset / 512) (n * 8))).
      rewrite tf_other by (rewrite u16_small; lia). exact Hcmd.
    + intros k Hk. change (dma_address (prd_mem s3) (bm_table (bm d (log_io (Out 8 (u16 (bm_base d)) (u8 start)) s3))) k =
        Some (p + ptr mod 4096 + k)). rewrite bm_reg by done. cbn [bm_table].
      rewrite Hm3, Hm2, Hb3, Hb2, Hm, Ht. by apply Hdesc.
  - change (bm_command (bm d (log_io (Out 8 (u16 (bm_base d)) (u8 start)) s3)) = start).
    rewrite bm_reg by done. cbn [bm_command]. by apply u8_id.
Qed.

(** The end of the transfer, seen by the process that waits for it. *)
Record finished (s s' : ata) : Prop := {
  fi_drives : drives s' = drives s;
  fi_running : running s' = running s;
  fi_files : ide_files s' = ide_files s;
  fi_locked : primary_ata_locked s' = false;
  fi_index : transferring_disk_index s' = u32 (-1);
  fi_blocked : blocked s' = blocked s ∖ {[transferring_pid s]};
  fi_phys : phys s' = phys s;
  fi_media : media s' = media s;
}.

Lemma transfer_done_wp (Q : unit → ata → Prop) s :
  (∀ s', finished s s' → Q tt s') → wp transfer_done Q s.
Proof using Type. intros HQ. unfold transfer_done, unblock_pid. wp. apply HQ. done. Qed.

Lemma finished_log e s s' : finished (log_io e s) s' → finished s s'.
Proof using Type. intros []. by split. Qed.

Lemma int_handler_wp id (Q : unit → ata → Prop) s :
  transferring_disk_index s = id → 0 <= id < DRIVE_COUNT → drive_at s id = d →
  Z.testbit (bm_command (bm d s)) 0 = true →
  (∀ s', finished s s' → Q tt s') → wp (int_handler device) Q s.
Proof using Hch.
  intros Hid Hr Hd Hrun HQ. unfold int_handler. wp. rewrite Hid.
  rewrite (proj2 (Z.eqb_neq id _)) by (unfold DRIVE_COUNT in Hr; change (u32 (-1)) with 4294967295; lia). wp.
  unfold get_drive. rewrite bool_decide_eq_true_2 by done. wp. rewrite Hd.
  unfold port_reply at 1. rewrite (proj2 (Z.eqb_neq _ _)) by exact (ch_irq _ _ _ Hch (at_ports s) Hrun). wp.
  destruct (negb _); wp; apply transfer_done_wp; intros s' Hf; apply HQ; by repeat apply finished_log in Hf.
Qed.

(** What a transfer leaves behind: the channel is free, nobody waits for it, the
    data has been moved. *)
Record transferred (s s' : ata) : Prop := {
  tr_drives : drives s' = drives s;
  tr_running : running s' = running s;
  tr_files : ide_files s' = ide_files s;
  tr_locked : primary_ata_locked s' = false;
  tr_index : transferring_disk_index s' = u32 (-1);
  tr_blocked : blocked s' = blocked s ∖ {[running s]};
}.

(** A buffer of [n] pages that the bus master reaches. *)
Record dma_buffer (ptr n p : Z) : Prop := {
  db_u32 : is_u32 ptr;
  db_pages : 1 <= n <= 16;
  db_frames : contiguous paddr ptr n p;
  db_low : n = 1 ∨ (p + ptr mod 4096) mod 65536 < 0xf000;
}.
(** The memory of the buffer. *)
Definition buffer_at (ptr p : Z) : Z := p + ptr mod 4096.

Lemma acquire_primary_wp (Q : unit → ata → Prop) s :
  primary_ata_locked s = false → Q tt (set_locked true s) → wp (ata_acquire_primary_lock int_32) Q s.
Proof using Type.
  intros Hl HQ. unfold ata_acquire_primary_lock. wp.
  apply (wp_loop (λ _ s', s' = s) (λ _ _, 0)); [done|by_computation|lia|]. intros [] s' ->. wp. rewrite Hl. by wp.
Qed.

Lemma ata_transfer_wp (w : bool) id ptr offset count n p (Q : Z → ata → Prop) s :
  0 <= id < DRIVE_COUNT → drive_at s id = d → primary_ata_locked s = false →
  dma_buffer ptr n p → 0 < count → (count + 4095) / 4096 = n → 0 <= offset → lba_ok d (offset / 512) (n * 8) →
  (∀ s' : ata, transferred s s' →
     (if w
      then phys s' = phys s ∧ ∀ b x, media s' b x =
        if bool_decide (b = slave d ∧ offset / 512 * 512 <= x < offset / 512 * 512 + n * PAGE_SIZE_BYTES)
        then phys s (buffer_at ptr p + (x - offset / 512 * 512)) else media s b x
      else media s' = media s ∧ ∀ x, phys s' x =
        if bool_decide (buffer_at ptr p <= x < buffer_at ptr p + n * PAGE_SIZE_BYTES)
        then media s (slave d) (offset / 512 * 512 + (x - buffer_at ptr p)) else phys s x) → Q 0 s') →
  wp (ata_transfer device paddr int_32 id ptr offset count (cmd_ext w) (cmd_28 w) (if w then 0x01 else 0x09)) Q s.
Proof using paddr_u32 Hch.
  intros Hid Hd Hl [Hptr Hn Hc Hlow] Hcount Hpages Ho Hlba HQ. unfold ata_transfer. rewrite (proj2 (Z.eqb_neq _ _)) by lia. wp.
  unfold get_drive. rewrite bool_decide_eq_true_2 by done. wp. rewrite Hd. apply acquire_primary_wp; [done|]. wp.
  assert (count + 4095 < 2 ^ 32) by (pose proof (Z.div_mod (count + 4095) 4096 ltac:(lia));
    pose proof (Z.mod_pos_bound (count + 4095) 4096 ltac:(lia)); lia).
  unfold u64 at 1. rewrite (Z.mod_small (count + 4095)) by lia. rewrite Hpages, (u32_id n) by (unfold is_u32; lia).
  rewrite (proj2 (Z.eqb_neq _ _)) by (rewrite u32_id by (unfold is_u32; lia); lia). wp.
  unfold u64. rewrite (Z.mod_small (count + 4095)) by lia. rewrite Hpages, (u32_id n) by (unfold is_u32; lia).
  apply (ata_prepare_wp w id ptr offset n p); try done; [by destruct w|].
  intros s1 [Hdr Hru Hfi Hph Hme Hix Hpi Hbl Hcmd Htab] Hstart. wp.
  set (s2 := log_io _ (log_io _ s1)). assert (at_ports s2 = In 8 _ _ :: In 8 _ _ :: at_ports s1) as Hlog by done.
  assert (tf d s2 = tf d s1) as Htf by done. assert (bm d s2 = bm d s1) as Hbm by done.
  assert (drive_at s2 id = d) as Hd2 by (unfold drive_at; change (drives s2) with (drives s1); by rewrite Hdr).
  unfold wp at 1. rewrite (ch_wait _ _ _ Hch s2) by (change (transferring_disk_index s2) with (transferring_disk_index s1); rewrite Hix; done).
  change (wp (int_handler device) (λ _ s', wp (mret 0) Q s') (hw_transfer d s2)).
  assert (∃ ph me, hw_transfer d s2 = set_data ph me s2 ∧
    if w
    then ph = phys s ∧ ∀ b x, me b x =
      if bool_decide (b = slave d ∧ offset / 512 * 512 <= x < offset / 512 * 512 + n * PAGE_SIZE_BYTES)
      then phys s (buffer_at ptr p + (x - offset / 512 * 512)) else media s b x
    else me = media s ∧ ∀ x, ph x =
      if bool_decide (buffer_at ptr p <= x < buffer_at ptr p + n * PAGE_SIZE_BYTES)
      then media s (slave d) (offset / 512 * 512 + (x - buffer_at ptr p)) else phys s x) as (ph & me & Hhw & Hdata).
  { unfold hw_transfer. rewrite Htf, Hbm, Hcmd. cbn [c_write c_slave c_lba c_sectors]. rewrite Hstart.
    change (prd_mem s2) with (prd_mem s1). change (phys s2) with (phys s1). change (media s2) with (media s1). rewrite Hph, Hme.
    unfold PAGE_SIZE_BYTES in *. replace (512 * (n * 8)) with (n * 4096) by lia. rewrite (Z.mul_comm 512).
    destruct w; cbn [Z.testbit Z.odd Pos.testbit negb].
    - eexists _, _. split; [done|]. split; [done|]. intros b x.
      destruct (bool_decide_reflect (b = slave d ∧ offset / 512 * 512 <= x < offset / 512 * 512 + n * 4096)) as [[-> Hx]|Hx]; [|done].
      by rewrite Htab by lia.
    - eexists _, _. split; [done|]. split; [done|]. intros x. rewrite (dma_copy_run _ _ _ _ (buffer_at ptr p)).
      + rewrite Z2Nat.id by lia. case_decide; case_bool_decide; done || lia.
      + intros k Hk. apply Htab. lia. }
  rewrite Hhw. apply (int_handler_wp id); [done|done|exact Hd2| |].
  - change (bm d (set_data ph me s2)) with (bm d s2). rewrite Hbm, Hstart. by destruct w.
  - intros s3 [F1 F2 F3 F4 F5 F6 F7 F8]. wp. apply HQ.
    + split; [exact (eq_trans F1 Hdr)|exact (eq_trans F2 Hru)|exact (eq_trans F3 Hfi)|exact F4|exact F5|]. rewrite F6. change (transferring_pid (set_data ph me s2)) with (transferring_pid s1).
      change (blocked (set_data ph me s2)) with (blocked s1). rewrite Hpi, Hbl.
      change (({[running s]} ∪ blocked s) ∖ {[running s]} = blocked s ∖ {[running s]}). set_solver.
    + rewrite F7, F8. exact Hdata.
Qed.

(** A transfer from the disk, from the driver's call to the interrupt that ends
    it.  The commands the driver sends make the drive and the bus master put
    the sectors from the one of [offset] on into the buffer and nowhere
    else, in whole pages; the waiting process is woken and the channel is free for
    the next call. *)
Theorem ata_read_delivers id ptr offset count n p s :
  0 <= id < DRIVE_COUNT → drive_at s id = d → primary_ata_locked s = false →
  dma_buffer ptr n p → 0 < count → (count + 4095) / 4096 = n → 0 <= offset → lba_ok d (offset / 512) (n * 8) →
  ∃ s', ata_read device paddr int_32 id ptr offset count s = Ok (0, s') ∧ transferred s s' ∧ media s' = media s ∧
    ∀ x, phys s' x = if bool_decide (buffer_at ptr p <= x < buffer_at ptr p + n * PAGE_SIZE_BYTES)
                     then media s (slave d) (offset / 512 * 512 + (x - buffer_at ptr p)) else phys s x.
Proof using paddr_u32 Hch.
  intros Hid Hd Hl Hb Hc Hn Ho Hlba.
  destruct (proj1 (wp_ok (ata_read device paddr int_32 id ptr offset count) (λ r s', r = 0 ∧ transferred s s' ∧ media s' = media s ∧
    ∀ x, phys s' x = if bool_decide (buffer_at ptr p <= x < buffer_at ptr p + n * PAGE_SIZE_BYTES)
                     then media s (slave d) (offset / 512 * 512 + (x - buffer_at ptr p)) else phys s x) s))
    as (r & s' & Hrun & -> & Hpost); [|by exists s'].
  apply (ata_transfer_wp false id ptr offset count n p); try done.
Qed.

(** A transfer to the disk: exactly the sectors of the range, in whole pages,
    take the contents of the buffer, on the drive addressed and on no other
    one; memory is as before. *)
Theorem ata_write_stores id ptr offset count n p s :
  0 <= id < DRIVE_COUNT → drive_at s id = d → primary_ata_locked s = false →
  dma_buffer ptr n p → 0 < count → (count + 4095) / 4096 = n → 0 <= offset → lba_ok d (offset / 512) (n * 8) →
  ∃ s', ata_write device paddr int_32 id ptr offset count s = Ok (0, s') ∧ transferred s s' ∧ phys s' = phys s ∧
    ∀ b x, media s' b x =
      if bool_decide (b = slave d ∧ offset / 512 * 512 <= x < offset / 512 * 512 + n * PAGE_SIZE_BYTES)
      then phys s (buffer_at ptr p + (x - offset / 512 * 512)) else media s b x.
Proof using paddr_u32 Hch.
  intros Hid Hd Hl Hb Hc Hn Ho Hlba.
  destruct (proj1 (wp_ok (ata_write device paddr int_32 id ptr offset count) (λ r s', r = 0 ∧ transferred s s' ∧ phys s' = phys s ∧
    ∀ b x, media s' b x =
      if bool_decide (b = slave d ∧ offset / 512 * 512 <= x < offset / 512 * 512 + n * PAGE_SIZE_BYTES)
      then phys s (buffer_at ptr p + (x - offset / 512 * 512)) else media s b x) s))
    as (r & s' & Hrun & -> & Hpost); [|by exists s'].
  apply (ata_transfer_wp true id ptr offset count n p); try done.
Qed.
End transfer.

(** ** The channel the disk files rely on *)

Section channel_instance.
Variable device : ports → Z → Z → Z.
Variable paddr : Z → Z.
Hypothesis paddr_u32 : ∀ v, is_u32 (paddr v).
Variable int_32 : M ata unit.
(** The drives that were found. *)
Variable dr : Z → drive.
Hypothesis dr_channel : ∀ id, channel device int_32 (dr id).

(** The physical address of a byte, and addresses that do not share memory. *)
Definition translate (v : Z) : Z := paddr v + v mod 4096.
Variable valid : Z → Prop.
Hypothesis translate_inj : ∀ v w, valid v → valid w → translate v = translate w → v = w.

Definition poke (a b : Z) (s : ata) : ata := set_data (λ x, if x =? translate a then b else phys s x) (media s) s.
Definition channel_free (id : Z) (s : ata) : Prop :=
  0 <= id < DRIVE_COUNT ∧ drive_at s id = dr id ∧ primary_ata_locked s = false.
Definition reachable (ptr n : Z) : Prop :=
  ∃ p, dma_buffer paddr ptr n p ∧
    ∀ k, 0 <= k < n * PAGE_SIZE_BYTES → valid (ptr + k) ∧ translate (ptr + k) = buffer_at ptr p + k.

Lemma reachable_iff ptr n p x :
  (∀ k, 0 <= k < n * PAGE_SIZE_BYTES → valid (ptr + k) ∧ translate (ptr + k) = buffer_at ptr p + k) → valid x →
  (buffer_at ptr p <= translate x < buffer_at ptr p + n * PAGE_SIZE_BYTES ↔ ptr <= x < ptr + n * PAGE_SIZE_BYTES) ∧
  (ptr <= x < ptr + n * PAGE_SIZE_BYTES → translate x = buffer_at ptr p + (x - ptr)).
Proof using translate_inj.
  intros Hb Hx. assert (ptr <= x < ptr + n * PAGE_SIZE_BYTES → translate x = buffer_at ptr p + (x - ptr)) as Ht.
  { intros Hin. destruct (Hb (x - ptr) ltac:(lia)) as [_ He]. by replace (ptr + (x - ptr)) with x in He by lia. }
  split; [split|done]; [|intros Hin; rewrite Ht by done; lia].
  intros Hin. destruct (Hb (translate x - buffer_at ptr p) ltac:(lia)) as [Hv He].
  assert (x = ptr + (translate x - buffer_at ptr p)) by (apply translate_inj; [done..|]; rewrite He; lia). lia.
Qed.

#[refine] Instance ata_channel : AtaChannel ata := {|
  ac_ok := channel_free;
  ac_valid := valid;
  ac_mem s v := phys s (translate v);
  ac_poke := poke;
  ac_disk s id := media s (slave (dr id));
  ac_blocks id off n := lba_ok (dr id) (off / 512) (n * 8);
  ac_dma := reachable;
  ac_other i j := slave (dr i) ≠ slave (dr j);
  ac_read := ata_read device paddr int_32;
  ac_write := ata_write device paddr int_32;
|}.
Proof using paddr_u32 dr_channel translate_inj.
  - done.
  - done.
  - intros a b s x Ha Hx. unfold poke. cbn [phys set_data]. destruct (Z.eqb_spec (translate x) (translate a)) as [He|Hne].
    + by rewrite decide_True by (apply translate_inj; done).
    + rewrite decide_False; [done|]. by intros ->.
  - intros id ptr off count n s Q (Hid & Hd & Hl) (p & Hb & Ht) Hc Hn Ho Hal Hblk HQ.
    assert (off / 512 * 512 = off) as Hoff by (pose proof (Z.div_mod off 512 ltac:(lia)); lia).
    apply (ata_transfer_wp device paddr paddr_u32 int_32 (dr id) (dr_channel id) false id ptr off count n p); try done.
    intros s' [T1 _ _ T4 _ _] [Hm Hp]. rewrite Hoff in Hp. apply HQ.
    + split_and!; [lia..| |done]. unfold drive_at. by rewrite T1.
    + by rewrite Hm.
    + intros x Hx. destruct (reachable_iff ptr n p x Ht Hx) as [Hiff Heq]. rewrite Hp.
      case_decide as Hin; case_bool_decide as Hin2; [|tauto|tauto|done]. f_equal. rewrite Heq by done. lia.
  - intros id ptr off count n s Q (Hid & Hd & Hl) (p & Hb & Ht) Hc Hn Ho Hal Hblk HQ.
    assert (off / 512 * 512 = off) as Hoff by (pose proof (Z.div_mod off 512 ltac:(lia)); lia).
    apply (ata_transfer_wp device paddr paddr_u32 int_32 (dr id) (dr_channel id) true id ptr off count n p); try done.
    intros s' [T1 _ _ T4 _ _] [Hp Hm]. rewrite Hoff in Hm. apply HQ.
    + split_and!; [lia..| |done]. unfold drive_at. by rewrite T1.
    + intros x Hx. by rewrite Hp.
    + intros x. rewrite Hm. case_decide as Hin; case_bool_decide as Hin2; [|tauto|tauto|done].
      destruct (Ht (x - off) ltac:(lia)) as [_ He]. by rewrite He.
    + intros j x Hj. rewrite Hm. rewrite bool_decide_eq_false_2; [done|]. by intros [? _].
Defined.

Variable bounce : Z.

(** C21: files on the disk, through all the layers: what [write_disk] is given
    reaches the platters, sector by sector through the registers and the bus
    master, and [read_disk] brings the same bytes back into another buffer. *)
Theorem kidm_write_read id ptr ptr2 offset count s :
  usable (H := ata_channel) (λ i, huge (dr i)) bounce id ptr offset count →
  usable (H := ata_channel) (λ i, huge (dr i)) bounce id ptr2 offset count →
  channel_free id s → offset mod 512 = 0 →
  ∃ s1 s2, write_disk (H := ata_channel) (λ i, huge (dr i)) bounce (Some id) ptr offset count s = Ok (count, s1) ∧
    (∀ x, media s1 (slave (dr id)) x =
       if decide (offset <= x < offset + count) then phys s (translate (ptr + (x - offset))) else media s (slave (dr id)) x) ∧
    read_disk (H := ata_channel) (λ i, huge (dr i)) bounce (Some id) ptr2 offset count s1 = Ok (count, s2) ∧
    ∀ k, 0 <= k < count → phys s2 (translate (ptr2 + k)) = phys s (translate (ptr + k)).
Proof.
  intros Hus Hus2 Hok Ho.
  destruct (proj1 (wp_ok (write_disk (H := ata_channel) (λ i, huge (dr i)) bounce (Some id) ptr offset count) (λ r s1, r = count ∧
    (∀ x, media s1 (slave (dr id)) x =
       if decide (offset <= x < offset + count) then phys s (translate (ptr + (x - offset))) else media s (slave (dr id)) x) ∧
    ac_ok (AtaChannel := ata_channel) id s1) s)) as (r & s1 & Hw & -> & Hm & Hok1).
  { apply write_disk_wp; [done..|]. intros s1 H1 _ H3 _. split_and!; done. }
  destruct (disk_write_read (H := ata_channel) (λ i, huge (dr i)) bounce id ptr ptr2 offset count s Hus Hus2 Hok Ho)
    as (s1' & s2 & Hw' & Hr & Hmem).
  rewrite Hw in Hw'. injection Hw' as <-. by exists s1, s2.
Qed.
End channel_instance.

(** ** Examples *)

Definition drive_example (id : Z) : drive :=
  Drive {[0 := 0x1F1; 1 := 0x3F7; 4 := 0xC001]} TYPE_IDE 0x100000 false (id =? 1) 0x300000.
Definition device_example (l : ports) (w p : Z) : Z := if p =? 0xC002 then 0x4 else 0x50.
(** While the process waits the hardware completes the transfer. *)
Definition int_32_example : M ata unit := λ s,
  let i := transferring_disk_index s in
  if bool_decide (0 <= i < DRIVE_COUNT) then int_handler device_example (hw_transfer (drive_at s i) s) else Ok (tt, s).

Lemma ready_example n p l : p ≠ 0xC002 → ready_in device_example n p l = true.
Proof. intros Hp. destruct n; cbn [ready_in]; unfold device_example; by rewrite (proj2 (Z.eqb_neq p _)). Qed.

Lemma channel_example id : channel device_example int_32_example (drive_example id).
Proof.
  assert (io_base (drive_example id) = 0x1F0) as Hio by reflexivity.
  assert (ctrl_base (drive_example id) = 0x3F6) as Hct by reflexivity.
  assert (bm_base (drive_example id) = 0xC000) as Hbm by reflexivity.
  split.
  - split; rewrite ?Hio, ?Hct, ?Hbm; lia.
  - exists O. split; [lia|]. intros l. by apply ready_example.
  - intros l. reflexivity.
  - intros l _. done.
  - intros s Hs <-. unfold int_32_example. by rewrite bool_decide_eq_true_2.
Qed.

(** Memory is where its address says. *)
Definition paddr_example (v : Z) : Z := Z.land (u32 v) 0xfffff000.
Lemma paddr_example_eq v : is_u32 v → paddr_example v = v / 4096 * 4096.
Proof. intros Hv. unfold paddr_example. by rewrite u32_id, land_page. Qed.
Lemma paddr_example_u32 v : is_u32 (paddr_example v).
Proof.
  unfold paddr_example. rewrite land_page by apply is_u32_u32. pose proof (is_u32_u32 v) as [H0 H1].
  pose proof (Z.div_mod (u32 v) 4096 ltac:(lia)). pose proof (Z.mod_pos_bound (u32 v) 4096 ltac:(lia)).
  split; [apply Z.mul_nonneg_nonneg; [apply Z.div_pos; lia|lia]|lia].
Qed.
Lemma translate_example v : is_u32 v → translate paddr_example v = v.
Proof. intros Hv. unfold translate. rewrite paddr_example_eq by done. pose proof (Z.div_mod v 4096 ltac:(lia)). lia. Qed.
Lemma translate_example_inj v w :
  is_u32 v → is_u32 w → translate paddr_example v = translate paddr_example w → v = w.
Proof. intros Hv Hw. by rewrite !translate_example. Qed.

Lemma buffer_example ptr n :
  0 <= ptr → ptr mod 4096 = 0 → 1 <= n <= 16 → ptr + (n + 1) * 4096 <= 2 ^ 32 → n = 1 ∨ ptr mod 65536 < 0xf000 →
  dma_buffer paddr_example ptr n ptr.
Proof.
  intros H0 Hp Hn He Hl. split; [unfold is_u32; lia|done| |by rewrite Hp, Z.add_0_r].
  split; [|done|done|unfold PAGE_SIZE_BYTES; lia].
  intros k Hk. unfold frame_of, PAGE_SIZE_BYTES. rewrite Z.shiftl_mul_pow2 by lia. change (2 ^ 12) with 4096.
  rewrite (u32_id (k * 4096)), (u32_id (ptr + k * 4096)) by (unfold is_u32; lia).
  rewrite paddr_example_eq by (unfold is_u32; lia). pose proof (Z.div_mod (ptr + k * 4096) 4096 ltac:(lia)) as Hd.
  rewrite Z.mod_add, Hp in Hd by lia. lia.
Qed.

Definition ata_example : ata :=
  Ata {[0 := drive_example 0; 1 := drive_example 1]} (u32 (-1)) 0 0 0 false 0 0 false [] ∅ ∅ 7 []
    (λ a, a mod 251) (λ b x, if b then 1 else x mod 256).

Lemma prdt_describes_buffer_witness :
  ∃ c m, fill_prdt paddr_example 0x300000 0x20e000 4 ata_example = Ok (c, set_prd_mem m ata_example) ∧
    dma_address m 0x300000 0x3000 = Some 0x211000.
Proof.
  destruct (prdt_describes_buffer paddr_example paddr_example_u32 0x300000 0x20e000 4 0x20e000 ata_example)
    as (c & m & Hrun & Hd & _).
  - split; by_computation.
  - apply buffer_example; by_computation.
  - lia.
  - right. by_computation.
  - exists c, m. split; [exact Hrun|]. exact (Hd 0x3000 ltac:(unfold PAGE_SIZE_BYTES; lia)).
Defined.

Lemma fill_prdt_terminates_witness :
  ∃ c m, fill_prdt paddr_example 0x300000 0x20f000 100 ata_example = Ok (c, set_prd_mem m ata_example) ∧ c <= 200.
Proof.
  destruct (fill_prdt_terminates paddr_example paddr_example_u32 0x300000 0x20f000 100 ata_example ltac:(lia) ltac:(by_computation))
    as (c & m & Hrun & Hc).
  exists c, m. split; [exact Hrun|lia].
Defined.

(** A translation that exchanges two pages. *)
Definition paddr_split (v : Z) : Z := if v =? 0x201000 then 0x400000 else paddr_example v.
Lemma prdt_split_buffer_cut_witness :
  ∃ c m, fill_prdt paddr_split 0x300000 0x200000 2 ata_example = Ok (c, set_prd_mem m ata_example) ∧
    dma_address m 0x300000 4096 = None.
Proof.
  destruct (prdt_split_buffer_cut paddr_split) with (prdt := 0x300000) (ptr := 0x200000) (s := ata_example)
    as (c & m & Hrun & _ & Hcut).
  - intros v. unfold paddr_split. destruct (v =? 0x201000); [by_computation|apply paddr_example_u32].
  - reflexivity.
  - split; by_computation.
  - by_computation.
  - by_computation.
  - by_computation.
  - by_computation.
  - exists c, m. split; [exact Hrun|]. exact (Hcut 4096 ltac:(unfold PAGE_SIZE_BYTES; lia)).
Defined.

Lemma ata_read_delivers_witness :
  ∃ s', ata_read device_example paddr_example int_32_example 0 0x200000 0x1000 8192 ata_example = Ok (0, s') ∧
    phys s' 0x201234 = 0x34 ∧ primary_ata_locked s' = false.
Proof.
  destruct (ata_read_delivers device_example paddr_example paddr_example_u32 int_32_example (drive_example 0) (channel_example 0)
    0 0x200000 0x1000 8192 2 0x200000 ata_example) as (s' & Hrun & Htr & _ & Hphys).
  - by_computation.
  - reflexivity.
  - reflexivity.
  - apply buffer_example; by_computation.
  - lia.
  - reflexivity.
  - lia.
  - by_computation.
  - exists s'. split; [exact Hrun|]. split; [exact (Hphys 0x201234)|exact (tr_locked _ _ Htr)].
Defined.

Lemma ata_write_stores_witness :
  ∃ s', ata_write device_example paddr_example int_32_example 1 0x200000 0x1000 8192 ata_example = Ok (0, s') ∧
    media s' true 0x1000 = 0x200000 mod 251 ∧ media s' false 0x1000 = 0.
Proof.
  destruct (ata_write_stores device_example paddr_example paddr_example_u32 int_32_example (drive_example 1) (channel_example 1)
    1 0x200000 0x1000 8192 2 0x200000 ata_example) as (s' & Hrun & _ & _ & Hmedia).
  - by_computation.
  - reflexivity.
  - reflexivity.
  - apply buffer_example; by_computation.
  - lia.
  - reflexivity.
  - lia.
  - by_computation.
  - exists s'. split; [exact Hrun|]. split; [exact (Hmedia true 0x1000)|exact (Hmedia false 0x1000)].
Defined.

Lemma reachable_example ptr n :
  0 <= ptr → ptr mod 4096 = 0 → 1 <= n <= 16 → ptr + (n + 1) * 4096 <= 2 ^ 32 → n = 1 ∨ ptr mod 65536 < 0xf000 →
  reachable paddr_example is_u32 ptr n.
Proof.
  intros H0 Hp Hn He Hl. exists ptr. split; [by apply buffer_example|]. intros k Hk. unfold PAGE_SIZE_BYTES in Hk.
  assert (is_u32 (ptr + k)) by (unfold is_u32; lia). split; [done|]. rewrite translate_example by done.
  unfold buffer_at. rewrite Hp. lia.
Qed.

Definition channel_ex : AtaChannel ata :=
  ata_channel device_example paddr_example paddr_example_u32 int_32_example drive_example channel_example
    is_u32 translate_example_inj.

Lemma usable_example ptr : ptr = 0x200000 ∨ ptr = 0x210000 → usable (H := channel_ex) (λ i, huge (drive_example i)) 0x280000 0 ptr 512 5000.
Proof.
  intros Hptr. split.
  - intros x Hx. change (is_u32 x). unfold is_u32. lia.
  - intros x Hx. change (is_u32 x). unfold is_u32, PAGE_SIZE_BYTES in *. lia.
  - right. lia.
  - apply (reachable_example 0x280000 1); lia || done.
  - intros j Hj Hc. unfold max_size, huge, drive_example, LBA28_BOUNDARY, PAGE_SIZE_BYTES in *.
    assert (j = 0) as -> by lia. rewrite Z.mul_0_l, Z.add_0_r, Z.sub_0_r.
    change (reachable paddr_example is_u32 ptr 1). destruct Hptr as [->| ->]; apply reachable_example; lia || done.
  - intros k n Hk Hn Hm Hf. unfold max_size, huge, drive_example, LBA28_BOUNDARY, PAGE_SIZE_BYTES in *.
    change (0 <= (512 + k) / 512 < 2 ^ 28 ∧ 0 < n * 8 <= 256). split; [|lia].
    split; [apply Z.div_pos; lia|apply Z.div_lt_upper_bound; lia].
  - lia.
  - lia.
  - lia.
  - lia.
Qed.

Lemma kidm_write_read_witness :
  ∃ s1 s2, write_disk (H := channel_ex) (λ i, huge (drive_example i)) 0x280000 (Some 0) 0x200000 512 5000 ata_example = Ok (5000, s1) ∧
    read_disk (H := channel_ex) (λ i, huge (drive_example i)) 0x280000 (Some 0) 0x210000 512 5000 s1 = Ok (5000, s2) ∧
    phys s2 (translate paddr_example (0x210000 + 4999)) = phys ata_example (translate paddr_example (0x200000 + 4999)).
Proof.
  destruct (kidm_write_read device_example paddr_example paddr_example_u32 int_32_example drive_example channel_example
    is_u32 translate_example_inj 0x280000 0 0x200000 0x210000 512 5000 ata_example) as (s1 & s2 & Hw & _ & Hr & Hm).
  - apply usable_example. by left.
  - apply usable_example. by right.
  - split_and!; [by_computation|by_computation|reflexivity|reflexivity].
  - reflexivity.
  - exists s1, s2. split; [exact Hw|]. split; [exact Hr|]. exact (Hm 4999 ltac:(lia)).
Defined.

(** ** The size of a drive *)

Lemma shift_words a b k : 0 <= k → 0 <= a < 2 ^ k → Z.lor a (Z.shiftl b k) = a + b * 2 ^ k.
Proof. intros Hk Ha. rewrite Z.lor_comm, lor_shiftl_add by done. lia. Qed.

Lemma s32_word a b : 0 <= a < 65536 → 0 <= b < 65536 →
  u64 (Z.lor a (s32 (Z.shiftl b 16))) = a + b * 65536 + (if b <? 0x8000 then 0 else 2 ^ 64 - 2 ^ 32).
Proof.
  intros Ha Hb. rewrite Z.shiftl_mul_pow2 by lia. change (2 ^ 16) with 65536. destruct (Z.ltb_spec b 0x8000) as [Hlt|Hge].
  - assert (s32 (b * 65536) = Z.shiftl b 16) as ->.
    { unfold s32. rewrite Z.shiftl_mul_pow2 by lia. rewrite Z.mod_small; lia. }
    rewrite shift_words by lia. unfold u64. rewrite Z.mod_small; lia.
  - assert (s32 (b * 65536) = Z.shiftl (b - 65536) 16) as ->.
    { unfold s32. rewrite Z.shiftl_mul_pow2 by lia. rewrite <- (Z.mod_add _ (-1)) by lia. rewrite Z.mod_small; lia. }
    rewrite shift_words by lia. unfold u64. rewrite <- (Z.mod_add _ 1) by lia. rewrite Z.mod_small; lia.
Qed.

(** The size of a drive.  The number of sectors is put together from the words of
    the answer exactly as long as bit 31 of the low half is clear; from
    2^31 sectors on that bit is a sign, and the upper half of the size comes out as
    all ones. *)
Theorem identify_size_exact (w : gmap Z Z) :
  (∀ i, 0 <= w !0 i < 65536) →
  let lba48 := negb (Z.land (w !0 83) (Z.shiftl 1 10) =? 0) in
  let low := if lba48 then w !0 100 + 65536 * w !0 101 else w !0 60 + 65536 * w !0 61 in
  identify_size w = (lba48,
    if low <? 2 ^ 31 then low + (if lba48 then 2 ^ 32 * w !0 102 else 0) else 2 ^ 64 - 2 ^ 32 + low).
Proof.
  intros Hw lba48 low. unfold identify_size. fold lba48. f_equal. unfold low. destruct lba48.
  - pose proof (Hw 100). pose proof (Hw 101). pose proof (Hw 102).
    destruct (Z.ltb_spec (w !0 100 + 65536 * w !0 101) (2 ^ 31)) as [Hlt|Hge].
    + pose proof (s32_word 0 (w !0 101) ltac:(lia) ltac:(lia)) as Hs. rewrite Z.lor_0_l, (proj2 (Z.ltb_lt _ _)) in Hs by lia.
      rewrite Hs, Z.add_0_l, Z.add_0_r. replace (w !0 101 * 65536) with (Z.shiftl (w !0 101) 16) by (rewrite Z.shiftl_mul_pow2 by lia; ring).
      rewrite (shift_words (w !0 100)) by lia.
      rewrite shift_words by lia. unfold u64. rewrite Z.mod_small; lia.
    + pose proof (s32_word 0 (w !0 101) ltac:(lia) ltac:(lia)) as Hs. rewrite Z.lor_0_l, (proj2 (Z.ltb_ge _ _)) in Hs by lia.
      rewrite Hs, Z.add_0_l.
      replace (w !0 101 * 65536 + (2 ^ 64 - 2 ^ 32)) with (Z.shiftl (w !0 101 + (2 ^ 48 - 2 ^ 16)) 16) by (rewrite Z.shiftl_mul_pow2 by lia; ring).
      rewrite (shift_words (w !0 100)) by lia.
      replace (w !0 100 + (w !0 101 + (2 ^ 48 - 2 ^ 16)) * 2 ^ 16) with (Z.lor (w !0 100 + 65536 * w !0 101) (Z.shiftl (Z.ones 32) 32))
        by (rewrite shift_words by lia; rewrite Z.ones_equiv; lia).
      rewrite <- Z.lor_assoc, <- Z.shiftl_lor.
      assert (Z.lor (Z.ones 32) (w !0 102) = Z.ones 32) as ->.
      { rewrite Z.lor_comm. apply Z.bits_inj'. intros k Hk. rewrite Z.lor_spec. destruct (decide (k < 32)).
        - rewrite Z.ones_spec_low by lia. apply orb_true_r.
        - rewrite Z.ones_spec_high by lia. rewrite <- (Z.mod_small (w !0 102) (2 ^ 32)), Z.mod_pow2_bits_high by lia. done. }
      rewrite shift_words by lia. rewrite Z.ones_equiv. unfold u64. rewrite Z.mod_small; lia.
  - pose proof (Hw 60). pose proof (Hw 61). rewrite s32_word by done.
    destruct (Z.ltb_spec (w !0 60 + 65536 * w !0 61) (2 ^ 31)), (Z.ltb_spec (w !0 61) 0x8000); lia.
Qed.

Lemma identify_size_exact_witness :
  identify_size {[ 83 := 0x400; 100 := 0x5678; 101 := 0x1234; 102 := 0x9 ]} = (true, 0x912345678) ∧
  identify_size {[ 83 := 0x400; 100 := 0x5678; 101 := 0x9234; 102 := 0 ]} = (true, 0xffffffff92345678).
Proof.
  split.
  - rewrite identify_size_exact; [reflexivity|]. apply (zget_Forall (λ x, 0 <= x < 65536)); [lia|by_computation].
  - rewrite identify_size_exact; [reflexivity|]. apply (zget_Forall (λ x, 0 <= x < 65536)); [lia|by_computation].
Defined.
