(* ===== verification/DiskWrite.v ===== *)
(** * The disk image tool (src/tools/diskwrite.c)

    A program of the build machine: it writes files into the root directory of a FAT32
    image.  The image and the input files are bytes; the table of the image is kept in
    memory from the start to the end.  What the program prints is not modelled, nor is the
    listing of the root directory ([-l]), which only prints. *)
From stdpp Require Import strings.
From S2P Require Import Prelude Device Fat32 FatWrite.

Definition FILE_END : Z := 0xFFFFFFFF.
(** Bytes of [file_t]. *)
Definition FILE_T_SIZE : Z := 32.

(** The fields of the boot sector that are used, and where they lie. *)
Record tool_bpb := ToolBpb {
  tb_bytes_per_sector : Z;
  tb_sectors_per_cluster : Z;
  tb_reserved_sectors : Z;
  tb_fat_count : Z;
  tb_root_dir_entries : Z;
  tb_partition_start : Z;
  tb_large_sector_count : Z;
  tb_sectors_per_fat : Z;
  tb_root_dir_cluster : Z;
}.

(** [fat_info] and the image. *)
Record tool := Tool {
  image : gmap Z Z;
  tbpb : tool_bpb;
  cluster_search_start : Z;
  file_table : list Z;
  file_table_size_sectors : Z;
}.
Definition set_image (im : gmap Z Z) (s : tool) : tool :=
  Tool im (tbpb s) (cluster_search_start s) (file_table s) (file_table_size_sectors s).
Definition set_tbpb (b : tool_bpb) (s : tool) : tool :=
  Tool (image s) b (cluster_search_start s) (file_table s) (file_table_size_sectors s).
Definition set_table (t : list Z) (s : tool) : tool :=
  Tool (image s) (tbpb s) (cluster_search_start s) t (file_table_size_sectors s).
Definition set_table_size (n : Z) (s : tool) : tool :=
  Tool (image s) (tbpb s) (cluster_search_start s) (file_table s) n.

(** ** Sectors

    Behind the end of the file a read leaves the zeros of [memset]; a write makes the
    file longer. *)
Definition read_sector (sector_start count : Z) : M tool (list Z) :=
  im ← gets image;
  mret ((λ k, im !0 (u32 (sector_start * 512) + k)) <$> seqZ 0 (count * 512)).
Definition write_sector (sector_start : Z) (bytes : list Z) : M tool unit :=
  modify (λ s, set_image (store_bytes (u32 (sector_start * 512)) bytes (image s)) s).

(** [n] bytes of a buffer from [off] on: a read behind its end is a fault. *)
Definition bytes_at (buffer : list Z) (off n : Z) : M tool (list Z) :=
  if bool_decide (0 <= off ∧ off + n <= Z.of_nat (length buffer)) then mret (take (Z.to_nat n) (drop (Z.to_nat off) buffer))
  else fail (OutOfBounds off).

(** ** The table *)

Definition table_get (i : Z) : M tool Z :=
  t ← gets file_table;
  match t !! Z.to_nat i with Some x => mret x | None => fail (OutOfBounds i) end.
Definition table_put (i x : Z) : M tool unit :=
  t ← gets file_table;
  if bool_decide (0 <= i < Z.of_nat (length t)) then modify (set_table (<[Z.to_nat i := x]> t)) else fail (OutOfBounds i).

(** Without a free cluster the function ends without a value. *)
Definition find_free_cluster : M tool Z :=
  start ← gets cluster_search_start;
  b ← gets tbpb;
  let start := if start <? 2 then 2 else start in
  r ← for_loop start (tb_large_sector_count b / tb_sectors_per_cluster b) (λ i,
        x ← table_get i;
        if negb (x =? 0) then mret None else mret (Some i));
  match r with Some i => mret i | None => fail Panic end.

Definition write_cluster_value (value cluster : Z) : M tool unit :=
  b ← gets tbpb;
  for_all 0 (tb_fat_count b) (λ i,
    table_put (u32 (cluster + i * tb_sectors_per_fat b * (tb_bytes_per_sector b / 4))) value).

(** ** Clusters *)

Definition cluster_sector (s : tool) (cluster : Z) : Z :=
  let b := tbpb s in
  u32 (tb_reserved_sectors b + file_table_size_sectors s + tb_partition_start b + (cluster - 2) * tb_sectors_per_cluster b).

(** The bytes of the cluster and the next one of its chain. *)
Definition read_cluster (cluster : Z) : M tool (list Z * Z) :=
  s ← gets id;
  bytes ← read_sector (cluster_sector s cluster) (tb_sectors_per_cluster (tbpb s));
  next ← table_get cluster;
  mret (bytes, next).

(** The fields of a directory entry. *)
Definition half_of (bs : list Z) (o : nat) : Z := le16 (nth o bs 0) (nth (o + 1) bs 0).
Definition word_of (bs : list Z) (o : nat) : Z := le32 (nth o bs 0) (nth (o + 1) bs 0) (nth (o + 2) bs 0) (nth (o + 3) bs 0).
Definition start_cluster (entry : list Z) : Z := Z.lor (half_of entry 26) (u32 (Z.shiftl (half_of entry 20) 16)).

(** [None] is the root directory.  One cluster more than are written is linked. *)
Definition write_file (file : option (list Z)) (buffer : list Z) (size : Z) : M tool unit :=
  b ← gets tbpb;
  let first_cluster := match file with None => tb_root_dir_cluster b | Some entry => start_cluster entry end in
  let cluster_bytes := tb_bytes_per_sector b * tb_sectors_per_cluster b in
  if cluster_bytes =? 0 then fail DivideError
  else
    let clusters := u32 (size / cluster_bytes + 1) in
    let total := u32 (clusters * cluster_bytes) in
    data ← bytes_at buffer 0 size;
    if total <? size then fail (OutOfBounds total)
    else
    let new_buffer := data ++ replicate (Z.to_nat (total - size)) 0 in
    r ← fora_loop (R := unit) 0 clusters (λ i cluster,
          s ← gets id;
          part ← bytes_at new_buffer (i * cluster_bytes) (512 * tb_sectors_per_cluster b);
          write_sector (cluster_sector s cluster) part;;
          next_cluster ← table_get cluster;
          if next_cluster =? FILE_END then
            next_cluster ← find_free_cluster;
            write_cluster_value next_cluster cluster;;
            write_cluster_value FILE_END next_cluster;;
            mret (inl next_cluster)
          else mret (inl next_cluster)) first_cluster;
    match r with
    | inl cluster => write_cluster_value FILE_END cluster
    | inr _ => skip
    end.

(** ** Files *)

(** The directory in memory: its bytes, and behind them room for more. *)
Definition put_byte (dir : list Z) (o x : Z) : M tool (list Z) :=
  if bool_decide (0 <= o < Z.of_nat (length dir)) then mret (<[Z.to_nat o := u8 x]> dir) else fail (OutOfBounds o).
Definition get_byte (dir : list Z) (o : Z) : M tool Z :=
  match dir !! Z.to_nat o with Some x => mret x | None => fail (OutOfBounds o) end.
Fixpoint put_bytes (dir : list Z) (o : Z) (xs : list Z) : M tool (list Z) :=
  match xs with
  | [] => mret dir
  | x :: xs => dir ← put_byte dir o x; put_bytes dir (o + 1) xs
  end.

(** The first entry without a name. *)
Definition free_entry (dir : list Z) : M tool Z :=
  loop fuel32 (λ index,
    c ← get_byte dir (FILE_T_SIZE * index);
    if negb (c =? 0) then mret (inl (index + 1)) else mret (inr index)) 0.

(** The characters in front of the first dot, and up to three behind it.  There is no
    bound for the former; without a dot the program reads address 1. *)
Fixpoint split_name (path : list Z) : option (list Z * list Z) :=
  match path with
  | [] => None
  | c :: path => if c =? 46 then Some ([], take 3 path) else (λ '(base, ext), (c :: base, ext)) <$> split_name path
  end.

Definition create_file (path contents : list Z) : M tool unit :=
  b ← gets tbpb;
  '(bytes, _) ← read_cluster (tb_root_dir_cluster b);
  let root_files := bytes ++ replicate (Z.to_nat (tb_sectors_per_cluster b * 512 * (FILE_T_SIZE - 1))) 0 in
  index ← free_entry root_files;
  let entry := FILE_T_SIZE * index in
  match split_name path with
  | None => fail (PageFault 1)
  | Some (base, ext) =>
      root_files ← put_bytes root_files entry base;
      root_files ← put_bytes root_files (entry + 8) ext;
      let size := u32 (Z.of_nat (length contents)) in
      root_files ← put_bytes root_files (entry + 28) (word_byte size <$> [0; 1; 2; 3]);
      first_cluster ← find_free_cluster;
      table_put first_cluster FILE_END;;
      root_files ← put_bytes root_files (entry + 26) (word_byte first_cluster <$> [0; 1]);
      root_files ← put_bytes root_files (entry + 20) (word_byte first_cluster <$> [2; 3]);
      modify (λ s, let b := tbpb s in set_tbpb (ToolBpb (tb_bytes_per_sector b) (tb_sectors_per_cluster b) (tb_reserved_sectors b)
        (tb_fat_count b) (u16 (tb_root_dir_entries b + 1)) (tb_partition_start b) (tb_large_sector_count b)
        (tb_sectors_per_fat b) (tb_root_dir_cluster b)) s);;
      file ← bytes_at root_files entry FILE_T_SIZE;
      write_file (Some file) contents size;;
      b ← gets tbpb;
      write_file None root_files (tb_root_dir_entries b * FILE_T_SIZE)
  end.

(** ** The image *)

(** The table goes back to where it was read from; a write error is only reported. *)
Definition fat_write_back : M tool unit :=
  s ← gets id;
  let b := tbpb s in
  bytes ← bytes_at (bytes_of (file_table s)) 0 (512 * u32 (tb_sectors_per_fat b * tb_fat_count b));
  write_sector (tb_reserved_sectors b) bytes.

Definition tool_bpb_at (bs : list Z) : tool_bpb :=
  ToolBpb (half_of bs 11) (nth 13 bs 0) (half_of bs 14) (nth 16 bs 0) (half_of bs 17) (word_of bs 28) (word_of bs 32)
    (word_of bs 36) (word_of bs 44).

(** [==] binds weaker than [*]: a field of 0 becomes 1, not its default. *)
Definition repaired (x default : Z) : Z := x + b2z (u32 (default * x) =? 0).
Definition repair_bpb (b : tool_bpb) : tool_bpb :=
  ToolBpb (u16 (repaired (tb_bytes_per_sector b) 512)) (u8 (repaired (tb_sectors_per_cluster b) 8))
    (u16 (repaired (tb_reserved_sectors b) 32)) (tb_fat_count b) (tb_root_dir_entries b) (tb_partition_start b)
    (tb_large_sector_count b) (tb_sectors_per_fat b) (u32 (repaired (tb_root_dir_cluster b) 2)).
(** The fields that can have changed, put back into the sector. *)
Definition store_bpb (b : tool_bpb) (bs : list Z) : M tool (list Z) :=
  bs ← put_bytes bs 11 (word_byte (tb_bytes_per_sector b) <$> [0; 1]);
  bs ← put_bytes bs 13 [tb_sectors_per_cluster b];
  bs ← put_bytes bs 14 (word_byte (tb_reserved_sectors b) <$> [0; 1]);
  put_bytes bs 44 (word_byte (tb_root_dir_cluster b) <$> [0; 1; 2; 3]).

Definition detect_repair_fs : M tool unit :=
  boot_sector ← read_sector 0 1;
  let b := repair_bpb (tool_bpb_at boot_sector) in
  modify (set_tbpb b);;
  boot_sector ← store_bpb b boot_sector;
  write_sector 0 boot_sector;;
  modify (set_table_size (u32 (tb_fat_count b * tb_sectors_per_fat b)));;
  let size := u32 (u32 (tb_sectors_per_fat b * tb_fat_count b) * tb_bytes_per_sector b) in
  sectors ← read_sector (tb_reserved_sectors b) (u32 (tb_sectors_per_fat b * tb_fat_count b));
  if size <? Z.of_nat (length sectors) then fail (OutOfBounds size)
  else
    modify (set_table (words_of (sectors ++ replicate (Z.to_nat (size - Z.of_nat (length sectors))) 0)));;
    x ← table_get (tb_root_dir_cluster b);
    when (x =? 0) (
      table_put 0 FILE_END;;
      table_put 1 FILE_END;;
      table_put (tb_root_dir_cluster b) FILE_END).

(** ** The program *)

(** The arguments: the files in order, and the image. *)
Record arguments := Arguments_ { list_root_dir : bool; files : list string; output : option string }.
Fixpoint parse_args (argv : list string) (a : arguments) : arguments :=
  match argv with
  | [] => a
  | "-l"%string :: argv => parse_args argv (Arguments_ true (files a) (output a))
  | "-o"%string :: argv =>
      match argv with
      | [] => Arguments_ (list_root_dir a) (files a) None
      | name :: argv => parse_args argv (Arguments_ (list_root_dir a) (files a) (Some name))
      end
  | "-v"%string :: argv => parse_args argv a
  | name :: argv => parse_args argv (Arguments_ (list_root_dir a) (files a ++ [name]) (output a))
  end.

(** A file that cannot be opened ends the program before the table is written. *)
Fixpoint create_files (fopen : string → option (list Z)) (names : list string) : M tool bool :=
  match names with
  | [] => mret true
  | name :: names =>
      match fopen name with
      | None => mret false
      | Some contents => create_file (bytes_of_string name) contents;; create_files fopen names
      end
  end.
Definition write_files (fopen : string → option (list Z)) (names : list string) : M tool Z :=
  detect_repair_fs;;
  ok ← create_files fopen names;
  if negb ok then mret (-1) else fat_write_back;; mret 0.

(** The exit status.  The image in the state is that of the file named behind [-o];
    without one, or when it cannot be opened, the program goes on with a null pointer.
    The array of the files has 512 places. *)
Definition main (fopen : string → option (list Z)) (argv : list string) : M tool Z :=
  let a := parse_args (tail argv) (Arguments_ false [] None) in
  if 512 <? Z.of_nat (length (files a)) then fail (OutOfBounds 512)
  else if bool_decide (output a ≫= fopen = None) then fail (PageFault 0)
  else write_files fopen (files a).

(** ** Buffers, proved *)

Lemma bytes_at_wp buffer off n (Q : list Z → tool → Prop) s :
  0 <= off → 0 <= n → off + n <= Z.of_nat (length buffer) →
  Q (take (Z.to_nat n) (drop (Z.to_nat off) buffer)) s → wp (bytes_at buffer off n) Q s.
Proof. intros. unfold bytes_at. rewrite bool_decide_eq_true_2 by lia. by wp. Qed.

Lemma take_drop_nth (l : list Z) off n k :
  0 <= off → 0 <= k < n → off + n <= Z.of_nat (length l) →
  nth (Z.to_nat k) (take (Z.to_nat n) (drop (Z.to_nat off) l)) 0 = nth (Z.to_nat (off + k)) l 0.
Proof.
  intros Ho Hk Hl. rewrite !nth_lookup. f_equal. rewrite lookup_take_lt, lookup_drop by lia. f_equal. lia.
Qed.
Lemma store_bytes_nth off bs m k :
  store_bytes off bs m !0 k = if decide (off <= k < off + Z.of_nat (length bs)) then nth (Z.to_nat (k - off)) bs 0 else m !0 k.
Proof. rewrite store_bytes_get. case_decide; [|done]. by rewrite nth_lookup. Qed.

(** ** A volume *)

Section volume.
(** The boot sector of the volume; only the number of entries of the root changes. *)
Variable b : tool_bpb.
Notation spc := (tb_sectors_per_cluster b).
Notation spf := (tb_sectors_per_fat b).
Notation csz := (512 * tb_sectors_per_cluster b).
Definition table_sectors : Z := tb_fat_count b * tb_sectors_per_fat b.
Definition cluster_end : Z := tb_large_sector_count b / tb_sectors_per_cluster b.
Definition cluster_offset (c : Z) : Z :=
  512 * (tb_reserved_sectors b + table_sectors + tb_partition_start b + (c - 2) * tb_sectors_per_cluster b).
Definition in_tool_cluster (c k : Z) : Prop := cluster_offset c <= k < cluster_offset c + csz.

(** Sectors of 512 bytes, an entry of the table for every cluster, and an image of less
    than 4 GiB. *)
Record tool_geom : Prop := {
  tg_bytes : tb_bytes_per_sector b = 512;
  tg_spc : 0 < spc < 256;
  tg_tables : 0 < tb_fat_count b;
  tg_spf : 0 <= spf;
  tg_start : 0 <= tb_reserved_sectors b + table_sectors + tb_partition_start b;
  tg_entries : cluster_end <= 128 * spf;
  tg_table32 : 128 * table_sectors < 2 ^ 32;
  tg_end : cluster_offset cluster_end <= 2 ^ 32;
}.

Definition with_entries (n : Z) : tool_bpb :=
  ToolBpb (tb_bytes_per_sector b) (tb_sectors_per_cluster b) (tb_reserved_sectors b) (tb_fat_count b) n
    (tb_partition_start b) (tb_large_sector_count b) (tb_sectors_per_fat b) (tb_root_dir_cluster b).

(** The tool has the volume open, and the first table is [F]. *)
Record tool_inv (F : Z → Z) (s : tool) : Prop := {
  ti_bpb : tbpb s = with_entries (tb_root_dir_entries (tbpb s));
  ti_size : file_table_size_sectors s = table_sectors;
  ti_search : cluster_search_start s < 2;
  ti_length : Z.of_nat (length (file_table s)) = 128 * table_sectors;
  ti_table c : 0 <= c < 128 * spf → file_table s !! Z.to_nat c = Some (F c);
  ti_bytes : bytes_ok (image s);
}.

Context (Hgeom : tool_geom).

Lemma table_get_wp F s c (Q : Z → tool → Prop) :
  tool_inv F s → 0 <= c < 128 * spf → Q (F c) s → wp (table_get c) Q s.
Proof using Type. intros Hi Hc HQ. unfold table_get. wp. rewrite (ti_table _ _ Hi) by done. by wp. Qed.

Lemma cluster_in_table c : 2 <= c < cluster_end → 0 <= c < 128 * spf.
Proof using Hgeom. destruct Hgeom. lia. Qed.

(** One value, in every copy of the table. *)
Lemma write_cluster_value_wp F s v c (Q : unit → tool → Prop) :
  tool_inv F s → 0 <= c < 128 * spf →
  (∀ s', tool_inv (table_set F c v) s' → image s' = image s → tbpb s' = tbpb s → Q tt s') →
  wp (write_cluster_value v c) Q s.
Proof using Hgeom.
  intros Hi Hc HQ. destruct Hgeom as [Hbps Hspc Hfc Hspf Hst Hent H32 Hend]. unfold table_sectors in *. unfold write_cluster_value. wp.
  rewrite (ti_bpb _ _ Hi). cbn [with_entries tb_fat_count tb_sectors_per_fat tb_bytes_per_sector]. rewrite Hbps. change (512 / 4) with 128.
  apply (wp_for_all (λ i s', tool_inv (if decide (i = 0) then F else table_set F c v) s' ∧ image s' = image s ∧ tbpb s' = tbpb s)); [lia|done| |].
  - intros i s' Hir (Hi' & Him & Hb). pose proof (ti_length _ _ Hi') as Hlen. unfold table_sectors in Hlen.
    assert (0 <= c + i * spf * 128 < 128 * (tb_fat_count b * spf)) as Hidx by nia.
    rewrite u32_id by (unfold is_u32; lia). unfold table_put. wp. rewrite bool_decide_eq_true_2 by lia. wp.
    rewrite (decide_False (P := i + 1 = 0)) by lia. split; [|done].
    destruct Hi' as [H1 H2 H3 H4 H5 H6]. split; try done; cbn [file_table set_table]; [by rewrite length_insert|].
    intros d Hd. unfold table_set. destruct (decide (i = 0)) as [->|Hne].
    + replace (c + 0 * spf * 128) with c by lia. case_decide as Hdc.
      * subst d. apply list_lookup_insert_eq. lia.
      * rewrite list_lookup_insert_ne by lia. by apply H5.
    + rewrite list_lookup_insert_ne by nia. by apply H5.
  - intros s' (Hi' & Him & Hb). rewrite decide_False in Hi' by lia. by apply HQ.
Qed.

(** The search: the first free cluster. *)
Lemma find_free_wp F s (Q : Z → tool → Prop) :
  tool_inv F s → (∃ c, 2 <= c < cluster_end ∧ F c = 0) →
  (∀ c, 2 <= c < cluster_end → F c = 0 → (∀ d, 2 <= d < c → F d ≠ 0) → Q c s) → wp find_free_cluster Q s.
Proof using Hgeom.
  intros Hi (c0 & Hc0 & Hz0) HQ. unfold find_free_cluster. wp.
  rewrite (proj2 (Z.ltb_lt _ 2)) by apply Hi. rewrite (ti_bpb _ _ Hi). cbn [with_entries tb_large_sector_count tb_sectors_per_cluster]. fold cluster_end.
  apply (wp_for (λ i s', s' = s ∧ ∀ d, 2 <= d < i → F d ≠ 0)); [lia|split; [done|lia]| |].
  - intros i s' Hir [-> Hno]. wp. apply (table_get_wp F); [done|by apply cluster_in_table|].
    destruct (Z.eqb_spec (F i) 0) as [Hz|Hz]; cbn [negb]; wp; [by apply HQ|].
    split; [done|]. intros d Hd. destruct (decide (d = i)) as [->|]; [done|]. apply Hno. lia.
  - intros s' [-> Hno]. exfalso. by apply (Hno c0).
Qed.

(** ** Chains *)

(** The clusters of a file, in order; the last one has the mark of the tool. *)
Definition tool_chain (F : Z → Z) (cs : list Z) : Prop :=
  (∀ i c, cs !! i = Some c → match cs !! S i with Some d => F c = d | None => F c = FILE_END end) ∧
  NoDup cs ∧ Forall (λ c, 2 <= c < cluster_end) cs.

Lemma chain_in F cs i c : tool_chain F cs → cs !! i = Some c → 2 <= c < cluster_end.
Proof using Type. intros (_ & _ & Hok) Hc. rewrite Forall_lookup in Hok. by eapply Hok. Qed.
Lemma cluster_not_end c : c < cluster_end → c ≠ FILE_END.
Proof using Hgeom. destruct Hgeom. unfold FILE_END, table_sectors in *. nia. Qed.
Lemma chain_used F cs c : tool_chain F cs → c ∈ cs → F c ≠ 0.
Proof using Type.
  intros Hch [i Hi]%list_elem_of_lookup. pose proof Hch as [Hn _]. specialize (Hn i c Hi).
  destruct (cs !! S i) as [d|] eqn:Hd; [|by rewrite Hn]. pose proof (chain_in F cs _ _ Hch Hd). lia.
Qed.

(** A free cluster behind the last one. *)
Lemma tool_chain_snoc F cs i l r :
  tool_chain F cs → cs !! i = Some l → S i = length cs → 2 <= r < cluster_end → F r = 0 →
  tool_chain (table_set (table_set F l r) r FILE_END) (cs ++ [r]).
Proof using Type.
  intros Hch Hl Hlen Hr Hz. assert (r ∉ cs) as Hnin by (intros Hin; by apply (chain_used F cs r)).
  pose proof Hch as (Hn & Hnd & Hok). split_and!.
  - intros j c Hj. unfold table_set. apply lookup_app_Some in Hj as [Hj|[Hge Hj]].
    + pose proof (lookup_lt_Some _ _ _ Hj). rewrite (decide_False (P := c = r)) by (intros ->; by apply Hnin, list_elem_of_lookup_2 with j).
      case_decide as Hcl.
      * subst c. assert (j = i) as -> by (by eapply NoDup_lookup). rewrite lookup_app_r, Hlen, Nat.sub_diag by lia. done.
      * assert (S j < length cs)%nat by (destruct (decide (j = i)); [congruence|lia]). rewrite lookup_app_l by lia.
        specialize (Hn j c Hj). destruct (lookup_lt_is_Some_2 cs (S j)) as [d Hd]; [done|]. rewrite Hd in Hn |- *. done.
    + destruct (j - length cs)%nat eqn:Hd; [|done]. injection Hj as <-. rewrite decide_True by done.
      rewrite lookup_ge_None_2; [done|]. rewrite length_app. simpl. lia.
  - apply NoDup_app. split_and!; [done| |apply NoDup_singleton]. intros c Hc ->%list_elem_of_singleton. done.
  - apply Forall_app. by split; [|constructor].
Qed.

(** The chain cut behind one of its clusters. *)
Lemma tool_chain_cut F cs i c :
  tool_chain F cs → cs !! i = Some c → tool_chain (table_set F c FILE_END) (take (S i) cs).
Proof using Type.
  intros (Hn & Hnd & Hok) Hc. pose proof (lookup_lt_Some _ _ _ Hc). split_and!.
  - intros j d Hj. pose proof (lookup_lt_Some _ _ _ Hj) as Hlt. rewrite length_take in Hlt. rewrite lookup_take_lt in Hj by lia.
    unfold table_set. case_decide as Hd.
    + subst d. assert (j = i) as -> by (by eapply NoDup_lookup). by rewrite lookup_take_ge by lia.
    + assert (j < i)%nat by (destruct (decide (j = i)); [congruence|lia]). rewrite lookup_take_lt by lia.
      specialize (Hn j d Hj). destruct (lookup_lt_is_Some_2 cs (S j)) as [e He]; [lia|]. rewrite He in Hn |- *. done.
  - rewrite <- (take_drop (S i) cs) in Hnd. by apply NoDup_app in Hnd as [? _].
  - by apply Forall_take.
Qed.

(** ** Writing a file *)

Section write.
Variables (F : Z → Z) (cs : list Z) (g : Z → Z) (clusters : Z) (s0 : tool).

(** After [i] clusters: the chain has grown by clusters that were free, and the bytes are
    where the chain says; [cluster] is the next one, and there are free ones left. *)
Record writing (i cluster : Z) (s : tool) (F' : Z → Z) (cs' free : list Z) : Prop := {
  wg_inv : tool_inv F' s;
  wg_bpb : tbpb s = tbpb s0;
  wg_chain : tool_chain F' cs';
  wg_here : cs' !! Z.to_nat i = Some cluster;
  wg_new : ∃ new, cs' = cs ++ new ∧ (new = [] ∨ length cs' = S (Z.to_nat i)) ∧ ∀ c, c ∈ new → F c = 0;
  wg_same c : c ∉ cs' → F' c = F c;
  wg_nodup : NoDup free;
  wg_room : clusters - i <= Z.of_nat (length free);
  wg_free c : c ∈ free → 2 <= c < cluster_end ∧ F' c = 0;
  wg_bytes j c o : 0 <= j < i → cs' !! Z.to_nat j = Some c → 0 <= o < csz → image s !0 (cluster_offset c + o) = g (j * csz + o);
  wg_frame x : (∀ j c, 0 <= j < i → cs' !! Z.to_nat j = Some c → ¬ in_tool_cluster c x) → image s !0 x = image s0 !0 x;
}.

Lemma offset_apart c c' k : in_tool_cluster c k → in_tool_cluster c' k → c = c'.
Proof using Hgeom. destruct Hgeom. unfold in_tool_cluster, cluster_offset. nia. Qed.

Lemma cluster_sector_eq F' s c : tool_inv F' s → 2 <= c < cluster_end → u32 (cluster_sector s c * 512) = cluster_offset c.
Proof using Hgeom.
  intros Hi Hc. destruct Hgeom as [_ Hspc _ _ Hst _ _ Hend]. unfold cluster_sector. rewrite (ti_bpb _ _ Hi), (ti_size _ _ Hi).
  cbn [with_entries tb_reserved_sectors tb_partition_start tb_sectors_per_cluster].
  unfold cluster_offset in *. set (base := tb_reserved_sectors b + table_sectors + tb_partition_start b) in *.
  assert (base + (c - 2) * spc <= base + (cluster_end - 2) * spc - spc) by nia.
  rewrite !u32_id by (unfold is_u32; rewrite ?u32_id by (unfold is_u32; nia); nia). lia.
Qed.

(** The bytes of one cluster go to its place. *)
Lemma write_part i cluster s F' cs' free part :
  writing i cluster s F' cs' free → 0 <= i → Z.of_nat (length part) = csz → Forall is_u8 part → (∀ o, 0 <= o < csz → nth (Z.to_nat o) part 0 = g (i * csz + o)) →
  let s1 := set_image (store_bytes (u32 (cluster_sector s cluster * 512)) part (image s)) s in
  tool_inv F' s1 ∧
  (∀ j c o, 0 <= j < i + 1 → cs' !! Z.to_nat j = Some c → 0 <= o < csz → image s1 !0 (cluster_offset c + o) = g (j * csz + o)) ∧
  (∀ x, (∀ j c, 0 <= j < i + 1 → cs' !! Z.to_nat j = Some c → ¬ in_tool_cluster c x) → image s1 !0 x = image s0 !0 x).
Proof using Hgeom.
  intros [Hi Hb Hch Hhere _ _ _ _ _ Hby Hfr] Hi0 Hlen Hu8 Hpart s1. pose proof (chain_in F' cs' _ _ Hch Hhere) as Hc.
  unfold s1. rewrite (cluster_sector_eq F' s cluster Hi Hc). cbn [image set_image]. split_and!.
  - destruct Hi. split; try done. by apply store_bytes_ok.
  - intros j c o Hj Hjc Ho. rewrite store_bytes_nth, Hlen. destruct (decide (j = i)) as [->|Hne].
    + rewrite Hhere in Hjc. injection Hjc as <-. rewrite decide_True by lia. rewrite <- Hpart by done. do 2 f_equal. lia.
    + rewrite decide_False; [apply Hby; [lia|done|done]|]. intros Hin. apply Hne.
      assert (c = cluster) as -> by (apply (offset_apart c cluster (cluster_offset c + o)); unfold in_tool_cluster; lia).
      destruct Hch as (_ & Hnd & _). assert (Z.to_nat j = Z.to_nat i) by (by eapply NoDup_lookup). lia.
  - intros x Hx. rewrite store_bytes_nth, Hlen. rewrite decide_False by (apply (Hx i cluster); [lia|done]).
    apply Hfr. intros j c Hj. apply Hx. lia.
Qed.

(** The step to the next cluster: a new one when the chain ends here. *)
Lemma write_step i cluster s F' cs' free part (Q : Z + unit → tool → Prop) :
  writing i cluster s F' cs' free → 0 <= i < clusters → Z.of_nat (length part) = csz → Forall is_u8 part →
  (∀ o, 0 <= o < csz → nth (Z.to_nat o) part 0 = g (i * csz + o)) →
  (∀ next s' F'' cs'' free', writing (i + 1) next s' F'' cs'' free' → Q (inl next) s') →
  wp (s ← gets id;
      write_sector (cluster_sector s cluster) part;;
      next_cluster ← table_get cluster;
      if next_cluster =? FILE_END then
        next_cluster ← find_free_cluster;
        write_cluster_value next_cluster cluster;;
        write_cluster_value FILE_END next_cluster;;
        mret (inl next_cluster)
      else mret (inl next_cluster)) Q s.
Proof using Hgeom.
  intros Hw Hi Hlen Hu8 Hpart HQ. destruct (write_part i cluster s F' cs' free part Hw ltac:(lia) Hlen Hu8 Hpart) as (Hinv1 & Hby1 & Hfr1).
  destruct Hw as [Hinv Hb Hch Hhere (new & -> & Htight & Hnew) Hsame Hnd Hroom Hfree _ _]. set (cs' := cs ++ new) in *.
  pose proof (chain_in F' cs' _ _ Hch Hhere) as Hc. pose proof (cluster_in_table _ Hc) as Hct.
  unfold write_sector. wp. cbv [id]. set (s1 := set_image _ s) in *. apply (table_get_wp F'); [done|done|].
  pose proof Hch as (Hn & _). specialize (Hn _ _ Hhere). replace (Z.to_nat (i + 1)) with (S (Z.to_nat i)) in * by lia.
  destruct (cs' !! S (Z.to_nat i)) as [d|] eqn:Hd.
  - pose proof (chain_in F' cs' _ _ Hch Hd) as Hdr. rewrite Hn, (proj2 (Z.eqb_neq _ _)) by (apply cluster_not_end; lia). wp.
    apply (HQ d s1 F' cs' free). split; try done; [by replace (Z.to_nat (i + 1)) with (S (Z.to_nat i)) by lia| |lia].
    exists new. split_and!; [done| |done]. left. destruct Htight as [|Hl]; [done|]. apply lookup_lt_Some in Hd. lia.
  - rewrite Hn, Z.eqb_refl. wp. apply (find_free_wp F'); [done| |].
    { destruct free as [|f free]; [simpl in Hroom; lia|]. exists f. apply Hfree. by left. }
    intros r Hr Hz _. pose proof (cluster_in_table _ Hr) as Hrt. wp.
    apply (write_cluster_value_wp F'); [done|done|]. intros s2 Hi2 Him2 Hb2. wp.
    apply (write_cluster_value_wp (table_set F' cluster r)); [done|done|]. intros s3 Hi3 Him3 Hb3. wp.
    assert (S (Z.to_nat i) = length cs') as Hend by (apply lookup_ge_None in Hd; apply lookup_lt_Some in Hhere; lia).
    assert (r ∉ cs') as Hnin by (intros Hin; by apply (chain_used F' cs' r)).
    assert (∀ c, c ≠ cluster → c ≠ r → table_set (table_set F' cluster r) r FILE_END c = F' c) as Hset
      by (intros; unfold table_set; by rewrite !decide_False).
    assert (∀ j c, 0 <= j < i + 1 → (cs' ++ [r]) !! Z.to_nat j = Some c → cs' !! Z.to_nat j = Some c) as Hold
      by (intros j c Hj; rewrite lookup_app_l by lia; done).
    apply (HQ r s3 (table_set (table_set F' cluster r) r FILE_END) (cs' ++ [r]) (filter (λ x, x ≠ r) free)). split.
    + done.
    + by rewrite Hb3, Hb2.
    + by apply (tool_chain_snoc F' cs' (Z.to_nat i)).
    + replace (Z.to_nat (i + 1)) with (S (Z.to_nat i)) by lia. by rewrite lookup_app_r, Hend, Nat.sub_diag by lia.
    + exists (new ++ [r]). split_and!; [by unfold cs'; rewrite app_assoc|right; rewrite length_app; simpl; lia|]. intros c [Hc'| ->%list_elem_of_singleton]%elem_of_app; [by apply Hnew|].
      by rewrite <- (Hsame r).
    + intros c Hc'. rewrite not_elem_of_app, list_elem_of_singleton in Hc'. destruct Hc' as [H1 H2]. rewrite Hset; [by apply Hsame| |done].
      intros ->. apply H1. by eapply list_elem_of_lookup_2.
    + by apply NoDup_filter.
    + pose proof (length_filter_ne r free Hnd). lia.
    + intros c [Hcr Hc']%list_elem_of_filter. destruct (Hfree c Hc') as [Hcb Hcz]. split; [done|]. rewrite Hset; [done| |done].
      intros ->. apply (chain_used F' cs' cluster Hch); [by eapply list_elem_of_lookup_2|done].
    + intros j c o Hj Hjc Ho. rewrite Him3, Him2. apply Hby1; [lia|by apply Hold|done].
    + intros x Hx. rewrite Him3, Him2. apply Hfr1. intros j c Hj Hjc. apply (Hx j c Hj). by rewrite lookup_app_l by (apply lookup_lt_Some in Hjc; lia).
Qed.
End write.

(** What [write_file] has done: [k] clusters hold the data and zeros behind it, one more is
    linked; the clusters that are new were free. *)
Record file_written (F : Z → Z) (cs : list Z) (data : list Z) (k : Z) (s s' : tool) (F' : Z → Z) (cs' : list Z) : Prop := {
  fw_inv : tool_inv F' s';
  fw_bpb : tbpb s' = tbpb s;
  fw_chain : tool_chain F' cs';
  fw_length : Z.of_nat (length cs') = k + 1;
  fw_new : ∃ new, cs' = take (length cs') (cs ++ new) ∧ ∀ c, c ∈ new → F c = 0;
  fw_same c : c ∉ cs → c ∉ cs' → F' c = F c;
  fw_bytes j c o : 0 <= j < k → cs' !! Z.to_nat j = Some c → 0 <= o < csz → image s' !0 (cluster_offset c + o) = nth (Z.to_nat (j * csz + o)) data 0;
  fw_frame x : (∀ j c, 0 <= j < k → cs' !! Z.to_nat j = Some c → ¬ in_tool_cluster c x) → image s' !0 x = image s !0 x;
}.

Definition file_clusters (size : Z) : Z := size / csz + 1.
Definition room (F : Z → Z) (n : Z) : Prop :=
  ∃ free, NoDup free ∧ n <= Z.of_nat (length free) ∧ ∀ c, c ∈ free → 2 <= c < cluster_end ∧ F c = 0.

(** The end of the loop: the chain is cut behind the last cluster it has reached. *)
Lemma writing_end F cs data k s c s1 F1 cs1 free s' :
  0 <= k → writing F cs (λ p, nth (Z.to_nat p) data 0) k s k c s1 F1 cs1 free →
  tool_inv (table_set F1 c FILE_END) s' → image s' = image s1 → tbpb s' = tbpb s1 →
  file_written F cs data k s s' (table_set F1 c FILE_END) (take (S (Z.to_nat k)) cs1).
Proof using Type.
  intros Hk [Hi Hb Hch Hhere (new & -> & Htight & Hnew) Hsame _ _ _ Hby Hfr] Hi' Him Hb'. set (cs1 := cs ++ new) in *.
  pose proof (lookup_lt_Some _ _ _ Hhere) as Hlt. split.
  - done.
  - by rewrite Hb', Hb.
  - by apply (tool_chain_cut F1 cs1 (Z.to_nat k)).
  - rewrite length_take. lia.
  - exists new. rewrite length_take. split; [|done]. f_equal. lia.
  - intros d Hd1 Hd2. assert (d ≠ c) as Hdc.
    { intros ->. apply Hd2. apply (list_elem_of_lookup_2 _ (Z.to_nat k)). by rewrite lookup_take_lt by lia. }
    unfold table_set. rewrite decide_False by done. destruct (decide (d ∈ cs1)) as [Hin|]; [|by apply Hsame].
    exfalso. apply elem_of_app in Hin as [?|Hin]; [done|]. destruct Htight as [->|Hl]; [by apply not_elem_of_nil in Hin|].
    apply Hd2. rewrite take_ge by lia. apply elem_of_app. by right.
  - intros j d o Hj Hd Ho. rewrite Him. rewrite lookup_take_lt in Hd by lia. by apply Hby.
  - intros x Hx. rewrite Him. apply Hfr. intros j d Hj Hd. apply (Hx j d Hj). by rewrite lookup_take_lt by lia.
Qed.

Lemma chain_room F n : room F n → 0 < n → ∃ c, 2 <= c < cluster_end ∧ F c = 0.
Proof using Type. intros ([|c free] & _ & Hl & Hf) Hn; [simpl in Hl; lia|]. exists c. apply Hf. by left. Qed.

Lemma write_file_wp F cs first file buffer size s (Q : unit → tool → Prop) :
  tool_inv F s → tool_chain F cs → cs !! 0%nat = Some first →
  first = match file with None => tb_root_dir_cluster b | Some entry => start_cluster entry end →
  0 <= size → size + csz < 2 ^ 32 → size <= Z.of_nat (length buffer) → Forall is_u8 buffer → room F (file_clusters size) →
  (∀ s' F' cs', file_written F cs (take (Z.to_nat size) buffer) (file_clusters size) s s' F' cs' → Q tt s') →
  wp (write_file file buffer size) Q s.
Proof using Hgeom.
  intros Hi Hch Hfst Hfile Hsz H32 Hlen Hu8 (free & Hnd & Hroom & Hfree) HQ. pose proof Hgeom as [Hbps Hspc _ _ _ _ _ _].
  unfold write_file. wp. rewrite (ti_bpb _ _ Hi). cbn [with_entries tb_root_dir_cluster tb_bytes_per_sector tb_sectors_per_cluster].
  rewrite <- Hfile, Hbps, (proj2 (Z.eqb_neq csz 0)) by lia. unfold file_clusters in *. set (k := size / csz + 1) in *.
  pose proof (Z.div_mod size csz ltac:(lia)) as Hdm. pose proof (Z.mod_pos_bound size csz ltac:(lia)) as Hmb. pose proof (Z.div_pos size csz Hsz ltac:(lia)) as Hdp.
  assert (size < k * csz <= size + csz) as Hk by (unfold k; lia).
  rewrite (u32_id k) by (unfold is_u32; nia). rewrite (u32_id (k * csz)) by (unfold is_u32; nia). rewrite wp_bind.
  apply bytes_at_wp; [lia|lia|lia|]. change (Z.to_nat 0) with 0%nat. rewrite drop_0. rewrite (proj2 (Z.ltb_ge _ _)) by lia. wp.
  set (data := take (Z.to_nat size) buffer). assert (Z.of_nat (length data) = size) as Hdl by (unfold data; rewrite length_take; lia).
  set (new_buffer := data ++ replicate _ 0).
  assert (Forall is_u8 new_buffer) as Hbu8 by (apply Forall_app; split; [by apply Forall_take|by apply Forall_replicate]).
  assert (Z.of_nat (length new_buffer) = k * csz) as Hnl by (unfold new_buffer; rewrite length_app, length_replicate; lia).
  assert (∀ p, 0 <= p → nth (Z.to_nat p) new_buffer 0 = nth (Z.to_nat p) data 0) as Hnth.
  { intros p Hp. unfold new_buffer. destruct (decide (p < size)); [by rewrite app_nth1 by lia|].
    rewrite app_nth2, (nth_overflow data) by lia. apply nth_zeros. }
  apply (wp_fora (λ i c s', ∃ F' cs' free', writing F cs (λ p, nth (Z.to_nat p) data 0) k s i c s' F' cs' free')); [unfold k; lia| | |].
  - exists F, cs, free. split; try done; [exists []; split_and!; [by rewrite app_nil_r|by left|by intros c ?%not_elem_of_nil]|lia|].
    intros j c o Hj. lia.
  - intros i c s1 Hir (F1 & cs1 & free1 & Hw). wp. cbv [id].
    apply bytes_at_wp; [nia|lia|nia|]. eapply wp_mono.
    + eapply (write_step F cs _ k s i c s1 F1 cs1 free1 _ (λ r s', match r with inl next => ∃ F' cs' free', writing F cs (λ p, nth (Z.to_nat p) data 0) k s (i + 1) next s' F' cs' free' | inr _ => False end)); [exact Hw|lia| | | |].
      * rewrite length_take, length_drop. nia.
      * by apply Forall_take, Forall_drop.
      * intros o Ho. rewrite take_drop_nth by nia. apply Hnth. nia.
      * intros next s2 F2 cs2 free2 Hw2. by exists F2, cs2, free2.
    + intros [next|r] s2 Hw2; [done|done].
  - intros c s1 (F1 & cs1 & free1 & Hw). wp. pose proof (chain_in F1 cs1 _ _ (wg_chain _ _ _ _ _ _ _ _ _ _ _ Hw) (wg_here _ _ _ _ _ _ _ _ _ _ _ Hw)) as Hc.
    apply (write_cluster_value_wp F1); [by apply Hw|by apply cluster_in_table|]. intros s2 Hi2 Him2 Hb2.
    apply (HQ s2 (table_set F1 c FILE_END) (take (S (Z.to_nat k)) cs1)). apply (writing_end F cs data k s c s1 F1 cs1 free1 s2); [unfold k; lia|done..].
Qed.

(** ** Free clusters *)

Lemma room_le F n n' : room F n → n' <= n → room F n'.
Proof using Type. intros (free & ? & ? & ?) Hn. exists free. split_and!; [done|lia|done]. Qed.

(** The clusters of a list may have been taken, nothing else. *)
Lemma room_without F F' n xs : room F n → (∀ c, c ∉ xs → F' c = F c) → room F' (n - Z.of_nat (length xs)).
Proof using Type.
  intros (free & Hnd & Hn & Hf) Hsame. exists (filter (λ y, y ∉ xs) free). split_and!.
  - by apply NoDup_filter.
  - pose proof (length_filter_notin xs free Hnd). lia.
  - intros c [Hc Hin]%list_elem_of_filter. rewrite Hsame by done. by apply Hf.
Qed.

(** A chain whose clusters are not touched stays. *)
Lemma tool_chain_same F F' cs : tool_chain F cs → (∀ c, c ∈ cs → F' c = F c) → tool_chain F' cs.
Proof using Type.
  intros (Hn & Hnd & Hok) Hsame. split_and!; [|done|done]. intros i c Hc. rewrite Hsame by (by eapply list_elem_of_lookup_2). by apply Hn.
Qed.

(** ** The directory in memory *)

Lemma put_bytes_wp xs : ∀ dir o (Q : list Z → tool → Prop) s,
  0 <= o → o + Z.of_nat (length xs) <= Z.of_nat (length dir) → Forall is_u8 xs →
  Q (splice dir xs o) s → wp (put_bytes dir o xs) Q s.
Proof using Type.
  induction xs as [|x xs IH]; intros dir o Q s Ho Hl Hxs HQ; cbn [put_bytes].
  - wp. unfold splice in HQ. cbn [length app] in HQ. by rewrite Nat.add_0_r, take_drop in HQ.
  - cbn [length] in *. apply Forall_cons_1 in Hxs as [Hx Hxs]. rewrite wp_bind. unfold put_byte. rewrite bool_decide_eq_true_2 by lia. wp.
    apply IH; [lia|rewrite length_insert; lia|done|]. assert (splice (<[Z.to_nat o:=u8 x]> dir) xs (o + 1) = splice dir (x :: xs) o) as ->; [|done].
    unfold splice. rewrite (u8_id x) by done. replace (Z.to_nat (o + 1)) with (S (Z.to_nat o)) by lia. cbn [length].
    rewrite (take_S_r _ _ x) by (apply list_lookup_insert_eq; lia). rewrite take_insert_ge, drop_insert_lt by lia.
    rewrite <- app_assoc. cbn [app]. do 4 f_equal. lia.
Qed.

(** The name of a file: up to eight characters without a dot, and up to three behind it. *)
Record name_ok (base ext : list Z) : Prop := {
  no_chars : Forall (λ x, 0 < x < 256) (base ++ ext);
  no_dot : 46 ∉ base;
  no_base : (0 < length base <= 8)%nat;
  no_ext : (length ext <= 3)%nat;
}.

Definition tool_entry (base ext : list Z) (size first : Z) : list Z :=
  (base ++ replicate (8 - length base) 0) ++ (ext ++ replicate (3 - length ext) 0) ++ replicate 9 0 ++
  (word_byte first <$> [2; 3]) ++ replicate 4 0 ++ (word_byte first <$> [0; 1]) ++ (word_byte size <$> [0; 1; 2; 3]).

Lemma length_tool_entry base ext size first : name_ok base ext → length (tool_entry base ext size first) = 32%nat.
Proof using Type.
  intros [_ _ Hb He]. unfold tool_entry. rewrite !length_app, !length_fmap, !length_replicate. cbn [length]. lia.
Qed.
Lemma word_bytes_u8 w ks : Forall is_u8 (word_byte w <$> ks).
Proof using Type. apply Forall_fmap, Forall_true. intros. apply is_u8_word_byte. Qed.
Lemma zeros_u8 n : Forall is_u8 (replicate n 0).
Proof using Type. by apply Forall_replicate. Qed.
Lemma tool_entry_u8 base ext size first : name_ok base ext → Forall is_u8 (tool_entry base ext size first).
Proof using Type.
  intros [Hc _ _ _]. apply Forall_app in Hc as [Hb He]. unfold tool_entry.
  assert (∀ l, Forall (λ x, 0 < x < 256) l → Forall is_u8 l) as Hl by (intros l Hf; eapply Forall_impl; [exact Hf|]; unfold is_u8; intros; lia).
  rewrite !Forall_app. split_and!; auto using zeros_u8, word_bytes_u8.
Qed.
Lemma tool_entry_name base ext size first : name_ok base ext → nth 0 (tool_entry base ext size first) 0 ≠ 0.
Proof using Type.
  intros [Hc _ Hb _]. destruct base as [|x base]; [simpl in Hb; lia|]. apply Forall_cons_1 in Hc as [Hx _]. simpl. lia.
Qed.

Lemma split_name_dot base ext : 46 ∉ base → (length ext <= 3)%nat → split_name (base ++ 46 :: ext) = Some (base, ext).
Proof using Type.
  intros Hd He. induction base as [|x base IH]; cbn [split_name app].
  - by rewrite Z.eqb_refl, take_ge by lia.
  - apply not_elem_of_cons in Hd as [Hx Hd]. rewrite (proj2 (Z.eqb_neq _ _)) by congruence. by rewrite IH.
Qed.

(** The first entry without a name is the one behind the entries that are there. *)
Lemma nth_concat_entry (es : list (list Z)) i k rest :
  Forall (λ e, length e = 32%nat) es → (i < length es)%nat → (k < 32)%nat → (concat es ++ rest) !! (32 * i + k)%nat = nth i es [] !! k.
Proof using Type.
  intros Hes. revert i. induction Hes as [|e es He Hes IH]; intros i Hi Hk; [simpl in Hi; lia|]. cbn [concat length] in *. rewrite <- app_assoc.
  destruct i as [|i]; [by rewrite lookup_app_l by lia|]. rewrite lookup_app_r by lia. rewrite He.
  replace (32 * S i + k - 32)%nat with (32 * i + k)%nat by lia. cbn [nth]. apply IH; lia.
Qed.
Lemma length_concat_entries (es : list (list Z)) : Forall (λ e, length e = 32%nat) es → length (concat es) = (32 * length es)%nat.
Proof using Type. induction 1 as [|e es He Hes IH]; [done|]. cbn [concat length]. rewrite length_app. lia. Qed.

Lemma free_entry_wp es rest (Q : Z → tool → Prop) s :
  Forall (λ e, length e = 32%nat ∧ nth 0 e 0 ≠ 0) es → rest !! 0%nat = Some 0 → Z.of_nat (length es) < 2 ^ 31 →
  Q (Z.of_nat (length es)) s → wp (free_entry (concat es ++ rest)) Q s.
Proof using Type.
  intros Hes Hrest H31 HQ. assert (Forall (λ e, length e = 32%nat) es) as Hlen by (eapply Forall_impl; [exact Hes|]; by intros ? []).
  pose proof (length_concat_entries es Hlen) as Hl. unfold free_entry.
  apply (wp_loop (λ i s', s' = s ∧ 0 <= i <= Z.of_nat (length es)) (λ i _, Z.of_nat (length es) - i)); [split; [done|lia]|unfold fuel32; lia|intros i s' [_ ?]; lia|].
  intros i s' [-> Hi]. unfold get_byte, FILE_T_SIZE. replace (Z.to_nat (32 * i)) with (32 * Z.to_nat i)%nat by lia.
  destruct (decide (i = Z.of_nat (length es))) as [->|Hne].
  - rewrite lookup_app_r by lia. replace (32 * _ - _)%nat with 0%nat by lia. rewrite Hrest. by wp.
  - rewrite <- (Nat.add_0_r (32 * Z.to_nat i)), nth_concat_entry by (done || lia). rewrite Forall_lookup in Hes.
    destruct (lookup_lt_is_Some_2 es (Z.to_nat i)) as [e He]; [lia|]. rewrite (nth_lookup_Some _ _ _ _ He).
    specialize (Hes _ _ He) as [H32 Hnz]. destruct e as [|x e]; [simpl in H32; lia|]. cbn [nth lookup list_lookup] in *. cbn. wp.
    rewrite (proj2 (Z.eqb_neq _ _)) by done. cbn. split; [split; [done|lia]|lia].
Qed.

(** The fields of the new entry, one after the other. *)
Lemma put_field_wp es entry rest o xs (Q : list Z → tool → Prop) s :
  Forall (λ e, length e = 32%nat) es → 0 <= o → o + Z.of_nat (length xs) <= Z.of_nat (length entry) → Forall is_u8 xs →
  Q (concat es ++ splice entry xs o ++ rest) s →
  wp (put_bytes (concat es ++ entry ++ rest) (FILE_T_SIZE * Z.of_nat (length es) + o) xs) Q s.
Proof using Type.
  intros Hes Ho Hl Hxs HQ. pose proof (length_concat_entries es Hes) as Hce. unfold FILE_T_SIZE.
  apply put_bytes_wp; [lia|rewrite !length_app; lia|done|].
  replace (32 * Z.of_nat (length es) + o) with (Z.of_nat (length (concat es)) + o) by lia.
  by rewrite splice_app_r, splice_app_l by lia.
Qed.

Lemma tool_entry_fields base ext size first :
  name_ok base ext →
  splice (splice (splice (splice (splice (replicate 32 0) base 0) ext 8) (word_byte size <$> [0; 1; 2; 3]) 28)
    (word_byte first <$> [0; 1]) 26) (word_byte first <$> [2; 3]) 20 = tool_entry base ext size first.
Proof using Type.
  intros [_ _ Hb He]. unfold tool_entry. rewrite splice_replicate by lia.
  replace (32 - length base)%nat with ((8 - length base) + 24)%nat by lia. rewrite replicate_add, app_assoc.
  set (b8 := base ++ replicate (8 - length base) 0). assert (length b8 = 8%nat) as Hb8 by (unfold b8; rewrite length_app, length_replicate; lia).
  assert (∀ l x o, 0 <= o → splice (b8 ++ l) x (8 + o) = b8 ++ splice l x o) as H8
    by (intros; replace 8 with (Z.of_nat (length b8)) by lia; by apply splice_app_r).
  rewrite (H8 _ ext 0), (H8 _ _ 20), (H8 _ _ 18), (H8 _ _ 12) by lia. f_equal. rewrite splice_replicate by lia.
  replace (24 - length ext)%nat with ((3 - length ext) + 21)%nat by lia. rewrite replicate_add, app_assoc.
  set (e3 := ext ++ replicate (3 - length ext) 0). assert (length e3 = 3%nat) as He3 by (unfold e3; rewrite length_app, length_replicate; lia).
  assert (∀ l x o, 0 <= o → splice (e3 ++ l) x (3 + o) = e3 ++ splice l x o) as H3
    by (intros; replace 3 with (Z.of_nat (length e3)) by lia; by apply splice_app_r).
  by rewrite (H3 _ _ 17), (H3 _ _ 15), (H3 _ _ 9) by lia.
Qed.

(** ** Creating files *)

Notation root := (tb_root_dir_cluster b).

(** A file of the image. *)
Record tool_file := ToolFile { tf_base : list Z; tf_ext : list Z; tf_data : list Z; tf_chain : list Z }.
Definition tf_size (f : tool_file) : Z := Z.of_nat (length (tf_data f)).
Definition tf_entry (f : tool_file) : list Z := tool_entry (tf_base f) (tf_ext f) (tf_size f) (nth 0 (tf_chain f) 0).

(** Its clusters, the last of which has no data, and the bytes in the others: the data and
    zeros behind it. *)
Record file_holds (F : Z → Z) (s : tool) (f : tool_file) : Prop := {
  fh_name : name_ok (tf_base f) (tf_ext f);
  fh_chain : tool_chain F (tf_chain f);
  fh_length : Z.of_nat (length (tf_chain f)) = file_clusters (tf_size f) + 1;
  fh_bytes j c o : 0 <= j < file_clusters (tf_size f) → tf_chain f !! Z.to_nat j = Some c → 0 <= o < csz →
    image s !0 (cluster_offset c + o) = nth (Z.to_nat (j * csz + o)) (tf_data f) 0;
}.

(** The root directory lists the files; no cluster is used twice. *)
Record holds (F : Z → Z) (rc : list Z) (fs : list tool_file) (s : tool) : Prop := {
  ho_inv : tool_inv F s;
  ho_root : tool_chain F rc ∧ rc !! 0%nat = Some root;
  ho_short : (length rc <= 2)%nat;
  ho_files : Forall (file_holds F s) fs;
  ho_apart : NoDup (rc ++ concat (tf_chain <$> fs));
  ho_entries k : 0 <= k < csz → image s !0 (cluster_offset root + k) = nth (Z.to_nat k) (concat (tf_entry <$> fs)) 0;
  ho_count : tb_root_dir_entries (tbpb s) = Z.of_nat (length fs);
}.

Lemma table_put_wp F s v c (Q : unit → tool → Prop) :
  tool_inv F s → 0 <= c < 128 * spf →
  (∀ s', tool_inv (table_set F c v) s' → image s' = image s → tbpb s' = tbpb s → Q tt s') → wp (table_put c v) Q s.
Proof using Hgeom.
  intros Hi Hc HQ. destruct Hgeom as [_ _ Hfc Hspf _ _ _ _]. pose proof (ti_length _ _ Hi) as Hlen. unfold table_sectors in *. unfold table_put. wp.
  rewrite bool_decide_eq_true_2 by nia. wp. apply HQ; [|done|done]. destruct Hi as [H1 H2 H3 H4 H5 H6].
  split; try done; cbn [file_table set_table]; [by rewrite length_insert|].
  intros d Hd. unfold table_set. case_decide as Hdc.
  - subst d. apply list_lookup_insert_eq. nia.
  - rewrite list_lookup_insert_ne by lia. by apply H5.
Qed.

(** A file is not touched when its clusters are not. *)
Lemma file_holds_same F s F' s' f :
  file_holds F s f → (∀ c, c ∈ tf_chain f → F' c = F c) →
  (∀ c k, c ∈ tf_chain f → in_tool_cluster c k → image s' !0 k = image s !0 k) → file_holds F' s' f.
Proof using Type.
  intros [Hn Hch Hl Hb] HF Hs. split; [done|by eapply tool_chain_same|done|].
  intros j c o Hj Hc Ho. rewrite (Hs c); [by apply Hb|by eapply list_elem_of_lookup_2|unfold in_tool_cluster; lia].
Qed.

(** The clusters that [write_file] has linked are the old ones or were free. *)
Lemma written_clusters F cs data k s s' F' cs' c :
  file_written F cs data k s s' F' cs' → c ∈ cs' → c ∈ cs ∨ F c = 0.
Proof using Type.
  intros Hw Hc. destruct (fw_new _ _ _ _ _ _ _ _ Hw) as (new & Heq & Hnew). rewrite Heq in Hc.
  apply elem_of_take in Hc as (i & Hi & _). apply list_elem_of_lookup_2, elem_of_app in Hi as [?|?]; [by left|right; by apply Hnew].
Qed.

Lemma clusters_nonneg size : 0 <= size → 0 < file_clusters size.
Proof using Hgeom. intros. destruct Hgeom. unfold file_clusters. pose proof (Z.div_pos size csz). lia. Qed.

(** The file's data goes to its clusters: the part of [create_file] in front of the root. *)
Lemma new_file_wp F r base ext data entry s (Q : unit → tool → Prop) :
  tool_inv (table_set F r FILE_END) s → name_ok base ext → 2 <= r < cluster_end → F r = 0 → start_cluster entry = r →
  Z.of_nat (length data) + csz < 2 ^ 32 → Forall is_u8 data → room (table_set F r FILE_END) (file_clusters (Z.of_nat (length data))) →
  (∀ f s' F', tf_base f = base → tf_ext f = ext → tf_data f = data → nth 0 (tf_chain f) 0 = r →
     tool_inv F' s' → tbpb s' = tbpb s → file_holds F' s' f →
     (∀ c, c ∈ tf_chain f → F c = 0) → (∀ c, c ∉ tf_chain f → F' c = F c) →
     (∀ x, (∀ c, c ∈ tf_chain f → ¬ in_tool_cluster c x) → image s' !0 x = image s !0 x) → Q tt s') →
  wp (write_file (Some entry) data (Z.of_nat (length data))) Q s.
Proof using Hgeom.
  intros Hi Hn Hr Hz Hst H32 Hu8 Hroom HQ.
  assert (tool_chain (table_set F r FILE_END) [r]) as Hch.
  { split_and!; [|apply NoDup_singleton|by constructor]. intros [|i] c Hc; [|done]. injection Hc as <-. cbn. unfold table_set. by rewrite decide_True. }
  apply (write_file_wp (table_set F r FILE_END) [r] r); try done; try lia. intros s2 F2 cs2. rewrite Nat2Z.id, take_ge by lia. intros Hw.
  pose proof (clusters_nonneg (Z.of_nat (length data)) ltac:(lia)) as Hk. pose proof (fw_length _ _ _ _ _ _ _ _ Hw) as Hl.
  assert (cs2 !! 0%nat = Some r) as H0.
  { destruct (fw_new _ _ _ _ _ _ _ _ Hw) as (new & -> & _). rewrite lookup_take_lt by lia. done. }
  assert (r ∈ cs2) as Hin by (by eapply list_elem_of_lookup_2).
  apply (HQ (ToolFile base ext data cs2) s2 F2); cbn [tf_base tf_ext tf_data tf_chain]; try done.
  - by apply nth_lookup_Some.
  - by apply Hw.
  - by apply Hw.
  - split; cbn [tf_base tf_ext tf_data tf_chain]; [done|by apply Hw|done|by apply Hw].
  - intros c Hc. destruct (written_clusters _ _ _ _ _ _ _ _ c Hw Hc) as [->%list_elem_of_singleton|Hz']; [done|].
    unfold table_set in Hz'. case_decide; [done|]. done.
  - intros c Hc. rewrite (fw_same _ _ _ _ _ _ _ _ Hw); [|intros ->%list_elem_of_singleton; done|done].
    unfold table_set. rewrite decide_False; [done|by intros ->].
  - intros x Hx. apply (fw_frame _ _ _ _ _ _ _ _ Hw). intros j c _ Hc. by apply Hx, (list_elem_of_lookup_2 _ _ _ Hc).
Qed.

(** The root directory goes to its first cluster; behind it there is always one more. *)
Lemma write_root_wp F rc dir n s (Q : unit → tool → Prop) :
  tool_inv F s → tool_chain F rc → rc !! 0%nat = Some root → 0 <= n < csz → n + csz < 2 ^ 32 → n <= Z.of_nat (length dir) → Forall is_u8 dir → room F 1 →
  (∀ F' rc' s', tool_inv F' s' → tbpb s' = tbpb s → tool_chain F' rc' → rc' !! 0%nat = Some root → length rc' = 2%nat →
     (∀ c, c ∈ rc' → c ∈ rc ∨ F c = 0) → (∀ c, c ∉ rc → c ∉ rc' → F' c = F c) → (length (filter (λ c, c ∉ rc) rc') <= 1)%nat →
     (∀ k, 0 <= k < csz → image s' !0 (cluster_offset root + k) = nth (Z.to_nat k) (take (Z.to_nat n) dir) 0) →
     (∀ x, ¬ in_tool_cluster root x → image s' !0 x = image s !0 x) → Q tt s') →
  wp (write_file None dir n) Q s.
Proof using Hgeom.
  intros Hi Hch H0 Hn H32 Hl Hu8 Hroom HQ. assert (file_clusters n = 1) as Hk by (unfold file_clusters; by rewrite Z.div_small).
  apply (write_file_wp F rc root); try done; [lia|by rewrite Hk|]. rewrite Hk. intros s' F' rc' Hw.
  pose proof (fw_length _ _ _ _ _ _ _ _ Hw) as Hlen. destruct (fw_new _ _ _ _ _ _ _ _ Hw) as (new & Heq & Hnew).
  assert (rc' !! 0%nat = Some root) as H0'.
  { rewrite Heq. rewrite lookup_take_lt by lia. by apply lookup_app_l_Some. }
  apply (HQ F' rc' s'); try done; [by apply Hw|by apply Hw|by apply Hw|lia|..].
  - intros c. by eapply written_clusters.
  - by apply Hw.
  - destruct rc' as [|x [|y [|z rc']]]; cbn [length] in Hlen; try lia. injection H0' as ->.
    rewrite filter_cons_False by (intros Hx; by apply Hx, (list_elem_of_lookup_2 _ 0%nat)). rewrite length_filter. done.
  - intros k Hr. apply (fw_bytes _ _ _ _ _ _ _ _ Hw 0 root k); [lia|done|done].
  - intros x Hx. apply (fw_frame _ _ _ _ _ _ _ _ Hw). intros j c Hj Hc. assert (j = 0) as -> by lia. change (Z.to_nat 0) with 0%nat in Hc. rewrite H0' in Hc. by injection Hc as <-.
Qed.

Lemma start_cluster_entry base ext size first : name_ok base ext → is_u32 first → start_cluster (tool_entry base ext size first) = first.
Proof using Type.
  intros [_ _ Hb He] H32. unfold start_cluster, half_of, tool_entry.
  set (b8 := base ++ _). assert (length b8 = 8%nat) as Hb8 by (unfold b8; rewrite length_app, length_replicate; lia).
  set (e3 := ext ++ _). assert (length e3 = 3%nat) as He3 by (unfold e3; rewrite length_app, length_replicate; lia).
  rewrite !(app_nth2 b8), !(app_nth2 e3) by lia. rewrite Hb8, He3. cbn [Nat.add Nat.sub nth app replicate fmap list_fmap].
  pose proof (le32_word_byte first H32) as Hw. unfold le16. unfold le32 in Hw.
  pose proof (is_u8_word_byte first 0) as H0. pose proof (is_u8_word_byte first 1) as H1.
  pose proof (is_u8_word_byte first 2) as H2. pose proof (is_u8_word_byte first 3) as H3. unfold is_u8 in *.
  rewrite !Z.shiftl_mul_pow2 in * by lia. rewrite u32_id by (unfold is_u32; lia).
  rewrite Z.lor_comm, <- (Z.shiftl_mul_pow2 (_ + _) 16), lor_shiftl_add by lia. lia.
Qed.

(** The root directory as it is read, with room behind it. *)
Lemma root_read_wp F rc fs s (Q : list Z * Z → tool → Prop) :
  holds F rc fs s → 32 * Z.of_nat (length fs) <= csz → 2 <= root < cluster_end →
  (∀ next, Q (concat (tf_entry <$> fs) ++ replicate (Z.to_nat (csz - 32 * Z.of_nat (length fs))) 0, next) s) →
  wp (read_cluster root) Q s.
Proof using Hgeom.
  intros Hh Hn Hr HQ. pose proof (ho_inv _ _ _ _ Hh) as Hi. destruct Hgeom as [_ Hspc _ _ _ _ _ _]. unfold read_cluster, read_sector. wp. cbv [id].
  apply (table_get_wp F); [done|by apply cluster_in_table|]. wp. rewrite (cluster_sector_eq F s root Hi Hr).
  rewrite (ti_bpb _ _ Hi). cbn [with_entries tb_sectors_per_cluster].
  assert (length (concat (tf_entry <$> fs)) = (32 * length fs)%nat) as Hl.
  { rewrite length_concat_entries, length_fmap; [done|]. apply Forall_fmap. eapply Forall_impl; [apply Hh|]. intros f Hf. by apply length_tool_entry, Hf. }
  match goal with |- Q (?l, _) _ => assert (l = concat (tf_entry <$> fs) ++ replicate (Z.to_nat (csz - 32 * Z.of_nat (length fs))) 0) as -> end; [|done].
  apply (list_eq_same_length _ _ (Z.to_nat csz)); [rewrite length_app, length_replicate; lia|rewrite length_fmap, length_seqZ; lia|].
  intros i x y Hir Hx Hy. apply list_lookup_fmap_Some in Hx as (k & -> & Hk). apply lookup_seqZ in Hk as [-> Hk].
  rewrite (ho_entries _ _ _ _ Hh) by lia. apply nth_lookup_Some with (d := 0) in Hy. rewrite <- Hy. clear y Hy.
  rewrite Z.add_0_l, Nat2Z.id. destruct (decide (i < 32 * length fs)%nat); [by rewrite app_nth1 by lia|].
  rewrite app_nth2, nth_zeros by lia. apply nth_overflow. lia.
Qed.

Lemma root_in F rc fs s : holds F rc fs s → 2 <= root < cluster_end.
Proof using Type. intros [_ [Hch H0] _ _ _ _ _]. by eapply chain_in. Qed.

Lemma file_used F s f c : file_holds F s f → c ∈ tf_chain f → F c ≠ 0.
Proof using Type. intros Hf. apply chain_used, Hf. Qed.

Lemma holds_unused F rc fs s c : holds F rc fs s → F c = 0 → c ∉ rc ++ concat (tf_chain <$> fs).
Proof using Type.
  intros [_ [Hch _] _ Hf _ _ _] Hz [Hc|Hc]%elem_of_app; [by apply (chain_used F rc c)|].
  apply elem_of_concat in Hc as (l & Hc & Hl). apply list_elem_of_fmap in Hl as (f & -> & Hin).
  rewrite Forall_forall in Hf. by apply (file_used F s f c (Hf f Hin) Hc).
Qed.

(** The new file, behind the ones that are there. *)
Lemma holds_snoc F rc fs s F1 s1 f F2 rc2 s2 :
  holds F rc fs s → tool_inv F2 s2 → file_holds F1 s1 f →
  (∀ c, c ∈ tf_chain f → F c = 0) → (∀ c, c ∉ tf_chain f → F1 c = F c) →
  (∀ c x, c ∉ tf_chain f → in_tool_cluster c x → image s1 !0 x = image s !0 x) →
  tool_chain F2 rc2 → rc2 !! 0%nat = Some root → length rc2 = 2%nat →
  (∀ c, c ∈ rc2 → c ∈ rc ∨ F1 c = 0) → (∀ c, c ∉ rc → c ∉ rc2 → F2 c = F1 c) →
  (∀ k, 0 <= k < csz → image s2 !0 (cluster_offset root + k) = nth (Z.to_nat k) (concat (tf_entry <$> fs ++ [f])) 0) →
  (∀ x, ¬ in_tool_cluster root x → image s2 !0 x = image s1 !0 x) →
  tb_root_dir_entries (tbpb s2) = Z.of_nat (length (fs ++ [f])) →
  holds F2 rc2 (fs ++ [f]) s2.
Proof using Hgeom.
  intros Hh Hi2 Hf Hfree HF1 Hs1 Hch2 H02 Hl2 Hnew HF2 Hroot Hs2 Hcnt.
  pose proof (root_in _ _ _ _ Hh) as Hr. pose proof Hh as [_ [Hch H0] _ Hfs Hap _ _].
  assert (∀ c, c ∈ tf_chain f → c ∉ rc ++ concat (tf_chain <$> fs)) as Hapart by (intros c Hc; by eapply holds_unused, Hfree).
  assert (∀ c, c ∈ tf_chain f → F1 c ≠ 0) as Hused by (intros c; by apply (file_used F1 s1)).
  (* a cluster of a file is in neither of the root's chains *)
  assert (∀ c, c ∉ rc → F1 c ≠ 0 → F2 c = F1 c ∧ c ∉ rc2) as Hstay.
  { intros c Hc Hz. assert (c ∉ rc2) by (intros [?|?]%Hnew; done). split; [by apply HF2|done]. }
  assert (∀ c x, c ∉ rc → in_tool_cluster c x → image s2 !0 x = image s1 !0 x) as Hbytes.
  { intros c x Hc Hx. apply Hs2. intros Hx'. apply Hc. rewrite (offset_apart c root x Hx Hx'). by eapply list_elem_of_lookup_2. }
  assert (∀ g, g ∈ fs → ∀ c, c ∈ tf_chain g → c ∉ rc ∧ c ∉ tf_chain f) as Hold.
  { intros g Hg c Hc. assert (c ∈ concat (tf_chain <$> fs)) as Hcc by (apply elem_of_concat; eexists; split; [done|by apply list_elem_of_fmap_2]).
    apply NoDup_app in Hap as (_ & Hd & _). split; [by intros ?%Hd|]. intros Hin. apply (Hapart c Hin), elem_of_app. by right. }
  split; try done; [lia|..].
  - apply Forall_app. split; [|constructor; [|done]].
    + apply Forall_forall. intros g Hg. rewrite Forall_forall in Hfs. specialize (Hfs g Hg).
      assert (∀ c, c ∈ tf_chain g → F1 c = F c ∧ F c ≠ 0) as Hg1.
      { intros c Hc. destruct (Hold g Hg c Hc). split; [by apply HF1|by apply (file_used F s g c Hfs)]. }
      apply (file_holds_same F s); [done| |].
      * intros c Hc. destruct (Hold g Hg c Hc), (Hg1 c Hc) as [He Hz]. destruct (Hstay c) as [-> _]; [done|congruence|done].
      * intros c k Hc Hk. destruct (Hold g Hg c Hc). rewrite (Hbytes c k) by done. by apply (Hs1 c).
    + apply (file_holds_same F1 s1); [done| |].
      * intros c Hc. apply Hstay; [|by apply Hused]. intros Hin. apply (Hapart c Hc), elem_of_app. by left.
      * intros c k Hc Hk. apply (Hbytes c k); [|done]. intros Hin. apply (Hapart c Hc), elem_of_app. by left.
  - rewrite fmap_app, concat_app. cbn [fmap list_fmap concat]. rewrite app_nil_r. apply NoDup_app in Hap as (_ & Hd & Hnd).
    apply NoDup_app. split_and!; [by apply Hch2| |].
    + intros c Hc2 Hc. assert (F1 c ≠ 0 ∧ c ∉ rc) as [Hz Hn]; [|by apply (Hstay c)].
      apply elem_of_app in Hc as [Hc|Hc]; [|split; [by apply Hused|]; intros Hin; apply (Hapart c Hc), elem_of_app; by left].
      apply elem_of_concat in Hc as (l & Hc & Hl). apply list_elem_of_fmap in Hl as (g & -> & Hg). destruct (Hold g Hg c Hc) as [Hn Hnf].
      split; [|done]. rewrite HF1 by done. rewrite Forall_forall in Hfs. by apply (file_used F s g c (Hfs g Hg)).
    + apply NoDup_app. split_and!; [done| |by apply Hf]. intros c Hc Hin. apply (Hapart c Hin), elem_of_app. by right.
Qed.

(** The frame of a run: only clusters of the volume are written. *)
Definition clusters_only (s s' : tool) : Prop :=
  ∀ x, (∀ c, 2 <= c < cluster_end → ¬ in_tool_cluster c x) → image s' !0 x = image s !0 x.

Lemma room_use F F' n k xs :
  room F n → (∀ c, 2 <= c < cluster_end → F c = 0 → c ∉ xs → F' c = F c) → Z.of_nat (length xs) <= k → room F' (n - k).
Proof using Type.
  intros (free & Hnd & Hn & Hf) Hsame Hk. exists (filter (λ y, y ∉ xs) free). split_and!.
  - by apply NoDup_filter.
  - pose proof (length_filter_notin xs free Hnd). lia.
  - intros c [Hc Hin]%list_elem_of_filter. destruct (Hf c Hin) as [? Hz]. by rewrite Hsame.
Qed.

(** The bytes of the new root directory: the entries that are there, and the new one. *)
Lemma take_entries (es : list (list Z)) e rest :
  Forall (λ e, length e = 32%nat) es → length e = 32%nat →
  take (Z.to_nat (Z.of_nat (length es + 1) * FILE_T_SIZE)) (concat es ++ e ++ rest) = concat (es ++ [e]).
Proof using Type.
  intros Hes He. pose proof (length_concat_entries es Hes). rewrite concat_app. cbn [concat]. rewrite app_nil_r, app_assoc.
  rewrite take_app_length'; [done|]. rewrite length_app. unfold FILE_T_SIZE. lia.
Qed.

(** One entry more; the rest of the boot sector stays. *)
Definition count_file (b : tool_bpb) : tool_bpb :=
  ToolBpb (tb_bytes_per_sector b) (tb_sectors_per_cluster b) (tb_reserved_sectors b)
        (tb_fat_count b) (u16 (tb_root_dir_entries b + 1)) (tb_partition_start b) (tb_large_sector_count b)
        (tb_sectors_per_fat b) (tb_root_dir_cluster b).
Lemma tool_inv_count F s : tool_inv F s → tool_inv F (set_tbpb (count_file (tbpb s)) s).
Proof using Type. intros [H1 H2 H3 H4 H5 H6]. split; try done. unfold count_file. cbn [set_tbpb tbpb]. by rewrite H1. Qed.

(** The end of [create_file]: the data goes to the file's clusters, the entries to the root. *)
Lemma write_both_wp F rc fs base ext data n r more s s2 (Q : unit → tool → Prop) :
  holds F rc fs s → name_ok base ext → 32 * (Z.of_nat (length fs) + 1) < csz → Z.of_nat (length data) + csz < 2 ^ 32 → Forall is_u8 data →
  room F n → file_clusters (Z.of_nat (length data)) + 2 <= n → 2 <= r < cluster_end → F r = 0 →
  Forall is_u8 more → tool_inv (table_set F r FILE_END) s2 → image s2 = image s → tb_root_dir_entries (tbpb s2) = Z.of_nat (length fs) + 1 →
  let entry := tool_entry base ext (Z.of_nat (length data)) r in
  (∀ F' rc' f s', tf_base f = base → tf_ext f = ext → tf_data f = data → holds F' rc' (fs ++ [f]) s' →
     room F' (n - (file_clusters (Z.of_nat (length data)) + 2)) → clusters_only s s' → Q tt s') →
  wp (write_file (Some entry) data (Z.of_nat (length data));;
      b ← gets tbpb;
      write_file None (concat (tf_entry <$> fs) ++ entry ++ more) (tb_root_dir_entries b * FILE_T_SIZE)) Q s2.
Proof using Hgeom.
  intros Hh Hn Hfit H32 Hdu8 Hroom Hneed Hrr Hz Hmore Hi2 Him2 Hcnt2 entry HQ. pose proof Hh as [Hi [Hch H0] _ Hfs _ _ _].
  pose proof Hgeom as [_ Hspc _ _ _ _ _ Hend]. pose proof (clusters_nonneg (Z.of_nat (length data)) ltac:(lia)) as Hk.
  set (es := tf_entry <$> fs). assert (length es = length fs) as Hles by apply length_fmap.
  assert (Forall (λ e, length e = 32%nat) es) as Hes32 by (apply Forall_fmap; eapply Forall_impl; [exact Hfs|]; intros f Hf; apply length_tool_entry, Hf).
  pose proof (length_concat_entries es Hes32) as Hlce. pose proof (length_tool_entry base ext (Z.of_nat (length data)) r Hn) as Le. fold entry in Le.
  wp. apply (new_file_wp F r base ext); try done.
  { apply start_cluster_entry; [done|]. destruct Hgeom. unfold is_u32, table_sectors in *. pose proof (cluster_in_table r Hrr). nia. }
  { apply (room_le _ (n - 1)); [|lia]. apply (room_use F _ n 1 [r]); [done| |done]. intros c _ _ Hc. unfold table_set. rewrite decide_False; [done|].
    intros ->. apply Hc. by left. }
  intros f s3 F3 <- <- <- Hfst Hi3 Hb3 Hf Hfree HF3 Hs3. wp.
  fold (tf_size f) in *.
  assert (tb_root_dir_entries (tbpb s3) = Z.of_nat (length es + 1)) as Hc3 by (rewrite Hb3; lia).
  rewrite Hc3.
  assert (∀ c, c ∈ rc → c ∉ tf_chain f) as Hrcf by (intros c Hc Hin; by apply (chain_used F rc c), Hfree).
  assert (Z.of_nat (length (tf_chain f)) = file_clusters (tf_size f) + 1) as Hfl by apply Hf.
  assert (room F3 (n - (file_clusters (tf_size f) + 1))) as Hroom3 by (apply (room_use F _ n _ (tf_chain f)); [done|by intros; apply HF3|lia]).
  apply (write_root_wp F3 rc); [done|..].
  { apply (tool_chain_same F); [done|]. intros c Hc. by apply HF3, Hrcf. }
  { done. }
  { unfold FILE_T_SIZE. lia. }
  { unfold FILE_T_SIZE. lia. }
  { rewrite !length_app. unfold FILE_T_SIZE. lia. }
  { rewrite !Forall_app. split_and!; [|by apply tool_entry_u8|done]. apply Forall_concat, Forall_fmap. eapply Forall_impl; [exact Hfs|].
    intros g Hg. apply tool_entry_u8, Hg. }
  { eapply room_le; [exact Hroom3|lia]. }
  intros F4 rc4 s4 Hi4 Hb4 Hch4 H04 Hl4 Hnew4 Hsame4 Hone Hroot4 Hs4. rewrite take_entries in Hroot4 by done.
  assert (∀ c x, c ∉ tf_chain f → in_tool_cluster c x → image s3 !0 x = image s !0 x) as Hs13.
  { intros c x Hc Hx. rewrite Hs3; [by rewrite Him2|].
    intros d Hd Hx'. apply Hc. by rewrite (offset_apart c d x Hx Hx'). }
  apply (HQ F4 rc4 f s4); try done.
  - apply (holds_snoc F rc fs s F3 s3 f F4 rc4 s4); try done.
    + intros k Hkr. rewrite Hroot4 by done. rewrite fmap_app. cbn [fmap list_fmap]. by assert (tf_entry f = entry) as -> by (unfold tf_entry, entry; by rewrite Hfst).
    + rewrite Hb4, Hc3, length_app. simpl. lia.
  - replace (n - (file_clusters (tf_size f) + 2)) with (n - (file_clusters (tf_size f) + 1) - 1) by lia.
    apply (room_use F3 F4 _ 1 (filter (λ c, c ∉ rc) rc4)); [done| |lia]. intros c _ Hz3 Hc. apply Hsame4.
    + intros Hin. apply (chain_used F rc c Hch Hin). rewrite <- HF3; [done|by apply Hrcf].
    + intros Hin. apply Hc, list_elem_of_filter. split; [|done]. intros Hin'. apply (chain_used F rc c Hch Hin'). rewrite <- HF3; [done|by apply Hrcf].
  - intros x Hx. rewrite Hs4 by (by eapply Hx, root_in). rewrite Hs3; [by rewrite Him2|].
    intros c Hc. apply Hx. destruct (list_elem_of_lookup_1 _ _ Hc) as [i Hic]. by eapply chain_in; [apply Hf|].
Qed.

Lemma create_file_wp F rc fs base ext data n s (Q : unit → tool → Prop) :
  holds F rc fs s → name_ok base ext → 32 * (Z.of_nat (length fs) + 1) < csz → Z.of_nat (length data) + csz < 2 ^ 32 → Forall is_u8 data →
  room F n → file_clusters (Z.of_nat (length data)) + 2 <= n →
  (∀ F' rc' f s', tf_base f = base → tf_ext f = ext → tf_data f = data → holds F' rc' (fs ++ [f]) s' →
     room F' (n - (file_clusters (Z.of_nat (length data)) + 2)) → clusters_only s s' → Q tt s') →
  wp (create_file (base ++ 46 :: ext) data) Q s.
Proof using Hgeom.
  intros Hh Hn Hfit H32 Hdu8 Hroom Hneed HQ. pose proof (root_in _ _ _ _ Hh) as Hr. pose proof Hh as [Hi [Hch H0] _ Hfs _ _ Hcnt].
  pose proof Hgeom as [_ Hspc _ _ _ _ _ Hend]. pose proof (clusters_nonneg (Z.of_nat (length data)) ltac:(lia)) as Hk.
  set (es := tf_entry <$> fs). assert (Forall (λ e, length e = 32%nat ∧ nth 0 e 0 ≠ 0) es) as Hes.
  { apply Forall_fmap. eapply Forall_impl; [exact Hfs|]. intros f Hf. split; [apply length_tool_entry, Hf|apply tool_entry_name, Hf]. }
  assert (Forall (λ e, length e = 32%nat) es) as Hes32 by (eapply Forall_impl; [exact Hes|]; by intros ? []).
  assert (length es = length fs) as Hles by apply length_fmap.
  pose proof (length_concat_entries es Hes32) as Hlce.
  assert (Forall is_u8 base ∧ Forall is_u8 ext) as [Hub Hue]
    by (apply Forall_app; eapply Forall_impl; [apply Hn|]; unfold is_u8; intros; lia).
  pose proof word_bytes_u8 as Huw.
  pose proof Hn as [_ Hdot Hb He].
  unfold create_file. wp. rewrite (ti_bpb _ _ Hi). cbn [with_entries tb_root_dir_cluster tb_sectors_per_cluster].
  eapply root_read_wp; [done|lia|done|]. intros next. wp.
  set (more := replicate (Z.to_nat (csz - 32 * Z.of_nat (length fs) - 32)) 0 ++ replicate (Z.to_nat (spc * 512 * (FILE_T_SIZE - 1))) 0).
  match goal with |- context [free_entry ?l] => assert (l = concat es ++ replicate 32 0 ++ more) as -> end.
  { unfold more. rewrite <- app_assoc. f_equal. rewrite <- !replicate_add. f_equal. lia. }
  apply (free_entry_wp es (replicate 32 0 ++ more)); [done|done|lia|]. wp. rewrite split_name_dot by done. wp.
  rewrite <- (Z.add_0_r (FILE_T_SIZE * Z.of_nat (length es))) at 1.
  apply (put_field_wp es (replicate 32 0) more); [done|lia|rewrite length_replicate; lia|done|].
  set (e1 := splice (replicate 32 0) base 0). assert (length e1 = 32%nat) as L1 by (unfold e1; rewrite length_splice; rewrite ?length_replicate; lia). wp.
  apply (put_field_wp es e1 more); [done|lia|rewrite L1; lia|done|].
  set (e2 := splice e1 ext 8). assert (length e2 = 32%nat) as L2 by (unfold e2; rewrite length_splice; lia). wp.
  rewrite (u32_id (Z.of_nat (length data))) by (unfold is_u32; lia). set (size := Z.of_nat (length data)) in *.
  apply (put_field_wp es e2 more); [done|lia|rewrite L2; done|done|].
  set (e3 := splice e2 _ 28). assert (length e3 = 32%nat) as L3 by (unfold e3; rewrite length_splice; [done|lia|rewrite L2; done]). wp.
  apply (find_free_wp F); [done|apply (chain_room F n); [done|lia]|]. intros r Hrr Hz _. wp.
  apply (table_put_wp F); [done|by apply cluster_in_table|]. intros s1 Hi1 Him1 Hb1. wp.
  apply (put_field_wp es e3 more); [done|lia|rewrite L3; done|done|].
  set (e4 := splice e3 _ 26). assert (length e4 = 32%nat) as L4 by (unfold e4; rewrite length_splice; [done|lia|rewrite L3; done]). wp.
  apply (put_field_wp es e4 more); [done|lia|rewrite L4; done|done|].
  assert (splice e4 (word_byte r <$> [2; 3]) 20 = tool_entry base ext size r) as -> by (by apply tool_entry_fields). wp.
  fold (count_file (tbpb s1)). apply tool_inv_count in Hi1. set (s2 := set_tbpb _ s1) in *.
  pose proof (length_tool_entry base ext size r Hn) as Le.
  apply bytes_at_wp; [unfold FILE_T_SIZE; lia|done|rewrite !length_app; unfold FILE_T_SIZE; lia|].
  assert (take (Z.to_nat FILE_T_SIZE) (drop (Z.to_nat (FILE_T_SIZE * Z.of_nat (length es))) (concat es ++ tool_entry base ext size r ++ more))
    = tool_entry base ext size r) as ->.
  { rewrite drop_app_length' by (unfold FILE_T_SIZE; lia). by rewrite take_app_length' by (unfold FILE_T_SIZE; lia). }
  cbv beta. apply (write_both_wp F rc fs base ext data n r more s s2); try done.
  { apply Forall_app. by split; apply zeros_u8. }
  unfold s2. cbn [set_tbpb tbpb count_file tb_root_dir_entries]. rewrite Hb1, Hcnt. unfold u16. rewrite Z.mod_small; lia.
Qed.

(** ** All the files *)

(** A file to be written: its name and its contents. *)
Record input := Input { in_base : list Z; in_ext : list Z; in_data : list Z }.
Definition file_of (f : tool_file) : input := Input (tf_base f) (tf_ext f) (tf_data f).
Definition input_size (x : input) : Z := Z.of_nat (length (in_data x)).
Definition input_ok (fopen : string → option (list Z)) (name : string) (x : input) : Prop :=
  fopen name = Some (in_data x) ∧ bytes_of_string name = in_base x ++ 46 :: in_ext x ∧ name_ok (in_base x) (in_ext x) ∧
  input_size x + csz < 2 ^ 32 ∧ Forall is_u8 (in_data x).
(** Clusters: those with data, one behind them, and at most one for the root. *)
Definition needed (xs : list input) : Z := foldr (λ x n, file_clusters (input_size x) + 2 + n) 0 xs.

Lemma needed_nonneg xs : 0 <= needed xs.
Proof using Hgeom.
  induction xs as [|x xs IH]; [done|]. cbn [needed foldr]. fold (needed xs). unfold input_size.
  pose proof (clusters_nonneg (Z.of_nat (length (in_data x))) ltac:(lia)). lia.
Qed.

Lemma clusters_only_trans s1 s2 s3 : clusters_only s1 s2 → clusters_only s2 s3 → clusters_only s1 s3.
Proof using Type. intros H1 H2 x Hx. by rewrite H2, H1. Qed.

Lemma create_files_wp fopen names xs F rc fs n s (Q : bool → tool → Prop) :
  holds F rc fs s → Forall2 (input_ok fopen) names xs → 32 * (Z.of_nat (length fs) + Z.of_nat (length xs)) < csz →
  room F n → needed xs <= n →
  (∀ F' rc' fs' s', holds F' rc' (fs ++ fs') s' → file_of <$> fs' = xs → clusters_only s s' → Q true s') →
  wp (create_files fopen names) Q s.
Proof using Hgeom.
  intros Hh Hin. revert F rc fs n s Hh. induction Hin as [|name x names xs (Hopen & Hname & Hok & H32 & Hu8) Hin IH]; intros F rc fs n s Hh Hfit Hroom Hneed HQ.
  - cbn [create_files]. wp. apply (HQ F rc [] s); [by rewrite app_nil_r|done|done].
  - cbn [create_files]. rewrite Hopen, Hname. cbn [length needed foldr] in *. fold (needed xs) in *. unfold input_size in *. wp.
    apply (create_file_wp F rc fs (in_base x) (in_ext x) (in_data x) n); [done|done|lia|done|done|done| |].
    { pose proof (needed_nonneg xs). lia. }
    intros F1 rc1 f s1 Hb1 He1 Hd1 Hh1 Hroom1 Ho1.
    eapply (IH F1 rc1 (fs ++ [f])); [done|rewrite length_app; simpl; lia|done|lia|].
    intros F2 rc2 fs2 s2 Hh2 Hfs2 Ho2. apply (HQ F2 rc2 (f :: fs2) s2).
    + by rewrite <- app_assoc in Hh2.
    + cbn [fmap list_fmap]. unfold file_of at 1. rewrite Hb1, He1, Hd1, Hfs2. by destruct x.
    + by eapply clusters_only_trans.
Qed.

(** ** Opening and closing an image *)

(** A number of the table of the image. *)
Definition image_entry (im : gmap Z Z) (c : Z) : Z :=
  let p := 512 * tb_reserved_sectors b + 4 * c in le32 (im !0 p) (im !0 (p + 1)) (im !0 (p + 2)) (im !0 (p + 3)).

Definition sector_of (im : gmap Z Z) : list Z := (λ k, im !0 k) <$> seqZ 0 512.

(** An image without files: the entry of the root's cluster is free and the cluster is
    empty.  The boot sector lies in front of the table, and the table in front of the data. *)
Record fresh_image (im : gmap Z Z) : Prop := {
  fi_bytes k : is_u8 (im !0 k);
  fi_reserved : 0 < tb_reserved_sectors b;
  fi_hidden : 0 <= tb_partition_start b;
  fi_boot : repair_bpb (tool_bpb_at (sector_of im)) = b;
  fi_root : 2 <= root < cluster_end;
  fi_entry : image_entry im root = 0;
  fi_empty k : 0 <= k < csz → im !0 (cluster_offset root + k) = 0;
  fi_count : tb_root_dir_entries b = 0;
}.

(** The sector with the fields put back. *)
Definition boot_sector (bs : list Z) : list Z :=
  splice (splice (splice (splice bs (word_byte (tb_bytes_per_sector b) <$> [0; 1]) 11) [tb_sectors_per_cluster b] 13)
    (word_byte (tb_reserved_sectors b) <$> [0; 1]) 14) (word_byte (tb_root_dir_cluster b) <$> [0; 1; 2; 3]) 44.

Lemma length_boot_sector bs : length bs = 512%nat → length (boot_sector bs) = 512%nat.
Proof using Type. intros H. unfold boot_sector. by repeat apply length_splice'. Qed.


Lemma store_bpb_wp bs (Q : list Z → tool → Prop) s :
  length bs = 512%nat → is_u8 spc → Q (boot_sector bs) s → wp (store_bpb b bs) Q s.
Proof using Type.
  intros Hl Hu HQ. unfold store_bpb. wp.
  assert (∀ dir o xs (Q : list Z → tool → Prop), length dir = 512%nat → 0 <= o → o + Z.of_nat (length xs) <= 512 → Forall is_u8 xs →
    (length (splice dir xs o) = 512%nat → Q (splice dir xs o) s) → wp (put_bytes dir o xs) Q s) as Hput.
  { intros dir o xs R Hd Ho Hx Hxs HR. apply put_bytes_wp; [done|lia|done|]. by apply HR, length_splice'. }
  do 3 (apply Hput; [done|done|cbn; lia|first [apply word_bytes_u8|by constructor]|intros ?; wp]).
  apply Hput; [done|done|cbn; lia|apply word_bytes_u8|done].
Qed.

(** The table of an image of less than 4 GiB. *)
Lemma table_bounds im : fresh_image im → 0 <= table_sectors ∧ 512 * (tb_reserved_sectors b + table_sectors) < 2 ^ 32.
Proof using Hgeom.
  intros [_ Hres Hhid _ Hr _ _ _]. destruct Hgeom as [_ Hspc Hfc Hspf _ _ _ Hend]. unfold cluster_offset, table_sectors in *.
  assert (1 <= cluster_end - 2) by lia. split; nia.
Qed.

(** The image with the repaired boot sector. *)
Definition opened_image (im : gmap Z Z) : gmap Z Z := store_bytes 0 (boot_sector (sector_of im)) im.

Lemma length_sector_of im : length (sector_of im) = 512%nat.
Proof using Type. done. Qed.
Lemma opened_byte im k : 512 <= k → opened_image im !0 k = im !0 k.
Proof using Type.
  intros Hk. unfold opened_image. rewrite store_bytes_nth, length_boot_sector by done. by rewrite decide_False by lia.
Qed.

Lemma with_entries_id : with_entries (tb_root_dir_entries b) = b.
Proof using Type. clear. unfold with_entries. by destruct b. Qed.

Lemma opened_bytes im : fresh_image im → bytes_ok (opened_image im).
Proof using Hgeom.
  intros Hf. destruct Hgeom. apply store_bytes_ok; [exact (fi_bytes _ Hf)|]. unfold boot_sector. repeat apply Forall_splice; try apply word_bytes_u8.
  - apply Forall_fmap, Forall_true. intros k. apply (fi_bytes _ Hf).
  - constructor; [unfold is_u8; lia|done].
Qed.

(** The table as it is read. *)
Lemma table_read im c :
  fresh_image im → 0 <= c < 128 * spf →
  words_of ((λ k, opened_image im !0 (u32 (tb_reserved_sectors b * 512) + k)) <$> seqZ 0 (table_sectors * 512)) !! Z.to_nat c
    = Some (image_entry im c).
Proof using Hgeom.
  intros Hf Hc. destruct (table_bounds im Hf) as [Hts H32]. pose proof (fi_reserved _ Hf) as Hres. rewrite u32_id by (unfold is_u32; lia).
  destruct Hgeom as [_ _ Hfc Hspf _ _ _ _].
  assert (∀ j, 0 <= j < 4 → ((λ k, opened_image im !0 (tb_reserved_sectors b * 512 + k)) <$> seqZ 0 (table_sectors * 512)) !! (4 * Z.to_nat c + Z.to_nat j)%nat
    = Some (im !0 (512 * tb_reserved_sectors b + 4 * c + j))) as Hb.
  { intros j Hj. rewrite list_lookup_fmap. rewrite lookup_seqZ_lt by (unfold table_sectors in *; nia). cbn [fmap option_fmap option_map].
    rewrite opened_byte by lia. do 2 f_equal. lia. }
  unfold image_entry. pose proof (Hb 0 ltac:(lia)) as B0. rewrite Z.add_0_r in B0.
  apply words_of_lookup; [by rewrite <- B0; f_equal; lia|apply (Hb 1); lia|apply (Hb 2); lia|apply (Hb 3); lia].
Qed.

Definition marked (F : Z → Z) : Z → Z := table_set (table_set (table_set F 0 FILE_END) 1 FILE_END) root FILE_END.

Lemma detect_repair_fs_wp im s (Q : unit → tool → Prop) :
  fresh_image im → image s = im → cluster_search_start s = 0 →
  (∀ s', tool_inv (marked (image_entry im)) s' → tbpb s' = b → image s' = opened_image im → Q tt s') →
  wp detect_repair_fs Q s.
Proof using Hgeom.
  intros Hf Him Hcs HQ. destruct (table_bounds im Hf) as [Hts H32]. pose proof Hf as [_ Hres _ Hboot Hroot Hentry _ _].
  pose proof (cluster_in_table root Hroot) as Hrt. pose proof (cluster_in_table 2) as H2t. pose proof Hgeom as [Hbps Hspc Hfc Hspf _ _ _ _].
  unfold detect_repair_fs, read_sector. wp. cbv [id]. rewrite Him. change (u32 (0 * 512)) with 0. change (1 * 512) with 512.
  change ((λ k, im !0 (0 + k)) <$> seqZ 0 512) with (sector_of im). rewrite Hboot.
  apply store_bpb_wp; [done|unfold is_u8; lia|]. unfold write_sector. wp. cbn [image set_image set_tbpb].
  change (u32 (0 * 512)) with 0. rewrite Him. fold (opened_image im).
  replace (spf * tb_fat_count b) with table_sectors by (unfold table_sectors; lia). fold table_sectors.
  rewrite (u32_id table_sectors) by (unfold is_u32; lia). rewrite Hbps, (u32_id (table_sectors * 512)) by (unfold is_u32; lia).
  set (sectors := _ <$> seqZ 0 (table_sectors * 512)). assert (Z.of_nat (length sectors) = table_sectors * 512) as Hl
    by (unfold sectors; rewrite length_fmap, length_seqZ; lia).
  rewrite Hl, Z.ltb_irrefl, Z.sub_diag. cbn [Z.to_nat replicate]. rewrite app_nil_r. wp.
  set (s1 := set_table _ _).
  assert (tool_inv (image_entry im) s1) as Hi1.
  { split; [symmetry; apply with_entries_id|done|unfold s1; cbn; lia| | |by apply opened_bytes].
    - unfold s1. cbn [file_table set_table]. rewrite (length_words_of _ (Z.to_nat (128 * table_sectors))); lia.
    - intros c Hc. by apply table_read. }
  apply (table_get_wp (image_entry im)); [done|done|]. rewrite Hentry. cbn [Z.eqb]. wp.
  apply (table_put_wp (image_entry im)); [done|lia|]. intros s2 Hi2 Him2 Hb2. wp.
  apply (table_put_wp (table_set (image_entry im) 0 FILE_END)); [done|lia|]. intros s3 Hi3 Him3 Hb3. wp.
  eapply table_put_wp; [exact Hi3|done|]. intros s4 Hi4 Him4 Hb4. apply HQ; [done|by rewrite Hb4, Hb3, Hb2|by rewrite Him4, Him3, Him2].
Qed.

Lemma chain_value_u32 F cs c : tool_chain F cs → c ∈ cs → is_u32 (F c).
Proof using Hgeom.
  intros Hch [i Hi]%list_elem_of_lookup. pose proof Hch as (Hn & _). specialize (Hn i c Hi). destruct (cs !! S i) as [d|] eqn:Hd; rewrite Hn.
  - pose proof (cluster_in_table d (chain_in F cs _ _ Hch Hd)). destruct Hgeom. unfold is_u32, table_sectors in *. nia.
  - done.
Qed.

(** The image with the table put back. *)
Definition closed_image (s : tool) : gmap Z Z := store_bytes (512 * tb_reserved_sectors b) (bytes_of (file_table s)) (image s).

Lemma length_table_bytes F s : tool_inv F s → 0 <= table_sectors → Z.of_nat (length (bytes_of (file_table s))) = 512 * table_sectors.
Proof using Type. intros Hi Hts. rewrite length_bytes_of. pose proof (ti_length _ _ Hi). lia. Qed.

Lemma fat_write_back_wp F s (Q : unit → tool → Prop) :
  tool_inv F s → 0 < tb_reserved_sectors b → 0 <= table_sectors → 512 * (tb_reserved_sectors b + table_sectors) < 2 ^ 32 →
  Q tt (set_image (closed_image s) s) → wp fat_write_back Q s.
Proof using Type.
  intros Hi Hres Hts H32 HQ. unfold fat_write_back, write_sector. wp. cbv [id]. rewrite (ti_bpb _ _ Hi). cbn [with_entries tb_sectors_per_fat tb_fat_count tb_reserved_sectors].
  replace (spf * tb_fat_count b) with table_sectors by (unfold table_sectors; lia). rewrite (u32_id table_sectors) by (unfold is_u32; lia).
  pose proof (length_table_bytes F s Hi Hts). apply bytes_at_wp; [lia|lia|lia|]. change (Z.to_nat 0) with 0%nat. rewrite drop_0, take_ge by lia. wp.
  rewrite u32_id by (unfold is_u32; lia). by replace (tb_reserved_sectors b * 512) with (512 * tb_reserved_sectors b) by lia.
Qed.

(** What the table on the image says then, and what is left alone. *)
Lemma closed_entry F s c : tool_inv F s → 0 < tb_reserved_sectors b → 0 <= c < 128 * spf → is_u32 (F c) → image_entry (closed_image s) c = F c.
Proof using Type.
  intros Hi Hres Hc Hu. unfold image_entry. set (p := 512 * tb_reserved_sectors b + 4 * c). pose proof (ti_table _ _ Hi c Hc) as Ht.
  assert (∀ j, 0 <= j < 4 → closed_image s !0 (p + j) = word_byte (F c) j) as Hb.
  { intros j Hj. unfold closed_image. rewrite store_bytes_nth. pose proof (bytes_of_lookup _ _ _ (Z.to_nat j) Ht ltac:(lia)) as Hl.
    pose proof (lookup_lt_Some _ _ _ Hl). rewrite decide_True by lia. apply nth_lookup_Some. rewrite Z2Nat.id in Hl by lia. rewrite <- Hl. f_equal. lia. }
  rewrite <- (Z.add_0_r p) at 1. rewrite !Hb by lia. by apply le32_word_byte.
Qed.
Lemma closed_byte F s k :
  tool_inv F s → 0 <= table_sectors → ¬ (512 * tb_reserved_sectors b <= k < 512 * (tb_reserved_sectors b + table_sectors)) → closed_image s !0 k = image s !0 k.
Proof using Type.
  intros Hi Hts Hk. unfold closed_image. rewrite store_bytes_nth, (length_table_bytes F) by done. by rewrite decide_False by lia.
Qed.
Lemma cluster_behind_table c k : 0 <= tb_partition_start b → 2 <= c → in_tool_cluster c k → 512 * (tb_reserved_sectors b + table_sectors) <= k.
Proof using Hgeom. destruct Hgeom. unfold in_tool_cluster, cluster_offset. nia. Qed.

(** The clusters are what they were. *)
Lemma holds_same F rc fs s s' :
  holds F rc fs s → tool_inv F s' → tb_root_dir_entries (tbpb s') = tb_root_dir_entries (tbpb s) →
  (∀ c k, 2 <= c < cluster_end → in_tool_cluster c k → image s' !0 k = image s !0 k) → holds F rc fs s'.
Proof using Type.
  intros Hh Hi' Hcnt Hsame. pose proof (root_in _ _ _ _ Hh) as Hr. destruct Hh as [Hi Hroot Hl Hfs Hap Hent Hc]. split; try done.
  - eapply Forall_impl; [exact Hfs|]. intros f Hf. apply (file_holds_same F s); [done|done|].
    intros c k [i Hi2]%list_elem_of_lookup Hk. apply (Hsame c); [|done]. by eapply chain_in; [apply Hf|].
  - intros k Hk. rewrite (Hsame root) by (done || unfold in_tool_cluster; lia). by apply Hent.
  - by rewrite Hcnt.
Qed.

(** The image at the end: the files are there, the table says where, and the sectors in
    front of the table are those of the opened image. *)
Record written_image (im : gmap Z Z) (xs : list input) (F : Z → Z) (rc : list Z) (fs : list tool_file) (s : tool) : Prop := {
  wi_holds : holds F rc fs s;
  wi_files : file_of <$> fs = xs;
  wi_table c : c ∈ rc ++ concat (tf_chain <$> fs) → image_entry (image s) c = F c;
  wi_front k : k < 512 * tb_reserved_sectors b → image s !0 k = opened_image im !0 k;
}.

Lemma holds_chains F rc fs s c : holds F rc fs s → c ∈ rc ++ concat (tf_chain <$> fs) → ∃ cs, c ∈ cs ∧ tool_chain F cs.
Proof using Type.
  intros [_ [Hch _] _ Hfs _ _ _] [Hc|Hc]%elem_of_app; [by exists rc|]. apply elem_of_concat in Hc as (l & Hc & (f & -> & Hf)%list_elem_of_fmap).
  rewrite Forall_forall in Hfs. exists (tf_chain f). split; [done|]. by apply Hfs.
Qed.

Lemma write_files_wp fopen names xs im n s (Q : Z → tool → Prop) :
  fresh_image im → image s = im → cluster_search_start s = 0 → Forall2 (input_ok fopen) names xs → 32 * Z.of_nat (length xs) < csz →
  room (image_entry im) n → needed xs + 1 <= n →
  (∀ F rc fs s', written_image im xs F rc fs s' → Q 0 s') → wp (write_files fopen names) Q s.
Proof using Hgeom.
  intros Hf Him Hcs Hin Hfit Hroom Hneed HQ. destruct (table_bounds im Hf) as [Hts H32]. pose proof Hf as [_ Hres Hhid _ Hroot _ Hempty Hcnt].
  unfold write_files. wp. apply (detect_repair_fs_wp im); [done..|]. intros s1 Hi1 Hb1 Him1. wp.
  assert (∀ c k, 2 <= c → in_tool_cluster c k → 512 <= k) as Hbehind by (intros c k Hc Hk; pose proof (cluster_behind_table c k Hhid Hc Hk); lia).
  apply (create_files_wp fopen names xs (marked (image_entry im)) [root] [] (n - 1)); [|done|simpl; lia| |lia|].
  - split; cbn [fmap list_fmap concat app length]; [done| |lia|by constructor|apply NoDup_singleton| |by rewrite Hb1].
    + split; [|done]. split_and!; [|apply NoDup_singleton|by constructor]. intros [|i] c Hc; [|done]. injection Hc as <-. cbn. unfold marked, table_set. by rewrite decide_True.
    + intros k Hk. rewrite Him1, opened_byte by (apply (Hbehind root); [lia|unfold in_tool_cluster; lia]). rewrite Hempty by done. by destruct (Z.to_nat k).
  - apply (room_use (image_entry im) _ n 1 [root]); [done| |done]. intros c Hc _ Hn. rewrite not_elem_of_cons in Hn. unfold marked, table_set.
    by rewrite !decide_False by (lia || intros ->; by apply Hn).
  - intros F rc fs s2 Hh Hfs Ho. cbn [negb app] in *. wp. pose proof (ho_inv _ _ _ _ Hh) as Hi2. apply (fat_write_back_wp F); [done..|]. wp.
    assert (tool_inv F (set_image (closed_image s2) s2)) as Hi3 by (destruct Hi2; split; try done; by apply store_bytes_ok, bytes_of_u8).
    apply (HQ F rc fs). split; [|done| |].
    + apply (holds_same F rc fs s2); [done|done|done|]. intros c k Hc Hk. apply (closed_byte F); [done|done|].
      pose proof (cluster_behind_table c k Hhid ltac:(lia) Hk). lia.
    + intros c Hc. destruct (holds_chains F rc fs s2 c Hh Hc) as (cs & Hin' & Hch). destruct (list_elem_of_lookup_1 _ _ Hin') as [i Hi'].
      apply closed_entry; [done|done|by eapply cluster_in_table, chain_in|by eapply chain_value_u32].
    + intros k Hk. cbn [image set_image]. rewrite (closed_byte F) by (done || lia). rewrite Ho, Him1; [done|]. intros c Hc Hin'.
      pose proof (cluster_behind_table c k Hhid ltac:(lia) Hin'). lia.
Qed.
End volume.

Lemma main_writes fopen argv l names out old xs b im b0 t z n :
  parse_args (tail argv) (Arguments_ false [] None) = Arguments_ l names (Some out) → fopen out = Some old →
  Z.of_nat (length names) <= 512 →
  tool_geom b → fresh_image b im → Forall2 (input_ok b fopen) names xs →
  32 * Z.of_nat (length xs) < 512 * tb_sectors_per_cluster b → room b (image_entry b im) n → needed b xs + 1 <= n →
  ∃ s', main fopen argv (Tool im b0 0 t z) = Ok (0, s') ∧ ∃ F rc fs, written_image b im xs F rc fs s'.
Proof.
  intros Hargs Hopen H512 Hgeom Hf Hin Hfit Hroom Hneed.
  assert (wp (main fopen argv) (λ r s', r = 0 ∧ ∃ F rc fs, written_image b im xs F rc fs s') (Tool im b0 0 t z)) as Hwp.
  - unfold main. rewrite Hargs. cbn [files output]. rewrite (proj2 (Z.ltb_ge _ _)) by done.
    rewrite bool_decide_eq_false_2 by (cbn; by rewrite Hopen).
    apply (write_files_wp b Hgeom fopen names xs im n); [done..|]. intros F rc fs s' Hw. split; [done|]. by exists F, rc, fs.
  - apply wp_ok in Hwp as (r & s' & Hrun & -> & Hw). by exists s'.
Qed.


(** ** Properties *)

(** C14: the tool writes files.  On an image with an empty root directory and room for the
    files, the program ends with status 0, and the image holds every file: an entry of the
    root with its name, size and first cluster, a chain of clusters in the table that is its
    own, and its bytes in the clusters of the chain. *)
Theorem diskwrite_writes_files fopen argv l names out old xs b im b0 t z n :
  parse_args (tail argv) (Arguments_ false [] None) = Arguments_ l names (Some out) → fopen out = Some old →
  Z.of_nat (length names) <= 512 →
  tool_geom b → fresh_image b im → Forall2 (input_ok b fopen) names xs →
  32 * Z.of_nat (length xs) < 512 * tb_sectors_per_cluster b → room b (image_entry b im) n → needed b xs + 1 <= n →
  ∃ s', main fopen argv (Tool im b0 0 t z) = Ok (0, s') ∧ ∃ F rc fs, written_image b im xs F rc fs s'.
Proof. apply main_writes. Qed.

(** ** An example *)

(** A volume of 16 sectors behind a table of 128. *)
Definition small_bpb : tool_bpb := ToolBpb 512 1 1 1 0 0 16 128 2.
Definition small_image : gmap Z Z :=
  store_bytes 11 ([0; 2; 1; 1; 0; 1] ++ replicate 15 0 ++ [16; 0; 0; 0; 128; 0; 0; 0] ++ replicate 4 0 ++ [2; 0; 0; 0] ++ replicate 18 0 ++ [0x29]) ∅.
Definition hello : input := Input (bytes_of_string "HELLO") (bytes_of_string "TXT") (bytes_of_string "Hello, world").
Definition small_open (name : string) : option (list Z) :=
  if bool_decide (name = "HELLO.TXT"%string) then Some (in_data hello) else if bool_decide (name = "disk"%string) then Some [] else None.

Lemma small_geom : tool_geom small_bpb.
Proof. split; by_computation. Qed.
Lemma small_zero k : 67 <= k → small_image !0 k = 0.
Proof. intros Hk. unfold small_image. rewrite store_bytes_nth, decide_False; [|vm_compute length; lia]. unfold zget. by rewrite lookup_empty. Qed.
Lemma small_entry c : 0 <= c → image_entry small_bpb small_image c = 0.
Proof. intros Hc. unfold image_entry. cbn [tb_reserved_sectors small_bpb]. by rewrite !small_zero by lia. Qed.
Lemma small_fresh : fresh_image small_bpb small_image.
Proof.
  split; [|by_computation|by_computation|vm_compute; reflexivity|by_computation|apply small_entry; by_computation| |reflexivity].
  - apply store_bytes_ok; [|by_computation]. intros k. unfold zget. rewrite lookup_empty. by_computation.
  - intros k Hk. apply small_zero. unfold cluster_offset, table_sectors. cbn. lia.
Qed.
Lemma small_room : room small_bpb (image_entry small_bpb small_image) 14.
Proof.
  exists (seqZ 2 14). split_and!; [apply NoDup_seqZ|by vm_compute|]. intros c Hc%elem_of_seqZ. split; [|apply small_entry; lia].
  change (cluster_end small_bpb) with 16. lia.
Qed.
Lemma small_input : Forall2 (input_ok small_bpb small_open) ["HELLO.TXT"%string] [hello].
Proof. constructor; [|constructor]. split_and!; [by_computation|by_computation|split; by_computation|by_computation|by_computation]. Qed.

Lemma diskwrite_writes_files_witness :
  ∃ s', main small_open ["diskwrite"; "HELLO.TXT"; "-o"; "disk"]%string (Tool small_image small_bpb 0 [] 0) = Ok (0, s') ∧
    ∃ F rc fs, written_image small_bpb small_image [hello] F rc fs s'.
Proof.
  apply (diskwrite_writes_files small_open _ false ["HELLO.TXT"%string] "disk" [] [hello] small_bpb small_image small_bpb [] 0 14);
    [reflexivity|by_computation|by_computation|exact small_geom|exact small_fresh|exact small_input|by_computation|exact small_room|by_computation].
Defined.
