(* ===== verification/DiskImage.v ===== *)
(** * Images of the tool under the driver (src/tools/diskwrite.c, src/src/kmodules/fs_driver.c)

    The tool and the driver share nothing but the format on the disk.  Here an image that
    the tool has written is the driver's device: the driver mounts it, finds every file by
    its name and reads its contents. *)
From stdpp Require Import strings.
From S2P Require Import Prelude Device KString Fat32 FatDir FatWrite FatPath RamFS Modules FatMount DiskWrite.

(** What the driver reads from the boot sector. *)
Definition driver_bpb (b : tool_bpb) : fat32_bpb :=
  BPB (tb_bytes_per_sector b) (tb_sectors_per_cluster b) (tb_reserved_sectors b) (tb_fat_count b) (tb_sectors_per_fat b)
    (tb_large_sector_count b) (DiskWrite.tb_root_dir_cluster b).

Section image.
Variable b : tool_bpb.
Notation spc := (tb_sectors_per_cluster b).
Notation csz := (512 * tb_sectors_per_cluster b).
Notation root := (DiskWrite.tb_root_dir_cluster b).

(** What the driver needs besides: no hidden sectors, clusters of 16 KiB at most, a power
    of two, a signature, and a device that holds all clusters.  [limit] entries of the
    tables are looked at, whole windows of the driver's cache. *)
Record driver_reads (im : gmap Z Z) (limit len : Z) : Prop := {
  kr_hidden : tb_partition_start b = 0;
  kr_cluster : ∃ n, 0 <= n <= 14 ∧ csz = 2 ^ n;
  kr_windows : 0 <= limit ∧ limit mod FAT_CACHE_SIZE_ENTRIES = 0;
  kr_limit : cluster_end b <= limit <= 128 * table_sectors b;
  kr_device : cluster_offset b (cluster_end b) <= len;
  kr_signature : im !0 66 ∈ [0x28; 0x29];
}.

Context (Hgeom : tool_geom b) (im : gmap Z Z) (Hfresh : fresh_image b im) (limit len : Z) (Hdrv : driver_reads im limit len).

(** ** The boot sector *)

Lemma boot_nth bs k :
  length bs = 512%nat →
  nth k (boot_sector b bs) 0 =
    if decide (44 <= Z.of_nat k < 48) then word_byte root (Z.of_nat k - 44)
    else if decide (14 <= Z.of_nat k < 16) then word_byte (tb_reserved_sectors b) (Z.of_nat k - 14)
    else if decide (k = 13%nat) then spc
    else if decide (11 <= Z.of_nat k < 13) then word_byte (tb_bytes_per_sector b) (Z.of_nat k - 11) else nth k bs 0.
Proof using Type.
  clear. intros Hl. unfold boot_sector.
  set (d1 := word_byte (tb_bytes_per_sector b) <$> [0; 1]). set (d3 := word_byte (tb_reserved_sectors b) <$> [0; 1]).
  pose proof (length_splice' 512 bs d1 11 Hl ltac:(lia) ltac:(simpl; lia)) as H1.
  pose proof (length_splice' 512 _ [spc] 13 H1 ltac:(lia) ltac:(simpl; lia)) as H2.
  pose proof (length_splice' 512 _ d3 14 H2 ltac:(lia) ltac:(simpl; lia)) as H3.
  rewrite (splice_nth _ _ 44), (splice_nth _ _ 14), (splice_nth _ _ 13), (splice_nth _ _ 11) by (lia || rewrite ?H1, ?H2, ?H3, ?Hl; simpl; lia).
  unfold d1, d3. cbn [length fmap list_fmap].
  destruct (decide (44 <= Z.of_nat k < 48)) as [Hk|Hk].
  { rewrite decide_True by lia. assert (k = 44 ∨ k = 45 ∨ k = 46 ∨ k = 47)%nat as [->|[->|[->| ->]]] by lia; done. }
  rewrite decide_False by lia. destruct (decide (14 <= Z.of_nat k < 16)) as [Hk14|Hk14].
  { rewrite decide_True by lia. assert (k = 14 ∨ k = 15)%nat as [->| ->] by lia; done. }
  rewrite decide_False by lia. destruct (decide (k = 13%nat)) as [->|Hk13]; [done|]. rewrite decide_False by lia.
  destruct (decide (11 <= Z.of_nat k < 13)) as [Hk11|Hk11]; [|by rewrite decide_False by lia].
  rewrite decide_True by lia. assert (k = 11 ∨ k = 12)%nat as [->| ->] by lia; done.
Qed.

Lemma opened_nth k : 0 <= k < 512 → opened_image b im !0 k = nth (Z.to_nat k) (boot_sector b (sector_of im)) 0.
Proof using Type.
  clear. intros Hk. unfold opened_image. rewrite store_bytes_nth, length_boot_sector by done. rewrite decide_True by lia. by rewrite Z.sub_0_r.
Qed.

Lemma sector_nth k : 0 <= k < 512 → nth (Z.to_nat k) (sector_of im) 0 = im !0 k.
Proof using Type. clear. intros Hk. unfold sector_of. apply nth_lookup_Some. by rewrite lookup_fmap_seqZ. Qed.

(** A byte of the sector that the tool has not changed. *)
Lemma opened_other k : 0 <= k < 512 → ¬ (11 <= k < 16) → ¬ (44 <= k < 48) → opened_image b im !0 k = im !0 k.
Proof using Type.
  clear. intros Hk H1 H2. rewrite opened_nth, boot_nth by done. rewrite !decide_False by lia. by apply sector_nth.
Qed.

Lemma field_byte (f : Z → Z) o : field f o 1 = f o.
Proof using Type. clear. cbn. lia. Qed.
Lemma field_word (f : Z → Z) o w : (∀ k, 0 <= k < 4 → f (o + k) = word_byte w k) → is_u32 w → field f o 4 = w.
Proof using Type.
  clear. intros Hf Hw. rewrite <- word_field. unfold word_at. rewrite <- (Z.add_0_r o) at 1. rewrite !Hf by lia. by apply le32_word_byte.
Qed.
Lemma field_half (f : Z → Z) o w : (∀ k, 0 <= k < 2 → f (o + k) = word_byte w k) → 0 <= w < 2 ^ 16 → field f o 2 = w.
Proof using Type.
  clear. intros Hf Hw. rewrite <- half_field. unfold half_at. rewrite <- (Z.add_0_r o) at 1. rewrite !Hf by lia. unfold le16, word_byte, u8.
  rewrite Z.shiftl_mul_pow2, !Z.shiftr_div_pow2 by lia. change (2 ^ (8 * 0)) with 1. change (2 ^ (8 * 1)) with 256. change (2 ^ 8) with 256.
  rewrite Z.div_1_r. pose proof (Z.div_mod w 256 ltac:(lia)). pose proof (Z.div_pos w 256 ltac:(lia) ltac:(lia)).
  assert (w / 256 < 256) by (apply Z.div_lt_upper_bound; lia). rewrite (Z.mod_small (w / 256)) by lia. lia.
Qed.

(** The numbers of [b] are those of the sector, after the repair. *)
Lemma sector_word (o : nat) : (o + 4 <= 512)%nat → word_of (sector_of im) o = field (λ k, im !0 k) (Z.of_nat o) 4.
Proof using Type.
  clear. intros Ho. rewrite <- word_field. unfold word_of, word_at.
  assert (∀ j, (j < 512)%nat → nth j (sector_of im) 0 = im !0 Z.of_nat j) as Hn by (intros j Hj; rewrite <- (sector_nth (Z.of_nat j)), Nat2Z.id by lia; done).
  rewrite !Hn by lia. by rewrite !Nat2Z.inj_add.
Qed.
Lemma boot_fields :
  0 <= tb_reserved_sectors b < 2 ^ 16 ∧ is_u32 root ∧ im !0 16 = tb_fat_count b ∧
  field (λ k, im !0 k) 32 4 = tb_large_sector_count b ∧ field (λ k, im !0 k) 36 4 = tb_sectors_per_fat b.
Proof using Hfresh.
  pose proof (fi_boot _ _ Hfresh) as Hb. pose proof (sector_word 32 ltac:(lia)) as H32. pose proof (sector_word 36 ltac:(lia)) as H36.
  change (Z.of_nat 32) with 32 in H32. change (Z.of_nat 36) with 36 in H36. rewrite <- H32, <- H36, <- (sector_nth 16) by lia. rewrite <- Hb.
  cbn [repair_bpb tool_bpb_at tb_reserved_sectors DiskWrite.tb_root_dir_cluster tb_fat_count tb_sectors_per_fat tb_large_sector_count].
  split_and!; [apply Z.mod_pos_bound; lia..|apply is_u32_u32|done|done|done].
Qed.

(** ** The volume *)

Context (xs : list input) (F : Z → Z) (rc : list Z) (fs : list tool_file) (s : tool) (Hw : written_image b im xs F rc fs s).
Definition image_device : device_file disk := DeviceFile (Disk len (image s)) 512.
Notation B := (driver_bpb b).

Lemma front_byte k : 0 <= k < 512 → image s !0 k = opened_image b im !0 k.
Proof using Hfresh Hw. intros Hk. apply Hw. pose proof (fi_reserved _ _ Hfresh). lia. Qed.

Lemma image_volume : fat_volume image_device 0 B limit.
Proof using All.
  destruct boot_fields as (Hres & Hr32 & Hfc & Hlarge & Hspf). pose proof (table_bounds b Hgeom im Hfresh) as [Hts H32].
  pose proof (fi_root _ _ Hfresh) as Hroot. pose proof Hgeom as [Hbps Hspc _ _ _ _ _ _]. pose proof Hdrv as [Hhid (n & Hn & Hcs) Hwin Hlim Hdev Hsig].
  assert (∀ k, 0 <= k < 512 → ¬ (11 <= k < 16) → ¬ (44 <= k < 48) → image s !0 k = im !0 k) as Hother
    by (intros k Hk H1 H2; by rewrite front_byte, opened_other).
  assert (512 * (tb_reserved_sectors b + table_sectors b) <= len) as Hlen by (unfold cluster_offset in Hdev; nia).
  split; cbn [image_device df_dev df_block_size dev_ok dev_size disk_dev disk_bytes disk_size dev_byte driver_bpb bytes_per_sector
    sectors_per_cluster reserved_sectors fat_count sector_count sectors_per_fat Fat32.root_dir_cluster].
  - apply (ti_bytes _ _ _ (ho_inv _ _ _ _ _ (wi_holds _ _ _ _ _ _ _ Hw))).
  - pose proof (fi_reserved _ _ Hfresh). lia.
  - cbv zeta. rewrite !field_byte, !front_byte by lia. change (0 + 16) with 16. change (0 + 13) with 13. rewrite (opened_other 16), Hfc by lia.
    assert (∀ o, 16 <= o → o + 4 <= 44 → field (λ k, image s !0 (0 + k)) o 4 = field (λ k, im !0 k) o 4) as Hsame
      by (intros o H1 H2; apply field_ext; intros k Hk; apply Hother; lia).
    rewrite (Hsame 32), (Hsame 36), Hlarge, Hspf by lia.
    split_and!; try done.
    + apply field_half; [|lia]. intros k Hk. rewrite front_byte, opened_nth, boot_nth by done || lia. rewrite Z2Nat.id by lia.
      rewrite !decide_False by lia. rewrite decide_True by lia. f_equal. lia.
    + rewrite opened_nth, boot_nth by done || lia. done.
    + apply field_half; [|lia]. intros k Hk. rewrite front_byte, opened_nth, boot_nth by done || lia. rewrite Z2Nat.id by lia.
      rewrite decide_False by lia. rewrite decide_True by lia. f_equal. lia.
    + apply field_word; [|done]. intros k Hk. rewrite front_byte, opened_nth, boot_nth by done || lia. rewrite Z2Nat.id by lia.
      rewrite decide_True by lia. f_equal. lia.
  - rewrite field_byte, Hother by lia. exact Hsig.
  - done.
  - exists n. rewrite Hbps. split; [lia|done].
  - done.
  - rewrite Hbps. fold (table_sectors b). lia.
  - rewrite Hbps. fold (table_sectors b). lia.
Qed.

(** ** Chains *)

Variable start : Z.
Definition image_mount : fat_mount disk := set_search start (new_mount image_device B).
Definition image_table : Z → Z := table_at image_device 0 B.

Lemma mount_ok : fat_repr limit image_table image_mount ∧ data_geom limit image_mount.
Proof using All. apply (new_mount_ok image_device B limit start image_volume). Qed.

Lemma image_table_entry c : image_table c = image_entry b (image s) c.
Proof using Hgeom. unfold image_table, table_at, dev_word, image_entry. cbn. by rewrite (tg_bytes _ Hgeom), (Z.mul_comm (tb_reserved_sectors b)). Qed.
Lemma table_used c : c ∈ rc ++ concat (tf_chain <$> fs) → image_table c = F c.
Proof using Hgeom Hw. intros Hc. rewrite image_table_entry. by apply Hw. Qed.

Lemma mount_csz : cluster_size_bytes image_mount = csz.
Proof using Hgeom. unfold cluster_size_bytes. cbn. by rewrite (tg_bytes _ Hgeom). Qed.
Lemma mount_base : data_base image_mount = 512 * (tb_reserved_sectors b + table_sectors b).
Proof using Hgeom Hfresh.
  destruct (table_bounds b Hgeom im Hfresh) as [Hts H32]. pose proof (fi_reserved _ _ Hfresh). unfold data_base. cbn. fold (table_sectors b).
  rewrite (tg_bytes _ Hgeom), (u32_id (table_sectors b)), u32_id by (unfold is_u32; lia). lia.
Qed.
Lemma image_offset c : data_base image_mount + (c - 2) * csz = cluster_offset b c.
Proof using All. rewrite mount_base. unfold cluster_offset. rewrite (kr_hidden _ _ _ Hdrv). lia. Qed.

Lemma mount_cluster c : 2 <= c < cluster_end b → cluster_ok limit image_mount c ∧ data_base image_mount + (c - 1) * csz <= 2 ^ 32.
Proof using All.
  intros Hc. pose proof Hgeom as [_ Hspc _ _ _ _ _ Hend]. pose proof Hdrv as [_ _ _ Hlim Hdev _].
  assert (data_base image_mount + (c - 1) * csz <= cluster_offset b (cluster_end b)) as Hle.
  { replace (c - 1) with ((c + 1) - 2) by lia. rewrite image_offset. unfold cluster_offset. nia. }
  assert (0 <= data_base image_mount) as Hb.
  { rewrite mount_base. destruct (table_bounds b Hgeom im Hfresh). pose proof (fi_reserved _ _ Hfresh). lia. }
  split; [|lia]. split; rewrite ?mount_csz; [lia| |nia|cbn; lia]. unfold FAT32_EOC_MIN. nia.
Qed.

(** A chain of the tool is one for the driver. *)
Lemma driver_chain cs : tool_chain b F cs → (∀ c, c ∈ cs → image_table c = F c) → file_chain limit image_mount image_table cs.
Proof using All.
  intros (Hn & Hnd & Hok) Ht. split; [|done|].
  - intros i c Hc. specialize (Hn i c Hc). rewrite Ht by (by eapply list_elem_of_lookup_2). destruct (cs !! S i); [done|]. rewrite Hn. unfold FAT32_EOC_MIN, FILE_END. lia.
  - eapply Forall_impl; [exact Hok|]. intros c Hc. by apply mount_cluster.
Qed.
Lemma driver_nth cs c j d : tool_chain b F cs → (∀ c, c ∈ cs → image_table c = F c) → cs !! 0%nat = Some c → cs !! j = Some d → nth_cluster image_table c j = d.
Proof using Type.
  intros (Hn & _) Ht H0. revert d. induction j as [|j IH]; intros d Hd; cbn [nth_cluster]; [congruence|].
  destruct (lookup_lt_is_Some_2 cs j) as [e He]; [apply lookup_lt_Some in Hd; lia|]. rewrite (IH e He).
  rewrite Ht by (by eapply list_elem_of_lookup_2). specialize (Hn j e He). by rewrite Hd in Hn.
Qed.

(** ** The root directory *)

(** A name that the driver can find: with an extension, and no blank in front of the dot. *)
Definition findable (x : input) : Prop :=
  (0 < length (in_ext x))%nat ∧ (length (in_base x) = 1%nat ∨ last (in_base x) ≠ Some 32).
Definition in_name (x : input) : list Z := in_base x ++ 46 :: in_ext x.
Definition item_of (f : tool_file) : item := Short 0 (tf_base f) (tf_ext f).

Context (Hfind : Forall findable xs) (Hsizes : Forall (λ x, input_size x + csz < 2 ^ 32) xs) (Hfit : 32 * Z.of_nat (length xs) < csz).
Notation holds_files := (wi_holds _ _ _ _ _ _ _ Hw).

Lemma length_files : length fs = length xs.
Proof using Hw. rewrite <- (wi_files _ _ _ _ _ _ _ Hw). by rewrite length_fmap. Qed.
Lemma file_item_ok f : f ∈ fs → item_ok (item_of f).
Proof using Hw Hfind.
  intros Hf. pose proof (ho_files _ _ _ _ _ holds_files) as Hfs. rewrite Forall_forall in Hfs. destruct (fh_name _ _ _ _ (Hfs f Hf)) as [Hc _ Hb He].
  assert (file_of f ∈ xs) as Hx by (rewrite <- (wi_files _ _ _ _ _ _ _ Hw); by apply list_elem_of_fmap_2).
  rewrite Forall_forall in Hfind. destruct (Hfind _ Hx) as [He0 Hl]. cbn in He0, Hl. cbn [item_ok item_of].
  split_and!; [exact Hc|lia|lia|done|lia|lia|by right].
Qed.

Lemma root_byte k : 0 <= k < csz → dir_bytes image_mount rc k = nth (Z.to_nat k) (concat (tf_entry <$> fs)) 0.
Proof using All.
  intros Hk. destruct (ho_root _ _ _ _ _ holds_files) as [_ H0]. rewrite <- (ho_entries _ _ _ _ _ holds_files) by done.
  unfold dir_bytes, loc. rewrite mount_csz, Z.div_small, Z.mod_small by lia. change (Z.to_nat 0) with 0%nat. rewrite H0. cbn [default from_option id].
  rewrite image_offset. done.
Qed.

(** The entries of files, one after the other. *)
Lemma entry_nth f k : name_ok (tf_base f) (tf_ext f) → (k < 11)%nat → nth k (tf_entry f) 0 = nth k (short_field 0 (tf_base f) (tf_ext f)) 0.
Proof using Type.
  clear. intros [_ _ Hb He] Hk. unfold tf_entry, tool_entry, short_field. rewrite <- !app_assoc. rewrite !app_assoc.
  rewrite <- !(app_assoc (((tf_base f ++ _) ++ tf_ext f) ++ _)). rewrite app_nth1; [done|]. rewrite !length_app, !length_replicate. lia.
Qed.
Lemma entry_tail f j : name_ok (tf_base f) (tf_ext f) → let first := nth 0 (tf_chain f) 0 in
  nth (11 + j) (tf_entry f) 0 = nth j (replicate 9 0 ++ (word_byte first <$> [2; 3]) ++ replicate 4 0 ++ (word_byte first <$> [0; 1]) ++ (word_byte (tf_size f) <$> [0; 1; 2; 3])) 0.
Proof using Type.
  clear. intros [_ _ Hb He]. unfold tf_entry, tool_entry. rewrite app_nth2, app_nth2 by (rewrite ?length_app, ?length_replicate; lia).
  f_equal. rewrite !length_app, !length_replicate. lia.
Qed.
Lemma items_there l i :
  0 <= i → Forall item_ok (item_of <$> l) → Forall (λ f, name_ok (tf_base f) (tf_ext f)) l →
  (∀ k, 0 <= k < 32 * (Z.of_nat (length l) + 1) → dir_bytes image_mount rc (32 * i + k) = nth (Z.to_nat k) (concat (tf_entry <$> l)) 0) →
  items_at (dir_bytes image_mount rc) i (item_of <$> l).
Proof using Type.
  clear Hfit Hsizes Hfind Hw Hdrv Hfresh Hgeom. revert i. induction l as [|f l IH]; intros i Hi Hok Hn Hb.
  - cbn [fmap list_fmap items_at]. rewrite <- (Z.add_0_r (32 * i)), Hb by (simpl; lia). done.
  - cbn [fmap list_fmap items_at] in *. apply Forall_cons_1 in Hok as [Hok Hoks]. apply Forall_cons_1 in Hn as [Hnf Hns]. cbn [length concat] in Hb.
    pose proof (length_tool_entry _ _ (tf_size f) (nth 0 (tf_chain f) 0) Hnf) as Hl. fold (tf_entry f) in Hl.
    assert (∀ k, 0 <= k < 32 → dir_bytes image_mount rc (32 * i + k) = nth (Z.to_nat k) (tf_entry f) 0) as Hf.
    { intros k Hk. rewrite Hb by lia. rewrite app_nth1 by lia. done. }
    split_and!; [done| |].
    + cbn [item_at item_of]. split.
      * intros k x Hx. pose proof (lookup_lt_Some _ _ _ Hx) as Hkl. destruct Hnf as [Hc Hd Hbl He]. unfold short_field in Hkl. rewrite !length_app, !length_replicate in Hkl.
        rewrite Hf by lia. rewrite Nat2Z.id, entry_nth by (done || lia). by apply nth_lookup_Some.
      * unfold d_flags. rewrite Hf by lia. change (Z.to_nat 11) with (11 + 0)%nat. by rewrite entry_tail.
    + cbn [item_of item_entry]. replace (i + 0 + 1) with (i + 1) by lia. apply IH; [lia|done|done|]. intros k Hk.
      replace (32 * (i + 1) + k) with (32 * i + (32 + k)) by lia. rewrite Hb by lia. rewrite app_nth2 by lia. f_equal. lia.
Qed.

(** The number of the entry with a name. *)
Lemma find_nth l i j x :
  NoDup (in_name <$> (file_of <$> l)) → file_of <$> l !! i = Some x → find_item (in_name x) j (item_of <$> l) = Some (j + Z.of_nat i).
Proof using Type.
  clear. revert i j. induction l as [|f l IH]; intros i j Hnd Hx; [done|]. cbn [fmap list_fmap] in Hnd. apply NoDup_cons in Hnd as [Hnin Hnd].
  cbn [fmap list_fmap find_item]. change (item_name (item_of f)) with (in_name (file_of f)). change (item_entry (item_of f)) with 0.
  destruct i as [|i].
  - injection Hx as <-. rewrite decide_True by done. f_equal; lia.
  - change ((f :: l) !! S i) with (l !! i) in Hx. rewrite decide_False.
    + rewrite (IH i) by done. f_equal; lia.
    + intros He. apply Hnin. rewrite <- He. apply list_elem_of_fmap_2. destruct (l !! i) as [g|] eqn:Hg; [|done]. injection Hx as <-.
      apply list_elem_of_fmap_2. by eapply list_elem_of_lookup_2.
Qed.

(** What the driver reads from an entry. *)
Lemma dirent_of f (g : Z → Z) p :
  name_ok (tf_base f) (tf_ext f) → is_u32 (nth 0 (tf_chain f) 0) → is_u32 (tf_size f) →
  (∀ k, 0 <= k < 32 → g (p + k) = nth (Z.to_nat k) (tf_entry f) 0) →
  de_cluster (dirent_at g p) = nth 0 (tf_chain f) 0 ∧ de_size (dirent_at g p) = tf_size f.
Proof using Type.
  clear. intros Hn Hc Hs Hg. split.
  - rewrite <- (start_cluster_entry (tf_base f) (tf_ext f) (tf_size f) (nth 0 (tf_chain f) 0)) by done. fold (tf_entry f).
    unfold de_cluster, start_cluster, half_of. cbn [dirent_at de_cluster_high de_cluster_low]. unfold d_cluster_high, d_cluster_low.
    rewrite <- !Z.add_assoc, !Hg by lia. by rewrite Z.lor_comm.
  - cbn [dirent_at de_size]. unfold d_size. rewrite <- !Z.add_assoc, !Hg by lia.
    change (Z.to_nat 28) with (11 + 17)%nat. change (Z.to_nat (28 + 1)) with (11 + 18)%nat. change (Z.to_nat (28 + 2)) with (11 + 19)%nat.
    change (Z.to_nat (28 + 3)) with (11 + 20)%nat. rewrite !entry_tail by done. by apply le32_word_byte.
Qed.

Lemma image_root_view : dir_view limit image_mount image_table no_dirent rc (item_of <$> fs).
Proof using All.
  pose proof (wi_holds _ _ _ _ _ _ _ Hw) as Hh. destruct (ho_root _ _ _ _ _ Hh) as [Hch H0]. pose proof (ho_short _ _ _ _ _ Hh) as Hshort.
  pose proof Hdrv as [_ (n & Hn & Hcs) _ _ _ _]. pose proof Hgeom as [_ Hspc _ _ _ _ _ _].
  assert (csz <= 2 ^ 14) as Hc14 by (rewrite Hcs; apply Z.pow_le_mono_r; lia). pose proof (lookup_lt_Some _ _ _ H0) as Hl0.
  assert (dir_length image_mount rc = Z.of_nat (length rc) * csz) as Hdl by (unfold dir_length; by rewrite mount_csz).
  split.
  - change (dir_cluster image_mount no_dirent) with root. split.
    + apply driver_chain; [done|]. intros c Hc. apply table_used, elem_of_app. by left.
    + done.
    + apply Forall_forall. intros c Hc. rewrite mount_csz. apply mount_cluster. destruct (list_elem_of_lookup_1 _ _ Hc) as [i Hi]. by eapply chain_in.
    + rewrite mount_csz. nia.
  - apply items_there; [lia| | |].
    + apply Forall_fmap, Forall_forall. intros f. apply file_item_ok.
    + eapply Forall_impl; [apply (ho_files _ _ _ _ _ Hh)|]. intros f Hf. apply Hf.
    + intros k Hk. rewrite Z.mul_0_r, Z.add_0_l. apply root_byte. rewrite length_files in Hk. lia.
  - rewrite Hdl. assert (slots (item_of <$> fs) = Z.of_nat (length fs)) as ->.
    { clear. induction fs as [|f l IH]; [done|]. cbn [fmap list_fmap slots foldr item_entry item_of] in *. unfold slots in IH. cbn [length]. lia. }
    rewrite length_files. unfold PAGE_SIZE_BYTES. nia.
Qed.

Lemma file_first f : file_holds b F s f → ∃ c, tf_chain f !! 0%nat = Some c ∧ 2 <= c < cluster_end b.
Proof using Hgeom.
  clear Hfit Hsizes. intros Hf. pose proof (fh_length _ _ _ _ Hf) as Hl. pose proof (clusters_nonneg b Hgeom (tf_size f) ltac:(unfold tf_size; lia)).
  destruct (lookup_lt_is_Some_2 (tf_chain f) 0) as [c Hc]; [lia|]. exists c. split; [done|]. eapply chain_in; [apply Hf|done].
Qed.
Lemma chain_there i f c : fs !! i = Some f → c ∈ tf_chain f → image_table c = F c.
Proof using Hgeom Hw.
  intros Hf Hc. apply table_used, elem_of_app. right. apply elem_of_concat. exists (tf_chain f). split; [done|].
  apply list_elem_of_fmap_2. by eapply list_elem_of_lookup_2.
Qed.

(** The entry of a file, as the driver finds and reads it. *)
Lemma file_entry i f :
  fs !! i = Some f →
  let d := dirent_at (dir_bytes image_mount rc) (32 * Z.of_nat i) in
  de_cluster d = nth 0 (tf_chain f) 0 ∧ de_size d = tf_size f.
Proof using All.
  intros Hf d. pose proof (wi_holds _ _ _ _ _ _ _ Hw) as Hh. pose proof (ho_files _ _ _ _ _ Hh) as Hfs.
  assert (file_holds b F s f) as Hfh by (rewrite Forall_lookup in Hfs; by eapply Hfs). pose proof (fh_length _ _ _ _ Hfh) as Hl.
  pose proof (lookup_lt_Some _ _ _ Hf) as Hi. pose proof length_files as Hlf.
  assert (Forall (λ e, length e = 32%nat) (tf_entry <$> fs)) as Hes by (apply Forall_fmap; eapply Forall_impl; [exact Hfs|]; intros g Hg; apply length_tool_entry, Hg).
  apply dirent_of; [apply Hfh| | |].
  - destruct (file_first f Hfh) as (c & H0 & Hc). rewrite (nth_lookup_Some _ _ _ _ H0). pose proof (tg_end _ Hgeom). pose proof (tg_spc _ Hgeom). pose proof (tg_table32 _ Hgeom).
    pose proof (cluster_in_table b Hgeom c Hc). pose proof (tg_tables _ Hgeom). unfold is_u32, table_sectors in *. nia.
  - assert (file_of f ∈ xs) as Hx by (rewrite <- (wi_files _ _ _ _ _ _ _ Hw); apply list_elem_of_fmap_2; by eapply list_elem_of_lookup_2).
    rewrite Forall_forall in Hsizes. specialize (Hsizes _ Hx). pose proof (tg_spc _ Hgeom). unfold input_size in Hsizes. cbn in Hsizes. unfold is_u32, tf_size. lia.
  - intros k Hk. rewrite root_byte by lia. rewrite !nth_lookup. f_equal. rewrite <- (app_nil_r (concat _)).
    replace (Z.to_nat (32 * Z.of_nat i + k)) with (32 * i + Z.to_nat k)%nat by lia.
    rewrite nth_concat_entry by (done || rewrite ?length_fmap; lia). f_equal. apply nth_lookup_Some. by rewrite list_lookup_fmap, Hf.
Qed.

(** The bytes of a file, through its chain. *)
Lemma file_bytes i f k :
  fs !! i = Some f → 0 <= k < file_clusters b (tf_size f) * csz →
  file_byte image_mount image_table (nth 0 (tf_chain f) 0) k = nth (Z.to_nat k) (tf_data f) 0.
Proof using All.
  intros Hf Hk. pose proof (wi_holds _ _ _ _ _ _ _ Hw) as Hh. pose proof (ho_files _ _ _ _ _ Hh) as Hfs.
  assert (file_holds b F s f) as Hfh by (rewrite Forall_lookup in Hfs; by eapply Hfs). destruct (file_first f Hfh) as (c & H0 & Hc).
  rewrite (nth_lookup_Some _ _ _ _ H0). pose proof (tg_spc _ Hgeom). pose proof (fh_length _ _ _ _ Hfh) as Hl.
  pose proof (Z.div_pos k csz ltac:(lia) ltac:(lia)) as Hj. assert (k / csz < file_clusters b (tf_size f)) as Hj2 by (apply Z.div_lt_upper_bound; lia).
  destruct (lookup_lt_is_Some_2 (tf_chain f) (Z.to_nat (k / csz))) as [e He]; [lia|].
  unfold file_byte. rewrite mount_csz. rewrite (driver_nth (tf_chain f) c _ e); [|apply Hfh|by intros; apply (chain_there i f)|done|done].
  rewrite image_offset. pose proof (Z.mod_pos_bound k csz ltac:(lia)). change (image s !0 (cluster_offset b e + k mod csz) = nth (Z.to_nat k) (tf_data f) 0).
  rewrite (fh_bytes _ _ _ _ Hfh (k / csz) e) by (done || lia). f_equal. rewrite (Z.div_mod k csz) at 3 by lia. lia.
Qed.
Lemma file_covers i f n :
  fs !! i = Some f → n <= file_clusters b (tf_size f) * csz → chain_covers limit image_mount image_table (nth 0 (tf_chain f) 0) n.
Proof using All.
  intros Hf Hn j Hj. pose proof (wi_holds _ _ _ _ _ _ _ Hw) as Hh. pose proof (ho_files _ _ _ _ _ Hh) as Hfs.
  assert (file_holds b F s f) as Hfh by (rewrite Forall_lookup in Hfs; by eapply Hfs). destruct (file_first f Hfh) as (c & H0 & Hc).
  rewrite (nth_lookup_Some _ _ _ _ H0). pose proof (tg_spc _ Hgeom). pose proof (fh_length _ _ _ _ Hfh) as Hl. rewrite mount_csz in Hj.
  destruct (lookup_lt_is_Some_2 (tf_chain f) j) as [e He]; [nia|].
  rewrite (driver_nth (tf_chain f) c _ e); [|apply Hfh|by intros; apply (chain_there i f)|done|done].
  apply mount_cluster. eapply chain_in; [apply Hfh|done].
Qed.
End image.

(** ** Properties *)

(** C13: from the tool to the driver.  The files that [diskwrite] has written into an
    image are there for the kernel: mounted from it, [fat32_open] finds each of them by its
    name, with its size, and [fat32_read] delivers its contents, with zeros up to the end
    of its last cluster. *)
Theorem image_file_reads fopen argv l names out old xs b im b0 t z n limit len start fresh b_path b_tokens b_file b_dir filename :
  parse_args (tail argv) (Arguments_ false [] None) = Arguments_ l names (Some out) → fopen out = Some old →
  Z.of_nat (length names) <= 512 →
  tool_geom b → fresh_image b im → Forall2 (input_ok b fopen) names xs →
  let csz := 512 * tb_sectors_per_cluster b in
  32 * Z.of_nat (length xs) < csz → room b (image_entry b im) n → needed b xs + 1 <= n →
  driver_reads b im limit len → Forall findable xs → NoDup (in_name <$> xs) →
  path_layout b_path b_tokens b_dir filename → 0 < b_file < 2 ^ 32 →
  ∃ s', main fopen argv (Tool im b0 0 t z) = Ok (0, s') ∧
    let d := DeviceFile (Disk len (image s')) 512 in
    fat_volume d 0 (driver_bpb b) limit ∧
    ∀ x fuel path slash pflags buf offset count v,
      x ∈ xs → vol_mount (dr_vol v) = set_search start (new_mount d (driver_bpb b)) →
      path_at b_path b_file b_dir filename (vol_mem (dr_vol v)) path slash [in_name x] → list_ok b_path b_file b_dir filename v →
      0 <= offset → offset mod csz = 0 → 0 < count → offset + count <= file_clusters b (input_size x) * csz → offset + count < 2 ^ 31 →
      ∃ f buf' v', open_read fresh b_path b_tokens b_file b_dir filename (S fuel) path pflags buf offset count v = Ok (Some (f, count, buf'), v') ∧
        fv_size f = input_size x ∧
        ∀ k, buf' !0 k = if decide (0 <= k < count) then nth (Z.to_nat (offset + k)) (in_data x) 0 else buf !0 k.
Proof.
  intros Hargs Hopen H512 Hgeom Hf Hin csz Hfit Hroom Hneed Hdrv Hfind Hnd Hlay Hbf.
  destruct (main_writes fopen argv l names out old xs b im b0 t z n) as (s' & Hrun & F & rc & fs & Hw); [done..|]. exists s'. split; [done|].
  assert (Forall (λ x, input_size x + 512 * tb_sectors_per_cluster b < 2 ^ 32) xs) as Hsizes
    by (clear -Hin; induction Hin as [|name x names xs (_ & _ & _ & H & _) _ IH]; by constructor).
  split; [by eapply image_volume|]. intros x fuel path slash pflags buf offset count v Hx Hm Hpath Hlist Ho Hal Hc Hcov H31.
  destruct (list_elem_of_lookup_1 _ _ Hx) as [i Hi]. pose proof Hi as Hi'. rewrite <- (wi_files _ _ _ _ _ _ _ Hw) in Hi'. rewrite list_lookup_fmap in Hi'.
  destruct (fs !! i) as [f|] eqn:Hfi; [|done]. injection Hi' as <-.
  destruct (mount_ok b Hgeom im Hf limit len Hdrv xs F rc fs s' Hw start) as [Hrep Hg].
  destruct (file_entry b Hgeom im Hf limit len Hdrv xs F rc fs s' Hw start Hfind Hsizes Hfit i f Hfi) as [Hcl Hsz].
  destruct (fat32_open_reads limit fresh b_path b_tokens b_file b_dir filename (image_mount b len s' start) (image_table b len s')
    fuel path slash [in_name (file_of f)] no_dirent (dirent_at (dir_bytes (image_mount b len s' start) rc) (32 * Z.of_nat i)) (Z.of_nat i) pflags buf offset count v)
    as (vf & buf' & v' & Hread & _ & Hvs & _ & _ & _ & Hbuf); try done.
  - change (vol_mount (dr_vol v) = image_mount b len s' start) in Hm. unfold vol_ok. rewrite Hm. split; [done|apply same_mount_refl].
  - eapply walk_last; [by eapply image_root_view|]. rewrite (find_nth _ i); [done| |by rewrite Hfi]. by rewrite (wi_files _ _ _ _ _ _ _ Hw).
  - by rewrite mount_csz.
  - rewrite Hcl. by eapply file_covers.
  - exists vf, buf', v'. split_and!; [done|by rewrite Hvs, Hsz|]. intros k. rewrite Hbuf. case_decide; [|done]. rewrite Hcl.
    eapply file_bytes; [done..|]. split; [lia|]. unfold csz in *. cbn [file_of] in Hcov. change (input_size (file_of f)) with (tf_size f) in Hcov. lia.
Qed.

Lemma image_file_reads_witness :
  ∃ s', main small_open ["diskwrite"; "HELLO.TXT"; "-o"; "disk"]%string (Tool small_image small_bpb 0 [] 0) = Ok (0, s') ∧
    let m := set_search 0 (new_mount (DeviceFile (Disk 73728 (image s')) 512) (driver_bpb small_bpb)) in
    ∃ f buf' v', open_read [] 0x10000 0x11000 0x40000 dir_buffer 0x30000 1 0x1000 0x10 ∅ 0 12
        (Driver (Volume m (vol_mem (dr_vol (path_of [in_name hello])))) 0x50000 4 0) = Ok (Some (f, 12, buf'), v') ∧
      fv_size f = 12 ∧ ∀ k, 0 <= k < 12 → buf' !0 k = nth (Z.to_nat k) (bytes_of_string "Hello, world") 0.
Proof.
  destruct (image_file_reads small_open ["diskwrite"; "HELLO.TXT"; "-o"; "disk"]%string false ["HELLO.TXT"%string] "disk" [] [hello] small_bpb small_image
    small_bpb [] 0 14 16384 73728 0 [] 0x10000 0x11000 0x40000 dir_buffer 0x30000) as (s' & Hrun & _ & Hread);
    [reflexivity|by_computation|by_computation|exact small_geom|exact small_fresh|exact small_input|by_computation|exact small_room|by_computation
    |split; [by_computation|exists 9; split; by_computation|by_computation|by_computation|by_computation|by_computation]
    |constructor; [split; [by_computation|right; by_computation]|constructor]|by_computation|exact example_layout|lia|].
  exists s'. split; [exact Hrun|]. intros m.
  destruct (Hread hello 0%nat 0x1000 true 0x10 ∅ 0 12 (Driver (Volume m (vol_mem (dr_vol (path_of [in_name hello])))) 0x50000 4 0)) as (f & buf' & v' & Hok & Hsz & Hbuf);
    [by left|reflexivity|apply path_at_example; by_computation|destruct (list_ok_example [in_name hello]) as [Hl1 Hl2]; [by_computation|split; [exact Hl1|exact Hl2]]|lia|by_computation|lia|by_computation|lia|].
  exists f, buf', v'. split_and!; [exact Hok|exact Hsz|]. intros k Hk. rewrite Hbuf, decide_True by lia. reflexivity.
Defined.
